(* ===== verification/_CoqProject ===== *)
-Q . S2P
KPrelude.v
MemHelpers.v
Spinlock.v
FrameAlloc.v
Paging.v
PagingProofs.v
VAlloc.v
Bytes.v
Acpi.v
PortIO.v
Pci.v
PciProofs.v
PciNames.v
Ata.v
AtaProofs.v
VMem.v
VaAlloc.v
VaProofs.v
Cpu.v
Apic.v
Timers.v
TimersProofs.v
Dma.v
DmaProofs.v
DmaRoundtrip.v
Vga.v
VgaProofs.v
VgaText.v
KBits.v
KBitsProofs.v
Kmalloc.v
KHeap.v
KHeapSteps.v
KHeapOps.v
KHeapProofs.v
KHeapTheorems.v
UsbTypes.v
Xhci.v
XhciDevices.v
XhciRings.v
XhciEvents.v
XhciWait.v
XhciTransfers.v
XhciPorts.v
UsbDesc.v
UsbDescProofs.v
Usb.v
UsbProofs.v
XhciHost.v
UsbDriver.v
UsbWorld.v
UsbMemory.v
UsbQueue.v
UsbStates.v
UsbKeep.v
Uhci.v
UhciRequests.v
UhciSchedule.v
UhciSafe.v
UhciLaws.v
UhciChain.v
UhciQueue.v
Ehci.v
EhciRequests.v
EhciSafe.v
EhciLaws.v
EhciChain.v
EhciQueue.v
AcpiPm.v
Ps2.v
Ps2Proofs.v
Ps2Init.v
BootMem.v
Boot4Map.v
Boot4.v
Boot4Load.v
Boot4Place.v
EfiLoader.v
EfiLoad.v
EfiBoot.v
