(* ===== verification/KPrelude.v ===== *)
(** * 64-dem: a verification development

    64-dem is an operating-system kernel for x86-64 in C, C++ and assembly, with a BIOS and an
    EFI boot loader. This library models the core of the kernel ([src/boot/kernel]): the stack of
    memory allocators, the tables of the processor, firmware tables and power management, PCI, disks,
    timers, the keyboard, the console, and the enumeration of USB devices with the xHCI, EHCI and UHCI
    controllers; and the boot loaders in C, the last stage of the BIOS one ([src/boot/bios/stage4])
    and the EFI one ([src/EFI]). Paths below are relative to [src/boot/kernel] where they do not begin
    with [boot] or [EFI].

    ** The program and its model

    The boot loader hands the kernel a memory map. On it stands the allocator of physical frames;
    the page tables take their tables from it; the virtual allocator maps frames at addresses that
    the callers choose. The allocator of address ranges chooses addresses and calls the virtual
    allocator; the heap cuts its pages up; the DMA allocator keeps a region of the address space of
    its own. Drivers map registers through the page tables and talk to ports.

    - [KPrelude] (this file): C operators at their widths, the monad [M] of a state with faults and
      endless loops, weakest preconditions [wp] with their rules and tactics, lemmas on lists, bits
      and words that the components share.
    - [MemHelpers]: [x86-64/memory/memhlp.c]. [Spinlock]: [include/x86-64/spinlock.h], the
      interface [Lock].
    - [FrameAlloc]: [x86-64/memory/alloc.c], [maphlp.c]; the bitmap of frames.
    - [Paging], [PagingProofs]: [x86-64/paging.c]; the four-level tables in a memory of words, and
      the tree they form.
    - [VAlloc]: [x86-64/memory/valloc.c]. [VMem]: the interface of the virtual allocator, with the
      instance that [VAlloc] provides.
    - [VaAlloc], [VaProofs]: [x86-64/memory/va_alloc.c], [va_def.c]; the trees of free ranges, over
      [VMem].
    - [KBits], [KBitsProofs]: the bit maps of [x86-64/memory/kmalloc.c]. [Kmalloc]: the rest of it,
      the kernel heap, over the interface [Ranges] of the allocator of address ranges, for which
      [Kmalloc.va_Ranges] gives the operations of [VaAlloc]. [KHeap] (the invariant and the contract
      [RangesLaws] of the allocator below), [KHeapSteps], [KHeapOps], [KHeapProofs],
      [KHeapTheorems]: what the heap does to its set of blocks.
    - [Dma], [DmaProofs], [DmaRoundtrip]: [x86-64/memory/dma.c], [dmahlp.c], [dmadef.c].
    - [Bytes], [Acpi]: firmware tables as bytes, [x86-64/acpi.c].
    - [PortIO]: [include/x86-64/ports.h], [io.h]; the interface [IO] of hardware as an unknown
      function of the accesses so far.
    - [Pci], [PciProofs], [PciNames]: [drivers/pci]. [Ata], [AtaProofs]: [drivers/storage/ide].
    - [Timers], [TimersProofs]: [drivers/timers], [drivers/pcspkr.c]; the interface [TimerSource].
    - [Cpu]: [x86-64/gdt.c], [idt.c], [tss.c]. [Apic]: [x86-64/apic.c], [handlers.c],
      [include/x86-64/tsc.h].
    - [Vga], [VgaProofs], [VgaText]: [drivers/display/vga.c]; the interface [Heap] for its buffers.
    - [AcpiPm]: [drivers/acpiPM.cpp]. [Ps2], [Ps2Proofs], [Ps2Init]: [drivers/keyboard].
    - [UsbTypes]: the objects of [include/drivers/usb/usb.hpp], with the interface [HeapOps] of
      [new] and [delete]. [UsbDesc], [UsbDescProofs]: the parsing of configuration descriptors in
      [drivers/usb/usb.cpp]. [Usb], [UsbProofs]: the rest of it, the class [usb_controller]: the
      virtual functions that it calls are the interface [HostController], their contract the class
      [HostLaws]; what it calls outside is the interface [UsbHost].
    - [Xhci], [XhciDevices], [XhciRings], [XhciEvents], [XhciWait], [XhciTransfers], [XhciPorts]:
      [drivers/usb/xhci.cpp]; [Xhci] holds the state, the rings and the ports, [XhciDevices] slots,
      contexts and transfers, the others the theorems. [XhciHost]: its instance of
      [HostController].
    - [UsbDriver]: a driver's object together with the rest of the kernel, whose services it calls.
      [UsbWorld]: the contract of these services ([WorldLaws]) and the operations that leave heap,
      regions and object alone ([calm]), with a world that keeps the contract. [UsbMemory]: shared
      memory as what the latest stores left there. [UsbQueue]: queue heads that link to each other in
      shared memory, which both schedules are.
    - [UsbStates]: what the newer drivers have in common and the source writes out in each file: the
      loops over a register, the regions put aside in [controller.cached], the addresses, the checks of
      what a device sent, the array of address states with [configure_endpoints], over the class
      [Keeper] of objects that have these fields. [UsbKeep]: its rules, and the laws [HostLaws] of a
      driver from the contracts of its methods ([keeper_laws]).
    - [Uhci], [UhciRequests], [UhciSchedule]: [drivers/usb/uhci.cpp] (registers, ports and waits;
      control requests; endpoints, queue heads and transfers) with its instance of [HostController].
      [UhciSafe], [UhciLaws], [UhciChain], [UhciQueue]: its theorems.
    - [Ehci], [EhciRequests]: [drivers/usb/ehci.cpp] (registers, ports, waits and the asynchronous
      schedule; control requests and endpoints) with its instance of [HostController]. [EhciSafe],
      [EhciLaws], [EhciChain], [EhciQueue]: its theorems.
    - [BootMem]: memory before there are page tables, as a function from addresses to bytes; the
      interface [ByteMem]. [Boot4Map], [Boot4], [Boot4Load], [Boot4Place]:
      [boot/bios/stage4/stage4.c]; the firmware's memory map as the frame allocator of [FrameAlloc] gets it, the loader, the bytes that it loads, and
      where it puts them. [EfiLoader], [EfiLoad], [EfiBoot]: [EFI/boot/bootloader.c]; the firmware is the
      interface [Uefi]. [EfiLoad] is on the kernel's file, under the contract [file_laws] of the two file
      calls; [EfiBoot] on the rest, partly under [firmware_laws].

    ** How the code is modelled

    A function of the code is a definition of the same name in the monad [M S]: it takes a state and
    ends with [Done] and a new one, with [Fault] (an access to memory that is not there, a shift that
    C leaves undefined) or with [Hang] (a loop that never ends, a lock that is taken). Integers are
    [Z], brought back to their width by [u8], [u16], [u32], [u64] and [i32] where the code can leave
    it. Globals are fields of a record per component; a component that uses another has that one's
    state as a field and reaches it by [zoom]. Structures in memory are records in a map by address,
    0 being [NULL], or bytes where the layout matters. Memory the code did not write yet reads as a
    parameter ([stale_...]), so no theorem depends on it; whether the processor still has a translation
    after it was taken away is one as well ([tlb_keeps] of [free_dma]). Hardware, the font, the PCI name tables and
    the processor's registers are parameters or interfaces as well. Messages that the code only
    prints are left out, apart from the console's own.

    A loop of the code is [while FUEL], with 2^64 rounds: a counter or a chain of distinct addresses
    of 64 bits is exhausted before that, so [Hang] stands for a loop without an end. Theorems say
    that the operations end with [Done], that is, without fault and within that fuel.

    ** What is proved

    - Frames: the search takes the first run of free frames or there is none, freeing is its inverse,
      and the bitmap at start is what the memory map says. Page tables: mapping and unmapping change
      the translation of their page only, and keep the tables a tree of frames in use. The virtual
      allocator, for one page: its frame and its translation go back, the page tables made on the
      way stay.
    - Address ranges: allocation takes the front of a free range; freeing puts exactly the range
      back when a node of its tree has room for a child, and loses it when none has; the pruned
      search is as good as a full one, the first call sets the invariant up.
    - Heap: the search for objects in a slab finds the first run of free ones, and is undone by its
      inverse. [kmalloc], [kfree] and [krealloc] on the set of live blocks: a new block overlaps
      nothing, a freed one is gone and nothing else is, contents move along, and a request that the
      allocator below refuses changes nothing. This is for one page of 112 slab entries; further
      pages of entries are modelled and executable.
    - DMA, for a pool of one page: claiming a region takes the first run of free regions that is long
      enough, or the free end of the list with a new one. A region of one page is given back with its
      frame and mapping, as long as the processor still translates the page that was just unmapped
      (the size is read from it once more; without the translation that is a fault), and the count of
      entries in the header stays too large where a region was used again.
    - Firmware and buses: table discovery, the walk of the MADT, configuration accesses, BAR probing
      through the ports with registers of the kinds that the specification has (writable, read-only,
      cleared by a one; set bits of the last kind are lost),
      the search for a capability, the device path of the boot device; names by binary search.
    - Disks: the task file, reads, writes and the identification of a drive against any hardware.
    - Processor and time: descriptors as the processor reads them back, gates and stubs, masking of
      both interrupt controllers (and where that loop never ends), waits that end and are long
      enough, a clock that is never read torn.
    - Power and keyboard: the sleep types that the AML of the DSDT gives are the ones that a shutdown
      stores; scan codes are translated to the text of a typist's keyboard; the interrupt handler
      keeps its buffers typed; the keyboard's initialisation keeps the handshake on any controller.
    - USB: the parser of configuration descriptors is equivalent to a reference on lists, reads
      inside its buffer only and stores inside its arrays only (both are faults otherwise); a device is
      enumerated without losing heap blocks, for every host controller that keeps [HostLaws]. These
      theorems ask for a heap that has the blocks: without one, [new] of an array initialises through
      the null pointer, which the model has as a fault ([read_interfaces_dry]).
    - xHCI, with a controller that reads and writes the rings by its rules (its memory is the history
      of stores; [producer] says which events it has put in the event ring, [ticking] that the
      processor's counter advances): the command ring is a queue, the event ring delivers each event
      once and in order, a wait ends with its completion or by its limit, a control transfer
      that a request of [usb_send_packet] asks for is taken stage by stage (also behind a link, except
      that the controller stays in front of a link of another lap that the transfer ends at), a port's
      reset and its recorded changes are handled as the specification asks.
    - UHCI, whatever the controller answers: the enumeration of a device ends, without a fault and
      without losing blocks or regions it does not own ([UhciLaws], an instance of [HostLaws]). The
      structures of a control request are, for a controller that reads memory by its rules and leaves
      the region alone ([unchanged]), exactly that transfer ([UhciChain]). Linking and unlinking keeps
      the schedule a list ([UhciQueue], under [heads_ok]: the queue heads do not overlap and the
      controller does not store into their links; a wait stores nothing in shared memory).
    - EHCI, likewise: the enumeration of a device ends, without a fault and without losing blocks, and
      never gives back a region whose queue head did not leave the schedule ([EhciLaws]). A control
      request is, to a controller that reads memory by its rules, exactly that transfer, also where its
      data crosses a page ([EhciChain]). A transfer ends with what the tokens say that were read
      while its queue head stood in the ring, and when its region may be freed the ring of queue heads
      is the one of before and the controller has acknowledged it ([EhciQueue]).
    - Boot loaders: the frames that the frame allocator takes as free, started with the loader's map, are
      exactly the whole frames inside usable entries of the firmware's. For every disk behind the BIOS
      services ([disk_laws]) with clusters of at most 32 KiB, and when the first usable region that is
      long enough is below 4 GiB, the loader ends, and the kernel's segments, its stack, the bitmap, the
      memory map and the boot information are in that region, each with the bytes it should have. The
      EFI loader puts the segments of the kernel's file where they belong, for every firmware whose file
      calls leave the loader's memory alone ([elf_loader_correct]). That it reaches the kernel's entry
      with all of this in one region of free memory is shown as well ([efi_main_enters]), but of a
      firmware that keeps more than UEFI asks for: the code neither allocates the region nor looks at
      the size of the memory map's pool again.
    - Console: the screen shows the text of [printf] on a grid of cells; decimal output reads back.

    ** What is not modelled

    The OHCI controller ([drivers/usb/ohci.cpp]), one more class over the same base, whose source does
    not compile, and the list of controllers of [usb.cpp]; [drivers/storage/sata.cpp]; [kernel.cpp]; stages
    1 to 3 of the BIOS boot loader, which are assembly, with the services that stage 4 calls there
    ([RealModeWrapper], a parameter); stage 4's copy of the console; [x86-64/cpudir.c] and [memory_diagnostics.c], which print; fonts and
    name tables, which are data; assembly other than what the C code calls. Concurrency: an operation runs
    alone, interrupts included, and a lock only says that nobody holds it. *)
From stdpp Require Export base gmap list numbers strings.
From Stdlib Require Export ZArith Lia.

#[global] Open Scope Z_scope.

(** ** C operators *)

Declare Scope c_scope.
Delimit Scope c_scope with c.
Notation "a &&& b" := (Z.land a b) (at level 40, left associativity) : c_scope.
Notation "a ||| b" := (Z.lor a b) (at level 50, left associativity) : c_scope.
Notation "a <<< b" := (Z.shiftl a b) (at level 39, left associativity) : c_scope.
Notation "a >>> b" := (Z.shiftr a b) (at level 39, left associativity) : c_scope.
#[global] Open Scope c_scope.

(** Conversions to the unsigned types of [uint_definitions.h] and to the C [int]. *)
Definition u8 (z : Z) : Z := z mod 2 ^ 8.
Definition u16 (z : Z) : Z := z mod 2 ^ 16.
Definition u32 (z : Z) : Z := z mod 2 ^ 32.
Definition u64 (z : Z) : Z := z mod 2 ^ 64.
Definition i32 (z : Z) : Z := (z + 2 ^ 31) mod 2 ^ 32 - 2 ^ 31.

(** ** Outcomes and the state monad

    A C function is modelled by a function of the state that is [Done] with a
    result and a new state, that is a [Fault] (an access outside the memory the
    model gives it), or that [Hang]s: it spins for ever on a lock it already
    holds, or a loop does not stop within the fuel the model grants it. *)

Inductive outcome (S A : Type) : Type :=
| Done (a : A) (s : S)
| Fault
| Hang.
Arguments Done {S A} a s.
Arguments Fault {S A}.
Arguments Hang {S A}.

Definition M (S A : Type) : Type := S -> outcome S A.

#[global] Instance M_ret {S} : MRet (M S) := fun A a s => Done a s.
#[global] Instance M_bind {S} : MBind (M S) := fun A B f m s =>
  match m s with
  | Done a s' => f a s'
  | Fault => Fault
  | Hang => Hang
  end.

Definition fault {S A} : M S A := fun _ => Fault.
Definition hang {S A} : M S A := fun _ => Hang.
Definition gets {S A} (f : S -> A) : M S A := fun s => Done (f s) s.
Definition modify {S} (f : S -> S) : M S unit := fun s => Done () (f s).

(** Run an operation on a part of the state. *)
Definition zoom {S T A} (part : S -> T) (update : T -> S -> S) (m : M T A) : M S A :=
  fun s => match m (part s) with
           | Done a t => Done a (update t s)
           | Fault => Fault
           | Hang => Hang
           end.

Definition of_option {S A} (o : option A) : M S A :=
  match o with Some a => mret a | None => fault end.

(** [for_ n i body a]: [n] iterations of [body] with the counter [i], [i + 1], ... *)
Fixpoint for_nat {S A} (n : nat) (i : Z) (body : Z -> A -> M S A) (a : A) : M S A :=
  match n with
  | O => mret a
  | Datatypes.S n' => a' ← body i a; for_nat n' (i + 1) body a'
  end.
Definition for_ {S A} (i n : Z) (body : Z -> A -> M S A) (a : A) : M S A :=
  for_nat (Z.to_nat n) i body a.

(** A loop runs its body until it answers [inr]; the fuel is a binary number, so
    that a bound such as [2 ^ 64] can be granted and still be executed. *)
Fixpoint loop_pos {S A B} (p : positive) (body : A -> M S (A + B)) (a : A)
    : M S (A + B) :=
  match p with
  | xH => body a
  | xO p' =>
      r ← loop_pos p' body a;
      match r with inl a' => loop_pos p' body a' | inr b => mret (inr b) end
  | xI p' =>
      r ← body a;
      match r with
      | inl a' =>
          r' ← loop_pos p' body a';
          match r' with inl a'' => loop_pos p' body a'' | inr b => mret (inr b) end
      | inr b => mret (inr b)
      end
  end.
Definition while {S A B} (fuel : positive) (body : A -> M S (A + B)) (a : A) : M S B :=
  r ← loop_pos fuel body a;
  match r with inl _ => hang | inr b => mret b end.

(** No counter of the code counts further than a [u64] can. *)
Definition FUEL : positive := 18446744073709551616.

(** ** Setters of large records

    [setter eta f] is the update of the field [f], where [eta] rebuilds a record from its
    fields. *)
Ltac setter eta f :=
  let e := eval cbv delta [eta] in eta in
  let p := eval pattern f in e in
  match p with
  | ?k _ => let r := eval cbv beta in (fun g => k (fun r => g (f r))) in exact r
  end.

(** ** Total-correctness assertions

    [wp m Q s]: started in [s], [m] is [Done] with a result and a state that
    satisfy [Q]; so it neither faults nor hangs. *)

Definition wp {S A} (m : M S A) (Q : A -> S -> Prop) (s : S) : Prop :=
  match m s with
  | Done a s' => Q a s'
  | _ => False
  end.

#[global] Arguments wp : simpl never.
#[global] Arguments Z.min : simpl never.
#[global] Arguments Z.max : simpl never.
#[global] Arguments Z.div : simpl never.
#[global] Arguments Z.modulo : simpl never.
#[global] Arguments Z.mul : simpl never.
#[global] Arguments Z.add : simpl never.
#[global] Arguments Z.sub : simpl never.
#[global] Arguments Z.pow : simpl never.
#[global] Arguments Z.shiftl : simpl never.
#[global] Arguments Z.shiftr : simpl never.
#[global] Arguments Z.land : simpl never.
#[global] Arguments Z.lor : simpl never.
#[global] Arguments Z.lnot : simpl never.
#[global] Arguments Z.testbit : simpl never.
#[global] Arguments Z.of_nat : simpl never.
#[global] Arguments Z.to_nat : simpl never.
#[global] Arguments Z.leb : simpl never.
#[global] Arguments Z.ltb : simpl never.
#[global] Arguments Z.geb : simpl never.
#[global] Arguments Z.gtb : simpl never.
#[global] Arguments u8 : simpl never.
#[global] Arguments u16 : simpl never.
#[global] Arguments u32 : simpl never.
#[global] Arguments u64 : simpl never.
#[global] Arguments FUEL : simpl never.
#[global] Arguments while : simpl never.
#[global] Arguments for_ : simpl never.

Section wp_rules.
  Context {S : Type}.

Lemma wp_ret {A} (a : A) (Q : A -> S -> Prop) s : wp (mret a) Q s <-> Q a s.
  Proof. done. Qed.

Lemma wp_bind {A B} (m : M S A) (f : A -> M S B) (Q : B -> S -> Prop) s :
    wp (m ≫= f) Q s <-> wp m (fun a => wp (f a) Q) s.
  Proof. unfold wp, mbind, M_bind. by destruct (m s). Qed.

Lemma wp_gets {A} (f : S -> A) (Q : A -> S -> Prop) s : wp (gets f) Q s <-> Q (f s) s.
  Proof. done. Qed.

Lemma wp_modify (f : S -> S) (Q : unit -> S -> Prop) s :
    wp (modify f) Q s <-> Q () (f s).
  Proof. done. Qed.

Lemma wp_zoom {T A} (part : S -> T) (update : T -> S -> S) (m : M T A)
      (Q : A -> S -> Prop) s :
    wp (zoom part update m) Q s <-> wp m (fun a t => Q a (update t s)) (part s).
  Proof. unfold wp, zoom. by destruct (m (part s)). Qed.

Lemma wp_of_option {A} (o : option A) (Q : A -> S -> Prop) s :
    wp (of_option o) Q s <-> exists a, o = Some a /\ Q a s.
  Proof.
    destruct o as [a|]; cbn; split.
    - intros H. by exists a.
    - intros (b & [= <-] & H). done.
    - done.
    - by intros (b & ? & _).
  Qed.

Lemma wp_mono {A} (m : M S A) (P Q : A -> S -> Prop) s :
    wp m P s -> (forall a s', P a s' -> Q a s') -> wp m Q s.
  Proof. unfold wp. destruct (m s); naive_solver. Qed.

Lemma wp_done {A} (m : M S A) (Q : A -> S -> Prop) s a s' :
    wp m Q s -> m s = Done a s' -> Q a s'.
  Proof. unfold wp. intros H E. by rewrite E in H. Qed.

Lemma wp_inv {A} (m : M S A) (Q : A -> S -> Prop) s :
    wp m Q s -> exists a s', m s = Done a s' /\ Q a s'.
  Proof. unfold wp. destruct (m s); naive_solver. Qed.

Lemma wp_for_nat {A} (I : Z -> A -> S -> Prop) (body : Z -> A -> M S A) n :
    forall i a s,
    I i a s ->
    (forall j a s, i <= j < i + Z.of_nat n -> I j a s -> wp (body j a) (I (j + 1)) s) ->
    wp (for_nat n i body a) (I (i + Z.of_nat n)) s.
  Proof.
    induction n as [|n IH]; intros i a s Hi Hb.
    - cbn. by replace (i + Z.of_nat 0) with i by lia.
    - cbn [for_nat]. apply wp_bind. eapply wp_mono; [apply Hb; [lia | done]|].
      intros a' s' H'. replace (i + Z.of_nat (Datatypes.S n)) with (i + 1 + Z.of_nat n) by lia.
      apply IH; [done|]. intros. apply Hb; [lia | done].
  Qed.

Lemma wp_for {A} (I : Z -> A -> S -> Prop) (body : Z -> A -> M S A) i n a s :
    0 <= n ->
    I i a s ->
    (forall j a s, i <= j < i + n -> I j a s -> wp (body j a) (I (j + 1)) s) ->
    wp (for_ i n body a) (I (i + n)) s.
  Proof.
    intros Hn Hi Hb. unfold for_.
    replace (i + n) with (i + Z.of_nat (Z.to_nat n)) by lia.
    apply wp_for_nat; [done|]. intros; apply Hb; [lia | done].
  Qed.

  Section loops.
    Context {A B : Type} (body : A -> M S (A + B)).
    Context (I : A -> S -> Prop) (measure : A -> S -> Z) (Q : B -> S -> Prop).
    Context (body_ok : forall a s, I a s ->
      wp (body a) (fun r s' => match r with
                               | inl a' => I a' s' /\ 0 <= measure a' s' < measure a s
                               | inr b => Q b s'
                               end) s).

Lemma wp_loop_pos p : forall a s, I a s ->
      wp (loop_pos p body a) (fun r s' =>
        match r with
        | inl a' => I a' s' /\ 0 <= measure a' s' /\ measure a' s' + Zpos p <= measure a s
        | inr b => Q b s'
        end) s.
    Proof.
      induction p as [p IH|p IH|]; intros a s HI; cbn [loop_pos].
      - apply wp_bind. eapply wp_mono; [by apply body_ok|]. intros [a1|b] s1 H1; [|done].
        destruct H1 as [H1 M1].
        apply wp_bind. eapply wp_mono; [by apply IH|]. intros [a2|b] s2 H2; [|done].
        destruct H2 as [H2 M2].
        eapply wp_mono; [by apply IH|]. intros [a3|b] s3 H3; [|done].
        destruct H3 as [H3 M3]. split; [done|lia].
      - apply wp_bind. eapply wp_mono; [by apply IH|]. intros [a1|b] s1 H1; [|done].
        destruct H1 as [H1 M1].
        eapply wp_mono; [by apply IH|]. intros [a3|b] s3 H3; [|done].
        destruct H3 as [H3 M3]. split; [done|lia].
      - eapply wp_mono; [by apply body_ok|]. intros [a1|b] s1 H1; [|done].
        destruct H1 as [H1 M1]. split; [done|lia].
    Qed.

    (** A loop whose body keeps [I] and lowers the measure stops with [Q], when the
        fuel exceeds the measure. *)
Lemma wp_while fuel a s :
      I a s -> measure a s < Zpos fuel -> wp (while fuel body a) Q s.
    Proof.
      intros HI Hm. unfold while. apply wp_bind.
      eapply wp_mono; [by apply wp_loop_pos|]. intros [a'|b] s' H; cbn; [lia|done].
    Qed.
  End loops.

  (** The same rule with an invariant indexed by what the loop still has to do. *)
  Section indexed_loops.
    Context {X A B : Type} (body : A -> M S (A + B)).
    Context (I : X -> A -> S -> Prop) (measure : X -> Z) (Q : B -> S -> Prop).
    Context (body_ok : forall x a s, I x a s ->
      wp (body a) (fun r s' => match r with
                               | inl a' => exists x', I x' a' s' /\ 0 <= measure x' < measure x
                               | inr b => Q b s'
                               end) s).

Lemma wp_loop_pos_ix p : forall x a s, I x a s ->
      wp (loop_pos p body a) (fun r s' =>
        match r with
        | inl a' => exists x', I x' a' s' /\ 0 <= measure x' /\ measure x' + Zpos p <= measure x
        | inr b => Q b s'
        end) s.
    Proof.
      induction p as [p IH|p IH|]; intros x a s HI; cbn [loop_pos].
      - apply wp_bind. eapply wp_mono; [by eapply body_ok|]. intros [a1|b] s1 H1; [|done].
        destruct H1 as (x1 & H1 & M1).
        apply wp_bind. eapply wp_mono; [by eapply IH|]. intros [a2|b] s2 H2; [|done].
        destruct H2 as (x2 & H2 & M2).
        eapply wp_mono; [by eapply IH|]. intros [a3|b] s3 H3; [|done].
        destruct H3 as (x3 & H3 & M3). exists x3. split; [done|lia].
      - apply wp_bind. eapply wp_mono; [by eapply IH|]. intros [a1|b] s1 H1; [|done].
        destruct H1 as (x1 & H1 & M1).
        eapply wp_mono; [by eapply IH|]. intros [a3|b] s3 H3; [|done].
        destruct H3 as (x3 & H3 & M3). exists x3. split; [done|lia].
      - eapply wp_mono; [by eapply body_ok|]. intros [a1|b] s1 H1; [|done].
        destruct H1 as (x1 & H1 & M1). exists x1. split; [done|lia].
    Qed.

Lemma wp_while_ix x fuel a s :
      I x a s -> measure x < Zpos fuel -> wp (while fuel body a) Q s.
    Proof.
      intros HI Hm. unfold while. apply wp_bind.
      eapply wp_mono; [by eapply wp_loop_pos_ix|]. intros [a'|b] s' H; cbn; [|done].
      destruct H as (? & ? & ?). lia.
    Qed.
  End indexed_loops.

  (** A loop whose body goes on for ever. *)
Lemma while_hangs {A B} (body : A -> M S (A + B)) (I : A -> S -> Prop) fuel a s :
    (forall a s, I a s -> exists a' s', body a s = Done (inl a') s' /\ I a' s') ->
    I a s -> while fuel body a s = Hang.
  Proof.
    intros Hb HI. assert (forall p a s, I a s ->
      exists a' s', loop_pos p body a s = Done (inl a') s' /\ I a' s') as Hl.
    { induction p as [p IH|p IH|]; intros a1 s1 H1; cbn [loop_pos]; [| |by apply Hb].
      - unfold mbind, M_bind. destruct (Hb a1 s1 H1) as (a2 & s2 & -> & H2).
        destruct (IH a2 s2 H2) as (a3 & s3 & -> & H3). by apply IH.
      - unfold mbind, M_bind. destruct (IH a1 s1 H1) as (a2 & s2 & -> & H2). by apply IH. }
    unfold while, mbind, M_bind. by destruct (Hl fuel a s HI) as (a' & s' & -> & _).
  Qed.
End wp_rules.

(** One step of symbolic execution: push [wp] through the monad's operations. *)
Ltac wp_step :=
  match goal with
  | |- wp (_ ≫= _) _ _ => apply wp_bind
  | |- wp (mret _) _ _ => apply wp_ret
  | |- wp (gets _) _ _ => apply wp_gets
  | |- wp (modify _) _ _ => apply wp_modify
  | |- wp (zoom _ _ _) _ _ => apply wp_zoom
  end; cbn beta iota.
Ltac wp_steps := repeat wp_step.
(** Use a proved assertion on a sub-operation, naming what it guarantees. *)
Tactic Notation "wp_use" uconstr(H) := eapply wp_mono; [eapply H | cbn beta iota].

(** [lia] with the quotients and remainders by constants spelled out. *)
Ltac divlia := Z.to_euclidean_division_equations; lia.

(** ** Bits *)

Create Rewrite HintDb bits.
#[export] Hint Rewrite Z.lor_spec Z.land_spec Z.lxor_spec Z.bits_0 : bits.
#[export] Hint Rewrite Z.shiftr_spec Z.shiftl_spec Z.lnot_spec using lia : bits.

Lemma testbit_mod_pow2 a n i : 0 <= n -> 0 <= i ->
  Z.testbit (a mod 2 ^ n) i = (i <? n) && Z.testbit a i.
Proof.
  intros. destruct (Z.ltb_spec i n).
  - by rewrite Z.mod_pow2_bits_low by lia.
  - by rewrite Z.mod_pow2_bits_high by lia.
Qed.

Lemma testbit_ones n i : 0 <= n -> 0 <= i -> Z.testbit (Z.ones n) i = (i <? n).
Proof. intros. rewrite Z.testbit_ones_nonneg by lia. done. Qed.

Lemma testbit_above a n i : 0 <= a < 2 ^ n -> 0 <= n <= i -> Z.testbit a i = false.
Proof.
  intros Ha Hi. rewrite <- (Z.mod_small a (2 ^ n)) by lia.
  apply Z.mod_pow2_bits_high. lia.
Qed.

Lemma land_ones_mod a n : 0 <= n -> Z.land a (Z.ones n) = a mod 2 ^ n.
Proof. apply Z.land_ones. Qed.

Lemma land7 a : a &&& 7 = a mod 8.
Proof. change 7 with (Z.ones 3). by rewrite Z.land_ones by lia. Qed.

Lemma shiftr_div a n : 0 <= n -> a >>> n = a / 2 ^ n.
Proof. apply Z.shiftr_div_pow2. Qed.

Lemma shiftl_mul a n : 0 <= n -> a <<< n = a * 2 ^ n.
Proof. apply Z.shiftl_mul_pow2. Qed.

(** The page an address lies in, and its offset there. *)
Lemma land_page a : a &&& Z.lnot 0xFFF = 4096 * (a / 4096).
Proof.
  change 0xFFF with (Z.ones 12). rewrite <- Z.ldiff_land, Z.ldiff_ones_r by lia.
  rewrite shiftl_mul, shiftr_div by lia. change (2 ^ 12) with 4096. lia.
Qed.

Lemma land_offset a : a &&& 0xFFF = a mod 4096.
Proof. change 0xFFF with (Z.ones 12). by rewrite Z.land_ones by lia. Qed.

(** A number below [2 ^ n] is what its [n] low bits say. *)
Lemma bounded_of_bits a n : 0 <= n -> 0 <= a ->
  (forall i, n <= i -> Z.testbit a i = false) -> a < 2 ^ n.
Proof.
  intros Hn Ha H. destruct (Z.lt_ge_cases a (2 ^ n)) as [|Hge]; [done|].
  exfalso. assert (0 < a) by (pose proof (Z.pow_pos_nonneg 2 n); lia).
  pose proof (Z.bit_log2 a ltac:(lia)) as Hb. rewrite H in Hb; [done|].
  apply Z.log2_le_pow2; lia.
Qed.

Lemma lor_bounded a b n : 0 <= n -> 0 <= a < 2 ^ n -> 0 <= b < 2 ^ n -> 0 <= a ||| b < 2 ^ n.
Proof.
  intros Hn Ha Hb. assert (0 <= a ||| b) by (apply Z.lor_nonneg; lia). split; [done|].
  apply bounded_of_bits; [lia..|]. intros i Hi. autorewrite with bits.
  by rewrite (testbit_above a n), (testbit_above b n) by lia.
Qed.

Lemma land_bounded a b n : 0 <= n -> 0 <= a < 2 ^ n -> 0 <= a &&& b < 2 ^ n.
Proof.
  intros Hn Ha. assert (0 <= a &&& b) by (apply Z.land_nonneg; lia). split; [done|].
  apply bounded_of_bits; [lia..|]. intros i Hi. autorewrite with bits.
  by rewrite (testbit_above a n) by lia.
Qed.

(** Disjoint bit fields add up. *)
Lemma lor_add a b : a &&& b = 0 -> a ||| b = a + b.
Proof. intros H. rewrite <- Z.lxor_lor by done. symmetry. by apply Z.add_nocarry_lxor. Qed.

Lemma lor_shiftl_add a b n : 0 <= n -> 0 <= b < 2 ^ n -> (a <<< n) ||| b = a * 2 ^ n + b.
Proof.
  intros Hn Hb. rewrite lor_add; [by rewrite Z.shiftl_mul_pow2 by lia|].
  apply Z.bits_inj'. intros i Hi. autorewrite with bits.
  destruct (Z.lt_ge_cases i n).
  - by rewrite Z.testbit_neg_r by lia.
  - rewrite (testbit_above b n) by lia. apply andb_false_r.
Qed.

(** ** Machine integers *)

Lemma u8_range z : 0 <= u8 z < 2 ^ 8.
Proof. apply Z.mod_pos_bound. lia. Qed.
Lemma u16_range z : 0 <= u16 z < 2 ^ 16.
Proof. apply Z.mod_pos_bound. lia. Qed.
Lemma u32_range z : 0 <= u32 z < 2 ^ 32.
Proof. apply Z.mod_pos_bound. lia. Qed.
Lemma u64_range z : 0 <= u64 z < 2 ^ 64.
Proof. apply Z.mod_pos_bound. lia. Qed.
Lemma u8_id z : 0 <= z < 2 ^ 8 -> u8 z = z.
Proof. apply Z.mod_small. Qed.
Lemma u16_id z : 0 <= z < 2 ^ 16 -> u16 z = z.
Proof. apply Z.mod_small. Qed.
Lemma u32_id z : 0 <= z < 2 ^ 32 -> u32 z = z.
Proof. apply Z.mod_small. Qed.
Lemma u64_id z : 0 <= z < 2 ^ 64 -> u64 z = z.
Proof. apply Z.mod_small. Qed.
Lemma i32_id z : - 2 ^ 31 <= z < 2 ^ 31 -> i32 z = z.
Proof. intros H. unfold i32. rewrite Z.mod_small; [lia|]. change (2 ^ 32) with (2 * 2 ^ 31). lia. Qed.
#[export] Hint Resolve u8_range u16_range u32_range u64_range : core.

(** ** Lists as C arrays *)

(** [a[i]] and [a[i] = v], undefined out of range. *)
Definition array_get {A} (a : list A) (i : Z) : option A :=
  if i <? 0 then None else a !! Z.to_nat i.
Definition array_set {A} (a : list A) (i : Z) (v : A) : option (list A) :=
  if (i <? 0) || (Z.of_nat (length a) <=? i) then None else Some (<[Z.to_nat i := v]> a).

Lemma array_get_Some {A} (a : list A) i :
  0 <= i < Z.of_nat (length a) -> exists v, array_get a i = Some v /\ a !! Z.to_nat i = Some v.
Proof.
  intros Hi. unfold array_get. destruct (Z.ltb_spec i 0); [lia|].
  destruct (lookup_lt_is_Some_2 a (Z.to_nat i)) as [v Hv]; [lia|]. eauto.
Qed.

Lemma array_get_of {A} (l : list A) i x : 0 <= i -> l !! Z.to_nat i = Some x -> array_get l i = Some x.
Proof. intros Hi E. unfold array_get. by rewrite (proj2 (Z.ltb_ge _ _)) by lia. Qed.

Lemma array_set_Some {A} (a : list A) i v :
  0 <= i < Z.of_nat (length a) -> array_set a i v = Some (<[Z.to_nat i := v]> a).
Proof.
  intros Hi. unfold array_set.
  destruct (Z.ltb_spec i 0), (Z.leb_spec (Z.of_nat (length a)) i); try lia. done.
Qed.
