(* ===== verification/MemHelpers.v ===== *)
(** * Memory and bit helpers ([x86-64/memory/memhlp.c])

    Buffers are lists of bytes; a C function that walks a pointer is a function of
    the list it walks. *)
From S2P Require Import KPrelude.

(** [EFI_MEMORY_DESCRIPTOR] of [efi_memory_types.h] and the types the kernel tests. *)
Record EFI_MEMORY_DESCRIPTOR := mkDesc {
  Type_ : Z;
  PhysicalStart : Z;
  VirtualStart : Z;
  NumberOfPages : Z;
  Attribute : Z
}.

(** The descriptor [{0}]. *)
Definition zero_desc : EFI_MEMORY_DESCRIPTOR := mkDesc 0 0 0 0 0.

Definition EfiReservedMemoryType := 0.
Definition EfiConventionalMemory := 7.
Definition EfiUnusableMemory := 8.
Definition EfiACPIReclaimMemory := 9.
Definition EfiACPIMemoryNVS := 10.
Definition EfiMemoryMappedIO := 11.
Definition EfiMemoryMappedIOPortSpace := 12.
Definition EfiPersistentMemory := 14.

(** A memory map is what is read at the byte offsets [i * DescriptorSize]. *)
Definition calculate_pages (memory_map : Z -> EFI_MEMORY_DESCRIPTOR)
    (memory_map_size DescriptorSize : Z) : Z :=
  fold_left (fun pages i =>
      let desc := memory_map (u64 (Z.of_nat i * DescriptorSize)) in
      if Type_ desc =? EfiConventionalMemory then u64 (pages + NumberOfPages desc)
      else pages)
    (seq 0 (Z.to_nat (memory_map_size / DescriptorSize))) 0.

(** [memcmp] on the [count] bytes at two pointers; [None] reads past a buffer. *)
Fixpoint memcmp (ptr1 ptr2 : list Z) (count : nat) : option Z :=
  match count with
  | O => Some 0
  | Datatypes.S n =>
      match ptr1, ptr2 with
      | a :: ptr1', b :: ptr2' => if negb (a =? b) then Some (a - b) else memcmp ptr1' ptr2' n
      | _, _ => None
      end
  end.

(** [memset(ptr, value, num)] on the bytes from [ptr] on: the buffer it leaves and
    whether it answers [ptr] ([true]) or [NULL]. *)
Fixpoint memset_bytes (dest : list Z) (val : Z) (num : nat) : option (list Z) :=
  match num with
  | O => Some dest
  | Datatypes.S n =>
      match dest with
      | _ :: dest' => rest ← memset_bytes dest' val n; Some (val :: rest)
      | [] => None
      end
  end.
Definition memset (ptr : list Z) (value : Z) (num : nat) : option (list Z * bool) :=
  match num with
  | O => Some (ptr, false)
  | _ => dest ← memset_bytes ptr (u8 value) num; Some (dest, true)
  end.

(** [memcpy] between two buffers that do not overlap. *)
Fixpoint memcpy (dest src : list Z) (n : nat) : option (list Z) :=
  match n with
  | O => Some dest
  | Datatypes.S n' =>
      match dest, src with
      | _ :: d, s :: src' => rest ← memcpy d src' n'; Some (s :: rest)
      | _, _ => None
      end
  end.

(** [strcpy]: copies up to and with the NUL; [None] when one of the buffers ends first. *)
Fixpoint strcpy (dest src : list Z) : option (list Z) :=
  match src, dest with
  | c :: src', _ :: dest' =>
      if c =? 0 then Some (0 :: dest') else rest ← strcpy dest' src'; Some (c :: rest)
  | _, _ => None
  end.

Definition check_byte (byte bit dir : Z) : Z :=
  let byte := if dir =? 1 then u8 (byte >>> (7 - bit)) else u8 (byte >>> bit) in
  byte &&& 1.

Definition set_bit (byte bit value dir : Z) : Z :=
  let mask := if dir =? 1 then u8 (1 <<< (7 - bit)) else u8 (1 <<< bit) in
  if negb (value =? 0) then u8 (byte ||| mask) else u8 (byte &&& Z.lnot mask).

(** ** Bits of a byte *)

Lemma shiftl1_bits n i : 0 <= n -> 0 <= i -> Z.testbit (1 <<< n) i = (i =? n).
Proof.
  intros Hn Hi. rewrite Z.shiftl_1_l. rewrite Z.pow2_bits_eqb by lia. apply Z.eqb_sym.
Qed.

Lemma u8_bits z i : 0 <= i -> Z.testbit (u8 z) i = (i <? 8) && Z.testbit z i.
Proof. intros. by apply testbit_mod_pow2. Qed.

(** The index of the bit that [dir] numbers [bit]: from the left when it is 1. *)
Definition bit_index (bit dir : Z) : Z := if dir =? 1 then 7 - bit else bit.

Lemma check_byte_spec byte bit dir :
  0 <= bit < 8 ->
  check_byte byte bit dir = Z.b2z (Z.testbit byte (bit_index bit dir)).
Proof.
  intros Hb. unfold check_byte, bit_index. set (n := if dir =? 1 then 7 - bit else bit).
  assert (0 <= n < 8) by (subst n; destruct (dir =? 1); lia).
  replace (if dir =? 1 then u8 (byte >>> (7 - bit)) else u8 (byte >>> bit))
    with (u8 (byte >>> n)) by (subst n; by destruct (dir =? 1)).
  apply Z.bits_inj'. intros i Hi. autorewrite with bits. rewrite u8_bits by lia.
  rewrite Z.shiftr_spec by lia. change 1 with (Z.ones 1) at 1.
  rewrite testbit_ones by lia.
  destruct (Z.ltb_spec i 1).
  - replace i with 0 by lia. rewrite Z.add_0_l, andb_true_r. cbn [Z.ltb Z.compare andb].
    by destruct (Z.testbit byte n).
  - rewrite andb_false_r. symmetry.
    apply testbit_above with 1; [destruct (Z.testbit byte n); cbn; lia|lia].
Qed.

Lemma set_bit_spec byte bit value dir i :
  0 <= bit < 8 -> 0 <= i < 8 ->
  Z.testbit (set_bit byte bit value dir) i =
  if i =? bit_index bit dir then negb (value =? 0) else Z.testbit byte i.
Proof.
  intros Hb Hi. unfold set_bit, bit_index. set (n := if dir =? 1 then 7 - bit else bit).
  assert (0 <= n < 8) by (subst n; destruct (dir =? 1); lia).
  replace (if dir =? 1 then u8 (1 <<< (7 - bit)) else u8 (1 <<< bit))
    with (u8 (1 <<< n)) by (subst n; by destruct (dir =? 1)).
  destruct (value =? 0); cbn [negb]; rewrite u8_bits by lia; autorewrite with bits;
    rewrite u8_bits, shiftl1_bits by lia;
    destruct (Z.ltb_spec i 8); try lia; cbn;
    destruct (i =? n); cbn; rewrite ?andb_true_r, ?andb_false_r, ?orb_false_r, ?orb_true_r; done.
Qed.

Lemma set_bit_range byte bit value dir : 0 <= set_bit byte bit value dir < 256.
Proof. unfold set_bit. destruct (negb _); apply u8_range. Qed.

#[export] Hint Resolve set_bit_range : core.
