(* ===== verification/Spinlock.v ===== *)
(** * Spin locks ([x86-64/spinlock.h])

    The model runs one thread at a time; [spin_lock] on a lock that is taken would
    spin for ever, and that is what [Hang] records. A component says where its
    lock lives by an instance of [Lock]. *)
From S2P Require Import KPrelude.

Class Lock (S : Type) := {
  locked : S -> bool;
  set_locked : bool -> S -> S;
  locked_set : forall b s, locked (set_locked b s) = b;
  set_locked_twice : forall b c s, set_locked b (set_locked c s) = set_locked b s;
  set_locked_same : forall s, set_locked (locked s) s = s
}.

Section Spinlock.
  Context {S : Type} `{!Lock S}.

Definition spin_lock : M S unit :=
    fun s => if locked s then Hang else Done () (set_locked true s).
Definition spin_unlock : M S unit := modify (set_locked false).
Definition spinlock_init : M S unit := modify (set_locked false).

Lemma wp_spin_lock (Q : unit -> S -> Prop) s :
    locked s = false -> Q () (set_locked true s) -> wp spin_lock Q s.
  Proof. intros Hl HQ. unfold wp, spin_lock. by rewrite Hl. Qed.

Lemma wp_spin_unlock (Q : unit -> S -> Prop) s :
    Q () (set_locked false s) -> wp spin_unlock Q s.
  Proof. done. Qed.

  (** A second [spin_lock] by the holder never returns. *)
Lemma spin_lock_twice s : locked s = false -> (spin_lock;; spin_lock) s = Hang.
  Proof.
    intros Hl. unfold mbind, M_bind, spin_lock. by rewrite Hl, locked_set.
  Qed.
End Spinlock.
