(* ===== verification/FrameAlloc.v ===== *)
(** * The physical frame allocator ([x86-64/memory/alloc.c], [maphlp.c])

    One bit per 4 KiB frame, the leftmost bit of a byte first, 1 for a used frame.
    [bitmap] holds the bytes of memory from [bitmap_base] on; it may be longer
    than [bitmapSize], because the allocator's last read-modify-write may touch
    the byte behind its bitmap. An access outside these bytes is a fault. *)
From S2P Require Import KPrelude MemHelpers Spinlock.

Record fa_state := mkFa {
  bitmap : list Z;
  bitmap_base : Z;
  bitmapSize : Z;
  former_count : Z;
  allocator_usable_pages : Z;
  bitmap_lock : bool
}.

Definition set_bitmap (b : list Z) (s : fa_state) : fa_state :=
  mkFa b (bitmap_base s) (bitmapSize s) (former_count s) (allocator_usable_pages s)
       (bitmap_lock s).
Definition set_bitmap_base (b : Z) (s : fa_state) : fa_state :=
  mkFa (bitmap s) b (bitmapSize s) (former_count s) (allocator_usable_pages s)
       (bitmap_lock s).
Definition set_bitmapSize (n : Z) (s : fa_state) : fa_state :=
  mkFa (bitmap s) (bitmap_base s) n (former_count s) (allocator_usable_pages s)
       (bitmap_lock s).
Definition set_former_count (n : Z) (s : fa_state) : fa_state :=
  mkFa (bitmap s) (bitmap_base s) (bitmapSize s) n (allocator_usable_pages s)
       (bitmap_lock s).
Definition set_usable_pages (n : Z) (s : fa_state) : fa_state :=
  mkFa (bitmap s) (bitmap_base s) (bitmapSize s) (former_count s) n (bitmap_lock s).
Definition set_bitmap_lock (b : bool) (s : fa_state) : fa_state :=
  mkFa (bitmap s) (bitmap_base s) (bitmapSize s) (former_count s)
       (allocator_usable_pages s) b.

#[export] Instance bitmap_Lock : Lock fa_state.
Proof.
  refine {| locked := bitmap_lock; set_locked := set_bitmap_lock |};
    [done | done | by intros []].
Defined.

Definition bm_read (i : Z) : M fa_state Z := b ← gets bitmap; of_option (array_get b i).
Definition bm_write (i v : Z) : M fa_state unit :=
  b ← gets bitmap; b' ← of_option (array_set b i v); modify (set_bitmap b').
Definition bm_update (i : Z) (f : Z -> Z) : M fa_state unit :=
  v ← bm_read i; bm_write i (f v).

(** [byte |= mask] and [byte &= ~mask]. *)
Definition mark_byte (used : bool) (mask byte : Z) : Z :=
  if used then byte ||| u8 mask else byte &&& u8 (Z.lnot mask).

(** The block that [fill_bitmap] holds and that [allocator_init], [alloc_frame] and
    [free_frame] repeat in line, [used] choosing between [|=] with 1 bits and
    [&= ~] with 0 bits. *)
Definition span_update (used : bool) (count PageCount : Z) : M fa_state unit :=
  '(count, PageCount) ←
    (if (count &&& 7) >? 0 then
       let bits_left := 8 - (count &&& 7) in
       if bits_left <=? PageCount then
         bm_update (count >>> 3) (mark_byte used (255 >>> (count &&& 7)));;
         mret (count + bits_left, PageCount - bits_left)
       else
         count ← for_ 0 PageCount (fun _ count =>
           bm_update (count >>> 3) (fun b => set_bit b (u8 count &&& 7) (Z.b2z used) 1);;
           mret (count + 1)) count;
         mret (count, 0)
     else mret (count, PageCount));
  let eightPage_count := PageCount >>> 3 in
  let onePage_count := PageCount &&& 7 in
  count ← for_ 0 eightPage_count (fun _ count =>
    bm_write (count >>> 3) (if used then 255 else 0);; mret (count + 8)) count;
  bm_update (count >>> 3) (mark_byte used (255 <<< (8 - onePage_count))).

Definition SetBitmapBase (base : Z) : M fa_state unit := modify (set_bitmap_base base).

Definition fill_bitmap (count PageCount : Z) : M fa_state unit :=
  span_update true count PageCount.

(** [run_simulation]: 0 = wouldn't cross bounds, 1 = would cross bounds, 2 = invalid. *)
Definition run_simulation (count pages : Z) : M fa_state Z :=
  if pages =? 0 then mret 2
  else while FUEL (fun '(count, pages) =>
    if pages >? 0 then
      size ← gets bitmapSize;
      if count >>> 3 >=? size then mret (inr 1)
      else
        byte ← bm_read (count >>> 3);
        let pages := if check_byte byte (u8 count &&& 7) 1 =? 0 then pages - 1 else pages in
        mret (inl (count + 1, pages))
    else mret (inr 0)) (count, pages).

(** The inner [while] of [alloc_frame]: skip used frames; [None] when the bitmap ends. *)
Definition skip_used (count : Z) : M fa_state (option Z) :=
  while FUEL (fun count =>
    byte ← bm_read (count >>> 3);
    if check_byte byte (u8 count &&& 7) 1 =? 1 then
      let count := count + 1 in
      size ← gets bitmapSize;
      if count >>> 3 >=? size then mret (inr None) else mret (inl count)
    else mret (inr (Some count))) count.

(** The outer [while] of [alloc_frame]: the first run of [PageCount] free frames from
    [count] on, as [(count_tar, count)]; [None] when the bitmap ends. *)
Definition find_run (PageCount count : Z) : M fa_state (option (Z * Z)) :=
  while FUEL (fun '(count, count_tar, match_count) =>
    if match_count <? PageCount then
      size ← gets bitmapSize;
      if count >>> 3 >=? size then mret (inr None)
      else
        byte ← bm_read (count >>> 3);
        if check_byte byte (u8 count &&& 7) 1 =? 0 then
          mret (inl (count + 1, count_tar, match_count + 1))
        else if check_byte byte (u8 count &&& 7) 1 =? 1 then
          r ← skip_used count;
          match r with
          | None => mret (inr None)
          | Some count => mret (inl (count, count, 0))
          end
        else mret (inl (count, count_tar, match_count))
    else mret (inr (Some (count_tar, count)))) (count, count, 0).

(** [Attribute]: 0 = success, 1 = not enough memory, 2 = invalid parameter. *)
Definition alloc_frame (PageCount : Z) : M fa_state EFI_MEMORY_DESCRIPTOR :=
  spin_lock;;
  if PageCount =? 0 then spin_unlock;; mret (mkDesc 0 0 0 0 2)
  else
    count ← gets former_count;
    r ← find_run PageCount count;
    match r with
    | None => spin_unlock;; mret (mkDesc 0 0 0 0 1)
    | Some (count_tar, count) =>
        modify (set_former_count count);;
        span_update true count_tar PageCount;;
        spin_unlock;;
        mret (mkDesc 0 (u64 (count_tar <<< 12)) (u64 (count_tar <<< 12)) PageCount 0)
    end.

Definition free_frame (frame : EFI_MEMORY_DESCRIPTOR) : M fa_state unit :=
  spin_lock;;
  let count := PhysicalStart frame >>> 12 in
  let PageCount := NumberOfPages frame in
  former ← gets former_count;
  (if count <? former then modify (set_former_count count) else mret ());;
  span_update false count PageCount;;
  spin_unlock.

(** [allocator_init]: all used, then the memory map's descriptors in their order
    (conventional memory above 1 MiB free, everything else used), the usable frames
    counted, and last the kernel's own frames used. *)
Definition init_descriptor (desc : EFI_MEMORY_DESCRIPTOR) : M fa_state unit :=
  let count := PhysicalStart desc >>> 12 in
  let usable := (Type_ desc =? EfiConventionalMemory) && (1048576 <=? PhysicalStart desc) in
  span_update (negb usable) count (NumberOfPages desc).

Definition count_usable (bitmap_size : Z) : M fa_state unit :=
  modify (set_usable_pages 0);;
  for_ 0 bitmap_size (fun i _ =>
    value ← bm_read i;
    for_ 0 8 (fun bit _ =>
      if (value &&& (1 <<< bit)) =? 0
      then modify (fun s => set_usable_pages (u64 (allocator_usable_pages s + 1)) s)
      else mret ()) ()) ().

Definition allocator_init (bitmap_ : Z) (memory_map : Z -> EFI_MEMORY_DESCRIPTOR)
    (memory_map_size DescriptorSize kernel_start kernel_end bitmap_size : Z)
    : M fa_state unit :=
  modify (set_bitmap_base bitmap_);;
  modify (set_bitmapSize bitmap_size);;
  for_ 0 bitmap_size (fun i _ => bm_write i 255) ();;
  for_ 0 (memory_map_size / DescriptorSize) (fun i _ =>
    init_descriptor (memory_map (u64 (i * DescriptorSize)))) ();;
  count_usable bitmap_size;;
  let PageCount := u64 (kernel_end - kernel_start + 4095) >>> 12 in
  let count := kernel_start >>> 12 in
  span_update true count PageCount.

(** ** The bitmap as a predicate on frames *)

Definition used (bm : list Z) (k : Z) : bool :=
  match bm !! Z.to_nat (k / 8) with
  | Some b => Z.testbit b (7 - k mod 8)
  | None => true
  end.

Definition bytes_ok (bm : list Z) : Prop := Forall (fun b => 0 <= b < 256) bm.

(** [bm'] is [bm] with the frames of [[lo, hi)] set to [v]. *)
Definition marked (v : bool) (lo hi : Z) (bm bm' : list Z) : Prop :=
  length bm' = length bm /\ bytes_ok bm' /\
  forall k, 0 <= k -> used bm' k = if (lo <=? k) && (k <? hi) then v else used bm k.

Lemma marked_refl v lo bm : bytes_ok bm -> marked v lo lo bm bm.
Proof.
  intros. split; [done|]. split; [done|]. intros k Hk.
  destruct (Z.leb_spec lo k), (Z.ltb_spec k lo); try lia; done.
Qed.

Lemma marked_trans v lo mid hi bm b1 b2 :
  lo <= mid <= hi -> marked v lo mid bm b1 -> marked v mid hi b1 b2 -> marked v lo hi bm b2.
Proof.
  intros Hm (L1 & _ & U1) (L2 & B2 & U2). split; [lia|]. split; [done|]. intros k Hk.
  rewrite U2, U1 by done.
  destruct (Z.leb_spec lo k), (Z.leb_spec mid k), (Z.ltb_spec k mid), (Z.ltb_spec k hi);
    try lia; done.
Qed.

Lemma bytes_ok_lookup bm i b : bytes_ok bm -> bm !! i = Some b -> 0 <= b < 256.
Proof. intros H E. by eapply Forall_lookup in H. Qed.

(** Replacing one byte changes its eight frames. *)
Lemma marked_byte v lo hi bm i b nb :
  0 <= i -> bm !! Z.to_nat i = Some b -> bytes_ok bm -> 0 <= nb < 256 ->
  8 * i <= lo -> hi <= 8 * i + 8 ->
  (forall j, 0 <= j < 8 ->
     Z.testbit nb (7 - j) =
     if (lo <=? 8 * i + j) && (8 * i + j <? hi) then v else Z.testbit b (7 - j)) ->
  marked v lo hi bm (<[Z.to_nat i := nb]> bm).
Proof.
  intros Hi Eb Hok Hnb Hlo Hhi Hbits. unfold marked. rewrite length_insert.
  split; [done|]. split; [by apply Forall_insert|]. intros k Hk. unfold used.
  pose proof (Z.div_mod k 8 ltac:(lia)) as Ek. pose proof (Z.mod_pos_bound k 8 ltac:(lia)).
  pose proof (lookup_lt_Some _ _ _ Eb) as Hlt.
  destruct (decide (k / 8 = i)) as [E|E].
  - rewrite E, list_lookup_insert_eq, Eb by done. rewrite Hbits by lia.
    by replace (8 * i + k mod 8) with k by lia.
  - rewrite list_lookup_insert_ne by lia.
    destruct (Z.leb_spec lo k), (Z.ltb_spec k hi); try done.
    exfalso. apply E. lia.
Qed.

(** *** The masks *)

Lemma u8_lnot_bits m i : 0 <= i < 8 -> Z.testbit (u8 (Z.lnot m)) i = negb (Z.testbit m i).
Proof.
  intros. rewrite u8_bits by lia. rewrite Z.lnot_spec by lia.
  by destruct (Z.ltb_spec i 8); [|lia].
Qed.

Lemma mark_byte_bits v mask b i : 0 <= i < 8 ->
  Z.testbit (mark_byte v mask b) i = if Z.testbit mask i then v else Z.testbit b i.
Proof.
  intros Hi. unfold mark_byte.
  destruct v; autorewrite with bits; rewrite ?u8_lnot_bits, ?u8_bits by lia;
    destruct (Z.ltb_spec i 8); try lia; destruct (Z.testbit mask i); cbn;
    rewrite ?orb_true_r, ?orb_false_r, ?andb_true_r, ?andb_false_r; done.
Qed.

Lemma mark_byte_range v mask b : 0 <= b < 256 -> 0 <= mark_byte v mask b < 256.
Proof.
  intros Hb. unfold mark_byte. destruct v.
  - apply (lor_bounded _ _ 8); [lia|lia|apply u8_range].
  - apply (land_bounded _ _ 8); lia.
Qed.

Lemma mask_head_bits r j : 0 <= r < 8 -> 0 <= j < 8 ->
  Z.testbit (255 >>> r) (7 - j) = (r <=? j).
Proof.
  intros. rewrite Z.shiftr_spec by lia. change 255 with (Z.ones 8).
  rewrite testbit_ones by lia. destruct (Z.ltb_spec (7 - j + r) 8), (Z.leb_spec r j); lia.
Qed.

Lemma mask_tail_bits n j : 0 <= n < 8 -> 0 <= j < 8 ->
  Z.testbit (255 <<< (8 - n)) (7 - j) = (j <? n).
Proof.
  intros. rewrite Z.shiftl_spec by lia.
  destruct (Z.ltb_spec j n).
  - change 255 with (Z.ones 8). rewrite testbit_ones by lia. by apply Z.ltb_lt; lia.
  - apply Z.testbit_neg_r. lia.
Qed.

(** *** The updates *)

Lemma wp_bm_read i (Q : Z -> fa_state -> Prop) s :
  0 <= i < Z.of_nat (length (bitmap s)) ->
  (forall b, bitmap s !! Z.to_nat i = Some b -> Q b s) -> wp (bm_read i) Q s.
Proof.
  intros Hi HQ. unfold bm_read. wp_steps. apply wp_of_option.
  destruct (array_get_Some (bitmap s) i Hi) as (b & E1 & E2). eauto.
Qed.

Lemma wp_bm_write i v (Q : unit -> fa_state -> Prop) s :
  0 <= i < Z.of_nat (length (bitmap s)) ->
  Q () (set_bitmap (<[Z.to_nat i := v]> (bitmap s)) s) -> wp (bm_write i v) Q s.
Proof.
  intros Hi HQ. unfold bm_write. wp_steps. rewrite array_set_Some by done.
  wp_steps. apply wp_of_option. eauto.
Qed.

Lemma wp_bm_update i f (Q : unit -> fa_state -> Prop) s :
  0 <= i < Z.of_nat (length (bitmap s)) ->
  (forall b, bitmap s !! Z.to_nat i = Some b ->
     Q () (set_bitmap (<[Z.to_nat i := f b]> (bitmap s)) s)) ->
  wp (bm_update i f) Q s.
Proof.
  intros Hi HQ. unfold bm_update. wp_steps. apply wp_bm_read; [done|].
  intros b Eb. apply wp_bm_write; eauto.
Qed.

(** [s'] is [s] with another bitmap, marked as said. *)
Definition span_done (v : bool) (lo hi : Z) (s s' : fa_state) : Prop :=
  s' = set_bitmap (bitmap s') s /\ marked v lo hi (bitmap s) (bitmap s').

Lemma span_done_refl v lo s : bytes_ok (bitmap s) -> span_done v lo lo s s.
Proof. intros. split; [by destruct s|by apply marked_refl]. Qed.

Lemma span_done_step v lo mid hi s s1 b :
  lo <= mid <= hi -> span_done v lo mid s s1 -> marked v mid hi (bitmap s1) b ->
  span_done v lo hi s (set_bitmap b s1).
Proof.
  intros Hm [E1 M1] M2. split; [by rewrite E1|]. cbn.
  by eapply marked_trans.
Qed.

(** What every frame run that stays in memory satisfies. *)
Definition in_memory (s : fa_state) (count n : Z) : Prop :=
  0 <= count /\ 0 <= n /\ count + n < 8 * Z.of_nat (length (bitmap s)).

Lemma byte_of count : 0 <= count ->
  count >>> 3 = count / 8 /\ count = 8 * (count / 8) + (count &&& 7) /\ 0 <= count &&& 7 < 8.
Proof.
  intros. rewrite shiftr_div, land7 by lia. change (2 ^ 3) with 8.
  pose proof (Z.div_mod count 8). pose proof (Z.mod_pos_bound count 8). lia.
Qed.

Lemma u8_land7 c : u8 c &&& 7 = c &&& 7.
Proof.
  apply Z.bits_inj'. intros i Hi. autorewrite with bits. rewrite u8_bits by lia.
  change 7 with (Z.ones 3). rewrite testbit_ones by lia.
  destruct (Z.ltb_spec i 8), (Z.ltb_spec i 3); try lia; by rewrite ?andb_false_r, ?andb_true_r.
Qed.

(** One more byte-sized piece of a span. *)
Lemma wp_span_piece v lo mid hi s s1 i f (Q : unit -> fa_state -> Prop) :
  span_done v lo mid s s1 -> 0 <= lo <= mid -> mid <= hi -> i = mid / 8 ->
  mid < 8 * Z.of_nat (length (bitmap s)) -> hi <= 8 * i + 8 ->
  (forall b, 0 <= b < 256 -> 0 <= f b < 256) ->
  (forall b j, 0 <= j < 8 -> Z.testbit (f b) (7 - j) =
     if (mid <=? 8 * i + j) && (8 * i + j <? hi) then v else Z.testbit b (7 - j)) ->
  (forall s2, span_done v lo hi s s2 -> Q () s2) ->
  wp (bm_update i f) Q s1.
Proof.
  intros [E1 (L1 & B1 & U1)] Hlo Hmid -> Hlen Hhi Hr Hbits HQ.
  pose proof (Z.div_mod mid 8 ltac:(lia)). pose proof (Z.mod_pos_bound mid 8 ltac:(lia)).
  apply wp_bm_update.
  { split; [apply Z.div_pos; lia|]. apply Z.div_lt_upper_bound; lia. }
  intros b Eb. apply HQ. eapply span_done_step; [|by split|]; [lia|].
  eapply marked_byte; eauto; [apply Z.div_pos; lia| |lia].
  apply Hr. by eapply bytes_ok_lookup.
Qed.

Lemma bm_write_update i v s : 0 <= i < Z.of_nat (length (bitmap s)) ->
  bm_write i v s = bm_update i (fun _ => v) s.
Proof.
  intros Hi. unfold bm_update, bm_read, mbind, M_bind, gets.
  destruct (array_get_Some (bitmap s) i Hi) as (b & E & _). by rewrite E.
Qed.

Lemma span_lengths v lo hi s s' : span_done v lo hi s s' ->
  length (bitmap s') = length (bitmap s).
Proof. by intros [_ [L _]]. Qed.

(** The single-frame loop of a short run inside one byte. *)
Lemma wp_span_short v count n s :
  in_memory s count n -> bytes_ok (bitmap s) -> count / 8 = (count + n) / 8 ->
  wp (for_ 0 n (fun _ count =>
        bm_update (count >>> 3) (fun b => set_bit b (u8 count &&& 7) (Z.b2z v) 1);;
        mret (count + 1)) count)
     (fun c s' => c = count + n /\ span_done v count (count + n) s s') s.
Proof.
  intros (Hc & Hn & Hm) Hok Hbyte.
  eapply wp_mono.
  { apply (wp_for (fun i c s' => c = count + i /\ span_done v count c s s')); [done| |].
    - split; [lia|by apply span_done_refl].
    - intros j c s1 Hj [-> H1]. wp_steps.
      destruct (byte_of (count + j)) as (-> & E & R); [lia|]. rewrite u8_land7.
      eapply (wp_span_piece v count (count + j) (count + (j + 1))); try done; try lia.
      + intros b i Hi. rewrite set_bit_spec by lia. unfold bit_index. cbn [Z.eqb Pos.eqb].
        destruct (Z.eqb_spec (7 - i) (7 - ((count + j) &&& 7))),
          (Z.leb_spec (count + j) (8 * ((count + j) / 8) + i)),
          (Z.ltb_spec (8 * ((count + j) / 8) + i) (count + (j + 1))); try lia; try done.
        by destruct v.
      + intros s2 H2. wp_steps. split; [lia|]. by replace (count + j + 1) with (count + (j + 1)) by lia. }
  intros c1 s1' Hc1. cbn beta in Hc1. rewrite Z.add_0_l in Hc1. destruct Hc1 as [E1 Hs1].
  subst c1. done.
Qed.

(** The whole-byte loop. *)
Lemma wp_span_bytes v s lo count n s1 :
  0 <= lo <= count -> 0 <= n -> (n = 0 \/ count mod 8 = 0) ->
  count + 8 * n < 8 * Z.of_nat (length (bitmap s)) ->
  span_done v lo count s s1 ->
  wp (for_ 0 n (fun _ count =>
        bm_write (count >>> 3) (if v then 255 else 0);; mret (count + 8)) count)
     (fun c s' => c = count + 8 * n /\ span_done v lo c s s') s1.
Proof.
  intros Hlo Hn Hal Hm H1.
  eapply wp_mono.
  { apply (wp_for (fun i c s' => c = count + 8 * i /\ span_done v lo c s s')); [done| |].
    - split; [lia|done].
    - intros j c s2 Hj [-> H2]. wp_steps.
      pose proof (span_lengths _ _ _ _ _ H2) as L.
      destruct (byte_of (count + 8 * j)) as (-> & E & R); [lia|].
      unfold wp at 1. rewrite bm_write_update; [|rewrite L; split;
        [apply Z.div_pos; lia|apply Z.div_lt_upper_bound; lia]].
      fold (wp (bm_update ((count + 8 * j) / 8) (λ _ : Z, if v then 255 else 0))
        (λ _ s', wp (mret (count + 8 * j + 8))
          (λ c s', c = count + 8 * (j + 1) ∧ span_done v lo c s s') s') s2).
      assert ((count + 8 * j) mod 8 = 0) as Hal'.
      { destruct Hal; [lia|]. by rewrite Z.mul_comm, Z.mod_add by lia. }
      rewrite land7, Hal' in E.
      eapply (wp_span_piece v lo (count + 8 * j) (count + 8 * (j + 1))); try done; try lia.
      + intros b _. destruct v; lia.
      + intros b i Hi.
        destruct (Z.leb_spec (count + 8 * j) (8 * ((count + 8 * j) / 8) + i)),
          (Z.ltb_spec (8 * ((count + 8 * j) / 8) + i) (count + 8 * (j + 1))); try lia.
        destruct v; [|apply Z.bits_0]. change 255 with (Z.ones 8).
        rewrite testbit_ones by lia. apply Z.ltb_lt. lia.
      + intros s3 H3. wp_steps. split; [lia|].
        by replace (count + 8 * j + 8) with (count + 8 * (j + 1)) by lia. }
  intros c1 s1' Hc1. cbn beta in Hc1. rewrite Z.add_0_l in Hc1. destruct Hc1 as [E1 Hs1].
  subst c1. done.
Qed.

(** The block marks exactly the frames of the run. *)
Lemma wp_span_update v count n s :
  in_memory s count n -> bytes_ok (bitmap s) ->
  wp (span_update v count n) (fun _ s' => span_done v count (count + n) s s') s.
Proof.
  intros Hin Hok. pose proof Hin as (Hc & Hn & Hm).
  destruct (byte_of count Hc) as (Eb & E & R). unfold span_update. wp_steps.
  eapply (wp_mono _ (fun '(c, m) s' => count <= c /\ 0 <= m /\ c + m = count + n /\
            (m = 0 \/ c mod 8 = 0) /\ span_done v count c s s')).
  - destruct (Z.gtb_spec (count &&& 7) 0) as [Hr|Hr].
    + destruct (Z.leb_spec (8 - (count &&& 7)) n).
      * wp_steps. rewrite Eb.
        eapply (wp_span_piece v count count (count + (8 - (count &&& 7))));
          [by apply span_done_refl|lia|lia|done|lia|lia|by apply mark_byte_range| |].
        -- intros b j Hj. rewrite mark_byte_bits, mask_head_bits by lia.
           destruct (Z.leb_spec (count &&& 7) j), (Z.leb_spec count (8 * (count / 8) + j)),
             (Z.ltb_spec (8 * (count / 8) + j) (count + (8 - (count &&& 7)))); try lia; done.
        -- intros s2 H2. wp_steps. split_and!; [lia..| |done]. right.
           replace (count + (8 - (count &&& 7))) with ((count / 8 + 1) * 8) by lia.
           by apply Z.mod_mul.
      * wp_steps. eapply wp_mono; [apply (wp_span_short v count n); [done..|]|].
        { apply Z.div_unique with ((count &&& 7) + n); lia. }
        cbn. intros c s' [-> H']. split_and!; try done; lia.
    + wp_steps. split_and!; [lia..| |by apply span_done_refl]. right.
      rewrite <- land7. lia.
  - intros [c m] s1 (Hcc & Hm0 & Hsum & Hal & H1). wp_steps.
    destruct (byte_of m Hm0) as (Em & E2 & R2). rewrite Em.
    eapply wp_mono; [apply (wp_span_bytes v s count c (m / 8)); try done; try lia|].
    cbn. intros c' s2 [-> H2].
    assert (0 <= m / 8) by (apply Z.div_pos; lia).
    destruct (byte_of (c + 8 * (m / 8))) as (-> & E3 & R3); [lia|].
    assert ((m &&& 7) = 0 \/ (c + 8 * (m / 8)) &&& 7 = 0) as Hal'.
    { destruct Hal as [->|Hal]; [by left|right].
      rewrite land7, (Z.mul_comm 8), Z.mod_add by lia. done. }
    eapply (wp_span_piece v count (c + 8 * (m / 8)) (count + n));
      [done|lia|lia|done|lia|lia|by apply mark_byte_range| |done].
    intros b j Hj. rewrite mark_byte_bits, mask_tail_bits by lia.
    destruct (Z.ltb_spec j (m &&& 7)),
      (Z.leb_spec (c + 8 * (m / 8)) (8 * ((c + 8 * (m / 8)) / 8) + j)),
      (Z.ltb_spec (8 * ((c + 8 * (m / 8)) / 8) + j) (count + n)); try lia; done.
Qed.

(** ** The search *)

(** The invariant of the allocator's state between two operations: bytes are bytes,
    the bitmap is followed by at least one byte of memory, and it covers at most
    the 2^52 frames of a 64-bit address space. *)
Record fa_ok (s : fa_state) : Prop := {
  fa_bytes : bytes_ok (bitmap s);
  fa_size : 0 <= bitmapSize s < Z.of_nat (length (bitmap s));
  fa_limit : 8 * bitmapSize s <= 2 ^ 52;
  fa_former : 0 <= former_count s
}.

(** The number of frames the bitmap covers. *)
Definition frames (s : fa_state) : Z := 8 * bitmapSize s.

Definition run_free (bm : list Z) (t n : Z) : Prop :=
  forall k, t <= k < t + n -> used bm k = false.

(** [t] is the first place from [lo] on where [n] free frames fit below [hi]. *)
Definition first_fit (bm : list Z) (lo hi n t : Z) : Prop :=
  lo <= t /\ t + n <= hi /\ run_free bm t n /\
  forall t', lo <= t' < t -> ~ run_free bm t' n.

Definition no_fit (bm : list Z) (lo hi n : Z) : Prop :=
  forall t, lo <= t -> t + n <= hi -> ~ run_free bm t n.

Lemma size_test count size : 0 <= count -> 0 <= size ->
  (count >>> 3 >=? size) = (8 * size <=? count).
Proof.
  intros. destruct (byte_of count) as (-> & E & R); [done|].
  destruct (Z.geb_spec (count / 8) size), (Z.leb_spec (8 * size) count); lia.
Qed.

Lemma wp_read_frame count (Q : Z -> fa_state -> Prop) s :
  0 <= count < 8 * Z.of_nat (length (bitmap s)) ->
  (forall b, check_byte b (u8 count &&& 7) 1 = Z.b2z (used (bitmap s) count) -> Q b s) ->
  wp (bm_read (count >>> 3)) Q s.
Proof.
  intros Hc HQ. destruct (byte_of count) as (-> & E & R); [lia|].
  apply wp_bm_read; [lia|]. intros b Eb. apply HQ.
  rewrite u8_land7, check_byte_spec by done. unfold bit_index, used. cbn [Z.eqb Pos.eqb].
  by rewrite Eb, land7.
Qed.

Lemma wp_skip_used count s :
  fa_ok s -> 0 <= count < frames s ->
  wp (skip_used count) (fun r s' => s' = s /\
    match r with
    | None => forall k, count <= k < frames s -> used (bitmap s) k = true
    | Some c => count <= c < frames s /\ used (bitmap s) c = false /\
                forall k, count <= k < c -> used (bitmap s) k = true
    end) s.
Proof.
  intros [Hb Hsz Hlim _] Hc. unfold frames in *.
  eapply (wp_while _
    (fun c s' => s' = s /\ count <= c < 8 * bitmapSize s /\
       forall k, count <= k < c -> used (bitmap s) k = true)
    (fun c _ => 8 * bitmapSize s - c)).
  - intros c s1 (-> & Hcc & Hu). wp_steps. apply wp_read_frame; [lia|]. intros b ->.
    destruct (used (bitmap s) c) eqn:Eu; cbn [Z.b2z Z.eqb Pos.eqb].
    + wp_steps. rewrite size_test by lia.
      assert (forall k, count <= k < c + 1 -> used (bitmap s) k = true) as Hu'.
      { intros k Hk. destruct (decide (k = c)) as [->|]; [done|]. apply Hu. lia. }
      destruct (Z.leb_spec (8 * bitmapSize s) (c + 1)); wp_steps.
      * split; [done|]. intros k Hk. apply Hu'. lia.
      * split_and!; try done; lia.
    + wp_steps. split_and!; try done; lia.
  - split_and!; try done; lia.
  - unfold FUEL. lia.
Qed.

Lemma wp_find_run n count s :
  fa_ok s -> 0 < n -> 0 <= count ->
  wp (find_run n count) (fun r s' => s' = s /\
    match r with
    | None => no_fit (bitmap s) count (frames s) n
    | Some (t, c) => c = t + n /\ first_fit (bitmap s) count (frames s) n t
    end) s.
Proof.
  intros Hok Hn Hcount. pose proof Hok as [Hb Hsz Hlim _].
  set (bm := bitmap s). unfold no_fit, first_fit.
  eapply (wp_while _
    (fun '(c, t, m) s' => s' = s /\ count <= t <= c /\ m = c - t /\ m <= n /\
       (c <= frames s \/ c = count) /\ run_free bm t (c - t) /\
       forall t', count <= t' < t -> ~ run_free bm t' n)
    (fun '(c, _, _) _ => Z.max 0 (frames s + 1 - c))).
  - intros [[c t] m] s1 (-> & Htc & -> & Hmn & Hc & Hfree & Hno).
    destruct (Z.ltb_spec (c - t) n) as [Hlt|Hge].
    2: { wp_steps. split; [done|]. replace (t + n) with c by lia.
      split_and!; try done; try lia.
      by replace n with (c - t) by lia. }
    wp_steps. rewrite size_test by (unfold frames in *; lia).
    fold (frames s). destruct (Z.leb_spec (frames s) c) as [Hge|Hlt2].
    { wp_steps. split; [done|]. intros t' Ht' Hend Hr.
      destruct (decide (t' < t)) as [|]; [by apply (Hno t' ltac:(lia))|]. lia. }
    wp_steps. apply wp_read_frame; [unfold frames in *; lia|]. intros b ->. fold bm.
    destruct (used bm c) eqn:Eu; cbn [Z.b2z Z.eqb Pos.eqb].
    + assert (forall t', count <= t' <= c -> ~ run_free bm t' n) as Hno'.
      { intros t' Ht' Hr. destruct (decide (t' < t)) as [|]; [by apply (Hno t' ltac:(lia))|].
        rewrite (Hr c) in Eu by lia. done. }
      wp_steps. eapply wp_mono; [apply wp_skip_used; [done|lia]|].
      intros [c'|] s2 [-> Hr]; wp_steps.
      * destruct Hr as (Hr1 & Hr2 & Hr3).
        assert (c' <> c) by (intros ->; fold bm in Hr2; congruence). split; [|lia].
        split_and!; try done; try lia.
        { intros k Hk. lia. }
        intros t' Ht'. destruct (decide (t' <= c)); [apply Hno'; lia|].
        intros Hrun. fold bm in Hr3. specialize (Hr3 t' ltac:(lia)).
        rewrite (Hrun t') in Hr3 by lia. done.
      * split; [done|]. intros t' Ht' Hend Hrun. fold bm in Hr.
        destruct (decide (t' <= c)); [by apply (Hno' t' ltac:(lia))|].
        specialize (Hr t' ltac:(lia)). rewrite (Hrun t') in Hr by lia. done.
    + wp_steps. split; [|lia]. split_and!; try done; try lia.
      intros k Hk. destruct (decide (k = c)) as [->|]; [done|]. apply Hfree. lia.
  - split_and!; try done; try lia. intros k Hk. lia.
  - unfold FUEL, frames in *. lia.
Qed.

(** ** What the operations promise *)

(** [alloc_frame n] from [s] answers [d] and leaves [s']: refused for [n = 0], the first
    run that fits marked used, or "not enough memory" with the state untouched. *)
Definition alloc_result (n : Z) (s : fa_state) (d : EFI_MEMORY_DESCRIPTOR) (s' : fa_state)
    : Prop :=
  if n =? 0 then Attribute d = 2 /\ s' = s
  else
    (exists t b, first_fit (bitmap s) (former_count s) (frames s) n t /\
       d = mkDesc 0 (4096 * t) (4096 * t) n 0 /\
       marked true t (t + n) (bitmap s) b /\ s' = set_former_count (t + n) (set_bitmap b s))
    \/ (Attribute d = 1 /\ s' = s /\ no_fit (bitmap s) (former_count s) (frames s) n).

Definition free_result (f : EFI_MEMORY_DESCRIPTOR) (s s' : fa_state) : Prop :=
  let t := PhysicalStart f / 4096 in
  exists b, marked false t (t + NumberOfPages f) (bitmap s) b /\
    s' = set_former_count (Z.min t (former_count s)) (set_bitmap b s).

Lemma frame_addr t : 0 <= t < 2 ^ 52 -> u64 (t <<< 12) = 4096 * t.
Proof. intros. rewrite shiftl_mul by lia. rewrite u64_id by lia. lia. Qed.

Lemma frame_index a : a >>> 12 = a / 4096.
Proof. by rewrite shiftr_div by lia. Qed.

Lemma wp_alloc_frame n s :
  fa_ok s -> bitmap_lock s = false -> 0 <= n -> wp (alloc_frame n) (alloc_result n s) s.
Proof.
  intros Hok Hl Hn. pose proof Hok as [Hb Hsz Hlim Hf]. unfold alloc_frame, alloc_result.
  wp_steps. apply wp_spin_lock; [done|]. cbn [set_locked bitmap_Lock].
  destruct (Z.eqb_spec n 0) as [->|Hn0].
  { wp_steps. apply wp_spin_unlock. wp_steps. split; [done|]. destruct s; cbn in *. by subst. }
  wp_steps. eapply wp_mono; [apply wp_find_run; [by destruct Hok|lia|done]|].
  intros [[t c]|] s1 [-> Hr]; wp_steps.
  - destruct Hr as [-> Hfit]. pose proof Hfit as (H1 & H2 & _). cbn in Hfit, H1, H2.
    unfold frames in *. cbn in *.
    eapply wp_mono; [apply wp_span_update; [split; cbn; lia|done]|]. cbn.
    intros [] s2 [E2 M2]. wp_steps. apply wp_spin_unlock. wp_steps. left. exists t, (bitmap s2).
    rewrite frame_addr by lia. split_and!; try done.
    rewrite E2. destruct s; cbn in *. by subst.
  - apply wp_spin_unlock. wp_steps. right. split_and!; try done. destruct s; cbn in *. by subst.
Qed.

Lemma wp_free_frame f s :
  fa_ok s -> bitmap_lock s = false -> 0 <= PhysicalStart f ->
  in_memory s (PhysicalStart f / 4096) (NumberOfPages f) ->
  wp (free_frame f) (fun _ => free_result f s) s.
Proof.
  intros Hok Hl Hp Hin. pose proof Hok as [Hb Hsz Hlim Hf]. unfold free_frame.
  wp_steps. apply wp_spin_lock; [done|]. rewrite frame_index. wp_steps. cbn.
  set (t := PhysicalStart f / 4096) in *.
  eapply (wp_mono _ (fun _ s1 =>
    s1 = set_former_count (Z.min t (former_count s)) (set_bitmap_lock true s))).
  { destruct (Z.ltb_spec t (former_count s)); wp_steps.
    - by rewrite Z.min_l by lia.
    - rewrite Z.min_r by lia. by destruct s. }
  intros [] s1 ->. wp_steps.
  eapply wp_mono; [apply wp_span_update; done|]. cbn.
  intros [] s2 [E2 M2]. wp_steps. apply wp_spin_unlock. exists (bitmap s2). split; [done|].
  rewrite E2. destruct s; cbn in *. by subst.
Qed.

Lemma marked_ok v lo hi bm b : marked v lo hi bm b -> bytes_ok b.
Proof. by intros (_ & ? & _). Qed.
Lemma marked_length v lo hi bm b : marked v lo hi bm b -> length b = length bm.
Proof. by intros (? & _). Qed.

Lemma alloc_result_ok n s d s' :
  fa_ok s -> 0 <= n -> alloc_result n s d s' -> fa_ok s' /\ bitmap_lock s' = bitmap_lock s.
Proof.
  intros Hok Hn. unfold alloc_result. destruct (n =? 0); [by intros [_ ->]|].
  intros [(t & b & (H1 & H2 & _) & _ & M & ->)|(_ & -> & _)]; [|done].
  destruct Hok. split; [|done]. constructor; cbn; rewrite ?(marked_length _ _ _ _ _ M);
    [by eapply marked_ok|done|done|lia].
Qed.

Lemma free_result_ok f s s' :
  fa_ok s -> 0 <= PhysicalStart f -> free_result f s s' ->
  fa_ok s' /\ bitmap_lock s' = bitmap_lock s.
Proof.
  intros Hok Hp (b & M & ->). destruct Hok. split; [|done].
  constructor; cbn; rewrite ?(marked_length _ _ _ _ _ M);
    [by eapply marked_ok|done|done|divlia].
Qed.

(** The number of free frames among the [n] from [lo] on. *)
Fixpoint free_frames (bm : list Z) (lo : Z) (n : nat) : Z :=
  match n with
  | O => 0
  | Datatypes.S m => (if used bm lo then 0 else 1) + free_frames bm (lo + 1) m
  end.

Lemma free_frames_app bm n m lo :
  free_frames bm lo (n + m) = free_frames bm lo n + free_frames bm (lo + Z.of_nat n) m.
Proof.
  revert lo. induction n as [|n IH]; intros lo; cbn [free_frames Nat.add].
  - by rewrite Z.add_0_r.
  - rewrite IH. replace (lo + Z.of_nat (Datatypes.S n)) with (lo + 1 + Z.of_nat n) by lia. lia.
Qed.

Lemma free_frames_bounds bm n lo : 0 <= free_frames bm lo n <= Z.of_nat n.
Proof.
  revert lo. induction n as [|n IH]; intros lo; cbn [free_frames]; [lia|].
  specialize (IH (lo + 1)). destruct (used bm lo); lia.
Qed.

(** Free frames of [[lo, hi)]. *)
Definition free_in (bm : list Z) (lo hi : Z) : Z := free_frames bm lo (Z.to_nat (hi - lo)).

Lemma free_in_snoc bm lo c : lo <= c ->
  free_in bm lo (c + 1) = free_in bm lo c + if used bm c then 0 else 1.
Proof.
  intros. unfold free_in. replace (Z.to_nat (c + 1 - lo)) with (Z.to_nat (c - lo) + 1)%nat by lia.
  rewrite free_frames_app. cbn [free_frames].
  replace (lo + Z.of_nat (Z.to_nat (c - lo))) with c by lia. lia.
Qed.

Lemma wp_run_simulation count pages s :
  fa_ok s -> 0 <= count -> 0 < pages ->
  wp (run_simulation count pages) (fun r s' => s' = s /\
    (r = 0 /\ pages <= free_in (bitmap s) count (frames s) \/
     r = 1 /\ free_in (bitmap s) count (frames s) < pages)) s.
Proof.
  intros Hok Hc Hp. pose proof Hok as [Hb Hsz Hlim _]. unfold run_simulation.
  destruct (Z.eqb_spec pages 0); [lia|]. set (bm := bitmap s).
  eapply (wp_while _
    (fun '(c, p) s' => s' = s /\ count <= c /\ (c <= frames s \/ c = count) /\ 0 <= p /\
       p + free_in bm count c = pages)
    (fun '(c, _) _ => Z.max 0 (frames s + 1 - c))).
  - intros [c p] s1 (-> & Hcc & Hcf & Hp0 & Hsum).
    destruct (Z.gtb_spec p 0).
    2: { wp_steps. split; [done|]. left. split; [done|].
      unfold free_in in *. destruct Hcf as [Hcf| ->].
      - replace (Z.to_nat (frames s - count))
          with (Z.to_nat (c - count) + Z.to_nat (frames s - c))%nat by lia.
        rewrite free_frames_app.
        pose proof (free_frames_bounds bm (Z.to_nat (frames s - c))
          (count + Z.of_nat (Z.to_nat (c - count)))). lia.
      - rewrite Z.sub_diag in Hsum. change (p + 0 = pages) in Hsum.
        pose proof (free_frames_bounds bm (Z.to_nat (frames s - count)) count). lia. }
    wp_steps. rewrite size_test by (unfold frames in *; lia). fold (frames s).
    destruct (Z.leb_spec (frames s) c) as [Hge|Hlt].
    { wp_steps. split; [done|]. right. split; [done|]. destruct Hcf as [Hcf| ->].
      - replace c with (frames s) in * by lia. lia.
      - unfold free_in in *. replace (Z.to_nat (frames s - count)) with 0%nat by lia. cbn. lia. }
    wp_steps. apply wp_read_frame; [unfold frames in *; lia|]. intros b ->. fold bm.
    pose proof (free_in_snoc bm count c Hcc) as Hsn.
    destruct (used bm c); cbn [Z.b2z Z.eqb Pos.eqb]; wp_steps; cbv beta iota in Hsn; (split; [|lia]);
      split_and!; try done; lia.
  - split_and!; try done; try lia. unfold free_in. rewrite Z.sub_diag.
    change (pages + 0 = pages). lia.
  - unfold FUEL, frames in *. lia.
Qed.

(** ** Initialisation from the firmware's memory map *)

Definition usable_desc (d : EFI_MEMORY_DESCRIPTOR) : bool :=
  (Type_ d =? EfiConventionalMemory) && (1048576 <=? PhysicalStart d).
Definition covers (d : EFI_MEMORY_DESCRIPTOR) (k : Z) : bool :=
  (PhysicalStart d / 4096 <=? k) && (k <? PhysicalStart d / 4096 + NumberOfPages d).

(** The descriptors the initialiser reads, in order. *)
Definition map_entries (memory_map : Z -> EFI_MEMORY_DESCRIPTOR) (dsz : Z) (n : nat)
    : list EFI_MEMORY_DESCRIPTOR :=
  map (fun i => memory_map (u64 (Z.of_nat i * dsz))) (seq 0 n).

(** The specification: a frame is used unless the last descriptor that covers it is
    usable conventional memory. *)
Definition map_used (ds : list EFI_MEMORY_DESCRIPTOR) (k : Z) : bool :=
  fold_left (fun u d => if covers d k then negb (usable_desc d) else u) ds true.

Lemma map_entries_snoc mm dsz n :
  map_entries mm dsz (Datatypes.S n) = map_entries mm dsz n ++ [mm (u64 (Z.of_nat n * dsz))].
Proof. unfold map_entries. by rewrite seq_S, map_app. Qed.

Lemma map_used_snoc ds d k :
  map_used (ds ++ [d]) k = if covers d k then negb (usable_desc d) else map_used ds k.
Proof. unfold map_used. by rewrite fold_left_app. Qed.

Lemma free_frames_ext b1 b2 n lo :
  (forall k, lo <= k < lo + Z.of_nat n -> used b1 k = used b2 k) ->
  free_frames b1 lo n = free_frames b2 lo n.
Proof.
  revert lo. induction n as [|n IH]; intros lo H; cbn [free_frames]; [done|].
  rewrite (H lo), (IH (lo + 1)) by (intros; try apply H; lia). done.
Qed.

(** The 0 bits among the [n] lowest of a byte. *)
Fixpoint zeros (value : Z) (n : nat) : Z :=
  match n with
  | O => 0
  | Datatypes.S m => zeros value m + (if Z.testbit value (Z.of_nat m) then 0 else 1)
  end.

Lemma zeros_bounds value n : 0 <= zeros value n <= Z.of_nat n.
Proof. induction n as [|n IH]; cbn [zeros]; [lia|]. destruct (Z.testbit _ _); lia. Qed.

(** Counted from either end, a byte has the same number of 0 bits. *)
Lemma zeros_free bm i value : 0 <= i -> bm !! Z.to_nat i = Some value ->
  zeros value 8 = free_frames bm (8 * i) 8.
Proof.
  intros Hi Ev.
  assert (forall j, 0 <= j < 8 -> used bm (8 * i + j) = Z.testbit value (7 - j)) as Hu.
  { intros j Hj. unfold used. replace ((8 * i + j) / 8) with i by divlia. rewrite Ev.
    f_equal. divlia. }
  cbn [zeros free_frames]. rewrite <- !Z.add_assoc. rewrite !Hu by lia.
  replace (used bm (8 * i)) with (Z.testbit value 7)
    by (rewrite <- (Z.add_0_r (8 * i)), Hu by lia; done).
  change (Z.of_nat 0) with 0. change (Z.of_nat 1) with 1. change (Z.of_nat 2) with 2.
  change (Z.of_nat 3) with 3. change (Z.of_nat 4) with 4. change (Z.of_nat 5) with 5.
  change (Z.of_nat 6) with 6. change (Z.of_nat 7) with 7.
  change (7 - 1) with 6. change (7 - (1 + 1)) with 5. change (7 - (1 + (1 + 1))) with 4.
  change (7 - (1 + (1 + (1 + 1)))) with 3. change (7 - (1 + (1 + (1 + (1 + 1))))) with 2.
  change (7 - (1 + (1 + (1 + (1 + (1 + 1)))))) with 1.
  change (7 - (1 + (1 + (1 + (1 + (1 + (1 + 1))))))) with 0. lia.
Qed.

Lemma bit_test value bit : 0 <= bit ->
  ((value &&& (1 <<< bit)) =? 0) = negb (Z.testbit value bit).
Proof.
  intros Hbit. rewrite Z.shiftl_1_l. destruct (Z.testbit value bit) eqn:E; cbn.
  - apply Z.eqb_neq. intros H0. apply (f_equal (fun z => Z.testbit z bit)) in H0.
    by rewrite Z.land_spec, E, Z.pow2_bits_true, Z.bits_0 in H0 by lia.
  - apply Z.eqb_eq. apply Z.bits_inj'. intros m Hm.
    rewrite Z.land_spec, Z.pow2_bits_eqb, Z.bits_0 by lia.
    destruct (Z.eqb_spec bit m) as [<-|]; [by rewrite E|apply andb_false_r].
Qed.

Lemma set_usable_pages_twice a b s : set_usable_pages a (set_usable_pages b s) = set_usable_pages a s.
Proof. done. Qed.

Lemma wp_count_usable size s :
  0 <= size < Z.of_nat (length (bitmap s)) -> 8 * size <= 2 ^ 52 ->
  wp (count_usable size) (fun _ s' =>
    s' = set_usable_pages (free_in (bitmap s) 0 (8 * size)) s) s.
Proof.
  intros Hsz Hlim. unfold count_usable. wp_steps.
  eapply wp_mono.
  { apply (wp_for (fun i _ s' =>
      s' = set_usable_pages (free_in (bitmap s) 0 (8 * i)) s)); [lia|done|].
    intros i [] s1 Hi ->. wp_steps. apply wp_bm_read; [cbn; lia|]. cbn [bitmap set_usable_pages].
    intros value Ev. set (u := free_in (bitmap s) 0 (8 * i)).
    assert (0 <= u <= 2 ^ 52) as Hu.
    { subst u. unfold free_in.
      pose proof (free_frames_bounds (bitmap s) (Z.to_nat (8 * i - 0)) 0). lia. }
    eapply wp_mono.
    { apply (wp_for (fun bit _ s' =>
        s' = set_usable_pages (u + zeros value (Z.to_nat bit)) s)); [lia| |].
      - change (zeros value (Z.to_nat 0)) with 0. by rewrite Z.add_0_r.
      - intros bit [] s2 Hbit ->. rewrite bit_test by lia.
        replace (Z.to_nat (bit + 1)) with (Datatypes.S (Z.to_nat bit)) by lia.
        cbn [zeros]. rewrite Z2Nat.id by lia.
        pose proof (zeros_bounds value (Z.to_nat bit)).
        destruct (Z.testbit value bit); cbn [negb]; wp_steps;
          cbn [allocator_usable_pages set_usable_pages];
          rewrite ?set_usable_pages_twice, ?u64_id by lia; f_equal; lia. }
    intros [] s2 Hs2. cbv beta in Hs2. rewrite Hs2. f_equal.
    change (Z.to_nat (0 + 8)) with 8%nat.
    rewrite (zeros_free (bitmap s) i) by (done || lia). subst u. unfold free_in.
    replace (Z.to_nat (8 * (i + 1) - 0)) with (Z.to_nat (8 * i - 0) + 8)%nat by lia.
    rewrite free_frames_app. do 2 f_equal. lia. }
  intros [] s' Hs'. by rewrite Hs', Z.add_0_l.
Qed.

(** What [allocator_init] establishes. *)
Record init_result (ds : list EFI_MEMORY_DESCRIPTOR)
    (base kernel_start kernel_end size : Z) (s s' : fa_state) : Prop := {
  init_base : bitmap_base s' = base;
  init_size : bitmapSize s' = size;
  init_former : former_count s' = former_count s;
  init_lock : bitmap_lock s' = bitmap_lock s;
  init_ok : fa_ok s';
  init_used : forall k, 0 <= k < 8 * size -> used (bitmap s') k =
    ((kernel_start / 4096 <=? k) &&
     (k <? kernel_start / 4096 + (kernel_end - kernel_start + 4095) / 4096))
    || map_used ds k;
  init_usable : forall b, (forall k, 0 <= k < 8 * size -> used b k = map_used ds k) ->
    allocator_usable_pages s' = free_in b 0 (8 * size)
}.

(** The state while the memory map is being read. *)
Definition init_inv (ds : list EFI_MEMORY_DESCRIPTOR) (base size : Z) (s s' : fa_state) : Prop :=
  s' = set_bitmap (bitmap s') (set_bitmapSize size (set_bitmap_base base s)) /\
  length (bitmap s') = length (bitmap s) /\ bytes_ok (bitmap s') /\
  forall k, 0 <= k < 8 * size -> used (bitmap s') k = map_used ds k.

Lemma wp_init_fill base size s :
  bytes_ok (bitmap s) -> 0 <= size < Z.of_nat (length (bitmap s)) ->
  wp (for_ 0 size (fun i _ => bm_write i 255) ()) (fun _ => init_inv [] base size s)
     (set_bitmapSize size (set_bitmap_base base s)).
Proof.
  intros Hb Hsz. set (s0 := set_bitmapSize size (set_bitmap_base base s)).
  eapply wp_mono.
  { apply (wp_for (fun i _ s' => s' = set_bitmap (bitmap s') s0 /\
      marked true 0 (8 * i) (bitmap s) (bitmap s'))); [lia| |].
    - split; [done|]. by apply marked_refl.
    - intros i [] s1 Hi [E M]. pose proof (marked_length _ _ _ _ _ M) as L.
      apply wp_bm_write; [lia|]. split; [by rewrite E|]. cbn.
      destruct (array_get_Some (bitmap s1) i) as (b & _ & Eb); [lia|].
      eapply (marked_trans _ 0 (8 * i)); [|done|]; [lia|].
      eapply marked_byte; eauto using marked_ok; try lia.
      intros j Hj. change 255 with (Z.ones 8). rewrite testbit_ones by lia.
      destruct (Z.leb_spec (8 * i) (8 * i + j)), (Z.ltb_spec (8 * i + j) (8 * (i + 1)));
        try lia. cbn [andb]. apply Z.ltb_lt. lia. }
  intros [] s' [E (L & B & U)]. split_and!; [by rewrite E|done|done|].
  intros k Hk. rewrite U by lia. cbn.
  destruct (Z.leb_spec 0 k), (Z.ltb_spec k (8 * (0 + size))); try lia; done.
Qed.

Lemma wp_init_descriptor ds base size s s1 d :
  init_inv ds base size s s1 -> in_memory s (PhysicalStart d / 4096) (NumberOfPages d) ->
  wp (init_descriptor d) (fun _ => init_inv (ds ++ [d]) base size s) s1.
Proof.
  intros (E & L & B & U) Hin. unfold init_descriptor. rewrite frame_index.
  fold (usable_desc d). eapply wp_mono.
  { apply wp_span_update; [|done]. unfold in_memory in *. by rewrite L. }
  intros [] s2 [E2 (L2 & B2 & U2)]. split_and!; [by rewrite E2, E|by rewrite L2|done|].
  intros k Hk. rewrite U2, map_used_snoc, U by lia. unfold covers. done.
Qed.

Lemma wp_allocator_init base mm msz dsz kstart kend size s :
  bytes_ok (bitmap s) -> 0 <= size < Z.of_nat (length (bitmap s)) -> 8 * size <= 2 ^ 52 ->
  0 <= former_count s -> 0 <= msz / dsz ->
  0 <= kstart <= kend -> kend + 4095 < 2 ^ 64 ->
  in_memory s (kstart / 4096) ((kend - kstart + 4095) / 4096) ->
  Forall (fun d => in_memory s (PhysicalStart d / 4096) (NumberOfPages d))
    (map_entries mm dsz (Z.to_nat (msz / dsz))) ->
  wp (allocator_init base mm msz dsz kstart kend size) (fun _ s' =>
    init_result (map_entries mm dsz (Z.to_nat (msz / dsz))) base kstart kend size s s') s.
Proof.
  intros Hb Hsz Hlim Hf Hn Hk Hk64 Hkm Hds. unfold allocator_init. wp_steps.
  eapply wp_mono; [by apply wp_init_fill|]. intros [] s1 H1. wp_steps.
  eapply wp_mono.
  { apply (wp_for (fun i _ s' => init_inv (map_entries mm dsz (Z.to_nat i)) base size s s'));
      [done|done|].
    intros i [] s2 Hi H2. replace (Z.to_nat (i + 1)) with (Datatypes.S (Z.to_nat i)) by lia.
    rewrite map_entries_snoc, Z2Nat.id by lia. apply wp_init_descriptor; [done|].
    apply (Forall_lookup_1 _ _ (Z.to_nat i) _ Hds). unfold map_entries. rewrite list_lookup_fmap.
    rewrite lookup_seq_lt by lia. cbn. by rewrite Z2Nat.id by lia. }
  intros [] s2 H2. cbv beta in H2. rewrite Z.add_0_l in H2.
  set (ds := map_entries mm dsz (Z.to_nat (msz / dsz))) in *. wp_steps.
  destruct H2 as (E & L & B & U).
  eapply wp_mono; [apply wp_count_usable; [by rewrite L|done]|]. intros [] s3 ->. wp_steps.
  rewrite u64_id by lia. rewrite !frame_index.
  eapply wp_mono; [apply wp_span_update; [|done]|].
  { unfold in_memory in *. cbn. by rewrite L. }
  intros [] s4 [E4 (L4 & B4 & U4)]. cbn in *.
  pose proof (f_equal bitmapSize E4) as Esz. pose proof (f_equal bitmap_base E4) as Eba.
  pose proof (f_equal former_count E4) as Efc. pose proof (f_equal bitmap_lock E4) as Elk.
  pose proof (f_equal allocator_usable_pages E4) as Eus.
  pose proof (f_equal bitmapSize E) as Esz1. pose proof (f_equal bitmap_base E) as Eba1.
  pose proof (f_equal former_count E) as Efc1. pose proof (f_equal bitmap_lock E) as Elk1.
  cbn in *. constructor; try congruence.
  - constructor; [done|rewrite Esz, Esz1, L4, L; lia..| |]; try lia.
  - intros k Hk'. rewrite U4, U by lia.
    destruct ((_ <=? k) && (k <? _)); done.
  - intros b Hbk. rewrite Eus. unfold free_in. apply free_frames_ext. intros k Hk'.
    rewrite U, Hbk by lia. done.
Qed.

(** ** The properties of the frame allocator *)

(** C1: [alloc_frame] is total on a well-formed bitmap: it returns, with the lock
    free and the bitmap well formed again. With zero pages it answers "invalid";
    otherwise it either takes the first run of that many free frames at or above
    [former_count], marks exactly its frames and moves [former_count] behind it, or it
    changes nothing, answers "not enough memory", and there is no such run. *)
Theorem alloc_frame_correct n s :
  fa_ok s -> bitmap_lock s = false -> 0 <= n ->
  exists d s', alloc_frame n s = Done d s' /\ alloc_result n s d s' /\
    fa_ok s' /\ bitmap_lock s' = false.
Proof.
  intros Hok Hl Hn. destruct (wp_inv _ _ _ (wp_alloc_frame n s Hok Hl Hn)) as (d & s' & E & R).
  exists d, s'. rewrite <- Hl. split_and!; try done; by eapply alloc_result_ok.
Qed.

(** [free_frame] is total on frames of the bitmap: it returns, with the lock free
    and the bitmap well formed; exactly the frames of the descriptor become free, and
    [former_count] falls to the first of them when it lay above. *)
Lemma free_frame_correct f s :
  fa_ok s -> bitmap_lock s = false -> 0 <= PhysicalStart f ->
  in_memory s (PhysicalStart f / 4096) (NumberOfPages f) ->
  exists s', free_frame f s = Done () s' /\ free_result f s s' /\
    fa_ok s' /\ bitmap_lock s' = false.
Proof.
  intros Hok Hl Hp Hin.
  destruct (wp_inv _ _ _ (wp_free_frame f s Hok Hl Hp Hin)) as ([] & s' & E & R).
  exists s'. rewrite <- Hl. split_and!; try done; by eapply free_result_ok.
Qed.

(** A successful allocation, opened. *)
Lemma alloc_inv n s d s1 :
  fa_ok s -> bitmap_lock s = false -> 0 < n -> alloc_frame n s = Done d s1 -> Attribute d = 0 ->
  exists t b, first_fit (bitmap s) (former_count s) (frames s) n t /\
    d = mkDesc 0 (4096 * t) (4096 * t) n 0 /\ marked true t (t + n) (bitmap s) b /\
    s1 = set_former_count (t + n) (set_bitmap b s).
Proof.
  intros Hok Hl Hn E Hd.
  pose proof (wp_done _ _ _ _ _ (wp_alloc_frame n s Hok Hl ltac:(lia)) E) as R.
  unfold alloc_result in R. destruct (Z.eqb_spec n 0); [lia|].
  destruct R as [(t & b & R)|(Hd1 & _)]; [by exists t, b|congruence].
Qed.

Lemma free_after_alloc n s d s1 :
  fa_ok s -> bitmap_lock s = false -> 0 < n -> alloc_frame n s = Done d s1 -> Attribute d = 0 ->
  exists t b, PhysicalStart d = 4096 * t /\ first_fit (bitmap s) (former_count s) (frames s) n t /\
    length b = length (bitmap s) /\ bytes_ok b /\
    (forall k, 0 <= k -> used b k = used (bitmap s) k) /\
    free_frame d s1 = Done () (set_former_count t (set_bitmap b s)).
Proof.
  intros Hok Hl Hn E Hd.
  destruct (alloc_inv n s d s1 Hok Hl Hn E Hd) as (t & b & Hfit & -> & M & ->).
  pose proof (alloc_result_ok n s _ _ Hok ltac:(lia) ltac:(unfold alloc_result;
    destruct (Z.eqb_spec n 0); [lia|left; by exists t, b])) as [Hok1 Hl1].
  pose proof Hfit as (H1 & H2 & Hrun & _). destruct Hok as [_ Hsz _ Hf]. unfold frames in *.
  assert (4096 * t / 4096 = t) as Ht by divlia.
  destruct (wp_inv _ _ _ (wp_free_frame (mkDesc 0 (4096 * t) (4096 * t) n 0) _ Hok1
    ltac:(by rewrite Hl1) ltac:(cbn; lia) ltac:(unfold in_memory; cbn;
      rewrite Ht, (marked_length _ _ _ _ _ M); lia))) as ([] & s2 & E2 & R2).
  destruct R2 as (b2 & M2 & ->). cbn in *. rewrite Ht in *. rewrite Z.min_l in E2 by lia.
  exists t, b2. destruct M as (L & _ & U), M2 as (L2 & B2 & U2).
  split_and!; try done; [lia|]. intros k Hk. rewrite U2, U by done.
  destruct (Z.leb_spec t k), (Z.ltb_spec k (t + n)); try done. cbn. symmetry. by apply Hrun.
Qed.

(** A successful allocation that is freed at once leaves every frame as it was,
    and the next allocation of at most that many frames returns the same address. *)
Lemma alloc_free_alloc n m s d s1 :
  fa_ok s -> bitmap_lock s = false -> 0 < m <= n ->
  alloc_frame n s = Done d s1 -> Attribute d = 0 ->
  exists s2 d' s3, free_frame d s1 = Done () s2 /\
    (forall k, 0 <= k -> used (bitmap s2) k = used (bitmap s) k) /\
    alloc_frame m s2 = Done d' s3 /\ Attribute d' = 0 /\ PhysicalStart d' = PhysicalStart d.
Proof.
  intros Hok Hl Hm E Hd.
  destruct (free_after_alloc n s d s1 Hok Hl ltac:(lia) E Hd)
    as (t & b & Ep & (H1 & H2 & Hrun & _) & L & B & U & Ef).
  pose proof Hok as [_ Hsz Hlim Hf].
  destruct (wp_inv _ _ _ (wp_alloc_frame m (set_former_count t (set_bitmap b s))
    ltac:(constructor; cbn; rewrite ?L; lia || done) Hl ltac:(lia))) as (d' & s3 & Ea & R).
  eexists _, d', s3. split_and!; [done|done|done|..];
    unfold alloc_result in R; destruct (Z.eqb_spec m 0); try lia; cbn in R;
    (assert (run_free b t m) as Hfree by (intros k Hk; rewrite U by lia; apply Hrun; lia));
    destruct R as [(t' & b' & (H1' & H2' & Hr' & Hfirst) & -> & _)|(_ & _ & Hno)];
    try done; try (exfalso; apply (Hno t); unfold frames in *; cbn; lia || done).
  cbn [PhysicalStart]. rewrite Ep. destruct (Z.eq_dec t' t) as [->|]; [done|].
  exfalso. apply (Hfirst t); [lia|done].
Qed.

(** [run_simulation] answers 0 exactly when the bitmap still has the wanted number
    of free frames from the given one on (not necessarily adjacent), 1 when it does not,
    and it leaves the allocator as it was. *)
Lemma run_simulation_counts count pages s :
  fa_ok s -> 0 <= count -> 0 < pages ->
  run_simulation count pages s =
  Done (if pages <=? free_in (bitmap s) count (frames s) then 0 else 1) s.
Proof.
  intros Hok Hc Hp.
  destruct (wp_inv _ _ _ (wp_run_simulation count pages s Hok Hc Hp))
    as (r & s' & E & -> & [[-> H]|[-> H]]); rewrite E; destruct (Z.leb_spec pages
    (free_in (bitmap s) count (frames s))); done || lia.
Qed.

(** C4: [allocator_init] returns with a well-formed bitmap in which a frame is free
    exactly when the last descriptor of the memory map that covers it is conventional
    memory above 1 MiB and the frame is not one of the kernel's; the usable pages it
    counts are the free frames before the kernel's are taken. *)
Theorem allocator_init_correct base mm msz dsz kstart kend size s :
  bytes_ok (bitmap s) -> 0 <= size < Z.of_nat (length (bitmap s)) -> 8 * size <= 2 ^ 52 ->
  0 <= former_count s -> 0 <= msz / dsz -> 0 <= kstart <= kend -> kend + 4095 < 2 ^ 64 ->
  in_memory s (kstart / 4096) ((kend - kstart + 4095) / 4096) ->
  Forall (fun d => in_memory s (PhysicalStart d / 4096) (NumberOfPages d))
    (map_entries mm dsz (Z.to_nat (msz / dsz))) ->
  exists s', allocator_init base mm msz dsz kstart kend size s = Done () s' /\
    init_result (map_entries mm dsz (Z.to_nat (msz / dsz))) base kstart kend size s s'.
Proof.
  intros. destruct (wp_inv _ _ _ (wp_allocator_init base mm msz dsz kstart kend size s
    ltac:(done) ltac:(done) ltac:(done) ltac:(done) ltac:(done) ltac:(done) ltac:(done)
    ltac:(done) ltac:(done))) as ([] & s' & E & R). by exists s'.
Qed.

(** [fill_bitmap] marks exactly the frames of its run as used, whatever the run's
    alignment and length, and changes nothing else of the allocator. *)
Lemma fill_bitmap_exact count n s :
  in_memory s count n -> bytes_ok (bitmap s) ->
  exists b, fill_bitmap count n s = Done () (set_bitmap b s) /\
    length b = length (bitmap s) /\
    forall k, 0 <= k -> used b k = (count <=? k) && (k <? count + n) || used (bitmap s) k.
Proof.
  intros Hin Hb. destruct (wp_inv _ _ _ (wp_span_update true count n s Hin Hb))
    as ([] & s' & E & Es & L & _ & U).
  exists (bitmap s'). split_and!; [unfold fill_bitmap; by rewrite <- Es|done|].
  intros k Hk. rewrite U by done. by destruct (_ && _).
Qed.

(** Ten free frames behind four used ones, and a byte behind the bitmap. *)
Definition sample_fa : fa_state := mkFa [255; 240; 0; 127; 255] 0x100000 4 9 0 false.

Lemma sample_fa_ok : fa_ok sample_fa.
Proof. constructor; [unfold bytes_ok; repeat (constructor; [lia|]); constructor|cbn; lia..]. Qed.

Lemma alloc_frame_correct_witness :
  exists d s', alloc_frame 3 sample_fa = Done d s' /\ alloc_result 3 sample_fa d s' /\
    fa_ok s' /\ bitmap_lock s' = false.
Proof. apply (alloc_frame_correct 3 sample_fa sample_fa_ok); [reflexivity|lia]. Defined.

Lemma free_frame_correct_witness :
  let f := mkDesc 0 0x3000 0x3000 7 0 in
  exists s', free_frame f sample_fa = Done () s' /\ free_result f sample_fa s' /\
    fa_ok s' /\ bitmap_lock s' = false.
Proof.
  apply (free_frame_correct (mkDesc 0 0x3000 0x3000 7 0) sample_fa sample_fa_ok);
    [reflexivity|cbn; lia|vm_compute; intuition discriminate].
Defined.

Lemma alloc_free_alloc_witness : exists s1 s2 d' s3,
  alloc_frame 13 sample_fa = Done (mkDesc 0 0xc000 0xc000 13 0) s1 /\
  free_frame (mkDesc 0 0xc000 0xc000 13 0) s1 = Done () s2 /\
  (forall k, 0 <= k -> used (bitmap s2) k = used (bitmap sample_fa) k) /\
  alloc_frame 2 s2 = Done d' s3 /\ Attribute d' = 0 /\ PhysicalStart d' = 0xc000.
Proof.
  eexists. 
  destruct (alloc_free_alloc 13 2 sample_fa (mkDesc 0 0xc000 0xc000 13 0)
    (mkFa [255; 255; 255; 255; 255] 0x100000 4 25 0 false) sample_fa_ok eq_refl
    ltac:(lia) ltac:(vm_compute; reflexivity) eq_refl) as (s2 & d' & s3 & H).
  exists s2, d', s3. split; [vm_compute; reflexivity|exact H].
Defined.

Lemma run_simulation_counts_witness :
  run_simulation 9 13 sample_fa = Done 0 sample_fa /\
  run_simulation 9 14 sample_fa = Done 1 sample_fa.
Proof.
  split; [exact (run_simulation_counts 9 13 sample_fa sample_fa_ok ltac:(lia) ltac:(lia))|].
  exact (run_simulation_counts 9 14 sample_fa sample_fa_ok ltac:(lia) ltac:(lia)).
Defined.

(** A map of a reserved and a conventional range, and a kernel in the latter. *)
Definition sample_map (offset : Z) : EFI_MEMORY_DESCRIPTOR :=
  if offset =? 0 then mkDesc 0 0 0 256 0 else mkDesc EfiConventionalMemory 0x100000 0 64 0.

Definition blank_fa : fa_state := mkFa (repeat 0 48) 0 0 0 0 false.

Lemma allocator_init_correct_witness :
  exists s', allocator_init 0x1000 sample_map 96 48 0x104000 0x108000 40 blank_fa = Done () s' /\
    init_result (map_entries sample_map 48 2) 0x1000 0x104000 0x108000 40 blank_fa s'.
Proof.
  apply (allocator_init_correct 0x1000 sample_map 96 48 0x104000 0x108000 40 blank_fa);
    try (vm_compute; intuition discriminate).
  - unfold bytes_ok, blank_fa. cbn. repeat (constructor; [lia|]). constructor.
  - repeat (constructor; [vm_compute; intuition discriminate|]). constructor.
Defined.

Lemma fill_bitmap_exact_witness :
  exists b, fill_bitmap 13 9 sample_fa = Done () (set_bitmap b sample_fa) /\
    length b = length (bitmap sample_fa) /\
    forall k, 0 <= k ->
      used b k = (13 <=? k) && (k <? 13 + 9) || used (bitmap sample_fa) k.
Proof.
  apply (fill_bitmap_exact 13 9 sample_fa); [vm_compute; intuition discriminate|].
  exact (fa_bytes _ sample_fa_ok).
Defined.
