(* ===== verification/Paging.v ===== *)
(** * Four-level paging ([x86-64/paging.c])

    Physical memory outside the frame bitmap is a map from the addresses of 64-bit
    words to their values, words never written reading as 0; the kernel reaches it
    at its physical addresses. [pg_fa] is the frame allocator, [invlpg] the
    addresses whose translations were flushed, in order. *)
From S2P Require Import KPrelude MemHelpers Spinlock FrameAlloc.

Record pg_state := mkPg {
  pg_fa : fa_state;
  pg_mem : gmap Z Z;
  GbPageSupport : Z;
  paging_allocated_pages : Z;
  KernelPML4 : Z;
  invlpg : list Z
}.

Definition set_fa (f : fa_state) (s : pg_state) : pg_state :=
  mkPg f (pg_mem s) (GbPageSupport s) (paging_allocated_pages s) (KernelPML4 s) (invlpg s).
Definition set_mem (m : gmap Z Z) (s : pg_state) : pg_state :=
  mkPg (pg_fa s) m (GbPageSupport s) (paging_allocated_pages s) (KernelPML4 s) (invlpg s).
Definition set_GbPageSupport (g : Z) (s : pg_state) : pg_state :=
  mkPg (pg_fa s) (pg_mem s) g (paging_allocated_pages s) (KernelPML4 s) (invlpg s).
Definition set_allocated (n : Z) (s : pg_state) : pg_state :=
  mkPg (pg_fa s) (pg_mem s) (GbPageSupport s) n (KernelPML4 s) (invlpg s).
Definition set_KernelPML4 (p : Z) (s : pg_state) : pg_state :=
  mkPg (pg_fa s) (pg_mem s) (GbPageSupport s) (paging_allocated_pages s) p (invlpg s).
Definition set_invlpg (l : list Z) (s : pg_state) : pg_state :=
  mkPg (pg_fa s) (pg_mem s) (GbPageSupport s) (paging_allocated_pages s) (KernelPML4 s) l.

Definition fa {A} (m : M fa_state A) : M pg_state A := zoom pg_fa set_fa m.

(** [p[i]] of a [u64 *p]. *)
Definition word (m : gmap Z Z) (p i : Z) : Z := default 0 (m !! (p + 8 * i)).
Definition read64 (p i : Z) : M pg_state Z := gets (fun s => word (pg_mem s) p i).
Definition write64 (p i v : Z) : M pg_state unit :=
  modify (fun s => set_mem (<[p + 8 * i := v]> (pg_mem s)) s).

(** The entry without its twelve flag bits, written [e & ~0xfff] or [(e >> 12) << 12]. *)
Definition page_of (e : Z) : Z := e &&& Z.lnot 4095.

Definition fb_virtual := 0xffffa00000000000.
Definition kernel_virtual := 0xffff800000000000.
Definition BASE := 0xffff900000000000.

Record PAGING_LOOKUP_DESCRIPTOR := mkLookup {
  physical_address : Z;
  attributes : Z;
  Page_Type : Z;
  status : Z
}.

Definition KB := 0.
Definition MB := 1.
Definition GB := 2.

Definition pt_index (va : Z) : Z := (va >>> 12) &&& 511.
Definition pd_index (va : Z) : Z := (va >>> 21) &&& 511.
Definition pdpt_index (va : Z) : Z := (va >>> 30) &&& 511.
Definition pml4_index (va : Z) : Z := (va >>> 39) &&& 511.

(** The part of a lookup that copies a leaf entry. *)
Definition leaf (e type : Z) : PAGING_LOOKUP_DESCRIPTOR :=
  mkLookup (page_of e) ((e &&& 4095) &&& Z.lnot 128) type 0.

(** 0 = success, 1 = PDPT not found, 2 = PD not found, 3 = PT not found,
    4 = pt_entry not valid, 5 = unknown *)
Definition lookup_mem (m : gmap Z Z) (virtual_address PML4 : Z) : PAGING_LOOKUP_DESCRIPTOR :=
  if PML4 =? 0 then mkLookup 0 0 0 5
  else
    let e4 := word m PML4 (pml4_index virtual_address) in
    if e4 =? 0 then mkLookup 0 0 0 1
    else
      let e3 := word m (page_of e4) (pdpt_index virtual_address) in
      if e3 =? 0 then mkLookup 0 0 0 2
      else if negb (e3 &&& 128 =? 0) then leaf e3 GB
      else
        let e2 := word m (page_of e3) (pd_index virtual_address) in
        if e2 =? 0 then mkLookup 0 0 0 3
        else if negb (e2 &&& 128 =? 0) then leaf e2 MB
        else
          let e1 := word m (page_of e2) (pt_index virtual_address) in
          if e1 =? 0 then mkLookup 0 0 0 4 else leaf e1 KB.

Definition paging_lookup (virtual_address PML4 : Z) : M pg_state PAGING_LOOKUP_DESCRIPTOR :=
  gets (fun s => lookup_mem (pg_mem s) virtual_address PML4).

(** The zeroing loop of [alloc_pages], a word at a time. It does not look at the
    allocator's verdict: a failed allocation has [PhysicalStart] 0. *)
Definition alloc_pages (pages : Z) : M pg_state Z :=
  if pages =? 0 then mret 0
  else
    alloc ← fa (alloc_frame pages);
    for_ 0 (u64 (pages <<< 12) / 8) (fun i _ => write64 (PhysicalStart alloc) i 0) ();;
    modify (fun s => set_allocated (u64 (paging_allocated_pages s + pages)) s);;
    mret (PhysicalStart alloc).

Definition free_pages (address pages : Z) : M pg_state unit :=
  fa (free_frame (mkDesc 0 address address pages 0));;
  current ← gets paging_allocated_pages;
  if current >=? pages then modify (set_allocated (current - pages)) else mret ().

Definition flush_pages (virtual_address pages : Z) : M pg_state unit :=
  let virtual_end := u64 (virtual_address + 4096 * pages) in
  while FUEL (fun virtual_address =>
    if virtual_address <? virtual_end then
      modify (fun s => set_invlpg (invlpg s ++ [virtual_address]) s);;
      mret (inl (u64 (virtual_address + 4096)))
    else mret (inr ())) virtual_address.

(** [(e & 0x80) == 0 && (e & 1) == 1]: the entry points to a table. *)
Definition is_table (e : Z) : bool := (e &&& 128 =? 0) && (e &&& 1 =? 1).

(** [free_pdpt(&PDPT[i])] *)
Definition free_pdpt (PDPT i : Z) : M pg_state unit :=
  if PDPT + 8 * i =? 0 then mret ()
  else
    e ← read64 PDPT i;
    if is_table e then
      let PD := page_of e in
      for_ 0 512 (fun i _ =>
        e ← read64 PD i;
        if is_table e then free_pages (page_of e) 1 else write64 PD i 0) ();;
      free_pages PD 1
    else mret ().

Definition find_address (pt_index pd_index pdpt_index pml4_index : Z) : Z :=
  let virtual_address :=
    ((pml4_index &&& 0x1FF) <<< 39) ||| ((pdpt_index &&& 0x1FF) <<< 30) |||
    ((pd_index &&& 0x1FF) <<< 21) ||| ((pt_index &&& 0x1FF) <<< 12) in
  if negb (virtual_address &&& (1 <<< 47) =? 0)
  then virtual_address ||| 0xFFFF000000000000
  else virtual_address.

(** The loop variables of [create_mapping] and [destroy_mapping]. *)
Record cursor := mkCursor { c_va : Z; c_pa : Z; c_pages : Z }.

Definition advance (size pages : Z) (c : cursor) : cursor :=
  mkCursor (u64 (c_va c + size)) (u64 (c_pa c + size)) (u64 (c_pages c - pages)).

(** One turn of the outer [while] of [create_mapping]. *)
Definition create_step (PML4 attributes virtual_end : Z) (c : cursor) : M pg_state cursor :=
  let size := u64 (virtual_end - c_va c) in
  let mb_enable := (c_va c &&& 0x1fffff) ||| (c_pa c &&& 0x1fffff) in
  let gb_enable := (c_va c &&& 0x3fffffff) ||| (c_pa c &&& 0x3fffffff) in
  let gb_count := size / 0x40000000 in
  let mb_count := size / 0x200000 in
  let kb_count := c_pages c in
  let pti := pt_index (c_va c) in
  let pdi := pd_index (c_va c) in
  let pdpti := pdpt_index (c_va c) in
  let pml4i := pml4_index (c_va c) in
  e4 ← read64 PML4 pml4i;
  (if e4 =? 0 then
     table ← alloc_pages 1;
     write64 PML4 pml4i (table ||| (attributes &&& 7))
   else mret ());;
  e4 ← read64 PML4 pml4i;
  let PDPT := page_of e4 in
  gb ← gets GbPageSupport;
  if (gb_enable =? 0) && (gb =? 1) && (gb_count >? 0) then
    let gb_count := if gb_count + pdpti >=? 512 then 512 - pdpti else gb_count in
    for_ 0 gb_count (fun i c =>
      e ← read64 PDPT (pdpti + i);
      (if is_table e then free_pdpt PDPT (pdpti + i) else mret ());;
      write64 PDPT (pdpti + i) (c_pa c ||| (attributes ||| 128));;
      mret (advance 0x40000000 262144 c)) c
  else
    e3 ← read64 PDPT pdpti;
    (if (e3 =? 0) || negb (e3 &&& 128 =? 0) then
       table ← alloc_pages 1;
       write64 PDPT pdpti (table ||| (attributes &&& 7))
     else mret ());;
    e3 ← read64 PDPT pdpti;
    let PD := page_of e3 in
    if (mb_enable =? 0) && (mb_count >? 0) then
      let mb_count := if mb_count + pdi >=? 512 then 512 - pdi else mb_count in
      for_ 0 mb_count (fun i c =>
        e ← read64 PD (pdi + i);
        (if is_table e then free_pages (page_of e) 1 else mret ());;
        write64 PD (pdi + i) (c_pa c ||| (attributes ||| 128));;
        mret (advance 0x200000 512 c)) c
    else
      e2 ← read64 PD pdi;
      (if (e2 =? 0) || negb (e2 &&& 128 =? 0) then
         table ← alloc_pages 1;
         write64 PD pdi (table ||| (attributes &&& 7))
       else mret ());;
      e2 ← read64 PD pdi;
      let PT := page_of e2 in
      let kb_count := if u64 (kb_count + pti) >=? 512 then 512 - pti else kb_count in
      for_ 0 kb_count (fun i c =>
        write64 PT (pti + i) (c_pa c ||| attributes);;
        mret (advance 4096 1 c)) c.

Definition create_mapping (virtual_address physical_address pages attributes PML4 : Z)
    : M pg_state unit :=
  if (PML4 =? 0) || (pages =? 0) then mret ()
  else
    let virtual_end := u64 (virtual_address + 4096 * pages) in
    while FUEL (fun c =>
      if c_va c <? virtual_end then
        c ← create_step PML4 attributes virtual_end c; mret (inl c)
      else mret (inr ())) (mkCursor virtual_address physical_address pages).

(** Before part of a large page is unmapped, the page is mapped again piecewise with
    smaller pages: what lies before, in and behind the range. [bits] is 30 or 21. *)
Definition split_page (PML4 entry hvirt total bits : Z) (c : cursor) : M pg_state unit :=
  let hphys := page_of entry in
  lookup ← paging_lookup hvirt PML4;
  let offset := c_va c &&& ((1 <<< bits) - 1) in
  let physical_address := u64 (hphys + offset) in
  let align := if hvirt <? c_va c then (c_va c - hvirt) >>> 12 else 0 in
  (if hvirt <? c_va c then create_mapping hvirt hphys align (attributes lookup) PML4
   else mret ());;
  let available := total - align in
  let pages_here := if c_pages c <? available then c_pages c else available in
  let suffix := available - pages_here in
  create_mapping (c_va c) physical_address pages_here (attributes lookup) PML4;;
  create_mapping (u64 (c_va c + (pages_here <<< 12)))
    (u64 (physical_address + (pages_here <<< 12))) suffix (attributes lookup) PML4.

(** One turn of the outer [while] of [destroy_mapping]; [None] is its [return]. *)
Definition destroy_step (PML4 virtual_end : Z) (c : cursor) : M pg_state (option cursor) :=
  let size := u64 (virtual_end - c_va c) in
  let mb_enable := c_va c &&& 0x1fffff in
  let gb_enable := c_va c &&& 0x3fffffff in
  let gb_count := size / 0x40000000 in
  let mb_count := size / 0x200000 in
  let kb_count := c_pages c in
  let pti := pt_index (c_va c) in
  let pdi := pd_index (c_va c) in
  let pdpti := pdpt_index (c_va c) in
  let pml4i := pml4_index (c_va c) in
  e4 ← read64 PML4 pml4i;
  if e4 =? 0 then mret None
  else
    let PDPT := page_of e4 in
    e3 ← read64 PDPT pdpti;
    if e3 =? 0 then mret None
    else
      gb ← gets GbPageSupport;
      if (gb_enable =? 0) && (gb =? 1) && (gb_count >? 0) then
        let gb_count := if gb_count + pdpti >=? 512 then 512 - pdpti else gb_count in
        c ← for_ 0 gb_count (fun i c =>
          e ← read64 PDPT (pdpti + i);
          (if is_table e then free_pdpt PDPT (pdpti + i) else mret ());;
          write64 PDPT (pdpti + i) 0;;
          mret (advance 0x40000000 262144 c)) c;
        mret (Some c)
      else
        (if negb (e3 &&& 128 =? 0) && (negb (gb_enable =? 0) || (c_pages c <? 262144))
         then split_page PML4 e3 (find_address 0 0 pdpti pml4i) 262144 30 c
         else mret ());;
        e3 ← read64 PDPT pdpti;
        let PD := page_of e3 in
        if (mb_enable =? 0) && (mb_count >? 0) then
          let mb_count := if mb_count + pdi >=? 512 then 512 - pdi else mb_count in
          c ← for_ 0 mb_count (fun i c =>
            e ← read64 PD (pdi + i);
            (if is_table e then free_pages (page_of e) 1 else mret ());;
            write64 PD (pdi + i) 0;;
            mret (advance 0x200000 512 c)) c;
          mret (Some c)
        else
          e2 ← read64 PD pdi;
          if e2 =? 0 then mret None
          else
            (if negb (e2 &&& 128 =? 0) && (negb (mb_enable =? 0) || (c_pages c <? 512))
             then split_page PML4 e2 (find_address 0 pdi pdpti pml4i) 512 21 c
             else mret ());;
            e2 ← read64 PD pdi;
            let PT := page_of e2 in
            let kb_count := if u64 (kb_count + pti) >=? 512 then 512 - pti else kb_count in
            c ← for_ 0 kb_count (fun i c =>
              write64 PT (pti + i) 0;; mret (advance 4096 1 c)) c;
            mret (Some c).

Definition destroy_mapping (virtual_address pages PML4 : Z) : M pg_state unit :=
  if (PML4 =? 0) || (pages =? 0) then mret ()
  else
    let virtual_end := u64 (virtual_address + 4096 * pages) in
    while FUEL (fun c =>
      if c_va c <? virtual_end then
        r ← destroy_step PML4 virtual_end c;
        match r with Some c => mret (inl c) | None => mret (inr ()) end
      else mret (inr ())) (mkCursor virtual_address 0 pages).

(** ** [SetupPaging] *)

(** [boot_info.h] *)
Record BOOT_INFO64 := mkInfo64 {
  kernel_entry : Z;
  kernel_start : Z;
  kernel_end : Z;
  framebuffer_base : Z;
  memory_map_size : Z;
  descriptor_size : Z;
  bitmap_size : Z;
  rsdp : Z;
  device_path : Z
}.
Record BOOT_INFO32 := mkInfo32 {
  pixel_mode : Z;
  horizontal_resolution : Z;
  vertical_resolution : Z;
  pixels_per_scanline : Z;
  info_size : Z;
  device_path_size : Z
}.

(** The structure passed by value, with the addresses of the two info structures. *)
Record PAGING_SETUP_DESCRIPTOR := mkSetup {
  info64 : BOOT_INFO64;
  info64_addr : Z;
  info32 : BOOT_INFO32;
  info32_addr : Z;
  ps_bitmap : Z;
  memory_map : Z -> EFI_MEMORY_DESCRIPTOR;
  memory_map_addr : Z
}.

(** How one descriptor of the memory map is mapped: the virtual address and the
    attributes, [None] when it is not mapped. *)
Definition map_policy (desc : EFI_MEMORY_DESCRIPTOR) : option (Z * Z) :=
  let t := Type_ desc in
  if t =? EfiUnusableMemory then None
  else if (t =? EfiMemoryMappedIO) || (t =? EfiMemoryMappedIOPortSpace) then
    Some (u64 (BASE + PhysicalStart desc), 0x13)
  else if (t =? EfiConventionalMemory) || (t =? EfiPersistentMemory) then
    Some (PhysicalStart desc, 0x03)
  else if t =? EfiReservedMemoryType then Some (u64 (BASE + PhysicalStart desc), 0x03)
  else if (t =? EfiACPIReclaimMemory) || (t =? EfiACPIMemoryNVS) then
    Some (u64 (BASE + PhysicalStart desc), 0x03)
  else None.

(** The arguments of [kernel_trampoline], with the boot information rewritten to the
    virtual addresses. *)
Record trampoline := mkTrampoline {
  tr_info64 : BOOT_INFO64;
  tr_ib64 : Z;
  tr_ib : Z;
  tr_stack : Z;
  tr_mmp : Z;
  tr_entry : Z
}.

(** [gb_support] is what the assembly routine [check_1gb_PageSupport] answers. [None]:
    the PML4 could not be allocated. *)
Definition SetupPaging (gb_support : Z) (ps : PAGING_SETUP_DESCRIPTOR)
    : M pg_state (option trampoline) :=
  let i64 := info64 ps in
  let i32_ := info32 ps in
  modify (set_GbPageSupport gb_support);;
  fa (allocator_init (ps_bitmap ps) (memory_map ps) (memory_map_size i64)
        (descriptor_size i64) (kernel_start i64) (kernel_end i64) (bitmap_size i64));;
  pml4 ← alloc_pages 1;
  modify (set_KernelPML4 pml4);;
  if pml4 =? 0 then mret None
  else
    for_ 0 (memory_map_size i64 / descriptor_size i64) (fun i _ =>
      let desc := memory_map ps (u64 (i * descriptor_size i64)) in
      match map_policy desc with
      | Some (va, attributes) =>
          create_mapping va (PhysicalStart desc) (NumberOfPages desc) attributes pml4
      | None => mret ()
      end) ();;
    create_mapping (BASE + 0xE0000) 0xE0000 32 0x03 pml4;;
    create_mapping fb_virtual (framebuffer_base i64)
      (u64 ((i32 (i32 (i32 (vertical_resolution i32_ * pixels_per_scanline i32_) * 4) + 4095))
            >>> 12)) 0x13 pml4;;
    let stack := ps_bitmap ps in
    let mmp := memory_map_addr ps in
    let start := kernel_start i64 in
    let pages := u64 ((u64 (stack - start) >>> 12) - 65) in
    create_mapping kernel_virtual start pages 0x03 pml4;;
    create_mapping (u64 (kernel_virtual + u64 ((pages + 1) <<< 12)))
      (u64 (start + u64 ((pages + 1) <<< 12))) 64 0x03 pml4;;
    create_mapping (u64 (kernel_virtual + (stack - start))) stack
      (u64 (bitmap_size i64 + 4095) >>> 12) 0x03 pml4;;
    create_mapping (u64 (kernel_virtual + (mmp - start))) mmp
      (u64 (memory_map_size i64 + info_size i32_ + 4095) >>> 12) 0x03 pml4;;
    let virt (p : Z) := u64 (kernel_virtual + (p - start)) in
    let info := mkInfo64 (virt (kernel_entry i64)) kernel_virtual (virt (kernel_end i64))
                  fb_virtual (memory_map_size i64) (descriptor_size i64) (bitmap_size i64)
                  (rsdp i64) (virt (device_path i64)) in
    fa (SetBitmapBase (virt stack));;
    mret (Some (mkTrampoline info (virt (info64_addr ps)) (virt (info32_addr ps))
                  (virt stack) (virt mmp) (kernel_entry info))).

(** The result of [kernel_trampoline] is control in the kernel's virtual image. *)
