(* ===== verification/PagingProofs.v ===== *)
(** * Page tables as a tree: what [create_mapping] does to it

    A table is named by the list of indices that leads to it from the PML4. The
    invariant [pt_ok] says that the tables are distinct frames the frame allocator
    holds as used; under it a new mapping changes the translation of its own page
    and of no other. *)
From S2P Require Import KPrelude MemHelpers Spinlock FrameAlloc Paging.

(** An entry that points to a table. *)
Definition is_dir (e : Z) : bool := negb (e =? 0) && (e &&& 128 =? 0).

(** The table reached from [b] along the indices [p]. *)
Fixpoint table (m : gmap Z Z) (b : Z) (p : list Z) : option Z :=
  match p with
  | [] => Some b
  | i :: p' => let e := word m b i in if is_dir e then table m (page_of e) p' else None
  end.

Definition idx (i : Z) : Prop := 0 <= i < 512.

(** The indices of a virtual address. *)
Definition dirs (va : Z) : list Z := [pml4_index va; pdpt_index va; pd_index va].

(** What a lookup finds, when it finds something. *)
Definition translate (m : gmap Z Z) (PML4 va : Z) : option PAGING_LOOKUP_DESCRIPTOR :=
  let l := lookup_mem m va PML4 in if status l =? 0 then Some l else None.

Record pt_ok (root : Z) (s : pg_state) : Prop := {
  pt_root : root <> 0;
  pt_fa : fa_ok (pg_fa s);
  pt_lock : bitmap_lock (pg_fa s) = false;
  (** a table is a frame in use *)
  pt_frames : forall p b, Forall idx p -> (length p <= 3)%nat -> table (pg_mem s) root p = Some b ->
    exists t, b = 4096 * t /\ 0 <= t < frames (pg_fa s) /\ used (bitmap (pg_fa s)) t = true;
  (** no table is reached in two ways *)
  pt_unique : forall p q b, Forall idx p -> Forall idx q ->
    (length p <= 3)%nat -> (length q <= 3)%nat ->
    table (pg_mem s) root p = Some b -> table (pg_mem s) root q = Some b -> p = q;
  (** the PML4 has no large pages *)
  pt_top : forall i, idx i -> word (pg_mem s) root i &&& 128 = 0
}.

(** ** Words and entries *)

Lemma page_of_bits e i : 0 <= i -> Z.testbit (page_of e) i = (12 <=? i) && Z.testbit e i.
Proof.
  intros. unfold page_of. rewrite Z.land_spec, Z.lnot_spec by lia.
  change 4095 with (Z.ones 12). rewrite testbit_ones by lia.
  destruct (Z.leb_spec 12 i), (Z.ltb_spec i 12); try lia; cbn;
    by rewrite ?andb_true_r, ?andb_false_r.
Qed.

Lemma low_bits_zero a n i : 0 <= i < n -> a mod 2 ^ n = 0 -> Z.testbit a i = false.
Proof. intros Hi Ha. rewrite <- (Z.mod_pow2_bits_low a n) by lia. by rewrite Ha, Z.bits_0. Qed.

(** An entry built from a page address and flags. *)
Lemma page_of_entry a f : a mod 4096 = 0 -> 0 <= f < 4096 -> page_of (a ||| f) = a.
Proof.
  intros Ha Hf. apply Z.bits_inj'. intros i Hi. rewrite page_of_bits, Z.lor_spec by lia.
  destruct (Z.leb_spec 12 i).
  - rewrite (testbit_above f 12) by lia. apply orb_false_r.
  - cbn. by rewrite (low_bits_zero a 12) by (lia || done).
Qed.

Lemma flags_of_entry a f g : a mod 4096 = 0 -> 0 <= f < 4096 -> 0 <= g < 4096 ->
  (a ||| f) &&& g = f &&& g.
Proof.
  intros Ha Hf Hg. apply Z.bits_inj'. intros i Hi. rewrite !Z.land_spec, Z.lor_spec.
  destruct (Z.lt_ge_cases i 12).
  - by rewrite (low_bits_zero a 12) by (lia || done).
  - rewrite (testbit_above g 12) by lia. by rewrite !andb_false_r.
Qed.

Lemma entry_nonzero a f : 0 <= a -> 0 < f -> a ||| f <> 0.
Proof. intros Ha Hf E. apply Z.lor_eq_0_iff in E. lia. Qed.

Lemma dir_flags f : 0 <= f -> 0 <= f &&& 7 < 8.
Proof. intros. rewrite Z.land_comm. by apply (land_bounded _ _ 3); lia. Qed.

Lemma new_entry_is_dir a f : a mod 4096 = 0 -> 0 <= a -> 0 <= f -> f &&& 7 <> 0 ->
  is_dir (a ||| (f &&& 7)) = true /\ page_of (a ||| (f &&& 7)) = a /\
  (a ||| (f &&& 7)) &&& 128 = 0.
Proof.
  intros Ha Ha0 Hf Hf7. pose proof (dir_flags f Hf).
  assert ((a ||| (f &&& 7)) &&& 128 = 0) as E.
  { rewrite flags_of_entry by lia. rewrite <- Z.land_assoc. apply Z.land_0_r. }
  split_and!; [|by apply page_of_entry; lia|done].
  unfold is_dir. rewrite E. cbn. rewrite andb_true_r. apply negb_true_iff, Z.eqb_neq.
  apply entry_nonzero; lia.
Qed.

(** Words of page-aligned tables do not overlap. *)
Lemma word_insert m b i v b' i' :
  b mod 4096 = 0 -> b' mod 4096 = 0 -> idx i -> idx i' ->
  word (<[b + 8 * i := v]> m) b' i' = if (b =? b') && (i =? i') then v else word m b' i'.
Proof.
  intros Hb Hb' Hi Hi'. unfold word, idx in *.
  destruct (Z.eqb_spec b b') as [->|Hne]; [destruct (Z.eqb_spec i i') as [->|Hne]|]; cbn.
  - by rewrite lookup_insert_eq.
  - rewrite lookup_insert_ne by lia. done.
  - rewrite lookup_insert_ne; [done|]. divlia.
Qed.

(** ** Indices *)

Lemma index_range a n : idx ((a >>> n) &&& 511).
Proof.
  unfold idx. rewrite Z.land_comm.
  pose proof (land_bounded 511 (a >>> n) 9 ltac:(lia) ltac:(lia)). lia.
Qed.

Lemma dirs_idx va : Forall idx (dirs va).
Proof. unfold dirs. repeat constructor; apply index_range. Qed.

Lemma pml4_idx va : idx (pml4_index va).
Proof. apply index_range. Qed.
Lemma pdpt_idx va : idx (pdpt_index va).
Proof. apply index_range. Qed.
Lemma pd_idx va : idx (pd_index va).
Proof. apply index_range. Qed.
Lemma pt_idx va : idx (pt_index va).
Proof. apply index_range. Qed.
#[export] Hint Resolve pml4_idx pdpt_idx pd_idx pt_idx dirs_idx : core.

(** ** Table walks *)

Lemma table_app m b p q :
  table m b (p ++ q) = match table m b p with Some c => table m c q | None => None end.
Proof.
  revert b. induction p as [|i p IH]; intros b; cbn; [done|].
  destruct (is_dir _); [apply IH|done].
Qed.

(** A walk is a chain of entries read in the tables on its way. *)
Lemma table_snoc m b p i c : table m b (p ++ [i]) = Some c <->
  exists d, table m b p = Some d /\ is_dir (word m d i) = true /\ c = page_of (word m d i).
Proof.
  rewrite table_app. destruct (table m b p) as [d|]; cbn.
  - destruct (is_dir (word m d i)) eqn:E; split.
    + intros [= <-]. eauto.
    + by intros (d' & [= <-] & _ & ->).
    + done.
    + intros (d' & [= <-] & H & _). congruence.
  - split; [done|]. by intros (? & ? & _).
Qed.

(** Two memories that agree on the entries on the way agree on the walk. *)
Lemma table_agree m m' root p :
  (forall q i d, q ++ [i] `prefix_of` p -> table m root q = Some d -> table m' root q = Some d ->
     word m' d i = word m d i) ->
  table m' root p = table m root p.
Proof.
  induction p as [|i p IH] using rev_ind; intros H; [done|].
  rewrite !table_app. rewrite IH.
  2: { intros q j d Hq. apply H. by apply prefix_app_r. }
  destruct (table m root p) as [d|] eqn:E; cbn; [|done].
  rewrite (H p i d); [done|done|done|].
  rewrite IH; [done|]. intros q j d' Hq. apply H. by apply prefix_app_r.
Qed.

(** ** Allocating a table *)

(** The free frames the allocator's search can still reach. *)
Definition reachable_free (f : fa_state) : Z := free_in (bitmap f) (former_count f) (frames f).

Lemma free_in_cons bm lo hi : lo < hi ->
  free_in bm lo hi = (if used bm lo then 0 else 1) + free_in bm (lo + 1) hi.
Proof.
  intros. unfold free_in. replace (Z.to_nat (hi - lo)) with (Datatypes.S (Z.to_nat (hi - (lo + 1)))) by lia.
  done.
Qed.

Lemma free_in_used bm lo mid hi : lo <= mid <= hi ->
  (forall k, lo <= k < mid -> used bm k = true) -> free_in bm lo hi = free_in bm mid hi.
Proof.
  intros Hm Hu. remember (Z.to_nat (mid - lo)) as n eqn:En. revert lo Hm Hu En.
  induction n as [|n IH]; intros lo Hm Hu En.
  - by replace lo with mid by lia.
  - rewrite free_in_cons by lia. rewrite Hu by lia. rewrite (IH (lo + 1)); [lia|lia| |lia].
    intros; apply Hu; lia.
Qed.

Lemma free_in_ext b1 b2 lo hi : (forall k, lo <= k < hi -> used b1 k = used b2 k) ->
  free_in b1 lo hi = free_in b2 lo hi.
Proof. intros H. apply free_frames_ext. intros k Hk. apply H. lia. Qed.

Lemma first_fit_one bm lo hi t : first_fit bm lo hi 1 t ->
  used bm t = false /\ forall k, lo <= k < t -> used bm k = true.
Proof.
  intros (H1 & H2 & H3 & H4). split; [apply H3; lia|]. intros k Hk.
  destruct (used bm k) eqn:E; [done|]. exfalso. apply (H4 k Hk).
  intros j Hj. by replace j with k by lia.
Qed.

Lemma no_fit_one bm lo hi : no_fit bm lo hi 1 -> lo <= hi -> free_in bm lo hi = 0.
Proof.
  intros H Hlo. rewrite (free_in_used bm lo hi hi); [|lia|].
  - unfold free_in. by rewrite Z.sub_diag.
  - intros k Hk. destruct (used bm k) eqn:E; [done|]. exfalso.
    apply (H k); [lia|lia|]. intros j Hj. by replace j with k by lia.
Qed.

Lemma free_in_empty bm lo hi : hi <= lo -> free_in bm lo hi = 0.
Proof. intros. unfold free_in. by replace (Z.to_nat (hi - lo)) with 0%nat by lia. Qed.

(** The outcome of allocating one zeroed page. *)
Record page_allocated (s : pg_state) (a : Z) (s' : pg_state) : Prop := {
  pa_frame : exists t, a = 4096 * t /\ 0 <= t < frames (pg_fa s) /\
    used (bitmap (pg_fa s)) t = false /\ marked true t (t + 1) (bitmap (pg_fa s)) (bitmap (pg_fa s'));
  pa_ok : fa_ok (pg_fa s');
  pa_lock : bitmap_lock (pg_fa s') = bitmap_lock (pg_fa s);
  pa_size : bitmapSize (pg_fa s') = bitmapSize (pg_fa s);
  pa_free : reachable_free (pg_fa s') = reachable_free (pg_fa s) - 1;
  pa_words : forall b i, b mod 4096 = 0 -> idx i ->
    word (pg_mem s') b i = if b =? a then 0 else word (pg_mem s) b i;
  pa_gb : GbPageSupport s' = GbPageSupport s;
  pa_root : KernelPML4 s' = KernelPML4 s
}.

(** The zeroing loop. *)
Lemma wp_zero_words p n s :
  0 <= n ->
  wp (for_ 0 n (fun i _ => write64 p i 0) ()) (fun _ s' =>
    s' = set_mem (pg_mem s') s /\
    (forall i, 0 <= i < n -> pg_mem s' !! (p + 8 * i) = Some 0) /\
    (forall a, (forall i, 0 <= i < n -> a <> p + 8 * i) -> pg_mem s' !! a = pg_mem s !! a)) s.
Proof.
  intros Hn. eapply wp_mono.
  { apply (wp_for (fun k _ s' => s' = set_mem (pg_mem s') s /\
      (forall i, 0 <= i < k -> pg_mem s' !! (p + 8 * i) = Some 0) /\
      (forall a, (forall i, 0 <= i < k -> a <> p + 8 * i) -> pg_mem s' !! a = pg_mem s !! a)));
      [done| |].
    - split_and!; [by destruct s|lia|done].
    - intros k [] s1 Hk (E & Hin & Hout). unfold write64. wp_steps. split_and!.
      + by rewrite E.
      + intros i Hi. cbn. destruct (decide (i = k)) as [->|]; [by rewrite lookup_insert_eq|].
        rewrite lookup_insert_ne by lia. apply Hin. lia.
      + intros a Ha. cbn. rewrite lookup_insert_ne by (intros Ea; apply (Ha k); lia).
        apply Hout. intros i Hi. apply Ha. lia. }
  intros [] s' H. cbv beta in H. by rewrite Z.add_0_l in H.
Qed.

Lemma wp_alloc_page s :
  fa_ok (pg_fa s) -> bitmap_lock (pg_fa s) = false -> 1 <= reachable_free (pg_fa s) ->
  wp (alloc_pages 1) (page_allocated s) s.
Proof.
  intros Hok Hl Hfree. unfold alloc_pages, fa. cbn [Z.eqb]. wp_steps.
  eapply wp_mono; [by apply wp_alloc_frame|]. unfold alloc_result. cbn [Z.eqb].
  intros d f' Hr. pose proof (alloc_result_ok 1 _ d f' Hok ltac:(lia) Hr) as [Hok' Hl'].
  pose proof Hok as [_ _ _ Hf].
  destruct Hr as [(t & b & Hfit & -> & M & ->)|(_ & _ & Hno)].
  2: { exfalso. unfold reachable_free in Hfree.
    destruct (Z.le_gt_cases (former_count (pg_fa s)) (frames (pg_fa s))).
    - rewrite no_fit_one in Hfree by done. lia.
    - rewrite free_in_empty in Hfree by lia. lia. }
  destruct (first_fit_one _ _ _ _ Hfit) as [Hut Hbefore].
  destruct Hfit as (H1 & H2 & _ & _).
  wp_steps. eapply wp_mono; [apply wp_zero_words; vm_compute; done|].
  cbn [PhysicalStart]. change (u64 (1 <<< 12) / 8) with 512.
  intros [] s1 (E & Hz & Hother). wp_steps. rewrite E. cbn.
  constructor; cbn; try done.
  - exists t. split_and!; [done|lia|lia|done|done].
  - unfold reachable_free, frames in *. cbn.
    rewrite (free_in_used (bitmap (pg_fa s)) (former_count (pg_fa s)) t) by (lia || done).
    rewrite (free_in_cons (bitmap (pg_fa s)) t), Hut by lia.
    rewrite (free_in_ext b (bitmap (pg_fa s))); [lia|].
    intros k Hk. destruct M as (_ & _ & U). rewrite U by lia.
    destruct (Z.leb_spec t k), (Z.ltb_spec k (t + 1)); try lia; done.
  - intros p i Hp Hi. unfold word, idx in *. destruct (Z.eqb_spec p (4096 * t)) as [->|Hne].
    + by rewrite Hz by lia.
    + rewrite Hother; [done|]. intros j Hj. divlia.
Qed.

(** ** Adding a table *)

Lemma prefix_idx q i p : q ++ [i] `prefix_of` p -> Forall idx p ->
  Forall idx q /\ idx i /\ (length q < length p)%nat.
Proof.
  intros [r ->] H. rewrite !Forall_app, Forall_singleton in H. rewrite !length_app. cbn.
  split_and!; [by apply H..|lia].
Qed.

Section tables.
  #[local] Set Default Proof Using "All".
  Context (root : Z) (s : pg_state) (Hpt : pt_ok root s).
Let m := pg_mem s.

Lemma table_aligned p b : Forall idx p -> (length p <= 3)%nat -> table m root p = Some b ->
    b mod 4096 = 0 /\ 0 <= b.
  Proof.
    intros Hp Hl Hb. destruct (pt_frames _ _ Hpt p b Hp Hl Hb) as (t & -> & Ht & _). split; divlia.
  Qed.

Lemma root_aligned : root mod 4096 = 0 /\ 0 <= root.
  Proof. apply (table_aligned []); [done|cbn; lia|done]. Qed.

  (** A freshly allocated page is no table, and the tables stay what they were. *)
Lemma fresh_page a s' p b : page_allocated s a s' -> Forall idx p -> (length p <= 3)%nat ->
    table m root p = Some b -> b <> a.
  Proof.
    intros Ha Hp Hl Hb ->. destruct (pt_frames _ _ Hpt p a Hp Hl Hb) as (t & -> & Ht & Hu).
    destruct (pa_frame _ _ _ Ha) as (t' & E & _ & Hu' & _).
    replace t' with t in Hu' by lia. congruence.
  Qed.

Lemma word_fresh a s' p b j : page_allocated s a s' -> Forall idx p -> (length p <= 3)%nat ->
    table m root p = Some b -> idx j -> word (pg_mem s') b j = word m b j.
  Proof.
    intros Ha Hp Hl Hb Hj. rewrite (pa_words _ _ _ Ha) by (done || by apply (table_aligned p)).
    destruct (Z.eqb_spec b a); [|done]. exfalso. by eapply fresh_page.
  Qed.

Lemma table_fresh a s' p : page_allocated s a s' -> Forall idx p -> (length p <= 3)%nat ->
    table (pg_mem s') root p = table m root p.
  Proof.
    intros Ha Hp Hl. apply table_agree. intros q i d Hq Hd _.
    destruct (prefix_idx q i p Hq Hp) as (Hq1 & Hi & Hq2).
    eapply word_fresh; eauto; lia.
  Qed.

  (** *** Writing the entry of a new table *)
  Context (p : list Z) (i d a : Z) (s1 : pg_state) (e : Z).
  Context (Hp : Forall idx p) (Hl : (length p <= 2)%nat) (Hi : idx i).
  Context (Hd : table m root p = Some d) (Hzero : word m d i = 0).
  Context (Ha : page_allocated s a s1).
  Context (Hdir : is_dir e = true) (He : page_of e = a) (He7 : e &&& 128 = 0).
Let m2 := <[d + 8 * i := e]> (pg_mem s1).

Lemma a_aligned : a mod 4096 = 0 /\ 0 <= a.
  Proof. destruct (pa_frame _ _ _ Ha) as (t & -> & ? & _). split; divlia. Qed.

Lemma d_aligned : d mod 4096 = 0 /\ 0 <= d.
  Proof. apply (table_aligned p); [done|lia|done]. Qed.

Lemma d_fresh : d <> a.
  Proof. apply (fresh_page a s1 p); [done|done|lia|done]. Qed.

  (** An old entry other than the new one. *)
Lemma word_old q j b : Forall idx q -> (length q <= 3)%nat -> idx j ->
    table m root q = Some b -> (q, j) <> (p, i) -> word m2 b j = word m b j.
  Proof.
    intros Hq Hlq Hj Hb Hne. unfold m2.
    rewrite word_insert; [|apply d_aligned|by apply (table_aligned q)|done|done].
    destruct (Z.eqb_spec d b) as [->|]; cbn; [|by apply (word_fresh a s1 q)].
    destruct (Z.eqb_spec i j) as [->|]; [|by apply (word_fresh a s1 q)].
    exfalso. apply Hne. f_equal. eapply (pt_unique _ _ Hpt); eauto; lia.
  Qed.

Lemma word_new_entry : word m2 d i = e.
  Proof.
    unfold m2. rewrite word_insert by (done || apply d_aligned). by rewrite !Z.eqb_refl.
  Qed.

Lemma word_new_table j : idx j -> word m2 a j = 0.
  Proof.
    intros Hj. unfold m2. pose proof d_fresh.
    rewrite word_insert by (done || apply d_aligned || apply a_aligned).
    destruct (Z.eqb_spec d a); [done|]. cbn. rewrite (pa_words _ _ _ Ha) by (done || apply a_aligned).
    by rewrite Z.eqb_refl.
  Qed.

  (** The tables afterwards: the old ones, and the new one at [p ++ [i]]. *)
Lemma table_after q : Forall idx q -> (length q <= 3)%nat ->
    table m2 root q = if decide (q = p ++ [i]) then Some a else table m root q.
  Proof.
    induction q as [|j q IH] using rev_ind; intros Hq Hlq.
    { destruct (decide _) as [E|]; [by apply app_cons_not_nil in E|done]. }
    rewrite Forall_app, Forall_singleton in Hq. destruct Hq as [Hq Hj].
    rewrite length_app in Hlq. cbn in Hlq.
    rewrite !table_app, IH by (done || lia).
    destruct (decide (q = p ++ [i])) as [->|Hne].
    - (* below the new table: empty now, and there was no table before *)
      cbn. rewrite word_new_table by done. cbn.
      rewrite table_app, Hd. cbn. rewrite Hzero. cbn.
      destruct (decide _) as [E|]; [|done]. apply app_inj_tail in E as [E _].
      exfalso. apply (f_equal length) in E. rewrite length_app in E. cbn in E. lia.
    - destruct (table m root q) as [b|] eqn:Eb; cbn.
      + destruct (decide (q ++ [j] = p ++ [i])) as [E|Hne'].
        * apply app_inj_tail in E as [-> ->]. rewrite Hd in Eb. injection Eb as <-.
          by rewrite word_new_entry, Hdir, He.
        * rewrite (word_old q); [done|done|lia|done|done|]. by intros [= -> ->].
      + destruct (decide (q ++ [j] = p ++ [i])) as [E|]; [|done].
        apply app_inj_tail in E as [-> ->]. congruence.
  Qed.
End tables.

(** [m'] has the tables of [m], with the same entries but for entry [i] of table [p]. *)
Definition same_entries (root : Z) (p : list Z) (i : Z) (m m' : gmap Z Z) : Prop :=
  forall q j b, Forall idx q -> (length q <= 3)%nat -> idx j -> table m root q = Some b ->
  table m' root q = Some b /\ ((q, j) <> (p, i) -> word m' b j = word m b j).

(** Frame [k] holds a page table. *)
Definition table_frame (root : Z) (s : pg_state) (k : Z) : Prop :=
  exists p, Forall idx p /\ (length p <= 3)%nat /\ table (pg_mem s) root p = Some (4096 * k).

(** Frames may have been taken, but for tables only, and tables added in frames that were free. *)
Record grown (root : Z) (s s' : pg_state) : Prop := {
  gr_frames : frames (pg_fa s') = frames (pg_fa s);
  gr_used : forall k, 0 <= k -> used (bitmap (pg_fa s)) k = true ->
    used (bitmap (pg_fa s')) k = true;
  gr_tables : forall p t, Forall idx p -> (length p <= 3)%nat -> 0 <= t ->
    table (pg_mem s') root p = Some (4096 * t) ->
    table (pg_mem s) root p = Some (4096 * t) \/ used (bitmap (pg_fa s)) t = false;
  gr_root : KernelPML4 s' = KernelPML4 s;
  gr_new : forall k, 0 <= k -> used (bitmap (pg_fa s')) k = true ->
    used (bitmap (pg_fa s)) k = true \/ table_frame root s' k;
  gr_keep : forall p b, Forall idx p -> (length p <= 3)%nat -> table (pg_mem s) root p = Some b ->
    table (pg_mem s') root p = Some b
}.

Lemma grown_refl root s : grown root s s.
Proof. constructor; auto. Qed.

Lemma table_frame_keep root s s' k :
  (forall p b, Forall idx p -> (length p <= 3)%nat -> table (pg_mem s) root p = Some b ->
    table (pg_mem s') root p = Some b) -> table_frame root s k -> table_frame root s' k.
Proof. intros Hk (p & Hp & Hl & H). exists p. auto. Qed.

Lemma grown_trans root s1 s2 s3 : grown root s1 s2 -> grown root s2 s3 -> grown root s1 s3.
Proof.
  intros [F1 U1 T1 R1 N1 K1] [F2 U2 T2 R2 N2 K2]. constructor; [congruence|auto| |congruence| |auto].
  2: { intros k Hk H. destruct (N2 k Hk H) as [H1|H1]; [|by right].
       destruct (N1 k Hk H1) as [H0|H0]; [by left|right]. by eapply table_frame_keep. }
  intros p t Hp Hl Ht H. destruct (T2 p t Hp Hl Ht H) as [H2|H2]; [by apply T1|].
  right. destruct (used (bitmap (pg_fa s1)) t) eqn:E; [|done].
  apply U1 in E; [congruence|done].
Qed.

(** The outcome of making sure that entry [i] of table [p] leads to a table. *)
Record table_ensured (root : Z) (p : list Z) (i d : Z) (s s' : pg_state) : Prop := {
  te_ok : pt_ok root s';
  te_same : same_entries root p i (pg_mem s) (pg_mem s');
  te_table : exists c, table (pg_mem s') root (p ++ [i]) = Some c /\
    page_of (word (pg_mem s') d i) = c /\
    (word (pg_mem s) d i = 0 -> forall j, idx j -> word (pg_mem s') c j = 0) /\
    (word (pg_mem s) d i <> 0 -> s' = s);
  te_free : reachable_free (pg_fa s) - 1 <= reachable_free (pg_fa s');
  te_grown : grown root s s'
}.

Lemma ensure_new root s p i d a s1 e :
  pt_ok root s -> Forall idx p -> (length p <= 2)%nat -> idx i ->
  table (pg_mem s) root p = Some d -> word (pg_mem s) d i = 0 ->
  page_allocated s a s1 -> is_dir e = true -> page_of e = a -> e &&& 128 = 0 ->
  table_ensured root p i d s (set_mem (<[d + 8 * i := e]> (pg_mem s1)) s1).
Proof.
  intros Hpt Hp Hl Hi Hd Hz Ha Hdir He He7.
  pose proof (table_after root s Hpt p i d a s1 e Hp Hl Hi Hd Hz Ha Hdir He He7) as Hafter.
  destruct (pa_frame _ _ _ Ha) as (t & Et & Ht & Hut & M).
  assert (frames (pg_fa s1) = frames (pg_fa s)) as Hfr
    by (unfold frames; by rewrite (pa_size _ _ _ Ha)).
  assert (forall k, 0 <= k -> used (bitmap (pg_fa s)) k = true -> used (bitmap (pg_fa s1)) k = true) as Hmono.
  { intros k Hk Hu. destruct M as (_ & _ & U). rewrite U by done.
    by destruct ((t <=? k) && (k <? t + 1)). }
  assert (used (bitmap (pg_fa s1)) t = true) as Hut1.
  { destruct M as (_ & _ & U). rewrite U by lia.
    destruct (Z.leb_spec t t), (Z.ltb_spec t (t + 1)); try lia; done. }
  constructor; cbn [pg_mem set_mem pg_fa GbPageSupport].
  - constructor; cbn [pg_mem set_mem pg_fa].
    + by destruct Hpt.
    + apply (pa_ok _ _ _ Ha).
    + rewrite (pa_lock _ _ _ Ha). by destruct Hpt.
    + intros q b Hq Hlq. rewrite Hafter, Hfr by done. destruct (decide _).
      * intros [= <-]. eauto.
      * intros Hb. destruct (pt_frames _ _ Hpt q b Hq Hlq Hb) as (t' & -> & Ht' & Hu').
        exists t'. split_and!; try done; try lia. apply Hmono; [lia|done].
    + intros q r b Hq Hr Hlq Hlr. rewrite !Hafter by done.
      destruct (decide (q = p ++ [i])) as [->|], (decide (r = p ++ [i])) as [->|]; try done.
      * intros [= <-] Hb. exfalso. by eapply (fresh_page root s Hpt a s1 r a).
      * intros Hb [= <-]. exfalso. by eapply (fresh_page root s Hpt a s1 q a).
      * by apply (pt_unique _ _ Hpt).
    + intros j Hj. destruct (decide (([] : list Z, j) = (p, i))) as [[= <- ->]|Hne].
      * injection Hd as <-.
        by rewrite (word_new_entry root s Hpt [] i root a s1 e Hp Hl Hi eq_refl Hz Ha Hdir He He7).
      * rewrite (word_old root s Hpt p i d a s1 e Hp Hl Hi Hd Hz Ha Hdir He He7 [] j root); try done; try (cbn; lia).
        by apply (pt_top _ _ Hpt).
  - intros q j b Hq Hlq Hj Hb. rewrite Hafter by done. split.
    + destruct (decide _) as [->|]; [|done]. exfalso.
      rewrite table_app, Hd in Hb. cbn in Hb. by rewrite Hz in Hb.
    + intros Hne. by apply (word_old root s Hpt p i d a s1 e Hp Hl Hi Hd Hz Ha Hdir He He7 q).
  - exists a. rewrite Hafter by (rewrite ?Forall_app, ?length_app; cbn; auto || lia).
    rewrite decide_True by done. split_and!; try done.
    + by rewrite (word_new_entry root s Hpt p i d a s1 e Hp Hl Hi Hd Hz Ha Hdir He He7).
    + intros _ j Hj. by apply (word_new_table root s Hpt p i d a s1 e Hp Hl Hi Hd Hz Ha Hdir He He7).
  - pose proof (pa_free _ _ _ Ha). lia.
  - constructor; cbn [pg_mem set_mem pg_fa KernelPML4]; [done|done| |apply (pa_root _ _ _ Ha)| |].
    2: { destruct M as (_ & _ & U). intros k Hk. rewrite U by done.
      destruct (Z.leb_spec t k), (Z.ltb_spec k (t + 1)); cbn; auto.
      intros _. right. exists (p ++ [i]). split; [by rewrite Forall_app; auto|]. split; [rewrite length_app; cbn; lia|].
      cbn [pg_mem set_mem]. rewrite Hafter by (rewrite ?Forall_app, ?length_app; cbn; auto || lia).
      rewrite decide_True by done. rewrite Et. do 2 f_equal. lia. }
    2: { intros q b Hq Hlq Hb. rewrite Hafter by done. destruct (decide _) as [->|]; [|done]. exfalso.
      rewrite table_app, Hd in Hb. cbn in Hb. by rewrite Hz in Hb. }
    intros q t' Hq Hlq Ht'. rewrite Hafter by done. destruct (decide _); [|by left].
    intros [= E]. right. by replace t' with t by lia.
Qed.

Lemma same_entries_refl root p i m : same_entries root p i m m.
Proof. intros q j b _ _ _ Hb. by split. Qed.

Lemma wp_ensure root s p i d attr (c : bool) :
  pt_ok root s -> Forall idx p -> (length p <= 2)%nat -> idx i ->
  table (pg_mem s) root p = Some d ->
  c = (word (pg_mem s) d i =? 0) -> word (pg_mem s) d i &&& 128 = 0 ->
  1 <= reachable_free (pg_fa s) -> 0 <= attr -> attr &&& 7 <> 0 ->
  wp (if c then table ← alloc_pages 1; write64 d i (table ||| (attr &&& 7)) else mret ())
     (fun _ => table_ensured root p i d s) s.
Proof.
  intros Hpt Hp Hl Hi Hd -> He Hfree Hattr H7.
  destruct (Z.eqb_spec (word (pg_mem s) d i) 0) as [Hz|Hnz].
  - wp_steps. eapply wp_mono; [apply wp_alloc_page; by destruct Hpt|].
    intros a s1 Ha. unfold write64. wp_steps.
    destruct (pa_frame _ _ _ Ha) as (t & Et & Ht & _).
    destruct (new_entry_is_dir a attr) as (H1 & H2 & H3); [subst a; divlia|lia|done..|].
    by eapply ensure_new.
  - wp_steps. constructor; [done|apply same_entries_refl| |lia|apply grown_refl].
    exists (page_of (word (pg_mem s) d i)). split_and!; try done.
    rewrite table_app, Hd. cbn. unfold is_dir. rewrite He.
    by destruct (Z.eqb_spec (word (pg_mem s) d i) 0).
Qed.

(** ** Translations as walks *)

(** The leaf entry reached from table [b] along the indices [l], with the number of
    levels below it. *)
Fixpoint walk (m : gmap Z Z) (b : Z) (l : list Z) : option (Z * Z) :=
  match l with
  | [] => None
  | i :: l' =>
      let e := word m b i in
      if e =? 0 then None
      else if bool_decide (l' = []) || negb (e &&& 128 =? 0)
           then Some (e, Z.of_nat (length l'))
           else walk m (page_of e) l'
  end.

Definition path (va : Z) : list Z := dirs va ++ [pt_index va].

Lemma path_idx va : Forall idx (path va).
Proof.
  unfold path. rewrite Forall_app, Forall_singleton. split; [apply dirs_idx|apply index_range].
Qed.

Lemma translate_walk m root va :
  root <> 0 -> word m root (pml4_index va) &&& 128 = 0 ->
  translate m root va =
    match walk m root (path va) with Some (e, k) => Some (leaf e k) | None => None end.
Proof.
  intros Hr Htop. unfold translate, lookup_mem, path, dirs, KB, MB, GB. cbn [walk app].
  rewrite Htop. destruct (Z.eqb_spec root 0); [done|].
  destruct (word m root (pml4_index va) =? 0); [done|]. cbn.
  set (e4 := word m root (pml4_index va)).
  destruct (word m (page_of e4) (pdpt_index va) =? 0); [done|].
  set (e3 := word m (page_of e4) (pdpt_index va)).
  destruct (e3 &&& 128 =? 0); cbn; [|done].
  destruct (word m (page_of e3) (pd_index va) =? 0); [done|].
  set (e2 := word m (page_of e3) (pd_index va)).
  destruct (e2 &&& 128 =? 0); cbn; [|done].
  by destruct (word m (page_of e2) (pt_index va) =? 0).
Qed.

(** Adding an empty table changes no walk. *)
Lemma walk_ensured root p i d s s' : pt_ok root s -> table (pg_mem s) root p = Some d ->
  Forall idx p -> (length p <= 2)%nat -> idx i -> table_ensured root p i d s s' ->
  forall l q b, Forall idx q -> Forall idx l -> (length q + length l = 4)%nat ->
  table (pg_mem s) root q = Some b -> walk (pg_mem s') b l = walk (pg_mem s) b l.
Proof.
  intros Hpt Hd Hp Hl Hi He.
  destruct (te_table _ _ _ _ _ _ He) as (c & Hc & Epc & Hnew & Hold).
  destruct (decide (word (pg_mem s) d i = 0)) as [Hz|Hnz]; [|by rewrite Hold].
  specialize (Hnew Hz). clear Hold.
  induction l as [|j l IH]; intros q b Hq Hil Hlen Hb; [done|].
  cbn in Hlen. apply Forall_cons in Hil as [Hj Hil]. cbn [walk].
  destruct (te_same _ _ _ _ _ _ He q j b) as [Hb' Hword]; try done; [lia|].
  destruct (decide ((q, j) = (p, i))) as [[= -> ->]|Hne].
  - rewrite Hd in Hb. injection Hb as <-. rewrite Hz. cbn.
    rewrite table_app, Hb' in Hc. cbn in Hc.
    destruct (is_dir (word (pg_mem s') d i)) eqn:Edir; [|done]. injection Hc as Hc.
    unfold is_dir in Edir. apply andb_true_iff in Edir as [E1 E2].
    apply negb_true_iff in E1. rewrite E1, E2.
    destruct l as [|k l]; [cbn in *; lia|]. rewrite bool_decide_eq_false_2 by done. cbn.
    apply Forall_cons in Hil as [Hk _]. by rewrite Hc, Hnew.
  - rewrite Hword by done.
    destruct (Z.eqb_spec (word (pg_mem s) b j) 0) as [|Hn0]; [done|].
    destruct (bool_decide (l = [])) eqn:Eis; [done|].
    destruct (Z.eqb_spec (word (pg_mem s) b j &&& 128) 0) as [E128|]; [|done]. cbn.
    apply (IH (q ++ [j])); [by rewrite Forall_app, Forall_singleton|done| |].
    + rewrite length_app. cbn. lia.
    + rewrite table_app, Hb. cbn. unfold is_dir. rewrite E128.
      by destruct (Z.eqb_spec (word (pg_mem s) b j) 0).
Qed.

Lemma translate_ensured root p i d s s' va : pt_ok root s ->
  table (pg_mem s) root p = Some d -> Forall idx p -> (length p <= 2)%nat -> idx i ->
  table_ensured root p i d s s' -> translate (pg_mem s') root va = translate (pg_mem s) root va.
Proof.
  intros Hpt Hd Hp Hl Hi He. pose proof (te_ok _ _ _ _ _ _ He) as Hpt'.
  rewrite (translate_walk (pg_mem s')); [|exact (pt_root _ _ Hpt)|by apply (pt_top _ _ Hpt')].
  rewrite (translate_walk (pg_mem s)); [|exact (pt_root _ _ Hpt)|by apply (pt_top _ _ Hpt)].
  rewrite (walk_ensured root p i d s s' Hpt Hd Hp Hl Hi He (path va) []);
    [done|done|apply path_idx|done|done].
Qed.

(** ** Writing a leaf *)

Lemma table_write_leaf root s p i d v : pt_ok root s -> Forall idx p -> length p = 3%nat ->
  idx i -> table (pg_mem s) root p = Some d ->
  forall q, Forall idx q -> (length q <= 3)%nat ->
  table (<[d + 8 * i := v]> (pg_mem s)) root q = table (pg_mem s) root q.
Proof.
  intros Hpt Hp Hl Hi Hd q Hq Hlq. apply table_agree. intros r j b Hr Hb _.
  destruct (prefix_idx r j q Hr Hq) as (Hr1 & Hj & Hr2).
  rewrite word_insert; [|by apply (table_aligned root s Hpt p); [|lia|]
                        |by apply (table_aligned root s Hpt r); [|lia|]|done|done].
  destruct (Z.eqb_spec d b) as [->|]; [|done]. exfalso.
  assert (p = r) as -> by (eapply (pt_unique _ _ Hpt); eauto; lia). lia.
Qed.

(** A walk through tables continues in the table it reaches. *)
Lemma walk_app m b p d l : table m b p = Some d -> l <> [] -> walk m b (p ++ l) = walk m d l.
Proof.
  intros Hd Hl. revert b Hd. induction p as [|i p IH]; intros b; cbn; [by intros [= ->]|].
  destruct (is_dir (word m b i)) eqn:E; [|done]. intros Hd.
  unfold is_dir in E. apply andb_true_iff in E as [E1 E2]. apply negb_true_iff in E1.
  rewrite E1, E2, bool_decide_eq_false_2; [cbn; by apply IH|].
  intros E. by apply app_eq_nil in E as [_ ?].
Qed.

Lemma walk_write_hit root s p i d v : pt_ok root s -> Forall idx p -> length p = 3%nat ->
  idx i -> table (pg_mem s) root p = Some d -> v <> 0 ->
  walk (<[d + 8 * i := v]> (pg_mem s)) root (p ++ [i]) = Some (v, 0).
Proof.
  intros Hpt Hp Hl Hi Hd Hv. rewrite (walk_app _ _ _ d); [| |done].
  2: { rewrite (table_write_leaf root s p i d v); try done. lia. }
  cbn. unfold word. rewrite lookup_insert_eq. cbn.
  by destruct (Z.eqb_spec v 0).
Qed.

Lemma walk_write_miss root s p i d v : pt_ok root s -> Forall idx p -> length p = 3%nat ->
  idx i -> table (pg_mem s) root p = Some d ->
  forall l q b, Forall idx q -> Forall idx l -> (length q + length l = 4)%nat ->
  table (pg_mem s) root q = Some b -> q ++ l <> p ++ [i] ->
  walk (<[d + 8 * i := v]> (pg_mem s)) b l = walk (pg_mem s) b l.
Proof.
  intros Hpt Hp Hl Hi Hd.
  induction l as [|j l IH]; intros q b Hq Hil Hlen Hb Hne; [done|].
  cbn in Hlen. apply Forall_cons in Hil as [Hj Hil]. cbn [walk].
  assert (word (<[d + 8 * i := v]> (pg_mem s)) b j = word (pg_mem s) b j) as ->.
  { rewrite word_insert; [|by apply (table_aligned root s Hpt p); [|lia|]
                          |by apply (table_aligned root s Hpt q); [|lia|]|done|done].
    destruct (Z.eqb_spec d b) as [->|]; [|done].
    destruct (Z.eqb_spec i j) as [->|]; [|done]. exfalso.
    assert (p = q) as -> by (eapply (pt_unique _ _ Hpt); eauto; lia).
    apply Hne. by destruct l; [|cbn in Hlen; lia]. }
  destruct (Z.eqb_spec (word (pg_mem s) b j) 0) as [|Hn0]; [done|].
  destruct (bool_decide (l = [])) eqn:Eis; [done|].
  destruct (Z.eqb_spec (word (pg_mem s) b j &&& 128) 0) as [E128|]; [|done]. cbn.
  apply (IH (q ++ [j])); [by rewrite Forall_app, Forall_singleton|done| | |].
  - rewrite length_app. cbn. lia.
  - rewrite table_app, Hb. cbn. unfold is_dir. rewrite E128.
    by destruct (Z.eqb_spec (word (pg_mem s) b j) 0).
  - by rewrite <- app_assoc.
Qed.

(** The tables are the same after a leaf has been written. *)
Lemma pt_ok_write_leaf root s p i d v : pt_ok root s -> Forall idx p -> length p = 3%nat ->
  idx i -> table (pg_mem s) root p = Some d ->
  pt_ok root (set_mem (<[d + 8 * i := v]> (pg_mem s)) s).
Proof.
  intros Hpt Hp Hl Hi Hd.
  pose proof (table_write_leaf root s p i d v Hpt Hp Hl Hi Hd) as Ht.
  destruct Hpt as [H1 H2 H3 H4 H5 H6]. constructor; cbn [pg_mem set_mem pg_fa]; try done.
  - intros q b Hq Hlq. rewrite Ht by done. by apply H4.
  - intros q r b Hq Hr Hlq Hlr. rewrite !Ht by done. by apply H5.
  - intros j Hj. rewrite word_insert; [| | |done|done].
    + destruct (Z.eqb_spec d root) as [->|]; [|by apply H6]. exfalso.
      assert (p = []) as -> by (eapply H5; eauto; cbn; lia). done.
    + by apply (table_aligned root s ltac:(by constructor) p); [|lia|].
    + by apply (root_aligned root s ltac:(by constructor)).
Qed.

(** ** Mapping one page *)

(** No large page covers [va]. *)
Definition no_large (m : gmap Z Z) (root va : Z) : Prop :=
  forall e k, walk m root (path va) = Some (e, k) -> k = 0.

Lemma no_large_entry m root va p i l b :
  no_large m root va -> path va = p ++ i :: l -> l <> [] -> table m root p = Some b ->
  word m b i &&& 128 = 0.
Proof.
  intros Hno E Hl Hb. unfold no_large in Hno. rewrite E in Hno.
  rewrite (walk_app _ _ _ b) in Hno by done. cbn in Hno.
  destruct (Z.eqb_spec (word m b i) 0) as [->|]; [apply Z.land_0_l|].
  destruct (Z.eqb_spec (word m b i &&& 128) 0) as [|Hne]; [done|].
  cbn in Hno. rewrite orb_true_r in Hno. specialize (Hno _ _ eq_refl).
  destruct l; [done|cbn in Hno; lia].
Qed.

Lemma no_large_ensured root p i d s s' va : pt_ok root s ->
  table (pg_mem s) root p = Some d -> Forall idx p -> (length p <= 2)%nat -> idx i ->
  table_ensured root p i d s s' -> no_large (pg_mem s) root va -> no_large (pg_mem s') root va.
Proof.
  intros Hpt Hd Hp Hl Hi He Hno. unfold no_large.
  by rewrite (walk_ensured root p i d s s' Hpt Hd Hp Hl Hi He (path va) []) by
    (done || apply path_idx).
Qed.

(** The tables on the way to [va] exist, and nothing has been unmapped or remapped. *)
Record way_ready (root va : Z) (p : list Z) (n : Z) (s s' : pg_state) : Prop := {
  wr_ok : pt_ok root s';
  wr_no_large : no_large (pg_mem s') root va;
  wr_same : forall va', translate (pg_mem s') root va' = translate (pg_mem s) root va';
  wr_free : reachable_free (pg_fa s) - n <= reachable_free (pg_fa s');
  wr_table : exists d, table (pg_mem s') root p = Some d;
  wr_grown : grown root s s'
}.

(** One level: read the entry, make sure it leads to a table, read it again. *)
Lemma wp_level {A} root va p i l n attr s0 s d (cond : Z -> bool) (k : Z -> M pg_state A) Q :
  way_ready root va p n s0 s -> path va = p ++ i :: l -> l <> [] -> (length p <= 2)%nat ->
  Forall idx p -> idx i -> table (pg_mem s) root p = Some d ->
  (forall e, e &&& 128 = 0 -> cond e = (e =? 0)) ->
  n < reachable_free (pg_fa s0) -> 0 <= attr -> attr &&& 7 <> 0 ->
  (forall c s', way_ready root va (p ++ [i]) (n + 1) s0 s' ->
     table (pg_mem s') root (p ++ [i]) = Some (page_of c) ->
     wp (k c) Q s') ->
  wp (e ← read64 d i;
      (if cond e then table ← alloc_pages 1; write64 d i (table ||| (attr &&& 7)) else mret ());;
      e ← read64 d i; k e) Q s.
Proof.
  intros [H1 H2 H3 H4 H5 H6] E Hl Hlp Hp Hi Hd Hc Hn Ha Ha7 Hk. unfold read64. wp_steps.
  pose proof (no_large_entry _ _ _ _ _ _ _ H2 E Hl Hd) as H128.
  eapply wp_mono; [apply (wp_ensure root s p i d attr); eauto; lia|].
  intros [] s1 He. wp_steps. destruct (te_table _ _ _ _ _ _ He) as (c & Hc1 & Hc2 & _).
  rewrite <- Hc2 in Hc1. apply Hk; [|done]. constructor.
  - apply (te_ok _ _ _ _ _ _ He).
  - by eapply no_large_ensured.
  - intros va'. by rewrite (translate_ensured root p i d s s1 va').
  - pose proof (te_free _ _ _ _ _ _ He). lia.
  - eauto.
  - eapply grown_trans; [done|apply (te_grown _ _ _ _ _ _ He)].
Qed.

(** What mapping the page of [va] promises. *)
Record page_mapped (root va pa attr : Z) (s s' : pg_state) : Prop := {
  pm_ok : pt_ok root s';
  pm_here : translate (pg_mem s') root va = Some (mkLookup pa attr KB 0);
  pm_there : forall va', path va' <> path va ->
    translate (pg_mem s') root va' = translate (pg_mem s) root va';
  pm_free : reachable_free (pg_fa s) - 3 <= reachable_free (pg_fa s');
  pm_grown : grown root s s'
}.

Lemma leaf_entry pa attr : pa mod 4096 = 0 -> 0 <= attr < 4096 -> attr &&& 128 = 0 ->
  leaf (pa ||| attr) KB = mkLookup pa attr KB 0.
Proof.
  intros Hpa Ha H128. unfold leaf. rewrite page_of_entry by done. f_equal.
  rewrite flags_of_entry by lia. change 4095 with (Z.ones 12).
  rewrite Z.land_ones, Z.mod_small by lia.
  apply Z.bits_inj'. intros j Hj. rewrite Z.land_spec, Z.lnot_spec by lia.
  change 128 with (2 ^ 7) in *. rewrite Z.pow2_bits_eqb by lia.
  destruct (Z.eqb_spec 7 j) as [<-|]; cbn; [|apply andb_true_r].
  rewrite andb_false_r. symmetry.
  apply (f_equal (fun z => Z.testbit z 7)) in H128.
  by rewrite Z.land_spec, Z.pow2_bits_true, andb_true_r, Z.bits_0 in H128 by lia.
Qed.

Lemma write_leaf_mapped root va pa attr s0 s d :
  way_ready root va (dirs va) 3 s0 s -> table (pg_mem s) root (dirs va) = Some d ->
  0 <= pa -> pa mod 4096 = 0 -> 0 < attr < 4096 -> attr &&& 128 = 0 ->
  page_mapped root va pa attr s0
    (set_mem (<[d + 8 * pt_index va := pa ||| attr]> (pg_mem s)) s).
Proof.
  intros [H1 H2 H3 H4 _ H6] Hd Hpa0 Hpa Ha H128.
  assert (pt_ok root (set_mem (<[d + 8 * pt_index va := pa ||| attr]> (pg_mem s)) s)) as Hok
    by (by apply (pt_ok_write_leaf root s (dirs va))).
  constructor; cbn [pg_mem set_mem pg_fa]; [done| | |done|].
  3: { destruct H6 as [F U T R N K].
    assert (forall q, Forall idx q -> (length q <= 3)%nat ->
      table (<[d + 8 * pt_index va := pa ||| attr]> (pg_mem s)) root q = table (pg_mem s) root q) as Hq
      by (intros q Hq Hlq; apply (table_write_leaf root s (dirs va)); done || apply dirs_idx || apply pt_idx).
    constructor; cbn [pg_mem set_mem pg_fa]; [done|done| |done| |].
    - intros q t Hq1 Hlq Ht. rewrite Hq by done. by apply T.
    - intros k Hk Hu. destruct (N k Hk Hu) as [|H0]; [by left|right].
      eapply table_frame_keep; [|exact H0]. intros q b Hq1 Hlq Hb. cbn. by rewrite Hq.
    - intros q b Hq1 Hlq Hb. rewrite Hq by done. by apply K. }
  - rewrite translate_walk; [|exact (pt_root _ _ H1)|by apply (pt_top _ _ Hok)].
    unfold path. rewrite (walk_write_hit root s (dirs va)); try done.
    + by rewrite leaf_entry by (done || lia).
    + apply entry_nonzero; lia.
  - intros va' Hne. rewrite <- H3.
    rewrite (translate_walk (<[_:=_]> _)); [|exact (pt_root _ _ H1)|by apply (pt_top _ _ Hok)].
    rewrite (translate_walk (pg_mem s)); [|exact (pt_root _ _ H1)|by apply (pt_top _ _ H1)].
    by rewrite (walk_write_miss root s (dirs va) (pt_index va) d _ H1 (dirs_idx va)
      eq_refl (pt_idx va) Hd (path va') [] root) by (done || apply path_idx).
Qed.

Lemma wp_create_page root va pa attr s :
  pt_ok root s -> no_large (pg_mem s) root va -> 3 <= reachable_free (pg_fa s) ->
  0 <= va -> va + 4096 < 2 ^ 64 -> 0 <= pa < 2 ^ 64 -> pa mod 4096 = 0 ->
  0 <= attr < 4096 -> attr &&& 7 <> 0 -> attr &&& 128 = 0 ->
  wp (create_mapping va pa 1 attr root) (fun _ => page_mapped root va pa attr s) s.
Proof.
  intros Hpt Hno Hfree Hva Hva2 Hpa Hpam Ha Ha7 H128. unfold create_mapping.
  pose proof (pt_root _ _ Hpt) as Hr. destruct (Z.eqb_spec root 0); [done|]. cbn [orb Z.eqb].
  rewrite u64_id by lia. replace (4096 * 1) with 4096 by lia.
  assert (0 < attr) as Ha0.
  { destruct (Z.eq_dec attr 0) as [->|]; [by rewrite Z.land_0_l in Ha7|lia]. }
  eapply (wp_while _ (fun c s' => (c = mkCursor va pa 1 /\ s' = s) \/
      (c_va c = va + 4096 /\ page_mapped root va pa attr s s'))
    (fun c _ => Z.max 0 (va + 4096 - c_va c))); [|by left|unfold FUEL; cbn; lia].
  intros c s' [[-> ->]|[Ec Hm]].
  2: { rewrite Ec. rewrite Z.ltb_irrefl. by wp_steps. }
  cbn [c_va]. destruct (Z.ltb_spec va (va + 4096)); [|lia]. wp_step.
  unfold create_step. cbn [c_va c_pa c_pages].
  replace (va + 4096 - va) with 4096 by lia.
  change (u64 4096 / 0x40000000) with 0. change (u64 4096 / 0x200000) with 0.
  change (0 >? 0) with false.
  assert (way_ready root va [] 0 s s) as W0
    by (constructor; [done|done|done|lia|by exists root|apply grown_refl]).
  eapply (wp_level root va [] (pml4_index va) [pdpt_index va; pd_index va; pt_index va]);
    try done; try lia; auto.
  intros e4 s1 W1 T1. cbn [app] in *. wp_steps. rewrite andb_false_r.
  eapply (wp_level root va [pml4_index va] (pdpt_index va) [pd_index va; pt_index va]);
    try done; try lia; auto.
  intros e3 s2 W2 T2. cbn [app] in *. rewrite andb_false_r.
  eapply (wp_level root va [pml4_index va; pdpt_index va] (pd_index va) [pt_index va]);
    try done; try lia; auto.
  intros e2 s3 W3 T3. cbn [app] in *.
  pose proof (pt_idx va) as Hpti. unfold idx in Hpti. rewrite u64_id by lia.
  replace (if 1 + pt_index va >=? 512 then 512 - pt_index va else 1) with 1
    by (destruct (Z.geb_spec (1 + pt_index va) 512); lia).
  change (for_ 0 1) with (@for_nat pg_state cursor 1 0). cbn [for_nat].
  unfold write64, advance. wp_steps. cbn [c_pa c_va c_pages]. rewrite !u64_id by lia.
  split; [|cbn [c_va]; lia]. right. split; [done|]. rewrite Z.add_0_r.
  by apply write_leaf_mapped; try done; try lia.
Qed.

(** ** Unmapping one page *)

Lemma walk_write_zero root s p i d : pt_ok root s -> Forall idx p -> length p = 3%nat ->
  idx i -> table (pg_mem s) root p = Some d ->
  walk (<[d + 8 * i := 0]> (pg_mem s)) root (p ++ [i]) = None.
Proof.
  intros Hpt Hp Hl Hi Hd. rewrite (walk_app _ _ _ d); [| |done].
  2: { rewrite (table_write_leaf root s p i d 0); try done. lia. }
  cbn. unfold word. by rewrite lookup_insert_eq.
Qed.

(** One level of a walk that ends in a 4 KiB leaf. *)
Lemma walk_cons_small m b i l e : l <> [] -> walk m b (i :: l) = Some (e, 0) ->
  is_dir (word m b i) = true /\ walk m (page_of (word m b i)) l = Some (e, 0).
Proof.
  intros Hl. cbn. unfold is_dir. destruct (word m b i =? 0); [done|].
  rewrite bool_decide_eq_false_2 by done. cbn.
  destruct (word m b i &&& 128 =? 0); cbn; [done|].
  intros [= _ Hk]. destruct l; [done|cbn in Hk; lia].
Qed.

Lemma is_dir_spec e : is_dir e = true -> (e =? 0) = false /\ (e &&& 128 =? 0) = true.
Proof. unfold is_dir. rewrite andb_true_iff, negb_true_iff. done. Qed.

(** What unmapping the page of [va] promises. *)
Record page_unmapped (root va : Z) (s s' : pg_state) : Prop := {
  pu_ok : pt_ok root s';
  pu_here : translate (pg_mem s') root va = None;
  pu_there : forall va', path va' <> path va ->
    translate (pg_mem s') root va' = translate (pg_mem s) root va';
  pu_fa : pg_fa s' = pg_fa s;
  pu_tables : forall p, Forall idx p -> (length p <= 3)%nat ->
    table (pg_mem s') root p = table (pg_mem s) root p
}.

Lemma wp_destroy_page root va s e :
  pt_ok root s -> walk (pg_mem s) root (path va) = Some (e, 0) ->
  0 <= va -> va + 4096 < 2 ^ 64 ->
  wp (destroy_mapping va 1 root) (fun _ => page_unmapped root va s) s.
Proof.
  intros Hpt Hw Hva Hva2. unfold destroy_mapping.
  pose proof (pt_root _ _ Hpt) as Hr. destruct (Z.eqb_spec root 0); [done|]. cbn [orb Z.eqb].
  rewrite u64_id by lia. replace (4096 * 1) with 4096 by lia.
  pose proof Hw as Hw0. unfold path, dirs in Hw. cbn [app] in Hw.
  apply walk_cons_small in Hw as [D4 Hw]; [|done].
  apply walk_cons_small in Hw as [D3 Hw]; [|done].
  apply walk_cons_small in Hw as [D2 Hw]; [|done].
  set (d3 := page_of (word (pg_mem s) root (pml4_index va))) in *.
  set (d2 := page_of (word (pg_mem s) d3 (pdpt_index va))) in *.
  set (d1 := page_of (word (pg_mem s) d2 (pd_index va))) in *.
  assert (table (pg_mem s) root (dirs va) = Some d1) as Hd.
  { unfold dirs. cbn. rewrite D4. fold d3. rewrite D3. fold d2. by rewrite D2. }
  eapply (wp_while _ (fun c s' => (c = mkCursor va 0 1 /\ s' = s) \/
      (c_va c = va + 4096 /\ page_unmapped root va s s'))
    (fun c _ => Z.max 0 (va + 4096 - c_va c))); [|by left|unfold FUEL; cbn; lia].
  intros c s' [[-> ->]|[Ec Hm]].
  2: { rewrite Ec. rewrite Z.ltb_irrefl. by wp_steps. }
  cbn [c_va]. destruct (Z.ltb_spec va (va + 4096)); [|lia]. wp_step.
  unfold destroy_step. cbn [c_va c_pa c_pages].
  replace (va + 4096 - va) with 4096 by lia.
  change (u64 4096 / 0x40000000) with 0. change (u64 4096 / 0x200000) with 0.
  change (0 >? 0) with false. rewrite !andb_false_r.
  apply is_dir_spec in D4 as [N4 L4], D3 as [N3 L3], D2 as [N2 L2].
  unfold read64. wp_steps. rewrite N4. fold d3. wp_steps. rewrite N3, L3. cbn [negb andb].
  wp_steps. fold d2. rewrite ?andb_false_r. wp_steps. fold d2. rewrite N2, L2. cbn [negb andb].
  wp_steps. fold d2. fold d1.
  pose proof (pt_idx va) as Hpti. unfold idx in Hpti. rewrite u64_id by lia.
  replace (if 1 + pt_index va >=? 512 then 512 - pt_index va else 1) with 1
    by (destruct (Z.geb_spec (1 + pt_index va) 512); lia).
  change (for_ 0 1) with (@for_nat pg_state cursor 1 0). cbn [for_nat].
  unfold write64, advance. wp_steps. cbn [c_pa c_va c_pages]. rewrite !u64_id by lia.
  split; [|cbn [c_va]; lia]. right. split; [done|]. rewrite Z.add_0_r.
  assert (pt_ok root (set_mem (<[d1 + 8 * pt_index va := 0]> (pg_mem s)) s)) as Hok
    by (by apply (pt_ok_write_leaf root s (dirs va))).
  constructor; cbn [pg_mem set_mem pg_fa]; [done| | |done|].
  3: { intros q Hq Hlq. by apply (table_write_leaf root s (dirs va)). }
  - rewrite translate_walk; [|done|by apply (pt_top _ _ Hok)].
    unfold path. by rewrite (walk_write_zero root s (dirs va)).
  - intros va' Hne.
    rewrite (translate_walk (<[_:=_]> _)); [|done|by apply (pt_top _ _ Hok)].
    rewrite (translate_walk (pg_mem s)); [|done|by apply (pt_top _ _ Hpt)].
    by rewrite (walk_write_miss root s (dirs va) (pt_index va) d1 _ Hpt (dirs_idx va)
      eq_refl (pt_idx va) Hd (path va') [] root) by (done || apply path_idx).
Qed.

(** ** Addresses and indices *)

Lemma field_bits va n m i : 0 <= n -> 0 <= m -> 0 <= i ->
  Z.testbit ((((va >>> n) &&& 511) &&& 0x1FF) <<< m) i =
  (m <=? i) && (i <? m + 9) && Z.testbit va (i - m + n).
Proof.
  intros. rewrite Z.shiftl_spec by lia. destruct (Z.leb_spec m i).
  - rewrite !Z.land_spec, Z.shiftr_spec by lia. change 0x1FF with (Z.ones 9).
    change 511 with (Z.ones 9). rewrite testbit_ones by lia.
    destruct (Z.ltb_spec (i - m) 9), (Z.ltb_spec i (m + 9)); try lia;
      cbn; by rewrite ?andb_true_r, ?andb_false_r.
  - rewrite Z.testbit_neg_r by lia. done.
Qed.

(** A canonical address is rebuilt from its four indices. *)
Lemma find_address_indices va :
  0 <= va < 2 ^ 64 -> va mod 4096 = 0 -> (va < 2 ^ 47 \/ 2 ^ 64 - 2 ^ 47 <= va) ->
  find_address (pt_index va) (pd_index va) (pdpt_index va) (pml4_index va) = va.
Proof.
  intros Hva Hal Hcanon. unfold find_address, pt_index, pd_index, pdpt_index, pml4_index.
  set (low := _ ||| _ ||| _ ||| _).
  assert (forall i, 0 <= i -> Z.testbit low i = (i <? 48) && Z.testbit va i) as Hlow.
  { intros i Hi. subst low. rewrite !Z.lor_spec, !field_bits by lia.
    replace (i - 39 + 39) with i by lia. replace (i - 30 + 30) with i by lia.
    replace (i - 21 + 21) with i by lia. replace (i - 12 + 12) with i by lia.
    destruct (Z.lt_ge_cases i 12).
    { rewrite (low_bits_zero va 12) by (lia || done). by rewrite !andb_false_r. }
    destruct (Z.leb_spec 39 i), (Z.ltb_spec i (39 + 9)), (Z.leb_spec 30 i),
      (Z.ltb_spec i (30 + 9)), (Z.leb_spec 21 i), (Z.ltb_spec i (21 + 9)),
      (Z.leb_spec 12 i), (Z.ltb_spec i (12 + 9)), (Z.ltb_spec i 48); try lia;
      cbn; by rewrite ?orb_false_r. }
  rewrite bit_test by lia. rewrite Hlow by lia. cbn [Z.ltb Z.compare andb].
  change (47 <? 48) with true. cbn [andb].
  assert (forall i, 47 <= i < 64 -> Z.testbit va i = bool_decide (2 ^ 64 - 2 ^ 47 <= va)) as Hhigh.
  { intros i Hi. case_bool_decide.
    - replace va with ((va - (2 ^ 64 - 2 ^ 47)) + 131071 * 2 ^ 47) by lia.
      rewrite <- (Z.sub_add 47 i). rewrite <- Z.shiftr_spec by lia.
      rewrite Z.shiftr_div_pow2, Z.div_add, Z.div_small by lia.
      change (0 + 131071) with (Z.ones 17). rewrite testbit_ones by lia. apply Z.ltb_lt. lia.
    - apply testbit_above with 47; lia. }
  rewrite Hhigh by lia. rewrite negb_involutive.
  apply Z.bits_inj'. intros i Hi. case_bool_decide.
  - rewrite Z.lor_spec, Hlow by lia. change 0xFFFF000000000000 with (Z.ones 16 * 2 ^ 48).
    rewrite <- Z.shiftl_mul_pow2, Z.shiftl_spec by lia.
    destruct (Z.ltb_spec i 48).
    + rewrite (Z.testbit_neg_r _ (i - 48)) by lia. apply orb_false_r.
    + rewrite testbit_ones by lia. cbn. destruct (Z.ltb_spec (i - 48) 16).
      * symmetry. apply Hhigh. lia.
      * symmetry. apply testbit_above with 64; lia.
  - rewrite Hlow by lia. destruct (Z.ltb_spec i 48); [done|]. symmetry.
    apply testbit_above with 47; lia.
Qed.

(** A page-aligned address that the processor accepts. *)
Definition canonical (va : Z) : Prop :=
  0 <= va < 2 ^ 64 /\ va mod 4096 = 0 /\ (va < 2 ^ 47 \/ 2 ^ 64 - 2 ^ 47 <= va).

Lemma path_inj va va' : canonical va -> canonical va' -> path va = path va' -> va = va'.
Proof.
  intros (R & A & C) (R' & A' & C') [= E4 E3 E2 E1].
  rewrite <- (find_address_indices va), <- (find_address_indices va') by done.
  by rewrite E1, E2, E3, E4.
Qed.

(** [va] is unmapped or mapped by a 4 KiB page. *)
Definition small_page (m : gmap Z Z) (root va : Z) : Prop :=
  forall l, translate m root va = Some l -> Page_Type l = KB.

Lemma small_no_large root s va :
  pt_ok root s -> small_page (pg_mem s) root va -> no_large (pg_mem s) root va.
Proof.
  intros Hpt Hs e k E. unfold small_page in Hs.
  rewrite translate_walk, E in Hs; [|by destruct Hpt|apply (pt_top _ _ Hpt), index_range].
  by apply (Hs (leaf e k)).
Qed.

Lemma small_walk root s va l :
  pt_ok root s -> translate (pg_mem s) root va = Some l -> Page_Type l = KB ->
  exists e, walk (pg_mem s) root (path va) = Some (e, 0).
Proof.
  intros Hpt E Hk.
  rewrite translate_walk in E; [|by destruct Hpt|apply (pt_top _ _ Hpt), index_range].
  destruct (walk _ _ _) as [[e k]|] eqn:Ew; [|done]. injection E as <-. cbn in Hk. subst k.
  by exists e.
Qed.

(** ** The properties of the page tables *)

(** C2: mapping one 4 KiB page with [create_mapping] returns; afterwards the page of
    [va] translates to [pa] with the given attributes, no other page's translation has
    changed, the page tables are well formed (every table a used frame, reached one
    way), and at most three frames were taken for new tables. *)
Theorem create_mapping_page root va pa attr s :
  pt_ok root s -> small_page (pg_mem s) root va -> 3 <= reachable_free (pg_fa s) ->
  0 <= va -> va + 4096 < 2 ^ 64 -> 0 <= pa < 2 ^ 64 -> pa mod 4096 = 0 ->
  0 <= attr < 4096 -> attr &&& 7 <> 0 -> attr &&& 128 = 0 ->
  exists s', create_mapping va pa 1 attr root s = Done () s' /\ page_mapped root va pa attr s s'.
Proof.
  intros Hpt Hs. intros. destruct (wp_inv _ _ _ (wp_create_page root va pa attr s Hpt
    (small_no_large _ _ _ Hpt Hs) ltac:(done) ltac:(done) ltac:(done) ltac:(done) ltac:(done)
    ltac:(done) ltac:(done) ltac:(done))) as ([] & s' & E & R). by exists s'.
Qed.

(** Unmapping one page that a 4 KiB entry maps returns; afterwards the page has no
    translation, no other page's translation has changed, the tables are well formed
    and the frame allocator is untouched (the tables are kept). *)
Lemma destroy_mapping_page root va s l :
  pt_ok root s -> translate (pg_mem s) root va = Some l -> Page_Type l = KB ->
  0 <= va -> va + 4096 < 2 ^ 64 ->
  exists s', destroy_mapping va 1 root s = Done () s' /\ page_unmapped root va s s'.
Proof.
  intros Hpt E Hk H1 H2. destruct (small_walk _ _ _ _ Hpt E Hk) as [e Ew].
  destruct (wp_inv _ _ _ (wp_destroy_page root va s e Hpt Ew H1 H2)) as ([] & s' & E' & R).
  by exists s'.
Qed.

(** C3: mapping an unmapped page and unmapping it again gives back the translation of
    every canonical page address, this page's included. *)
Theorem map_unmap_roundtrip root va pa attr s :
  pt_ok root s -> canonical va -> va + 4096 < 2 ^ 64 -> translate (pg_mem s) root va = None ->
  3 <= reachable_free (pg_fa s) -> 0 <= pa < 2 ^ 64 -> pa mod 4096 = 0 ->
  0 <= attr < 4096 -> attr &&& 7 <> 0 -> attr &&& 128 = 0 ->
  exists s', (create_mapping va pa 1 attr root;; destroy_mapping va 1 root) s = Done () s' /\
    pt_ok root s' /\
    forall va', canonical va' -> translate (pg_mem s') root va' = translate (pg_mem s) root va'.
Proof.
  intros Hpt Hc Hv Hnone. intros. pose proof Hc as (Hr & _).
  assert (wp (create_mapping va pa 1 attr root;; destroy_mapping va 1 root) (fun _ s' =>
    pt_ok root s' /\ forall va', canonical va' ->
      translate (pg_mem s') root va' = translate (pg_mem s) root va') s) as Hwp.
  { apply wp_bind. eapply wp_mono.
    { apply wp_create_page; try done; try lia. apply small_no_large; [done|].
      intros l Hl. by rewrite Hnone in Hl. }
    intros [] s1 [Hok Hhere Hthere _ _].
    destruct (small_walk _ _ _ _ Hok Hhere eq_refl) as [e Ew].
    eapply wp_mono; [apply (wp_destroy_page root va s1 e); done || lia|].
    intros [] s2 [Hok2 Hhere2 Hthere2 _]. split; [done|]. intros va' Hc'.
    destruct (decide (va' = va)) as [->|Hne]; [by rewrite Hhere2|].
    assert (path va' <> path va) by (intros E; by apply Hne, path_inj).
    by rewrite Hthere2, Hthere. }
  destruct (wp_inv _ _ _ Hwp) as ([] & s' & E & R). by exists s'.
Qed.

(** [find_address] rebuilds every canonical page address from its four table
    indices, the sign extension of bit 47 included. *)
Lemma find_address_roundtrip va :
  canonical va ->
  find_address (pt_index va) (pd_index va) (pdpt_index va) (pml4_index va) = va.
Proof. intros (R & A & C). by apply find_address_indices. Qed.

(** An empty PML4 in frame 5, eight free frames. *)
Definition sample_pg : pg_state :=
  mkPg (mkFa [255; 0; 255] 0 2 8 0 false) ∅ 0 0 0x5000 [].

Lemma table_empty b p d : table ∅ b p = Some d -> p = [] /\ d = b.
Proof. destruct p as [|i p]; cbn; [by intros [= <-]|]. by unfold word. Qed.

Lemma sample_pg_ok : pt_ok 0x5000 sample_pg.
Proof.
  constructor; try done.
  - constructor; [unfold bytes_ok; repeat (constructor; [lia|]); constructor|cbn; lia..].
  - intros p b _ _ E. apply table_empty in E as [_ ->]. exists 5. split; [done|].
    split; [vm_compute; intuition discriminate|reflexivity].
  - intros p q b _ _ _ _ Ep Eq. apply table_empty in Ep as [-> _], Eq as [-> _]. done.
Qed.

Lemma create_mapping_page_witness : exists s',
  create_mapping 0xffff800000001000 0x7000 1 3 0x5000 sample_pg = Done () s' /\
  page_mapped 0x5000 0xffff800000001000 0x7000 3 sample_pg s'.
Proof.
  apply (create_mapping_page 0x5000 0xffff800000001000 0x7000 3 sample_pg sample_pg_ok);
    vm_compute; intuition discriminate.
Defined.

Lemma map_unmap_roundtrip_witness : exists s',
  (create_mapping 0xffff800000001000 0x7000 1 3 0x5000;;
   destroy_mapping 0xffff800000001000 1 0x5000) sample_pg = Done () s' /\
  pt_ok 0x5000 s' /\ forall va', canonical va' ->
    translate (pg_mem s') 0x5000 va' = translate (pg_mem sample_pg) 0x5000 va'.
Proof.
  apply (map_unmap_roundtrip 0x5000 0xffff800000001000 0x7000 3 sample_pg sample_pg_ok);
    vm_compute; intuition discriminate.
Defined.

Lemma find_address_roundtrip_witness :
  find_address (pt_index 0xffffa12345678000) (pd_index 0xffffa12345678000)
    (pdpt_index 0xffffa12345678000) (pml4_index 0xffffa12345678000) = 0xffffa12345678000.
Proof.
  apply find_address_roundtrip. split; [lia|]. split; [reflexivity|right; lia].
Defined.

(** The sample with one page mapped. *)
Lemma destroy_mapping_page_witness : exists s1 l s',
  create_mapping 0x400000 0x7000 1 3 0x5000 sample_pg = Done () s1 /\
  translate (pg_mem s1) 0x5000 0x400000 = Some l /\
  destroy_mapping 0x400000 1 0x5000 s1 = Done () s' /\ page_unmapped 0x5000 0x400000 s1 s'.
Proof.
  destruct (wp_inv _ _ _ (wp_create_page 0x5000 0x400000 0x7000 3 sample_pg sample_pg_ok
    ltac:(apply small_no_large; [exact sample_pg_ok|intros l; vm_compute; discriminate])
    ltac:(vm_compute; discriminate) ltac:(lia) ltac:(lia) ltac:(lia) eq_refl ltac:(lia)
    ltac:(vm_compute; discriminate) eq_refl)) as ([] & s1 & E & [Hok Hhere _ _ _]).
  destruct (destroy_mapping_page 0x5000 0x400000 s1 _ Hok Hhere eq_refl ltac:(lia) ltac:(lia))
    as (s' & E' & R).
  exists s1, (mkLookup 0x7000 3 KB 0), s'. split; [exact E|]. split; [exact Hhere|].
  split; [exact E'|exact R].
Defined.
