(* ===== verification/VAlloc.v ===== *)
(** * The virtual allocator ([x86-64/memory/valloc.c])

    [vmalloc] takes single frames wherever the bitmap has them and maps them one run
    after the other, giving the bitmap's lock back around each [create_mapping]. *)
From S2P Require Import KPrelude MemHelpers Spinlock FrameAlloc Paging PagingProofs.

(** [check_byte(bitmap[count>>3], (u8)count & 0x7, 1)] *)
Definition frame_bit (count : Z) : M pg_state Z :=
  byte ← fa (bm_read (count >>> 3)); mret (check_byte byte (u8 count &&& 7) 1).

(** [while (check_byte(...) == 1) count++;] — without a bound of its own. *)
Definition skip_frames (count : Z) : M pg_state Z :=
  while FUEL (fun count =>
    b ← frame_bit count;
    if b =? 1 then mret (inl (u64 (count + 1))) else mret (inr count)) count.

Record vm_loop := mkVm {
  vm_count : Z;
  vm_count_tar : Z;
  vm_count_virt : Z;
  vm_match_count : Z;
  vm_PageCount : Z
}.

(** One turn of the [while (PageCount > 0)]. *)
Definition vmalloc_step (attributes : Z) (l : vm_loop) : M pg_state vm_loop :=
  b ← frame_bit (vm_count l);
  if b =? 0 then
    mret (mkVm (u64 (vm_count l + 1)) (vm_count_tar l) (vm_count_virt l)
               (u64 (vm_match_count l + 1)) (vm_PageCount l - 1))
  else
    b ← frame_bit (vm_count l);
    if b =? 1 then
      fa (fill_bitmap (vm_count_tar l) (vm_match_count l));;
      fa spin_unlock;;
      root ← gets KernelPML4;
      create_mapping (vm_count_virt l) (u64 (vm_count_tar l <<< 12)) (vm_match_count l)
        attributes root;;
      fa spin_lock;;
      count ← skip_frames (vm_count l);
      mret (mkVm count count (u64 (vm_count_virt l + u64 (vm_match_count l <<< 12))) 0
                 (vm_PageCount l))
    else mret l.

(** [Attribute]: 0 = success, 1 = not enough memory, 2 = no pages wanted. *)
Definition vmalloc (virtual_address pages attributes : Z) : M pg_state EFI_MEMORY_DESCRIPTOR :=
  if pages =? 0 then mret (mkDesc 0 0 0 0 2)
  else
    count ← gets (fun s => former_count (pg_fa s));
    fa spin_lock;;
    sim ← fa (run_simulation count pages);
    if sim =? 1 then fa spin_unlock;; mret (mkDesc 0 0 0 0 1)
    else
      l ← while FUEL (fun l =>
            if vm_PageCount l >? 0 then l ← vmalloc_step attributes l; mret (inl l)
            else mret (inr l)) (mkVm count count virtual_address 0 pages);
      fa (fill_bitmap (vm_count_tar l) (vm_match_count l));;
      fa spin_unlock;;
      root ← gets KernelPML4;
      create_mapping (vm_count_virt l) (u64 (vm_count_tar l <<< 12)) (vm_match_count l)
        attributes root;;
      lookup ← paging_lookup virtual_address root;
      flush_pages virtual_address pages;;
      fa (modify (set_former_count (vm_count l)));;
      mret (mkDesc 0 (Paging.physical_address lookup) virtual_address pages 0).

(** One turn of the loop of [vfree] on the address and the pages left; a failed lookup
    is not noticed and reads as frame 0 of a small page. *)
Definition vfree_step (va pages : Z) : M pg_state (Z * Z) :=
  root ← gets KernelPML4;
  lookup ← paging_lookup va root;
  let frame n := mkDesc 0 (Paging.physical_address lookup) va n 0 in
  if Page_Type lookup =? 0 then
    fa (free_frame (frame 1));; mret (u64 (va + 0x1000), u64 (pages - 1))
  else if Page_Type lookup =? 1 then
    fa (free_frame (frame 512));; mret (u64 (va + 0x200000), u64 (pages - 512))
  else if Page_Type lookup =? 2 then
    fa (free_frame (frame 262144));; mret (u64 (va + 0x40000000), u64 (pages - 262144))
  else mret (va, pages).

Definition vfree (allocation : EFI_MEMORY_DESCRIPTOR) : M pg_state unit :=
  let virtual_base := VirtualStart allocation in
  let pages := NumberOfPages allocation in
  while FUEL (fun '(va, rest) =>
    if rest >? 0 then r ← vfree_step va rest; mret (inl r) else mret (inr ()))
    (virtual_base, pages);;
  root ← gets KernelPML4;
  destroy_mapping virtual_base pages root;;
  flush_pages virtual_base pages.

(** ** Changing the allocator below the page tables *)

Lemma pt_ok_fa root s f :
  pt_ok root s -> fa_ok f -> bitmap_lock f = false -> frames f = frames (pg_fa s) ->
  (forall k, used (bitmap (pg_fa s)) k = true ->
    (exists p, Forall idx p /\ (length p <= 3)%nat /\
       table (pg_mem s) root p = Some (4096 * k)) -> used (bitmap f) k = true) ->
  pt_ok root (set_fa f s).
Proof.
  intros Hpt Hf Hl Hfr Hu. destruct Hpt as [Hr _ _ Hframes Huniq Htop].
  constructor; cbn; try done. intros p b Hp Hlen Eb.
  destruct (Hframes p b Hp Hlen Eb) as (t & -> & Ht & Hut). exists t.
  rewrite Hfr. split_and!; try done; try lia. apply Hu; [done|]. by exists p.
Qed.

Lemma pt_ok_flush root s l : pt_ok root s -> pt_ok root (set_invlpg l s).
Proof. by intros [? ? ? ? ? ?]. Qed.

(** A bitmap is determined by the frames it marks. *)
Lemma bitmap_ext b1 b2 : length b1 = length b2 -> bytes_ok b1 -> bytes_ok b2 ->
  (forall k, 0 <= k -> used b1 k = used b2 k) -> b1 = b2.
Proof.
  intros L B1 B2 U. apply (list_eq_same_length _ _ (length b1)); [done|done|].
  intros i x y Hi Ex Ey.
  pose proof (bytes_ok_lookup _ _ _ B1 Ex). pose proof (bytes_ok_lookup _ _ _ B2 Ey).
  apply Z.bits_inj'. intros j Hj. destruct (Z.lt_ge_cases j 8).
  - specialize (U (8 * Z.of_nat i + (7 - j)) ltac:(lia)). unfold used in U.
    replace ((8 * Z.of_nat i + (7 - j)) / 8) with (Z.of_nat i) in U by divlia.
    rewrite Nat2Z.id, Ex, Ey in U.
    by replace (7 - (8 * Z.of_nat i + (7 - j)) mod 8) with j in U by divlia.
  - rewrite !(testbit_above _ 8) by lia. done.
Qed.

Lemma marked_same v lo bm b : bytes_ok bm -> marked v lo lo bm b -> b = bm.
Proof.
  intros Hb (L & B & U). apply bitmap_ext; try done. intros k Hk. rewrite U by done.
  destruct (Z.leb_spec lo k), (Z.ltb_spec k lo); done || lia.
Qed.

(** The first free frame, when there is one. *)
Lemma first_free bm lo hi : 0 < free_in bm lo hi ->
  exists t, lo <= t < hi /\ used bm t = false /\ forall k, lo <= k < t -> used bm k = true.
Proof.
  remember (Z.to_nat (hi - lo)) as n eqn:En. revert lo En.
  induction n as [|n IH]; intros lo En Hf.
  { by rewrite free_in_empty in Hf by lia. }
  rewrite free_in_cons in Hf by lia. destruct (used bm lo) eqn:E.
  - destruct (IH (lo + 1)) as (t & Ht & Hut & Hall); [lia|lia|]. exists t.
    split_and!; try done; try lia. intros k Hk.
    destruct (Z.eq_dec k lo) as [->|]; [done|]. apply Hall. lia.
  - exists lo. split_and!; try done; lia.
Qed.

(** ** The loops *)

Lemma wp_frame_bit count (Q : Z -> pg_state -> Prop) s :
  0 <= count < 8 * Z.of_nat (length (bitmap (pg_fa s))) ->
  Q (Z.b2z (used (bitmap (pg_fa s)) count)) s -> wp (frame_bit count) Q s.
Proof.
  intros Hc HQ. unfold frame_bit, fa. wp_steps. apply wp_read_frame; [done|].
  intros b ->. wp_steps. by destruct s.
Qed.

Lemma wp_skip_frames count t s :
  0 <= count <= t -> t < 8 * Z.of_nat (length (bitmap (pg_fa s))) -> t < 2 ^ 52 ->
  used (bitmap (pg_fa s)) t = false ->
  (forall k, count <= k < t -> used (bitmap (pg_fa s)) k = true) ->
  wp (skip_frames count) (fun c s' => c = t /\ s' = s) s.
Proof.
  intros Hc Ht Ht52 Hut Hall. unfold skip_frames.
  eapply (wp_while _ (fun c s' => s' = s /\ count <= c <= t) (fun c _ => t - c)).
  - intros c s1 [-> Hct]. wp_step. apply wp_frame_bit; [lia|].
    destruct (Z.eq_dec c t) as [->|].
    + rewrite Hut. by wp_steps.
    + rewrite Hall by lia. cbn. wp_steps. rewrite u64_id by lia. split; [|lia]. split; [done|lia].
  - split; [done|lia].
  - unfold FUEL. lia.
Qed.

Lemma wp_flush_pages va pages s : 0 <= va -> 0 <= pages -> va + 4096 * pages + 4096 < 2 ^ 64 ->
  wp (flush_pages va pages) (fun _ s' => exists l, s' = set_invlpg l s) s.
Proof.
  intros Hva Hp Hend. unfold flush_pages. rewrite u64_id by lia.
  eapply (wp_while _ (fun a s' => va <= a <= va + 4096 * pages + 4096 /\ exists l, s' = set_invlpg l s)
    (fun a _ => Z.max 0 (va + 4096 * pages - a))).
  - intros a s1 [Ha [l ->]]. destruct (Z.ltb_spec a (va + 4096 * pages)); wp_steps.
    + rewrite u64_id by lia. split; [|lia]. split; [lia|]. by eexists.
    + by exists l.
  - split; [lia|]. exists (invlpg s). by destruct s.
  - unfold FUEL. lia.
Qed.

Lemma create_nothing va pa attr root s : create_mapping va pa 0 attr root s = Done () s.
Proof. unfold create_mapping. by rewrite orb_true_r. Qed.

(** ** One page *)

(** Frame [t] is the first free one the allocator sees. *)
Definition first_frame (f : fa_state) (t : Z) : Prop :=
  former_count f <= t < frames f /\ used (bitmap f) t = false /\
  forall k, former_count f <= k < t -> used (bitmap f) k = true.

(** Frame [t] holds no table. *)
Definition not_table (root : Z) (s : pg_state) (t : Z) : Prop :=
  forall p, Forall idx p -> (length p <= 3)%nat -> table (pg_mem s) root p <> Some (4096 * t).

Record page_vmalloced (root va attr : Z) (s : pg_state) (d : EFI_MEMORY_DESCRIPTOR)
    (s' : pg_state) : Prop := {
  pv_frame : exists t, first_frame (pg_fa s) t /\ d = mkDesc 0 (4096 * t) va 1 0 /\
    used (bitmap (pg_fa s')) t = true /\ not_table root s' t /\
    translate (pg_mem s') root va = Some (mkLookup (4096 * t) attr KB 0);
  pv_frames : frames (pg_fa s') = frames (pg_fa s);
  pv_ok : pt_ok root s';
  pv_root : KernelPML4 s' = KernelPML4 s;
  pv_there : forall va', path va' <> path va ->
    translate (pg_mem s') root va' = translate (pg_mem s) root va';
  pv_keeps : forall k, 0 <= k -> used (bitmap (pg_fa s)) k = true -> used (bitmap (pg_fa s')) k = true;
  pv_new : forall k, 0 <= k -> used (bitmap (pg_fa s')) k = true ->
    used (bitmap (pg_fa s)) k = true \/ PhysicalStart d = 4096 * k \/ table_frame root s' k
}.

(** The loop of [vmalloc], for one page: it leaves the first free frame as the run to
    take, and the allocator as it was. *)
Lemma wp_vmalloc_loop va attr t s :
  fa_ok (pg_fa s) -> bitmap_lock (pg_fa s) = true -> first_frame (pg_fa s) t ->
  0 <= va < 2 ^ 64 ->
  wp (while FUEL (fun l =>
        if vm_PageCount l >? 0 then l ← vmalloc_step attr l; mret (inl l) else mret (inr l))
        (mkVm (former_count (pg_fa s)) (former_count (pg_fa s)) va 0 1))
     (fun l s' => l = mkVm (t + 1) t va 1 0 /\ s' = s) s.
Proof.
  intros [Hb Hsz Hlim Hf] Hlk (Ht & Hut & Hall) Hva. unfold frames in *.
  eapply (wp_while _ (fun l s' => s' = s /\
      (l = mkVm (t + 1) t va 1 0 \/
       exists c, former_count (pg_fa s) <= c <= t /\ l = mkVm c c va 0 1))
    (fun l _ => vm_PageCount l * (1 + t - vm_count l))).
  - intros l s1 [-> [->|(c & Hc & ->)]]; cbn [vm_PageCount]; [by wp_steps|].
    change (1 >? 0) with true. cbn iota. wp_step. unfold vmalloc_step.
    cbn [vm_count vm_count_tar vm_count_virt vm_match_count vm_PageCount].
    wp_step. apply wp_frame_bit; [lia|]. destruct (Z.eq_dec c t) as [->|].
    + rewrite Hut. cbn. wp_steps. rewrite u64_id by lia. split; [|cbn; lia].
      split; [done|]. left. done.
    + rewrite Hall by lia. cbn. wp_step. apply wp_frame_bit; [lia|]. rewrite Hall by lia.
      cbn. unfold fa. wp_steps. unfold fill_bitmap.
      eapply wp_mono; [apply wp_span_update; [unfold in_memory; lia|done]|].
      intros [] f1 [E M]. rewrite Z.add_0_r in M. apply marked_same in M; [|done].
      rewrite M in E. clear M. subst f1. wp_steps. apply wp_spin_unlock. cbn. wp_steps.
      unfold wp at 1. rewrite create_nothing. wp_steps. apply wp_spin_lock; [done|]. cbn.
      wp_step. replace (set_fa _ _) with s by (destruct s as [[]]; cbn in *; by subst).
      eapply wp_mono; [apply (wp_skip_frames c t); try done; try lia|].
      { intros k Hk. apply Hall. lia. }
      intros c' s1 [-> ->]. wp_steps. rewrite shiftl_mul, !u64_id by (rewrite ?u64_id; lia).
      rewrite Z.mul_0_l. rewrite Z.add_0_r.
      split; [|cbn; lia]. split; [done|]. right. exists t. split; [lia|done].
  - split; [done|]. right. exists (former_count (pg_fa s)). split; [lia|done].
  - unfold FUEL. cbn. lia.
Qed.

(** The allocator with the frame taken. *)
Lemma take_frame root s t b :
  pt_ok root s -> first_frame (pg_fa s) t -> marked true t (t + 1) (bitmap (pg_fa s)) b ->
  let s1 := set_fa (set_bitmap b (pg_fa s)) s in
  pt_ok root s1 /\ used b t = true /\ not_table root s1 t /\
  reachable_free (pg_fa s1) = reachable_free (pg_fa s) - 1.
Proof.
  intros Hpt (Ht & Hut & Hall) M. pose proof M as (L & B & U).
  pose proof (pt_fa _ _ Hpt) as [Hb Hsz Hlim Hf]. unfold frames in *. cbn zeta. split_and!.
  - apply pt_ok_fa; [done|constructor; cbn; rewrite ?L; done|apply (pt_lock _ _ Hpt)|done|].
    intros k Hu (p & Hp & Hl & E).
    destruct (pt_frames _ _ Hpt p _ Hp Hl E) as (k' & Ek & Hk' & _).
    cbn. rewrite U by lia. by destruct (_ && _).
  - rewrite U by lia. destruct (Z.leb_spec t t), (Z.ltb_spec t (t + 1)); lia || done.
  - intros p Hp Hl E. cbn in E. destruct (pt_frames _ _ Hpt p _ Hp Hl E) as (k & Ek & _ & Hu).
    replace k with t in Hu by lia. congruence.
  - unfold reachable_free, frames. cbn.
    rewrite (free_in_used b (former_count (pg_fa s)) (t + 1)); [|lia|].
    2: { intros k Hk. rewrite U by lia. destruct (Z.leb_spec t k), (Z.ltb_spec k (t + 1));
         cbn; try lia; try done; apply Hall; lia. }
    rewrite (free_in_used (bitmap (pg_fa s)) (former_count (pg_fa s)) t); [|lia|done].
    rewrite (free_in_cons _ t) by lia. rewrite Hut.
    rewrite (free_in_ext b (bitmap (pg_fa s)) (t + 1)); [lia|].
    intros k Hk. rewrite U by lia. destruct (Z.ltb_spec k (t + 1)); [lia|].
    by rewrite andb_false_r.
Qed.

Lemma wp_vmalloc_page va attr s :
  let root := KernelPML4 s in
  pt_ok root s -> small_page (pg_mem s) root va -> 4 <= reachable_free (pg_fa s) ->
  0 <= va -> va + 8192 < 2 ^ 64 ->
  0 <= attr < 4096 -> attr &&& 7 <> 0 -> attr &&& 128 = 0 ->
  wp (vmalloc va 1 attr) (page_vmalloced root va attr s) s.
Proof.
  intros root Hpt Hsmall Hfree Hva Hva2 Ha Ha7 H128.
  pose proof (pt_fa _ _ Hpt) as Hok. pose proof Hok as [Hb Hsz Hlim Hf].
  destruct (first_free (bitmap (pg_fa s)) (former_count (pg_fa s)) (frames (pg_fa s)))
    as (t & Hfirst); [unfold reachable_free in Hfree; lia|].
  pose proof Hfirst as (Ht & Hut & Hall). unfold frames in Ht.
  unfold vmalloc. change (1 =? 0) with false. cbn iota. unfold fa. wp_steps.
  apply wp_spin_lock; [apply (pt_lock _ _ Hpt)|]. cbn [set_locked bitmap_Lock]. wp_steps.
  set (s0 := set_fa (set_bitmap_lock true (pg_fa s)) s).
  eapply wp_mono; [apply wp_run_simulation; [by destruct Hok|cbn; done|lia]|].
  intros r f1 [-> [[-> _]|[_ Hno]]].
  2: { unfold reachable_free, frames in *. cbn in Hno. lia. }
  change (0 =? 1) with false. cbn iota. wp_steps.
  eapply wp_mono; [apply (wp_vmalloc_loop va attr t s0); [by destruct Hok|done|done|lia]|].
  intros l s1 [-> ->]. cbn [vm_count vm_count_tar vm_count_virt vm_match_count]. unfold fill_bitmap.
  wp_steps. eapply wp_mono; [apply wp_span_update; [unfold in_memory; cbn; lia|done]|].
  intros [] f2 [E M]. cbn in E, M. wp_steps. apply wp_spin_unlock. cbn. wp_steps.
  rewrite E. set (b := bitmap f2) in *. clearbody b.
  replace (set_fa _ _) with (set_fa (set_bitmap b (pg_fa s)) s)
    by (pose proof (pt_lock _ _ Hpt); destruct s as [[]]; cbn in *; by subst).
  destruct (take_frame root s t b Hpt Hfirst M) as (Hpt1 & Hub & Hnt & Hfree1).
  rewrite frame_addr by lia. change (KernelPML4 (set_fa _ s)) with root.
  eapply wp_mono.
  { apply wp_create_page; try done; try lia; try divlia.
    by apply small_no_large; [|exact Hsmall]. }
  intros [] s2 [Hok2 Hhere Hthere _ Hgr]. unfold paging_lookup. wp_steps.
  eapply wp_mono; [apply wp_flush_pages; lia|]. intros [] s3 [fl ->]. wp_steps.
  pose proof (gr_used _ _ _ Hgr t ltac:(lia) Hub) as Hut2.
  constructor; cbn.
  - exists t. split; [done|]. split_and!; [|done| |done].
    + f_equal. unfold translate in Hhere.
      destruct (status _ =? 0); [|done]. by injection Hhere as ->.
    + intros p Hp Hl Ep. cbn in Ep.
      destruct (gr_tables _ _ _ Hgr p t Hp Hl ltac:(lia) Ep) as [E0|E0]; [|cbn in E0; congruence].
      by apply (Hnt p).
  - apply (gr_frames _ _ _ Hgr).
  - destruct Hok2 as [? [] ? ? ? ?]. constructor; try done. constructor; cbn; done || lia.
  - apply (gr_root _ _ _ Hgr).
  - done.
  - intros k Hk Hu. apply (gr_used _ _ _ Hgr); [done|]. cbn. destruct M as (_ & _ & U).
    rewrite U, Hu by done. by destruct (_ && _).
  - intros k Hk Hu. destruct (gr_new _ _ _ Hgr k Hk Hu) as [H0|H0]; [|by right; right].
    destruct M as (_ & _ & U). cbn in H0. rewrite U in H0 by done. revert H0.
    destruct (Z.leb_spec t k), (Z.ltb_spec k (t + 1)); cbn; auto.
    intros _. right. left. replace k with t by lia. unfold translate in Hhere.
    destruct (status _ =? 0); [|done]. by injection Hhere as ->.
Qed.

Record page_vfreed (root va t : Z) (s s' : pg_state) : Prop := {
  pf_ok : pt_ok root s';
  pf_here : translate (pg_mem s') root va = None;
  pf_there : forall va', path va' <> path va ->
    translate (pg_mem s') root va' = translate (pg_mem s) root va';
  pf_used : forall k, 0 <= k ->
    used (bitmap (pg_fa s')) k = if k =? t then false else used (bitmap (pg_fa s)) k;
  pf_tables : forall k, table_frame root s k -> table_frame root s' k
}.

Lemma wp_vfree_page va t a pa s ty at_ :
  let root := KernelPML4 s in
  pt_ok root s -> translate (pg_mem s) root va = Some (mkLookup (4096 * t) a KB 0) ->
  0 <= t < frames (pg_fa s) -> not_table root s t -> 0 <= va -> va + 8192 < 2 ^ 64 ->
  wp (vfree (mkDesc ty pa va 1 at_)) (fun _ => page_vfreed root va t s) s.
Proof.
  intros root Hpt Htr Ht Hnt Hva Hva2. unfold vfree. cbn [VirtualStart NumberOfPages].
  pose proof (pt_fa _ _ Hpt) as Hok. pose proof Hok as [Hb Hsz Hlim Hf].
  assert (lookup_mem (pg_mem s) va root = mkLookup (4096 * t) a KB 0) as El.
  { unfold translate in Htr. destruct (status _ =? 0); [congruence|done]. }
  wp_step. eapply wp_mono.
  { apply (wp_while _ (fun '(v, r) s' => (v = va /\ r = 1 /\ s' = s) \/ (r = 0 /\
        exists b f, marked false t (t + 1) (bitmap (pg_fa s)) b /\ 0 <= f /\
          s' = set_fa (set_former_count f (set_bitmap b (pg_fa s))) s)) (fun '(_, r) _ => r)
        (fun _ s' => exists b f, marked false t (t + 1) (bitmap (pg_fa s)) b /\ 0 <= f /\
          s' = set_fa (set_former_count f (set_bitmap b (pg_fa s))) s));
      [|by left|unfold FUEL; lia].
    intros [v r] s1 [(-> & -> & ->)|(-> & H)]; [|by wp_steps].
    change (1 >? 0) with true. cbn iota. unfold vfree_step, paging_lookup, fa. wp_steps.
    change (KernelPML4 s) with root. rewrite El. cbn [Page_Type Paging.physical_address].
    change (KB =? 0) with true. cbn iota. wp_steps. unfold frames in Ht.
    assert (4096 * t / 4096 = t) as Et by divlia.
    eapply wp_mono; [apply wp_free_frame; cbn; try done; try lia|].
    { apply (pt_lock _ _ Hpt). }
    { unfold in_memory. cbn. rewrite Et. lia. }
    intros [] f (b & M & E). cbn in M, E. rewrite Et in M, E. wp_steps.
    change (u64 (1 - 1)) with 0. split; [|lia]. right. split; [done|].
    exists b, (Z.min t (former_count (pg_fa s))). rewrite E. split; [done|]. split; [lia|done]. }
  intros [] s1 (b & f & M & Hf0 & ->). wp_steps. set (s1 := set_fa _ s).
  change (KernelPML4 s1) with root. destruct M as (L & B & U).
  assert (pt_ok root s1) as Hpt1.
  { apply pt_ok_fa; [done|constructor; cbn; rewrite ?L; done|apply (pt_lock _ _ Hpt)|done|].
    intros k Hu (p & Hp & Hl & E).
    destruct (pt_frames _ _ Hpt p _ Hp Hl E) as (k' & Ek & Hk' & _). cbn. rewrite U by lia.
    destruct (Z.leb_spec t k), (Z.ltb_spec k (t + 1)); try done. exfalso.
    apply (Hnt p Hp Hl). rewrite E. do 2 f_equal. lia. }
  destruct (small_walk root s1 va _ Hpt1 Htr eq_refl) as [e Ew].
  eapply wp_mono; [apply (wp_destroy_page root va s1 e); try done; lia|].
  intros [] s2 [Hok2 Hhere Hthere Hfa Htab]. wp_steps.
  eapply wp_mono; [apply wp_flush_pages; lia|]. intros [] s3 [fl ->].
  constructor; cbn; [by apply pt_ok_flush|done|done| |].
  2: { intros k Hk. eapply table_frame_keep; [|exact Hk]. intros p c Hp Hl Hc. cbn. by rewrite Htab. }
  intros k Hk. rewrite Hfa. cbn. rewrite U by done.
  destruct (Z.leb_spec t k), (Z.ltb_spec k (t + 1)), (Z.eqb_spec k t); done || lia.
Qed.

(** ** The properties of the virtual allocator *)

(** [vmalloc] of one page succeeds when four frames are left: it returns the
    address it was given with the first free frame behind it, the page translates to
    that frame with the wanted attributes, the frame is marked used and is no page
    table, no other page's translation has changed, and the tables are well formed. *)
Lemma vmalloc_page va attr s :
  let root := KernelPML4 s in
  pt_ok root s -> small_page (pg_mem s) root va -> 4 <= reachable_free (pg_fa s) ->
  0 <= va -> va + 8192 < 2 ^ 64 ->
  0 <= attr < 4096 -> attr &&& 7 <> 0 -> attr &&& 128 = 0 ->
  exists d s', vmalloc va 1 attr s = Done d s' /\ page_vmalloced root va attr s d s'.
Proof.
  intros root Hpt Hs Hf H1 H2 H3 H4 H5.
  destruct (wp_inv _ _ _ (wp_vmalloc_page va attr s Hpt Hs Hf H1 H2 H3 H4 H5))
    as (d & s' & E & R). by exists d, s'.
Qed.

(** C5: one page through [vmalloc] and [vfree], for an unmapped canonical page, attributes that
    make a present entry of a small page, and four frames left (its own and three for tables).
    [vmalloc] answers the first free frame and maps the page to it. [vfree] of the answer unmaps
    the page: every canonical page translates as before the allocation, the tables are well
    formed, and the frame is free again. The frames used then are those used before and the ones
    of the page tables that were made on the way: these are not given back. *)
Theorem vmalloc_vfree va attr s :
  let root := KernelPML4 s in
  pt_ok root s -> canonical va -> translate (pg_mem s) root va = None ->
  4 <= reachable_free (pg_fa s) -> va + 8192 < 2 ^ 64 ->
  0 <= attr < 4096 -> attr &&& 7 <> 0 -> attr &&& 128 = 0 ->
  exists t s1 s2, let d := mkDesc 0 (4096 * t) va 1 0 in
    vmalloc va 1 attr s = Done d s1 /\ vfree d s1 = Done () s2 /\
    first_frame (pg_fa s) t /\ used (bitmap (pg_fa s1)) t = true /\
    translate (pg_mem s1) root va = Some (mkLookup (4096 * t) attr KB 0) /\
    pt_ok root s2 /\ used (bitmap (pg_fa s2)) t = false /\
    (forall va', canonical va' -> translate (pg_mem s2) root va' = translate (pg_mem s) root va') /\
    (forall k, 0 <= k -> used (bitmap (pg_fa s)) k = true -> used (bitmap (pg_fa s2)) k = true) /\
    (forall k, 0 <= k -> used (bitmap (pg_fa s2)) k = true ->
       used (bitmap (pg_fa s)) k = true \/ table_frame root s2 k).
Proof.
  cbn zeta. intros Hpt Hc Hn Hf H2 H3 H4 H5. pose proof Hc as (H1 & _).
  destruct (wp_inv _ _ _ (wp_vmalloc_page va attr s Hpt
    ltac:(intros l; rewrite Hn; discriminate) Hf ltac:(lia) H2 H3 H4 H5))
    as (d & s1 & E & [(t & Hfirst & -> & Hu & Hnt & Htr) Hfr Hok Hroot Hthere Hkeep Hnew]).
  pose proof Hfirst as (Ht & Hfree & _). pose proof (fa_former _ (pt_fa _ _ Hpt)).
  rewrite <- Hroot in Htr, Hok, Hnt, Hthere, Hnew.
  destruct (wp_inv _ _ _ (wp_vfree_page va t attr (4096 * t) s1 0 0 Hok Htr
    ltac:(rewrite Hfr; lia) Hnt ltac:(lia) H2)) as ([] & s2 & E2 & [Hok2 Hhere2 Hthere2 Hu2 Htab]).
  exists t, s1, s2. rewrite <- Hroot. do 6 (split; [done|]). split; [|split; [|split]].
  - rewrite Hu2 by lia. by rewrite Z.eqb_refl.
  - intros va' Hc'. destruct (decide (va' = va)) as [->|Hne].
    + rewrite Hhere2. by rewrite Hroot.
    + assert (path va' <> path va) by (intros Ep; by apply Hne, path_inj).
      rewrite Hthere2, Hthere by done. by rewrite Hroot.
  - intros k Hk Hku. rewrite Hu2 by done. destruct (Z.eqb_spec k t) as [->|]; [congruence|auto].
  - intros k Hk. rewrite Hu2 by done. destruct (Z.eqb_spec k t) as [|Hkt]; [done|]. intros Hku.
    destruct (Hnew k Hk Hku) as [?|[Ek|?]]; [by left|cbn in Ek; lia|right; by apply Htab].
Qed.

Lemma vmalloc_page_witness :
  let s := set_KernelPML4 0x5000 sample_pg in
  exists d s', vmalloc 0xffffb00000000000 1 3 s = Done d s' /\
    page_vmalloced 0x5000 0xffffb00000000000 3 s d s'.
Proof.
  apply (vmalloc_page 0xffffb00000000000 3 (set_KernelPML4 0x5000 sample_pg)
    ltac:(destruct sample_pg_ok; constructor; assumption));
    vm_compute; intuition discriminate.
Defined.

Lemma vmalloc_vfree_witness :
  let s := set_KernelPML4 0x5000 sample_pg in
  exists t s1 s2, let d := mkDesc 0 (4096 * t) 0xffffb00000000000 1 0 in
    vmalloc 0xffffb00000000000 1 3 s = Done d s1 /\ vfree d s1 = Done () s2 /\
    first_frame (pg_fa s) t /\ used (bitmap (pg_fa s1)) t = true /\
    translate (pg_mem s1) 0x5000 0xffffb00000000000 = Some (mkLookup (4096 * t) 3 KB 0) /\
    pt_ok 0x5000 s2 /\ used (bitmap (pg_fa s2)) t = false /\
    (forall va', canonical va' -> translate (pg_mem s2) 0x5000 va' = translate (pg_mem s) 0x5000 va') /\
    (forall k, 0 <= k -> used (bitmap (pg_fa s)) k = true -> used (bitmap (pg_fa s2)) k = true) /\
    (forall k, 0 <= k -> used (bitmap (pg_fa s2)) k = true ->
       used (bitmap (pg_fa s)) k = true \/ table_frame 0x5000 s2 k).
Proof.
  apply (vmalloc_vfree 0xffffb00000000000 3 (set_KernelPML4 0x5000 sample_pg)
    ltac:(destruct sample_pg_ok; constructor; assumption));
    vm_compute; intuition discriminate.
Defined.
