(* ===== verification/Bytes.v ===== *)
(** * Firmware memory as bytes

    Tables that the firmware left in memory are read, never written: memory is a
    partial map from addresses to bytes, and a read outside it faults. *)
From S2P Require Import KPrelude MemHelpers.

(** The [n] bytes of an integer, the lowest first. *)
Fixpoint bytes_of (n : nat) (v : Z) : list Z :=
  match n with O => [] | Datatypes.S n => v mod 256 :: bytes_of n (v / 256) end.

Lemma bytes_of_length n v : length (bytes_of n v) = n.
Proof. revert v. induction n; intros; cbn; auto. Qed.

Lemma field_bytes n : forall v, 0 <= v < 256 ^ Z.of_nat n ->
  foldr (fun b v => b + 256 * v) 0 (bytes_of n v) = v.
Proof.
  induction n as [|n IH]; intros v Hv; cbn [bytes_of foldr].
  - change (256 ^ Z.of_nat 0) with 1 in Hv. lia.
  - rewrite Nat2Z.inj_succ, Z.pow_succ_r in Hv by lia. rewrite IH by divlia. divlia.
Qed.

Section Bytes.
Context {S : Type} (mem : Z -> option Z).

Definition byte (a : Z) : M S Z := of_option (mem a).

(** A little-endian integer of [n] bytes. *)
Fixpoint le (n : nat) (a : Z) : M S Z :=
  match n with
  | O => mret 0
  | Datatypes.S n' => b ← byte a; rest ← le n' (a + 1); mret (b + 256 * rest)
  end.

Definition le16 : Z -> M S Z := le 2.
Definition le32 : Z -> M S Z := le 4.
Definition le64 : Z -> M S Z := le 8.

Fixpoint bytes_at (a : Z) (n : nat) : M S (list Z) :=
  match n with
  | O => mret []
  | Datatypes.S n' => b ← byte a; rest ← bytes_at (a + 1) n'; mret (b :: rest)
  end.

(** [memcmp(ptr, lit, n) == 0] against a literal: it stops at the first difference. *)
Fixpoint matches (a : Z) (sig : list Z) : M S bool :=
  match sig with
  | [] => mret true
  | c :: sig' => b ← byte a; if b =? c then matches (a + 1) sig' else mret false
  end.

(** The search loop [for (addr = from; addr < to; addr += 16)] for a signature. *)
Definition scan (sig : list Z) (from to : Z) : M S (option Z) :=
  while FUEL (fun addr : Z =>
    if addr <? to then
      matches addr sig ≫= fun found : bool =>
      if found then mret (inr (Some addr)) else mret (inl (addr + 16))
    else mret (inr None)) from.

(** ** What the reads return *)

Definition readable (a n : Z) : Prop :=
  forall i, 0 <= i < n -> exists b, mem (a + i) = Some b /\ 0 <= b < 256.

Definition val8 (a : Z) : Z := default 0 (mem a).
Fixpoint val (n : nat) (a : Z) : Z :=
  match n with O => 0 | Datatypes.S n' => val8 a + 256 * val n' (a + 1) end.
Definition has_sig (a : Z) (sig : list Z) : bool :=
  forallb (fun '(i, c) => val8 (a + Z.of_nat i) =? c) (imap pair sig).

Lemma readable_sub a n b m : readable a n -> a <= b -> b + m <= a + n -> readable b m.
Proof.
  intros H Hb Hm i Hi. destruct (H (b + i - a) ltac:(lia)) as (v & E & R).
  exists v. by replace (a + (b + i - a)) with (b + i) in E by lia.
Qed.

Lemma wp_byte a n b (Q : Z -> S -> Prop) s :
  readable a n -> a <= b < a + n -> (0 <= val8 b < 256 -> Q (val8 b) s) -> wp (byte b) Q s.
Proof.
  intros H Hb HQ. destruct (H (b - a) ltac:(lia)) as (v & E & R).
  replace (a + (b - a)) with b in E by lia. unfold byte. apply wp_of_option.
  exists v. split; [done|]. unfold val8 in HQ. rewrite E in HQ. auto.
Qed.

Lemma wp_le n : forall a k b (Q : Z -> S -> Prop) s,
  readable a k -> a <= b -> b + Z.of_nat n <= a + k ->
  (0 <= val n b < 256 ^ Z.of_nat n -> Q (val n b) s) -> wp (le n b) Q s.
Proof.
  induction n as [|n IH]; intros a k b Q s H Hb Hn HQ; cbn [le val] in *.
  - wp_steps. apply HQ. change (256 ^ Z.of_nat 0) with 1. lia.
  - wp_step. eapply wp_byte; [done|lia|]. intros R8. wp_step.
    eapply IH; [done|lia|lia|]. intros R. wp_steps. apply HQ.
    replace (256 ^ Z.of_nat (Datatypes.S n)) with (256 * 256 ^ Z.of_nat n); [nia|].
    rewrite Nat2Z.inj_succ, Z.pow_succ_r; lia.
Qed.

Lemma has_sig_cons a c sig :
  has_sig a (c :: sig) = (val8 a =? c) && has_sig (a + 1) sig.
Proof.
  unfold has_sig. cbn. rewrite Z.add_0_r. f_equal.
  change (imap (pair ∘ Datatypes.S) sig) with (imap (fun i x => (Datatypes.S i, x)) sig).
  generalize 0%nat as k. 
  assert (forall (l : list Z) (f : nat -> nat),
    forallb (fun '(i, c) => val8 (a + Z.of_nat i) =? c) (imap (fun i x => (Datatypes.S (f i), x)) l) =
    forallb (fun '(i, c) => val8 (a + 1 + Z.of_nat i) =? c) (imap (fun i x => (f i, x)) l)) as H.
  { induction l as [|x l IH]; intros f; cbn; [done|]. f_equal.
    - f_equal. f_equal. lia.
    - apply (IH (fun i => f (Datatypes.S i))). }
  intros _. apply (H sig (fun i => i)).
Qed.

Lemma wp_matches sig : forall a n b (Q : bool -> S -> Prop) s,
  readable a n -> a <= b -> b + Z.of_nat (length sig) <= a + n ->
  Q (has_sig b sig) s -> wp (matches b sig) Q s.
Proof.
  induction sig as [|c sig IH]; intros a n b Q s H Hb Hn HQ; cbn [matches length] in *; [done|].
  wp_step. eapply wp_byte; [done|lia|]. intros _. rewrite has_sig_cons in HQ.
  destruct (val8 b =? c); [|done]. eapply IH; [done|lia|lia|done].
Qed.

(** The first place where a scan finds its signature. *)
Definition first_match (sig : list Z) (from to : Z) (r : option Z) : Prop :=
  match r with
  | Some a => from <= a < to /\ (a - from) mod 16 = 0 /\ has_sig a sig = true /\
      forall b, from <= b < a -> (b - from) mod 16 = 0 -> has_sig b sig = false
  | None => forall b, from <= b < to -> (b - from) mod 16 = 0 -> has_sig b sig = false
  end.

Lemma wp_scan sig from to s :
  readable from (to + Z.of_nat (length sig) - from) -> 0 <= from -> to < 2 ^ 64 ->
  wp (scan sig from to) (fun r s' => s' = s /\ first_match sig from to r) s.
Proof.
  intros Hr Hf Ht. unfold scan.
  eapply (wp_while _ (fun a s' => s' = s /\ from <= a /\ (a - from) mod 16 = 0 /\
      forall b, from <= b < a -> (b - from) mod 16 = 0 -> has_sig b sig = false)
    (fun a _ => Z.max 0 (to - a))).
  - intros a s1 (-> & Ha & Hm & Hno). destruct (Z.ltb_spec a to).
    + wp_step. eapply wp_matches; [done|lia|lia|]. destruct (has_sig a sig) eqn:E; wp_steps.
      * split; [done|]. cbn. split_and!; try done; lia.
      * split; [|lia]. split; [done|]. split; [lia|]. split; [divlia|].
        intros b Hb Hbm. destruct (Z.lt_ge_cases b a); [by apply Hno; [lia|]|].
        assert (b = a) as -> by divlia. done.
    + wp_steps. split; [done|]. cbn. intros b Hb. apply Hno. lia.
  - split_and!; [done|lia|by rewrite Z.sub_diag|lia].
  - unfold FUEL. lia.
Qed.

(** Readability of a concrete memory. *)
Fixpoint readable_nat (a : Z) (n : nat) : bool :=
  match n with
  | O => true
  | Datatypes.S n' =>
      match mem a with
      | Some b => (0 <=? b) && (b <? 256) && readable_nat (a + 1) n'
      | None => false
      end
  end.
Definition readableb (a n : Z) : bool := readable_nat a (Z.to_nat n).

Lemma readableb_ok a n : readableb a n = true -> readable a n.
Proof.
  unfold readableb. intros H i Hi. assert (i < Z.of_nat (Z.to_nat n)) as Hn by lia.
  destruct Hi as [Hi _]. revert a i H Hi Hn.
  induction (Z.to_nat n) as [|m IH]; intros a i H Hi Hn; [lia|]. cbn [readable_nat] in H.
  destruct (mem a) as [b|] eqn:E; [|done].
  apply andb_true_iff in H as [[H1 H2]%andb_true_iff H].
  destruct (Z.eq_dec i 0) as [->|].
  - exists b. rewrite Z.add_0_r. split; [done|lia].
  - destruct (IH (a + 1) (i - 1) H ltac:(lia) ltac:(lia)) as (v & Ev & Rv).
    exists v. by replace (a + 1 + (i - 1)) with (a + i) in Ev by lia.
Qed.
End Bytes.

(** A memory given by a list of regions; the bytes behind a region's list are 0. *)
Definition regions (l : list (Z * Z * list Z)) (a : Z) : option Z :=
  match List.find (fun '(base, size, _) => (base <=? a) && (a <? base + size)) l with
  | Some (base, _, bytes) =>
      Some (if a - base <? Z.of_nat (length bytes)
            then default 0 (bytes !! Z.to_nat (a - base)) else 0)
  | None => None
  end.
