(* ===== verification/Acpi.v ===== *)
(** * ACPI table discovery ([x86-64/acpi.c])

    The tables lie in a byte memory that the code only reads ([mem]); a structure is
    its address, a field the little-endian integer at its packed offset. The state is
    the global [rsdp_address]. Debug output has no counterpart here. *)
From S2P Require Import KPrelude MemHelpers Paging Bytes.

Definition MADT_sig := 0x43495041.
Definition FACP_sig := 0x50434146.
Definition HPET_sig := 0x54455048.
Definition MCFG_sig := 0x4746434D.

Record acpi_state := mkAcpi { rsdp_address : Z }.

(** The union [table] holds one pointer. *)
Record ACPI_ret := mkRet {
  Address : Z;
  simple_timer_io_base : Z;
  simple_timer_code : Z;
  ret_table : Z;
  ret_status : Z
}.
Definition zero_ret : ACPI_ret := mkRet 0 0 0 0 0.
Definition ret_fail (r : ACPI_ret) : ACPI_ret :=
  mkRet (Address r) (simple_timer_io_base r) (simple_timer_code r) (ret_table r) 1.
Definition ret_address (a : Z) (r : ACPI_ret) : ACPI_ret :=
  mkRet a (simple_timer_io_base r) (simple_timer_code r) (ret_table r) 0.
Definition ret_timer (base code : Z) (r : ACPI_ret) : ACPI_ret :=
  mkRet (Address r) base code (ret_table r) 0.
Definition set_ret_table (t : Z) (r : ACPI_ret) : ACPI_ret :=
  mkRet (Address r) (simple_timer_io_base r) (simple_timer_code r) t (ret_status r).

(** A [char] read as a signed number and converted to [uint32_t]. *)
Definition char32 (c : Z) : Z := u32 (if c <? 128 then c else c - 256).

Definition acpi_signature (sig : list Z) : Z :=
  match sig with
  | [c0; c1; c2; c3] =>
      char32 c0 ||| u32 (char32 c1 <<< 8) ||| u32 (char32 c2 <<< 16) ||| u32 (char32 c3 <<< 24)
  | _ => 0
  end.

Definition RSD_PTR : list Z := [82; 83; 68; 32; 80; 84; 82; 32].
Definition XSDT : list Z := [88; 83; 68; 84].
(** The packed sizes of [ACPISDTHeader] and [MADTIOAPIC], the offset of [entries]. *)
Definition SDT_SIZE := 36.
Definition IOAPIC_SIZE := 12.
Definition MADT_entries := 44.

Section Acpi.
Context (mem : Z -> option Z).
Abbreviation rd8 := (byte (S := acpi_state) mem).
Abbreviation rd32 := (le32 (S := acpi_state) mem).
Abbreviation rd64 := (le64 (S := acpi_state) mem).

Definition find_rsdp_legacy : M acpi_state Z :=
  ebda_segment ← le16 mem 0x40E;
  let ebda_address := ebda_segment <<< 4 in
  r ← scan mem RSD_PTR ebda_address (ebda_address + 1024);
  match r with
  | Some addr => mret (u64 (addr + BASE))
  | None =>
      r ← scan mem RSD_PTR 0xFFFF9000000E0000 0xFFFF900000100000;
      match r with
      | Some addr => mret (u64 (addr + BASE))
      | None => mret 0
      end
  end.

Definition rsdp_init (rsdp_base : Z) : M acpi_state unit := modify (fun _ => mkAcpi rsdp_base).

(** The walk over the MADT's entries: the first I/O APIC. *)
Definition handle_APICIO (madt : Z) (ret : ACPI_ret) : M acpi_state ACPI_ret :=
  length ← rd32 (madt + 4);
  let madt_end := u64 (madt + length) in
  while FUEL (fun madt_ptr =>
    if u64 (madt_ptr + 2) <=? madt_end then
      len ← rd8 (madt_ptr + 1);
      if len <? 2 then mret (inr (ret_fail ret))
      else if u64 (madt_ptr + len) >? madt_end then mret (inr (ret_fail ret))
      else
        type ← rd8 madt_ptr;
        if (type =? 1) && (IOAPIC_SIZE <=? len) then
          address ← rd32 (madt_ptr + 4);
          mret (inr (ret_address (u64 (address + BASE)) ret))
        else mret (inl (u64 (madt_ptr + len)))
    else mret (inr (ret_fail ret))) (u64 (madt + MADT_entries)).

(** [x_pm_timer_block] is at 208, [pm_timer_block] at 76 of the FADT. *)
Definition handle_PM_timer (fadt : Z) (ret : ACPI_ret) : M acpi_state ACPI_ret :=
  address ← rd64 (fadt + 212);
  if negb (address =? 0) then
    address_space_id ← rd8 (fadt + 208);
    if address_space_id =? 0 then mret (ret_timer address 0 ret)
    else if address_space_id =? 1 then mret (ret_timer (u16 address) 1 ret)
    else mret (ret_fail ret)
  else
    pm_timer_block ← rd32 (fadt + 76);
    mret (ret_timer (u16 pm_timer_block) 1 ret).

(** [Address] is at 40 of the HPET table. *)
Definition handle_HPET (hpet : Z) (ret : ACPI_ret) : M acpi_state ACPI_ret :=
  address_space_id ← rd8 (hpet + 40);
  if negb (address_space_id =? 0) then mret (ret_fail ret)
  else
    address ← rd64 (hpet + 44);
    mret (ret_timer address 0 ret).

(** The [switch] that both table loops hold. *)
Definition handle_table (table : Z) (ret : ACPI_ret) : M acpi_state ACPI_ret :=
  sig ← bytes_at mem table 4;
  let s := acpi_signature sig in
  if s =? MADT_sig then ret ← handle_APICIO table ret; mret (set_ret_table table ret)
  else if s =? FACP_sig then ret ← handle_PM_timer table ret; mret (set_ret_table table ret)
  else if s =? HPET_sig then ret ← handle_HPET table ret; mret (set_ret_table table ret)
  else if s =? MCFG_sig then mret (ret_address table ret)
  else mret (ret_fail ret).

(** The loop over the 32-bit entries of the RSDT. *)
Definition walk_rsdt (rsdt : Z) (signature : list Z) (ret : ACPI_ret)
    : M acpi_state ACPI_ret :=
  length ← rd32 (rsdt + 4);
  let entries := u32 (u64 (length - SDT_SIZE) / 4) in
  let tables := rsdt + SDT_SIZE in
  while FUEL (fun i =>
    if i <? entries then
      t ← rd32 (tables + 4 * i);
      let table := u64 (t + BASE) in
      matches mem table signature ≫= fun found : bool =>
      if found then ret ← handle_table table ret; mret (inr ret)
      else mret (inl (u32 (i + 1)))
    else mret (inr (ret_fail ret))) 0.

(** The loop over the 64-bit entries of the XSDT. *)
Definition walk_xsdt (xsdt : Z) (signature : list Z) (ret : ACPI_ret)
    : M acpi_state ACPI_ret :=
  length ← rd32 (xsdt + 4);
  let end_ := u64 (xsdt + length) in
  while FUEL (fun ptr =>
    if u64 (ptr + 8) <=? end_ then
      t ← rd64 ptr;
      let table := u64 (t + BASE) in
      matches mem table signature ≫= fun found : bool =>
      if found then ret ← handle_table table ret; mret (inr ret)
      else mret (inl (u64 (ptr + 8)))
    else mret (inr (ret_fail ret))) (u64 (xsdt + SDT_SIZE)).

(** [status]: 0 = found, 1 = not found. *)
Definition ACPI_discovery (signature : list Z) : M acpi_state ACPI_ret :=
  let ret := zero_ret in
  rsdp ← gets rsdp_address;
  if rsdp =? 0 then mret (ret_fail ret)
  else
    matches mem rsdp RSD_PTR ≫= fun found : bool =>
    if negb found then mret (ret_fail ret)
    else
      revision ← rd8 (rsdp + 15);
      old ← (if revision <? 2 then mret true
             else xsdt_address ← rd64 (rsdp + 24); mret (xsdt_address =? 0));
      if (old : bool) then
        rsdt_address ← rd32 (rsdp + 16);
        walk_rsdt (u64 (rsdt_address + BASE)) signature ret
      else
        xsdt_address ← rd64 (rsdp + 24);
        let xsdt := u64 (xsdt_address + BASE) in
        matches mem xsdt XSDT ≫= fun found : bool =>
        if negb found then mret (ret_fail ret)
        else
          length ← rd32 (xsdt + 4);
          if length <? SDT_SIZE then mret (ret_fail ret)
          else walk_xsdt xsdt signature ret.

(** ** What the walks find *)

Abbreviation V n a := (val mem n a).

Definition is_ioapic (p : Z) : bool := (val8 mem p =? 1) && (IOAPIC_SIZE <=? val8 mem (p + 1)).
Definition whole_entry (fin p : Z) : Prop :=
  p + 2 <= fin /\ 2 <= val8 mem (p + 1) /\ p + val8 mem (p + 1) <= fin.

(** [p] is reached from [start] over whole entries that are no I/O APIC. *)
Inductive madt_chain (start fin : Z) : Z -> Prop :=
| chain_start : madt_chain start fin start
| chain_next p : madt_chain start fin p -> whole_entry fin p -> is_ioapic p = false ->
    madt_chain start fin (p + val8 mem (p + 1)).

(** The first I/O APIC of the MADT, or the place where the walk ends without one. *)
Definition apic_result (madt : Z) (ret r : ACPI_ret) : Prop :=
  let fin := madt + V 4 (madt + 4) in
  exists p, madt_chain (madt + MADT_entries) fin p /\
    ((whole_entry fin p /\ is_ioapic p = true /\ r = ret_address (u64 (V 4 (p + 4) + BASE)) ret)
     \/ (~ whole_entry fin p /\ r = ret_fail ret)).

Lemma wp_handle_APICIO madt ret s :
  let len := V 4 (madt + 4) in
  0 <= madt -> madt + len + 256 < 2 ^ 64 -> readable mem madt (Z.max 8 len) ->
  wp (handle_APICIO madt ret) (fun r s' => s' = s /\ apic_result madt ret r) s.
Proof.
  cbn zeta. intros Hm Hlim Hr. unfold handle_APICIO. wp_step.
  eapply (wp_le _ 4 madt); [done|lia|lia|]. intros Hlen. change (256 ^ Z.of_nat 4) with 4294967296 in Hlen.
  unfold apic_result. set (fin := madt + V 4 (madt + 4)) in *.
  rewrite u64_id by lia. unfold MADT_entries. rewrite u64_id by lia.
  eapply (wp_while _ (fun p s' => s' = s /\ madt + 44 <= p /\ p <= Z.max fin (madt + 44) /\
    madt_chain (madt + 44) fin p) (fun p _ => Z.max 0 (fin - p))).
  - intros p s1 (-> & Hp & Hpf & Hch). rewrite u64_id by lia.
    destruct (Z.leb_spec (p + 2) fin).
    2: { wp_steps. split; [done|]. exists p. split; [done|]. right.
         split; [unfold whole_entry; lia|done]. }
    wp_step. eapply (wp_byte _ madt); [done|lia|]. intros Rl.
    destruct (Z.ltb_spec (val8 mem (p + 1)) 2).
    { wp_steps. split; [done|]. exists p. split; [done|]. right.
      split; [unfold whole_entry; lia|done]. }
    rewrite u64_id by lia. destruct (Z.gtb_spec (p + val8 mem (p + 1)) fin).
    { wp_steps. split; [done|]. exists p. split; [done|]. right.
      split; [unfold whole_entry; lia|done]. }
    wp_step. eapply (wp_byte _ madt); [done|lia|]. intros _. fold (is_ioapic p).
    assert (whole_entry fin p) as Hw by (unfold whole_entry; lia).
    destruct (is_ioapic p) eqn:Eio.
    + wp_step. unfold is_ioapic, IOAPIC_SIZE in Eio. apply andb_true_iff in Eio as Eio2.
      destruct Eio2 as [_ Eio2%Z.leb_le].
      eapply (wp_le _ 4 madt); [done|lia|lia|]. intros _. wp_steps. split; [done|].
      exists p. split; [done|]. left. done.
    + wp_steps. split; [|lia]. split; [done|]. split; [lia|].
      split; [lia|]. by apply chain_next.
  - split; [done|]. split; [lia|]. split; [lia|]. apply chain_start.
  - unfold FUEL. lia.
Qed.

(** The tables an RSDT or XSDT lists. *)
Definition rsdt_tables (rsdt : Z) : list Z :=
  map (fun i => u64 (V 4 (rsdt + SDT_SIZE + 4 * Z.of_nat i) + BASE))
    (seq 0 (Z.to_nat ((V 4 (rsdt + 4) - SDT_SIZE) / 4))).
Definition xsdt_tables (xsdt : Z) : list Z :=
  map (fun i => u64 (V 8 (xsdt + SDT_SIZE + 8 * Z.of_nat i) + BASE))
    (seq 0 (Z.to_nat ((V 4 (xsdt + 4) - SDT_SIZE) / 8))).

(** What a lookup in a list of tables comes to. *)
Definition lookup_table (tables : list Z) (signature : list Z) (ret : ACPI_ret)
    : M acpi_state ACPI_ret :=
  match List.find (fun t => has_sig mem t signature) tables with
  | Some t => handle_table t ret
  | None => mret (ret_fail ret)
  end.

(** A list of tables that is in memory: its length field, its entries, and the
    signatures of the tables they point to. *)
Record sdt_ok (sdt : Z) (tables : list Z) : Prop := {
  sdt_length : SDT_SIZE <= V 4 (sdt + 4);
  sdt_range : 0 <= sdt /\ sdt + V 4 (sdt + 4) + 8 < 2 ^ 64;
  sdt_readable : readable mem sdt (V 4 (sdt + 4));
  sdt_tables : Forall (fun t => readable mem t 4) tables
}.

(** Searching a list of tables entry by entry. *)
Lemma find_from (f : Z -> bool) (g : nat -> Z) n k :
  List.find f (map g (seq k n)) =
  match n with
  | O => None
  | Datatypes.S n' => if f (g k) then Some (g k) else List.find f (map g (seq (Datatypes.S k) n'))
  end.
Proof. by destruct n. Qed.

Lemma find_step (f : Z -> bool) (g : nat -> Z) n i : 0 <= i < Z.of_nat n ->
  List.find f (map g (seq (Z.to_nat i) (n - Z.to_nat i))) =
  if f (g (Z.to_nat i)) then Some (g (Z.to_nat i))
  else List.find f (map g (seq (Z.to_nat (i + 1)) (n - Z.to_nat (i + 1)))).
Proof.
  intros Hi. rewrite find_from.
  replace (n - Z.to_nat i)%nat with (Datatypes.S (n - Z.to_nat (i + 1))) by lia.
  by replace (Datatypes.S (Z.to_nat i)) with (Z.to_nat (i + 1)) by lia.
Qed.

Lemma find_end (f : Z -> bool) (g : nat -> Z) n i : Z.of_nat n <= i ->
  List.find f (map g (seq (Z.to_nat i) (n - Z.to_nat i))) = None.
Proof. intros Hi. by replace (n - Z.to_nat i)%nat with O by lia. Qed.

Lemma table_readable (P : Z -> Prop) (g : nat -> Z) n i :
  Forall P (map g (seq 0 n)) -> 0 <= i < Z.of_nat n -> P (g (Z.to_nat i)).
Proof.
  intros H Hi. apply (Forall_lookup_1 _ _ (Z.to_nat i) _ H).
  rewrite list_lookup_fmap, lookup_seq_lt by lia. done.
Qed.

(** The part of a search that is left at entry [i]. *)
Definition lookup_rest (g : nat -> Z) (n : nat) (signature : list Z) (ret : ACPI_ret) (i : Z)
    (Q : ACPI_ret -> acpi_state -> Prop) (s : acpi_state) : Prop :=
  match List.find (fun t => has_sig mem t signature)
      (map g (seq (Z.to_nat i) (n - Z.to_nat i))) with
  | Some t => wp (handle_table t ret) Q s
  | None => Q (ret_fail ret) s
  end.

Lemma lookup_rest_all g n signature ret Q s :
  wp (lookup_table (map g (seq 0 n)) signature ret) Q s ->
  lookup_rest g n signature ret 0 Q s.
Proof.
  unfold lookup_table, lookup_rest. rewrite Nat.sub_0_r. cbn [Z.to_nat].
  by destruct (List.find _ _).
Qed.

Lemma wp_walk_rsdt rsdt signature ret Q s :
  sdt_ok rsdt (rsdt_tables rsdt) -> length signature = 4%nat ->
  wp (lookup_table (rsdt_tables rsdt) signature ret) Q s ->
  wp (walk_rsdt rsdt signature ret) Q s.
Proof.
  intros [Hlen Hrange Hr Hts] Hsig HQ. unfold rsdt_tables, SDT_SIZE in *. unfold walk_rsdt. wp_step.
  eapply (wp_le _ 4 rsdt); [done|lia|lia|]. intros R4. change (256 ^ Z.of_nat 4) with 4294967296 in R4.
  unfold SDT_SIZE. set (len := V 4 (rsdt + 4)) in *. rewrite u64_id by lia. rewrite u32_id by divlia.
  set (n := Z.to_nat ((len - 36) / 4)) in *.
  assert (Z.of_nat n = (len - 36) / 4) as En by (subst n; divlia).
  set (g := fun i : nat => u64 (V 4 (rsdt + 36 + 4 * Z.of_nat i) + BASE)) in *.
  eapply (wp_while _ (fun i s' => s' = s /\ 0 <= i <= Z.of_nat n /\
      lookup_rest g n signature ret i Q s) (fun i _ => Z.of_nat n - i)).
  - intros i s1 (-> & Hi & Hf). unfold lookup_rest in Hf.
    rewrite <- En. destruct (Z.ltb_spec i (Z.of_nat n)).
    + wp_step. assert (36 + 4 * i + 4 <= len) by divlia.
      eapply (wp_le _ 4 rsdt); [done|lia|lia|]. intros _. rewrite find_step in Hf by lia.
      assert (u64 (V 4 (rsdt + 36 + 4 * i) + BASE) = g (Z.to_nat i)) as ->
        by (subst g; cbn beta; rewrite Z2Nat.id by lia; done).
      wp_step. eapply (wp_matches _ _ (g (Z.to_nat i)) 4);
        [apply (table_readable (fun t => readable mem t 4) g n i); [done|lia]|lia|lia|].
      destruct (has_sig mem (g (Z.to_nat i)) signature).
      * wp_step. eapply wp_mono; [exact Hf|]. intros. by wp_steps.
      * wp_steps. rewrite u32_id by divlia. split; [|lia]. split; [done|]. split; [lia|done].
    + wp_steps. by rewrite find_end in Hf by lia.
  - split; [done|]. split; [lia|]. by apply lookup_rest_all.
  - unfold FUEL. divlia.
Qed.

Lemma wp_walk_xsdt xsdt signature ret Q s :
  sdt_ok xsdt (xsdt_tables xsdt) -> length signature = 4%nat ->
  wp (lookup_table (xsdt_tables xsdt) signature ret) Q s ->
  wp (walk_xsdt xsdt signature ret) Q s.
Proof.
  intros [Hlen Hrange Hr Hts] Hsig HQ. unfold xsdt_tables, SDT_SIZE in *. unfold walk_xsdt. wp_step.
  eapply (wp_le _ 4 xsdt); [done|lia|lia|]. intros R4. change (256 ^ Z.of_nat 4) with 4294967296 in R4.
  unfold SDT_SIZE. set (len := V 4 (xsdt + 4)) in *. rewrite !u64_id by lia.
  set (n := Z.to_nat ((len - 36) / 8)) in *.
  assert (Z.of_nat n = (len - 36) / 8) as En by (subst n; divlia).
  set (g := fun i : nat => u64 (V 8 (xsdt + 36 + 8 * Z.of_nat i) + BASE)) in *.
  eapply (wp_while _ (fun p s' => s' = s /\ exists i, p = xsdt + 36 + 8 * i /\
      0 <= i <= Z.of_nat n /\ lookup_rest g n signature ret i Q s)
    (fun p _ => Z.max 0 (xsdt + len - p))).
  - intros p s1 (-> & i & -> & Hi & Hf). unfold lookup_rest in Hf.
    assert (36 + 8 * i <= len) by divlia. rewrite u64_id by lia.
    destruct (Z.leb_spec (xsdt + 36 + 8 * i + 8) (xsdt + len)).
    + assert (i < Z.of_nat n) by divlia. wp_step.
      eapply (wp_le _ 8 xsdt); [done|lia|lia|]. intros _. rewrite find_step in Hf by lia.
      assert (u64 (V 8 (xsdt + 36 + 8 * i) + BASE) = g (Z.to_nat i)) as ->
        by (subst g; cbn beta; rewrite Z2Nat.id by lia; done).
      wp_step. eapply (wp_matches _ _ (g (Z.to_nat i)) 4);
        [apply (table_readable (fun t => readable mem t 4) g n i); [done|lia]|lia|lia|].
      destruct (has_sig mem (g (Z.to_nat i)) signature).
      * wp_step. eapply wp_mono; [exact Hf|]. intros. by wp_steps.
      * wp_steps. split; [|lia]. split; [done|]. exists (i + 1).
        split; [lia|]. split; [lia|done].
    + wp_steps. rewrite find_end in Hf by divlia. done.
  - split; [done|]. exists 0. split; [lia|]. split; [lia|]. by apply lookup_rest_all.
  - unfold FUEL. lia.
Qed.

(** The root pointer and the list of tables it leads to. *)
Definition old_rsdp (rsdp : Z) : bool := (val8 mem (rsdp + 15) <? 2) || (V 8 (rsdp + 24) =? 0).
Definition rsdp_tables (rsdp : Z) : list Z :=
  if old_rsdp rsdp then rsdt_tables (u64 (V 4 (rsdp + 16) + BASE))
  else xsdt_tables (u64 (V 8 (rsdp + 24) + BASE)).

Record rsdp_ok (rsdp : Z) : Prop := {
  rp_nonzero : rsdp <> 0;
  rp_readable : readable mem rsdp 36;
  rp_sig : has_sig mem rsdp RSD_PTR = true;
  rp_rsdt : old_rsdp rsdp = true ->
    sdt_ok (u64 (V 4 (rsdp + 16) + BASE)) (rsdp_tables rsdp);
  rp_xsdt : old_rsdp rsdp = false ->
    let xsdt := u64 (V 8 (rsdp + 24) + BASE) in
    sdt_ok xsdt (rsdp_tables rsdp) /\ has_sig mem xsdt XSDT = true
}.

Lemma wp_ACPI_discovery signature Q s :
  let rsdp := rsdp_address s in
  rsdp_ok rsdp -> length signature = 4%nat ->
  wp (lookup_table (rsdp_tables rsdp) signature zero_ret) Q s ->
  wp (ACPI_discovery signature) Q s.
Proof.
  cbn zeta. set (rsdp := rsdp_address s). intros [Hnz Hr Hsig Hold Hnew] Hl HQ.
  unfold ACPI_discovery. wp_steps. fold rsdp. destruct (Z.eqb_spec rsdp 0); [done|].
  wp_step. eapply (wp_matches _ _ rsdp 36); [done|lia|cbn; lia|]. rewrite Hsig. cbn [negb].
  wp_step. eapply (wp_byte _ rsdp); [done|lia|]. intros _. wp_step.
  apply (wp_mono _ (fun b s' => s' = s /\ b = old_rsdp rsdp)).
  { unfold old_rsdp. destruct (val8 mem (rsdp + 15) <? 2); wp_steps; [done|].
    eapply (wp_le _ 8 rsdp); [done|lia|lia|]. intros _. by wp_steps. }
  intros b s1 [-> ->]. unfold rsdp_tables in *. destruct (old_rsdp rsdp).
  - wp_step. eapply (wp_le _ 4 rsdp); [done|lia|lia|]. intros _.
    by apply wp_walk_rsdt; [apply Hold| |].
  - destruct (Hnew eq_refl) as [Hok Hxs]. pose proof Hok as [H36 Hrange Hrx _].
    unfold SDT_SIZE in H36. wp_step. eapply (wp_le _ 8 rsdp); [done|lia|lia|]. intros _. wp_step.
    eapply (wp_matches _ _ (u64 (V 8 (rsdp + 24) + BASE))); [done|lia|cbn [length XSDT]; lia|].
    rewrite Hxs. cbn [negb]. wp_step.
    eapply (wp_le _ 4 (u64 (V 8 (rsdp + 24) + BASE))); [done|lia|cbn [length XSDT]; lia|]. intros _.
    unfold SDT_SIZE. destruct (Z.ltb_spec (V 4 (u64 (V 8 (rsdp + 24) + BASE) + 4)) 36); [lia|].
    by apply wp_walk_xsdt.
Qed.
End Acpi.

(** ** The properties of the table discovery *)

(** C27: [ACPI_discovery] on well-formed root tables, old (RSDT) or new (XSDT), hands the
    first listed table with the wanted signature to its handler and returns what the
    handler returns; when no listed table has the signature it answers "not found". *)
Theorem ACPI_discovery_first mem signature s r s' :
  rsdp_ok mem (rsdp_address s) -> length signature = 4%nat ->
  lookup_table mem (rsdp_tables mem (rsdp_address s)) signature zero_ret s = Done r s' ->
  ACPI_discovery mem signature s = Done r s'.
Proof.
  intros Hok Hl E.
  destruct (wp_inv _ _ _ (wp_ACPI_discovery mem signature (fun r1 s1 => r1 = r /\ s1 = s') s
    Hok Hl ltac:(unfold wp; by rewrite E))) as (r1 & s1 & E1 & -> & ->). done.
Qed.

(** C28: [handle_APICIO] stays inside its table and terminates, whatever lengths the
    entries claim: it returns the address of the first I/O APIC entry that is reached
    over whole entries, and fails when an entry is truncated or the table ends first. *)
Theorem handle_APICIO_correct mem madt ret s :
  let len := val mem 4 (madt + 4) in
  0 <= madt -> madt + len + 256 < 2 ^ 64 -> readable mem madt (Z.max 8 len) ->
  exists r, handle_APICIO mem madt ret s = Done r s /\ apic_result mem madt ret r.
Proof.
  intros len H1 H2 H3.
  destruct (wp_inv _ _ _ (wp_handle_APICIO mem madt ret s H1 H2 H3)) as (r & s' & E & -> & R).
  by exists r.
Qed.

(** [find_rsdp_legacy] returns the first 16-byte boundary of the EBDA's first
    kilobyte that holds the signature, then that of the BIOS area, plus [BASE], and 0
    when neither has it. The BIOS area is searched at addresses that contain [BASE]
    already. *)
Lemma find_rsdp_legacy_result mem s :
  let ebda := val mem 2 0x40E <<< 4 in
  let bios := 0xFFFF9000000E0000 in
  readable mem 0x40E 2 -> readable mem ebda 1032 -> readable mem bios 0x20008 ->
  exists r, find_rsdp_legacy mem s = Done r s /\
    ((exists a, first_match mem RSD_PTR ebda (ebda + 1024) (Some a) /\ r = u64 (a + BASE)) \/
     (first_match mem RSD_PTR ebda (ebda + 1024) None /\
      ((exists a, first_match mem RSD_PTR bios (bios + 0x20000) (Some a) /\ r = u64 (a + BASE)) \/
       (first_match mem RSD_PTR bios (bios + 0x20000) None /\ r = 0)))).
Proof.
  cbn zeta. intros H1 H2 H3. set (ebda := val mem 2 0x40E <<< 4) in *.
  assert (wp (find_rsdp_legacy mem) (fun r s' => s' = s /\
    ((exists a, first_match mem RSD_PTR ebda (ebda + 1024) (Some a) /\ r = u64 (a + BASE)) \/
     (first_match mem RSD_PTR ebda (ebda + 1024) None /\
      ((exists a, first_match mem RSD_PTR 0xFFFF9000000E0000 (0xFFFF9000000E0000 + 0x20000) (Some a)
          /\ r = u64 (a + BASE)) \/
       (first_match mem RSD_PTR 0xFFFF9000000E0000 (0xFFFF9000000E0000 + 0x20000) None /\ r = 0))))) s)
    as Hwp.
  { unfold find_rsdp_legacy. wp_step. eapply (wp_le _ 2 0x40E); [done|lia|lia|].
    change (256 ^ Z.of_nat 2) with 65536. intros R. fold ebda. wp_step.
    assert (0 <= ebda < 2 ^ 20) as Re by (subst ebda; rewrite shiftl_mul by lia; lia).
    eapply wp_mono; [apply wp_scan; [|lia|lia]|].
    { cbn [length RSD_PTR]. eapply readable_sub; [exact H2|lia|lia]. }
    intros [a|] s1 [-> Hf]; wp_steps.
    { split; [done|]. left. by exists a. }
    eapply wp_mono; [apply wp_scan; [|lia|lia]|].
    { cbn [length RSD_PTR]. eapply readable_sub; [exact H3|lia|lia]. }
    intros [a|] s1 [-> Hf2]; wp_steps; (split; [done|]); right; (split; [done|]);
      [left; by exists a|by right]. }
  destruct (wp_inv _ _ _ Hwp) as (r & s' & E & -> & R). by exists r.
Qed.

(** An XSDT with a FADT and an MCFG table, and a MADT with a CPU and an I/O APIC. *)
Definition sample_acpi : Z -> option Z := regions
  [ (0x1000, 36, RSD_PTR ++ [0; 0;0;0;0;0;0; 2; 0;0;0;0; 36;0;0;0; 0;0x20;0;0;0;0;0;0]);
    (BASE + 0x2000, 52, XSDT ++ [52; 0; 0; 0] ++ repeat 0 28 ++ [0;0x30;0;0;0;0;0;0] ++
       [0;0x40;0;0;0;0;0;0]);
    (BASE + 0x3000, 36, [70; 65; 67; 80]);
    (BASE + 0x4000, 60, [77; 67; 70; 71; 60]);
    (BASE + 0x5000, 64, [65; 80; 73; 67; 64; 0; 0; 0] ++ repeat 0 36 ++ [0; 8; 0; 0; 0; 0; 0; 0] ++
       [1; 12; 0; 0; 0; 0; 0xC0; 0xFE; 0; 0; 0; 0]) ].

Lemma ACPI_discovery_first_witness :
  ACPI_discovery sample_acpi [77; 67; 70; 71] (mkAcpi 0x1000) =
  Done (mkRet (BASE + 0x4000) 0 0 0 0) (mkAcpi 0x1000).
Proof.
  apply (ACPI_discovery_first sample_acpi [77; 67; 70; 71] (mkAcpi 0x1000)).
  - constructor; cbn [rsdp_address].
    + discriminate.
    + apply readableb_ok. vm_compute. reflexivity.
    + vm_compute. reflexivity.
    + intros H. exfalso. revert H. vm_compute. discriminate.
    + intros _. split; [constructor|vm_compute; reflexivity].
      * vm_compute. discriminate.
      * vm_compute. intuition discriminate.
      * apply readableb_ok. vm_compute. reflexivity.
      * repeat (constructor; [apply readableb_ok; vm_compute; reflexivity|]). constructor.
  - reflexivity.
  - vm_compute. reflexivity.
Defined.

Lemma handle_APICIO_correct_witness : exists r,
  handle_APICIO sample_acpi (BASE + 0x5000) zero_ret (mkAcpi 0) = Done r (mkAcpi 0) /\
  Address r = BASE + 0xFEC00000 /\ apic_result sample_acpi (BASE + 0x5000) zero_ret r.
Proof.
  destruct (handle_APICIO_correct sample_acpi (BASE + 0x5000) zero_ret (mkAcpi 0))
    as (r & E & R); [vm_compute; discriminate|vm_compute; reflexivity| |].
  - apply readableb_ok. vm_compute. reflexivity.
  - exists r. split; [exact E|]. split; [|exact R].
    assert (handle_APICIO sample_acpi (BASE + 0x5000) zero_ret (mkAcpi 0) =
      Done (ret_address (BASE + 0xFEC00000) zero_ret) (mkAcpi 0)) as E2 by (vm_compute; reflexivity).
    rewrite E2 in E. injection E as <-. reflexivity.
Defined.

(** The signature in the BIOS area: the address returned holds [BASE] twice. *)
Definition sample_bios : Z -> option Z := regions
  [ (0x40E, 2, [0; 0x80]); (0x80000, 1032, []);
    (BASE + 0xE0000, 0x20008, repeat 0 32 ++ RSD_PTR) ].

Lemma find_rsdp_legacy_result_witness : exists r,
  find_rsdp_legacy sample_bios (mkAcpi 0) = Done r (mkAcpi 0) /\
  r = u64 (BASE + 0xE0020 + BASE).
Proof.
  destruct (find_rsdp_legacy_result sample_bios (mkAcpi 0)) as (r & E & _);
    [apply readableb_ok; vm_compute; reflexivity..|].
  exists r. split; [exact E|].
  assert (find_rsdp_legacy sample_bios (mkAcpi 0) = Done (u64 (BASE + 0xE0020 + BASE)) (mkAcpi 0))
    as E2 by (vm_compute; reflexivity).
  rewrite E2 in E. injection E as <-. reflexivity.
Defined.
