(* ===== verification/PortIO.v ===== *)
(** * Port and memory-mapped I/O ([x86-64/ports.h], [x86-64/io.h])

    Hardware is an unknown function of everything that was done to it: a read asks the
    device with the whole history of accesses. Each access is recorded, the latest
    first; a component says where its history lives by an instance of [IO]. *)
From S2P Require Import KPrelude.

Inductive space := Port | Mmio | Msr.

(** Widths are in bytes. *)
Inductive event :=
| Rd (sp : space) (width addr value : Z)
| Wr (sp : space) (width addr value : Z).

Definition device := list event -> space -> Z -> Z -> Z.

Class IO (S : Type) := {
  trace : S -> list event;
  set_trace : list event -> S -> S;
  trace_set : forall t s, trace (set_trace t s) = t;
  set_trace_twice : forall t u s, set_trace t (set_trace u s) = set_trace t s;
  set_trace_same : forall s, set_trace (trace s) s = s
}.

(** The modes of [io.h]. *)
Definition MMIO := 0.

Section PortIO.
Context {S : Type} `{!IO S} (dev : device).

Definition io_value (t : list event) (sp : space) (width addr : Z) : Z :=
  dev t sp width addr mod 2 ^ (8 * width).

Definition io_read (sp : space) (width addr : Z) : M S Z := fun s =>
  let v := io_value (trace s) sp width addr in
  Done v (set_trace (Rd sp width addr v :: trace s) s).
Definition io_write (sp : space) (width addr value : Z) : M S unit := fun s =>
  Done () (set_trace (Wr sp width addr value :: trace s) s).

Definition inb (port : Z) : M S Z := io_read Port 1 port.
Definition inw (port : Z) : M S Z := io_read Port 2 port.
Definition inl_ (port : Z) : M S Z := io_read Port 4 port.
Definition outb (port value : Z) : M S unit := io_write Port 1 port (u8 value).
Definition outw (port value : Z) : M S unit := io_write Port 2 port (u16 value).
Definition outl (port value : Z) : M S unit := io_write Port 4 port (u32 value).
Definition io_wait : M S unit := outb 0x80 0.

(** [volatile] accesses through a pointer. *)
Definition mmio_read (width addr : Z) : M S Z := io_read Mmio width addr.
Definition mmio_write (width addr value : Z) : M S unit :=
  io_write Mmio width addr (value mod 2 ^ (8 * width)).

Definition io_inb (io_addr mode : Z) : M S Z :=
  if mode =? MMIO then mmio_read 1 io_addr else inb (u16 io_addr).
Definition io_inw (io_addr mode : Z) : M S Z :=
  if mode =? MMIO then mmio_read 2 io_addr else inw (u16 io_addr).
Definition io_inl (io_addr mode : Z) : M S Z :=
  if mode =? MMIO then mmio_read 4 io_addr else inl_ (u16 io_addr).
Definition io_inq (io_addr mode : Z) : M S Z :=
  if mode =? MMIO then mmio_read 8 io_addr else mret 0.
Definition io_outb (io_addr val mode : Z) : M S unit :=
  if mode =? MMIO then mmio_write 1 io_addr val else outb (u16 io_addr) val.
Definition io_outw (io_addr val mode : Z) : M S unit :=
  if mode =? MMIO then mmio_write 2 io_addr val else outw (u16 io_addr) val.
Definition io_outl (io_addr val mode : Z) : M S unit :=
  if mode =? MMIO then mmio_write 4 io_addr val else outl (u16 io_addr) val.
Definition io_outq (io_addr val mode : Z) : M S unit :=
  if mode =? MMIO then mmio_write 8 io_addr val else mret ().

(** ** Rules *)

(** The state after one more event. *)
Definition logged (e : event) (s : S) : S := set_trace (e :: trace s) s.

Lemma trace_logged e s : trace (logged e s) = e :: trace s.
Proof. apply trace_set. Qed.

Lemma wp_io_read sp width addr (Q : Z -> S -> Prop) s :
  Q (io_value (trace s) sp width addr)
    (logged (Rd sp width addr (io_value (trace s) sp width addr)) s) ->
  wp (io_read sp width addr) Q s.
Proof. done. Qed.

Lemma wp_io_write sp width addr value (Q : unit -> S -> Prop) s :
  Q () (logged (Wr sp width addr value) s) -> wp (io_write sp width addr value) Q s.
Proof. done. Qed.

Lemma io_value_range t sp width addr : 0 <= width ->
  0 <= io_value t sp width addr < 2 ^ (8 * width).
Proof. intros. apply Z.mod_pos_bound. apply Z.pow_pos_nonneg; lia. Qed.
End PortIO.

Create Rewrite HintDb io.
#[export] Hint Rewrite @trace_logged : io.
