(* ===== verification/Pci.v ===== *)
(** * PCI configuration space ([drivers/pci/pci.c])

    Console output is left out: a [printf] of this file changes no state it keeps. *)
From S2P Require Import KPrelude MemHelpers Spinlock FrameAlloc Paging Bytes Acpi PortIO.

Definition PCI_MAX_ECAM_REGIONS := 32.
Definition PCI_CONFIG_LEGACY_SIZE := 256.
Definition PCI_CONFIG_PCIE_SIZE := 4096.
Definition PCI_BASE := 0xffffa010e0000000.

Definition PCI_STATUS_SUCCESS := 0.
Definition PCI_STATUS_NOT_PRESENT := 1.
Definition PCI_STATUS_UNSUPPORTED_HEADER := 2.
Definition PCI_STATUS_INVALID_ADDRESS := 3.
Definition PCI_STATUS_TOO_MANY_DEVICES := 4.
Definition PCI_STATUS_UNSUPPORTED := 5.
Definition PCI_STATUS_NOT_FOUND := 6.
Definition PCI_STATUS_BAD_BAR := 7.
Definition PCI_PATH_MAX_DEVICES := 32.
Definition PCI_COMMAND_IO_SPACE := 1 <<< 0.
Definition PCI_COMMAND_MEMORY_SPACE := 1 <<< 1.
Definition PCI_COMMAND_BUS_MASTER := 1 <<< 2.
Definition PCI_STATUS_CAPABILITIES := 1 <<< 4.
Definition PCI_BAR_MEMORY := 0.
Definition PCI_BAR_IO := 1.

Definition UHCI := 1.
Definition OHCI := 2.
Definition EHCI := 3.
Definition xHCI := 4.

Record pci_address_t := mkAddr { segment : Z; bus : Z; device_ : Z; function_ : Z }.
#[export] Instance pci_address_eq_dec : EqDecision pci_address_t.
Proof. solve_decision. Defined.

Record pci_ecam_region_t := mkRegion {
  physical_base : Z;
  virtual_base : Z;
  region_segment : Z;
  start_bus : Z;
  end_bus : Z
}.

Record device_vendors := mkDevices { ATA : bool; AHCI : bool; NVMe : bool; USB : Z }.

(** The first [ecam_region_count] entries of the array [ecam_regions] are the list. *)
Record pci_state := mkPci {
  Express_enabled : bool;
  BusCount : Z;
  devices : device_vendors;
  ecam_regions : list pci_ecam_region_t;
  legacy_config_lock : bool;
  pci_trace : list event;
  pci_pg : pg_state;
  pci_acpi : acpi_state
}.

Definition set_express (b : bool) (n : Z) (s : pci_state) : pci_state :=
  mkPci b n (devices s) (ecam_regions s) (legacy_config_lock s) (pci_trace s) (pci_pg s)
        (pci_acpi s).
Definition set_devices (d : device_vendors) (s : pci_state) : pci_state :=
  mkPci (Express_enabled s) (BusCount s) d (ecam_regions s) (legacy_config_lock s)
        (pci_trace s) (pci_pg s) (pci_acpi s).
Definition set_regions (l : list pci_ecam_region_t) (s : pci_state) : pci_state :=
  mkPci (Express_enabled s) (BusCount s) (devices s) l (legacy_config_lock s) (pci_trace s)
        (pci_pg s) (pci_acpi s).
Definition set_pci_lock (b : bool) (s : pci_state) : pci_state :=
  mkPci (Express_enabled s) (BusCount s) (devices s) (ecam_regions s) b (pci_trace s)
        (pci_pg s) (pci_acpi s).
Definition set_pci_trace (t : list event) (s : pci_state) : pci_state :=
  mkPci (Express_enabled s) (BusCount s) (devices s) (ecam_regions s) (legacy_config_lock s) t
        (pci_pg s) (pci_acpi s).
Definition set_pci_pg (p : pg_state) (s : pci_state) : pci_state :=
  mkPci (Express_enabled s) (BusCount s) (devices s) (ecam_regions s) (legacy_config_lock s)
        (pci_trace s) p (pci_acpi s).
Definition set_pci_acpi (a : acpi_state) (s : pci_state) : pci_state :=
  mkPci (Express_enabled s) (BusCount s) (devices s) (ecam_regions s) (legacy_config_lock s)
        (pci_trace s) (pci_pg s) a.

#[export] Instance pci_Lock : Lock pci_state.
Proof.
  refine {| locked := legacy_config_lock; set_locked := set_pci_lock |};
    [done | done | by intros []].
Defined.
#[export] Instance pci_IO : IO pci_state.
Proof.
  refine {| trace := pci_trace; set_trace := set_pci_trace |}; [done | done | by intros []].
Defined.

Definition valid_access (address : pci_address_t) (offset size config_size : Z) : bool :=
  if (32 <=? device_ address) || (8 <=? function_ address) then false
  else if negb (size =? 1) && negb (size =? 2) && negb (size =? 4) then false
  else if u32 (offset + size) >? config_size then false
  else if ((size =? 2) && negb (offset &&& 1 =? 0)) || ((size =? 4) && negb (offset &&& 3 =? 0))
       then false
  else true.

(** The first region of a list that decodes the bus. *)
Definition region_of (l : list pci_ecam_region_t) (segment bus : Z) : option pci_ecam_region_t :=
  List.find (fun r => (region_segment r =? segment) && (start_bus r <=? bus) &&
                      (bus <=? end_bus r)) l.
Definition find_ecam_region (segment bus : Z) : M pci_state (option pci_ecam_region_t) :=
  gets (fun s => region_of (ecam_regions s) segment bus).

Definition ecam_pointer (region : pci_ecam_region_t) (address : pci_address_t) (offset : Z) : Z :=
  let relative_bus := u64 (bus address - start_bus region) in
  u64 (virtual_base region + u64 (relative_bus <<< 20) + (device_ address <<< 15) +
       (function_ address <<< 12) + offset).

(** The dword written to port 0xCF8. *)
Definition config_address (address : pci_address_t) (offset : Z) : Z :=
  (1 <<< 31) ||| u32 (bus address <<< 16) ||| u32 (device_ address <<< 11) |||
  u32 (function_ address <<< 8) ||| (offset &&& 0xfc).

(** The dword that replaces [old] when part of it is written. *)
Definition merge_dword (old offset size value : Z) : Z :=
  let shift := (offset &&& 3) * 8 in
  let mask := u32 ((if size =? 1 then 0xff else 0xffff) <<< shift) in
  (old &&& u32 (Z.lnot mask)) ||| (u32 (value <<< shift) &&& mask).

(** The part of a dword that a read returns. *)
Definition part_dword (data offset size : Z) : Z :=
  if size =? 1 then (data >>> ((offset &&& 3) * 8)) &&& 0xff
  else if size =? 2 then (data >>> ((offset &&& 2) * 8)) &&& 0xffff
  else data.

Section Pci.
Context (dev : device) (mem : Z -> option Z).

(** [value] is what [*value] holds before the call, [None] a null pointer. *)
Definition pci_config_read (address : pci_address_t) (offset size : Z) (value : option Z)
    : M pci_state (Z * option Z) :=
  match value with
  | None => mret (PCI_STATUS_INVALID_ADDRESS, None)
  | Some _ =>
      region ← find_ecam_region (segment address) (bus address);
      match region with
      | Some region =>
          if negb (valid_access address offset size PCI_CONFIG_PCIE_SIZE)
          then mret (PCI_STATUS_INVALID_ADDRESS, value)
          else
            let pointer := ecam_pointer region address offset in
            v ← mmio_read dev (if size =? 1 then 1 else if size =? 2 then 2 else 4) pointer;
            mret (PCI_STATUS_SUCCESS, Some v)
      | None =>
          if negb (segment address =? 0)
             || negb (valid_access address offset size PCI_CONFIG_LEGACY_SIZE)
          then mret (PCI_STATUS_INVALID_ADDRESS, value)
          else
            spin_lock;;
            outl 0xcf8 (config_address address offset);;
            data ← inl_ dev 0xcfc;
            spin_unlock;;
            mret (PCI_STATUS_SUCCESS, Some (part_dword data offset size))
      end
  end.

Definition pci_config_write (address : pci_address_t) (offset size value : Z)
    : M pci_state Z :=
  region ← find_ecam_region (segment address) (bus address);
  match region with
  | Some region =>
      if negb (valid_access address offset size PCI_CONFIG_PCIE_SIZE)
      then mret PCI_STATUS_INVALID_ADDRESS
      else
        let pointer := ecam_pointer region address offset in
        mmio_write (if size =? 1 then 1 else if size =? 2 then 2 else 4) pointer value;;
        mret PCI_STATUS_SUCCESS
  | None =>
      if negb (segment address =? 0)
         || negb (valid_access address offset size PCI_CONFIG_LEGACY_SIZE)
      then mret PCI_STATUS_INVALID_ADDRESS
      else
        spin_lock;;
        outl 0xcf8 (config_address address offset);;
        (if size =? 4 then outl 0xcfc value
         else
           old ← inl_ dev 0xcfc;
           outl 0xcfc (merge_dword old offset size value));;
        spin_unlock;;
        mret PCI_STATUS_SUCCESS
  end.

(** [u32 value = initial; pci_config_read(..., &value);] *)
Definition read_or (initial : Z) (address : pci_address_t) (offset size : Z) : M pci_state Z :=
  '(_, value) ← pci_config_read address offset size (Some initial);
  mret (default initial value).

Definition pci_read8 (address : pci_address_t) (offset : Z) : M pci_state Z :=
  value ← read_or 0xff address offset 1; mret (u8 value).
Definition pci_read16 (address : pci_address_t) (offset : Z) : M pci_state Z :=
  value ← read_or 0xffff address offset 2; mret (u16 value).
Definition pci_read32 (address : pci_address_t) (offset : Z) : M pci_state Z :=
  read_or 0xffffffff address offset 4.
Definition pci_write8 (address : pci_address_t) (offset value : Z) : M pci_state Z :=
  pci_config_write address offset 1 value.
Definition pci_write16 (address : pci_address_t) (offset value : Z) : M pci_state Z :=
  pci_config_write address offset 2 value.
Definition pci_write32 (address : pci_address_t) (offset value : Z) : M pci_state Z :=
  pci_config_write address offset 4 value.

Definition PCI_read (bus device function offset size : Z) : M pci_state Z :=
  read_or 0xffffffff (mkAddr 0 bus device function) offset size.
Definition PCI_write (bus device function offset size value : Z) : M pci_state unit :=
  pci_config_write (mkAddr 0 bus device function) offset size value;; mret ().

Definition pci_read_bytes (address : pci_address_t) (offset byte_count : Z)
    : M pci_state (list Z) :=
  for_ 0 byte_count (fun i destination =>
    b ← pci_read8 address (u16 (offset + i)); mret (destination ++ [b])) [].

(** ** Functions of a device *)

(** [common] and the header union are kept as the bytes that were read, the packed
    structures' fields as their offsets. *)
Record PCI_ret := mkPciRet {
  PCI_status : Z;
  PCI_Type : Z;
  ret_address_ : pci_address_t;
  vendor_id : Z;
  device_id : Z;
  common : list Z;
  header : list Z
}.

Definition field8 (bytes : list Z) (i : nat) : Z := default 0 (bytes !! i).
Definition prog_if (r : PCI_ret) : Z := field8 (common r) 5.
Definition subclass (r : PCI_ret) : Z := field8 (common r) 6.
Definition class_code (r : PCI_ret) : Z := field8 (common r) 7.
Definition header_type (r : PCI_ret) : Z := field8 (common r) 10.
Definition secondary_bus (r : PCI_ret) : Z := field8 (header r) 9.

(** The packed size of the header of each type. *)
Definition header_size (type : Z) : option Z :=
  if type =? 0 then Some 48 else if type =? 1 then Some 48 else if type =? 2 then Some 56
  else None.

Definition pci_get_info (address : pci_address_t) : M pci_state PCI_ret :=
  if (32 <=? device_ address) || (8 <=? function_ address)
  then mret (mkPciRet PCI_STATUS_INVALID_ADDRESS 0 address 0 0 [] [])
  else
    vendor ← pci_read16 address 0x00;
    if vendor =? 0xffff
    then mret (mkPciRet PCI_STATUS_NOT_PRESENT 0 address vendor 0 [] [])
    else
      dev_id ← pci_read16 address 0x02;
      common ← pci_read_bytes address 0x04 12;
      let type := field8 common 10 &&& 0x7f in
      match header_size type with
      | Some n =>
          header ← pci_read_bytes address 0x10 n;
          mret (mkPciRet PCI_STATUS_SUCCESS type address vendor dev_id common header)
      | None =>
          mret (mkPciRet PCI_STATUS_UNSUPPORTED_HEADER type address vendor dev_id common [])
      end.

Definition PCI_get_info (bus device function : Z) : M pci_state PCI_ret :=
  pci_get_info (mkAddr 0 bus device function).

(** The callback, with its context, is an operation on the state of the caller, of which the state
    of this component is a part. *)
Definition pci_enumerate_callback_t (T : Type) : Type := PCI_ret -> M T unit.

Section Enumerate.
Context {T : Type} (part : T -> pci_state) (update : pci_state -> T -> T).
Definition on_pci {A} (m : M pci_state A) : M T A := zoom part update m.

Definition enumerate_function (address : pci_address_t)
    (callback : option (pci_enumerate_callback_t T)) (count : Z) : M T Z :=
  vendor ← on_pci (pci_read16 address 0);
  if vendor =? 0xffff then mret count
  else
    match callback with
    | Some f => info ← on_pci (pci_get_info address); f info;; mret (i32 (count + 1))
    | None => mret (i32 (count + 1))
    end.

Definition enumerate_bus (segment bus : Z) (callback : option (pci_enumerate_callback_t T))
    : M T Z :=
  for_ 0 32 (fun device count =>
    let address := mkAddr segment bus device 0 in
    vendor ← on_pci (pci_read16 address 0);
    if vendor =? 0xffff then mret count
    else
      type ← on_pci (pci_read8 address 0x0e);
      let functions := if negb (type &&& 0x80 =? 0) then 8 else 1 in
      for_ 0 functions (fun function count =>
        enumerate_function (mkAddr segment bus device function) callback count) count) 0.

Definition enumerate_buses (segment from to : Z) (callback : option (pci_enumerate_callback_t T))
    (count : Z) : M T Z :=
  for_ from (to - from) (fun bus count =>
    n ← enumerate_bus segment bus callback; mret (i32 (count + n))) count.

Definition pci_enumerate (callback : option (pci_enumerate_callback_t T)) : M T Z :=
  regions ← on_pci (gets ecam_regions);
  match regions with
  | [] => enumerate_buses 0 0 256 callback 0
  | _ =>
      for_ 0 (Z.of_nat (length regions)) (fun i count =>
        entry ← of_option (array_get regions i);
        enumerate_buses (region_segment entry) (start_bus entry) (end_bus entry + 1) callback
          count) 0
  end.
End Enumerate.

Definition detect_pci_device (device : PCI_ret) : M pci_state unit :=
  if negb (PCI_status device =? PCI_STATUS_SUCCESS) then mret ()
  else
    let class := class_code device in
    let sub := subclass device in
    let prog := prog_if device in
    modify (fun s =>
      let d := devices s in
      if (class =? 0x01) && (sub =? 0x06) && (prog =? 0x01)
      then set_devices (mkDevices (ATA d) true (NVMe d) (USB d)) s
      else if (class =? 0x01) && (sub =? 0x01)
      then set_devices (mkDevices true (AHCI d) (NVMe d) (USB d)) s
      else if (class =? 0x01) && (sub =? 0x08) && (prog =? 0x02)
      then set_devices (mkDevices (ATA d) (AHCI d) true (USB d)) s
      else if (class =? 0x0C) && (sub =? 0x03) then
        let usb (u : Z) := set_devices (mkDevices (ATA d) (AHCI d) (NVMe d) u) s in
        if prog =? 0x00 then usb UHCI
        else if prog =? 0x10 then usb OHCI
        else if prog =? 0x20 then usb EHCI
        else if prog =? 0x30 then usb xHCI
        else s
      else s).

Definition pci_detect_devices : M pci_state unit :=
  pci_enumerate id (fun s _ => s) (Some detect_pci_device);; mret ().
Definition PCI_list : M pci_state Z := pci_enumerate id (fun s _ => s) None.

(** ** Capabilities, commands, base address registers *)

(** The loop over the capability list: at most 48 are visited. *)
Definition capability_loop (address : pci_address_t) (capability_id pointer : Z)
    : M pci_state (Z * option Z) :=
  while FUEL (fun '(visited, pointer) =>
    if (0x40 <=? pointer) && (visited <? 48) then
      id ← pci_read8 address pointer;
      if id =? capability_id then mret (inr (PCI_STATUS_SUCCESS, Some pointer))
      else
        next ← pci_read8 address (pointer + 1);
        mret (inl (visited + 1, next &&& 0xfc))
    else mret (inr (PCI_STATUS_NOT_FOUND, None))) (0, pointer).

(** The status and the value stored through [offset]. *)
Definition pci_find_capability (address : pci_address_t) (capability_id : Z)
    : M pci_state (Z * option Z) :=
  status ← pci_read16 address 0x06;
  if status &&& PCI_STATUS_CAPABILITIES =? 0 then mret (PCI_STATUS_NOT_FOUND, None)
  else
    type ← pci_read8 address 0x0e;
    let header_type := type &&& 0x7f in
    p ← pci_read8 address (if header_type =? 2 then 0x14 else 0x34);
    capability_loop address capability_id (p &&& 0xfc).

Definition pci_find_extended_capability (address : pci_address_t) (capability_id : Z)
    : M pci_state (Z * option Z) :=
  region ← find_ecam_region (segment address) (bus address);
  match region with
  | None => mret (PCI_STATUS_UNSUPPORTED, None)
  | Some _ =>
      while FUEL (fun '(visited, pointer) =>
        if (0x100 <=? pointer) && (pointer <? 0x1000) && (visited <? 960) then
          header ← pci_read32 address pointer;
          if (header =? 0) || (header =? 0xffffffff) then mret (inr (PCI_STATUS_NOT_FOUND, None))
          else if header &&& 0xffff =? capability_id
          then mret (inr (PCI_STATUS_SUCCESS, Some pointer))
          else
            let next := (header >>> 20) &&& 0xffc in
            if (next =? 0) || (next =? pointer) then mret (inr (PCI_STATUS_NOT_FOUND, None))
            else mret (inl (visited + 1, next))
        else mret (inr (PCI_STATUS_NOT_FOUND, None))) (0, 0x100)
  end.

Definition pci_set_command_bits (address : pci_address_t) (set clear : Z) : M pci_state Z :=
  vendor ← pci_read16 address 0;
  if vendor =? 0xffff then mret PCI_STATUS_NOT_PRESENT
  else
    command ← pci_read16 address 0x04;
    pci_write16 address 0x04 ((command ||| set) &&& u16 (Z.lnot clear)).

Definition pci_enable_device (address : pci_address_t) : M pci_state Z :=
  pci_set_command_bits address (PCI_COMMAND_IO_SPACE ||| PCI_COMMAND_MEMORY_SPACE) 0.
Definition pci_enable_bus_mastering (address : pci_address_t) : M pci_state Z :=
  pci_set_command_bits address PCI_COMMAND_BUS_MASTER 0.
Definition pci_disable_bus_mastering (address : pci_address_t) : M pci_state Z :=
  pci_set_command_bits address 0 PCI_COMMAND_BUS_MASTER.

Record pci_bar_t := mkBar {
  bar_address : Z;
  bar_size : Z;
  bar_type : Z;
  prefetchable : Z;
  is_64bit : bool;
  bar_index_ : Z
}.

(** The size that a BAR's mask encodes. *)
Definition size_of_mask (is64 : bool) (type size_low size_high : Z) : Z :=
  if is64 then
    let mask := (size_high <<< 32) ||| (size_low &&& u32 (Z.lnot 0x0f)) in
    if negb (mask =? 0) then u64 (Z.lnot mask + 1) else 0
  else
    let mask := if type =? PCI_BAR_IO then size_low &&& u32 (Z.lnot 3)
                else size_low &&& u32 (Z.lnot 0x0f) in
    if negb (mask =? 0) then u32 (u32 (Z.lnot mask) + 1) else 0.

(** The probe: all ones in the BAR, the mask read back, the old contents restored;
    decoding is switched off meanwhile. *)
Definition probe_bar (address : pci_address_t) (offset low high : Z) (is64 : bool) (type : Z)
    : M pci_state Z :=
  command ← pci_read16 address 0x04;
  pci_write16 address 0x04
    (u16 (command &&& Z.lnot (PCI_COMMAND_IO_SPACE ||| PCI_COMMAND_MEMORY_SPACE)));;
  pci_write32 address offset 0xffffffff;;
  (if is64 then pci_write32 address (offset + 4) 0xffffffff;; mret () else mret ());;
  size_low ← pci_read32 address offset;
  size_high ← (if is64 then pci_read32 address (offset + 4) else mret 0);
  (if is64 then pci_write32 address (offset + 4) high;; mret () else mret ());;
  pci_write32 address offset low;;
  pci_write16 address 0x04 command;;
  mret (size_of_mask is64 type size_low size_high).

(** The status and what is stored through [bar] ([None]: nothing). *)
Definition pci_read_bar (address : pci_address_t) (bar_index : Z) (probe_size : bool)
    : M pci_state (Z * option pci_bar_t) :=
  if 6 <=? bar_index then mret (PCI_STATUS_BAD_BAR, None)
  else
    type ← pci_read8 address 0x0e;
    if negb (type &&& 0x7f =? 0) then mret (PCI_STATUS_BAD_BAR, None)
    else
      let offset := 0x10 + bar_index * 4 in
      low ← pci_read32 address offset;
      if low =? 0xffffffff then mret (PCI_STATUS_BAD_BAR, None)
      else
        let type := if negb (low &&& 1 =? 0) then PCI_BAR_IO else PCI_BAR_MEMORY in
        let finish (high : Z) (bar : pci_bar_t) : M pci_state (Z * option pci_bar_t) :=
          if negb probe_size then mret (PCI_STATUS_SUCCESS, Some bar)
          else
            size ← probe_bar address offset low high (is_64bit bar) type;
            mret (PCI_STATUS_SUCCESS,
                  Some (mkBar (bar_address bar) size type (prefetchable bar) (is_64bit bar)
                              bar_index)) in
        if type =? PCI_BAR_IO
        then finish 0 (mkBar (low &&& u32 (Z.lnot 3)) 0 type 0 false bar_index)
        else
          let memory_type := (low >>> 1) &&& 3 in
          let prefetch := (low >>> 3) &&& 1 in
          if memory_type =? 2 then
            if bar_index =? 5
            then mret (PCI_STATUS_BAD_BAR, Some (mkBar 0 0 type prefetch false bar_index))
            else
              high ← pci_read32 address (offset + 4);
              finish high (mkBar ((high <<< 32) ||| (low &&& u32 (Z.lnot 0x0f))) 0 type prefetch
                                 true bar_index)
          else finish 0 (mkBar (low &&& u32 (Z.lnot 0x0f)) 0 type prefetch false bar_index).

(** ** The boot device's path *)

Record PCI_PATH_RET := mkPath { path_status : Z; Devices : list PCI_ret }.

(** [device_path_node_length] of [path.h] *)
Definition device_path_node_length (node : Z) : M pci_state Z :=
  l0 ← byte mem (node + 2); l1 ← byte mem (node + 3); mret (l0 ||| (l1 <<< 8)).

(** One node; [inl] goes on with the next node and the bus behind a bridge. *)
Definition path_step (path_end node_address bus_ : Z) (result : PCI_PATH_RET)
    : M pci_state ((Z * Z * PCI_PATH_RET) + PCI_PATH_RET) :=
  let failed status := mret (inr (mkPath status (Devices result))) in
  length_ ← device_path_node_length node_address;
  if (length_ <? 4) || (node_address + length_ >? path_end)
  then failed PCI_STATUS_INVALID_ADDRESS
  else
    type ← byte mem node_address;
    subtype ← byte mem (node_address + 1);
    if (type =? 0x7f) && (subtype =? 0xff) then mret (inr result)
    else if (type =? 0x01) && (subtype =? 0x01) then
      if length_ <? 6 then failed PCI_STATUS_INVALID_ADDRESS
      else if PCI_PATH_MAX_DEVICES <=? Z.of_nat (length (Devices result))
      then failed PCI_STATUS_TOO_MANY_DEVICES
      else
        fn ← byte mem (node_address + 4);
        dv ← byte mem (node_address + 5);
        info ← pci_get_info (mkAddr 0 bus_ dv fn);
        if negb (PCI_status info =? PCI_STATUS_SUCCESS) then failed (PCI_status info)
        else
          mret (inl (node_address + length_,
                     if PCI_Type info =? 1 then secondary_bus info else bus_,
                     mkPath PCI_STATUS_SUCCESS (Devices result ++ [info])))
    else mret (inl (node_address + length_, bus_, result)).

Definition Discover_BootDevice (path_addr size : Z) : M pci_state PCI_PATH_RET :=
  let result := mkPath PCI_STATUS_NOT_PRESENT [] in
  if (path_addr =? 0) || (size <? 4) then mret (mkPath PCI_STATUS_INVALID_ADDRESS [])
  else
    let path_end := path_addr + size in
    while FUEL (fun '(node_address, bus_, result) =>
      if node_address + 4 <=? path_end
      then path_step path_end node_address bus_ result
      else mret (inr result)) (path_addr, 0, result).

(** ** Initialisation from the MCFG table *)

Definition acpi {A} (m : M acpi_state A) : M pci_state A := zoom pci_acpi set_pci_acpi m.
Definition pg {A} (m : M pg_state A) : M pci_state A := zoom pci_pg set_pci_pg m.

(** Entry [i] of the table, when it is taken: the region is recorded and mapped. *)
Definition take_region (entry virtual_base : Z) : M pci_state Z :=
  StartBus ← byte mem (entry + 10);
  EndBus ← byte mem (entry + 11);
  if StartBus >? EndBus then mret virtual_base
  else
    let buses := EndBus - StartBus + 1 in
    let pages := buses <<< 8 in
    BaseAddress ← le64 mem entry;
    SegmentGroup ← le16 mem (entry + 8);
    modify (fun s => set_regions (ecam_regions s ++
      [mkRegion BaseAddress virtual_base SegmentGroup StartBus EndBus]) s);;
    pg (root ← gets KernelPML4; create_mapping virtual_base BaseAddress pages 0x13 root);;
    pg (flush_pages virtual_base pages);;
    modify (fun s => set_express (Express_enabled s) (BusCount s + buses) s);;
    mret (u64 (virtual_base + (pages <<< 12))).

Definition pci_init : M pci_state unit :=
  spinlock_init;;
  modify (fun s => set_regions [] (set_express false 0 s));;
  result ← acpi (ACPI_discovery mem [77; 67; 70; 71]);
  (if ret_status result =? 0 then
     let mcfg := Address result in
     length_ ← le32 mem (mcfg + 4);
     if 44 <=? length_ then
       let available := (length_ - 44) / 16 in
       while FUEL (fun '(i, virtual_base) =>
         count ← gets (fun s => Z.of_nat (length (ecam_regions s)));
         if (i <? available) && (count <? PCI_MAX_ECAM_REGIONS) then
           virtual_base ← take_region (mcfg + 44 + 16 * i) virtual_base;
           mret (inl (i + 1, virtual_base))
         else mret (inr ())) (0, PCI_BASE)
     else mret ()
   else mret ());;
  modify (fun s =>
    match ecam_regions s with
    | [] => set_express false 256 s
    | _ => set_express true (BusCount s) s
    end);;
  PCI_list;; mret ().
End Pci.
