(* ===== verification/PciProofs.v ===== *)
(** * Configuration space: properties of [Pci]

    Accesses through the ports, the probing of BARs on registers that are writable, read-only or cleared by
    a one, and the search for a capability. *)
From S2P Require Import KPrelude MemHelpers Spinlock FrameAlloc Paging Bytes Acpi PortIO Pci.

(** ** Addresses *)

(** An address whose fields have the width of the C structure, and that exists. *)
Record addr_ok (a : pci_address_t) : Prop := {
  ao_segment : 0 <= segment a < 2 ^ 16;
  ao_bus : 0 <= bus a < 2 ^ 8;
  ao_device : 0 <= device_ a < 32;
  ao_function : 0 <= function_ a < 8
}.

(** An access of 1, 2 or 4 aligned bytes below [limit]. *)
Definition access_ok (offset size limit : Z) : Prop :=
  0 <= offset /\ offset + size <= limit /\
  ((size = 1) \/ (size = 2 /\ offset mod 2 = 0) \/ (size = 4 /\ offset mod 4 = 0)).

Lemma land1_mod z : z &&& 1 = z mod 2.
Proof. change 1 with (Z.ones 1). by rewrite Z.land_ones. Qed.
Lemma land3_mod z : z &&& 3 = z mod 4.
Proof. change 3 with (Z.ones 2). by rewrite Z.land_ones. Qed.

Lemma valid_access_ok a offset size limit :
  addr_ok a -> access_ok offset size limit -> limit < 2 ^ 32 ->
  valid_access a offset size limit = true.
Proof.
  intros [_ _ Hd Hf] (Ho & Hl & Hs) Hlim. unfold valid_access.
  rewrite land1_mod, land3_mod. rewrite u32_id by lia.
  destruct (Z.leb_spec 32 (device_ a)), (Z.leb_spec 8 (function_ a)),
    (Z.gtb_spec (offset + size) limit); try lia.
  destruct Hs as [->|[[-> ->]|[-> ->]]]; done.
Qed.

Lemma valid_access_inv a offset size limit :
  0 <= offset -> 0 <= size < 256 -> offset < 2 ^ 16 -> valid_access a offset size limit = true ->
  device_ a < 32 /\ function_ a < 8 /\ access_ok offset size limit.
Proof.
  intros Ho Hs Ho16. unfold valid_access, access_ok. rewrite land1_mod, land3_mod.
  rewrite u32_id by lia.
  destruct (Z.leb_spec 32 (device_ a)), (Z.leb_spec 8 (function_ a)); try done. cbn [orb].
  destruct (Z.eqb_spec size 1), (Z.eqb_spec size 2), (Z.eqb_spec size 4); try done; try lia;
    cbn [negb andb]; destruct (Z.gtb_spec (offset + size) limit); try done; cbn [andb orb];
    try (destruct (Z.eqb_spec (offset mod 2) 0)); try (destruct (Z.eqb_spec (offset mod 4) 0));
    try done; intros _; split_and!; try lia.
Qed.

(** A region that decodes at most 256 buses inside the address space. *)
Record region_ok (r : pci_ecam_region_t) : Prop := {
  ro_buses : 0 <= start_bus r <= end_bus r;
  ro_end : end_bus r < 256;
  ro_base : 0 <= virtual_base r;
  ro_limit : virtual_base r + ((end_bus r - start_bus r + 1) * 2 ^ 20) <= 2 ^ 64
}.

(** The address inside the region's window. *)
Definition ecam_offset (r : pci_ecam_region_t) (a : pci_address_t) (offset : Z) : Z :=
  (bus a - start_bus r) * 2 ^ 20 + device_ a * 2 ^ 15 + function_ a * 2 ^ 12 + offset.

Lemma ecam_pointer_offset r a offset :
  region_ok r -> addr_ok a -> start_bus r <= bus a <= end_bus r -> 0 <= offset < 4096 ->
  ecam_pointer r a offset = virtual_base r + ecam_offset r a offset /\
  0 <= ecam_offset r a offset < (end_bus r - start_bus r + 1) * 2 ^ 20.
Proof.
  intros [Hb He Hv Hl] [_ Hbus Hd Hf] Hin Ho. unfold ecam_pointer, ecam_offset.
  rewrite !shiftl_mul by lia. rewrite (u64_id (bus a - start_bus r)) by lia.
  rewrite (u64_id ((bus a - start_bus r) * 2 ^ 20)) by lia.
  split; [|lia]. rewrite u64_id by lia. lia.
Qed.

(** ** Dwords and their parts *)

Lemma part_dword_div data offset size : 0 <= data < 2 ^ 32 -> access_ok offset size 4096 ->
  part_dword data offset size = (data / 2 ^ (8 * (offset mod 4))) mod 2 ^ (8 * size).
Proof.
  intros Hd (Ho & Hl & Hs). unfold part_dword.
  destruct Hs as [->|[[-> He]|[-> He]]]; cbn [Z.eqb Pos.eqb].
  - rewrite land3_mod. change 0xff with (Z.ones 8). rewrite Z.land_ones by lia.
    rewrite shiftr_div by divlia. by rewrite Z.mul_comm.
  - change (offset &&& 2) with (Z.land offset (Z.shiftl 1 1)).
    assert (offset &&& 2 = offset mod 4) as Em.
    { rewrite <- land3_mod. apply Z.bits_inj'. intros i Hi. rewrite !Z.land_spec.
      destruct (Z.eq_dec i 0) as [->|].
      - assert (Z.testbit offset 0 = false) as ->
          by (rewrite Z.bit0_odd, Zmod_odd in *; destruct (Z.odd offset); [lia|done]).
        done.
      - f_equal. change 3 with (Z.ones 2). rewrite testbit_ones by lia. change 2 with (2 ^ 1).
        rewrite Z.pow2_bits_eqb by lia.
        destruct (Z.eqb_spec 1 i), (Z.ltb_spec i 2); lia. }
    change (Z.land offset (Z.shiftl 1 1)) with (offset &&& 2). rewrite Em.
    change 0xffff with (Z.ones 16). rewrite Z.land_ones by lia.
    rewrite shiftr_div by divlia. by rewrite Z.mul_comm.
  - rewrite He. change (2 ^ (8 * 0)) with 1. rewrite Z.div_1_r, Z.mod_small; [done|].
    change (2 ^ (8 * 4)) with (2 ^ 32). lia.
Qed.

(** Byte [k] of a dword. *)
Definition dbyte (d k : Z) : Z := (d / 2 ^ (8 * k)) mod 256.

Lemma dbyte_bits d k i : 0 <= k -> 0 <= i ->
  Z.testbit (dbyte d k) i = (i <? 8) && Z.testbit d (i + 8 * k).
Proof.
  intros Hk Hi. unfold dbyte. change 256 with (2 ^ 8). rewrite testbit_mod_pow2 by lia.
  by rewrite Z.div_pow2_bits by lia.
Qed.

Lemma u32_bits z i : 0 <= i -> Z.testbit (u32 z) i = (i <? 32) && Z.testbit z i.
Proof. intros. by apply testbit_mod_pow2. Qed.

Lemma merge_dword_bits old offset size value i :
  access_ok offset size 4096 -> size <> 4 -> 0 <= i < 32 ->
  Z.testbit (merge_dword old offset size value) i =
  let sh := 8 * (offset mod 4) in
  if (sh <=? i) && (i <? sh + 8 * size) then Z.testbit value (i - sh) else Z.testbit old i.
Proof.
  intros (Ho & Hl & Hs) H4 Hi. unfold merge_dword. rewrite land3_mod, (Z.mul_comm (offset mod 4)).
  set (sh := 8 * (offset mod 4)). assert (0 <= sh) by (subst sh; divlia).
  assert (sh + 8 * size <= 32) by (subst sh; divlia). cbn zeta.
  assert (forall j, 0 <= j < 32 -> Z.testbit (u32 ((if size =? 1 then 255 else 65535) <<< sh)) j =
    (sh <=? j) && (j <? sh + 8 * size)) as Hm.
  { intros j Hj. rewrite u32_bits, Z.shiftl_spec by lia.
    destruct (Z.ltb_spec j 32); [|lia]. cbn [andb].
    destruct (Z.leb_spec sh j); [|by apply Z.testbit_neg_r; lia].
    destruct Hs as [->|[[-> _]|[-> _]]]; [| |done]; cbn [Z.eqb Pos.eqb].
    - change 255 with (Z.ones 8). rewrite testbit_ones by lia.
      destruct (Z.ltb_spec (j - sh) 8), (Z.ltb_spec j (sh + 8 * 1)); lia.
    - change 65535 with (Z.ones 16). rewrite testbit_ones by lia.
      destruct (Z.ltb_spec (j - sh) 16), (Z.ltb_spec j (sh + 8 * 2)); lia. }
  rewrite Z.lor_spec, !Z.land_spec, u32_bits, Z.lnot_spec, Hm, u32_bits, Z.shiftl_spec by lia.
  destruct (Z.ltb_spec i 32); [|lia].
  destruct ((sh <=? i) && (i <? sh + 8 * size)); cbn;
    rewrite ?andb_false_r, ?andb_true_r, ?orb_false_r; done.
Qed.

(** A write changes the bytes it covers and no others. *)
Lemma merge_dword_byte old offset size value k :
  access_ok offset size 4096 -> size <> 4 -> 0 <= k < 4 ->
  dbyte (merge_dword old offset size value) k =
  if (offset mod 4 <=? k) && (k <? offset mod 4 + size) then dbyte value (k - offset mod 4)
  else dbyte old k.
Proof.
  intros Hacc H4 Hk. pose proof (Z.mod_pos_bound offset 4 ltac:(lia)).
  apply Z.bits_inj'. intros i Hi. rewrite dbyte_bits by lia.
  destruct (Z.ltb_spec i 8).
  - rewrite merge_dword_bits by (done || lia). cbn zeta.
    destruct (Z.leb_spec (offset mod 4) k), (Z.ltb_spec k (offset mod 4 + size)),
      (Z.leb_spec (8 * (offset mod 4)) (i + 8 * k)),
      (Z.ltb_spec (i + 8 * k) (8 * (offset mod 4) + 8 * size)); try lia; cbn [andb];
      rewrite dbyte_bits by lia; destruct (Z.ltb_spec i 8); try lia; cbn [andb]; try done.
    f_equal. lia.
  - cbn [andb]. symmetry. destruct (_ && _) eqn:E.
    + apply andb_true_iff in E as [E1 E2]. rewrite dbyte_bits by lia.
      destruct (Z.ltb_spec i 8); [lia|done].
    + rewrite dbyte_bits by lia. destruct (Z.ltb_spec i 8); [lia|done].
Qed.

(** The four fields of a configuration address do not overlap. *)
Lemma config_address_sum a offset : addr_ok a -> 0 <= offset < 256 ->
  config_address a offset = 2 ^ 31 + bus a * 2 ^ 16 + device_ a * 2 ^ 11 + function_ a * 2 ^ 8
    + 4 * (offset / 4).
Proof.
  intros [_ Hb Hd Hf] Ho. unfold config_address.
  assert (offset &&& 0xfc = 4 * (offset / 4)) as ->.
  { replace (4 * (offset / 4)) with ((offset >>> 2) <<< 2)
      by (rewrite shiftr_div, shiftl_mul by lia; change (2 ^ 2) with 4; lia).
    apply Z.bits_inj'. intros i Hi. rewrite Z.land_spec, Z.shiftl_spec by lia.
    change 0xfc with (Z.ones 6 <<< 2). rewrite Z.shiftl_spec by lia.
    destruct (Z.lt_ge_cases i 2).
    - rewrite !(Z.testbit_neg_r _ (i - 2)) by lia. apply andb_false_r.
    - rewrite Z.shiftr_spec by lia. rewrite testbit_ones by lia.
      replace (i - 2 + 2) with i by lia.
      destruct (Z.ltb_spec (i - 2) 6); [apply andb_true_r|].
      rewrite andb_false_r. symmetry. apply (testbit_above _ 8); lia. }
  rewrite !(shiftl_mul _ _) by lia. rewrite !u32_id by lia. rewrite Z.mul_1_l.
  set (o := offset / 4). assert (0 <= o < 64) by (subst o; divlia). clearbody o.
  rewrite <- !(shiftl_mul _ _) by lia.
  change (2 ^ 31) with (1 <<< 31).
  rewrite (lor_shiftl_add 1 (bus a <<< 16)) by (rewrite ?shiftl_mul by lia; lia).
  replace (1 * 2 ^ 31 + (bus a <<< 16)) with ((2 ^ 15 + bus a) <<< 16)
    by (rewrite !shiftl_mul by lia; lia).
  rewrite (lor_shiftl_add _ (device_ a <<< 11)) by (rewrite ?shiftl_mul by lia; lia).
  replace ((2 ^ 15 + bus a) * 2 ^ 16 + (device_ a <<< 11))
    with (((2 ^ 15 + bus a) * 2 ^ 5 + device_ a) <<< 11) by (rewrite !shiftl_mul by lia; lia).
  rewrite (lor_shiftl_add _ (function_ a <<< 8)) by (rewrite ?shiftl_mul by lia; lia).
  replace (((2 ^ 15 + bus a) * 2 ^ 5 + device_ a) * 2 ^ 11 + (function_ a <<< 8))
    with ((((2 ^ 15 + bus a) * 2 ^ 5 + device_ a) * 2 ^ 3 + function_ a) <<< 8)
    by (rewrite !shiftl_mul by lia; lia).
  rewrite (lor_shiftl_add _ (4 * o)) by lia. rewrite !shiftl_mul by lia. lia.
Qed.

Lemma config_address_inj a b i j : addr_ok a -> addr_ok b -> segment a = segment b ->
  0 <= i < 256 -> 0 <= j < 256 ->
  config_address a i = config_address b j -> a = b /\ i / 4 = j / 4.
Proof.
  intros Ha Hb Hs Hi Hj. rewrite !config_address_sum by done.
  destruct Ha as [_ ? ? ?], Hb as [_ ? ? ?], a, b. cbn in *. intros E.
  assert (0 <= i / 4 < 64) by divlia. assert (0 <= j / 4 < 64) by divlia.
  assert (bus = bus0) by lia. assert (device_ = device_0) by lia.
  assert (function_ = function_0) by lia. subst. split; [done|lia].
Qed.

Lemma config_address_dword a i : addr_ok a -> 0 <= i < 256 ->
  config_address a (4 * (i / 4)) = config_address a i.
Proof.
  intros Ha Hi. rewrite !config_address_sum by (done || divlia).
  replace (4 * (i / 4) / 4) with (i / 4) by divlia. done.
Qed.

(** ** The configuration mechanism as hardware documents it

    Port 0xCF8 selects a dword, port 0xCFC reads and writes the selected one. Each bit of a
    register has one of the kinds the PCI specification gives: the bits of [wm] take what is
    written, those of [w1c] are cleared by a one, the others are read only. *)

Definition reg_write (wm w1c old v : Z) : Z :=
  (v &&& wm) ||| (old &&& Z.lnot wm &&& Z.lnot (v &&& w1c)).

Section Mechanism1.
Context (init wm w1c : Z -> Z).

Definition keep (key old v : Z) : Z := reg_write (wm key) (w1c key) old v.

Fixpoint selected (t : list event) : Z :=
  match t with
  | [] => 0
  | Wr Port 4 a v :: t' => if a =? 0xcf8 then v else selected t'
  | _ :: t' => selected t'
  end.

Fixpoint dword (t : list event) (key : Z) : Z :=
  match t with
  | [] => init key
  | Wr Port 4 a v :: t' =>
      if (a =? 0xcfc) && (selected t' =? key) then keep key (dword t' key) v else dword t' key
  | _ :: t' => dword t' key
  end.

Definition mech1 : device := fun t sp width addr =>
  match sp with
  | Port => if (width =? 4) && (addr =? 0xcfc) then dword t (selected t) else 0
  | _ => 0
  end.

Context (init_range : forall k, 0 <= init k < 2 ^ 32).
Context (wm_range : forall k, 0 <= wm k < 2 ^ 32).

Lemma keep_range k old v : 0 <= old < 2 ^ 32 -> 0 <= keep k old v < 2 ^ 32.
Proof using wm_range.
  intros Ho. unfold keep, reg_write. apply lor_bounded; [lia| |].
  - rewrite Z.land_comm. by apply land_bounded; [lia|].
  - rewrite <- Z.land_assoc. by apply land_bounded; [lia|].
Qed.

(** A register whose bits are all writable takes the value that is written. *)
Lemma keep_all k old v : wm k = 2 ^ 32 - 1 -> 0 <= old < 2 ^ 32 -> 0 <= v < 2 ^ 32 -> keep k old v = v.
Proof using Type.
  intros Hw Ho Hv. unfold keep, reg_write. rewrite Hw. change (2 ^ 32 - 1) with (Z.ones 32).
  rewrite Z.land_ones, Z.mod_small by lia. apply Z.bits_inj'. intros i Hi.
  rewrite Z.lor_spec, !Z.land_spec, Z.lnot_spec, testbit_ones by lia.
  destruct (Z.ltb_spec i 32); cbn; [by rewrite andb_false_r, orb_false_r|].
  rewrite (testbit_above old 32) by lia. apply orb_false_r.
Qed.

(** A register without bits of the clearing kind keeps its value when it is written to it. *)
Lemma keep_same k old : w1c k = 0 -> keep k old old = old.
Proof using Type.
  intros H. unfold keep, reg_write. rewrite H, Z.land_0_r. apply Z.bits_inj'. intros i Hi.
  rewrite Z.lor_spec, !Z.land_spec, !Z.lnot_spec, Z.bits_0 by lia.
  by destruct (Z.testbit old i), (Z.testbit (wm k) i).
Qed.

(** All ones in such a register can be taken back. *)
Lemma keep_restore k old v : w1c k = 0 -> keep k (keep k old v) old = old.
Proof using Type.
  intros H. unfold keep, reg_write. rewrite H, !Z.land_0_r. apply Z.bits_inj'. intros i Hi.
  rewrite Z.lor_spec, !Z.land_spec, Z.lor_spec, !Z.land_spec, !Z.lnot_spec, Z.bits_0 by lia.
  by destruct (Z.testbit old i), (Z.testbit (wm k) i), (Z.testbit v i).
Qed.

Lemma dword_range t key : 0 <= dword t key < 2 ^ 32.
Proof.
  induction t as [|[sp w a v|sp w a v] t IH]; cbn [dword]; [auto|done|].
  repeat case_match; auto using keep_range.
Qed.

(** The dword behind an address, in a state. *)
Definition cfg (s : pci_state) (key : Z) : Z := dword (pci_trace s) key.

(** Legacy access: no ECAM regions, the lock free. *)
Definition legacy (s : pci_state) : Prop := ecam_regions s = [] /\ legacy_config_lock s = false.

(** Only the trace differs, and the dwords read as [f]. *)
Definition moved (f : Z -> Z) (s s' : pci_state) : Prop :=
  s' = set_pci_trace (pci_trace s') s /\ forall k, cfg s' k = f k.

Lemma moved_legacy f s s' : legacy s -> moved f s s' -> legacy s'.
Proof. intros [H1 H2] [-> _]. by split. Qed.

Lemma moved_trans f g s1 s2 s3 : moved f s1 s2 -> moved g s2 s3 -> moved g s1 s3.
Proof. intros [E1 _] [E2 H2]. split; [|done]. by rewrite E2, E1. Qed.

Lemma unlock_trace b t s : legacy_config_lock s = false ->
  set_pci_lock false (set_pci_trace t (set_pci_lock b s)) = set_pci_trace t s.
Proof. destruct s. cbn. by intros ->. Qed.

Lemma wp_read_dword a offset size v s :
  legacy s -> addr_ok a -> segment a = 0 -> access_ok offset size 256 ->
  wp (pci_config_read mech1 a offset size (Some v)) (fun r s' =>
    r = (PCI_STATUS_SUCCESS, Some (part_dword (cfg s (config_address a offset)) offset size)) /\
    moved (cfg s) s s') s.
Proof.
  intros [Hreg Hlock] Ha Hseg Hacc. unfold pci_config_read, find_ecam_region. wp_steps.
  rewrite Hreg. cbn [region_of List.find]. rewrite Hseg. cbn [Z.eqb negb orb].
  rewrite valid_access_ok by (done || (unfold PCI_CONFIG_LEGACY_SIZE; done || lia)). cbn [negb].
  wp_step. apply wp_spin_lock; [done|]. wp_step. unfold outl. apply wp_io_write. wp_step.
  unfold inl_. apply wp_io_read. wp_step. apply wp_spin_unlock. wp_steps.
  destruct Hacc as (Ho & Hl & Hs).
  assert (u32 (config_address a offset) = config_address a offset) as ->.
  { apply u32_id. rewrite config_address_sum by (done || lia). destruct Ha. divlia. }
  unfold io_value, logged. cbn [set_locked pci_Lock set_trace pci_IO trace].
  cbn [pci_trace set_pci_trace set_pci_lock mech1 Z.eqb Pos.eqb andb selected dword].
  fold (cfg s (config_address a offset)).
  rewrite Z.mod_small by (apply dword_range).
  split; [done|]. split; [|done]. cbn. destruct s; cbn in *. by subst.
Qed.

(** The dwords after a write. *)
Definition cfg_write (f : Z -> Z) (a : pci_address_t) (offset size value : Z) (k : Z) : Z :=
  if k =? config_address a offset
  then keep k (f k) (if size =? 4 then value else merge_dword (f k) offset size value)
  else f k.

Lemma merge_range old offset size value : access_ok offset size 4096 -> size <> 4 ->
  0 <= old < 2 ^ 32 -> 0 <= merge_dword old offset size value < 2 ^ 32.
Proof.
  intros Hacc H4 Hold. unfold merge_dword. apply lor_bounded; [lia| |].
  - by apply land_bounded; [lia|].
  - apply land_bounded; [lia|]. apply u32_range.
Qed.

Lemma wp_write_dword a offset size value s :
  legacy s -> addr_ok a -> segment a = 0 -> access_ok offset size 256 -> 0 <= value < 2 ^ 32 ->
  wp (pci_config_write mech1 a offset size value) (fun r s' =>
    r = PCI_STATUS_SUCCESS /\ moved (cfg_write (cfg s) a offset size value) s s') s.
Proof.
  intros [Hreg Hlock] Ha Hseg Hacc Hval. unfold pci_config_write, find_ecam_region. wp_steps.
  rewrite Hreg. cbn [region_of List.find]. rewrite Hseg. cbn [Z.eqb negb orb].
  rewrite valid_access_ok by (done || (unfold PCI_CONFIG_LEGACY_SIZE; done || lia)). cbn [negb].
  wp_step. apply wp_spin_lock; [done|]. wp_step. unfold outl at 1. apply wp_io_write. wp_step.
  destruct Hacc as (Ho & Hl & Hs).
  assert (u32 (config_address a offset) = config_address a offset) as ->.
  { apply u32_id. rewrite config_address_sum by (done || lia). destruct Ha. divlia. }
  set (key := config_address a offset).
  destruct (Z.eqb_spec size 4) as [->|H4].
  - unfold outl. apply wp_io_write. wp_step. apply wp_spin_unlock. wp_steps. split; [done|].
    unfold logged. cbn [set_locked pci_Lock set_trace pci_IO trace].
    split; [cbn; destruct s; cbn in *; by subst|]. intros k.
    unfold cfg, cfg_write. cbn [pci_trace set_pci_trace set_pci_lock dword selected Z.eqb Pos.eqb andb].
    fold key. rewrite u32_id by lia. rewrite (Z.eqb_sym k key).
    destruct (Z.eqb_spec key k) as [->|]; done.
  - wp_step. unfold inl_. apply wp_io_read. unfold outl. apply wp_io_write. wp_step.
    apply wp_spin_unlock. wp_steps. split; [done|].
    unfold io_value, logged. cbn [set_locked pci_Lock set_trace pci_IO trace].
    split; [cbn; destruct s; cbn in *; by subst|]. intros k.
    unfold cfg, cfg_write.
    cbn [pci_trace set_pci_trace set_pci_lock mech1 dword selected Z.eqb Pos.eqb andb].
    fold key. rewrite Z.mod_small by (apply dword_range).
    rewrite u32_id by (apply merge_range;
      [split; [lia|split; [lia|done]]|done|apply dword_range]).
    rewrite (Z.eqb_sym k key). destruct (Z.eqb_spec size 4); [done|].
    destruct (Z.eqb_spec key k) as [<-|]; done.
Qed.

(** ** Reads and writes in terms of the dwords only *)

Section Tracked.
Context (a : pci_address_t) (s0 : pci_state).
Context (Ha : addr_ok a) (Hseg : segment a = 0) (Hs0 : legacy s0).

Lemma moved_range f s k : moved f s0 s -> 0 <= f k < 2 ^ 32.
Proof using init_range wm_range. intros [_ H]. rewrite <- H. apply dword_range. Qed.

Lemma wp_tracked_read offset size v f s (Q : Z * option Z -> pci_state -> Prop) :
  access_ok offset size 256 -> moved f s0 s ->
  (forall s', moved f s0 s' ->
    Q (PCI_STATUS_SUCCESS, Some (part_dword (f (config_address a offset)) offset size)) s') ->
  wp (pci_config_read mech1 a offset size (Some v)) Q s.
Proof using init_range wm_range Ha Hseg Hs0.
  intros Hacc Hm HQ. eapply wp_mono.
  { apply wp_read_dword; try done. by eapply moved_legacy. }
  intros r s' [-> Hm']. pose proof Hm as [_ Hf]. rewrite Hf. apply HQ.
  eapply (moved_trans f f); [exact Hm|]. destruct Hm' as [E H]. split; [done|].
  intros k. by rewrite H.
Qed.

Lemma wp_tracked_read32 offset f s (Q : Z -> pci_state -> Prop) :
  access_ok offset 4 256 -> moved f s0 s ->
  (forall s', moved f s0 s' -> Q (f (config_address a offset)) s') ->
  wp (pci_read32 mech1 a offset) Q s.
Proof using init_range wm_range Ha Hseg Hs0.
  intros Hacc Hm HQ. unfold pci_read32, read_or. wp_step.
  eapply wp_tracked_read; [done|done|]. intros s' Hm'. wp_steps. by apply HQ.
Qed.

Lemma wp_tracked_read16 offset f s (Q : Z -> pci_state -> Prop) :
  access_ok offset 2 256 -> moved f s0 s ->
  (forall s', moved f s0 s' ->
    Q (part_dword (f (config_address a offset)) offset 2) s') ->
  wp (pci_read16 mech1 a offset) Q s.
Proof using init_range wm_range Ha Hseg Hs0.
  intros Hacc Hm HQ. unfold pci_read16, read_or. do 2 wp_step.
  eapply wp_tracked_read; [done|done|]. intros s' Hm'. wp_steps. cbn [default].
  rewrite u16_id; [by apply HQ|]. rewrite part_dword_div; [|by eapply moved_range|].
  - apply (Z.mod_pos_bound _ (2 ^ 16)). lia.
  - destruct Hacc as (? & ? & ?). split; [lia|split; [lia|done]].
Qed.

Lemma wp_tracked_read8 offset f s (Q : Z -> pci_state -> Prop) :
  access_ok offset 1 256 -> moved f s0 s ->
  (forall s', moved f s0 s' ->
    Q (part_dword (f (config_address a offset)) offset 1) s') ->
  wp (pci_read8 mech1 a offset) Q s.
Proof using init_range wm_range Ha Hseg Hs0.
  intros Hacc Hm HQ. unfold pci_read8, read_or. do 2 wp_step.
  eapply wp_tracked_read; [done|done|]. intros s' Hm'. wp_steps. cbn [default].
  rewrite u8_id; [by apply HQ|]. rewrite part_dword_div; [|by eapply moved_range|].
  - apply (Z.mod_pos_bound _ (2 ^ 8)). lia.
  - destruct Hacc as (? & ? & ?). split; [lia|split; [lia|done]].
Qed.

Lemma cfg_write_ext f g offset size value k :
  (forall k, f k = g k) -> cfg_write f a offset size value k = cfg_write g a offset size value k.
Proof. intros H. unfold cfg_write. by rewrite H. Qed.

Lemma wp_tracked_write offset size value f s (Q : Z -> pci_state -> Prop) :
  access_ok offset size 256 -> 0 <= value < 2 ^ 32 -> moved f s0 s ->
  (forall s', moved (cfg_write f a offset size value) s0 s' -> Q PCI_STATUS_SUCCESS s') ->
  wp (pci_config_write mech1 a offset size value) Q s.
Proof using init_range wm_range Ha Hseg Hs0.
  intros Hacc Hv Hm HQ. eapply wp_mono.
  { apply wp_write_dword; try done. by eapply moved_legacy. }
  intros r s' [-> Hm']. apply HQ. eapply moved_trans; [exact Hm|].
  destruct Hm as [_ Hf], Hm' as [E H]. split; [done|]. intros k. rewrite H.
  by apply cfg_write_ext.
Qed.

(** ** Base address registers *)

Definition key (offset : Z) : Z := config_address a offset.
Definition bar_offset (i : Z) : Z := 16 + i * 4.

(** What the specification says of the command and status registers and of the BARs: the command
    half has no bits that a one clears, the status half none that take what is written, the BARs
    none that a one clears. *)
Definition documented : Prop :=
  wm (key 4) < 2 ^ 16 /\ w1c (key 4) &&& 0xffff = 0 /\
  forall j, 0 <= j < 6 -> w1c (key (bar_offset j)) = 0.

(** The dwords behind a probe: the set bits of the status register that a one clears are lost. *)
Definition probed (k : Z) : Z :=
  if k =? key 4 then cfg s0 k &&& Z.lnot (w1c k) else cfg s0 k.

(** What a BAR keeps of all ones. *)
Definition all_ones (i : Z) : Z := keep (key (bar_offset i)) (cfg s0 (key (bar_offset i))) 0xffffffff.

Lemma key_ne i j : 0 <= i < 256 -> 0 <= j < 256 -> i / 4 <> j / 4 ->
  (key i =? key j) = false.
Proof using Ha.
  intros Hi Hj Hne. apply Z.eqb_neq. intros E. by apply config_address_inj in E as [_ ?].
Qed.

Lemma part_cmd_range f s : moved f s0 s -> 0 <= part_dword (f (key 4)) 4 2 < 2 ^ 16.
Proof using init_range wm_range.
  intros Hm. rewrite part_dword_div; [|by eapply moved_range|].
  - apply (Z.mod_pos_bound _ (2 ^ 16)). lia.
  - split; [lia|]. split; [lia|]. right. left. done.
Qed.

(** Writing the command register twice, the second time with its old value. *)
Lemma command_restored c' : documented ->
  let k := key 4 in let old := cfg s0 k in let c := part_dword old 4 2 in
  let once := keep k old (merge_dword old 4 2 c') in
  keep k once (merge_dword once 4 2 c) = old &&& Z.lnot (w1c k).
Proof using init_range wm_range.
  cbn zeta. set (k := key 4). intros (Hw & Hc & _). fold k in Hw, Hc.
  pose proof (dword_range (pci_trace s0) k) as Rold. fold (cfg s0 k) in Rold.
  set (old := cfg s0 k) in *. set (once := keep k old _).
  assert (access_ok 4 2 4096) as Hacc by (split; [lia|]; split; [lia|]; by right; left).
  pose proof (keep_range k old (merge_dword old 4 2 c') Rold) as Ronce. fold once in Ronce.
  set (c := part_dword old 4 2).
  assert (c = old mod 2 ^ 16) as Ec by (subst c; rewrite part_dword_div by done; by rewrite Z.div_1_r).
  pose proof (wm_range k) as Hw0.
  assert (forall i, 0 <= i < 32 -> Z.testbit (w1c k) i = (16 <=? i) && Z.testbit (w1c k) i) as Bc.
  { intros i Hi. destruct (Z.leb_spec 16 i); [done|]. apply (f_equal (fun z => Z.testbit z i)) in Hc.
    change 0xffff with (Z.ones 16) in Hc. rewrite Z.land_spec, testbit_ones, Z.bits_0 in Hc by lia.
    destruct (Z.ltb_spec i 16); [|lia]. by rewrite andb_true_r in Hc. }
  assert (forall i, 0 <= i -> Z.testbit (wm k) i = (i <? 16) && Z.testbit (wm k) i) as Bw.
  { intros i Hi. destruct (Z.ltb_spec i 16); [done|]. apply (testbit_above _ 16); lia. }
  assert (forall d v i, 0 <= i < 32 -> Z.testbit (merge_dword d 4 2 v) i =
    if i <? 16 then Z.testbit v i else Z.testbit d i) as Bm.
  { intros d v i Hi. rewrite merge_dword_bits by done || lia. cbn zeta.
    change (8 * (4 mod 4)) with 0. rewrite Z.sub_0_r.
    destruct (Z.leb_spec 0 i), (Z.ltb_spec i (0 + 8 * 2)), (Z.ltb_spec i 16); done || lia. }
  assert (forall d v i, 0 <= i < 32 -> Z.testbit (keep k d (merge_dword d 4 2 v)) i =
    if i <? 16 then (if Z.testbit (wm k) i then Z.testbit v i else Z.testbit d i)
    else Z.testbit d i && negb (Z.testbit (w1c k) i)) as Bk.
  { intros d v i Hi. unfold keep, reg_write.
    rewrite Z.lor_spec, !Z.land_spec, !Z.lnot_spec, Z.land_spec, Bm, Bc, Bw by lia.
    destruct (Z.ltb_spec i 16), (Z.leb_spec 16 i); try lia;
      destruct (Z.testbit (wm k) i), (Z.testbit d i), (Z.testbit v i), (Z.testbit (w1c k) i); done. }
  apply Z.bits_inj'. intros i Hi. destruct (Z.ltb_spec i 32).
  - rewrite Bk by lia. subst once. rewrite Bk, Z.land_spec, Z.lnot_spec, Ec by lia.
    rewrite Bc by lia. rewrite testbit_mod_pow2 by lia.
    destruct (Z.ltb_spec i 16), (Z.leb_spec 16 i); try lia; cbn;
      destruct (Z.testbit (wm k) i), (Z.testbit old i), (Z.testbit (w1c k) i); done.
  - rewrite (testbit_above _ 32); [|by apply keep_range|lia].
    symmetry. apply (testbit_above _ 32); [|lia]. by apply land_bounded; [lia|].
Qed.

Lemma wp_probe_bar i is64 type s :
  0 <= i < 6 -> (is64 = true -> i < 5) -> documented -> moved (cfg s0) s0 s ->
  wp (probe_bar mech1 a (bar_offset i) (cfg s0 (key (bar_offset i)))
        (if is64 then cfg s0 (key (bar_offset (i + 1))) else 0) is64 type)
     (fun size s' => moved probed s0 s' /\
        size = size_of_mask is64 type (all_ones i) (if is64 then all_ones (i + 1) else 0)) s.
Proof using init_range wm_range Ha Hseg Hs0.
  intros Hi H64 Hdoc Hm. unfold probe_bar. fold (key 4).
  assert (access_ok (bar_offset i) 4 256) as Hacc.
  { unfold access_ok, bar_offset. split; [lia|]. split; [lia|]. right. right. split; [done|divlia]. }
  assert (is64 = true -> access_ok (bar_offset i + 4) 4 256) as Hacc2.
  { intros H%H64. unfold access_ok, bar_offset. split; [lia|]. split; [lia|].
    right. right. split; [done|divlia]. }
  assert (access_ok 4 2 256) as Hacc4 by (split; [lia|]; split; [lia|]; by right; left).
  assert (bar_offset i + 4 = bar_offset (i + 1)) as Enext by (unfold bar_offset; lia).
  assert ((key (bar_offset i) =? key 4) = false) as N1
    by (apply key_ne; unfold bar_offset; divlia).
  assert ((key 4 =? key (bar_offset i)) = false) as N2
    by (apply key_ne; unfold bar_offset; divlia).
  assert (is64 = true -> (key (bar_offset (i + 1)) =? key 4) = false) as N3
    by (intros H%H64; apply key_ne; unfold bar_offset; divlia).
  assert (is64 = true -> (key (bar_offset (i + 1)) =? key (bar_offset i)) = false) as N4
    by (intros H%H64; apply key_ne; unfold bar_offset; divlia).
  assert (is64 = true -> (key (bar_offset i) =? key (bar_offset (i + 1))) = false) as N5
    by (intros H%H64; apply key_ne; unfold bar_offset; divlia).
  pose proof (part_cmd_range _ _ Hm) as Rc.
  wp_step. eapply wp_tracked_read16; [done..|]. intros s1 H1. fold (key 4).
  set (c := part_dword (cfg s0 (key 4)) 4 2) in *. wp_step. unfold pci_write16, pci_write32.
  eapply wp_tracked_write; [done..| |exact H1|].
  { pose proof (u16_range (c &&& Z.lnot (PCI_COMMAND_IO_SPACE ||| PCI_COMMAND_MEMORY_SPACE))). lia. }
  intros s2 H2. wp_step. eapply wp_tracked_write; [done..|exact H2|]. intros s3 H3.
  destruct is64.
  - specialize (Hacc2 eq_refl). specialize (N3 eq_refl). specialize (N4 eq_refl).
    specialize (N5 eq_refl). specialize (H64 eq_refl). rewrite Enext in *.
    wp_steps. eapply wp_tracked_write; [done..|exact H3|]. intros s4 H4. wp_steps.
    eapply wp_tracked_read32; [done..|exact H4|]. intros s5 H5. wp_steps.
    eapply wp_tracked_read32; [done..|exact H5|]. intros s6 H6. wp_steps.
    eapply wp_tracked_write; [done..|apply (moved_range _ _ _ Hm)|exact H6|]. intros s7 H7. wp_steps.
    eapply wp_tracked_write; [done..|apply (moved_range _ _ _ Hm)|exact H7|]. intros s8 H8. wp_steps.
    eapply wp_tracked_write; [done..|lia|exact H8|]. intros s9 H9. wp_steps.
    split.
    + destruct H9 as [E9 F9]. split; [done|]. intros k. rewrite F9. unfold cfg_write, probed.
      fold (key 4) (key (bar_offset i)) (key (bar_offset (i + 1))). cbn [Z.eqb Pos.eqb].
      destruct (Z.eqb_spec k (key 4)) as [->|].
      { rewrite (Z.eqb_sym (key 4) (key (bar_offset (i + 1)))), N3, N2. by apply command_restored. }
      destruct (Z.eqb_spec k (key (bar_offset i))) as [->|].
      { rewrite N5. apply keep_restore, Hdoc. lia. }
      destruct (Z.eqb_spec k (key (bar_offset (i + 1)))) as [->|]; [|done].
      apply keep_restore, Hdoc. lia.
    + unfold cfg_write, all_ones. fold (key 4) (key (bar_offset i)) (key (bar_offset (i + 1))).
      cbn [Z.eqb Pos.eqb]. by rewrite ?N5, ?N4, ?N3, ?N1, !Z.eqb_refl.
  - wp_steps. eapply wp_tracked_read32; [done..|exact H3|]. intros s5 H5. wp_steps.
    eapply wp_tracked_write; [done..|apply (moved_range _ _ _ Hm)|exact H5|]. intros s8 H8. wp_steps.
    eapply wp_tracked_write; [done..|lia|exact H8|]. intros s9 H9. wp_steps.
    split.
    + destruct H9 as [E9 F9]. split; [done|]. intros k. rewrite F9. unfold cfg_write, probed.
      fold (key 4) (key (bar_offset i)). cbn [Z.eqb Pos.eqb].
      destruct (Z.eqb_spec k (key 4)) as [->|]; [rewrite N2; by apply command_restored|].
      destruct (Z.eqb_spec k (key (bar_offset i))) as [->|]; [|done].
      apply keep_restore, Hdoc. lia.
    + unfold cfg_write, all_ones. fold (key 4) (key (bar_offset i)).
      cbn [Z.eqb Pos.eqb]. by rewrite ?N1, !Z.eqb_refl.
Qed.

(** *** The size *)

(** The bits of a BAR that say what it is, not where. *)
Definition type_bits (bar : pci_bar_t) : Z :=
  if negb (is_64bit bar) && (bar_type bar =? PCI_BAR_IO) then 2 else 4.
Definition width (bar : pci_bar_t) : Z := if is_64bit bar then 64 else 32.
(** A BAR of one or two dwords as one number. *)
Definition joined (bar : pci_bar_t) (f : Z -> Z) (i : Z) : Z :=
  if is_64bit bar then f (key (bar_offset i)) + 2 ^ 32 * f (key (bar_offset (i + 1)))
  else f (key (bar_offset i)).

(** The BAR decodes [2 ^ n] bytes: its bits from [n] on are writable, those below are zero but
    for the type bits. *)
Definition decodes (i : Z) (bar : pci_bar_t) (n : Z) : Prop :=
  type_bits bar <= n < width bar /\ joined bar wm i = 2 ^ width bar - 2 ^ n /\
  joined bar (cfg s0) i mod 2 ^ n < 2 ^ type_bits bar.

Lemma mask_bits t n w x i : 0 <= t <= n -> n <= w -> 0 <= i < w -> 0 <= x -> x mod 2 ^ n < 2 ^ t ->
  Z.testbit (((2 ^ w - 2 ^ n) ||| (x &&& Z.lnot (2 ^ w - 2 ^ n))) &&& Z.lnot (2 ^ t - 1)) i =
  Z.testbit (2 ^ w - 2 ^ n) i.
Proof using Type.
  intros Ht Hn Hi Hx Hm.
  assert (2 ^ w - 2 ^ n = Z.ones (w - n) <<< n) as Ew.
  { rewrite Z.shiftl_mul_pow2, Z.ones_equiv by lia. replace w with ((w - n) + n) at 1 by lia.
    rewrite Z.pow_add_r by lia. lia. }
  assert (Z.testbit (2 ^ w - 2 ^ n) i = (n <=? i)) as B.
  { rewrite Ew, Z.shiftl_spec by lia. destruct (Z.leb_spec n i); [|apply Z.testbit_neg_r; lia].
    rewrite testbit_ones by lia. destruct (Z.ltb_spec (i - n) (w - n)); lia || done. }
  rewrite Z.land_spec, Z.lor_spec, Z.land_spec, !Z.lnot_spec, B by lia.
  replace (2 ^ t - 1) with (Z.ones t) by (rewrite Z.ones_equiv; lia). rewrite testbit_ones by lia.
  destruct (Z.leb_spec n i); [destruct (Z.ltb_spec i t); lia || done|].
  destruct (Z.ltb_spec i t); cbn; rewrite ?andb_false_r, ?andb_true_r; [done|].
  assert (Z.testbit (x mod 2 ^ n) i = false) as Bx.
  { pose proof (Z.mod_pos_bound x (2 ^ n) ltac:(lia)). apply (testbit_above _ t); lia. }
  rewrite testbit_mod_pow2 in Bx by lia. destruct (Z.ltb_spec i n); [done|lia].
Qed.

Lemma pair_bits x y i : 0 <= x < 2 ^ 32 -> 0 <= i ->
  Z.testbit (x + 2 ^ 32 * y) i = if i <? 32 then Z.testbit x i else Z.testbit y (i - 32).
Proof using Type.
  intros Hx Hi. replace (x + 2 ^ 32 * y) with (y * 2 ^ 32 + x) by lia.
  rewrite <- lor_shiftl_add, Z.lor_spec, Z.shiftl_spec by lia.
  destruct (Z.ltb_spec i 32); [by rewrite (Z.testbit_neg_r y) by lia|].
  rewrite (testbit_above x 32) by lia. apply orb_false_r.
Qed.

Lemma all_ones_or i : w1c (key (bar_offset i)) = 0 ->
  all_ones i = wm (key (bar_offset i)) |||
    (cfg s0 (key (bar_offset i)) &&& Z.lnot (wm (key (bar_offset i)))).
Proof using wm_range.
  intros H. unfold all_ones, keep, reg_write. rewrite H, Z.land_0_r. change (Z.lnot 0) with (-1).
  rewrite Z.land_m1_r, Z.land_comm. f_equal. change 0xffffffff with (Z.ones 32).
  rewrite Z.land_ones, Z.mod_small by (lia || apply wm_range). done.
Qed.

Lemma size_decoded i bar n : 0 <= i < 6 -> (is_64bit bar = true -> i < 5) -> documented ->
  decodes i bar n ->
  size_of_mask (is_64bit bar) (bar_type bar) (all_ones i) (if is_64bit bar then all_ones (i + 1) else 0) = 2 ^ n.
Proof using init_range wm_range.
  intros Hi H64 (_ & _ & Hdoc) (Hn & Hw & Hx). unfold size_of_mask, type_bits, width, joined in *.
  pose proof (fun k => dword_range (pci_trace s0) k) as Rc. fold (cfg s0) in Rc.
  rewrite (all_ones_or i) by (apply Hdoc; lia).
  set (w0 := wm (key (bar_offset i))) in *. set (x0 := cfg s0 (key (bar_offset i))) in *.
  assert (0 <= x0 < 2 ^ 32) as Rx by apply Rc. assert (0 <= w0 < 2 ^ 32) as Rw by apply wm_range.
  assert (forall c, 0 <= u32 c < 2 ^ 32) as Ru by apply u32_range.
  destruct (is_64bit bar); cbn [negb andb] in *.
  - rewrite all_ones_or by (apply Hdoc; lia).
    set (w1 := wm (key (bar_offset (i + 1)))) in *. set (x1 := cfg s0 (key (bar_offset (i + 1)))) in *.
    assert (0 <= x1 < 2 ^ 32) as Rx1 by apply Rc. assert (0 <= w1 < 2 ^ 32) as Rw1 by apply wm_range.
    assert (0 < 2 ^ n < 2 ^ 64) as Rn.
    { split; [apply Z.pow_pos_nonneg; lia|apply Z.pow_lt_mono_r; lia]. }
    assert (((w1 ||| (x1 &&& Z.lnot w1)) <<< 32) ||| ((w0 ||| (x0 &&& Z.lnot w0)) &&& u32 (Z.lnot 15)) =
      2 ^ 64 - 2 ^ n) as ->.
    { apply Z.bits_inj'. intros j Hj. destruct (Z.ltb_spec j 64).
      - rewrite <- (mask_bits 4 n 64 (x0 + 2 ^ 32 * x1) j), <- Hw; [|lia|lia|lia|lia|exact Hx].
        change (2 ^ 4 - 1) with (Z.ones 4). change 15 with (Z.ones 4).
        rewrite (Z.lor_spec _ _ j), Z.shiftl_spec, !(Z.land_spec _ _ j), (Z.lor_spec (_ + _)), (Z.lor_spec w0),
          !(Z.land_spec _ _ j), u32_bits, !Z.lnot_spec, !pair_bits, testbit_ones by lia.
        destruct (Z.ltb_spec j 32).
        + rewrite (Z.testbit_neg_r _ (j - 32)) by lia. done.
        + destruct (Z.ltb_spec j 4); [lia|]. cbn [negb andb].
          rewrite andb_false_r, orb_false_r, andb_true_r, Z.lor_spec, Z.land_spec, Z.lnot_spec by lia. done.
      - rewrite (testbit_above (2 ^ 64 - 2 ^ n) 64) by lia. apply (testbit_above _ 64); [|lia].
        apply lor_bounded; [lia| |].
        + rewrite shiftl_mul by lia. pose proof (lor_bounded w1 (x1 &&& Z.lnot w1) 32 ltac:(lia) Rw1
            ltac:(by apply land_bounded)). lia.
        + pose proof (land_bounded (u32 (Z.lnot 15)) (w0 ||| (x0 &&& Z.lnot w0)) 32 ltac:(lia) (Ru _)) as L.
          rewrite Z.land_comm in L. lia. }
    destruct (Z.eqb_spec (2 ^ 64 - 2 ^ n) 0); [lia|]. cbn [negb]. unfold u64, Z.lnot. divlia.
  - assert (0 < 2 ^ n < 2 ^ 32) as Rn.
    { split; [apply Z.pow_pos_nonneg|apply Z.pow_lt_mono_r]; destruct (bar_type bar =? PCI_BAR_IO); lia. }
    assert (forall t, 0 <= t <= 4 -> t <= n -> x0 mod 2 ^ n < 2 ^ t ->
      (w0 ||| (x0 &&& Z.lnot w0)) &&& u32 (Z.lnot (2 ^ t - 1)) = 2 ^ 32 - 2 ^ n) as Em.
    { intros t Ht Htn Hxt. apply Z.bits_inj'. intros j Hj. destruct (Z.ltb_spec j 32).
      - rewrite <- (mask_bits t n 32 x0 j), <- Hw; [|lia|lia|lia|lia|done].
        rewrite !Z.land_spec, u32_bits by lia.
        by rewrite (proj2 (Z.ltb_lt j 32)) by lia.
      - rewrite !(testbit_above _ 32) by (try lia; rewrite Z.land_comm; apply land_bounded;
          specialize (Ru (Z.lnot (2 ^ t - 1))); lia). done. }
    assert ((if bar_type bar =? PCI_BAR_IO then (w0 ||| (x0 &&& Z.lnot w0)) &&& u32 (Z.lnot 3)
      else (w0 ||| (x0 &&& Z.lnot w0)) &&& u32 (Z.lnot 15)) = 2 ^ 32 - 2 ^ n) as ->.
    { destruct (bar_type bar =? PCI_BAR_IO); [apply (Em 2)|apply (Em 4)]; lia. }
    destruct (Z.eqb_spec (2 ^ 32 - 2 ^ n) 0); [lia|]. cbn [negb]. unfold u32, Z.lnot.
    change (2 ^ 32) with 4294967296 in *. divlia.
Qed.

(** What [pci_read_bar] leaves behind and answers. *)
Definition bar_read (i : Z) (r : Z * option pci_bar_t) (s' : pci_state) : Prop :=
  moved (if r.1 =? PCI_STATUS_SUCCESS then probed else cfg s0) s0 s' /\
  forall bar n, r = (PCI_STATUS_SUCCESS, Some bar) -> decodes i bar n -> bar_size bar = 2 ^ n.

Lemma wp_read_bar i s :
  0 <= i < 6 -> documented -> moved (cfg s0) s0 s ->
  wp (pci_read_bar mech1 a i true) (bar_read i) s.
Proof using init_range wm_range Ha Hseg Hs0.
  intros Hi Hdoc Hm. unfold pci_read_bar. destruct (Z.leb_spec 6 i); [lia|]. wp_step.
  eapply wp_tracked_read8; [done..| |exact Hm|].
  { split; [lia|]. split; [lia|]. by left. }
  intros s1 H1. destruct (negb _); [wp_steps; by split|]. wp_step.
  assert (access_ok (bar_offset i) 4 256) as Hacc.
  { unfold access_ok, bar_offset. split; [lia|]. split; [lia|]. right. right. split; [done|divlia]. }
  change (16 + i * 4) with (bar_offset i).
  eapply wp_tracked_read32; [done..|exact H1|]. intros s2 H2. fold (key (bar_offset i)).
  destruct (_ =? 4294967295); [wp_steps; by split|].
  set (low := cfg s0 (key (bar_offset i))).
  assert (forall type (high : Z) (is64 : bool) pf addr s, (is64 = true -> i < 5) ->
    high = (if is64 then cfg s0 (key (bar_offset (i + 1))) else 0) -> moved (cfg s0) s0 s ->
    wp (size ← probe_bar mech1 a (bar_offset i) low high is64 type;
        mret (PCI_STATUS_SUCCESS, Some (mkBar addr size type pf is64 i))) (bar_read i) s) as Hfin.
  { intros type high is64 pf addr s3 H64 -> H3. wp_step.
    eapply wp_mono; [by apply wp_probe_bar|]. intros size s4 [H4 ->]. wp_steps.
    split; [done|]. intros bar n [= <-] Hdec. by apply (size_decoded i _ n) in Hdec. }
  cbn [negb bar_address prefetchable is_64bit].
  destruct (negb (low &&& 1 =? 0)).
  - change (PCI_BAR_IO =? PCI_BAR_IO) with true. by apply Hfin.
  - change (PCI_BAR_MEMORY =? PCI_BAR_IO) with false. cbn iota. destruct (_ =? 2); [|by apply Hfin].
    destruct (Z.eqb_spec i 5); [wp_steps; by split|]. wp_step.
    assert (bar_offset i + 4 = bar_offset (i + 1)) as -> by (unfold bar_offset; lia).
    eapply wp_tracked_read32; [done..| |exact H2|].
    { unfold access_ok, bar_offset. split; [lia|]. split; [lia|]. right. right. split; [done|divlia]. }
    intros s3 H3. apply Hfin; [lia|done|done].
Qed.

(** ** The capability list *)

Definition rb (offset : Z) : Z := part_dword (cfg s0 (key offset)) offset 1.

(** The [n]-th pointer of the list that starts at [start]. *)
Inductive cap_node (start : Z) : nat -> Z -> Prop :=
| cap_start : cap_node start 0 start
| cap_next n p : cap_node start n p -> 0x40 <= p -> cap_node start (Datatypes.S n) (rb (p + 1) &&& 0xfc).

Lemma cap_node_fun start n p q : cap_node start n p -> cap_node start n q -> p = q.
Proof using Type.
  intros H. revert q. induction H as [|n p H IH Hp]; intros q Hq; inversion Hq as [|n' p' H' Hp']; subst; [done|].
  by rewrite (IH p').
Qed.

Lemma cap_node_dead start n p m q :
  cap_node start n p -> p < 0x40 -> (n < m)%nat -> cap_node start m q -> False.
Proof using Type.
  intros Hc Hp Hnm. revert q. induction m as [|m IH]; intros q Hq; [lia|].
  inversion Hq as [|n' p' H' Hp']; subst.
  destruct (decide (m = n)) as [->|]; [|apply (IH ltac:(lia) p' H')].
  pose proof (cap_node_fun _ _ _ _ Hc H'). lia.
Qed.

(** The first of the first 48 capabilities that has the identifier. *)
Definition cap_result (start id : Z) (r : Z * option Z) : Prop :=
  (exists n p, (n < 48)%nat /\ cap_node start n p /\ 0x40 <= p /\ rb p = id /\
     r = (PCI_STATUS_SUCCESS, Some p) /\
     forall m q, (m < n)%nat -> cap_node start m q -> rb q <> id) \/
  (r = (PCI_STATUS_NOT_FOUND, None) /\
     forall m q, (m < 48)%nat -> cap_node start m q -> 0x40 <= q -> rb q <> id).

Lemma access_byte i : 0 <= i < 256 -> access_ok i 1 256.
Proof using Type. intros. split; [lia|]. split; [lia|by left]. Qed.

Lemma rb_range f s offset : moved f s0 s -> 0 <= offset < 256 ->
  0 <= part_dword (f (key offset)) offset 1 < 256.
Proof using init_range wm_range.
  intros Hm Ho. rewrite part_dword_div; [|by eapply moved_range|].
  - apply (Z.mod_pos_bound _ (2 ^ 8)). lia.
  - split; [lia|]. split; [lia|]. by left.
Qed.

Lemma pointer_range x : 0 <= x -> 0 <= x &&& 0xfc <= 0xfc.
Proof using Type.
  intros. split; [by apply Z.land_nonneg; left|].
  assert (x &&& 252 < 2 ^ 8) as H8.
  { rewrite Z.land_comm. by apply (land_bounded 252 x 8). }
  destruct (Z.le_gt_cases (x &&& 252) 252); [done|]. exfalso.
  assert (Z.testbit (x &&& 252) 0 = false) as B0 by (by rewrite Z.land_spec, andb_false_r).
  assert (Z.testbit (x &&& 252) 1 = false) as B1 by (by rewrite Z.land_spec, andb_false_r).
  assert (x &&& 252 = 253 \/ x &&& 252 = 254 \/ x &&& 252 = 255) as [E|[E|E]] by lia;
    rewrite E in B0, B1; done.
Qed.

Lemma wp_capability_loop id start s :
  moved (cfg s0) s0 s -> 0 <= start <= 0xfc ->
  wp (capability_loop mech1 a id start)
     (fun r s' => moved (cfg s0) s0 s' /\ cap_result start id r) s.
Proof using init_range wm_range Ha Hseg Hs0.
  intros Hm Hst. unfold capability_loop.
  eapply (wp_while _ (fun '(n, p) s' => moved (cfg s0) s0 s' /\ 0 <= n <= 48 /\ 0 <= p <= 0xfc /\
      cap_node start (Z.to_nat n) p /\
      forall m q, (m < Z.to_nat n)%nat -> cap_node start m q -> rb q <> id)
    (fun '(n, _) _ => 48 - n)).
  - intros [n p] s1 (H1 & Hn & Hp & Hc & Hno).
    destruct (Z.leb_spec 64 p), (Z.ltb_spec n 48); cbn [andb].
    2-4: wp_steps; split; [done|]; right; (split; [done|]); intros m q Hm48 Hq Hq64;
      destruct (Nat.lt_trichotomy m (Z.to_nat n)) as [Hlt|[->|Hgt]]; [by apply Hno with m| |];
      [pose proof (cap_node_fun _ _ _ _ Hc Hq); lia|];
      first [lia | exfalso; by apply (cap_node_dead start (Z.to_nat n) p m q)].
    wp_step. eapply wp_tracked_read8; [done..|by apply access_byte; lia|exact H1|].
    intros s2 H2. fold (key p) (rb p). destruct (Z.eqb_spec (rb p) id) as [<-|Hne].
    { wp_steps. split; [done|]. left. exists (Z.to_nat n), p. split; [lia|].
      split_and!; try done; lia. }
    wp_step. eapply wp_tracked_read8; [done..|by apply access_byte; lia|exact H2|].
    intros s3 H3. fold (key (p + 1)) (rb (p + 1)). wp_steps. split; [|lia].
    pose proof (rb_range _ _ (p + 1) Hm ltac:(lia)) as Rb. fold (rb (p + 1)) in Rb.
    pose proof (pointer_range (rb (p + 1)) ltac:(lia)).
    split; [done|]. split; [lia|]. split; [lia|].
    replace (Z.to_nat (n + 1)) with (Datatypes.S (Z.to_nat n)) by lia.
    split; [by apply cap_next|]. intros m q Hmn Hq.
    destruct (decide (m = Z.to_nat n)) as [->|]; [|apply (Hno m); [lia|done]].
    by rewrite <- (cap_node_fun start (Z.to_nat n) p q).
  - split; [done|]. split; [lia|]. split; [lia|]. split; [apply cap_start|]. intros m q Hlt. cbn in Hlt. lia.
  - unfold FUEL. lia.
Qed.

(** Where the list starts. *)
Definition cap_first : Z :=
  rb (if rb 0x0e &&& 0x7f =? 2 then 0x14 else 0x34) &&& 0xfc.
Definition has_caps : bool :=
  negb (part_dword (cfg s0 (key 6)) 6 2 &&& PCI_STATUS_CAPABILITIES =? 0).

Lemma wp_find_capability id s :
  moved (cfg s0) s0 s ->
  wp (pci_find_capability mech1 a id) (fun r s' => moved (cfg s0) s0 s' /\
    if has_caps then cap_result cap_first id r else r = (PCI_STATUS_NOT_FOUND, None)) s.
Proof using init_range wm_range Ha Hseg Hs0.
  intros Hm. unfold pci_find_capability, has_caps. wp_step.
  eapply wp_tracked_read16; [done..| |exact Hm|].
  { split; [lia|]. split; [lia|]. by right; left. }
  intros s1 H1. fold (key 6). destruct (_ =? 0); cbn [negb]; [by wp_steps|].
  wp_step. eapply wp_tracked_read8; [done..|by apply access_byte|exact H1|].
  intros s2 H2. wp_step. fold (key 14) (rb 14). unfold cap_first.
  set (o := if rb 14 &&& 127 =? 2 then 20 else 52).
  assert (0 <= o < 256) as Ho by (subst o; destruct (_ =? 2); lia).
  eapply wp_tracked_read8; [done..|by apply access_byte|exact H2|].
  intros s3 H3. fold (key o) (rb o). apply wp_capability_loop; [done|].
  pose proof (rb_range _ _ o Hm Ho) as Rb. fold (rb o) in Rb. apply pointer_range. lia.
Qed.
End Tracked.
End Mechanism1.

(** ** Any device at all

    Whatever the hardware answers, the configuration accesses return, and only the
    history of accesses grows. *)

Section AnyDevice.
Context (dev : device).

Definition quiet (s s' : pci_state) : Prop := s' = set_pci_trace (pci_trace s') s.

Lemma quiet_refl s : quiet s s.
Proof. by destruct s. Qed.
Lemma quiet_trans s1 s2 s3 : quiet s1 s2 -> quiet s2 s3 -> quiet s1 s3.
Proof. unfold quiet. intros -> ->. done. Qed.
Lemma quiet_lock s s' : quiet s s' -> legacy_config_lock s' = legacy_config_lock s.
Proof. by intros ->. Qed.

Lemma wp_config_read a offset size v s (Q : Z * option Z -> pci_state -> Prop) :
  legacy_config_lock s = false -> (forall r s', quiet s s' -> Q r s') ->
  wp (pci_config_read dev a offset size (Some v)) Q s.
Proof.
  intros Hl HQ. unfold pci_config_read, find_ecam_region. wp_steps.
  destruct (region_of _ _ _).
  - destruct (negb _); [wp_steps; apply HQ, quiet_refl|]. wp_step. unfold mmio_read.
    apply wp_io_read. wp_steps. by apply HQ.
  - destruct (_ || _); [wp_steps; apply HQ, quiet_refl|]. wp_step. apply wp_spin_lock; [done|].
    wp_step. apply wp_io_write. wp_step. apply wp_io_read. wp_step. apply wp_spin_unlock. wp_steps.
    apply HQ. unfold quiet. destruct s; cbn in *. by subst.
Qed.

Lemma wp_any_read8 a offset s (Q : Z -> pci_state -> Prop) :
  legacy_config_lock s = false -> (forall r s', quiet s s' -> 0 <= r < 256 -> Q r s') ->
  wp (pci_read8 dev a offset) Q s.
Proof.
  intros Hl HQ. unfold pci_read8, read_or. do 2 wp_step. apply wp_config_read; [done|].
  intros [st v] s' Hs. wp_steps. apply HQ; [done|]. apply u8_range.
Qed.

Lemma wp_any_read16 a offset s (Q : Z -> pci_state -> Prop) :
  legacy_config_lock s = false -> (forall r s', quiet s s' -> Q r s') ->
  wp (pci_read16 dev a offset) Q s.
Proof.
  intros Hl HQ. unfold pci_read16, read_or. do 2 wp_step. apply wp_config_read; [done|].
  intros [st v] s' Hs. wp_steps. by apply HQ.
Qed.

Lemma wp_read_bytes a offset n s (Q : list Z -> pci_state -> Prop) :
  legacy_config_lock s = false -> 0 <= n ->
  (forall l s', quiet s s' -> Z.of_nat (length l) = n -> Forall (fun b => 0 <= b < 256) l -> Q l s') ->
  wp (pci_read_bytes dev a offset n) Q s.
Proof.
  intros Hl Hn HQ. unfold pci_read_bytes. eapply wp_mono.
  { apply (wp_for (fun i l s' => quiet s s' /\ Z.of_nat (length l) = i /\
      Forall (fun b => 0 <= b < 256) l)); [done|split; [apply quiet_refl|done]|].
    intros i l s1 Hi (H1 & H2 & H3). wp_step. apply wp_any_read8; [by rewrite (quiet_lock s)|].
    intros r s2 H4 Hr. wp_steps. split; [by eapply quiet_trans|].
    rewrite length_app. cbn. split; [lia|]. by rewrite Forall_app, Forall_singleton. }
  intros l s' (H1 & H2 & H3). apply HQ; [done|lia|done].
Qed.

Lemma wp_get_info a s (Q : PCI_ret -> pci_state -> Prop) :
  legacy_config_lock s = false ->
  (forall r s', quiet s s' -> (PCI_status r = PCI_STATUS_SUCCESS ->
     header_size (PCI_Type r) = Some (Z.of_nat (length (header r)))) ->
     Forall (fun b => 0 <= b < 256) (header r) -> Q r s') ->
  wp (pci_get_info dev a) Q s.
Proof.
  intros Hl HQ. unfold pci_get_info. destruct (_ || _).
  { wp_steps. apply HQ; [apply quiet_refl|done|done]. }
  wp_step. apply wp_any_read16; [done|]. intros v s1 H1.
  destruct (v =? 0xffff). { wp_steps. by apply HQ. }
  wp_step. apply wp_any_read16; [by rewrite (quiet_lock s)|]. intros d s2 H2.
  wp_step. apply wp_read_bytes; [by rewrite (quiet_lock s1), (quiet_lock s)|lia|].
  intros c s3 H3 Lc _. assert (quiet s s3) as H03 by (eapply quiet_trans; [|done]; by eapply quiet_trans).
  destruct (header_size _) as [n|] eqn:En.
  - assert (0 <= n) as Hn by (unfold header_size in En; repeat case_match; simplify_eq; lia).
    wp_step. apply wp_read_bytes; [by rewrite (quiet_lock s)|done|].
    intros h s4 H4 Lh Fh. wp_steps. apply HQ; [by eapply quiet_trans|cbn; intros _; by rewrite Lh|done].
  - wp_steps. apply HQ; [done|done|done].
Qed.

Context (mem : Z -> option Z).

(** What the boot path discovery has collected. *)
Definition path_ok (r : PCI_PATH_RET) : Prop :=
  Z.of_nat (length (Devices r)) <= PCI_PATH_MAX_DEVICES /\
  Forall (fun d => PCI_status d = PCI_STATUS_SUCCESS) (Devices r).

Lemma wp_path_step path_addr size node bus_ r s :
  readable mem path_addr size -> legacy_config_lock s = false -> path_ok r ->
  path_addr <= node -> node + 4 <= path_addr + size ->
  wp (path_step dev mem (path_addr + size) node bus_ r) (fun x s' => quiet s s' /\
    match x with
    | inl (node', _, r') => node + 4 <= node' <= path_addr + size /\ path_ok r'
    | inr r' => path_ok r'
    end) s.
Proof.
  intros Hr Hl Hok Hn Hend. unfold path_step, device_path_node_length. do 2 wp_step.
  eapply wp_byte; [done|lia|]. intros R2. wp_step. eapply wp_byte; [done|lia|]. intros R3. wp_step.
  rewrite Z.lor_comm, (lor_shiftl_add _ _ 8) by lia.
  set (len := val8 mem (node + 3) * 2 ^ 8 + val8 mem (node + 2)).
  destruct (Z.ltb_spec len 4); cbn [orb]; [wp_steps; split; [apply quiet_refl|done]|].
  destruct (Z.gtb_spec (node + len) (path_addr + size)); [wp_steps; split; [apply quiet_refl|done]|].
  wp_step. eapply wp_byte; [done|lia|]. intros _. wp_step. eapply wp_byte; [done|lia|]. intros _.
  destruct (_ && _); [wp_steps; split; [apply quiet_refl|done]|].
  destruct (_ && _).
  2: { wp_steps. split; [apply quiet_refl|]. split; [lia|done]. }
  destruct (Z.ltb_spec len 6); [wp_steps; split; [apply quiet_refl|done]|].
  destruct (Z.leb_spec PCI_PATH_MAX_DEVICES (Z.of_nat (length (Devices r))));
    [wp_steps; split; [apply quiet_refl|done]|].
  wp_step. eapply wp_byte; [done|lia|]. intros _. wp_step. eapply wp_byte; [done|lia|]. intros _.
  wp_step. apply wp_get_info; [done|]. intros info s1 Hq _ _.
  destruct (Z.eqb_spec (PCI_status info) PCI_STATUS_SUCCESS) as [Est|]; cbn [negb]; wp_steps;
    (split; [done|]); [|done].
  split; [lia|]. destruct Hok as [Hlen Hall]. split; cbn [Devices].
  - rewrite length_app. cbn. lia.
  - by rewrite Forall_app, Forall_singleton.
Qed.

Lemma wp_Discover_BootDevice path_addr size s :
  readable mem path_addr size -> 0 <= path_addr -> size < 2 ^ 31 -> legacy_config_lock s = false ->
  wp (Discover_BootDevice dev mem path_addr size) (fun r s' => quiet s s' /\ path_ok r) s.
Proof.
  intros Hr Hp Hs Hl. unfold Discover_BootDevice.
  assert (forall st, path_ok (mkPath st [])) as H0 by (intros st; split; [done|by constructor]).
  destruct (_ || _) eqn:E; [wp_steps; split; [apply quiet_refl|done]|].
  apply orb_false_iff in E as [_ E%Z.ltb_ge].
  eapply (wp_while _ (fun '(node, _, r) s' => quiet s s' /\ path_addr <= node <= path_addr + size /\
      path_ok r) (fun '(node, _, _) _ => path_addr + size - node)).
  - intros [[node b] r] s1 (H1 & Hn & Hok).
    destruct (Z.leb_spec (node + 4) (path_addr + size)).
    + eapply wp_mono; [apply wp_path_step; try done; try lia; by rewrite (quiet_lock s)|].
      intros [[[node' b'] r']|r'] s2 [H2 Hx].
      * destruct Hx as [Hn' Hok']. split; [|lia].
        split; [by eapply quiet_trans|]. split; [lia|done].
      * split; [by eapply quiet_trans|done].
    + wp_steps. done.
  - split; [apply quiet_refl|]. split; [lia|apply H0].
  - unfold FUEL. lia.
Qed.
End AnyDevice.

(** ** The properties of configuration space *)

(** The byte of a function's configuration space that a state holds, behind the legacy
    ports. *)
Definition cfg_byte (init wm w1c : Z -> Z) (s : pci_state) (a : pci_address_t)
    (i : Z) : Z :=
  dbyte (cfg init wm w1c s (config_address a i)) (i mod 4).

(** [size] bytes from [offset] on as a little-endian number. *)
Definition bytes_value (f : Z -> Z) (offset size : Z) : Z :=
  if size =? 1 then f offset
  else if size =? 2 then f offset + 256 * f (offset + 1)
  else f offset + 256 * f (offset + 1) + 65536 * f (offset + 2) + 16777216 * f (offset + 3).

Lemma part_dword_bytes d offset size : 0 <= d < 2 ^ 32 -> access_ok offset size 4096 ->
  part_dword d offset size = bytes_value (fun i => dbyte d (i mod 4)) offset size.
Proof.
  intros Hd Hacc. rewrite part_dword_div by done. destruct Hacc as (Ho & _ & Hs).
  unfold bytes_value, dbyte.
  destruct Hs as [->|[[-> He]|[-> He]]]; cbn [Z.eqb Pos.eqb].
  - done.
  - assert (offset mod 4 = 0 /\ (offset + 1) mod 4 = 1 \/ offset mod 4 = 2 /\ (offset + 1) mod 4 = 3)
      as [[-> ->]|[-> ->]] by divlia.
    + change (2 ^ (8 * 0)) with 1. change (2 ^ (8 * 1)) with 256. change (2 ^ (8 * 2)) with 65536. divlia.
    + change (2 ^ (8 * 2)) with 65536. change (2 ^ (8 * 3)) with 16777216. divlia.
  - assert (offset mod 4 = 0 /\ (offset + 1) mod 4 = 1 /\ (offset + 2) mod 4 = 2 /\
      (offset + 3) mod 4 = 3) as (-> & -> & -> & ->) by divlia.
    change (2 ^ (8 * 0)) with 1. change (2 ^ (8 * 1)) with 256. change (2 ^ (8 * 2)) with 65536.
    change (2 ^ (8 * 3)) with 16777216. change (2 ^ (8 * 4)) with 4294967296. divlia.
Qed.

(** inside one ECAM region every configuration byte has an address of its own in
    the region's window: two accesses to buses the region decodes agree on their address
    only when they agree on bus, device, function and offset. *)
Lemma ecam_pointer_injective r a b i j :
  region_ok r -> addr_ok a -> addr_ok b ->
  start_bus r <= bus a <= end_bus r -> start_bus r <= bus b <= end_bus r ->
  0 <= i < 4096 -> 0 <= j < 4096 ->
  let window := virtual_base r + (end_bus r - start_bus r + 1) * 2 ^ 20 in
  virtual_base r <= ecam_pointer r a i < window /\
  (ecam_pointer r a i = ecam_pointer r b j ->
   bus a = bus b /\ device_ a = device_ b /\ function_ a = function_ b /\ i = j).
Proof.
  intros Hr Ha Hb Ia Ib Hi Hj. cbn zeta.
  destruct (ecam_pointer_offset r a i Hr Ha Ia Hi) as [-> R1].
  destruct (ecam_pointer_offset r b j Hr Hb Ib Hj) as [-> R2].
  split; [lia|]. unfold ecam_offset. destruct Ha, Hb. intros E.
  assert (bus a = bus b) by lia. assert (device_ a = device_ b) by lia.
  assert (function_ a = function_ b) by lia. lia.
Qed.

Section ConfigProperties.
Context (init wm w1c : Z -> Z).
Context (init_range : forall k, 0 <= init k < 2 ^ 32).
Context (wm_range : forall k, 0 <= wm k < 2 ^ 32).

(** through the legacy ports, [pci_config_read] of 1, 2 or 4 aligned bytes returns
    those bytes of the function's 256-byte configuration space, least significant first;
    it changes no byte of any function and gives the lock back. *)
Lemma config_read_bytes a offset size v s :
  legacy s -> addr_ok a -> segment a = 0 -> access_ok offset size 256 ->
  exists s', pci_config_read (mech1 init wm w1c) a offset size (Some v) s =
    Done (PCI_STATUS_SUCCESS, Some (bytes_value (cfg_byte init wm w1c s a) offset size)) s' /\
    legacy s' /\ forall b i, cfg_byte init wm w1c s' b i = cfg_byte init wm w1c s b i.
Proof using init_range wm_range.
  intros Hs Ha Hseg Hacc.
  destruct (wp_inv _ _ _ (wp_read_dword init wm w1c init_range wm_range a offset size v s Hs Ha Hseg Hacc))
    as (r & s' & E & -> & Hm). exists s'. rewrite E.
  assert (access_ok offset size 4096) as Hacc' by (destruct Hacc as (? & ? & ?);
    split; [lia|split; [lia|done]]).
  rewrite part_dword_bytes by (done || by apply dword_range).
  split; [|split; [by eapply moved_legacy|]].
  - do 2 f_equal. f_equal. unfold bytes_value, cfg_byte. destruct Hacc as (H0 & H1 & Hsz).
    assert (forall j, 0 <= j < size -> config_address a (offset + j) = config_address a offset) as Hj.
    { intros j Hj. rewrite <- (config_address_dword a (offset + j)), <- (config_address_dword a offset)
        by (done || lia). f_equal. destruct Hsz as [->|[[-> ?]|[-> ?]]]; divlia. }
    destruct Hsz as [->|[[-> ?]|[-> ?]]]; cbn [Z.eqb Pos.eqb]; [done|by rewrite Hj by lia|].
    by rewrite !Hj by lia.
  - intros b i. unfold cfg_byte. destruct Hm as [_ Hf]. by rewrite Hf.
Qed.

(** Through the legacy ports, [pci_config_write] to a register that keeps what is
    written to it replaces exactly the bytes it covers: every other byte of every
    function of segment 0 stays as it was, also for 1 and 2 byte writes, which rewrite
    the whole dword. *)
Lemma config_write_bytes a offset size value s :
  legacy s -> addr_ok a -> segment a = 0 -> access_ok offset size 256 -> 0 <= value < 2 ^ 32 ->
  wm (config_address a offset) = 2 ^ 32 - 1 ->
  exists s', pci_config_write (mech1 init wm w1c) a offset size value s = Done PCI_STATUS_SUCCESS s' /\
    legacy s' /\ forall b i, addr_ok b -> segment b = 0 -> 0 <= i < 256 ->
      cfg_byte init wm w1c s' b i =
      if bool_decide (b = a /\ offset <= i < offset + size) then dbyte value (i - offset)
      else cfg_byte init wm w1c s b i.
Proof using init_range wm_range.
  intros Hs Ha Hseg Hacc Hv Hkeep.
  destruct (wp_inv _ _ _ (wp_write_dword init wm w1c init_range wm_range a offset size value s
    Hs Ha Hseg Hacc Hv)) as (r & s' & E & -> & Hm). exists s'. rewrite E.
  split; [done|]. split; [by eapply moved_legacy|]. intros b i Hb Hsb Hi. unfold cfg_byte.
  destruct Hm as [_ Hf]. rewrite Hf. unfold cfg_write. destruct Hacc as (H0 & H1 & Hsz).
  destruct (Z.eqb_spec (config_address b i) (config_address a offset)) as [Ek|Ek].
  - apply config_address_inj in Ek as [-> Ed]; [|done|done|congruence|done|lia].
    rewrite <- (config_address_dword a i), Ed, config_address_dword by (done || lia).
    pose proof (dword_range init wm w1c init_range wm_range (pci_trace s) (config_address a offset)) as Rd.
    destruct (Z.eqb_spec size 4) as [->|H4].
    + rewrite keep_all by done. assert (offset mod 4 = 0) by lia.
      rewrite bool_decide_true by (split; [done|divlia]). f_equal. divlia.
    + assert (access_ok offset size 4096) as Hacc' by (split; [lia|split; [lia|done]]).
      rewrite keep_all by (by apply merge_range || done). rewrite merge_dword_byte by (done || divlia).
      destruct (Z.leb_spec (offset mod 4) (i mod 4)), (Z.ltb_spec (i mod 4) (offset mod 4 + size));
        cbn [andb].
      * rewrite bool_decide_true by (split; [done|divlia]). f_equal. divlia.
      * rewrite bool_decide_false by (intros [_ ?]; divlia). done.
      * rewrite bool_decide_false by (intros [_ ?]; divlia). done.
      * rewrite bool_decide_false by (intros [_ ?]; divlia). done.
  - rewrite bool_decide_false; [done|]. intros [-> Hin]. apply Ek.
    rewrite <- (config_address_dword a i), <- (config_address_dword a offset) by (done || lia).
    f_equal. destruct Hsz as [->|[[-> ?]|[-> ?]]]; divlia.
Qed.

(** C29: through the configuration ports (no ECAM region), with registers as the PCI specification
    describes them, [pci_read_bar] with a probe returns. When it does not succeed no dword of
    configuration space has changed; when it does, every dword is as before, the BARs and the
    command register included, but for the set bits of the function's status register that a one
    clears: these are lost. The size is [2 ^ n] for a BAR that decodes [2 ^ n] bytes, one of 64
    bits included. *)
Theorem read_bar_restores a i s :
  legacy s -> addr_ok a -> segment a = 0 -> 0 <= i < 6 -> documented wm w1c a ->
  exists r s', pci_read_bar (mech1 init wm w1c) a i true s = Done r s' /\ legacy s' /\
    (forall k, cfg init wm w1c s' k =
       if (r.1 =? PCI_STATUS_SUCCESS) && (k =? config_address a 4)
       then cfg init wm w1c s k &&& Z.lnot (w1c k) else cfg init wm w1c s k) /\
    forall bar n, r = (PCI_STATUS_SUCCESS, Some bar) -> decodes init wm w1c a s i bar n ->
      bar_size bar = 2 ^ n.
Proof using init_range wm_range.
  intros Hs Ha Hseg Hi Hdoc.
  destruct (wp_inv _ _ _ (wp_read_bar init wm w1c init_range wm_range a s Ha Hseg Hs i s Hi Hdoc
    ltac:(split; [by destruct s|done]))) as (r & s' & E & Hm & Hb).
  exists r, s'. split; [done|]. split; [by eapply moved_legacy|]. split; [|done].
  intros k. destruct Hm as [_ Hm]. rewrite Hm. by destruct (r.1 =? PCI_STATUS_SUCCESS).
Qed.

(** [pci_find_capability] returns whatever the capability list looks like, loops
    included: it finds the first of the first 48 entries with the wanted identifier, and
    answers "not found" when the function has no list or none of them has it. *)
Lemma capability_first a id s :
  legacy s -> addr_ok a -> segment a = 0 ->
  exists r s', pci_find_capability (mech1 init wm w1c) a id s = Done r s' /\
    (forall k, cfg init wm w1c s' k = cfg init wm w1c s k) /\
    if has_caps init wm w1c a s then cap_result init wm w1c a s (cap_first init wm w1c a s) id r
    else r = (PCI_STATUS_NOT_FOUND, None).
Proof using init_range wm_range.
  intros Hs Ha Hseg.
  destruct (wp_inv _ _ _ (wp_find_capability init wm w1c init_range wm_range a s Ha Hseg Hs id s
    ltac:(split; [by destruct s|done]))) as (r & s' & E & Hm & Hr).
  exists r, s'. split; [done|]. split; [apply Hm|done].
Qed.
End ConfigProperties.

(** [Discover_BootDevice] stays inside the device path it is given and terminates,
    whatever the path's bytes say and whatever the hardware answers; it collects at most
    32 devices, all of them present, and changes nothing but the hardware's history. *)
Lemma Discover_BootDevice_safe dev mem path_addr size s :
  readable mem path_addr size -> 0 <= path_addr -> size < 2 ^ 31 -> legacy_config_lock s = false ->
  exists r s', Discover_BootDevice dev mem path_addr size s = Done r s' /\
    quiet s s' /\ path_ok r.
Proof.
  intros H1 H2 H3 H4.
  destruct (wp_inv _ _ _ (wp_Discover_BootDevice dev mem path_addr size s H1 H2 H3 H4))
    as (r & s' & E & R). by exists r, s'.
Qed.

(** ** Witnesses *)

Definition sample_region : pci_ecam_region_t := mkRegion 0xE0000000 PCI_BASE 0 16 31.
Definition sample_addr : pci_address_t := mkAddr 0 17 3 1.

Lemma ecam_pointer_injective_witness :
  let b := mkAddr 0 17 3 2 in
  ecam_pointer sample_region sample_addr 8 <> ecam_pointer sample_region b 8.
Proof.
  cbn zeta. intros E.
  apply (ecam_pointer_injective sample_region sample_addr (mkAddr 0 17 3 2) 8 8) in E as (_ & _ & E & _);
    [discriminate E|constructor; vm_compute; intuition discriminate..].
Defined.

Definition sample_pci : pci_state :=
  mkPci false 0 (mkDevices false false false 0) [] false []
    (mkPg (mkFa [] 0 0 0 0 false) ∅ 0 0 0 []) (mkAcpi 0).

Lemma sample_addr_ok : addr_ok sample_addr.
Proof. constructor; vm_compute; intuition discriminate. Qed.

(** A device whose registers keep 32 bits of everything, with an MSI capability behind a
    power-management one, and a loop. *)
Definition sample_init (k : Z) : Z :=
  if k =? config_address sample_addr 4 then 0x00100007
  else if k =? config_address sample_addr 0x34 then 0x40
  else if k =? config_address sample_addr 0x40 then 0x5001
  else if k =? config_address sample_addr 0x50 then 0x4005
  else if k =? config_address sample_addr 0x10 then 0xFEB00000
  else 0.
Lemma sample_init_range k : 0 <= sample_init k < 2 ^ 32.
Proof. unfold sample_init. repeat case_match; lia. Qed.
Definition all_bits (_ : Z) : Z := 2 ^ 32 - 1.
Definition no_bits (_ : Z) : Z := 0.
Lemma all_bits_range k : 0 <= all_bits k < 2 ^ 32.
Proof. unfold all_bits. lia. Qed.

Lemma config_read_bytes_witness : exists s',
  pci_config_read (mech1 sample_init all_bits no_bits) sample_addr 6 2 (Some 0) sample_pci =
    Done (PCI_STATUS_SUCCESS, Some 0x10) s' /\ legacy s' /\
  forall b i, cfg_byte sample_init all_bits no_bits s' b i =
              cfg_byte sample_init all_bits no_bits sample_pci b i.
Proof.
  apply (config_read_bytes sample_init all_bits no_bits sample_init_range all_bits_range
    sample_addr 6 2 0 sample_pci); [split; reflexivity|exact sample_addr_ok|reflexivity|].
  split; [lia|]. split; [lia|]. right. left. split; reflexivity.
Defined.

Lemma config_write_bytes_witness : exists s',
  pci_config_write (mech1 sample_init all_bits no_bits) sample_addr 5 1 0xAB sample_pci =
    Done PCI_STATUS_SUCCESS s' /\ legacy s' /\
  forall b i, addr_ok b -> segment b = 0 -> 0 <= i < 256 ->
    cfg_byte sample_init all_bits no_bits s' b i =
    if bool_decide (b = sample_addr /\ 5 <= i < 5 + 1) then dbyte 0xAB (i - 5)
    else cfg_byte sample_init all_bits no_bits sample_pci b i.
Proof.
  apply (config_write_bytes sample_init all_bits no_bits sample_init_range all_bits_range
    sample_addr 5 1 0xAB sample_pci); [split; reflexivity|exact sample_addr_ok|reflexivity| |lia|].
  - split; [lia|]. split; [lia|]. left. reflexivity.
  - reflexivity.
Defined.

(** A memory BAR of 16 KiB, and a status register with an error bit that a one clears. *)
Definition sample_wm (k : Z) : Z :=
  if k =? config_address sample_addr 4 then 0x0407
  else if k =? config_address sample_addr 0x10 then 0xFFFFC000
  else if k =? config_address sample_addr 0x14 then 0
  else 0xFFFFFFFF.
Definition sample_w1c (k : Z) : Z := if k =? config_address sample_addr 4 then 0xF9000000 else 0.
Definition failed_init (k : Z) : Z :=
  if k =? config_address sample_addr 4 then 0x80100007 else sample_init k.
Lemma failed_init_range k : 0 <= failed_init k < 2 ^ 32.
Proof. unfold failed_init. case_match; [lia|apply sample_init_range]. Qed.
Lemma sample_wm_range k : 0 <= sample_wm k < 2 ^ 32.
Proof. unfold sample_wm. repeat case_match; lia. Qed.
Lemma sample_documented : documented sample_wm sample_w1c sample_addr.
Proof.
  split; [reflexivity|]. split; [reflexivity|]. intros j Hj.
  assert (j = 0 \/ j = 1 \/ j = 2 \/ j = 3 \/ j = 4 \/ j = 5) as [->|[->|[->|[->|[->| ->]]]]] by lia; reflexivity.
Qed.

Lemma read_bar_restores_witness : exists s',
  pci_read_bar (mech1 failed_init sample_wm sample_w1c) sample_addr 0 true sample_pci =
    Done (PCI_STATUS_SUCCESS, Some (mkBar 0xFEB00000 (2 ^ 14) 0 0 false 0)) s' /\
  legacy s' /\
  (forall k, cfg failed_init sample_wm sample_w1c s' k =
     if k =? config_address sample_addr 4 then 0x00100007
     else cfg failed_init sample_wm sample_w1c sample_pci k).
Proof.
  destruct (read_bar_restores failed_init sample_wm sample_w1c failed_init_range sample_wm_range
    sample_addr 0 sample_pci) as (r & s' & E & Hl & Hk & Hs);
    [split; reflexivity|exact sample_addr_ok|reflexivity|lia|exact sample_documented|].
  assert (exists b, r = (PCI_STATUS_SUCCESS, Some (mkBar 0xFEB00000 b 0 0 false 0))) as [b ->].
  { vm_compute in E. injection E as <- _. eexists. reflexivity. }
  exists s'. rewrite E. split; [|split; [exact Hl|]].
  - do 2 f_equal. f_equal. f_equal. apply (Hs _ 14 eq_refl).
    split; [split; [discriminate|reflexivity]|]. split; reflexivity.
  - intros k. rewrite Hk. destruct (Z.eqb_spec k (config_address sample_addr 4)) as [->|]; reflexivity.
Defined.

Lemma capability_first_witness : exists r s',
  pci_find_capability (mech1 sample_init all_bits no_bits) sample_addr 5 sample_pci = Done r s' /\
  r = (PCI_STATUS_SUCCESS, Some 0x50).
Proof.
  destruct (capability_first sample_init all_bits no_bits sample_init_range all_bits_range
    sample_addr 5 sample_pci) as (r & s' & E & _ & _);
    [split; reflexivity|exact sample_addr_ok|reflexivity|].
  exists r, s'. split; [exact E|]. vm_compute in E. injection E as <- _. reflexivity.
Defined.

(** A path of an ACPI node, a PCI node, and a node that claims to be longer than the path. *)
Definition sample_path : Z -> option Z :=
  regions [(0x9000, 22, [2; 1; 12; 0; 0; 0; 0; 0; 0; 0; 0; 0; 1; 1; 6; 0; 1; 3; 3; 1; 200; 0])].

Lemma Discover_BootDevice_safe_witness : exists r s',
  Discover_BootDevice (mech1 sample_init all_bits no_bits) sample_path 0x9000 22 sample_pci = Done r s' /\
  quiet sample_pci s' /\ path_ok r.
Proof.
  apply (Discover_BootDevice_safe (mech1 sample_init all_bits no_bits) sample_path 0x9000 22 sample_pci);
    [apply readableb_ok; vm_compute; reflexivity|lia|lia|reflexivity].
Defined.
