(* ===== verification/PciNames.v ===== *)
(** * Names of PCI vendors and devices ([drivers/pci/pci_names.c])

    The tables are generated data ([pci_names_data.inc]): parameters here. A name is
    its offset in [pci_name_data], [None] the "Unknown ..." string. *)
From S2P Require Import KPrelude.

Record PCI_VENDOR_NAME := mkVendorName { vn_vendor_id : Z; vn_name_offset : Z }.
Record PCI_DEVICE_NAME := mkDeviceName {
  dn_vendor_id : Z;
  dn_device_id : Z;
  dn_name_offset : Z
}.

Section Search.
Context {S A : Type} (candidate : A -> Z) (table : list A).

(** The loop of both functions: the entry whose key is [wanted] between [low] and [high]. *)
Definition search (wanted low high : Z) : M S (option A) :=
  while FUEL (fun '(low, high) =>
    if low <? high then
      let middle := u64 (low + ((high - low) >>> 1)) in
      entry ← of_option (array_get table middle);
      if candidate entry <? wanted then mret (inl (u64 (middle + 1), high))
      else if candidate entry >? wanted then mret (inl (low, middle))
      else mret (inr (Some entry))
    else mret (inr None)) (low, high).
End Search.

Section Names.
Context {S : Type}.
Context (pci_vendor_names : list PCI_VENDOR_NAME) (pci_device_names : list PCI_DEVICE_NAME).

Definition PCI_vendor_name (vendor_id : Z) : M S (option Z) :=
  r ← search vn_vendor_id pci_vendor_names vendor_id 0 (Z.of_nat (length pci_vendor_names));
  mret (vn_name_offset <$> r).

Definition device_key (d : PCI_DEVICE_NAME) : Z :=
  u32 (dn_vendor_id d <<< 16) ||| dn_device_id d.
Definition PCI_device_name (vendor_id device_id : Z) : M S (option Z) :=
  let requested_id := u32 (vendor_id <<< 16) ||| device_id in
  r ← search device_key pci_device_names requested_id 0 (Z.of_nat (length pci_device_names));
  mret (dn_name_offset <$> r).
End Names.

(** ** Correctness of the search *)

Section SearchProofs.
Context {S A : Type} (candidate : A -> Z) (table : list A).

(** The keys ascend strictly. *)
Definition ascending : Prop := forall i j x y, (i < j)%nat ->
  table !! i = Some x -> table !! j = Some y -> candidate x < candidate y.

Definition found (wanted : Z) (r : option A) : Prop :=
  match r with
  | Some x => x ∈ table /\ candidate x = wanted
  | None => forall x, x ∈ table -> candidate x <> wanted
  end.

Lemma wp_search wanted (s : S) :
  ascending -> Z.of_nat (length table) < 2 ^ 63 ->
  wp (search candidate table wanted 0 (Z.of_nat (length table)))
     (fun r s' => s' = s /\ found wanted r) s.
Proof.
  intros Hasc Hlen. unfold search. set (n := Z.of_nat (length table)) in *.
  eapply (wp_while _ (fun '(low, high) s' => s' = s /\ 0 <= low /\ low <= high /\ high <= n /\
      forall i x, table !! i = Some x -> candidate x = wanted -> low <= Z.of_nat i < high)
    (fun '(low, high) _ => high - low)).
  - intros [low high] s1 (-> & Hl & Hlh & Hh & Hin). destruct (Z.ltb_spec low high).
    + assert (0 <= (high - low) >>> 1 < high - low) as Hm
        by (rewrite shiftr_div by lia; change (2 ^ 1) with 2; divlia).
      set (half := (high - low) >>> 1) in *. clearbody half. rewrite (u64_id (low + half)) by lia.
      destruct (array_get_Some table (low + half)) as (x & Ex & Lx); [lia|].
      wp_step. apply wp_of_option. exists x. split; [done|].
      destruct (Z.ltb_spec (candidate x) wanted).
      { wp_steps. rewrite u64_id by lia. split; [|lia]. split; [done|].
        split; [lia|]. split; [lia|]. split; [lia|]. intros i y Ly Ey. specialize (Hin i y Ly Ey).
        destruct (Z.lt_ge_cases (low + half) (Z.of_nat i)); [lia|]. exfalso.
        destruct (decide (i = Z.to_nat (low + half))) as [->|]; [simplify_eq; lia|].
        pose proof (Hasc i (Z.to_nat (low + half)) y x ltac:(lia) Ly Lx). lia. }
      destruct (Z.gtb_spec (candidate x) wanted).
      { wp_steps. split; [|lia]. split; [done|].
        split; [lia|]. split; [lia|]. split; [lia|]. intros i y Ly Ey. specialize (Hin i y Ly Ey).
        destruct (Z.lt_ge_cases (Z.of_nat i) (low + half)); [lia|]. exfalso.
        destruct (decide (i = Z.to_nat (low + half))) as [->|]; [simplify_eq; lia|].
        pose proof (Hasc (Z.to_nat (low + half)) i x y ltac:(lia) Lx Ly). lia. }
      wp_steps. split; [done|]. split; [|lia]. by eapply list_elem_of_lookup_2.
    + wp_steps. split; [done|]. intros x Hx Ex.
      apply list_elem_of_lookup in Hx as [i Li]. specialize (Hin i x Li Ex). lia.
  - split; [done|]. split; [lia|]. split; [lia|]. split; [lia|]. intros i x Li _.
    apply lookup_lt_Some in Li. lia.
  - unfold FUEL. lia.
Qed.
End SearchProofs.

(** on a table sorted by vendor and device, [PCI_device_name] finds the name of
    exactly the device asked for: it returns the offset of the entry with that vendor and
    that device, and the "unknown" name only when the table has no such entry. *)
Lemma PCI_device_name_found {S} table vendor device (s : S) :
  ascending device_key table -> Z.of_nat (length table) < 2 ^ 63 ->
  Forall (fun d => 0 <= dn_vendor_id d < 2 ^ 16 /\ 0 <= dn_device_id d < 2 ^ 16) table ->
  0 <= vendor < 2 ^ 16 -> 0 <= device < 2 ^ 16 ->
  exists r, PCI_device_name table vendor device s = Done r s /\
    match r with
    | Some o => mkDeviceName vendor device o ∈ table
    | None => forall o, mkDeviceName vendor device o ∉ table
    end.
Proof.
  intros Ha Hl Hall Hv Hd. unfold PCI_device_name.
  assert (forall v d, 0 <= v < 2 ^ 16 -> 0 <= d < 2 ^ 16 ->
    u32 (v <<< 16) ||| d = v * 2 ^ 16 + d) as Hkey.
  { intros v d H1 H2. rewrite u32_id by (rewrite shiftl_mul by lia; lia).
    by apply lor_shiftl_add. }
  destruct (wp_inv _ _ _ (wp_search device_key table (u32 (vendor <<< 16) ||| device) s Ha Hl))
    as (r & s' & E & -> & Hf).
  exists (dn_name_offset <$> r). unfold mbind, M_bind. rewrite E. split; [done|].
  rewrite Forall_forall in Hall. destruct r as [[v d o]|]; cbn in *.
  - destruct Hf as [Hin Ek]. pose proof (Hall _ Hin) as [H1 H2]. unfold device_key in Ek.
    cbn in *. rewrite !Hkey in Ek by done. assert (v = vendor) by lia.
    assert (d = device) by lia. by subst.
  - intros o Hin. by apply (Hf _ Hin).
Qed.

Definition sample_names : list PCI_DEVICE_NAME :=
  [mkDeviceName 0x1022 0x2000 0; mkDeviceName 0x8086 0x100E 25; mkDeviceName 0x8086 0x7010 60].

Lemma PCI_device_name_found_witness : exists r,
  PCI_device_name sample_names 0x8086 0x100E () = Done r () /\ r = Some 25.
Proof.
  destruct (PCI_device_name_found sample_names 0x8086 0x100E ()) as (r & E & _).
  - intros i j x y Hij Hx Hy.
    destruct i as [|[|[|i]]], j as [|[|[|j]]]; cbn in Hx, Hy; try lia; try discriminate Hx;
      try discriminate Hy; injection Hx as <-; injection Hy as <-; vm_compute; reflexivity.
  - vm_compute. reflexivity.
  - repeat (constructor; [vm_compute; intuition discriminate|]). constructor.
  - lia.
  - lia.
  - exists r. split; [exact E|]. vm_compute in E. injection E as <-. reflexivity.
Defined.
