(* ===== verification/Ata.v ===== *)
(** * ATA drives ([drivers/storage/ide/ata.c], [ataid.c], [atahlp.c])

    The state is the drive an operation is called on, the channel it points to, and the
    history of port accesses; [None] is a null pointer. Buffers are lists of bytes. *)
From S2P Require Import KPrelude Spinlock PortIO.

Definition SUCCESS := 0.
Definition ERR_INVALID_COUNT := 1.
Definition ERR_INVALID_BUFFER := 2.
Definition ERR_INVALID_TYPE := 3.
Definition ERR_IO := 4.

Definition ATA_SR_ERR := 0x01.
Definition ATA_SR_DRQ := 0x08.
Definition ATA_SR_DF := 0x20.
Definition ATA_SR_BSY := 0x80.
Definition ATA_CTL_NIEN := 0x02.
Definition ATA_CTL_SRST := 0x04.
Definition ATA_CMD_IDENTIFY := 0xEC.
Definition ATA_CMD_IDENTIFY_PACKET := 0xA1.
Definition ATA_REG_DATA := 0.
Definition ATA_REG_FEATURES := 1.
Definition ATA_REG_SECTOR_COUNT := 2.
Definition ATA_REG_LBA_LOW := 3.
Definition ATA_REG_LBA_MID := 4.
Definition ATA_REG_LBA_HIGH := 5.
Definition ATA_REG_DRIVE_HEAD := 6.
Definition ATA_REG_STATUS := 7.
Definition ATA_REG_COMMAND := 7.
Definition ATA_CMD_FLUSH := 0xE7.
Definition ATA_CMD_FLUSH_EXT := 0xEA.
Definition ATA_CMD_WRITE := 0x30.
Definition ATA_CMD_WRITE_EXT := 0x34.
Definition ATA_CMD_READ := 0x20.
Definition ATA_CMD_READ_EXT := 0x24.

Inductive ata_probe_t :=
| ATA_PROBE_NONE
| ATA_PROBE_ATA
| ATA_PROBE_ATAPI
| ATA_PROBE_TIMEOUT
| ATA_PROBE_DEVICE_FAULT
| ATA_PROBE_PROTOCOL_ERROR.
Inductive ata_device_type_t := ATA_DEVICE_NONE | ATA_DEVICE_ATA | ATA_DEVICE_ATAPI.
Inductive ata_addressing_mode_t :=
| ATA_ADDRESSING_INVALID
| ATA_ADDRESSING_LBA28
| ATA_ADDRESSING_LBA48.
#[export] Instance ata_device_type_eq_dec : EqDecision ata_device_type_t.
Proof. solve_decision. Defined.
#[export] Instance ata_probe_eq_dec : EqDecision ata_probe_t.
Proof. solve_decision. Defined.
#[export] Instance ata_mode_eq_dec : EqDecision ata_addressing_mode_t.
Proof. solve_decision. Defined.

Record ata_channel_t := mkChannel { io_base : Z; control_port : Z; channel_lock : bool }.

Record ata_drive_t := mkDrive {
  slave : bool;
  type_ : ata_device_type_t;
  supports_lba28 : bool;
  supports_lba48 : bool;
  sector_count : Z;
  model : list Z;
  firmware : list Z;
  serial : list Z;
  ata_status : Z
}.

Record ata_state := mkAta {
  channel : ata_channel_t;
  has_channel : bool;
  drive : ata_drive_t;
  ata_trace : list event
}.

Definition set_channel_lock (b : bool) (s : ata_state) : ata_state :=
  mkAta (mkChannel (io_base (channel s)) (control_port (channel s)) b) (has_channel s) (drive s)
        (ata_trace s).
Definition set_drive (d : ata_drive_t) (s : ata_state) : ata_state :=
  mkAta (channel s) (has_channel s) d (ata_trace s).
Definition set_ata_trace (t : list event) (s : ata_state) : ata_state :=
  mkAta (channel s) (has_channel s) (drive s) t.
Definition set_status (v : Z) (s : ata_state) : ata_state :=
  let d := drive s in
  set_drive (mkDrive (slave d) (type_ d) (supports_lba28 d) (supports_lba48 d) (sector_count d)
               (model d) (firmware d) (serial d) v) s.

#[export] Instance channel_Lock : Lock ata_state.
Proof.
  refine {| locked s := channel_lock (channel s); set_locked := set_channel_lock |};
    [done | done | by intros [[]]].
Defined.
#[export] Instance ata_IO : IO ata_state.
Proof.
  refine {| trace := ata_trace; set_trace := set_ata_trace |}; [done | done | by intros []].
Defined.

(** [status & mask] as a truth value. *)
Definition flag (status mask : Z) : bool := negb (status &&& mask =? 0).

Section Ata.
Context (dev : device).

(** A polling loop: at most a million turns; [None] when none of them answered. *)
Definition poll {A} (body : M ata_state (option A)) : M ata_state (option A) :=
  while FUEL (fun timeout =>
    if timeout <? 1000000 then
      r ← body;
      match r with
      | Some a => mret (inr (Some a))
      | None => mret (inl (timeout + 1))
      end
    else mret (inr None)) 0.

Definition ata_400ns_delay (control_port : Z) : M ata_state unit :=
  inb dev control_port;; inb dev control_port;; inb dev control_port;;
  inb dev control_port;; mret ().

Definition ata_wait_not_busy (io_base : Z) : M ata_state bool :=
  r ← poll (status ← inb dev (io_base + ATA_REG_STATUS);
            mret (if (status =? 0) || (status =? 0xFF) then Some false
                  else if negb (flag status ATA_SR_BSY) then Some true else None));
  mret (default false r).

(** The drive is not null where it is called. *)
Definition ata_poll_drq : M ata_state bool :=
  has ← gets has_channel;
  if negb has then mret false
  else
    c ← gets channel;
    r ← poll (status ← inb dev (io_base c + ATA_REG_STATUS);
              mret (if (status =? 0) || (status =? 0xFF) then Some false
                    else if negb (flag status ATA_SR_BSY) then
                      if flag status (ATA_SR_ERR ||| ATA_SR_DF) then Some false
                      else if flag status ATA_SR_DRQ then Some true else None
                    else None));
    mret (default false r).

Definition ata_reset_channel (control_port : Z) : M ata_state bool :=
  outb control_port (ATA_CTL_NIEN ||| ATA_CTL_SRST);;
  ata_400ns_delay control_port;;
  outb control_port ATA_CTL_NIEN;;
  ata_400ns_delay control_port;;
  r ← poll (status ← inb dev control_port;
            mret (if (status =? 0) || (status =? 0xFF) then Some false
                  else if negb (flag status ATA_SR_BSY) then Some true else None));
  mret (default false r).

Definition ata_select_drive (io_base control_port : Z) (slave : bool) : M ata_state unit :=
  outb (io_base + ATA_REG_DRIVE_HEAD) (if slave then 0xB0 else 0xA0);;
  ata_400ns_delay control_port.

Definition slave_bit (d : ata_drive_t) : Z := if slave d then 0x10 else 0.

Definition ata_configure_lba (lba count : Z) : M ata_state ata_addressing_mode_t :=
  d ← gets drive;
  has ← gets has_channel;
  c ← gets channel;
  if negb has || negb (bool_decide (type_ d = ATA_DEVICE_ATA)) then mret ATA_ADDRESSING_INVALID
  else if (sector_count d <=? lba) || (1 <<< 48 <=? lba) then mret ATA_ADDRESSING_INVALID
  else
    let io := io_base c in
    ready ← ata_wait_not_busy io;
    if negb (ready : bool) then mret ATA_ADDRESSING_INVALID
    else if supports_lba28 d && (lba <? 1 <<< 28) && (count <=? (1 <<< 28) - lba) then
      outb (io + ATA_REG_DRIVE_HEAD) (0xE0 ||| slave_bit d ||| u8 ((lba >>> 24) &&& 0x0F));;
      ata_400ns_delay (control_port c);;
      outb (io + ATA_REG_FEATURES) 0;;
      outb (io + ATA_REG_SECTOR_COUNT) count;;
      outb (io + ATA_REG_LBA_LOW) (u8 lba);;
      outb (io + ATA_REG_LBA_MID) (u8 (lba >>> 8));;
      outb (io + ATA_REG_LBA_HIGH) (u8 (lba >>> 16));;
      mret ATA_ADDRESSING_LBA28
    else if negb (supports_lba48 d) then mret ATA_ADDRESSING_INVALID
    else
      outb (io + ATA_REG_DRIVE_HEAD) (0xE0 ||| slave_bit d);;
      ata_400ns_delay (control_port c);;
      outb (io + ATA_REG_FEATURES) 0;;
      outb (io + ATA_REG_SECTOR_COUNT) 0;;
      outb (io + ATA_REG_LBA_LOW) (u8 (lba >>> 24));;
      outb (io + ATA_REG_LBA_MID) (u8 (lba >>> 32));;
      outb (io + ATA_REG_LBA_HIGH) (u8 (lba >>> 40));;
      outb (io + ATA_REG_FEATURES) 0;;
      outb (io + ATA_REG_SECTOR_COUNT) count;;
      outb (io + ATA_REG_LBA_LOW) (u8 lba);;
      outb (io + ATA_REG_LBA_MID) (u8 (lba >>> 8));;
      outb (io + ATA_REG_LBA_HIGH) (u8 (lba >>> 16));;
      mret ATA_ADDRESSING_LBA48.

(** ** Transfers

    The blocks behind [spin_lock] answer [false] where the code jumps to [io_error]. *)

(** [inb(io + ATA_REG_STATUS)] without error or device fault. *)
Definition status_good (io : Z) : M ata_state bool :=
  status ← inb dev (io + ATA_REG_STATUS);
  mret (negb (flag status (ATA_SR_ERR ||| ATA_SR_DF))).

(** [a && b] of two checks: the second is made when the first succeeds. *)
Definition and_then (a b : M ata_state bool) : M ata_state bool :=
  a ≫= fun ok : bool => if ok then b else mret false.

(** The sectors, one after the other, until [body] answers [false]. *)
Definition for_sectors {A} (count : Z) (body : A -> M ata_state (bool * A)) (a : A)
    : M ata_state (bool * A) :=
  for_ 0 count (fun _ '(ok, a) => if (ok : bool) then body a else mret (false, a)) (true, a).

Definition write_sector (bytes : list Z) (at_ : Z) : M ata_state (bool * Z) :=
  c ← gets channel;
  ata_poll_drq ≫= fun ok : bool =>
  if negb ok then mret (false, at_)
  else
    at_ ← for_ 0 256 (fun _ at_ =>
      b0 ← of_option (array_get bytes at_);
      b1 ← of_option (array_get bytes (at_ + 1));
      outw (io_base c + ATA_REG_DATA) (b0 ||| (b1 <<< 8));;
      mret (at_ + 2)) at_;
    ata_400ns_delay (control_port c);;
    mret (true, at_).

Definition read_sector (p : list Z * Z) : M ata_state (bool * (list Z * Z)) :=
  c ← gets channel;
  ata_poll_drq ≫= fun ok : bool =>
  if negb ok then mret (false, p)
  else
    p ← for_ 0 256 (fun _ '(bytes, at_) =>
      value ← inw dev (io_base c + ATA_REG_DATA);
      bytes ← of_option (array_set bytes at_ (u8 value));
      bytes ← of_option (array_set bytes (at_ + 1) (u8 (value >>> 8)));
      mret (bytes, at_ + 2)) p;
    ata_400ns_delay (control_port c);;
    mret (true, p).

(** The checks both transfers begin with; [None] when they pass. *)
Definition transfer_error (s : ata_state) (lba count : Z) (null_buffer : bool) : option Z :=
  let d := drive s in
  if negb (has_channel s) || negb (bool_decide (type_ d = ATA_DEVICE_ATA))
  then Some ERR_INVALID_TYPE
  else if null_buffer then Some ERR_INVALID_BUFFER
  else if (count =? 0) || (sector_count d <=? lba) || (count >? sector_count d - lba)
  then Some ERR_INVALID_COUNT
  else None.

Definition finish (ok : bool) : M ata_state unit :=
  modify (set_status (if ok then SUCCESS else ERR_IO));; spin_unlock.

Definition command (mode : ata_addressing_mode_t) (ext plain : Z) : M ata_state unit :=
  c ← gets channel;
  outb (io_base c + ATA_REG_COMMAND)
       (if bool_decide (mode = ATA_ADDRESSING_LBA48) then ext else plain).

Definition ata_write_body (lba : Z) (bytes : list Z) (count : Z) : M ata_state bool :=
  c ← gets channel;
  let io := io_base c in
  mode ← ata_configure_lba lba count;
  if bool_decide (mode = ATA_ADDRESSING_INVALID) then mret false
  else
    command mode ATA_CMD_WRITE_EXT ATA_CMD_WRITE;;
    '(ok, _) ← for_sectors count (write_sector bytes) 0;
    if negb (ok : bool) then mret false
    else
      and_then (ata_wait_not_busy io)
        (and_then (status_good io)
           (command mode ATA_CMD_FLUSH_EXT ATA_CMD_FLUSH;;
            and_then (ata_wait_not_busy io) (status_good io))).

Definition ata_write (lba : Z) (buffer : option (list Z)) (count : Z) : M ata_state unit :=
  err ← gets (fun s => transfer_error s lba count (bool_decide (buffer = None)));
  match err, buffer with
  | Some e, _ => modify (set_status e)
  | None, None => mret ()
  | None, Some bytes =>
      spin_lock;;
      ok ← ata_write_body lba bytes count;
      finish ok
  end.

Definition ata_read_body (lba : Z) (bytes : list Z) (count : Z) : M ata_state (bool * list Z) :=
  c ← gets channel;
  let io := io_base c in
  mode ← ata_configure_lba lba count;
  if bool_decide (mode = ATA_ADDRESSING_INVALID) then mret (false, bytes)
  else
    command mode ATA_CMD_READ_EXT ATA_CMD_READ;;
    '(ok, (bytes, _)) ← for_sectors count read_sector (bytes, 0);
    if negb (ok : bool) then mret (false, bytes)
    else
      ok ← and_then (ata_wait_not_busy io) (status_good io);
      mret (ok, bytes).

(** It returns the buffer as it leaves it. *)
Definition ata_read (lba : Z) (buffer : option (list Z)) (count : Z)
    : M ata_state (option (list Z)) :=
  err ← gets (fun s => transfer_error s lba count (bool_decide (buffer = None)));
  match err, buffer with
  | Some e, _ => modify (set_status e);; mret buffer
  | None, None => mret None
  | None, Some bytes =>
      spin_lock;;
      '(ok, bytes) ← ata_read_body lba bytes count;
      finish ok;;
      mret (Some bytes)
  end.
End Ata.

(** ** Identification ([ataid.c]) *)

Section AtaIdentify.
Context (dev : device).

(** [dst[i]] for the identify words: the high byte of a word comes first. *)
Definition identify_char (identify : list Z) (first_word i : Z) : option Z :=
  word ← array_get identify (first_word + i / 2);
  Some (if i &&& 1 =? 0 then u8 (word >>> 8) else u8 (word &&& 0xFF)).

(** [dst] is the array, of [dst_size] bytes; it returns the array as it leaves it. *)
Definition ata_copy_string (dst : list Z) (dst_size : Z) (identify : list Z)
    (first_word word_count : Z) : M ata_state (list Z) :=
  let length := u32 (word_count <<< 1) in
  let length := if dst_size <=? length then u32 (dst_size - 1) else length in
  dst ← for_ 0 length (fun i dst =>
    c ← of_option (identify_char identify first_word i);
    of_option (array_set dst i c)) dst;
  length ← while FUEL (fun length =>
    if length >? 0 then
      c ← of_option (array_get dst (length - 1));
      if (c =? 32) || (c =? 0) then mret (inl (length - 1)) else mret (inr length)
    else mret (inr length)) length;
  of_option (array_set dst length 0).

(** The status once the drive is no longer busy: [None] after a timeout, [Some None] when
    no drive answers. *)
Definition wait_status (io : Z) : M ata_state (option (option Z)) :=
  poll (status ← inb dev (io + ATA_REG_STATUS);
        mret (if (status =? 0) || (status =? 0xFF) then Some None
              else if flag status ATA_SR_BSY then None else Some (Some status))).

(** The commands up to the data phase: what kind of device has its data ready, or the
    result to leave with. *)
Definition identify_command (io : Z) : M ata_state (ata_device_type_t + ata_probe_t) :=
  outb (io + ATA_REG_COMMAND) ATA_CMD_IDENTIFY;;
  r ← wait_status io;
  match r with
  | None => mret (inr ATA_PROBE_TIMEOUT)
  | Some None => mret (inr ATA_PROBE_NONE)
  | Some (Some status) =>
      if flag status ATA_SR_DF then mret (inr ATA_PROBE_DEVICE_FAULT)
      else if flag status ATA_SR_ERR then
        signature_mid ← inb dev (io + ATA_REG_LBA_MID);
        signature_high ← inb dev (io + ATA_REG_LBA_HIGH);
        if negb ((signature_mid =? 0x14) && (signature_high =? 0xEB)
                 || (signature_mid =? 0x69) && (signature_high =? 0x96))
        then mret (inr ATA_PROBE_PROTOCOL_ERROR)
        else
          outb (io + ATA_REG_COMMAND) ATA_CMD_IDENTIFY_PACKET;;
          r ← wait_status io;
          match r with
          | None => mret (inr ATA_PROBE_TIMEOUT)
          | Some None => mret (inr ATA_PROBE_NONE)
          | Some (Some status) =>
              if flag status ATA_SR_DF then mret (inr ATA_PROBE_DEVICE_FAULT)
              else if flag status ATA_SR_ERR || negb (flag status ATA_SR_DRQ)
              then mret (inr ATA_PROBE_PROTOCOL_ERROR)
              else mret (inl ATA_DEVICE_ATAPI)
          end
      else if negb (flag status ATA_SR_DRQ) then mret (inr ATA_PROBE_PROTOCOL_ERROR)
      else mret (inl ATA_DEVICE_ATA)
  end.

Definition read_words (io : Z) : M ata_state (list Z) :=
  for_ 0 256 (fun _ words => w ← inw dev (io + ATA_REG_DATA); mret (words ++ [w])) [].

Definition word_at (words : list Z) (i : nat) : Z := default 0 (words !! i).

(** The capacity that the identify words announce. *)
Definition lba28_word (words : list Z) : bool := flag (word_at words 49) (1 <<< 9).
Definition lba48_word (words : list Z) : bool :=
  (word_at words 83 &&& 0xC000 =? 0x4000) && flag (word_at words 83) (1 <<< 10).
Definition announced_sectors (words : list Z) : Z :=
  let n := if lba48_word words then
             word_at words 100 ||| (word_at words 101 <<< 16) ||| (word_at words 102 <<< 32)
             ||| (word_at words 103 <<< 48)
           else 0 in
  if (n =? 0) && lba28_word words then word_at words 60 ||| (word_at words 61 <<< 16) else n.

(** What a successful identification stores in the drive. *)
Definition identified (t : ata_device_type_t) (words : list Z) : M ata_state unit :=
  d ← gets drive;
  serial_ ← ata_copy_string (serial d) 21 words 10 10;
  firmware_ ← ata_copy_string (firmware d) 9 words 23 4;
  model_ ← ata_copy_string (model d) 41 words 27 20;
  modify (set_drive
    (if bool_decide (t = ATA_DEVICE_ATA)
     then mkDrive (slave d) t (lba28_word words) (lba48_word words) (announced_sectors words)
            model_ firmware_ serial_ (ata_status d)
     else mkDrive (slave d) t (supports_lba28 d) (supports_lba48 d) (sector_count d)
            model_ firmware_ serial_ (ata_status d))).

Definition probe_body : M ata_state ata_probe_t :=
  c ← gets channel;
  d ← gets drive;
  let io := io_base c in
  ata_select_drive dev io (control_port c) (slave d);;
  ready ← ata_wait_not_busy dev io;
  if negb (ready : bool) then mret ATA_PROBE_TIMEOUT
  else
    outb (io + ATA_REG_FEATURES) 0;;
    outb (io + ATA_REG_SECTOR_COUNT) 0;;
    outb (io + ATA_REG_LBA_LOW) 0;;
    outb (io + ATA_REG_LBA_MID) 0;;
    outb (io + ATA_REG_LBA_HIGH) 0;;
    r ← identify_command io;
    match r with
    | inr result => mret result
    | inl device_type =>
        words ← read_words io;
        let packet := bool_decide (device_type = ATA_DEVICE_ATAPI) in
        if negb (Bool.eqb (flag (word_at words 0) 0x8000) packet)
        then mret ATA_PROBE_PROTOCOL_ERROR
        else
          identified device_type words;;
          mret (if packet then ATA_PROBE_ATAPI else ATA_PROBE_ATA)
    end.

(** The drive as the probe resets it: [x[0] = 0] for each string. *)
Definition reset_drive (d : ata_drive_t) : option ata_drive_t :=
  model_ ← array_set (model d) 0 0;
  serial_ ← array_set (serial d) 0 0;
  firmware_ ← array_set (firmware d) 0 0;
  Some (mkDrive (slave d) ATA_DEVICE_NONE false false 0 model_ firmware_ serial_ SUCCESS).

Definition ata_probe_device : M ata_state ata_probe_t :=
  has ← gets has_channel;
  if negb has then mret ATA_PROBE_PROTOCOL_ERROR
  else
    d ← gets drive;
    d ← of_option (reset_drive d);
    modify (set_drive d);;
    spin_lock;;
    result ← probe_body;
    spin_unlock;;
    mret result.
End AtaIdentify.
