(* ===== verification/AtaProofs.v ===== *)
(** * ATA drives: properties of [Ata] *)
From S2P Require Import KPrelude Spinlock PortIO Ata.

(** ** What the history says *)

Definition inb_event (e : event) : Prop :=
  match e with Rd Port 1 _ _ => True | _ => False end.
Definition byte_event (e : event) : Prop :=
  match e with Rd Port 1 _ _ | Wr Port 1 _ _ => True | _ => False end.

(** The words read from and written to the data port, in the order of time. *)
Fixpoint words_in (t : list event) : list Z :=
  match t with
  | [] => []
  | Rd Port 2 _ v :: t' => words_in t' ++ [v]
  | _ :: t' => words_in t'
  end.
Fixpoint words_out (t : list event) : list Z :=
  match t with
  | [] => []
  | Wr Port 2 _ v :: t' => words_out t' ++ [v]
  | _ :: t' => words_out t'
  end.

(** The bytes written to a port, the latest first. *)
Fixpoint out8 (t : list event) (p : Z) : list Z :=
  match t with
  | [] => []
  | Wr Port 1 a v :: t' => if a =? p then v :: out8 t' p else out8 t' p
  | _ :: t' => out8 t' p
  end.

(** Only the history has grown, by events of a kind. *)
Definition grew (P : event -> Prop) (s s' : ata_state) : Prop :=
  exists es, s' = set_ata_trace (es ++ ata_trace s) s /\ Forall P es.

Lemma grew_refl P s : grew P s s.
Proof. exists []. split; [by destruct s|done]. Qed.
Lemma grew_trans P s1 s2 s3 : grew P s1 s2 -> grew P s2 s3 -> grew P s1 s3.
Proof.
  intros (es & -> & H1) (fs & -> & H2). exists (fs ++ es). cbn. rewrite <- app_assoc.
  split; [done|]. by apply Forall_app.
Qed.
Lemma grew_mono (P Q : event -> Prop) s s' : (forall e, P e -> Q e) -> grew P s s' -> grew Q s s'.
Proof. intros H (es & -> & H1). exists es. split; [done|]. by eapply Forall_impl. Qed.
Lemma grew_one (P : event -> Prop) e s : P e -> grew P s (logged e s).
Proof. intros H. exists [e]. split; [done|by constructor]. Qed.

Lemma inb_byte e : inb_event e -> byte_event e.
Proof. by destruct e as [[] [|[]|] ? ?|]. Qed.

(** What register accesses leave alone. *)
Definition same_words (s s' : ata_state) : Prop :=
  words_in (ata_trace s') = words_in (ata_trace s) /\
  words_out (ata_trace s') = words_out (ata_trace s).

Lemma grew_words s s' : grew byte_event s s' -> same_words s s'.
Proof.
  intros (es & -> & H). cbn. induction es as [|e es IH]; [done|].
  apply Forall_cons in H as [He H]. destruct (IH H) as [E1 E2]. unfold same_words in *. cbn in *.
  destruct e as [[] [|[]|] ? ?|[] [|[]|] ? ?]; try done; by rewrite E1, E2.
Qed.
Lemma grew_out8 s s' p : grew inb_event s s' -> out8 (ata_trace s') p = out8 (ata_trace s) p.
Proof.
  intros (es & -> & H). cbn. induction es as [|e es IH]; [done|].
  apply Forall_cons in H as [He H]. cbn. destruct e as [[] [|[]|] ? ?|]; try done. by apply IH.
Qed.
Lemma grew_keeps P s s' : grew P s s' ->
  channel s' = channel s /\ has_channel s' = has_channel s /\ drive s' = drive s.
Proof. by intros (es & -> & _). Qed.

Section AtaProofs.
Context (dev : device).

Lemma wp_inb port s (Q : Z -> ata_state -> Prop) :
  (forall v s', 0 <= v < 256 -> grew inb_event s s' -> Q v s') -> wp (inb dev port) Q s.
Proof.
  intros HQ. apply wp_io_read. apply HQ; [by apply (io_value_range dev _ _ 1)|by apply grew_one].
Qed.

Lemma wp_outb port v s (Q : unit -> ata_state -> Prop) :
  Q () (logged (Wr Port 1 port (u8 v)) s) -> wp (outb port v) Q s.
Proof. done. Qed.

Lemma wp_poll {A} (body : M ata_state (option A)) s :
  (forall s, wp body (fun _ s' => grew inb_event s s') s) ->
  wp (poll body) (fun _ s' => grew inb_event s s') s.
Proof.
  intros Hb. unfold poll.
  eapply (wp_while _ (fun i s' => 0 <= i <= 1000000 /\ grew inb_event s s') (fun i _ => 1000000 - i)).
  - intros i s1 [Hi H1]. destruct (Z.ltb_spec i 1000000); [|by wp_steps].
    wp_step. eapply wp_mono; [apply Hb|]. intros r s2 H2.
    assert (grew inb_event s s2) by (by eapply grew_trans).
    destruct r; wp_steps; [done|]. split; [|lia]. split; [lia|done].
  - split; [lia|apply grew_refl].
  - unfold FUEL. lia.
Qed.

(** A polling loop whose body reads one register. *)
Lemma wp_poll_status {A} port (f : Z -> option A) s (Q : option A -> ata_state -> Prop) :
  (forall r s', grew inb_event s s' -> Q r s') ->
  wp (poll (status ← inb dev port; mret (f status))) Q s.
Proof.
  intros HQ. eapply wp_mono; [apply wp_poll|intros r s'; apply HQ].
  intros s1. wp_step. apply wp_inb. intros v s2 _ H. by wp_steps.
Qed.

Lemma wp_delay port s (Q : unit -> ata_state -> Prop) :
  (forall s', grew inb_event s s' -> Q () s') -> wp (ata_400ns_delay dev port) Q s.
Proof.
  intros HQ. unfold ata_400ns_delay.
  do 4 (wp_step; apply wp_inb; intros ? ? _ ?). wp_steps. apply HQ.
  do 3 (eapply grew_trans; [done|]). done.
Qed.

Lemma wp_wait_not_busy io s (Q : bool -> ata_state -> Prop) :
  (forall r s', grew inb_event s s' -> Q r s') -> wp (ata_wait_not_busy dev io) Q s.
Proof.
  intros HQ. unfold ata_wait_not_busy. wp_step. apply wp_poll_status. intros r s' H.
  wp_steps. by apply HQ.
Qed.

Lemma wp_poll_drq s (Q : bool -> ata_state -> Prop) :
  (forall r s', grew inb_event s s' -> Q r s') -> wp (ata_poll_drq dev) Q s.
Proof.
  intros HQ. unfold ata_poll_drq. wp_steps. destruct (negb _); [wp_steps; apply HQ, grew_refl|].
  wp_steps. apply wp_poll_status. intros r s' H. wp_steps. by apply HQ.
Qed.

Lemma wp_status_good io s (Q : bool -> ata_state -> Prop) :
  (forall r s', grew inb_event s s' -> Q r s') -> wp (status_good dev io) Q s.
Proof. intros HQ. unfold status_good. wp_step. apply wp_inb. intros v s' _ H. wp_steps. by apply HQ. Qed.

(** ** Addressing *)

(** The address and the count in the task file, as the drive reads them: from the latest
    value of each register for LBA28, from the latest two for LBA48. *)
Definition reg (t : list event) (p : Z) (i : nat) : Z := default 0 (out8 t p !! i).
Definition task_lba28 (t : list event) (io : Z) : Z :=
  (reg t (io + 6) 0 mod 16) * 2 ^ 24 + reg t (io + 5) 0 * 2 ^ 16 + reg t (io + 4) 0 * 2 ^ 8
  + reg t (io + 3) 0.
Definition task_lba48 (t : list event) (io : Z) : Z :=
  reg t (io + 5) 1 * 2 ^ 40 + reg t (io + 4) 1 * 2 ^ 32 + reg t (io + 3) 1 * 2 ^ 24
  + reg t (io + 5) 0 * 2 ^ 16 + reg t (io + 4) 0 * 2 ^ 8 + reg t (io + 3) 0.
Definition task_count48 (t : list event) (io : Z) : Z :=
  reg t (io + 2) 1 * 2 ^ 8 + reg t (io + 2) 0.

(** What [ata_configure_lba] has told the drive. *)
Definition addressed (lba count : Z) (s : ata_state) (m : ata_addressing_mode_t) (s' : ata_state)
    : Prop :=
  let io := io_base (channel s) in
  let t := ata_trace s' in
  out8 t (io + 7) = out8 (ata_trace s) (io + 7) /\
  match m with
  | ATA_ADDRESSING_INVALID => True
  | ATA_ADDRESSING_LBA28 =>
      lba + count <= 2 ^ 28 /\ task_lba28 t io = lba /\ reg t (io + 2) 0 = count /\
      reg t (io + 6) 0 / 16 = (if slave (drive s) then 0xF else 0xE)
  | ATA_ADDRESSING_LBA48 =>
      task_lba48 t io = lba /\ task_count48 t io = count /\
      reg t (io + 6) 0 = (if slave (drive s) then 0xF0 else 0xE0)
  end.

Lemma byte_of_lba lba n : 0 <= lba -> 0 <= n -> u8 (u8 (lba >>> n)) = (lba / 2 ^ n) mod 256.
Proof.
  intros. rewrite shiftr_div by lia. unfold u8. change (2 ^ 8) with 256.
  apply Z.mod_mod. lia.
Qed.
Lemma byte_of_lba0 lba : u8 (u8 lba) = lba mod 256.
Proof. unfold u8. change (2 ^ 8) with 256. apply Z.mod_mod. lia. Qed.

(** The drive/head byte of LBA28. *)
Lemma head28 lba b : 0 <= lba < 2 ^ 28 ->
  let h := u8 (0xE0 ||| (if b : bool then 0x10 else 0) ||| u8 ((lba >>> 24) &&& 0x0F)) in
  h mod 16 = lba / 2 ^ 24 /\ h / 16 = if b then 0xF else 0xE.
Proof.
  intros Hl. cbn zeta. rewrite shiftr_div by lia. change (_ &&& 0x0F) with ((lba / 2 ^ 24) &&& Z.ones 4).
  rewrite Z.land_ones by lia. change (2 ^ 4) with 16. set (q := lba / 2 ^ 24).
  assert (0 <= q < 16) as Hq by (subst q; divlia). rewrite (Z.mod_small q) by lia.
  rewrite (u8_id q) by lia.
  replace (0xE0 ||| (if b then 0x10 else 0)) with ((if b then 0xF else 0xE) <<< 4)
    by (by destruct b).
  rewrite lor_shiftl_add by lia. rewrite u8_id by (destruct b; lia). clearbody q. change (2 ^ 4) with 16. destruct b; cbn iota; split; divlia.
Qed.

Lemma sum48 lba : 0 <= lba < 2 ^ 48 ->
  (lba / 2 ^ 40) mod 256 * 2 ^ 40 + (lba / 2 ^ 32) mod 256 * 2 ^ 32 + (lba / 2 ^ 24) mod 256 * 2 ^ 24
  + (lba / 2 ^ 16) mod 256 * 2 ^ 16 + (lba / 2 ^ 8) mod 256 * 2 ^ 8 + lba mod 256 = lba.
Proof.
  intros. change (2 ^ 40) with 1099511627776. change (2 ^ 32) with 4294967296.
  change (2 ^ 24) with 16777216. change (2 ^ 16) with 65536. change (2 ^ 8) with 256.
  change (2 ^ 48) with 281474976710656 in *. divlia.
Qed.

Lemma wp_configure_lba lba count s :
  0 <= lba -> 0 <= count < 256 ->
  wp (ata_configure_lba dev lba count)
     (fun m s' => grew byte_event s s' /\ addressed lba count s m s') s.
Proof.
  intros Hl Hc. unfold ata_configure_lba. wp_steps.
  assert (forall s', grew inb_event s s' ->
    grew byte_event s s' /\ addressed lba count s ATA_ADDRESSING_INVALID s') as Hinv.
  { intros s' H. split; [by eapply grew_mono; [apply inb_byte|]|].
    split; [by apply grew_out8|done]. }
  destruct (_ || _); [wp_steps; apply Hinv, grew_refl|].
  destruct (Z.leb_spec (sector_count (drive s)) lba); cbn [orb];
    [wp_steps; apply Hinv, grew_refl|].
  change (1 <<< 48) with (2 ^ 48). change (1 <<< 28) with (2 ^ 28).
  destruct (Z.leb_spec (2 ^ 48) lba); [wp_steps; apply Hinv, grew_refl|].
  wp_step. apply wp_wait_not_busy. intros r s1 H1.
  destruct r; cbn [negb]; [|wp_steps; by apply Hinv]. set (io := io_base (channel s)).
  assert (forall p, out8 (ata_trace s1) p = out8 (ata_trace s) p) as Ho1
    by (intros p; by apply grew_out8).
  assert (grew byte_event s s1) as Hb1 by (eapply grew_mono; [apply inb_byte|done]).
  destruct (supports_lba28 (drive s) && (lba <? 2 ^ 28) && (count <=? 2 ^ 28 - lba)) eqn:E28.
  - apply andb_true_iff in E28 as [[_ E1%Z.ltb_lt]%andb_true_iff E2%Z.leb_le].
    wp_step. apply wp_outb. wp_step. apply wp_delay. intros s2 H2.
    assert (forall p, out8 (ata_trace s2) p = _) as Ho2 by (intros p; by apply (grew_out8 _ _ p H2)).
    do 5 (wp_step; apply wp_outb). wp_steps. unfold slave_bit.
    destruct (head28 lba (slave (drive s))) as [Hh1 Hh2]; [lia|].
    set (head := u8 (224 ||| _ ||| u8 (lba >>> 24 &&& 15))) in *.
    split.
    + do 5 (eapply grew_trans; [|by apply grew_one]).
      eapply grew_trans; [|eapply grew_mono; [apply inb_byte|exact H2]].
      eapply grew_trans; [exact Hb1|by apply grew_one].
    + unfold addressed, task_lba28, reg. fold io. cbn [ata_trace logged set_trace ata_IO set_ata_trace trace].
      cbn [out8]. rewrite !Ho2. cbn [out8 logged ata_trace set_trace ata_IO set_ata_trace trace].
      unfold ATA_REG_FEATURES, ATA_REG_SECTOR_COUNT, ATA_REG_LBA_LOW, ATA_REG_LBA_MID,
        ATA_REG_LBA_HIGH, ATA_REG_DRIVE_HEAD.
      repeat match goal with |- context [io + ?a =? io + ?b] =>
        let v := eval vm_compute in (a =? b) in
        replace (io + a =? io + b) with v by (destruct (Z.eqb_spec (io + a) (io + b)); lia) end.
      cbn iota. rewrite Ho1. split; [done|].
      cbn [default from_option id lookup list_lookup]. rewrite !byte_of_lba, byte_of_lba0 by lia.
      rewrite u8_id by lia. split; [lia|]. split; [|done]. rewrite Hh1.
      change (2 ^ 24) with 16777216. change (2 ^ 16) with 65536. change (2 ^ 8) with 256. divlia.
  - destruct (supports_lba48 (drive s)); cbn [negb]; [|wp_steps; by apply Hinv].
    wp_step. apply wp_outb. wp_step. apply wp_delay. intros s2 H2.
    assert (forall p, out8 (ata_trace s2) p = _) as Ho2 by (intros p; by apply (grew_out8 _ _ p H2)).
    do 10 (wp_step; apply wp_outb). wp_steps. unfold slave_bit.
    split.
    + do 10 (eapply grew_trans; [|by apply grew_one]).
      eapply grew_trans; [|eapply grew_mono; [apply inb_byte|exact H2]].
      eapply grew_trans; [exact Hb1|by apply grew_one].
    + unfold addressed, task_lba48, task_count48, reg. fold io.
      cbn [ata_trace logged set_trace ata_IO set_ata_trace trace].
      cbn [out8]. rewrite !Ho2. cbn [out8 logged ata_trace set_trace ata_IO set_ata_trace trace].
      unfold ATA_REG_FEATURES, ATA_REG_SECTOR_COUNT, ATA_REG_LBA_LOW, ATA_REG_LBA_MID,
        ATA_REG_LBA_HIGH, ATA_REG_DRIVE_HEAD.
      repeat match goal with |- context [io + ?a =? io + ?b] =>
        let v := eval vm_compute in (a =? b) in
        replace (io + a =? io + b) with v by (destruct (Z.eqb_spec (io + a) (io + b)); lia) end.
      cbn iota. rewrite Ho1. split; [done|].
      cbn [default from_option id lookup list_lookup]. rewrite !byte_of_lba, byte_of_lba0 by lia.
      rewrite (u8_id count) by lia. change (u8 0) with 0.
      split; [by apply sum48|]. split; [lia|]. unfold slave_bit. by destruct (slave (drive s)).
Qed.

(** ** Transfers *)

(** The bytes of words, least significant first, and back. *)
Definition le_bytes (ws : list Z) : list Z :=
  concat (map (fun w => [u8 w; u8 (w >>> 8)]) ws).
Fixpoint words_of (l : list Z) : list Z :=
  match l with
  | b0 :: b1 :: l' => u16 (b0 ||| (b1 <<< 8)) :: words_of l'
  | _ => []
  end.

Lemma le_bytes_app a b : le_bytes (a ++ b) = le_bytes a ++ le_bytes b.
Proof. unfold le_bytes. by rewrite map_app, concat_app. Qed.
Lemma le_bytes_length ws : length (le_bytes ws) = (2 * length ws)%nat.
Proof. unfold le_bytes. induction ws as [|w ws IH]; cbn in *; [done|]. rewrite IH. lia. Qed.

(** The buffer with [l] written over it from index [at_] on. *)
Definition splice (bytes : list Z) (at_ : nat) (l : list Z) : list Z :=
  take at_ bytes ++ l ++ drop (at_ + length l) bytes.

Lemma splice_length bytes at_ l : (at_ + length l <= length bytes)%nat ->
  length (splice bytes at_ l) = length bytes.
Proof. intros. unfold splice. rewrite !length_app, length_take, length_drop. lia. Qed.
Lemma splice_nil bytes at_ : splice bytes at_ [] = bytes.
Proof. unfold splice. rewrite Nat.add_0_r. apply take_drop. Qed.
Lemma splice_drop bytes at_ l k : (at_ + length l <= k)%nat -> (k <= length bytes)%nat ->
  drop k (splice bytes at_ l) = drop k bytes.
Proof.
  intros H1 H2. unfold splice. rewrite drop_app_ge by (rewrite length_take; lia).
  rewrite length_take, Nat.min_l by lia. rewrite drop_app_ge by lia. rewrite drop_drop.
  f_equal. lia.
Qed.
Lemma splice_take bytes at_ l : (at_ <= length bytes)%nat ->
  take (at_ + length l) (splice bytes at_ l) = take at_ bytes ++ l.
Proof.
  intros H. unfold splice. rewrite app_assoc. apply take_app_length'.
  rewrite length_app, length_take. lia.
Qed.
Lemma splice_set bytes at_ l v : (at_ + length l < length bytes)%nat ->
  array_set (splice bytes at_ l) (Z.of_nat (at_ + length l)) v = Some (splice bytes at_ (l ++ [v])).
Proof.
  intros H. rewrite array_set_Some by (rewrite splice_length; lia). f_equal.
  rewrite Nat2Z.id. unfold splice. rewrite (insert_app_r_alt _ _ (at_ + length l)) by (rewrite length_take; lia).
  rewrite length_take, Nat.min_l by lia. replace (at_ + length l - at_)%nat with (length l + 0)%nat by lia.
  rewrite insert_app_r. rewrite length_app. cbn [length].
  destruct (drop (at_ + length l) bytes) as [|x rest] eqn:E.
  - apply (f_equal length) in E. rewrite length_drop in E. cbn in E. lia.
  - cbn. replace (drop (at_ + (length l + 1)) bytes) with rest; [by rewrite <- app_assoc|].
    replace (at_ + (length l + 1))%nat with (at_ + length l + 1)%nat by lia.
    by rewrite <- drop_drop, E.
Qed.

(** Apart from the history nothing has changed. *)
Definition any_event (e : event) : Prop := True.
Definition moved_on (s s' : ata_state) : Prop := grew any_event s s'.
Lemma moved_on_grew P s s' : grew P s s' -> moved_on s s'.
Proof. by apply grew_mono. Qed.

(** A transfer of the words [ws] into the buffer from [at_] on. *)
Record read_done (s : ata_state) (bytes : list Z) (at_ : nat) (ws : list Z) (s' : ata_state)
    (bytes' : list Z) (at_' : Z) : Prop := {
  rd_moved : moved_on s s';
  rd_words : words_in (ata_trace s') = words_in (ata_trace s) ++ ws;
  rd_bytes : bytes' = splice bytes at_ (le_bytes ws);
  rd_at : at_' = Z.of_nat (at_ + 2 * length ws)
}.

Lemma read_done_refl s bytes at_ : read_done s bytes at_ [] s bytes (Z.of_nat at_).
Proof.
  constructor; [by apply moved_on_grew with any_event, grew_refl|by rewrite app_nil_r
               |by rewrite splice_nil|f_equal; cbn; lia].
Qed.

Lemma read_done_byte s bytes at_ ws s' b' a' s'' :
  read_done s bytes at_ ws s' b' a' -> grew byte_event s' s'' -> read_done s bytes at_ ws s'' b' a'.
Proof.
  intros [H1 H2 H3 H4] H. constructor; try done.
  - eapply grew_trans; [exact H1|by eapply moved_on_grew].
  - destruct (grew_words _ _ H) as [-> _]. done.
Qed.

Lemma wp_read_word port s bytes at_ ws s1 b1 a1 :
  read_done s bytes at_ ws s1 b1 a1 -> (at_ + 2 * length ws + 2 <= length bytes)%nat ->
  wp (value ← inw dev port;
      bytes ← of_option (array_set b1 a1 (u8 value));
      bytes ← of_option (array_set bytes (a1 + 1) (u8 (value >>> 8)));
      mret (bytes, a1 + 2))
     (fun '(b2, a2) s2 => exists w, read_done s bytes at_ (ws ++ [w]) s2 b2 a2) s1.
Proof.
  intros [H1 H2 -> ->] Hlen. wp_step. apply wp_io_read. set (w := io_value _ _ _ _ _).
  pose proof (le_bytes_length ws) as Ll.
  wp_step. apply wp_of_option. eexists. split.
  { rewrite <- Ll. apply splice_set. lia. }
  wp_step. apply wp_of_option. eexists. split.
  { replace (Z.of_nat (at_ + 2 * length ws) + 1)
      with (Z.of_nat (at_ + length (le_bytes ws ++ [u8 w]))) by (rewrite length_app, Ll; cbn; lia).
    apply splice_set. rewrite length_app, Ll. cbn. lia. }
  wp_steps. exists w. constructor.
  - eapply grew_trans; [exact H1|by apply grew_one].
  - cbn. by rewrite H2, app_assoc.
  - by rewrite le_bytes_app, <- app_assoc.
  - rewrite length_app. cbn. lia.
Qed.

Lemma wp_read_sector s bytes at_ ws s1 b1 a1 :
  read_done s bytes at_ ws s1 b1 a1 -> (at_ + 2 * length ws + 512 <= length bytes)%nat ->
  wp (read_sector dev (b1, a1)) (fun '(ok, (b2, a2)) s2 =>
    exists ws', read_done s bytes at_ ws' s2 b2 a2 /\
      (length ws <= length ws' <= length ws + 256)%nat /\
      (ok = true -> length ws' = (length ws + 256)%nat)) s1.
Proof.
  intros H Hlen. unfold read_sector. wp_steps. apply wp_poll_drq. intros ok s2 H2.
  assert (read_done s bytes at_ ws s2 b1 a1) as H3
    by (eapply read_done_byte; [done|by eapply grew_mono; [apply inb_byte|]]).
  destruct ok; cbn [negb].
  2: { wp_steps. exists ws. split; [done|]. split; [lia|done]. }
  wp_step. eapply wp_mono.
  { apply (wp_for (fun i '(b, a) s' => exists ws', read_done s bytes at_ ws' s' b a /\
      Z.of_nat (length ws') = Z.of_nat (length ws) + i)); [lia|exists ws; split; [done|lia]|].
    intros i [b a] s3 Hi (ws' & Hr & Hl).
    eapply wp_mono; [eapply wp_read_word; [exact Hr|lia]|].
    intros [b2 a2] s4 (w & Hr'). exists (ws' ++ [w]). split; [done|].
    rewrite length_app. cbn. lia. }
  intros [b a] s3 (ws' & Hr & Hl). wp_step. apply wp_delay. intros s4 H4. wp_steps.
  exists ws'. split; [|split; lia].
  eapply read_done_byte; [done|by eapply grew_mono; [apply inb_byte|]].
Qed.

Lemma wp_read_sectors count s bytes s1 :
  read_done s bytes 0 [] s1 bytes 0 -> 0 <= count -> 512 * count <= Z.of_nat (length bytes) ->
  wp (for_sectors count (read_sector dev) (bytes, 0)) (fun '(ok, (b2, a2)) s2 =>
    exists ws, read_done s bytes 0 ws s2 b2 a2 /\ Z.of_nat (length ws) <= 256 * count /\
      (ok = true -> Z.of_nat (length ws) = 256 * count)) s1.
Proof.
  intros H Hc Hlen. unfold for_sectors. eapply wp_mono.
  { apply (wp_for (fun i '(ok, (b, a)) s' => exists ws, read_done s bytes 0 ws s' b a /\
      Z.of_nat (length ws) <= 256 * i /\ (ok = true -> Z.of_nat (length ws) = 256 * i)));
      [done|exists []; split; [done|split; [cbn; lia|done]]|].
    intros i [ok [b a]] s2 Hi (ws & Hr & Hl & Hok). destruct ok.
    - specialize (Hok eq_refl). eapply wp_mono; [eapply wp_read_sector; [exact Hr|lia]|].
      intros [ok [b2 a2]] s3 (ws' & Hr' & Hl' & Hok'). exists ws'. split; [done|].
      split; [lia|]. intros E. specialize (Hok' E). lia.
    - wp_steps. exists ws. split; [done|]. split; [lia|done]. }
  intros [ok [b a]] s2 (ws & Hr & Hl & Hok). rewrite Z.add_0_l in *. exists ws. done.
Qed.

Lemma wp_and_then a b s :
  (forall s, wp a (fun _ s' => grew byte_event s s') s) ->
  (forall s, wp b (fun _ s' => grew byte_event s s') s) ->
  wp (and_then a b) (fun _ s' => grew byte_event s s') s.
Proof.
  intros Ha Hb. unfold and_then. wp_step. eapply wp_mono; [apply Ha|]. intros ok s1 H1.
  destruct ok; [|by wp_steps]. eapply wp_mono; [apply Hb|]. intros ok s2 H2.
  by eapply grew_trans.
Qed.

Lemma wait_grows io s : wp (ata_wait_not_busy dev io) (fun _ s' => grew byte_event s s') s.
Proof. apply wp_wait_not_busy. intros r s' H. by eapply grew_mono; [apply inb_byte|]. Qed.
Lemma good_grows io s : wp (status_good dev io) (fun _ s' => grew byte_event s s') s.
Proof. apply wp_status_good. intros r s' H. by eapply grew_mono; [apply inb_byte|]. Qed.

(** What a finished [ata_read] has done. *)
Record read_outcome (count : Z) (s : ata_state) (bytes bytes' : list Z) (s' : ata_state) : Prop := {
  ro_unlocked : channel_lock (channel s') = false;
  ro_length : length bytes' = length bytes;
  ro_beyond : drop (Z.to_nat (512 * count)) bytes' = drop (Z.to_nat (512 * count)) bytes;
  ro_status : ata_status (drive s') = SUCCESS \/ ata_status (drive s') = ERR_IO;
  ro_data : ata_status (drive s') = SUCCESS -> exists ws,
    words_in (ata_trace s') = words_in (ata_trace s) ++ ws /\
    Z.of_nat (length ws) = 256 * count /\ take (Z.to_nat (512 * count)) bytes' = le_bytes ws
}.

Lemma wp_ata_read_body lba bytes count s :
  0 <= lba -> 0 <= count < 256 -> 512 * count <= Z.of_nat (length bytes) ->
  wp (ata_read_body dev lba bytes count) (fun '(ok, b) s' => exists ws,
    (exists a, read_done s bytes 0 ws s' b a) /\ Z.of_nat (length ws) <= 256 * count /\
    (ok = true -> Z.of_nat (length ws) = 256 * count)) s.
Proof.
  intros Hl Hc Hlen. unfold ata_read_body. wp_steps.
  eapply wp_mono; [by apply wp_configure_lba|]. intros m s1 [H1 _].
  assert (read_done s bytes 0 [] s1 bytes 0) as Hr1
    by (eapply read_done_byte; [apply read_done_refl|done]).
  destruct (bool_decide _).
  { wp_steps. exists []. split; [by exists 0|]. split; [cbn; lia|done]. }
  unfold command. wp_steps. apply wp_outb. wp_step.
  eapply wp_mono; [apply (wp_read_sectors count s); [|lia|done]|].
  { eapply read_done_byte; [done|by apply grew_one]. }
  intros [ok [b a]] s2 (ws & Hr & Hw & Hok).
  destruct ok; cbn [negb]; wp_steps.
  2: { exists ws. split; [by exists a|]. split; [done|done]. }
  eapply wp_mono; [apply wp_and_then; intros; [apply wait_grows|apply good_grows]|].
  intros ok s3 H3. wp_steps. exists ws. split; [exists a; by eapply read_done_byte|].
  split; [done|]. intros _. by apply Hok.
Qed.

Lemma wp_ata_read lba bytes count s :
  0 <= lba -> 0 <= count < 256 -> 512 * count <= Z.of_nat (length bytes) ->
  channel_lock (channel s) = false -> transfer_error s lba count false = None ->
  wp (ata_read dev lba (Some bytes) count) (fun r s' => exists bytes', r = Some bytes' /\
    read_outcome count s bytes bytes' s') s.
Proof.
  intros Hl Hc Hlen Hlock Herr. unfold ata_read. wp_steps.
  rewrite bool_decide_false by done. rewrite Herr. wp_step. apply wp_spin_lock; [done|]. wp_step.
  eapply wp_mono; [by apply wp_ata_read_body|].
  intros [ok b] s1 (ws & (a & [H1 H2 -> _]) & Hw & Hok). cbn in H2.
  unfold finish. wp_steps. apply wp_spin_unlock. wp_steps.
  eexists. split; [done|].
  pose proof (le_bytes_length ws) as Lw.
  constructor; cbn.
  - done.
  - apply splice_length. lia.
  - apply splice_drop; lia.
  - destruct ok; [by left|by right].
  - destruct ok; [|by intros [=]]. intros _. specialize (Hok eq_refl). exists ws.
    split; [done|]. split; [done|].
    replace (Z.to_nat (512 * count)) with (0 + length (le_bytes ws))%nat by lia.
    rewrite splice_take by lia. by rewrite take_0.
Qed.

(** ** Writing *)

Lemma words_of_cons b0 b1 l : words_of (b0 :: b1 :: l) = u16 (b0 ||| (b1 <<< 8)) :: words_of l.
Proof. done. Qed.

Lemma words_of_app_even a b : forall n, length a = (2 * n)%nat -> words_of (a ++ b) = words_of a ++ words_of b.
Proof.
  intros n. revert a. induction n as [|n IH]; intros a Ha.
  - by destruct a.
  - destruct a as [|x [|y a]]; cbn in Ha; try lia. cbn. f_equal. apply IH. lia.
Qed.

(** A transfer of the first [n] words of the buffer. *)
Definition write_done (s : ata_state) (bytes : list Z) (n : nat) (s' : ata_state) : Prop :=
  moved_on s s' /\
  words_out (ata_trace s') = words_out (ata_trace s) ++ words_of (take (2 * n) bytes).

Lemma write_done_byte s bytes n s' s'' :
  write_done s bytes n s' -> grew byte_event s' s'' -> write_done s bytes n s''.
Proof.
  intros [H1 H2] H. split; [eapply grew_trans; [exact H1|by eapply moved_on_grew]|].
  destruct (grew_words _ _ H) as [_ ->]. done.
Qed.

Lemma take_two bytes n b0 b1 : bytes !! (2 * n)%nat = Some b0 -> bytes !! (2 * n + 1)%nat = Some b1 ->
  words_of (take (2 * Datatypes.S n) bytes) = words_of (take (2 * n) bytes) ++ [u16 (b0 ||| (b1 <<< 8))].
Proof.
  intros E0 E1. replace (2 * Datatypes.S n)%nat with (Datatypes.S (Datatypes.S (2 * n))) by lia.
  assert (bytes !! Datatypes.S (2 * n) = Some b1) as E1' by (rewrite <- E1; f_equal; lia).
  rewrite (take_S_r _ _ b1) by done. rewrite (take_S_r _ _ b0) by done. rewrite <- app_assoc.
  rewrite (words_of_app_even _ _ n); [done|]. apply lookup_lt_Some in E0. rewrite length_take. lia.
Qed.

Lemma wp_write_sector s bytes n s1 :
  write_done s bytes n s1 -> (2 * n + 512 <= length bytes)%nat ->
  wp (write_sector dev bytes (Z.of_nat (2 * n))) (fun '(ok, a) s2 =>
    exists n', write_done s bytes n' s2 /\ a = Z.of_nat (2 * n') /\ (n <= n' <= n + 256)%nat /\
      (ok = true -> n' = (n + 256)%nat)) s1.
Proof.
  intros H Hlen. unfold write_sector. wp_steps. apply wp_poll_drq. intros ok s2 H2.
  assert (write_done s bytes n s2) as H3
    by (eapply write_done_byte; [done|by eapply grew_mono; [apply inb_byte|]]).
  destruct ok; cbn [negb].
  2: { wp_steps. exists n. split; [done|]. split; [done|]. split; [lia|done]. }
  wp_step. eapply wp_mono.
  { apply (wp_for (fun i a s' => exists n', write_done s bytes n' s' /\ a = Z.of_nat (2 * n') /\
      Z.of_nat n' = Z.of_nat n + i)); [lia|exists n; split; [done|split; [done|lia]]|].
    intros i a s3 Hi (n' & [Hm Hw] & -> & Hn).
    destruct (array_get_Some bytes (Z.of_nat (2 * n'))) as (b0 & E0 & L0); [lia|].
    destruct (array_get_Some bytes (Z.of_nat (2 * n') + 1)) as (b1 & E1 & L1); [lia|].
    wp_step. apply wp_of_option. exists b0. split; [done|].
    wp_step. apply wp_of_option. exists b1. split; [done|].
    wp_step. unfold outw. apply wp_io_write. wp_steps. exists (Datatypes.S n').
    split; [|split; lia]. split.
    - eapply grew_trans; [exact Hm|by apply grew_one].
    - cbn [logged trace set_trace ata_IO set_ata_trace ata_trace words_out]. rewrite Hw.
      rewrite <- app_assoc. f_equal. rewrite (take_two bytes n' b0 b1); [done| |].
      + by rewrite Nat2Z.id in L0.
      + rewrite <- L1. f_equal. lia. }
  intros a s3 (n' & Hw & -> & Hn). wp_step. apply wp_delay. intros s4 H4. wp_steps.
  exists n'. split; [|split; [done|split; lia]].
  eapply write_done_byte; [done|by eapply grew_mono; [apply inb_byte|]].
Qed.

Lemma wp_write_sectors count s bytes s1 :
  write_done s bytes 0 s1 -> 0 <= count -> 512 * count <= Z.of_nat (length bytes) ->
  wp (for_sectors count (write_sector dev bytes) 0) (fun '(ok, _) s2 =>
    exists n, write_done s bytes n s2 /\ Z.of_nat n <= 256 * count /\
      (ok = true -> Z.of_nat n = 256 * count)) s1.
Proof.
  intros H Hc Hlen. unfold for_sectors. eapply wp_mono.
  { apply (wp_for (fun i '(ok, a) s' => exists n, write_done s bytes n s' /\ a = Z.of_nat (2 * n) /\
      Z.of_nat n <= 256 * i /\ (ok = true -> Z.of_nat n = 256 * i)));
      [done|exists 0%nat; split; [done|split; [done|split; [lia|done]]]|].
    intros i [ok a] s2 Hi (n & Hw & -> & Hn & Hok). destruct ok.
    - specialize (Hok eq_refl). eapply wp_mono; [eapply wp_write_sector; [exact Hw|lia]|].
      intros [ok a2] s3 (n' & Hw' & -> & Hn' & Hok'). exists n'. split; [done|].
      split; [done|]. split; [lia|]. intros E. specialize (Hok' E). lia.
    - wp_steps. exists n. split; [done|]. split; [done|]. split; [lia|done]. }
  intros [ok a] s2 (n & Hw & -> & Hn & Hok). rewrite Z.add_0_l in *. exists n. done.
Qed.

Lemma wp_ata_write_body lba bytes count s :
  0 <= lba -> 0 <= count < 256 -> 512 * count <= Z.of_nat (length bytes) ->
  wp (ata_write_body dev lba bytes count) (fun ok s' => exists n,
    write_done s bytes n s' /\ Z.of_nat n <= 256 * count /\
    (ok = true -> Z.of_nat n = 256 * count)) s.
Proof.
  intros Hl Hc Hlen. unfold ata_write_body. wp_steps.
  eapply wp_mono; [by apply wp_configure_lba|]. intros m s1 [H1 _].
  assert (write_done s bytes 0 s1) as Hr1.
  { eapply write_done_byte; [|done]. split; [apply grew_refl|]. by rewrite app_nil_r. }
  destruct (bool_decide _).
  { wp_steps. exists 0%nat. split; [done|]. split; [lia|done]. }
  unfold command at 1. wp_steps. apply wp_outb. wp_step.
  eapply wp_mono; [apply (wp_write_sectors count s); [|lia|done]|].
  { eapply write_done_byte; [done|by apply grew_one]. }
  intros [ok a] s2 (n & Hr & Hw & Hok).
  destruct ok; cbn [negb]; wp_steps.
  2: { exists n. split; [done|]. split; [done|done]. }
  eapply wp_mono.
  { apply wp_and_then; [intros; apply wait_grows|intros s3].
    apply wp_and_then; [intros; apply good_grows|intros s4].
    unfold command. wp_steps. apply wp_outb.
    eapply wp_mono; [apply wp_and_then; intros; [apply wait_grows|apply good_grows]|].
    intros ok s5 H5. eapply grew_trans; [|exact H5]; by apply grew_one. }
  intros ok s3 H3. exists n. split; [by eapply write_done_byte|].
  split; [done|]. intros _. by apply Hok.
Qed.

(** What a finished [ata_write] has done. *)
Record write_outcome (count : Z) (s : ata_state) (bytes : list Z) (s' : ata_state) : Prop := {
  wo_unlocked : channel_lock (channel s') = false;
  wo_status : ata_status (drive s') = SUCCESS \/ ata_status (drive s') = ERR_IO;
  wo_data : exists n, Z.of_nat n <= 256 * count /\
    words_out (ata_trace s') = words_out (ata_trace s) ++ words_of (take (2 * n) bytes) /\
    (ata_status (drive s') = SUCCESS -> Z.of_nat n = 256 * count)
}.

Lemma wp_ata_write lba bytes count s :
  0 <= lba -> 0 <= count < 256 -> 512 * count <= Z.of_nat (length bytes) ->
  channel_lock (channel s) = false -> transfer_error s lba count false = None ->
  wp (ata_write dev lba (Some bytes) count) (fun _ => write_outcome count s bytes) s.
Proof.
  intros Hl Hc Hlen Hlock Herr. unfold ata_write. wp_steps.
  rewrite bool_decide_false by done. rewrite Herr. wp_step. apply wp_spin_lock; [done|]. wp_step.
  eapply wp_mono; [by apply wp_ata_write_body|].
  intros ok s1 (n & [H1 H2] & Hw & Hok). cbn in H2.
  unfold finish. wp_steps. apply wp_spin_unlock. constructor; cbn.
  - done.
  - destruct ok; [by left|by right].
  - exists n. split; [done|]. split; [done|]. destruct ok; [by intros _; apply Hok|done].
Qed.

(** ** Identification *)

(** The characters of [n] bytes of the identify data. *)
Definition chars (words : list Z) (first n : Z) : list Z :=
  map (fun k => default 0 (identify_char words first (Z.of_nat k))) (seq 0 (Z.to_nat n)).
Definition blank (c : Z) : Prop := c = 32 \/ c = 0.

(** [dst'] holds the first [n] characters [cs] without the blanks behind them. *)
Definition trimmed (cs dst dst' : list Z) : Prop :=
  exists n, (n <= length cs)%nat /\ length dst' = length dst /\
    take n dst' = take n cs /\ dst' !! n = Some 0 /\
    Forall blank (drop n cs) /\
    (forall m c, n = Datatypes.S m -> cs !! m = Some c -> ~ blank c).

Lemma chars_snoc words first n : 0 <= n ->
  chars words first (n + 1) = chars words first n ++ [default 0 (identify_char words first n)].
Proof.
  intros Hn. unfold chars. replace (Z.to_nat (n + 1)) with (Datatypes.S (Z.to_nat n)) by lia.
  rewrite seq_S, map_app. cbn. by rewrite Z2Nat.id by lia.
Qed.
Lemma chars_length words first n : length (chars words first n) = Z.to_nat n.
Proof. unfold chars. by rewrite length_map, length_seq. Qed.

Lemma identify_char_Some words first i n : 0 <= first -> 0 <= i < 2 * n ->
  first + n <= Z.of_nat (length words) ->
  exists c, identify_char words first i = Some c.
Proof.
  intros Hf Hi Hl. unfold identify_char.
  destruct (array_get_Some words (first + i / 2)) as (w & E & _); [divlia|].
  rewrite E. cbn. eauto.
Qed.

Lemma splice_lookup0 (dst cs : list Z) i : (i < length cs)%nat -> splice dst 0 cs !! i = cs !! i.
Proof. intros. unfold splice. rewrite take_0, app_nil_l. by apply lookup_app_l. Qed.

Lemma wp_copy_string dst size words first n s (Q : list Z -> ata_state -> Prop) :
  Z.of_nat (length dst) = size -> 0 < size < 2 ^ 31 -> 0 <= first -> 0 <= n < 2 ^ 30 ->
  first + n <= Z.of_nat (length words) ->
  (forall dst', trimmed (chars words first (Z.min (2 * n) (size - 1))) dst dst' -> Q dst' s) ->
  wp (ata_copy_string dst size words first n) Q s.
Proof.
  intros Hlen Hs Hf Hn Hw HQ. unfold ata_copy_string.
  rewrite shiftl_mul by lia. change (n * 2 ^ 1) with (n * 2). rewrite !u32_id by lia.
  replace (if size <=? n * 2 then size - 1 else n * 2) with (Z.min (2 * n) (size - 1))
    by (destruct (Z.leb_spec size (n * 2)); lia).
  set (L := Z.min (2 * n) (size - 1)) in *. set (cs := chars words first L) in *.
  assert (length cs = Z.to_nat L) as Lcs by apply chars_length.
  wp_step. eapply wp_mono.
  { apply (wp_for (fun i d s' => s' = s /\ d = splice dst 0 (chars words first i)));
      [lia|split; [done|by rewrite splice_nil]|].
    intros i d s1 Hi [-> ->]. destruct (identify_char_Some words first i n) as (c & Ec); [lia..|].
    wp_step. apply wp_of_option. exists c. split; [done|]. apply wp_of_option.
    eexists. split.
    { replace i with (Z.of_nat (0 + length (chars words first i))) at 2
        by (rewrite chars_length; lia).
      apply splice_set. rewrite chars_length. lia. }
    split; [done|]. rewrite chars_snoc by lia. by rewrite Ec. }
  intros d s1 [-> ->]. rewrite Z.add_0_l. fold cs. wp_step.
  assert (length (splice dst 0 cs) = length dst) as Lsp by (apply splice_length; lia).
  eapply wp_mono.
  { apply (wp_while _ (fun k s' => s' = s /\ 0 <= k <= L /\ Forall blank (drop (Z.to_nat k) cs))
      (fun k _ => k) (fun k s' => s' = s /\ 0 <= k <= L /\ Forall blank (drop (Z.to_nat k) cs) /\
         forall m c, Z.to_nat k = Datatypes.S m -> cs !! m = Some c -> ~ blank c)).
    - intros k s1 (-> & Hk & Hb). destruct (Z.gtb_spec k 0).
      2: { wp_steps. split_and!; try done; try lia. }
      destruct (array_get_Some (splice dst 0 cs) (k - 1)) as (c & Ec & Lc); [lia|].
      rewrite splice_lookup0 in Lc by lia.
      wp_step. apply wp_of_option. exists c. split; [done|].
      destruct (Z.eqb_spec c 32) as [Hc|Hc]; cbn [orb].
      2: destruct (Z.eqb_spec c 0) as [Hc0|Hc0].
      + wp_steps. split; [|lia]. split; [done|]. split; [lia|].
        rewrite (drop_S _ c) by done. constructor; [by left|].
        by replace (Datatypes.S (Z.to_nat (k - 1))) with (Z.to_nat k) by lia.
      + wp_steps. split; [|lia]. split; [done|]. split; [lia|].
        rewrite (drop_S _ c) by done. constructor; [by right|].
        by replace (Datatypes.S (Z.to_nat (k - 1))) with (Z.to_nat k) by lia.
      + wp_steps. split; [done|]. split; [lia|]. split; [done|].
        intros m c' Em Lm. replace m with (Z.to_nat (k - 1)) in Lm by lia.
        rewrite Lc in Lm. injection Lm as <-. by intros [|].
    - split; [done|]. split; [lia|]. by rewrite drop_ge by lia.
    - unfold FUEL. lia. }
  intros k s1 (-> & Hk & Hb & Hlast). apply wp_of_option. eexists. split.
  { apply array_set_Some. lia. }
  apply HQ. exists (Z.to_nat k). split; [lia|]. rewrite length_insert. split; [done|].
  split; [|split; [by rewrite list_lookup_insert_eq by lia|by split]].
  rewrite take_insert_ge by lia. unfold splice. rewrite take_0, app_nil_l.
  rewrite take_app_le by lia. done.
Qed.

Lemma wp_wait_status io s (Q : option (option Z) -> ata_state -> Prop) :
  (forall r s', grew inb_event s s' -> Q r s') -> wp (wait_status dev io) Q s.
Proof. intros HQ. by apply wp_poll_status. Qed.

Lemma wp_identify_command io s :
  wp (identify_command dev io) (fun r s' => grew byte_event s s' /\ r <> inl ATA_DEVICE_NONE /\
    r <> inr ATA_PROBE_ATA /\ r <> inr ATA_PROBE_ATAPI) s.
Proof.
  unfold identify_command. wp_step. apply wp_outb. wp_step. apply wp_wait_status. intros r s1 H1.
  assert (grew byte_event s s1) as H2.
  { eapply grew_trans; [|eapply grew_mono; [apply inb_byte|exact H1]]. by apply grew_one. }
  clear H1. destruct r as [[status|]|]; [|by wp_steps..].
  destruct (flag status ATA_SR_DF); [by wp_steps|].
  destruct (flag status ATA_SR_ERR); [|destruct (negb _); by wp_steps].
  wp_step. apply wp_inb. intros mid s2 _ H3. wp_step. apply wp_inb. intros high s3 _ H4.
  assert (grew byte_event s s3) as H5.
  { eapply grew_trans; [|eapply grew_mono; [apply inb_byte|exact H4]].
    eapply grew_trans; [exact H2|eapply grew_mono; [apply inb_byte|exact H3]]. }
  destruct (negb _); [by wp_steps|]. wp_step. apply wp_outb. wp_step. apply wp_wait_status.
  intros r s4 H6.
  assert (grew byte_event s s4) as H7.
  { eapply grew_trans; [|eapply grew_mono; [apply inb_byte|exact H6]].
    eapply grew_trans; [exact H5|by apply grew_one]. }
  destruct r as [[status'|]|]; [|by wp_steps..].
  destruct (flag status' ATA_SR_DF); [by wp_steps|]. destruct (_ || _); by wp_steps.
Qed.

Lemma wp_read_words io s (Q : list Z -> ata_state -> Prop) :
  (forall ws s', moved_on s s' -> length ws = 256%nat ->
     words_in (ata_trace s') = words_in (ata_trace s) ++ ws -> Q ws s') ->
  wp (read_words dev io) Q s.
Proof.
  intros HQ. unfold read_words. eapply wp_mono.
  { apply (wp_for (fun i ws s' => moved_on s s' /\ Z.of_nat (length ws) = i /\
      words_in (ata_trace s') = words_in (ata_trace s) ++ ws)); [lia| |].
    - split; [apply grew_refl|]. split; [done|by rewrite app_nil_r].
    - intros i ws s1 Hi (H1 & H2 & H3). wp_step. apply wp_io_read. wp_steps.
      split; [eapply grew_trans; [exact H1|by apply grew_one]|]. rewrite length_app. cbn.
      split; [lia|]. by rewrite H3, app_assoc. }
  intros ws s' (H1 & H2 & H3). apply HQ; [done|lia|done].
Qed.

(** The strings of a drive: arrays of their C sizes. *)
Definition strings_ok (d : ata_drive_t) : Prop :=
  length (model d) = 41%nat /\ length (firmware d) = 9%nat /\ length (serial d) = 21%nat.
Definition blank_drive (d : ata_drive_t) : Prop :=
  type_ d = ATA_DEVICE_NONE /\ supports_lba28 d = false /\ supports_lba48 d = false /\
  sector_count d = 0.

(** The drive as 256 identify words describe it. *)
Record described (t : ata_device_type_t) (ws : list Z) (d : ata_drive_t) : Prop := {
  de_type : type_ d = t;
  de_ata : t = ATA_DEVICE_ATA -> supports_lba28 d = lba28_word ws /\
    supports_lba48 d = lba48_word ws /\ sector_count d = announced_sectors ws;
  de_serial : exists old, trimmed (chars ws 10 20) old (serial d);
  de_firmware : exists old, trimmed (chars ws 23 8) old (firmware d);
  de_model : exists old, trimmed (chars ws 27 40) old (model d)
}.

(** What a probe leaves behind. *)
Record probe_outcome (s : ata_state) (r : ata_probe_t) (s' : ata_state) : Prop := {
  po_channel : channel s' = channel s;
  po_slave : slave (drive s') = slave (drive s);
  po_strings : strings_ok (drive s');
  po_result :
    match r with
    | ATA_PROBE_ATA | ATA_PROBE_ATAPI => exists ws, length ws = 256%nat /\
        words_in (ata_trace s') = words_in (ata_trace s) ++ ws /\
        described (if bool_decide (r = ATA_PROBE_ATA) then ATA_DEVICE_ATA else ATA_DEVICE_ATAPI)
          ws (drive s')
    | _ => blank_drive (drive s')
    end
}.

Lemma trimmed_length cs a b : trimmed cs a b -> length b = length a.
Proof. by intros (n & _ & ? & _). Qed.

Lemma wp_identified t ws s :
  strings_ok (drive s) -> length ws = 256%nat -> t <> ATA_DEVICE_NONE ->
  wp (identified t ws) (fun _ s' => s' = set_drive (drive s') s /\
    slave (drive s') = slave (drive s) /\ strings_ok (drive s') /\ described t ws (drive s')) s.
Proof.
  intros (Lm & Lf & Ls) Hl Ht. unfold identified. wp_steps.
  apply wp_copy_string; [by rewrite Ls|lia|lia|lia|lia|]. intros se Hse. wp_step.
  apply wp_copy_string; [by rewrite Lf|lia|lia|lia|lia|]. intros fi Hfi. wp_step.
  apply wp_copy_string; [by rewrite Lm|lia|lia|lia|lia|]. intros mo Hmo. wp_steps.
  pose proof (trimmed_length _ _ _ Hse) as L1. pose proof (trimmed_length _ _ _ Hfi) as L2.
  pose proof (trimmed_length _ _ _ Hmo) as L3.
  split; [done|]. cbn [drive set_drive].
  case_bool_decide; (split; [done|]);
    (split; [unfold strings_ok; cbn; by rewrite L1, L2, L3|]); constructor; cbn; try done;
    by eexists.
Qed.

Lemma probe_failed r s s' : r <> ATA_PROBE_ATA -> r <> ATA_PROBE_ATAPI ->
  blank_drive (drive s) -> strings_ok (drive s) -> moved_on s s' -> probe_outcome s r s'.
Proof.
  intros H1 H2 Hb Hs Hm. destruct (grew_keeps _ _ _ Hm) as (Ec & _ & Ed).
  constructor; rewrite ?Ec, ?Ed; try done. by destruct r.
Qed.

Lemma wp_probe_body s :
  blank_drive (drive s) -> strings_ok (drive s) ->
  wp (probe_body dev) (probe_outcome s) s.
Proof.
  intros Hb Hs. unfold probe_body, ata_select_drive. wp_steps. apply wp_outb. apply wp_delay.
  intros s1 H1. wp_step. apply wp_wait_not_busy. intros ready s2 H2.
  assert (grew byte_event s s2) as H3.
  { eapply grew_trans; [|eapply grew_mono; [apply inb_byte|exact H2]].
    eapply grew_trans; [|eapply grew_mono; [apply inb_byte|exact H1]]. by apply grew_one. }
  destruct ready; cbn [negb].
  2: { wp_steps. apply probe_failed; try done. by eapply moved_on_grew. }
  do 5 (wp_step; apply wp_outb). wp_step.
  eapply wp_mono; [apply wp_identify_command|]. intros r s3 (H4 & Hn1 & Hn2 & Hn3).
  assert (grew byte_event s s3) as H5.
  { eapply grew_trans; [|exact H4]. do 5 (eapply grew_trans; [|by apply grew_one]). exact H3. }
  destruct r as [t|r].
  2: { wp_steps. apply probe_failed; try done; [by intros ->|by intros ->|by eapply moved_on_grew]. }
  wp_step. apply wp_read_words. intros ws s4 H6 Hl Hw.
  assert (moved_on s s4) as H7 by (eapply grew_trans; [by eapply moved_on_grew|exact H6]).
  destruct (negb _). { wp_steps. by apply probe_failed. }
  wp_step. destruct (grew_keeps _ _ _ H7) as (Ec & _ & Ed).
  destruct (grew_words _ _ H5) as [Hw5 _].
  eapply wp_mono; [apply wp_identified; [by rewrite Ed|done|by intros ->]|].
  intros [] s5 (E5 & Hsl & Hstr & Hdesc). wp_steps. constructor.
  - by rewrite E5.
  - by rewrite Hsl, Ed.
  - done.
  - assert (words_in (ata_trace s5) = words_in (ata_trace s) ++ ws) as Hw'
      by (rewrite E5; cbn; by rewrite Hw, Hw5).
    destruct t; [done|..]; cbn; by exists ws.
Qed.

Lemma reset_drive_ok d : strings_ok d -> exists d', reset_drive d = Some d' /\ blank_drive d' /\
  strings_ok d' /\ slave d' = slave d.
Proof.
  intros (Lm & Lf & Ls). unfold reset_drive.
  rewrite !array_set_Some by lia. cbn. eexists. split; [done|]. split; [done|].
  split; [|done]. unfold strings_ok. cbn. by rewrite !length_insert.
Qed.

Lemma wp_probe s :
  strings_ok (drive s) -> has_channel s = true -> channel_lock (channel s) = false ->
  wp (ata_probe_device dev) (probe_outcome s) s.
Proof.
  intros Hs Hc Hl. unfold ata_probe_device. wp_steps. rewrite Hc. cbn [negb]. wp_steps.
  destruct (reset_drive_ok _ Hs) as (d' & Ed & Hb & Hs' & Esl).
  apply wp_of_option. exists d'. split; [done|]. wp_steps. apply wp_spin_lock; [done|]. wp_step.
  eapply wp_mono; [by apply wp_probe_body|]. intros r s1 [P1 P2 P3 P4]. wp_steps.
  apply wp_spin_unlock. wp_steps. cbn in *. constructor; cbn; try done.
  - rewrite P1. cbn. destruct s as [[]]; cbn in *; by subst.
  - by rewrite P2.
Qed.
End AtaProofs.

(** ** The properties of the ATA driver *)

(** When [ata_configure_lba] answers LBA28 or LBA48, the task file registers, read
    the way the drive reads them, hold exactly the block address, the sector count and the
    selected drive; LBA28 is used only when the whole transfer ends below 2^28; and the
    command register is not written, for any answers of the hardware. *)
Lemma configure_lba_correct dev lba count s :
  0 <= lba -> 0 <= count < 256 ->
  exists m s', ata_configure_lba dev lba count s = Done m s' /\
    grew byte_event s s' /\ addressed lba count s m s'.
Proof.
  intros Hl Hc. destruct (wp_inv _ _ _ (wp_configure_lba dev lba count s Hl Hc))
    as (m & s' & E & R). by exists m, s'.
Qed.

(** C30: [ata_read] returns with the channel's lock free, whatever the hardware does; the
    bytes behind the requested sectors are not touched; and when it reports success the
    drive has delivered exactly 256 words per sector and the buffer holds them in order,
    least significant byte first. *)
Theorem ata_read_correct dev lba bytes count s :
  0 <= lba -> 0 <= count < 256 -> 512 * count <= Z.of_nat (length bytes) ->
  channel_lock (channel s) = false -> transfer_error s lba count false = None ->
  exists bytes' s', ata_read dev lba (Some bytes) count s = Done (Some bytes') s' /\
    read_outcome count s bytes bytes' s'.
Proof.
  intros H1 H2 H3 H4 H5. destruct (wp_inv _ _ _ (wp_ata_read dev lba bytes count s H1 H2 H3 H4 H5))
    as (r & s' & E & bytes' & -> & R). by exists bytes', s'.
Qed.

(** [ata_write] returns with the channel's lock free, whatever the hardware does; the
    words it sends are a prefix of the buffer's words in order, and all of the requested
    sectors when it reports success. *)
Lemma ata_write_correct dev lba bytes count s :
  0 <= lba -> 0 <= count < 256 -> 512 * count <= Z.of_nat (length bytes) ->
  channel_lock (channel s) = false -> transfer_error s lba count false = None ->
  exists s', ata_write dev lba (Some bytes) count s = Done () s' /\ write_outcome count s bytes s'.
Proof.
  intros H1 H2 H3 H4 H5. destruct (wp_inv _ _ _ (wp_ata_write dev lba bytes count s H1 H2 H3 H4 H5))
    as ([] & s' & E & R). by exists s'.
Qed.

(** [ata_probe_device] returns with the lock free, whatever the hardware does. It
    reports a disk or a packet device only after 256 identify words, and then the drive
    record is what those words say, with the blanks behind its three strings cut off and
    each string terminated inside its array; on every other result the record is empty. *)
Lemma probe_correct dev s :
  strings_ok (drive s) -> has_channel s = true -> channel_lock (channel s) = false ->
  exists r s', ata_probe_device dev s = Done r s' /\ probe_outcome s r s'.
Proof.
  intros H1 H2 H3. destruct (wp_inv _ _ _ (wp_probe dev s H1 H2 H3)) as (r & s' & E & R).
  by exists r, s'.
Qed.

(** A disk that is always ready: status DRDY and DRQ, data words 0x4142. *)
Definition ready_disk : device := fun _ _ width _ => if width =? 2 then 0x4142 else 0x48.

Definition sample_ata : ata_state :=
  mkAta (mkChannel 0x1F0 0x3F6 false) true
    (mkDrive false ATA_DEVICE_ATA true true 1000 (repeat 0 41) (repeat 0 9) (repeat 0 21) 0) [].

Lemma configure_lba_correct_witness : exists m s',
  ata_configure_lba ready_disk 999 1 sample_ata = Done m s' /\
  grew byte_event sample_ata s' /\ addressed 999 1 sample_ata m s'.
Proof. apply (configure_lba_correct ready_disk 999 1 sample_ata); lia. Defined.

Lemma ata_read_correct_witness : exists bytes' s',
  ata_read ready_disk 10 (Some (repeat 7 1030)) 2 sample_ata = Done (Some bytes') s' /\
  read_outcome 2 sample_ata (repeat 7 1030) bytes' s'.
Proof.
  apply (ata_read_correct ready_disk 10 (repeat 7 1030) 2 sample_ata);
    vm_compute; intuition discriminate.
Defined.

Lemma ata_write_correct_witness : exists s',
  ata_write ready_disk 10 (Some (repeat 7 1030)) 2 sample_ata = Done () s' /\
  write_outcome 2 sample_ata (repeat 7 1030) s'.
Proof.
  apply (ata_write_correct ready_disk 10 (repeat 7 1030) 2 sample_ata);
    vm_compute; intuition discriminate.
Defined.

Lemma probe_correct_witness : exists r s',
  ata_probe_device ready_disk sample_ata = Done r s' /\ probe_outcome sample_ata r s'.
Proof.
  apply (probe_correct ready_disk sample_ata); [split; [|split]; reflexivity|reflexivity..].
Defined.
