(* ===== verification/VMem.v ===== *)
(** * The interface of the virtual allocator

    What [va_alloc.c], [dma.c] and the heaps above rely on when they call [vmalloc] and
    [vfree]. [valloc.c] implements it; the requests whose outcome is proved there are those
    for one page with four frames left. *)
From S2P Require Import KPrelude MemHelpers Spinlock FrameAlloc Paging PagingProofs VAlloc.

Class VMem (V : Type) := {
  vm_alloc : Z -> Z -> Z -> M V EFI_MEMORY_DESCRIPTOR;
  vm_free : EFI_MEMORY_DESCRIPTOR -> M V unit;
  (** the requests that are answered *)
  vm_alloc_ok : Z -> Z -> Z -> V -> Prop;
  vm_free_ok : EFI_MEMORY_DESCRIPTOR -> V -> Prop;
  vm_alloc_spec : forall va pages attr v, vm_alloc_ok va pages attr v ->
    wp (vm_alloc va pages attr) (fun d _ => Attribute d = 0 -> VirtualStart d = va) v;
  vm_free_spec : forall d v, vm_free_ok d v -> wp (vm_free d) (fun _ _ => True) v
}.

(** A page can be mapped, and a mapped page whose frame holds no table can be freed. *)
Definition page_mappable (va pages attr : Z) (s : pg_state) : Prop :=
  let root := KernelPML4 s in
  pages = 1 /\ pt_ok root s /\ small_page (pg_mem s) root va /\ 4 <= reachable_free (pg_fa s) /\
  0 <= va /\ va + 8192 < 2 ^ 64 /\ 0 <= attr < 4096 /\ attr &&& 7 <> 0 /\ attr &&& 128 = 0.
Definition page_freeable (d : EFI_MEMORY_DESCRIPTOR) (s : pg_state) : Prop :=
  let root := KernelPML4 s in
  NumberOfPages d = 1 /\ pt_ok root s /\ 0 <= VirtualStart d /\ VirtualStart d + 8192 < 2 ^ 64 /\
  exists t a, translate (pg_mem s) root (VirtualStart d) = Some (mkLookup (4096 * t) a KB 0) /\
    0 <= t < frames (pg_fa s) /\ not_table root s t.

#[export] Instance kernel_VMem : VMem pg_state.
Proof.
  refine {| vm_alloc := vmalloc; vm_free := vfree; vm_alloc_ok := page_mappable;
            vm_free_ok := page_freeable |}.
  - intros va pages attr s (-> & Hpt & Hs & Hf & H1 & H2 & H3 & H4 & H5).
    eapply wp_mono; [by apply wp_vmalloc_page|].
    intros d s' [(t & _ & -> & _) _ _ _ _] _. done.
  - intros [ty pa va pages at_] s (Hp & Hpt & H1 & H2 & t & a & Ht & Hr & Hn). cbn in *. subst.
    eapply wp_mono; [by eapply wp_vfree_page|]. done.
Defined.
