(* ===== verification/VaAlloc.v ===== *)
(** * The allocator of virtual address ranges ([x86-64/memory/va_alloc.c], [va_def.c])

    Free ranges are the nodes of two trees, one for the kernel's half of the address space
    and one for the user's, kept in pages that the virtual allocator maps. The memory of
    these pages is a map from the address of a header or a node to its record; a pointer is
    an address, 0 is [NULL], and an access anywhere else faults. *)
From S2P Require Import KPrelude MemHelpers Spinlock VMem.

Record va_hd := mkHd {
  free_entries : Z;
  unused_entries : Z;
  next_page : Z;
  former_page : Z
}.

Record va_node := mkNode {
  virtual_base : Z;
  length_ : Z;
  max_length : Z;
  node_attributes : Z;
  UsedNodes : Z;
  va_right : Z;
  va_left : Z;
  Parent : Z
}.

Definition hd_size := 32.
Definition node_size := 51.
Definition hd_slots := (4096 - hd_size) / node_size.

Record va_ret := mkVaRet { ret_status : Z; base : Z; pages : Z; ret_attributes : Z }.

(** [vc]: 512 addresses and an index. *)
Record vc := mkVc { vc_base : list Z; index : Z }.

Record va_state (V : Type) := mkVa {
  va_vm : V;
  hds : gmap Z va_hd;
  nodes : gmap Z va_node;
  va_entries : Z;
  va_max : Z;
  va_header : Z;
  va_kstart : Z;
  va_ustart : Z;
  va_latest : Z;
  va_metadata_pages : Z;
  va_top : Z;
  va_lock : bool;
  v_cache : vc
}.
Arguments mkVa {V}. Arguments va_vm {V}. Arguments hds {V}. Arguments nodes {V}.
Arguments va_entries {V}. Arguments va_max {V}. Arguments va_header {V}.
Arguments va_kstart {V}. Arguments va_ustart {V}. Arguments va_latest {V}.
Arguments va_metadata_pages {V}. Arguments va_top {V}. Arguments va_lock {V}.
Arguments v_cache {V}.

Section Updates.
Context {V : Type}.
Implicit Type s : va_state V.

Definition set_vm (v : V) s := mkVa v (hds s) (nodes s) (va_entries s) (va_max s)
  (va_header s) (va_kstart s) (va_ustart s) (va_latest s) (va_metadata_pages s) (va_top s)
  (va_lock s) (v_cache s).
Definition set_hds (h : gmap Z va_hd) s := mkVa (va_vm s) h (nodes s) (va_entries s) (va_max s)
  (va_header s) (va_kstart s) (va_ustart s) (va_latest s) (va_metadata_pages s) (va_top s)
  (va_lock s) (v_cache s).
Definition set_nodes (n : gmap Z va_node) s := mkVa (va_vm s) (hds s) n (va_entries s) (va_max s)
  (va_header s) (va_kstart s) (va_ustart s) (va_latest s) (va_metadata_pages s) (va_top s)
  (va_lock s) (v_cache s).
Definition set_va_entries (n : Z) s := mkVa (va_vm s) (hds s) (nodes s) n (va_max s)
  (va_header s) (va_kstart s) (va_ustart s) (va_latest s) (va_metadata_pages s) (va_top s)
  (va_lock s) (v_cache s).
Definition set_va_max (n : Z) s := mkVa (va_vm s) (hds s) (nodes s) (va_entries s) n
  (va_header s) (va_kstart s) (va_ustart s) (va_latest s) (va_metadata_pages s) (va_top s)
  (va_lock s) (v_cache s).
Definition set_va_header (p : Z) s := mkVa (va_vm s) (hds s) (nodes s) (va_entries s) (va_max s)
  p (va_kstart s) (va_ustart s) (va_latest s) (va_metadata_pages s) (va_top s)
  (va_lock s) (v_cache s).
Definition set_va_kstart (p : Z) s := mkVa (va_vm s) (hds s) (nodes s) (va_entries s) (va_max s)
  (va_header s) p (va_ustart s) (va_latest s) (va_metadata_pages s) (va_top s)
  (va_lock s) (v_cache s).
Definition set_va_ustart (p : Z) s := mkVa (va_vm s) (hds s) (nodes s) (va_entries s) (va_max s)
  (va_header s) (va_kstart s) p (va_latest s) (va_metadata_pages s) (va_top s)
  (va_lock s) (v_cache s).
Definition set_va_latest (p : Z) s := mkVa (va_vm s) (hds s) (nodes s) (va_entries s) (va_max s)
  (va_header s) (va_kstart s) (va_ustart s) p (va_metadata_pages s) (va_top s)
  (va_lock s) (v_cache s).
Definition set_metadata_pages (n : Z) s := mkVa (va_vm s) (hds s) (nodes s) (va_entries s)
  (va_max s) (va_header s) (va_kstart s) (va_ustart s) (va_latest s) n (va_top s)
  (va_lock s) (v_cache s).
Definition set_va_top (n : Z) s := mkVa (va_vm s) (hds s) (nodes s) (va_entries s) (va_max s)
  (va_header s) (va_kstart s) (va_ustart s) (va_latest s) (va_metadata_pages s) n
  (va_lock s) (v_cache s).
Definition set_va_lock (b : bool) s := mkVa (va_vm s) (hds s) (nodes s) (va_entries s) (va_max s)
  (va_header s) (va_kstart s) (va_ustart s) (va_latest s) (va_metadata_pages s) (va_top s)
  b (v_cache s).
Definition set_v_cache (c : vc) s := mkVa (va_vm s) (hds s) (nodes s) (va_entries s) (va_max s)
  (va_header s) (va_kstart s) (va_ustart s) (va_latest s) (va_metadata_pages s) (va_top s)
  (va_lock s) c.

#[export] Instance va_Lock : Lock (va_state V).
Proof.
  refine {| locked := va_lock; set_locked := set_va_lock |}; [done | done | by intros []].
Defined.
End Updates.

(** The fields of a header and of a node that are written one at a time. *)
Definition with_free (f : Z) (h : va_hd) := mkHd f (unused_entries h) (next_page h) (former_page h).
Definition with_unused (u : Z) (h : va_hd) := mkHd (free_entries h) u (next_page h) (former_page h).
Definition with_next (p : Z) (h : va_hd) := mkHd (free_entries h) (unused_entries h) p (former_page h).
Definition with_former (p : Z) (h : va_hd) := mkHd (free_entries h) (unused_entries h) (next_page h) p.

Definition with_base (b : Z) (n : va_node) := mkNode b (length_ n) (max_length n)
  (node_attributes n) (UsedNodes n) (va_right n) (va_left n) (Parent n).
Definition with_length (l : Z) (n : va_node) := mkNode (virtual_base n) l (max_length n)
  (node_attributes n) (UsedNodes n) (va_right n) (va_left n) (Parent n).
Definition with_max (m : Z) (n : va_node) := mkNode (virtual_base n) (length_ n) m
  (node_attributes n) (UsedNodes n) (va_right n) (va_left n) (Parent n).
Definition with_attributes (a : Z) (n : va_node) := mkNode (virtual_base n) (length_ n)
  (max_length n) a (UsedNodes n) (va_right n) (va_left n) (Parent n).
Definition with_used (u : Z) (n : va_node) := mkNode (virtual_base n) (length_ n) (max_length n)
  (node_attributes n) u (va_right n) (va_left n) (Parent n).
Definition with_right (p : Z) (n : va_node) := mkNode (virtual_base n) (length_ n) (max_length n)
  (node_attributes n) (UsedNodes n) p (va_left n) (Parent n).
Definition with_left (p : Z) (n : va_node) := mkNode (virtual_base n) (length_ n) (max_length n)
  (node_attributes n) (UsedNodes n) (va_right n) p (Parent n).
Definition with_parent (p : Z) (n : va_node) := mkNode (virtual_base n) (length_ n) (max_length n)
  (node_attributes n) (UsedNodes n) (va_right n) (va_left n) p.

Definition USER_SPACE := 0x40000000.
Definition USER_END := 0x7FFFFFFFFFFF.
Definition END := 0xFFFF8FFFFFFFFFFF.
Definition KERNEL_SPACE := 0xFFFFC00000000000.
Definition SPACE_END := 0xFFFFFFFFFFFFFFFF.
Definition VA_TREE := 0xffffb00000000000.
Definition NoEntriesLeft := 0.

Inductive va_labels := left_ | right_ | NoParent.
Definition RIGHT := 1.
Definition LEFT := 2.

(** [USR] *)
Definition USR (attributes : Z) : bool := negb (attributes &&& 0x04 =? 0).

(** The [i]-th node of the page at [hd]. *)
Definition slot (hd i : Z) : Z := hd + hd_size + node_size * i.

Section VaAlloc.
Context {V : Type} `{!VMem V}.
(** [Kernel_end], and what the memory of a page that was just mapped reads as. *)
Context (Kernel_end : Z) (stale : Z -> va_node).

Abbreviation St := (va_state V).

Definition vm {A} (m : M V A) : M St A := zoom va_vm set_vm m.

Definition hd_at (p : Z) : M St va_hd := h ← gets hds; of_option (h !! p).
Definition node_at (p : Z) : M St va_node := n ← gets nodes; of_option (n !! p).
Definition upd_hd (p : Z) (f : va_hd -> va_hd) : M St unit :=
  h ← hd_at p; modify (fun s => set_hds (<[p := f h]> (hds s)) s).
Definition upd_node (p : Z) (f : va_node -> va_node) : M St unit :=
  n ← node_at p; modify (fun s => set_nodes (<[p := f n]> (nodes s)) s).

(** The records in a page that was mapped; all four fields of its header are [h]'s. *)
Definition page_nodes (p : Z) : gmap Z va_node :=
  list_to_map ((fun i => (slot p (Z.of_nat i), stale (slot p (Z.of_nat i)))) <$>
    seq 0 (Z.to_nat hd_slots)).
Definition map_page (p : Z) (h : va_hd) : M St unit :=
  modify (fun s => set_nodes (page_nodes p ∪ nodes s) (set_hds (<[p := h]> (hds s)) s)).
(** A page that was freed is no longer there. *)
Definition unmap_page (p : Z) : M St unit :=
  modify (fun s => set_nodes (filter (fun x => x.1 &&& Z.lnot 0xFFF <> p) (nodes s))
                             (set_hds (delete p (hds s)) s)).

Definition find_hd (entry : Z) : Z := u64 (entry &&& Z.lnot 0xFFF).

(** The block of [find_new_entry] that adds a page behind [hd], and its first node;
    [None] when no page could be mapped. *)
Definition add_page (hd : Z) : M St (option Z) :=
  c ← gets v_cache;
  new_hd ←
    (if index c >? 0 then
       let i := index c - 1 in
       modify (set_v_cache (mkVc (vc_base c) i));;
       b ← of_option (array_get (vc_base c) i);
       top ← gets va_top;
       (if b >=? top then modify (set_va_top (u64 (b + 0x1000))) else mret ());;
       alloc ← vm (vm_alloc b 1 0x03);
       mret (if negb (Attribute alloc =? 0) then None else Some (VirtualStart alloc))
     else
       top ← gets va_top;
       alloc ← vm (vm_alloc top 1 0x03);
       if negb (Attribute alloc =? 0) then mret None
       else modify (set_va_top (u64 (top + 0x1000)));; mret (Some top));
  match new_hd with
  | None => mret None
  | Some p =>
      modify (fun s => set_metadata_pages (va_metadata_pages s + 1) s);;
      map_page p (mkHd hd_slots 0 0 hd);;
      upd_hd hd (with_next p);;
      mret (Some (slot p 0))
  end.

(** The first page from [hd] on with a free node, added when there is none, and its first
    node in this case; [None] when no page could be mapped. *)
Definition find_page (hd : Z) : M St (option (Z * Z)) :=
  while FUEL (fun '(hd, entry) =>
    h ← hd_at hd;
    if free_entries h =? NoEntriesLeft then
      entry ← (if next_page h =? 0 then add_page hd else mret (Some entry));
      match entry with
      | None => mret (inr None)
      | Some entry => h ← hd_at hd; mret (inl (next_page h, entry))
      end
    else mret (inr (Some (hd, entry)))) (hd, 0).

(** 0 is [NULL]. *)
Definition find_new_entry (Pos : va_labels) (parent : Z) : M St Z :=
  header ← gets va_header;
  r ← find_page header;
  match r with
  | None => mret 0
  | Some (hd, entry) =>
      latest ← gets va_latest;
      let entry := if entry =? 0 then latest + node_size else entry in
      upd_node entry (fun n => with_used 0 (with_parent parent (with_left 0 (with_right 0 n))));;
      match Pos with
      | right_ => upd_node parent (fun n => with_used (UsedNodes n ||| RIGHT) (with_right entry n))
      | left_ => upd_node parent (fun n => with_used (UsedNodes n ||| LEFT) (with_left entry n))
      | NoParent => mret ()
      end;;
      modify (set_va_latest entry);;
      modify (fun s => set_va_entries (va_entries s + 1) s);;
      upd_hd hd (fun h => with_free (u64 (free_entries h - 1)) h);;
      mret entry
  end.

(** [child != NULL && child->max_length > max] makes the child's the maximum. *)
Definition larger (child max : Z) : M St Z :=
  if child =? 0 then mret max
  else n ← node_at child; mret (if max_length n >? max then max_length n else max).

Definition UpdateParents (entry : Z) : M St unit :=
  while FUEL (fun entry =>
    if entry =? 0 then mret (inr ())
    else
      n ← node_at entry;
      max ← larger (va_left n) (length_ n);
      max ← larger (va_right n) max;
      upd_node entry (with_max max);;
      n ← node_at entry;
      mret (inl (Parent n))) entry.

(** [child != NULL && child->max_length >= size] *)
Definition worth (child size : Z) : M St bool :=
  if child =? 0 then mret false else n ← node_at child; mret (max_length n >=? size).

Definition find_fit (entry size : Z) : M St Z :=
  while FUEL (fun entry =>
    if entry =? 0 then mret (inr 0)
    else
      n ← node_at entry;
      if length_ n >=? size then mret (inr entry)
      else
        worth (va_left n) size ≫= fun w : bool =>
        if w then mret (inl (va_left n))
        else
          worth (va_right n) size ≫= fun w : bool =>
          if w then mret (inl (va_right n)) else mret (inr 0)) entry.

Definition update_latest (hd : Z) : M St unit :=
  h ← hd_at hd;
  m ← gets va_max;
  let place := u64 (m - free_entries h + unused_entries h) in
  modify (set_va_latest (slot hd (u64 (place - 1)))).

(** One turn of the loop that gives metadata pages back, on [last_hd] and [miss]. *)
Definition release_step (last_hd : Z) (miss : bool) : M St (Z * bool) :=
  h ← hd_at last_hd;
  m ← gets va_max;
  if free_entries h =? m then
    top ← gets va_top;
    (if last_hd =? u64 (top - 0x1000) then modify (set_va_top (u64 (top - 0x1000))) else mret ());;
    (if negb miss then
       upd_hd (former_page h) (with_next 0);;
       update_latest (former_page h)
     else
       upd_hd (former_page h) (with_next (next_page h));;
       upd_hd (next_page h) (with_former (former_page h));;
       c ← gets v_cache;
       b ← of_option (array_set (vc_base c) (index c) last_hd);
       modify (set_v_cache (mkVc b (if index c <? 511 then index c + 1 else index c))));;
    h ← hd_at last_hd;
    vm (vm_free (mkDesc 0 0 last_hd 1 0));;
    unmap_page last_hd;;
    modify (fun s => set_metadata_pages (va_metadata_pages s - 1) s);;
    mret (former_page h, miss)
  else mret (former_page h, true).

(** A node without children that holds no more addresses leaves its tree. *)
Definition drop_entry (entry : Z) : M St unit :=
  n ← node_at entry;
  if negb (UsedNodes n =? 0) then mret ()
  else
    modify (fun s => set_va_entries (va_entries s - 1) s);;
    let pg_hd := find_hd entry in
    upd_hd pg_hd (fun h => with_free (u64 (free_entries h + 1)) h);;
    if Parent n =? 0 then mret ()
    else
      p ← node_at (Parent n);
      (if va_left p =? entry then
         upd_node (Parent n) (fun p => with_used (UsedNodes p &&& Z.lnot LEFT) (with_left 0 p))
       else if va_right p =? entry then
         upd_node (Parent n) (fun p => with_used (UsedNodes p &&& Z.lnot RIGHT) (with_right 0 p))
       else mret ());;
      upd_node entry (with_parent 0);;
      upd_hd pg_hd (fun h => with_unused (u64 (unused_entries h + 1)) h);;
      latest ← gets va_latest;
      while FUEL (fun '(last_hd, miss) =>
        header ← gets va_header;
        if last_hd =? header then mret (inr ())
        else r ← release_step last_hd miss; mret (inl r)) (find_hd latest, false).

(** The first page of metadata; [false] when it cannot be mapped. *)
Definition init_header : M St bool :=
  alloc ← vm (vm_alloc VA_TREE 1 0x03);
  if negb (Attribute alloc =? 0) then mret false
  else
    modify (fun s => set_va_top (u64 (va_top s + 0x1000)) s);;
    modify (set_va_header VA_TREE);;
    map_page VA_TREE (mkHd hd_slots 0 0 0);;
    modify (set_va_max (i32 hd_slots));;
    mret true.

(** The three nodes of the empty address space. *)
Definition init_nodes : M St unit :=
  header ← gets va_header;
  let kstart := slot header 0 in
  modify (set_va_kstart kstart);;
  modify (fun s => set_va_entries (va_entries s + 1) s);;
  upd_hd header (fun h => with_free (u64 (free_entries h - 1)) h);;
  let kbase := u64 (Kernel_end + 4095) &&& 0xFFFFFFFFFFFFF000 in
  upd_node kstart (fun n =>
    with_length (u64 (u64 (END - kbase) + 1)) (with_base kbase (with_attributes 0x03
      (with_used 0 (with_parent 0 (with_right 0 (with_left 0 n)))))));;
  modify (set_va_latest kstart);;
  right_node ← find_new_entry right_ kstart;
  upd_node right_node (fun n =>
    let len := SPACE_END - KERNEL_SPACE + 1 in
    with_max len (with_length len (with_attributes 0x03 (with_base KERNEL_SPACE n))));;
  r ← node_at right_node;
  upd_node kstart (with_max (max_length r));;
  ustart ← find_new_entry NoParent 0;
  modify (set_va_ustart ustart);;
  upd_node ustart (fun n =>
    let len := USER_END - USER_SPACE + 1 in
    with_max len (with_length len (with_base USER_SPACE (with_attributes 0x07
      (with_used 0 n))))).

(** The part of [va_alloc] behind the set-up. *)
Definition allocate (pages attributes : Z) : M St va_ret :=
  let rsz := u64 (pages <<< 12) in
  root ← gets (if USR attributes then va_ustart else va_kstart);
  entry ← find_fit root rsz;
  if entry =? 0 then spin_unlock;; mret (mkVaRet 1 0 0 0)
  else
    n ← node_at entry;
    alloc ← vm (vm_alloc (virtual_base n) pages attributes);
    if negb (Attribute alloc =? 0) then spin_unlock;; mret (mkVaRet 1 0 0 0)
    else
      upd_node entry (fun n => with_length (u64 (length_ n - rsz))
                                 (with_base (u64 (virtual_base n + rsz)) n));;
      UpdateParents entry;;
      (if u64 (length_ n - rsz) =? 0 then drop_entry entry else mret ());;
      spin_unlock;;
      mret (mkVaRet 0 (VirtualStart alloc) pages attributes).

(** The metadata that the first call finds missing. *)
Definition set_up : M St bool :=
  header ← gets va_header;
  (if header =? 0 then init_header else mret true) ≫= fun ok : bool =>
  if negb ok then mret false
  else
    entries ← gets va_entries;
    (if entries =? 0 then init_nodes else mret ());;
    mret true.

Definition va_alloc (pages attributes : Z) : M St va_ret :=
  if pages =? 0 then mret (mkVaRet 1 0 0 0)
  else
    spin_lock;;
    set_up ≫= fun ok : bool =>
    if negb ok then spin_unlock;; mret (mkVaRet 1 0 0 0) else allocate pages attributes.

(** The nodes of the page [pghd] that were handed out so far. *)
Definition slots_used (h : va_hd) (m : Z) : Z := m + i32 (unused_entries h) - i32 (free_entries h).

(** The first of the [entries] nodes from [src] on that satisfies [test]. *)
Definition scan_slots (test : va_node -> bool) (src entries : Z) : M St (option Z) :=
  r ← for_ 0 entries (fun _ '(src, found) =>
        match found with
        | Some _ => mret (src, found)
        | None =>
            n ← node_at src;
            if test n then mret (src, Some src) else mret (src + node_size, None)
        end) (src, None);
  mret r.2.

Definition usable (attributes : Z) (n : va_node) : bool :=
  (node_attributes n =? attributes) && negb (UsedNodes n &&& 0x03 =? 3) && negb (length_ n =? 0).

Definition find_last (attributes pghd : Z) : M St Z :=
  while FUEL (fun pghd =>
    if pghd =? 0 then mret (inr 0)
    else
      h ← hd_at pghd;
      m ← gets va_max;
      found ← scan_slots (usable attributes) (slot pghd 0) (slots_used h m);
      match found with
      | Some src => mret (inr src)
      | None => mret (inl (next_page h))
      end) pghd.

Definition attach_node (parent child : Z) : M St unit :=
  if (parent =? 0) || (child =? 0) then mret ()
  else
    p ← node_at parent;
    if UsedNodes p &&& 0x03 =? 3 then mret ()
    else
      (if UsedNodes p &&& RIGHT =? 0 then
         upd_node parent (fun p => with_used (UsedNodes p ||| RIGHT) (with_right child p))
       else if UsedNodes p &&& LEFT =? 0 then
         upd_node parent (fun p => with_used (UsedNodes p ||| LEFT) (with_left child p))
       else mret ());;
      upd_node child (with_parent parent).

(** A node that left its tree. *)
Definition dropped (n : va_node) : bool :=
  (length_ n =? 0) && (Parent n =? 0) && negb (UsedNodes n &&& 0x03 =? 3).

(** The search for a dropped node to use again: its page and the node. *)
Definition find_dropped (pghd : Z) : M St (option (Z * Z)) :=
  while FUEL (fun pghd =>
    if pghd =? 0 then mret (inr None)
    else
      h ← hd_at pghd;
      if unused_entries h =? 0 then mret (inl (next_page h))
      else
        m ← gets va_max;
        found ← scan_slots dropped (slot pghd 0) (slots_used h m);
        match found with
        | Some src => mret (inr (Some (pghd, src)))
        | None => mret (inl (next_page h))
        end) pghd.

Definition va_free (desc : va_ret) : M St unit :=
  if negb (ret_status desc =? 0) || (pages desc =? 0) then mret ()
  else
    let alloc := mkDesc 0 0 (base desc) (pages desc) 0 in
    let rsz := u64 (pages desc <<< 12) in
    spin_lock;;
    pghd ← gets va_header;
    last ← find_last (ret_attributes desc) pghd;
    if last =? 0 then spin_unlock
    else
      metadata_pages ← gets va_metadata_pages;
      h ← hd_at pghd;
      found ← (if (metadata_pages =? 0) && (unused_entries h =? 0) then mret None
               else find_dropped pghd);
      match found with
      | Some (pghd, src) =>
          upd_node src (fun n => with_length rsz (with_attributes (ret_attributes desc)
                                   (with_base (base desc) n)));;
          attach_node last src;;
          UpdateParents src;;
          upd_hd pghd (fun h => with_free (u64 (free_entries h - 1))
                                  (with_unused (u64 (unused_entries h - 1)) h));;
          modify (fun s => set_va_entries (va_entries s + 1) s)
      | None =>
          node ← find_new_entry NoParent 0;
          upd_node node (fun n => with_length rsz (with_base (base desc)
                                    (with_attributes (ret_attributes desc) n)));;
          attach_node last node;;
          UpdateParents node
      end;;
      vm (vm_free alloc);;
      spin_unlock.
End VaAlloc.
