(* ===== verification/VaProofs.v ===== *)
(** * The allocator of address ranges: proofs

    The trees of [va_alloc.c] as values, the relation between a tree and the nodes in memory,
    and the operations of the allocator as changes of the set of free ranges. *)
From S2P Require Import KPrelude MemHelpers Spinlock Paging VMem VaAlloc.

(** ** Trees *)

Inductive tree := Leaf | Node (p b len : Z) (l r : tree).

Definition addr (t : tree) : Z := match t with Leaf => 0 | Node p _ _ _ _ => p end.
Definition root_len (t : tree) : Z := match t with Leaf => 0 | Node _ _ len _ _ => len end.
Fixpoint mx (t : tree) : Z :=
  match t with Leaf => 0 | Node _ _ len l r => Z.max (Z.max len (mx l)) (mx r) end.
Fixpoint addrs (t : tree) : list Z :=
  match t with Leaf => [] | Node p _ _ l r => p :: addrs l ++ addrs r end.
(** The ranges the nodes hold, some of them empty, and the free ones. *)
Fixpoint regions (t : tree) : list (Z * Z) :=
  match t with Leaf => [] | Node _ b len l r => (b, len) :: regions l ++ regions r end.
Definition nonempty (x : Z * Z) : Prop := x.2 <> 0.
Definition free (t : tree) : list (Z * Z) := filter nonempty (regions t).

(** The node that [find_fit] should choose: the first one, the node itself before its left
    and its right subtree, whose range is large enough. *)
Fixpoint fit (t : tree) (size : Z) : option Z :=
  match t with
  | Leaf => None
  | Node p _ len l r =>
      if len >=? size then Some p
      else match fit l size with Some q => Some q | None => fit r size end
  end.

Definition bit_of (bit : Z) (t : tree) : Z := match t with Leaf => 0 | _ => bit end.
(** The record of a node with the subtrees [l] and [r]. *)
Definition rec (attr parent b len m : Z) (l r : tree) : va_node :=
  mkNode b len m attr (bit_of RIGHT r + bit_of LEFT l) (addr r) (addr l) parent.

(** The nodes of [t] are in memory, with exact maxima, below [parent]. *)
Fixpoint rep (ns : gmap Z va_node) (attr parent : Z) (t : tree) : Prop :=
  match t with
  | Leaf => True
  | Node p b len l r =>
      p <> 0 /\ 0 <= len < 2 ^ 64 /\ ns !! p = Some (rec attr parent b len (mx t) l r) /\
      rep ns attr p l /\ rep ns attr p r
  end.

Lemma mx_nonneg ns attr par t : rep ns attr par t -> 0 <= mx t.
Proof. destruct t; cbn; intros; [lia|]. destruct H as (? & ? & _). lia. Qed.

Lemma rep_frame ns ns' attr t : forall par,
  (forall a, a ∈ addrs t -> ns' !! a = ns !! a) -> rep ns attr par t -> rep ns' attr par t.
Proof.
  induction t as [|p b len l IHl r IHr]; intros par H; [done|]. cbn in *.
  intros (Hp & Hl & E & Rl & Rr). rewrite H by set_solver.
  refine (conj Hp (conj Hl (conj E (conj _ _)))).
  - apply IHl; [|done]. intros. apply H. set_solver.
  - apply IHr; [|done]. intros. apply H. set_solver.
Qed.

Lemma rep_insert ns a n attr t par : a ∉ addrs t -> rep ns attr par t -> rep (<[a := n]> ns) attr par t.
Proof.
  intros Ha. apply rep_frame. intros b Hb. apply lookup_insert_ne. by intros ->.
Qed.

Lemma rep_lookup ns attr t : forall par a, rep ns attr par t -> a ∈ addrs t -> exists n, ns !! a = Some n.
Proof.
  induction t as [|p b len l IHl r IHr]; intros par a; cbn; [set_solver|].
  intros (_ & _ & E & Rl & Rr) [->|[H|H]%elem_of_app]%elem_of_cons; eauto.
Qed.

Lemma rep_addr ns attr par t : rep ns attr par t -> addr t = 0 <-> t = Leaf.
Proof. destruct t; cbn; [done|]. intros (? & _). split; [done|discriminate]. Qed.

Lemma fit_mx t size : 0 < size -> fit t size = None <-> mx t < size.
Proof.
  intros Hs. induction t as [|p b len l IHl r IHr]; cbn; [split; [lia|done]|].
  destruct (Z.geb_spec len size); [split; [done|lia]|].
  destruct (fit l size); [|rewrite IHr; assert (mx l < size) by (by apply IHl); lia].
  split; [done|]. assert (~ mx l < size) by (rewrite <- IHl; done). lia.
Qed.

(** ** A node in its tree *)

Inductive side := L | R.
(** What surrounds a subtree, from the inside out. *)
Record frame := mkFrame { f_side : side; f_p : Z; f_b : Z; f_len : Z; f_other : tree }.

Definition join (f : frame) (t : tree) : tree :=
  match f_side f with
  | L => Node (f_p f) (f_b f) (f_len f) t (f_other f)
  | R => Node (f_p f) (f_b f) (f_len f) (f_other f) t
  end.
Fixpoint plug (c : list frame) (t : tree) : tree :=
  match c with [] => t | f :: c => plug c (join f t) end.
Fixpoint addrs_ctx (c : list frame) : list Z :=
  match c with [] => [] | f :: c => f_p f :: addrs (f_other f) ++ addrs_ctx c end.
Fixpoint regions_ctx (c : list frame) : list (Z * Z) :=
  match c with [] => [] | f :: c => (f_b f, f_len f) :: regions (f_other f) ++ regions_ctx c end.
Definition above (c : list frame) : Z := match c with [] => 0 | f :: _ => f_p f end.

(** The record of a frame's node around [t]. *)
Definition frame_rec (f : frame) (attr parent m : Z) (t : tree) : va_node :=
  match f_side f with
  | L => rec attr parent (f_b f) (f_len f) m t (f_other f)
  | R => rec attr parent (f_b f) (f_len f) m (f_other f) t
  end.

(** The surroundings of [t] are in memory, but for the maxima on the path to the root. *)
Fixpoint rep_ctx (ns : gmap Z va_node) (attr : Z) (c : list frame) (t : tree) : Prop :=
  match c with
  | [] => True
  | f :: c =>
      f_p f <> 0 /\ 0 <= f_len f < 2 ^ 64 /\
      (exists m, ns !! f_p f = Some (frame_rec f attr (above c) m t)) /\
      rep ns attr (f_p f) (f_other f) /\ rep_ctx ns attr c (join f t)
  end.

Lemma plug_addrs c : forall t, addrs (plug c t) ≡ₚ addrs t ++ addrs_ctx c.
Proof.
  induction c as [|[[] p b len o] c IH]; intros t; cbn; [by rewrite app_nil_r| |];
    rewrite IH; cbn; solve_Permutation.
Qed.

Lemma plug_regions c : forall t, regions (plug c t) ≡ₚ regions t ++ regions_ctx c.
Proof.
  induction c as [|[[] p b len o] c IH]; intros t; cbn; [by rewrite app_nil_r| |];
    rewrite IH; cbn; solve_Permutation.
Qed.

Lemma plug_find t a : a ∈ addrs t -> exists c b len l r, t = plug c (Node a b len l r).
Proof.
  induction t as [|p b len l IHl r IHr]; cbn; [set_solver|].
  intros [->|[H|H]%elem_of_app]%elem_of_cons.
  - by exists [], b, len, l, r.
  - destruct (IHl H) as (c & b' & len' & l' & r' & ->).
    exists (c ++ [mkFrame L p b len r]), b', len', l', r'.
    clear. generalize (Node a b' len' l' r'). induction c; intros t; cbn; [done|]. apply IHc.
  - destruct (IHr H) as (c & b' & len' & l' & r' & ->).
    exists (c ++ [mkFrame R p b len l]), b', len', l', r'.
    clear. generalize (Node a b' len' l' r'). induction c; intros t; cbn; [done|]. apply IHc.
Qed.

Lemma rep_plug ns attr c : forall t,
  rep ns attr 0 (plug c t) -> rep ns attr (above c) t /\ rep_ctx ns attr c t.
Proof.
  induction c as [|f c IH]; intros t H; cbn in *; [done|].
  destruct (IH _ H) as [R C]. destruct f as [[] p b len o]; cbn in *;
    destruct R as (Hp & Hl & E & R1 & R2);
    (split; [done|refine (conj Hp (conj Hl (conj _ (conj _ C)))); [by eexists|done]]).
Qed.

Lemma rep_ctx_frame ns ns' attr c : forall t,
  (forall a, a ∈ addrs_ctx c -> ns' !! a = ns !! a) -> rep_ctx ns attr c t -> rep_ctx ns' attr c t.
Proof.
  induction c as [|f c IH]; intros t H; cbn in *; [done|].
  intros (Hp & Hl & (m & E) & Ro & Rc). rewrite H by set_solver.
  refine (conj Hp (conj Hl (conj (ex_intro _ m E) (conj _ _)))).
  - eapply rep_frame; [|done]. intros; apply H; set_solver.
  - apply IH; [|done]. intros; apply H; set_solver.
Qed.

Lemma rep_ctx_insert ns a n attr c t :
  a ∉ addrs_ctx c -> rep_ctx ns attr c t -> rep_ctx (<[a := n]> ns) attr c t.
Proof.
  intros Ha. apply rep_ctx_frame. intros b Hb. apply lookup_insert_ne. by intros ->.
Qed.

(** Only the address and the presence of the hole matter to what surrounds it. *)
Lemma rep_ctx_hole ns attr c : forall t t',
  addr t = addr t' -> (t = Leaf <-> t' = Leaf) -> rep_ctx ns attr c t -> rep_ctx ns attr c t'.
Proof.
  induction c as [|f c IH]; intros t t' Ha Hl; cbn; [done|].
  intros (Hp & Hlen & (m & E) & Ro & Rc). refine (conj Hp (conj Hlen (conj _ (conj Ro _)))).
  - exists m. rewrite E. f_equal. unfold frame_rec, rec.
    assert (forall b, bit_of b t = bit_of b t') as Hb
      by (intros b; destruct t, t'; cbn; try done; exfalso; intuition discriminate).
    destruct (f_side f); by rewrite Ha, Hb.
  - eapply IH; [| |exact Rc]; destruct f as [[]]; cbn; done.
Qed.

(** ** Access rules *)

Section Trees.
Context {V : Type}.
Implicit Type s : va_state V.

Lemma wp_node_at p n (Q : va_node -> va_state V -> Prop) s :
  nodes s !! p = Some n -> Q n s -> wp (node_at p) Q s.
Proof. intros E HQ. unfold node_at. wp_steps. apply wp_of_option. eauto. Qed.

Lemma wp_hd_at p h (Q : va_hd -> va_state V -> Prop) s :
  hds s !! p = Some h -> Q h s -> wp (hd_at p) Q s.
Proof. intros E HQ. unfold hd_at. wp_steps. apply wp_of_option. eauto. Qed.

Lemma wp_upd_node p f n (Q : unit -> va_state V -> Prop) s :
  nodes s !! p = Some n -> Q () (set_nodes (<[p := f n]> (nodes s)) s) -> wp (upd_node p f) Q s.
Proof. intros E HQ. unfold upd_node. wp_step. eapply wp_node_at; [done|]. by wp_steps. Qed.

Lemma wp_upd_hd p f h (Q : unit -> va_state V -> Prop) s :
  hds s !! p = Some h -> Q () (set_hds (<[p := f h]> (hds s)) s) -> wp (upd_hd p f) Q s.
Proof. intros E HQ. unfold upd_hd. wp_step. eapply wp_hd_at; [done|]. by wp_steps. Qed.

(** ** [find_fit] *)

Lemma wp_worth t ns attr par size s (Q : bool -> va_state V -> Prop) :
  nodes s = ns -> rep ns attr par t -> 0 < size -> Q (size <=? mx t) s ->
  wp (worth (addr t) size) Q s.
Proof.
  intros <- R Hs HQ. unfold worth. destruct t as [|p b len l r].
  - cbn in *. change (0 =? 0) with true. cbn. wp_steps. by destruct (Z.leb_spec size 0); [lia|].
  - pose proof R as (Hp & _ & E & _). cbn [addr]. destruct (Z.eqb_spec p 0); [done|].
    wp_step. eapply wp_node_at; [done|]. wp_steps. unfold rec. cbn [max_length].
    by rewrite Z.geb_leb.
Qed.

Fixpoint height (t : tree) : Z :=
  match t with Leaf => 0 | Node _ _ _ l r => 1 + Z.max (height l) (height r) end.

Lemma height_le t : 0 <= height t <= Z.of_nat (length (addrs t)).
Proof. induction t; cbn; [lia|]. rewrite length_app. lia. Qed.

Lemma wp_find_fit attr par t size s :
  rep (nodes s) attr par t -> 0 < size -> height t < 2 ^ 64 - 1 ->
  wp (find_fit (addr t) size) (fun a s' => a = default 0 (fit t size) /\ s' = s) s.
Proof.
  intros R Hs Hh. unfold find_fit.
  eapply (wp_while_ix _ (fun x a s' => s' = s /\ a = addr x /\
      (exists par', rep (nodes s) attr par' x) /\ fit x size = fit t size) height).
  - intros x a s1 (-> & -> & [par' Rx] & Ef). destruct x as [|p b len l r].
    { cbn [addr]. change (0 =? 0) with true. cbn iota. wp_steps. by rewrite <- Ef. }
    pose proof Rx as (Hp & Hl & E & Rl & Rr). cbn [addr]. destruct (Z.eqb_spec p 0); [done|].
    wp_step. eapply wp_node_at; [done|]. cbn [fit] in Ef. unfold rec. cbn [length_ va_left va_right].
    destruct (len >=? size). { wp_steps. by rewrite <- Ef. }
    wp_step. eapply wp_worth; [done|done|done|]. destruct (Z.leb_spec size (mx l)) as [Hm|Hm].
    + wp_steps. exists l. destruct (fit l size) eqn:El.
      * split; [|cbn; pose proof (height_le l); lia]. split_and!; eauto; congruence.
      * apply fit_mx in El; lia.
    + assert (fit l size = None) as El by (by apply fit_mx). rewrite El in Ef.
      wp_step. eapply wp_worth; [done|done|done|]. destruct (Z.leb_spec size (mx r)).
      * wp_steps. exists r. split; [|cbn; pose proof (height_le r); lia]. split_and!; eauto.
      * wp_steps. assert (fit r size = None) as Er by (by apply fit_mx). by rewrite <- Ef, Er.
  - by eauto.
  - unfold FUEL. lia.
Qed.

(** ** [UpdateParents] *)

Lemma wp_larger t attr par m s (Q : Z -> va_state V -> Prop) :
  rep (nodes s) attr par t -> 0 <= m -> Q (Z.max m (mx t)) s -> wp (larger (addr t) m) Q s.
Proof.
  intros R Hm HQ. unfold larger. destruct t as [|p b len l r].
  - cbn [addr mx] in *. change (0 =? 0) with true. cbn iota. wp_steps. by rewrite Z.max_l in HQ by lia.
  - pose proof R as (Hp & _ & E & _). cbn [addr]. destruct (Z.eqb_spec p 0); [done|].
    wp_step. eapply wp_node_at; [done|]. wp_steps. unfold rec. cbn [max_length].
    destruct (Z.gtb_spec (mx (Node p b len l r)) m); [rewrite Z.max_r in HQ by lia|
      rewrite Z.max_l in HQ by lia]; done.
Qed.

(** The node [p] with the subtrees [l] and [r] below [c] is in memory, its own maximum and
    those above it not yet known to be right. *)
Definition stale_at (ns : gmap Z va_node) (attr : Z) (c : list frame) (t : tree) : Prop :=
  match t with
  | Leaf => False
  | Node p b len l r =>
      p <> 0 /\ 0 <= len < 2 ^ 64 /\ (exists m, ns !! p = Some (rec attr (above c) b len m l r)) /\
      rep ns attr p l /\ rep ns attr p r /\ rep_ctx ns attr c t
  end.

Lemma join_stale ns attr c f p b len l r m :
  NoDup (addrs (plug (f :: c) (Node p b len l r))) ->
  stale_at ns attr (f :: c) (Node p b len l r) -> m = mx (Node p b len l r) ->
  stale_at (<[p := rec attr (f_p f) b len m l r]> ns) attr c (join f (Node p b len l r)).
Proof.
  intros Hd (Hp & Hlen & _ & Rl & Rr & (Hq & Hlq & (mq & Eq) & Ro & Rc)) ->.
  rewrite plug_addrs in Hd. cbn in Hd. rewrite <- app_assoc in Hd.
  apply NoDup_cons in Hd as [Hn Hd]. 
  assert (rep (<[p := rec attr (f_p f) b len (mx (Node p b len l r)) l r]> ns) attr (f_p f)
    (Node p b len l r)) as Rp.
  { refine (conj Hp (conj Hlen (conj _ (conj _ _)))); [by rewrite lookup_insert_eq|..];
      (apply rep_insert; [set_solver|done]). }
  assert (rep (<[p := rec attr (f_p f) b len (mx (Node p b len l r)) l r]> ns) attr (f_p f)
    (f_other f)) as Rf by (apply rep_insert; [set_solver|done]).
  assert (rep_ctx (<[p := rec attr (f_p f) b len (mx (Node p b len l r)) l r]> ns) attr c
    (join f (Node p b len l r))) as Rc' by (apply rep_ctx_insert; [set_solver|done]).
  destruct f as [[] q qb ql o]; cbn [join f_side f_p f_b f_len f_other] in *; cbn [stale_at];
    refine (conj Hq (conj Hlq (conj (ex_intro _ mq _) _)));
    (rewrite lookup_insert_ne by set_solver; exact Eq) || done.
Qed.

Lemma wp_UpdateParents attr c t s :
  stale_at (nodes s) attr c t -> NoDup (addrs (plug c t)) -> Z.of_nat (length c) < 2 ^ 63 ->
  wp (UpdateParents (addr t)) (fun _ s' => exists ns', s' = set_nodes ns' s /\
    rep ns' attr 0 (plug c t) /\ forall a, a ∉ addrs (plug c t) -> ns' !! a = nodes s !! a) s.
Proof.
  intros St Hd Hc. unfold UpdateParents. set (whole := plug c t) in *.
  eapply (wp_while_ix _ (fun (x : option (list frame * tree)) a s' => exists ns',
      s' = set_nodes ns' s /\ (forall a, a ∉ addrs whole -> ns' !! a = nodes s !! a) /\
      match x with
      | Some (c', t') => plug c' t' = whole /\ stale_at ns' attr c' t' /\ a = addr t'
      | None => rep ns' attr 0 whole /\ a = 0
      end) (fun x => match x with Some (c', _) => 1 + Z.of_nat (length c') | None => 0 end)).
  - intros x a s1 (ns & -> & Hout & H). destruct x as [[c' t']|].
    2:{ destruct H as [R ->]. change (0 =? 0) with true. cbn iota. wp_steps. by exists ns. }
    destruct H as (Ew & Sx & ->). destruct t' as [|p b len l r]; [done|].
    pose proof Sx as (Hp & Hlen & (m & E) & Rl & Rr & Rc). cbn [addr].
    destruct (Z.eqb_spec p 0); [done|]. wp_step. eapply wp_node_at; [done|].
    cbn [rec va_left va_right length_]. wp_step. eapply wp_larger; [done|lia|]. wp_step.
    pose proof (mx_nonneg _ _ _ _ Rl). pose proof (mx_nonneg _ _ _ _ Rr).
    eapply wp_larger; [done|lia|]. change (Z.max (Z.max len (mx l)) (mx r)) with (mx (Node p b len l r)).
    wp_step. eapply wp_upd_node; [done|]. wp_step.
    eapply wp_node_at; [cbn [nodes set_nodes]; apply lookup_insert_eq|].
    cbn [with_max rec Parent]. wp_steps. cbn [nodes set_nodes].
    assert (p ∈ addrs whole) as Hin by (rewrite <- Ew, plug_addrs; set_solver).
    destruct c' as [|f c'].
    + exists None. split; [|cbn; lia]. eexists. split; [done|]. split.
      * intros a Ha. rewrite lookup_insert_ne by (by intros ->). by apply Hout.
      * split; [|done]. cbn in Ew. rewrite <- Ew in *. cbn in Hd. apply NoDup_cons in Hd as [Hn Hd].
        refine (conj Hp (conj Hlen (conj _ (conj _ _)))); [by rewrite lookup_insert_eq|..];
          (apply rep_insert; [set_solver|done]).
    + exists (Some (c', join f (Node p b len l r))). split; [|cbn [length]; lia].
      eexists. split; [done|]. split.
      * intros a Ha. rewrite lookup_insert_ne by (by intros ->). by apply Hout.
      * split; [by rewrite <- Ew|]. split; [|by destruct f as [[]]].
        eapply join_stale; [by rewrite Ew|exact Sx|done].
  - instantiate (1 := Some (c, t)). exists (nodes s). split; [by destruct s|]. split; [done|].
    split; [done|]. done.
  - unfold FUEL. lia.
Qed.
End Trees.

(** Memory may change inside the hole when the hole's root stays and its maximum does too. *)
Lemma rep_replace ns ns' attr c : forall t t',
  rep ns attr 0 (plug c t) -> rep ns' attr (above c) t' ->
  addr t' = addr t -> (t = Leaf <-> t' = Leaf) -> mx t' = mx t ->
  (forall a, a ∈ addrs_ctx c -> ns' !! a = ns !! a) -> rep ns' attr 0 (plug c t').
Proof.
  induction c as [|f c IH]; intros t t' R R' Ha Hl Hm Hf; cbn in *; [done|].
  destruct (rep_plug _ _ _ _ R) as [Rj _].
  assert (forall b, bit_of b t' = bit_of b t) as Hb
    by (intros b; destruct t, t'; cbn; try done; exfalso; intuition discriminate).
  apply (IH (join f t)); [done| | | | |intros; apply Hf; set_solver];
    destruct f as [[] q qb ql o]; cbn in *; rewrite ?Hm; try done;
    destruct Rj as (Hq & Hlq & E & Rl & Rr); refine (conj Hq (conj Hlq (conj _ (conj _ _))));
    try done; try (rewrite Hf by set_solver; rewrite E; unfold rec; by rewrite Ha, Hb, ?Hm);
    (eapply rep_frame; [|done]; intros; apply Hf; set_solver).
Qed.

Lemma root_len_plug f c t t' : root_len (plug (f :: c) t) = root_len (plug (f :: c) t').
Proof.
  revert f t t'. induction c as [|g c IH]; intros [[]] t t'; try done; cbn [plug] in *; apply IH.
Qed.

Lemma addr_plug f c t t' : addr (plug (f :: c) t) = addr (plug (f :: c) t').
Proof.
  revert f t t'. induction c as [|g c IH]; intros [[]] t t'; try done; cbn [plug] in *; apply IH.
Qed.

Lemma fit_node t size p : fit t size = Some p ->
  exists c b len l r, t = plug c (Node p b len l r) /\ size <= len.
Proof.
  induction t as [|q b len l IHl r IHr]; cbn; [done|].
  destruct (Z.geb_spec len size) as [Hs|Hs]; [intros [= <-]; by exists [], b, len, l, r|].
  assert (forall (c : list frame) f t, plug (c ++ [f]) t = join f (plug c t)) as Happ.
  { clear. induction c; intros f t; cbn; [done|]. apply IHc. }
  destruct (fit l size).
  - intros [= ->]. destruct (IHl eq_refl) as (c & b' & len' & l' & r' & -> & H).
    exists (c ++ [mkFrame L q b len r]), b', len', l', r'. by rewrite Happ.
  - intros E. destruct (IHr E) as (c & b' & len' & l' & r' & -> & H).
    exists (c ++ [mkFrame R q b len l]), b', len', l', r'. by rewrite Happ.
Qed.

(** ** The invariant

    [T false] is the kernel's tree and [T true] the user's. One page of metadata holds
    [79] nodes: [f] of them are not in a tree, and of those [u] were in one before. *)

Definition attr_of (k : bool) : Z := if k then 0x07 else 0x03.
Definition root_of {V} (k : bool) (s : va_state V) : Z := if k then va_ustart s else va_kstart s.
Definition ours (T : bool -> tree) : list Z := addrs (T false) ++ addrs (T true).
Definition upd (T : bool -> tree) (k : bool) (t : tree) (v : bool) : tree :=
  if Bool.eqb v k then t else T v.

Definition region_ok (x : Z * Z) : Prop := 0 <= x.1 /\ 0 <= x.2 /\ x.1 + x.2 <= 2 ^ 64.

Record va_ok {V} (s : va_state V) (T : bool -> tree) (f u : Z) : Prop := {
  ok_header : va_header s = VA_TREE;
  ok_hd : hds s !! VA_TREE = Some (mkHd f u 0 0);
  ok_max : va_max s = 79;
  ok_metadata : va_metadata_pages s = 0;
  ok_counts : 0 <= f /\ 0 <= u /\ 0 < 79 + u - f <= 79;
  ok_latest : va_latest s = slot VA_TREE (78 + u - f);
  ok_there : forall i, 0 <= i < 79 -> exists n, nodes s !! slot VA_TREE i = Some n;
  ok_slots : forall a, a ∈ ours T -> exists i, 0 <= i < 79 + u - f /\ a = slot VA_TREE i;
  ok_dropped : forall i, 0 <= i < 79 + u - f -> slot VA_TREE i ∉ ours T ->
    exists b a, nodes s !! slot VA_TREE i = Some (mkNode b 0 0 a 0 0 0 0);
  ok_number : Z.of_nat (length (ours T)) = 79 - f;
  ok_entries : va_entries s = 79 - f;
  ok_distinct : NoDup (ours T);
  ok_rep : forall k, rep (nodes s) (attr_of k) 0 (T k);
  ok_root : forall k, root_of k s = addr (T k);
  ok_root_len : forall k, root_len (T k) <> 0;
  ok_regions : forall k, Forall region_ok (regions (T k))
}.

Lemma upd_same T k t : upd T k t k = t.
Proof. unfold upd. by rewrite Bool.eqb_reflx. Qed.
Lemma upd_other T k t : upd T k t (negb k) = T (negb k).
Proof. by destruct k. Qed.

Lemma upd_cases T k t v :
  (v = k /\ upd T k t v = t) \/ (v = negb k /\ upd T k t v = T (negb k)).
Proof. destruct v, k; cbn; auto. Qed.

Lemma ours_split T k : ours T ≡ₚ addrs (T k) ++ addrs (T (negb k)).
Proof. unfold ours. destruct k; cbn; [apply Permutation_app_comm|done]. Qed.

Lemma ours_upd T k t : ours (upd T k t) ≡ₚ addrs t ++ addrs (T (negb k)).
Proof. by rewrite (ours_split _ k), upd_same, upd_other. Qed.

(** The same nodes with other contents: one of the trees has changed. *)
Lemma va_ok_nodes {V} (s : va_state V) T f u k t ns :
  va_ok s T f u -> addrs t ≡ₚ addrs (T k) -> rep ns (attr_of k) 0 t ->
  (forall a, a ∉ addrs (T k) -> ns !! a = nodes s !! a) ->
  addr t = addr (T k) -> root_len t <> 0 -> Forall region_ok (regions t) ->
  va_ok (set_nodes ns s) (upd T k t) f u.
Proof.
  intros [] Ha R Hf Hr Hl Hw.
  assert (ours (upd T k t) ≡ₚ ours T) as Ho by (by rewrite ours_upd, Ha, (ours_split T k)).
  assert (NoDup (addrs (T k) ++ addrs (T (negb k)))) as Hd by (by rewrite <- ours_split).
  constructor; cbn; try done.
  - intros i Hi. destruct (decide (slot VA_TREE i ∈ addrs t)) as [Hin|Hin].
    + by eapply rep_lookup.
    + rewrite Hf by (by rewrite <- Ha). auto.
  - intros a. rewrite Ho. auto.
  - intros i Hi. rewrite Ho. intros Hn. destruct (ok_dropped0 i Hi Hn) as (b & a & E).
    exists b, a. rewrite Hf; [done|]. intros Hin. apply Hn. rewrite (ours_split T k).
    set_solver.
  - by rewrite Ho.
  - by rewrite Ho.
  - intros v. destruct (upd_cases T k t v) as [[-> ->]|[-> ->]]; [done|].
    eapply rep_frame; [|apply ok_rep0]. intros a Ha'. apply Hf. intros Hin.
    apply NoDup_app in Hd as (_ & Hd & _). by apply (Hd a).
  - intros v. transitivity (root_of v s); [by destruct v|]. rewrite ok_root0.
    by destruct (upd_cases T k t v) as [[-> ->]|[-> ->]].
  - intros v. destruct (upd_cases T k t v) as [[-> ->]|[-> ->]]; done.
  - intros v. destruct (upd_cases T k t v) as [[-> ->]|[-> ->]]; done.
Qed.

Lemma find_hd_slot i : 0 <= i < 79 -> find_hd (slot VA_TREE i) = VA_TREE.
Proof.
  intros Hi. unfold find_hd. rewrite land_page. unfold slot, VA_TREE, hd_size, node_size.
  rewrite u64_id; divlia.
Qed.

Lemma free_plug c t : free (plug c t) ≡ₚ filter nonempty (regions t) ++ filter nonempty (regions_ctx c).
Proof. unfold free. by rewrite plug_regions, filter_app. Qed.

Lemma rep_root_ne ns attr par t : rep ns attr par t -> root_len t <> 0 -> addr t <> 0.
Proof. destruct t; cbn; [done|]. by intros (? & _). Qed.

Section Alloc.
Context {V : Type} `{!VMem V}.
Implicit Type s : va_state V.

Lemma ok_nodup s T f u k : va_ok s T f u -> NoDup (addrs (T k) ++ addrs (T (negb k))).
Proof. intros H. rewrite <- ours_split. apply (ok_distinct _ _ _ _ H). Qed.

Lemma ok_count s T f u k c t :
  va_ok s T f u -> T k = plug c t -> Z.of_nat (length c) <= 79 /\ height (T k) <= 79.
Proof.
  intros H E. pose proof (ok_number _ _ _ _ H) as Hn. pose proof (ok_counts _ _ _ _ H).
  pose proof (height_le (T k)). rewrite (ours_split T k), length_app in Hn. split; [|lia].
  assert (length c <= length (addrs (T k)))%nat as Hc; [|lia]. rewrite E, plug_addrs, length_app.
  assert (length c <= length (addrs_ctx c))%nat; [|lia].
  clear. induction c; cbn; [lia|]. rewrite length_app. lia.
Qed.

(** Memory and tree after the first [rsz] bytes of a node's range are gone. *)
Lemma wp_shrink s T f u k c p b len l r rsz :
  va_ok s T f u -> T k = plug c (Node p b len l r) -> 0 < rsz <= len -> (c = [] -> len <> rsz) ->
  wp (upd_node p (fun n => with_length (u64 (length_ n - rsz))
                             (with_base (u64 (virtual_base n + rsz)) n)))
     (fun _ => wp (UpdateParents p) (fun _ s' => exists ns, s' = set_nodes ns s /\
        va_ok s' (upd T k (plug c (Node p (u64 (b + rsz)) (len - rsz) l r))) f u)) s.
Proof.
  intros H E Hsz Hc0. pose proof (ok_rep _ _ _ _ H k) as R. rewrite E in R.
  pose proof (ok_count _ _ _ _ _ _ _ H E) as [Hc _].
  destruct (rep_plug _ _ _ _ R) as [(Hp & Hlen & En & Rl & Rr) Rc].
  pose proof (ok_nodup _ _ _ _ k H) as Hd. apply NoDup_app in Hd as (Hd & _).
  pose proof (ok_regions _ _ _ _ H k) as Hok. rewrite E in Hd, Hok. rewrite plug_regions in Hok.
  pose proof Hd as Hd'. rewrite plug_addrs in Hd'. cbn in Hd'. apply NoDup_cons in Hd' as [Hn Hd'].
  eapply wp_upd_node; [done|]. unfold rec. cbn [length_ virtual_base with_length with_base].
  rewrite (u64_id (len - rsz)) by lia. set (s1 := set_nodes _ s).
  eapply wp_mono.
  { apply (wp_UpdateParents (attr_of k) c (Node p (u64 (b + rsz)) (len - rsz) l r)).
    - subst s1. cbn [nodes set_nodes stale_at].
      refine (conj Hp (conj _ (conj _ (conj _ (conj _ _))))); [lia| | | |].
      + eexists. by rewrite lookup_insert_eq.
      + apply rep_insert; [set_solver|done].
      + apply rep_insert; [set_solver|done].
      + apply rep_ctx_insert; [set_solver|]. by eapply rep_ctx_hole; [| |exact Rc].
    - rewrite plug_addrs in *. done.
    - lia. }
  intros [] s2 (ns & -> & Rn & Hout). exists ns. split; [done|].
  change (set_nodes ns s1) with (set_nodes ns s).
  assert (addrs (plug c (Node p (u64 (b + rsz)) (len - rsz) l r)) ≡ₚ addrs (T k)) as Hp'
    by (by rewrite E, !plug_addrs).
  apply va_ok_nodes; try done.
  - intros a Ha. rewrite <- Hp' in Ha. rewrite Hout by done. subst s1. cbn.
    apply lookup_insert_ne. intros ->. apply Ha. rewrite plug_addrs. set_solver.
  - rewrite E. destruct c as [|fr c]; [done|apply addr_plug].
  - destruct c as [|fr c].
    + cbn. specialize (Hc0 eq_refl). lia.
    + rewrite (root_len_plug _ _ _ (Node p b len l r)), <- E. apply (ok_root_len _ _ _ _ H).
  - rewrite plug_regions. cbn in Hok |- *. apply Forall_cons in Hok as [(H1 & H2 & H3) Hok].
    constructor; [|done]. cbn in *. pose proof (u64_range (b + rsz)).
    destruct (Z.eq_dec len rsz); [unfold region_ok; cbn; lia|].
    unfold region_ok. cbn. rewrite u64_id by lia. lia.
Qed.

(** ** A node leaves its tree *)

Definition drop_result s T k s' : Prop :=
  va_lock s' = va_lock s /\ va_vm s' = va_vm s /\
  exists T' f' u', va_ok s' T' f' u' /\ T' (negb k) = T (negb k) /\ free (T' k) ≡ₚ free (T k).

(** The state without the node [p], which hung below [fr]. *)
Lemma va_ok_drop s T f u k c fr p b :
  va_ok s T f u -> T k = plug (fr :: c) (Node p b 0 Leaf Leaf) ->
  let q := frame_rec fr (attr_of k) (above c) (mx (join fr Leaf)) Leaf in
  let ns := <[p := mkNode b 0 0 (attr_of k) 0 0 0 0]> (<[f_p fr := q]> (nodes s)) in
  let s' := set_va_entries (va_entries s - 1)
              (set_hds (<[VA_TREE := mkHd (f + 1) (u + 1) 0 0]> (hds s)) (set_nodes ns s)) in
  va_ok s' (upd T k (plug c (join fr Leaf))) (f + 1) (u + 1).
Proof.
  intros H E q ns s'. pose proof (ok_nodup _ _ _ _ k H) as Hd. apply NoDup_app in Hd as (Hd & Hx & _).
  pose proof (ok_rep _ _ _ _ H k) as R. rewrite E in R, Hd, Hx. cbn [plug] in R.
  destruct (rep_plug _ _ _ _ R) as [Rj _].
  pose proof Hd as Hd'. rewrite plug_addrs in Hd'. cbn in Hd'.
  apply NoDup_cons in Hd' as [Hn1 Hd']. apply NoDup_cons in Hd' as [Hn2 Hd'].
  assert (ours T ≡ₚ p :: ours (upd T k (plug c (join fr Leaf)))) as Ho.
  { rewrite ours_upd, (ours_split T k), E, !plug_addrs. destruct fr as [[] ? ? ? ?]; cbn;
      rewrite ?app_nil_r; done. }
  assert (p ∉ ours (upd T k (plug c (join fr Leaf)))) as Hnp.
  { pose proof (ok_distinct _ _ _ _ H) as Hd2. rewrite Ho in Hd2. by apply NoDup_cons in Hd2 as [? _]. }
  assert (forall a, a <> p -> a <> f_p fr -> ns !! a = nodes s !! a) as Hout.
  { intros a H1 H2. subst ns. by rewrite !lookup_insert_ne by done. }
  destruct H as [? ? ? ? Hcnt ? Hth Hsl Hdr Hnum Hent Hdist Hrep Hroot Hrl Hreg].
  assert (f_p fr ∈ addrs (plug (fr :: c) (Node p b 0 Leaf Leaf))) as Hfr
    by (rewrite plug_addrs; set_solver).
  constructor; cbn [s' va_header hds va_max va_metadata_pages va_latest nodes va_entries
    set_va_entries set_hds set_nodes]; try done.
  - apply lookup_insert_eq.
  - lia.
  - replace (78 + (u + 1) - (f + 1)) with (78 + u - f) by lia. done.
  - intros i Hi. subst ns. destruct (Hth i Hi) as [n En].
    destruct (decide (slot VA_TREE i = p)) as [->|]; [rewrite lookup_insert_eq; eauto|].
    rewrite lookup_insert_ne by done.
    destruct (decide (slot VA_TREE i = f_p fr)) as [->|]; [rewrite lookup_insert_eq; eauto|].
    rewrite lookup_insert_ne by done. eauto.
  - intros a Ha. replace (79 + (u + 1) - (f + 1)) with (79 + u - f) by lia. apply Hsl.
    rewrite Ho. set_solver.
  - intros i Hi Hni. destruct (decide (slot VA_TREE i = p)) as [->|Hne].
    + subst ns. rewrite lookup_insert_eq. by eexists _, _.
    + destruct (Hdr i ltac:(lia)) as (b1 & a1 & En).
      { rewrite Ho. set_solver. }
      exists b1, a1. rewrite Hout; [done|done|]. intros Heq. apply Hni.
      rewrite Heq, ours_upd, plug_addrs. destruct fr as [[] ? ? ? ?]; cbn; set_solver.
  - rewrite Ho in Hnum. cbn in Hnum. lia.
  - lia.
  - rewrite Ho in Hdist. by apply NoDup_cons in Hdist as [_ ?].
  - intros v. destruct (upd_cases T k (plug c (join fr Leaf)) v) as [[-> ->]|[-> ->]].
    + eapply rep_replace; [exact R| | | | |].
      * destruct fr as [[] fq fb fl fo]; cbn in Rj, Hn1, Hn2 |- *;
          destruct Rj as (Hq & Hlq & _ & Rl & Rr); refine (conj Hq (conj Hlq (conj _ (conj _ _))));
          try done; try (subst ns; rewrite lookup_insert_ne by set_solver; by rewrite lookup_insert_eq);
          (eapply rep_frame; [|done]; intros a Ha; apply Hout; set_solver).
      * by destruct fr as [[]].
      * by destruct fr as [[]].
      * destruct fr as [[] fq fb fl fo]; cbn in Rj |- *; destruct Rj as (_ & Hl & _ & Rl & Rr);
          first [pose proof (mx_nonneg _ _ _ _ Rl)|pose proof (mx_nonneg _ _ _ _ Rr)]; lia.
      * intros a Ha. apply Hout; intros ->; [|].
        -- rewrite plug_addrs in Hd. set_solver.
        -- apply Hn2. set_solver.
    + eapply rep_frame; [|apply Hrep]. intros a Ha. apply Hout; intros ->; apply (Hx _) in Ha; try done.
      rewrite plug_addrs. set_solver.
  - intros v. transitivity (root_of v s); [by destruct v|]. rewrite Hroot.
    destruct (upd_cases T k (plug c (join fr Leaf)) v) as [[-> ->]|[-> ->]]; [|done].
    rewrite E. destruct c as [|g c]; [by destruct fr as [[]]|]. apply (addr_plug g c).
  - intros v. destruct (upd_cases T k (plug c (join fr Leaf)) v) as [[-> ->]|[-> ->]]; [|done].
    pose proof (Hrl k) as Hk. rewrite E in Hk. destruct c as [|g c]; [by destruct fr as [[]]|].
    change (root_len (plug (g :: c) (join fr (Node p b 0 Leaf Leaf))) <> 0) in Hk.
    by rewrite (root_len_plug g c _ (join fr (Node p b 0 Leaf Leaf))).
  - intros v. destruct (upd_cases T k (plug c (join fr Leaf)) v) as [[-> ->]|[-> ->]]; [|done].
    pose proof (Hreg k) as Hk. rewrite E, plug_regions in Hk. rewrite plug_regions.
    destruct fr as [[] ? ? ? ?]; cbn in Hk |- *; rewrite ?app_nil_r; by apply Forall_cons in Hk as [_ Hk].
Qed.

Lemma bits_leaf l r : bit_of RIGHT r + bit_of LEFT l = 0 <-> l = Leaf /\ r = Leaf.
Proof. destruct l, r; cbn; intuition discriminate. Qed.

(** The parent's record without its child [p]. *)
Lemma detach_rec fr attr par p b : p <> 0 -> p <> addr (f_other fr) ->
  let m := mx (join fr Leaf) in
  let n := frame_rec fr attr par m (Node p b 0 Leaf Leaf) in
  frame_rec fr attr par m Leaf =
    if va_left n =? p then with_used (UsedNodes n &&& Z.lnot LEFT) (with_left 0 n)
    else with_used (UsedNodes n &&& Z.lnot RIGHT) (with_right 0 n).
Proof.
  intros Hp Hne m n. subst n. destruct fr as [[] q qb ql o]; cbn in Hne |- *.
  - rewrite Z.eqb_refl. unfold with_used, with_left, rec. cbn. f_equal. by destruct o.
  - destruct (Z.eqb_spec (addr o) p); [done|]. unfold with_used, with_right, rec. cbn. f_equal.
    by destruct o.
Qed.

Lemma wp_drop_entry s T f u k c p b l r :
  va_ok s T f u -> T k = plug c (Node p b 0 l r) -> wp (drop_entry p) (fun _ => drop_result s T k) s.
Proof.
  intros H E. pose proof (ok_rep _ _ _ _ H k) as R. rewrite E in R.
  destruct (rep_plug _ _ _ _ R) as [(Hp & Hlen & En & _) Rc]. unfold drop_entry.
  wp_step. eapply wp_node_at; [done|]. cbn [rec UsedNodes Parent].
  destruct (Z.eqb_spec (bit_of RIGHT r + bit_of LEFT l) 0) as [Hb|Hb]; cbn [negb].
  2:{ wp_steps. split; [done|]. split; [done|]. by exists T, f, u. }
  apply bits_leaf in Hb as [-> ->].
  destruct c as [|fr c]; [pose proof (ok_root_len _ _ _ _ H k) as Hl; by rewrite E in Hl|].
  pose proof (va_ok_drop s T f u k c fr p b H E) as Hdrop. cbn zeta in Hdrop.
  pose proof (ok_nodup _ _ _ _ k H) as Hd. apply NoDup_app in Hd as (Hd & _).
  rewrite E, plug_addrs in Hd. cbn in Hd. apply NoDup_cons in Hd as [Hn1 Hd].
  pose proof (ok_slots _ _ _ _ H p) as Hs. rewrite (ours_split T k), E, plug_addrs in Hs.
  destruct Hs as (i & Hi & Ei); [set_solver|].
  pose proof (ok_counts _ _ _ _ H) as Hc. pose proof (ok_number _ _ _ _ H) as Hnum.
  assert (find_hd p = VA_TREE) as Ehd by (rewrite Ei; apply find_hd_slot; lia).
  cbn in R. destruct (rep_plug _ _ _ _ R) as [Rj _].
  assert (nodes s !! f_p fr = Some (frame_rec fr (attr_of k) (above c) (mx (join fr Leaf))
    (Node p b 0 Leaf Leaf))) as Eq.
  { destruct fr as [[] fq fb fl fo]; cbn in Rj |- *; destruct Rj as (_ & Hl & -> & Rl & Rr);
      do 2 f_equal; first [pose proof (mx_nonneg _ _ _ _ Rl)|pose proof (mx_nonneg _ _ _ _ Rr)]; lia. }
  assert (f_p fr <> 0) as Hq by (by destruct Rc as (? & _)).
  wp_steps. rewrite Ehd. eapply wp_upd_hd; [apply (ok_hd _ _ _ _ H)|].
  unfold with_free. cbn [free_entries unused_entries next_page former_page].
  rewrite (u64_id (f + 1)) by lia. cbn [above]. destruct (Z.eqb_spec (f_p fr) 0); [done|].
  wp_step. eapply wp_node_at; [exact Eq|].
  set (q := frame_rec fr _ _ _ (Node _ _ _ _ _)) in *.
  assert (p <> addr (f_other fr)) as Hne.
  { intros Heq. apply Hn1. destruct (f_other fr) eqn:Eo; cbn in Heq; [done|]. subst. set_solver. }
  assert (va_left q <> p -> va_right q = p) as Hr.
  { subst q. destruct fr as [[]]; cbn; congruence. }
  pose proof (detach_rec fr (attr_of k) (above c) p b Hp Hne) as Ed. cbn zeta in Ed. fold q in Ed.
  wp_step. eapply (wp_mono _ (fun _ s' => s' = set_nodes (<[f_p fr := frame_rec fr (attr_of k) (above c)
    (mx (join fr Leaf)) Leaf]> (nodes s)) (set_hds (<[VA_TREE := mkHd (f + 1) u 0 0]> (hds s))
    (set_va_entries (va_entries s - 1) s)))).
  { rewrite Ed. destruct (Z.eqb_spec (va_left q) p).
    - eapply wp_upd_node; [exact Eq|]. done.
    - destruct (Z.eqb_spec (va_right q) p); [|by rewrite Hr in *]. eapply wp_upd_node; [exact Eq|]. done. }
  intros [] s1 ->. wp_step. eapply wp_upd_node; [cbn [nodes set_nodes]; rewrite lookup_insert_ne by
    (intros <-; apply Hn1; set_solver); exact En|].
  wp_step. eapply wp_upd_hd; [cbn; apply lookup_insert_eq|]. unfold with_unused.
  cbn [free_entries unused_entries next_page former_page]. rewrite (u64_id (u + 1)) by lia.
  wp_steps. cbn [va_latest set_hds set_nodes set_va_entries].
  rewrite (ok_latest _ _ _ _ H), find_hd_slot by lia.
  eapply (wp_while _ (fun x s' => x = (VA_TREE, false) /\ drop_result s T k s' /\ va_header s' = VA_TREE)
    (fun _ _ => 0)); [|split; [done|]|unfold FUEL; lia].
  { intros a s2 (-> & D & Eh). wp_steps. rewrite Eh, Z.eqb_refl. by wp_steps. }
  split; [|apply (ok_header _ _ _ _ H)].
  split; [done|]. split; [done|]. eexists _, _, _. split; [|split; [apply upd_other|]].
  - refine (eq_rect _ (fun x => va_ok x _ _ _) Hdrop _ _). destruct s. cbn.
    unfold set_va_entries, set_hds, set_nodes. cbn. rewrite insert_insert_eq. done.
  - rewrite upd_same, E. unfold free. rewrite !plug_regions. destruct fr as [[] fq fb fl fo]; cbn;
      rewrite ?app_nil_r; by destruct (decide (nonempty (b, 0))) as [[]|].
Qed.

(** ** [allocate] *)

(** The outcome of [va_alloc] on the ranges of the tree [k]: nothing was taken, because no
    range is large enough or the virtual allocator refused; or the range that is returned was
    the front of a free one, and the rest of that one stays free. *)
Definition alloc_post (pages attributes : Z) s T (r : va_ret) s' : Prop :=
  let k := USR attributes in
  let rsz := 4096 * pages in
  va_lock s' = false /\ exists T' f' u', va_ok s' T' f' u' /\ T' (negb k) = T (negb k) /\
  ((r = mkVaRet 1 0 0 0 /\ T' k = T k /\
    ((forall b len, (b, len) ∈ free (T k) -> len < rsz) \/
     exists b d v, vm_alloc b pages attributes (va_vm s) = Done d v /\ Attribute d <> 0)) \/
   (exists b len rest, r = mkVaRet 0 b pages attributes /\ rsz <= len /\
      free (T k) ≡ₚ (b, len) :: rest /\
      free (T' k) ≡ₚ (if len =? rsz then rest else (b + rsz, len - rsz) :: rest))).

Lemma mx_free t b len : (b, len) ∈ free t -> len <= mx t.
Proof.
  intros [_ H]%list_elem_of_filter. revert H. induction t as [|p b' len' l IHl r IHr]; cbn; [set_solver|].
  intros [[= -> ->]|[H|H]%elem_of_app]%elem_of_cons; [lia|specialize (IHl H); lia|specialize (IHr H); lia].
Qed.

Lemma free_node c p b len l r : len <> 0 ->
  free (plug c (Node p b len l r)) ≡ₚ
    (b, len) :: filter nonempty (regions l ++ regions r) ++ filter nonempty (regions_ctx c).
Proof. intros H. rewrite free_plug. cbn [regions]. by rewrite filter_cons_True. Qed.

Lemma wp_allocate pages attributes s T f u :
  let k := USR attributes in
  va_ok s T f u -> va_lock s = true -> 0 < pages < 2 ^ 52 -> 4096 * pages <> root_len (T k) ->
  (forall b len, (b, len) ∈ free (T k) -> 4096 * pages <= len ->
     vm_alloc_ok b pages attributes (va_vm s)) ->
  wp (allocate pages attributes) (alloc_post pages attributes s T) s.
Proof.
  intros k H Hlk Hp Hroot Hvm. unfold allocate. rewrite shiftl_mul, u64_id by lia.
  change (2 ^ 12) with 4096. rewrite (Z.mul_comm pages). set (rsz := 4096 * pages) in *.
  assert (0 < rsz) as Hrsz by (subst rsz; lia). wp_steps. fold k. replace ((if k then va_ustart else va_kstart) s) with (root_of k s) by (by destruct k).
  rewrite (ok_root _ _ _ _ H). pose proof (ok_count s T f u k [] _ H eq_refl) as [_ Hh].
  pose proof (ok_rep _ _ _ _ H k) as R.
  eapply wp_mono; [eapply wp_find_fit; [exact R|lia|lia]|]. intros a s1 [-> ->].
  destruct (fit (T k) rsz) as [p|] eqn:Ef; cbn [default].
  2:{ change (0 =? 0) with true. cbn iota. wp_step. apply wp_spin_unlock. wp_steps.
      split; [done|]. exists T, f, u. split; [by destruct H|]. split; [done|]. left.
      split_and!; try done. left. intros b len Hin%mx_free. fold k in Hin. fold rsz.
      apply fit_mx in Ef; lia. }
  destruct (fit_node _ _ _ Ef) as (c & b & len & l & r & E & Hlen). cbn.
  pose proof R as R'. rewrite E in R'. destruct (rep_plug _ _ _ _ R') as [(Hp0 & Hl & En & _) _].
  destruct (Z.eqb_spec p 0); [done|]. wp_step. eapply wp_node_at; [done|].
  cbn [rec virtual_base length_]. unfold vm. wp_steps.
  assert ((b, len) ∈ free (T k)) as Hin by (rewrite E, free_node by lia; set_solver).
  destruct (wp_inv _ _ _ (vm_alloc_spec _ _ _ _ (Hvm b len Hin Hlen))) as (d & v & Ed & Hd).
  unfold wp at 1. rewrite Ed. set (s1 := set_vm v s).
  assert (va_ok s1 T f u) as H1 by (by destruct H).
  destruct (Z.eqb_spec (Attribute d) 0) as [Ha|Ha]; cbn [negb].
  2:{ wp_step. apply wp_spin_unlock. wp_steps. split; [done|]. exists T, f, u.
      split; [by destruct H1|]. split; [done|]. left. split_and!; try done. right. eauto. }
  rewrite Hd by done.
  assert (c = [] -> len <> rsz) as Hc by (intros ->; rewrite E in Hroot; cbn in Hroot; lia).
  wp_step. eapply wp_mono; [apply (wp_shrink s1 T f u k c p b len l r rsz); try done; lia|].
  intros [] s2 H2. wp_step. eapply wp_mono; [exact H2|]. clear H2. intros [] s3 (ns & -> & H3).
  rewrite u64_id by lia. set (b' := u64 (b + rsz)) in *. set (T1 := upd T k _) in H3.
  wp_step. eapply (wp_mono _ (fun _ => drop_result (set_nodes ns s1) T1 k)).
  { destruct (Z.eqb_spec (len - rsz) 0) as [Hz|Hz].
    - eapply wp_drop_entry; [done|]. subst T1. by rewrite upd_same, Hz.
    - wp_steps. split; [done|]. split; [done|]. by exists T1, f, u. }
  intros [] s4 (Hlk4 & Hvm4 & T4 & f4 & u4 & H4 & Ho4 & Hf4). wp_step. apply wp_spin_unlock.
  wp_steps. split; [done|]. exists T4, f4, u4. split; [by destruct H4|].
  fold k rsz. split; [rewrite Ho4; apply upd_other|]. right. exists b, len, (filter nonempty (regions l ++ regions r) ++ filter nonempty (regions_ctx c)).
  split; [done|]. split; [done|]. split; [rewrite E; apply free_node; lia|].
  rewrite Hf4. subst T1. rewrite upd_same. destruct (Z.eqb_spec len rsz) as [->|Hne].
  - rewrite free_plug, Z.sub_diag. cbn [regions]. by rewrite filter_cons_False by (by intros []).
  - rewrite free_node by lia. subst b'. rewrite u64_id; [done|].
    pose proof (ok_regions _ _ _ _ H k) as Hr. rewrite E, plug_regions in Hr. cbn in Hr.
    apply Forall_cons in Hr as [(? & ? & ?) _]. cbn in *. lia.
Qed.

(** ** Looking for nodes *)

Lemma slot_from hd i : slot hd 0 + node_size * i = slot hd i.
Proof. unfold slot. lia. Qed.

Lemma wp_scan_slots test hd m s :
  (forall i, 0 <= i < m -> exists n, nodes s !! slot hd i = Some n) -> 0 <= m ->
  wp (scan_slots test (slot hd 0) m) (fun r s' => s' = s /\
    match r with
    | Some a => exists i n, 0 <= i < m /\ a = slot hd i /\ nodes s !! a = Some n /\ test n = true
    | None => forall i n, 0 <= i < m -> nodes s !! slot hd i = Some n -> test n = false
    end) s.
Proof.
  intros Hth Hm. unfold scan_slots. wp_step.
  eapply wp_mono; [apply (wp_for (fun j x s' => s' = s /\
    match x.2 with
    | Some a => exists i n, 0 <= i < m /\ a = slot hd i /\ nodes s !! a = Some n /\ test n = true
    | None => x.1 = slot hd j /\
        forall i n, 0 <= i < j -> nodes s !! slot hd i = Some n -> test n = false
    end))|]; [done| | |].
  - cbn. split; [done|]. split; [done|lia].
  - intros j [src [a|]] s1 Hj (-> & H); cbn in H; [by wp_steps|]. destruct H as [-> Hno].
    destruct (Hth j) as [n En]; [lia|]. wp_step. eapply wp_node_at; [done|].
    destruct (test n) eqn:Et; wp_steps; cbn.
    + split; [done|]. exists j, n. split_and!; done || lia.
    + split; [done|]. split; [unfold slot; lia|]. intros i n' Hi En'.
      destruct (Z.eq_dec i j) as [->|]; [congruence|]. apply (Hno i); [lia|done].
  - intros [src [a|]] s1 (-> & H); cbn in *; wp_steps; [done|]. split; [done|]. by destruct H as [_ H].
Qed.

(** A node that can take another child. *)
Fixpoint room (t : tree) : bool :=
  match t with
  | Leaf => false
  | Node _ _ len l r =>
      negb (len =? 0) && (bool_decide (addr l = 0) || bool_decide (addr r = 0)) || room l || room r
  end.

Lemma usable_rec attr attr' par b len m l r :
  addr l = 0 <-> l = Leaf -> addr r = 0 <-> r = Leaf ->
  usable attr' (rec attr par b len m l r) = true <->
  attr = attr' /\ len <> 0 /\ (l = Leaf \/ r = Leaf).
Proof.
  intros _ _. unfold usable, rec. cbn [node_attributes UsedNodes length_].
  rewrite !andb_true_iff, !negb_true_iff, !Z.eqb_neq, Z.eqb_eq.
  destruct l, r; cbn; intuition (try discriminate; auto).
Qed.

Lemma room_find ns attr t : forall par, rep ns attr par t -> room t = true ->
  exists p n, p ∈ addrs t /\ ns !! p = Some n /\ usable attr n = true.
Proof.
  induction t as [|p b len l IHl r IHr]; intros par; [done|]. cbn [room].
  intros (Hp & Hl & E & Rl & Rr) [[[H1 H2]%andb_true_iff|H]%orb_true_iff|H]%orb_true_iff.
  - exists p, (rec attr par b len (mx (Node p b len l r)) l r). split; [cbn; set_solver|].
    split; [done|]. pose proof (rep_addr _ _ _ _ Rl). pose proof (rep_addr _ _ _ _ Rr).
    apply usable_rec; try done. apply negb_true_iff, Z.eqb_neq in H1. split; [done|]. split; [done|].
    apply orb_true_iff in H2 as [H2|H2]; apply bool_decide_eq_true in H2; intuition.
  - destruct (IHl _ Rl H) as (q & n & Hq & Hn & Hu). exists q, n. cbn. split; [set_solver|done].
  - destruct (IHr _ Rr H) as (q & n & Hq & Hn & Hu). exists q, n. cbn. split; [set_solver|done].
Qed.

Lemma room_true ns attr c par p b len l r :
  rep ns attr par (plug c (Node p b len l r)) -> len <> 0 -> l = Leaf \/ r = Leaf ->
  room (plug c (Node p b len l r)) = true.
Proof.
  intros _ Hl Hlr. assert (room (Node p b len l r) = true) as H.
  { cbn. destruct (Z.eqb_spec len 0); [done|]. by destruct Hlr as [->| ->]; cbn;
      rewrite ?orb_true_r. }
  revert H. generalize (Node p b len l r). induction c as [|f c IH]; intros t H; [done|].
  apply IH. destruct f as [[]]; cbn; rewrite H, ?orb_true_r; done.
Qed.

Lemma slots_used_ok s T f u : va_ok s T f u -> slots_used (mkHd f u 0 0) (va_max s) = 79 + u - f.
Proof.
  intros H. pose proof (ok_counts _ _ _ _ H). pose proof (ok_number _ _ _ _ H).
  unfold slots_used, i32. cbn. rewrite (ok_max _ _ _ _ H). rewrite !Z.mod_small by lia. lia.
Qed.

Lemma wp_find_last k s T f u :
  va_ok s T f u -> wp (find_last (attr_of k) VA_TREE) (fun p s' => s' = s /\
    if room (T k) then exists c b len l r, T k = plug c (Node p b len l r) /\ (l = Leaf \/ r = Leaf)
    else p = 0) s.
Proof.
  intros H. unfold find_last. pose proof (ok_counts _ _ _ _ H) as Hc.
  eapply (wp_while _ (fun a s' => s' = s /\ (a = VA_TREE \/ a = 0 /\ room (T k) = false))
    (fun a _ => a)); [|by auto|unfold VA_TREE, FUEL; lia].
  intros a s1 (-> & [->|[-> Hr]]); [|change (0 =? 0) with true; cbn iota; wp_steps; by rewrite Hr].
  change (VA_TREE =? 0) with false. cbn iota. wp_step.
  eapply wp_hd_at; [apply (ok_hd _ _ _ _ H)|]. wp_steps. rewrite (slots_used_ok _ _ _ _ H).
  eapply wp_mono; [apply wp_scan_slots; [|lia]|].
  { intros i Hi. apply (ok_there _ _ _ _ H). lia. }
  intros [a|] s1 (-> & Hf); wp_steps.
  - destruct Hf as (i & n & Hi & -> & En & Hu). split; [done|].
    destruct (decide (slot VA_TREE i ∈ ours T)) as [Hin|Hin].
    2:{ destruct (ok_dropped _ _ _ _ H i Hi Hin) as (b & a & Ed). rewrite Ed in En.
        injection En as <-. unfold usable in Hu. cbn in Hu. by rewrite andb_false_r in Hu. }
    assert (forall v, slot VA_TREE i ∈ addrs (T v) -> exists c b len l r,
      T v = plug c (Node (slot VA_TREE i) b len l r) /\ attr_of v = attr_of k /\ len <> 0 /\
      (l = Leaf \/ r = Leaf)) as Hfind.
    { intros v Hv. destruct (plug_find _ _ Hv) as (c & b & len & l & r & E).
      exists c, b, len, l, r. split; [done|]. pose proof (ok_rep _ _ _ _ H v) as R. rewrite E in R.
      destruct (rep_plug _ _ _ _ R) as [(_ & _ & En' & Rl & Rr) _]. rewrite En in En'.
      injection En' as ->. apply usable_rec in Hu; [done|by eapply rep_addr..]. }
    rewrite (ours_split T k) in Hin. apply elem_of_app in Hin as [Hin|Hin].
    + destruct (Hfind _ Hin) as (c & b & len & l & r & E & _ & Hl & Hlr).
      rewrite E, (room_true (nodes s) (attr_of k) _ 0); [by exists c, b, len, l, r| |done|done].
      rewrite <- E. apply (ok_rep _ _ _ _ H).
    + destruct (Hfind _ Hin) as (c & b & len & l & r & E & Ha & _). by destruct k.
  - cbn [next_page]. split; [|unfold VA_TREE; lia]. split; [done|]. right. split; [done|].
    apply not_true_is_false. intros Hr.
    destruct (room_find _ _ _ _ (ok_rep _ _ _ _ H k) Hr) as (p & n & Hp & En & Hu).
    destruct (ok_slots _ _ _ _ H p) as (i & Hi & ->); [rewrite (ours_split T k); set_solver|].
    by rewrite (Hf i n Hi En) in Hu.
Qed.

Lemma slot_inj i j : slot VA_TREE i = slot VA_TREE j -> i = j.
Proof. unfold slot, node_size. lia. Qed.

(** Fewer nodes than slots: one of the slots holds none. *)
Lemma free_slot s T f u : va_ok s T f u -> 0 < u ->
  exists i, 0 <= i < 79 + u - f /\ slot VA_TREE i ∉ ours T.
Proof.
  intros H Hu. pose proof (ok_counts _ _ _ _ H). pose proof (ok_number _ _ _ _ H) as Hn.
  set (all := (fun i : nat => slot VA_TREE (Z.of_nat i)) <$> seq 0 (Z.to_nat (79 + u - f))).
  destruct (decide (Exists (fun a => a ∉ ours T) all)) as [(a & Ha & Hna)%Exists_exists|Hno].
  - apply list_elem_of_fmap in Ha as (i & -> & Hi%elem_of_seq). exists (Z.of_nat i). split; [lia|done].
  - exfalso. apply not_Exists_Forall in Hno; [|apply _]. rewrite Forall_forall in Hno.
    assert (length all <= length (ours T))%nat as Hle.
    { apply submseteq_length, NoDup_submseteq.
      - apply NoDup_fmap_2_strong; [|apply NoDup_seq].
        intros x y _ _ Hxy%slot_inj. lia.
      - intros a Ha. specialize (Hno a Ha). cbn in Hno. by apply dec_stable. }
    subst all. rewrite length_fmap, length_seq in Hle. lia.
Qed.

Lemma wp_find_dropped s T f u :
  va_ok s T f u -> 0 < u -> wp (find_dropped VA_TREE) (fun r s' => s' = s /\
    exists i b a, r = Some (VA_TREE, slot VA_TREE i) /\ 0 <= i < 79 + u - f /\
      (slot VA_TREE i ∉ ours T) /\ nodes s !! slot VA_TREE i = Some (mkNode b 0 0 a 0 0 0 0)) s.
Proof.
  intros H Hu. unfold find_dropped. pose proof (ok_counts _ _ _ _ H) as Hc.
  eapply (wp_while _ (fun a s' => s' = s /\ a = VA_TREE) (fun _ _ => 0)); [|done|unfold FUEL; lia].
  intros a s1 (-> & ->). change (VA_TREE =? 0) with false. cbn iota. wp_step.
  eapply wp_hd_at; [apply (ok_hd _ _ _ _ H)|]. cbn [unused_entries].
  destruct (Z.eqb_spec u 0); [lia|]. wp_steps. rewrite (slots_used_ok _ _ _ _ H).
  eapply wp_mono; [apply wp_scan_slots; [|lia]|].
  { intros i Hi. apply (ok_there _ _ _ _ H). lia. }
  intros [a|] s1 (-> & Hf); wp_steps.
  - destruct Hf as (i & nd & Hi & -> & En & Hd). split; [done|].
    assert (slot VA_TREE i ∉ ours T) as Hni.
    { assert (forall v, slot VA_TREE i ∉ addrs (T v)) as Hv.
      { intros v Hv. destruct (plug_find _ _ Hv) as (c & b & len & l & r & E).
        pose proof (ok_rep _ _ _ _ H v) as R. pose proof (ok_root_len _ _ _ _ H v) as Hrl.
        rewrite E in R, Hrl. destruct (rep_plug _ _ _ _ R) as [(_ & _ & En' & _) Rc].
        rewrite En in En'. injection En' as ->. unfold dropped in Hd. cbn in Hd.
        apply andb_true_iff in Hd as [[H1 H2]%andb_true_iff _]. destruct c as [|fr c].
        - cbn in Hrl. lia.
        - cbn in H2. destruct Rc as (? & _). lia. }
      rewrite (ours_split T false). intros [Hin|Hin]%elem_of_app; by apply Hv in Hin. }
    destruct (ok_dropped _ _ _ _ H i Hi Hni) as (b & a & Ed). by exists i, b, a.
  - exfalso. destruct (free_slot _ _ _ _ H Hu) as (i & Hi & Hni).
    destruct (ok_dropped _ _ _ _ H i Hi Hni) as (b & a & Ed).
    specialize (Hf i _ Hi Ed). done.
Qed.

(** ** A node joins a tree *)

(** Where [attach_node] hangs a child below [p]. *)
Definition hang (p b len : Z) (l r : tree) : frame :=
  match r with Leaf => mkFrame R p b len l | _ => mkFrame L p b len r end.

Lemma hang_addrs p b len l r c t : l = Leaf \/ r = Leaf ->
  addrs (plug (hang p b len l r :: c) t) ≡ₚ addrs t ++ addrs (plug c (Node p b len l r)).
Proof.
  intros Hlr. rewrite !plug_addrs. unfold hang. destruct r; [|destruct Hlr as [->|]; [|done]]; cbn;
    rewrite ?app_nil_r; done.
Qed.

Lemma hang_regions p b len l r c t : l = Leaf \/ r = Leaf ->
  regions (plug (hang p b len l r :: c) t) ≡ₚ regions t ++ regions (plug c (Node p b len l r)).
Proof.
  intros Hlr. rewrite !plug_regions. unfold hang. destruct r; [|destruct Hlr as [->|]; [|done]]; cbn;
    rewrite ?app_nil_r; done.
Qed.

Lemma wp_attach attr c p b len l r m e ne base rsz s :
  p <> 0 -> e <> 0 -> NoDup (e :: addrs (plug c (Node p b len l r))) -> 0 <= rsz < 2 ^ 64 ->
  0 <= len < 2 ^ 64 -> l = Leaf \/ r = Leaf ->
  nodes s !! p = Some (rec attr (above c) b len m l r) -> rep (nodes s) attr p l ->
  rep (nodes s) attr p r -> rep_ctx (nodes s) attr c (Node p b len l r) ->
  nodes s !! e = Some ne -> with_max 0 (with_parent 0 ne) = mkNode base rsz 0 attr 0 0 0 0 ->
  wp (attach_node p e) (fun _ s' => exists ns, s' = set_nodes ns s /\
    stale_at ns attr (hang p b len l r :: c) (Node e base rsz Leaf Leaf) /\
    forall a, a <> p -> a <> e -> ns !! a = nodes s !! a) s.
Proof.
  intros Hp He Hd Hrsz Hlen Hlr En Rl Rr Rc Ee Hne. unfold attach_node.
  destruct (Z.eqb_spec p 0), (Z.eqb_spec e 0); try done. cbn [orb].
  apply NoDup_cons in Hd as [Hn Hd]. rewrite plug_addrs in Hn, Hd. cbn in Hn, Hd.
  apply NoDup_cons in Hd as [Hnp Hd]. assert (e <> p) as Hep by set_solver.
  set (fr := hang p b len l r). set (new := frame_rec fr attr (above c) m (Node e base rsz Leaf Leaf)).
  wp_step. eapply wp_node_at; [done|]. unfold rec at 1. cbn [UsedNodes].
  assert (((bit_of RIGHT r + bit_of LEFT l) &&& 0x03 =? 3) = false) as Hfull
    by (by destruct Hlr as [->| ->]; [destruct r|destruct l]).
  rewrite Hfull. wp_step.
  eapply (wp_mono _ (fun _ s' => s' = set_nodes (<[p := new]> (nodes s)) s)).
  { subst new fr. unfold hang. destruct r as [|rp rb rl rr1 rr2]; cbn [bit_of].
    - change (rec _ _ _ _ _ _ _) with (rec attr (above c) b len m l Leaf) in En.
      match goal with |- context [?x &&& RIGHT =? 0] =>
        replace (x &&& RIGHT =? 0) with true by (by destruct l) end. eapply wp_upd_node; [exact En|].
      do 2 f_equal. unfold with_used, with_right, rec. cbn. f_equal. by destruct l.
    - destruct Hlr as [->|]; [|done]. cbn [bit_of].
      change ((RIGHT + 0) &&& RIGHT =? 0) with false. change ((RIGHT + 0) &&& LEFT =? 0) with true.
      cbn iota. eapply wp_upd_node; [exact En|]. done. }
  intros [] s1 ->. eapply wp_upd_node; [cbn [nodes set_nodes]; by rewrite lookup_insert_ne|].
  eexists. split; [done|]. cbn [nodes set_nodes]. split.
  - assert (forall a, a <> p -> a <> e ->
      <[e := with_parent p ne]> (<[p := new]> (nodes s)) !! a = nodes s !! a) as Hout
      by (intros a H1 H2; by rewrite !lookup_insert_ne by done).
    cbn [stale_at]. refine (conj He (conj Hrsz (conj _ (conj I (conj I _))))).
    + exists (max_length ne). rewrite lookup_insert_eq. f_equal.
      destruct ne as [nb nl nm na nu nr nlf np]. cbn in *. injection Hne as -> -> -> -> -> ->.
      unfold rec. subst fr. unfold hang. by destruct r.
    + cbn [rep_ctx]. assert (f_p fr = p) as Efp by (subst fr; unfold hang; by destruct r).
      assert (f_len fr = len) as Efl by (subst fr; unfold hang; by destruct r). rewrite Efp, Efl.
      refine (conj Hp (conj Hlen (conj (ex_intro _ m _) (conj _ _)))).
      * rewrite lookup_insert_ne by done. by rewrite lookup_insert_eq.
      * subst fr. unfold hang. destruct r; cbn [f_other]; (eapply rep_frame; [|done]); intros a Ha;
          apply Hout; set_solver.
      * eapply rep_ctx_hole; [| |eapply rep_ctx_frame; [|exact Rc]].
        -- subst fr. unfold hang. by destruct r.
        -- subst fr. unfold hang. by destruct r.
        -- intros a Ha. apply Hout; set_solver.
  - intros a H1 H2. by rewrite !lookup_insert_ne by done.
Qed.

(** A slot that held no node of a tree holds one now. *)
Lemma va_ok_attach s T f u k t i u' ns l :
  va_ok s T f u -> 0 < f -> 0 <= i < 79 + u' - (f - 1) -> 0 <= u' ->
  79 + u - f <= 79 + u' - (f - 1) <= 79 ->
  (forall j, 0 <= j < 79 + u' - (f - 1) -> j < 79 + u - f \/ j = i) ->
  slot VA_TREE i ∉ ours T -> addrs t ≡ₚ slot VA_TREE i :: addrs (T k) ->
  rep ns (attr_of k) 0 t -> (forall a, a ∉ addrs t -> ns !! a = nodes s !! a) ->
  addr t = addr (T k) -> root_len t <> 0 -> Forall region_ok (regions t) ->
  l = slot VA_TREE (78 + u' - (f - 1)) ->
  va_ok (set_va_latest l (set_va_entries (va_entries s + 1)
    (set_hds (<[VA_TREE := mkHd (f - 1) u' 0 0]> (hds s)) (set_nodes ns s)))) (upd T k t) (f - 1) u'.
Proof.
  intros [] Hf Hi Hu' Hcnt Hj Hni Ha R Hout Hr Hl Hw ->.
  assert (ours (upd T k t) ≡ₚ slot VA_TREE i :: ours T) as Ho
    by (by rewrite ours_upd, Ha, (ours_split T k)).
  constructor; cbn [va_header hds va_max va_metadata_pages va_latest nodes va_entries
    set_va_latest set_va_entries set_hds set_nodes]; try done.
  - apply lookup_insert_eq.
  - lia.
  - intros j Hj'. destruct (decide (slot VA_TREE j ∈ addrs t)) as [Hin|Hin].
    + by eapply rep_lookup.
    + rewrite Hout by done. auto.
  - intros a. rewrite Ho. intros [->|Hin]%elem_of_cons; [by exists i|].
    destruct (ok_slots0 a Hin) as (j & Hj1 & ->). exists j. split; [lia|done].
  - intros j Hj'. rewrite Ho. intros Hnj. destruct (Hj j Hj') as [Hlt| ->]; [|set_solver].
    destruct (ok_dropped0 j) as (b & a & E); [lia|set_solver|]. exists b, a.
    rewrite Hout; [done|]. rewrite Ha. intros [Heq|Hin]%elem_of_cons; [set_solver|].
    apply Hnj. rewrite (ours_split T k). set_solver.
  - rewrite Ho. cbn. lia.
  - lia.
  - rewrite Ho. by constructor.
  - intros v. destruct (upd_cases T k t v) as [[-> ->]|[-> ->]]; [done|].
    eapply rep_frame; [|apply ok_rep0]. intros a Ha'. apply Hout. rewrite Ha.
    intros [->|Hin]%elem_of_cons.
    + apply Hni. rewrite (ours_split T k). set_solver.
    + rewrite (ours_split T k) in ok_distinct0. apply NoDup_app in ok_distinct0 as (_ & Hd & _).
      by apply (Hd a).
  - intros v. transitivity (root_of v s); [by destruct v|]. rewrite ok_root0.
    by destruct (upd_cases T k t v) as [[-> ->]|[-> ->]].
  - intros v. destruct (upd_cases T k t v) as [[-> ->]|[-> ->]]; done.
  - intros v. destruct (upd_cases T k t v) as [[-> ->]|[-> ->]]; done.
Qed.

Lemma wp_join s T f u k c p b len l r e ne base rsz :
  va_ok s T f u -> T k = plug c (Node p b len l r) -> l = Leaf \/ r = Leaf ->
  e <> 0 -> e ∉ ours T -> 0 <= rsz < 2 ^ 64 ->
  with_max 0 (with_parent 0 ne) = mkNode base rsz 0 (attr_of k) 0 0 0 0 ->
  forall s1, nodes s1 = <[e := ne]> (nodes s) ->
  let t := plug (hang p b len l r :: c) (Node e base rsz Leaf Leaf) in
  wp (attach_node p e) (fun _ => wp (UpdateParents e) (fun _ s' => exists ns,
    s' = set_nodes ns s1 /\ rep ns (attr_of k) 0 t /\
    forall a, a ∉ addrs t -> ns !! a = nodes s !! a)) s1.
Proof.
  intros H E Hlr He Hne Hrsz Hrec s1 Es1 t. pose proof (ok_rep _ _ _ _ H k) as R.
  rewrite (ours_split T k), E in Hne. apply not_elem_of_app in Hne as [Hne _].
  rewrite E in R. apply (rep_insert _ e ne) in R; [|done].
  destruct (rep_plug _ _ _ _ R) as [(Hp & Hlen & En & Rl & Rr) Rc].
  pose proof (ok_nodup _ _ _ _ k H) as Hd. apply NoDup_app in Hd as (Hd & _). rewrite E in Hd.
  pose proof (ok_count _ _ _ _ _ _ _ H E) as [Hc _].
  eapply wp_mono; [eapply (wp_attach (attr_of k) c p b len l r _ e ne base rsz); try done|].
  - by constructor.
  - by rewrite Es1.
  - by rewrite Es1.
  - by rewrite Es1.
  - by rewrite Es1.
  - rewrite Es1. by rewrite lookup_insert_eq.
  - intros [] s2 (ns & -> & St & Hout).
    eapply wp_mono; [apply (wp_UpdateParents (attr_of k) (hang p b len l r :: c)
      (Node e base rsz Leaf Leaf)); [exact St| |]|].
    + rewrite hang_addrs by done. cbn. by constructor.
    + cbn [length]. lia.
    + intros [] s3 (ns' & -> & Rn & Hout'). exists ns'. split; [done|]. split; [done|].
      intros a Ha. rewrite Hout' by done. subst t. rewrite hang_addrs in Ha by done. cbn in Ha.
      cbn [nodes set_nodes]. rewrite Hout, Es1.
      * apply lookup_insert_ne. set_solver.
      * intros ->. apply Ha. rewrite plug_addrs. set_solver.
      * set_solver.
Qed.

Lemma wp_find_page stale f u s :
  hds s !! VA_TREE = Some (mkHd f u 0 0) -> 0 < f ->
  wp (find_page stale VA_TREE) (fun r s' => r = Some (VA_TREE, 0) /\ s' = s) s.
Proof.
  intros Eh Hf.
  eapply (wp_while _ (fun x s' => x = (VA_TREE, 0) /\ s' = s) (fun _ _ => 0));
    [|done|unfold FUEL; lia].
  intros a s1 (-> & ->). wp_step. eapply wp_hd_at; [done|]. cbn [free_entries].
  unfold NoEntriesLeft. destruct (Z.eqb_spec f 0); [lia|]. by wp_steps.
Qed.

(** The memory of a node that [find_new_entry] hands out, and of the parent it hangs it to. *)
Definition new_nodes (pos : va_labels) (parent a : Z) (n np : va_node) (ns : gmap Z va_node) :=
  let ns := <[a := with_used 0 (with_parent parent (with_left 0 (with_right 0 n)))]> ns in
  match pos with
  | right_ => <[parent := with_used (UsedNodes np ||| RIGHT) (with_right a np)]> ns
  | left_ => <[parent := with_used (UsedNodes np ||| LEFT) (with_left a np)]> ns
  | NoParent => ns
  end.

Lemma wp_new_entry stale pos parent n np f u s :
  let a := va_latest s + node_size in
  va_header s = VA_TREE -> hds s !! VA_TREE = Some (mkHd f u 0 0) -> 0 < f < 2 ^ 64 ->
  nodes s !! a = Some n -> (pos <> NoParent -> nodes s !! parent = Some np /\ parent <> a) ->
  wp (find_new_entry stale pos parent) (fun r s' => r = a /\
    s' = set_hds (<[VA_TREE := mkHd (f - 1) u 0 0]> (hds s)) (set_va_entries (va_entries s + 1)
           (set_va_latest a (set_nodes (new_nodes pos parent a n np (nodes s)) s)))) s.
Proof.
  intros a Eh Ehd Hf En Hp. unfold find_new_entry. wp_steps. rewrite Eh.
  eapply wp_mono; [eapply wp_find_page; [done|lia]|]. intros r s1 (-> & ->). wp_steps.
  change (0 =? 0) with true. cbn iota. fold a. eapply wp_upd_node; [done|]. wp_step.
  assert (u64 (f - 1) = f - 1) as Ef by (by rewrite u64_id by lia).
  destruct pos.
  - destruct Hp as [Ep Hne]; [discriminate|].
    eapply wp_upd_node; [cbn [nodes set_nodes]; by rewrite lookup_insert_ne|].
    wp_steps. eapply wp_upd_hd; [done|]. wp_steps. unfold with_free. cbn. by rewrite Ef.
  - destruct Hp as [Ep Hne]; [discriminate|].
    eapply wp_upd_node; [cbn [nodes set_nodes]; by rewrite lookup_insert_ne|].
    wp_steps. eapply wp_upd_hd; [done|]. wp_steps. unfold with_free. cbn. by rewrite Ef.
  - wp_steps. eapply wp_upd_hd; [done|]. wp_steps. unfold with_free. cbn. by rewrite Ef.
Qed.

(** The outcome of [va_free]: the range is free again, if a node can take it. *)
Definition free_post (k : bool) (base pages : Z) s T s' : Prop :=
  va_lock s' = false /\ exists T' f' u', va_ok s' T' f' u' /\ T' (negb k) = T (negb k) /\
  free (T' k) ≡ₚ (if room (T k) then (base, 4096 * pages) :: free (T k) else free (T k)).

Lemma join_tree s T f u k c p b len l r e base rsz :
  va_ok s T f u -> T k = plug c (Node p b len l r) -> l = Leaf \/ r = Leaf -> 0 < rsz ->
  region_ok (base, rsz) ->
  let t := plug (hang p b len l r :: c) (Node e base rsz Leaf Leaf) in
  addrs t ≡ₚ e :: addrs (T k) /\ addr t = addr (T k) /\ root_len t <> 0 /\
  Forall region_ok (regions t) /\ free t ≡ₚ (base, rsz) :: free (T k).
Proof.
  intros H E Hlr Hrsz Hreg t. subst t. rewrite hang_addrs, hang_regions by done. rewrite <- E.
  split; [done|]. assert (forall x, addr (join (hang p b len l r) x) = p /\
    root_len (join (hang p b len l r) x) = len) as Hj by (intros x; unfold hang; by destruct r).
  split; [|split; [|split]].
  - rewrite E. destruct c as [|fr c]; [apply Hj|apply (addr_plug fr c)].
  - pose proof (ok_root_len _ _ _ _ H k) as Hl. rewrite E in Hl. destruct c as [|fr c].
    + cbn in *. by rewrite (proj2 (Hj _)).
    + cbn [plug]. change (root_len (plug (fr :: c) (join (hang p b len l r) (Node e base rsz Leaf Leaf))) <> 0).
      by rewrite (root_len_plug fr c _ (Node p b len l r)).
  - cbn. constructor; [done|]. apply (ok_regions _ _ _ _ H).
  - unfold free at 1. rewrite hang_regions, <- E by done. cbn [regions app]. by rewrite filter_cons_True by (unfold nonempty; cbn; lia).
Qed.

Lemma wp_va_free stale k base pages s T f u :
  va_ok s T f u -> va_lock s = false -> 0 < f -> 0 < pages < 2 ^ 52 -> 0 <= base ->
  base + 4096 * pages <= 2 ^ 64 ->
  (room (T k) = true -> vm_free_ok (mkDesc 0 0 base pages 0) (va_vm s)) ->
  wp (va_free stale (mkVaRet 0 base pages (attr_of k))) (fun _ => free_post k base pages s T) s.
Proof.
  intros H Hlk Hf Hp Hb Hend Hvm. unfold va_free. cbn [ret_status VaAlloc.pages VaAlloc.base ret_attributes].
  change (0 =? 0) with true. destruct (Z.eqb_spec pages 0); [lia|]. cbn [negb orb].
  rewrite shiftl_mul, u64_id by lia. change (2 ^ 12) with 4096. rewrite (Z.mul_comm pages).
  set (rsz := 4096 * pages) in *. assert (0 < rsz) as Hrsz by (subst rsz; lia).
  wp_step. apply wp_spin_lock; [done|]. set (s0 := set_locked true s).
  assert (va_ok s0 T f u) as H0 by (by destruct H). wp_steps. rewrite (ok_header _ _ _ _ H0).
  pose proof (ok_counts _ _ _ _ H) as Hc. pose proof (ok_number _ _ _ _ H) as Hnum.
  eapply wp_mono; [by apply (wp_find_last k _ _ _ _ H0)|]. intros p s1 [-> Hlast].
  destruct (room (T k)) eqn:Hroom.
  2:{ subst p. change (0 =? 0) with true. cbn iota. apply wp_spin_unlock. split; [done|].
      exists T, f, u. rewrite Hroom. split; [by destruct H|done]. }
  destruct Hlast as (c & b & len & l & r & E & Hlr).
  pose proof (ok_rep _ _ _ _ H0 k) as R. rewrite E in R.
  destruct (rep_plug _ _ _ _ R) as [(Hp0 & Hlen & En & Rl & Rr) Rc].
  destruct (Z.eqb_spec p 0); [done|]. wp_steps. eapply wp_hd_at; [apply (ok_hd _ _ _ _ H0)|].
  rewrite (ok_metadata _ _ _ _ H0). cbn [unused_entries]. change (0 =? 0) with true. cbn [andb].
  wp_step. destruct (Z.eqb_spec u 0) as [->|Hu].
  - wp_steps. set (e := slot VA_TREE (79 - f)).
    assert (va_latest s0 + node_size = e) as Ee
      by (rewrite (ok_latest _ _ _ _ H0); subst e; unfold slot, node_size; lia).
    destruct (ok_there _ _ _ _ H0 (79 - f) ltac:(lia)) as [nd End]. fold e in End.
    eapply wp_mono; [apply (wp_new_entry stale NoParent 0 nd nd f 0);
      [apply (ok_header _ _ _ _ H0)|apply (ok_hd _ _ _ _ H0)|lia|by rewrite Ee|done]|].
    intros a s1 [-> ->]. rewrite Ee. unfold new_nodes.
    wp_step. eapply wp_upd_node; [cbn; apply lookup_insert_eq|]. cbn [nodes set_hds set_va_entries set_va_latest set_nodes].
    rewrite insert_insert_eq.
    set (ne := with_length _ _). assert (e <> 0) as He by (unfold e, slot, VA_TREE, hd_size, node_size; lia).
    assert (e ∉ ours T) as Hne.
    { intros (j & Hj & Ej%slot_inj)%(ok_slots _ _ _ _ H). lia. }
    pose proof (join_tree _ _ _ _ k c p b len l r e base rsz H E Hlr Hrsz ltac:(split; cbn; lia))
      as (Ha & Har & Hrl & Hregs & Hfree).
    wp_step. eapply wp_mono; [apply (wp_join s0 T f 0 k c p b len l r e ne base rsz); try done; subst rsz; lia|].
    intros [] s2 H2. eapply wp_mono; [exact H2|]. clear H2.
    intros [] s3 (ns & -> & Rn & Hout). unfold vm. wp_steps.
    eapply wp_mono; [apply vm_free_spec; by apply Hvm|]. intros [] v _. apply wp_spin_unlock.
    split; [done|]. set (t := plug _ (Node e base rsz Leaf Leaf)) in *.
    exists (upd T k t), (f - 1), 0. rewrite upd_same, upd_other, Hroom. split; [|done].
    apply (va_ok_attach s0 T f 0 k t (79 - f) 0 ns e) in H0; try done; try lia.
    + by destruct H0.
    + subst e. f_equal. lia.
  - eapply wp_mono; [apply (wp_find_dropped _ _ _ _ H0); lia|].
    intros r0 s1 (-> & i & b0 & a0 & -> & Hi & Hne & End). set (e := slot VA_TREE i) in *.
    wp_steps. eapply wp_upd_node; [done|]. set (ne := with_length _ _).
    assert (e <> 0) as He by (unfold e, slot, VA_TREE, hd_size, node_size; lia).
    pose proof (join_tree _ _ _ _ k c p b len l r e base rsz H E Hlr Hrsz ltac:(split; cbn; lia))
      as (Ha & Har & Hrl & Hregs & Hfree).
    wp_step. eapply wp_mono; [apply (wp_join s0 T f u k c p b len l r e ne base rsz); try done; subst rsz; lia|].
    intros [] s2 H2. wp_step. eapply wp_mono; [exact H2|]. clear H2.
    intros [] s3 (ns & -> & Rn & Hout). wp_steps.
    eapply wp_upd_hd; [apply (ok_hd _ _ _ _ H0)|]. unfold with_free, with_unused.
    cbn [free_entries unused_entries next_page former_page]. rewrite !u64_id by lia. unfold vm. wp_steps.
    eapply wp_mono; [apply vm_free_spec; by apply Hvm|]. intros [] v _. apply wp_spin_unlock.
    split; [done|]. set (t := plug _ (Node e base rsz Leaf Leaf)) in *.
    exists (upd T k t), (f - 1), (u - 1). rewrite upd_same, upd_other, Hroom. split; [|done].
    apply (va_ok_attach s0 T f u k t i (u - 1) ns (va_latest s0)) in H0; try done; try lia.
    + by destruct H0.
    + change (va_latest s0) with (va_latest s). rewrite (ok_latest _ _ _ _ H). f_equal. lia.
Qed.

(** ** The first call *)

Lemma page_nodes_lookup stale p m i : 0 <= i < 79 ->
  (page_nodes stale p ∪ m) !! slot p i = Some (stale (slot p i)).
Proof.
  intros Hi. apply lookup_union_Some_l. unfold page_nodes. apply elem_of_list_to_map_1.
  - rewrite <- list_fmap_compose. apply NoDup_fmap_2_strong; [|apply NoDup_seq].
    intros x y _ _ Hxy. cbn in Hxy. unfold slot, node_size in Hxy. lia.
  - apply list_elem_of_fmap. exists (Z.to_nat i). rewrite Z2Nat.id by lia. split; [done|].
    apply elem_of_seq. change (Z.to_nat hd_slots) with 79%nat. lia.
Qed.

Definition kernel_base (Kernel_end : Z) : Z := 4096 * ((Kernel_end + 4095) / 4096).

(** The trees of the empty address space. *)
Definition first_trees (Kernel_end : Z) (k : bool) : tree :=
  if k then Node (slot VA_TREE 2) USER_SPACE (USER_END + 1 - USER_SPACE) Leaf Leaf
  else Node (slot VA_TREE 0) (kernel_base Kernel_end) (END + 1 - kernel_base Kernel_end) Leaf
         (Node (slot VA_TREE 1) KERNEL_SPACE (SPACE_END + 1 - KERNEL_SPACE) Leaf Leaf).

Lemma kernel_base_code Kernel_end : 0 <= Kernel_end < 2 ^ 64 - 4095 ->
  u64 (Kernel_end + 4095) &&& 0xFFFFFFFFFFFFF000 = kernel_base Kernel_end.
Proof.
  intros H. rewrite u64_id by lia. unfold kernel_base. rewrite <- land_page.
  apply Z.bits_inj'. intros i Hi. rewrite !Z.land_spec.
  destruct (Z.lt_ge_cases i 64).
  - f_equal. rewrite <- (Z.mod_pow2_bits_low _ 64 i), <- (Z.mod_pow2_bits_low (Z.lnot 0xFFF) 64 i) by lia.
    reflexivity.
  - by rewrite (testbit_above (Kernel_end + 4095) 64 i) by lia.
Qed.

Lemma elem_of_ours_first K a : a ∈ ours (first_trees K) <-> exists i, 0 <= i < 3 /\ a = slot VA_TREE i.
Proof.
  cbn. rewrite !elem_of_cons. split.
  - intros [->|[->|[->|H]]]; [exists 0|exists 1|exists 2|by apply not_elem_of_nil in H]; split; done || lia.
  - intros (i & Hi & ->). assert (i = 0 \/ i = 1 \/ i = 2) as [->|[->| ->]] by lia; auto.
Qed.

(** What the set-up leaves in memory is the empty address space. *)
Lemma first_ok Kernel_end s :
  let K := kernel_base Kernel_end in
  let T := first_trees Kernel_end in
  kernel_virtual <= Kernel_end < END - 4095 ->
  va_header s = VA_TREE -> hds s !! VA_TREE = Some (mkHd 76 0 0 0) -> va_max s = 79 ->
  va_metadata_pages s = 0 -> va_latest s = slot VA_TREE 2 -> va_entries s = 3 ->
  (forall k, root_of k s = addr (T k)) ->
  (forall i, 0 <= i < 79 -> exists n, nodes s !! slot VA_TREE i = Some n) ->
  (forall k, rep (nodes s) (attr_of k) 0 (T k)) -> va_ok s T 76 0.
Proof.
  intros K T HK ? ? ? ? ? ? Hroot Hth Hrep. unfold kernel_virtual, END in HK.
  assert (0xffff800000000000 <= K < 0xFFFF900000000000) as HK2 by (subst K; unfold kernel_base; divlia).
  constructor; try done; try lia.
  - intros a Ha%elem_of_ours_first. done.
  - intros i Hi Hn. exfalso. apply Hn, elem_of_ours_first. exists i. split; [lia|done].
  - apply (bool_decide_eq_true_1 _). vm_compute. reflexivity.
  - intros []; cbn; fold K; unfold END; [|lia]. done.
  - intros []; cbn; fold K; repeat constructor; cbn; unfold END, KERNEL_SPACE, SPACE_END, USER_END,
      USER_SPACE; lia.
Qed.

(** No page of metadata yet. *)
Record blank s : Prop := {
  bl_header : va_header s = 0;
  bl_entries : va_entries s = 0;
  bl_metadata : va_metadata_pages s = 0
}.

Lemma slots_differ : slot VA_TREE 0 <> slot VA_TREE 1 /\ slot VA_TREE 0 <> slot VA_TREE 2 /\
  slot VA_TREE 1 <> slot VA_TREE 2.
Proof. split_and!; discriminate. Qed.

Lemma wp_init_nodes Kernel_end stale s :
  va_header s = VA_TREE -> hds s !! VA_TREE = Some (mkHd 79 0 0 0) -> va_max s = 79 ->
  va_metadata_pages s = 0 -> va_entries s = 0 -> kernel_virtual <= Kernel_end < END - 4095 ->
  (forall i, 0 <= i < 79 -> exists n, nodes s !! slot VA_TREE i = Some n) ->
  wp (init_nodes Kernel_end stale) (fun _ s' =>
    va_lock s' = va_lock s /\ va_ok s' (first_trees Kernel_end) 76 0) s.
Proof.
  intros Eh Ehd Em Emp Ee HK Hth. unfold kernel_virtual, END in HK.
  assert (0xffff800000000000 <= kernel_base Kernel_end < 0xFFFF900000000000) as HK2
    by (unfold kernel_base; divlia).
  pose proof slots_differ as (D01 & D02 & D12).
  destruct (Hth 0 ltac:(lia)) as [n0 E0], (Hth 1 ltac:(lia)) as [n1 E1], (Hth 2 ltac:(lia)) as [n2 E2].
  unfold init_nodes. rewrite kernel_base_code by lia. wp_steps. rewrite Eh.
  eapply wp_upd_hd; [exact Ehd|]. wp_step. eapply wp_upd_node; [exact E0|]. wp_steps.
  unfold with_free. cbn [free_entries unused_entries next_page former_page].
  change (u64 (79 - 1)) with 78.
  replace (u64 (u64 (END - kernel_base Kernel_end) + 1)) with (END + 1 - kernel_base Kernel_end)
    by (rewrite (u64_id (END - _)), u64_id; unfold END; lia).
  eapply wp_mono.
  { eapply (wp_new_entry stale right_ (slot VA_TREE 0) n1 _ 78 0); cbn [va_latest set_va_latest].
    - done.
    - cbn. apply lookup_insert_eq.
    - lia.
    - cbn. change (slot VA_TREE 0 + node_size) with (slot VA_TREE 1). by rewrite lookup_insert_ne.
    - intros _. cbn. split; [apply lookup_insert_eq|done]. }
  cbn [va_latest set_va_latest]. change (slot VA_TREE 0 + node_size) with (slot VA_TREE 1).
  intros a s1 [-> ->]. unfold new_nodes. wp_step. eapply wp_upd_node.
  { cbn. rewrite lookup_insert_ne by done. apply lookup_insert_eq. }
  wp_step. eapply wp_node_at; [cbn; apply lookup_insert_eq|]. wp_step. eapply wp_upd_node.
  { cbn. rewrite lookup_insert_ne by done. apply lookup_insert_eq. }
  wp_step. eapply wp_mono.
  { eapply (wp_new_entry stale NoParent 0 n2 n2 77 0); cbn [va_latest set_va_latest set_nodes set_hds
      set_va_entries].
    - done.
    - cbn. apply lookup_insert_eq.
    - lia.
    - cbn. change (slot VA_TREE 1 + node_size) with (slot VA_TREE 2). by rewrite !lookup_insert_ne.
    - done. }
  cbn [va_latest set_va_latest set_nodes set_hds set_va_entries].
  change (slot VA_TREE 1 + node_size) with (slot VA_TREE 2).
  intros a s1 [-> ->]. unfold new_nodes. wp_steps. eapply wp_upd_node; [cbn; apply lookup_insert_eq|].
  split; [done|]. apply first_ok; cbn; try done.
  - apply lookup_insert_eq.
  - lia.
  - by intros [].
  - intros i Hi. destruct (Hth i Hi) as [n En]. rewrite !lookup_insert. repeat case_decide; eauto.
  - intros []; cbn.
    + refine (conj _ (conj _ (conj _ (conj I I)))); [done|unfold USER_END, USER_SPACE; lia|].
      by rewrite lookup_insert_eq.
    + refine (conj _ (conj _ (conj _ (conj I (conj _ (conj _ (conj _ (conj I I))))))));
        [done|unfold END; lia| |done|unfold SPACE_END, KERNEL_SPACE; lia|].
      * rewrite !(lookup_insert_ne _ (slot VA_TREE 2)) by done. rewrite lookup_insert_eq.
        unfold rec. f_equal. apply (f_equal (fun m => mkNode _ _ m _ _ _ _ _)). cbn [mx].
        unfold END, SPACE_END, KERNEL_SPACE. lia.
      * rewrite !(lookup_insert_ne _ (slot VA_TREE 2)), !(lookup_insert_ne _ (slot VA_TREE 0)) by done.
        by rewrite lookup_insert_eq.
Qed.

Lemma wp_set_up_first Kernel_end stale s :
  blank s -> vm_alloc_ok VA_TREE 1 0x03 (va_vm s) -> kernel_virtual <= Kernel_end < END - 4095 ->
  wp (set_up Kernel_end stale) (fun ok s' => va_lock s' = va_lock s /\
    if ok then va_ok s' (first_trees Kernel_end) 76 0 else blank s') s.
Proof.
  intros [Eh Ee Emp] Hvm HK. unfold set_up, init_header, map_page, vm. wp_steps. rewrite Eh.
  change (0 =? 0) with true. cbn iota. wp_steps.
  eapply wp_mono; [by apply vm_alloc_spec|]. intros d v _.
  destruct (Attribute d =? 0); cbn [negb]; wp_steps; [|done]. cbn [negb]. wp_steps.
  cbn [va_entries set_va_max set_nodes set_hds set_va_header set_va_top set_vm].
  rewrite Ee. change (0 =? 0) with true. cbn iota.
  eapply wp_mono; [apply wp_init_nodes; cbn; try done|].
  - apply lookup_insert_eq.
  - intros i Hi. eexists. by apply page_nodes_lookup.
  - intros [] s2 [Hl H]. by wp_steps.
Qed.

Lemma wp_set_up_ready Kernel_end stale s T f u :
  va_ok s T f u -> wp (set_up Kernel_end stale) (fun ok s' => ok = true /\ s' = s) s.
Proof.
  intros H. unfold set_up. wp_steps. rewrite (ok_header _ _ _ _ H).
  change (VA_TREE =? 0) with false. cbn iota. wp_steps. cbn [negb]. wp_steps.
  rewrite (ok_entries _ _ _ _ H). destruct (Z.eqb_spec (79 - f) 0) as [Hf|Hf]; [|by wp_steps].
  pose proof (ok_number _ _ _ _ H) as Hn. pose proof (ok_root_len _ _ _ _ H false) as Hl.
  unfold ours in Hn. destruct (T false); [done|]. cbn in Hn. lia.
Qed.

(** ** The properties of the allocator of address ranges *)

(** The largest range of a tree. *)
Lemma mx_spec ns attr par t size : rep ns attr par t -> 0 < size ->
  mx t < size <-> forall b len, (b, len) ∈ regions t -> len < size.
Proof.
  intros R Hs. revert par R. induction t as [|p b' len' l IHl r IHr]; intros par R.
  - cbn. split; [|lia]. intros _ b len H. by apply not_elem_of_nil in H.
  - cbn in R. destruct R as (_ & Hl & _ & Rl & Rr). specialize (IHl _ Rl). specialize (IHr _ Rr).
    cbn [mx regions]. split.
    + intros Hm b len [[= -> ->]|[H|H]%elem_of_app]%elem_of_cons; [lia| |].
      * apply (proj1 IHl ltac:(lia) b len H).
      * apply (proj1 IHr ltac:(lia) b len H).
    + intros H. assert (len' < size) by (apply (H b'); set_solver).
      assert (mx l < size) by (apply IHl; intros b len Hin; apply (H b); set_solver).
      assert (mx r < size) by (apply IHr; intros b len Hin; apply (H b); set_solver). lia.
Qed.
End Alloc.

Section Properties.
Context {V : Type} `{!VMem V}.
Implicit Type s : va_state V.

(** [find_fit] terminates, changes nothing and returns the first node (itself before its
    left and its right subtree) whose range is large enough, and [NULL] only when no node of
    the tree has one, so pruning by [max_length] loses no fit. *)
Lemma find_fit_correct attr par t size s :
  rep (nodes s) attr par t -> 0 < size -> height t < 2 ^ 64 - 1 ->
  find_fit (addr t) size s = Done (default 0 (fit t size)) s /\
  (fit t size = None <-> forall b len, (b, len) ∈ regions t -> len < size).
Proof.
  intros R Hs Hh. destruct (wp_inv _ _ _ (wp_find_fit _ _ _ _ _ R Hs Hh)) as (a & s' & E & -> & ->).
  split; [done|]. rewrite fit_mx by done. by eapply mx_spec.
Qed.

(** C35: on a well-formed allocator [va_alloc] returns with its lock free and its trees and
    metadata well formed. Either it took nothing, because no free range is large enough or
    the virtual allocator refused; or it returns the front of a range that was free, what is
    left of this range stays free, and no other range of either tree has changed. *)
Theorem va_alloc_correct Kernel_end stale pages attributes s T f u :
  let k := USR attributes in
  va_ok s T f u -> va_lock s = false -> 0 < pages < 2 ^ 52 -> 4096 * pages <> root_len (T k) ->
  (forall b len, (b, len) ∈ free (T k) -> 4096 * pages <= len ->
     vm_alloc_ok b pages attributes (va_vm s)) ->
  exists r s', va_alloc Kernel_end stale pages attributes s = Done r s' /\
    alloc_post pages attributes s T r s'.
Proof.
  intros k H Hl Hp Hr Hvm. apply wp_inv. unfold va_alloc. destruct (Z.eqb_spec pages 0); [lia|].
  wp_step. apply wp_spin_lock; [done|]. wp_step.
  assert (va_ok (set_locked true s) T f u) as H0 by (by destruct H).
  eapply wp_mono; [by eapply wp_set_up_ready|]. intros ok s1 [-> ->]. cbn [negb].
  eapply wp_mono; [exact (wp_allocate pages attributes (set_locked true s) T f u H0 eq_refl Hp Hr Hvm)|].
  unfold alloc_post. intros r s' H'. exact H'.
Qed.

(** The first call of [va_alloc] sets up the metadata so that the allocator is well
    formed: the kernel's free ranges are the rest of its half from the page behind
    [Kernel_end] on and the range from [KERNEL_SPACE] up, the user's is [USER_SPACE]; when
    no page can be mapped nothing is set up. *)
Lemma set_up_correct Kernel_end stale s :
  blank s -> vm_alloc_ok VA_TREE 1 0x03 (va_vm s) -> kernel_virtual <= Kernel_end < END - 4095 ->
  exists ok s', set_up Kernel_end stale s = Done ok s' /\ va_lock s' = va_lock s /\
    if ok then va_ok s' (first_trees Kernel_end) 76 0 else blank s'.
Proof. intros H1 H2 H3. apply wp_inv. by apply wp_set_up_first. Qed.

(** C36: [va_free] on a well-formed allocator with a free node returns with the lock free and
    the trees well formed, and the freed range is free again when some node of its tree can
    take a child; when none can, the range is lost and nothing has changed. *)
Theorem va_free_correct stale k base pages s T f u :
  va_ok s T f u -> va_lock s = false -> 0 < f -> 0 < pages < 2 ^ 52 -> 0 <= base ->
  base + 4096 * pages <= 2 ^ 64 ->
  (room (T k) = true -> vm_free_ok (mkDesc 0 0 base pages 0) (va_vm s)) ->
  exists s', va_free stale (mkVaRet 0 base pages (attr_of k)) s = Done () s' /\
    free_post k base pages s T s'.
Proof.
  intros H Hl Hf Hp Hb He Hvm.
  destruct (wp_inv _ _ _ (wp_va_free stale k base pages s T f u H Hl Hf Hp Hb He Hvm))
    as ([] & s' & E & R). by exists s'.
Qed.
End Properties.

(** ** A sample *)

Definition blank_node : va_node := mkNode 0 0 0 0 0 0 0 0.
Definition sample_end := 0xffff800000100000.
(** What the first call leaves behind, on a given virtual allocator. *)
Definition sample_nodes : gmap Z va_node :=
  <[slot VA_TREE 0 := mkNode sample_end (END + 1 - sample_end) (SPACE_END + 1 - KERNEL_SPACE) 3 1
      (slot VA_TREE 1) 0 0]>
  (<[slot VA_TREE 1 := mkNode KERNEL_SPACE (SPACE_END + 1 - KERNEL_SPACE)
      (SPACE_END + 1 - KERNEL_SPACE) 3 0 0 0 (slot VA_TREE 0)]>
  (<[slot VA_TREE 2 := mkNode USER_SPACE (USER_END + 1 - USER_SPACE)
      (USER_END + 1 - USER_SPACE) 7 0 0 0 0]>
  (page_nodes (fun _ => blank_node) VA_TREE ∪ ∅))).
Definition sample_va {V} (v : V) : va_state V :=
  mkVa v {[VA_TREE := mkHd 76 0 0 0]} sample_nodes 3 79 VA_TREE (slot VA_TREE 0) (slot VA_TREE 2)
    (slot VA_TREE 2) 0 (VA_TREE + 0x1000) false (mkVc (replicate 512 0) 0).

Lemma sample_va_ok {V} (v : V) : va_ok (sample_va v) (first_trees sample_end) 76 0.
Proof.
  apply first_ok; try done.
  - intros []; done.
  - intros i Hi. cbn [sample_va nodes]. unfold sample_nodes.
    rewrite !lookup_insert. repeat case_decide; eauto. eexists. by apply page_nodes_lookup.
  - intros []; cbn [sample_va nodes first_trees rep attr_of];
      repeat (split || exact I); first [vm_compute; reflexivity|vm_compute; discriminate].
Qed.

(** A virtual allocator that grants everything. *)
Definition generous : VMem unit.
Proof.
  refine {| vm_alloc va pages attr := mret (mkDesc 0 0 va pages 0); vm_free _ := mret ();
            vm_alloc_ok _ _ _ _ := True; vm_free_ok _ _ := True |}; done.
Defined.

Lemma find_fit_correct_witness :
  let s := sample_va () in
  let t := first_trees sample_end false in
  find_fit (addr t) 0x3f0000000000 s = Done (slot VA_TREE 1) s /\
  (fit t 0x3f0000000000 = None <-> forall b len, (b, len) ∈ regions t -> len < 0x3f0000000000).
Proof.
  apply (find_fit_correct 3 0 (first_trees sample_end false) 0x3f0000000000 (sample_va ())
    (ok_rep _ _ _ _ (sample_va_ok ()) false)); reflexivity.
Defined.

Lemma va_alloc_correct_witness :
  let s := sample_va () in
  exists r s', va_alloc (VMem0 := generous) sample_end (fun _ => blank_node) 16 7 s = Done r s' /\
    alloc_post (VMem0 := generous) 16 7 s (first_trees sample_end) r s'.
Proof.
  apply (va_alloc_correct (VMem0 := generous) sample_end (fun _ => blank_node) 16 7 (sample_va ())
    (first_trees sample_end) 76 0 (sample_va_ok ())); [reflexivity|lia|discriminate|done].
Defined.

Lemma set_up_correct_witness :
  let s := mkVa () ∅ ∅ 0 0 0 0 0 0 0 VA_TREE false (mkVc (replicate 512 0) 0) in
  exists ok s', set_up (VMem0 := generous) sample_end (fun _ => blank_node) s = Done ok s' /\
    va_lock s' = va_lock s /\
    if ok then va_ok s' (first_trees sample_end) 76 0 else blank s'.
Proof.
  apply (set_up_correct (VMem0 := generous) sample_end (fun _ => blank_node)
    (mkVa () ∅ ∅ 0 0 0 0 0 0 0 VA_TREE false (mkVc (replicate 512 0) 0)));
    [by constructor|exact I|split; [discriminate|reflexivity]].
Defined.

Lemma va_free_correct_witness :
  let s := sample_va () in
  exists s', va_free (VMem0 := generous) (fun _ => blank_node)
      (mkVaRet 0 0x10000000 4 (attr_of true)) s = Done () s' /\
    free_post true 0x10000000 4 s (first_trees sample_end) s'.
Proof.
  apply (va_free_correct (VMem0 := generous) (fun _ => blank_node) true 0x10000000 4 (sample_va ())
    (first_trees sample_end) 76 0 (sample_va_ok ())); (reflexivity || lia || done).
Defined.
