(* ===== verification/Cpu.v ===== *)
(** * Descriptor tables ([x86-64/gdt.c], [idt.c], [tss.c])

    The descriptors as the records the code fills in, laid out as bytes the way the packed
    structures are, and the processor's reading of these bytes. The addresses at which the
    linker puts [gdt], [idt], [tss] and the stack for double faults are parameters. *)
From S2P Require Import KPrelude Bytes.

(** ** Packed structures *)

(** [*(T * )(a + at_) = ...] for an object with the bytes [b]. *)
Definition put (at_ : nat) (b a : list Z) : list Z := list_inserts at_ b a.

(** ** [tss.c] *)

Record tss64 := mkTss {
  rsp0 : Z; rsp1 : Z; rsp2 : Z;
  ist1 : Z; ist2 : Z; ist3 : Z; ist4 : Z; ist5 : Z; ist6 : Z; ist7 : Z;
  iomap_base : Z
}.
Definition tss_zero : tss64 := mkTss 0 0 0 0 0 0 0 0 0 0 0.

(** The packed bytes: the reserved fields are 0. *)
Definition tss_bytes (t : tss64) : list Z :=
  bytes_of 4 0 ++ bytes_of 8 (rsp0 t) ++ bytes_of 8 (rsp1 t) ++ bytes_of 8 (rsp2 t) ++
  bytes_of 8 0 ++ bytes_of 8 (ist1 t) ++ bytes_of 8 (ist2 t) ++ bytes_of 8 (ist3 t) ++
  bytes_of 8 (ist4 t) ++ bytes_of 8 (ist5 t) ++ bytes_of 8 (ist6 t) ++ bytes_of 8 (ist7 t) ++
  bytes_of 8 0 ++ bytes_of 2 0 ++ bytes_of 2 (iomap_base t).
Definition sizeof_tss : Z := Z.of_nat (length (tss_bytes tss_zero)).
Definition sizeof_double_fault_stack := 16384.

(** ** [gdt.c] *)

Record gdt_entry := mkGdt {
  limit_low : Z; base_low : Z; base_mid : Z; access : Z; granularity : Z; base_high : Z
}.
Definition gdt_bytes (e : gdt_entry) : list Z :=
  bytes_of 2 (limit_low e) ++ bytes_of 2 (base_low e) ++ bytes_of 1 (base_mid e) ++
  bytes_of 1 (access e) ++ bytes_of 1 (granularity e) ++ bytes_of 1 (base_high e).

Record tss_descriptor := mkTssDesc {
  t_limit_low : Z; t_base_low : Z; t_base_mid : Z; t_access : Z; t_limit_high_flags : Z;
  t_base_high : Z; t_base_upper : Z; t_reserved : Z
}.
Definition tss_descriptor_bytes (e : tss_descriptor) : list Z :=
  bytes_of 2 (t_limit_low e) ++ bytes_of 2 (t_base_low e) ++ bytes_of 1 (t_base_mid e) ++
  bytes_of 1 (t_access e) ++ bytes_of 1 (t_limit_high_flags e) ++ bytes_of 1 (t_base_high e) ++
  bytes_of 4 (t_base_upper e) ++ bytes_of 4 (t_reserved e).

(** [gdtr] and [idtr_t] *)
Record table_register := mkReg { limit : Z; base : Z }.

(** ** [idt.c] *)

Definition INTERRUPT_GATE := 0xE.

Record idt_entry := mkIdt {
  offset_low : Z; selector : Z; ist : Z; type_attr : Z; offset_mid : Z; offset_high : Z;
  reserved : Z
}.

(** The tables and the processor's registers that point to them. *)
Record cpu_state := mkCpu {
  gdt : list Z;
  tss : tss64;
  idt : list idt_entry;
  gdt_register : table_register;
  idt_register : table_register
}.

Section Tables.
(** Addresses of [gdt], [idt], [tss] and [double_fault_stack]. *)
Context (gdt_addr idt_addr tss_addr stack_addr : Z).
(** [exception_stub_table], its address, and the addresses of the three other stubs with the
    offsets stored there. *)
Context (stub_table_base : Z) (exception_stub_table : list Z).
Context (spurious_addr spurious_stub timer_addr timer_stub keyboard_addr keyboard_stub : Z).

Definition tss_init : M cpu_state unit :=
  modify (fun s =>
    let t := tss s in
    mkCpu (gdt s)
      (mkTss (rsp0 t) (rsp1 t) (rsp2 t) (u64 (stack_addr + sizeof_double_fault_stack))
         (ist2 t) (ist3 t) (ist4 t) (ist5 t) (ist6 t) (ist7 t) (u16 sizeof_tss))
      (idt s) (gdt_register s) (idt_register s)).

Definition tss_entry : tss_descriptor :=
  mkTssDesc (u16 (sizeof_tss - 1)) (u16 (tss_addr &&& 0xffff)) (u8 ((tss_addr >>> 16) &&& 0xff))
    0x89 (u8 (((sizeof_tss - 1) >>> 16) &&& 0x0f)) (u8 ((tss_addr >>> 24) &&& 0xff))
    (u32 (tss_addr >>> 32)) 0.

(** [gdt_ptr[i] = ...] *)
Definition put_entry (i : nat) (e : gdt_entry) (g : list Z) : list Z :=
  put (8 * i) (gdt_bytes e) g.

Definition setup_gdt : M cpu_state unit :=
  tss_init;;
  modify (fun s =>
    let g := put_entry 0 (mkGdt 0 0 0 0 0 0) (gdt s) in
    let g := put_entry 1 (mkGdt 0 0 0 0x9A 0xA0 0) g in
    let g := put_entry 2 (mkGdt 0 0 0 0x92 0x00 0) g in
    let g := put_entry 3 (mkGdt 0 0 0 0xFA 0xA0 0) g in
    let g := put_entry 4 (mkGdt 0 0 0 0xF2 0x00 0) g in
    let g := put 0x28 (tss_descriptor_bytes tss_entry) g in
    mkCpu g (tss s) (idt s) (mkReg (Z.of_nat (length g) - 1) gdt_addr) (idt_register s)).

Definition idt_set_gate (entry address ist_ type : Z) : M cpu_state unit :=
  i ← gets idt;
  i ← of_option (array_set i entry
        (mkIdt (u16 (address &&& 0xffff)) 0x08 (u8 (ist_ &&& 7)) (u8 (0x80 ||| type))
           (u16 ((address >>> 16) &&& 0xffff)) (u32 (address >>> 32)) 0));
  modify (fun s => mkCpu (gdt s) (tss s) i (gdt_register s) (idt_register s)).

(** A stub's address: a signed offset from where the offset is stored. *)
Definition stub_at (from offset : Z) : Z := u64 (from + offset).

Definition setup_execptions : M cpu_state unit :=
  for_ 0 32 (fun vector _ =>
    offset ← of_option (array_get exception_stub_table vector);
    let stub := stub_at stub_table_base offset in
    if vector =? 14 then idt_set_gate vector stub 1 INTERRUPT_GATE
    else idt_set_gate vector stub 0 INTERRUPT_GATE) ();;
  offset ← of_option (array_get exception_stub_table 8);
  idt_set_gate 8 (stub_at stub_table_base offset) 1 INTERRUPT_GATE;;
  let spurious := stub_at spurious_addr spurious_stub in
  idt_set_gate 0xFF spurious 0 INTERRUPT_GATE;;
  idt_set_gate 0x27 spurious 0 INTERRUPT_GATE;;
  idt_set_gate 0x40 (stub_at timer_addr timer_stub) 0 INTERRUPT_GATE;;
  idt_set_gate 0x41 (stub_at keyboard_addr keyboard_stub) 0 INTERRUPT_GATE;;
  modify (fun s => mkCpu (gdt s) (tss s) (idt s) (gdt_register s)
            (mkReg (16 * Z.of_nat (length (idt s)) - 1) idt_addr)).

(** ** What the processor reads *)

(** The integer in bytes [at_], ..., [at_ + n - 1]. *)
Definition field (n at_ : nat) (a : list Z) : Z :=
  foldr (fun b v => b + 256 * v) 0 (take n (drop at_ a)).

(** A segment descriptor in 8 bytes: base, limit, access byte and flags. *)
Record descriptor := mkDescr { d_base : Z; d_limit : Z; d_access : Z; d_flags : Z }.
Definition read_descriptor (g : list Z) (sel : nat) : descriptor :=
  mkDescr (field 3 (sel + 2) g + 2 ^ 24 * field 1 (sel + 7) g)
    (field 2 sel g + 2 ^ 16 * (field 1 (sel + 6) g mod 16)) (field 1 (sel + 5) g)
    (field 1 (sel + 6) g / 16).
(** The 16 bytes of a system descriptor. *)
Definition read_system_descriptor (g : list Z) (sel : nat) : descriptor :=
  let d := read_descriptor g sel in
  mkDescr (d_base d + 2 ^ 32 * field 4 (sel + 8) g) (d_limit d) (d_access d) (d_flags d).

(** The handler an interrupt gate points to. *)
Definition gate_offset (e : idt_entry) : Z :=
  offset_low e + 2 ^ 16 * offset_mid e + 2 ^ 32 * offset_high e.

(** ** The global table *)

(** The bytes of a field that holds part of an address. *)
Lemma tss_bytes_split : 0 <= tss_addr < 2 ^ 64 ->
  exists b0 b1 b2 b3 b4 b5 b6 b7,
    bytes_of 8 tss_addr = [b0; b1; b2; b3; b4; b5; b6; b7] /\
    tss_descriptor_bytes tss_entry =
      [103; 0; b0; b1; b2; 0x89; 0; b3; b4; b5; b6; b7; 0; 0; 0; 0].
Proof.
  intros Ha. do 8 eexists. split; [reflexivity|].
  unfold tss_descriptor_bytes, tss_entry.
  cbn [t_limit_low t_base_low t_base_mid t_access t_limit_high_flags t_base_high t_base_upper
       t_reserved bytes_of app].
  change (u16 (sizeof_tss - 1)) with 103.
  change (u8 (((sizeof_tss - 1) >>> 16) &&& 0x0f)) with 0.
  change 0xffff with (Z.ones 16). change 0xff with (Z.ones 8).
  rewrite !Z.land_ones, !shiftr_div by lia. unfold u8, u16, u32.
  change (2 ^ 8) with 256. change (2 ^ 16) with (256 * 256).
  change (2 ^ 24) with (256 * 256 * 256). change (2 ^ 32) with (256 * 256 * 256 * 256).
  rewrite <- !Z.div_div by lia. repeat (apply (f_equal2 cons); [first [reflexivity|divlia]|]). reflexivity.
Qed.

(** The table that [setup_gdt] writes, whatever the array held before. *)
Lemma gdt_written g : length g = 56%nat ->
  put 0x28 (tss_descriptor_bytes tss_entry)
    (put_entry 4 (mkGdt 0 0 0 0xF2 0x00 0) (put_entry 3 (mkGdt 0 0 0 0xFA 0xA0 0)
    (put_entry 2 (mkGdt 0 0 0 0x92 0x00 0) (put_entry 1 (mkGdt 0 0 0 0x9A 0xA0 0)
    (put_entry 0 (mkGdt 0 0 0 0 0 0) g))))) =
  [0;0;0;0;0;0;0;0; 0;0;0;0;0;0x9A;0xA0;0; 0;0;0;0;0;0x92;0;0; 0;0;0;0;0;0xFA;0xA0;0;
   0;0;0;0;0;0xF2;0;0] ++ tss_descriptor_bytes tss_entry.
Proof.
  intros Hg. do 56 (destruct g as [|? g]; [discriminate|]). destruct g; [|discriminate]. reflexivity.
Qed.

(** What [setup_gdt] promises: the registers and segments as the processor reads them. *)
Record gdt_ready (s' : cpu_state) : Prop := {
  gd_register : gdt_register s' = mkReg 55 gdt_addr;
  gd_null : take 8 (gdt s') = [0; 0; 0; 0; 0; 0; 0; 0];
  gd_kernel_code : read_descriptor (gdt s') 0x08 = mkDescr 0 0 0x9A 0xA;
  gd_kernel_data : read_descriptor (gdt s') 0x10 = mkDescr 0 0 0x92 0;
  gd_user_code : read_descriptor (gdt s') 0x18 = mkDescr 0 0 0xFA 0xA;
  gd_user_data : read_descriptor (gdt s') 0x20 = mkDescr 0 0 0xF2 0;
  gd_tss : read_system_descriptor (gdt s') 0x28 = mkDescr tss_addr (sizeof_tss - 1) 0x89 0;
  gd_ist1 : ist1 (tss s') = stack_addr + sizeof_double_fault_stack;
  gd_iomap : iomap_base (tss s') = sizeof_tss
}.

(** ** The interrupt table *)

Definition gate (address ist_ : Z) : idt_entry :=
  mkIdt (u16 (address &&& 0xffff)) 0x08 (u8 (ist_ &&& 7)) 0x8E
    (u16 ((address >>> 16) &&& 0xffff)) (u32 (address >>> 32)) 0.

Lemma gate_points address ist_ : 0 <= address < 2 ^ 64 -> gate_offset (gate address ist_) = address.
Proof.
  intros Ha. unfold gate_offset, gate. cbn [offset_low offset_mid offset_high].
  change 0xffff with (Z.ones 16). rewrite !Z.land_ones, !shiftr_div by lia. unfold u16, u32.
  change (2 ^ 32) with (2 ^ 16 * 2 ^ 16). rewrite <- Z.div_div by lia.
  change (2 ^ 16) with 65536. divlia.
Qed.

Lemma wp_set_gate entry address ist_ s (Q : unit -> cpu_state -> Prop) :
  0 <= entry < Z.of_nat (length (idt s)) ->
  Q () (mkCpu (gdt s) (tss s) (<[Z.to_nat entry := gate address ist_]> (idt s))
          (gdt_register s) (idt_register s)) ->
  wp (idt_set_gate entry address ist_ INTERRUPT_GATE) Q s.
Proof.
  intros He HQ. unfold idt_set_gate. wp_steps. apply wp_of_option. eexists.
  split; [by apply array_set_Some|]. by wp_steps.
Qed.

(** The entry that the set-up leaves for a vector, [None] when it keeps the old one. *)
Definition handler (v : Z) : option idt_entry :=
  if v =? 0x41 then Some (gate (stub_at keyboard_addr keyboard_stub) 0)
  else if v =? 0x40 then Some (gate (stub_at timer_addr timer_stub) 0)
  else if (v =? 0x27) || (v =? 0xFF) then Some (gate (stub_at spurious_addr spurious_stub) 0)
  else if (0 <=? v) && (v <? 32) then
    Some (gate (stub_at stub_table_base (default 0 (exception_stub_table !! Z.to_nat v)))
            (if (v =? 8) || (v =? 14) then 1 else 0))
  else None.

Definition exceptions_written (n : Z) (old new : list idt_entry) : Prop :=
  length new = length old /\ forall v, 0 <= v < 256 -> new !! Z.to_nat v =
    if v <? n then Some (gate (stub_at stub_table_base (default 0 (exception_stub_table !! Z.to_nat v)))
                          (if v =? 14 then 1 else 0))
    else old !! Z.to_nat v.

Lemma wp_exceptions s : length (idt s) = 256%nat -> length exception_stub_table = 32%nat ->
  wp (for_ 0 32 (fun vector _ =>
    offset ← of_option (array_get exception_stub_table vector);
    let stub := stub_at stub_table_base offset in
    if vector =? 14 then idt_set_gate vector stub 1 INTERRUPT_GATE
    else idt_set_gate vector stub 0 INTERRUPT_GATE) ())
  (fun _ s' => exists i, s' = mkCpu (gdt s) (tss s) i (gdt_register s) (idt_register s) /\
     exceptions_written 32 (idt s) i) s.
Proof.
  intros Hi Ht. change 32 with (0 + 32) at 2.
  apply (wp_for (fun n _ s' => exists i, s' = mkCpu (gdt s) (tss s) i (gdt_register s) (idt_register s) /\
    exceptions_written n (idt s) i)); [lia| |].
  - exists (idt s). split; [by destruct s|]. split; [done|]. intros v Hv.
    by destruct (Z.ltb_spec v 0); [lia|].
  - intros n [] s1 Hn (i & -> & Hl & Hw).
    destruct (array_get_Some exception_stub_table n ltac:(lia)) as (off & Eo & El).
    wp_step. apply wp_of_option. exists off. split; [done|]. cbn zeta.
    replace (if n =? 14 then idt_set_gate n (stub_at stub_table_base off) 1 INTERRUPT_GATE
             else idt_set_gate n (stub_at stub_table_base off) 0 INTERRUPT_GATE)
      with (idt_set_gate n (stub_at stub_table_base off) (if n =? 14 then 1 else 0) INTERRUPT_GATE)
      by (by destruct (n =? 14)).
    apply wp_set_gate; cbn; [lia|]. eexists. split; [done|]. split; [by rewrite length_insert|].
    intros v Hv. destruct (Z.eq_dec v n) as [->|Hne].
    + destruct (Z.ltb_spec n (n + 1)); [|lia]. rewrite list_lookup_insert_eq by lia. by rewrite El.
    + rewrite list_lookup_insert_ne by lia. rewrite Hw by done.
      destruct (Z.ltb_spec v n), (Z.ltb_spec v (n + 1)); try lia; done.
Qed.

Lemma wp_setup_execptions s : length (idt s) = 256%nat -> length exception_stub_table = 32%nat ->
  wp setup_execptions (fun _ s' => gdt s' = gdt s /\ tss s' = tss s /\
    gdt_register s' = gdt_register s /\ idt_register s' = mkReg 4095 idt_addr /\
    length (idt s') = 256%nat /\ forall v, 0 <= v < 256 -> idt s' !! Z.to_nat v =
      match handler v with Some e => Some e | None => idt s !! Z.to_nat v end) s.
Proof.
  intros Hi Ht. unfold setup_execptions. wp_step.
  eapply wp_mono; [by apply wp_exceptions|]. intros [] s1 (i & -> & Hl & Hw).
  destruct (array_get_Some exception_stub_table 8 ltac:(lia)) as (off & Eo & El).
  wp_step. apply wp_of_option. exists off. split; [done|].
  do 5 (wp_step; apply wp_set_gate; cbn; [rewrite ?length_insert; lia|]). wp_steps. cbn.
  rewrite !length_insert, Hl, Hi. split_and!; try done. intros v Hv. unfold handler.
  destruct (Z.eqb_spec v 0x41) as [->|]; [by rewrite list_lookup_insert_eq by (rewrite !length_insert; lia)|].
  rewrite list_lookup_insert_ne by lia.
  destruct (Z.eqb_spec v 0x40) as [->|]; [by rewrite list_lookup_insert_eq by (rewrite !length_insert; lia)|].
  rewrite list_lookup_insert_ne by lia.
  destruct (Z.eqb_spec v 0x27) as [->|]; [by rewrite list_lookup_insert_eq by (rewrite !length_insert; lia)|].
  rewrite list_lookup_insert_ne by lia.
  destruct (Z.eqb_spec v 0xFF) as [->|]; [by rewrite list_lookup_insert_eq by (rewrite !length_insert; lia)|].
  rewrite list_lookup_insert_ne by lia. cbn [orb].
  destruct (Z.eqb_spec v 8) as [->|]; [rewrite list_lookup_insert_eq by lia; by rewrite El|].
  rewrite list_lookup_insert_ne, Hw by lia. cbn [orb].
  destruct (Z.leb_spec 0 v); [|lia]. by destruct (v <? 32).
Qed.

(** ** The properties of the descriptor tables *)

(** After [setup_gdt] the processor reads from the table a null descriptor, 64-bit code
    segments at 0x08 (ring 0) and 0x18 (ring 3), writable data segments at 0x10 and 0x20, and
    at 0x28 an available 64-bit TSS descriptor with exactly the address and size of [tss]; all
    of them lie inside the limit that is loaded, whatever the array held before. *)
Lemma setup_gdt_correct s :
  length (gdt s) = 56%nat -> 0 <= tss_addr < 2 ^ 64 ->
  0 <= stack_addr -> stack_addr + sizeof_double_fault_stack < 2 ^ 64 ->
  exists s', setup_gdt s = Done () s' /\ gdt_ready s' /\ idt s' = idt s.
Proof.
  intros Hg Ha Hs0 Hs. eexists. split; [reflexivity|]. split; [|done]. cbn [tss gdt].
  rewrite gdt_written by done. destruct (tss_bytes_split Ha) as (b0&b1&b2&b3&b4&b5&b6&b7&E8&->).
  constructor; cbn [gdt tss gdt_register ist1 iomap_base]; try reflexivity.
  - pose proof (field_bytes 8 tss_addr Ha) as Hv. rewrite E8 in Hv. cbn [foldr] in Hv.
    unfold read_system_descriptor, read_descriptor, field. cbn [d_base d_limit d_access d_flags].
    cbn [Nat.add drop take app foldr]. f_equal; try reflexivity. lia.
  - unfold sizeof_double_fault_stack in *. apply u64_id. lia.
Qed.

(** [setup_execptions] installs a present ring-0 interrupt gate for each of the 32
    exceptions (on its own stack IST1 for the double fault and the page fault), for the
    spurious, timer and keyboard vectors, leaves every other vector alone, and each gate
    points to exactly the address of its stub. *)
Lemma setup_execptions_correct s :
  length (idt s) = 256%nat -> length exception_stub_table = 32%nat ->
  exists s', setup_execptions s = Done () s' /\ idt_register s' = mkReg 4095 idt_addr /\
    gdt s' = gdt s /\ tss s' = tss s /\ forall v, 0 <= v < 256 ->
    match handler v with
    | Some e => idt s' !! Z.to_nat v = Some e /\ selector e = 0x08 /\ type_attr e = 0x8E /\
        ist e = (if (v =? 8) || (v =? 14) then 1 else 0) /\
        exists from offset, e = gate (stub_at from offset) (ist e) /\
          gate_offset e = (from + offset) mod 2 ^ 64
    | None => idt s' !! Z.to_nat v = idt s !! Z.to_nat v /\ 32 <= v
    end.
Proof.
  intros Hi Ht. destruct (wp_inv _ _ _ (wp_setup_execptions s Hi Ht))
    as ([] & s' & E & Hg & Htss & _ & Hr & Hl & Hw).
  exists s'. split_and!; try done. intros v Hv. specialize (Hw v Hv).
  assert (forall from off k, gate_offset (gate (stub_at from off) k) = (from + off) mod 2 ^ 64) as Hp
    by (intros; by apply gate_points, u64_range).
  assert (forall from off k, k = (if (v =? 8) || (v =? 14) then 1 else 0) ->
    idt s' !! Z.to_nat v = Some (gate (stub_at from off) k) ->
    idt s' !! Z.to_nat v = Some (gate (stub_at from off) k) /\
    selector (gate (stub_at from off) k) = 0x08 /\ type_attr (gate (stub_at from off) k) = 0x8E /\
    ist (gate (stub_at from off) k) = (if (v =? 8) || (v =? 14) then 1 else 0) /\
    exists from' offset, gate (stub_at from off) k =
        gate (stub_at from' offset) (ist (gate (stub_at from off) k)) /\
      gate_offset (gate (stub_at from off) k) = (from' + offset) mod 2 ^ 64) as Hgate.
  { intros from off k Hk HE. rewrite Hk in *. split; [done|]. split; [done|]. split; [done|].
    split; [by destruct (_ || _)|]. exists from, off. split; [by destruct (_ || _)|]. apply Hp. }
  unfold handler in *.
  destruct (Z.eqb_spec v 0x41) as [E1|_]; [by apply Hgate; [rewrite E1|]|].
  destruct (Z.eqb_spec v 0x40) as [E1|_]; [by apply Hgate; [rewrite E1|]|].
  destruct (Z.eqb_spec v 0x27) as [E1|_]; [by apply Hgate; [rewrite E1|]|].
  destruct (Z.eqb_spec v 0xFF) as [E1|_]; [by apply Hgate; [rewrite E1|]|]. cbn [orb] in *.
  destruct (Z.leb_spec 0 v); [|lia]. destruct (Z.ltb_spec v 32); cbn [andb] in *; [by apply Hgate|].
  done.
Qed.
End Tables.

(** ** Samples *)

Definition sample_cpu : cpu_state :=
  mkCpu (replicate 56 0xCC) tss_zero (replicate 256 (mkIdt 0 0 0 0 0 0 0)) (mkReg 0 0) (mkReg 0 0).

Lemma setup_gdt_correct_witness :
  exists s', setup_gdt 0xffff800000010000 0xffff800000020040 0xffff800000030000 sample_cpu = Done () s' /\
    gdt_ready 0xffff800000010000 0xffff800000020040 0xffff800000030000 s' /\
    idt s' = idt sample_cpu.
Proof.
  apply (setup_gdt_correct 0xffff800000010000 0xffff800000020040 0xffff800000030000 sample_cpu);
    [reflexivity|lia|lia|reflexivity].
Defined.

Lemma setup_execptions_correct_witness :
  let table := (fun i => 16 * Z.of_nat i) <$> seq 0 32 in
  exists s', setup_execptions 0x1000 0xffff800000000000 table 0x2000 8 0x2010 8 0x2020 (-16)
               sample_cpu = Done () s' /\
    idt_register s' = mkReg 4095 0x1000 /\ gdt s' = gdt sample_cpu /\ tss s' = tss sample_cpu /\
    forall v, 0 <= v < 256 ->
    match handler 0xffff800000000000 table 0x2000 8 0x2010 8 0x2020 (-16) v with
    | Some e => idt s' !! Z.to_nat v = Some e /\ selector e = 0x08 /\ type_attr e = 0x8E /\
        ist e = (if (v =? 8) || (v =? 14) then 1 else 0) /\
        exists from offset, e = gate (stub_at from offset) (ist e) /\
          gate_offset e = (from + offset) mod 2 ^ 64
    | None => idt s' !! Z.to_nat v = idt sample_cpu !! Z.to_nat v /\ 32 <= v
    end.
Proof.
  apply (setup_execptions_correct 0x1000 0xffff800000000000
    ((fun i => 16 * Z.of_nat i) <$> seq 0 32) 0x2000 8 0x2010 8 0x2020 (-16) sample_cpu);
    reflexivity.
Defined.
