(* ===== verification/Apic.v ===== *)
(** * Interrupt controllers ([x86-64/apic.c], [handlers.c], [tsc.h])

    [lapic_read] and its companions of [lowlevel.asm] are 32-bit accesses relative to
    [APIC_base] and [IO_APIC]; a model-specific register is read and written as a space of
    its own, the time-stamp counter being number 0x10. *)
From S2P Require Import KPrelude PortIO.

Definition IOAPIC_REGSEL := 0x00.
Definition IOAPIC_WINDOW := 0x10.
Definition LAPIC_EOI := 0xB0.
Definition LVT_TIMER := 0x320.
Definition LVT_THERMAL := 0x330.
Definition LVT_PERF := 0x340.
Definition LVT_LINT0 := 0x350.
Definition LVT_LINT1 := 0x360.
Definition LVT_ERROR := 0x370.
Definition KEYBOARD_VECTOR := 0x41.

Record apic_state := mkApic { apic_trace : list event; timer_ticks : Z }.

#[export] Instance apic_IO : IO apic_state.
Proof.
  refine {| trace := apic_trace; set_trace t s := mkApic t (timer_ticks s) |}; [done | done | by intros []].
Defined.

Section Apic.
Context (dev : device) (APIC_base IO_APIC : Z).

Abbreviation MA := (M apic_state).

Definition lapic_read (offset : Z) : MA Z := mmio_read dev 4 (u64 (APIC_base + offset)).
Definition lapic_write (offset value : Z) : MA unit := mmio_write 4 (u64 (APIC_base + offset)) value.
Definition ioapic_read (offset : Z) : MA Z := mmio_read dev 4 (u64 (IO_APIC + offset)).
Definition ioapic_write (offset value : Z) : MA unit := mmio_write 4 (u64 (IO_APIC + offset)) value.
Definition read_msr (offset : Z) : MA Z := io_read dev Msr 8 offset.
Definition write_msr (offset value : Z) : MA unit := io_write Msr 8 offset value.

Definition ioapic_read_register (offset : Z) : MA Z :=
  ioapic_write IOAPIC_REGSEL offset;; ioapic_read IOAPIC_WINDOW.
Definition ioapic_write_register (offset value : Z) : MA unit :=
  ioapic_write IOAPIC_REGSEL offset;; ioapic_write IOAPIC_WINDOW value.

(** [lapic_write(r, lapic_read(r) | (1 << 16))] *)
Definition lapic_mask (r : Z) : MA unit := v ← lapic_read r; lapic_write r (v ||| (1 <<< 16)).

Definition lapic_mask_all : MA unit :=
  lapic_mask LVT_TIMER;; lapic_mask LVT_THERMAL;; lapic_mask LVT_PERF;;
  lapic_mask LVT_LINT0;; lapic_mask LVT_LINT1;; lapic_mask LVT_ERROR.

(** The body of the loop of [ioapic_mask_all]. *)
Definition ioapic_mask_entry (i : Z) : MA unit :=
  let reg := u8 (0x10 + i * 2) in
  low ← ioapic_read_register reg;
  ioapic_write_register reg (low ||| (1 <<< 16)).

(** The counter of the loop is a [u8]. *)
Definition ioapic_mask_all : MA unit :=
  version ← ioapic_read_register 1;
  let max := u8 ((version >>> 16) &&& 0xff) in
  while FUEL (fun i =>
    if i <=? max then ioapic_mask_entry i;; mret (inl (u8 (i + 1))) else mret (inr ())) 0.

Definition APIC_init : MA unit :=
  apic ← read_msr 0x1B;
  write_msr 0x1B (apic ||| (1 <<< 11));;
  lapic_write 0xF0 0x1FF;;
  lapic_write 0x80 0;;
  lapic_mask_all;;
  lapic_write 0x280 0;;
  ioapic_mask_all.

Definition ioapic_route_keyboard (destination_apic_id : Z) : MA unit :=
  let reg := 0x10 + 1 * 2 in
  ioapic_write_register reg (KEYBOARD_VECTOR ||| (1 <<< 16));;
  ioapic_write_register (reg + 1) (u32 (destination_apic_id <<< 24));;
  ioapic_write_register reg KEYBOARD_VECTOR.

Definition timer_handler : MA unit :=
  modify (fun s => mkApic (apic_trace s) (u64 (timer_ticks s + 1)));; lapic_write LAPIC_EOI 0.
Definition get_ticks : MA Z := gets timer_ticks.

(** [tsc_freq] is computed by [lowlevel.asm]. *)
Definition wait_tsc (tsc_freq ms : Z) : MA unit :=
  let msticks := u64 (ms * 1000) in
  if msticks =? 0 then fault
  else
    let duration := tsc_freq / msticks in
    start ← read_msr 0x10;
    while FUEL (fun _ : unit =>
      now ← read_msr 0x10;
      mret (if u64 (now - start) <? duration then inl () else inr ())) ().

(** ** The hardware

    Local APIC registers keep what was written last; an I/O APIC keeps a register file
    behind a register that selects one of them; model-specific registers keep what was
    written last. *)
Context (lapic_init ioapic_init msr_init : Z -> Z).

Fixpoint lapic (t : list event) (off : Z) : Z :=
  match t with
  | [] => lapic_init off
  | Wr Mmio 4 a v :: t' => if a =? APIC_base + off then u32 v else lapic t' off
  | _ :: t' => lapic t' off
  end.
Fixpoint selected (t : list event) : Z :=
  match t with
  | [] => 0
  | Wr Mmio 4 a v :: t' => if a =? IO_APIC then v else selected t'
  | _ :: t' => selected t'
  end.
Fixpoint ioapic (t : list event) (r : Z) : Z :=
  match t with
  | [] => ioapic_init r
  | Wr Mmio 4 a v :: t' =>
      if (a =? IO_APIC + 0x10) && (selected t' =? r) then u32 v else ioapic t' r
  | _ :: t' => ioapic t' r
  end.

Fixpoint msr (t : list event) (r : Z) : Z :=
  match t with
  | [] => msr_init r
  | Wr Msr 8 a v :: t' => if a =? r then u64 v else msr t' r
  | _ :: t' => msr t' r
  end.

Record apic_hardware : Prop := {
  hw_apart : 0 <= APIC_base < 2 ^ 63 /\ 0 <= IO_APIC < 2 ^ 63 /\
    (IO_APIC + 0x20 <= APIC_base \/ APIC_base + 0x400 <= IO_APIC);
  hw_lapic : forall t off, 0 <= off < 0x400 ->
    io_value dev t Mmio 4 (APIC_base + off) = lapic t off;
  hw_ioapic : forall t, io_value dev t Mmio 4 (IO_APIC + 0x10) = ioapic t (selected t);
  hw_msr : forall t r, io_value dev t Msr 8 r = msr t r
}.

(** The registers of both controllers and of the processor after [s]. *)
Record regs (ms la io : Z -> Z) (s : apic_state) : Prop := {
  rg_lapic : forall off, 0 <= off < 0x400 -> lapic (apic_trace s) off = la off;
  rg_ioapic : forall r, ioapic (apic_trace s) r = io r;
  rg_msr : forall r, msr (apic_trace s) r = ms r
}.

Definition set_at (r v : Z) (f : Z -> Z) (x : Z) : Z := if x =? r then v else f x.

Section Hardware.
Context (hw : apic_hardware).

Lemma regs_now s : regs (msr (apic_trace s)) (lapic (apic_trace s)) (ioapic (apic_trace s)) s.
Proof. done. Qed.

Lemma apart off : 0 <= off < 0x400 ->
  (IO_APIC =? APIC_base + off) = false /\ (IO_APIC + 0x10 =? APIC_base + off) = false /\
  (APIC_base + off =? IO_APIC) = false /\ (APIC_base + off =? IO_APIC + 0x10) = false.
Proof. intros Ho. destruct hw as [(? & ? & ?) _ _ _]. rewrite !Z.eqb_neq. lia. Qed.

Lemma u64_base a off : 0 <= a < 2 ^ 63 -> 0 <= off < 0x400 -> u64 (a + off) = a + off.
Proof. intros. apply u64_id. lia. Qed.

Lemma wp_read_register r ms la io s (Q : Z -> apic_state -> Prop) :
  0 <= r < 2 ^ 32 -> regs ms la io s ->
  (forall s', regs ms la io s' -> timer_ticks s' = timer_ticks s -> 0 <= io r < 2 ^ 32 -> Q (io r) s') ->
  wp (ioapic_read_register r) Q s.
Proof.
  intros Hr [Hla Hio Hms] HQ. destruct hw as [(_ & Hb & _) _ Hw _].
  unfold ioapic_read_register, ioapic_write, ioapic_read, mmio_write, mmio_read, IOAPIC_REGSEL, IOAPIC_WINDOW.
  rewrite !u64_base by lia. rewrite Z.add_0_r. wp_step. apply wp_io_write.
  apply wp_io_read. rewrite trace_logged. rewrite Hw. cbn [ioapic selected].
  rewrite Z.eqb_refl. change (8 * 4) with 32. rewrite Z.mod_small by lia.
  destruct (Z.eqb_spec IO_APIC (IO_APIC + 0x10)); [lia|]. cbn [andb]. cbn [trace apic_IO].
  rewrite Hio. apply HQ; [|done|].
  - split; cbn [logged set_trace apic_IO apic_trace trace lapic ioapic msr].
    + intros off Ho. destruct (apart off Ho) as (-> & _). by apply Hla.
    + intros x. destruct (Z.eqb_spec IO_APIC (IO_APIC + 0x10)); [lia|]. apply Hio.
    + apply Hms.
  - pose proof (io_value_range dev (Wr Mmio 4 IO_APIC r :: apic_trace s) Mmio 4 (IO_APIC + 0x10) ltac:(lia)) as Hv.
    rewrite Hw in Hv. cbn [ioapic selected] in Hv. rewrite Z.eqb_refl in Hv.
    destruct (Z.eqb_spec IO_APIC (IO_APIC + 0x10)); [lia|]. cbn [andb] in Hv. by rewrite Hio in Hv.
Qed.

Lemma wp_write_register r v ms la io s (Q : unit -> apic_state -> Prop) :
  0 <= r < 2 ^ 32 -> 0 <= v < 2 ^ 32 -> regs ms la io s ->
  (forall s', regs ms la (set_at r v io) s' -> timer_ticks s' = timer_ticks s -> Q () s') ->
  wp (ioapic_write_register r v) Q s.
Proof.
  intros Hr Hv [Hla Hio Hms] HQ. destruct hw as [(_ & Hb & _) _ _ _].
  unfold ioapic_write_register, ioapic_write, mmio_write, IOAPIC_REGSEL, IOAPIC_WINDOW.
  rewrite !u64_base by lia. rewrite Z.add_0_r. wp_step. apply wp_io_write. apply wp_io_write.
  change (8 * 4) with 32. rewrite !Z.mod_small by lia. apply HQ; [|done].
  split; cbn [logged set_trace apic_IO apic_trace trace lapic ioapic selected msr].
  - intros off Ho. destruct (apart off Ho) as (-> & -> & _). by apply Hla.
  - intros x. rewrite !Z.eqb_refl. cbn [andb]. unfold set_at. rewrite (Z.eqb_sym x r).
    destruct (r =? x); [by apply u32_id|].
    destruct (Z.eqb_spec IO_APIC (IO_APIC + 0x10)); [lia|]. apply Hio.
  - apply Hms.
Qed.

Lemma wp_lapic_write off v ms la io s (Q : unit -> apic_state -> Prop) :
  0 <= off < 0x400 -> 0 <= v < 2 ^ 32 -> regs ms la io s ->
  (forall s', regs ms (set_at off v la) io s' -> timer_ticks s' = timer_ticks s -> Q () s') ->
  wp (lapic_write off v) Q s.
Proof.
  intros Ho Hv [Hla Hio Hms] HQ. destruct hw as [(Hb & _) _ _ _]. unfold lapic_write, mmio_write.
  rewrite u64_base by lia. apply wp_io_write. change (8 * 4) with 32. rewrite Z.mod_small by lia.
  apply HQ; [|done]. split; cbn [logged set_trace apic_IO apic_trace trace lapic ioapic msr].
  - intros x Hx. unfold set_at. destruct (Z.eqb_spec x off) as [->|Hne]; [rewrite Z.eqb_refl; by apply u32_id|].
      destruct (Z.eqb_spec (APIC_base + off) (APIC_base + x)); [lia|]. by apply Hla.
  - intros x. destruct (apart off Ho) as (_ & _ & _ & ->). apply Hio.
  - apply Hms.
Qed.

(** A word with bit 16, the mask bit of the table entries, set. *)
Definition mask (v : Z) : Z := v ||| (1 <<< 16).
Lemma mask_range v : 0 <= v < 2 ^ 32 -> 0 <= mask v < 2 ^ 32.
Proof. intros. unfold mask. apply (lor_bounded v (1 <<< 16) 32); [lia|done|done]. Qed.

Lemma wp_lapic_mask r ms la io s (Q : unit -> apic_state -> Prop) :
  0 <= r < 0x400 -> regs ms la io s ->
  (forall s', regs ms (set_at r (mask (la r)) la) io s' -> timer_ticks s' = timer_ticks s -> Q () s') ->
  wp (lapic_mask r) Q s.
Proof.
  intros Hr [Hla Hio Hms] HQ. destruct hw as [(Hb & _) Hw _ _]. unfold lapic_mask, lapic_read, mmio_read.
  rewrite u64_base by lia. wp_step. apply wp_io_read. rewrite Hw by done.
  pose proof (io_value_range dev (trace s) Mmio 4 (APIC_base + r) ltac:(lia)) as Hv.
  rewrite Hw in Hv by done. cbn [trace apic_IO] in *. rewrite Hla in * by done.
  eapply wp_lapic_write; [done|by apply mask_range| |exact HQ].
  split; cbn [logged set_trace apic_IO apic_trace trace lapic ioapic msr]; done.
Qed.

(** ** Masking *)

(** The low words of the first [n] redirection entries are masked. *)
Definition masked_until (n : Z) (io : Z -> Z) (r : Z) : Z :=
  if (0x10 <=? r) && (r <? 0x10 + 2 * n) && (r mod 2 =? 0) then mask (io r) else io r.

Definition max_entry (io : Z -> Z) : Z := u8 ((io 1 >>> 16) &&& 0xff).

Lemma wp_mask_entry i ms la io s (Q : unit -> apic_state -> Prop) :
  0 <= i < 120 -> regs ms la (masked_until i io) s ->
  (forall s', regs ms la (masked_until (i + 1) io) s' -> timer_ticks s' = timer_ticks s -> Q () s') ->
  wp (ioapic_mask_entry i) Q s.
Proof.
  intros Hi Hs HQ. unfold ioapic_mask_entry. rewrite u8_id by lia.
  wp_step. eapply wp_read_register; [lia|exact Hs|]. intros s1 H1 T1 Hv.
  eapply wp_write_register; [lia|by apply mask_range|exact H1|]. intros s2 H2 T2.
  apply HQ; [|congruence]. destruct H2 as [Hla Hio Hms]. split; [done| |done]. intros r. rewrite Hio.
  unfold set_at. assert (masked_until i io (0x10 + i * 2) = io (0x10 + i * 2)) as E.
  { unfold masked_until. destruct (Z.ltb_spec (0x10 + i * 2) (0x10 + 2 * i)); [lia|].
    by rewrite andb_false_r. }
  rewrite E. unfold masked_until. destruct (Z.eqb_spec r (0x10 + i * 2)) as [->|Hne].
  - destruct (Z.leb_spec 0x10 (0x10 + i * 2)), (Z.ltb_spec (0x10 + i * 2) (0x10 + 2 * (i + 1))); try lia.
    replace ((0x10 + i * 2) mod 2) with 0 by divlia. done.
  - destruct (Z.eqb_spec (r mod 2) 0); [|by rewrite !andb_false_r]. rewrite !andb_true_r.
    destruct (Z.leb_spec 0x10 r); [|done]. cbn [andb].
    destruct (Z.ltb_spec r (0x10 + 2 * i)), (Z.ltb_spec r (0x10 + 2 * (i + 1))); try done; exfalso; divlia.
Qed.

Lemma wp_ioapic_mask_all ms la io s (Q : unit -> apic_state -> Prop) :
  regs ms la io s -> max_entry io < 120 ->
  (forall s', regs ms la (masked_until (max_entry io + 1) io) s' -> timer_ticks s' = timer_ticks s ->
     Q () s') ->
  wp ioapic_mask_all Q s.
Proof.
  intros Hs Hm HQ. unfold ioapic_mask_all. wp_step. eapply wp_read_register; [lia|exact Hs|].
  intros s1 H1 T1 _. fold (max_entry io). pose proof (u8_range ((io 1 >>> 16) &&& 0xff)) as Hr.
  fold (max_entry io) in Hr. set (m := max_entry io) in *.
  eapply (wp_while _ (fun i s' => 0 <= i <= m + 1 /\ regs ms la (masked_until i io) s' /\
    timer_ticks s' = timer_ticks s) (fun i _ => m + 1 - i)); [| |unfold FUEL; lia].
  - intros i s2 (Hi & H2 & T2). destruct (Z.leb_spec i m).
    + wp_step. eapply wp_mask_entry; [lia|exact H2|]. intros s3 H3 T3. wp_steps.
      rewrite u8_id by lia. split; [|lia]. split; [lia|]. split; [done|congruence].
    + wp_steps. replace i with (m + 1) in H2 by lia. by apply HQ.
  - split; [lia|]. split; [|done]. destruct H1 as [Hla Hio Hms]. split; [done| |done]. intros r. rewrite Hio.
    unfold masked_until. by destruct (Z.leb_spec 0x10 r), (Z.ltb_spec r (0x10 + 2 * 0)); try lia.
Qed.

Lemma wp_write_msr r v ms la io s (Q : unit -> apic_state -> Prop) :
  regs ms la io s ->
  (forall s', regs (set_at r (u64 v) ms) la io s' -> timer_ticks s' = timer_ticks s -> Q () s') ->
  wp (write_msr r v) Q s.
Proof.
  intros [Hla Hio Hms] HQ. apply wp_io_write. apply HQ; [|done].
  split; cbn [logged set_trace apic_IO apic_trace trace lapic ioapic msr]; try done.
  intros x. unfold set_at. rewrite (Z.eqb_sym x r). by destruct (r =? x).
Qed.

Lemma wp_read_msr r ms la io s (Q : Z -> apic_state -> Prop) :
  regs ms la io s ->
  (forall s', regs ms la io s' -> timer_ticks s' = timer_ticks s -> Q (ms r) s') ->
  wp (read_msr r) Q s.
Proof.
  intros [Hla Hio Hms] HQ. apply wp_io_read. rewrite (hw_msr hw). cbn [trace apic_IO]. rewrite Hms.
  by apply HQ.
Qed.

(** The local vector table. *)
Definition lvt : list Z := [LVT_TIMER; LVT_THERMAL; LVT_PERF; LVT_LINT0; LVT_LINT1; LVT_ERROR].

(** The local APIC after [APIC_init]: on, with the spurious vector 0xFF, accepting every
    priority, its error register cleared and its table masked. *)
Definition initialised (la : Z -> Z) (off : Z) : Z :=
  if off =? 0xF0 then 0x1FF
  else if (off =? 0x80) || (off =? 0x280) then 0
  else if bool_decide (off ∈ lvt) then mask (la off) else la off.

Lemma initialised_regs ms la io s :
  regs ms (set_at 0x280 0 (set_at LVT_ERROR (mask (la LVT_ERROR)) (set_at LVT_LINT1 (mask (la LVT_LINT1))
    (set_at LVT_LINT0 (mask (la LVT_LINT0)) (set_at LVT_PERF (mask (la LVT_PERF))
    (set_at LVT_THERMAL (mask (la LVT_THERMAL)) (set_at LVT_TIMER (mask (la LVT_TIMER))
    (set_at 0x80 0 (set_at 0xF0 0x1FF la))))))))) io s -> regs ms (initialised la) io s.
Proof.
  intros [Hla Hio Hms]. split; [|done|done]. intros off Ho. rewrite Hla by done.
  unfold initialised, lvt, set_at, LVT_ERROR, LVT_LINT1, LVT_LINT0, LVT_PERF, LVT_THERMAL, LVT_TIMER.
  destruct (Z.eqb_spec off 0x280) as [->|]; [done|].
  destruct (Z.eqb_spec off 0x370) as [->|]; [done|].
  destruct (Z.eqb_spec off 0x360) as [->|]; [done|].
  destruct (Z.eqb_spec off 0x350) as [->|]; [done|].
  destruct (Z.eqb_spec off 0x340) as [->|]; [done|].
  destruct (Z.eqb_spec off 0x330) as [->|]; [done|].
  destruct (Z.eqb_spec off 0x320) as [->|]; [done|].
  destruct (off =? 0x80) eqn:E80; [by apply Z.eqb_eq in E80 as ->|]. cbn [orb].
  destruct (off =? 0xF0); [done|]. rewrite bool_decide_eq_false_2; [done|]. set_solver.
Qed.

Lemma wp_APIC_init ms la io s :
  regs ms la io s -> max_entry io < 120 ->
  wp APIC_init (fun _ s' =>
    regs (set_at 0x1B (u64 (ms 0x1B ||| (1 <<< 11))) ms) (initialised la)
      (masked_until (max_entry io + 1) io) s' /\ timer_ticks s' = timer_ticks s) s.
Proof.
  intros H Hm. unfold APIC_init, lapic_mask_all.
  wp_step. eapply wp_read_msr; [exact H|]. intros s1 H1 T1.
  wp_step. eapply wp_write_msr; [exact H1|]. intros s2 H2 T2.
  wp_step. eapply wp_lapic_write; [lia|lia|exact H2|]. intros s3 H3 T3.
  wp_step. eapply wp_lapic_write; [lia|lia|exact H3|]. intros s4 H4 T4.
  wp_step. wp_step. eapply wp_lapic_mask; [done|exact H4|]. intros s5 H5 T5.
  wp_step. eapply wp_lapic_mask; [done|exact H5|]. intros s6 H6 T6.
  wp_step. eapply wp_lapic_mask; [done|exact H6|]. intros s7 H7 T7.
  wp_step. eapply wp_lapic_mask; [done|exact H7|]. intros s8 H8 T8.
  wp_step. eapply wp_lapic_mask; [done|exact H8|]. intros s9 H9 T9.
  eapply wp_lapic_mask; [done|exact H9|]. intros s10 H10 T10.
  wp_step. eapply wp_lapic_write; [lia|lia|exact H10|]. intros s11 H11 T11.
  eapply wp_ioapic_mask_all; [exact H11|done|]. intros s12 H12 T12.
  split; [|congruence]. apply initialised_regs. exact H12.
Qed.

(** ** The properties of the interrupt controllers *)

(** On hardware with fewer than 120 redirection entries [APIC_init] returns with the
    local APIC on, its spurious vector set and its whole vector table masked, and with every
    entry of the I/O APIC masked and otherwise unchanged. *)
Lemma APIC_init_correct s :
  max_entry (ioapic (apic_trace s)) < 120 ->
  exists s', APIC_init s = Done () s' /\
    Z.testbit (msr (apic_trace s') 0x1B) 11 = true /\
    (forall off, 0 <= off < 0x400 ->
       lapic (apic_trace s') off = initialised (lapic (apic_trace s)) off) /\
    (forall r, ioapic (apic_trace s') r =
       masked_until (max_entry (ioapic (apic_trace s)) + 1) (ioapic (apic_trace s)) r) /\
    timer_ticks s' = timer_ticks s.
Proof.
  intros Hm. destruct (wp_inv _ _ _ (wp_APIC_init _ _ _ s (regs_now s) Hm))
    as ([] & s' & E & [Hla Hio Hms] & Ht).
  exists s'. refine (conj E (conj _ (conj Hla (conj Hio Ht)))).
  rewrite Hms. unfold set_at. rewrite Z.eqb_refl. unfold u64.
  rewrite Z.mod_pow2_bits_low, Z.lor_spec by lia. apply orb_true_r.
Qed.

(** With 256 redirection entries the [u8] counter of [ioapic_mask_all] never exceeds the
    last index, and the function never returns. *)
Lemma ioapic_mask_all_hangs s :
  max_entry (ioapic (apic_trace s)) = 255 -> ioapic_mask_all s = Hang.
Proof.
  intros Hm. unfold ioapic_mask_all.
  assert (exists s1, ioapic_read_register 1 s = Done (ioapic (apic_trace s) 1) s1) as [s1 E1].
  { destruct (wp_inv (ioapic_read_register 1) (fun v _ => v = ioapic (apic_trace s) 1) s)
      as (v & s1 & E & ->); [|eauto]. eapply wp_read_register; [lia|apply regs_now|done]. }
  unfold mbind, M_bind at 1. rewrite E1. fold (max_entry (ioapic (apic_trace s))). rewrite Hm.
  apply (while_hangs _ (fun i _ => 0 <= i < 2 ^ 8)); [|lia].
  intros i s2 Hi. destruct (Z.leb_spec i 255); [|lia].
  eexists _, _. split; [reflexivity|apply u8_range].
Qed.

(** [ioapic_route_keyboard] leaves redirection entry 1 unmasked, fixed and edge-triggered
    with the vector of the keyboard's gate and sent to the given local APIC, and changes no
    other register. *)
Lemma ioapic_route_keyboard_correct destination_apic_id s :
  0 <= destination_apic_id < 2 ^ 8 ->
  exists s', ioapic_route_keyboard destination_apic_id s = Done () s' /\
    (forall r, ioapic (apic_trace s') r =
       if r =? 0x12 then 0x41 else if r =? 0x13 then 2 ^ 24 * destination_apic_id
       else ioapic (apic_trace s) r) /\
    (forall off, 0 <= off < 0x400 -> lapic (apic_trace s') off = lapic (apic_trace s) off).
Proof.
  intros Hd. assert (u32 (destination_apic_id <<< 24) = 2 ^ 24 * destination_apic_id) as E24.
  { rewrite shiftl_mul by lia. rewrite u32_id by lia. lia. }
  destruct (wp_inv (ioapic_route_keyboard destination_apic_id) (fun _ s' => regs (msr (apic_trace s)) (lapic (apic_trace s))
    (set_at 0x12 0x41 (set_at 0x13 (2 ^ 24 * destination_apic_id)
      (set_at 0x12 0x10041 (ioapic (apic_trace s))))) s') s) as ([] & s' & E & [Hla Hio Hms]).
  - unfold ioapic_route_keyboard. rewrite E24. change (0x10 + 1 * 2 + 1) with 0x13.
    change (0x10 + 1 * 2) with 0x12. change (KEYBOARD_VECTOR ||| (1 <<< 16)) with 0x10041.
    wp_step. eapply wp_write_register; [lia|lia|apply regs_now|]. intros s1 H1 _.
    wp_step. eapply wp_write_register; [lia|lia|exact H1|]. intros s2 H2 _.
    eapply wp_write_register; [lia|unfold KEYBOARD_VECTOR; lia|exact H2|]. by intros s3 H3 _.
  - exists s'. split; [done|]. split; [|done]. intros r. rewrite Hio. unfold set_at.
    destruct (r =? 0x12) eqn:E1; [done|]. by destruct (r =? 0x13).
Qed.
End Hardware.
End Apic.

(** ** A sample *)

Lemma lapic_range base init t off : (forall r, 0 <= init r < 2 ^ 32) ->
  0 <= lapic base init t off < 2 ^ 32.
Proof.
  intros Hi. induction t as [|[sp w a v|sp w a v] t IH]; cbn [lapic]; [auto|done|].
  repeat case_match; auto.
Qed.
Lemma ioapic_range base init t r : (forall r, 0 <= init r < 2 ^ 32) ->
  0 <= ioapic base init t r < 2 ^ 32.
Proof.
  intros Hi. induction t as [|[sp w a v|sp w a v] t IH]; cbn [ioapic]; [auto|done|].
  repeat case_match; auto.
Qed.
Lemma msr_range init t r : (forall r, 0 <= init r < 2 ^ 64) -> 0 <= msr init t r < 2 ^ 64.
Proof.
  intros Hi. induction t as [|[sp w a v|sp w a v] t IH]; cbn [msr]; [auto|done|].
  repeat case_match; auto.
Qed.

(** Controllers whose I/O APIC registers read as [v] until they are written. *)
Definition sample_apic (v : Z) : device := fun t sp w a =>
  match sp with
  | Mmio => if a =? 0xFEC00010 then ioapic 0xFEC00000 (fun _ => v) t (selected 0xFEC00000 t)
            else lapic 0xFEE00000 (fun _ => 0) t (a - 0xFEE00000)
  | Msr => msr (fun _ => 0) t a
  | Port => 0
  end.

Lemma sample_hardware v : 0 <= v < 2 ^ 32 ->
  apic_hardware (sample_apic v) 0xFEE00000 0xFEC00000 (fun _ => 0) (fun _ => v) (fun _ => 0).
Proof.
  intros Hv. constructor.
  - lia.
  - intros t off Ho. unfold io_value, sample_apic.
    destruct (Z.eqb_spec (0xFEE00000 + off) 0xFEC00010); [lia|].
    replace (0xFEE00000 + off - 0xFEE00000) with off by lia.
    apply Z.mod_small, lapic_range. lia.
  - intros t. unfold io_value, sample_apic. apply Z.mod_small, ioapic_range. lia.
  - intros t r. unfold io_value, sample_apic. apply Z.mod_small, msr_range. lia.
Qed.

Lemma APIC_init_correct_witness :
  let s := mkApic [] 0 in
  exists s', APIC_init (sample_apic 0x170011) 0xFEE00000 0xFEC00000 s = Done () s' /\
    Z.testbit (msr (fun _ => 0) (apic_trace s') 0x1B) 11 = true /\
    (forall off, 0 <= off < 0x400 -> lapic 0xFEE00000 (fun _ => 0) (apic_trace s') off =
       initialised (lapic 0xFEE00000 (fun _ => 0) []) off) /\
    (forall r, ioapic 0xFEC00000 (fun _ => 0x170011) (apic_trace s') r =
       masked_until (max_entry (ioapic 0xFEC00000 (fun _ => 0x170011) []) + 1)
         (ioapic 0xFEC00000 (fun _ => 0x170011) []) r) /\
    timer_ticks s' = 0.
Proof.
  apply (APIC_init_correct _ _ _ _ _ _ (sample_hardware 0x170011 ltac:(lia)) (mkApic [] 0)).
  reflexivity.
Defined.

Lemma ioapic_mask_all_hangs_witness :
  ioapic_mask_all (sample_apic 0xFF0011) 0xFEC00000 (mkApic [] 0) = Hang.
Proof.
  apply (ioapic_mask_all_hangs _ _ _ _ _ _ (sample_hardware 0xFF0011 ltac:(lia)) (mkApic [] 0)).
  reflexivity.
Defined.

Lemma ioapic_route_keyboard_sample :
  exists s', ioapic_route_keyboard 0xFEC00000 3 (mkApic [] 0) = Done () s' /\
    (forall r, ioapic 0xFEC00000 (fun _ => 7) (apic_trace s') r =
       if r =? 0x12 then 0x41 else if r =? 0x13 then 2 ^ 24 * 3 else 7) /\
    (forall off, 0 <= off < 0x400 -> lapic 0xFEE00000 (fun _ => 0) (apic_trace s') off = 0).
Proof.
  apply (ioapic_route_keyboard_correct _ _ _ _ _ _ (sample_hardware 7 ltac:(lia)) 3 (mkApic [] 0)).
  lia.
Defined.
