(* ===== verification/Timers.v ===== *)
(** * Timers, clock and speaker ([drivers/timers], [drivers/pcspkr.c])

    The three time sources of the kernel: the ACPI power-management timer and the HPET behind
    the interface [TimerSource], and the real-time clock behind its index port; and the
    speaker. *)
From S2P Require Import KPrelude MemHelpers Spinlock FrameAlloc Paging PagingProofs Bytes Acpi PortIO.

(** ** The interface of a time source ([timer.hpp]) *)

Class TimerSource (S : Type) := {
  read : M S Z;
  read_freq : M S Z
}.

(** [wait_ms] on any time source. *)
Definition wait_ms {S} (timer : TimerSource S) (ms : Z) : M S unit :=
  freq ← read_freq;
  let target := u64 (u64 (freq * ms) + 999) / 1000 in
  first ← read;
  let previous := u32 first &&& 0x00FFFFFF in
  while FUEL (fun '(elapsed, previous) =>
    if elapsed <? target then
      now ← read;
      let current := u32 now &&& 0x00FFFFFF in
      mret (inl (u64 (elapsed + (u32 (current - previous) &&& 0x00FFFFFF)), current))
    else mret (inr ())) (0, previous).

(** ** The two sources *)

(** [SimpleTimer] *)
Record SimpleTimer := mkTimer { Timer_base : Z; Mode : Z; signature : list Z }.

(** The state of the drivers: the ACPI tables, paging and the accesses so far. *)
Record timer_state := mkTimers { tm_acpi : acpi_state; tm_pg : pg_state; tm_trace : list event }.

#[export] Instance timer_IO : IO timer_state.
Proof.
  refine {| trace := tm_trace; set_trace t s := mkTimers (tm_acpi s) (tm_pg s) t |};
    [done | done | by intros []].
Defined.

Definition on_acpi {A} (m : M acpi_state A) : M timer_state A :=
  zoom tm_acpi (fun a s => mkTimers a (tm_pg s) (tm_trace s)) m.
Definition on_pg {A} (m : M pg_state A) : M timer_state A :=
  zoom tm_pg (fun p s => mkTimers (tm_acpi s) p (tm_trace s)) m.

Definition PM_TIMER_FREQUENCY := 3579545.

(** What [Timer::Src] points to. *)
Inductive time_source :=
| PMTimer (hw : SimpleTimer)
| HPET (hw : SimpleTimer) (clong : bool).

Section Timers.
Context (dev : device) (mem : Z -> option Z).

Definition hpet_init (hw : SimpleTimer) : M timer_state time_source :=
  let base := Timer_base hw in
  cap ← io_inq dev base (Mode hw);
  let clong := negb (cap &&& (1 <<< 13) =? 0) in
  config ← io_inq dev (base + 0x10) (Mode hw);
  io_outq (base + 0x10) (config ||| 1) (Mode hw);;
  mret (HPET hw clong).

(** The virtual methods; the quotient by a period of 0 faults. *)
#[export] Instance source (t : time_source) : TimerSource timer_state := {|
  read := match t with
          | PMTimer hw => io_inl dev (Timer_base hw) (Mode hw)
          | HPET hw clong =>
              if clong then io_inq dev (Timer_base hw + 0xF0) (Mode hw)
              else io_inl dev (Timer_base hw + 0xF0) (Mode hw)
          end;
  read_freq := match t with
               | PMTimer _ => mret PM_TIMER_FREQUENCY
               | HPET hw _ =>
                   cap ← io_inq dev (Timer_base hw) (Mode hw);
                   let period_fs := u32 (cap >>> 32) in
                   if period_fs =? 0 then fault else mret (1000000000000000 / period_fs)
               end
|}.

(** [sign] holds the characters of the literal; the array gets its NUL, too. *)
Definition Timer_init (io_base code : Z) (sign : list Z) : M timer_state SimpleTimer :=
  base ← (if code =? MMIO then
            let base := u64 (io_base + BASE) in
            root ← on_pg (gets KernelPML4);
            on_pg (create_mapping base io_base 1 0x13 root);;
            on_pg (flush_pages base 1);;
            mret base
          else mret io_base);
  sig ← of_option (strcpy (replicate 5 0) (sign ++ [0]));
  mret (mkTimer base code sig).

Definition FACP : list Z := [0x46; 0x41; 0x43; 0x50].
Definition HPET_sign : list Z := [0x48; 0x50; 0x45; 0x54].

(** The constructor: [None] when [Src] is left as it was. *)
Definition Timer : M timer_state (option time_source) :=
  ret ← on_acpi (ACPI_discovery mem FACP);
  if ret_status ret =? 0 then
    hw ← Timer_init (simple_timer_io_base ret) (simple_timer_code ret) FACP;
    mret (Some (PMTimer hw))
  else
    ret ← on_acpi (ACPI_discovery mem HPET_sign);
    if ret_status ret =? 0 then
      hw ← Timer_init (simple_timer_io_base ret) (simple_timer_code ret) HPET_sign;
      src ← hpet_init hw;
      mret (Some src)
    else mret None.

(** ** The real-time clock ([rtc.c]) *)

Record rtc_data := mkRtc { year : Z; month : Z; day : Z; hour : Z; min_ : Z; sec : Z }.
#[export] Instance rtc_eq_dec : EqDecision rtc_data.
Proof. solve_decision. Defined.

Definition rtc_read (rtc_reg : Z) : M timer_state Z :=
  outb 0x70 (rtc_reg ||| 0x80);; inb dev 0x71.

Definition rtc_get_status_a : M timer_state Z := rtc_read 0x0A.

Definition rtc_wait_for_update : M timer_state unit :=
  while FUEL (fun _ : unit =>
    a ← rtc_get_status_a; mret (if a &&& 0x80 =? 0 then inr () else inl ())) ().

(** The six reads of one pass. *)
Definition rtc_pass : M timer_state rtc_data :=
  y ← rtc_read 0x09; mo ← rtc_read 0x08; d ← rtc_read 0x07;
  h ← rtc_read 0x04; mi ← rtc_read 0x02; s ← rtc_read 0x00;
  mret (mkRtc y mo d h mi s).

Definition get_dateAndTime : M timer_state rtc_data :=
  while FUEL (fun _ : unit =>
    rtc_wait_for_update;;
    a ← rtc_pass;
    rtc_wait_for_update;;
    b ← rtc_pass;
    mret (if bool_decide (a = b) then inr a else inl ())) ().

(** [second = rtc_read(0x00); while (rtc_read(0x00) == second);] *)
Definition wait_edge : M timer_state unit :=
  second ← rtc_read 0x00;
  while FUEL (fun _ : unit =>
    now ← rtc_read 0x00; mret (if now =? second then inl () else inr ())) ().

Definition wait_secs (count : Z) : M timer_state unit :=
  for_ 0 count (fun _ _ => wait_edge;; wait_edge) ().

(** ** The speaker ([pcspkr.c]) *)

Definition speaker_on (hz : Z) : M timer_state unit :=
  if (hz <? 20) || (hz >? 20000) then mret ()
  else
    let divisor := u16 (1193182 / hz) in
    outb 0x43 0xB6;;
    outb 0x42 (divisor &&& 0xFF);;
    outb 0x42 (divisor >>> 8);;
    v ← inb dev 0x61;
    outb 0x61 (v ||| 0x03).

Definition speaker_off : M timer_state unit :=
  v ← inb dev 0x61; outb 0x61 (v &&& Z.lnot 0x03).
End Timers.
