(* ===== verification/TimersProofs.v ===== *)
(** * Timers, clock and speaker: proofs *)
From S2P Require Import KPrelude PortIO Timers.

(** ** Partial correctness

    What a run guarantees if it ends; the loops of the clock end when the hardware lets them. *)
Definition wlp {S A} (m : M S A) (Q : A -> S -> Prop) (s : S) : Prop :=
  match m s with Done a s' => Q a s' | _ => True end.

Section wlp_rules.
Context {S : Type}.

Lemma wlp_bind {A B} (m : M S A) (f : A -> M S B) (Q : B -> S -> Prop) s :
  wlp m (fun a => wlp (f a) Q) s -> wlp (m ≫= f) Q s.
Proof. unfold wlp, mbind, M_bind. by destruct (m s). Qed.

Lemma wlp_mono {A} (m : M S A) (P Q : A -> S -> Prop) s :
  wlp m P s -> (forall a s', P a s' -> Q a s') -> wlp m Q s.
Proof. unfold wlp. destruct (m s); naive_solver. Qed.

Lemma wp_wlp {A} (m : M S A) (Q : A -> S -> Prop) s : wp m Q s -> wlp m Q s.
Proof. unfold wp, wlp. by destruct (m s). Qed.

Lemma wlp_done {A} (m : M S A) (Q : A -> S -> Prop) s a s' :
  wlp m Q s -> m s = Done a s' -> Q a s'.
Proof. unfold wlp. intros H E. by rewrite E in H. Qed.

Lemma wlp_loop_pos {A B} (body : A -> M S (A + B)) (I : A -> S -> Prop) (Q : B -> S -> Prop) p :
  (forall a s, I a s -> wlp (body a) (fun r s' => match r with inl a' => I a' s' | inr b => Q b s' end) s) ->
  forall a s, I a s ->
  wlp (loop_pos p body a) (fun r s' => match r with inl a' => I a' s' | inr b => Q b s' end) s.
Proof.
  intros Hb. induction p as [p IH|p IH|]; intros a s HI; cbn [loop_pos]; [| |by apply Hb].
  - apply wlp_bind. eapply wlp_mono; [by apply Hb|]. intros [a1|b] s1 H1; [|done].
    apply wlp_bind. eapply wlp_mono; [by apply IH|]. intros [a2|b] s2 H2; [|done]. by apply IH.
  - apply wlp_bind. eapply wlp_mono; [by apply IH|]. intros [a1|b] s1 H1; [|done]. by apply IH.
Qed.

Lemma wlp_while {A B} (body : A -> M S (A + B)) (I : A -> S -> Prop) (Q : B -> S -> Prop) fuel a s :
  (forall a s, I a s -> wlp (body a) (fun r s' => match r with inl a' => I a' s' | inr b => Q b s' end) s) ->
  I a s -> wlp (while fuel body a) Q s.
Proof.
  intros Hb HI. unfold while. apply wlp_bind.
  eapply wlp_mono; [by eapply wlp_loop_pos|]. by intros [a'|b] s' H.
Qed.

Lemma wlp_for {A} (I : Z -> A -> S -> Prop) (body : Z -> A -> M S A) n : forall i a s,
  I i a s -> (forall j a s, I j a s -> wlp (body j a) (I (j + 1)) s) ->
  wlp (for_nat n i body a) (I (i + Z.of_nat n)) s.
Proof.
  induction n as [|n IH]; intros i a s Hi Hb.
  - cbn. by replace (i + Z.of_nat 0) with i by lia.
  - cbn [for_nat]. apply wlp_bind. eapply wlp_mono; [by apply Hb|]. intros a' s' H'.
    replace (i + Z.of_nat (Datatypes.S n)) with (i + 1 + Z.of_nat n) by lia. by apply IH.
Qed.
End wlp_rules.

(** ** [wait_ms] *)

(** A time source over a counter: what is read is the counter modulo 2^24, and no access
    takes a whole turn of these 24 bits. *)
Record advancing {S} (T : TimerSource S) (freq : Z) (clock : S -> Z) : Prop := {
  adv_freq : forall s, exists s', read_freq s = Done freq s' /\ clock s <= clock s' < clock s + 2 ^ 24;
  adv_read : forall s, exists v s', read s = Done v s' /\ v mod 2 ^ 24 = clock s mod 2 ^ 24 /\
    clock s < clock s' < clock s + 2 ^ 24
}.

Section Wait.
Context {S : Type} (T : TimerSource S) (freq : Z) (clock : S -> Z).
Context (adv : advancing T freq clock).

Lemma low24 v : u32 v &&& 0x00FFFFFF = v mod 2 ^ 24.
Proof.
  change 0x00FFFFFF with (Z.ones 24). rewrite Z.land_ones by lia. unfold u32.
  change (2 ^ 32) with (2 ^ 24 * 2 ^ 8). change (2 ^ 24) with 16777216. change (2 ^ 8) with 256. divlia.
Qed.

Lemma wp_read s (Q : Z -> S -> Prop) :
  (forall v s', u32 v &&& 0x00FFFFFF = clock s mod 2 ^ 24 -> clock s < clock s' < clock s + 2 ^ 24 -> Q v s') ->
  wp read Q s.
Proof.
  intros HQ. destruct (adv_read _ _ _ adv s) as (v & s' & E & Hv & Hc). unfold wp. rewrite E.
  apply HQ; [|done]. by rewrite low24.
Qed.

Lemma wp_wait_ms ms s : 0 <= freq -> 0 <= ms -> freq * ms + 999 < 2 ^ 64 ->
  wp (wait_ms T ms) (fun _ s' => freq * ms <= 1000 * (clock s' - clock s) /\
    clock s' - clock s < (freq * ms + 999) / 1000 + 3 * 2 ^ 24) s.
Proof.
  intros Hf Hms Hend. assert (0 <= freq * ms) as Hfm by nia. unfold wait_ms.
  destruct (adv_freq _ _ _ adv s) as (s0 & E0 & H0). wp_step. unfold wp at 1. rewrite E0.
  rewrite (u64_id (freq * ms)), u64_id by lia. set (target := (freq * ms + 999) / 1000).
  assert (freq * ms <= 1000 * target < freq * ms + 1000) as Ht by (subst target; divlia).
  wp_step. apply wp_read. intros v s1 Hv Hc1. rewrite Hv.
  eapply (wp_while_ix _ (fun '(last, c0) '(elapsed, previous) s' =>
      previous = last mod 2 ^ 24 /\ last < clock s' < last + 2 ^ 24 /\ elapsed = last - clock s0 /\
      c0 = elapsed /\ 0 <= elapsed < target + 2 ^ 24)
    (fun '(last, c0) => target + 2 ^ 24 - c0)).
  - intros [last c0] [elapsed previous] s2 (Hp & Hl & He & -> & Hb). destruct (Z.ltb_spec elapsed target) as [Hlt|Hge].
    + wp_step. apply wp_read. intros w s3 Hw Hc3. wp_steps. rewrite Hw, Hp.
      assert (u32 (clock s2 mod 2 ^ 24 - last mod 2 ^ 24) &&& 0x00FFFFFF = clock s2 - last) as Hd.
      { rewrite low24. change (2 ^ 24) with 16777216 in *. divlia. }
      rewrite Hd. exists (clock s2, elapsed + (clock s2 - last)).
      rewrite u64_id by (change (2 ^ 24) with 16777216 in *; lia). split; [|lia].
      split; [done|]. split; [done|]. split; [lia|]. split; [done|]. lia.
    + wp_steps. change (2 ^ 24) with 16777216 in *. lia.
  - instantiate (1 := (clock s0, 0)). split; [done|]. split; [done|]. split; [lia|]. split; [done|].
    change (2 ^ 24) with 16777216 in *. lia.
  - unfold FUEL. change (2 ^ 24) with 16777216 in *. lia.
Qed.
End Wait.

(** The power-management timer behind the interface: its register is the counter. *)
Lemma pm_advancing dev hw clock :
  (forall t, io_value dev t (if Mode hw =? MMIO then Mmio else Port) 4
     (if Mode hw =? MMIO then Timer_base hw else u16 (Timer_base hw)) mod 2 ^ 24 = clock t mod 2 ^ 24) ->
  (forall e t, clock t < clock (e :: t) < clock t + 2 ^ 24) ->
  advancing (source dev (PMTimer hw)) PM_TIMER_FREQUENCY (fun s => clock (tm_trace s)).
Proof.
  intros Hv Hc. constructor.
  - intros s. exists s. split; [done|]. lia.
  - intros s. cbn [read source]. unfold io_inl. specialize (Hv (tm_trace s)).
    destruct (Mode hw =? MMIO); eexists _, _; (split; [reflexivity|]); (split; [exact Hv|]); apply Hc.
Qed.

(** ** The real-time clock *)

Section Clock.
Context (dev : device).
(** Seconds that have passed after a history, and the registers at a second. *)
Context (clock : list event -> Z) (calendar : Z -> rtc_data).

Fixpoint index (t : list event) : Z :=
  match t with
  | [] => 0
  | Wr Port 1 p v :: t' => if p =? 0x70 then v &&& 0x7F else index t'
  | _ :: t' => index t'
  end.

Definition register (r : Z) (d : rtc_data) : option Z :=
  if r =? 0x09 then Some (year d) else if r =? 0x08 then Some (month d)
  else if r =? 0x07 then Some (day d) else if r =? 0x04 then Some (hour d)
  else if r =? 0x02 then Some (min_ d) else if r =? 0x00 then Some (sec d) else None.

(** The clock does not run backwards, its registers show it, and the seconds repeat only
    after a minute. *)
Record rtc_hardware : Prop := {
  rtc_forward : forall e t, clock t <= clock (e :: t);
  rtc_shows : forall t v, register (index t) (calendar (clock t)) = Some v ->
    io_value dev t Port 1 0x71 = v;
  rtc_minute : forall c c', sec (calendar c) = sec (calendar c') -> (c - c') mod 60 = 0
}.
Context (hw : rtc_hardware).

Abbreviation now s := (clock (tm_trace s)).

Lemma wp_rtc_read r s (Q : Z -> timer_state -> Prop) :
  (forall v s' c, now s <= c <= now s' ->
     (forall v', register ((r ||| 0x80) &&& 0x7F) (calendar c) = Some v' ->
        0 <= r ||| 0x80 < 256 -> v = v') -> Q v s') ->
  wp (rtc_read dev r) Q s.
Proof.
  intros HQ. unfold rtc_read. wp_step. apply wp_io_write. apply wp_io_read.
  set (s1 := logged _ s). apply (HQ _ _ (now s1)).
  - split; apply (rtc_forward hw).
  - intros v' Hv Hr. apply (rtc_shows hw). subst s1. cbn [logged set_trace timer_IO tm_trace trace index].
    change (0x70 =? 0x70) with true. cbn iota. rewrite u8_id in * by lia. exact Hv.
Qed.

(** One of the six registers, at some moment [c] during the read. *)
Lemma wp_rtc_field r f s (Q : Z -> timer_state -> Prop) :
  (forall d, register ((r ||| 0x80) &&& 0x7F) d = Some (f d)) -> 0 <= r ||| 0x80 < 256 ->
  (forall c s', now s <= c <= now s' -> Q (f (calendar c)) s') -> wp (rtc_read dev r) Q s.
Proof.
  intros Hf Hr HQ. apply wp_rtc_read. intros v s' c Hc Hv.
  rewrite (Hv (f (calendar c))); [by apply HQ|apply Hf|done].
Qed.

Lemma wp_rtc_pass s : wp (rtc_pass dev) (fun d s' => exists c1 c2 c3 c4 c5 c6,
  now s <= c1 <= c2 /\ c2 <= c3 <= c4 /\ c4 <= c5 <= c6 /\ c6 <= now s' /\
  d = mkRtc (year (calendar c1)) (month (calendar c2)) (day (calendar c3)) (hour (calendar c4))
        (min_ (calendar c5)) (sec (calendar c6))) s.
Proof.
  unfold rtc_pass.
  wp_step. apply (wp_rtc_field 0x09 year); [done|done|]. intros c1 s1 H1.
  wp_step. apply (wp_rtc_field 0x08 month); [done|done|]. intros c2 s2 H2.
  wp_step. apply (wp_rtc_field 0x07 day); [done|done|]. intros c3 s3 H3.
  wp_step. apply (wp_rtc_field 0x04 hour); [done|done|]. intros c4 s4 H4.
  wp_step. apply (wp_rtc_field 0x02 min_); [done|done|]. intros c5 s5 H5.
  wp_step. apply (wp_rtc_field 0x00 sec); [done|done|]. intros c6 s6 H6.
  wp_steps. exists c1, c2, c3, c4, c5, c6. split_and!; done || lia.
Qed.

Lemma wlp_wait_for_update s : wlp (rtc_wait_for_update dev) (fun _ s' => now s <= now s') s.
Proof.
  apply (wlp_while _ (fun _ s' => now s <= now s')); [|lia].
  intros [] s1 H1. apply wlp_bind, wp_wlp, wp_rtc_read. intros v s2 c Hc _. unfold wlp.
  destruct (v &&& 0x80 =? 0); cbn; lia.
Qed.

(** The moment that two equal passes agree on. *)
Lemma passes_agree c6 c7 c8 c9 c10 c11 c12 y mo d h mi :
  c6 <= c7 <= c8 -> c8 <= c9 <= c10 -> c10 <= c11 <= c12 -> c12 < c6 + 60 ->
  mkRtc y mo d h mi (sec (calendar c6)) =
    mkRtc (year (calendar c7)) (month (calendar c8)) (day (calendar c9)) (hour (calendar c10))
      (min_ (calendar c11)) (sec (calendar c12)) ->
  mkRtc y mo d h mi (sec (calendar c6)) = calendar c6.
Proof.
  intros H1 H2 H3 H4 E. injection E as -> -> -> -> -> Es. apply (rtc_minute hw) in Es.
  assert (c12 = c6) as -> by divlia.
  assert (c7 = c6 /\ c8 = c6 /\ c9 = c6 /\ c10 = c6 /\ c11 = c6) as (-> & -> & -> & -> & ->) by lia.
  by destruct (calendar c6).
Qed.

Lemma wlp_get_dateAndTime s : wlp (get_dateAndTime dev) (fun r s' =>
  now s' < now s + 60 -> exists c, now s <= c <= now s' /\ r = calendar c) s.
Proof.
  apply (wlp_while _ (fun _ s' => now s <= now s')); [|lia].
  intros [] s1 H1. apply wlp_bind. eapply wlp_mono; [apply wlp_wait_for_update|].
  intros [] s2 H2. apply wlp_bind. eapply wlp_mono; [apply wp_wlp, wp_rtc_pass|].
  intros a s3 (c1 & c2 & c3 & c4 & c5 & c6 & A1 & A2 & A3 & A4 & ->).
  apply wlp_bind. eapply wlp_mono; [apply wlp_wait_for_update|].
  intros [] s4 H4. apply wlp_bind. eapply wlp_mono; [apply wp_wlp, wp_rtc_pass|].
  intros b s5 (c7 & c8 & c9 & c10 & c11 & c12 & B1 & B2 & B3 & B4 & ->). unfold wlp.
  case_bool_decide as E; cbn; [|lia]. intros Hend. exists c6. split; [lia|].
  eapply (passes_agree c6 c7 c8 c9 c10 c11 c12); [lia..|done].
Qed.

(** Each call of [wait_edge] sees the seconds change. *)
Lemma wlp_wait_edge s : wlp (wait_edge dev) (fun _ s' => now s + 1 <= now s') s.
Proof.
  unfold wait_edge. apply wlp_bind, wp_wlp, (wp_rtc_field 0x00 sec); [done|done|].
  intros c s1 Hc. apply (wlp_while _ (fun _ s' => now s1 <= now s')); [|lia].
  intros [] s2 H2. apply wlp_bind, wp_wlp, (wp_rtc_field 0x00 sec); [done|done|].
  intros c' s3 Hc'. unfold wlp. cbn. destruct (Z.eqb_spec (sec (calendar c')) (sec (calendar c))); [lia|].
  assert (c <> c') by congruence. lia.
Qed.
End Clock.

(** ** The speaker *)

Lemma wp_speaker_on dev hz s : 20 <= hz <= 20000 ->
  wp (speaker_on dev hz) (fun _ s' => exists lo hi v,
    tm_trace s' = Wr Port 1 0x61 (v ||| 3) :: Rd Port 1 0x61 v :: Wr Port 1 0x42 hi ::
      Wr Port 1 0x42 lo :: Wr Port 1 0x43 0xB6 :: tm_trace s /\
    0 <= lo < 256 /\ 0 <= hi < 256 /\ 0 <= v < 256 /\ lo + 256 * hi = 1193182 / hz) s.
Proof.
  intros Hhz. unfold speaker_on. destruct (Z.ltb_spec hz 20), (Z.gtb_spec hz 20000); try lia. cbn [orb].
  assert (0 <= 1193182 / hz < 65536) as Hd.
  { split; [apply Z.div_pos; lia|]. apply Z.div_lt_upper_bound; lia. }
  rewrite u16_id by done. set (d := 1193182 / hz) in *.
  wp_step. apply wp_io_write. wp_step. apply wp_io_write. wp_step. apply wp_io_write.
  wp_step. apply wp_io_read. set (v := io_value _ _ _ _ _).
  assert (0 <= v < 256) as Hv by (apply (io_value_range dev _ Port 1 0x61); lia).
  apply wp_io_write. exists (u8 (d &&& 0xFF)), (u8 (d >>> 8)), v.
  assert (u8 (v ||| 3) = v ||| 3) as -> by (apply u8_id, (lor_bounded v 3 8); lia).
  split; [done|]. split; [apply u8_range|]. split; [apply u8_range|]. split; [done|].
  change 0xFF with (Z.ones 8). rewrite Z.land_ones, shiftr_div by lia. unfold u8.
  change (2 ^ 8) with 256. divlia.
Qed.

(** ** The properties of the timers *)

(** C40: on any time source whose counter advances by less than 2^24 ticks per access,
    [wait_ms] returns, and between its first and its last read at least the wanted number of
    milliseconds has passed on the counter, and only three such accesses more. *)
Theorem wait_ms_correct {S} (T : TimerSource S) freq clock ms s :
  advancing T freq clock -> 0 <= freq -> 0 <= ms -> freq * ms + 999 < 2 ^ 64 ->
  exists s', wait_ms T ms s = Done () s' /\ freq * ms <= 1000 * (clock s' - clock s) /\
    clock s' - clock s < (freq * ms + 999) / 1000 + 3 * 2 ^ 24.
Proof.
  intros Ha Hf Hms Hend. destruct (wp_inv _ _ _ (wp_wait_ms T freq clock Ha ms s Hf Hms Hend))
    as ([] & s' & E & R). by exists s'.
Qed.

(** Whatever [get_dateAndTime] returns within a minute is the date and time of one single
    moment during the call: no field comes from before an update of the clock and another
    one from after it. *)
Lemma get_dateAndTime_correct dev clock calendar r s s' :
  rtc_hardware dev clock calendar -> get_dateAndTime dev s = Done r s' ->
  clock (tm_trace s') < clock (tm_trace s) + 60 ->
  exists c, clock (tm_trace s) <= c <= clock (tm_trace s') /\ r = calendar c.
Proof.
  intros hw E. exact (wlp_done _ _ _ _ _ (wlp_get_dateAndTime dev clock calendar hw s) E).
Qed.

(** [wait_secs] returns only after twice as many ticks of the clock as it was asked to
    wait for. *)
Lemma wait_secs_twice dev clock calendar count s s' :
  rtc_hardware dev clock calendar -> 0 <= count -> wait_secs dev count s = Done () s' ->
  clock (tm_trace s) + 2 * count <= clock (tm_trace s').
Proof.
  intros hw Hc E. unfold wait_secs, for_ in E.
  assert (clock (tm_trace s) + 2 * (0 + Z.of_nat (Z.to_nat count)) <= clock (tm_trace s')); [|lia].
  eapply (wlp_done _ (fun _ s1 => _ <= clock (tm_trace s1))); [|exact E].
  apply (wlp_for (fun i _ s1 => clock (tm_trace s) + 2 * i <= clock (tm_trace s1))); [lia|].
  intros i [] s1 H1. apply wlp_bind. eapply wlp_mono; [by eapply wlp_wait_edge|].
  intros [] s2 H2. eapply wlp_mono; [by eapply wlp_wait_edge|]. intros [] s3 H3. lia.
Qed.

(** [speaker_on] for an audible frequency programs the counter with mode 3 and a 16-bit
    divisor, low byte first, whose tone is the wanted one up to the rounding of the divisor,
    and sets the two gate bits and nothing else; other frequencies are refused. *)
Lemma speaker_on_correct dev hz s : 0 <= hz ->
  exists s', speaker_on dev hz s = Done () s' /\
    if (20 <=? hz) && (hz <=? 20000) then exists lo hi v,
      tm_trace s' = Wr Port 1 0x61 (v ||| 3) :: Rd Port 1 0x61 v :: Wr Port 1 0x42 hi ::
        Wr Port 1 0x42 lo :: Wr Port 1 0x43 0xB6 :: tm_trace s /\
      0 <= lo < 256 /\ 0 <= hi < 256 /\ 0 <= v < 256 /\
      (lo + 256 * hi) * hz <= 1193182 < (lo + 256 * hi + 1) * hz
    else s' = s.
Proof.
  intros Hz. destruct (Z.leb_spec 20 hz), (Z.leb_spec hz 20000); cbn [andb];
    try (exists s; unfold speaker_on; destruct (Z.ltb_spec hz 20), (Z.gtb_spec hz 20000); done || lia).
  destruct (wp_inv _ _ _ (wp_speaker_on dev hz s ltac:(lia)))
    as ([] & s' & E & lo & hi & v & Ht & Hlo & Hhi & Hv & Hd).
  exists s'. split; [exact E|]. exists lo, hi, v. rewrite Hd. split_and!; try done; try lia.
  - rewrite Z.mul_comm. apply Z.mul_div_le. lia.
  - pose proof (Z.mul_succ_div_gt 1193182 hz ltac:(lia)). lia.
Qed.

(** ** Samples *)

Definition idle : timer_state :=
  mkTimers (Acpi.mkAcpi 0) (Paging.mkPg (FrameAlloc.mkFa [] 0 0 0 0 false) ∅ 0 0 0 []) [].

(** A counter that advances by 1000 ticks at each access. *)
Definition ticking : device := fun t _ _ _ => 1000 * Z.of_nat (length t).

Lemma ticking_pm : advancing (source ticking (PMTimer (mkTimer 0x608 1 []))) PM_TIMER_FREQUENCY
  (fun s => 1000 * Z.of_nat (length (tm_trace s))).
Proof.
  apply (pm_advancing ticking (mkTimer 0x608 1 []) (fun t => 1000 * Z.of_nat (length t))).
  - intros t. cbn [Mode]. unfold io_value, ticking. change (2 ^ (8 * 4)) with (2 ^ 24 * 2 ^ 8).
    change (2 ^ 24) with 16777216. change (2 ^ 8) with 256. divlia.
  - intros e t. cbn [length]. lia.
Qed.

Lemma wait_ms_correct_witness :
  let T := source ticking (PMTimer (mkTimer 0x608 1 [])) in
  let clock (s : timer_state) := 1000 * Z.of_nat (length (tm_trace s)) in
  exists s', wait_ms T 5 idle = Done () s' /\
    PM_TIMER_FREQUENCY * 5 <= 1000 * (clock s' - clock idle) /\
    clock s' - clock idle < (PM_TIMER_FREQUENCY * 5 + 999) / 1000 + 3 * 2 ^ 24.
Proof. apply (wait_ms_correct _ _ _ 5 idle ticking_pm); [done|lia|done]. Defined.

(** A clock that shows one second after the other, two accesses each. *)
Definition sample_calendar (c : Z) : rtc_data := mkRtc 0x24 0x12 0x31 0x23 0x59 (c mod 60).
Definition sample_clock (t : list event) : Z := Z.of_nat (length t) / 40.
Definition sample_rtc : device := fun t sp w a =>
  default 0 (register (index t) (sample_calendar (sample_clock t))).

Lemma sample_rtc_hardware : rtc_hardware sample_rtc sample_clock sample_calendar.
Proof.
  constructor.
  - intros e t. unfold sample_clock. cbn [length]. divlia.
  - intros t v E. unfold io_value, sample_rtc. rewrite E. cbn [default from_option id].
    change (2 ^ (8 * 1)) with 256. apply Z.mod_small. unfold register in E.
    repeat case_match; try discriminate; injection E as <-; cbn; divlia.
  - intros c c' E. cbn in E. divlia.
Qed.

Lemma get_dateAndTime_correct_witness :
  exists r s', get_dateAndTime sample_rtc idle = Done r s' /\
    exists c, 0 <= c <= sample_clock (tm_trace s') /\ r = sample_calendar c.
Proof.
  destruct (get_dateAndTime sample_rtc idle) as [r s'| |] eqn:E; [|vm_compute in E; discriminate E|vm_compute in E; discriminate E].
  exists r, s'. split; [reflexivity|].
  apply (get_dateAndTime_correct sample_rtc sample_clock sample_calendar r idle s' sample_rtc_hardware E).
  vm_compute in E. injection E as <- <-. vm_compute. reflexivity.
Defined.

Lemma wait_secs_twice_witness :
  exists s', wait_secs sample_rtc 2 idle = Done () s' /\
    sample_clock (tm_trace idle) + 2 * 2 <= sample_clock (tm_trace s').
Proof.
  destruct (wait_secs sample_rtc 2 idle) as [[] s'| |] eqn:E; [|vm_compute in E; discriminate E|vm_compute in E; discriminate E].
  exists s'. split; [reflexivity|].
  apply (wait_secs_twice sample_rtc sample_clock sample_calendar 2 idle s' sample_rtc_hardware);
    [lia|exact E].
Defined.

Lemma speaker_on_correct_witness :
  exists s', speaker_on (fun _ _ _ _ => 0) 440 idle = Done () s' /\ exists lo hi v,
      tm_trace s' = Wr Port 1 0x61 (v ||| 3) :: Rd Port 1 0x61 v :: Wr Port 1 0x42 hi ::
        Wr Port 1 0x42 lo :: Wr Port 1 0x43 0xB6 :: [] /\
      0 <= lo < 256 /\ 0 <= hi < 256 /\ 0 <= v < 256 /\
      (lo + 256 * hi) * 440 <= 1193182 < (lo + 256 * hi + 1) * 440.
Proof. apply (speaker_on_correct (fun _ _ _ _ => 0) 440 idle). lia. Defined.
