(* ===== verification/Dma.v ===== *)
(** * The allocator of DMA regions ([x86-64/memory/dma.c], [dmahlp.c], [dmadef.c])

    Regions lie one behind the other from [DMA_BASE] on; a list of entries in the pages from
    [DMA_POOL] on says how long each one is and whether it is free. The last bytes of a
    region hold a descriptor that leads back to its first entry. [d_entries] is the memory of
    the pool pages, by the addresses of the entries; [d_data] the bytes of the regions. *)
From S2P Require Import KPrelude MemHelpers Spinlock FrameAlloc Paging PagingProofs VAlloc Bytes.

Definition Free := 0.
Definition Used := 1.
Definition Header := 2.
Definition NoEntriesLeft := 0.
Definition DMA_BASE := 0xffffa0ffc0000000.
Definition DMA_POOL := 0xffffa10000000000.

Record dma_entry := mkEntry { status : Z; SizeInPages : Z; next_entry : Z }.
Definition sizeof_dma_entry := 20.
Definition sizeof_dma_descriptor := 28.

Record dma_ret := mkDma { ret_status : Z; ret_pages : Z; virtual_address : Z; physical_address : Z }.

Record dma_state := mkDmaState {
  d_pg : pg_state;
  d_entries : gmap Z dma_entry;
  d_data : Z -> option Z;
  dma_entries : Z;
  dma_header : Z;
  dma_start : Z;
  dma_latest : Z;
  dma_limit : Z;
  dma_metadata_pages : Z;
  dma_top : Z;
  dma_lock : bool
}.

Definition set_d_pg (p : pg_state) (s : dma_state) := mkDmaState p (d_entries s) (d_data s)
  (dma_entries s) (dma_header s) (dma_start s) (dma_latest s) (dma_limit s) (dma_metadata_pages s)
  (dma_top s) (dma_lock s).
Definition set_d_entries (e : gmap Z dma_entry) (s : dma_state) := mkDmaState (d_pg s) e (d_data s)
  (dma_entries s) (dma_header s) (dma_start s) (dma_latest s) (dma_limit s) (dma_metadata_pages s)
  (dma_top s) (dma_lock s).
Definition set_d_data (d : Z -> option Z) (s : dma_state) := mkDmaState (d_pg s) (d_entries s) d
  (dma_entries s) (dma_header s) (dma_start s) (dma_latest s) (dma_limit s) (dma_metadata_pages s)
  (dma_top s) (dma_lock s).
Definition set_dma_entries (n : Z) (s : dma_state) := mkDmaState (d_pg s) (d_entries s) (d_data s)
  n (dma_header s) (dma_start s) (dma_latest s) (dma_limit s) (dma_metadata_pages s)
  (dma_top s) (dma_lock s).
Definition set_dma_header (p : Z) (s : dma_state) := mkDmaState (d_pg s) (d_entries s) (d_data s)
  (dma_entries s) p (dma_start s) (dma_latest s) (dma_limit s) (dma_metadata_pages s)
  (dma_top s) (dma_lock s).
Definition set_dma_start (p : Z) (s : dma_state) := mkDmaState (d_pg s) (d_entries s) (d_data s)
  (dma_entries s) (dma_header s) p (dma_latest s) (dma_limit s) (dma_metadata_pages s)
  (dma_top s) (dma_lock s).
Definition set_dma_latest (p : Z) (s : dma_state) := mkDmaState (d_pg s) (d_entries s) (d_data s)
  (dma_entries s) (dma_header s) (dma_start s) p (dma_limit s) (dma_metadata_pages s)
  (dma_top s) (dma_lock s).
Definition set_dma_limit (n : Z) (s : dma_state) := mkDmaState (d_pg s) (d_entries s) (d_data s)
  (dma_entries s) (dma_header s) (dma_start s) (dma_latest s) n (dma_metadata_pages s)
  (dma_top s) (dma_lock s).
Definition set_dma_metadata (n : Z) (s : dma_state) := mkDmaState (d_pg s) (d_entries s) (d_data s)
  (dma_entries s) (dma_header s) (dma_start s) (dma_latest s) (dma_limit s) n
  (dma_top s) (dma_lock s).
Definition set_dma_top (n : Z) (s : dma_state) := mkDmaState (d_pg s) (d_entries s) (d_data s)
  (dma_entries s) (dma_header s) (dma_start s) (dma_latest s) (dma_limit s) (dma_metadata_pages s)
  n (dma_lock s).
Definition set_dma_lock (b : bool) (s : dma_state) := mkDmaState (d_pg s) (d_entries s) (d_data s)
  (dma_entries s) (dma_header s) (dma_start s) (dma_latest s) (dma_limit s) (dma_metadata_pages s)
  (dma_top s) b.

#[export] Instance dma_Lock : Lock dma_state.
Proof.
  refine {| locked := dma_lock; set_locked := set_dma_lock |}; [done | done | by intros []].
Defined.

Definition with_status (v : Z) (e : dma_entry) := mkEntry v (SizeInPages e) (next_entry e).
Definition with_size (n : Z) (e : dma_entry) := mkEntry (status e) n (next_entry e).
Definition with_next (p : Z) (e : dma_entry) := mkEntry (status e) (SizeInPages e) p.

(** ["DMA_POOL"] *)
Definition dma_sign : list Z := [0x44; 0x4d; 0x41; 0x5f; 0x50; 0x4f; 0x4f; 0x4c].

(** The bytes of a [dma_descriptor]. *)
Definition descriptor_bytes (status_ pages home_entry : Z) : list Z :=
  dma_sign ++ bytes_of 4 status_ ++ bytes_of 8 pages ++ bytes_of 8 home_entry.

(** Memory with the bytes [b] stored from [a] on. *)
Definition store (a : Z) (b : list Z) (m : Z -> option Z) (x : Z) : option Z :=
  if (a <=? x) && (x <? a + Z.of_nat (length b)) then b !! Z.to_nat (x - a) else m x.

Section Dma.
(** What the memory of pages reads as that were just mapped. *)
Context (stale_entry : Z -> dma_entry) (stale_byte : Z -> Z).

Abbreviation MD := (M dma_state).

Definition on_pg {A} (m : M pg_state A) : MD A := zoom d_pg set_d_pg m.

Definition entry_at (p : Z) : MD dma_entry := e ← gets d_entries; of_option (e !! p).
Definition upd_entry (p : Z) (f : dma_entry -> dma_entry) : MD unit :=
  e ← entry_at p; modify (fun s => set_d_entries (<[p := f e]> (d_entries s)) s).

(** The entries of a pool page that was mapped, and of one that was freed. *)
Definition pool_page (p : Z) : gmap Z dma_entry :=
  list_to_map ((fun i => (p + sizeof_dma_entry * Z.of_nat i,
                          stale_entry (p + sizeof_dma_entry * Z.of_nat i))) <$>
    seq 0 (Z.to_nat (4096 / sizeof_dma_entry))).
Definition map_pool_page (p : Z) : MD unit :=
  modify (fun s => set_d_entries (pool_page p ∪ d_entries s) s).
Definition unmap_pool_page (p : Z) : MD unit :=
  modify (fun s => set_d_entries (filter (fun x => x.1 &&& Z.lnot 0xFFF <> p) (d_entries s)) s).

(** The bytes of a region come and go with its mapping. *)
Definition map_data (a pages : Z) : MD unit :=
  modify (fun s => set_d_data (fun x =>
    if (a <=? x) && (x <? a + 4096 * pages) then Some (stale_byte x) else d_data s x) s).
Definition unmap_data (a pages : Z) : MD unit :=
  modify (fun s => set_d_data (fun x =>
    if (a <=? x) && (x <? a + 4096 * pages) then None else d_data s x) s).
Definition data_le (n : nat) (a : Z) : MD Z := m ← gets d_data; le m n a.

(** ** [dmahlp.c] *)

Definition find_header (entry : Z) : MD Z :=
  while FUEL (fun entry =>
    e ← entry_at entry;
    mret (if status e =? Header then inr entry else inl (entry - sizeof_dma_entry))) entry.

Definition find_descriptorBase (Base : Z) : MD Z :=
  while FUEL (fun Base =>
    m ← gets d_data;
    matches m Base dma_sign ≫= fun found : bool =>
    mret (if found then inr Base else inl (u64 (Base + 1)))) Base.

(** ** [allocate_dma] *)

(** The first page of the pool; [false] when it cannot be mapped. *)
Definition init_pool : MD bool :=
  spin_lock;;
  allocation ← on_pg (vmalloc DMA_POOL 1 0x03);
  if negb (Attribute allocation =? 0) then spin_unlock;; mret false
  else
    modify (fun s => set_dma_top (u64 (dma_top s + 0x1000)) s);;
    modify (set_dma_header DMA_POOL);;
    map_pool_page DMA_POOL;;
    upd_entry DMA_POOL (fun _ => mkEntry Header (4096 / sizeof_dma_entry - 1) 0);;
    modify (set_dma_limit (i32 (4096 / sizeof_dma_entry - 1)));;
    spin_unlock;;
    mret true.

(** The very first region. *)
Definition first_entry (pages : Z) : MD unit :=
  spin_lock;;
  header ← gets dma_header;
  let start := header + sizeof_dma_entry in
  modify (set_dma_start start);;
  upd_entry start (fun _ => mkEntry Used pages 0);;
  modify (set_dma_latest start);;
  modify (fun s => set_dma_entries (dma_entries s + 1) s);;
  upd_entry header (fun h => with_size (u64 (SizeInPages h - 1)) h);;
  spin_unlock.

(** Frames, mapping and descriptor of a region; it is the end of both paths. *)
Definition map_region (base pages entries_used home : Z) : MD dma_ret :=
  frame ← on_pg (fa (alloc_frame pages));
  if negb (Attribute frame =? 0) then mret (mkDma 1 pages 0 0)
  else
    root ← on_pg (gets KernelPML4);
    on_pg (create_mapping base (PhysicalStart frame) pages 0x03 root);;
    on_pg (flush_pages base pages);;
    map_data base pages;;
    modify (fun s => set_d_data
      (store (u64 (base + ((pages <<< 12) - sizeof_dma_descriptor)))
         (descriptor_bytes entries_used pages home) (d_data s)) s);;
    mret (mkDma 0 pages base (PhysicalStart frame)).

(** The variables of the search. *)
Record search := mkSearch { entry : Z; free_pages : Z; free_base : Z; cursor : Z; free_entry : Z }.

Definition search_step (pages : Z) (v : search) : MD (search + search) :=
  if entry v =? 0 then mret (inr v)
  else
    e ← entry_at (entry v);
    let size := SizeInPages e in
    let next v' := mkSearch (next_entry e) (free_pages v') (free_base v')
                     (u64 (cursor v + u64 (size <<< 12))) (free_entry v') in
    if status e =? Free then
      let v1 := if free_entry v =? 0
                then mkSearch (entry v) (u64 (free_pages v + size)) (cursor v) (cursor v) (entry v)
                else mkSearch (entry v) (u64 (free_pages v + size)) (free_base v) (cursor v) (free_entry v) in
      mret (if free_pages v1 >=? pages then inr v1 else inl (next v1))
    else mret (inl (next (mkSearch (entry v) 0 (u64 (cursor v + u64 (size <<< 12))) (cursor v) 0))).

Definition search_free (pages : Z) : MD search :=
  start ← gets dma_start;
  while FUEL (search_step pages) (mkSearch start 0 DMA_BASE DMA_BASE 0).

(** The page of the pool whose header has an entry left, from the header [entry] on; [None]
    when a new one cannot be mapped. *)
Definition find_pool_page (entry : Z) : MD (option Z) :=
  while FUEL (fun entry =>
    h ← entry_at entry;
    if i32 (SizeInPages h) =? NoEntriesLeft then
      ok ← (if next_entry h =? 0 then
              top ← gets dma_top;
              allocation ← on_pg (vmalloc top 1 0x03);
              if negb (Attribute allocation =? 0) then mret false
              else
                let new_page := VirtualStart allocation in
                modify (fun s => set_dma_top (u64 (dma_top s + 0x1000)) s);;
                modify (fun s => set_dma_metadata (dma_metadata_pages s + 1) s);;
                map_pool_page new_page;;
                limit ← gets dma_limit;
                upd_entry new_page (fun _ => mkEntry Header limit 0);;
                upd_entry entry (with_next new_page);;
                latest ← gets dma_latest;
                upd_entry latest (with_next (new_page + sizeof_dma_entry));;
                modify (set_dma_latest (new_page + sizeof_dma_entry));;
                mret true
            else mret true) : MD bool;
      if (ok : bool) then h ← entry_at entry; mret (inl (next_entry h)) else mret (inr None)
    else mret (inr (Some entry))) entry.

(** The run is too short: it is used up, and a new entry behind it makes up for the rest. *)
Definition extend (pages : Z) (v : search) : MD (option (Z * Z)) :=
  header ← gets dma_header;
  page ← find_pool_page header;
  match page with
  | None => mret None
  | Some page =>
      h ← entry_at page;
      limit ← gets dma_limit;
      metadata_pages ← gets dma_metadata_pages;
      (if negb (i32 (SizeInPages h) =? limit) || (metadata_pages =? 0) then
         latest ← gets dma_latest;
         upd_entry latest (with_next (latest + sizeof_dma_entry));;
         modify (set_dma_latest (latest + sizeof_dma_entry))
       else mret ());;
      modify (fun s => set_dma_entries (dma_entries s + 1) s);;
      upd_entry page (fun h => with_size (u64 (SizeInPages h - 1)) h);;
      latest ← gets dma_latest;
      upd_entry latest (fun _ => mkEntry Used (u64 (pages - free_pages v)) 0);;
      if free_pages v >? 0 then
        used ← while FUEL (fun '(entry, used) =>
                 if entry =? latest then mret (inr used)
                 else
                   upd_entry entry (with_status Used);;
                   e ← entry_at entry;
                   mret (inl (next_entry e, used + 1))) (free_entry v, 1);
        mret (Some (used, free_entry v))
      else mret (Some (1, latest))
  end.

(** The run is long enough: as many of its entries are used as are needed. *)
Definition claim_run (pages : Z) (v : search) : MD (Z * Z) :=
  used ← while FUEL (fun '(entry, claimed, used) =>
           if claimed <? pages then
             upd_entry entry (with_status Used);;
             e ← entry_at entry;
             mret (inl (next_entry e, u64 (claimed + SizeInPages e), used + 1))
           else mret (inr used)) (free_entry v, 0, 0);
  mret (used, free_entry v).

(** The base of the region, how many entries it has and the first of them. *)
Definition claim (pages : Z) : MD (option (Z * Z * Z)) :=
  spin_lock;;
  v ← search_free pages;
  r ← (if free_pages v <? pages then extend pages v
       else r ← claim_run pages v; mret (Some r));
  spin_unlock;;
  mret (match r with Some (used, home) => Some (free_base v, used, home) | None => None end).

Definition allocate_dma (size : Z) : MD dma_ret :=
  let pages := u64 (u64 (size + sizeof_dma_descriptor) + 4095) >>> 12 in
  header ← gets dma_header;
  (if header =? 0 then init_pool else mret true) ≫= fun ok : bool =>
  if negb ok then mret (mkDma 1 pages 0 0)
  else
    entries ← gets dma_entries;
    if entries =? 0 then
      first_entry pages;;
      start ← gets dma_start;
      map_region DMA_BASE pages 1 start
    else
      r ← claim pages;
      match r with
      | None => mret (mkDma 1 pages 0 0)
      | Some (base, used, home) => map_region base pages used home
      end.

(** ** [free_dma] *)

Definition release_entry (pool_entry : Z) : MD Z :=
  e ← entry_at pool_entry;
  (if negb (status e =? Header) then
     upd_entry pool_entry (with_status Free);;
     page_header ← find_header pool_entry;
     upd_entry page_header (fun h => with_size (u64 (SizeInPages h + 1)) h)
   else mret ());;
  e ← entry_at pool_entry;
  mret (next_entry e).

(** One turn of the loop over the pages of the pool, from the last one down. *)
Definition release_page (j : Z) : MD unit :=
  header ← gets dma_header;
  pool_entry ← for_ 0 j (fun _ p => e ← entry_at p; mret (next_entry e)) header;
  h ← entry_at pool_entry;
  limit ← gets dma_limit;
  if SizeInPages h =? u64 limit then
    let first := pool_entry + sizeof_dma_entry in
    start ← gets dma_start;
    previous ← while FUEL (fun p =>
                 e ← entry_at p;
                 mret (if next_entry e =? first then inr p else inl (next_entry e))) start;
    modify (set_dma_latest previous);;
    upd_entry previous (with_next 0);;
    upd_entry (pool_entry - 0x1000) (with_next 0);;
    modify (fun s => set_dma_metadata (dma_metadata_pages s - 1) s);;
    modify (fun s => set_dma_top (u64 (dma_top s - 0x1000)) s);;
    modify (fun s => set_dma_entries ((dma_metadata_pages s + 1) * dma_limit s) s);;
    on_pg (vfree (mkDesc 0 0 pool_entry 1 0));;
    unmap_pool_page pool_entry
  else mret ().

(** [free_dma] up to and with [destroy_mapping]; the address of the descriptor is answered. *)
Definition release_region (Base : Z) : MD Z :=
  ptr ← find_descriptorBase Base;
  pool_entry ← data_le 8 (ptr + 20);
  entries_used ← data_le 4 (ptr + 8);
  pages ← data_le 8 (ptr + 12);
  root ← on_pg (gets KernelPML4);
  lookup ← on_pg (paging_lookup Base root);
  on_pg (fa (free_frame (mkDesc 0 (Paging.physical_address lookup) Base pages 0)));;
  for_ 0 (i32 entries_used) (fun _ p => release_entry p) pool_entry;;
  metadata ← gets dma_metadata_pages;
  for_ 0 metadata (fun i _ => release_page (metadata - i)) ();;
  pages ← data_le 8 (ptr + 12);
  on_pg (destroy_mapping Base pages root);;
  mret ptr.

(** [ptr->SizeInPages] is read once more behind [destroy_mapping], from the region whose page was
    just taken out of the tables and not yet invalidated: [tlb_keeps] is whether the processor
    still has the translation of an address in that case. When it has not, the read faults. *)
Definition free_dma (tlb_keeps : Z -> bool) (Base : Z) : MD unit :=
  spin_lock;;
  ptr ← release_region Base;
  (if tlb_keeps (ptr + 12) then mret () else fault);;
  pages ← data_le 8 (ptr + 12);
  on_pg (flush_pages Base pages);;
  unmap_data Base pages;;
  spin_unlock.

(** 1 stands for a failed search. *)
Definition dma_phys_to_virt (phys : Z) : MD Z :=
  let page_phys := phys &&& 0xFFFFFFFFFFFFF000 in
  let offset := phys &&& 0xFFF in
  while FUEL (fun i =>
    if i <? DMA_BASE + 0x10000000 then
      root ← on_pg (gets KernelPML4);
      lookup ← on_pg (paging_lookup i root);
      if negb (Paging.status lookup =? 0) then mret (inr 1)
      else if Paging.physical_address lookup =? page_phys then mret (inr (u64 (i + offset)))
      else if Page_Type lookup =? KB then mret (inl (u64 (i + 0x1000)))
      else if Page_Type lookup =? MB then mret (inl (u64 (i + 0x200000)))
      else if Page_Type lookup =? GB then mret (inl (u64 (i + 0x40000000)))
      else mret (inl i)
    else mret (inr 1)) DMA_BASE.
End Dma.
