(* ===== verification/DmaProofs.v ===== *)
(** * The allocator of DMA regions: proofs

    The abstract state is the list of regions, in the order of their addresses, each with
    its status and its size; region [i] starts behind the ones before it. *)
From S2P Require Import KPrelude MemHelpers Spinlock FrameAlloc Paging PagingProofs VAlloc Bytes Dma.

Abbreviation region := (Z * Z)%type.

Definition slot (i : nat) : Z := DMA_POOL + 20 * (Z.of_nat i + 1).
Definition total (l : list region) : Z := foldr (fun e n => e.2 + n) 0 l.
Definition region_base (l : list region) (i : nat) : Z := DMA_BASE + 4096 * total (take i l).

(** The entry of region [i]. *)
Definition entry_of (l : list region) (i : nat) (e : region) : dma_entry :=
  mkEntry e.1 e.2 (if decide (S i = length l) then 0 else slot (S i)).

Definition chain (l : list region) (m : gmap Z dma_entry) : Prop :=
  forall i e, l !! i = Some e -> m !! slot i = Some (entry_of l i e).

(** [n] regions from [k] on get the status [v]. *)
Definition mark (v : Z) (k n : nat) (l : list region) : list region :=
  imap (fun i e => if decide (k <= i < k + n)%nat then (v, e.2) else e) l.

(** Regions that were given back. *)
Definition freed (l : list region) : list region := (fun e => (Free, e.2)) <$> l.

(** The pool of one page whose list is [l], with [h] entries left in it. *)
Record pool (l : list region) (h : Z) (s : dma_state) : Prop := {
  pool_header : dma_header s = DMA_POOL;
  pool_start : dma_start s = slot 0;
  pool_limit : dma_limit s = 203;
  pool_metadata : dma_metadata_pages s = 0;
  pool_latest : dma_latest s = slot (length l - 1);
  pool_some : (0 < length l <= 203)%nat;
  pool_ok : Forall (fun e => (e.1 = Free \/ e.1 = Used) /\ 0 < e.2) l;
  pool_total : total l <= 2 ^ 18;
  pool_chain : chain l (d_entries s);
  pool_head : d_entries s !! DMA_POOL = Some (mkEntry Header h 0);
  pool_room : forall i, (i < 203)%nat -> is_Some (d_entries s !! slot i)
}.

(** ** Lists of regions *)

Lemma entry_slot_inj i j : slot i = slot j -> i = j.
Proof. unfold slot. lia. Qed.
Lemma slot_pool i : slot i <> DMA_POOL.
Proof. unfold slot. lia. Qed.
Lemma slot_nz i : slot i <> 0.
Proof. unfold slot, DMA_POOL. lia. Qed.
Lemma slot_S i : slot i + sizeof_dma_entry = slot (S i).
Proof. unfold slot, sizeof_dma_entry. lia. Qed.

Lemma total_cons e l : total (e :: l) = e.2 + total l.
Proof. done. Qed.

Lemma total_app l1 l2 : total (l1 ++ l2) = total l1 + total l2.
Proof. induction l1 as [|e l IH]; [done|]. cbn [app]. rewrite !total_cons. lia. Qed.

Lemma total_nonneg l : Forall (fun e => (e.1 = Free \/ e.1 = Used) /\ 0 < e.2) l -> 0 <= total l.
Proof. induction 1 as [|e l [_ H] _ IH]; [done|]. rewrite total_cons. lia. Qed.

Lemma total_take_S l i e : l !! i = Some e -> total (take (S i) l) = total (take i l) + e.2.
Proof. intros H. rewrite (take_S_r _ _ _ H), total_app. cbn. lia. Qed.

Lemma mark_length v k n l : length (mark v k n l) = length l.
Proof. apply length_imap. Qed.

Lemma mark_lookup v k n l i :
  mark v k n l !! i = (fun e : region => if decide (k <= i < k + n)%nat then (v, e.2) else e) <$> l !! i.
Proof. apply list_lookup_imap. Qed.

Lemma mark_0 v k l : mark v k 0 l = l.
Proof.
  apply list_eq. intros i. rewrite mark_lookup. destruct (l !! i) as [e|]; cbn; [|done].
  case_decide; [lia|done].
Qed.

Lemma mark_S v k n l e : l !! (k + n)%nat = Some e ->
  <[(k + n)%nat := (v, e.2)]> (mark v k n l) = mark v k (S n) l.
Proof.
  intros He. apply list_eq. intros i. destruct (decide (i = k + n)%nat) as [->|Hi].
  - rewrite list_lookup_insert_eq by (rewrite mark_length; by eapply lookup_lt_Some).
    rewrite mark_lookup, He. cbn. rewrite decide_True by lia. done.
  - rewrite list_lookup_insert_ne by done. rewrite !mark_lookup.
    destruct (l !! i); cbn; [|done]. do 2 case_decide; done || lia.
Qed.

Lemma mark_ok v k n l : v = Free \/ v = Used ->
  Forall (fun e => (e.1 = Free \/ e.1 = Used) /\ 0 < e.2) l ->
  Forall (fun e => (e.1 = Free \/ e.1 = Used) /\ 0 < e.2) (mark v k n l).
Proof.
  intros Hv Hl. apply Forall_lookup. intros i e. rewrite mark_lookup, fmap_Some.
  intros (e0 & H0 & ->). pose proof (Forall_lookup_1 _ _ _ _ Hl H0). case_decide; naive_solver.
Qed.

Lemma total_ext l l' : l.*2 = l'.*2 -> total l = total l'.
Proof.
  revert l'. induction l as [|e l IH]; intros [|e' l'] H; try done. injection H as H1 H2.
  rewrite !total_cons, H1. f_equal. by apply IH.
Qed.

Lemma mark_snd v k n l : (mark v k n l).*2 = l.*2.
Proof.
  apply list_eq. intros i. rewrite !list_lookup_fmap, mark_lookup.
  destruct (l !! i); cbn; [|done]. by case_decide.
Qed.

Lemma mark_total v k n l : total (mark v k n l) = total l.
Proof. apply total_ext, mark_snd. Qed.

(** ** The chain of entries *)

Lemma entry_of_length l l' i e : length l = length l' -> entry_of l i e = entry_of l' i e.
Proof. intros H. unfold entry_of. by rewrite H. Qed.

(** Changing the status of one entry. *)
Lemma chain_status l m k v e : chain l m -> l !! k = Some e ->
  chain (<[k := (v, e.2)]> l) (<[slot k := with_status v (entry_of l k e)]> m).
Proof.
  intros H He i e' Hi. destruct (decide (i = k)) as [->|Hk].
  - rewrite list_lookup_insert_eq in Hi by (by eapply lookup_lt_Some). injection Hi as <-.
    rewrite lookup_insert_eq. unfold entry_of. by rewrite length_insert.
  - rewrite list_lookup_insert_ne in Hi by done. rewrite lookup_insert_ne by (by intros ?%entry_slot_inj).
    rewrite (entry_of_length _ l) by apply length_insert. by apply H.
Qed.

(** Adding an entry behind the last one. *)
Lemma chain_snoc l m e e0 : chain l m -> last l = Some e0 ->
  chain (l ++ [e]) (<[slot (length l) := mkEntry e.1 e.2 0]>
    (<[slot (length l - 1) := with_next (slot (length l)) (entry_of l (length l - 1) e0)]> m)).
Proof.
  intros H H0 i e' Hi. rewrite last_lookup in H0.
  replace (pred (length l)) with (length l - 1)%nat in H0 by lia.
  pose proof (lookup_lt_Some _ _ _ H0) as Hn.
  destruct (decide (i = length l)) as [->|Hk].
  - rewrite lookup_app_r, Nat.sub_diag in Hi by lia. injection Hi as <-. rewrite lookup_insert_eq.
    unfold entry_of. rewrite length_app. cbn. rewrite decide_True by lia. done.
  - rewrite lookup_app_l in Hi by (apply lookup_lt_Some in Hi; rewrite length_app in Hi; cbn in Hi; lia).
    rewrite lookup_insert_ne by (intros ?%entry_slot_inj; lia).
    pose proof (lookup_lt_Some _ _ _ Hi) as Hi'.
    destruct (decide (i = length l - 1)%nat) as [->|Hk1].
    + rewrite lookup_insert_eq. rewrite H0 in Hi. injection Hi as ->. unfold entry_of, with_next.
      cbn. rewrite length_app. cbn [length]. rewrite decide_False by lia. by replace (S (length l - 1)) with (length l) by lia.
    + rewrite lookup_insert_ne by (intros ?%entry_slot_inj; lia). rewrite (H i e' Hi). f_equal.
      unfold entry_of. rewrite length_app. cbn. by rewrite !decide_False by lia.
Qed.

Section Proofs.
Context (stale_entry : Z -> dma_entry).

Lemma wp_entry_at p e (Q : dma_entry -> dma_state -> Prop) s :
  d_entries s !! p = Some e -> Q e s -> wp (entry_at p) Q s.
Proof. intros He HQ. unfold entry_at. wp_steps. apply wp_of_option. eauto. Qed.

Lemma wp_upd_entry p f e (Q : unit -> dma_state -> Prop) s :
  d_entries s !! p = Some e -> Q () (set_d_entries (<[p := f e]> (d_entries s)) s) ->
  wp (upd_entry p f) Q s.
Proof. intros He HQ. unfold upd_entry. wp_step. eapply wp_entry_at; [done|]. by wp_steps. Qed.

(** What [pool] says of the memory, by the entry. *)
Lemma pool_entry l h s i e : pool l h s -> l !! i = Some e ->
  d_entries s !! slot i = Some (entry_of l i e).
Proof. intros H. apply H. Qed.

Lemma pool_region l h s i e : pool l h s -> l !! i = Some e ->
  (e.1 = Free \/ e.1 = Used) /\ 0 < e.2.
Proof. intros H Hl. exact (Forall_lookup_1 _ _ _ _ (pool_ok _ _ _ H) Hl). Qed.

Lemma total_range l h s i : pool l h s -> 0 <= total (take i l) <= 2 ^ 18.
Proof.
  intros H. pose proof (pool_total _ _ _ H) as Ht. pose proof (pool_ok _ _ _ H) as Ho.
  rewrite <- (take_drop i l), total_app in Ht.
  pose proof (total_nonneg _ (Forall_take _ i _ Ho)). pose proof (total_nonneg _ (Forall_drop _ i _ Ho)). lia.
Qed.

(** ** The search

    [run l k n]: the [n] regions from [k] on are free. *)
Definition run (l : list region) (k n : nat) : Prop :=
  forall i, (k <= i < k + n)%nat -> exists e, l !! i = Some e /\ e.1 = Free.
Definition size (l : list region) (k n : nat) : Z := total (take n (drop k l)).

Lemma size_total l k n : total (take (k + n) l) = total (take k l) + size l k n.
Proof. unfold size. by rewrite <- total_app, <- take_take_drop. Qed.

Lemma size_S l k n e : l !! (k + n)%nat = Some e -> size l k (S n) = size l k n + e.2.
Proof.
  intros H. pose proof (size_total l k n). pose proof (size_total l k (S n)) as H2.
  replace (k + S n)%nat with (S (k + n)) in H2 by lia. rewrite (total_take_S _ _ _ H) in H2. lia.
Qed.

Lemma size_0 l k : size l k 0 = 0.
Proof. done. Qed.

Lemma size_range l h s k n : pool l h s -> 0 <= size l k n <= 2 ^ 18.
Proof.
  intros H. pose proof (total_range l h s (k + n) H). rewrite size_total in *.
  pose proof (total_range l h s k H). pose proof (pool_ok _ _ _ H) as Ho.
  pose proof (total_nonneg _ (Forall_take _ n _ (Forall_drop _ k _ Ho))). fold (size l k n) in *. lia.
Qed.

Lemma size_split l k j d : size l k (j + d) = size l k j + size l (k + j) d.
Proof.
  pose proof (size_total l k (j + d)). pose proof (size_total l k j).
  pose proof (size_total l (k + j) d). rewrite <- Nat.add_assoc in *. lia.
Qed.

Lemma size_mono l h s k j j' : pool l h s -> (j <= j')%nat -> size l k j <= size l k j'.
Proof.
  intros H Hj. replace j' with (j + (j' - j))%nat by lia. rewrite size_split.
  pose proof (size_range l h s (k + j) (j' - j) H). lia.
Qed.

(** No run that ends at [m] or before is long enough. *)
Definition none_fits (l : list region) (pages : Z) (m : nat) : Prop :=
  forall k n, run l k n -> (k + n <= m)%nat -> size l k n < pages.

(** Region [k] begins a run, if it is free at all. *)
Definition run_start (l : list region) (k : nat) : Prop :=
  forall k', k = S k' -> exists e, l !! k' = Some e /\ e.1 = Used.

Lemma none_fits_0 l pages : 0 < pages -> none_fits l pages 0.
Proof. intros Hp k n _ Hkn. destruct n; [|lia]. by rewrite size_0. Qed.

Lemma none_fits_le l pages m m' : none_fits l pages m -> (m' <= m)%nat -> none_fits l pages m'.
Proof. intros H Hm k n Hr Hkn. apply H; [done|lia]. Qed.

Lemma none_fits_used l pages m e : 0 < pages -> none_fits l pages m -> l !! m = Some e ->
  e.1 = Used -> none_fits l pages (S m).
Proof.
  intros Hp H Hm He k n Hr Hkn. destruct n as [|n]; [by rewrite size_0|].
  destruct (decide (k + S n = S m)%nat) as [E|]; [|apply H; [done|lia]].
  destruct (Hr m ltac:(lia)) as (e' & Hm' & He'). rewrite Hm in Hm'. injection Hm' as <-.
  rewrite He in He'. done.
Qed.

Lemma none_fits_free l h s pages k n : pool l h s -> none_fits l pages (k + n) ->
  run_start l k -> size l k (S n) < pages -> none_fits l pages (S (k + n)).
Proof.
  intros H Hno Hs Hlt k' n' Hr Hkn. destruct (decide (k' + n' = S (k + n))%nat) as [E|]; [|apply Hno; [done|lia]].
  destruct (decide (k' < k)%nat) as [Hk|Hk].
  - destruct (Hs (k - 1)%nat ltac:(lia)) as (e & He & Hu).
    destruct (Hr (k - 1)%nat ltac:(lia)) as (e' & He' & Hf). rewrite He in He'. injection He' as <-.
    rewrite Hu in Hf. done.
  - replace (S n) with ((k' - k) + n')%nat in Hlt by lia. rewrite size_split in Hlt.
    replace (k + (k' - k))%nat with k' in Hlt by lia.
    pose proof (size_range l h s k (k' - k) H). lia.
Qed.

(** The variables when the first [k] regions are passed over and [n] free ones counted. *)
Definition search_at (l : list region) (k n : nat) (v : search) : Prop :=
  run l k n /\ (k + n <= length l)%nat /\
  free_pages v = size l k n /\ free_base v = region_base l k /\
  free_entry v = (if decide (n = 0)%nat then 0 else slot k).

Lemma shift12 x : x <<< 12 = 4096 * x.
Proof. rewrite Z.shiftl_mul_pow2 by lia. lia. Qed.

Lemma wp_search_free pages l h s : pool l h s -> 0 < pages ->
  wp (search_free pages) (fun v s' => s' = s /\ exists k n, search_at l k n v /\
    run_start l k /\ none_fits l pages (k + n - 1) /\
    ((pages <= size l k n /\ (0 < n)%nat /\ size l k (n - 1) < pages) \/
     ((k + n)%nat = length l /\ size l k n < pages /\ none_fits l pages (length l)))) s.
Proof.
  intros H Hp. unfold search_free. wp_steps.
  eapply (wp_while_ix _ (fun '(k, n) v s' => s' = s /\ search_at l k n v /\ size l k n < pages /\
      entry v = (if decide (k + n = length l)%nat then 0 else slot (k + n)) /\
      cursor v = region_base l (k + n) /\ none_fits l pages (k + n) /\ run_start l k)
    (fun '(k, n) => Z.of_nat (length l) - Z.of_nat (k + n))).
  - intros [k n] v s1 (-> & (Hr & Hkn & Hfp & Hfb & Hfe) & Hlt & He & Hc & Hno & Hst0). unfold search_step.
    destruct (Z.eqb_spec (entry v) 0) as [E0|E0].
    + wp_steps. split; [done|]. exists k, n. split; [by repeat split|]. split; [done|].
      split; [eapply none_fits_le; [exact Hno|lia]|]. right.
      rewrite He in E0. case_decide as Hk; [|by apply slot_nz in E0].
      split; [done|]. split; [done|]. by rewrite <- Hk.
    + rewrite He in *. case_decide as Hk; [done|].
      destruct (lookup_lt_is_Some_2 l (k + n)%nat) as [e Hl]; [lia|].
      wp_step. eapply wp_entry_at; [by eapply pool_entry|].
      destruct (pool_region _ _ _ _ _ H Hl) as [Hst Hsz].
      pose proof (total_range l h s (k + n) H) as R0.
      pose proof (total_range l h s (S (k + n)) H) as R1.
      pose proof (total_range l h s k H) as Rk.
      pose proof (size_range l h s k n H) as Rs.
      pose proof (total_take_S _ _ _ Hl) as T1. pose proof (size_S _ _ _ _ Hl) as S1.
      pose proof (size_total l k n) as T2.
      assert (u64 (cursor v + u64 (e.2 <<< 12)) = region_base l (S (k + n))) as Hc'.
      { rewrite Hc, shift12. unfold region_base, DMA_BASE in *. rewrite (u64_id (4096 * e.2)), u64_id; lia. }
      assert (size l k n = total (take (k + n) l) - total (take k l)) as T3 by lia.
      assert (next_entry (entry_of l (k + n) e) =
        if decide (S (k + n) = length l) then 0 else slot (S (k + n))) as Hnext by done.
      cbn [status SizeInPages entry_of]. rewrite Hnext. destruct (Z.eqb_spec e.1 Free) as [Ef|Ef].
      * match goal with |- context [inr (if ?c then ?x else ?y)] => assert ((if c then x else y) =
          mkSearch (slot (k + n)) (size l k (S n)) (region_base l k) (cursor v) (slot k)) as Hv1 end.
        { rewrite Hfe, Hfp, Hfb, S1. rewrite u64_id by lia. destruct (decide (n = 0)%nat) as [E1|E1].
          - cbn [Z.eqb]. rewrite Hc, E1. by replace (k + 0)%nat with k by lia.
          - by rewrite (proj2 (Z.eqb_neq _ _) (slot_nz k)). }
        rewrite Hv1. cbn [free_pages free_base free_entry cursor].
        assert (run l k (S n)) as Hr'.
        { intros i Hi. destruct (decide (i = k + n)%nat) as [E1|E1]; [rewrite E1; eauto|]. apply Hr. lia. }
        rewrite Z.geb_leb. destruct (Z.leb_spec pages (size l k (S n))) as [Hge|Hge]; wp_steps.
        -- split; [done|]. exists k, (S n). split; [|split; [done|split;
             [by replace (k + S n - 1)%nat with (k + n)%nat by lia|]]; left; rewrite Nat.sub_succ, Nat.sub_0_r; split_and!; [done|lia|done]].
           split; [done|]. split; [lia|]. done.
        -- exists (k, S n). split; [|lia]. split; [done|]. cbn [entry cursor]. rewrite Hc'.
           replace (k + S n)%nat with (S (k + n)) by lia.
           split; [split; [done|]; split; [lia|done]|]. split; [done|]. split; [done|]. split; [done|].
           split; [by eapply none_fits_free|done].
      * wp_steps. exists (S (k + n), 0%nat). split; [|lia]. split; [done|].
        cbn [entry cursor free_pages free_base free_entry]. rewrite Hc', Nat.add_0_r.
        split; [split; [intros i Hi; lia|]; split; [lia|done]|]. rewrite size_0.
        split; [done|]. split; [done|]. split; [done|].
        assert (e.1 = Used) by (by destruct Hst). split; [by eapply none_fits_used|].
        intros k' [= <-]. eauto.
  - instantiate (1 := (0%nat, 0%nat)). cbn [entry cursor]. pose proof (pool_some _ _ _ H).
    rewrite size_0. split; [done|]. split; [|split; [lia|]].
    + split; [intros i Hi; lia|]. split; [lia|]. done.
    + cbn [Nat.add]. rewrite decide_False by lia. split; [apply H|]. split; [done|].
      split; [by apply none_fits_0|done].
  - pose proof (pool_some _ _ _ H). unfold FUEL. lia.
Qed.

(** ** Changing one region's status *)

Lemma pool_status l h s k e v : pool l h s -> l !! k = Some e -> v = Free \/ v = Used ->
  pool (<[k := (v, e.2)]> l) h
    (set_d_entries (<[slot k := with_status v (entry_of l k e)]> (d_entries s)) s).
Proof.
  intros H Hk Hv. assert ((<[k := (v, e.2)]> l).*2 = l.*2) as Hs.
  { rewrite list_fmap_insert. apply list_insert_id. by rewrite list_lookup_fmap, Hk. }
  destruct H. constructor; rewrite ?length_insert; try done.
  - apply Forall_insert; [done|]. split; [done|]. eapply (Forall_lookup_1 _ _ _ _ pool_ok0 Hk).
  - by rewrite (total_ext _ l).
  - by apply chain_status.
  - cbn [d_entries set_d_entries]. rewrite lookup_insert_ne; [done|]. apply slot_pool.
  - intros i Hi. cbn [d_entries set_d_entries]. apply lookup_insert_is_Some'. right. by apply pool_room0.
Qed.

Lemma wp_status l h s k e v (Q : unit -> dma_state -> Prop) :
  pool l h s -> l !! k = Some e -> v = Free \/ v = Used ->
  (forall m, pool (<[k := (v, e.2)]> l) h (set_d_entries m s) -> Q () (set_d_entries m s)) ->
  wp (upd_entry (slot k) (with_status v)) Q s.
Proof.
  intros H Hk Hv HQ. eapply wp_upd_entry; [by eapply pool_entry|]. apply HQ. by apply pool_status.
Qed.

Lemma next_of_entry l i e :
  next_entry (entry_of l i e) = if decide (S i = length l) then 0 else slot (S i).
Proof. done. Qed.

(** Reading the entry that was just marked. *)
Lemma wp_marked l h s k n e v (Q : dma_entry -> dma_state -> Prop) :
  pool (mark v k (S n) l) h s -> l !! (k + n)%nat = Some e ->
  Q (entry_of l (k + n) (v, e.2)) s -> wp (entry_at (slot (k + n))) Q s.
Proof.
  intros H He HQ. eapply wp_entry_at; [eapply pool_entry; [done|]|].
  - rewrite mark_lookup, He. cbn. by rewrite decide_True by lia.
  - by rewrite (entry_of_length _ l) by apply mark_length.
Qed.

(** ** Using up a run *)

Lemma wp_claim_run pages l h s v k n :
  pool l h s -> search_at l k n v -> pages <= size l k n -> (0 < n)%nat -> size l k (n - 1) < pages ->
  wp (claim_run pages v) (fun r s' => r = (Z.of_nat n, slot k) /\
    exists m, s' = set_d_entries m s /\ pool (mark Used k n l) h s') s.
Proof.
  intros H (Hr & Hkn & Hfp & Hfb & Hfe) Hge Hn Hlt. unfold claim_run. rewrite Hfe.
  rewrite decide_False by lia. wp_step.
  eapply (wp_while_ix _ (fun j '(entry, claimed, used) s' =>
      entry = (if decide (k + j = length l)%nat then 0 else slot (k + j)) /\
      claimed = size l k j /\ used = Z.of_nat j /\ (j <= n)%nat /\
      exists m, s' = set_d_entries m s /\ pool (mark Used k j l) h s')
    (fun j => Z.of_nat n - Z.of_nat j)).
  - intros j [[entry claimed] used] s1 (-> & -> & -> & Hj & m & E & H1).
    destruct (Z.ltb_spec (size l k j) pages) as [Hlt'|Hge'].
    + assert (j < n)%nat as Hjn.
      { destruct (decide (j = n)) as [E1|]; [|lia]. rewrite E1 in Hlt'. lia. }
      rewrite decide_False by lia.
      destruct (lookup_lt_is_Some_2 l (k + j)%nat) as [e Hl]; [lia|].
      wp_step. eapply wp_status; [done| |by right|].
      { rewrite mark_lookup, Hl. cbn. by rewrite decide_False by lia. }
      intros m' H'. rewrite (mark_S _ _ _ _ _ Hl) in H'. wp_step. eapply wp_marked; [done|done|].
      wp_steps. cbn [SizeInPages entry_of]. exists (S j). split; [|lia].
      rewrite next_of_entry. replace (k + S j)%nat with (S (k + j)) by lia.
      split; [done|]. rewrite (size_S _ _ _ _ Hl).
      pose proof (size_range l h s k j H). pose proof (pool_region _ _ _ _ _ H Hl) as [_ Hs].
      pose proof (size_range l h s k (S j) H). rewrite (size_S _ _ _ _ Hl) in *.
      cbn [snd]. split; [by rewrite u64_id by lia|]. split; [lia|]. split; [lia|]. exists m'. rewrite E in H' |- *. by split.
    + assert (j = n) as ->.
      { destruct (decide (j = n)) as [|E1]; [done|]. pose proof (size_mono l h s k j (n - 1) H). lia. }
      wp_steps. split; [done|]. by exists m.
  - instantiate (1 := 0%nat). rewrite Nat.add_0_r, decide_False by lia. split_and!; [done..|lia|].
    exists (d_entries s). rewrite mark_0. split; [by destruct s|done].
  - pose proof (pool_some _ _ _ H). unfold FUEL. lia.
Qed.

(** ** Adding a region at the end *)

Lemma chain_pool l m x : chain l m -> chain l (<[DMA_POOL := x]> m).
Proof. intros H i e Hi. rewrite lookup_insert_ne; [by apply H|]. apply not_eq_sym, slot_pool. Qed.

Lemma size_pos l h s k n : pool l h s -> (k + n <= length l)%nat -> (0 < n)%nat -> 0 < size l k n.
Proof.
  intros H Hkn Hn. destruct n as [|n]; [lia|].
  destruct (lookup_lt_is_Some_2 l (k + n)%nat) as [e He]; [lia|].
  rewrite (size_S _ _ _ _ He). pose proof (pool_region _ _ _ _ _ H He) as [_ ?].
  pose proof (size_range l h s k n H). lia.
Qed.

Lemma mark_app v k n l e : (k + n = length l)%nat -> mark v k n (l ++ [e]) = mark v k n l ++ [e].
Proof.
  intros Hkn. unfold mark. rewrite imap_app. cbn. rewrite Nat.add_0_r.
  by rewrite decide_False by lia.
Qed.

(** The state behind the additions of [extend]. *)
Definition extended (l : list region) (h pages : Z) (s : dma_state) : dma_state :=
  set_d_entries
    (<[slot (length l) := mkEntry Used pages 0]>
      (<[DMA_POOL := mkEntry Header (h - 1) 0]>
        (<[slot (length l - 1) := with_next (slot (length l))
             (default (mkEntry 0 0 0) (d_entries s !! slot (length l - 1)))]> (d_entries s))))
    (set_dma_latest (slot (length l)) (set_dma_entries (dma_entries s + 1) s)).

Lemma pool_extended l h pages s : pool l h s -> (length l < 203)%nat -> 0 < pages ->
  total l + pages <= 2 ^ 18 -> pool (l ++ [(Used, pages)]) (h - 1) (extended l h pages s).
Proof.
  intros H Hl Hp Ht. pose proof (pool_some _ _ _ H) as Hs.
  destruct (last l) as [e0|] eqn:E0; [|apply last_None in E0; subst; cbn in Hs; lia].
  assert (l !! (length l - 1)%nat = Some e0) as E1.
  { rewrite last_lookup in E0. by replace (pred (length l)) with (length l - 1)%nat in E0 by lia. }
  pose proof (pool_entry _ _ _ _ _ H E1) as Em. unfold extended. rewrite Em. cbn [default].
  destruct H. constructor; try done.
  - rewrite length_app. cbn. by replace (length l + 1 - 1)%nat with (length l) by lia.
  - rewrite length_app. cbn. lia.
  - apply Forall_app. split; [done|]. apply Forall_singleton. split; [by right|done].
  - rewrite total_app, total_cons. change (total []) with 0. cbn [snd]. lia.
  - cbn [d_entries set_d_entries]. rewrite insert_insert_ne by apply slot_pool.
    apply chain_pool. by apply (chain_snoc l _ (Used, pages)).
  - cbn [d_entries set_d_entries]. rewrite lookup_insert_ne by apply slot_pool. apply lookup_insert_eq.
  - intros i Hi. cbn [d_entries set_d_entries]. do 3 (apply lookup_insert_is_Some'; right).
    by apply pool_room0.
Qed.

Lemma wp_find_pool_page p e s : d_entries s !! p = Some e -> 0 < SizeInPages e < 2 ^ 31 ->
  wp (find_pool_page stale_entry p) (fun r s' => r = Some p /\ s' = s) s.
Proof.
  intros He Hh. unfold find_pool_page.
  eapply (wp_while _ (fun q s' => q = p /\ s' = s) (fun _ _ => 0)); [|done|done].
  intros q s' [-> ->]. wp_step. eapply wp_entry_at; [done|].
  replace (i32 (SizeInPages e)) with (SizeInPages e)
    by (unfold i32; change (2 ^ 31) with 2147483648 in *; change (2 ^ 32) with 4294967296; divlia).
  unfold NoEntriesLeft. rewrite (proj2 (Z.eqb_neq _ _)) by lia. by wp_steps.
Qed.

(** The regions of the run are used up to the new one. *)
Lemma wp_mark_run l h s k n :
  pool l h s -> (k + n < length l)%nat ->
  wp (while FUEL (fun '(entry, used) =>
        if entry =? slot (k + n) then mret (inr used)
        else
          upd_entry entry (with_status Used);;
          e ← entry_at entry;
          mret (inl (next_entry e, used + 1))) (slot k, 1))
    (fun r s' => r = Z.of_nat n + 1 /\ exists m, s' = set_d_entries m s /\ pool (mark Used k n l) h s') s.
Proof.
  intros H Hkn.
  eapply (wp_while_ix _ (fun j '(entry, used) s' =>
      entry = slot (k + j) /\ used = Z.of_nat j + 1 /\ (j <= n)%nat /\
      exists m, s' = set_d_entries m s /\ pool (mark Used k j l) h s')
    (fun j => Z.of_nat n - Z.of_nat j)).
  - intros j [entry used] s1 (-> & -> & Hj & m & E & H1).
    destruct (Z.eqb_spec (slot (k + j)) (slot (k + n))) as [E1%entry_slot_inj|E1].
    + assert (j = n) as -> by lia. wp_steps. split; [done|]. by exists m.
    + assert (j < n)%nat as Hjn by (destruct (decide (j = n)) as [->|]; [done|lia]).
      destruct (lookup_lt_is_Some_2 l (k + j)%nat) as [e Hl]; [lia|].
      wp_step. eapply wp_status; [done| |by right|].
      { rewrite mark_lookup, Hl. cbn. by rewrite decide_False by lia. }
      intros m' H'. rewrite (mark_S _ _ _ _ _ Hl) in H'. wp_step. eapply wp_marked; [done|done|].
      wp_steps. exists (S j). split; [|lia]. rewrite next_of_entry, decide_False by lia.
      replace (k + S j)%nat with (S (k + j)) by lia. split; [done|]. split; [lia|]. split; [lia|].
      exists m'. rewrite E in H' |- *. by split.
  - instantiate (1 := 0%nat). rewrite Nat.add_0_r. split_and!; [done..|lia|].
    exists (d_entries s). rewrite mark_0. split; [by destruct s|done].
  - pose proof (pool_some _ _ _ H). unfold FUEL. lia.
Qed.

Lemma wp_extend pages l h s v k n :
  pool l h s -> search_at l k n v -> (k + n)%nat = length l -> size l k n < pages ->
  0 < h < 2 ^ 31 -> (length l < 203)%nat -> total l + pages <= 2 ^ 18 ->
  wp (extend stale_entry pages v) (fun r s' => r = Some (Z.of_nat n + 1, slot k) /\
    exists m, s' = set_d_entries m (set_dma_latest (slot (length l)) (set_dma_entries (dma_entries s + 1) s)) /\
    pool (mark Used k n l ++ [(Used, pages - size l k n)]) (h - 1) s') s.
Proof.
  intros H (Hr & _ & Hfp & Hfb & Hfe) Hkn Hlt Hh Hl Ht.
  pose proof (size_range l h s k n H) as Rs. pose proof (pool_some _ _ _ H) as Hs.
  pose proof (pool_head _ _ _ H) as Hhd. pose proof (total_nonneg _ (pool_ok _ _ _ H)).
  destruct (last l) as [e0|] eqn:E0; [|apply last_None in E0; subst; cbn in Hs; lia].
  assert (l !! (length l - 1)%nat = Some e0) as E1.
  { rewrite last_lookup in E0. by replace (pred (length l)) with (length l - 1)%nat in E0 by lia. }
  pose proof (pool_entry _ _ _ _ _ H E1) as Em.
  unfold extend. wp_steps. rewrite (pool_header _ _ _ H).
  eapply wp_mono; [by eapply wp_find_pool_page|]. intros r s' [-> ->]. cbn beta iota.
  wp_step. eapply wp_entry_at; [done|]. wp_steps.
  rewrite (pool_metadata _ _ _ H), orb_true_r. wp_steps.
  rewrite (pool_latest _ _ _ H), slot_S. replace (S (length l - 1)) with (length l) by lia.
  eapply wp_upd_entry; [done|]. wp_steps.
  eapply wp_upd_entry.
  { cbn [d_entries set_d_entries set_dma_latest set_dma_entries].
    rewrite lookup_insert_ne by apply slot_pool. done. }
  wp_steps. cbn [dma_latest set_d_entries set_dma_latest set_dma_entries].
  destruct (pool_room _ _ _ H (length l) ltac:(lia)) as [e1 He1].
  eapply wp_upd_entry.
  { cbn [d_entries set_d_entries set_dma_latest set_dma_entries].
    rewrite lookup_insert_ne by (apply not_eq_sym, slot_pool).
    rewrite lookup_insert_ne by (intros ?%entry_slot_inj; lia). done. }
  rewrite Hfp, (u64_id (pages - size l k n)) by lia.
  unfold with_size. cbn [SizeInPages status next_entry]. rewrite (u64_id (h - 1)) by lia.
  match goal with |- wp _ _ ?x => assert (x = extended l h (pages - size l k n) s) as E2 end.
  { unfold extended. rewrite Em. done. }
  rewrite E2. clear E2.
  assert (pool (l ++ [(Used, pages - size l k n)]) (h - 1) (extended l h (pages - size l k n) s)) as H'
    by (apply pool_extended; [done|done|lia|lia]).
  rewrite Z.gtb_ltb. destruct (Z.ltb_spec 0 (size l k n)) as [Hpos|Hz].
  - assert (0 < n)%nat as Hn by (destruct n; [rewrite size_0 in Hpos; lia|lia]).
    rewrite Hfe, decide_False by lia. rewrite <- Hkn. wp_step.
    eapply wp_mono; [eapply wp_mark_run; [done|]|].
    { rewrite length_app. cbn [length]. lia. }
    intros r s' (-> & m & -> & Hp). wp_steps. split; [done|]. rewrite mark_app in Hp by done.
    exists m. by rewrite Hkn.
  - assert (n = 0%nat) as ->.
    { destruct n as [|n]; [done|]. pose proof (size_pos l h s k (S n) H ltac:(lia) ltac:(lia)). lia. }
    wp_steps. rewrite Nat.add_0_r in Hkn. split; [by rewrite Hkn|]. rewrite mark_0. eexists. by split.
Qed.

(** ** The whole step under the lock *)

Lemma pool_lock l h s b : pool l h s -> pool l h (set_dma_lock b s).
Proof. intros []. by constructor. Qed.

(** What [claim] promises: the regions from [k] on, and [new] behind them. The run begins behind
    a used region (or the list), so it is not a part of a longer one that begins earlier; and no
    run of free regions that ends before its last region is long enough. *)
Record claimed (l : list region) (pages : Z) (k n : nat) (new : list region) : Prop := {
  claimed_free : run l k n;
  claimed_in : (k + n <= length l)%nat;
  claimed_start : run_start l k;
  claimed_earliest : none_fits l pages (k + n - 1);
  claimed_enough : pages <= size l k n + total new;
  claimed_tight : size l k (n - 1) < pages;
  claimed_new : new = [] \/ (k + n)%nat = length l /\ new = [(Used, pages - size l k n)] /\
    0 < pages - size l k n /\ none_fits l pages (length l)
}.

Lemma wp_claim pages l h s :
  pool l h s -> dma_lock s = false -> 0 < h < 2 ^ 31 -> (length l < 203)%nat ->
  0 < pages -> total l + pages <= 2 ^ 18 ->
  wp (claim stale_entry pages) (fun r s' => exists k n new, claimed l pages k n new /\
    r = Some (region_base l k, Z.of_nat (n + length new), slot k) /\
    pool (mark Used k n l ++ new) (h - Z.of_nat (length new)) s' /\
    dma_lock s' = false /\ d_pg s' = d_pg s /\ d_data s' = d_data s /\
    dma_entries s' = dma_entries s + Z.of_nat (length new)) s.
Proof.
  intros H Hlk Hh Hl Hp Ht. unfold claim. wp_step. apply wp_spin_lock; [done|]. wp_step.
  eapply wp_mono; [by eapply wp_search_free; [apply pool_lock|]|].
  intros v s' (-> & k & n & Hat & Hst & Hearly & Hcase). cbn beta iota. wp_step.
  pose proof Hat as (Hr & Hkn & Hfp & Hfb & Hfe). rewrite Hfp, Hfb.
  destruct (Z.ltb_spec (size l k n) pages) as [Hlt|Hge].
  - destruct Hcase as [?|(Hend & _ & Hno)]; [lia|].
    eapply wp_mono; [by eapply wp_extend; [apply pool_lock|..]|].
    intros r s' (-> & m & -> & H'). wp_steps. exists k, n, [(Used, pages - size l k n)].
    split; [|split; [do 3 f_equal; cbn [length]; lia|split; [apply (pool_lock _ _ _ false H')|]]].
    + split; [done|done|done|done|cbn; lia| |right; split_and!; done || lia].
      pose proof (size_mono l h s k (n - 1) n H). lia.
    + done.
  - destruct Hcase as [(_ & Hn & Hlt)|?]; [|lia].
    wp_step. eapply wp_mono; [by eapply wp_claim_run; [apply pool_lock|..]|].
    intros r s' (-> & m & -> & H'). wp_steps. exists k, n, [].
    rewrite app_nil_r, Nat.add_0_r, Z.sub_0_r, Z.add_0_r.
    split; [|split; [done|split; [apply (pool_lock _ _ _ false H')|done]]].
    split; [done|done|done|done|cbn; lia|done|by left].
Qed.

(** ** Giving the entries of a region back *)

Lemma slot_pred i : slot i - sizeof_dma_entry = DMA_POOL + 20 * Z.of_nat i.
Proof. unfold slot, sizeof_dma_entry. lia. Qed.

(** The walk down to the header of the page. *)
Lemma wp_find_header l h s i : pool l h s -> (i < length l)%nat ->
  wp (find_header (slot i)) (fun p s' => p = DMA_POOL /\ s' = s) s.
Proof.
  intros H Hi. unfold find_header.
  eapply (wp_while_ix _ (fun j p s' => p = DMA_POOL + 20 * Z.of_nat j /\ s' = s /\ (j <= length l)%nat)
    (fun j => Z.of_nat j)).
  - intros j p s' (-> & -> & Hj). destruct j as [|j].
    + replace (DMA_POOL + 20 * Z.of_nat 0) with DMA_POOL by lia.
      wp_step. eapply wp_entry_at; [apply H|]. by wp_steps.
    + replace (DMA_POOL + 20 * Z.of_nat (S j)) with (slot j) by (unfold slot; lia).
      destruct (lookup_lt_is_Some_2 l j) as [e He]; [lia|].
      destruct (pool_region _ _ _ _ _ H He) as [Hst _].
      wp_step. eapply wp_entry_at; [by eapply pool_entry|]. cbn [status entry_of].
      rewrite (proj2 (Z.eqb_neq e.1 Header)) by (destruct Hst as [-> | ->]; done).
      wp_steps. exists j. rewrite slot_pred. split; [split_and!; done || lia|lia].
  - instantiate (1 := S i). unfold slot. split_and!; [lia|done|lia].
  - pose proof (pool_some _ _ _ H). unfold FUEL. lia.
Qed.

Lemma pool_set_head l h h' s : pool l h s ->
  pool l h' (set_d_entries (<[DMA_POOL := mkEntry Header h' 0]> (d_entries s)) s).
Proof.
  intros []. constructor; try done.
  - by apply chain_pool.
  - cbn [d_entries set_d_entries]. by rewrite lookup_insert_eq.
  - intros i Hi. cbn [d_entries set_d_entries]. apply lookup_insert_is_Some'. right. by apply pool_room0.
Qed.

Lemma wp_release_entry l h s i e : pool l h s -> l !! i = Some e -> 0 <= h < 2 ^ 63 ->
  wp (release_entry (slot i)) (fun p s' => p = next_entry (entry_of l i e) /\
    exists m, s' = set_d_entries m s /\ pool (<[i := (Free, e.2)]> l) (h + 1) s') s.
Proof.
  intros H Hi Hh. destruct (pool_region _ _ _ _ _ H Hi) as [Hst _]. unfold release_entry.
  wp_step. eapply wp_entry_at; [by eapply pool_entry|]. cbn [status entry_of].
  rewrite (proj2 (Z.eqb_neq e.1 Header)) by (destruct Hst as [-> | ->]; done). cbn [negb].
  wp_step. wp_step. eapply wp_status; [done|done|by left|]. intros m H1.
  wp_step. eapply wp_mono.
  { eapply wp_find_header; [done|]. rewrite length_insert. by eapply lookup_lt_Some. }
  intros p s' [-> ->]. eapply wp_upd_entry; [apply H1|].
  unfold with_size. cbn [SizeInPages status next_entry].
  rewrite u64_id by (change (2 ^ 63) with 9223372036854775808 in *; change (2 ^ 64) with 18446744073709551616; lia).
  pose proof (pool_set_head _ _ (h + 1) _ H1) as H2.
  wp_step. eapply wp_entry_at.
  { eapply (pool_entry _ _ _ _ (Free, e.2)); [exact H2|].
    apply list_lookup_insert_eq. by eapply lookup_lt_Some. }
  wp_steps. split; [by rewrite !next_of_entry, length_insert|]. eexists. split; [|exact H2]. done.
Qed.

(** The loop of [free_dma] over the entries of a region. *)
Definition release (used home : Z) : M dma_state Z := for_ 0 used (fun _ p => release_entry p) home.

Lemma wp_release l h s k n : pool l h s -> (k + n <= length l)%nat -> 0 <= h < 2 ^ 62 ->
  wp (release (Z.of_nat n) (slot k)) (fun _ s' =>
    exists m, s' = set_d_entries m s /\ pool (mark Free k n l) (h + Z.of_nat n) s') s.
Proof.
  intros H Hkn Hh. unfold release. pose proof (pool_some _ _ _ H) as Hl.
  eapply wp_mono.
  - eapply (wp_for (fun j p s' => (j < Z.of_nat n -> p = slot (k + Z.to_nat j)) /\
      exists m, s' = set_d_entries m s /\ pool (mark Free k (Z.to_nat j) l) (h + j) s')); [lia| |].
    + change (Z.to_nat 0) with 0%nat. rewrite Nat.add_0_r, mark_0, Z.add_0_r.
      split; [done|]. exists (d_entries s). by split; [destruct s|].
    + intros j p s1 Hj (Hp & m & E & H1). rewrite Hp by lia. clear Hp.
      assert (exists i, j = Z.of_nat i) as [i ->] by (exists (Z.to_nat j); lia).
      rewrite Nat2Z.id in *. destruct (lookup_lt_is_Some_2 l (k + i)%nat) as [e He]; [lia|].
      eapply wp_mono.
      { eapply wp_release_entry; [done| |].
        - rewrite mark_lookup, He. cbn. by rewrite decide_False by lia.
        - change (2 ^ 63) with (2 * 2 ^ 62). lia. }
      intros q s2 (-> & m2 & -> & H2). replace (Z.to_nat (Z.of_nat i + 1)) with (S i) by lia.
      rewrite (mark_S _ _ _ _ _ He) in H2. split.
      * intros Hlt. rewrite next_of_entry, mark_length, decide_False by lia.
        by replace (k + S i)%nat with (S (k + i)) by lia.
      * exists m2. rewrite E in H2 |- *. split; [done|].
        by replace (h + (Z.of_nat i + 1)) with (h + Z.of_nat i + 1) by lia.
  - intros p s' (_ & m & -> & H'). rewrite Z.add_0_l, Nat2Z.id in H'. by exists m.
Qed.

Lemma mark_free_run l k n new : run l k n -> (k + n <= length l)%nat ->
  new = [] \/ (k + n)%nat = length l ->
  mark Free k (n + length new) (mark Used k n l ++ new) = l ++ freed new.
Proof.
  intros Hr Hkn Hnew. apply list_eq. intros i. rewrite mark_lookup.
  destruct (decide (i < length l)%nat) as [Hi|Hi].
  - rewrite !lookup_app_l by (rewrite ?mark_length; lia). rewrite mark_lookup.
    destruct (lookup_lt_is_Some_2 l i Hi) as [e He]. rewrite He. cbn.
    destruct (decide (k <= i < k + n)%nat) as [Hin|Hin].
    + destruct (Hr i Hin) as (e' & He' & Hf). rewrite He in He'. injection He' as <-.
      rewrite decide_True by lia. cbn. f_equal. destruct e. cbn in *. by rewrite Hf.
    + rewrite decide_False; [done|]. destruct Hnew as [-> |E]; cbn; lia.
  - rewrite !lookup_app_r by (rewrite ?mark_length; lia). unfold freed. rewrite mark_length, list_lookup_fmap.
    destruct (new !! (i - length l)%nat) as [e|] eqn:E; cbn; [|done].
    pose proof (lookup_lt_Some _ _ _ E). rewrite decide_True; [done|].
    destruct Hnew as [-> |E']; cbn in *; lia.
Qed.

(** ** The descriptor of a region *)

Lemma wp_find_descriptorBase (mem : Z -> option Z) Base off n s :
  d_data s = mem -> 0 <= Base -> 0 <= off -> off + 8 <= n -> Base + n < 2 ^ 64 ->
  readable mem Base n ->
  has_sig mem (Base + off) dma_sign = true ->
  (forall i, 0 <= i < off -> has_sig mem (Base + i) dma_sign = false) ->
  wp (find_descriptorBase Base) (fun r s' => r = Base + off /\ s' = s) s.
Proof.
  intros Hd HB Ho Hon Hend Hrd Hsig Hno. unfold find_descriptorBase.
  eapply (wp_while_ix _ (fun i p s' => p = Base + i /\ s' = s /\ 0 <= i <= off) (fun i => off - i)).
  - intros i p s' (-> & -> & Hi). wp_steps. rewrite Hd. eapply wp_matches; [done|lia|cbn; lia|].
    destruct (decide (i = off)) as [->|E].
    + rewrite Hsig. by wp_steps.
    + rewrite Hno by lia. wp_steps. exists (i + 1). rewrite u64_id by lia. split; [|lia].
      split; [lia|]. split; [done|lia].
  - instantiate (1 := 0). split; [lia|]. split; [done|lia].
  - unfold FUEL. lia.
Qed.
End Proofs.

(** ** A concrete pool: a used region of one page and a free one of two *)

Definition sample_regions : list region := [(Used, 1); (Free, 2)].
Definition sample_entries : gmap Z dma_entry :=
  <[DMA_POOL := mkEntry Header 201 0]>
    (<[slot 0 := mkEntry Used 1 (slot 1)]>
      (<[slot 1 := mkEntry Free 2 0]> (pool_page (fun _ => mkEntry 7 7 7) DMA_POOL))).
Definition sample_dma : dma_state :=
  mkDmaState (set_KernelPML4 0x5000 sample_pg) sample_entries (fun _ => None)
    2 DMA_POOL (slot 0) (slot 1) 203 0 (DMA_POOL + 0x1000) false.

Lemma sample_pool : pool sample_regions 201 sample_dma.
Proof.
  constructor; [reflexivity..| | | | | |].
  - cbn. lia.
  - unfold sample_regions, Used, Free. repeat constructor; cbn; auto; lia.
  - vm_compute. discriminate.
  - intros [|[|i]] e He; [injection He as <-; vm_compute; reflexivity..|discriminate He].
  - vm_compute. reflexivity.
  - assert (forallb (fun i => bool_decide (is_Some (d_entries sample_dma !! slot i))) (seq 0 203) = true) as E
      by (vm_compute; done).
    rewrite forallb_forall in E. intros i Hi.
    specialize (E i ltac:(apply in_seq; lia)). by apply bool_decide_eq_true in E.
Qed.

(** ** Properties *)

(** C37: [claim], the part of [allocate_dma] under the lock, on a pool of one page: it always
    returns; the region it answers begins where a run of free regions begins, the run and, only
    when no run of the pool is long enough, one new region behind it hold the pages, without the
    last region of the run they would not; exactly these regions become used, every other region
    keeps its place, its size and its status, and nothing else of the machine changes. *)
Theorem claim_correct (stale_entry : Z -> dma_entry) (pages h : Z) (l : list region) (s : dma_state)
    (H : pool l h s) (Hlock : dma_lock s = false) (Hh : 0 < h < 2 ^ 31)
    (Hlen : (length l < 203)%nat) (Hp : 0 < pages) (Hfit : total l + pages <= 2 ^ 18) :
  exists k n new s', claim stale_entry pages s =
      Done (Some (region_base l k, Z.of_nat (n + length new), slot k)) s' /\
    claimed l pages k n new /\
    pool (mark Used k n l ++ new) (h - Z.of_nat (length new)) s' /\
    dma_lock s' = false /\ d_pg s' = d_pg s /\ d_data s' = d_data s.
Proof.
  destruct (wp_inv _ _ _ (wp_claim stale_entry pages l h s H Hlock Hh Hlen Hp Hfit))
    as (r & s' & E & k & n & new & Hc & -> & Hpool & Hl & Hg & Hd & _).
  exists k, n, new, s'. done.
Qed.

(** claiming a region and giving its entries back, as [free_dma] does, restores the list: every
    region has its old status and size, a new region stays as a free one. But the count of
    entries left in the page does not come back to [h]: it is [h] plus the number of regions that
    were used again, because reusing a region takes nothing off the count and freeing it adds one. *)
Lemma claim_release_correct (stale_entry : Z -> dma_entry) (pages h : Z) (l : list region) (s : dma_state)
    (H : pool l h s) (Hlock : dma_lock s = false) (Hh : 0 < h < 2 ^ 31)
    (Hlen : (length l < 203)%nat) (Hp : 0 < pages) (Hfit : total l + pages <= 2 ^ 18) :
  exists base used home s1 s2 p k n new,
    claim stale_entry pages s = Done (Some (base, used, home)) s1 /\
    release used home s1 = Done p s2 /\
    claimed l pages k n new /\
    pool (l ++ freed new) (h + Z.of_nat n) s2.
Proof.
  destruct (wp_inv _ _ _ (wp_claim stale_entry pages l h s H Hlock Hh Hlen Hp Hfit))
    as (r & s1 & E & k & n & new & Hc & -> & Hpool & _).
  assert (Z.of_nat (length new) <= 1) as Hnl.
  { destruct (claimed_new _ _ _ _ _ Hc) as [-> |(_ & -> & _)]; cbn; lia. }
  pose proof (claimed_in _ _ _ _ _ Hc) as Hin.
  assert (new = [] \/ (k + n)%nat = length l) as Hnew by (destruct (claimed_new _ _ _ _ _ Hc) as [?|(? & _)]; auto).
  destruct (wp_inv _ _ _ (wp_release _ _ s1 k (n + length new) Hpool
    ltac:(rewrite length_app, mark_length; destruct Hnew as [-> |?]; cbn; lia)
    ltac:(change (2 ^ 62) with (2 ^ 31 * 2 ^ 31); nia))) as (p & s2 & E2 & m & Es & Hp2).
  rewrite mark_free_run in Hp2 by (try done; apply Hc).
  eexists _, _, _, s1, s2, p, k, n, new. split; [exact E|]. split; [exact E2|]. split; [done|].
  by replace (h + Z.of_nat n) with (h - Z.of_nat (length new) + Z.of_nat (n + length new)) by lia.
Qed.

Lemma claim_correct_witness :
  exists k n new s', claim (fun _ => mkEntry 7 7 7) 1 sample_dma =
      Done (Some (region_base sample_regions k, Z.of_nat (n + length new), slot k)) s' /\
    claimed sample_regions 1 k n new /\
    pool (mark Used k n sample_regions ++ new) (201 - Z.of_nat (length new)) s' /\
    dma_lock s' = false /\ d_pg s' = d_pg sample_dma /\ d_data s' = d_data sample_dma.
Proof.
  apply (claim_correct (fun _ => mkEntry 7 7 7) 1 201 sample_regions sample_dma sample_pool);
    try reflexivity; vm_compute; intuition (discriminate || lia).
Defined.

Lemma claim_release_correct_witness :
  exists base used home s1 s2 p k n new,
    claim (fun _ => mkEntry 7 7 7) 5 sample_dma = Done (Some (base, used, home)) s1 /\
    release used home s1 = Done p s2 /\
    claimed sample_regions 5 k n new /\
    pool (sample_regions ++ freed new) (201 + Z.of_nat n) s2.
Proof.
  apply (claim_release_correct (fun _ => mkEntry 7 7 7) 5 201 sample_regions sample_dma sample_pool);
    try reflexivity; vm_compute; intuition (discriminate || lia).
Defined.
