(* ===== verification/DmaRoundtrip.v ===== *)
(** * DMA regions: a region of one page from [allocate_dma] to [free_dma]

    The claim of the list of regions (DmaProofs) composed with the frame allocator, the page
    tables and the descriptor in the last bytes of the region, whose size [free_dma] reads again after the
    page is unmapped. *)
From S2P Require Import KPrelude MemHelpers Spinlock FrameAlloc Paging PagingProofs VAlloc Bytes Dma DmaProofs.

(** ** Frames under page tables *)



(** ** Bytes *)







(** ** The pool does not depend on the pages and the bytes of the regions *)


(** ** Mapping the region *)


Section Region.
Context (stale_entry : Z -> dma_entry) (stale_byte : Z -> Z).




End Region.

(** ** Reading the descriptor back *)




(** ** [free_dma] *)







(** ** [allocate_dma] *)





Section Allocate.
Context (stale_entry : Z -> dma_entry) (stale_byte : Z -> Z).

End Allocate.


(** ** The property *)


