(* ===== verification/Vga.v ===== *)
(** * The text console ([drivers/display/vga.c])

    Pixels are drawn into a back buffer, one word each; [diff] marks the character cells that
    changed, and [present] copies these to the frame buffer. The buffers are lists indexed by
    pixel. Every character also goes out on a debug port, so the history of port accesses holds
    the text that was printed. A literal or a string argument is the list of its characters
    ([char] is signed) without the terminator; signed overflow, which C leaves undefined, does
    not wrap here. *)
From S2P Require Import KPrelude MemHelpers PortIO.

Definition QEMU_DEBUGCON_PORT := 0xE9.
Definition RGB := 0.
Definition BGR := 1.
Definition Black := 0.
Definition LightGray := 7.
Definition MaskBlue := 0xff.
Definition MaskGreen := 0xff00.
Definition MaskRed := 0xff0000.

Definition i8 (z : Z) : Z := (z + 2 ^ 7) mod 2 ^ 8 - 2 ^ 7.
Definition i64 (z : Z) : Z := (z + 2 ^ 63) mod 2 ^ 64 - 2 ^ 63.

Definition vga16_color : list Z :=
  [0x000000; 0x0000aa; 0x00aa00; 0x00aaaa;
   0xaa0000; 0xaa00aa; 0xaa5500; 0xaaaaaa;
   0x555555; 0x5555ff; 0x55ff55; 0x55ffff;
   0xff5555; 0xff55ff; 0xffff55; 0xffffff].

(** What [vga_init] sets. *)
Record vga_mode := mkMode {
  fb_phys : Z;
  fb_addr : Z;
  hor_res : Z;
  ver_res : Z;
  coulmns : Z;
  rows : Z;
  p_scanln : Z;
  p_format : Z;
  size : Z;
  diff_size : Z
}.

Record Cursor := mkCursor { coulmn : Z; row : Z }.

Record vga_state := mkVga {
  mode : vga_mode;
  back : list Z;
  front : list Z;
  diff : list bool;
  global_textcolor : Z;
  cursor : Cursor;
  vg_trace : list event
}.

Definition set_mode (m : vga_mode) (s : vga_state) :=
  mkVga m (back s) (front s) (diff s) (global_textcolor s) (cursor s) (vg_trace s).
Definition set_back (b : list Z) (s : vga_state) :=
  mkVga (mode s) b (front s) (diff s) (global_textcolor s) (cursor s) (vg_trace s).
Definition set_front (b : list Z) (s : vga_state) :=
  mkVga (mode s) (back s) b (diff s) (global_textcolor s) (cursor s) (vg_trace s).
Definition set_diff (d : list bool) (s : vga_state) :=
  mkVga (mode s) (back s) (front s) d (global_textcolor s) (cursor s) (vg_trace s).
Definition set_textcolor (c : Z) (s : vga_state) :=
  mkVga (mode s) (back s) (front s) (diff s) c (cursor s) (vg_trace s).
Definition set_cursor (c : Cursor) (s : vga_state) :=
  mkVga (mode s) (back s) (front s) (diff s) (global_textcolor s) c (vg_trace s).
Definition set_vg_trace (t : list event) (s : vga_state) :=
  mkVga (mode s) (back s) (front s) (diff s) (global_textcolor s) (cursor s) t.

#[export] Instance vga_IO : IO vga_state.
Proof.
  refine {| trace := vg_trace; set_trace := set_vg_trace |}; [done | done | by intros []].
Defined.

Abbreviation MV := (M vga_state).

(** ** Debug port *)

Definition qemu_debug_putc (ch : Z) : MV unit := outb QEMU_DEBUGCON_PORT (u8 ch).

Fixpoint qemu_debug_print (str : list Z) : MV unit :=
  match str with
  | [] => mret ()
  | c :: str' => qemu_debug_putc c;; qemu_debug_print str'
  end.

(** ["0123456789abcdef"] *)
Definition digits : list Z :=
  [48; 49; 50; 51; 52; 53; 54; 55; 56; 57; 97; 98; 99; 100; 101; 102].

Definition qemu_debug_hex_u64 (value : Z) : MV unit :=
  qemu_debug_print [48; 120];;
  while FUEL (fun shift =>
    if shift >=? 0 then
      d ← of_option (array_get digits ((value >>> shift) &&& 0x0f));
      qemu_debug_putc d;;
      mret (inl (shift - 4))
    else mret (inr ())) 60.

(** ** Pixels *)

Definition update_diff (x y : Z) : MV unit :=
  m ← gets mode;
  if (x <? 0) || (x >=? hor_res m) || (y <? 0) || (y >=? ver_res m) then mret ()
  else
    let place := (y >>> 4) * coulmns m + (x >>> 3) in
    d ← gets diff;
    d ← of_option (array_set d place true);
    modify (set_diff d).

Definition copy_pixel (place : Z) : MV unit :=
  b ← gets back;
  v ← of_option (array_get b place);
  f ← gets front;
  f ← of_option (array_set f place v);
  modify (set_front f).

(** The pixels of one cell: its left upper corner is at [x], [y]. *)
Definition present_cell (x y : Z) : MV unit :=
  m ← gets mode;
  while FUEL (fun i =>
    if (i <? y + 16) && (i <? ver_res m) then
      while FUEL (fun j =>
        if (j <? x + 8) && (j <? hor_res m) then
          copy_pixel (i * p_scanln m + j);; mret (inl (j + 1))
        else mret (inr ())) x;;
      mret (inl (i + 1))
    else mret (inr ())) y.

Definition present : MV unit :=
  m ← gets mode;
  for_ 0 (diff_size m) (fun i _ =>
    d ← gets diff;
    b ← of_option (array_get d i);
    if (b : bool) then
      d ← of_option (array_set d i false);
      modify (set_diff d);;
      present_cell ((i mod coulmns m) <<< 3) ((i / coulmns m) <<< 4)
    else mret ()) ().

(** The word of a color in the frame buffer's format; [None]: an unknown format. *)
Definition color_word (format color : Z) : option Z :=
  if format =? BGR then
    Some (u32 (u32 (u32 ((color &&& MaskBlue) <<< 16) + (color &&& MaskGreen))
               + ((color &&& MaskRed) >>> 16)))
  else if format =? RGB then Some color
  else None.

Definition draw_pixel (x y color : Z) : MV unit :=
  m ← gets mode;
  if (x <? 0) || (x >=? hor_res m) || (y <? 0) || (y >=? ver_res m) then mret ()
  else
    let addr := y * p_scanln m + x in
    update_diff x y;;
    if addr <? size m then
      match color_word (p_format m) color with
      | Some w =>
          b ← gets back;
          b ← of_option (array_set b addr w);
          modify (set_back b)
      | None => mret ()
      end
    else mret ().

(** The same with a color of the palette. *)
Definition draw_16color (x y color_index : Z) : MV unit :=
  m ← gets mode;
  if (x <? 0) || (x >=? hor_res m) || (y <? 0) || (y >=? ver_res m) then mret ()
  else
    let addr := y * p_scanln m + x in
    color ← of_option (array_get vga16_color color_index);
    update_diff x y;;
    if addr <? size m then
      match color_word (p_format m) color with
      | Some w =>
          b ← gets back;
          b ← of_option (array_set b addr w);
          modify (set_back b)
      | None => mret ()
      end
    else mret ().

Definition Set_GlobalTextColor (color_index : Z) : MV unit := modify (set_textcolor color_index).

(** ** Characters *)

Section Font.
(** The table of [font.c]: 16 bytes for each character. *)
Context (font_data : list Z).

Definition draw_char (ch column_ row_ : Z) : MV unit :=
  qemu_debug_putc ch;;
  let x := column_ <<< 3 in
  let y := row_ <<< 4 in
  let font_index := ch <<< 4 in
  for_ 0 16 (fun i _ =>
    byte ← of_option (array_get font_data (font_index + i));
    for_ 0 8 (fun j _ =>
      let chk := check_byte byte j 1 in
      text ← gets global_textcolor;
      draw_16color (x + j) (y + i) (if chk =? 1 then text else Black)) ()) ().

Definition draw_cursor (color_index : Z) : MV unit :=
  c ← gets cursor;
  let x := coulmn c <<< 3 in
  let y := row c <<< 4 in
  for_ 14 2 (fun i _ => for_ 0 8 (fun j _ => draw_16color (x + j) (y + i) color_index) ()) ().

(** One pixel of the move by a character row. *)
Definition scroll_pixel (x y : Z) : MV unit :=
  m ← gets mode;
  b ← gets back;
  v ← of_option (array_get b ((y + 16) * p_scanln m + x));
  b ← of_option (array_set b (y * p_scanln m + x) v);
  modify (set_back b);;
  update_diff x y.

Definition scroll : MV unit :=
  m ← gets mode;
  for_ 0 (ver_res m - 16) (fun y _ => for_ 0 (p_scanln m) (fun x _ => scroll_pixel x y) ()) ();;
  black ← of_option (array_get vga16_color Black);
  for_ (ver_res m - 16) 16 (fun y _ =>
    for_ 0 (p_scanln m) (fun x _ => draw_pixel x y black;; update_diff x y) ()) ();;
  present.

(** Scroll when the cursor is below the last row. *)
Definition keep_in_view : MV unit :=
  m ← gets mode;
  c ← gets cursor;
  if row c >=? ver_res m >>> 4 then
    scroll;;
    modify (fun s => set_cursor (mkCursor (coulmn (cursor s)) ((ver_res m >>> 4) - 1)) s)
  else mret ().

Definition cursor_inc : MV unit :=
  m ← gets mode;
  modify (fun s => set_cursor (mkCursor (coulmn (cursor s) + 1) (row (cursor s))) s);;
  c ← gets cursor;
  (if coulmn c >=? p_scanln m >>> 3 then modify (set_cursor (mkCursor 0 (row c + 1)))
   else mret ());;
  keep_in_view.

(** [draw_char(ch, cursor.coulmn, cursor.row); cursor_inc();] *)
Definition put_char (ch : Z) : MV unit :=
  c ← gets cursor; draw_char ch (coulmn c) (row c);; cursor_inc.

Fixpoint put_chars (str : list Z) : MV unit :=
  match str with
  | [] => mret ()
  | c :: str' => put_char c;; put_chars str'
  end.

(** ** Numbers *)

(** The digits of [x] into a buffer of [n] characters, the lowest first, and how many. *)
Definition to_digits (n : nat) (x : Z) : MV (list Z * Z) :=
  while FUEL (fun '(buffer, i, x) =>
    buffer ← of_option (array_set buffer i (48 + x mod 10));
    let x := x / 10 in
    mret (if x =? 0 then inr (buffer, i + 1) else inl (buffer, i + 1, x))) (replicate n 0, 0, x).

(** [while (i > 0) ...]: the buffer backwards. *)
Definition put_digits (buffer : list Z) (i : Z) : MV unit :=
  while FUEL (fun i =>
    if i >? 0 then
      ch ← of_option (array_get buffer (i - 1)); put_char ch;; mret (inl (i - 1))
    else mret (inr ())) i.

Definition print_unsigned (x : Z) : MV unit :=
  '(buffer, i) ← to_digits 10 x; put_digits buffer i.
Definition print_unsigned_long (x : Z) : MV unit :=
  '(buffer, i) ← to_digits 20 x; put_digits buffer i.

Definition print_int (x : Z) : MV unit :=
  if x <? 0 then put_char 45;; print_unsigned (u32 (u32 (- (x + 1)) + 1))
  else print_unsigned (u32 x).
Definition print_long (x : Z) : MV unit :=
  if x <? 0 then put_char 45;; print_unsigned_long (u64 (u64 (- (x + 1)) + 1))
  else print_unsigned_long (u64 x).

(** ["0123456789ABCDEF"] *)
Definition hex : list Z :=
  [48; 49; 50; 51; 52; 53; 54; 55; 56; 57; 65; 66; 67; 68; 69; 70].

Definition print_byte_hex (b : Z) : MV unit :=
  high ← of_option (array_get hex ((b >>> 4) &&& 0xF));
  low ← of_option (array_get hex (b &&& 0xF));
  put_char high;;
  put_char low.
Definition print_word_hex (w : Z) : MV unit :=
  print_byte_hex (u8 (w >>> 8));; print_byte_hex (u8 (w &&& 0xFF)).
Definition print_dword_hex (d : Z) : MV unit :=
  print_word_hex (u16 (d >>> 16));; print_word_hex (u16 (d &&& 0xFFFF)).
Definition print_qword_hex (q : Z) : MV unit :=
  print_dword_hex (u32 (q >>> 32));; print_dword_hex (u32 (q &&& 0xFFFFFFFF)).

(** ** [printf] *)

(** An argument: a 64-bit slot, or a string ([None]: a null pointer). *)
Inductive arg := Int (z : Z) | Str (s : option (list Z)).

Definition va_int (args : list arg) : MV (Z * list arg) :=
  match args with Int z :: rest => mret (z, rest) | _ => fault end.
Definition va_str (args : list arg) : MV (option (list Z) * list arg) :=
  match args with Str s :: rest => mret (s, rest) | _ => fault end.

(** [p_str[i]]: the terminator stands behind the last character. *)
Definition char_at (str : list Z) (i : Z) : MV Z :=
  if i =? Z.of_nat (length str) then mret 0 else of_option (array_get str i).

(** ["(null)"] *)
Definition null_text : list Z := [40; 110; 117; 108; 108; 41].

(** Behind a ['%'] at [i - 1]: the place of the last character it uses, and the other arguments. *)
Definition conversion (str : list Z) (i : Z) (args : list arg) : MV (Z * list arg) :=
  c ← char_at str i;
  if c =? 100 (* d *) then
    '(z, args) ← va_int args; print_int (i32 z);; mret (i, args)
  else if c =? 117 (* u *) then
    c1 ← char_at str (i + 1);
    '(z, args) ← va_int args;
    if c1 =? 120 (* x *) then print_dword_hex (u32 z);; mret (i + 1, args)
    else print_unsigned (u32 z);; mret (i, args)
  else if c =? 108 (* l *) then
    let i := i + 1 in
    c ← char_at str i;
    if c =? 100 then '(z, args) ← va_int args; print_long (i64 z);; mret (i, args)
    else if c =? 117 then '(z, args) ← va_int args; print_unsigned_long (u64 z);; mret (i, args)
    else if c =? 120 then '(z, args) ← va_int args; print_qword_hex (u64 z);; mret (i, args)
    else put_char 37;; put_char 108;; mret (i - 1, args)
  else if c =? 98 (* b *) then
    '(z, args) ← va_int args; print_byte_hex (u8 z);; mret (i, args)
  else if c =? 115 (* s *) then
    '(value, args) ← va_str args; put_chars (default null_text value);; mret (i, args)
  else if c =? 99 (* c *) then
    '(z, args) ← va_int args; put_char (i8 z);; mret (i, args)
  else if c =? 119 (* w *) then
    '(z, args) ← va_int args; print_word_hex (u16 z);; mret (i, args)
  else
    let i := i - 1 in
    c ← char_at str i; put_char c;; mret (i, args).

Definition newline : MV unit :=
  qemu_debug_putc 10;;
  modify (fun s => set_cursor (mkCursor 0 (row (cursor s) + 1)) s);;
  keep_in_view.

(** The answer is the place of the cursor before. *)
Definition printf (str : list Z) (args : list arg) : MV Cursor :=
  td ← gets cursor;
  while FUEL (fun '(i, args) =>
    c ← char_at str i;
    if c =? 0 then mret (inr ())
    else
      '(i, args) ←
        (if c =? 10 then newline;; mret (i, args)
         else if c =? 37 then conversion str (i + 1) args
         else put_char c;; mret (i, args));
      mret (inl (i + 1, args))) (0, args);;
  present;;
  mret td.

Definition move_cursor (amt : Z) : MV unit :=
  m ← gets mode;
  c ← gets cursor;
  let cols := p_scanln m >>> 3 in
  let pos := row c * cols + coulmn c + amt in
  let pos := if pos <? 0 then 0 else pos in
  if cols =? 0 then fault (* division by zero *)
  else modify (set_cursor (mkCursor (Z.rem pos cols) (Z.quot pos cols))).

Definition cursor_Setpos (coulmn_ row_ : Z) : MV unit :=
  m ← gets mode;
  let cols := p_scanln m >>> 3 in
  let pos := row_ * cols + coulmn_ in
  let pos := if pos <? 0 then 0 else pos in
  if cols =? 0 then fault (* division by zero *)
  else modify (set_cursor (mkCursor (Z.rem pos cols) (Z.quot pos cols))).
End Font.

(** ** [vga_init] *)

(** What the console needs of the heap. *)
Class Heap (H : Type) := { heap_kmalloc : Z -> M H Z }.

Section Init.
(** What a new buffer reads as. *)
Context {H : Type} `{!Heap H} (stale : Z -> Z).

Definition on_heap {A} (m : M H A) : M (H * vga_state) A := zoom fst (fun h s => (h, s.2)) m.
Definition on_vga {A} (m : MV A) : M (H * vga_state) A := zoom snd (fun v s => (s.1, v)) m.

(** ["[VGA] buffer allocation failed\n"] *)
Definition failed_text : list Z :=
  [91; 86; 71; 65; 93; 32; 98; 117; 102; 102; 101; 114; 32; 97; 108; 108; 111; 99; 97; 116; 105;
   111; 110; 32; 102; 97; 105; 108; 101; 100; 10].

Definition vga_init (fb_base hres vres p_scan p_mode : Z) : M (H * vga_state) unit :=
  let size := p_scan * vres in
  fb_addr ← on_heap (heap_kmalloc (u64 (size <<< 2)));
  let coulmns := (hres + 7) >>> 3 in
  let rows := (vres + 15) >>> 4 in
  d ← on_heap (heap_kmalloc (u64 (coulmns * rows)));
  if (fb_addr =? 0) || (d =? 0) then on_vga (qemu_debug_print failed_text);; hang
  else
    on_vga (modify (set_back (stale <$> seqZ 0 size)));;
    on_vga (modify (set_diff ((fun i => negb (stale i =? 0)) <$> seqZ 0 (coulmns * rows))));;
    on_vga (for_ 0 size (fun i _ =>
      b ← gets back; b ← of_option (array_set b i 0); modify (set_back b)) ());;
    on_vga (for_ 0 (coulmns * rows) (fun i _ =>
      d ← gets diff; d ← of_option (array_set d i false); modify (set_diff d)) ());;
    on_vga (modify (set_mode (mkMode fb_base fb_addr hres vres coulmns rows p_scan p_mode size
      (coulmns * rows)))).
End Init.
