(* ===== verification/VgaProofs.v ===== *)
(** * The text console: proofs *)
From S2P Require Import KPrelude MemHelpers PortIO Vga.

(** ** A screen *)

Definition visible (m : vga_mode) (x y : Z) : Prop := 0 <= x < hor_res m /\ 0 <= y < ver_res m.
#[export] Instance visible_dec m x y : Decision (visible m x y).
Proof. unfold visible. apply _. Defined.

(** Where a pixel and its cell are in the buffers. *)
Definition place (m : vga_mode) (x y : Z) : nat := Z.to_nat (y * p_scanln m + x).
Definition cell (m : vga_mode) (x y : Z) : nat := Z.to_nat ((y >>> 4) * coulmns m + (x >>> 3)).

Record mode_ok (m : vga_mode) : Prop := {
  mo_hor : 0 <= hor_res m <= p_scanln m;
  mo_scan : 8 <= p_scanln m;
  mo_ver : 16 <= ver_res m;
  mo_size : size m = p_scanln m * ver_res m;
  mo_coulmns : coulmns m = (hor_res m + 7) >>> 3;
  mo_rows : rows m = (ver_res m + 15) >>> 4;
  mo_diff : diff_size m = coulmns m * rows m;
  mo_format : p_format m = RGB \/ p_format m = BGR
}.

(** The buffers fit the mode, and every visible pixel outside the marked cells is shown. *)
Record screen (s : vga_state) : Prop := {
  sc_mode : mode_ok (mode s);
  sc_back : Z.of_nat (length (back s)) = size (mode s);
  sc_front : Z.of_nat (length (front s)) = size (mode s);
  sc_diff : Z.of_nat (length (diff s)) = diff_size (mode s);
  sc_text : 0 <= global_textcolor s < 16;
  sc_shown : forall x y, visible (mode s) x y -> diff s !! cell (mode s) x y = Some false ->
    front s !! place (mode s) x y = back s !! place (mode s) x y
}.

Lemma mul_add_inj a b a' b' p : 0 <= b < p -> 0 <= b' < p -> a * p + b = a' * p + b' -> a = a' /\ b = b'.
Proof.
  intros Hb Hb' E. assert (a = (a * p + b) / p) as E1 by (apply (Z.div_unique _ _ _ b); lia).
  assert (a' = (a' * p + b') / p) as E2 by (apply (Z.div_unique _ _ _ b'); lia).
  rewrite E in E1. assert (a = a') by congruence. subst a'. lia.
Qed.

Section Geometry.
Context (m : vga_mode) (Hm : mode_ok m).

Lemma coulmns_pos x y : visible m x y -> 0 < coulmns m.
Proof.
  intros [Hx _]. rewrite (mo_coulmns _ Hm), shiftr_div by lia. change (2 ^ 3) with 8. divlia.
Qed.

Lemma place_range x y : visible m x y -> 0 <= y * p_scanln m + x < size m.
Proof. intros [Hx Hy]. destruct Hm. rewrite mo_size0. nia. Qed.

Lemma cell_range x y : visible m x y -> 0 <= (y >>> 4) * coulmns m + (x >>> 3) < diff_size m.
Proof.
  intros H. pose proof (coulmns_pos x y H). destruct H as [Hx Hy]. destruct Hm.
  rewrite mo_diff0. rewrite !shiftr_div in * by lia. change (2 ^ 3) with 8 in *. change (2 ^ 4) with 16 in *.
  assert (0 <= x / 8 < coulmns m) by (rewrite mo_coulmns0; divlia).
  assert (0 <= y / 16 < rows m) by (rewrite mo_rows0; divlia). nia.
Qed.

Lemma place_inj x y x' y' : visible m x y -> visible m x' y' ->
  place m x y = place m x' y' -> x = x' /\ y = y'.
Proof.
  intros H H' E. pose proof (place_range x y H). pose proof (place_range x' y' H').
  assert (y * p_scanln m + x = y' * p_scanln m + x') as E' by (unfold place in E; lia).
  destruct H as [Hx Hy], H' as [Hx' Hy'], Hm.
  apply mul_add_inj in E' as [-> ->]; lia.
Qed.

Lemma cell_inj x y x' y' : visible m x y -> visible m x' y' ->
  cell m x y = cell m x' y' <-> x / 8 = x' / 8 /\ y / 16 = y' / 16.
Proof.
  intros H H'. pose proof (cell_range x y H). pose proof (cell_range x' y' H').
  unfold cell. rewrite !shiftr_div in * by lia. change (2 ^ 3) with 8 in *. change (2 ^ 4) with 16 in *.
  split; [|by intros [-> ->]].
  intros E. assert (y / 16 * coulmns m + x / 8 = y' / 16 * coulmns m + x' / 8) as E' by lia.
  destruct H as [Hx Hy], H' as [Hx' Hy'], Hm. rewrite shiftr_div in mo_coulmns0 by lia. change (2 ^ 3) with 8 in *.
  assert (0 <= x / 8 < coulmns m) by (rewrite mo_coulmns0; divlia).
  assert (0 <= x' / 8 < coulmns m) by (rewrite mo_coulmns0; divlia).
  apply mul_add_inj in E' as [-> ->]; lia.
Qed.
End Geometry.

(** ** Drawing a pixel *)

(** [w] at a pixel: its cell is marked; off the screen nothing happens. *)
Definition plot (x y w : Z) (s : vga_state) : vga_state :=
  if decide (visible (mode s) x y)
  then set_back (<[place (mode s) x y := w]> (back s)) (set_diff (<[cell (mode s) x y := true]> (diff s)) s)
  else s.

Lemma invisible m x y :
  (x <? 0) || (x >=? hor_res m) || (y <? 0) || (y >=? ver_res m) = negb (bool_decide (visible m x y)).
Proof.
  unfold visible. rewrite !Z.geb_leb. case_bool_decide;
    destruct (Z.ltb_spec x 0), (Z.leb_spec (hor_res m) x), (Z.ltb_spec y 0), (Z.leb_spec (ver_res m) y);
    cbn; try done; lia.
Qed.

Definition marked_at (x y : Z) (s : vga_state) : vga_state :=
  if decide (visible (mode s) x y) then set_diff (<[cell (mode s) x y := true]> (diff s)) s else s.

Lemma wp_update_diff x y s (Q : unit -> vga_state -> Prop) :
  mode_ok (mode s) -> Z.of_nat (length (diff s)) = diff_size (mode s) ->
  Q () (marked_at x y s) -> wp (update_diff x y) Q s.
Proof.
  intros Hm Hd HQ. unfold update_diff, marked_at in *. wp_steps. rewrite invisible.
  case_decide as Hv; [rewrite bool_decide_true by done|rewrite bool_decide_false by done]; cbn [negb]; wp_steps.
  - pose proof (cell_range _ Hm x y Hv).
    apply wp_of_option. rewrite array_set_Some by lia. eexists. split; [done|]. by wp_steps.
  - done.
Qed.

Definition word_of (m : vga_mode) (color : Z) : Z := default 0 (color_word (p_format m) color).

Lemma color_word_of m color : mode_ok m -> color_word (p_format m) color = Some (word_of m color).
Proof. intros H. unfold word_of, color_word. by destruct (mo_format _ H) as [-> | ->]. Qed.

Lemma wp_draw_pixel x y color s (Q : unit -> vga_state -> Prop) :
  screen s -> Q () (plot x y (word_of (mode s) color) s) -> wp (draw_pixel x y color) Q s.
Proof.
  intros H HQ. unfold draw_pixel, plot in *. wp_steps. rewrite invisible.
  case_decide as Hv; [rewrite bool_decide_true by done|rewrite bool_decide_false by done]; cbn [negb]; [|by wp_steps].
  wp_step. apply wp_update_diff; [apply H|apply H|]. unfold marked_at. rewrite decide_True by done.
  pose proof (place_range _ (sc_mode _ H) x y Hv) as Hp. rewrite (proj2 (Z.ltb_lt _ _)) by lia.
  rewrite color_word_of by apply H. wp_steps. pose proof (sc_back _ H).
  apply wp_of_option. rewrite array_set_Some by (cbn; lia). eexists. split; [done|]. by wp_steps.
Qed.

Definition palette (i : Z) : Z := default 0 (array_get vga16_color i).

Lemma palette_get i : 0 <= i < 16 -> array_get vga16_color i = Some (palette i).
Proof.
  intros Hi. destruct (array_get_Some vga16_color i) as (v & E & _); [done|]. unfold palette. by rewrite E.
Qed.

Lemma wp_draw_16color x y i s (Q : unit -> vga_state -> Prop) :
  screen s -> 0 <= i < 16 -> Q () (plot x y (word_of (mode s) (palette i)) s) ->
  wp (draw_16color x y i) Q s.
Proof.
  intros H Hi HQ. pose proof (wp_draw_pixel x y (palette i) s Q H HQ) as W.
  unfold draw_16color. unfold draw_pixel in W. wp_steps. apply wp_bind, wp_gets in W.
  rewrite invisible in *. case_bool_decide; cbn [negb] in *; [|done].
  wp_step. apply wp_of_option. exists (palette i). split; [by apply palette_get|]. exact W.
Qed.

(** What drawing leaves alone. *)
Record same_text (s s' : vga_state) : Prop := {
  st_mode : mode s' = mode s;
  st_front : front s' = front s;
  st_color : global_textcolor s' = global_textcolor s;
  st_cursor : cursor s' = cursor s;
  st_trace : vg_trace s' = vg_trace s
}.

Lemma same_text_refl s : same_text s s.
Proof. done. Qed.
Lemma same_text_trans s1 s2 s3 : same_text s1 s2 -> same_text s2 s3 -> same_text s1 s3.
Proof. intros [] []. constructor; congruence. Qed.

Lemma plot_same x y w s : same_text s (plot x y w s).
Proof. unfold plot. by case_decide. Qed.

Lemma screen_plot x y w s : screen s -> screen (plot x y w s).
Proof.
  intros H. unfold plot. case_decide as Hv; [|done].
  destruct H as [Hm Hb Hf Hd Ht Hs]. constructor; cbn; rewrite ?length_insert; try done.
  intros x' y' Hv' Hc. destruct (decide (cell (mode s) x y = cell (mode s) x' y')) as [E|E].
  - rewrite E in Hc. rewrite list_lookup_insert_eq in Hc; [done|].
    pose proof (cell_range _ Hm x' y' Hv'). unfold cell. lia.
  - rewrite list_lookup_insert_ne in Hc by done. rewrite list_lookup_insert_ne; [by apply Hs|].
    intros Ep. apply place_inj in Ep as [-> ->]; done.
Qed.

Lemma screen_marked x y s : screen s -> screen (marked_at x y s).
Proof.
  intros H. unfold marked_at. case_decide as Hv; [|done].
  destruct H as [Hm Hb Hf Hd Ht Hs]. constructor; cbn; rewrite ?length_insert; try done.
  intros x' y' Hv' Hc. apply Hs; [done|].
  destruct (decide (cell (mode s) x y = cell (mode s) x' y')) as [E|E].
  - rewrite E in Hc. rewrite list_lookup_insert_eq in Hc; [done|].
    pose proof (cell_range _ Hm x' y' Hv'). unfold cell. lia.
  - by rewrite list_lookup_insert_ne in Hc.
Qed.

(** ** Drawing a character *)

Definition pixel (s : vga_state) (x y : Z) : option Z := back s !! place (mode s) x y.
Definition cell_mark (s : vga_state) (x y : Z) : option bool := diff s !! cell (mode s) x y.

Lemma pixel_plot x0 y0 w s x y : screen s -> visible (mode s) x y ->
  pixel (plot x0 y0 w s) x y =
    if decide (visible (mode s) x0 y0 /\ x = x0 /\ y = y0) then Some w else pixel s x y.
Proof.
  intros H Hv. unfold pixel, plot. case_decide as H0; cbn.
  - case_decide as E.
    + destruct E as (_ & -> & ->). apply list_lookup_insert_eq.
      pose proof (place_range _ (sc_mode _ H) x0 y0 H0). pose proof (sc_back _ H). unfold place. lia.
    + rewrite list_lookup_insert_ne; [done|]. intros Ep. apply place_inj in Ep as [-> ->]; try done; [|apply H].
      by apply E.
  - by rewrite decide_False by tauto.
Qed.

Lemma cell_mark_plot x0 y0 w s x y : screen s -> visible (mode s) x y ->
  cell_mark (plot x0 y0 w s) x y =
    if decide (visible (mode s) x0 y0 /\ x / 8 = x0 / 8 /\ y / 16 = y0 / 16) then Some true
    else cell_mark s x y.
Proof.
  intros H Hv. unfold cell_mark, plot. case_decide as H0; cbn.
  - pose proof (cell_inj _ (sc_mode _ H) x0 y0 x y H0 Hv) as Ec. case_decide as E.
    + rewrite <- (proj2 Ec) by (split; symmetry; apply E). apply list_lookup_insert_eq.
      pose proof (cell_range _ (sc_mode _ H) x0 y0 H0). pose proof (sc_diff _ H). unfold cell. lia.
    + rewrite list_lookup_insert_ne; [done|]. intros Ep. apply Ec in Ep as [E1 E2]. apply E. by split_and!.
  - by rewrite decide_False by tauto.
Qed.

Section Characters.
Context (font_data : list Z) (Hfont : (2048 <= length font_data)%nat).

(** The pixel [j] of the line [i] of a character is set. *)
Definition glyph_bit (ch i j : Z) : bool :=
  Z.testbit (default 0 (font_data !! Z.to_nat (16 * ch + i))) (7 - j).
Definition glyph_word (m : vga_mode) (color ch i j : Z) : Z :=
  word_of m (palette (if glyph_bit ch i j then color else Black)).

(** The first [n] pixels of the character are drawn in the cell [col], [row]. *)
Record drawn (ch col row n : Z) (s s' : vga_state) : Prop := {
  dr_same : same_text s s';
  dr_screen : screen s';
  dr_pixel : forall x y, visible (mode s) x y ->
    pixel s' x y =
      if decide (x / 8 = col /\ y / 16 = row /\ 8 * (y mod 16) + x mod 8 < n)
      then Some (glyph_word (mode s) (global_textcolor s) ch (y mod 16) (x mod 8)) else pixel s x y;
  dr_mark : forall x y, visible (mode s) x y ->
    cell_mark s' x y = if decide (x / 8 = col /\ y / 16 = row /\ 0 < n) then Some true else cell_mark s x y
}.

Lemma drawn_step ch col row i j s s' : 0 <= col -> 0 <= row -> 0 <= i < 16 -> 0 <= j < 8 ->
  drawn ch col row (8 * i + j) s s' ->
  drawn ch col row (8 * i + j + 1) s
    (plot (8 * col + j) (16 * row + i) (glyph_word (mode s) (global_textcolor s) ch i j) s').
Proof.
  intros Hc Hr Hi Hj [S1 H1 P1 D1]. pose proof (st_mode _ _ S1) as Em. constructor.
  - eapply same_text_trans; [exact S1|apply plot_same].
  - by apply screen_plot.
  - intros x y Hv. rewrite pixel_plot by (rewrite ?Em; done). rewrite P1, Em by done.
    destruct (decide (visible (mode s) (8 * col + j) (16 * row + i) /\ x = 8 * col + j /\ y = 16 * row + i))
      as [(Hv' & -> & ->)|E].
    + replace ((8 * col + j) / 8) with col by divlia. replace ((16 * row + i) / 16) with row by divlia.
      replace ((8 * col + j) mod 8) with j by divlia. replace ((16 * row + i) mod 16) with i by divlia.
      by rewrite decide_True by lia.
    + apply decide_ext. split; [intros (? & ? & ?); split_and!; lia|].
      intros (Ex & Ey & Hlt). split_and!; [done..|].
      destruct (decide (8 * (y mod 16) + x mod 8 = 8 * i + j)) as [E1|]; [|lia].
      exfalso. apply E. assert (x = 8 * col + j /\ y = 16 * row + i) as [-> ->] by divlia. done.
  - intros x y Hv. rewrite cell_mark_plot by (rewrite ?Em; done). rewrite D1, Em by done.
    replace ((8 * col + j) / 8) with col by divlia. replace ((16 * row + i) / 16) with row by divlia.
    destruct (decide (x / 8 = col /\ y / 16 = row)) as [[E1 E2]|E].
    + rewrite (decide_True (P := x / 8 = col /\ y / 16 = row /\ 0 < 8 * i + j + 1)) by lia.
      destruct (decide (0 < 8 * i + j)) as [Hn|Hn].
      { rewrite (decide_True (P := x / 8 = col /\ y / 16 = row /\ 0 < 8 * i + j)) by lia. by destruct (decide _). }
      rewrite decide_True; [done|]. split; [|done].
      destruct Hv as [Hx Hy]. split; divlia.
    + rewrite !decide_False; [done|tauto..].
Qed.

Lemma drawn_0 ch col row s : screen s -> drawn ch col row 0 s s.
Proof.
  intros H. constructor; [done|done| |].
  - intros x y Hv. rewrite decide_False; [done|]. intros (? & ? & ?). divlia.
  - intros x y Hv. by rewrite decide_False by lia.
Qed.

Lemma font_byte ch i : 0 <= ch < 128 -> 0 <= i < 16 ->
  array_get font_data ((ch <<< 4) + i) = Some (default 0 (font_data !! Z.to_nat (16 * ch + i))).
Proof.
  intros Hc Hi. rewrite shiftl_mul by lia. change (2 ^ 4) with 16.
  destruct (array_get_Some font_data (ch * 16 + i)) as (v & E & E'); [lia|].
  rewrite E. replace (16 * ch + i) with (ch * 16 + i) by lia. by rewrite E'.
Qed.

(** The character goes to the debug port first. *)
Definition out (ch : Z) : event := Wr Port 1 QEMU_DEBUGCON_PORT (u8 ch).

Lemma screen_trace s t : screen s -> screen (set_vg_trace t s).
Proof. intros []. by constructor. Qed.

Lemma wp_draw_char ch col row s : screen s -> 0 <= ch < 128 -> 0 <= col -> 0 <= row ->
  wp (draw_char font_data ch col row) (fun _ => drawn ch col row 128 (logged (out ch) s)) s.
Proof.
  intros H Hch Hc Hr. unfold draw_char, qemu_debug_putc, outb. wp_step. apply wp_io_write.
  replace (u8 (u8 ch)) with (u8 ch) by (rewrite (u8_id (u8 ch)); done). fold (out ch).
  set (s0 := logged (out ch) s). assert (screen s0) as H0 by (by apply screen_trace).
  eapply wp_mono.
  - eapply (wp_for (fun i _ => drawn ch col row (8 * i) s0)); [lia|by apply drawn_0|].
    intros i [] s1 Hi H1. wp_step. apply wp_of_option. eexists. split; [by apply font_byte|].
    replace (8 * (i + 1)) with (8 * i + (0 + 8)) by lia.
    eapply (wp_for (fun j _ => drawn ch col row (8 * i + j) s0)); [lia|by rewrite Z.add_0_r|].
    intros j [] s2 Hj H2. wp_steps.
    pose proof (dr_same _ _ _ _ _ _ H2) as S2. pose proof (drawn_step ch col row i j s0 s2 Hc Hr ltac:(lia) ltac:(lia) H2) as H3.
    rewrite check_byte_spec by lia. change (bit_index j 1) with (7 - j).
    replace (Z.b2z (Z.testbit (default 0 (font_data !! Z.to_nat (16 * ch + i))) (7 - j)) =? 1)
      with (glyph_bit ch i j) by (unfold glyph_bit; by destruct (Z.testbit _ _)).
    apply wp_draw_16color; [apply H2| |].
    + pose proof (sc_text _ H0). rewrite (st_color _ _ S2). unfold Black. destruct (glyph_bit ch i j); lia.
    + rewrite (st_mode _ _ S2), (st_color _ _ S2). rewrite !shiftl_mul by lia.
      change (2 ^ 3) with 8. change (2 ^ 4) with 16.
      replace (col * 8 + j) with (8 * col + j) by lia. replace (row * 16 + i) with (16 * row + i) by lia.
      by replace (8 * i + (j + 1)) with (8 * i + j + 1) by lia.
  - intros [] s' H'. done.
Qed.
End Characters.

(** ** [present] *)

(** The visible pixels for which [P] holds were copied to the frame buffer. *)
Record copied (P : Z -> Z -> bool) (s s' : vga_state) : Prop := {
  cp_state : exists f, s' = set_front f s;
  cp_length : length (front s') = length (front s);
  cp_pixel : forall x y, visible (mode s) x y ->
    front s' !! place (mode s) x y = if P x y then back s !! place (mode s) x y else front s !! place (mode s) x y
}.

Lemma copied_none P s : (forall x y, visible (mode s) x y -> P x y = false) -> copied P s s.
Proof.
  intros HP. constructor; [exists (front s); by destruct s|done|]. intros x y Hv. by rewrite HP.
Qed.

Lemma copied_ext P Q s s' : (forall x y, visible (mode s) x y -> P x y = Q x y) ->
  copied P s s' -> copied Q s s'.
Proof. intros HPQ [? ? Hp]. constructor; [done|done|]. intros x y Hv. rewrite <- HPQ by done. by apply Hp. Qed.

(** The buffers fit the mode. *)
Definition buffers (s : vga_state) : Prop :=
  mode_ok (mode s) /\ Z.of_nat (length (back s)) = size (mode s) /\
  Z.of_nat (length (front s)) = size (mode s).

Lemma wp_copy_pixel P x y s s1 : buffers s -> copied P s s1 -> visible (mode s) x y ->
  wp (copy_pixel (y * p_scanln (mode s) + x))
    (fun _ => copied (fun x' y' => P x' y' || ((x' =? x) && (y' =? y))) s) s1.
Proof.
  intros (Hm & Hb & Hf) [(f & ->) Hl Hp] Hv. pose proof (place_range _ Hm x y Hv) as R. cbn in Hl.
  unfold copy_pixel. wp_steps. cbn [back set_front].
  destruct (array_get_Some (back s) (y * p_scanln (mode s) + x)) as (v & E & E'); [lia|].
  apply wp_of_option. exists v. split; [done|]. wp_steps.
  apply wp_of_option. rewrite array_set_Some by (cbn; lia). eexists. split; [done|]. wp_steps.
  constructor; cbn; [by eexists|by rewrite length_insert|].
  intros x' y' Hv'. destruct (decide (x' = x /\ y' = y)) as [[-> ->]|Hne].
  - rewrite !Z.eqb_refl, orb_true_r. unfold place. rewrite E'. apply list_lookup_insert_eq. lia.
  - rewrite list_lookup_insert_ne.
    + replace ((x' =? x) && (y' =? y)) with false by lia. rewrite orb_false_r. by apply Hp.
    + intros Ep. apply (place_inj _ Hm x y x' y' Hv Hv') in Ep as [-> ->]. by apply Hne.
Qed.

Definition in_cell (cx cy x y : Z) : bool := (x / 8 =? cx) && (y / 16 =? cy).

Lemma wp_present_row cx cy i s s1 : buffers s -> 0 <= cx -> 0 <= cy -> 16 * cy <= i < 16 * cy + 16 ->
  i < ver_res (mode s) ->
  copied (fun x y => in_cell cx cy x y && (y <? i)) s s1 ->
  wp (while FUEL (fun j =>
        if (j <? 8 * cx + 8) && (j <? hor_res (mode s)) then
          copy_pixel (i * p_scanln (mode s) + j);; mret (inl (j + 1))
        else mret (inr ())) (8 * cx))
    (fun _ => copied (fun x y => in_cell cx cy x y && (y <? i + 1)) s) s1.
Proof.
  intros H Hcx Hcy Hi Hiv H1.
  eapply (wp_while _ (fun j s' => 8 * cx <= j <= 8 * cx + 8 /\
      copied (fun x y => in_cell cx cy x y && ((y <? i) || ((y =? i) && (x <? j)))) s s')
    (fun j _ => 8 * cx + 8 - j)).
  - intros j s' (Hj & Hc). destruct ((j <? 8 * cx + 8) && (j <? hor_res (mode s))) eqn:E.
    + wp_step. eapply wp_mono; [apply wp_copy_pixel; [done|exact Hc|split; lia]|].
      intros [] s2 H2. wp_steps. split; [|lia]. split; [lia|]. eapply copied_ext; [|exact H2].
      intros x y Hv. cbn beta. unfold in_cell. apply eq_true_iff_eq.
      rewrite ?orb_true_iff, ?andb_true_iff, ?orb_true_iff, ?andb_true_iff, ?Z.eqb_eq, ?Z.ltb_lt.
      split; [intros [?|[-> ->]]; [|split_and!; divlia]; divlia|divlia].
    + wp_steps. eapply copied_ext; [|exact Hc]. intros x y [Hx Hy]. cbn beta. unfold in_cell.
      apply eq_true_iff_eq. rewrite ?andb_true_iff, ?orb_true_iff, ?andb_true_iff, ?Z.eqb_eq, ?Z.ltb_lt.
      divlia.
  - split; [lia|]. eapply copied_ext; [|exact H1]. intros x y Hv. cbn beta. unfold in_cell. 
    apply eq_true_iff_eq. rewrite ?andb_true_iff, ?orb_true_iff, ?andb_true_iff, ?Z.eqb_eq, ?Z.ltb_lt. divlia.
  - unfold FUEL. lia.
Qed.

Lemma wp_present_cell cx cy s : buffers s -> 0 <= cx -> 0 <= cy ->
  wp (present_cell (8 * cx) (16 * cy)) (fun _ => copied (in_cell cx cy) s) s.
Proof.
  intros H Hcx Hcy. unfold present_cell. wp_steps.
  eapply (wp_while _ (fun i s' => 16 * cy <= i <= 16 * cy + 16 /\
      copied (fun x y => in_cell cx cy x y && (y <? i)) s s') (fun i _ => 16 * cy + 16 - i)).
  - intros i s' (Hi & Hc). destruct ((i <? 16 * cy + 16) && (i <? ver_res (mode s))) eqn:E.
    + wp_step. eapply wp_mono; [apply wp_present_row; [done|done|done|lia|lia|exact Hc]|].
      intros [] s2 H2. wp_steps. split; [|lia]. split; [lia|done].
    + wp_steps. eapply copied_ext; [|exact Hc]. intros x y [Hx Hy]. cbn beta. unfold in_cell.
      apply eq_true_iff_eq. rewrite ?andb_true_iff, ?Z.eqb_eq, ?Z.ltb_lt. divlia.
  - split; [lia|]. apply copied_none. intros x y Hv. unfold in_cell. apply not_true_iff_false.
    rewrite !andb_true_iff, !Z.eqb_eq, Z.ltb_lt. divlia.
  - unfold FUEL. lia.
Qed.

(** Every visible pixel is shown, and no cell is marked. *)
Record presented (s s' : vga_state) : Prop := {
  pr_state : exists f d, s' = set_front f (set_diff d s);
  pr_front : length (front s') = length (front s);
  pr_diff : length (diff s') = length (diff s);
  pr_clear : forall k, (k < length (diff s))%nat -> diff s' !! k = Some false;
  pr_shown : forall x y, visible (mode s) x y -> front s' !! place (mode s) x y = back s !! place (mode s) x y
}.

Lemma cell_of m x y i : mode_ok m -> visible m x y -> 0 <= i ->
  in_cell (i mod coulmns m) (i / coulmns m) x y = true <-> cell m x y = Z.to_nat i.
Proof.
  intros Hm Hv Hi. pose proof (cell_range m Hm x y Hv) as R. pose proof (coulmns_pos m Hm x y Hv) as Hc.
  unfold in_cell, cell. rewrite !shiftr_div in * by lia. change (2 ^ 3) with 8 in *. change (2 ^ 4) with 16 in *.
  rewrite andb_true_iff, !Z.eqb_eq.
  assert (0 <= x / 8 < coulmns m) as Hx.
  { destruct Hv as [Hx Hy], Hm. rewrite shiftr_div in mo_coulmns0 by lia. change (2 ^ 3) with 8 in *.
    rewrite mo_coulmns0. divlia. }
  pose proof (Z.div_mod i (coulmns m) ltac:(lia)) as E. pose proof (Z.mod_pos_bound i (coulmns m) ltac:(lia)).
  split.
  - intros [-> ->]. f_equal. lia.
  - intros Ec. assert (y / 16 * coulmns m + x / 8 = i / coulmns m * coulmns m + i mod coulmns m) as E' by lia.
    apply mul_add_inj in E' as [-> ->]; done.
Qed.

Lemma wp_present s : screen s -> wp present (fun _ => presented s) s.
Proof.
  intros H. pose proof (sc_mode _ H) as Hm. pose proof (sc_diff _ H) as Hd.
  pose proof (sc_back _ H) as Hb. pose proof (sc_front _ H) as Hf.
  unfold present. wp_steps. eapply wp_mono.
  - eapply (wp_for (fun i _ s' => exists f d, s' = set_front f (set_diff d s) /\
        length f = length (front s) /\ length d = length (diff s) /\
        (forall k, (k < length d)%nat -> d !! k = if decide (Z.of_nat k < i) then Some false else diff s !! k) /\
        (forall x y, visible (mode s) x y -> f !! place (mode s) x y =
           if decide (Z.of_nat (cell (mode s) x y) < i) then back s !! place (mode s) x y
           else front s !! place (mode s) x y))); [lia| |].
    + exists (front s), (diff s). split; [by destruct s|]. split_and!; try done.
      * intros k Hk. by rewrite decide_False by lia.
      * intros x y Hv. by rewrite decide_False by lia.
    + intros i [] s1 Hi (f & d & -> & Hlf & Hld & Hdk & Hfp). wp_steps. cbn [diff set_front set_diff].
      destruct (array_get_Some d i) as (b & Eb & Eb'); [lia|]. apply wp_of_option. exists b. split; [done|].
      rewrite Hdk in Eb' by lia. rewrite decide_False in Eb' by lia.
      assert (forall x y, visible (mode s) x y ->
        in_cell (i mod coulmns (mode s)) (i / coulmns (mode s)) x y = bool_decide (Z.of_nat (cell (mode s) x y) = i)) as Hin.
      { intros x y Hv. apply eq_true_iff_eq. rewrite cell_of by (done || lia). rewrite bool_decide_eq_true. lia. }
      destruct b.
      * wp_step. apply wp_of_option. rewrite array_set_Some by lia. eexists. split; [done|]. wp_steps.
        rewrite !shiftl_mul by lia. change (2 ^ 3) with 8. change (2 ^ 4) with 16.
        assert (0 < coulmns (mode s)) as Hc.
        { pose proof (mo_diff _ Hm) as E1. pose proof (mo_coulmns _ Hm) as E2. pose proof (mo_hor _ Hm).
          rewrite shiftr_div in E2 by lia. assert (0 <= coulmns (mode s)) by (rewrite E2; change (2 ^ 3) with 8; divlia).
          destruct (Z.eq_dec (coulmns (mode s)) 0) as [E0|]; [rewrite E0 in E1; lia|lia]. }
        replace (i mod coulmns (mode s) * 8) with (8 * (i mod coulmns (mode s))) by lia.
        replace (i / coulmns (mode s) * 16) with (16 * (i / coulmns (mode s))) by lia.
        eapply wp_mono.
        { apply wp_present_cell; [split_and!; cbn; done || lia| |].
          - apply Z.mod_pos_bound. lia.
          - apply Z.div_pos; lia. }
        intros [] s2 [(f2 & ->) Hl2 Hp2]. cbn in Hl2, Hp2. exists f2, (<[Z.to_nat i := false]> d). split; [done|].
        rewrite length_insert. split; [lia|]. split; [done|]. split.
        -- intros k Hk. destruct (decide (k = Z.to_nat i)) as [->|Hne].
           ++ rewrite list_lookup_insert_eq by lia. by rewrite decide_True by lia.
           ++ rewrite list_lookup_insert_ne by done. rewrite Hdk by done.
              destruct (decide (Z.of_nat k < i)); [by rewrite decide_True by lia|by rewrite decide_False by lia].
        -- intros x y Hv. rewrite Hp2, Hin, Hfp by done. case_bool_decide as E.
           ++ by rewrite decide_True by lia.
           ++ destruct (decide (Z.of_nat (cell (mode s) x y) < i)); [by rewrite decide_True by lia|by rewrite decide_False by lia].
      * wp_steps. exists f, d. split; [done|]. split; [done|]. split; [done|]. split.
        -- intros k Hk. rewrite Hdk by done. destruct (decide (Z.of_nat k < i)); [by rewrite decide_True by lia|].
           destruct (decide (Z.of_nat k = i)) as [E|]; [|by rewrite decide_False by lia].
           rewrite decide_True by lia. rewrite <- Eb'. f_equal. lia.
        -- intros x y Hv. rewrite Hfp by done.
           destruct (decide (Z.of_nat (cell (mode s) x y) < i)); [by rewrite decide_True by lia|].
           destruct (decide (Z.of_nat (cell (mode s) x y) = i)) as [E|]; [|by rewrite decide_False by lia].
           rewrite decide_True by lia. apply (sc_shown _ H); [done|]. rewrite <- Eb'. f_equal. lia.
  - intros [] s' (f & d & -> & Hlf & Hld & Hdk & Hfp). constructor; cbn; try done.
    + by eexists _, _.
    + intros k Hk. rewrite Hdk by lia. by rewrite decide_True by lia.
    + intros x y Hv. rewrite Hfp by done. pose proof (cell_range _ Hm x y Hv). unfold cell.
      by rewrite decide_True by lia.
Qed.

Lemma screen_presented s s' : screen s -> presented s s' -> screen s'.
Proof.
  intros H [(f & d & ->) Hf Hd Hc Hs]. cbn in *. destruct H as [Hm Hb Hfr Hdi Ht _].
  constructor; cbn; try done; try lia. intros x y Hv _. by apply Hs.
Qed.

(** ** Scrolling *)

(** What moving pixels leaves alone. *)
Record same_place (s s' : vga_state) : Prop := {
  sp_mode : mode s' = mode s;
  sp_color : global_textcolor s' = global_textcolor s;
  sp_cursor : cursor s' = cursor s;
  sp_trace : vg_trace s' = vg_trace s
}.

Lemma same_place_trans s1 s2 s3 : same_place s1 s2 -> same_place s2 s3 -> same_place s1 s3.
Proof. intros [] []. constructor; congruence. Qed.
Lemma same_text_place s s' : same_text s s' -> same_place s s'.
Proof. by intros []. Qed.
Lemma same_marked x y s : same_text s (marked_at x y s).
Proof. unfold marked_at. by case_decide. Qed.
Lemma back_marked x y s : back (marked_at x y s) = back s.
Proof. unfold marked_at. by case_decide. Qed.

Lemma screen_write x y v s : screen s -> 0 <= x < p_scanln (mode s) -> 0 <= y < ver_res (mode s) ->
  screen (marked_at x y (set_back (<[place (mode s) x y := v]> (back s)) s)).
Proof.
  intros H Hx Hy. destruct (decide (visible (mode s) x y)) as [Hv|Hv].
  - replace (marked_at x y (set_back (<[place (mode s) x y := v]> (back s)) s)) with (plot x y v s).
    { by apply screen_plot. }
    unfold plot, marked_at. cbn. by rewrite !decide_True by done.
  - unfold marked_at. cbn. rewrite decide_False by done.
    destruct H as [Hm Hb Hf Hd Ht Hs]. constructor; cbn; rewrite ?length_insert; try done.
    intros x' y' Hv' Hc. rewrite list_lookup_insert_ne; [by apply Hs|]. intros E. apply Hv.
    pose proof (place_range _ Hm x' y' Hv'). pose proof (mo_hor _ Hm).
    assert (y * p_scanln (mode s) + x = y' * p_scanln (mode s) + x') as E'.
    { unfold place in E. assert (0 <= y * p_scanln (mode s) + x) by nia. lia. }
    destruct Hv' as [Hx' Hy']. apply mul_add_inj in E' as [-> ->]; [by split|lia|lia].
Qed.

(** The first [n] pixels were moved up by a row of characters. *)
Record moved (n : Z) (s s' : vga_state) : Prop := {
  mv_same : same_place s s';
  mv_screen : screen s';
  mv_back : forall k, 0 <= k -> back s' !! Z.to_nat k =
    if decide (k < n) then back s !! Z.to_nat (k + 16 * p_scanln (mode s)) else back s !! Z.to_nat k
}.

Lemma wp_scroll_pixel x y s s1 : mode_ok (mode s) ->
  0 <= x < p_scanln (mode s) -> 0 <= y < ver_res (mode s) - 16 ->
  moved (y * p_scanln (mode s) + x) s s1 ->
  wp (scroll_pixel x y) (fun _ => moved (y * p_scanln (mode s) + (x + 1)) s) s1.
Proof.
  intros Hm Hx Hy [Hs1 H1 Hb1]. pose proof (sp_mode _ _ Hs1) as Em. pose proof (sc_back _ H1) as Hl.
  rewrite Em in Hl. pose proof (mo_size _ Hm) as Hsz. set (p := p_scanln (mode s)) in *.
  unfold scroll_pixel. wp_steps. rewrite Em. fold p.
  assert (0 <= (y + 16) * p + x < size (mode s)) as R by (rewrite Hsz; nia).
  assert (0 <= y * p + x < size (mode s)) as R' by (rewrite Hsz; nia).
  destruct (array_get_Some (back s1) ((y + 16) * p + x)) as (v & E & E'); [lia|].
  apply wp_of_option. exists v. split; [done|]. wp_step. apply wp_of_option.
  rewrite array_set_Some by lia. eexists. split; [done|]. wp_steps.
  change (Z.to_nat (y * p + x)) with (place (mode s) x y). rewrite <- Em.
  set (s2 := set_back (<[place (mode s1) x y := v]> (back s1)) s1).
  assert (screen (marked_at x y s2)) as H2 by (apply screen_write; rewrite ?Em; fold p; done || lia).
  apply wp_update_diff; [apply H1|apply H1|]. constructor; [|done|].
  - eapply same_place_trans; [exact Hs1|]. eapply same_place_trans; [|apply same_text_place, same_marked]. done.
  - intros k Hk. rewrite back_marked. cbn [back set_back s2]. rewrite Em.
    destruct (decide (k = y * p + x)) as [->|Hne].
    + rewrite decide_True by (fold p; lia). unfold place. fold p. rewrite list_lookup_insert_eq by lia.
      rewrite Hb1 in E' by lia. fold p in E'. rewrite decide_False in E' by lia.
      rewrite <- E'. f_equal. lia.
    + unfold place. fold p. rewrite list_lookup_insert_ne by lia. rewrite Hb1 by done. fold p.
      destruct (decide (k < y * p + x)); [by rewrite decide_True by lia|by rewrite decide_False by lia].
Qed.

(** What [scroll] promises: the rows are moved up, the last one is black, everything is shown. *)
Record scrolled (s s' : vga_state) : Prop := {
  sl_same : same_place s s';
  sl_screen : screen s';
  sl_pixel : forall x y, visible (mode s) x y ->
    pixel s' x y = if y <? ver_res (mode s) - 16 then pixel s x (y + 16)
                   else Some (word_of (mode s) (palette Black));
  sl_shown : forall x y, visible (mode s) x y -> front s' !! place (mode s) x y = pixel s' x y
}.

(** The pixels of the last rows before [y], and before [x] in row [y], are black. *)
Record cleared (x y : Z) (s s' : vga_state) : Prop := {
  cl_same : same_place s s';
  cl_screen : screen s';
  cl_pixel : forall x' y', visible (mode s) x' y' ->
    pixel s' x' y' = if (ver_res (mode s) - 16 <=? y') && ((y' <? y) || ((y' =? y) && (x' <? x)))
                     then Some (word_of (mode s) (palette Black)) else pixel s x' y'
}.

Lemma pixel_marked x0 y0 s x y : pixel (marked_at x0 y0 s) x y = pixel s x y.
Proof.
  unfold pixel. rewrite back_marked. unfold marked_at. by case_decide.
Qed.

Lemma cleared_ext x y x1 y1 s s' :
  (forall x' y', visible (mode s) x' y' ->
    (ver_res (mode s) - 16 <=? y') && ((y' <? y) || ((y' =? y) && (x' <? x))) =
    (ver_res (mode s) - 16 <=? y') && ((y' <? y1) || ((y' =? y1) && (x' <? x1)))) ->
  cleared x y s s' -> cleared x1 y1 s s'.
Proof. intros E [? ? Hp]. constructor; [done|done|]. intros x' y' Hv. rewrite <- E by done. by apply Hp. Qed.

Lemma wp_clear_pixel x y s s1 : ver_res (mode s) - 16 <= y < ver_res (mode s) -> 0 <= x -> screen s ->
  cleared x y s s1 ->
  wp (draw_pixel x y (palette Black);; update_diff x y) (fun _ => cleared (x + 1) y s) s1.
Proof.
  intros Hy Hx Hs [S1 H1 P1]. pose proof (sp_mode _ _ S1) as Em. pose proof (mo_ver _ (sc_mode _ Hs)).
  wp_step. apply wp_draw_pixel; [done|].
  set (s2 := plot x y (word_of (mode s1) (palette Black)) s1).
  assert (screen s2) as H2 by (by apply screen_plot).
  apply wp_update_diff; [apply H2|apply H2|]. constructor.
  - eapply same_place_trans; [exact S1|]. eapply same_place_trans; [apply same_text_place, plot_same|].
    apply same_text_place, same_marked.
  - by apply screen_marked.
  - intros x' y' Hv. rewrite pixel_marked. unfold s2. rewrite pixel_plot by (rewrite ?Em; done).
    rewrite P1, Em by done. destruct Hv as [Hvx Hvy].
    case_decide as E.
    + destruct E as (_ & -> & ->). by replace ((_ <=? y) && _) with true by lia.
    + assert (~ (x' = x /\ y' = y)) as E' by (intros [-> ->]; apply E; split_and!; try done; split; lia).
      by replace ((ver_res (mode s) - 16 <=? y') && ((y' <? y) || ((y' =? y) && (x' <? x + 1))))
        with ((ver_res (mode s) - 16 <=? y') && ((y' <? y) || ((y' =? y) && (x' <? x)))) by lia.
Qed.

Lemma wp_scroll s : screen s -> wp scroll (fun _ => scrolled s) s.
Proof.
  intros H. pose proof (sc_mode _ H) as Hm. pose proof (mo_ver _ Hm) as Hver. pose proof (mo_scan _ Hm) as Hscan.
  pose proof (mo_hor _ Hm) as Hhor. unfold scroll. wp_steps. set (p := p_scanln (mode s)) in *.
  eapply wp_mono.
  { eapply (wp_for (fun y _ => moved (y * p) s)); [lia| |].
    - constructor; [done|done|]. intros k Hk. by rewrite decide_False by lia.
    - intros y [] s1 Hy H1. replace ((y + 1) * p) with (y * p + (0 + p)) by lia.
      eapply (wp_for (fun x _ => moved (y * p + x) s)); [lia|by rewrite Z.add_0_r|].
      intros x [] s2 Hx H2. unfold p in H2. apply wp_scroll_pixel; [done|fold p; lia|lia|done]. }
  intros [] s1 [S1 H1 B1]. rewrite Z.add_0_l in B1. pose proof (sp_mode _ _ S1) as Em.
  wp_step. apply wp_of_option. exists (palette Black). split; [by apply palette_get|]. wp_step.
  eapply wp_mono.
  { eapply (wp_for (fun y _ => cleared 0 y s1)); [lia| |].
    - constructor; [done|done|]. intros x' y' [Hx' Hy'].
      by replace ((ver_res (mode s1) - 16 <=? y') && _) with false by (rewrite Em; lia).
    - intros y [] s2 Hy H2. apply (wp_mono _ (fun _ => cleared (0 + p) y s1)).
      + eapply (wp_for (fun x _ => cleared x y s1)); [lia|done|].
        intros x [] s3 Hx H3. apply wp_clear_pixel; [rewrite Em; lia|lia|done|done].
      + intros [] s3. apply cleared_ext. intros x' y' [Hx' Hy']. rewrite Em in *. lia. }
  intros [] s2 [S2 H2 P2]. eapply wp_mono; [by apply wp_present|].
  intros [] s3 Hp. pose proof (screen_presented _ _ H2 Hp) as H3.
  assert (mode s2 = mode s) as Em2 by (rewrite (sp_mode _ _ S2); done).
  destruct Hp as [(f & d & ->) Hf Hd _ Hsh]. constructor.
  - eapply same_place_trans; [exact S1|]. eapply same_place_trans; [exact S2|]. done.
  - done.
  - intros x y Hv. change (pixel (set_front f (set_diff d s2)) x y) with (pixel s2 x y).
    rewrite P2 by (by rewrite Em). rewrite Em. destruct Hv as [Hvx Hvy].
    replace ((ver_res (mode s) - 16 <=? y) && _) with (negb (y <? ver_res (mode s) - 16)) by lia.
    destruct (Z.ltb_spec y (ver_res (mode s) - 16)) as [Hlt|Hge]; [|done]. cbn [negb].
    unfold pixel, place. rewrite Em. fold p. rewrite B1 by nia. fold p. rewrite decide_True by nia.
    f_equal. f_equal. lia.
  - intros x y Hv. rewrite <- Em2 in Hv |- *. rewrite Hsh by done. done.
Qed.
