(* ===== verification/VgaText.v ===== *)
(** * The text console: the terminal it implements

    The abstract terminal is a grid of characters with their colors and a cursor. Each cell of
    the screen shows the glyph of its character, and every operation on the console carries out
    one on the terminal. *)
From S2P Require Import KPrelude MemHelpers PortIO Vga VgaProofs.

(** A cell is black or shows a character in a color. *)
Definition grid := Z -> Z -> option (Z * Z).
Record terminal := mkTerm { cells : grid; place_ : Cursor }.

Inductive item := Glyph (ch : Z) | Newline.
Definition item_char (it : item) : Z := match it with Glyph ch => ch | Newline => 10 end.

Definition text_rows (m : vga_mode) : Z := ver_res m >>> 4.
Definition text_cols (m : vga_mode) : Z := p_scanln m >>> 3.

Definition set_cell (col row : Z) (v : Z * Z) (g : grid) : grid :=
  fun c r => if decide (c = col /\ r = row) then Some v else g c r.
Definition shift_up (m : vga_mode) (g : grid) : grid :=
  fun c r => if r <? text_rows m - 1 then g c (r + 1) else None.

(** The cursor below the last row moves the grid up. *)
Definition in_view (m : vga_mode) (t : terminal) : terminal :=
  if row (place_ t) >=? text_rows m
  then mkTerm (shift_up m (cells t)) (mkCursor (coulmn (place_ t)) (text_rows m - 1)) else t.

Definition term_step (m : vga_mode) (color : Z) (t : terminal) (it : item) : terminal :=
  let c := place_ t in
  match it with
  | Newline => in_view m (mkTerm (cells t) (mkCursor 0 (row c + 1)))
  | Glyph ch =>
      let g := set_cell (coulmn c) (row c) (ch, color) (cells t) in
      in_view m (mkTerm g (if coulmn c + 1 >=? text_cols m then mkCursor 0 (row c + 1)
                           else mkCursor (coulmn c + 1) (row c)))
  end.
Definition term_run (m : vga_mode) (color : Z) (its : list item) (t : terminal) : terminal :=
  fold_left (term_step m color) its t.

(** ** What numbers look like *)

(** The digits of [x] to a base, the lowest first: at most [n], no leading zeros. *)
Fixpoint dec_rev (n : nat) (x : Z) : list Z :=
  match n with
  | O => []
  | S n => (48 + x mod 10) :: (if x / 10 =? 0 then [] else dec_rev n (x / 10))
  end.
Definition decimal (x : Z) : list Z := rev (dec_rev 20 x).

(** The number that decimal digits stand for. *)
Definition dec_value (l : list Z) : Z := fold_left (fun v c => 10 * v + (c - 48)) l 0.

(** [n] hexadecimal digits. *)
Definition hex_digit (v : Z) : Z := default 0 (hex !! Z.to_nat v).
Fixpoint hex_rev (n : nat) (x : Z) : list Z :=
  match n with O => [] | S n => hex_digit (x mod 16) :: hex_rev n (x / 16) end.
Definition hex_text (n : nat) (x : Z) : list Z := rev (hex_rev n x).

Definition signed_text (x : Z) : list Z := if x <? 0 then 45 :: decimal (- x) else decimal x.

(** ** What [printf] prints

    [None]: an argument is missing or of the wrong kind. *)
Definition pre (text : list Z) (r : option (list item)) : option (list item) :=
  its ← r; Some ((Glyph <$> text) ++ its).
Definition with_int (args : list arg) (f : Z -> list arg -> option (list item)) : option (list item) :=
  match args with Int z :: args => f z args | _ => None end.

Fixpoint render (str : list Z) (args : list arg) : option (list item) :=
  match str with
  | [] => Some []
  | c :: rest =>
      if c =? 0 then Some []
      else if c =? 10 then its ← render rest args; Some (Newline :: its)
      else if negb (c =? 37) then pre [c] (render rest args)
      else
        match rest with
        | [] => Some [Glyph 37]
        | c1 :: rest1 =>
            if c1 =? 100 then
              with_int args (fun z args => pre (signed_text (i32 z)) (render rest1 args))
            else if c1 =? 117 then
              match rest1 with
              | c2 :: rest2 =>
                  if c2 =? 120
                  then with_int args (fun z args => pre (hex_text 8 (u32 z)) (render rest2 args))
                  else with_int args (fun z args => pre (decimal (u32 z)) (render rest1 args))
              | [] => with_int args (fun z args => pre (decimal (u32 z)) (Some []))
              end
            else if c1 =? 108 then
              match rest1 with
              | c2 :: rest2 =>
                  if c2 =? 100
                  then with_int args (fun z args => pre (signed_text (i64 z)) (render rest2 args))
                  else if c2 =? 117
                  then with_int args (fun z args => pre (decimal (u64 z)) (render rest2 args))
                  else if c2 =? 120
                  then with_int args (fun z args => pre (hex_text 16 (u64 z)) (render rest2 args))
                  else pre [37; 108] (render rest1 args)
              | [] => Some [Glyph 37; Glyph 108]
              end
            else if c1 =? 98 then
              with_int args (fun z args => pre (hex_text 2 (u8 z)) (render rest1 args))
            else if c1 =? 115 then
              match args with
              | Str v :: args => pre (default null_text v) (render rest1 args)
              | _ => None
              end
            else if c1 =? 99 then
              with_int args (fun z args => pre [i8 z] (render rest1 args))
            else if c1 =? 119 then
              with_int args (fun z args => pre (hex_text 4 (u16 z)) (render rest1 args))
            else pre [37] (render rest args)
        end
  end.

Definition text_ok (text : list Z) : Prop := Forall (fun c => 0 <= c < 128) text.
Definition item_ok (it : item) : Prop := match it with Glyph c => 0 <= c < 128 | Newline => True end.

Lemma text_rows_pos m : mode_ok m -> 0 < text_rows m.
Proof. intros H. pose proof (mo_ver _ H). unfold text_rows. rewrite shiftr_div by lia. change (2 ^ 4) with 16. divlia. Qed.
Lemma text_cols_pos m : mode_ok m -> 0 < text_cols m.
Proof. intros H. pose proof (mo_scan _ H). unfold text_cols. rewrite shiftr_div by lia. change (2 ^ 3) with 8. divlia. Qed.

Lemma pow10_S n : 10 ^ Z.of_nat (S n) = 10 * 10 ^ Z.of_nat n.
Proof. rewrite Nat2Z.inj_succ, Z.pow_succ_r; lia. Qed.

Lemma dec_rev_fuel n k : forall x, 0 <= x < 10 ^ Z.of_nat n -> (0 < n)%nat -> dec_rev (n + k) x = dec_rev n x.
Proof.
  induction n as [|n IH]; intros x Hx Hn; [lia|]. cbn [Nat.add dec_rev]. f_equal.
  destruct (Z.eqb_spec (x / 10) 0); [done|]. rewrite pow10_S in Hx. apply IH; [divlia|].
  destruct n; [|lia]. change (10 ^ Z.of_nat 0) with 1 in Hx. divlia.
Qed.

Lemma dec_rev_digits n : forall x, Forall (fun c => 48 <= c < 58) (dec_rev n x).
Proof.
  induction n as [|n IH]; intros x; cbn; constructor; [divlia|]. by destruct (x / 10 =? 0).
Qed.

Lemma dec_rev_value n : forall x, 0 <= x < 10 ^ Z.of_nat n ->
  foldr (fun c v => 10 * v + (c - 48)) 0 (dec_rev n x) = x.
Proof.
  induction n as [|n IH]; intros x Hx; cbn [dec_rev foldr].
  - change (10 ^ Z.of_nat 0) with 1 in Hx. lia.
  - rewrite pow10_S in Hx. destruct (Z.eqb_spec (x / 10) 0) as [E|E]; cbn [foldr]; [divlia|].
    rewrite IH by divlia. divlia.
Qed.

Lemma dec_rev_last n : forall x, 0 <= x < 10 ^ Z.of_nat n -> last (dec_rev n x) = Some 48 -> x = 0.
Proof.
  induction n as [|n IH]; intros x Hx; cbn [dec_rev]; [done|]. rewrite pow10_S in Hx.
  destruct (Z.eqb_spec (x / 10) 0) as [E|E].
  - cbn. intros [= E1]. divlia.
  - destruct n as [|n]; [change (10 ^ Z.of_nat 0) with 1 in Hx; divlia|].
    intros Hl. exfalso. apply E. apply (IH (x / 10)); [divlia|]. exact Hl.
Qed.

Lemma decimal_value x : 0 <= x < 10 ^ 20 -> dec_value (decimal x) = x.
Proof.
  intros Hx. unfold dec_value, decimal. rewrite <- fold_left_rev_right, rev_involutive.
  by apply (dec_rev_value 20).
Qed.

Lemma decimal_digits x : Forall (fun c => 48 <= c < 58) (decimal x).
Proof. unfold decimal. apply Forall_rev, dec_rev_digits. Qed.

Lemma decimal_ok x : text_ok (decimal x).
Proof. eapply Forall_impl; [apply decimal_digits|]. cbn. lia. Qed.

Lemma take_S_insert {A} (l : list A) k v : (k < length l)%nat ->
  take (S k) (<[k := v]> l) = take k l ++ [v].
Proof.
  intros Hk. rewrite (take_S_r _ _ v) by (by apply list_lookup_insert_eq).
  f_equal. by rewrite take_insert_ge.
Qed.

(** A number in hexadecimal is the text of its halves. *)
Lemma hex_rev_app a b : forall x, hex_rev (b + a) x = hex_rev b x ++ hex_rev a (x / 16 ^ Z.of_nat b).
Proof.
  induction b as [|b IH]; intros x; cbn [Nat.add hex_rev app].
  - change (16 ^ Z.of_nat 0) with 1. by rewrite Z.div_1_r.
  - rewrite IH, Nat2Z.inj_succ, Z.pow_succ_r, Z.div_div by lia. done.
Qed.

Lemma hex_rev_mod b : forall x, hex_rev b (x mod 16 ^ Z.of_nat b) = hex_rev b x.
Proof.
  induction b as [|b IH]; intros x; cbn [hex_rev]; [done|].
  assert (0 < 16 ^ Z.of_nat b) by (apply Z.pow_pos_nonneg; lia).
  rewrite Nat2Z.inj_succ, Z.pow_succ_r by lia. f_equal.
  - f_equal. rewrite <- (Z.mod_mod_divide x (16 * 16 ^ Z.of_nat b) 16); [done|]. exists (16 ^ Z.of_nat b). lia.
  - rewrite <- (IH (x / 16)). f_equal. rewrite Z.rem_mul_r by lia.
    set (q := (x / 16) mod _). divlia.
Qed.

Lemma hex_text_app a b x : hex_text (b + a) x = hex_text a (x / 16 ^ Z.of_nat b) ++ hex_text b (x mod 16 ^ Z.of_nat b).
Proof. unfold hex_text. by rewrite hex_rev_app, rev_app_distr, hex_rev_mod. Qed.

Lemma hex_digit_ok v : 0 <= v < 16 -> array_get hex v = Some (hex_digit v) /\ 0 <= hex_digit v < 128.
Proof.
  intros Hv. destruct (array_get_Some hex v) as (c & E & E'); [done|]. unfold hex_digit. rewrite E'. split; [done|].
  assert (text_ok hex) as H by (unfold text_ok, hex; repeat constructor; lia).
  exact (Forall_lookup_1 _ _ _ _ H E').
Qed.

Lemma head_drop {A} (l : list A) k : head (drop k l) = l !! k.
Proof. rewrite <- (Nat.add_0_r k) at 2. rewrite <- lookup_drop. by destruct (drop k l). Qed.

Lemma drop_cons {A} (l : list A) k c r : drop k l = c :: r -> (k < length l)%nat /\ drop (S k) l = r.
Proof.
  intros H. assert (k < length l)%nat as Hk.
  { destruct (decide (k < length l)%nat); [done|]. rewrite drop_ge in H by lia. done. }
  split; [done|]. replace (S k) with (k + 1)%nat by lia. by rewrite <- drop_drop, H.
Qed.

Lemma i32_range z : - 2 ^ 31 <= i32 z < 2 ^ 31.
Proof. unfold i32. pose proof (Z.mod_pos_bound (z + 2 ^ 31) (2 ^ 32)). change (2 ^ 32) with (2 * 2 ^ 31) in *. lia. Qed.
Lemma i64_range z : - 2 ^ 63 <= i64 z < 2 ^ 63.
Proof. unfold i64. pose proof (Z.mod_pos_bound (z + 2 ^ 63) (2 ^ 64)). change (2 ^ 64) with (2 * 2 ^ 63) in *. lia. Qed.

Section Text.
Context (font_data : list Z) (Hfont : (2048 <= length font_data)%nat).

(** What a pixel of the grid looks like. *)
Definition grid_word (m : vga_mode) (g : grid) (x y : Z) : Z :=
  match g (x / 8) (y / 16) with
  | Some (ch, color) => glyph_word font_data m color ch (y mod 16) (x mod 8)
  | None => word_of m (palette Black)
  end.

(** The console shows the terminal. *)
Record shows (t : terminal) (s : vga_state) : Prop := {
  sh_screen : screen s;
  sh_cursor : cursor s = place_ t;
  sh_col : 0 <= coulmn (cursor s) < text_cols (mode s);
  sh_row : 0 <= row (cursor s) < text_rows (mode s);
  sh_pixel : forall x y, visible (mode s) x y -> pixel s x y = Some (grid_word (mode s) (cells t) x y);
  sh_below : forall c r, text_rows (mode s) <= r -> cells t c r = None
}.

(** The same with the cursor possibly one row too low. *)
Record nearly (t : terminal) (s : vga_state) : Prop := {
  nr_screen : screen s;
  nr_cursor : cursor s = place_ t;
  nr_col : 0 <= coulmn (cursor s) < text_cols (mode s);
  nr_row : 0 <= row (cursor s) <= text_rows (mode s);
  nr_pixel : forall x y, visible (mode s) x y -> pixel s x y = Some (grid_word (mode s) (cells t) x y);
  nr_below : forall c r, text_rows (mode s) <= r -> cells t c r = None
}.

(** Nothing but the text changed. *)
Record kept (s s' : vga_state) : Prop := {
  kp_mode : mode s' = mode s;
  kp_color : global_textcolor s' = global_textcolor s
}.

Lemma grid_word_shift m g x y : mode_ok m -> visible m x y ->
  (forall c r, text_rows m <= r -> g c r = None) ->
  grid_word m (shift_up m g) x y =
    if y <? ver_res m - 16 then grid_word m g x (y + 16) else word_of m (palette Black).
Proof.
  intros Hm [Hx Hy] Hb. unfold grid_word, shift_up.
  assert (text_rows m = ver_res m / 16) as Er by (unfold text_rows; by rewrite shiftr_div by lia).
  replace ((y + 16) / 16) with (y / 16 + 1) by divlia. replace ((y + 16) mod 16) with (y mod 16) by divlia.
  destruct (Z.ltb_spec (y / 16) (text_rows m - 1)) as [Hr|Hr].
  - rewrite (proj2 (Z.ltb_lt _ _)) by divlia. done.
  - destruct (y <? _); [|done]. by rewrite Hb by lia.
Qed.

Lemma wp_keep_in_view t s : nearly t s ->
  wp keep_in_view (fun _ s' => shows (in_view (mode s) t) s' /\ kept s s' /\ vg_trace s' = vg_trace s) s.
Proof.
  intros [H Hc Hcol Hrow Hp Hb]. pose proof (text_rows_pos _ (sc_mode _ H)) as Hpos.
  unfold keep_in_view, in_view. wp_steps. rewrite Hc in *. fold (text_rows (mode s)).
  rewrite Z.geb_leb. destruct (Z.leb_spec (text_rows (mode s)) (row (place_ t))) as [Hge|Hlt]; wp_steps.
  - eapply wp_mono; [by apply wp_scroll|]. intros [] s1 [[Em Ec Ecu Et] H1 P1 _]. wp_steps.
    fold (text_rows (mode s)). split; [|by split; [constructor|]].
    constructor; cbn; rewrite ?Em, ?Ecu, ?Hc; try done; try lia.
    + by destruct H1.
    + intros x y Hv. change (pixel _ x y) with (pixel s1 x y). rewrite P1 by done.
      rewrite grid_word_shift by (done || apply H). destruct (Z.ltb_spec y (ver_res (mode s) - 16)); [|done].
      apply Hp. destruct Hv as [? ?]. split; lia.
    + intros c r Hr. unfold shift_up. by rewrite (proj2 (Z.ltb_ge _ _)) by lia.
  - split; [|by split; [constructor|]]. constructor; rewrite ?Hc; done || lia.
Qed.

Lemma kept_trans s1 s2 s3 : kept s1 s2 -> kept s2 s3 -> kept s1 s3.
Proof. intros [] []. constructor; congruence. Qed.

(** One character. *)
Lemma wp_put_char ch t s : shows t s -> 0 <= ch < 128 ->
  wp (put_char font_data ch) (fun _ s' =>
    shows (term_step (mode s) (global_textcolor s) t (Glyph ch)) s' /\ kept s s' /\
    vg_trace s' = out ch :: vg_trace s) s.
Proof.
  intros [H Hc Hcol Hrow Hp Hb] Hch. unfold put_char. wp_steps. rewrite Hc in *.
  eapply wp_mono; [apply wp_draw_char; done || lia|]. intros [] s1 [[Em Ef Ec Ecu Et] H1 P1 _].
  cbn in Em, Ef, Ec, Ecu, Et. unfold cursor_inc. wp_steps. rewrite Em, Ecu. fold (text_cols (mode s)).
  set (c' := if coulmn (place_ t) + 1 >=? text_cols (mode s) then mkCursor 0 (row (place_ t) + 1)
             else mkCursor (coulmn (place_ t) + 1) (row (place_ t))).
  eapply (wp_mono _ (fun _ s2 => s2 = set_cursor c' s1)).
  { cbn [cursor set_cursor]. rewrite Hc. cbn [coulmn row]. unfold c'. by destruct (_ >=? _); wp_steps. }
  intros [] s2 ->. unfold term_step.
  set (g := set_cell (coulmn (place_ t)) (row (place_ t)) (ch, global_textcolor s) (cells t)).
  eapply wp_mono; [apply (wp_keep_in_view (mkTerm g c'))|].
  - pose proof (text_cols_pos _ (sc_mode _ H)).
    constructor; cbn; rewrite ?Em; [by destruct H1|done| | | |].
    + unfold c'. rewrite Z.geb_leb. destruct (Z.leb_spec (text_cols (mode s)) (coulmn (place_ t) + 1)); cbn; lia.
    + unfold c'. destruct (_ >=? _); cbn; lia.
    + intros x y Hv. change (pixel (set_cursor c' s1) x y) with (pixel s1 x y). rewrite P1 by done.
      unfold grid_word, g, set_cell.
      destruct (decide (x / 8 = coulmn (place_ t) /\ y / 16 = row (place_ t))) as [E|E].
      * rewrite decide_True; [done|]. split_and!; [apply E..|divlia].
      * rewrite decide_False by (intros (? & ? & _); by apply E). by apply Hp.
    + intros c r Hr. unfold g, set_cell. rewrite decide_False by lia. by apply Hb.
  - intros [] s3 (Hs & [K1 K2] & Et3). cbn in K1, K2, Et3, Hs. rewrite Em in Hs. split; [exact Hs|].
    split; [constructor; congruence|]. by rewrite Et3, Et.
Qed.

Lemma wp_newline t s : shows t s ->
  wp newline (fun _ s' => shows (term_step (mode s) (global_textcolor s) t Newline) s' /\ kept s s' /\
    vg_trace s' = out 10 :: vg_trace s) s.
Proof.
  intros [H Hc Hcol Hrow Hp Hb]. unfold newline, qemu_debug_putc, outb. wp_step. apply wp_io_write.
  change (u8 (u8 10)) with (u8 10). fold (out 10). wp_steps. cbn [cursor]. 
  eapply wp_mono; [apply (wp_keep_in_view (mkTerm (cells t) (mkCursor 0 (row (place_ t) + 1))))|].
  - pose proof (text_cols_pos _ (sc_mode _ H)). constructor; cbn; rewrite ?Hc in *; try done; try lia.
    by destruct H.
  - intros [] s3 (Hs & [K1 K2] & Et3). split; [exact Hs|]. by split.
Qed.

(** ** Printing *)

(** The items were printed: on the screen and on the debug port. *)
Record printed (its : list item) (t : terminal) (s s' : vga_state) : Prop := {
  pt_shows : shows (term_run (mode s) (global_textcolor s) its t) s';
  pt_kept : kept s s';
  pt_trace : vg_trace s' = rev ((fun it => out (item_char it)) <$> its) ++ vg_trace s
}.

Lemma printed_nil t s : shows t s -> printed [] t s s.
Proof. intros H. by constructor. Qed.

Lemma printed_app i1 i2 t s1 s2 s3 : printed i1 t s1 s2 ->
  printed i2 (term_run (mode s1) (global_textcolor s1) i1 t) s2 s3 -> printed (i1 ++ i2) t s1 s3.
Proof.
  intros [H1 K1 T1] [H2 K2 T2]. destruct K1 as [Em Ec]. rewrite Em, Ec in H2. constructor.
  - unfold term_run in *. by rewrite fold_left_app.
  - eapply kept_trans; [constructor; done|done].
  - rewrite T2, T1, fmap_app, rev_app_distr. by rewrite <- app_assoc.
Qed.

(** [m] prints [its] on any console. *)
Definition prints {A} (m : MV A) (its : list item) (P : A -> Prop) : Prop :=
  forall t s, shows t s -> wp m (fun a s' => P a /\ printed its t s s') s.

Lemma prints_ret {A} (a : A) (P : A -> Prop) : P a -> prints (mret a) [] P.
Proof. intros HP t s H. wp_steps. split; [done|by apply printed_nil]. Qed.

Lemma prints_bind {A B} (m : MV A) (f : A -> MV B) i1 i2 (P : A -> Prop) (Q : B -> Prop) :
  prints m i1 P -> (forall a, P a -> prints (f a) i2 Q) -> prints (m ≫= f) (i1 ++ i2) Q.
Proof.
  intros Hm Hf t s H. wp_step. eapply wp_mono; [by apply Hm|]. intros a s1 [Ha H1].
  eapply wp_mono; [apply (Hf a Ha); apply H1|]. intros b s2 [Hb H2]. split; [done|]. by eapply printed_app.
Qed.

Lemma prints_mono {A} (m : MV A) its (P Q : A -> Prop) : prints m its P -> (forall a, P a -> Q a) -> prints m its Q.
Proof. intros Hm HPQ t s H. eapply wp_mono; [by apply Hm|]. intros a s' [Ha Hp]. split; [auto|done]. Qed.

(** A step that only looks. *)
Lemma prints_pure {A B} (m : MV A) (f : A -> MV B) a its (Q : B -> Prop) :
  (forall s, m s = Done a s) -> prints (f a) its Q -> prints (m ≫= f) its Q.
Proof. intros Hm Hf t s H. wp_step. unfold wp at 1. rewrite Hm. by apply Hf. Qed.

Lemma prints_char ch : 0 <= ch < 128 -> prints (put_char font_data ch) [Glyph ch] (fun _ => True).
Proof.
  intros Hch t s H. eapply wp_mono; [by apply wp_put_char|].
  intros [] s' (Hs & Hk & Ht). split; [done|]. by constructor.
Qed.

Lemma prints_newline : prints newline [Newline] (fun _ => True).
Proof.
  intros t s H. eapply wp_mono; [by apply wp_newline|].
  intros [] s' (Hs & Hk & Ht). split; [done|]. by constructor.
Qed.

Lemma prints_chars text : text_ok text -> prints (put_chars font_data text) (Glyph <$> text) (fun _ => True).
Proof.
  induction 1 as [|c text Hc _ IH]; cbn [put_chars fmap list_fmap]; [by apply prints_ret|].
  apply (prints_bind _ _ [Glyph c] _ _ _ (prints_char c Hc)). intros [] _. exact IH.
Qed.

(** ** Numbers *)

Lemma wp_to_digits n x s : 0 <= x < 10 ^ Z.of_nat n -> (0 < n <= 20)%nat ->
  wp (to_digits n x) (fun r s' => s' = s /\ r.2 = Z.of_nat (length (dec_rev n x)) /\
    (length (dec_rev n x) <= n)%nat /\ length r.1 = n /\ take (length (dec_rev n x)) r.1 = dec_rev n x) s.
Proof.
  intros Hx Hn. unfold to_digits.
  eapply (wp_while_ix _ (fun k '(b, i, y) s' => s' = s /\ i = Z.of_nat k /\ (k < n)%nat /\ length b = n /\
      0 <= y < 10 ^ Z.of_nat (n - k) /\ dec_rev n x = take k b ++ dec_rev (n - k) y)
    (fun k => Z.of_nat n - Z.of_nat k)).
  - intros k [[b i] y] s1 (-> & -> & Hk & Hl & Hy & E).
    replace (n - k)%nat with (S (n - S k)) in * by lia. rewrite pow10_S in Hy. cbn [dec_rev] in E.
    wp_step. apply wp_of_option. rewrite array_set_Some by lia. eexists. split; [done|].
    rewrite Nat2Z.id. wp_steps. destruct (Z.eqb_spec (y / 10) 0) as [E0|E0].
    + cbn [fst snd]. rewrite E, length_app, length_take, length_insert. cbn [length].
      replace (k `min` length b)%nat with k by lia. split; [done|]. split; [lia|]. split; [lia|]. split; [done|].
      replace (k + 1)%nat with (S k) by lia. by rewrite take_S_insert by lia.
    + exists (S k). split; [|lia]. split; [done|]. split; [lia|].
      assert (S k < n)%nat as Hk'.
      { destruct (decide (S k = n)) as [En|]; [|lia]. rewrite En, Nat.sub_diag in Hy.
        change (10 ^ Z.of_nat 0) with 1 in Hy. divlia. }
      split; [done|]. rewrite length_insert. split; [done|]. split; [divlia|].
      rewrite take_S_insert by lia. by rewrite <- app_assoc.
  - instantiate (1 := 0%nat). rewrite Nat.sub_0_r, length_replicate. split_and!; done || lia.
  - unfold FUEL. lia.
Qed.

Lemma prints_digits b l : take (length l) b = l -> text_ok l -> (length l <= 20)%nat ->
  prints (put_digits font_data b (Z.of_nat (length l))) (Glyph <$> rev l) (fun _ => True).
Proof.
  intros Hb Hl Hlen t s H. unfold put_digits.
  eapply (wp_while_ix _ (fun j i s' => i = Z.of_nat j /\ (j <= length l)%nat /\
      printed (Glyph <$> rev (drop j l)) t s s') (fun j => Z.of_nat j)).
  - intros j i s1 (-> & Hj & Hp). destruct j as [|j].
    + wp_steps. split; [done|]. exact Hp.
    + rewrite Z.gtb_ltb, (proj2 (Z.ltb_lt _ _)) by lia.
      destruct (lookup_lt_is_Some_2 l j) as [c Hc]; [lia|].
      pose proof (Forall_lookup_1 _ _ _ _ Hl Hc) as Hcr.
      assert (array_get b (Z.of_nat (S j) - 1) = Some c) as Eb.
      { unfold array_get. rewrite (proj2 (Z.ltb_ge _ _)) by lia.
        replace (Z.to_nat (Z.of_nat (S j) - 1)) with j by lia. rewrite <- Hb in Hc.
        rewrite lookup_take_lt in Hc by lia. done. }
      wp_step. apply wp_of_option. exists c. split; [done|]. wp_step.
      eapply wp_mono; [apply (prints_char c Hcr); apply Hp|]. intros [] s2 [_ H2]. wp_steps.
      exists j. split; [|lia]. split; [lia|]. split; [lia|].
      rewrite (drop_S l c j Hc). cbn [rev]. rewrite fmap_app. by eapply printed_app.
  - instantiate (1 := length l). split; [done|]. split; [lia|]. rewrite drop_all. by apply printed_nil.
  - unfold FUEL. lia.
Qed.

Lemma prints_decimal n x : 0 <= x < 10 ^ Z.of_nat n -> (0 < n <= 20)%nat ->
  prints ('(buffer, i) ← to_digits n x; put_digits font_data buffer i) (Glyph <$> decimal x) (fun _ => True).
Proof.
  intros Hx Hn t s H. wp_step. eapply wp_mono; [by apply wp_to_digits|].
  intros [b i] s' (-> & Hi & Hlen & Hb & Ht). cbn in Hi, Hb, Ht. cbn beta iota. rewrite Hi.
  assert (decimal x = rev (dec_rev n x)) as E.
  { unfold decimal. f_equal. replace 20%nat with (n + (20 - n))%nat by lia. by apply dec_rev_fuel; [|lia]. }
  rewrite E. apply prints_digits; [done| |lia|done].
  eapply Forall_impl; [apply dec_rev_digits|]. cbn. lia.
Qed.

Lemma prints_unsigned x : 0 <= x < 2 ^ 32 -> prints (print_unsigned font_data x) (Glyph <$> decimal x) (fun _ => True).
Proof. intros Hx. apply (prints_decimal 10); [change (10 ^ Z.of_nat 10) with 10000000000|]; lia. Qed.
Lemma prints_unsigned_long x : 0 <= x < 2 ^ 64 ->
  prints (print_unsigned_long font_data x) (Glyph <$> decimal x) (fun _ => True).
Proof. intros Hx. apply (prints_decimal 20); [change (10 ^ Z.of_nat 20) with 100000000000000000000|]; lia. Qed.

Lemma prints_int x : - 2 ^ 31 <= x < 2 ^ 31 -> prints (print_int font_data x) (Glyph <$> signed_text x) (fun _ => True).
Proof.
  intros Hx. unfold print_int, signed_text. destruct (Z.ltb_spec x 0).
  - eapply (prints_bind _ _ [Glyph 45]); [by apply prints_char|]. intros [] _.
    rewrite (u32_id (- (x + 1))), u32_id by lia. replace (- (x + 1) + 1) with (- x) by lia.
    apply prints_unsigned. lia.
  - rewrite u32_id by lia. apply prints_unsigned. lia.
Qed.
Lemma prints_long x : - 2 ^ 63 <= x < 2 ^ 63 -> prints (print_long font_data x) (Glyph <$> signed_text x) (fun _ => True).
Proof.
  intros Hx. unfold print_long, signed_text. destruct (Z.ltb_spec x 0).
  - eapply (prints_bind _ _ [Glyph 45]); [by apply prints_char|]. intros [] _.
    rewrite (u64_id (- (x + 1))), u64_id by lia. replace (- (x + 1) + 1) with (- x) by lia.
    apply prints_unsigned_long. lia.
  - rewrite u64_id by lia. apply prints_unsigned_long. lia.
Qed.

Lemma prints_byte_hex b : 0 <= b < 256 -> prints (print_byte_hex font_data b) (Glyph <$> hex_text 2 b) (fun _ => True).
Proof.
  intros Hb. unfold print_byte_hex.
  assert ((b >>> 4) &&& 0xF = (b / 16) mod 16) as Eh.
  { rewrite shiftr_div by lia. change 0xF with (Z.ones 4). by rewrite Z.land_ones by lia. }
  assert (b &&& 0xF = b mod 16) as El by (change 0xF with (Z.ones 4); by rewrite Z.land_ones by lia).
  rewrite Eh, El. destruct (hex_digit_ok ((b / 16) mod 16) ltac:(by apply Z.mod_pos_bound)) as [E1 R1].
  destruct (hex_digit_ok (b mod 16) ltac:(by apply Z.mod_pos_bound)) as [E2 R2].
  rewrite E1, E2. apply (prints_pure _ _ (hex_digit ((b / 16) mod 16))); [done|].
  apply (prints_pure _ _ (hex_digit (b mod 16))); [done|].
  change (Glyph <$> hex_text 2 b) with ([Glyph (hex_digit ((b / 16) mod 16))] ++ [Glyph (hex_digit (b mod 16))]).
  eapply prints_bind; [by apply prints_char|]. intros [] _. by apply prints_char.
Qed.

Lemma prints_split {m1 m2 : MV unit} t1 t2 :
  prints m1 (Glyph <$> t1) (fun _ => True) -> prints m2 (Glyph <$> t2) (fun _ => True) ->
  prints (m1;; m2) (Glyph <$> (t1 ++ t2)) (fun _ => True).
Proof. intros H1 H2. rewrite fmap_app. eapply prints_bind; [done|]. by intros [] _. Qed.

Lemma prints_word_hex w : 0 <= w < 2 ^ 16 -> prints (print_word_hex font_data w) (Glyph <$> hex_text 4 w) (fun _ => True).
Proof.
  intros Hw. unfold print_word_hex.
  replace (u8 (w >>> 8)) with (w / 256) by (rewrite shiftr_div by lia; rewrite u8_id; [done|change (2 ^ 8) with 256; divlia]).
  replace (u8 (w &&& 0xFF)) with (w mod 256).
  2: { change 0xFF with (Z.ones 8). rewrite Z.land_ones by lia. change (2 ^ 8) with 256. rewrite u8_id; [done|]. by apply Z.mod_pos_bound. }
  rewrite (hex_text_app 2 2). change (16 ^ Z.of_nat 2) with 256.
  apply prints_split; apply prints_byte_hex; [divlia|by apply Z.mod_pos_bound].
Qed.

Lemma prints_dword_hex d : 0 <= d < 2 ^ 32 -> prints (print_dword_hex font_data d) (Glyph <$> hex_text 8 d) (fun _ => True).
Proof.
  intros Hd. unfold print_dword_hex.
  replace (u16 (d >>> 16)) with (d / 65536) by (rewrite shiftr_div by lia; rewrite u16_id; [done|change (2 ^ 16) with 65536; divlia]).
  replace (u16 (d &&& 0xFFFF)) with (d mod 65536).
  2: { change 0xFFFF with (Z.ones 16). rewrite Z.land_ones by lia. change (2 ^ 16) with 65536. rewrite u16_id; [done|]. by apply Z.mod_pos_bound. }
  rewrite (hex_text_app 4 4). change (16 ^ Z.of_nat 4) with 65536.
  apply prints_split; apply prints_word_hex; [divlia|by apply Z.mod_pos_bound].
Qed.

Lemma prints_qword_hex q : 0 <= q < 2 ^ 64 -> prints (print_qword_hex font_data q) (Glyph <$> hex_text 16 q) (fun _ => True).
Proof.
  intros Hq. unfold print_qword_hex.
  replace (u32 (q >>> 32)) with (q / 4294967296) by (rewrite shiftr_div by lia; rewrite u32_id; [done|change (2 ^ 32) with 4294967296; divlia]).
  replace (u32 (q &&& 0xFFFFFFFF)) with (q mod 4294967296).
  2: { change 0xFFFFFFFF with (Z.ones 32). rewrite Z.land_ones by lia. change (2 ^ 32) with 4294967296. rewrite u32_id; [done|]. by apply Z.mod_pos_bound. }
  rewrite (hex_text_app 8 8). change (16 ^ Z.of_nat 8) with 4294967296.
  apply prints_split; apply prints_dword_hex; [divlia|by apply Z.mod_pos_bound].
Qed.

(** ** [printf] *)

Lemma char_at_drop str k i l : drop k str = l -> (k <= length str)%nat -> i = Z.of_nat k ->
  forall s, char_at str i s = Done (default 0 (head l)) s.
Proof.
  intros <- Hk -> s. unfold char_at. rewrite head_drop.
  destruct (Z.eqb_spec (Z.of_nat k) (Z.of_nat (length str))) as [E|E].
  - by rewrite lookup_ge_None_2 by lia.
  - destruct (array_get_Some str (Z.of_nat k)) as (c & E1 & E2); [lia|]. rewrite E1. rewrite Nat2Z.id in E2.
    by rewrite E2.
Qed.

(** Where [conversion] leaves the loop of [printf]. *)
Definition continues (str : list Z) (k : nat) (its : list item) (r : Z * list arg) : Prop :=
  exists k', r.1 + 1 = Z.of_nat k' /\ (k < k' <= length str)%nat /\ render (drop k' str) r.2 = Some its.

(** One conversion prints the first part of what is left to print. *)
Definition converts (str : list Z) (k : nat) (its : list item) (m : MV (Z * list arg)) : Prop :=
  exists i1 i2, its = i1 ++ i2 /\ prints m i1 (continues str k i2).

Lemma pre_inv text r its : pre text r = Some its -> exists i2, r = Some i2 /\ its = (Glyph <$> text) ++ i2.
Proof. destruct r as [i2|]; cbn; intros H; [|done]. exists i2. split; [done|]. by injection H as <-. Qed.

Lemma converts_text str k its text r (m : MV unit) i args k' :
  pre text r = Some its -> r = render (drop k' str) args -> i + 1 = Z.of_nat k' -> (k < k' <= length str)%nat ->
  prints m (Glyph <$> text) (fun _ => True) -> converts str k its (m;; mret (i, args)).
Proof.
  intros (i2 & -> & ->)%pre_inv Hr Hi Hk Hm. exists (Glyph <$> text), i2. split; [done|].
  intros t s H. wp_step. eapply wp_mono; [by apply Hm|]. intros [] s' [_ Hp]. wp_steps.
  split; [|done]. exists k'. by split_and!; cbn; try lia.
Qed.

(** A conversion that takes an integer. *)
Lemma converts_int str k its args (f : Z -> list arg -> option (list item)) (m : Z * list arg -> MV (Z * list arg)) :
  with_int args f = Some its ->
  (forall z args', f z args' = Some its -> converts str k its (m (z, args'))) ->
  converts str k its (va_int args ≫= m).
Proof.
  destruct args as [|[z|v] args']; cbn; intros Hf Hm; try done. destruct (Hm z args' Hf) as (i1 & i2 & -> & Hp).
  exists i1, i2. split; [done|]. by apply (prints_pure _ _ (z, args')).
Qed.

Lemma converts_look str k its {A} (look : MV A) a (f : A -> MV (Z * list arg)) :
  (forall s, look s = Done a s) -> converts str k its (f a) -> converts str k its (look ≫= f).
Proof. intros Hl (i1 & i2 & -> & Hp). exists i1, i2. split; [done|]. by eapply prints_pure. Qed.

Lemma items_ok text i2 : Forall item_ok ((Glyph <$> text) ++ i2) -> text_ok text.
Proof. intros [H _]%Forall_app. by apply (Forall_fmap Glyph item_ok) in H. Qed.

Lemma conversion_converts str k args rest its :
  drop k str = 37 :: rest -> render (37 :: rest) args = Some its -> Forall item_ok its ->
  converts str k its (conversion font_data str (Z.of_nat k + 1) args).
Proof.
  intros Hd Hr Hok. apply drop_cons in Hd as Hd'. destruct Hd' as [Hk Hd1].
  unfold conversion. eapply converts_look; [eapply char_at_drop; [exact Hd1|lia|lia]|].
  cbn [render] in Hr. change (37 =? 0) with false in Hr. change (37 =? 10) with false in Hr.
  change (negb (37 =? 37)) with false in Hr. cbn iota in Hr.
  destruct rest as [|c1 rest1]; cbn [head default from_option id].
  { change (0 =? 100) with false. change (0 =? 117) with false. change (0 =? 108) with false.
    change (0 =? 98) with false. change (0 =? 115) with false. change (0 =? 99) with false.
    change (0 =? 119) with false. cbn iota.
    eapply converts_look; [eapply char_at_drop; [exact Hd|lia|lia]|]. cbn [head default from_option id].
    eapply (converts_text str k _ [37] (Some []) _ _ args (S k)); [done|by rewrite Hd1|lia|lia|].
    by apply prints_char. }
  apply drop_cons in Hd1 as Hd1'. destruct Hd1' as [Hk1 Hd2].
  destruct (c1 =? 100).
  { eapply converts_int; [exact Hr|]. intros z args' Hz. cbn beta iota.
    eapply converts_text; [exact Hz|by rewrite Hd2|lia|lia|]. apply prints_int, i32_range. }
  destruct (c1 =? 117).
  { eapply converts_look; [eapply char_at_drop; [exact Hd2|lia|lia]|].
    destruct rest1 as [|c2 rest2]; cbn [head default from_option id].
    - eapply converts_int; [exact Hr|]. intros z args' Hz. cbn beta iota. change (0 =? 120) with false. cbn iota.
      eapply converts_text; [exact Hz|by rewrite Hd2|lia|lia|]. by apply prints_unsigned.
    - apply drop_cons in Hd2 as Hd2'. destruct Hd2' as [Hk2 Hd3]. destruct (c2 =? 120).
      + eapply converts_int; [exact Hr|]. intros z args' Hz. cbn beta iota.
        eapply converts_text; [exact Hz|by rewrite Hd3|lia|lia|]. by apply prints_dword_hex.
      + eapply converts_int; [exact Hr|]. intros z args' Hz. cbn beta iota.
        eapply converts_text; [exact Hz|by rewrite Hd2|lia|lia|]. by apply prints_unsigned. }
  destruct (c1 =? 108).
  { eapply converts_look; [eapply char_at_drop; [exact Hd2|lia|lia]|].
    destruct rest1 as [|c2 rest2]; cbn [head default from_option id].
    - change (0 =? 100) with false. change (0 =? 117) with false. change (0 =? 120) with false. cbn iota.
      exists [Glyph 37; Glyph 108], []. split; [by injection Hr as <-|].
      eapply (prints_bind _ _ [Glyph 37] [Glyph 108]); [by apply prints_char|]. intros [] _.
      eapply (prints_bind _ _ [Glyph 108] []); [by apply prints_char|]. intros [] _.
      apply prints_ret. exists (S (S k)). cbn. rewrite Hd2. split_and!; done || lia.
    - apply drop_cons in Hd2 as Hd2'. destruct Hd2' as [Hk2 Hd3].
      destruct (c2 =? 100); [|destruct (c2 =? 117); [|destruct (c2 =? 120)]].
      1-3: eapply converts_int; [exact Hr|]; intros z args' Hz; cbn beta iota;
        (eapply converts_text; [exact Hz|by rewrite Hd3|lia|lia|]).
      + apply prints_long, i64_range.
      + by apply prints_unsigned_long.
      + by apply prints_qword_hex.
      + apply pre_inv in Hr as (i2 & Hr & ->). exists [Glyph 37; Glyph 108], i2. split; [done|].
        eapply (prints_bind _ _ [Glyph 37] [Glyph 108]); [by apply prints_char|]. intros [] _.
        eapply (prints_bind _ _ [Glyph 108] []); [by apply prints_char|]. intros [] _.
        apply prints_ret. exists (S (S k)). cbn [fst snd]. rewrite Hd2. split_and!; done || lia. }
  destruct (c1 =? 98).
  { eapply converts_int; [exact Hr|]. intros z args' Hz. cbn beta iota.
    eapply converts_text; [exact Hz|by rewrite Hd2|lia|lia|]. by apply prints_byte_hex. }
  destruct (c1 =? 115).
  { destruct args as [|[z|v] args']; try done. cbn [va_str].
    eapply converts_look; [done|]. cbn beta iota.
    pose proof (pre_inv _ _ _ Hr) as (i2 & _ & ->). eapply converts_text; [exact Hr|by rewrite Hd2|lia|lia|].
    apply prints_chars. by eapply items_ok. }
  destruct (c1 =? 99).
  { eapply converts_int; [exact Hr|]. intros z args' Hz. cbn beta iota.
    pose proof (pre_inv _ _ _ Hz) as (i2 & _ & ->). assert (0 <= i8 z < 128) as Hc by (apply items_ok in Hok; by inversion Hok).
    eapply converts_text; [exact Hz|by rewrite Hd2|lia|lia|]. by apply prints_char. }
  destruct (c1 =? 119).
  { eapply converts_int; [exact Hr|]. intros z args' Hz. cbn beta iota.
    eapply converts_text; [exact Hz|by rewrite Hd2|lia|lia|]. by apply prints_word_hex. }
  eapply converts_look; [eapply char_at_drop; [exact Hd|lia|lia]|]. cbn [head default from_option id].
  eapply (converts_text str k _ [37] _ _ _ args (S k)); [exact Hr|by rewrite Hd1|lia|lia|]. by apply prints_char.
Qed.

(** Everything that is printed is on the frame buffer in the end. *)
Definition on_screen (s : vga_state) : Prop :=
  forall x y, visible (mode s) x y -> front s !! place (mode s) x y = pixel s x y.

Lemma printed_presented its t s s1 s2 : printed its t s s1 -> presented s1 s2 ->
  printed its t s s2 /\ on_screen s2.
Proof.
  intros [[Hs Hc Hcol Hrow Hp Hb] [Em Ec] Ht] Hpr. pose proof (screen_presented _ _ Hs Hpr) as H2.
  destruct Hpr as [(f & d & ->) _ _ _ Hsh]. split.
  - constructor; [|by constructor|done]. constructor; try done.
  - intros x y Hv. exact (Hsh x y Hv).
Qed.

Lemma wp_printf str args its t s : shows t s -> render str args = Some its -> Forall item_ok its ->
  Z.of_nat (length str) < 2 ^ 63 ->
  wp (printf font_data str args) (fun td s' => td = cursor s /\ printed its t s s' /\ on_screen s') s.
Proof.
  intros H Hr Hok Hlen. unfold printf. wp_steps. eapply (wp_mono _ (fun _ s' => printed its t s s')).
  - eapply (wp_while_ix _ (fun '(k, i1, i2) '(i, args) s' => i = Z.of_nat k /\ (k <= length str)%nat /\
        its = i1 ++ i2 /\ render (drop k str) args = Some i2 /\ printed i1 t s s')
      (fun '(k, i1, i2) => Z.of_nat (length str) - Z.of_nat k)).
    + intros [[k i1] i2] [i args1] s1 (-> & Hk & E & Hr1 & Hp). rewrite E in Hok.
      apply Forall_app in Hok as [_ Hok2].
      wp_step. unfold wp at 1. rewrite (char_at_drop str k _ _ eq_refl Hk eq_refl).
      destruct (drop k str) as [|c rest] eqn:Ed; cbn [head default from_option id].
      { change (0 =? 0) with true. cbn iota. wp_steps. injection Hr1 as <-. by rewrite app_nil_r in E; subst. }
      apply drop_cons in Ed as Ed'. destruct Ed' as [Hk1 Ed1].
      pose proof Hr1 as Hr2. cbn [render] in Hr2. destruct (Z.eqb_spec c 0) as [E0|E0].
      { wp_steps. injection Hr2 as <-. by rewrite app_nil_r in E; subst. }
      destruct (Z.eqb_spec c 10) as [E10|E10].
      { destruct (render rest args1) as [i3|] eqn:Er; [|done]. injection Hr2 as <-. wp_steps.
        eapply wp_mono; [apply prints_newline; apply Hp|]. intros [] s2 [_ H2]. wp_steps.
        exists (S k, i1 ++ [Newline], i3). split; [|lia]. split; [lia|]. split; [lia|].
        split; [by rewrite <- app_assoc|]. rewrite Ed1. split; [done|]. by eapply printed_app. }
      destruct (Z.eqb_spec c 37) as [->|E37]; cbn [negb] in Hr2.
      * destruct (conversion_converts str k args1 rest i2 Ed Hr1 Hok2) as (i3 & i4 & -> & Hc).
        wp_step. eapply wp_mono; [apply Hc; apply Hp|]. intros [i' args'] s2 [(k' & Hi & Hk' & Hr') H2]. wp_steps.
        cbn in Hi, Hr'. exists (k', i1 ++ i3, i4). split; [|lia]. split; [done|]. split; [lia|].
        split; [by rewrite <- app_assoc|]. split; [done|]. by eapply printed_app.
      * apply pre_inv in Hr2 as (i3 & Hr3 & ->). apply (items_ok [c]) in Hok2 as Hc.
        assert (0 <= c < 128) as Hc' by (by inversion Hc). wp_steps.
        eapply wp_mono; [apply (prints_char c Hc'); apply Hp|]. intros [] s2 [_ H2]. wp_steps.
        exists (S k, i1 ++ [Glyph c], i3). split; [|lia]. split; [lia|]. split; [lia|].
        split; [by rewrite <- app_assoc|]. rewrite Ed1. split; [done|]. by eapply printed_app.
    + instantiate (1 := (0%nat, [], its)). split; [done|]. split; [lia|]. split; [done|]. split; [done|].
      by apply printed_nil.
    + unfold FUEL. lia.
  - intros [] s1 Hp. wp_step. eapply wp_mono; [apply wp_present; apply Hp|].
    intros [] s2 Hpr. wp_steps. split; [done|]. by eapply printed_presented.
Qed.
End Text.

(** ** [vga_init] *)

Definition blank : terminal := mkTerm (fun _ _ => None) (mkCursor 0 0).

(** A black console. *)
Definition fresh (m : vga_mode) (color : Z) (tr : list event) : vga_state :=
  mkVga m (replicate (Z.to_nat (size m)) 0) (replicate (Z.to_nat (size m)) 0)
    (replicate (Z.to_nat (diff_size m)) false) color (mkCursor 0 0) tr.

Lemma black_word m : mode_ok m -> word_of m (palette Black) = 0.
Proof. intros H. unfold word_of, color_word. by destruct (mo_format _ H) as [-> | ->]. Qed.

Lemma mode_sizes m : mode_ok m -> 0 <= size m /\ 0 <= diff_size m.
Proof.
  intros [Hh Hp Hv Hs Hc Hr Hd _]. rewrite Hs, Hd, Hc, Hr, !shiftr_div by lia.
  change (2 ^ 3) with 8. change (2 ^ 4) with 16.
  assert (0 <= (hor_res m + 7) / 8) by divlia. assert (0 <= (ver_res m + 15) / 16) by divlia. nia.
Qed.

Lemma fresh_shows font_data m color tr : mode_ok m -> 0 <= color < 16 ->
  shows font_data blank (fresh m color tr).
Proof.
  intros Hm Hc. pose proof (mode_sizes m Hm) as [Hs Hd]. pose proof (text_rows_pos m Hm).
  pose proof (text_cols_pos m Hm).
  constructor; cbn; try done; try lia.
  - constructor; cbn; rewrite ?length_replicate; try done; lia.
  - intros x y Hv. pose proof (place_range m Hm x y Hv). unfold pixel, grid_word. cbn.
    rewrite black_word by done. apply lookup_replicate. split; [done|]. unfold place. lia.
Qed.

Section Init.
Context {H : Type} `{!Heap H} (stale : Z -> Z).

Lemma wp_for_list {A} (get : vga_state -> list A) (set : list A -> vga_state -> vga_state) v n s :
  (forall l s, get (set l s) = l) -> (forall l l' s, set l (set l' s) = set l s) ->
  (forall s, set (get s) s = s) -> 0 <= n -> Z.of_nat (length (get s)) = n ->
  wp (for_ 0 n (fun i _ => l ← gets get; l ← of_option (array_set l i v); modify (set l)) ())
    (fun _ s' => s' = set (replicate (Z.to_nat n) v) s) s.
Proof.
  intros Hgs Hss Hsg Hn Hl. eapply wp_mono.
  - eapply (wp_for (fun i _ s' => exists l, s' = set l s /\ length l = length (get s) /\
        take (Z.to_nat i) l = replicate (Z.to_nat i) v)); [done| |].
    + exists (get s). by rewrite Hsg.
    + intros i [] s1 Hi (l & -> & Hll & Ht). wp_steps. rewrite Hgs. apply wp_of_option.
      rewrite array_set_Some by lia. eexists. split; [done|]. wp_steps. rewrite Hss.
      exists (<[Z.to_nat i := v]> l). rewrite length_insert. split; [done|]. split; [done|].
      replace (Z.to_nat (i + 1)) with (S (Z.to_nat i)) by lia. rewrite take_S_insert by lia.
      by rewrite Ht, replicate_S_end.
  - intros [] s' (l & -> & Hll & Ht). f_equal. rewrite Z.add_0_l in Ht. rewrite <- Ht. symmetry. apply take_ge. lia.
Qed.

Lemma wp_vga_init fb hres vres p_scan p_mode s a d h1 h2 :
  let m := mkMode fb a hres vres ((hres + 7) >>> 3) ((vres + 15) >>> 4) p_scan p_mode (p_scan * vres)
             (((hres + 7) >>> 3) * ((vres + 15) >>> 4)) in
  mode_ok m -> heap_kmalloc (u64 ((p_scan * vres) <<< 2)) s.1 = Done a h1 -> a <> 0 ->
  heap_kmalloc (u64 (((hres + 7) >>> 3) * ((vres + 15) >>> 4))) h1 = Done d h2 -> d <> 0 ->
  front s.2 = replicate (Z.to_nat (size m)) 0 -> cursor s.2 = mkCursor 0 0 ->
  wp (vga_init stale fb hres vres p_scan p_mode)
    (fun _ s' => s' = (h2, fresh m (global_textcolor s.2) (vg_trace s.2))) s.
Proof.
  intros m Hm Ea Ha Ed Hd Hf Hc. pose proof (mode_sizes m Hm) as [Hsz Hdz]. cbn in Hsz, Hdz.
  unfold vga_init, on_heap, on_vga. wp_steps. unfold wp at 1. rewrite Ea. wp_steps. unfold wp at 1. cbn [fst snd].
  rewrite Ed. rewrite (proj2 (Z.eqb_neq _ _) Ha), (proj2 (Z.eqb_neq _ _) Hd). cbn [orb]. wp_steps. cbn [fst snd].
  eapply wp_mono.
  { apply (wp_for_list back set_back); try done; [by intros []|]. cbn. rewrite length_fmap, length_seqZ. lia. }
  intros [] s1 ->. wp_steps. cbn [fst snd]. eapply wp_mono.
  { apply (wp_for_list diff set_diff); try done; [by intros []|]. cbn. rewrite length_fmap, length_seqZ. lia. }
  intros [] s2 ->. wp_steps. cbn [fst snd]. destruct s as [h0 [m0 b0 f0 d0 c0 cu0 t0]]. cbn in *. subst. done.
Qed.
End Init.

(** ** Properties *)

(** C39: [printf] on a console that shows a terminal: if the arguments fit the format and every
    character that is drawn has a glyph, it returns the old place of the cursor; the console
    then shows the terminal after the items [render] gives for the format and the arguments (each
    character a cell, a line break per ['\n'] of the format, the grid moved up at the end of the
    last row), the visible pixels of the frame buffer are those of the back buffer, and the
    debug port got exactly these characters. *)
Theorem printf_correct (font_data : list Z) (str : list Z) (args : list arg) (its : list item)
    (t : terminal) (s : vga_state) :
  (2048 <= length font_data)%nat -> shows font_data t s -> render str args = Some its ->
  Forall item_ok its -> Z.of_nat (length str) < 2 ^ 63 ->
  exists s', printf font_data str args s = Done (cursor s) s' /\
    printed font_data its t s s' /\ on_screen s'.
Proof.
  intros Hf H Hr Hok Hl. destruct (wp_inv _ _ _ (wp_printf font_data Hf str args its t s H Hr Hok Hl))
    as (td & s' & E & -> & Hp & Ho). by exists s'.
Qed.

(** What [print_unsigned] prints can be read back: the characters are digits, there are at
    most twenty, the first is no zero unless the number is, and their decimal value is the number. *)
Lemma print_unsigned_roundtrip (font_data : list Z) (x : Z) (t : terminal) (s : vga_state) :
  (2048 <= length font_data)%nat -> shows font_data t s -> 0 <= x < 2 ^ 32 ->
  exists l s', print_unsigned font_data x s = Done () s' /\ printed font_data (Glyph <$> l) t s s' /\
    dec_value l = x /\ Forall (fun c => 48 <= c < 58) l /\ (head l = Some 48 -> x = 0).
Proof.
  intros Hf H Hx. destruct (wp_inv _ _ _ (prints_unsigned font_data Hf x Hx t s H)) as ([] & s' & E & _ & Hp).
  exists (decimal x), s'. split; [done|]. split; [done|].
  split; [by apply decimal_value; change (10 ^ 20) with 100000000000000000000; lia|].
  split; [apply decimal_digits|]. unfold decimal.
  replace (head (rev (dec_rev 20 x))) with (last (dec_rev 20 x))
    by (rewrite <- head_reverse; unfold reverse; by rewrite List.rev_append_rev, app_nil_r).
  apply (dec_rev_last 20). change (10 ^ Z.of_nat 20) with 100000000000000000000. lia.
Qed.

(** [vga_init] with a supported mode, when the heap has the two buffers, leaves a black console
    with all its state well formed, if the frame buffer was black before: nothing in it clears that. *)
Lemma vga_init_correct (H : Type) (HH : Heap H) (stale : Z -> Z) (font_data : list Z)
    (fb hres vres p_scan p_mode a d : Z) (s : H * vga_state) (h1 h2 : H) :
  let m := mkMode fb a hres vres ((hres + 7) >>> 3) ((vres + 15) >>> 4) p_scan p_mode (p_scan * vres)
             (((hres + 7) >>> 3) * ((vres + 15) >>> 4)) in
  mode_ok m -> heap_kmalloc (u64 ((p_scan * vres) <<< 2)) s.1 = Done a h1 -> a <> 0 ->
  heap_kmalloc (u64 (((hres + 7) >>> 3) * ((vres + 15) >>> 4))) h1 = Done d h2 -> d <> 0 ->
  front s.2 = replicate (Z.to_nat (size m)) 0 -> cursor s.2 = mkCursor 0 0 ->
  0 <= global_textcolor s.2 < 16 ->
  exists s', vga_init stale fb hres vres p_scan p_mode s = Done () (h2, s') /\
    mode s' = m /\ shows font_data blank s' /\ vg_trace s' = vg_trace s.2.
Proof.
  intros m Hm Ea Ha Ed Hd Hf Hc Ht.
  destruct (wp_inv _ _ _ (wp_vga_init stale fb hres vres p_scan p_mode s a d h1 h2 Hm Ea Ha Ed Hd Hf Hc))
    as ([] & s' & E & ->).
  eexists. split; [exact E|]. split; [done|]. split; [by apply fresh_shows|done].
Qed.

(** A console of four characters; the font is one that any glyph is taken from. *)
Definition sample_mode : vga_mode := mkMode 0xE0000000 0x1000 16 32 2 2 16 RGB 512 4.
Definition sample_font : list Z := replicate (Z.to_nat 4096) 0x5A.

Lemma sample_mode_ok : mode_ok sample_mode.
Proof. constructor; vm_compute; intuition discriminate. Qed.

Lemma printf_correct_witness :
  exists s', printf sample_font [37; 117; 37; 10; 37; 115; 33] [Int 42; Str (Some [104; 105])]
      (fresh sample_mode LightGray []) = Done (mkCursor 0 0) s' /\
    printed sample_font [Glyph 52; Glyph 50; Glyph 37; Newline; Glyph 104; Glyph 105; Glyph 33]
      blank (fresh sample_mode LightGray []) s' /\ on_screen s'.
Proof.
  apply (printf_correct sample_font [37; 117; 37; 10; 37; 115; 33] [Int 42; Str (Some [104; 105])]
    [Glyph 52; Glyph 50; Glyph 37; Newline; Glyph 104; Glyph 105; Glyph 33] blank
    (fresh sample_mode LightGray [])).
  - unfold sample_font. rewrite length_replicate. lia.
  - apply fresh_shows; [apply sample_mode_ok|vm_compute; intuition discriminate].
  - vm_compute. reflexivity.
  - repeat constructor; cbn; lia.
  - cbn. lia.
Defined.

Lemma print_unsigned_roundtrip_witness :
  exists l s', print_unsigned sample_font 4294967295 (fresh sample_mode LightGray []) = Done () s' /\
    printed sample_font (Glyph <$> l) blank (fresh sample_mode LightGray []) s' /\
    dec_value l = 4294967295 /\ Forall (fun c => 48 <= c < 58) l /\ (head l = Some 48 -> 4294967295 = 0).
Proof.
  apply (print_unsigned_roundtrip sample_font 4294967295 blank (fresh sample_mode LightGray [])).
  - unfold sample_font. rewrite length_replicate. lia.
  - apply fresh_shows; [apply sample_mode_ok|vm_compute; intuition discriminate].
  - lia.
Defined.

(** A heap that always has memory. *)
Definition sample_heap : Heap Z := {| heap_kmalloc := fun n => fun h => Done h (h + n) |}.

Lemma vga_init_correct_witness :
  let s := (0x1000, set_front (replicate (Z.to_nat 512) 0) (fresh sample_mode LightGray [])) in
  exists s', @vga_init Z sample_heap (fun i => i) 0xE0000000 16 32 16 RGB s = Done () (0x1804, s') /\
    mode s' = sample_mode /\ shows sample_font blank s' /\ vg_trace s' = [].
Proof.
  apply (vga_init_correct Z sample_heap (fun i => i) sample_font 0xE0000000 16 32 16 RGB 0x1000 0x1800
    (0x1000, set_front (replicate (Z.to_nat 512) 0) (fresh sample_mode LightGray [])) 0x1800 0x1804);
    try reflexivity; try discriminate; [apply sample_mode_ok|vm_compute; intuition discriminate].
Defined.
