(* ===== verification/KBits.v ===== *)
(** * The bit maps of the kernel heap (the first half of [x86-64/memory/kmalloc.c])

    A slab is a page of 128 objects of 32 bytes; bit [i] of its map is set when object [i] is
    taken. The map [Cache_2048] of two 64-bit words is one 128-bit number here, the first word
    the low half; the code writes it through pointers of every width. *)
From S2P Require Import KPrelude.

Definition Used2048 := 0xFFFFFFFFFFFFFFFF.

Definition low_word (b : Z) : Z := u64 b.
Definition high_word (b : Z) : Z := b >>> 64.
Definition words (low high : Z) : Z := low ||| (high <<< 64).

(** [lowlevel.asm]: the index of the lowest set bit, 64 for 0. *)
Fixpoint bsf_from (n : nat) (i x : Z) : Z :=
  match n with
  | O => i
  | S n => if Z.testbit x i then i else bsf_from n (i + 1) x
  end.
Definition Bsf (x : Z) : Z := bsf_from 64 0 x.

Definition Bsf128 (low high : Z) : Z :=
  let ind := Bsf low in if ind =? 64 then ind + Bsf high else ind.

Definition mask128 (low high ind : Z) : Z * Z :=
  if ind =? 128 then (low &&& u64 (Z.lnot Used2048), high &&& u64 (Z.lnot Used2048))
  else (low &&& (if ind >>> 6 =? 0 then u64 (Used2048 <<< (ind &&& 63)) else u64 (Z.lnot Used2048)),
        high &&& u64 (Used2048 <<< (if ind >>> 6 =? 0 then 0 else ind - 64))).

(** [None]: a shift by the whole width, which C leaves undefined. *)
Definition Or128 (low high ind : Z) : option (Z * Z) :=
  if ind =? 128 then Some (Used2048, Used2048)
  else if ind =? 0 then None
  else
    Some (low ||| (if ind >>> 6 =? 0 then Used2048 >>> (64 - (ind &&& 63)) else Used2048),
          high ||| (if ind >>> 6 =? 0 then 0
                    else if ind &&& 63 =? 0 then 0 else Used2048 >>> (64 - (ind - 64)))).

Definition set64 (Long ind : Z) : Z := if ind >? 63 then Long else Long ||| (1 <<< ind).
Definition clean64 (Long ind : Z) : Z := if ind >? 63 then Long else Long &&& u64 (Z.lnot (1 <<< ind)).

Definition set128 (b ind : Z) : Z :=
  if ind >? 127 then b
  else words (set64 (low_word b) ind)
         (if ind >>> 6 =? 0 then high_word b else set64 (high_word b) (u8 (ind - 64))).
Definition clean128 (b ind : Z) : Z :=
  if ind >? 127 then b
  else words (clean64 (low_word b) ind)
         (if ind >>> 6 =? 0 then high_word b else clean64 (high_word b) (u8 (ind - 64))).

Section Objects.
Context {S : Type}.

(** A store of [w] bits from the byte of bit [at_] on: all ones, or zero. *)
Definition store_chunk (v : bool) (at_ w b : Z) : M S Z :=
  if (at_ <? 0) || (at_ + w >? 128) then fault
  else mret (if v then b ||| (Z.ones w <<< at_) else b &&& Z.lnot (Z.ones w <<< at_)).

(** [count] stores of [w] bits from object [sc] on, which a multiple of 8 is. *)
Definition store_chunks (v : bool) (w count sc b : Z) : M S Z :=
  for_ 0 count (fun i b => store_chunk v (8 * (sc >>> 3) + w * i) w b) b.

(** [for (int i = sc; i < sc + n; i++) set128(...)] or [clean128]. *)
Definition single_bits (v : bool) (n sc b : Z) : M S Z :=
  for_ sc n (fun i b => mret (if v then set128 b (u8 i) else clean128 b (u8 i))) b.

(** [while (req > 0)] at a multiple of 8. *)
Definition aligned_objs (v : bool) (req sc b : Z) : M S Z :=
  while FUEL (fun '(req, sc, b) =>
    if req >? 0 then
      let qwc := req >>> 6 in
      let dwc := req >>> 5 in
      let wc := req >>> 4 in
      let bc := req >>> 3 in
      let c := req &&& 7 in
      if qwc >? 0 then
        b ← store_chunks v 64 qwc sc b; mret (inl (req - (qwc <<< 6), sc + (qwc <<< 6), b))
      else if dwc >? 0 then
        b ← store_chunks v 32 dwc sc b; mret (inl (req - (dwc <<< 5), sc + (dwc <<< 5), b))
      else if wc >? 0 then
        b ← store_chunks v 16 wc sc b; mret (inl (req - (wc <<< 4), sc + (wc <<< 4), b))
      else if bc >? 0 then
        b ← store_chunks v 8 bc sc b; mret (inl (req - (bc <<< 3), sc + (bc <<< 3), b))
      else if c >? 0 then
        b ← single_bits v c sc b; mret (inl (req - c, sc + c, b))
      else mret (inl (req, sc, b))
    else mret (inr b)) (req, sc, b).

(** The objects from [sc] on are marked: the end of [find_objs], and [clean_cache]. *)
Definition mark_objs (v : bool) (req sc b : Z) : M S Z :=
  if sc &&& 7 =? 0 then aligned_objs v req sc b
  else if negb (req >>> 3 =? 0) then
    '(req, sc, b) ← while FUEL (fun '(req, sc, b) =>
      if req >? 0 then
        let b := if v then set128 b (u8 sc) else clean128 b (u8 sc) in
        let sc := sc + 1 in
        let req := req - 1 in
        mret (if sc &&& 7 =? 0 then inr (req, sc, b) else inl (req, sc, b))
      else mret (inr (req, sc, b))) (req, sc, b);
    if sc &&& 7 =? 0 then aligned_objs v req sc b else mret b
  else single_bits v req sc b.

Definition clean_cache (req b sc : Z) : M S Z := mark_objs false req sc b.

Record search_ret := mkSearchRet { ret_sc : Z; ret_addr : Z }.

(** The search for [req] clear bits: their first index. *)
Definition find_objs_run (req b : Z) : M S (option Z) :=
  while FUEL (fun '(low, high) =>
    let ind := Bsf128 (u64 (Z.lnot low)) (u64 (Z.lnot high)) in
    if ind <? 128 then
      let (low, high) := mask128 low high ind in
      let ind2 := Bsf128 low high in
      if ind2 - ind >=? req then mret (inr (Some ind))
      else w ← of_option (Or128 low high ind2); mret (inl w)
    else mret (inr None)) (low_word b, high_word b).

(** The answer and the map afterwards; [ret_addr] is 0 when there is no room. *)
Definition find_objs (req b base : Z) (creq : bool) : M S (search_ret * Z) :=
  if req =? 0 then mret (mkSearchRet 0 0, b)
  else if negb creq && negb ((low_word b =? 0) && (high_word b =? 0)) then mret (mkSearchRet 0 0, b)
  else
    sc ← find_objs_run req b;
    match sc with
    | None => mret (mkSearchRet 0 0, b)
    | Some sc =>
        b ← mark_objs true req sc b;
        mret (mkSearchRet sc (u64 (base + (sc <<< 5))), b)
    end.
End Objects.
