(* ===== verification/KBitsProofs.v ===== *)
(** * The bit maps of the kernel heap: proofs *)
From S2P Require Import KPrelude KBits.

Definition word64 (x : Z) : Prop := 0 <= x < 2 ^ 64.
Definition map128 (b : Z) : Prop := 0 <= b < 2 ^ 128.

(** ** Words *)

Lemma words_bits low high i : word64 low -> 0 <= i ->
  Z.testbit (words low high) i = if i <? 64 then Z.testbit low i else Z.testbit high (i - 64).
Proof.
  intros Hl Hi. unfold words. autorewrite with bits. destruct (Z.ltb_spec i 64).
  - by rewrite (Z.testbit_neg_r high) by lia; rewrite orb_false_r.
  - by rewrite (testbit_above low 64) by (done || lia).
Qed.

Lemma low_word_bits b i : 0 <= i -> Z.testbit (low_word b) i = (i <? 64) && Z.testbit b i.
Proof. intros Hi. by apply testbit_mod_pow2. Qed.
Lemma high_word_bits b i : 0 <= i -> Z.testbit (high_word b) i = Z.testbit b (i + 64).
Proof. intros Hi. unfold high_word. by rewrite Z.shiftr_spec by lia. Qed.

Lemma low_word_range b : word64 (low_word b).
Proof. apply u64_range. Qed.
Lemma high_word_range b : map128 b -> word64 (high_word b).
Proof.
  intros [H0 H1]. unfold high_word, word64. rewrite shiftr_div by lia.
  change (2 ^ 128) with (2 ^ 64 * 2 ^ 64) in H1. change (2 ^ 64) with 18446744073709551616 in *. divlia.
Qed.

Lemma words_range low high : word64 low -> word64 high -> map128 (words low high).
Proof.
  unfold word64, map128. intros Hl Hh. unfold words. rewrite Z.lor_comm, lor_shiftl_add by lia.
  change (2 ^ 128) with (2 ^ 64 * 2 ^ 64). change (2 ^ 64) with 18446744073709551616 in *. lia.
Qed.

Lemma words_split b : map128 b -> words (low_word b) (high_word b) = b.
Proof.
  intros Hb. apply Z.bits_inj'. intros i Hi. rewrite words_bits by (done || apply low_word_range).
  destruct (Z.ltb_spec i 64).
  - rewrite low_word_bits by done. by rewrite (proj2 (Z.ltb_lt _ _)) by done.
  - rewrite high_word_bits by lia. f_equal. lia.
Qed.

Lemma not_bits x i : 0 <= i < 64 -> Z.testbit (u64 (Z.lnot x)) i = negb (Z.testbit x i).
Proof.
  intros Hi. unfold u64. rewrite testbit_mod_pow2, Z.lnot_spec by lia. by rewrite (proj2 (Z.ltb_lt _ _)) by lia.
Qed.

Lemma used_bits i : 0 <= i -> Z.testbit Used2048 i = (i <? 64).
Proof. intros Hi. change Used2048 with (Z.ones 64). by apply testbit_ones. Qed.

Lemma used_left k i : 0 <= k -> 0 <= i -> Z.testbit (u64 (Used2048 <<< k)) i = (k <=? i) && (i <? 64).
Proof.
  intros Hk Hi. unfold u64. rewrite testbit_mod_pow2, Z.shiftl_spec by lia.
  destruct (Z.leb_spec k i), (Z.ltb_spec i 64); cbn; try done.
  - rewrite used_bits by lia. lia.
  - by rewrite Z.testbit_neg_r by lia.
Qed.

Lemma used_right k i : 0 <= k -> 0 <= i -> Z.testbit (Used2048 >>> k) i = (i <? 64 - k).
Proof. intros Hk Hi. rewrite Z.shiftr_spec, used_bits by lia. lia. Qed.

(** ** The first set bit *)

(** [r] is the first index below [n] where [f] holds, or [n]. *)
Definition first_at (f : Z -> bool) (n r : Z) : Prop :=
  0 <= r <= n /\ (forall j, 0 <= j < r -> f j = false) /\ (r < n -> f r = true).

Lemma bsf_from_spec n : forall i x,
  let r := bsf_from n i x in
  i <= r <= i + Z.of_nat n /\ (forall j, i <= j < r -> Z.testbit x j = false) /\
  (r < i + Z.of_nat n -> Z.testbit x r = true).
Proof.
  induction n as [|n IH]; intros i x; cbn [bsf_from].
  - split; [lia|]. split; [|lia]. intros j Hj. lia.
  - destruct (Z.testbit x i) eqn:E.
    + split; [lia|]. split; [|done]. intros j Hj. lia.
    + destruct (IH (i + 1) x) as (H1 & H2 & H3). split; [lia|]. split; [|intros; apply H3; lia].
      intros j Hj. destruct (decide (j = i)) as [->|]; [done|]. apply H2. lia.
Qed.

Lemma Bsf_spec x : first_at (Z.testbit x) 64 (Bsf x).
Proof. destruct (bsf_from_spec 64 0 x) as (H1 & H2 & H3). split; [done|]. split; [done|]. intros. by apply H3. Qed.

Lemma Bsf128_spec low high : word64 low -> first_at (Z.testbit (words low high)) 128 (Bsf128 low high).
Proof.
  intros Hl. destruct (Bsf_spec low) as (R1 & F1 & T1). destruct (Bsf_spec high) as (R2 & F2 & T2).
  unfold Bsf128. destruct (Z.eqb_spec (Bsf low) 64) as [E|E].
  - rewrite E in *. split; [lia|]. split.
    + intros j Hj. rewrite words_bits by (done || lia).
      destruct (Z.ltb_spec j 64); [apply F1; lia|apply F2; lia].
    + intros Hlt. rewrite words_bits by (done || lia). rewrite (proj2 (Z.ltb_ge _ _)) by lia.
      replace (64 + Bsf high - 64) with (Bsf high) by lia. apply T2. lia.
  - split; [lia|]. split.
    + intros j Hj. rewrite words_bits by (done || lia). rewrite (proj2 (Z.ltb_lt _ _)) by lia. apply F1. lia.
    + intros _. rewrite words_bits by (done || lia). rewrite (proj2 (Z.ltb_lt _ _)) by lia. apply T1. lia.
Qed.

Lemma shr6 ind : 0 <= ind -> (ind >>> 6 =? 0) = (ind <? 64).
Proof. intros H. rewrite shiftr_div by lia. change (2 ^ 6) with 64. divlia. Qed.
Lemma land63 ind : ind &&& 63 = ind mod 64.
Proof. change 63 with (Z.ones 6). by rewrite Z.land_ones by lia. Qed.

Lemma land_word a b : word64 a -> word64 (a &&& b).
Proof. intros H. by apply (land_bounded a b 64). Qed.
Lemma lor_word a b : word64 a -> word64 b -> word64 (a ||| b).
Proof. intros Ha Hb. by apply (lor_bounded a b 64). Qed.

Lemma mask128_spec low high ind : word64 low -> word64 high -> 0 <= ind < 128 ->
  let p := mask128 low high ind in
  word64 p.1 /\ word64 p.2 /\
  forall i, 0 <= i < 128 -> Z.testbit (words p.1 p.2) i = (ind <=? i) && Z.testbit (words low high) i.
Proof.
  intros Hl Hh Hi. unfold mask128. rewrite (proj2 (Z.eqb_neq ind 128)) by lia. rewrite shr6, land63 by lia.
  cbn [fst snd]. split; [by apply land_word|]. split; [by apply land_word|].
  intros i Hr. rewrite !words_bits by (try apply land_word; done || lia).
  destruct (Z.ltb_spec i 64) as [H64|H64]; rewrite Z.land_spec; destruct (Z.ltb_spec ind 64) as [I64|I64].
  - rewrite used_left by divlia. rewrite Z.mod_small by lia. rewrite (proj2 (Z.ltb_lt i 64)) by lia.
    by rewrite andb_true_r, andb_comm.
  - change (u64 (Z.lnot Used2048)) with 0. rewrite Z.testbit_0_l, andb_false_r.
    by rewrite (proj2 (Z.leb_gt _ _)) by lia.
  - rewrite used_left by lia. rewrite (proj2 (Z.leb_le 0 _)), (proj2 (Z.ltb_lt (i - 64) 64)), (proj2 (Z.leb_le ind i)) by lia.
    by rewrite andb_true_r.
  - rewrite used_left by lia. rewrite (proj2 (Z.ltb_lt (i - 64) 64)) by lia.
    replace (ind - 64 <=? i - 64) with (ind <=? i) by lia. by rewrite andb_true_r, andb_comm.
Qed.

Lemma used_word k : 0 <= k -> word64 (Used2048 >>> k).
Proof.
  intros Hk. unfold word64. rewrite shiftr_div by lia. split; [apply Z.div_pos; [done|by apply Z.pow_pos_nonneg]|].
  apply Z.div_lt_upper_bound; [by apply Z.pow_pos_nonneg|]. pose proof (Z.pow_pos_nonneg 2 k).
  change (2 ^ 64) with 18446744073709551616. unfold Used2048. lia.
Qed.

Lemma Or128_spec low high ind : word64 low -> word64 high -> 0 < ind <= 128 ->
  exists low' high', Or128 low high ind = Some (low', high') /\ word64 low' /\ word64 high' /\
  forall i, 0 <= i < 128 -> Z.testbit (words low' high') i = (i <? ind) || Z.testbit (words low high) i.
Proof.
  intros Hl Hh Hi. unfold Or128. destruct (Z.eqb_spec ind 128) as [->|E].
  { exists Used2048, Used2048. split; [done|]. split; [done|]. split; [done|]. intros i Hr.
    rewrite (words_bits Used2048) by (done || lia). rewrite (proj2 (Z.ltb_lt i 128)) by lia.
    destruct (Z.ltb_spec i 64); rewrite used_bits by lia; apply Z.ltb_lt; lia. }
  rewrite (proj2 (Z.eqb_neq ind 0)) by lia. rewrite shr6, land63 by lia.
  eexists _, _. split; [done|].
  destruct (Z.ltb_spec ind 64) as [I64|I64].
  - rewrite Z.mod_small by lia. split; [apply lor_word; [done|by apply used_word; lia]|].
    split; [by rewrite Z.lor_0_r|]. intros i Hr. rewrite Z.lor_0_r.
    rewrite !words_bits by (try apply lor_word; try apply used_word; done || lia).
    destruct (Z.ltb_spec i 64); [|by rewrite (proj2 (Z.ltb_ge i ind)) by lia].
    rewrite Z.lor_spec, used_right by lia. replace (64 - (64 - ind)) with ind by lia. by rewrite orb_comm.
  - assert (ind mod 64 = ind - 64) as Em by divlia. rewrite Em.
    assert (word64 Used2048) as Hu by done.
    split; [by apply lor_word|].
    destruct (Z.eqb_spec (ind - 64) 0) as [E0|E0].
    + split; [by rewrite Z.lor_0_r|]. intros i Hr. rewrite Z.lor_0_r.
      rewrite !words_bits by (try apply lor_word; done || lia).
      destruct (Z.ltb_spec i 64); [|by rewrite (proj2 (Z.ltb_ge i ind)) by lia].
      rewrite Z.lor_spec, used_bits by lia. rewrite (proj2 (Z.ltb_lt i 64)), (proj2 (Z.ltb_lt i ind)) by lia.
      apply orb_true_r.
    + split; [apply lor_word; [done|by apply used_word; lia]|]. intros i Hr.
      rewrite !words_bits by (try apply lor_word; done || lia).
      destruct (Z.ltb_spec i 64).
      * rewrite Z.lor_spec, used_bits by lia. rewrite (proj2 (Z.ltb_lt i 64)), (proj2 (Z.ltb_lt i ind)) by lia.
        apply orb_true_r.
      * rewrite Z.lor_spec, used_right by lia. replace (i - 64 <? 64 - (64 - (ind - 64))) with (i <? ind) by lia.
        by rewrite orb_comm.
Qed.

(** ** The search *)

(** [n] objects from [c] on are free. *)
Definition fits (b c n : Z) : Prop :=
  0 <= c /\ c + n <= 128 /\ forall i, c <= i < c + n -> Z.testbit b i = false.

(** The first place where [n] objects are free. *)
Definition first_run (b n : Z) (r : option Z) : Prop :=
  match r with
  | Some c => fits b c n /\ forall c', c' < c -> ~ fits b c' n
  | None => forall c, ~ fits b c n
  end.

Section Search.
Context {S : Type}.

Lemma wp_find_objs_run req b (s : S) : map128 b -> 0 < req ->
  wp (find_objs_run req b) (fun r s' => s' = s /\ first_run b req r) s.
Proof.
  intros Hb Hreq. unfold find_objs_run.
  eapply (wp_while_ix _ (fun p '(low, high) s' => s' = s /\ word64 low /\ word64 high /\ 0 <= p <= 128 /\
      (forall i, 0 <= i < 128 -> Z.testbit (words low high) i = (i <? p) || Z.testbit b i) /\
      (forall c, c < p -> ~ fits b c req)) (fun p => 128 - p)).
  - intros p [low high] s' (-> & Hl & Hh & Hp & HW & Hno).
    pose proof (Bsf128_spec (u64 (Z.lnot low)) (u64 (Z.lnot high)) (u64_range _)) as (R1 & F1 & T1).
    set (ind := Bsf128 (u64 (Z.lnot low)) (u64 (Z.lnot high))) in *.
    assert (forall i, 0 <= i < 128 ->
      Z.testbit (words (u64 (Z.lnot low)) (u64 (Z.lnot high))) i = negb ((i <? p) || Z.testbit b i)) as HN.
    { intros i Hi. rewrite <- HW by done. rewrite !words_bits by (try apply u64_range; done || lia).
      destruct (Z.ltb_spec i 64); apply not_bits; lia. }
    assert (forall i, p <= i < ind -> Z.testbit b i = true) as Hfull.
    { intros i Hi. pose proof (F1 i ltac:(lia)) as E. rewrite HN in E by lia.
      rewrite (proj2 (Z.ltb_ge i p)) in E by lia. by destruct (Z.testbit b i). }
    assert (forall c, p <= c < ind -> ~ fits b c req) as Hno1.
    { intros c Hc (_ & _ & Hf). specialize (Hfull c Hc). by rewrite Hf in Hfull by lia. }
    destruct (Z.ltb_spec ind 128) as [Hlt|Hge].
    + specialize (T1 Hlt). rewrite HN in T1 by lia.
      assert (p <= ind) as Hpi.
      { destruct (Z.ltb_spec ind p) in T1; [done|lia]. }
      pose proof (mask128_spec low high ind Hl Hh ltac:(lia)) as Hm.
      destruct (mask128 low high ind) as [l1 h1]. destruct Hm as (Hl1 & Hh1 & HM). cbn [fst snd] in *.
      pose proof (Bsf128_spec l1 h1 Hl1) as (R2 & F2 & T2). set (ind2 := Bsf128 l1 h1) in *.
      assert (ind < ind2) as Hlt2.
      { destruct (decide (ind2 = 128)); [lia|]. specialize (T2 ltac:(lia)). rewrite HM, HW in T2 by lia.
        destruct (Z.leb_spec ind ind2) in T2; [|done].
        destruct (decide (ind2 = ind)) as [E|]; [|lia]. rewrite E in T2. cbn in T2. rewrite T2 in T1. done. }
      assert (forall i, ind <= i < ind2 -> Z.testbit b i = false) as Hfree.
      { intros i Hi. pose proof (F2 i ltac:(lia)) as E. rewrite HM, HW in E by lia.
        rewrite (proj2 (Z.leb_le ind i)) in E by lia. rewrite (proj2 (Z.ltb_ge i p)) in E by lia. done. }
      rewrite Z.geb_leb. destruct (Z.leb_spec req (ind2 - ind)) as [Hok|Hshort].
      * wp_steps. split; [done|]. split.
        -- split; [lia|]. split; [lia|]. intros i Hi. apply Hfree. lia.
        -- intros c Hc. destruct (Z.lt_ge_cases c p); [by apply Hno|by apply Hno1].
      * destruct (Or128_spec l1 h1 ind2 Hl1 Hh1 ltac:(lia)) as (l2 & h2 & E & Hl2 & Hh2 & HO).
        wp_step. apply wp_of_option. exists (l2, h2). split; [done|]. wp_steps. exists ind2.
        split; [|lia]. split; [done|]. split; [done|]. split; [done|]. split; [lia|]. split.
        -- intros i Hi. rewrite HO, HM, HW by done. destruct (Z.ltb_spec i ind2); [done|]. cbn.
           rewrite (proj2 (Z.leb_le ind i)), (proj2 (Z.ltb_ge i p)) by lia. done.
        -- intros c Hc. destruct (Z.lt_ge_cases c p); [by apply Hno|].
           destruct (Z.lt_ge_cases c ind); [by apply Hno1|]. intros (_ & H128 & Hf).
           specialize (T2 ltac:(lia)). rewrite HM, HW in T2 by lia.
           rewrite (proj2 (Z.leb_le ind ind2)), (proj2 (Z.ltb_ge ind2 p)) in T2 by lia. cbn in T2.
           by rewrite Hf in T2 by lia.
    + wp_steps. split; [done|]. cbn. intros c Hf. pose proof Hf as (H0 & H1 & _).
      destruct (Z.lt_ge_cases c p); [by apply (Hno c)|]. apply (Hno1 c); [lia|done].
  - instantiate (1 := 0). split; [done|]. split; [apply low_word_range|]. split; [by apply high_word_range|].
    split; [lia|]. split.
    + intros i Hi. rewrite words_split by done. by rewrite (proj2 (Z.ltb_ge i 0)) by lia.
    + intros c Hc (H0 & _). lia.
  - unfold FUEL. lia.
Qed.
End Search.

(** ** Marking objects *)

(** [b'] is [b] with the objects of [[lo, hi)] set to [v]. *)
Definition marks (v : bool) (lo hi b b' : Z) : Prop :=
  map128 b' /\ forall i, 0 <= i < 128 -> Z.testbit b' i = if (lo <=? i) && (i <? hi) then v else Z.testbit b i.

Lemma marks_refl v lo b : map128 b -> marks v lo lo b b.
Proof.
  intros H. split; [done|]. intros i Hi. destruct (Z.leb_spec lo i), (Z.ltb_spec i lo); cbn; try done. lia.
Qed.

Lemma marks_trans v lo mid hi b b1 b2 : lo <= mid <= hi ->
  marks v lo mid b b1 -> marks v mid hi b1 b2 -> marks v lo hi b b2.
Proof.
  intros Hm [H1 F1] [H2 F2]. split; [done|]. intros i Hi. rewrite F2, F1 by done.
  destruct (Z.leb_spec lo i), (Z.leb_spec mid i), (Z.ltb_spec i mid), (Z.ltb_spec i hi); cbn; done || lia.
Qed.

Lemma marks_ext b b1 b2 v lo hi : marks v lo hi b b1 -> marks v lo hi b b2 -> b1 = b2.
Proof.
  intros [[R1 R1'] F1] [[R2 R2'] F2]. apply Z.bits_inj'. intros i Hi. destruct (Z.lt_ge_cases i 128).
  - by rewrite F1, F2 by lia.
  - by rewrite !(testbit_above _ 128) by lia.
Qed.

Lemma chunk_range at_ w : 0 <= at_ -> 0 <= w -> at_ + w <= 128 -> map128 (Z.ones w <<< at_).
Proof.
  intros Ha Hw H. assert (0 <= Z.ones w <<< at_) as H0.
  { apply Z.shiftl_nonneg. rewrite Z.ones_equiv. pose proof (Z.pow_pos_nonneg 2 w). lia. }
  split; [done|]. apply bounded_of_bits; [lia|done|]. intros i Hi. rewrite Z.shiftl_spec by lia.
  rewrite testbit_ones by lia. lia.
Qed.

Lemma and_not_range b m : map128 b -> map128 (b &&& Z.lnot m).
Proof. intros H. by apply (land_bounded b _ 128). Qed.
Lemma or_range b m : map128 b -> map128 m -> map128 (b ||| m).
Proof. intros H1 H2. by apply (lor_bounded b m 128). Qed.

Lemma single_set b i : map128 b -> 0 <= i < 128 -> marks true i (i + 1) b (set128 b (u8 i)).
Proof.
  intros Hb Hi. rewrite (u8_id i) by (change (2 ^ 8) with 256; lia). unfold set128. rewrite Z.gtb_ltb, (proj2 (Z.ltb_ge _ _)) by lia.
  rewrite shr6 by lia. pose proof (high_word_range b Hb) as Hh. pose proof (low_word_range b) as Hl.
  assert (forall w k, word64 w -> 0 <= k < 64 -> word64 (set64 w k) /\
    forall j, 0 <= j < 64 -> Z.testbit (set64 w k) j = (j =? k) || Z.testbit w j) as Hset.
  { intros w k Hw Hk. unfold set64. rewrite Z.gtb_ltb, (proj2 (Z.ltb_ge 63 k)) by lia. split.
    - apply lor_word; [done|]. rewrite Z.shiftl_1_l. split; [by apply Z.pow_nonneg|]. apply Z.pow_lt_mono_r; lia.
    - intros j Hj. rewrite Z.lor_spec, Z.shiftl_1_l, Z.pow2_bits_eqb by lia. by rewrite Z.eqb_sym, orb_comm. }
  destruct (Z.ltb_spec i 64) as [I|I].
  - destruct (Hset _ i Hl ltac:(lia)) as [H1 H2]. split; [by apply words_range|]. intros j Hj.
    rewrite words_bits by (done || lia). destruct (Z.ltb_spec j 64).
    + rewrite H2, low_word_bits by lia. rewrite (proj2 (Z.ltb_lt j 64)) by lia.
      replace ((i <=? j) && (j <? i + 1)) with (j =? i) by lia. by destruct (j =? i).
    + rewrite high_word_bits by lia. replace ((i <=? j) && (j <? i + 1)) with false by lia. f_equal. lia.
  - rewrite u8_id by (change (2 ^ 8) with 256; lia). destruct (Hset _ (i - 64) Hh ltac:(lia)) as [H1 H2].
    unfold set64 at 1. rewrite Z.gtb_ltb, (proj2 (Z.ltb_lt 63 i)) by lia.
    split; [by apply words_range|]. intros j Hj.
    rewrite words_bits by (done || lia). destruct (Z.ltb_spec j 64).
    + rewrite low_word_bits by lia. rewrite (proj2 (Z.ltb_lt j 64)) by lia.
      by replace ((i <=? j) && (j <? i + 1)) with false by lia.
    + rewrite H2, high_word_bits by lia. replace ((i <=? j) && (j <? i + 1)) with (j - 64 =? i - 64) by lia.
      replace (j - 64 + 64) with j by lia. by destruct (j - 64 =? i - 64).
Qed.

Lemma single_clear b i : map128 b -> 0 <= i < 128 -> marks false i (i + 1) b (clean128 b (u8 i)).
Proof.
  intros Hb Hi. rewrite (u8_id i) by (change (2 ^ 8) with 256; lia). unfold clean128. rewrite Z.gtb_ltb, (proj2 (Z.ltb_ge _ _)) by lia.
  rewrite shr6 by lia. pose proof (high_word_range b Hb) as Hh. pose proof (low_word_range b) as Hl.
  assert (forall w k, word64 w -> 0 <= k < 64 -> word64 (clean64 w k) /\
    forall j, 0 <= j < 64 -> Z.testbit (clean64 w k) j = negb (j =? k) && Z.testbit w j) as Hset.
  { intros w k Hw Hk. unfold clean64. rewrite Z.gtb_ltb, (proj2 (Z.ltb_ge 63 k)) by lia. split.
    - by apply land_word.
    - intros j Hj. rewrite Z.land_spec, not_bits, Z.shiftl_1_l, Z.pow2_bits_eqb by lia.
      by rewrite Z.eqb_sym, andb_comm. }
  destruct (Z.ltb_spec i 64) as [I|I].
  - destruct (Hset _ i Hl ltac:(lia)) as [H1 H2]. split; [by apply words_range|]. intros j Hj.
    rewrite words_bits by (done || lia). destruct (Z.ltb_spec j 64).
    + rewrite H2, low_word_bits by lia. rewrite (proj2 (Z.ltb_lt j 64)) by lia.
      replace ((i <=? j) && (j <? i + 1)) with (j =? i) by lia. by destruct (j =? i).
    + rewrite high_word_bits by lia. replace ((i <=? j) && (j <? i + 1)) with false by lia. f_equal. lia.
  - rewrite u8_id by (change (2 ^ 8) with 256; lia). destruct (Hset _ (i - 64) Hh ltac:(lia)) as [H1 H2].
    unfold clean64 at 1. rewrite Z.gtb_ltb, (proj2 (Z.ltb_lt 63 i)) by lia.
    split; [by apply words_range|]. intros j Hj.
    rewrite words_bits by (done || lia). destruct (Z.ltb_spec j 64).
    + rewrite low_word_bits by lia. rewrite (proj2 (Z.ltb_lt j 64)) by lia.
      by replace ((i <=? j) && (j <? i + 1)) with false by lia.
    + rewrite H2, high_word_bits by lia. replace ((i <=? j) && (j <? i + 1)) with (j - 64 =? i - 64) by lia.
      replace (j - 64 + 64) with j by lia. by destruct (j - 64 =? i - 64).
Qed.

(** [set128] or [clean128]. *)
Lemma single_marks (v : bool) b i : map128 b -> 0 <= i < 128 ->
  marks v i (i + 1) b (if v then set128 b (u8 i) else clean128 b (u8 i)).
Proof. intros Hb Hi. destruct v; [by apply single_set|by apply single_clear]. Qed.

Section Marking.
Context {S : Type}.

Lemma wp_store_chunk v at_ w b (s : S) : map128 b -> 0 <= at_ -> 0 <= w -> at_ + w <= 128 ->
  wp (store_chunk v at_ w b) (fun b' s' => s' = s /\ marks v at_ (at_ + w) b b') s.
Proof.
  intros Hb Ha Hw H. unfold store_chunk. rewrite (proj2 (Z.ltb_ge at_ 0)) by lia.
  rewrite Z.gtb_ltb, (proj2 (Z.ltb_ge 128 _)) by lia. cbn [orb]. wp_steps. split; [done|].
  pose proof (chunk_range at_ w Ha Hw H) as Hc.
  assert (forall i, 0 <= i -> Z.testbit (Z.ones w <<< at_) i = (at_ <=? i) && (i <? at_ + w)) as Hbits.
  { intros i Hi. rewrite Z.shiftl_spec by lia. destruct (Z.leb_spec at_ i).
    - rewrite testbit_ones by lia. lia.
    - by rewrite Z.testbit_neg_r by lia. }
  destruct v; (split; [first [by apply or_range|by apply and_not_range]|]); intros i Hi; rewrite ?Z.lor_spec, ?Z.land_spec, ?Z.lnot_spec by lia;
    rewrite Hbits by lia; destruct ((at_ <=? i) && (i <? at_ + w));
    by rewrite ?orb_true_r, ?orb_false_r, ?andb_true_r, ?andb_false_r.
Qed.

Lemma shr3 sc : sc mod 8 = 0 -> 8 * (sc >>> 3) = sc.
Proof. intros H. rewrite shiftr_div by lia. change (2 ^ 3) with 8. divlia. Qed.

Lemma wp_store_chunks v w count sc b (s : S) : map128 b -> 0 <= sc -> sc mod 8 = 0 -> 0 <= w -> 0 <= count ->
  sc + w * count <= 128 ->
  wp (store_chunks v w count sc b) (fun b' s' => s' = s /\ marks v sc (sc + w * count) b b') s.
Proof.
  intros Hb Hsc H8 Hw Hc Hend. unfold store_chunks. rewrite shr3 by done.
  eapply wp_mono.
  - eapply (wp_for (fun i b' s' => s' = s /\ marks v sc (sc + w * i) b b')); [done| |].
    + split; [done|]. rewrite Z.mul_0_r, Z.add_0_r. by apply marks_refl.
    + intros i b1 s1 Hi [-> H1]. assert (w * i <= w * (count - 1)) by nia.
      assert (0 <= w * i) by nia. eapply wp_mono; [apply wp_store_chunk; [apply H1|nia|done|nia]|].
      intros b2 s2 [-> H2]. split; [done|]. eapply marks_trans; [|exact H1|].
      * nia.
      * by replace (sc + w * (i + 1)) with (sc + w * i + w) by lia.
  - intros b' s' H'. by rewrite Z.add_0_l in H'.
Qed.

Lemma wp_single_bits v n sc b (s : S) : map128 b -> 0 <= sc -> 0 <= n -> sc + n <= 128 ->
  wp (single_bits v n sc b) (fun b' s' => s' = s /\ marks v sc (sc + n) b b') s.
Proof.
  intros Hb Hsc Hn Hend. unfold single_bits.
  eapply (wp_for (fun i b' s' => s' = s /\ marks v sc i b b')); [done| |].
  - split; [done|by apply marks_refl].
  - intros i b1 s1 Hi [-> H1]. wp_steps. split; [done|]. eapply marks_trans; [|exact H1|]; [lia|].
    apply single_marks; [apply H1|lia].
Qed.

Lemma shr_div x k : 0 <= k -> x >>> k = x / 2 ^ k.
Proof. intros. by apply shiftr_div. Qed.

Lemma wp_aligned_objs v req sc b (s : S) : map128 b -> 0 <= sc -> sc mod 8 = 0 -> 0 <= req -> sc + req <= 128 ->
  wp (aligned_objs v req sc b) (fun b' s' => s' = s /\ marks v sc (sc + req) b b') s.
Proof.
  intros Hb Hsc H8 Hr Hend. unfold aligned_objs.
  eapply (wp_while_ix _ (fun r '(req', sc', b') s' => s' = s /\ req' = r /\ 0 <= r <= req /\
      sc' = sc + (req - r) /\ (0 < r -> sc' mod 8 = 0) /\ marks v sc sc' b b') (fun r => r)).
  - intros r [[req' sc'] b'] s' (-> & -> & Hr' & -> & H8' & Hm).
    rewrite !shr_div by lia. change (2 ^ 6) with 64. change (2 ^ 5) with 32. change (2 ^ 4) with 16. change (2 ^ 3) with 8.
    rewrite land7. rewrite !Z.gtb_ltb.
    destruct (Z.ltb_spec 0 r) as [Hpos|Hz].
    2: { wp_steps. split; [done|]. by replace (sc + req) with (sc + (req - r)) by lia. }
    specialize (H8' Hpos).
    assert (forall w n, 0 < n -> w = 64 \/ w = 32 \/ w = 16 \/ w = 8 -> w * n <= r ->
      wp (b0 ← store_chunks v w n (sc + (req - r)) b';
          mret (inl (r - w * n, sc + (req - r) + w * n, b0)) : M S (Z * Z * Z + Z))
        (fun r0 s'0 => match r0 with
          | inl a' => exists x', (let '(req'0, sc'0, b'0) := a' in
              s'0 = s /\ req'0 = x' /\ 0 <= x' <= req /\ sc'0 = sc + (req - x') /\
              (0 < x' -> sc'0 mod 8 = 0) /\ marks v sc sc'0 b b'0) /\ 0 <= x' < r
          | inr b0 => s'0 = s /\ marks v sc (sc + req) b b0 end) s) as Hstep.
    { intros w n Hn Hw Hwn. wp_step. eapply wp_mono; [apply wp_store_chunks; try apply Hm; try lia|].
      intros b1 s1 [-> H1]. wp_steps. exists (r - w * n). split; [|lia]. split; [done|]. split; [done|].
      split; [lia|]. split; [lia|]. split; [|eapply marks_trans; [|exact Hm|exact H1]; lia].
      intros _. destruct Hw as [-> | [-> | [-> | ->]]]; divlia. }
    destruct (Z.ltb_spec 0 (r / 64)) as [|H64].
    { rewrite shiftl_mul by lia. change (2 ^ 6) with 64. rewrite (Z.mul_comm (r / 64)). eapply wp_mono; [apply Hstep; divlia|by intros [[[? ?] ?]|?] s1 H1]. }
    destruct (Z.ltb_spec 0 (r / 32)) as [|H32].
    { rewrite shiftl_mul by lia. change (2 ^ 5) with 32. rewrite (Z.mul_comm (r / 32)). eapply wp_mono; [apply Hstep; divlia|by intros [[[? ?] ?]|?] s1 H1]. }
    destruct (Z.ltb_spec 0 (r / 16)) as [|H16].
    { rewrite shiftl_mul by lia. change (2 ^ 4) with 16. rewrite (Z.mul_comm (r / 16)). eapply wp_mono; [apply Hstep; divlia|by intros [[[? ?] ?]|?] s1 H1]. }
    destruct (Z.ltb_spec 0 (r / 8)) as [|H8r].
    { rewrite shiftl_mul by lia. change (2 ^ 3) with 8. rewrite (Z.mul_comm (r / 8)). eapply wp_mono; [apply Hstep; divlia|by intros [[[? ?] ?]|?] s1 H1]. }
    assert (r mod 8 = r) as E by divlia. rewrite E. rewrite (proj2 (Z.ltb_lt 0 r)) by lia.
    wp_step. eapply wp_mono; [apply wp_single_bits; [apply Hm|lia|lia|lia]|].
    intros b1 s1 [-> H1]. wp_steps. exists 0. split; [|lia]. rewrite Z.sub_diag.
    split; [done|]. split; [done|]. split; [lia|]. split; [lia|]. split; [lia|].
    eapply marks_trans; [|exact Hm|exact H1]. lia.
  - instantiate (1 := req). rewrite Z.sub_diag, Z.add_0_r. split; [done|]. split; [done|]. split; [lia|]. split; [done|].
    split; [done|by apply marks_refl].
  - unfold FUEL. lia.
Qed.

Lemma wp_mark_objs v req sc b (s : S) : map128 b -> 0 <= sc -> 0 <= req -> sc + req <= 128 ->
  wp (mark_objs v req sc b) (fun b' s' => s' = s /\ marks v sc (sc + req) b b') s.
Proof.
  intros Hb Hsc Hr Hend. unfold mark_objs. rewrite land7.
  destruct (Z.eqb_spec (sc mod 8) 0) as [E8|E8]; [by apply wp_aligned_objs|].
  destruct (req >>> 3 =? 0); cbn [negb]; [by apply wp_single_bits|].
  wp_step. apply (wp_mono _ (fun r s' => s' = s /\ 0 <= r.1.1 <= req /\ r.1.2 = sc + (req - r.1.1) /\
    (0 < r.1.1 -> r.1.2 mod 8 = 0) /\ marks v sc r.1.2 b r.2)).
  - eapply (wp_while_ix _ (fun r '(req', sc', b') s' => s' = s /\ req' = r /\ 0 <= r <= req /\
        sc' = sc + (req - r) /\ marks v sc sc' b b') (fun r => r)).
    + intros r [[req' sc'] b'] s' (-> & -> & Hr' & -> & Hm). rewrite Z.gtb_ltb.
      destruct (Z.ltb_spec 0 r) as [Hpos|Hz]; wp_steps.
      2: { cbn. split_and!; try done; lia. }
      rewrite land7.
      assert (marks v sc (sc + (req - r) + 1) b
        (if v then set128 b' (u8 (sc + (req - r))) else clean128 b' (u8 (sc + (req - r))))) as H1.
      { eapply marks_trans; [|exact Hm|apply single_marks; [apply Hm|lia]]. lia. }
      destruct (Z.eqb_spec ((sc + (req - r) + 1) mod 8) 0) as [E|E].
      * cbn. split; [done|]. split; [lia|]. split; [lia|]. split; [done|exact H1].
      * exists (r - 1). split; [|lia]. split; [done|]. split; [done|]. split; [lia|].
        by replace (sc + (req - (r - 1))) with (sc + (req - r) + 1) by lia.
    + instantiate (1 := req). rewrite Z.sub_diag, Z.add_0_r. split; [done|]. split; [done|]. split; [lia|]. split; [done|].
      by apply marks_refl.
    + unfold FUEL. lia.
  - intros [[req' sc'] b'] s' (-> & Hr' & Hsc' & H8 & Hm). cbn in Hr', Hsc', H8, Hm. cbn beta iota. rewrite land7, Hsc'.
    destruct (Z.eqb_spec ((sc + (req - req')) mod 8) 0) as [E|E].
    + eapply wp_mono; [apply wp_aligned_objs; [apply Hm|lia|done|lia|lia]|].
      intros b1 s1 [-> H1]. split; [done|]. rewrite Hsc' in Hm. eapply marks_trans; [|exact Hm|].
      * lia.
      * by replace (sc + req) with (sc + (req - req') + req') by lia.
    + wp_steps. split; [done|]. assert (req' = 0) as -> by (rewrite Hsc' in H8; lia).
      rewrite Hsc' in Hm. by replace (sc + req) with (sc + (req - 0)) by lia.
Qed.

Lemma wp_find_objs req b base (creq : bool) (s : S) : map128 b -> 0 < req ->
  (creq = false -> b = 0) -> 0 <= base -> base + 4096 < 2 ^ 64 ->
  wp (find_objs req b base creq) (fun '(r, b') s' => s' = s /\
    match r with
    | mkSearchRet sc addr =>
        (addr = base + 32 * sc /\ first_run b req (Some sc) /\ marks true sc (sc + req) b b') \/
        (addr = 0 /\ first_run b req None /\ b' = b)
    end) s.
Proof.
  intros Hb Hreq Hc Hb0 Hb1. unfold find_objs. rewrite (proj2 (Z.eqb_neq req 0)) by lia.
  replace (negb creq && negb ((low_word b =? 0) && (high_word b =? 0))) with false.
  2: { destruct creq; [done|]. by rewrite Hc by done. }
  wp_step. eapply wp_mono; [by apply wp_find_objs_run|]. intros [sc|] s1 [-> Hr].
  - pose proof Hr as ((H0 & H1 & _) & _). wp_step. eapply wp_mono; [apply wp_mark_objs; [done|lia|lia|lia]|].
    intros b' s' [-> Hm]. wp_steps. split; [done|]. left. split; [|done].
    rewrite shiftl_mul by lia. change (2 ^ 5) with 32. rewrite u64_id by lia. lia.
  - wp_steps. split; [done|]. by right.
Qed.
End Marking.

(** ** Properties *)

(** [find_objs] for a positive number of objects always returns. It answers the first place where
    that many free objects lie together and marks exactly these; it answers [NULL], with the map
    untouched, only when there is no such place. *)
Lemma find_objs_correct (S : Type) (req b base : Z) (creq : bool) (s : S)
    (Hb : map128 b) (Hreq : 0 < req) (Hc : creq = false -> b = 0)
    (Hbase : 0 < base) (Hend : base + 4096 < 2 ^ 64) :
  exists sc addr b', find_objs req b base creq s = Done (mkSearchRet sc addr, b') s /\
    ((addr = base + 32 * sc /\ addr <> 0 /\ first_run b req (Some sc) /\ marks true sc (sc + req) b b') \/
     (addr = 0 /\ first_run b req None /\ b' = b)).
Proof.
  destruct (wp_inv _ _ _ (wp_find_objs req b base creq s Hb Hreq Hc ltac:(lia) Hend))
    as ([[sc addr] b'] & s' & E & -> & [(-> & Hr & Hm)|H]).
  - exists sc, (base + 32 * sc), b'. split; [done|]. left. pose proof Hr as ((? & _) & _).
    split; [done|]. split; [lia|done].
  - exists sc, addr, b'. split; [done|]. by right.
Qed.

(** giving the objects that [find_objs] found back with [clean_cache] restores the map. *)
Lemma find_clean_roundtrip (S : Type) (req b base : Z) (creq : bool) (s : S) (r : search_ret) (b' : Z)
    (Hb : map128 b) (Hreq : 0 < req) (Hc : creq = false -> b = 0)
    (Hbase : 0 < base) (Hend : base + 4096 < 2 ^ 64)
    (Hf : find_objs req b base creq s = Done (r, b') s) (Ha : ret_addr r <> 0) :
  clean_cache req b' (ret_sc r) s = Done b s.
Proof.
  pose proof (wp_done _ _ _ _ _ (wp_find_objs req b base creq s Hb Hreq Hc ltac:(lia) Hend) Hf) as H.
  destruct r as [sc addr]. cbn in H, Ha. destruct H as [_ [(-> & Hr & Hm)|(-> & _)]]; [|done].
  destruct Hr as ((H0 & H1 & Hfree) & _). cbn [ret_sc].
  destruct (wp_inv _ _ _ (wp_mark_objs false req sc b' s (proj1 Hm) H0 ltac:(lia) H1)) as (b2 & s' & E & -> & Hm2).
  unfold clean_cache. rewrite E. f_equal. apply (marks_ext b' _ _ false sc (sc + req)); [done|].
  split; [done|]. intros i Hi. rewrite (proj2 Hm) by done.
  destruct (Z.leb_spec sc i), (Z.ltb_spec i (sc + req)); cbn; try done. apply Hfree. lia.
Qed.

(** Objects 0 to 9 and 16 are taken: six fit in between, twelve behind. *)
Lemma find_objs_correct_witness :
  exists sc addr b', find_objs 12 0x103FF 0x5000 true tt = Done (mkSearchRet sc addr, b') tt /\
    ((addr = 0x5000 + 32 * sc /\ addr <> 0 /\ first_run 0x103FF 12 (Some sc) /\
      marks true sc (sc + 12) 0x103FF b') \/ (addr = 0 /\ first_run 0x103FF 12 None /\ b' = 0x103FF)).
Proof.
  apply (find_objs_correct unit 12 0x103FF 0x5000 true tt); [vm_compute; intuition discriminate|lia|discriminate|lia|lia].
Defined.

Lemma find_clean_roundtrip_witness :
  clean_cache 6 0x1FFFF 10 tt = Done 0x103FF tt.
Proof.
  apply (find_clean_roundtrip unit 6 0x103FF 0x5000 true tt (mkSearchRet 10 0x5140) 0x1FFFF);
    [vm_compute; intuition discriminate|lia|discriminate|lia|lia| |discriminate].
  vm_compute. reflexivity.
Defined.
