(* ===== verification/Kmalloc.v ===== *)
(** * The kernel heap ([x86-64/memory/kmalloc.c])

    Small blocks are runs of 32-byte objects in slabs of one page; the entries of the slabs are
    kept in pages of their own, each with two caches: the slabs that are empty and those in use.
    Large blocks are ranges of pages, the part of the last page behind them a slab. [KBits] has
    the bit maps. The allocator of address ranges is an interface; the memory of its pages is a
    map per kind of record, and reading a record that is not there faults. *)
From S2P Require Import KPrelude MemHelpers Spinlock VMem VaAlloc KBits.

(** What the heap calls [va_alloc] and [va_free] for, and the variable [max] of [va_def.c]. *)
Class Ranges (V : Type) := {
  r_alloc : Z -> Z -> M V va_ret;
  r_free : va_ret -> M V unit;
  r_max : V -> Z
}.

Definition va_Ranges {V} `{!VMem V} (Kernel_end : Z) (stale : Z -> va_node) : Ranges (va_state V) :=
  {| r_alloc := va_alloc Kernel_end stale; r_free := va_free stale; r_max := va_max |}.

Record slabobj := mkSlab { PageBase : Z; FreeObs : Z; Cache_2048 : Z; next_object : Z }.
Definition sizeof_slabobj := 36.

Record k_header := mkKHeader {
  Base : Z;
  Size : Z;
  h_attributes : Z;
  h_sc : Z;
  h_index : Z;
  slabOrg : Z
}.
Definition sizeof_k_header := 40.

Record slabhd := mkSlabHd {
  free_entries : Z;
  unused_entries : Z;
  next_page : Z;
  former_page : Z;
  used_cache : Z;
  unused_cache : Z
}.
Definition sizeof_slabhd := 48.
Definition slab_count := (4096 - sizeof_slabhd) / sizeof_slabobj.

Record slab_cache := mkCache { addresses : list Z; cache_index : Z }.

Definition INVALID_BASE := 1.

Record k_state (V : Type) := mkK {
  k_va : V;
  slabs : gmap Z slabobj;
  k_hds : gmap Z slabhd;
  caches : gmap Z slab_cache;
  headers : gmap Z k_header;
  k_data : Z -> Z;
  start : Z;
  latest : Z;
  shd : Z;
  slab_pages : Z;
  kmax : Z;
  klock : bool
}.
Arguments mkK {V}. Arguments k_va {V}. Arguments slabs {V}. Arguments k_hds {V}. Arguments caches {V}.
Arguments headers {V}. Arguments k_data {V}. Arguments start {V}. Arguments latest {V}. Arguments shd {V}.
Arguments slab_pages {V}. Arguments kmax {V}. Arguments klock {V}.

Section Updates.
Context {V : Type}.
Implicit Type s : k_state V.
Definition set_k_va (v : V) s := mkK v (slabs s) (k_hds s) (caches s) (headers s) (k_data s)
  (start s) (latest s) (shd s) (slab_pages s) (kmax s) (klock s).
Definition set_slabs (m : gmap Z slabobj) s := mkK (k_va s) m (k_hds s) (caches s) (headers s) (k_data s)
  (start s) (latest s) (shd s) (slab_pages s) (kmax s) (klock s).
Definition set_k_hds (m : gmap Z slabhd) s := mkK (k_va s) (slabs s) m (caches s) (headers s) (k_data s)
  (start s) (latest s) (shd s) (slab_pages s) (kmax s) (klock s).
Definition set_caches (m : gmap Z slab_cache) s := mkK (k_va s) (slabs s) (k_hds s) m (headers s) (k_data s)
  (start s) (latest s) (shd s) (slab_pages s) (kmax s) (klock s).
Definition set_headers (m : gmap Z k_header) s := mkK (k_va s) (slabs s) (k_hds s) (caches s) m (k_data s)
  (start s) (latest s) (shd s) (slab_pages s) (kmax s) (klock s).
Definition set_k_data (d : Z -> Z) s := mkK (k_va s) (slabs s) (k_hds s) (caches s) (headers s) d
  (start s) (latest s) (shd s) (slab_pages s) (kmax s) (klock s).
Definition set_start (p : Z) s := mkK (k_va s) (slabs s) (k_hds s) (caches s) (headers s) (k_data s)
  p (latest s) (shd s) (slab_pages s) (kmax s) (klock s).
Definition set_latest (p : Z) s := mkK (k_va s) (slabs s) (k_hds s) (caches s) (headers s) (k_data s)
  (start s) p (shd s) (slab_pages s) (kmax s) (klock s).
Definition set_shd (p : Z) s := mkK (k_va s) (slabs s) (k_hds s) (caches s) (headers s) (k_data s)
  (start s) (latest s) p (slab_pages s) (kmax s) (klock s).
Definition set_slab_pages (n : Z) s := mkK (k_va s) (slabs s) (k_hds s) (caches s) (headers s) (k_data s)
  (start s) (latest s) (shd s) n (kmax s) (klock s).
Definition set_kmax (n : Z) s := mkK (k_va s) (slabs s) (k_hds s) (caches s) (headers s) (k_data s)
  (start s) (latest s) (shd s) (slab_pages s) n (klock s).
Definition set_klock (b : bool) s := mkK (k_va s) (slabs s) (k_hds s) (caches s) (headers s) (k_data s)
  (start s) (latest s) (shd s) (slab_pages s) (kmax s) b.

#[export] Instance k_Lock : Lock (k_state V).
Proof.
  refine {| locked := klock; set_locked := set_klock |}; [done | done | by intros []].
Defined.
End Updates.

(** Fields that are written one at a time. *)
Definition with_page (p : Z) (s : slabobj) := mkSlab p (FreeObs s) (Cache_2048 s) (next_object s).
Definition with_obs (n : Z) (s : slabobj) := mkSlab (PageBase s) n (Cache_2048 s) (next_object s).
Definition with_map (b : Z) (s : slabobj) := mkSlab (PageBase s) (FreeObs s) b (next_object s).
Definition with_object (p : Z) (s : slabobj) := mkSlab (PageBase s) (FreeObs s) (Cache_2048 s) p.
Definition with_hfree (n : Z) (h : slabhd) :=
  mkSlabHd n (unused_entries h) (next_page h) (former_page h) (used_cache h) (unused_cache h).
Definition with_hunused (n : Z) (h : slabhd) :=
  mkSlabHd (free_entries h) n (next_page h) (former_page h) (used_cache h) (unused_cache h).
Definition with_hnext (p : Z) (h : slabhd) :=
  mkSlabHd (free_entries h) (unused_entries h) p (former_page h) (used_cache h) (unused_cache h).
Definition with_hformer (p : Z) (h : slabhd) :=
  mkSlabHd (free_entries h) (unused_entries h) (next_page h) p (used_cache h) (unused_cache h).
Definition with_hused (p : Z) (h : slabhd) :=
  mkSlabHd (free_entries h) (unused_entries h) (next_page h) (former_page h) p (unused_cache h).
Definition with_hcache (p : Z) (h : slabhd) :=
  mkSlabHd (free_entries h) (unused_entries h) (next_page h) (former_page h) (used_cache h) p.
Definition with_cindex (n : Z) (c : slab_cache) := mkCache (addresses c) n.

Definition find_hd (slab : Z) : Z := slab &&& Z.lnot 0xFFF.
Definition get_index (slab : Z) : Z := i32 (u64 ((slab &&& 0xfff) - sizeof_slabhd) / sizeof_slabobj).
Definition slab_at (hd i : Z) : Z := hd + sizeof_slabhd + sizeof_slabobj * i.

Section Kmalloc.
(** What the memory of new pages reads as, a cache word by word, and a variable that was never
    written. *)
Context {V : Type} `{!Ranges V}.
Context (stale_slab : Z -> slabobj) (stale_hd : Z -> slabhd) (stale_cache : Z -> Z) (garbage : Z).

Abbreviation St := (k_state V).

Definition va {A} (m : M V A) : M St A := zoom k_va set_k_va m.
Definition slab_get (p : Z) : M St slabobj := m ← gets slabs; of_option (m !! p).
Definition slab_upd (p : Z) (f : slabobj -> slabobj) : M St unit :=
  x ← slab_get p; modify (fun s => set_slabs (<[p := f x]> (slabs s)) s).
Definition hd_get (p : Z) : M St slabhd := m ← gets k_hds; of_option (m !! p).
Definition hd_upd (p : Z) (f : slabhd -> slabhd) : M St unit :=
  x ← hd_get p; modify (fun s => set_k_hds (<[p := f x]> (k_hds s)) s).
Definition cache_get (p : Z) : M St slab_cache := m ← gets caches; of_option (m !! p).
Definition cache_upd (p : Z) (f : slab_cache -> slab_cache) : M St unit :=
  x ← cache_get p; modify (fun s => set_caches (<[p := f x]> (caches s)) s).
Definition header_get (p : Z) : M St k_header := m ← gets headers; of_option (m !! p).
Definition header_put (p : Z) (h : k_header) : M St unit :=
  modify (fun s => set_headers (<[p := h]> (headers s)) s).

(** [cache->addresses[i]], and the store to it. *)
Definition cache_read (p i : Z) : M St Z := c ← cache_get p; of_option (array_get (addresses c) i).
Definition cache_write (p i v : Z) : M St unit :=
  c ← cache_get p;
  a ← of_option (array_set (addresses c) i v);
  cache_upd p (fun c => mkCache a (cache_index c)).

(** A page becomes one of entries ([zero]: after [memset]), or a cache; a page goes. *)
Definition map_entries (p : Z) (zero : bool) : M St unit :=
  modify (fun s => set_k_hds (<[p := if zero then mkSlabHd 0 0 0 0 0 0 else stale_hd p]> (k_hds s)) s);;
  modify (fun s => set_slabs (list_to_map ((fun i =>
    (slab_at p i, if zero then mkSlab 0 0 0 0 else stale_slab (slab_at p i))) <$> seqZ 0 slab_count)
    ∪ slabs s) s).
Definition map_cache (p : Z) : M St unit :=
  modify (fun s => set_caches (<[p := mkCache ((fun i => stale_cache (p + 8 * i)) <$> seqZ 0 slab_count)
    (i32 (stale_cache (p + 8 * slab_count)))]> (caches s)) s).
Definition unmap_page (p : Z) : M St unit :=
  modify (fun s => set_k_hds (filter (fun x => find_hd x.1 <> p) (k_hds s)) s);;
  modify (fun s => set_slabs (filter (fun x => find_hd x.1 <> p) (slabs s)) s);;
  modify (fun s => set_caches (filter (fun x => find_hd x.1 <> p) (caches s)) s).

(** [va_alloc(1, 0x03)]; [None] when it fails. *)
Definition new_page : M St (option Z) :=
  alloc ← va (r_alloc 1 0x03);
  mret (if negb (ret_status alloc =? 0) then None else Some (base alloc)).

(** ** Slabs *)

Definition createSlab : M St Z :=
  first ← gets start;
  if first =? 0 then
    h ← gets shd;
    let slab := slab_at h 0 in
    modify (set_start slab);;
    slab_upd slab (fun _ => mkSlab 0 0 0 0);;
    hd_upd h (fun x => with_hfree (u64 (free_entries x - 1)) x);;
    modify (set_latest slab);;
    mret slab
  else
    l ← gets latest;
    let hd := find_hd l in
    x ← hd_get hd;
    if free_entries x =? 0 then
      p ← new_page;
      match p with
      | None => mret 0
      | Some new_hd =>
          map_entries new_hd false;;
          max ← gets (fun s => r_max (k_va s));
          hd_upd new_hd (with_hfree (u64 max));;
          hd_upd new_hd (with_hunused 0);;
          hd_upd new_hd (with_hnext 0);;
          hd_upd hd (with_hnext new_hd);;
          hd_upd new_hd (with_hformer hd);;
          p ← new_page;
          match p with
          | None => mret 0
          | Some unused =>
              map_cache unused;;
              hd_upd new_hd (with_hcache unused);;
              cache_upd unused (with_cindex 0);;
              p ← new_page;
              match p with
              | None => mret 0
              | Some used =>
                  map_cache used;;
                  hd_upd new_hd (with_hused used);;
                  cache_upd used (with_cindex 0);;
                  modify (fun s => set_slab_pages (u64 (slab_pages s + 1)) s);;
                  let slab := slab_at new_hd 0 in
                  slab_upd l (with_object slab);;
                  modify (set_latest slab);;
                  slab_upd slab (fun x => with_object 0 (with_page INVALID_BASE x));;
                  hd_upd new_hd (fun x => with_hfree (u64 (free_entries x - 1)) x);;
                  mret slab
              end
          end
      end
    else
      first_hd ← gets shd;
      found ← while FUEL (fun hd =>
                x ← hd_get hd;
                c ← cache_get (unused_cache x);
                if cache_index c =? 0 then
                  if next_page x =? 0 then mret (inr (hd, c)) else mret (inl (next_page x))
                else mret (inr (hd, c))) first_hd;
      let '(hd, c) := found in
      if negb (cache_index c =? 0) then
        hd_upd hd (fun x => with_hunused (u64 (unused_entries x - 1)) x);;
        of_option (array_get (addresses c) (cache_index c - 1))
      else
        let slab := l + sizeof_slabobj in
        slab_upd l (with_object slab);;
        modify (set_latest slab);;
        slab_upd slab (fun x => with_object 0 (with_page INVALID_BASE x));;
        hd_upd (find_hd slab) (fun x => with_hfree (u64 (free_entries x - 1)) x);;
        mret slab.

Definition check_page (hd : Z) : M St bool :=
  x ← hd_get hd;
  max ← gets (fun s => r_max (k_va s));
  mret (u64 (max - free_entries x - unused_entries x) =? 0).

(** [va_free] on a range; nothing that was kept there can be read any more. *)
Definition release (p pages : Z) : M St unit :=
  va (r_free (mkVaRet 0 p pages 0x03));;
  modify (fun s => set_headers (filter (fun x => ~ (p <= x.1 < p + pages * 4096)) (headers s)) s).
Definition free_page (p : Z) : M St unit := release p 1;; unmap_page p.

Definition deallocate_slab (hd : Z) : M St Z :=
  x ← hd_get hd;
  free_page hd;;
  free_page (unused_cache x);;
  free_page (used_cache x);;
  mret (former_page x).

(** The last entry of the page [hd] that was handed out. *)
Definition last_slab (hd : Z) : M St Z :=
  x ← hd_get hd;
  m ← gets kmax;
  mret (u64 (slab_at hd (u64 (m - free_entries x) - 1))).

Definition reset_latest (last_hd : Z) : M St Z :=
  last ← last_slab last_hd;
  slab_upd last (with_object 0);;
  mret last.

Definition link_pages (former next : Z) : M St unit :=
  last ← last_slab former;
  slab_upd last (with_object (next + sizeof_slabhd)).

(** ** [kmalloc] *)

(** The variables [slab], [hd], [place], [obj_ret.sc] and [slab_pid] once objects were found. *)
Record found := mkFound { f_slab : Z; f_hd : Z; f_place : Z; f_sc : Z; f_pid : Z }.

(** The first call sets up the first page of entries; [false] when a page is missing. *)
Definition kmalloc_init : M St bool :=
  h ← gets shd;
  if negb (h =? 0) then mret true
  else
    p ← new_page;
    match p with
    | None => mret false
    | Some hd =>
        map_entries hd true;;
        modify (set_shd hd);;
        hd_upd hd (with_hunused 0);;
        hd_upd hd (with_hfree slab_count);;
        modify (set_kmax slab_count);;
        hd_upd hd (with_hnext 0);;
        hd_upd hd (with_hformer 0);;
        p ← new_page;
        match p with
        | None => mret false
        | Some unused =>
            map_cache unused;;
            hd_upd hd (with_hcache unused);;
            cache_upd unused (with_cindex 0);;
            p ← new_page;
            match p with
            | None => mret false
            | Some used =>
                map_cache used;;
                hd_upd hd (with_hused used);;
                cache_upd used (with_cindex 0);;
                mret true
            end
        end
    end.

(** The first slab of all goes to the cache of the empty ones. *)
Definition first_slab : M St bool :=
  slab ← createSlab;
  if slab =? 0 then mret false
  else
    slab_upd slab (fun _ => mkSlab INVALID_BASE 128 0 0);;
    h ← gets shd;
    hd_upd h (fun x => with_hunused (u64 (unused_entries x + 1)) x);;
    x ← hd_get h;
    c ← cache_get (unused_cache x);
    cache_write (unused_cache x) (cache_index c) slab;;
    max ← gets (fun s => r_max (k_va s));
    (if u64 (cache_index c) <? max then cache_upd (unused_cache x) (with_cindex (i32 (cache_index c + 1)))
     else mret ());;
    modify (set_start slab);;
    mret true.

Definition take_objs (slab req : Z) (conreq : bool) : M St search_ret :=
  x ← slab_get slab;
  r ← find_objs req (Cache_2048 x) (PageBase x) conreq;
  slab_upd slab (with_map r.2);;
  mret r.1.

Definition less_objs (slab req : Z) : M St unit :=
  slab_upd slab (fun x => with_obs (i32 (FreeObs x - req)) x).

(** The slabs in use of one page: the first with a run of [req] free objects. *)
Definition scan_page (req hd : Z) : M St (option found) :=
  x ← hd_get hd;
  c ← cache_get (used_cache x);
  while FUEL (fun i =>
    if i <? cache_index c then
      slab ← cache_read (used_cache x) i;
      if slab =? INVALID_BASE then mret (inl (i + 1))
      else
        e ← slab_get slab;
        if i32 (FreeObs e - req) >=? 0 then
          r ← take_objs slab req true;
          if ret_addr r =? 0 then mret (inl (i + 1))
          else
            less_objs slab req;;
            mret (inr (Some (mkFound slab hd (ret_addr r) (ret_sc r) i)))
        else mret (inl (i + 1))
    else mret (inr None)) 0.

Definition scan_used (req : Z) : M St (option found) :=
  first ← gets shd;
  while FUEL (fun hd =>
    if hd =? 0 then mret (inr None)
    else
      r ← scan_page req hd;
      match r with
      | Some f => mret (inr (Some f))
      | None => x ← hd_get hd; mret (inl (next_page x))
      end) first.

(** The slab becomes one of those in use of its page. *)
Definition use_slab (hd slab : Z) : M St Z :=
  let index := get_index slab in
  x ← hd_get hd;
  cache_write (used_cache x) index slab;;
  c ← cache_get (used_cache x);
  (if index >=? cache_index c then cache_upd (used_cache x) (with_cindex (i32 (index + 1))) else mret ());;
  mret index.

(** The first page with an empty slab: the one that was put there last. *)
Definition scan_unused (req : Z) (conreq : bool) : M St (option found) :=
  first ← gets shd;
  while FUEL (fun hd =>
    if hd =? 0 then mret (inr None)
    else
      x ← hd_get hd;
      c ← cache_get (unused_cache x);
      if negb (cache_index c =? 0) then
        cache_upd (unused_cache x) (with_cindex (i32 (cache_index c - 1)));;
        slab ← cache_read (unused_cache x) (cache_index c - 1);
        hd_upd hd (fun x => with_hunused (u64 (unused_entries x - 1)) x);;
        r ← take_objs slab req conreq;
        less_objs slab req;;
        index ← use_slab hd slab;
        mret (inr (Some (mkFound slab hd (ret_addr r) (ret_sc r) index)))
      else mret (inl (next_page x))) first.

(** A new slab; [None] when there is no page for its entry. *)
Definition make_slab (req : Z) (conreq : bool) : M St (option found) :=
  slab ← createSlab;
  if slab =? 0 then mret None
  else
    slab_upd slab (with_map 0);;
    slab_upd slab (with_obs 128);;
    let hd := find_hd slab in
    hd_upd hd (fun x => with_hunused (u64 (unused_entries x + 1)) x);;
    r ← take_objs slab req conreq;
    less_objs slab req;;
    hd_upd hd (fun x => with_hunused (u64 (unused_entries x - 1)) x);;
    index ← use_slab hd slab;
    mret (Some (mkFound slab hd (ret_addr r) (ret_sc r) index)).

(** The slab goes to the cache of the empty ones of its page. *)
Definition cache_slab (hd slab : Z) : M St unit :=
  x ← hd_get hd;
  c ← cache_get (unused_cache x);
  cache_write (unused_cache x) (cache_index c) slab;;
  cache_upd (unused_cache x) (with_cindex (i32 (cache_index c + 1))).

(** A slab without a page gets one; without one to be had its objects are given back. *)
Definition back_slab (req : Z) (f : found) : M St (option found) :=
  p ← new_page;
  match p with
  | None =>
      e ← slab_get (f_slab f);
      b ← clean_cache req (Cache_2048 e) (f_sc f);
      slab_upd (f_slab f) (with_map b);;
      slab_upd (f_slab f) (fun x => with_obs (i32 (FreeObs x + req)) x);;
      e ← slab_get (f_slab f);
      (if FreeObs e =? 128 then
         x ← hd_get (f_hd f);
         cache_write (used_cache x) (get_index (f_slab f)) INVALID_BASE;;
         hd_upd (f_hd f) (fun x => with_hunused (u64 (unused_entries x + 1)) x);;
         cache_slab (f_hd f) (f_slab f)
       else mret ());;
      mret None
  | Some page =>
      slab_upd (f_slab f) (with_page page);;
      mret (Some (mkFound (f_slab f) (f_hd f) (u64 (f_place f - 1 + page)) (f_sc f) (f_pid f)))
  end.

(** From the label [find_slab] on: objects for [Size] bytes. *)
Definition find_slab (Size : Z) (conreq : bool) : M St (option found) :=
  first ← gets start;
  ok ← (if first =? 0 then first_slab else mret true);
  if negb ok then mret None
  else
    let req := i32 (u64 (Size + 31)) >>> 5 in
    r ← (if conreq then scan_used req else mret None);
    r ← (match r with Some f => mret (Some f) | None => scan_unused req conreq end);
    r ← (match r with
         | Some f => if f_place f =? 0 then make_slab req conreq else mret (Some f)
         | None => make_slab req conreq
         end);
    match r with
    | None => mret None
    | Some f =>
        e ← slab_get (f_slab f);
        if (PageBase e =? INVALID_BASE) && conreq then back_slab req f else mret (Some f)
    end.

Definition write_header (Size place : Z) (f : found) : M St Z :=
  if place =? 0 then spin_unlock;; mret 0
  else
    header_put place (mkKHeader place Size 0x03 (f_sc f) (f_pid f) (f_slab f));;
    spin_unlock;;
    mret (u64 (place + sizeof_k_header)).

Definition kmalloc (Size : Z) : M St Z :=
  let Size := u64 (Size + sizeof_k_header) in
  spin_lock;;
  ok ← kmalloc_init;
  if negb ok then spin_unlock;; mret 0
  else if Size <? 4096 then
    r ← find_slab Size true;
    match r with
    | None => spin_unlock;; mret 0
    | Some f => write_header Size (f_place f) f
    end
  else if Size &&& 0xFFF =? 0 then
    alloc ← va (r_alloc (Size >>> 12) 0x03);
    if negb (ret_status alloc =? 0) then spin_unlock;; mret 0
    else write_header Size (base alloc) (mkFound 0 0 (base alloc) 0 garbage)
  else
    alloc ← va (r_alloc (u64 (Size + 4095) >>> 12) 0x03);
    if negb (ret_status alloc =? 0) then spin_unlock;; mret 0
    else
      r ← find_slab (Size &&& 0xFFF) false;
      match r with
      | None => spin_unlock;; mret 0
      | Some f =>
          slab_upd (f_slab f) (with_page (u64 (base alloc + Size) &&& Z.lnot 0xFFF));;
          write_header Size (base alloc) f
      end.

(** ** [kfree] *)

(** Pages of entries of which none is in use are given back, from the last one on. *)
Definition trim_pages : M St unit :=
  l ← gets latest;
  while FUEL (fun '(miss, latest_hd) =>
    first ← gets shd;
    if latest_hd =? first then mret (inr ())
    else
      empty ← check_page latest_hd;
      x ← hd_get latest_hd;
      if (empty : bool) then
        (if (miss : bool) then
           hd_upd (former_page x) (with_hnext (next_page x));;
           hd_upd (next_page x) (with_hformer (former_page x));;
           link_pages (former_page x) (next_page x)
         else hd_upd (former_page x) (with_hnext 0));;
        former ← deallocate_slab latest_hd;
        modify (fun s => set_slab_pages (u64 (slab_pages s - 1)) s);;
        (if (miss : bool) then mret ()
         else last ← reset_latest former; modify (set_latest last) : M St unit);;
        mret (inl (miss, former))
      else mret (inl (true, former_page x))) (false, find_hd l).

(** From the label [free_slab] on. *)
Definition free_slab (header : Z) : M St unit :=
  h ← header_get header;
  let req := i32 (u64 (Size h + 31) >>> 5) in
  let slab := slabOrg h in
  e ← slab_get slab;
  b ← clean_cache req (Cache_2048 e) (h_sc h);
  slab_upd slab (with_map b);;
  slab_upd slab (fun x => with_obs (i32 (FreeObs x + req)) x);;
  e ← slab_get slab;
  let hd := find_hd slab in
  (if FreeObs e =? 128 then
     cache_slab hd slab;;
     x ← hd_get hd;
     cache_write (used_cache x) (h_index h) INVALID_BASE;;
     hd_upd hd (fun x => with_hunused (u64 (unused_entries x + 1)) x);;
     release (PageBase e) 1;;
     slab_upd slab (with_page INVALID_BASE)
   else mret ());;
  trim_pages.

Definition free_aligned (header : Z) : M St unit :=
  h ← header_get header;
  release (Base h) (Size h >>> 12).

Definition with_hsize (n : Z) (h : k_header) : k_header :=
  mkKHeader (Base h) n (h_attributes h) (h_sc h) (h_index h) (slabOrg h).

Definition kfree (alloc : Z) : M St unit :=
  spin_lock;;
  let header := u64 (alloc - sizeof_k_header) in
  h ← header_get header;
  (if Size h <? 4096 then free_slab header
   else if Size h &&& 0xFFF =? 0 then free_aligned header
   else
     header_put header (with_hsize (Size h &&& 0xFFF) h);;
     free_slab header;;
     h' ← header_get header;
     header_put header (with_hsize (Size h) h');;
     free_aligned header);;
  spin_unlock.

(** ** [krealloc] *)

(** [memcpy] and [memset] on the bytes of two blocks that do not overlap. *)
Definition copy_data (dst src n : Z) : M St unit :=
  modify (fun s => set_k_data (fun p =>
    if (dst <=? p) && (p <? dst + n) then k_data s (src + (p - dst)) else k_data s p) s).
Definition zero_data (dst n : Z) : M St unit :=
  modify (fun s => set_k_data (fun p =>
    if (dst <=? p) && (p <? dst + n) then 0 else k_data s p) s).

Definition krealloc (alloc old_size new_size : Z) : M St Z :=
  new_alloc ← kmalloc new_size;
  if new_alloc =? 0 then mret 0
  else
    (if negb (alloc =? 0) && (old_size >? 0) then
       (if new_size >=? old_size then
          copy_data new_alloc alloc old_size;;
          zero_data (new_alloc + old_size) (new_size - old_size)
        else copy_data new_alloc alloc new_size);;
       kfree alloc
     else zero_data new_alloc new_size);;
    mret new_alloc.
End Kmalloc.
