(* ===== verification/KHeap.v ===== *)
(** * The kernel heap: its invariant

    The blocks of the heap as a map from their addresses to their headers, the slabs in use with
    the page each has, and the empty ones; what memory holds when they are these; and which page
    belongs to what. The entries of the slabs fill one page of 112. *)
From S2P Require Import KPrelude Spinlock VaAlloc KBits KBitsProofs Kmalloc.

(** ** Counting objects *)

Fixpoint count_bits (f : Z -> bool) (n : nat) : Z :=
  match n with O => 0 | Datatypes.S m => count_bits f m + Z.b2z (f (Z.of_nat m)) end.
Definition ones (b : Z) : Z := count_bits (Z.testbit b) (Z.to_nat 128).

Lemma count_marks f g (v : bool) lo hi n : 0 <= lo <= hi ->
  (forall i, 0 <= i < Z.of_nat n -> g i = if (lo <=? i) && (i <? hi) then v else f i) ->
  (forall i, lo <= i < hi -> f i = negb v) ->
  count_bits g n = count_bits f n + (if v then 1 else -1) * Z.max 0 (Z.min (Z.of_nat n) hi - lo).
Proof.
  intros Hlo. induction n as [|n IH]; intros Hg Hf; [cbn; destruct v; lia|].
  cbn [count_bits]. rewrite IH by (done || intros i Hi; apply Hg; lia). rewrite Hg by lia.
  destruct (Z.leb_spec lo (Z.of_nat n)), (Z.ltb_spec (Z.of_nat n) hi); cbn [andb]; [|destruct v; lia..].
  rewrite Hf by lia. destruct v; cbn [negb Z.b2z]; lia.
Qed.

Lemma ones_marks v lo hi b b' : marks v lo hi b b' -> 0 <= lo <= hi -> hi <= 128 ->
  (forall i, lo <= i < hi -> Z.testbit b i = negb v) ->
  ones b' = ones b + (if v then hi - lo else lo - hi).
Proof.
  intros [_ Hm] H1 H2 Hf. unfold ones.
  rewrite (count_marks (Z.testbit b) (Z.testbit b') v lo hi) by (done || intros i Hi; apply Hm; lia).
  destruct v; lia.
Qed.

Lemma count_range f n : 0 <= count_bits f n <= Z.of_nat n.
Proof. induction n as [|n IH]; cbn; [lia|]. destruct (f (Z.of_nat n)); cbn [Z.b2z]; lia. Qed.

Lemma count_none f n : count_bits f n = 0 -> forall i, 0 <= i < Z.of_nat n -> f i = false.
Proof.
  induction n as [|n IH]; intros H i Hi; [lia|]. cbn in H. pose proof (count_range f n).
  destruct (f (Z.of_nat n)) eqn:E; cbn [Z.b2z] in H; [lia|].
  destruct (decide (i = Z.of_nat n)) as [->|]; [done|]. apply IH; lia.
Qed.

Lemma ones_range b : 0 <= ones b <= 128.
Proof. unfold ones. pose proof (count_range (Z.testbit b) (Z.to_nat 128)). lia. Qed.

Lemma ones_clear b i : ones b = 0 -> 0 <= i < 128 -> Z.testbit b i = false.
Proof. unfold ones. intros H Hi. apply (count_none _ _ H). lia. Qed.

Lemma ones_none b : map128 b -> ones b = 0 -> b = 0.
Proof.
  intros Hb H. apply (marks_ext b _ _ true 0 0); [by apply marks_refl|]. split; [unfold map128; lia|].
  intros i Hi. rewrite Z.bits_0, ones_clear by done.
  by destruct (Z.leb_spec 0 i), (Z.ltb_spec i 0); try lia.
Qed.
Lemma ones_0 : ones 0 = 0.
Proof. reflexivity. Qed.
#[global] Opaque ones.

(** ** Blocks *)

(** The pages of a block that are its own, the bytes behind them, and the objects these take. *)
Definition body (h : k_header) : Z := Size h / 4096.
Definition rest (h : k_header) : Z := Size h mod 4096.
Definition req_of (n : Z) : Z := (n + 31) / 32.
Definition objs (h : k_header) : Z := req_of (rest h).

Lemma req_range n : 0 < n < 4096 -> 0 < req_of n <= 128.
Proof. unfold req_of. intros. divlia. Qed.

Lemma objs_range h : rest h <> 0 -> 0 < objs h <= 128.
Proof. intros H. apply req_range. unfold rest in *. divlia. Qed.

Definition page_addr (p : Z) : Prop := 0 < p /\ p mod 4096 = 0 /\ p + 4096 < 2 ^ 64.

Record ghost := mkGhost {
  g_hd : Z;
  g_unused : Z;
  g_used : Z;
  g_count : Z;
  g_idle : list Z;
  g_act : gmap Z Z;
  g_blocks : gmap Z k_header
}.

Definition slab (G : ghost) (i : Z) : Z := slab_at (g_hd G) i.

Inductive owner := OHead | OUnused | OUsed | OSlab (i : Z) | OBody (a j : Z).

(** Whose page [p] is. A slab in use that has no page yet carries [INVALID_BASE]. *)
Inductive owns (G : ghost) : owner -> Z -> Prop :=
| owns_head : owns G OHead (g_hd G)
| owns_unused : owns G OUnused (g_unused G)
| owns_used : owns G OUsed (g_used G)
| owns_slab i p : g_act G !! i = Some p -> p <> INVALID_BASE -> owns G (OSlab i) p
| owns_body a h j : g_blocks G !! a = Some h -> 0 <= j < body h -> owns G (OBody a j) (a + 4096 * j).

(** Where a block lies: its pages, and behind them the objects of a slab. *)
Record block_ok (G : ghost) (a : Z) (h : k_header) : Prop := {
  b_base : Base h = a;
  b_size : sizeof_k_header <= Size h < 2 ^ 63;
  b_addr : 0 < a < 2 ^ 64;
  b_rest : rest h <> 0 -> exists p, g_act G !! h_index h = Some p /\ p <> INVALID_BASE /\
    slabOrg h = slab G (h_index h) /\ 0 <= h_sc h /\ h_sc h + objs h <= 128 /\
    p + 32 * h_sc h = a + 4096 * body h
}.

(** Object [k] of slab [i] belongs to a block, or to the [n] objects from [sc] on that were taken
    for a block that is not there yet, or not any more. *)
Definition taken (G : ghost) (X : option (Z * Z * Z)) (i k : Z) : Prop :=
  (exists a h, g_blocks G !! a = Some h /\ rest h <> 0 /\ h_index h = i /\ h_sc h <= k < h_sc h + objs h) \/
  (exists sc n, X = Some (i, sc, n) /\ sc <= k < sc + n).

(** No two blocks share an object. *)
Definition apart (G : ghost) : Prop := forall a1 a2 h1 h2,
  g_blocks G !! a1 = Some h1 -> g_blocks G !! a2 = Some h2 -> a1 <> a2 ->
  rest h1 <> 0 -> rest h2 <> 0 -> h_index h1 = h_index h2 ->
  h_sc h1 + objs h1 <= h_sc h2 \/ h_sc h2 + objs h2 <= h_sc h1.

(** ** What the heap promises about the pages it takes *)

Definition pages_of (p n : Z) : gset Z := list_to_set ((fun i => p + 4096 * i) <$> seqZ 0 n).

Lemma elem_pages x p n : x ∈ pages_of p n <-> exists i, 0 <= i < n /\ x = p + 4096 * i.
Proof.
  unfold pages_of. rewrite elem_of_list_to_set, list_elem_of_fmap. split.
  - intros (i & -> & Hi). apply elem_of_seqZ in Hi. exists i. split; [lia|done].
  - intros (i & Hi & ->). exists i. split; [done|]. apply elem_of_seqZ. lia.
Qed.

(** The contract of the allocator of address ranges: it knows which pages are held, gives out
    pages that are not, and takes back any run of pages that are. *)
Class RangesLaws (V : Type) `{!Ranges V} := {
  r_ok : gset Z -> V -> Prop;
  r_alloc_spec : forall H v n, r_ok H v -> 0 < n < 2 ^ 52 ->
    wp (r_alloc n 0x03) (fun r v' =>
      if decide (ret_status r = 0) then
        0 < base r /\ base r mod 4096 = 0 /\ base r + 4096 * n < 2 ^ 64 /\
        pages_of (base r) n ## H /\ r_ok (pages_of (base r) n ∪ H) v'
      else r_ok H v') v;
  r_free_spec : forall H v p n, r_ok H v -> 0 < n -> pages_of p n ⊆ H ->
    wp (r_free (mkVaRet 0 p n 0x03)) (fun _ v' => r_ok (H ∖ pages_of p n) v') v;
  r_max_spec : forall H v, r_ok H v -> H <> ∅ -> 0 < r_max v < 2 ^ 64
}.

(** ** The invariant *)

Section Invariant.
Context {V : Type} `{!Ranges V} `{!RangesLaws V}.
Implicit Type s : k_state V.

(** [E] are the pages that others than the heap hold, [X] the objects taken without a block. *)
Record heap_ok (E : gset Z) (G : ghost) (X : option (Z * Z * Z)) (s : k_state V) : Prop := {
  ok_shd : shd s = g_hd G;
  ok_kmax : kmax s = slab_count;
  ok_hd : k_hds s !! g_hd G = Some (mkSlabHd (slab_count - g_count G) (Z.of_nat (length (g_idle G))) 0 0
            (g_used G) (g_unused G));
  ok_unused : exists l, caches s !! g_unused G = Some (mkCache l (Z.of_nat (length (g_idle G)))) /\
    length l = 112%nat /\ take (length (g_idle G)) l = slab G <$> g_idle G;
  ok_used : exists l u, caches s !! g_used G = Some (mkCache l u) /\ length l = 112%nat /\
    0 <= u <= g_count G /\ g_count G <= u + 1 /\
    (forall i, 0 <= i < u -> l !! Z.to_nat i =
       Some (if decide (is_Some (g_act G !! i)) then slab G i else INVALID_BASE)) /\
    (forall i, u <= i < g_count G -> i ∈ g_idle G);
  ok_count : 0 <= g_count G <= slab_count;
  ok_split : forall i, 0 <= i < g_count G <-> i ∈ g_idle G \/ is_Some (g_act G !! i);
  ok_nodup : NoDup (g_idle G);
  ok_idle : forall i, i ∈ g_idle G -> g_act G !! i = None /\
    exists n, slabs s !! slab G i = Some (mkSlab INVALID_BASE 128 0 n);
  ok_slabs : forall i, 0 <= i < slab_count -> is_Some (slabs s !! slab G i);
  ok_act : forall i p, g_act G !! i = Some p ->
    exists m n, slabs s !! slab G i = Some (mkSlab p (128 - ones m) m n) /\ map128 m /\
    forall k, 0 <= k < 128 -> Z.testbit m k = true <-> taken G X i k;
  ok_blocks : forall a h, g_blocks G !! a = Some h -> block_ok G a h;
  ok_apart : apart G;
  ok_pending : forall i sc n, X = Some (i, sc, n) ->
    is_Some (g_act G !! i) /\ 0 <= sc /\ 0 < n /\ sc + n <= 128 /\
    forall a h, g_blocks G !! a = Some h -> rest h <> 0 -> h_index h = i ->
      sc + n <= h_sc h \/ h_sc h + objs h <= sc;
  ok_start : (g_count G = 0 /\ start s = 0) \/
    (0 < g_count G /\ start s <> 0 /\ latest s = slab G (g_count G - 1));
  ok_owner : forall o1 o2 p, owns G o1 p -> owns G o2 p -> o1 = o2;
  ok_page : forall o p, owns G o p -> page_addr p;
  ok_va : exists H, r_ok (E ∪ H) (k_va s) /\ E ## H /\ forall p, p ∈ H <-> exists o, owns G o p
}.

(** The headers of the blocks are in memory. *)
Definition headers_ok (G : ghost) s : Prop :=
  forall a h, g_blocks G !! a = Some h -> headers s !! a = Some h.

(** ** Addresses of entries *)

Lemma slab_inj G i j : slab G i = slab G j -> i = j.
Proof. unfold slab, slab_at, sizeof_slabobj. lia. Qed.

Lemma page_head E G X s : heap_ok E G X s -> page_addr (g_hd G).
Proof. intros H. apply (ok_page _ _ _ _ H OHead). constructor. Qed.

Lemma slab_range E G X s i : heap_ok E G X s -> 0 <= i < slab_count -> 
  g_hd G + 48 <= slab G i < g_hd G + 4096 /\ slab G i < 2 ^ 64.
Proof.
  intros H Hi. pose proof (page_head _ _ _ _ H) as (H1 & H2 & H3).
  unfold slab, slab_at, slab_count, sizeof_slabhd, sizeof_slabobj in *. divlia.
Qed.

Lemma slab_find_hd E G X s i : heap_ok E G X s -> 0 <= i < slab_count -> find_hd (slab G i) = g_hd G.
Proof.
  intros H Hi. pose proof (slab_range _ _ _ _ i H Hi). pose proof (page_head _ _ _ _ H) as (H1 & H2 & H3).
  unfold find_hd. rewrite land_page. divlia.
Qed.

Lemma slab_index E G X s i : heap_ok E G X s -> 0 <= i < slab_count -> get_index (slab G i) = i.
Proof.
  intros H Hi. pose proof (slab_range _ _ _ _ i H Hi) as [Hr _]. pose proof (page_head _ _ _ _ H) as (H1 & H2 & H3).
  unfold get_index. rewrite land_offset.
  replace (slab G i mod 4096) with (48 + 36 * i)
    by (unfold slab, slab_at, slab_count, sizeof_slabhd, sizeof_slabobj in *; divlia).
  unfold slab_count, sizeof_slabhd, sizeof_slabobj in *. rewrite u64_id by divlia.
  replace ((48 + 36 * i - 48) / 36) with i by divlia. apply i32_id. divlia.
Qed.

Lemma slab_nz E G X s i : heap_ok E G X s -> 0 <= i < slab_count -> slab G i <> 0 /\ slab G i <> INVALID_BASE.
Proof.
  intros H Hi. pose proof (slab_range _ _ _ _ i H Hi). pose proof (page_head _ _ _ _ H) as (H1 & _).
  unfold INVALID_BASE. lia.
Qed.

Lemma act_range E G X s i p : heap_ok E G X s -> g_act G !! i = Some p -> 0 <= i < slab_count.
Proof.
  intros H Hi. pose proof (ok_count _ _ _ _ H). assert (0 <= i < g_count G); [|lia].
  apply (ok_split _ _ _ _ H). right. eauto.
Qed.

Lemma page_invalid p : page_addr p -> p <> INVALID_BASE.
Proof. intros (_ & H & _). unfold INVALID_BASE. intros ->. done. Qed.

(** ** Whose byte it is *)

Lemma req_fits n k : 0 <= k < n -> k / 32 < req_of n.
Proof. unfold req_of. intros. divlia. Qed.

(** A byte of a block lies in one of its pages, or in its objects of a slab. *)
Lemma byte_owner E G X s a h x : heap_ok E G X s -> g_blocks G !! a = Some h -> a <= x < a + Size h ->
  exists o q, owns G o q /\ q <= x < q + 4096 /\
    ((exists j, o = OBody a j) \/
     (o = OSlab (h_index h) /\ rest h <> 0 /\ h_sc h <= (x - q) / 32 < h_sc h + objs h)).
Proof.
  intros H Ha Hx. pose proof (ok_blocks _ _ _ _ H a h Ha) as B.
  destruct (Z.lt_ge_cases x (a + 4096 * body h)) as [Hb|Hb].
  - set (j := (x - a) / 4096). assert (0 <= j < body h) as Hj by (unfold j; divlia).
    exists (OBody a j), (a + 4096 * j). split; [by apply (owns_body _ a h)|]. split; [unfold j; divlia|]. left. eauto.
  - assert (rest h <> 0) as Hr by (unfold rest, body in *; divlia).
    destruct (b_rest _ _ _ B Hr) as (p & Hp & Hi & Ho & H0 & H1 & Hpos).
    exists (OSlab (h_index h)), p. split; [by constructor|].
    assert (0 <= x - p - 32 * h_sc h < rest h) as Hk by (unfold rest, body in *; divlia).
    pose proof (req_fits _ _ Hk) as Hf. change (req_of (rest h)) with (objs h) in Hf.
    split; [divlia|]. right. split; [done|]. split; [done|]. divlia.
Qed.

Lemma owner_page E G X s o1 o2 p1 p2 x : heap_ok E G X s -> owns G o1 p1 -> owns G o2 p2 ->
  p1 <= x < p1 + 4096 -> p2 <= x < p2 + 4096 -> o1 = o2 /\ p1 = p2.
Proof.
  intros H H1 H2 R1 R2. destruct (ok_page _ _ _ _ H _ _ H1) as (_ & M1 & _).
  destruct (ok_page _ _ _ _ H _ _ H2) as (_ & M2 & _). assert (p1 = p2) as -> by divlia.
  split; [|done]. by apply (ok_owner _ _ _ _ H _ _ p2).
Qed.

(** Blocks do not overlap, and stay clear of the pages that the heap keeps for itself and of those of others. *)
Lemma blocks_disjoint E G X s a1 a2 h1 h2 : heap_ok E G X s ->
  g_blocks G !! a1 = Some h1 -> g_blocks G !! a2 = Some h2 -> a1 <> a2 ->
  a1 + Size h1 <= a2 \/ a2 + Size h2 <= a1.
Proof.
  intros H H1 H2 Hne.
  pose proof (b_size _ _ _ (ok_blocks _ _ _ _ H _ _ H1)). pose proof (b_size _ _ _ (ok_blocks _ _ _ _ H _ _ H2)).
  unfold sizeof_k_header in *.
  destruct (decide (a1 + Size h1 <= a2 \/ a2 + Size h2 <= a1)) as [|Hn]; [done|]. exfalso.
  set (x := Z.max a1 a2).
  destruct (byte_owner _ _ _ _ _ _ x H H1 ltac:(lia)) as (o1 & q1 & O1 & R1 & C1).
  destruct (byte_owner _ _ _ _ _ _ x H H2 ltac:(lia)) as (o2 & q2 & O2 & R2 & C2).
  destruct (owner_page _ _ _ _ _ _ _ _ _ H O1 O2 R1 R2) as [-> ->].
  destruct C1 as [(j & ->)|(-> & Hr1 & K1)], C2 as [(j' & Ej)|(Ej & Hr2 & K2)]; try discriminate; [congruence|].
  injection Ej as Ej. pose proof (ok_apart _ _ _ _ H _ _ _ _ H1 H2 Hne Hr1 Hr2 Ej). lia.
Qed.

Lemma others_apart E G X s o p : heap_ok E G X s -> owns G o p -> p ∉ E.
Proof. intros H Ho Hp. destruct (ok_va _ _ _ _ H) as (S & _ & Hd & HS). apply (Hd p); [done|]. apply HS. eauto. Qed.

Lemma block_outside E G X s a h p n : heap_ok E G X s -> g_blocks G !! a = Some h ->
  p mod 4096 = 0 -> pages_of p n ⊆ E -> ~ p <= a < p + n * 4096.
Proof.
  intros H Ha Hp Hs Hr. pose proof (b_size _ _ _ (ok_blocks _ _ _ _ H _ _ Ha)). unfold sizeof_k_header in *.
  destruct (byte_owner _ _ _ _ _ _ a H Ha ltac:(lia)) as (o & q & Ho & Hq & _).
  apply (others_apart _ _ _ _ _ _ H Ho), Hs, elem_pages.
  destruct (ok_page _ _ _ _ H _ _ Ho) as (_ & M & _). exists ((q - p) / 4096). divlia.
Qed.

(** ** What the invariant depends on *)

Record same_heap (s s' : k_state V) : Prop := {
  same_shd : shd s' = shd s;
  same_kmax : kmax s' = kmax s;
  same_start : start s' = start s;
  same_latest : latest s' = latest s
}.

Lemma heap_ok_ext E G X s s' : heap_ok E G X s -> same_heap s s' ->
  k_va s' = k_va s -> slabs s' = slabs s -> k_hds s' = k_hds s -> caches s' = caches s -> heap_ok E G X s'.
Proof.
  intros [] [E1 E2 E3 E4] E5 E6 E7 E8. constructor; rewrite ?E1, ?E2, ?E3, ?E4, ?E5, ?E6, ?E7, ?E8; done.
Qed.
End Invariant.
