(* ===== verification/KHeapSteps.v ===== *)
(** * The kernel heap: the steps of its invariant

    What each change that the operations make does to the description of the heap: objects are
    taken and given back, a slab gets a page or loses it, becomes used or empty, a block comes
    and goes. *)
From S2P Require Import KPrelude Spinlock VaAlloc KBits KBitsProofs Kmalloc KHeap.

Definition with_act (act : gmap Z Z) (G : ghost) : ghost :=
  mkGhost (g_hd G) (g_unused G) (g_used G) (g_count G) (g_idle G) act (g_blocks G).
Definition with_blocks (bs : gmap Z k_header) (G : ghost) : ghost :=
  mkGhost (g_hd G) (g_unused G) (g_used G) (g_count G) (g_idle G) (g_act G) bs.
(** Slab [i] becomes one in use without a page; the slabs of [idle] are left empty. *)
Definition activated (i : Z) (idle : list Z) (count : Z) (G : ghost) : ghost :=
  mkGhost (g_hd G) (g_unused G) (g_used G) count idle (<[i := INVALID_BASE]> (g_act G)) (g_blocks G).
Definition retired (i : Z) (G : ghost) : ghost :=
  mkGhost (g_hd G) (g_unused G) (g_used G) (g_count G) (g_idle G ++ [i]) (delete i (g_act G)) (g_blocks G).

(** The pages of the metadata are the same in all of these, most often those of the slabs too. *)
Ltac own_meta := solve [exact (owns_head _) | exact (owns_unused _) | exact (owns_used _) | apply owns_slab; assumption].

(** No block has objects of the slab. *)
Definition unshared (G : ghost) (i : Z) : Prop :=
  forall a h, g_blocks G !! a = Some h -> rest h <> 0 -> h_index h <> i.

Section Steps.
Context {V : Type} `{!Ranges V} `{!RangesLaws V}.
Implicit Type s : k_state V.

(** ** Objects *)

(** Writing the record of one slab in use keeps what the others say. *)
Lemma heap_slab E G X X' s i p f m n f' m' n' : heap_ok E G X s ->
  g_act G !! i = Some p -> slabs s !! slab G i = Some (mkSlab p f m n) ->
  f' = 128 - ones m' -> map128 m' ->
  (forall j k, j <> i -> taken G X' j k <-> taken G X j k) ->
  (forall k, 0 <= k < 128 -> Z.testbit m' k = true <-> taken G X' i k) ->
  (forall i sc n, X' = Some (i, sc, n) ->
    is_Some (g_act G !! i) /\ 0 <= sc /\ 0 < n /\ sc + n <= 128 /\
    forall a h, g_blocks G !! a = Some h -> rest h <> 0 -> h_index h = i ->
      sc + n <= h_sc h \/ h_sc h + objs h <= sc) ->
  heap_ok E G X' (set_slabs (<[slab G i := mkSlab p f' m' n']> (slabs s)) s).
Proof.
  intros H Hi Hs -> Hm Ho Hk HX. constructor; cbn; try apply H; try done.
  - intros j Hj. destruct (ok_idle _ _ _ _ H j Hj) as (Ha & k & E0). split; [done|]. exists k.
    rewrite lookup_insert_ne; [done|]. intros ->%slab_inj. congruence.
  - intros j Hj. destruct (decide (slab G i = slab G j)) as [->|]; [rewrite lookup_insert_eq; eauto|].
    rewrite lookup_insert_ne by done. by apply (ok_slabs _ _ _ _ H).
  - intros j q Hj. destruct (decide (i = j)) as [->|Hne].
    + rewrite Hi in Hj. injection Hj as <-. exists m', n'. rewrite lookup_insert_eq. done.
    + destruct (ok_act _ _ _ _ H j q Hj) as (m2 & n2 & E0 & Hm2 & Ht). exists m2, n2.
      rewrite lookup_insert_ne by (intros ->%slab_inj; done). split; [done|]. split; [done|].
      intros k Hk2. rewrite Ht by done. symmetry. apply Ho. congruence.
Qed.

Lemma heap_take E G s i p m n sc req m' : heap_ok E G None s ->
  g_act G !! i = Some p -> slabs s !! slab G i = Some (mkSlab p (128 - ones m) m n) ->
  fits m sc req -> 0 < req -> marks true sc (sc + req) m m' ->
  heap_ok E G (Some (i, sc, req)) (set_slabs (<[slab G i := mkSlab p (128 - ones m - req) m' n]> (slabs s)) s).
Proof.
  intros H Hi Hs (F0 & F1 & F2) Hr Hm.
  assert (forall k, 0 <= k < 128 -> Z.testbit m k = true <-> taken G None i k) as Ht'.
  { destruct (ok_act _ _ _ _ H i p Hi) as (m3 & n3 & E3 & _ & Ht3).
    rewrite Hs in E3. injection E3 as _ -> _. done. }
  eapply heap_slab; [exact H|done|done| | | | |].
  - rewrite (ones_marks true sc (sc + req) m m') by (done || lia). lia.
  - apply Hm.
  - intros j k Hj. unfold taken. split; (intros [Hb|(sc2 & n2 & Hx & Hk)]; [by left|]); [congruence|done].
  - intros k Hk. rewrite (proj2 Hm) by done. unfold taken.
    destruct (Z.leb_spec sc k), (Z.ltb_spec k (sc + req)); cbn [andb].
    + split; [intros _; right; eauto|done].
    + rewrite Ht' by done. split; [intros [Hb|(? & ? & ? & _)]; [by left|done]|].
      intros [Hb|(? & ? & [= <- <-] & ?)]; [by left|lia].
    + rewrite Ht' by done. split; [intros [Hb|(? & ? & ? & _)]; [by left|done]|].
      intros [Hb|(? & ? & [= <- <-] & ?)]; [by left|lia].
    + rewrite Ht' by done. split; [intros [Hb|(? & ? & ? & _)]; [by left|done]|].
      intros [Hb|(? & ? & [= <- <-] & ?)]; [by left|lia].
  - intros ? ? ? [= <- <- <-]. split; [by eexists|]. split; [done|]. split; [done|]. split; [done|].
    intros a h Ha Hrest <-. pose proof (ok_blocks _ _ _ _ H a h Ha) as B.
    destruct (b_rest _ _ _ B Hrest) as (q & _ & _ & _ & B0 & B1 & _). pose proof (objs_range _ Hrest).
    destruct (decide (sc + req <= h_sc h \/ h_sc h + objs h <= sc)) as [|Hn]; [done|]. exfalso.
    set (k := Z.max sc (h_sc h)). assert (Z.testbit m k = true) as Ek.
    { apply Ht'; [lia|]. left. exists a, h. split_and!; done || lia. }
    rewrite F2 in Ek by lia. done.
Qed.

Lemma heap_untake E G s i p m n sc req m' : heap_ok E G (Some (i, sc, req)) s ->
  g_act G !! i = Some p -> slabs s !! slab G i = Some (mkSlab p (128 - ones m) m n) ->
  marks false sc (sc + req) m m' ->
  heap_ok E G None (set_slabs (<[slab G i := mkSlab p (128 - ones m + req) m' n]> (slabs s)) s).
Proof.
  intros H Hi Hs Hm. destruct (ok_pending _ _ _ _ H i sc req eq_refl) as (_ & F0 & F1 & F2 & Hsh).
  assert (forall k, 0 <= k < 128 -> Z.testbit m k = true <-> taken G (Some (i, sc, req)) i k) as Ht.
  { destruct (ok_act _ _ _ _ H i p Hi) as (m3 & n3 & E3 & _ & Ht3).
    rewrite Hs in E3. injection E3 as _ -> _. done. }
  eapply heap_slab; [exact H|done|done| | | | |done].
  - rewrite (ones_marks false sc (sc + req) m m'); [lia|done|lia|lia|].
    intros k Hk. apply Ht; [lia|]. right. eauto.
  - apply Hm.
  - intros j k Hj. unfold taken. split; (intros [Hb|(sc2 & n2 & Hx & Hk)]; [by left|]); [done|congruence].
  - intros k Hk. rewrite (proj2 Hm) by done. unfold taken.
    destruct (Z.leb_spec sc k), (Z.ltb_spec k (sc + req)); cbn [andb].
    + split; [done|]. intros [(a & h & Ha & Hr & Hx & Hk2)|(? & ? & ? & _)]; [|done].
      specialize (Hsh a h Ha Hr Hx). lia.
    + rewrite Ht by done. split; [|intros [Hb|(? & ? & ? & _)]; [by left|done]].
      intros [Hb|(? & ? & [= <- <-] & ?)]; [by left|lia].
    + rewrite Ht by done. split; [|intros [Hb|(? & ? & ? & _)]; [by left|done]].
      intros [Hb|(? & ? & [= <- <-] & ?)]; [by left|lia].
    + rewrite Ht by done. split; [|intros [Hb|(? & ? & ? & _)]; [by left|done]].
      intros [Hb|(? & ? & [= <- <-] & ?)]; [by left|lia].
Qed.

(** ** Pages *)

Lemma owns_page G i p o q : g_act G !! i = Some INVALID_BASE -> p <> INVALID_BASE ->
  owns (with_act (<[i := p]> (g_act G)) G) o q <-> owns G o q \/ (o = OSlab i /\ q = p).
Proof.
  intros Hi Hp. split.
  - inversion 1 as [| | |j r Hj Hr|a h j Ha Hj]; subst; try (left; own_meta).
    + cbn in Hj. apply lookup_insert_Some in Hj as [[-> ->]|[_ Hj]]; [by right|]. left. by constructor.
    + left. by apply (owns_body _ a h).
  - intros [Ho|[-> ->]]; [|constructor; [cbn; apply lookup_insert_eq|done]].
    inversion Ho as [| | |j r Hj Hr|a h j Ha Hj]; subst; try own_meta.
    + constructor; [|done]. cbn. rewrite lookup_insert_ne; [done|]. congruence.
    + by apply (owns_body _ a h).
Qed.

Lemma heap_page E G X s i p f m n : heap_ok ({[p]} ∪ E) G X s -> p ∉ E -> page_addr p ->
  g_act G !! i = Some INVALID_BASE -> slabs s !! slab G i = Some (mkSlab INVALID_BASE f m n) ->
  heap_ok E (with_act (<[i := p]> (g_act G)) G) X
    (set_slabs (<[slab G i := mkSlab p f m n]> (slabs s)) s).
Proof.
  intros H HpE Hpage Hi Hs. pose proof (page_invalid p Hpage) as Hp.
  pose proof (fun o q => owns_page G i p o q Hi Hp) as HO.
  assert (forall j, is_Some (<[i := p]> (g_act G) !! j) <-> is_Some (g_act G !! j)) as Hdom.
  { intros j. rewrite lookup_insert_is_Some. split; [|destruct (decide (i = j)); auto].
    intros [-> |[_ Hj]]; [by eexists|done]. }
  assert (forall o, ~ owns G o p) as Hnew.
  { intros o Ho. apply (others_apart _ _ _ _ _ _ H Ho). set_solver. }
  constructor; cbn; try apply H.
  - destruct (ok_used _ _ _ _ H) as (l & u & E1 & E2 & E3 & E4 & E5 & E6). exists l, u. split_and!; try done || lia.
    intros j Hj. rewrite E5 by done. f_equal. apply decide_ext. symmetry. apply Hdom.
  - intros j. rewrite (ok_split _ _ _ _ H), Hdom. done.
  - intros j Hj. destruct (ok_idle _ _ _ _ H j Hj) as (Ha & k & E1). assert (i <> j) by congruence.
    split; [by rewrite lookup_insert_ne|]. exists k. change (slab (with_act _ G) j) with (slab G j).
    rewrite lookup_insert_ne; [done|]. by intros ->%slab_inj.
  - intros j Hj. change (slab (with_act _ G) j) with (slab G j).
    destruct (decide (slab G i = slab G j)) as [->|]; [rewrite lookup_insert_eq; eauto|].
    rewrite lookup_insert_ne by done. by apply (ok_slabs _ _ _ _ H).
  - intros j q Hj. change (slab (with_act _ G) j) with (slab G j).
    apply lookup_insert_Some in Hj as [[<- <-]|[Hne Hj]].
    + destruct (ok_act _ _ _ _ H i _ Hi) as (m' & n' & E1 & E2). rewrite Hs in E1. injection E1 as -> <- <-.
      exists m, n. rewrite lookup_insert_eq. done.
    + destruct (ok_act _ _ _ _ H j q Hj) as (m' & n' & E1 & E2). exists m', n'.
      rewrite lookup_insert_ne; [done|]. by intros ->%slab_inj.
  - intros a h Ha. destruct (ok_blocks _ _ _ _ H a h Ha) as [B1 B2 B3 B4]. constructor; try done.
    intros Hr. destruct (B4 Hr) as (q & Hq & Hqi & Hrest). exists q. split; [|done]. cbn.
    rewrite lookup_insert_ne; [done|]. congruence.
  - intros j sc k HX. rewrite Hdom. by apply (ok_pending _ _ _ _ H).
  - intros o1 o2 q [O1|[-> ->]]%HO [O2|[-> E1]]%HO; try done.
    + by apply (ok_owner _ _ _ _ H _ _ q).
    + subst. by destruct (Hnew o1).
    + by destruct (Hnew o2).
  - intros o q [Ho|[-> ->]]%HO; [|done]. by apply (ok_page _ _ _ _ H o).
  - destruct (ok_va _ _ _ _ H) as (S & S1 & S2 & S3). exists ({[p]} ∪ S).
    split; [by replace (E ∪ ({[p]} ∪ S)) with ({[p]} ∪ E ∪ S) by set_solver|]. split; [set_solver|].
    intros q. rewrite elem_of_union, elem_of_singleton, S3. split.
    + intros [->|[o Ho]]; [exists (OSlab i)|exists o]; apply HO; auto.
    + intros [o [Ho|[-> ->]]%HO]; eauto.
Qed.

(** ** Blocks *)

Definition share (h : k_header) : option (Z * Z * Z) :=
  if decide (rest h = 0) then None else Some (h_index h, h_sc h, objs h).

Lemma owns_block G bs a h o q : bs !! a = None ->
  owns (with_blocks (<[a := h]> bs) G) o q <->
  owns (with_blocks bs G) o q \/ exists j, o = OBody a j /\ q = a + 4096 * j /\ 0 <= j < body h.
Proof.
  intros Ha. split.
  - inversion 1 as [| | |j r Hj Hr|b k j Hb Hj]; subst; try (left; own_meta).
    cbn in Hb. apply lookup_insert_Some in Hb as [[-> ->]|[_ Hb]]; [right; eauto|].
    left. by apply (owns_body _ b k).
  - intros [Ho|(j & -> & -> & Hj)]; [|apply (owns_body _ a h); [cbn; apply lookup_insert_eq|done]].
    inversion Ho as [| | |j r Hj Hr|b k j Hb Hj]; subst; try own_meta.
    apply (owns_body _ b k); [|done]. cbn. rewrite lookup_insert_ne; [done|]. cbn in Hb. congruence.
Qed.

Lemma taken_block G bs a h i k : bs !! a = None ->
  taken (with_blocks (<[a := h]> bs) G) None i k <-> taken (with_blocks bs G) (share h) i k.
Proof.
  intros Ha. unfold taken, share. cbn. split.
  - intros [(b & g & Hb & Hr & Hi & Hk)|(? & ? & ? & _)]; [|done].
    apply lookup_insert_Some in Hb as [[<- <-]|[_ Hb]]; [|left; eauto 8].
    right. rewrite decide_False by done. subst. eauto.
  - intros [(b & g & Hb & Hr & Hi & Hk)|(sc & n & Hs & Hk)]; left.
    + exists b, g. rewrite lookup_insert_ne by congruence. done.
    + destruct (decide (rest h = 0)); [done|]. injection Hs as <- <- <-. exists a, h. by rewrite lookup_insert_eq.
Qed.

Lemma body_disjoint (H : gset Z) a n : pages_of a n ## H <-> forall j, 0 <= j < n -> a + 4096 * j ∉ H.
Proof.
  split.
  - intros Hd j Hj Hin. apply (Hd (a + 4096 * j)); [|done]. apply elem_pages. eauto.
  - intros Hd q (j & Hj & ->)%elem_pages. by apply Hd.
Qed.

Lemma block_ok_ext G G' a h : block_ok G a h -> g_hd G' = g_hd G -> g_act G' = g_act G -> block_ok G' a h.
Proof. intros [B1 B2 B3 B4] E1 E2. constructor; try done. unfold slab. rewrite E1, E2. apply B4. Qed.

Lemma heap_add E G bs a h s : bs !! a = None ->
  heap_ok (pages_of a (body h) ∪ E) (with_blocks bs G) (share h) s -> pages_of a (body h) ## E ->
  block_ok G a h -> (0 < body h -> a mod 4096 = 0 /\ a + 4096 * body h < 2 ^ 64) ->
  heap_ok E (with_blocks (<[a := h]> bs) G) None s.
Proof.
  intros Ha H HE B Hpage. pose proof (fun o q => owns_block G bs a h o q Ha) as HO.
  assert (forall o j, 0 <= j < body h -> ~ owns (with_blocks bs G) o (a + 4096 * j)) as Hnew.
  { intros o j Hj Ho. apply (others_apart _ _ _ _ _ _ H Ho), elem_of_union. left. apply elem_pages. eauto. }
  constructor; cbn; try apply H; try done.
  - intros i p Hi. destruct (ok_act _ _ _ _ H i p Hi) as (m & n & E1 & E2 & E3). exists m, n.
    split; [done|]. split; [done|]. intros k Hk. rewrite E3 by done. symmetry. by apply taken_block.
  - intros b g [[<- <-]|[_ Hb]]%lookup_insert_Some.
    + by eapply block_ok_ext.
    + eapply block_ok_ext; [exact (ok_blocks _ _ _ _ H b g Hb)|done|done].
  - intros a1 a2 h1 h2. cbn. intros [[<- <-]|[N1 H1]]%lookup_insert_Some [[<- <-]|[N2 H2]]%lookup_insert_Some Hne R1 R2 I; [done| | |].
    + assert (share h = Some (h_index h, h_sc h, objs h)) as Es by (unfold share; by rewrite decide_False).
      destruct (ok_pending _ _ _ _ H _ _ _ Es) as (_ & _ & _ & _ & Hsh). apply (Hsh a2 h2); [done..|congruence].
    + assert (share h = Some (h_index h, h_sc h, objs h)) as Es by (unfold share; by rewrite decide_False).
      destruct (ok_pending _ _ _ _ H _ _ _ Es) as (_ & _ & _ & _ & Hsh).
      destruct (Hsh a1 h1 H1 R1 I); [by right|by left].
    + exact (ok_apart _ _ _ _ H _ _ _ _ H1 H2 Hne R1 R2 I).
  - intros o1 o2 q [O1|(j1 & -> & -> & J1)]%HO [O2|(j2 & -> & E2 & J2)]%HO.
    + by apply (ok_owner _ _ _ _ H _ _ q).
    + subst. by destruct (Hnew o1 j2).
    + by destruct (Hnew o2 j1).
    + f_equal. lia.
  - intros o q [Ho|(j & -> & -> & Hj)]%HO; [by apply (ok_page _ _ _ _ H o)|].
    destruct (Hpage ltac:(lia)) as [P1 P2]. pose proof (b_addr _ _ _ B). unfold page_addr. divlia.
  - destruct (ok_va _ _ _ _ H) as (S & S1 & S2 & S3). exists (pages_of a (body h) ∪ S).
    split; [by replace (E ∪ (pages_of a (body h) ∪ S)) with (pages_of a (body h) ∪ E ∪ S) by set_solver|].
    split; [set_solver|]. intros q. rewrite elem_of_union, elem_pages, S3. split.
    + intros [(j & Hj & ->)|[o Ho]]; [exists (OBody a j)|exists o]; apply HO; eauto 6.
    + intros [o [Ho|(j & -> & -> & Hj)]%HO]; eauto.
Qed.

Lemma heap_del E G bs a h s : bs !! a = None ->
  heap_ok E (with_blocks (<[a := h]> bs) G) None s ->
  heap_ok (pages_of a (body h) ∪ E) (with_blocks bs G) (share h) s.
Proof.
  intros Ha H. pose proof (fun o q => owns_block G bs a h o q Ha) as HO.
  assert (<[a := h]> bs !! a = Some h) as Hah by apply lookup_insert_eq.
  assert (forall b g, bs !! b = Some g -> <[a := h]> bs !! b = Some g /\ a <> b) as Hbs.
  { intros b g Hb. assert (a <> b) by congruence. by rewrite lookup_insert_ne. }
  pose proof (ok_blocks _ _ _ _ H a h Hah) as B.
  constructor; cbn; try apply H; try done.
  - intros i p Hi. destruct (ok_act _ _ _ _ H i p Hi) as (m & n & E1 & E2 & E3). exists m, n.
    split; [done|]. split; [done|]. intros k Hk. rewrite E3 by done. by apply taken_block.
  - intros b g [Hb _]%Hbs. eapply block_ok_ext; [exact (ok_blocks _ _ _ _ H b g Hb)|done|done].
  - intros a1 a2 h1 h2 [H1 _]%Hbs [H2 _]%Hbs. by apply (ok_apart _ _ _ _ H).
  - intros i sc n. unfold share. destruct (decide (rest h = 0)) as [|Hr]; [done|]. intros [= <- <- <-].
    destruct (b_rest _ _ _ B Hr) as (p & Hp & _ & _ & B0 & B1 & _). pose proof (objs_range _ Hr).
    split; [by eexists|]. split_and!; try lia. intros b g [Hb Hne]%Hbs R I.
    exact (ok_apart _ _ _ _ H _ _ _ _ Hah Hb Hne Hr R (eq_sym I)).
  - intros o1 o2 q O1 O2. apply (ok_owner _ _ _ _ H _ _ q); apply HO; by left.
  - intros o q Ho. apply (ok_page _ _ _ _ H o), HO. by left.
  - destruct (ok_va _ _ _ _ H) as (S & S1 & S2 & S3). exists (S ∖ pages_of a (body h)).
    assert (pages_of a (body h) ⊆ S) as Hsub.
    { intros q (j & Hj & ->)%elem_pages. apply S3. exists (OBody a j). apply HO. eauto 6. }
    split.
    + replace (pages_of a (body h) ∪ E ∪ S ∖ pages_of a (body h)) with (E ∪ S); [done|].
      apply set_eq. intros q. specialize (Hsub q). destruct (decide (q ∈ pages_of a (body h))); set_solver.
    + split; [set_solver|]. intros q. rewrite elem_of_difference, S3, elem_pages. split.
      * intros [[o [Ho|(j & -> & -> & Hj)]%HO] Hn]; [eauto|]. destruct Hn. eauto.
      * intros [o Ho]. split; [exists o; apply HO; by left|]. intros (j & Hj & ->).
        assert (o = OBody a j) as ->.
        { apply (ok_owner _ _ _ _ H _ _ (a + 4096 * j)); apply HO; [by left|eauto 6]. }
        inversion Ho as [| | | |b g j' Hb Hj' E1 E2]; subst. cbn in Hb. congruence.
Qed.

(** ** Slabs become used and empty *)

Lemma owns_activated G i idle c o q : g_act G !! i = None -> owns (activated i idle c G) o q <-> owns G o q.
Proof.
  intros Hi. split; inversion 1 as [| | |j r Hj Hr|b k j Hb Hj]; subst; try own_meta.
  - cbn in Hj. apply lookup_insert_Some in Hj as [[-> <-]|[_ Hj]]; [done|]. by apply owns_slab.
  - by apply (owns_body _ b k).
  - apply owns_slab; [|done]. cbn. rewrite lookup_insert_ne; [done|]. congruence.
  - by apply (owns_body _ b k).
Qed.

Lemma owns_retired G i p o q : g_act G !! i = Some p ->
  owns G o q <-> owns (retired i G) o q \/ (o = OSlab i /\ q = p /\ p <> INVALID_BASE).
Proof.
  intros Hi. split.
  - inversion 1 as [| | |j r Hj Hr|b k j Hb Hj]; subst; try (left; own_meta).
    + destruct (decide (i = j)) as [<-|]; [right; rewrite Hi in Hj; by injection Hj as <-|].
      left. apply owns_slab; [|done]. cbn. by rewrite lookup_delete_ne.
    + left. by apply (owns_body _ b k).
  - intros [Ho|(-> & -> & Hp)]; [|by constructor].
    inversion Ho as [| | |j r Hj Hr|b k j Hb Hj]; subst; try own_meta.
    + cbn in Hj. apply lookup_delete_Some in Hj as [_ Hj]. by apply owns_slab.
    + by apply (owns_body _ b k).
Qed.

Lemma page_distinct E G X s : heap_ok E G X s -> g_hd G <> g_unused G /\ g_hd G <> g_used G /\ g_unused G <> g_used G.
Proof.
  intros H. split_and!; intros Eq.
  - assert (OHead = OUnused); [|done]. apply (ok_owner _ _ _ _ H _ _ (g_hd G)); [constructor|rewrite Eq; constructor].
  - assert (OHead = OUsed); [|done]. apply (ok_owner _ _ _ _ H _ _ (g_hd G)); [constructor|rewrite Eq; constructor].
  - assert (OUnused = OUsed); [|done]. apply (ok_owner _ _ _ _ H _ _ (g_unused G)); [constructor|rewrite Eq; constructor].
Qed.

Lemma idle_bound E G X s l : heap_ok E G X s -> NoDup l -> (forall i, i ∈ l -> 0 <= i < slab_count) ->
  (length l <= 112)%nat.
Proof.
  intros H Hn Hl. change 112%nat with (length (seqZ 0 slab_count)). apply submseteq_length, NoDup_submseteq; [done|].
  intros i Hi. apply elem_of_seqZ. specialize (Hl i Hi). lia.
Qed.

Lemma none_pending (P : Prop) (i sc n : Z) : None = Some (i, sc, n) -> P.
Proof. done. Qed.

Lemma heap_activate E G s idle i lu nu l u : heap_ok E G None s -> g_idle G = idle ++ [i] ->
  caches s !! g_unused G = Some (mkCache lu nu) -> caches s !! g_used G = Some (mkCache l u) ->
  heap_ok E (activated i idle (g_count G) G) None
    (set_caches (<[g_used G := mkCache (<[Z.to_nat i := slab G i]> l) (Z.max u (i + 1))]>
                 (<[g_unused G := mkCache lu (Z.of_nat (length idle))]> (caches s)))
    (set_k_hds (<[g_hd G := mkSlabHd (slab_count - g_count G) (Z.of_nat (length idle)) 0 0 (g_used G) (g_unused G)]>
       (k_hds s)) s)).
Proof.
  intros H Hid Hlu Hl. destruct (page_distinct _ _ _ _ H) as (D1 & D2 & D3).
  assert (i ∈ g_idle G) as Hin by (rewrite Hid; set_solver).
  destruct (ok_idle _ _ _ _ H i Hin) as (Hact & n & Hrec).
  assert (0 <= i < g_count G) as Hi by (apply (ok_split _ _ _ _ H); by left). pose proof (ok_count _ _ _ _ H) as Hc.
  pose proof (ok_nodup _ _ _ _ H) as Hnd. rewrite Hid in Hnd. apply NoDup_app in Hnd as (Hnd & Hni & _).
  assert (i ∉ idle) as Hnot by (intros Hx; apply (Hni i Hx); set_solver).
  pose proof (fun o q => owns_activated G i idle (g_count G) o q Hact) as HO.
  assert (forall j, is_Some (<[i := INVALID_BASE]> (g_act G) !! j) <-> j = i \/ is_Some (g_act G !! j)) as Hdom.
  { intros j. rewrite lookup_insert_is_Some. destruct (decide (i = j)); naive_solver. }
  constructor; cbn; try apply H; try done.
  - by rewrite lookup_insert_eq.
  - destruct (ok_unused _ _ _ _ H) as (l1 & E1 & E2 & E3). rewrite Hlu in E1. injection E1 as <- _.
    exists lu. rewrite lookup_insert_ne, lookup_insert_eq by done. split; [done|]. split; [done|].
    change (slab (activated i idle (g_count G) G)) with (slab G).
    rewrite Hid, fmap_app, length_app in E3. cbn in E3.
    apply (f_equal (take (length idle))) in E3. rewrite take_take, Nat.min_l, take_app_length' in E3; [done| |lia].
    by rewrite length_fmap.
  - destruct (ok_used _ _ _ _ H) as (l1 & u1 & E1 & E2 & E3 & E4 & E5 & E6). rewrite Hl in E1. injection E1 as <- <-.
    assert (i <= u) as Hiu by lia.
    exists (<[Z.to_nat i := slab G i]> l), (Z.max u (i + 1)). rewrite lookup_insert_eq. rewrite length_insert.
    split_and!; try done || lia.
    + intros j Hj. destruct (decide (i = j)) as [<-|Hne].
      * rewrite list_lookup_insert_eq by (change slab_count with 112 in Hc; lia).
        rewrite decide_True; [done|]. apply Hdom. by left.
      * rewrite list_lookup_insert_ne by lia. rewrite E5 by lia. f_equal. apply decide_ext.
        rewrite Hdom. naive_solver.
    + intros j Hj. specialize (E6 j ltac:(lia)). rewrite Hid in E6. apply elem_of_app in E6 as [|Ej]; [done|].
      apply list_elem_of_singleton in Ej. lia.
  - intros j. rewrite (ok_split _ _ _ _ H), Hdom, Hid. set_solver.
  - intros j Hj. assert (i <> j) by congruence. rewrite lookup_insert_ne by done.
    apply (ok_idle _ _ _ _ H j). rewrite Hid. set_solver.
  - intros j p [[<- <-]|[_ Hj]]%lookup_insert_Some.
    + exists 0, n. change (slab (activated i idle (g_count G) G)) with (slab G). rewrite Hrec.
      split; [done|]. split; [by unfold map128|]. intros k Hk. rewrite Z.bits_0. split; [done|].
      intros [(a & h & Ha & Hr & <- & _)|(? & ? & ? & _)]; [|done].
      destruct (b_rest _ _ _ (ok_blocks _ _ _ _ H a h Ha) Hr) as (q & Hq & _). cbn in Hq. congruence.
    + apply (ok_act _ _ _ _ H j p Hj).
  - intros a h Ha. destruct (ok_blocks _ _ _ _ H a h Ha) as [B1 B2 B3 B4]. constructor; try done.
    intros Hr. destruct (B4 Hr) as (q & Hq & Hrest). exists q. split; [|done]. cbn.
    rewrite lookup_insert_ne; [done|]. congruence.
  - intros o1 o2 q O1%HO O2%HO. by apply (ok_owner _ _ _ _ H _ _ q).
  - intros o q Ho%HO. by apply (ok_page _ _ _ _ H o).
  - destruct (ok_va _ _ _ _ H) as (S & S1 & S2 & S3). exists S. split; [done|]. split; [done|].
    intros q. rewrite S3. split; intros [o Ho]; exists o; by apply HO.
Qed.

(** The entry behind the last one becomes a slab in use. *)
Lemma heap_fresh E G s l u n : heap_ok E G None s -> g_idle G = [] ->
  0 < g_count G < slab_count -> caches s !! g_used G = Some (mkCache l u) ->
  let c := g_count G in
  u = c /\
  heap_ok E (activated c [] (c + 1) G) None
    (set_latest (slab G c)
    (set_slabs (<[slab G c := mkSlab INVALID_BASE 128 0 n]> (slabs s))
    (set_caches (<[g_used G := mkCache (<[Z.to_nat c := slab G c]> l) (c + 1)]> (caches s))
    (set_k_hds (<[g_hd G := mkSlabHd (slab_count - (c + 1)) 0 0 0 (g_used G) (g_unused G)]> (k_hds s)) s)))).
Proof.
  intros H Hid Hc Hl c. destruct (page_distinct _ _ _ _ H) as (D1 & D2 & D3).
  destruct (ok_used _ _ _ _ H) as (l1 & u1 & E1 & E2 & E3 & E4 & E5 & E6). rewrite Hl in E1. injection E1 as <- <-.
  assert (u = c) as Eu.
  { destruct (decide (u = c)) as [|Hne]; [done|]. specialize (E6 u ltac:(unfold c; lia)). rewrite Hid in E6.
    by apply not_elem_of_nil in E6. }
  split; [done|]. subst u.
  assert (g_act G !! c = None) as Hact.
  { destruct (g_act G !! c) eqn:Ea; [|done]. assert (0 <= c < g_count G); [|unfold c in *; lia].
    apply (ok_split _ _ _ _ H). right. eauto. }
  pose proof (fun o q => owns_activated G c [] (c + 1) o q Hact) as HO.
  assert (forall j, is_Some (<[c := INVALID_BASE]> (g_act G) !! j) <-> j = c \/ is_Some (g_act G !! j)) as Hdom.
  { intros j. rewrite lookup_insert_is_Some. destruct (decide (c = j)); naive_solver. }
  constructor; cbn; try apply H; try done.
  - by rewrite lookup_insert_eq.
  - destruct (ok_unused _ _ _ _ H) as (l1 & U1 & U2 & U3). exists l1. rewrite Hid in U1.
    by rewrite lookup_insert_ne.
  - exists (<[Z.to_nat c := slab G c]> l), (c + 1). rewrite lookup_insert_eq, length_insert.
    split_and!; try done || lia.
    + intros j Hj. destruct (decide (c = j)) as [<-|Hne].
      * rewrite list_lookup_insert_eq by (change slab_count with 112 in Hc; lia).
        rewrite decide_True; [done|]. apply Hdom. by left.
      * rewrite list_lookup_insert_ne by lia. rewrite E5 by lia. f_equal. apply decide_ext.
        rewrite Hdom. naive_solver.
  - unfold c. lia.
  - intros j. rewrite Hdom. pose proof (ok_split _ _ _ _ H j) as Hs. rewrite Hid in Hs. fold c in Hs.
    split.
    + intros Hj. right. destruct (decide (j = c)); [by left|]. right.
      destruct (proj1 Hs ltac:(lia)) as [Hx|]; [by apply not_elem_of_nil in Hx|done].
    + intros [Hx|[-> |Hx]]; [by apply not_elem_of_nil in Hx|unfold c; lia|]. specialize (proj2 Hs (or_intror Hx)). lia.
  - constructor.
  - intros j Hj. by apply not_elem_of_nil in Hj.
  - intros j Hj. change (slab (activated c [] (c + 1) G) j) with (slab G j).
    destruct (decide (slab G c = slab G j)) as [->|]; [rewrite lookup_insert_eq; eauto|].
    rewrite lookup_insert_ne by done. by apply (ok_slabs _ _ _ _ H).
  - intros j p. change (slab (activated c [] (c + 1) G) j) with (slab G j).
    intros [[<- <-]|[Hne Hj]]%lookup_insert_Some.
    + exists 0, n. rewrite lookup_insert_eq. split; [done|]. split; [by unfold map128|].
      intros k Hk. rewrite Z.bits_0. split; [done|].
      intros [(a & h & Ha & Hr & Ei & _)|(? & ? & ? & _)]; [|done].
      destruct (b_rest _ _ _ (ok_blocks _ _ _ _ H a h Ha) Hr) as (q & Hq & _). cbn in Hq. congruence.
    + rewrite lookup_insert_ne by (intros ->%slab_inj; done). apply (ok_act _ _ _ _ H j p Hj).
  - intros a h Ha. destruct (ok_blocks _ _ _ _ H a h Ha) as [B1 B2 B3 B4]. constructor; try done.
    intros Hr. destruct (B4 Hr) as (q & Hq & Hrest). exists q. split; [|done]. cbn.
    rewrite lookup_insert_ne; [done|]. congruence.
  - right. split; [unfold c; lia|]. destruct (ok_start _ _ _ _ H) as [[? _]|(_ & Hs & _)]; [lia|].
    split; [done|]. by replace (c + 1 - 1) with c by lia.
  - intros o1 o2 q O1%HO O2%HO. by apply (ok_owner _ _ _ _ H _ _ q).
  - intros o q Ho%HO. by apply (ok_page _ _ _ _ H o).
  - destruct (ok_va _ _ _ _ H) as (S & S1 & S2 & S3). exists S. split; [done|]. split; [done|].
    intros q. rewrite S3. split; intros [o Ho]; exists o; by apply HO.
Qed.

(** The very first slab, as an empty one. *)
Definition first_idle (G : ghost) : ghost :=
  mkGhost (g_hd G) (g_unused G) (g_used G) 1 [0] (g_act G) (g_blocks G).

Lemma heap_first E G s lu nu : heap_ok E G None s -> g_count G = 0 ->
  caches s !! g_unused G = Some (mkCache lu nu) ->
  heap_ok E (first_idle G) None
    (set_latest (slab G 0) (set_start (slab G 0)
    (set_slabs (<[slab G 0 := mkSlab INVALID_BASE 128 0 0]> (slabs s))
    (set_caches (<[g_unused G := mkCache (<[0%nat := slab G 0]> lu) 1]> (caches s))
    (set_k_hds (<[g_hd G := mkSlabHd (slab_count - 1) 1 0 0 (g_used G) (g_unused G)]> (k_hds s)) s))))).
Proof.
  intros H Hc Hlu. destruct (page_distinct _ _ _ _ H) as (D1 & D2 & D3).
  assert (forall j, g_act G !! j = None /\ j ∉ g_idle G) as Hno.
  { intros j. destruct (g_act G !! j) eqn:Ej.
    - destruct (proj2 (ok_split _ _ _ _ H j) (or_intror (mk_is_Some _ _ Ej))). lia.
    - split; [done|]. intros Hj. destruct (proj2 (ok_split _ _ _ _ H j) (or_introl Hj)). lia. }
  constructor; cbn; try apply H; try done.
  - by rewrite lookup_insert_eq.
  - destruct (ok_unused _ _ _ _ H) as (l1 & E1 & E2 & E3). rewrite Hlu in E1. injection E1 as <- _.
    exists (<[0%nat := slab G 0]> lu). rewrite lookup_insert_eq, length_insert. split; [done|]. split; [done|].
    by destruct lu.
  - destruct (ok_used _ _ _ _ H) as (l & u & E1 & E2 & E3 & E4 & E5 & E6). exists l, u.
    rewrite lookup_insert_ne by done. split_and!; try done || lia.
    intros j Hj. apply list_elem_of_singleton. lia.
  - intros j. destruct (Hno j) as [-> _]. rewrite list_elem_of_singleton. split; [left; lia|].
    intros [->|[? ?]]; [lia|done].
  - apply NoDup_singleton.
  - intros j ->%list_elem_of_singleton. split; [apply Hno|]. exists 0. by rewrite lookup_insert_eq.
  - intros j Hj. change (slab (first_idle G) j) with (slab G j).
    destruct (decide (slab G 0 = slab G j)) as [->|]; [rewrite lookup_insert_eq; eauto|].
    rewrite lookup_insert_ne by done. by apply (ok_slabs _ _ _ _ H).
  - intros j p Hj. destruct (Hno j). congruence.
  - intros a h Ha. eapply block_ok_ext; [exact (ok_blocks _ _ _ _ H a h Ha)|done|done].
  - right. split; [lia|]. split; [|done]. apply (slab_nz _ _ _ _ 0 H). by unfold slab_count.
  - assert (forall o q, owns (first_idle G) o q <-> owns G o q) as HO.
    { intros o q. split; inversion 1 as [| | | |b k j Hb Hj]; subst; try own_meta; by apply (owns_body _ b k). }
    intros o1 o2 q O1%HO O2%HO. by apply (ok_owner _ _ _ _ H _ _ q).
  - intros o q Ho. apply (ok_page _ _ _ _ H o).
    inversion Ho as [| | | |b k j Hb Hj]; subst; try own_meta; by apply (owns_body _ b k).
  - destruct (ok_va _ _ _ _ H) as (S & S1 & S2 & S3). exists S. split; [done|]. split; [done|].
    intros q. rewrite S3. split; intros [o Ho]; exists o;
      inversion Ho as [| | | |b k j Hb Hj]; subst; try own_meta; by apply (owns_body _ b k).
Qed.

Definition page_set (p : Z) : gset Z := if decide (p = INVALID_BASE) then ∅ else {[p]}.

Lemma heap_retire E G s i p lu nu l u m k n : heap_ok E G None s -> g_act G !! i = Some p -> unshared G i ->
  caches s !! g_unused G = Some (mkCache lu nu) -> caches s !! g_used G = Some (mkCache l u) ->
  slabs s !! slab G i = Some (mkSlab p k m n) ->
  heap_ok (page_set p ∪ E) (retired i G) None
    (set_slabs (<[slab G i := mkSlab INVALID_BASE 128 0 n]> (slabs s))
    (set_caches (<[g_used G := mkCache (<[Z.to_nat i := INVALID_BASE]> l) u]>
                 (<[g_unused G := mkCache (<[length (g_idle G) := slab G i]> lu)
                      (Z.of_nat (length (g_idle G)) + 1)]> (caches s)))
    (set_k_hds (<[g_hd G := mkSlabHd (slab_count - g_count G) (Z.of_nat (length (g_idle G)) + 1) 0 0
       (g_used G) (g_unused G)]> (k_hds s)) s))).
Proof.
  intros H Hi Hun Hlu Hl Hrec. destruct (page_distinct _ _ _ _ H) as (D1 & D2 & D3).
  pose proof (fun o q => owns_retired G i p o q Hi) as HO. pose proof (ok_count _ _ _ _ H) as Hc.
  assert (i ∉ g_idle G) as Hni.
  { intros Hx. destruct (ok_idle _ _ _ _ H i Hx). congruence. }
  assert (0 <= i < g_count G) as Hr by (apply (ok_split _ _ _ _ H); right; eauto).
  assert (forall j, is_Some (delete i (g_act G) !! j) <-> j <> i /\ is_Some (g_act G !! j)) as Hdom.
  { intros j. rewrite lookup_delete_is_Some. naive_solver. }
  assert (NoDup (g_idle G ++ [i])) as Hnd.
  { apply NoDup_app. split; [apply (ok_nodup _ _ _ _ H)|]. split; [|apply NoDup_singleton].
    intros j Hj ->%list_elem_of_singleton. done. }
  assert (length (g_idle G) < 112)%nat as Hlen.
  { pose proof (idle_bound _ _ _ _ (g_idle G ++ [i]) H Hnd) as B. rewrite length_app in B. cbn in B.
    enough (length (g_idle G) + 1 <= 112)%nat by lia. apply B. intros j [Hj| ->%list_elem_of_singleton]%elem_of_app; [|lia].
    assert (0 <= j < g_count G); [|lia]. apply (ok_split _ _ _ _ H). by left. }
  constructor; cbn; try apply H; try done.
  - rewrite lookup_insert_eq, length_app. cbn. do 2 f_equal. lia.
  - destruct (ok_unused _ _ _ _ H) as (l1 & E1 & E2 & E3). rewrite Hlu in E1. injection E1 as <- _.
    exists (<[length (g_idle G) := slab G i]> lu). rewrite lookup_insert_ne, lookup_insert_eq by done.
    rewrite length_insert, length_app, fmap_app. cbn. split_and!; [do 2 f_equal; lia|done|].
    rewrite Nat.add_1_r, (take_S_r _ _ (slab G i)) by (apply list_lookup_insert_eq; lia).
    rewrite take_insert_ge by lia. by rewrite E3.
  - destruct (ok_used _ _ _ _ H) as (l1 & u1 & E1 & E2 & E3 & E4 & E5 & E6). rewrite Hl in E1. injection E1 as <- <-.
    exists (<[Z.to_nat i := INVALID_BASE]> l), u. rewrite lookup_insert_eq, length_insert.
    assert (i < u) as Hiu by (destruct (Z.lt_ge_cases i u); [done|]; destruct Hni; apply E6; lia).
    split_and!; try done || lia.
    + intros j Hj. destruct (decide (i = j)) as [<-|Hne].
      * rewrite list_lookup_insert_eq by (change slab_count with 112 in Hc; lia).
        rewrite decide_False; [done|]. rewrite Hdom. naive_solver.
      * rewrite list_lookup_insert_ne by lia. rewrite E5 by lia. f_equal. apply decide_ext.
        rewrite Hdom. naive_solver.
    + intros j Hj. apply elem_of_app. left. by apply E6.
  - intros j. rewrite (ok_split _ _ _ _ H), Hdom, elem_of_app, list_elem_of_singleton.
    destruct (decide (j = i)) as [->|]; naive_solver.
  - intros j [Hj| ->%list_elem_of_singleton]%elem_of_app.
    + assert (i <> j) by congruence. destruct (ok_idle _ _ _ _ H j Hj) as (Ha & x & E1).
      rewrite lookup_delete_ne by done. split; [done|]. exists x.
      change (slab (retired i G) j) with (slab G j). rewrite lookup_insert_ne; [done|]. by intros ->%slab_inj.
    + rewrite lookup_delete_eq. split; [done|]. exists n. by rewrite lookup_insert_eq.
  - intros j Hj. change (slab (retired i G) j) with (slab G j).
    destruct (decide (slab G i = slab G j)) as [->|]; [rewrite lookup_insert_eq; eauto|].
    rewrite lookup_insert_ne by done. by apply (ok_slabs _ _ _ _ H).
  - intros j q [Hne Hj]%lookup_delete_Some. destruct (ok_act _ _ _ _ H j q Hj) as (m' & n' & E1 & E2).
    exists m', n'. change (slab (retired i G) j) with (slab G j).
    rewrite lookup_insert_ne; [done|]. by intros ->%slab_inj.
  - intros a h Ha. destruct (ok_blocks _ _ _ _ H a h Ha) as [B1 B2 B3 B4]. constructor; try done.
    intros Hrest. destruct (B4 Hrest) as (q & Hq & Hx). exists q. split; [|done]. cbn.
    rewrite lookup_delete_ne; [done|]. intros Ei. by destruct (Hun a h Ha Hrest).
  - intros o1 o2 q O1 O2. apply (ok_owner _ _ _ _ H _ _ q); apply HO; by left.
  - intros o q Ho. apply (ok_page _ _ _ _ H o), HO. by left.
  - destruct (ok_va _ _ _ _ H) as (S & S1 & S2 & S3). exists (S ∖ page_set p).
    assert (page_set p ⊆ S) as Hsub.
    { unfold page_set. destruct (decide (p = INVALID_BASE)); [set_solver|].
      intros q ->%elem_of_singleton. apply S3. exists (OSlab i). by constructor. }
    split.
    + replace (page_set p ∪ E ∪ S ∖ page_set p) with (E ∪ S); [done|].
      apply set_eq. intros q. specialize (Hsub q). destruct (decide (q ∈ page_set p)); set_solver.
    + split; [set_solver|]. intros q. rewrite elem_of_difference, S3. split.
      * intros [[o [Ho|(-> & -> & Hp)]%HO] Hn]; [eauto|]. destruct Hn.
        unfold page_set. rewrite decide_False by done. set_solver.
      * intros [o Ho]. split; [exists o; apply HO; by left|]. unfold page_set.
        destruct (decide (p = INVALID_BASE)); [set_solver|]. intros ->%elem_of_singleton.
        assert (o = OSlab i) as ->.
        { apply (ok_owner _ _ _ _ H _ _ p); apply HO; [by left|by right]. }
        inversion Ho as [| | |j r Hj Hr2|]; subst. cbn in Hj. by rewrite lookup_delete_eq in Hj.
Qed.

(** The links between entries say nothing. *)
Lemma heap_object E G X s i e q : heap_ok E G X s -> slabs s !! slab G i = Some e ->
  heap_ok E G X (set_slabs (<[slab G i := with_object q e]> (slabs s)) s).
Proof.
  intros H He. constructor; cbn; try apply H.
  - intros j Hj. destruct (ok_idle _ _ _ _ H j Hj) as (Ha & n & E1). split; [done|].
    destruct (decide (i = j)) as [<-|Hne].
    + rewrite He in E1. injection E1 as ->. exists q. by rewrite lookup_insert_eq.
    + exists n. rewrite lookup_insert_ne; [done|]. by intros ->%slab_inj.
  - intros j Hj. destruct (decide (slab G i = slab G j)) as [->|]; [rewrite lookup_insert_eq; eauto|].
    rewrite lookup_insert_ne by done. by apply (ok_slabs _ _ _ _ H).
  - intros j p Hj. destruct (ok_act _ _ _ _ H j p Hj) as (m & n & E1 & E2). exists m.
    destruct (decide (i = j)) as [<-|Hne].
    + rewrite He in E1. injection E1 as ->. exists q. by rewrite lookup_insert_eq.
    + exists n. rewrite lookup_insert_ne; [done|]. by intros ->%slab_inj.
Qed.
End Steps.
