(* ===== verification/KHeapOps.v ===== *)
(** * The kernel heap: what its operations do

    The operations of [Kmalloc] from the loads and stores up to the search for a slab, against
    the invariant of [KHeap]. *)
From S2P Require Import KPrelude Spinlock VaAlloc KBits KBitsProofs Kmalloc KHeap KHeapSteps.

Section Ops.
Context {V : Type} `{!Ranges V} `{!RangesLaws V}.
Implicit Type s : k_state V.

(** ** Loads and stores *)

Lemma wp_slab_get p x (Q : slabobj -> k_state V -> Prop) s : slabs s !! p = Some x -> Q x s -> wp (slab_get p) Q s.
Proof. intros E HQ. unfold slab_get. wp_steps. apply wp_of_option. eauto. Qed.
Lemma wp_slab_upd p f x (Q : unit -> k_state V -> Prop) s : slabs s !! p = Some x ->
  Q () (set_slabs (<[p := f x]> (slabs s)) s) -> wp (slab_upd p f) Q s.
Proof. intros E HQ. unfold slab_upd. wp_step. by apply (wp_slab_get _ x). Qed.
Lemma wp_hd_get p x (Q : slabhd -> k_state V -> Prop) s : k_hds s !! p = Some x -> Q x s -> wp (hd_get p) Q s.
Proof. intros E HQ. unfold hd_get. wp_steps. apply wp_of_option. eauto. Qed.
Lemma wp_hd_upd p f x (Q : unit -> k_state V -> Prop) s : k_hds s !! p = Some x ->
  Q () (set_k_hds (<[p := f x]> (k_hds s)) s) -> wp (hd_upd p f) Q s.
Proof. intros E HQ. unfold hd_upd. wp_step. by apply (wp_hd_get _ x). Qed.
Lemma wp_cache_get p x (Q : slab_cache -> k_state V -> Prop) s : caches s !! p = Some x -> Q x s -> wp (cache_get p) Q s.
Proof. intros E HQ. unfold cache_get. wp_steps. apply wp_of_option. eauto. Qed.
Lemma wp_cache_upd p f x (Q : unit -> k_state V -> Prop) s : caches s !! p = Some x ->
  Q () (set_caches (<[p := f x]> (caches s)) s) -> wp (cache_upd p f) Q s.
Proof. intros E HQ. unfold cache_upd. wp_step. by apply (wp_cache_get _ x). Qed.
Lemma wp_cache_read p l n i v (Q : Z -> k_state V -> Prop) s : caches s !! p = Some (mkCache l n) ->
  0 <= i -> l !! Z.to_nat i = Some v -> Q v s -> wp (cache_read p i) Q s.
Proof.
  intros E Hi Hv HQ. unfold cache_read. wp_step. apply (wp_cache_get _ _ _ _ E). apply wp_of_option.
  exists v. split; [|done]. unfold array_get. destruct (Z.ltb_spec i 0); [lia|]. done.
Qed.
Lemma wp_cache_write p l n i v (Q : unit -> k_state V -> Prop) s : caches s !! p = Some (mkCache l n) ->
  0 <= i < Z.of_nat (length l) ->
  Q () (set_caches (<[p := mkCache (<[Z.to_nat i := v]> l) n]> (caches s)) s) -> wp (cache_write p i v) Q s.
Proof.
  intros E Hi HQ. unfold cache_write. wp_step. apply (wp_cache_get _ _ _ _ E). wp_step. apply wp_of_option.
  exists (<[Z.to_nat i := v]> l). split; [by apply array_set_Some|]. by apply (wp_cache_upd _ _ (mkCache l n)).
Qed.
Lemma wp_header_get p x (Q : k_header -> k_state V -> Prop) s : headers s !! p = Some x -> Q x s -> wp (header_get p) Q s.
Proof. intros E HQ. unfold header_get. wp_steps. apply wp_of_option. eauto. Qed.

(** ** Objects of a slab *)

Lemma wp_take_objs sl req (creq : bool) p f m n s : slabs s !! sl = Some (mkSlab p f m n) ->
  map128 m -> 0 < req -> (creq = false -> m = 0) -> 0 < p -> p + 4096 < 2 ^ 64 ->
  wp (take_objs sl req creq) (fun r s' =>
    (exists sc m', r = mkSearchRet sc (p + 32 * sc) /\ ret_addr r <> 0 /\ first_run m req (Some sc) /\
       marks true sc (sc + req) m m' /\ s' = set_slabs (<[sl := mkSlab p f m' n]> (slabs s)) s) \/
    (ret_addr r = 0 /\ first_run m req None /\ s' = s)) s.
Proof.
  intros E Hm Hr Hc Hp0 Hp1. unfold take_objs. wp_step. apply (wp_slab_get _ _ _ _ E). wp_step. cbn.
  eapply wp_mono; [by apply wp_find_objs; [| | |lia|]|].
  intros [[sc addr] m'] s1 [-> [(-> & Hrun & Hmark)|(-> & Hrun & ->)]]; wp_step; cbn [fst snd];
    (eapply wp_slab_upd; [exact E|]); wp_step.
  - left. exists sc, m'. pose proof Hrun as ((H0 & _) & _). split; [done|]. split; [cbn; lia|]. done.
  - right. split; [done|]. split; [done|]. cbn. rewrite insert_id by done. by destruct s.
Qed.

(** What a search that found something leaves: objects [sc] to [sc + req] of slab [i] are taken. *)
Record found_in (E : gset Z) (G : ghost) (req : Z) (i sc : Z) (f : found) (s : k_state V) : Prop := {
  fi_ok : heap_ok E G (Some (i, sc, req)) s;
  fi_slab : f_slab f = slab G i;
  fi_hd : f_hd f = g_hd G;
  fi_sc : f_sc f = sc;
  fi_pid : f_pid f = i;
  fi_place : exists p, g_act G !! i = Some p /\ f_place f = p + 32 * sc /\ f_place f <> 0
}.

Lemma act_page E G X s i p : heap_ok E G X s -> g_act G !! i = Some p -> 0 < p /\ p + 4096 < 2 ^ 64.
Proof.
  intros H Hi. destruct (decide (p = INVALID_BASE)) as [->|Hne]; [by unfold INVALID_BASE|].
  destruct (ok_page _ _ _ _ H (OSlab i) p) as (? & _ & ?); [by constructor|done].
Qed.

(** [less_objs] after [take_objs]. *)
Lemma wp_take_less E G i p m n req sc m' (Q : unit -> k_state V -> Prop) s : heap_ok E G None s ->
  g_act G !! i = Some p -> slabs s !! slab G i = Some (mkSlab p (128 - ones m) m n) -> 0 < req <= 128 ->
  first_run m req (Some sc) -> marks true sc (sc + req) m m' ->
  (forall s', heap_ok E G (Some (i, sc, req)) s' -> headers s' = headers s -> klock s' = klock s -> k_data s' = k_data s ->
     slabs s' = <[slab G i := mkSlab p (128 - ones m - req) m' n]> (slabs s) -> Q () s') ->
  wp (less_objs (slab G i) req) Q
    (set_slabs (<[slab G i := mkSlab p (128 - ones m) m' n]> (slabs s)) s).
Proof.
  intros H Hi Hs Hr Hrun Hmark HQ. unfold less_objs. eapply wp_slab_upd; [apply lookup_insert_eq|].
  unfold with_obs. cbn [FreeObs PageBase Cache_2048 next_object]. pose proof (ones_range m). rewrite i32_id by lia.
  apply HQ; try done.
  - eapply heap_ok_ext; [eapply heap_take; [exact H|exact Hi|exact Hs|apply Hrun|lia|exact Hmark]|done|done| |done|done].
    cbn. by rewrite insert_insert_eq.
  - cbn. by rewrite insert_insert_eq.
Qed.

(** ** Searching *)

Definition quiet s s' : Prop := headers s' = headers s /\ klock s' = klock s /\ k_data s' = k_data s.

Definition found_or (E : gset Z) (G : ghost) (req : Z) s (r : option found) s' : Prop :=
  match r with
  | None => s' = s
  | Some f => exists i sc, found_in E G req i sc f s' /\ quiet s s'
  end.

Lemma wp_scan_page E G req s : heap_ok E G None s -> 0 < req <= 128 ->
  wp (scan_page req (g_hd G)) (found_or E G req s) s.
Proof.
  intros H Hr. unfold scan_page. wp_step. eapply wp_hd_get; [apply H|]. cbn [used_cache].
  destruct (ok_used _ _ _ _ H) as (l & u & E1 & E2 & E3 & E4 & E5 & E6).
  wp_step. eapply wp_cache_get; [exact E1|]. cbn [cache_index]. pose proof (ok_count _ _ _ _ H) as Hc.
  apply (wp_while _ (fun i s' => s' = s /\ 0 <= i <= u) (fun i _ => u - i)).
  - intros i s' [-> Hi]. destruct (Z.ltb_spec i u) as [Hlt|]; [|wp_steps; done].
    wp_step. eapply wp_cache_read; [exact E1|lia|apply E5; lia|].
    destruct (decide (is_Some (g_act G !! i))) as [[p Hp]|Hn].
    + pose proof (act_range _ _ _ _ _ _ H Hp) as Hir.
      rewrite (proj2 (Z.eqb_neq _ _)) by (by apply (slab_nz _ _ _ _ _ H)).
      destruct (ok_act _ _ _ _ H i p Hp) as (m & n & Es & Hm & Ht). wp_step. eapply wp_slab_get; [exact Es|].
      cbn [FreeObs]. pose proof (ones_range m). rewrite i32_id by lia. rewrite Z.geb_leb.
      destruct (Z.leb_spec 0 (128 - ones m - req)); [|wp_steps; split_and!; done || lia].
      destruct (act_page _ _ _ _ _ _ H Hp). wp_step.
      eapply wp_mono; [apply (wp_take_objs (slab G i) req true p (128 - ones m) m n); [done|done|lia|done|done|done]|].
      intros r s1 [(sc & m' & -> & Hnz & Hrun & Hmark & ->)|(-> & _ & ->)]; cbn beta iota.
      * rewrite (proj2 (Z.eqb_neq _ _)) by done. wp_step.
        eapply (wp_take_less E G i p m n req sc m'); [done..|]. intros s2 Hf Q1 Q2 Q3 _. wp_steps.
        exists i, sc. split; [|done]. constructor; try done. exists p. done.
      * cbn [Z.eqb]. wp_steps. split_and!; done || lia.
    + cbn [Z.eqb]. wp_steps. split_and!; done || lia.
  - split; [done|lia].
  - change slab_count with 112 in Hc. unfold FUEL. lia.
Qed.

Lemma head_nz E G X s : heap_ok E G X s -> g_hd G <> 0.
Proof. intros H. pose proof (page_head _ _ _ _ H) as (? & _). lia. Qed.

Lemma wp_scan_used E G req s : heap_ok E G None s -> 0 < req <= 128 ->
  wp (scan_used req) (found_or E G req s) s.
Proof.
  intros H Hr. unfold scan_used. wp_steps. rewrite (ok_shd _ _ _ _ H). pose proof (head_nz _ _ _ _ H) as Hnz.
  apply (wp_while _ (fun hd s' => s' = s /\ (hd = g_hd G \/ hd = 0)) (fun hd _ => if hd =? 0 then 0 else 1)).
  - intros hd s' [-> [-> | ->]]; [|done]. rewrite (proj2 (Z.eqb_neq _ _)) by done. wp_step.
    eapply wp_mono; [by apply wp_scan_page|]. intros [f|] s1; cbn [found_or].
    + intros Hf. wp_steps. exact Hf.
    + intros ->. wp_step. eapply wp_hd_get; [apply H|]. wp_steps. cbn. split; [|lia]. auto.
  - auto.
  - unfold FUEL. destruct (_ =? _); lia.
Qed.

Lemma wp_use_slab hd sl x c l u i (Q : Z -> k_state V -> Prop) s :
  k_hds s !! hd = Some x -> used_cache x = c -> caches s !! c = Some (mkCache l u) ->
  get_index sl = i -> 0 <= i < Z.of_nat (length l) -> i + 1 < 2 ^ 31 ->
  Q i (set_caches (<[c := mkCache (<[Z.to_nat i := sl]> l) (Z.max u (i + 1))]> (caches s)) s) ->
  wp (use_slab hd sl) Q s.
Proof.
  intros Hx Hc Hl Hi Hr Hb HQ. unfold use_slab. rewrite Hi. wp_step. eapply wp_hd_get; [exact Hx|].
  rewrite Hc. wp_step. eapply wp_cache_write; [exact Hl|lia|]. wp_step.
  eapply wp_cache_get; [apply lookup_insert_eq|]. cbn [cache_index]. wp_step. rewrite Z.geb_leb.
  destruct (Z.leb_spec u i).
  - eapply wp_cache_upd; [apply lookup_insert_eq|]. wp_steps. unfold with_cindex. cbn.
    rewrite insert_insert_eq, i32_id by lia. by replace (Z.max u (i + 1)) with (i + 1) in HQ by lia.
  - wp_steps. by replace (Z.max u (i + 1)) with u in HQ by lia.
Qed.

(** ** An empty slab, or a new one *)

(** What taking objects of a slab that had none of them taken leaves: the slab is in use, without
    a page, and its first objects are taken. *)
Definition opened (E : gset Z) (G' : ghost) (i req : Z) s (f : found) s' : Prop :=
  found_in E G' req i 0 f s' /\ g_act G' !! i = Some INVALID_BASE /\ unshared G' i /\ quiet s s'.

Lemma first_run_empty req : 0 < req <= 128 -> forall sc, first_run 0 req (Some sc) -> sc = 0.
Proof.
  intros Hr sc [(F0 & F1 & _) Hf]. destruct (decide (sc = 0)) as [|Hne]; [done|]. exfalso.
  apply (Hf 0); [lia|]. split; [done|]. split; [lia|]. intros k _. apply Z.bits_0.
Qed.

Lemma empty_fits req : 0 < req <= 128 -> ~ first_run 0 req None.
Proof. intros Hr Hn. apply (Hn 0). split; [done|]. split; [lia|]. intros k _. apply Z.bits_0. Qed.

Lemma unshared_new E G s i : heap_ok E G None s -> g_act G !! i = None -> unshared G i.
Proof.
  intros H Hi a h Ha Hr <-. destruct (b_rest _ _ _ (ok_blocks _ _ _ _ H a h Ha) Hr) as (p & Hp & _). congruence.
Qed.

(** [take_objs] and [less_objs] on a slab without a page and with all objects free. *)
Lemma wp_open_slab {A} sl n req (creq : bool) (k : search_ret -> M (k_state V) A) Q s :
  slabs s !! sl = Some (mkSlab INVALID_BASE 128 0 n) -> 0 < req <= 128 ->
  (forall m, fits 0 0 req -> marks true 0 (0 + req) 0 m ->
     wp (k (mkSearchRet 0 INVALID_BASE)) Q (set_slabs (<[sl := mkSlab INVALID_BASE (128 - ones 0 - req) m n]> (slabs s)) s)) ->
  wp (r ← take_objs sl req creq; less_objs sl req;; k r) Q s.
Proof.
  intros Hs Hr HQ. wp_step.
  eapply wp_mono; [apply (wp_take_objs _ req creq INVALID_BASE 128 0 n); try done; lia|].
  intros r s1 [(sc & m' & -> & Hnz & Hrun & Hmark & ->)|(_ & Hrun & _)]; [|by destruct (empty_fits req Hr)].
  pose proof (first_run_empty req Hr sc Hrun) as ->. wp_step.
  unfold less_objs. eapply wp_slab_upd; [apply lookup_insert_eq|]. unfold with_obs. cbn [FreeObs PageBase Cache_2048 next_object].
  rewrite i32_id by lia. specialize (HQ m' (proj1 Hrun) Hmark). rewrite ones_0 in HQ.
  cbn. rewrite insert_insert_eq. exact HQ.
Qed.

Lemma wp_scan_unused E G req (creq : bool) s : heap_ok E G None s -> 0 < req <= 128 ->
  wp (scan_unused req creq) (fun r s' =>
    match r with
    | None => g_idle G = [] /\ s' = s
    | Some f => exists idle i, g_idle G = idle ++ [i] /\ opened E (activated i idle (g_count G) G) i req s f s'
    end) s.
Proof.
  intros H Hr. unfold scan_unused. wp_steps. rewrite (ok_shd _ _ _ _ H). pose proof (head_nz _ _ _ _ H) as Hnz.
  destruct (page_distinct _ _ _ _ H) as (D1 & D2 & D3).
  destruct (ok_unused _ _ _ _ H) as (lu & U1 & U2 & U3). destruct (ok_used _ _ _ _ H) as (l & u & E1 & E2 & E3 & E4 & E5 & E6).
  apply (wp_while _ (fun hd s' => s' = s /\ (hd = g_hd G \/ hd = 0 /\ g_idle G = []))
    (fun hd _ => if hd =? 0 then 0 else 1)).
  2: { auto. }
  2: { unfold FUEL. destruct (_ =? _); lia. }
  intros hd s' [-> [-> |[-> Hid]]]; [|done]. rewrite (proj2 (Z.eqb_neq _ _)) by done.
  wp_step. eapply wp_hd_get; [apply H|]. cbn [unused_cache]. wp_step. eapply wp_cache_get; [exact U1|]. cbn [cache_index].
  assert (g_idle G = [] \/ exists idle i, g_idle G = idle ++ [i]) as [Hid|(idle & i & Hid)]
    by (destruct (g_idle G) using rev_ind; eauto).
  { rewrite Hid. cbn. wp_steps. split; [auto|cbn; lia]. }
  assert (i ∈ g_idle G) as Hin by (rewrite Hid; set_solver).
  destruct (ok_idle _ _ _ _ H i Hin) as (Hact & n & Hrec).
  assert (0 <= i < g_count G) as Hi by (apply (ok_split _ _ _ _ H); by left). pose proof (ok_count _ _ _ _ H) as Hc.
  change slab_count with 112 in *.
  assert (length (idle ++ [i]) <= 112)%nat as Hlen.
  { rewrite <- Hid. eapply idle_bound; [exact H|apply H|]. intros j Hj.
    assert (0 <= j < g_count G); [|change slab_count with 112; lia]. apply (ok_split _ _ _ _ H). by left. }
  rewrite Hid, length_app in U1. rewrite Hid, length_app in U3. rewrite length_app in Hlen.
  rewrite Hid, length_app. cbn [length] in *.
  rewrite (proj2 (Z.eqb_neq (Z.of_nat (length idle + 1)) 0)) by lia. cbn [negb]. wp_step. eapply wp_cache_upd; [exact U1|]. wp_step.
  replace (Z.of_nat (length idle + 1) - 1) with (Z.of_nat (length idle)) in * by lia.
  unfold with_cindex at 1. cbn [addresses]. rewrite i32_id by lia.
  eapply wp_cache_read; [apply lookup_insert_eq|lia| |].
  { rewrite Nat2Z.id. rewrite <- (lookup_take_lt lu (length idle + 1)) by lia. rewrite U3, fmap_app.
    rewrite lookup_app_r by (rewrite length_fmap; lia). by rewrite length_fmap, Nat.sub_diag. }
  wp_step. eapply wp_hd_upd; [apply H|]. unfold with_hunused. cbn.
  refine (wp_open_slab _ n req creq _ _ _ _ Hr _); [exact Hrec|]. intros m Hf Hm. wp_step.
  pose proof (heap_activate E G s idle i lu _ l u H Hid U1 E1) as H1.
  set (G1 := activated i idle (g_count G) G) in *.
  assert (g_act G1 !! i = Some INVALID_BASE) as Ha1 by apply lookup_insert_eq.
  pose proof (heap_take E G1 _ i INVALID_BASE 0 n 0 req m H1 Ha1) as H2.
  eapply (wp_use_slab _ _ _ (g_used G) l u i); [apply lookup_insert_eq|done| | |lia|lia|].
  { cbn. by rewrite lookup_insert_ne. }
  { apply (slab_index _ _ _ _ _ H). change slab_count with 112. lia. }
  wp_step. cbn [mret]. exists idle, i. split; [done|]. split; [|split; [done|split; [|done]]].
  - constructor; try done; [|exists INVALID_BASE; done].
    eapply heap_ok_ext; [apply H2; [cbn; by rewrite ones_0|done|lia|done]|done|done|done| |done].
    replace (u64 (Z.of_nat (length (g_idle G)) - 1)) with (Z.of_nat (length idle)); [done|].
    rewrite Hid, length_app. cbn [length]. rewrite u64_id by lia. lia.
  - intros a h Ha. exact (unshared_new _ _ _ _ H Hact a h Ha).
Qed.

End Ops.

Section Slabs.
Context {V : Type} `{!Ranges V} `{!RangesLaws V}.
Context (stale_slab : Z -> slabobj) (stale_hd : Z -> slabhd) (stale_cache : Z -> Z).
Implicit Type s : k_state V.

Lemma slab_next G i : slab G i + sizeof_slabobj = slab G (i + 1).
Proof. unfold slab, slab_at, sizeof_slabobj. lia. Qed.

(** The entry behind the last one, when no empty slab is left. *)
Lemma wp_createSlab E G s : heap_ok E G None s -> g_idle G = [] ->
  0 < g_count G < slab_count ->
  wp (createSlab stale_slab stale_hd stale_cache) (fun r s' =>
    r = slab G (g_count G) /\
    exists e b f n,
      let s1 := set_slabs (<[slab G (g_count G - 1) := with_object (slab G (g_count G)) e]> (slabs s)) s in
      slabs s !! slab G (g_count G - 1) = Some e /\
      s' = set_k_hds (<[g_hd G := mkSlabHd (slab_count - (g_count G + 1)) 0 0 0 (g_used G) (g_unused G)]> (k_hds s))
          (set_slabs (<[slab G (g_count G) := mkSlab INVALID_BASE b f n]> (slabs s1))
          (set_latest (slab G (g_count G)) s1))) s.
Proof.
  intros H Hid Hc. unfold createSlab. wp_steps.
  destruct (ok_start _ _ _ _ H) as [[? _]|(_ & Hst & Hlat)]; [lia|].
  rewrite (proj2 (Z.eqb_neq _ _)) by done. wp_steps. cbn zeta. rewrite Hlat.
  rewrite (slab_find_hd _ _ _ _ _ H) by lia.
  eapply wp_hd_get; [apply H|]. cbn [free_entries]. rewrite (proj2 (Z.eqb_neq _ _)) by lia.
  wp_steps. rewrite (ok_shd _ _ _ _ H).
  destruct (ok_unused _ _ _ _ H) as (lu & U1 & U2 & U3). rewrite Hid in U1. cbn in U1.
  eapply (wp_mono _ (fun r s' => s' = s /\ r = (g_hd G, mkCache lu 0))).
  { apply (wp_while _ (fun hd s' => s' = s /\ hd = g_hd G) (fun _ _ => 0)); [|done|done].
    intros hd s' [-> ->]. wp_step. eapply wp_hd_get; [apply H|]. cbn [unused_cache]. wp_step.
    eapply wp_cache_get; [exact U1|]. cbn. wp_steps. done. }
  intros r s' [-> ->]. cbn. set (c := g_count G) in *.
  destruct (ok_slabs _ _ _ _ H (c - 1) ltac:(lia)) as [e He].
  destruct (ok_slabs _ _ _ _ H c ltac:(lia)) as [[b f m n] Hn].
  wp_step. eapply wp_slab_upd; [exact He|]. rewrite slab_next. replace (c - 1 + 1) with c by lia. wp_steps.
  eapply wp_slab_upd.
  { cbn. rewrite lookup_insert_ne; [exact Hn|]. intros ?%slab_inj. lia. }
  wp_step. rewrite (slab_find_hd _ _ _ _ _ H) by lia. eapply wp_hd_upd; [cbn; apply H|]. wp_step.
  split; [done|]. exists e, f, m, 0. split; [done|].
  unfold with_hfree, with_object, with_page. cbn. rewrite Hid. cbn.
  replace (u64 (slab_count - g_count G - 1)) with (slab_count - (g_count G + 1)); [done|].
  fold c. change slab_count with 112 in *. rewrite u64_id by lia. lia.
Qed.

Lemma wp_make_slab E G req (creq : bool) s : heap_ok E G None s -> g_idle G = [] ->
  0 < g_count G < slab_count -> 0 < req <= 128 ->
  wp (make_slab stale_slab stale_hd stale_cache req creq) (fun r s' => exists f, r = Some f /\
    opened E (activated (g_count G) [] (g_count G + 1) G) (g_count G) req s f s') s.
Proof.
  intros H Hid Hc Hr. unfold make_slab. wp_step. eapply wp_mono; [by eapply wp_createSlab|].
  set (c := g_count G) in *. intros r s1 (-> & e & b & f & n & He & ->).
  rewrite (proj2 (Z.eqb_neq _ _)) by (apply (slab_nz _ _ _ _ _ H); lia).
  destruct (ok_used _ _ _ _ H) as (l & u & E1 & E2 & E3 & E4 & E5 & E6).
  pose proof (heap_object _ _ _ _ _ _ (slab G c) H He) as Hobj. cbn zeta.
  destruct (heap_fresh E G _ l u n Hobj Hid Hc E1) as [Eu Hf]. fold c in Eu, Hf. subst u.
  rewrite (slab_find_hd _ _ _ _ _ H) by lia.
  wp_step. eapply wp_slab_upd; [apply lookup_insert_eq|]. unfold with_map. cbn [PageBase FreeObs next_object].
  wp_step. eapply wp_slab_upd; [apply lookup_insert_eq|]. unfold with_obs. cbn [PageBase Cache_2048 next_object].
  wp_step. eapply wp_hd_upd; [apply lookup_insert_eq|]. unfold with_hunused at 1. cbn.
  refine (wp_open_slab _ n req creq _ _ _ _ Hr _); [apply lookup_insert_eq|]. intros m Hfit Hm.
  wp_step. eapply wp_hd_upd; [apply lookup_insert_eq|]. unfold with_hunused. cbn. wp_step.
  change (u64 (u64 (0 + 1) - 1)) with 0.
  set (G1 := activated c [] (c + 1) G) in *.
  assert (g_act G1 !! c = Some INVALID_BASE) as Ha1 by apply lookup_insert_eq.
  pose proof (heap_take E G1 _ c INVALID_BASE 0 n 0 req m Hf Ha1) as H2.
  eapply (wp_use_slab _ _ _ (g_used G) l c c); [apply lookup_insert_eq|done|exact E1| | | |].
  { apply (slab_index _ _ _ _ _ H). lia. }
  { change slab_count with 112 in *. lia. }
  { change slab_count with 112 in *. lia. }
  wp_steps. eexists. split; [reflexivity|]. split; [|split; [done|split; [|done]]].
  - constructor; try done; [|exists INVALID_BASE; done].
    eapply heap_ok_ext; [apply H2; [|done|lia|done]|done|done| | |].
    + cbn. rewrite lookup_insert_eq, ones_0. done.
    + cbn. by rewrite !insert_insert_eq.
    + cbn. by rewrite !insert_insert_eq.
    + cbn. by replace (c `max` (c + 1)) with (c + 1) by lia.
  - assert (g_act G !! c = None) as Hact.
    { destruct (g_act G !! c) eqn:Ea; [|done]. assert (0 <= c < g_count G); [|unfold c in *; lia].
      apply (ok_split _ _ _ _ H). right. eauto. }
    intros a h Ha. exact (unshared_new _ _ _ _ H Hact a h Ha).
Qed.

(** The first slab of all becomes an empty one. *)
Lemma wp_first_slab E G s : heap_ok E G None s -> g_count G = 0 ->
  wp (first_slab stale_slab stale_hd stale_cache) (fun r s' => r = true /\ heap_ok E (first_idle G) None s' /\ quiet s s') s.
Proof.
  intros H Hc. unfold first_slab, createSlab.
  destruct (ok_start _ _ _ _ H) as [[_ Hst]|(? & _)]; [|lia].
  destruct (ok_unused _ _ _ _ H) as (lu & U1 & U2 & U3).
  destruct (ok_slabs _ _ _ _ H 0 ltac:(by unfold slab_count)) as [e He].
  pose proof (slab_nz _ _ _ _ 0 H ltac:(by unfold slab_count)) as [Hnz _].
  assert (g_idle G = []) as Hid.
  { destruct (g_idle G) as [|i l] eqn:El; [done|]. assert (0 <= i < g_count G); [|lia].
    apply (ok_split _ _ _ _ H). left. rewrite El. set_solver. }
  rewrite Hid in U1. cbn in U1. pose proof (heap_first E G s lu 0 H Hc U1) as Hf.
  wp_steps. rewrite Hst. cbn [Z.eqb]. wp_steps. rewrite (ok_shd _ _ _ _ H).
  change (slab_at (g_hd G) 0) with (slab G 0). eapply wp_slab_upd; [exact He|]. wp_step.
  eapply wp_hd_upd; [apply H|]. wp_steps. rewrite (proj2 (Z.eqb_neq _ _)) by done.
  wp_step. eapply wp_slab_upd; [apply lookup_insert_eq|]. wp_steps. cbn [shd set_latest set_slabs set_k_hds set_start].
  rewrite (ok_shd _ _ _ _ H). eapply wp_hd_upd; [apply lookup_insert_eq|]. wp_step.
  eapply wp_hd_get; [apply lookup_insert_eq|]. unfold with_hunused, with_hfree. cbn [unused_cache unused_entries].
  wp_step. eapply wp_cache_get; [exact U1|]. cbn [cache_index]. wp_step. eapply wp_cache_write; [exact U1|lia|].
  wp_steps. assert (0 < r_max (k_va s) < 2 ^ 64) as Hmax.
  { destruct (ok_va _ _ _ _ H) as (S & S1 & S2 & S3). apply (r_max_spec (E ∪ S)); [done|].
    intros Hx. assert (g_hd G ∈ E ∪ S); [|set_solver]. apply elem_of_union. right. apply S3. eexists. constructor. }
  cbn [k_va set_caches set_k_hds set_slabs set_latest set_start].
  rewrite u64_id by lia. rewrite (proj2 (Z.ltb_lt _ _)) by lia.
  eapply wp_cache_upd; [apply lookup_insert_eq|]. wp_steps. split; [done|]. split; [|done].
  eapply heap_ok_ext; [exact Hf|done|done| | |].
  - cbn. by rewrite !insert_insert_eq.
  - cbn. rewrite Hid, Hc, !insert_insert_eq. done.
  - cbn. rewrite !insert_insert_eq. done.
Qed.
End Slabs.
