(* ===== verification/KHeapProofs.v ===== *)
(** * The kernel heap: its contract

    [kmalloc], [kfree] and [krealloc] as operations on the set of blocks, every path of them
    included, for a heap whose slabs have their entries in one page. *)
From S2P Require Import KPrelude Spinlock VaAlloc KBits KBitsProofs Kmalloc KHeap KHeapSteps KHeapOps.

Section Pages.
Context {V : Type} `{!Ranges V} `{!RangesLaws V}.
Implicit Type s : k_state V.

(** ** Pages from the allocator of address ranges *)

Lemma pages_of_1 p : pages_of p 1 = {[p]}.
Proof.
  apply set_eq. intros q. rewrite elem_pages, elem_of_singleton. split.
  - intros (i & Hi & ->). lia.
  - intros ->. exists 0. lia.
Qed.

(** The allocator of address ranges refused a request. *)
Definition refused : Prop := exists n v r v', r_alloc (V := V) n 0x03 v = Done r v' /\ ret_status r <> 0.

Lemma wp_alloc_or_refused n v (Q : va_ret -> V -> Prop) : wp (r_alloc n 0x03) Q v ->
  wp (r_alloc n 0x03) (fun r v' => Q r v' /\ (ret_status r <> 0 -> refused)) v.
Proof.
  intros H. destruct (wp_inv _ _ _ H) as (r & v' & E & HQ). unfold wp. rewrite E. split; [done|].
  intros Hr. by exists n, v, r, v'.
Qed.

Lemma wp_alloc_pages E G X n s : heap_ok E G X s -> 0 < n < 2 ^ 52 ->
  wp (va (r_alloc n 0x03)) (fun r s' => exists v, s' = set_k_va v s /\
    (if decide (ret_status r = 0) then
      0 < base r /\ base r mod 4096 = 0 /\ base r + 4096 * n < 2 ^ 64 /\
      pages_of (base r) n ## E /\ heap_ok (pages_of (base r) n ∪ E) G X s'
    else refused /\ heap_ok E G X s')) s.
Proof.
  intros H Hn. unfold va. wp_step. destruct (ok_va _ _ _ _ H) as (S & S1 & S2 & S3).
  eapply wp_mono; [by apply wp_alloc_or_refused, r_alloc_spec|]. cbn beta. intros r v [Hr Href]. exists v.
  split; [done|]. destruct (decide (ret_status r = 0)).
  - destruct Hr as (R1 & R2 & R3 & R4 & R5). split_and!; try done; [set_solver|].
    constructor; cbn; try apply H. exists S.
    split; [by replace (pages_of (base r) n ∪ E ∪ S) with (pages_of (base r) n ∪ (E ∪ S)) by set_solver|].
    split; [set_solver|done].
  - split; [by apply Href|]. constructor; cbn; try apply H. by exists S.
Qed.

Lemma wp_new_page E G X s : heap_ok E G X s ->
  wp new_page (fun r s' => exists v, s' = set_k_va v s /\
    match r with
    | Some p => page_addr p /\ (p ∉ E) /\ heap_ok ({[p]} ∪ E) G X s'
    | None => refused /\ heap_ok E G X s'
    end) s.
Proof.
  intros H. unfold new_page. wp_step. eapply wp_mono; [by eapply (wp_alloc_pages E G X 1)|].
  intros r s' (v & -> & Hr). wp_step. exists v. split; [done|].
  destruct (Z.eqb_spec (ret_status r) 0) as [Es|Es]; cbn [negb]; [rewrite decide_True in Hr by done|by rewrite decide_False in Hr].
  rewrite pages_of_1 in Hr. destruct Hr as (R1 & R2 & R3 & R4 & R5).
  split; [unfold page_addr; lia|]. split; [set_solver|done].
Qed.

(** [sR] is the state the invariant describes when the pages go, [s] the one the operation is in. *)
Lemma wp_release_at E G X p n s sR : heap_ok (pages_of p n ∪ E) G X sR -> k_va sR = k_va s ->
  pages_of p n ## E -> 0 < n ->
  wp (release p n) (fun _ s' => exists v, heap_ok E G X (set_k_va v sR) /\
    s' = set_headers (filter (fun x => ~ (p <= x.1 < p + n * 4096)) (headers s)) (set_k_va v s)) s.
Proof.
  intros H Hv Hd Hn. unfold release, va. wp_steps. destruct (ok_va _ _ _ _ H) as (S & S1 & S2 & S3).
  rewrite Hv in S1. eapply wp_mono; [apply (r_free_spec _ _ p n S1 Hn); set_solver|].
  cbn beta. intros _ v Hr. wp_step. exists v. split; [|done]. constructor; cbn; try apply H. exists S.
  replace ((pages_of p n ∪ E ∪ S) ∖ pages_of p n) with (E ∪ S) in Hr
    by (apply set_eq; intros q; destruct (decide (q ∈ pages_of p n)); set_solver).
  split; [done|]. split; [set_solver|done].
Qed.

(** ** A slab gets its page, or is empty again *)

Lemma unshared_page E G X s i : heap_ok E G X s -> g_act G !! i = Some INVALID_BASE -> unshared G i.
Proof.
  intros H Hi a h Ha Hr <-. destruct (b_rest _ _ _ (ok_blocks _ _ _ _ H a h Ha) Hr) as (p & Hp & Hne & _). congruence.
Qed.

Lemma unshared_empty E G s i p m n k : heap_ok E G None s -> g_act G !! i = Some p -> unshared G i ->
  slabs s !! slab G i = Some (mkSlab p k m n) -> m = 0 /\ k = 128.
Proof.
  intros H Hi Hu Hs. destruct (ok_act _ _ _ _ H i p Hi) as (m' & n' & E1 & Hm & Ht). rewrite Hs in E1.
  injection E1 as -> <- <-. assert (m = 0) as ->; [|by rewrite ones_0].
  apply (marks_ext 0 _ _ true 0 0); [|by apply marks_refl]. split; [done|]. intros j Hj.
  destruct (Z.leb_spec 0 j), (Z.ltb_spec j 0); cbn; try lia. rewrite Z.bits_0.
  destruct (Z.testbit m j) eqn:Ej; [|done]. apply Ht in Ej; [|done].
  destruct Ej as [(a & h & Ha & Hr & Hx & _)|(? & ? & ? & _)]; [|done]. by destruct (Hu a h Ha Hr).
Qed.

(** Giving objects back: [clean_cache] and the count. *)
Lemma wp_give_back {A} E G i sc req p m n (k : M (k_state V) A) Q s : heap_ok E G (Some (i, sc, req)) s ->
  g_act G !! i = Some p -> slabs s !! slab G i = Some (mkSlab p (128 - ones m) m n) ->
  (forall m', let s' := set_slabs (<[slab G i := mkSlab p (128 - ones m + req) m' n]> (slabs s)) s in
    heap_ok E G None s' -> wp k Q s') ->
  wp (b ← clean_cache req m sc; slab_upd (slab G i) (with_map b);;
      slab_upd (slab G i) (fun x => with_obs (i32 (FreeObs x + req)) x);; k) Q s.
Proof.
  intros H Hi Hs HQ. destruct (ok_pending _ _ _ _ H i sc req eq_refl) as (_ & P1 & P2 & P3 & _).
  destruct (ok_act _ _ _ _ H i p Hi) as (m1 & n1 & E1 & Hm & _). rewrite Hs in E1. injection E1 as _ <- <-.
  wp_step. unfold clean_cache. eapply wp_mono; [apply wp_mark_objs; [done|lia..]|]. intros m' s' [-> Hmark].
  wp_step. eapply wp_slab_upd; [exact Hs|]. wp_step. eapply wp_slab_upd; [apply lookup_insert_eq|].
  unfold with_obs, with_map. cbn. pose proof (ones_range m). rewrite i32_id, insert_insert_eq by lia.
  apply HQ. by eapply heap_untake.
Qed.

(** [cache_slab]: one more empty slab in the cache of the page. *)
Lemma wp_cache_slab hd sl x lu nu (Q : unit -> k_state V -> Prop) s : k_hds s !! hd = Some x ->
  caches s !! unused_cache x = Some (mkCache lu nu) -> 0 <= nu < Z.of_nat (length lu) -> nu + 1 < 2 ^ 31 ->
  Q () (set_caches (<[unused_cache x := mkCache (<[Z.to_nat nu := sl]> lu) (nu + 1)]> (caches s)) s) ->
  wp (cache_slab hd sl) Q s.
Proof.
  intros Hx Hl Hn Hb HQ. unfold cache_slab. wp_step. eapply wp_hd_get; [exact Hx|].
  wp_step. eapply wp_cache_get; [exact Hl|]. cbn [cache_index]. wp_step. eapply wp_cache_write; [exact Hl|done|].
  eapply wp_cache_upd; [apply lookup_insert_eq|]. unfold with_cindex. cbn.
  by rewrite insert_insert_eq, i32_id by lia.
Qed.

(** Room for one more. *)
Lemma idle_room E G X s i : heap_ok E G X s -> is_Some (g_act G !! i) -> (length (g_idle G) < 112)%nat.
Proof.
  intros H Hi. assert (length (g_idle G ++ [i]) <= 112)%nat as B; [|rewrite length_app in B; cbn in B; lia].
  eapply idle_bound; [exact H| |].
  - apply NoDup_app. split; [apply H|]. split; [|apply NoDup_singleton].
    intros j Hj ->%list_elem_of_singleton. destruct (ok_idle _ _ _ _ H i Hj) as [E1 _]. rewrite E1 in Hi. by destruct Hi.
  - intros j Hj. pose proof (ok_count _ _ _ _ H). assert (0 <= j < g_count G); [|lia].
    apply (ok_split _ _ _ _ H). apply elem_of_app in Hj as [Hj| ->%list_elem_of_singleton]; auto.
Qed.

Lemma wp_back_slab E G req i sc f s : found_in E G req i sc f s -> g_act G !! i = Some INVALID_BASE -> 0 < req <= 128 ->
  wp (back_slab req f) (fun r s' => quiet s s' /\
    match r with
    | Some f' => exists p, page_addr p /\ heap_ok E (with_act (<[i := p]> (g_act G)) G) (Some (i, sc, req)) s' /\
        f' = mkFound (slab G i) (g_hd G) (p + 32 * sc) sc i
    | None => refused /\ heap_ok E (retired i G) None s'
    end) s.
Proof.
  intros [H F1 F2 F3 F4 (p0 & Hp0 & F5 & F6)] Hi Hreq. rewrite Hi in Hp0. injection Hp0 as <-.
  destruct (ok_pending _ _ _ _ H i sc req eq_refl) as (_ & P1 & P2 & P3 & _).
  destruct (ok_act _ _ _ _ H i _ Hi) as (m & n & Hs & Hm & Ht). unfold back_slab. wp_step.
  eapply wp_mono; [by eapply wp_new_page|]. intros [page|] s1 (v & -> & Hr).
  - destruct Hr as (Hpage & HpE & H1). rewrite F1. wp_step. eapply wp_slab_upd; [exact Hs|]. wp_step. cbn [mret].
    unfold with_page. cbn. split; [done|]. exists page. split; [done|]. split.
    + by apply (heap_page E G _ (set_k_va v s) i page).
    + destruct Hpage as (Q1 & Q2 & Q3). rewrite F2, F3, F4, F5. unfold INVALID_BASE.
      rewrite u64_id by lia. f_equal. lia.
  - destruct Hr as [Href Hr]. rewrite F1, F2, F3. wp_step. eapply wp_slab_get; [exact Hs|]. cbn [Cache_2048].
    refine (wp_give_back E G i sc req _ m n _ _ _ Hr Hi Hs _). cbn zeta. intros m' H2.
    set (s2 := set_slabs _ _) in *.
    assert (slabs s2 !! slab G i = Some (mkSlab INVALID_BASE (128 - ones m + req) m' n)) as Hs2 by apply lookup_insert_eq.
    destruct (unshared_empty E G s2 i _ _ _ _ H2 Hi (unshared_page _ _ _ _ _ H2 Hi) Hs2) as [-> Ek].
    destruct (ok_unused _ _ _ _ H2) as (lu & U1 & U2 & U3).
    destruct (ok_used _ _ _ _ H2) as (l & u & E1 & E2 & E3 & E4 & E5 & E6).
    pose proof (heap_retire E G s2 i _ lu _ l u 0 _ n H2 Hi (unshared_page _ _ _ _ _ H2 Hi) U1 E1 Hs2) as HR.
    unfold page_set in HR. rewrite decide_True in HR by done. rewrite (left_id_L ∅ (∪)) in HR.
    destruct (page_distinct _ _ _ _ H) as (D1 & D2 & D3).
    pose proof (act_range _ _ _ _ _ _ H2 Hi) as Hir. change slab_count with 112 in Hir.
    pose proof (idle_room _ _ _ _ i H2 ltac:(by eexists)) as Hroom.
    wp_step. eapply wp_slab_get; [exact Hs2|]. cbn [FreeObs]. rewrite Ek. cbn [Z.eqb Pos.eqb]. wp_step. wp_step.
    eapply wp_hd_get; [apply H2|]. cbn [used_cache]. wp_step. rewrite (slab_index _ _ _ _ _ H2) by done.
    eapply wp_cache_write; [exact E1|lia|]. wp_step. eapply wp_hd_upd; [apply H2|].
    eapply wp_cache_slab; [apply lookup_insert_eq| | | |].
    { unfold with_hunused. cbn. rewrite lookup_insert_ne by done. exact U1. }
    { lia. }
    { lia. }
    wp_step. cbn [mret]. split; [done|]. split; [done|]. eapply heap_ok_ext; [exact HR|done|done| | |].
    + cbn. rewrite Ek, insert_insert_eq. done.
    + cbn. unfold with_hunused. cbn. rewrite u64_id by lia. done.
    + cbn. unfold with_hunused. cbn. rewrite Nat2Z.id. by rewrite insert_insert_ne by done.
Qed.
End Pages.

Section Find.
Context {V : Type} `{!Ranges V} `{!RangesLaws V}.
Context (stale_slab : Z -> slabobj) (stale_hd : Z -> slabhd) (stale_cache : Z -> Z).
Implicit Type s : k_state V.

Lemma heap_quiet_refl s : quiet s s.
Proof. done. Qed.
Lemma heap_quiet_trans s1 s2 s3 : quiet s1 s2 -> quiet s2 s3 -> quiet s1 s3.
Proof. intros (A1 & A2 & A3) (B1 & B2 & B3). split_and!; congruence. Qed.

(** ** The search for objects *)

(** Objects are found, whether or not their slab has a page. *)
Definition stage (E : gset Z) (G : ghost) (req : Z) (conreq : bool) s (f : found) s' : Prop :=
  exists G' i sc, found_in E G' req i sc f s' /\ g_blocks G' = g_blocks G /\ quiet s s' /\
    (conreq = false -> sc = 0 /\ g_act G' !! i = Some INVALID_BASE).

Lemma opened_stage E G G' i req conreq s f s' : opened E G' i req s f s' -> g_blocks G' = g_blocks G ->
  stage E G req conreq s f s'.
Proof. intros (Hf & Ha & _ & Hq) Hb. exists G', i, 0. done. Qed.

Lemma wp_search_slab E G req (conreq : bool) s : heap_ok E G None s -> 0 < req <= 128 ->
  g_idle G <> [] \/ 0 < g_count G < slab_count ->
  wp (r ← (if conreq then scan_used req else mret None);
      r ← (match r with Some f => mret (Some f) | None => scan_unused req conreq end);
      match r with
      | Some f => if f_place f =? 0 then make_slab stale_slab stale_hd stale_cache req conreq else mret (Some f)
      | None => make_slab stale_slab stale_hd stale_cache req conreq
      end) (fun r s' => exists f, r = Some f /\ stage E G req conreq s f s') s.
Proof.
  intros H Hr Hroom. wp_step.
  eapply (wp_mono _ (fun r s' => match r with Some f => stage E G req conreq s f s' | None => s' = s end)).
  { destruct conreq; [|wp_steps; done]. eapply wp_mono; [by apply wp_scan_used|].
    intros [f|] s1; [|done]. intros (i & sc & Hf & Hq). by exists G, i, sc. }
  intros r s1 Hr1. wp_step.
  eapply (wp_mono _ (fun r s' => match r with
    Some f => stage E G req conreq s f s' | None => s' = s /\ g_idle G = [] end)).
  { destruct r as [f|]; [wp_steps; done|]. subst s1. eapply wp_mono; [by apply wp_scan_unused|].
    intros [f|] s1; [|naive_solver]. intros (idle & i & _ & Hf). by eapply opened_stage. }
  clear r s1 Hr1. intros [f|] s1 Hf.
  - pose proof Hf as (G' & i & sc & [_ _ _ _ _ (p & _ & _ & Hnz)] & _).
    rewrite (proj2 (Z.eqb_neq _ _)) by done. wp_steps. eauto.
  - destruct Hf as [-> Hid]. destruct Hroom as [?|Hc]; [done|]. eapply wp_mono; [by apply wp_make_slab|].
    intros r s' (f & -> & Hf). exists f. split; [done|]. by eapply opened_stage.
Qed.

Definition room (G : ghost) : Prop := g_idle G <> [] \/ g_count G < slab_count.

Lemma wp_find_slab E G Size (conreq : bool) s : heap_ok E G None s -> 0 < Size < 4096 -> room G ->
  wp (find_slab stale_slab stale_hd stale_cache Size conreq) (fun r s' => quiet s s' /\
    match r with
    | Some f => exists G' i sc p, heap_ok E G' (Some (i, sc, req_of Size)) s' /\ g_blocks G' = g_blocks G /\
        g_act G' !! i = Some p /\ f = mkFound (slab G' i) (g_hd G') (p + 32 * sc) sc i /\
        (if conreq then page_addr p else p = INVALID_BASE /\ sc = 0)
    | None => conreq = true /\ refused (V := V) /\ exists G', heap_ok E G' None s' /\ g_blocks G' = g_blocks G
    end) s.
Proof.
  intros H HS Hroom. pose proof (req_range _ HS) as Hreq. unfold find_slab. wp_steps.
  eapply (wp_mono _ (fun r s' => r = true /\ quiet s s' /\ exists G', heap_ok E G' None s' /\
    g_blocks G' = g_blocks G /\ (g_idle G' <> [] \/ 0 < g_count G' < slab_count))).
  { destruct (ok_start _ _ _ _ H) as [[Hc ->]|(Hc & Hst & _)].
    - cbn [Z.eqb]. eapply wp_mono; [by eapply wp_first_slab|]. intros r s' (-> & H1 & Hq).
      split; [done|]. split; [done|]. exists (first_idle G). split; [done|]. split; [done|]. by left.
    - rewrite (proj2 (Z.eqb_neq _ _)) by done. wp_step. split; [done|]. split; [apply heap_quiet_refl|].
      exists G. split; [done|]. split; [done|]. destruct Hroom; [by left|right; lia]. }
  intros r s1 (-> & Hq1 & G1 & H1 & Hb1 & Hroom1). cbn [negb].
  assert (i32 (u64 (Size + 31)) >>> 5 = req_of Size) as ->.
  { rewrite u64_id, i32_id by lia. rewrite shiftr_div by lia. done. }
  pose proof (wp_search_slab E G1 (req_of Size) conreq s1 H1 Hreq Hroom1) as HS1.
  apply wp_bind in HS1. wp_step. eapply wp_mono; [exact HS1|]. cbn beta. intros r s2 HS2. apply wp_bind in HS2.
  wp_step. eapply wp_mono; [exact HS2|]. cbn beta. intros r2 s3 HS3. wp_step. eapply wp_mono; [exact HS3|].
  cbn beta. clear HS1 HS2 HS3 r r2 s2 s3. intros r s2 (f & -> & G2 & i & sc & Hf & Hb2 & Hq2 & Hc).
  pose proof Hf as [H2 F1 F2 F3 F4 (p & Hp & F5 & F6)].
  destruct (ok_act _ _ _ _ H2 i p Hp) as (m & n & Hs & _).
  wp_step. rewrite F1. eapply wp_slab_get; [exact Hs|]. cbn [PageBase].
  assert (quiet s s2) as Hq by by eapply heap_quiet_trans.
  destruct (Z.eqb_spec p INVALID_BASE) as [->|Hne]; destruct conreq; cbn [andb].
  - eapply wp_mono; [by eapply wp_back_slab|]. intros r s3 [Hq3 Hr]. split; [by eapply heap_quiet_trans|].
    destruct r as [f'|].
    + destruct Hr as (q & Hq' & H3 & ->). eexists _, i, sc, q. split; [exact H3|]. split; [cbn; congruence|].
      split; [apply lookup_insert_eq|]. done.
    + destruct Hr as [Href Hr]. split; [done|]. split; [done|]. eexists. split; [exact Hr|]. cbn. congruence.
  - destruct (Hc eq_refl) as [-> _]. wp_step. split; [done|]. exists G2, i, 0, INVALID_BASE. split; [done|].
    split; [congruence|]. split; [done|]. split; [|done]. destruct f. cbn in *. by subst.
  - wp_step. split; [done|]. exists G2, i, sc, p. split; [done|].
    split; [congruence|]. split; [done|]. split; [destruct f; cbn in *; by subst|].
    apply (ok_page _ _ _ _ H2 (OSlab i)). by constructor.
  - destruct (Hc eq_refl) as [_ Hi]. congruence.
Qed.
End Find.

(** ** The heap as a set of blocks *)

Section Heap.
Context {V : Type} `{!Ranges V} `{!RangesLaws V}.
Implicit Type s : k_state V.

(** The heap between two operations: [L] has the size of each block, header included, by the
    address of its header; [E] are the pages that others hold. Before the first call there is
    nothing. *)
Definition heap (E : gset Z) (L : gmap Z Z) s : Prop :=
  klock s = false /\
  ((shd s = 0 /\ start s = 0 /\ L = ∅ /\ r_ok E (k_va s)) \/
   exists G, heap_ok E G None s /\ headers_ok G s /\ L = Size <$> g_blocks G).

(** Entries that are not in use are left: a new slab needs no page for its entry. *)
Definition entry_left s : Prop :=
  shd s = 0 \/ exists x, k_hds s !! shd s = Some x /\ 0 < free_entries x + unused_entries x.

Lemma entry_room E G s : heap_ok E G None s -> entry_left s -> room G.
Proof.
  intros H [Hs|(x & Hx & Hr)]; rewrite (ok_shd _ _ _ _ H) in *; [by destruct (head_nz _ _ _ _ H)|].
  rewrite (ok_hd _ _ _ _ H) in Hx. injection Hx as <-. cbn in Hr. unfold room.
  destruct (g_idle G); [right; cbn in Hr; lia|by left].
Qed.

Lemma heap_disjoint E L s a1 a2 n1 n2 : heap E L s -> L !! a1 = Some n1 -> L !! a2 = Some n2 -> a1 <> a2 ->
  a1 + n1 <= a2 \/ a2 + n2 <= a1.
Proof.
  intros (_ & [(_ & _ & -> & _)|(G & H & _ & ->)]) H1 H2 Hne; [done|].
  apply lookup_fmap_Some in H1 as (h1 & <- & H1). apply lookup_fmap_Some in H2 as (h2 & <- & H2).
  by apply (blocks_disjoint _ _ _ _ _ _ _ _ H).
Qed.

Lemma heap_outside E L s a n x : heap E L s -> L !! a = Some n -> a <= x < a + n -> 4096 * (x / 4096) ∉ E.
Proof.
  intros (_ & [(_ & _ & -> & _)|(G & H & _ & ->)]) H1 Hx; [done|].
  apply lookup_fmap_Some in H1 as (h1 & <- & H1).
  destruct (byte_owner _ _ _ _ _ _ x H H1 Hx) as (o & q & Ho & Hq & _).
  destruct (ok_page _ _ _ _ H _ _ Ho) as (_ & M & _).
  replace (4096 * (x / 4096)) with q by divlia. by apply (others_apart _ _ _ _ _ _ H Ho).
Qed.

Lemma block_end E G X s a h : heap_ok E G X s -> g_blocks G !! a = Some h -> a + Size h < 2 ^ 64.
Proof.
  intros H Ha. pose proof (b_size _ _ _ (ok_blocks _ _ _ _ H _ _ Ha)). unfold sizeof_k_header in *.
  destruct (byte_owner _ _ _ _ _ _ (a + Size h - 1) H Ha ltac:(lia)) as (o & q & Ho & Hq & _).
  destruct (ok_page _ _ _ _ H _ _ Ho) as (_ & _ & M). lia.
Qed.

(** ** A block comes *)

Lemma with_blocks_id G : with_blocks (g_blocks G) G = G.
Proof. by destruct G. Qed.

(** No block begins where objects were taken, or in pages that are not the heap's. *)
Lemma fresh_share E G s i sc n p : heap_ok E G (Some (i, sc, n)) s -> g_act G !! i = Some p -> page_addr p ->
  g_blocks G !! (p + 32 * sc) = None.
Proof.
  intros H Hi Hp. destruct (ok_pending _ _ _ _ H i sc n eq_refl) as (_ & P1 & P2 & P3 & P4).
  destruct (g_blocks G !! (p + 32 * sc)) as [h|] eqn:Ea; [|done]. exfalso.
  pose proof (b_size _ _ _ (ok_blocks _ _ _ _ H _ _ Ea)). unfold sizeof_k_header in *.
  destruct (byte_owner _ _ _ _ _ _ (p + 32 * sc) H Ea ltac:(lia)) as (o & q & Ho & Hq & C).
  assert (owns G (OSlab i) p) as Hs by (constructor; [done|by apply page_invalid]).
  destruct (owner_page _ _ _ _ _ _ _ _ (p + 32 * sc) H Ho Hs Hq ltac:(lia)) as [-> ->].
  destruct C as [(j & Ej)|(Ej & Hr & Hk)]; [done|]. injection Ej as ->.
  specialize (P4 _ _ Ea Hr eq_refl). replace ((p + 32 * sc - p) / 32) with sc in Hk by divlia. lia.
Qed.

Lemma fresh_pages E G X s a : heap_ok E G X s -> a ∈ E -> a mod 4096 = 0 -> g_blocks G !! a = None.
Proof.
  intros H Ha Hp. destruct (g_blocks G !! a) as [h|] eqn:Eh; [|done]. exfalso.
  apply (block_outside E G X s a h a 1 H Eh Hp); [|lia]. rewrite pages_of_1. set_solver.
Qed.

Lemma wp_write_header E G bs a n f s : bs !! a = None ->
  heap_ok E (with_blocks (<[a := mkKHeader a n 3 (f_sc f) (f_pid f) (f_slab f)]> bs) G) None s ->
  headers_ok (with_blocks bs G) s ->
  wp (write_header n a f) (fun r s' => r = a + 40 /\ r <> 0 /\ heap E (<[a := n]> (Size <$> bs)) s' /\ k_data s' = k_data s) s.
Proof.
  intros Ha H Hh. set (h := mkKHeader a n 3 (f_sc f) (f_pid f) (f_slab f)) in *.
  assert (<[a := h]> bs !! a = Some h) as Eh by apply lookup_insert_eq.
  pose proof (block_end _ _ _ _ _ _ H Eh) as Hend. pose proof (ok_blocks _ _ _ _ H _ _ Eh) as B.
  pose proof (b_addr _ _ _ B). pose proof (b_size _ _ _ B). unfold sizeof_k_header in *. cbn in Hend, H1.
  unfold write_header. rewrite (proj2 (Z.eqb_neq _ _)) by lia. unfold header_put. wp_steps.
  apply wp_spin_unlock. wp_step. unfold sizeof_k_header. rewrite u64_id by lia. split; [done|]. split; [lia|]. split; [|done].
  split; [done|]. right. eexists. split; [eapply heap_ok_ext; [exact H|done..]|]. split.
  - intros b g. cbn. intros [[<- <-]|[Hne Hb]]%lookup_insert_Some; [apply lookup_insert_eq|].
    rewrite lookup_insert_ne by done. by apply Hh.
  - cbn. by rewrite fmap_insert.
Qed.
End Heap.

Section Kmalloc.
Context {V : Type} `{!Ranges V} `{!RangesLaws V}.
Context (stale_slab : Z -> slabobj) (stale_hd : Z -> slabhd) (stale_cache : Z -> Z) (garbage : Z).
Implicit Type s : k_state V.

(** ** The first call *)

Lemma wp_new_page_raw H s : r_ok H (k_va s) ->
  wp new_page (fun r s' => exists v, s' = set_k_va v s /\
    match r with Some p => page_addr p /\ (p ∉ H) /\ r_ok ({[p]} ∪ H) v | None => refused (V := V) end) s.
Proof.
  intros Hv. unfold new_page, va. wp_steps. eapply wp_mono; [by apply wp_alloc_or_refused, r_alloc_spec|].
  cbn beta. intros r v [Hr Href]. wp_step. exists v. split; [done|].
  destruct (Z.eqb_spec (ret_status r) 0) as [Es|Es]; cbn [negb]; [rewrite decide_True in Hr by done|by apply Href].
  rewrite pages_of_1 in Hr. destruct Hr as (R1 & R2 & R3 & R4 & R5).
  split; [unfold page_addr; lia|]. split; [set_solver|done].
Qed.

Definition empty_ghost (hd unused used : Z) : ghost := mkGhost hd unused used 0 [] ∅ ∅.

Lemma owns_empty hd unused used o p : owns (empty_ghost hd unused used) o p <->
  (o = OHead /\ p = hd) \/ (o = OUnused /\ p = unused) \/ (o = OUsed /\ p = used).
Proof.
  split.
  - inversion 1 as [| | |? ? Hj|? ? ? Hb]; subst; auto; [by destruct (lookup_empty_Some _ _ Hj)|by destruct (lookup_empty_Some _ _ Hb)].
  - intros [[-> ->]|[[-> ->]|[-> ->]]]; constructor.
Qed.

Lemma slabs_mapped p (zero : bool) (m : gmap Z slabobj) i : 0 <= i < slab_count ->
  is_Some (((list_to_map ((fun i => (slab_at p i, if zero then mkSlab 0 0 0 0 else stale_slab (slab_at p i))) <$> seqZ 0 slab_count)
    : gmap Z slabobj) ∪ m) !! slab_at p i).
Proof.
  intros Hi. apply lookup_union_is_Some. left. apply not_eq_None_Some. intros Hn%not_elem_of_list_to_map_2.
  apply Hn. rewrite <- list_fmap_compose. apply list_elem_of_fmap. exists i. split; [done|].
  apply elem_of_seqZ. lia.
Qed.

Lemma cache_words (f : Z -> Z) : length (f <$> seqZ 0 slab_count) = 112%nat.
Proof. by rewrite length_fmap, length_seqZ. Qed.

Lemma wp_kmalloc_init_first E s : shd s = 0 -> start s = 0 -> r_ok E (k_va s) ->
  wp (kmalloc_init stale_slab stale_hd stale_cache) (fun r s' => quiet s s' /\
    if r : bool then exists G, heap_ok E G None s' /\ g_blocks G = ∅ /\ room G else refused (V := V)) s.
Proof.
  intros H0 Hst Hv. unfold kmalloc_init. wp_steps. rewrite H0. cbn [Z.eqb negb]. wp_step.
  eapply wp_mono; [by apply wp_new_page_raw|]. intros [hd|] s1 (v1 & -> & Hr); [|wp_steps; done].
  destruct Hr as (P1 & N1 & V1). unfold map_entries. wp_steps.
  eapply wp_hd_upd; [apply lookup_insert_eq|]. wp_step. eapply wp_hd_upd; [apply lookup_insert_eq|]. wp_steps.
  eapply wp_hd_upd; [apply lookup_insert_eq|]. wp_step. eapply wp_hd_upd; [apply lookup_insert_eq|]. wp_step.
  eapply wp_mono; [apply (wp_new_page_raw ({[hd]} ∪ E)); exact V1|]. intros [unused|] s2 (v2 & -> & Hr); [|wp_steps; done].
  destruct Hr as (P2 & N2 & V2). unfold map_cache. wp_steps.
  eapply wp_hd_upd; [apply lookup_insert_eq|]. wp_step. eapply wp_cache_upd; [apply lookup_insert_eq|]. wp_step.
  eapply wp_mono; [apply (wp_new_page_raw ({[unused]} ∪ ({[hd]} ∪ E))); exact V2|]. intros [used|] s3 (v3 & -> & Hr); [|wp_steps; done].
  destruct Hr as (P3 & N3 & V3). wp_steps.
  eapply wp_hd_upd; [apply lookup_insert_eq|]. wp_step. eapply wp_cache_upd; [apply lookup_insert_eq|]. wp_steps.
  split; [done|]. exists (empty_ghost hd unused used).
  assert (hd <> unused /\ hd <> used /\ unused <> used) as (D1 & D2 & D3) by (split_and!; intros ->; set_solver).
  split; [|split; [done|right; by cbn]].
  constructor; cbn; try done.
  - by rewrite lookup_insert_eq.
  - eexists. rewrite lookup_insert_ne, lookup_insert_ne, lookup_insert_eq by done. unfold with_cindex. cbn.
    split; [reflexivity|]. split; [apply cache_words|done].
  - eexists _, 0. rewrite lookup_insert_eq. unfold with_cindex. cbn. split; [reflexivity|].
    split; [apply cache_words|]. split_and!; lia || (intros i Hi; lia).
  - intros i. split; [lia|]. intros [Hi|[? Hi]]; [by apply not_elem_of_nil in Hi|by rewrite lookup_empty in Hi].
  - constructor.
  - intros i Hi. by apply not_elem_of_nil in Hi.
  - intros i Hi. by apply (slabs_mapped hd true).
  - by left.
  - intros o1 o2 p O1%owns_empty O2%owns_empty. naive_solver.
  - intros o p Ho%owns_empty. naive_solver.
  - exists ({[used]} ∪ ({[unused]} ∪ {[hd]})).
    split; [by replace (E ∪ ({[used]} ∪ ({[unused]} ∪ {[hd]}))) with ({[used]} ∪ ({[unused]} ∪ ({[hd]} ∪ E))) by set_solver|].
    split; [set_solver|]. intros p. rewrite !elem_of_union, !elem_of_singleton. split.
    + intros [->|[->| ->]]; eexists; apply owns_empty; auto.
    + intros [o Ho%owns_empty]. naive_solver.
Qed.

Lemma wp_kmalloc_init E G s : heap_ok E G None s ->
  wp (kmalloc_init stale_slab stale_hd stale_cache) (fun r s' => r = true /\ s' = s) s.
Proof.
  intros H. unfold kmalloc_init. wp_steps. rewrite (ok_shd _ _ _ _ H).
  rewrite (proj2 (Z.eqb_neq _ _)) by (by eapply head_nz). wp_steps. done.
Qed.

(** ** [kmalloc] *)

(** What [kmalloc] of a block of [n] bytes, header included, answers and leaves. *)
Definition allocated (E : gset Z) (L : gmap Z Z) (n : Z) s (r : Z) s' : Prop :=
  k_data s' = k_data s /\
  ((r = 0 /\ refused (V := V) /\ heap E L s') \/
   (r <> 0 /\ exists a, r = a + 40 /\ L !! a = None /\ heap E (<[a := n]> L) s')).

Lemma allocated_none E G n s s' : refused (V := V) -> heap_ok E G None s' -> headers_ok G s' -> k_data s' = k_data s ->
  allocated E (Size <$> g_blocks G) n s 0 (set_klock false s').
Proof.
  intros Href H Hh Hd. split; [done|]. left. split; [done|]. split; [done|]. split; [done|]. right. exists G.
  split; [by eapply heap_ok_ext|]. done.
Qed.

Lemma headers_quiet G G' s s' : headers_ok G s -> quiet s s' -> g_blocks G' = g_blocks G -> headers_ok G' s'.
Proof. intros Hh (Q & _) E a h Ha. rewrite E in Ha. rewrite Q. by apply Hh. Qed.

Lemma wp_finish E bs G n L a f s s' : bs !! a = None -> L = Size <$> bs ->
  heap_ok E (with_blocks (<[a := mkKHeader a n 3 (f_sc f) (f_pid f) (f_slab f)]> bs) G) None s' ->
  headers_ok (with_blocks bs G) s' -> k_data s' = k_data s ->
  wp (write_header n a f) (allocated E L n s) s'.
Proof.
  intros Ha -> H Hh Hd. eapply wp_mono; [by eapply wp_write_header|].
  intros r s2 (-> & Hr & H2 & Hd2). split; [congruence|]. right. split; [done|]. exists a. split; [done|].
  rewrite lookup_fmap, Ha. done.
Qed.

(** A block of less than a page: objects of a slab. *)
Lemma wp_kmalloc_small E G n s0 s : heap_ok E G None s -> headers_ok G s -> room G -> k_data s = k_data s0 -> 40 <= n < 4096 ->
  wp (r ← find_slab stale_slab stale_hd stale_cache n true;
      match r with
      | None => spin_unlock;; mret 0
      | Some f => write_header n (f_place f) f
      end) (allocated E (Size <$> g_blocks G) n s0) s.
Proof.
  intros H Hh Hroom Hd Hn. wp_step. eapply wp_mono; [apply (wp_find_slab _ _ _ E G n true s H ltac:(lia) Hroom)|].
  intros [f|] s1 [Hq Hr].
  - destruct Hr as (G' & i & sc & p & H1 & Hb & Hi & -> & Hp). cbn [f_place]. rewrite <- Hb.
    destruct (ok_pending _ _ _ _ H1 i sc _ eq_refl) as (_ & P1 & P2 & P3 & P4).
    set (f := mkFound _ _ _ _ _). set (h := mkKHeader (p + 32 * sc) n 3 sc i (slab G' i)).
    assert (body h = 0) as Hbody by (unfold body; cbn; divlia).
    assert (rest h = n) as Hrest by (unfold rest; cbn; divlia).
    pose proof (fresh_share _ _ _ _ _ _ _ H1 Hi Hp) as Hfresh. pose proof Hp as (Q1 & Q2 & Q3).
    apply (wp_finish E (g_blocks G') G'); [done|done| | |].
    + apply heap_add; [done| | | |].
      * rewrite with_blocks_id. change (mkKHeader _ _ _ _ _ _) with h. rewrite Hbody.
        replace (pages_of (p + 32 * sc) 0 ∪ E) with E by (unfold pages_of; set_solver).
        replace (share h) with (Some (i, sc, req_of n)); [done|]. unfold share, objs. rewrite Hrest, decide_False by lia. done.
      * change (mkKHeader _ _ _ _ _ _) with h. rewrite Hbody. unfold pages_of. set_solver.
      * change (mkKHeader _ _ _ _ _ _) with h. constructor; cbn; [done|unfold sizeof_k_header; lia|lia|].
        intros _. exists p. split; [done|]. split; [by apply page_invalid|]. unfold objs. rewrite Hbody, Hrest. lia.
      * change (mkKHeader _ _ _ _ _ _) with h. lia.
    + rewrite with_blocks_id. by eapply headers_quiet.
    + destruct Hq as (_ & _ & ->). done.
  - destruct Hr as (_ & Href & G' & H1 & Hb). wp_step. apply wp_spin_unlock. wp_step. rewrite <- Hb.
    apply allocated_none; [done|done|by eapply headers_quiet|]. destruct Hq as (_ & _ & ->). done.
Qed.

(** A block of whole pages. *)
Lemma wp_kmalloc_pages E G n s0 s : heap_ok E G None s -> headers_ok G s -> k_data s = k_data s0 ->
  4096 <= n < 2 ^ 63 -> n mod 4096 = 0 ->
  wp (alloc ← va (r_alloc (n >>> 12) 0x03);
      if negb (ret_status alloc =? 0) then spin_unlock;; mret 0
      else write_header n (base alloc) (mkFound 0 0 (base alloc) 0 garbage))
    (allocated E (Size <$> g_blocks G) n s0) s.
Proof.
  intros H Hh Hd Hn Hm. rewrite shiftr_div by lia. change (2 ^ 12) with 4096. wp_step.
  assert (0 < n / 4096 < 2 ^ 52) as Hp by divlia.
  eapply wp_mono; [by apply (wp_alloc_pages E G None)|]. intros r s1 (v & -> & Hr).
  destruct (Z.eqb_spec (ret_status r) 0) as [Es|Es]; cbn [negb].
  - rewrite decide_True in Hr by done. destruct Hr as (R1 & R2 & R3 & R4 & H1).
    set (f := mkFound _ _ _ _ _). set (h := mkKHeader (base r) n 3 0 garbage 0).
    assert (body h = n / 4096) as Hbody by done. assert (rest h = 0) as Hrest by done.
    assert (g_blocks G !! base r = None) as Hfresh.
    { apply (fresh_pages _ _ _ _ (base r) H1); [|done]. apply elem_of_union. left. apply elem_pages. exists 0. lia. }
    apply (wp_finish E (g_blocks G) G); [done|done| | |done].
    + apply heap_add; [done| | | |]; change (mkKHeader _ _ _ _ _ _) with h; rewrite ?Hbody.
      * rewrite with_blocks_id. unfold share. by rewrite decide_True.
      * done.
      * constructor; cbn; [done|unfold sizeof_k_header; lia|lia|done].
      * intros _. lia.
    + by rewrite with_blocks_id.
  - rewrite decide_False in Hr by done. destruct Hr. wp_step. apply wp_spin_unlock. wp_step. by apply allocated_none.
Qed.

Lemma pages_of_S a n : 0 <= n -> pages_of a (n + 1) = {[a + 4096 * n]} ∪ pages_of a n.
Proof.
  intros Hn. apply set_eq. intros q. rewrite elem_of_union, elem_of_singleton, !elem_pages. split.
  - intros (i & Hi & ->). destruct (decide (i = n)) as [->|]; [by left|]. right. exists i. lia.
  - intros [->|(i & Hi & ->)]; [exists n|exists i]; lia.
Qed.

(** A block of pages and a rest: the objects of a slab whose page is the last one. *)
Lemma wp_kmalloc_mixed E G n s0 s : heap_ok E G None s -> headers_ok G s -> room G -> k_data s = k_data s0 ->
  4096 <= n < 2 ^ 63 - 4096 -> n mod 4096 <> 0 ->
  wp (alloc ← va (r_alloc (u64 (n + 4095) >>> 12) 0x03);
      if negb (ret_status alloc =? 0) then spin_unlock;; mret 0
      else
        r ← find_slab stale_slab stale_hd stale_cache (n &&& 0xFFF) false;
        match r with
        | None => spin_unlock;; mret 0
        | Some f =>
            slab_upd (f_slab f) (with_page (u64 (base alloc + n) &&& Z.lnot 0xFFF));;
            write_header n (base alloc) f
        end)
    (allocated E (Size <$> g_blocks G) n s0) s.
Proof.
  intros H Hh Hroom Hd Hn Hm. rewrite u64_id, shiftr_div, land_offset by lia. change (2 ^ 12) with 4096.
  set (b := n / 4096). replace ((n + 4095) / 4096) with (b + 1) by (unfold b; divlia).
  assert (0 < b < 2 ^ 51) as Hb by (unfold b; divlia). wp_step.
  eapply wp_mono; [apply (wp_alloc_pages E G None (b + 1)); [done|lia]|]. intros r s1 (v & -> & Hr).
  destruct (Z.eqb_spec (ret_status r) 0) as [Es|Es]; cbn [negb].
  2: { rewrite decide_False in Hr by done. destruct Hr. wp_step. apply wp_spin_unlock. wp_step. by apply allocated_none. }
  rewrite decide_True in Hr by done. destruct Hr as (R1 & R2 & R3 & R4 & H1). set (a := base r) in *.
  wp_step. eapply wp_mono; [apply (wp_find_slab _ _ _ _ G (n mod 4096) false _ H1); [divlia|done]|].
  intros [f|] s2 [Hq Hr]; [|by destruct Hr].
  destruct Hr as (G' & i & sc & p & H2 & Hbl & Hi & -> & -> & ->). cbn [f_slab]. rewrite <- Hbl.
  destruct (ok_act _ _ _ _ H2 i _ Hi) as (m & k & Hs & _). set (t := a + 4096 * b).
  assert (u64 (a + n) &&& Z.lnot 0xFFF = t) as ->.
  { rewrite land_page, u64_id by (unfold b in R3; divlia). unfold t, b. divlia. }
  rewrite pages_of_S in H2, R4 by lia. fold t in H2, R4. rewrite <- (assoc_L (∪)) in H2.
  assert (t ∉ pages_of a b ∪ E) as Ht.
  { apply not_elem_of_union. split; [|set_solver]. intros (j & Hj & Ej)%elem_pages. unfold t in Ej. lia. }
  assert (page_addr t) as Hpt by (unfold page_addr, t; divlia).
  pose proof (heap_page _ _ _ _ _ _ _ _ _ H2 Ht Hpt Hi Hs) as H3.
  set (G3 := with_act _ G') in *.
  wp_step. eapply wp_slab_upd; [exact Hs|]. unfold with_page. cbn [FreeObs Cache_2048 next_object].
  assert (g_blocks G' !! a = None) as Hfresh.
  { apply (fresh_pages _ _ _ _ a H2); [|done]. apply elem_of_union. right. apply elem_of_union. left.
    apply elem_pages. exists 0. lia. }
  set (f := mkFound _ _ _ _ _). set (h := mkKHeader a n 3 0 i (slab G' i)).
  assert (body h = b) as Hbody by done. assert (rest h = n mod 4096) as Hrest by done.
  destruct (ok_pending _ _ _ _ H2 i 0 _ eq_refl) as (_ & P1 & P2 & P3 & P4).
  apply (wp_finish E (g_blocks G') G3); [done|done| | |].
  - apply heap_add; [done| | | |]; change (mkKHeader _ _ _ _ _ _) with h; rewrite ?Hbody.
    + replace (with_blocks (g_blocks G') G3) with G3 by done.
      replace (share h) with (Some (i, 0, req_of (n mod 4096))); [done|].
      unfold share, objs. rewrite Hrest, decide_False by done. done.
    + set_solver.
    + constructor; cbn; [done|unfold sizeof_k_header; lia|lia|].
      intros _. exists t. split; [apply lookup_insert_eq|]. split; [by apply page_invalid|]. split; [done|].
      unfold objs. rewrite Hbody, Hrest. unfold t. lia.
    + intros _. lia.
  - eapply headers_quiet; [exact Hh| |exact Hbl]. eapply heap_quiet_trans; [exact Hq|]. done.
  - destruct Hq as (_ & _ & Hq). cbn. rewrite Hq. exact Hd.
Qed.

Lemma wp_kmalloc E L n s : heap E L s -> entry_left s -> 0 <= n < 2 ^ 63 - 8192 ->
  wp (kmalloc stale_slab stale_hd stale_cache garbage n) (fun r s' =>
    allocated E L (n + 40) s r s' \/ (shd s = 0 /\ r = 0 /\ refused (V := V) /\ klock s' = false /\ k_data s' = k_data s)) s.
Proof.
  intros [Hlock HL] Hleft Hn. unfold kmalloc, sizeof_k_header. rewrite u64_id by lia.
  wp_step. apply wp_spin_lock; [done|]. wp_step. set (s1 := set_locked true s).
  eapply (wp_mono _ (fun r s2 => k_data s2 = k_data s /\
    if r : bool then exists G, heap_ok E G None s2 /\ headers_ok G s2 /\ L = Size <$> g_blocks G /\ room G else shd s = 0 /\ refused (V := V) /\ klock s2 = true)).
  { destruct HL as [(H0 & Hst & -> & Hv)|(G & H & Hh & ->)].
    - eapply wp_mono; [by apply (wp_kmalloc_init_first E s1)|]. intros [|] s2 [(Q1 & Q2 & Q3) Hr]; [|done].
      split; [done|]. destruct Hr as (G & HG & Hb & Hroom). exists G. rewrite Hb.
      split_and!; try done. intros a h. by rewrite Hb.
    - eapply wp_mono; [eapply (wp_kmalloc_init E G); by eapply heap_ok_ext|]. intros r s2 [-> ->].
      split; [done|]. exists G. split; [by eapply heap_ok_ext|]. split; [exact Hh|]. split; [done|]. by eapply entry_room. }
  intros [|] s2 [Hd Hr]; cbn [negb].
  2: { wp_step. apply wp_spin_unlock. wp_step. right. naive_solver. }
  destruct Hr as (G & H & Hh & -> & Hroom).
  apply (wp_mono _ (allocated E (Size <$> g_blocks G) (n + 40) s)); [|auto].
  destruct (Z.ltb_spec (n + 40) 4096); [by apply wp_kmalloc_small; [..|lia]|].
  rewrite land_offset. destruct (Z.eqb_spec ((n + 40) mod 4096) 0).
  - apply wp_kmalloc_pages; done || lia.
  - rewrite <- land_offset. apply wp_kmalloc_mixed; done || lia.
Qed.
End Kmalloc.

Section Kfree.
Context {V : Type} `{!Ranges V} `{!RangesLaws V}.
Implicit Type s : k_state V.

(** ** [kfree] *)

Lemma wp_trim_pages E G X s s' : heap_ok E G X s -> 0 < g_count G -> latest s' = latest s -> shd s' = shd s ->
  wp trim_pages (fun _ s2 => s2 = s') s'.
Proof.
  intros H Hc El Es. unfold trim_pages. wp_steps. rewrite El.
  destruct (ok_start _ _ _ _ H) as [[? _]|(_ & _ & ->)]; [lia|].
  pose proof (ok_count _ _ _ _ H). rewrite (slab_find_hd _ _ _ _ _ H) by lia.
  apply (wp_while _ (fun p s2 => s2 = s' /\ p = (false, g_hd G)) (fun _ _ => 0)); [|done|done].
  intros p s2 [-> ->]. wp_steps. rewrite Es, (ok_shd _ _ _ _ H), Z.eqb_refl. by wp_steps.
Qed.

(** No objects of a slab without objects belong to a block. *)
Lemma empty_unshared E G s i p n : heap_ok E G None s -> g_act G !! i = Some p ->
  slabs s !! slab G i = Some (mkSlab p 128 0 n) -> unshared G i.
Proof.
  intros H Hi Hs a h Ha Hr <-. destruct (ok_act _ _ _ _ H _ p Hi) as (m & n' & E1 & _ & Ht).
  rewrite Hs in E1. injection E1 as _ <- _.
  destruct (b_rest _ _ _ (ok_blocks _ _ _ _ H a h Ha) Hr) as (_ & _ & _ & _ & B0 & B1 & _).
  pose proof (objs_range _ Hr). assert (Z.testbit 0 (h_sc h) = true) as E2; [|by rewrite Z.bits_0 in E2].
  apply Ht; [lia|]. left. exists a, h. split_and!; done || lia.
Qed.

(** The headers that are left: all, or those outside of the page that was given back. *)
Definition headers_kept (p : Z) s s' : Prop :=
  headers s' = headers s \/ headers s' = filter (fun x => ~ (p <= x.1 < p + 4096)) (headers s).

Lemma wp_free_slab E G i sc p a h s : heap_ok E G (Some (i, sc, req_of (Size h))) s -> headers s !! a = Some h ->
  g_act G !! i = Some p -> page_addr p -> p ∉ E -> 0 < Size h < 4096 -> h_sc h = sc -> h_index h = i -> slabOrg h = slab G i ->
  wp (free_slab a) (fun _ s' => (exists G', heap_ok E G' None s' /\ g_blocks G' = g_blocks G) /\
    (headers_ok G s -> headers_ok G s') /\ headers_kept p s s' /\ klock s' = klock s /\ k_data s' = k_data s) s.
Proof.
  intros H Hh Hi Hp HpE HS Hsc Hix Ho. unfold free_slab. wp_step. eapply wp_header_get; [exact Hh|]. cbn zeta.
  rewrite Ho, Hsc, Hix, u64_id, shiftr_div by lia. change (2 ^ 5) with 32.
  rewrite i32_id by divlia. change ((Size h + 31) / 32) with (req_of (Size h)).
  pose proof (req_range _ HS) as Hreq. destruct (ok_act _ _ _ _ H i p Hi) as (m & n & Hs & _ & _).
  wp_step. eapply wp_slab_get; [exact Hs|]. cbn [Cache_2048].
  pose proof (act_range _ _ _ _ _ _ H Hi) as Hir.
  assert (0 < g_count G) as Hc by (assert (0 <= i < g_count G); [apply (ok_split _ _ _ _ H); right; eauto|lia]).
  refine (wp_give_back E G i sc _ p m n _ _ _ H Hi Hs _). cbn zeta. intros m' H2.
  set (s2 := set_slabs _ _) in *.
  assert (slabs s2 !! slab G i = Some (mkSlab p (128 - ones m + req_of (Size h)) m' n)) as Hs2 by apply lookup_insert_eq.
  destruct (ok_act _ _ _ _ H2 i p Hi) as (m2 & n2 & E2 & Hm2 & _). rewrite Hs2 in E2. injection E2 as Eo <- <-.
  wp_step. eapply wp_slab_get; [exact Hs2|]. cbn [FreeObs PageBase]. rewrite Eo in *.
  rewrite (slab_find_hd _ _ _ _ _ H2) by done. wp_step.
  destruct (Z.eqb_spec (128 - ones m') 128) as [Ez|Ez].
  2: { wp_step. eapply wp_mono; [by eapply (wp_trim_pages E G None s2)|]. intros _ s' ->.
       split; [by exists G|]. split; [done|]. split; [by left|done]. }
  assert (m' = 0) as -> by (apply ones_none; [done|lia]). rewrite Ez in Hs2.
  pose proof (empty_unshared _ _ _ _ _ _ H2 Hi Hs2) as Hun.
  destruct (ok_unused _ _ _ _ H2) as (lu & U1 & U2 & U3).
  destruct (ok_used _ _ _ _ H2) as (l & u & E1 & E2 & E3 & E4 & E5 & E6).
  pose proof (heap_retire E G s2 i p lu _ l u 0 128 n H2 Hi Hun U1 E1 Hs2) as HR.
  unfold page_set in HR. rewrite decide_False, <- pages_of_1 in HR by (by apply page_invalid).
  destruct (page_distinct _ _ _ _ H) as (D1 & D2 & D3). change slab_count with 112 in Hir.
  pose proof (idle_room _ _ _ _ i H2 ltac:(by eexists)) as Hroom.
  wp_step. eapply wp_cache_slab; [apply H2|exact U1|lia|lia|]. wp_step.
  eapply wp_hd_get; [apply H2|]. cbn [used_cache unused_cache]. wp_step.
  eapply (wp_cache_write _ l u); [cbn; rewrite lookup_insert_ne by done; exact E1|lia|].
  wp_step. eapply wp_hd_upd; [apply H2|]. wp_step. unfold with_hunused. cbn.
  set (sR := set_slabs _ (set_caches _ _)) in HR.
  eapply wp_mono; [eapply (wp_release_at E (retired i G) None p 1 _ sR HR); [done| |lia]|].
  { rewrite pages_of_1. set_solver. }
  cbn beta. intros _ s3 (v & H4 & ->). eapply wp_slab_upd; [exact Hs2|]. unfold with_page. cbn.
  eapply wp_mono; [eapply (wp_trim_pages E _ None _ _ H4 Hc); done|]. intros _ s' ->. split; [|split; [|split; [|done]]].
  - exists (retired i G). split; [|done]. eapply heap_ok_ext; [exact H4|done|done| | |].
    + done.
    + cbn. rewrite u64_id by lia. done.
    + cbn. by rewrite Nat2Z.id.
  - intros Hok b g Hb. cbn. apply map_lookup_filter_Some. split; [by apply Hok|]. cbn.
    apply (block_outside _ _ _ _ _ _ p 1 HR Hb); [apply Hp|set_solver].
  - by right.
Qed.

Lemma headers_kept_lookup p b s s' : headers_kept p s s' -> ~ p <= b < p + 4096 -> headers s' !! b = headers s !! b.
Proof.
  intros [->| ->] Hb; [done|]. destruct (headers s !! b) as [h|] eqn:E.
  - apply map_lookup_filter_Some. done.
  - apply map_lookup_filter_None. by left.
Qed.

Lemma delete_size bs a : Size <$> delete a bs = delete a (Size <$> bs : gmap Z Z).
Proof. by rewrite fmap_delete. Qed.

(** The pages of a block go: [free_aligned]. *)
Lemma wp_free_aligned E G a h s : heap_ok (pages_of a (body h) ∪ E) G None s -> headers s !! a = Some h ->
  pages_of a (body h) ## E -> Base h = a -> a mod 4096 = 0 -> 0 < body h -> 0 <= Size h -> headers_ok G s ->
  wp (free_aligned a) (fun _ s' => heap_ok E G None s' /\ headers_ok G s' /\ k_data s' = k_data s) s.
Proof.
  intros H Hh Hd Hb Ha Hn HS Hok. unfold free_aligned. wp_step. eapply wp_header_get; [exact Hh|].
  rewrite Hb, shiftr_div by lia. change (Size h / 2 ^ 12) with (body h).
  eapply wp_mono; [by apply (wp_release_at E G None a (body h) s s)|]. cbn beta. intros _ s' (v & H2 & ->).
  split; [by eapply heap_ok_ext|]. split; [|done]. intros b g Hbg. cbn. apply map_lookup_filter_Some.
  split; [by apply Hok|]. cbn. apply (block_outside _ _ _ _ _ _ _ _ H Hbg Ha). set_solver.
Qed.

Lemma wp_kfree E L a n s : heap E L s -> L !! a = Some n ->
  wp (kfree (a + 40)) (fun _ s' => heap E (delete a L) s' /\ k_data s' = k_data s) s.
Proof.
  intros [Hlock [(_ & _ & -> & _)|(G & H & Hh & ->)]] Hn; [done|].
  apply lookup_fmap_Some in Hn as (h & <- & Ha). pose proof (Hh _ _ Ha) as Hah.
  pose proof (ok_blocks _ _ _ _ H _ _ Ha) as [B1 B2 B3 B4]. unfold sizeof_k_header in *.
  set (bs := delete a (g_blocks G)). assert (bs !! a = None) as Hbs by apply lookup_delete_eq.
  assert (g_blocks G = <[a := h]> bs) as Eb by (unfold bs; by rewrite insert_delete_id).
  assert (forall b g, bs !! b = Some g -> a <> b /\ g_blocks G !! b = Some g) as Hother.
  { intros b g Hb. assert (a <> b) by congruence. rewrite Eb. by rewrite lookup_insert_ne. }
  assert (heap_ok (pages_of a (body h) ∪ E) (with_blocks bs G) (share h) s) as H1.
  { apply heap_del; [done|]. rewrite <- Eb, with_blocks_id. done. }
  assert (forall j, 0 <= j < body h -> owns G (OBody a j) (a + 4096 * j)) as Hbody by (intros j Hj; by apply (owns_body _ a h)).
  assert (0 < body h -> a mod 4096 = 0) as Halign.
  { intros Hp. destruct (ok_page _ _ _ _ H _ _ (Hbody 0 ltac:(lia))) as (_ & M & _). by rewrite Z.mul_0_r, Z.add_0_r in M. }
  assert (pages_of a (body h) ## E) as Hd.
  { apply body_disjoint. intros j Hj. apply (others_apart _ _ _ _ _ _ H (Hbody j Hj)). }
  assert (forall s', klock s' = false -> (exists G', heap_ok E G' None s' /\ headers_ok G' s' /\ g_blocks G' = bs) ->
    heap E (delete a (Size <$> g_blocks G)) s') as Hend.
  { intros s' Hl (G' & H' & Hh' & Eb'). split; [done|]. right. exists G'. split; [done|]. split; [done|].
    by rewrite Eb', <- delete_size. }
  unfold kfree, sizeof_k_header. wp_step. apply wp_spin_lock; [done|]. cbn zeta.
  replace (a + 40 - 40) with a by lia. rewrite u64_id by lia. set (s0 := set_locked true s).
  assert (heap_ok (pages_of a (body h) ∪ E) (with_blocks bs G) (share h) s0) as H2 by (by eapply heap_ok_ext).
  assert (headers_ok (with_blocks bs G) s0) as Hh2.
  { intros b g Hb. apply Hh. by apply Hother. }
  wp_step. eapply wp_header_get; [exact Hah|]. wp_step.
  apply (wp_mono _ (fun _ s' => k_data s' = k_data s /\ exists G', heap_ok E G' None s' /\ headers_ok G' s' /\ g_blocks G' = bs)).
  2: { intros _ s' (Hdt & G' & H' & Hh' & Eb'). apply wp_spin_unlock. split; [|done]. apply Hend; [done|].
       exists G'. split; [by eapply heap_ok_ext|]. done. }
  destruct (decide (rest h = 0)) as [Hr|Hr].
  - assert (4096 <= Size h) by (unfold rest in Hr; divlia). rewrite (proj2 (Z.ltb_ge _ _)) by done.
    rewrite land_offset. change (Size h mod 4096) with (rest h). rewrite Hr. cbn [Z.eqb].
    assert (0 < body h) by (unfold body; divlia). unfold share in H2. rewrite decide_True in H2 by done.
    eapply wp_mono; [apply (wp_free_aligned E _ a h s0 H2); try done; [by apply Halign|lia]|].
    intros _ s' (K1 & K2 & K3). split; [done|]. by exists (with_blocks bs G).
  - destruct (B4 Hr) as (p & Hp & Hpi & Ho & S0 & S1 & Hpos).
    assert (owns G (OSlab (h_index h)) p) as Hop by by constructor.
    pose proof (ok_page _ _ _ _ H _ _ Hop) as Hpage.
    assert (p ∉ pages_of a (body h) ∪ E) as HpE.
    { apply not_elem_of_union. split; [|by apply (others_apart _ _ _ _ _ _ H Hop)].
      intros (j & Hj & ->)%elem_pages. by pose proof (ok_owner _ _ _ _ H _ _ _ Hop (Hbody j Hj)). }
    assert (share h = Some (h_index h, h_sc h, req_of (rest h))) as Es by (unfold share; by rewrite decide_False).
    rewrite Es in H2.
    assert (~ p <= a < p + 4096 \/ Size h < 4096) as Hap.
    { destruct (Z.lt_ge_cases (Size h) 4096); [by right|left]. assert (0 < body h) by (unfold body; divlia).
      intros Hin. pose proof (Hbody 0 ltac:(lia)) as Ho2. rewrite Z.mul_0_r, Z.add_0_r in Ho2.
      by destruct (owner_page _ _ _ _ _ _ _ _ a H Hop Ho2 Hin ltac:(lia)). }
    assert (0 < rest h < 4096) as Hrest by (unfold rest in *; divlia).
    destruct (Z.ltb_spec (Size h) 4096) as [Hlt|Hge].
    + assert (body h = 0) as Hb0 by (unfold body; divlia). assert (rest h = Size h) as Er by (unfold rest; divlia).
      rewrite Hb0 in H2, HpE. replace (pages_of a 0 ∪ E) with E in H2, HpE by (unfold pages_of; set_solver).
      rewrite Er in H2.
      eapply wp_mono; [apply (wp_free_slab E _ (h_index h) (h_sc h) p a h s0 H2); try done; lia|].
      intros _ s' ((G' & H3 & E3) & Hk & _ & _ & Hdt). split; [done|]. exists G'. split; [done|]. split; [|done].
      intros b g Hb. rewrite E3 in Hb. by apply (Hk Hh2).
    + rewrite land_offset. change (Size h mod 4096) with (rest h). rewrite (proj2 (Z.eqb_neq _ _)) by done.
      destruct Hap as [Hap|]; [|lia]. assert (0 < body h) as Hbp by (unfold body; divlia).
      set (h' := with_hsize (rest h) h). unfold header_put. wp_steps.
      set (s1 := set_headers (<[a := h']> (headers s0)) s0).
      assert (headers_ok (with_blocks bs G) s1) as Hh3.
      { intros b g Hb. cbn. destruct (Hother b g Hb). rewrite lookup_insert_ne by done. by apply Hh2. }
      eapply wp_mono; [apply (wp_free_slab (pages_of a (body h) ∪ E) (with_blocks bs G) (h_index h) (h_sc h) p a h' s1); try done|].
      { by eapply heap_ok_ext. }
      { apply lookup_insert_eq. }
      intros _ s2 ((G' & H3 & E3) & Hk & Hkept & _ & Hdt). cbn beta.
      assert (headers s2 !! a = Some h') as Ea2 by (rewrite (headers_kept_lookup p a s1 s2 Hkept) by done; apply lookup_insert_eq).
      wp_step. eapply wp_header_get; [exact Ea2|]. wp_steps.
      replace (with_hsize (Size h) h') with h by (destruct h; done).
      eapply wp_mono; [apply (wp_free_aligned E G' a h)|].
      { by eapply heap_ok_ext. }
      { apply lookup_insert_eq. }
      { done. }
      { done. }
      { by apply Halign. }
      { done. }
      { lia. }
      { intros b g Hb. cbn. rewrite E3 in Hb. destruct (Hother b g Hb). rewrite lookup_insert_ne by done. by apply (Hk Hh3). }
      intros _ s' (H4 & H5 & H6). split; [|by exists G']. rewrite H6. cbn. by rewrite Hdt.
Qed.
End Kfree.
