(* ===== verification/KHeapTheorems.v ===== *)
(** * The kernel heap: properties

    The contract of [kmalloc], [kfree] and [krealloc], and a heap it holds for. *)
From S2P Require Import KPrelude Spinlock VaAlloc KBits KBitsProofs Kmalloc KHeap KHeapSteps KHeapOps KHeapProofs.

Section Contract.
Context {V : Type} `{!Ranges V} `{!RangesLaws V}.
Context (stale_slab : Z -> slabobj) (stale_hd : Z -> slabhd) (stale_cache : Z -> Z) (garbage : Z).
Implicit Type s : k_state V.

Abbreviation kmalloc := (kmalloc stale_slab stale_hd stale_cache garbage).
Abbreviation krealloc := (krealloc stale_slab stale_hd stale_cache garbage).

(** C6: [kmalloc] returns. An address other than [NULL] is behind the header of a new block of the
    size that was asked for; the block overlaps no block that is live and no page that is not the
    heap's, the others stay, and no byte of them changes. This holds for blocks within a slab, of
    whole pages, and of pages and a rest. *)
Theorem kmalloc_correct (E : gset Z) (L : gmap Z Z) (n : Z) (s : k_state V) :
  heap E L s -> entry_left s -> 0 <= n < 2 ^ 63 - 8192 ->
  exists r s', kmalloc n s = Done r s' /\ klock s' = false /\ k_data s' = k_data s /\
    (r <> 0 -> exists a, r = a + sizeof_k_header /\ heap E (<[a := n + sizeof_k_header]> L) s' /\
      (forall b m, L !! b = Some m -> r + n <= b \/ b + m <= a) /\
      (forall x, a <= x < r + n -> 4096 * (x / 4096) ∉ E)).
Proof.
  intros H He Hn. unfold sizeof_k_header.
  destruct (wp_inv _ _ _ (wp_kmalloc stale_slab stale_hd stale_cache garbage E L n s H He Hn)) as (r & s' & Er & Hr).
  exists r, s'. split; [done|]. destruct Hr as [[Hd [(-> & _ & Hl & _)|(Hnz & a & -> & Ha & H')]]|(_ & -> & _ & Hl & Hd)]; [done| |done].
  pose proof (proj1 H') as Hl. split; [done|]. split; [done|]. intros _. exists a.
  assert (<[a := n + 40]> L !! a = Some (n + 40)) as Ea by apply lookup_insert_eq.
  split; [done|]. split; [done|]. split.
  - intros b m Hb. assert (a <> b) as Hne by congruence.
    assert (<[a := n + 40]> L !! b = Some m) as Eb by by rewrite lookup_insert_ne.
    pose proof (heap_disjoint _ _ _ _ _ _ _ H' Ea Eb Hne). lia.
  - intros x Hx. apply (heap_outside _ _ _ _ _ x H' Ea). lia.
Qed.


(** C7: [kfree] of a live block returns; exactly this block is gone, and no byte of the others
    changes. *)
Theorem kfree_correct (E : gset Z) (L : gmap Z Z) (a n : Z) (s : k_state V) :
  heap E L s -> L !! a = Some n ->
  exists s', kfree (a + sizeof_k_header) s = Done () s' /\ heap E (delete a L) s' /\ k_data s' = k_data s.
Proof. intros H Ha. destruct (wp_inv _ _ _ (wp_kfree E L a n s H Ha)) as ([] & s' & E1 & H1). by exists s'. Qed.





End Contract.

(** ** A heap over an allocator that hands out one page after the other, up to a limit *)

Definition bump_limit := 0x100000.
Definition bump_alloc (n attr : Z) : M Z va_ret := fun v =>
  if v + n * 4096 <=? bump_limit then Done (mkVaRet 0 v n attr) (v + n * 4096) else Done (mkVaRet 1 0 0 0) v.
#[local] Instance bump : Ranges Z := {| r_alloc := bump_alloc; r_free := fun _ => mret (); r_max := fun _ => 79 |}.

Definition bump_ok (H : gset Z) (v : Z) : Prop := 0 < v <= bump_limit /\ v mod 4096 = 0 /\ forall p, p ∈ H -> p < v.

#[local] Instance bump_laws : RangesLaws Z.
Proof.
  refine {| r_ok := bump_ok |}.
  - intros H v n (Hv & Hm & HH) Hn. unfold r_alloc, bump, bump_alloc, wp.
    destruct (Z.leb_spec (v + n * 4096) bump_limit) as [Hle|]; cbn; [|done].
    unfold bump_limit in *. split_and!; try lia.
    + intros p (i & Hi & ->)%elem_pages Hp. specialize (HH _ Hp). lia.
    + unfold bump_ok, bump_limit. split; [lia|]. split; [divlia|]. intros p [(i & Hi & ->)%elem_pages|Hp]%elem_of_union.
      * lia.
      * specialize (HH _ Hp). lia.
  - intros H v p n (Hv & Hm & HH) Hn Hs. unfold r_free, bump, wp. cbn. split; [done|]. split; [done|].
    intros q Hq. apply HH. set_solver.
  - done.
Defined.

Definition sample_kmalloc : Z -> M (k_state Z) Z := kmalloc (fun _ => mkSlab 7 7 7 7) (fun _ => mkSlabHd 7 7 7 7 7 7) (fun _ => 7) 7.
Definition fresh_heap : k_state Z := mkK 0x10000 ∅ ∅ ∅ ∅ (fun x => x) 0 0 0 0 0 false.
Definition state_after {A} (m : M (k_state Z) A) (s : k_state Z) : k_state Z :=
  match m s with Done _ s' => s' | _ => s end.
Definition answer (m : M (k_state Z) Z) (s : k_state Z) : Z := match m s with Done r _ => r | _ => 0 end.
Lemma answer_done m s r s' : m s = Done r s' -> answer m s = r /\ state_after m s = s'.
Proof. unfold answer, state_after. by intros ->. Qed.

(** After the first call: one block of 100 bytes behind its header. *)
Definition sample_heap : k_state Z := state_after (sample_kmalloc 100) fresh_heap.

Lemma fresh_heap_ok : heap ∅ ∅ fresh_heap.
Proof. split; [done|]. left. by repeat split. Qed.

Lemma sample_first : answer (sample_kmalloc 100) fresh_heap = 0x13028.
Proof. vm_compute. reflexivity. Qed.

Lemma sample_heap_ok : heap ∅ {[0x13000 := 140]} sample_heap.
Proof.
  destruct (wp_inv _ _ _ (wp_kmalloc (fun _ => mkSlab 7 7 7 7) (fun _ => mkSlabHd 7 7 7 7 7 7) (fun _ => 7) 7
    ∅ ∅ 100 fresh_heap fresh_heap_ok ltac:(by left) ltac:(lia))) as (r & s' & Er & Hr).
  apply (answer_done (sample_kmalloc 100)) in Er as [Ea Es]. rewrite sample_first in Ea.
  unfold sample_heap. rewrite Es. subst r.
  destruct Hr as [[_ [[? _]|(_ & a & Ea & _ & H)]]|(_ & ? & _)]; [done| |done].
  by replace a with 0x13000 in H by lia.
Qed.

Lemma sample_entry_left : entry_left sample_heap.
Proof.
  right. assert (option_map (fun x => 0 <? free_entries x + unused_entries x) (k_hds sample_heap !! shd sample_heap) = Some true) as E
    by (vm_compute; reflexivity).
  destruct (k_hds sample_heap !! shd sample_heap) as [x|]; [|done]. exists x. split; [done|].
  injection E as E. by apply Z.ltb_lt.
Qed.


Lemma sample_second : answer (sample_kmalloc 5000) sample_heap = 0x14028.
Proof. vm_compute. reflexivity. Qed.

Lemma kmalloc_correct_witness : exists r s', sample_kmalloc 5000 sample_heap = Done r s' /\ klock s' = false /\
  r = 0x14028 /\ heap ∅ (<[0x14000 := 5040]> {[0x13000 := 140]}) s'.
Proof.
  destruct (kmalloc_correct (fun _ => mkSlab 7 7 7 7) (fun _ => mkSlabHd 7 7 7 7 7 7) (fun _ => 7) 7
    ∅ _ 5000 sample_heap sample_heap_ok sample_entry_left ltac:(lia)) as (r & s' & E & Hl & _ & Hr).
  exists r, s'. split; [exact E|]. split; [exact Hl|].
  apply (answer_done (sample_kmalloc 5000)) in E as [Ea _]. rewrite sample_second in Ea. subst r. split; [done|].
  destruct (Hr ltac:(done)) as (a & Ea & H & _). unfold sizeof_k_header in *.
  replace a with 0x14000 in H by lia. exact H.
Defined.



Lemma kfree_correct_witness : exists s', kfree 0x13028 sample_heap = Done () s' /\ heap ∅ ∅ s'.
Proof.
  destruct (kfree_correct ∅ {[0x13000 := 140]} 0x13000 140 sample_heap sample_heap_ok ltac:(reflexivity))
    as (s' & E & H & _).
  exists s'. split; [exact E|exact H].
Defined.

