(* ===== verification/UsbTypes.v ===== *)
(** * USB: shared data and the services the drivers use ([drivers/usb/usb.hpp])

    Descriptors are packed structures that the code copies with [memcpy]: they are their bytes.
    A driver is written over a world [W] that offers DMA regions, heap blocks, a time source and
    the history of accesses; its own object is kept beside the world. Memory that is shared with
    a controller is reached by accesses of the history, like registers: a controller sees what
    the driver stored there, and may answer a load with anything it has stored itself. *)
From S2P Require Import KPrelude PortIO Pci Dma Timers.

(** ** Constants *)

(** [usb_speed] *)
Definition USB_SPEED_UNKNOWN := 0.
Definition USB_SPEED_LOW := 1.
Definition USB_SPEED_FULL := 2.
Definition USB_SPEED_HIGH := 3.
Definition USB_SPEED_SUPER := 4.

(** The codes of [usb_transfer]. *)
Definition TRANSFER_SUCCESS := 0.
Definition NOT_CONNECTED := 1.
Definition NOT_DISCOVERED := 2.
Definition NO_ADDRESS := 3.
Definition LINK_ERROR := 4.
Definition UNLINK_ERROR := 5.
Definition TRANSFER_TIMEOUT := 6.
Definition FAILED := 7.
Definition INVALID_LENGTH := 8.

(** What resetting a port answers. *)
Definition RESET_SUCCESS := 0.
Definition NO_DEVICE := 1.
Definition RESET_STILL_ASSERTED := 2.
Definition RESET_FAILED := 3.
Definition INVALID_PORT := 4.
Definition OVER_CURRENT_CONDITION := 8.
Definition INVALID_STATUS := 10.
Definition ADDRESS_DEVICE_TIMEOUT := 2.
Definition DISABLE_SLOT_ERROR := 3.
Definition GET_DESC_TIMEOUT := 4.
Definition GET_DESCRIPTOR := 0x06.
Definition IN := 0x80.

(** ** Descriptors *)

Definition bytes16 (b : list Z) (i : nat) : Z := field8 b i ||| (field8 b (S i) <<< 8).

(** The 18 bytes of a [usb_device_descriptor]. *)
Definition usb_device_descriptor := list Z.
Definition no_descriptor : usb_device_descriptor := replicate 18 0.
Definition bLength (d : list Z) : Z := field8 d 0.
Definition bDescriptorType (d : list Z) : Z := field8 d 1.
Definition bMaxPacketSize0 (d : usb_device_descriptor) : Z := field8 d 7.
Definition idVendor (d : usb_device_descriptor) : Z := bytes16 d 8.
Definition idProduct (d : usb_device_descriptor) : Z := bytes16 d 10.

(** The 9 bytes of a [configuration_descriptor]. *)
Definition configuration_descriptor := list Z.
Definition wTotalLength (d : configuration_descriptor) : Z := bytes16 d 2.
Definition bConfigurationValue (d : configuration_descriptor) : Z := field8 d 5.

(** The 9 bytes of a [usb_interface_descriptor]. *)
Definition usb_interface_descriptor := list Z.
Definition bInterfaceNumber (d : usb_interface_descriptor) : Z := field8 d 2.
Definition bAlternateSetting (d : usb_interface_descriptor) : Z := field8 d 3.
Definition bNumEndpoints (d : usb_interface_descriptor) : Z := field8 d 4.

(** The 7 bytes of a [usb_endpoint_descriptor] and the 6 of its SuperSpeed companion. *)
Definition usb_endpoint_descriptor := list Z.
Definition bEndpointAddress (d : usb_endpoint_descriptor) : Z := field8 d 2.
Definition bmAttributes (d : list Z) : Z := field8 d 3.
Definition wMaxPacketSize (d : usb_endpoint_descriptor) : Z := bytes16 d 4.
Definition bInterval (d : usb_endpoint_descriptor) : Z := field8 d 6.
Definition usb_ss_endpoint_companion_descriptor := list Z.
Definition bMaxBurst (d : usb_ss_endpoint_companion_descriptor) : Z := field8 d 2.
Definition wBytesPerInterval (d : usb_ss_endpoint_companion_descriptor) : Z := bytes16 d 4.

Record usb_endpoint := mkEndpoint {
  ep_address : Z;
  transfer_type : Z;
  max_packet_size : Z;
  interval : Z;
  data_toggle : Z;
  interface_number : Z;
  alternate_setting : Z;
  ep_descriptor : usb_endpoint_descriptor;
  has_ss_companion : bool;
  ss_companion : usb_ss_endpoint_companion_descriptor
}.
#[export] Instance usb_endpoint_eq_dec : EqDecision usb_endpoint.
Proof. solve_decision. Defined.

(** [new usb_endpoint[n]{}] *)
Definition no_endpoint : usb_endpoint :=
  mkEndpoint 0 0 0 0 0 0 0 (replicate 7 0) false (replicate 6 0).

(** [endpoints] is the array of [endpoint_count] elements that the heap holds at [endpoints_at],
    [None] for the null pointer. *)
Record usb_interface := mkInterface {
  if_descriptor : usb_interface_descriptor;
  endpoints : option (list usb_endpoint);
  endpoints_at : Z;
  endpoint_count : Z
}.
#[export] Instance usb_interface_eq_dec : EqDecision usb_interface.
Proof. solve_decision. Defined.
Definition no_interface : usb_interface := mkInterface (replicate 9 0) None 0 0.

(** [interfaces] is the array that the heap holds at [interfaces_at]; the pointer to the controller
    is left out, there being one. *)
Record usb_device := mkDevice {
  dev_port_number : Z;
  dev_address : Z;
  dev_speed : Z;
  dev_vendor_id : Z;
  dev_product_id : Z;
  discovered : bool;
  dev_descriptor : usb_device_descriptor;
  config : configuration_descriptor;
  interfaces : option (list usb_interface);
  interfaces_at : Z;
  usb_interface_count : Z
}.
Definition no_device : usb_device :=
  mkDevice 0 0 0 0 0 false no_descriptor (replicate 9 0) None 0 0.
Definition device_eta (d : usb_device) : usb_device :=
  mkDevice (dev_port_number d) (dev_address d) (dev_speed d) (dev_vendor_id d) (dev_product_id d)
    (discovered d) (dev_descriptor d) (config d) (interfaces d) (interfaces_at d)
    (usb_interface_count d).
Definition set_dev_port_number : (Z -> Z) -> usb_device -> usb_device :=
  ltac:(setter device_eta dev_port_number).
Definition set_dev_address : (Z -> Z) -> usb_device -> usb_device :=
  ltac:(setter device_eta dev_address).
Definition set_dev_speed : (Z -> Z) -> usb_device -> usb_device :=
  ltac:(setter device_eta dev_speed).
Definition set_dev_vendor_id : (Z -> Z) -> usb_device -> usb_device :=
  ltac:(setter device_eta dev_vendor_id).
Definition set_dev_product_id : (Z -> Z) -> usb_device -> usb_device :=
  ltac:(setter device_eta dev_product_id).
Definition set_discovered : (bool -> bool) -> usb_device -> usb_device :=
  ltac:(setter device_eta discovered).
Definition set_dev_descriptor : (list Z -> list Z) -> usb_device -> usb_device :=
  ltac:(setter device_eta dev_descriptor).
Definition set_config : (list Z -> list Z) -> usb_device -> usb_device :=
  ltac:(setter device_eta config).
Definition set_interfaces (l : option (list usb_interface)) (at_ n : Z) (d : usb_device) : usb_device :=
  mkDevice (dev_port_number d) (dev_address d) (dev_speed d) (dev_vendor_id d) (dev_product_id d)
    (discovered d) (dev_descriptor d) (config d) l at_ n.

Record usb_setup_packet := mkSetup {
  BmRequestType : Z;
  bRequest : Z;
  wValue : Z;
  wIndex : Z;
  wLength : Z
}.

(** The fields have their widths. *)
Definition packet_ok (p : usb_setup_packet) : Prop :=
  0 <= BmRequestType p < 256 /\ 0 <= bRequest p < 256 /\ 0 <= wValue p < 65536 /\ 0 <= wIndex p < 65536 /\
  0 <= wLength p < 65536.

Record usb_port_descriptor := mkPort {
  port_number : Z;
  connected : bool;
  controller_type : Z;
  port_status : Z;
  port_device : option usb_device
}.

(** ** A controller *)

(** Regions a controller may still use, and why they are kept. *)
Record dma_cache := mkCache { cache_dma : list dma_ret; error_code : list Z }.

(** [cached] is the array [quar_dma]; [cached_at] is where the heap holds it. *)
Record usb_controller_t := mkController {
  found : bool;
  needs_reinit : bool;
  cached : list dma_cache;
  cached_at : Z;
  pci_address : pci_address_t;
  bar : pci_bar_t;
  io_base : Z;
  c_class_code : Z;
  c_subclass : Z;
  c_prog_if : Z;
  c_index : Z
}.
Definition controller_eta (c : usb_controller_t) : usb_controller_t :=
  mkController (found c) (needs_reinit c) (cached c) (cached_at c) (pci_address c) (bar c)
    (io_base c) (c_class_code c) (c_subclass c) (c_prog_if c) (c_index c).
Definition set_found : (bool -> bool) -> usb_controller_t -> usb_controller_t :=
  ltac:(setter controller_eta found).
Definition set_needs_reinit : (bool -> bool) -> usb_controller_t -> usb_controller_t :=
  ltac:(setter controller_eta needs_reinit).
Definition set_cached : (list dma_cache -> list dma_cache) -> usb_controller_t -> usb_controller_t :=
  ltac:(setter controller_eta cached).
Definition set_cached_at : (Z -> Z) -> usb_controller_t -> usb_controller_t :=
  ltac:(setter controller_eta cached_at).
Definition set_pci_address : (pci_address_t -> pci_address_t) -> usb_controller_t -> usb_controller_t :=
  ltac:(setter controller_eta pci_address).
Definition set_bar : (pci_bar_t -> pci_bar_t) -> usb_controller_t -> usb_controller_t :=
  ltac:(setter controller_eta bar).
Definition set_io_base : (Z -> Z) -> usb_controller_t -> usb_controller_t :=
  ltac:(setter controller_eta io_base).

(** ** The services of the kernel *)

Class DmaOps (W : Type) := {
  allocate_dma : Z -> M W dma_ret;
  free_dma : Z -> M W unit;
  dma_phys_to_virt : Z -> M W Z
}.

(** [kmalloc], [kfree] and [krealloc]; [new] and [delete] are the first two ([new.cpp]). *)
Class HeapOps (W : Type) := {
  kmalloc : Z -> M W Z;
  kfree : Z -> M W unit;
  krealloc : Z -> Z -> Z -> M W Z
}.

Definition operator_new {W} `{!HeapOps W} (size : Z) : M W Z := kmalloc size.
(** [delete] of a null pointer does nothing. *)
Definition operator_delete {W} `{!HeapOps W} (p : Z) : M W unit := if p =? 0 then mret () else kfree p.

(** What [usb_send_packet] answers: null, the sentinel 1 of a request without data, or a heap
    block with the bytes that came in. *)
Inductive packet_reply :=
| NoReply
| Completed
| Reply (buffer : Z) (data : list Z).

(** [TIMEOUT] of [usb.hpp] is [TRANSFER_TIMEOUT] here. *)
Record usb_transfer_result := mkResult {
  hardware_status : Z;
  actual_length : Z;
  result_index : Z;
  result_type : Z;
  status_code : Z;
  endpoint_handle : Z
}.

(** The bytes of shared memory from [a] on. *)
Definition read_bytes {S} `{!IO S} (dev : device) (a n : Z) : M S (list Z) :=
  for_ 0 n (fun i acc => b ← mmio_read dev 1 (a + i); mret (acc ++ [b])) [].

(** [memcpy] into shared memory. *)
Definition write_bytes {S} `{!IO S} (a : Z) (bytes : list Z) : M S unit :=
  for_ 0 (Z.of_nat (length bytes)) (fun i _ => mmio_write 1 (a + i) (nth (Z.to_nat i) bytes 0)) ().

(** [memset] of shared memory to 0: the store of the number 0 with that many bytes. *)
Definition clear_memory {S} `{!IO S} (a bytes : Z) : M S unit := mmio_write bytes a 0.
