(* ===== verification/Xhci.v ===== *)
(** * xHCI: rings, events and ports ([drivers/usb/xhci.cpp])

    The controller object, the command ring and the event ring, the waits, the reset, the
    hand-over from the firmware, and the port operations. *)
From S2P Require Import KPrelude PortIO Pci Dma Timers UsbTypes.

Definition TIMEOUT := 1000000.
Definition XHCI_CMD_HCRST := 1 <<< 1.
Definition XHCI_STS_HCH := 1 <<< 0.
Definition XHCI_STS_CNR := 1 <<< 11.
Definition XHCI_EXT_CAP_LEGACY := 1.
Definition XHCI_LEGACY_BIOS_OWNED := 1 <<< 16.
Definition XHCI_LEGACY_OS_OWNED := 1 <<< 24.
Definition XHCI_LEGACY_SMI_ENABLES :=
  (1 <<< 0) ||| (1 <<< 4) ||| (1 <<< 13) ||| (1 <<< 14) ||| (1 <<< 15).
Definition CCS := 1 <<< 0.
Definition PED := 1 <<< 1.
Definition OCA := 1 <<< 3.
Definition PR := 1 <<< 4.
Definition PLS_MASK := 0xF <<< 5.
Definition U0 := 0 <<< 5.
Definition PRC := 1 <<< 21.
Definition RESET_TIMEOUT := 1000.
Definition RO_MASK := (1 <<< 0) ||| (1 <<< 3) ||| (0xF <<< 10) ||| (1 <<< 30).
Definition RWS_MASK := (0xF <<< 5) ||| (1 <<< 9) ||| (0x3 <<< 14) ||| (0x7 <<< 25).
Definition XHCI_PORTSC_BASE := 0x400.
Definition XHCI_PORTSC_STRIDE := 0x10.

(** ** Data ([xhci.hpp]) *)

Record XhciTrb := mkTrb { d0 : Z; d1 : Z; d2 : Z; d3 : Z }.
#[export] Instance XhciTrb_eq_dec : EqDecision XhciTrb.
Proof. solve_decision. Defined.
Definition sizeof_XhciTrb := 16.
Definition no_trb : XhciTrb := mkTrb 0 0 0 0.
Definition trb_type (t : XhciTrb) : Z := (d3 t >>> 10) &&& 0x3f.
(** [1u << n] and [TRB_TYPE(n)] *)
Definition TRB_CYCLE := 1.
Definition TRB_TYPE (n : Z) : Z := u32 (u32 n <<< 10).

Definition no_dma : dma_ret := mkDma 0 0 0 0.

Record XhciRings := mkRings {
  command_dma : dma_ret;
  event_dma : dma_ret;
  erst_dma : dma_ret;
  command : Z;
  event : Z;
  doorbell_base : Z;
  interrupter0_base : Z;
  ac64 : bool;
  command_index : Z;
  command_cycle : Z;
  event_index : Z;
  event_cycle : Z
}.
Definition rings_eta (r : XhciRings) : XhciRings :=
  mkRings (command_dma r) (event_dma r) (erst_dma r) (command r) (event r) (doorbell_base r)
    (interrupter0_base r) (ac64 r) (command_index r) (command_cycle r) (event_index r)
    (event_cycle r).
Definition set_command_dma : (dma_ret -> dma_ret) -> XhciRings -> XhciRings := ltac:(setter rings_eta command_dma).
Definition set_event_dma : (dma_ret -> dma_ret) -> XhciRings -> XhciRings := ltac:(setter rings_eta event_dma).
Definition set_erst_dma : (dma_ret -> dma_ret) -> XhciRings -> XhciRings := ltac:(setter rings_eta erst_dma).
Definition set_command : (Z -> Z) -> XhciRings -> XhciRings := ltac:(setter rings_eta command).
Definition set_event : (Z -> Z) -> XhciRings -> XhciRings := ltac:(setter rings_eta event).
Definition set_doorbell_base : (Z -> Z) -> XhciRings -> XhciRings := ltac:(setter rings_eta doorbell_base).
Definition set_interrupter0_base : (Z -> Z) -> XhciRings -> XhciRings := ltac:(setter rings_eta interrupter0_base).
Definition set_ac64 : (bool -> bool) -> XhciRings -> XhciRings := ltac:(setter rings_eta ac64).
Definition set_command_index : (Z -> Z) -> XhciRings -> XhciRings := ltac:(setter rings_eta command_index).
Definition set_command_cycle : (Z -> Z) -> XhciRings -> XhciRings := ltac:(setter rings_eta command_cycle).
Definition set_event_index : (Z -> Z) -> XhciRings -> XhciRings := ltac:(setter rings_eta event_index).
Definition set_event_cycle : (Z -> Z) -> XhciRings -> XhciRings := ltac:(setter rings_eta event_cycle).

Record xhci_endpoint_ring := mkRing {
  ring_dma : dma_ret;
  endpoint_address : Z;
  endpoint_type : Z;
  configured : bool;
  enqueue_index : Z;
  ring_cycle : Z
}.
Definition no_ring : xhci_endpoint_ring := mkRing no_dma 0 0 false 0 0.

Record usb_slot := mkSlot {
  slot_port : Z;
  slot_id : Z;
  output_context_virtual : Z;
  EP0_virtual : Z;
  output_context_physical : Z;
  EP0_physical : Z;
  ep0_index : Z;
  ep0_cycle : Z;
  ep0_mps : Z;
  slot_address : Z;
  slot_speed_id : Z;
  superspeed : bool;
  output_context : dma_ret;
  EP0 : dma_ret;
  endpoint_rings : list xhci_endpoint_ring
}.
Definition no_slot : usb_slot :=
  mkSlot 0 0 0 0 0 0 0 0 0 0 0 false no_dma no_dma (replicate 32 no_ring).
Definition slot_eta (s : usb_slot) : usb_slot :=
  mkSlot (slot_port s) (slot_id s) (output_context_virtual s) (EP0_virtual s)
    (output_context_physical s) (EP0_physical s) (ep0_index s) (ep0_cycle s) (ep0_mps s)
    (slot_address s) (slot_speed_id s) (superspeed s) (output_context s) (EP0 s)
    (endpoint_rings s).
Definition set_ep0_index : (Z -> Z) -> usb_slot -> usb_slot := ltac:(setter slot_eta ep0_index).
Definition set_ep0_cycle : (Z -> Z) -> usb_slot -> usb_slot := ltac:(setter slot_eta ep0_cycle).
Definition set_ep0_mps : (Z -> Z) -> usb_slot -> usb_slot := ltac:(setter slot_eta ep0_mps).
Definition set_endpoint_rings : (list xhci_endpoint_ring -> list xhci_endpoint_ring) -> usb_slot -> usb_slot :=
  ltac:(setter slot_eta endpoint_rings).

(** The object, with the file's static variables at its end. *)
Record xhci_controller := mkXhci {
  controller : usb_controller_t;
  ports : option (list usb_port_descriptor);
  ports_count : Z;
  doorbells : Z;
  scratch_pad : Z;
  dcbaa : Z;
  scratchpad_physical : Z;
  xhci_base : Z;
  addr64 : bool;
  rings : XhciRings;
  pending_command_physical : Z;
  pending_command_completion : XhciTrb;
  pending_command_done : Z;
  interrupt_driven : Z;
  processing_events : Z;
  pending_port_changes : list Z;
  transfer_waiting : bool;
  transfer_completed : bool;
  transfer_slot : Z;
  transfer_endpoint : Z;
  transfer_trb_pointer : Z;
  transfer_completion : XhciTrb;
  slots : option (list usb_slot);
  usb_address : Z;
  initial_mps : Z;
  speed_id : Z;
  context_size : Z
}.
Definition xhci_eta (x : xhci_controller) : xhci_controller :=
  mkXhci (controller x) (ports x) (ports_count x) (doorbells x) (scratch_pad x) (dcbaa x)
    (scratchpad_physical x) (xhci_base x) (addr64 x) (rings x) (pending_command_physical x)
    (pending_command_completion x) (pending_command_done x) (interrupt_driven x)
    (processing_events x) (pending_port_changes x) (transfer_waiting x) (transfer_completed x)
    (transfer_slot x) (transfer_endpoint x) (transfer_trb_pointer x) (transfer_completion x)
    (slots x) (usb_address x) (initial_mps x) (speed_id x) (context_size x).
Abbreviation X := xhci_controller.
Definition set_controller : (usb_controller_t -> usb_controller_t) -> X -> X := ltac:(setter xhci_eta controller).
Definition set_ports : (option (list usb_port_descriptor) -> option (list usb_port_descriptor)) -> X -> X :=
  ltac:(setter xhci_eta ports).
Definition set_ports_count : (Z -> Z) -> X -> X := ltac:(setter xhci_eta ports_count).
Definition set_doorbells : (Z -> Z) -> X -> X := ltac:(setter xhci_eta doorbells).
Definition set_scratch_pad : (Z -> Z) -> X -> X := ltac:(setter xhci_eta scratch_pad).
Definition set_dcbaa : (Z -> Z) -> X -> X := ltac:(setter xhci_eta dcbaa).
Definition set_scratchpad_physical : (Z -> Z) -> X -> X := ltac:(setter xhci_eta scratchpad_physical).
Definition set_xhci_base : (Z -> Z) -> X -> X := ltac:(setter xhci_eta xhci_base).
Definition set_addr64 : (bool -> bool) -> X -> X := ltac:(setter xhci_eta addr64).
Definition set_rings : (XhciRings -> XhciRings) -> X -> X := ltac:(setter xhci_eta rings).
Definition set_pending_command_physical : (Z -> Z) -> X -> X := ltac:(setter xhci_eta pending_command_physical).
Definition set_pending_command_completion : (XhciTrb -> XhciTrb) -> X -> X :=
  ltac:(setter xhci_eta pending_command_completion).
Definition set_pending_command_done : (Z -> Z) -> X -> X := ltac:(setter xhci_eta pending_command_done).
Definition set_interrupt_driven : (Z -> Z) -> X -> X := ltac:(setter xhci_eta interrupt_driven).
Definition set_processing_events : (Z -> Z) -> X -> X := ltac:(setter xhci_eta processing_events).
Definition set_pending_port_changes : (list Z -> list Z) -> X -> X := ltac:(setter xhci_eta pending_port_changes).
Definition set_transfer_waiting : (bool -> bool) -> X -> X := ltac:(setter xhci_eta transfer_waiting).
Definition set_transfer_completed : (bool -> bool) -> X -> X := ltac:(setter xhci_eta transfer_completed).
Definition set_transfer_slot : (Z -> Z) -> X -> X := ltac:(setter xhci_eta transfer_slot).
Definition set_transfer_endpoint : (Z -> Z) -> X -> X := ltac:(setter xhci_eta transfer_endpoint).
Definition set_transfer_trb_pointer : (Z -> Z) -> X -> X := ltac:(setter xhci_eta transfer_trb_pointer).
Definition set_transfer_completion : (XhciTrb -> XhciTrb) -> X -> X := ltac:(setter xhci_eta transfer_completion).
Definition set_slots : (option (list usb_slot) -> option (list usb_slot)) -> X -> X := ltac:(setter xhci_eta slots).
Definition set_usb_address : (Z -> Z) -> X -> X := ltac:(setter xhci_eta usb_address).
Definition set_initial_mps : (Z -> Z) -> X -> X := ltac:(setter xhci_eta initial_mps).
Definition set_speed_id : (Z -> Z) -> X -> X := ltac:(setter xhci_eta speed_id).
Definition set_context_size : (Z -> Z) -> X -> X := ltac:(setter xhci_eta context_size).

(** The object beside the world its services work on. *)
Record xhci_state (W : Type) := mkState { world : W; obj : xhci_controller }.
Arguments mkState {W}.
Arguments world {W}.
Arguments obj {W}.

(** What the driver does to the memory of a ring is in the history: the 32-bit word at [a] is
    what the latest store that covers it put there. *)
Definition covers (b w a : Z) : bool := (b <=? a) && (a + 4 <=? b + w).
Fixpoint word_at (t : list PortIO.event) (a : Z) : Z :=
  match t with
  | [] => 0
  | Wr Mmio w b v :: t' => if covers b w a then u32 (v >>> (8 * (a - b))) else word_at t' a
  | _ :: t' => word_at t' a
  end.
(** Entry [i] of the ring at [base]. *)
Definition trb_at (t : list PortIO.event) (base i : Z) : XhciTrb :=
  let a := base + sizeof_XhciTrb * i in
  mkTrb (word_at t a) (word_at t (a + 4)) (word_at t (a + 8)) (word_at t (a + 12)).

(** ** Operations *)

Section Xhci.
Context {W : Type} `{!IO W} `{!DmaOps W} `{!HeapOps W}.
Context (dev : device) (timer : TimerSource W).

#[export] Instance xhci_IO : IO (xhci_state W).
Proof.
  refine {| trace s := trace (world s); set_trace t s := mkState (set_trace t (world s)) (obj s) |}.
  - intros t s. apply trace_set.
  - intros t u s. cbn. by rewrite set_trace_twice.
  - intros [w x]. cbn. by rewrite set_trace_same.
Defined.

Abbreviation MX := (M (xhci_state W)).

(** A service of the world; it leaves the object alone. *)
Definition lift {A} (m : M W A) : MX A := zoom world (fun w s => mkState w (obj s)) m.
Definition get {A} (f : xhci_controller -> A) : MX A := gets (fun s => f (obj s)).
Definition upd (f : xhci_controller -> xhci_controller) : MX unit :=
  modify (fun s => mkState (world s) (f (obj s))).
#[export] Instance xhci_timer : TimerSource (xhci_state W) := {|
  read := lift (@read W timer);
  read_freq := lift (@read_freq W timer)
|}.

Definition r8 (a : Z) : MX Z := mmio_read dev 1 a.
Definition r16 (a : Z) : MX Z := mmio_read dev 2 a.
Definition r32 (a : Z) : MX Z := mmio_read dev 4 a.
Definition w32 (a v : Z) : MX unit := mmio_write 4 a v.
Definition w64 (a v : Z) : MX unit := mmio_write 8 a v.
Definition write_trb (base i : Z) (t : XhciTrb) : MX unit :=
  let a := base + sizeof_XhciTrb * i in
  w32 a (d0 t);; w32 (a + 4) (d1 t);; w32 (a + 8) (d2 t);; w32 (a + 12) (d3 t).

(** The registers of [xhci_cap_regs] and [xhci_op_regs]. *)
Definition cap_length (base : Z) : MX Z := r8 base.
Definition hccparams1 (base : Z) : MX Z := r32 (base + 0x10).
Definition usbcmd (op : Z) := op.
Definition usbsts (op : Z) := op + 4.
Definition pagesize (op : Z) := op + 8.
Definition crcr (op : Z) := op + 0x18.
Definition dcbaap (op : Z) := op + 0x30.
Definition config_reg (op : Z) := op + 0x38.

(** *** Waits *)

Definition xhci_wait_clear (reg mask : Z) : MX bool :=
  while FUEL (fun attempts =>
    if attempts =? 0 then mret (inr false)
    else v ← r32 reg; mret (if v &&& mask =? 0 then inr true else inl (attempts - 1))) TIMEOUT.
Definition xhci_wait_set (reg mask : Z) : MX bool :=
  while FUEL (fun attempts =>
    if attempts =? 0 then mret (inr false)
    else v ← r32 reg; mret (if v &&& mask =? mask then inr true else inl (attempts - 1))) TIMEOUT.

(** The loop the timed waits share: [poll] answers when it is over. *)
Definition tick24 : MX Z := v ← read; mret (u32 v &&& 0x00FFFFFF).
Definition timed_loop {A} (limit : Z) (poll : MX (option A)) : MX (option A) :=
  previous ← tick24;
  while FUEL (fun '(elapsed, previous) =>
    if elapsed <? limit then
      r ← poll;
      match r with
      | Some a => mret (inr (Some a))
      | None => now ← tick24; mret (inl (u64 (elapsed + (u32 (now - previous) &&& 0x00FFFFFF)), now))
      end
    else mret (inr None)) (0, previous).
Definition limit_of (frequency timeout_ms : Z) : Z :=
  u64 (u64 (frequency * timeout_ms) + 999) / 1000.

Definition wait_register (reg mask : Z) (want_set : bool) (timeout_ms : Z) : MX bool :=
  frequency ← read_freq;
  if frequency =? 0 then mret false
  else
    r ← timed_loop (limit_of frequency timeout_ms)
          (value ← r32 reg;
           mret (if (if want_set then value &&& mask =? mask else value &&& mask =? 0)
                 then Some () else None));
    mret (match r with Some _ => true | None => false end).

(** *** Reset and hand-over *)

Definition xhci_reset : MX Z :=
  base ← get xhci_base;
  r16 (base + 2);;
  r32 (base + 4);;
  len ← cap_length base;
  let op := base + len in
  ok ← xhci_wait_clear (usbsts op) XHCI_STS_CNR;
  if negb ok then mret 1
  else
    cmd ← r32 (usbcmd op);
    w32 (usbcmd op) (cmd &&& u32 (Z.lnot 1));;
    ok ← xhci_wait_set (usbsts op) XHCI_STS_HCH;
    if negb ok then mret 1
    else
      cmd ← r32 (usbcmd op);
      w32 (usbcmd op) (cmd ||| (1 <<< 1));;
      ok ← xhci_wait_clear (usbcmd op) XHCI_CMD_HCRST;
      if negb ok then mret 1
      else
        ok ← xhci_wait_clear (usbsts op) XHCI_STS_CNR;
        if negb ok then mret 1 else mret 0.

(** 0 stands for [NULL]. *)
Definition xhci_find_extended_capability (wanted_id : Z) : MX Z :=
  base ← get xhci_base;
  params ← hccparams1 base;
  while FUEL (fun offset =>
    if offset =? 0 then mret (inr 0)
    else
      let entry := u64 (base + u32 (offset <<< 2)) in
      header ← r32 entry;
      let id := header &&& 0xff in
      let next := (header >>> 8) &&& 0xff in
      mret (if id =? wanted_id then inr entry
            else if next =? 0 then inr 0
            else inl (u32 (offset + next)))) ((params >>> 16) &&& 0xFFFF).

Definition BOTH_SEMAPHORES := XHCI_LEGACY_BIOS_OWNED ||| XHCI_LEGACY_OS_OWNED.

(** The loop keeps the last value of [support], also when the second is over. *)
Definition xhci_take_ownership : MX bool :=
  legacy ← xhci_find_extended_capability XHCI_EXT_CAP_LEGACY;
  if legacy =? 0 then mret true
  else
    frequency ← read_freq;
    if frequency =? 0 then mret false
    else
      r32 legacy;; r32 (legacy + 4);;
      previous_tick ← tick24;
      sem ← r8 (legacy + 3);
      mmio_write 1 (legacy + 3) (u8 (sem ||| 1));;
      support ← r32 legacy;
      support ← while FUEL (fun '(elapsed_ticks, previous_tick, support) =>
        if elapsed_ticks <? frequency then
          support ← r32 legacy;
          let semaphores := support &&& BOTH_SEMAPHORES in
          tick ← tick24;
          let elapsed_ticks := u64 (elapsed_ticks + (u32 (tick - previous_tick) &&& 0x00FFFFFF)) in
          mret (if semaphores =? XHCI_LEGACY_OS_OWNED then inr support
                else inl (elapsed_ticks, tick, support))
        else mret (inr support)) (0, previous_tick, support);
      if negb (support &&& BOTH_SEMAPHORES =? XHCI_LEGACY_OS_OWNED) then
        r32 (legacy + 4);; mret false
      else
        ctlsts ← r32 (legacy + 4);
        w32 (legacy + 4) (ctlsts &&& 0x0000FFFF &&& u32 (Z.lnot XHCI_LEGACY_SMI_ENABLES));;
        r32 (legacy + 4);;
        mret true.

(** *** Memory for the controller *)

Definition BOUND_4G := 0x100000000.

(** [out] is what the caller's [dma_ret] holds afterwards. *)
Definition xhci_dma_alloc (bytes : Z) (ac64 : bool) : MX (bool * dma_ret) :=
  out ← lift (allocate_dma bytes);
  if negb (ret_status out =? 0) then mret (false, out)
  else if negb ac64 && ((BOUND_4G <=? physical_address out) ||
                        (u64 (BOUND_4G - physical_address out) <? bytes)) then
    lift (free_dma (virtual_address out));; mret (false, no_dma)
  else clear_memory (virtual_address out) bytes;; mret (true, out).

(** The check of a region that is not made by [xhci_dma_alloc]. *)
Definition region_unusable (r : dma_ret) (addr_64 : bool) : bool :=
  let bytes := u64 (ret_pages r * 4096) in
  let end_ := u64 (physical_address r + bytes) in
  negb (ret_status r =? 0) ||
  (negb addr_64 && ((end_ <? physical_address r) || (BOUND_4G <? end_))).

Definition allocate_scracthpad (scratchpad_count : Z) (addr_64 : bool) : MX Z :=
  scratchpad ← lift (allocate_dma (scratchpad_count * 8));
  if region_unusable scratchpad addr_64 then mret 1
  else
    upd (set_scratch_pad (fun _ => virtual_address scratchpad));;
    upd (set_scratchpad_physical (fun _ => physical_address scratchpad));;
    clear_memory (virtual_address scratchpad) (scratchpad_count * 8);;
    while FUEL (fun i =>
      if i <? scratchpad_count then
        buffer ← lift (allocate_dma 4096);
        if region_unusable buffer addr_64 then mret (inr 1)
        else
          clear_memory (virtual_address buffer) 4096;;
          w64 (virtual_address scratchpad + 8 * i) (physical_address buffer);;
          mret (inl (i + 1))
      else mret (inr 0)) 0.

Definition write_pointer_register (address value : Z) (ac64 : bool) : MX unit :=
  if ac64 then w64 address value else w32 address (u32 value).

(** *** The rings *)

Definition TRBS := 256.
Definition LINK_TYPE := u32 (6 <<< 10).
(** The link entry of a ring at [physical], with a cycle bit. *)
Definition link_d3 (cycle : Z) : Z := LINK_TYPE ||| (1 <<< 1) ||| cycle.

Definition upd_rings (f : XhciRings -> XhciRings) : MX unit := upd (set_rings f).

Definition setup_rings (op : Z) (ac64_ : bool) : MX bool :=
  upd_rings (set_ac64 (fun _ => ac64_));;
  '(ok1, c) ← xhci_dma_alloc (TRBS * sizeof_XhciTrb) ac64_;
  upd_rings (set_command_dma (fun _ => c));;
  if negb ok1 then mret false
  else
    '(ok2, e) ← xhci_dma_alloc (TRBS * sizeof_XhciTrb) ac64_;
    upd_rings (set_event_dma (fun _ => e));;
    if negb ok2 then mret false
    else
      '(ok3, t) ← xhci_dma_alloc 16 ac64_;
      upd_rings (set_erst_dma (fun _ => t));;
      if negb ok3 then mret false
      else
        upd_rings (set_command (fun _ => virtual_address c));;
        upd_rings (set_event (fun _ => virtual_address e));;
        base ← get xhci_base;
        dboff ← r32 (base + 0x14);
        upd_rings (set_doorbell_base (fun _ => u64 (base + (dboff &&& u32 (Z.lnot 3)))));;
        rtsoff ← r32 (base + 0x18);
        let runtime_base := u64 (base + (rtsoff &&& u32 (Z.lnot 31))) in
        let interrupter0 := u64 (runtime_base + 0x20) in
        upd_rings (set_interrupter0_base (fun _ => interrupter0));;
        write_trb (virtual_address c) (TRBS - 1)
          (mkTrb (u32 (physical_address c)) (u32 (physical_address c >>> 32)) 0 (link_d3 1));;
        write_pointer_register (crcr op) (physical_address c ||| 1) ac64_;;
        w64 (virtual_address t) (physical_address e);;
        w32 (virtual_address t + 8) TRBS;;
        w32 (virtual_address t + 12) 0;;
        w32 (interrupter0 + 0x08) 1;;
        write_pointer_register (interrupter0 + 0x18) (physical_address e) ac64_;;
        write_pointer_register (interrupter0 + 0x10) (physical_address t) ac64_;;
        upd_rings (set_command_index (fun _ => 0));;
        upd_rings (set_command_cycle (fun _ => 1));;
        upd_rings (set_event_index (fun _ => 0));;
        upd_rings (set_event_cycle (fun _ => 1));;
        upd (set_pending_command_done (fun _ => 0));;
        mret true.

Definition submit_command (command_ : XhciTrb) : MX Z :=
  r ← get rings;
  let index := command_index r in
  let physical := u64 (physical_address (command_dma r) + index * sizeof_XhciTrb) in
  write_trb (command r) index
    (mkTrb (d0 command_) (d1 command_) (d2 command_)
       ((d3 command_ &&& u32 (Z.lnot 1)) ||| command_cycle r));;
  upd (set_pending_command_physical (fun _ => physical));;
  upd (set_pending_command_done (fun _ => 0));;
  (let index' := u32 (index + 1) in
   upd_rings (set_command_index (fun _ => index'));;
   if index' =? 255 then
     w32 (command r + sizeof_XhciTrb * 255 + 12) (link_d3 (command_cycle r));;
     upd_rings (set_command_index (fun _ => 0));;
     upd_rings (set_command_cycle (fun c => Z.lxor c 1))
   else mret ());;
  w32 (doorbell_base r) 0;;
  mret physical.

Definition poll_event : MX (option XhciTrb) :=
  r ← get rings;
  let entry := event r + sizeof_XhciTrb * event_index r in
  flags ← r32 (entry + 12);
  if negb (flags &&& 1 =? event_cycle r) then mret None
  else
    v0 ← r32 entry; v1 ← r32 (entry + 4); v2 ← r32 (entry + 8); v3 ← r32 (entry + 12);
    (let index' := u32 (event_index r + 1) in
     upd_rings (set_event_index (fun _ => index'));;
     if index' =? 256 then
       upd_rings (set_event_index (fun _ => 0));;
       upd_rings (set_event_cycle (fun c => Z.lxor c 1))
     else mret ());;
    mret (Some (mkTrb v0 v1 v2 v3)).

(** The 64-bit pointer of an event. *)
Definition event_pointer (e : XhciTrb) : Z := (d1 e <<< 32) ||| d0 e.
Definition completion_code_of (e : XhciTrb) : Z := u8 (d2 e >>> 24).

(** What an event does to the object. *)
Definition handle_event (e : XhciTrb) (x : xhci_controller) : xhci_controller :=
  let type := trb_type e in
  if type =? 33 then
    if event_pointer e =? pending_command_physical x
    then set_pending_command_done (fun _ => 1) (set_pending_command_completion (fun _ => e) x)
    else x
  else if type =? 34 then
    let port := d0 e >>> 24 in
    if negb (port =? 0) && (port <? 256)
    then set_pending_port_changes
           (alter (fun w => w ||| u32 (1 <<< (port &&& 31))) (Z.to_nat (port >>> 5))) x
    else x
  else if type =? 32 then
    let slot := (d3 e >>> 24) &&& 0xFF in
    let endpoint := (d3 e >>> 16) &&& 0x1F in
    let event_data := negb (d3 e &&& (1 <<< 2) =? 0) in
    let code := completion_code_of e in
    if transfer_waiting x && negb (transfer_completed x) && negb event_data &&
       (slot =? transfer_slot x) && (endpoint =? transfer_endpoint x) &&
       ((event_pointer e =? transfer_trb_pointer x) || (negb (code =? 1) && negb (code =? 13)))
    then set_transfer_completed (fun _ => true) (set_transfer_completion (fun _ => e) x)
    else x
  else x.

(** The drain of the ring: at most 256 events. *)
Definition drain : MX Z :=
  while FUEL (fun processed =>
    if processed <? 256 then
      e ← poll_event;
      match e with
      | None => mret (inr processed)
      | Some e => upd (handle_event e);; mret (inl (processed + 1))
      end
    else mret (inr processed)) 0.

(** The interrupt is acknowledged first; the answer is IMAN. *)
Definition acknowledge : MX Z :=
  r ← get rings;
  base ← get xhci_base;
  len ← cap_length base;
  let op := base + len in
  sts ← r32 (usbsts op);
  (if negb (sts &&& (1 <<< 3) =? 0) then w32 (usbsts op) (1 <<< 3) else mret ());;
  pending ← r32 (interrupter0_base r);
  (if negb (pending &&& 1 =? 0) then w32 (interrupter0_base r) ((pending &&& 2) ||| 1)
   else mret ());;
  mret pending.

(** The dequeue pointer moves on, last. *)
Definition update_dequeue (pending processed : Z) : MX unit :=
  r ← get rings;
  update ← (if negb (processed =? 0) || negb (pending &&& 1 =? 0) then mret true
            else erdp ← r32 (interrupter0_base r + 0x18);
                 mret (negb (erdp &&& (1 <<< 3) =? 0)));
  if (update : bool) then
    let next := u64 (physical_address (event_dma r) + event_index r * sizeof_XhciTrb) in
    write_pointer_register (interrupter0_base r + 0x18) (next ||| (1 <<< 3)) (ac64 r)
  else mret ().

Definition xhci_process_events : MX Z :=
  r ← get rings;
  if event r =? 0 then mret 0
  else
    busy ← get processing_events;
    upd (set_processing_events (fun _ => 1));;
    if negb (busy =? 0) then mret 0
    else
      pending ← acknowledge;
      processed ← drain;
      update_dequeue pending processed;;
      upd (set_processing_events (fun _ => 0));;
      mret processed.

Definition xhci_take_port_change (port_number_ : Z) : MX Z :=
  if port_number_ =? 0 then mret 0
  else
    let mask := u32 (1 <<< (port_number_ &&& 31)) in
    let i := Z.to_nat (port_number_ >>> 5) in
    changes ← get pending_port_changes;
    old ← of_option (changes !! i);
    upd (set_pending_port_changes (<[i := old &&& u32 (Z.lnot mask)]>));;
    mret (if old &&& mask =? 0 then 0 else 1).

Definition xhci_set_interrupt_driven (enabled : Z) : MX unit :=
  upd (set_interrupt_driven (fun _ => if enabled =? 0 then 0 else 1)).

(** The completion, [None] when the time is over. *)
Definition wait_command (command_physical timeout_ms : Z) : MX (option XhciTrb) :=
  frequency ← read_freq;
  if frequency =? 0 then mret None
  else
    timed_loop (limit_of frequency timeout_ms)
      (xhci_process_events;;
       x ← get (fun x => x);
       if negb (pending_command_done x =? 0) && (pending_command_physical x =? command_physical)
       then upd (set_pending_command_done (fun _ => 0));;
            mret (Some (pending_command_completion x))
       else mret None).

(** A command and its completion, as the driver always uses them. *)
Definition run_command (c : XhciTrb) (timeout_ms : Z) : MX (option XhciTrb) :=
  physical ← submit_command c; wait_command physical timeout_ms.

(** *** Ports *)

Definition read_port (op_base port : Z) : MX Z :=
  r32 (op_base + XHCI_PORTSC_BASE + port * XHCI_PORTSC_STRIDE).
Definition op_base : MX Z :=
  base ← get (fun x => io_base (controller x)); len ← cap_length base; mret (base + len).

Definition enumrate_ports : MX Z :=
  base ← get (fun x => io_base (controller x));
  len ← cap_length base;
  params ← r32 (base + 4);
  let count := u8 ((params >>> 24) &&& 0xFF) in
  p ← lift (kmalloc (count * 24));
  upd (set_ports (fun _ => if p =? 0 then None else Some (replicate (Z.to_nat count) (mkPort 0 false 0 0 None))));;
  q ← lift (kmalloc (count * 1656));
  upd (set_slots (fun _ => if q =? 0 then None else Some (replicate (Z.to_nat count) no_slot)));;
  if (p =? 0) || (q =? 0) then mret (-1)
  else
    for_ 0 count (fun port _ =>
      status ← read_port (base + len) port;
      upd (set_ports (fmap (fun l => <[Z.to_nat port :=
        mkPort (port + 1) (negb (status &&& CCS =? 0)) xHCI status None]> l)))) ();;
    mret count.

Definition xhci_portsc_neutral (value : Z) : Z := (value &&& RO_MASK) ||| (value &&& RWS_MASK).

Definition ALL_ONES := 0xFFFFFFFF.

(** The slot type of the protocol a port belongs to, and the major revision. *)
Definition read_protocol (port : Z) : MX (Z * option Z) :=
  base ← get (fun x => io_base (controller x));
  params ← hccparams1 base;
  while FUEL (fun '(offset, remaining) =>
    if (offset =? 0) || (remaining =? 0) then mret (inr (0xFF, None))
    else
      header ← r32 (base + 4 * (offset / 4));
      let cap_id := header &&& 0xFF in
      let next := (header >>> 8) &&& 0xFF in
      hit ← (if cap_id =? 2 then
               port_info ← r32 (base + 4 * (u32 (offset + 0x08) / 4));
               slot_info ← r32 (base + 4 * (u32 (offset + 0x0C) / 4));
               let port_offset := port_info &&& 0xFF in
               let port_count := (port_info >>> 8) &&& 0xFF in
               if (port_offset <=? port) && (port <? port_offset + port_count)
               then mret (Some (slot_info &&& 0x1F, Some ((header >>> 24) &&& 0xff)))
               else mret None
             else mret None) : MX (option (Z * option Z));
      mret (match hit with
            | Some r => inr r
            | None => if next =? 0 then inr (0xFF, None)
                      else inl (u32 (offset + next * 4), remaining - 1)
            end)) (((params >>> 16) &&& 0xFFFF) * 4, 256).
Definition read_protocol_slot_type (port : Z) : MX Z := r ← read_protocol port; mret r.1.
(** [u8 protocol_major = 0; read_protocol_slot_type(port, &protocol_major);] *)
Definition protocol_major_of (port : Z) : MX Z := r ← read_protocol port; mret (default 0 r.2).

(** One look at PORTSC while the reset runs; [None] to go on waiting. *)
Definition reset_state (status : Z) : option Z :=
  if status =? ALL_ONES then Some INVALID_STATUS
  else if status &&& CCS =? 0 then Some NO_DEVICE
  else if negb (status &&& OCA =? 0) then Some OVER_CURRENT_CONDITION
  else if negb (status &&& PRC =? 0) then
    if negb (status &&& PR =? 0) then Some RESET_STILL_ASSERTED
    else if status &&& PED =? 0 then Some RESET_FAILED
    else if negb (status &&& PLS_MASK =? U0) then Some RESET_FAILED
    else Some RESET_SUCCESS
  else None.

Definition reset_port (port : Z) : MX Z :=
  count ← get ports_count;
  if (port <? 1) || (port >? count) then mret INVALID_PORT
  else
    op ← op_base;
    let portsc := op + XHCI_PORTSC_BASE + (port - 1) * XHCI_PORTSC_STRIDE in
    status ← r32 portsc;
    if status =? ALL_ONES then mret INVALID_STATUS
    else if status &&& CCS =? 0 then mret NO_DEVICE
    else if negb (status &&& OCA =? 0) then mret OVER_CURRENT_CONDITION
    else if negb (status &&& PR =? 0) then mret RESET_STILL_ASSERTED
    else
      protocol_major ← protocol_major_of port;
      if (3 <=? protocol_major) && negb (status &&& PED =? 0) && (status &&& PLS_MASK =? U0)
      then mret RESET_SUCCESS
      else
        w32 portsc (xhci_portsc_neutral status ||| PRC);;
        status ← r32 portsc;
        if status =? ALL_ONES then mret INVALID_STATUS
        else if status &&& CCS =? 0 then mret NO_DEVICE
        else if negb (status &&& PRC =? 0) then mret RESET_FAILED
        else
          w32 portsc (xhci_portsc_neutral status ||| PR);;
          r ← while FUEL (fun elapsed =>
            if elapsed <? RESET_TIMEOUT then
              status ← r32 portsc;
              match reset_state status with
              | Some code => mret (inr (Some code))
              | None => wait_ms xhci_timer 1;; mret (inl (elapsed + 1))
              end
            else mret (inr None)) 0;
          match r with
          | Some code => mret code
          | None =>
              status ← r32 portsc;
              mret (if negb (status =? ALL_ONES) && negb (status &&& PR =? 0)
                    then RESET_STILL_ASSERTED else RESET_FAILED)
          end.

Definition port_to_address (port : Z) : MX Z :=
  op ← op_base; mret (op + XHCI_PORTSC_BASE + (port - 1) * XHCI_PORTSC_STRIDE).

(** What [disable_port] stores. *)
Definition disable_value (status : Z) : Z := (status &&& u32 (Z.lnot PR)) ||| u32 (Z.lnot PED).

Definition disable_port (port : Z) : MX Z :=
  count ← get ports_count;
  if (port <? 1) || (port >? count) then mret INVALID_PORT
  else
    portsc ← port_to_address port;
    status ← r32 portsc;
    if status =? ALL_ONES then mret INVALID_STATUS
    else
      w32 portsc (disable_value status);;
      r32 portsc;;
      while FUEL (fun i =>
        if i <? 100 then
          v ← r32 portsc;
          if v &&& PED =? 0 then mret (inr ())
          else wait_ms xhci_timer 1;; mret (inl (i + 1))
        else mret (inr ())) 0;;
      v ← r32 portsc;
      mret (if v &&& PED =? 0 then RESET_SUCCESS else RESET_FAILED).

(** *** Device slots *)

(** 0 stands for a failure. *)
Definition enable_device_slot (port : Z) : MX Z :=
  slot_type ← read_protocol_slot_type port;
  if slot_type =? 0xFF then mret 0
  else
    completion ← run_command (mkTrb 0 0 0 (u32 (9 <<< 10) ||| u32 (slot_type <<< 16))) 500;
    mret (match completion with
          | None => 0
          | Some c => if negb (completion_code_of c =? 1) then 0 else u8 (d3 c >>> 24)
          end).

Definition disable_device_slot (slot_id_ : Z) : MX bool :=
  completion ← run_command (mkTrb 0 0 0 (u32 (10 <<< 10) ||| u32 (slot_id_ <<< 24))) 500;
  mret (match completion with
        | None => false
        | Some c => completion_code_of c =? 1
        end).

(** [initial_mps] is 0 when the answer is [false]; [None] stands for [false]. *)
Definition mps_of (status protocol_major : Z) : option Z :=
  let speed := (status >>> 10) &&& 0xF in
  if (3 <=? protocol_major) && negb (speed =? 0) then Some 512
  else if (speed =? 1) || (speed =? 2) then Some 8
  else if speed =? 3 then Some 64
  else if (speed =? 4) && (protocol_major =? 0) then Some 512
  else None.
Definition get_initial_mps (op port protocol_major : Z) : MX (option Z) :=
  status ← r32 (op + 0x400 + (port - 1) * XHCI_PORTSC_STRIDE);
  mret (mps_of status protocol_major).
Definition get_port_speed_id (op port : Z) : MX Z :=
  status ← r32 (op + 0x400 + (port - 1) * XHCI_PORTSC_STRIDE);
  mret (u8 ((status >>> 10) &&& 0xF)).

Definition arm_transfer (slot endpoint trb : Z) : MX unit :=
  upd (set_transfer_slot (fun _ => slot));;
  upd (set_transfer_endpoint (fun _ => endpoint));;
  upd (set_transfer_trb_pointer (fun _ => trb));;
  upd (set_transfer_completed (fun _ => false));;
  upd (set_transfer_waiting (fun _ => true)).

Definition wait_transfer_event (slot endpoint expected_trb timeout : Z) : MX (option XhciTrb) :=
  x ← get (fun x => x);
  ok ← (if transfer_waiting x then
          mret ((transfer_slot x =? slot) && (transfer_endpoint x =? endpoint) &&
                (transfer_trb_pointer x =? expected_trb))
        else arm_transfer slot endpoint expected_trb;; mret true) : MX bool;
  if negb ok then mret None
  else
    done ← while FUEL (fun i =>
      completed ← get transfer_completed;
      if (completed : bool) then mret (inr true)
      else
        xhci_process_events;;
        if timeout <=? i then
          upd (set_transfer_waiting (fun _ => false));; mret (inr false)
        else wait_ms xhci_timer 1;; mret (inl (u32 (i + 1)))) 0;
    if (done : bool) then
      result ← get transfer_completion;
      upd (set_transfer_waiting (fun _ => false));;
      mret (Some result)
    else mret None.
End Xhci.

(** ** Rules

    A state is written [at_ t w x]: the history [t], the rest of the world and the object. *)
Definition at_ {W} `{!IO W} (t : list PortIO.event) (w : W) (x : xhci_controller) : xhci_state W :=
  mkState (set_trace t w) x.

Section Rules.
Context {W : Type} `{!IO W} (dev : device).
Implicit Types (t : list PortIO.event) (w : W) (x : xhci_controller).

Lemma at_same (s : xhci_state W) : at_ (trace s) (world s) (obj s) = s.
Proof. destruct s as [w x]. unfold at_. cbn. by rewrite set_trace_same. Qed.

Lemma trace_at t w x : trace (at_ t w x) = t.
Proof. cbn. apply trace_set. Qed.

Lemma wp_store width a v (Q : unit -> xhci_state W -> Prop) t w x :
  Q () (at_ (Wr Mmio width a (v mod 2 ^ (8 * width)) :: t) w x) ->
  wp (mmio_write width a v) Q (at_ t w x).
Proof.
  unfold at_, mmio_write. intros H. apply wp_io_write. unfold logged. cbn.
  by rewrite trace_set, set_trace_twice.
Qed.

Lemma wp_load width a (Q : Z -> xhci_state W -> Prop) t w x :
  Q (io_value dev t Mmio width a) (at_ (Rd Mmio width a (io_value dev t Mmio width a) :: t) w x) ->
  wp (mmio_read dev width a) Q (at_ t w x).
Proof.
  unfold at_, mmio_read. intros H. apply wp_io_read. unfold logged. cbn.
  by rewrite !trace_set, set_trace_twice.
Qed.

Lemma wp_get {A} (f : xhci_controller -> A) (Q : A -> xhci_state W -> Prop) t w x :
  Q (f x) (at_ t w x) -> wp (get f) Q (at_ t w x).
Proof. done. Qed.

Lemma wp_upd (f : xhci_controller -> xhci_controller) (Q : unit -> xhci_state W -> Prop) t w x :
  Q () (at_ t w (f x)) -> wp (upd f) Q (at_ t w x).
Proof. done. Qed.

Lemma wp_lift {A} (m : M W A) (Q : A -> xhci_state W -> Prop) t w x :
  wp m (fun a w' => Q a (at_ (trace w') w' x)) (set_trace t w) -> wp (lift m) Q (at_ t w x).
Proof.
  intros H. unfold lift. apply wp_zoom. cbn. eapply wp_mono; [exact H|]. intros a w' HQ.
  unfold at_ in HQ. by rewrite set_trace_same in HQ.
Qed.
End Rules.

(** One step of a driver operation on [at_ t w x]. *)
Ltac x_step :=
  match goal with
  | |- wp (_ ≫= _) _ _ => apply wp_bind
  | |- wp (mret _) _ _ => apply wp_ret
  | |- wp (get _) _ _ => apply wp_get
  | |- wp (upd _) _ _ => apply wp_upd
  | |- wp (upd_rings _) _ _ => apply wp_upd
  | |- wp (mmio_write _ _ _) _ _ => apply wp_store
  | |- wp (w32 _ _) _ _ => apply wp_store
  | |- wp (w64 _ _) _ _ => apply wp_store
  | |- wp (mmio_read _ _ _) _ _ => apply wp_load
  | |- wp (r8 _ _) _ _ => apply wp_load
  | |- wp (r16 _ _) _ _ => apply wp_load
  | |- wp (r32 _ _) _ _ => apply wp_load
  end; cbn beta iota.
Ltac x_steps := repeat x_step.
