(* ===== verification/XhciDevices.v ===== *)
(** * xHCI: devices ([drivers/usb/xhci.cpp])

    Addressing a device, control transfers on its default endpoint, configuring its other
    endpoints, and bringing the controller up. *)
From S2P Require Import KPrelude PortIO Pci Dma Timers UsbTypes Xhci.

Definition CSZ := 1 <<< 2.
Definition EP0_SIZE := 4096.
Definition EP0_LINK := 255.
Definition DESCRIPTOR_SETUP := mkTrb 0x01000680 0x00080000 8 ((2 <<< 10) ||| (1 <<< 6) ||| (3 <<< 16)).

(** The TRBs of a control transfer, before their cycle bits. *)
Definition setup_trb (packet : usb_setup_packet) (has_data : bool) : XhciTrb :=
  mkTrb (BmRequestType packet ||| u32 (bRequest packet <<< 8) ||| u32 (wValue packet <<< 16))
    (wIndex packet ||| u32 (wLength packet <<< 16)) 8
    (TRB_TYPE 2 ||| (1 <<< 6) ||| ((if has_data then 3 else 0) <<< 16)).
Definition data_trb (buffer length : Z) : XhciTrb :=
  mkTrb (u32 buffer) (u32 (buffer >>> 32)) (u32 length) (TRB_TYPE 3 ||| (1 <<< 16) ||| (1 <<< 2)).
Definition status_trb (has_data : bool) : XhciTrb :=
  mkTrb 0 0 0 (TRB_TYPE 4 ||| (1 <<< 5) ||| (if has_data then 0 else 1 <<< 16)).
Definition with_cycle (cycle : Z) (t : XhciTrb) : XhciTrb := mkTrb (d0 t) (d1 t) (d2 t) (d3 t ||| cycle).

Section Devices.
Context {W : Type} `{!IO W} `{!DmaOps W} `{!HeapOps W}.
Context (dev : device) (timer : TimerSource W).

Abbreviation MX := (M (xhci_state W)).

(** *** [identify_device] *)

(** Regions are put aside in [controller.cached]; a failed allocation of the lists faults, as
    the code does not look at its result. *)
Definition quarantine (regions : list dma_ret) (code : Z) : MX unit :=
  let n := Z.of_nat (length regions) in
  p ← lift (kmalloc (n * 32));
  q ← lift (kmalloc (n * 2));
  if (p =? 0) || (q =? 0) then fault
  else
    c ← get controller;
    let old_size := Z.of_nat (length (cached c)) * 24 in
    cache ← lift (krealloc (cached_at c) old_size (old_size + 24));
    if cache =? 0 then fault
    else
      upd (set_controller (fun c =>
        set_cached_at (fun _ => cache)
          (set_cached (fun l => l ++ [mkCache regions (replicate (length regions) ((xHCI <<< 8) ||| code))]) c))).

Definition free_region (r : dma_ret) : MX unit := lift (free_dma (virtual_address r)).

(** The slot is disabled and its memory freed, or kept for a controller that still has it. *)
Definition give_up_slot (slot : Z) (output ring : dma_ret) : MX unit :=
  ok ← disable_device_slot dev timer slot;
  if (ok : bool) then
    base ← get dcbaa;
    w64 (base + 8 * slot) 0;;
    free_region output;; free_region ring
  else quarantine [output; ring] DISABLE_SLOT_ERROR.

(** The input context of Address Device. *)
Definition fill_input_context (input size ring_physical mps op port : Z) : MX unit :=
  let ep0 := input + 2 * size in
  let dequeue := ring_physical ||| 1 in
  w32 (ep0 + 8) (u32 dequeue);;
  w32 (ep0 + 12) (u32 (dequeue >>> 32));;
  w32 (ep0 + 4) ((3 <<< 1) ||| (4 <<< 3) ||| u32 (mps <<< 16));;
  w32 (ep0 + 16) 8;;
  w32 input 0;;
  w32 (input + 4) ((1 <<< 0) ||| (1 <<< 1));;
  speed ← get_port_speed_id dev op port;
  upd (set_speed_id (fun _ => speed));;
  w32 (input + size) (u32 (speed <<< 20) ||| (1 <<< 27));;
  w32 (input + size + 4) (u32 (port <<< 16)).

(** The read of the first 8 bytes of the device descriptor; a pointer to them in shared memory,
    or nothing. *)
Definition publish_first_transfer (slot : Z) (ring buffer : dma_ret) : MX unit :=
  let trbs := virtual_address ring in
  let data := mkTrb (u32 (physical_address buffer)) (u32 (physical_address buffer >>> 32)) 8
                ((3 <<< 10) ||| (1 <<< 16)) in
  let status := mkTrb 0 0 0 ((4 <<< 10) ||| (1 <<< 5)) in
  arm_transfer slot 1 (u64 (physical_address ring + 2 * sizeof_XhciTrb));;
  write_trb trbs 0 DESCRIPTOR_SETUP;;
  write_trb trbs 1 data;;
  write_trb trbs 2 status;;
  v ← r32 dev (trbs + 12); w32 (trbs + 12) (v ||| 1);;
  v ← r32 dev (trbs + 16 + 12); w32 (trbs + 16 + 12) (v ||| 1);;
  v ← r32 dev (trbs + 32 + 12); w32 (trbs + 32 + 12) (v ||| 1);;
  bells ← get doorbells;
  r32 dev (bells + 4 * slot);;
  w32 (bells + 4 * slot) 1.

Definition record_slot (port slot protocol_major : Z) (ring output : dma_ret) : MX unit :=
  x ← get (fun x => x);
  l ← of_option (slots x);
  old ← of_option (l !! Z.to_nat (port - 1));
  upd (set_slots (fun _ => Some (<[Z.to_nat (port - 1) :=
    mkSlot port slot (virtual_address output) (virtual_address ring) (physical_address output)
      (physical_address ring) 3 1 (initial_mps x) (usb_address x) (speed_id x)
      ((3 <=? protocol_major) || ((protocol_major =? 0) && (speed_id x =? 4)))
      output ring (endpoint_rings old)]> l))).

(** After Address Device: the address, the first transfer and the slot's record. *)
Definition first_descriptor (port slot protocol_major : Z) (addr_64 : bool)
    (input output ring : dma_ret) : MX usb_device_descriptor :=
  address ← r32 dev (virtual_address output + 12);
  upd (set_usb_address (fun _ => address &&& 0xFF));;
  r32 dev (virtual_address output + 12);;
  '(ok, buffer) ← xhci_dma_alloc 8 addr_64;
  if negb ok then
    free_region input;; give_up_slot slot output ring;; mret no_descriptor
  else
    publish_first_transfer slot ring buffer;;
    event ← wait_transfer_event dev timer slot 1
              (u64 (physical_address ring + (sizeof_XhciTrb <<< 1))) 500;
    match event with
    | None =>
        free_region input;; quarantine [output; ring; buffer] GET_DESC_TIMEOUT;; mret no_descriptor
    | Some e =>
        if negb (completion_code_of e =? 1) then
          free_region buffer;; free_region input;; give_up_slot slot output ring;; mret no_descriptor
        else
          type ← r8 dev (virtual_address buffer + 1);
          len ← (if negb (type =? 1) then mret 18 else r8 dev (virtual_address buffer));
          if negb (type =? 1) || negb (len =? 18) then mret no_descriptor
          else
            b ← read_bytes dev (virtual_address buffer) 8;
            free_region buffer;;
            free_region input;;
            record_slot port slot protocol_major ring output;;
            mret (b ++ replicate 10 0)
    end.

(** Address Device with the contexts and the ring. *)
Definition address_device (port slot protocol_major op : Z) (addr_64 : bool)
    (input output ring : dma_ret) : MX usb_device_descriptor :=
  size ← get context_size;
  mps ← get initial_mps;
  let link := virtual_address ring + sizeof_XhciTrb * EP0_LINK in
  w32 link (u32 (physical_address ring));;
  w32 (link + 4) (u32 (physical_address ring >>> 32));;
  w32 (link + 12) (link_d3 1);;
  fill_input_context (virtual_address input) size (physical_address ring) mps op port;;
  base ← get dcbaa;
  w64 (base + 8 * slot) (physical_address output);;
  completion ← run_command dev timer
    (mkTrb (u32 (physical_address input)) (u32 (physical_address input >>> 32)) 0
       ((11 <<< 10) ||| u32 (slot <<< 24))) 500;
  match completion with
  | None => quarantine [input; output; ring] ADDRESS_DEVICE_TIMEOUT;; mret no_descriptor
  | Some c =>
      if negb (d2 c >>> 24 =? 1) then
        free_region input;; give_up_slot slot output ring;; mret no_descriptor
      else first_descriptor port slot protocol_major addr_64 input output ring
  end.

(** The region lies above what a controller with 32-bit pointers reaches. *)
Definition too_high (addr_64 : bool) (r : dma_ret) : bool :=
  negb addr_64 && (0xFFFFFFFF <? physical_address r).

Definition identify_device (port : Z) : MX usb_device_descriptor :=
  slot ← enable_device_slot dev timer port;
  if slot =? 0 then mret no_descriptor
  else
    base ← get (fun x => io_base (controller x));
    params ← hccparams1 dev base;
    upd (set_context_size (fun _ => if params &&& CSZ =? 0 then 32 else 64));;
    let addr_64 := negb (params &&& 1 =? 0) in
    upd (set_addr64 (fun _ => addr_64));;
    op ← op_base dev;
    upd (set_initial_mps (fun _ => 0));;
    protocol_major ← protocol_major_of dev port;
    mps ← get_initial_mps dev op port protocol_major;
    match mps with
    | None => disable_device_slot dev timer slot;; mret no_descriptor
    | Some mps =>
        upd (set_initial_mps (fun _ => mps));;
        size ← get context_size;
        input ← lift (allocate_dma (size * 33));
        output ← lift (allocate_dma (size * 32));
        if negb (ret_status input =? 0) then
          disable_device_slot dev timer slot;; mret no_descriptor
        else if too_high addr_64 input then
          free_region input;; disable_device_slot dev timer slot;; mret no_descriptor
        else if negb (ret_status output =? 0) then
          free_region input;; disable_device_slot dev timer slot;; mret no_descriptor
        else if too_high addr_64 output then
          free_region output;; free_region input;;
          disable_device_slot dev timer slot;; mret no_descriptor
        else
          clear_memory (virtual_address input) (size * 33);;
          clear_memory (virtual_address output) (size * 32);;
          '(ok, ring) ← xhci_dma_alloc EP0_SIZE addr_64;
          if negb ok then
            free_region input;; free_region output;;
            disable_device_slot dev timer slot;; mret no_descriptor
          else address_device port slot protocol_major op addr_64 input output ring
    end.

(** *** Control transfers *)

(** The entries of the ring are stored from the last one of the transfer down to its first,
    and the entries a wrapped transfer skips become No-ops, up to the link. *)
Definition publish (ring first count cycle old_index old_cycle : Z) (wrap : bool)
    (setup data status : XhciTrb) : MX unit :=
  write_trb ring (first + count - 1) (with_cycle cycle status);;
  (if count =? 3 then write_trb ring (first + 1) (with_cycle cycle data) else mret ());;
  write_trb ring first (with_cycle cycle setup);;
  if wrap then
    for_ 0 (EP0_LINK - old_index) (fun i _ =>
      write_trb ring (EP0_LINK - 1 - i) (mkTrb 0 0 0 (TRB_TYPE 8 ||| old_cycle))) ();;
    w32 (ring + sizeof_XhciTrb * EP0_LINK + 12) (link_d3 old_cycle)
  else mret ().

(** A transfer of [count] entries does not fit before the link, the entry it begins at and its
    cycle bit, when the driver is at entry [i] with the bit [c]. *)
Definition wraps (count i : Z) : bool := i + count >? EP0_LINK.
Definition first_of (count i : Z) : Z := if wraps count i then 0 else i.
Definition cycle_of (count i c : Z) : Z := if wraps count i then Z.lxor c 1 else c.
Definition trb_count (has_data : bool) : Z := if has_data then 3 else 2.

(** The transfer is armed with the address of its last entry, then published. *)
Definition publish_request (slot ring ring_physical i c : Z) (packet : usb_setup_packet)
    (has_data : bool) (buffer length : Z) : MX unit :=
  let count := trb_count has_data in
  let first := first_of count i in
  arm_transfer slot 1 (u64 (ring_physical + (first + count - 1) * sizeof_XhciTrb));;
  publish ring first count (cycle_of count i c) i c (wraps count i)
    (setup_trb packet has_data) (data_trb buffer length) (status_trb has_data).

(** Where the next transfer goes. *)
Definition advance (first count cycle : Z) : Z * Z :=
  let next := first + count in
  if next =? EP0_LINK then (0, Z.lxor cycle 1) else (next, cycle).

Definition upd_slot (port : Z) (f : usb_slot -> usb_slot) : MX unit :=
  upd (set_slots (fmap (alter f (Z.to_nat (port - 1))))).

(** The poll of a transfer: half a second in steps of a millisecond. *)
Definition await_transfer : MX bool :=
  while FUEL (fun elapsed =>
    if elapsed <? 500 then
      xhci_process_events dev;;
      completed ← get transfer_completed;
      if (completed : bool) then mret (inr true)
      else wait_ms (xhci_timer timer) 1;; mret (inl (elapsed + 1))
    else mret (inr false)) 0.

(** The slot of a port, when it can take a transfer to [address]. *)
Definition usable_slot (maxpacketsize address port : Z) : MX (option usb_slot) :=
  x ← get (fun x => x);
  match slots x with
  | None => mret None
  | Some l =>
      if needs_reinit (controller x) || (doorbells x =? 0) || (dcbaa x =? 0) || (port =? 0) ||
         (port >? ports_count x) then mret None
      else
        slot ← of_option (l !! Z.to_nat (port - 1));
        if (slot_id slot =? 0) || negb (slot_address slot =? address) || (EP0_virtual slot =? 0) ||
           (output_context_virtual slot =? 0) then mret None
        else
          entry ← mmio_read dev 8 (dcbaa x + 8 * slot_id slot);
          mret (if negb (entry =? output_context_physical slot) ||
                   negb (maxpacketsize =? ep0_mps slot) then None else Some slot)
  end.

Definition free_if (b : bool) (r : dma_ret) : MX unit := if b then free_region r else mret ().

(** What is left to do when the transfer is over. *)
Definition finish_transfer (port first count cycle length : Z) (data_dma : dma_ret)
    (completed : bool) : MX packet_reply :=
  let has_data := negb (length =? 0) in
  completion ← get transfer_completion;
  upd (set_transfer_waiting (fun _ => false));;
  if negb completed then
    upd (set_controller (set_needs_reinit (fun _ => true)));; mret NoReply
  else
    let '(next_index, next_cycle) := advance first count cycle in
    upd_slot port (set_ep0_index (fun _ => next_index));;
    upd_slot port (set_ep0_cycle (fun _ => next_cycle));;
    let code := completion_code_of completion in
    if negb (code =? 1) && negb (code =? 13) then
      upd (set_controller (set_needs_reinit (fun _ => true)));; mret NoReply
    else if negb has_data then mret Completed
    else
      response ← lift (kmalloc length);
      reply ← (if response =? 0 then mret NoReply
               else b ← read_bytes dev (virtual_address data_dma) length; mret (Reply response b));
      free_region data_dma;;
      mret reply.

Definition usb_send_packet (packet : usb_setup_packet) (maxpacketsize length address port : Z)
    : MX packet_reply :=
  if negb (length =? wLength packet) || (length >? 4096) then mret NoReply
  else
    usable ← usable_slot maxpacketsize address port;
    match usable with
    | None => mret NoReply
    | Some slot =>
        let has_data := negb (length =? 0) in
        let data_in := negb (BmRequestType packet &&& IN =? 0) in
        if has_data && negb data_in then mret NoReply
        else
          addr_64 ← get addr64;
          '(ok, data_dma) ← (if has_data then xhci_dma_alloc length addr_64 else mret (true, no_dma));
          if negb ok then mret NoReply
          else
            let count := trb_count has_data in
            let old_index := ep0_index slot in
            let old_cycle := ep0_cycle slot in
            if old_index >? EP0_LINK then free_if has_data data_dma;; mret NoReply
            else
              waiting ← get transfer_waiting;
              if (waiting : bool) then free_if has_data data_dma;; mret NoReply
              else
                publish_request (slot_id slot) (EP0_virtual slot) (EP0_physical slot) old_index
                  old_cycle packet has_data (physical_address data_dma) length;;
                bells ← get doorbells;
                w32 (bells + 4 * slot_id slot) 1;;
                completed ← await_transfer;
                finish_transfer port (first_of count old_index) count (cycle_of count old_index old_cycle)
                  length data_dma completed
    end.

(** *** [set_address] *)

Definition DEVICE_REQUEST := mkSetup 0x80 GET_DESCRIPTOR 0x0100 0 18.

(** Evaluate Context with the packet size of the descriptor; [false] when it fails. *)
Definition evaluate_mps (port actual_mps : Z) (slot : usb_slot) : MX bool :=
  base ← get (fun x => io_base (controller x));
  params ← hccparams1 dev base;
  let bytes := if params &&& CSZ =? 0 then 32 else 64 in
  addr_64 ← get addr64;
  '(ok, input) ← xhci_dma_alloc (bytes * 33) addr_64;
  if negb ok then mret false
  else
    let ep0 := virtual_address input + 2 * bytes in
    w32 (virtual_address input + 4) (1 <<< 1);;
    for_ 0 bytes (fun i _ =>
      b ← mmio_read dev 1 (output_context_virtual slot + bytes + i);
      mmio_write 1 (ep0 + i) b) ();;
    v ← r32 dev ep0; w32 ep0 (v &&& u32 (Z.lnot 7));;
    v ← r32 dev (ep0 + 4); w32 (ep0 + 4) ((v &&& 0x0000ffff) ||| u32 (actual_mps <<< 16));;
    completion ← run_command dev timer
      (mkTrb (u32 (physical_address input)) (u32 (physical_address input >>> 32)) 0
         (TRB_TYPE 13 ||| u32 (slot_id slot <<< 24))) 500;
    match completion with
    | None => upd (set_controller (set_needs_reinit (fun _ => true)));; mret false
    | Some c =>
        free_region input;;
        if negb (d2 c >>> 24 =? 1) then mret false
        else upd_slot port (set_ep0_mps (fun _ => actual_mps));; mret true
    end.

Definition set_address (desc : usb_device_descriptor) (port : Z) : MX usb_device :=
  x ← get (fun x => x);
  match slots x with
  | None => mret no_device
  | Some l =>
      if (port =? 0) || (port >? ports_count x) then mret no_device
      else
        slot ← of_option (l !! Z.to_nat (port - 1));
        if (slot_id slot =? 0) || (slot_address slot =? 0) || negb (bLength desc =? 18) ||
           negb (bDescriptorType desc =? 1) then mret no_device
        else
          let device := set_dev_address (fun _ => slot_address slot) no_device in
          let mps := bMaxPacketSize0 desc in
          if superspeed slot && negb (mps =? 9) then mret device
          else
            let actual_mps := if superspeed slot then 512 else mps in
            if actual_mps =? 0 then mret device
            else
              ok ← (if actual_mps =? ep0_mps slot then mret true
                    else evaluate_mps port actual_mps slot);
              if negb ok then mret device
              else
                reply ← usb_send_packet DEVICE_REQUEST actual_mps 18 (slot_address slot) port;
                match reply with
                | NoReply => mret device
                | Completed => fault
                | Reply buffer full =>
                    let device' :=
                      if (bLength full =? 18) && (bDescriptorType full =? 1)
                      then set_discovered (fun _ => true) (set_dev_descriptor (fun _ => full) device)
                      else device in
                    lift (kfree buffer);;
                    mret device'
                end
  end.

(** *** [configure_endpoints] *)

(** The interval of a full- or low-speed endpoint: the exponent of the microframes. *)
Fixpoint shifts (fuel : nat) (microframes acc : Z) : Z :=
  match fuel with
  | O => acc
  | S fuel => let m := microframes >>> 1 in if m =? 0 then acc else shifts fuel m (acc + 1)
  end.
Definition interval_exponent (bInterval : Z) : Z := shifts 11 (u32 (bInterval * 8)) 0.

Definition ep_in (e : usb_endpoint) : bool := negb (ep_address e &&& 0x80 =? 0).
Definition dci_of (e : usb_endpoint) : Z :=
  2 * (ep_address e &&& 0x0f) + (if ep_in e || (transfer_type e =? 0) then 1 else 0).
Definition supported (e : usb_endpoint) : bool :=
  negb ((ep_address e &&& 0x0f =? 0) || negb (ep_address e &&& 0x70 =? 0) ||
        (transfer_type e =? 1) || (max_packet_size e =? 0) || (max_packet_size e >? 1024)).
Definition ep_type_of (e : usb_endpoint) : Z :=
  if transfer_type e =? 2 then (if ep_in e then 6 else 2)
  else if transfer_type e =? 3 then (if ep_in e then 7 else 3)
  else 4.
(** [None] when the endpoint is refused. *)
Definition interval_of (slot : usb_slot) (e : usb_endpoint) : option Z :=
  if transfer_type e =? 3 then
    if interval e =? 0 then None
    else if superspeed slot || (slot_speed_id slot =? 3) then
      if interval e >? 16 then None else Some (interval e - 1)
    else Some (interval_exponent (interval e))
  else Some 0.
(** The burst and the payload of a service interval. *)
Definition burst_of (slot : usb_slot) (e : usb_endpoint) : option (Z * Z) :=
  if superspeed slot then
    if negb (has_ss_companion e) ||
       ((transfer_type e =? 2) && negb (bmAttributes (ss_companion e) &&& 0x1f =? 0)) then None
    else Some (bMaxBurst (ss_companion e),
               if transfer_type e =? 3 then wBytesPerInterval (ss_companion e) else 0)
  else if transfer_type e =? 3 then
    let max_burst := if slot_speed_id slot =? 3
                     then (wMaxPacketSize (ep_descriptor e) >>> 11) &&& 3 else 0 in
    Some (max_burst, max_packet_size e * (max_burst + 1))
  else Some (0, 0).

(** Each element of an array of [n], until a step answers [false]. *)
Definition each {A B} (l : list B) (n : Z) (step : A -> B -> MX (bool * A)) (a : A) : MX (bool * A) :=
  while FUEL (fun '(i, a) =>
    if i <? n then
      x ← of_option (l !! Z.to_nat i);
      '(ok, a') ← step a x;
      mret (if (ok : bool) then inl (i + 1, a') else inr (false, a'))
    else mret (inr (true, a))) (0, a).

(** The endpoint's ring and its context. *)
Definition fill_endpoint (input bytes interval_ max_burst payload : Z) (e : usb_endpoint)
    (ring : dma_ret) : MX unit :=
  let link := virtual_address ring + sizeof_XhciTrb * EP0_LINK in
  w32 link (u32 (physical_address ring));;
  w32 (link + 4) (u32 (physical_address ring >>> 32));;
  w32 (link + 12) (link_d3 1);;
  let ep := input + (dci_of e + 1) * bytes in
  w32 ep (u32 (interval_ <<< 16));;
  w32 (ep + 4) ((3 <<< 1) ||| u32 (ep_type_of e <<< 3) ||| u32 (max_burst <<< 8) |||
                u32 (max_packet_size e <<< 16));;
  w32 (ep + 8) (u32 (physical_address ring) ||| 1);;
  w32 (ep + 12) (u32 (physical_address ring >>> 32));;
  w32 (ep + 16) (max_packet_size e ||| u32 (payload <<< 16));;
  c ← r32 dev (input + 4);
  w32 (input + 4) (c ||| u32 (1 <<< dci_of e)).

(** One endpoint; [pending] is [pending_rings]. *)
Definition endpoint_step (slot : usb_slot) (input bytes : Z) (addr_64 : bool)
    (v : list dma_ret * Z) (e : usb_endpoint) : MX (bool * (list dma_ret * Z)) :=
  let '(pending, highest_dci) := v in
  if negb (supported e) then mret (false, v)
  else
    let dci := dci_of e in
    control ← r32 dev (input + 4);
    ring ← of_option (endpoint_rings slot !! Z.to_nat dci);
    if negb (control &&& u32 (1 <<< dci) =? 0) || configured ring then mret (false, v)
    else
      match interval_of slot e, burst_of slot e with
      | Some interval_, Some (max_burst, payload) =>
          '(ok, r) ← xhci_dma_alloc EP0_SIZE addr_64;
          let pending := <[Z.to_nat dci := r]> pending in
          if negb ok then mret (false, (pending, highest_dci))
          else
            fill_endpoint input bytes interval_ max_burst payload e r;;
            mret (true, (pending, Z.max dci highest_dci))
      | _, _ => mret (false, v)
      end.

Definition interface_step (slot : usb_slot) (input bytes : Z) (addr_64 : bool)
    (v : list dma_ret * Z) (i : usb_interface) : MX (bool * (list dma_ret * Z)) :=
  if negb (bAlternateSetting (if_descriptor i) =? 0) then mret (true, v)
  else
    match endpoints i with
    | None => mret (endpoint_count i =? 0, v)
    | Some l => each l (endpoint_count i) (endpoint_step slot input bytes addr_64) v
    end.

Definition discard_pending (pending : list dma_ret) (input : dma_ret) : MX unit :=
  for_ 2 30 (fun dci _ =>
    r ← of_option (pending !! Z.to_nat dci);
    if virtual_address r =? 0 then mret () else free_region r) ();;
  free_region input.

(** The rings the controller accepted become the slot's. *)
Definition keep_rings (port : Z) (input : dma_ret) (bytes : Z) (pending : list dma_ret) : MX unit :=
  for_ 2 30 (fun dci _ =>
    r ← of_option (pending !! Z.to_nat dci);
    if virtual_address r =? 0 then mret ()
    else
      ep ← r32 dev (virtual_address input + (dci + 1) * bytes + 4);
      upd_slot port (set_endpoint_rings (<[Z.to_nat dci :=
        mkRing r ((dci >>> 1) ||| (if dci &&& 1 =? 0 then 0 else 0x80)) ((ep >>> 3) &&& 7)
               true 0 1]>))) ().

Definition configure_command (port : Z) (slot : usb_slot) (bytes highest_dci : Z) (input : dma_ret)
    (pending : list dma_ret) : MX Z :=
  let input_slot := virtual_address input + bytes in
  v ← r32 dev input_slot;
  w32 input_slot ((v &&& u32 (Z.lnot (0x1f <<< 27))) ||| u32 (highest_dci <<< 27));;
  completion ← run_command dev timer
    (mkTrb (u32 (physical_address input)) (u32 (physical_address input >>> 32)) 0
       (TRB_TYPE 12 ||| u32 (slot_id slot <<< 24))) 500;
  match completion with
  | None => upd (set_controller (set_needs_reinit (fun _ => true)));; mret 1
  | Some c =>
      if negb (completion_code_of c =? 1) then discard_pending pending input;; mret 1
      else keep_rings port input bytes pending;; free_region input;; mret 0
  end.

Definition configure_slot (device : usb_device) (l : list usb_interface) (slot : usb_slot) : MX Z :=
  base ← get (fun x => io_base (controller x));
  params ← hccparams1 dev base;
  let bytes := if params &&& CSZ =? 0 then 32 else 64 in
  addr_64 ← get addr64;
  '(ok, input) ← xhci_dma_alloc (bytes * 33) addr_64;
  if negb ok then mret 1
  else
    let control := virtual_address input in
    let input_slot := control + bytes in
    w32 control 0;;
    w32 (control + 4) 1;;
    for_ 0 bytes (fun i _ =>
      b ← mmio_read dev 1 (output_context_virtual slot + i);
      mmio_write 1 (input_slot + i) b) ();;
    v ← r32 dev (input_slot + 12);
    w32 (input_slot + 12) (v &&& u32 (Z.lnot (0x1f <<< 27)));;
    '(ok, (pending, highest_dci)) ←
      each l (usb_interface_count device) (interface_step slot control bytes addr_64)
        (replicate 32 no_dma, 1);
    if negb ok then discard_pending pending input;; mret 1
    else if highest_dci =? 1 then discard_pending pending input;; mret 0
    else configure_command (dev_port_number device) slot bytes highest_dci input pending.

Definition configure_endpoints (device : usb_device) (bConfigurationValue_ maxpacketsize address : Z)
    : MX Z :=
  x ← get (fun x => x);
  let port := dev_port_number device in
  match slots x, interfaces device with
  | Some s, Some l =>
      if needs_reinit (controller x) || (dcbaa x =? 0) || (port =? 0) || (port >? ports_count x) ||
         (bConfigurationValue_ =? 0) ||
         negb (bConfigurationValue_ =? bConfigurationValue (config device)) ||
         negb (address =? dev_address device) then mret 1
      else
        slot ← of_option (s !! Z.to_nat (port - 1));
        if (slot_id slot =? 0) || negb (slot_address slot =? address) ||
           negb (ep0_mps slot =? maxpacketsize) || (output_context_virtual slot =? 0) then mret 1
        else
          entry ← mmio_read dev 8 (dcbaa x + 8 * slot_id slot);
          if negb (entry =? output_context_physical slot) then mret 1
          else configure_slot device l slot
  | _, _ => mret 1
  end.

(** *** Bringing the controller up *)

(** The device context array and the slots enabled. *)
Definition program_dcbaa (op max_slots scratchpad_count : Z) (addr_64 : bool) : MX bool :=
  let size := (max_slots + 1) * 8 in
  array ← lift (allocate_dma size);
  if region_unusable array addr_64 then mret false
  else
    upd (set_dcbaa (fun _ => virtual_address array));;
    clear_memory (virtual_address array) size;;
    pad ← get scratchpad_physical;
    w64 (virtual_address array) (if scratchpad_count >? 0 then pad else 0);;
    w64 (dcbaap op) (physical_address array);;
    v ← r32 dev (config_reg op);
    w32 (config_reg op) ((v &&& u32 (Z.lnot 0xff)) ||| max_slots);;
    mret true.

(** The rings, Run, and a No Op command as a test. *)
Definition start (base op : Z) (addr_64 : bool) : MX Z :=
  hccparams1 dev base;;
  ok ← setup_rings dev op addr_64;
  if negb ok then mret 1
  else
    cmd ← r32 dev (usbcmd op);
    w32 (usbcmd op) (cmd ||| 1);;
    running ← wait_register dev timer (usbsts op) XHCI_STS_HCH false 1000;
    if negb running then r32 dev (usbsts op);; mret 1
    else
      completion ← run_command dev timer (mkTrb 0 0 0 (23 <<< 10)) 1000;
      mret (match completion with
            | None => 1
            | Some c => if d2 c >>> 24 =? 1 then 0 else 1
            end).

Definition controller_init : MX Z :=
  c ← get controller;
  let address := bar_address (bar c) in
  let page_offset := address &&& 0xfff in
  let virtual := u64 (Paging.BASE + (address &&& u64 (Z.lnot 0xfff))) in
  let base := u64 (virtual + page_offset) in
  upd (set_controller (set_io_base (fun _ => base)));;
  upd (set_xhci_base (fun _ => base));;
  owned ← xhci_take_ownership dev timer;
  if negb owned then mret 1
  else
    rst ← xhci_reset dev;
    if negb (rst =? 0) then mret 1
    else
      len ← cap_length dev base;
      let op := base + len in
      hcs1 ← r32 dev (base + 4);
      hcs2 ← r32 dev (base + 8);
      hcc1 ← hccparams1 dev base;
      let max_slots := u8 (hcs1 &&& 0xff) in
      let max_ports := u8 ((hcs1 >>> 24) &&& 0xff) in
      let addr_64 := negb (hcc1 &&& 1 =? 0) in
      dboff ← r32 dev (base + 0x14);
      upd (set_doorbells (fun _ => base + (dboff &&& u32 (Z.lnot 3))));;
      ps ← r32 dev (pagesize op);
      if ps &&& 1 =? 0 then mret 1
      else
        let hi := (hcs2 >>> 21) &&& 0x1f in
        let lo := (hcs2 >>> 27) &&& 0x1f in
        let scratchpad_count := (hi <<< 5) ||| lo in
        alsts ← (if scratchpad_count >? 0 then allocate_scracthpad scratchpad_count addr_64
                 else mret 0);
        if negb (alsts =? 0) then mret 1
        else if (max_slots =? 0) || (max_ports =? 0) then mret 1
        else
          ok ← program_dcbaa op max_slots scratchpad_count addr_64;
          if negb ok then mret 1 else start base op addr_64.

(** One look at port [i]; [attempted] are the ports that are done with. *)
Definition scan_port (get_device : Z -> MX usb_device) (op i : Z) (attempted : list Z) : MX (list Z) :=
  done ← of_option (attempted !! Z.to_nat i);
  if negb (done =? 0) then mret attempted
  else
    status ← read_port dev op i;
    l ← get ports;
    l ← of_option l;
    p ← of_option (l !! Z.to_nat i);
    let seen := if status =? ALL_ONES then false else negb (status &&& CCS =? 0) in
    upd (set_ports (fun _ => Some (<[Z.to_nat i :=
      mkPort (port_number p) seen (controller_type p) status (port_device p)]> l)));;
    if status =? ALL_ONES then mret (<[Z.to_nat i := 1]> attempted)
    else if negb seen then mret attempted
    else
      enumerated ← get_device (port_number p);
      (if discovered enumerated then
         q ← lift (kmalloc 72);
         if q =? 0 then fault
         else upd (set_ports (fmap (alter (fun p =>
           mkPort (port_number p) (connected p) (controller_type p) (port_status p) (Some enumerated))
           (Z.to_nat i))))
       else r ← read_port dev op i; mret ());;
      mret (<[Z.to_nat i := 1]> attempted).

Definition scan_ports (get_device : Z -> MX usb_device) : MX unit :=
  wait_ms (xhci_timer timer) 100;;
  op ← op_base dev;
  count ← get ports_count;
  p ← lift (kmalloc count);
  if p =? 0 then mret ()
  else
    for_ 0 51 (fun k attempted =>
      attempted ← for_ 0 count (scan_port get_device op) attempted;
      (if negb (k =? 50) then wait_ms (xhci_timer timer) 10 else mret ());;
      mret attempted) (replicate (Z.to_nat count) 0);;
    lift (kfree p).
End Devices.
