(* ===== verification/XhciRings.v ===== *)
(** * xHCI: the command ring as a queue

    A controller follows the command ring by itself: it takes the entry at its index when the
    entry's cycle bit is the cycle it expects, and goes through the link entry. Whatever the
    order in which the driver submits and the controller fetches, with other accesses in
    between, the controller gets the commands in the order they were submitted, each once. *)
From S2P Require Import KPrelude PortIO Pci Dma Timers UsbTypes Xhci.

(** ** Words of the history *)

(** An access that leaves the 4096 bytes at [base] alone. *)
Definition spares (base : Z) (e : PortIO.event) : Prop :=
  match e with
  | Wr Mmio w b _ => b + w <= base \/ base + 4096 <= b
  | _ => True
  end.

Lemma word_spared base e t a : spares base e -> base <= a -> a + 4 <= base + 4096 ->
  word_at (e :: t) a = word_at t a.
Proof.
  intros He H1 H2. destruct e as [|[] w b v]; cbn; try done. unfold covers.
  cbn in He. destruct (Z.leb_spec b a), (Z.leb_spec (a + 4) (b + w)); cbn; done || lia.
Qed.

Lemma words_spared base l t a : Forall (spares base) l -> base <= a -> a + 4 <= base + 4096 ->
  word_at (l ++ t) a = word_at t a.
Proof.
  induction 1 as [|e l He _ IH]; intros H1 H2; cbn [app]; [done|].
  rewrite (word_spared base) by done. auto.
Qed.

Lemma trb_spared base l t i : Forall (spares base) l -> 0 <= i < 256 ->
  trb_at (l ++ t) base i = trb_at t base i.
Proof.
  intros Hl Hi. unfold trb_at. rewrite !(words_spared base) by (try done; unfold sizeof_XhciTrb; lia). done.
Qed.

Lemma word_same t a v : 0 <= v < 2 ^ 32 -> word_at (Wr Mmio 4 a v :: t) a = v.
Proof.
  intros Hv. cbn. unfold covers. rewrite !(proj2 (Z.leb_le _ _)) by lia. cbn.
  replace (8 * (a - a)) with 0 by lia. rewrite Z.shiftr_0_r. unfold u32. by apply Z.mod_small.
Qed.

Lemma word_other t a b v : b + 4 <= a \/ a + 4 <= b -> word_at (Wr Mmio 4 b v :: t) a = word_at t a.
Proof.
  intros H. cbn. unfold covers. destruct (Z.leb_spec b a), (Z.leb_spec (a + 4) (b + 4)); cbn; done || lia.
Qed.

Definition trb_words (t : XhciTrb) : Prop :=
  0 <= d0 t < 2 ^ 32 /\ 0 <= d1 t < 2 ^ 32 /\ 0 <= d2 t < 2 ^ 32 /\ 0 <= d3 t < 2 ^ 32.

(** What [write_trb] adds to the history. *)
Definition trb_stores (base i : Z) (t : XhciTrb) : list PortIO.event :=
  let a := base + sizeof_XhciTrb * i in
  [Wr Mmio 4 (a + 12) (d3 t); Wr Mmio 4 (a + 8) (d2 t); Wr Mmio 4 (a + 4) (d1 t); Wr Mmio 4 a (d0 t)].

Lemma trb_stored base i t h : trb_words t -> trb_at (trb_stores base i t ++ h) base i = t.
Proof.
  intros (H0 & H1 & H2 & H3). destruct t as [v0 v1 v2 v3]. cbn [d0 d1 d2 d3] in *. unfold trb_at, trb_stores.
  cbn [d0 d1 d2 d3 app]. set (a := base + sizeof_XhciTrb * i).
  repeat first [rewrite (word_same _ a) by done | rewrite (word_same _ (a + 4)) by done
               |rewrite (word_same _ (a + 8)) by done|rewrite (word_same _ (a + 12)) by done|rewrite word_other by lia]. done.
Qed.

Lemma trb_elsewhere base i j t h : i <> j -> trb_at (trb_stores base j t ++ h) base i = trb_at h base i.
Proof.
  intros Hij. unfold trb_at, trb_stores. cbn [app]. unfold sizeof_XhciTrb. by rewrite !word_other by lia.
Qed.

(** ** The controller's side *)

Record consumer := mkConsumer { c_index : Z; c_cycle : Z }.

(** One look at the ring in memory, whose first entry has the physical address [phys]: nothing
    when the entry is not the controller's; otherwise the command, or none for a link. *)
Definition fetch (ring : Z -> XhciTrb) (phys : Z) (c : consumer) : option (option XhciTrb * consumer) :=
  let t := ring (c_index c) in
  if negb (d3 t &&& 1 =? c_cycle c) then None
  else if trb_type t =? 6 then
    Some (None, mkConsumer ((event_pointer t - phys) / sizeof_XhciTrb)
                  (if d3 t &&& 2 =? 0 then c_cycle c else Z.lxor (c_cycle c) 1))
  else Some (Some t, mkConsumer (c_index c + 1) (c_cycle c)).

(** A command is compared without its cycle bit. *)
Definition clear_cycle (t : XhciTrb) : XhciTrb := mkTrb (d0 t) (d1 t) (d2 t) (d3 t &&& u32 (Z.lnot 1)).

(** The cycle bit of lap [l]. *)
Definition lap_cycle (l : Z) : Z := 1 - l mod 2.
Definition published (j : nat) (t : XhciTrb) : XhciTrb :=
  mkTrb (d0 t) (d1 t) (d2 t) ((d3 t &&& u32 (Z.lnot 1)) ||| lap_cycle (Z.of_nat j / 255)).

Section Queue.
Context {W : Type} `{!IO W}.

Record system := mkSystem {
  driver : xhci_state W;
  hw : consumer;
  submitted : list XhciTrb;
  consumed : list XhciTrb
}.

Definition base_of (s : xhci_state W) : Z := command (rings (obj s)).
Definition phys_of (s : xhci_state W) : Z := physical_address (command_dma (rings (obj s))).
Definition ring_of (s : xhci_state W) : Z -> XhciTrb := trb_at (trace s) (base_of s).

(** Anything else the driver or another part of the kernel does. *)
Record elsewhere (s s' : xhci_state W) : Prop := {
  else_base : base_of s' = base_of s;
  else_phys : phys_of s' = phys_of s;
  else_bell : doorbell_base (rings (obj s')) = doorbell_base (rings (obj s));
  else_index : command_index (rings (obj s')) = command_index (rings (obj s));
  else_cycle : command_cycle (rings (obj s')) = command_cycle (rings (obj s));
  else_trace : exists l, trace s' = l ++ trace s /\ Forall (spares (base_of s)) l
}.

(** The driver keeps no more than 254 commands outstanding. *)
Inductive step : system -> system -> Prop :=
| step_submit c p s s' h sub con :
    trb_words c -> trb_type c <> 6 -> (length sub < length con + 254)%nat ->
    submit_command c s = Done p s' ->
    step (mkSystem s h sub con) (mkSystem s' h (sub ++ [c]) con)
| step_fetch t s h h' sub con :
    fetch (ring_of s) (phys_of s) h = Some (Some t, h') ->
    step (mkSystem s h sub con) (mkSystem s h' sub (con ++ [t]))
| step_link s h h' sub con :
    fetch (ring_of s) (phys_of s) h = Some (None, h') ->
    step (mkSystem s h sub con) (mkSystem s h' sub con)
| step_other s s' h sub con :
    elsewhere s s' -> step (mkSystem s h sub con) (mkSystem s' h sub con).

(** The ring as [setup_rings] leaves it. *)
Record ring_start (s : xhci_state W) : Prop := {
  start_index : command_index (rings (obj s)) = 0;
  start_cycle : command_cycle (rings (obj s)) = 1;
  start_phys : 0 <= phys_of s /\ phys_of s + 4096 <= 2 ^ 64;
  start_bell : doorbell_base (rings (obj s)) + 4 <= base_of s \/ base_of s + 4096 <= doorbell_base (rings (obj s));
  start_entries : forall i, 0 <= i < 255 -> ring_of s i = no_trb;
  start_link : ring_of s 255 = mkTrb (u32 (phys_of s)) (u32 (phys_of s >>> 32)) 0 (link_d3 1)
}.

Inductive reachable (s0 : xhci_state W) : system -> Prop :=
| reach_start : reachable s0 (mkSystem s0 (mkConsumer 0 1) [] [])
| reach_step x y : reachable s0 x -> step x y -> reachable s0 y.

(** ** One submission *)

(** The entry the driver stores, and the cycle bit it gives the link. *)
Definition entry_of (c : XhciTrb) (cycle : Z) : XhciTrb :=
  mkTrb (d0 c) (d1 c) (d2 c) ((d3 c &&& u32 (Z.lnot 1)) ||| cycle).

Lemma wp_submit c s : trb_words c -> 0 <= command_index (rings (obj s)) < 255 ->
  command_cycle (rings (obj s)) = 0 \/ command_cycle (rings (obj s)) = 1 ->
  wp (submit_command c) (fun p s' =>
    let r := rings (obj s) in let i := command_index r in let last := i =? 254 in
    p = u64 (phys_of s + i * sizeof_XhciTrb) /\
    base_of s' = base_of s /\ phys_of s' = phys_of s /\
    doorbell_base (rings (obj s')) = doorbell_base r /\
    command_index (rings (obj s')) = (if last then 0 else i + 1) /\
    command_cycle (rings (obj s')) = (if last then Z.lxor (command_cycle r) 1 else command_cycle r) /\
    trace s' = Wr Mmio 4 (doorbell_base r) 0 ::
      (if last then [Wr Mmio 4 (base_of s + 16 * 255 + 12) (link_d3 (command_cycle r))] else []) ++
      trb_stores (base_of s) i (entry_of c (command_cycle r)) ++ trace s) s.
Proof.
  intros (H0 & H1 & H2 & H3) Hi Hc. cbn zeta. rewrite <- (at_same s). set (w := world s). set (x := obj s) in *.
  generalize (trace s). intros t. unfold submit_command. change (obj (at_ t w x)) with x in *.
  set (r := rings x) in *. x_steps. fold r.
  assert (0 <= (d3 c &&& u32 (Z.lnot 1)) ||| command_cycle r < 2 ^ 32) as Hd3.
  { apply lor_bounded; [lia| |destruct Hc as [-> | ->]; lia]. by apply land_bounded. }
  unfold write_trb. x_steps. cbn [d0 d1 d2 d3]. rewrite !(Z.mod_small _ (2 ^ (8 * 4))) by done.
  x_steps. rewrite u32_id by lia.
  destruct (Z.eqb_spec (command_index r) 254) as [E|E].
  - rewrite E. change (254 + 1 =? 255) with true. cbn iota. x_steps. rewrite trace_at.
    assert (link_d3 (command_cycle r) mod 2 ^ (8 * 4) = link_d3 (command_cycle r)) as ->
      by (destruct Hc as [-> | ->]; reflexivity).
    split_and!; try done. by rewrite !trace_at.
  - rewrite (proj2 (Z.eqb_neq _ _)) by lia. x_steps. split_and!; try done. by rewrite !trace_at.
Qed.

(** ** The invariant *)

Lemma lap_cycle_bit l : lap_cycle l = 0 \/ lap_cycle l = 1.
Proof. unfold lap_cycle. pose proof (Z.mod_pos_bound l 2). lia. Qed.

Lemma lap_cycle_next l : lap_cycle (l + 1) = Z.lxor (lap_cycle l) 1.
Proof.
  unfold lap_cycle. pose proof (Z.mod_pos_bound l 2 ltac:(lia)).
  replace ((l + 1) mod 2) with (1 - l mod 2) by divlia.
  assert (l mod 2 = 0 \/ l mod 2 = 1) as [-> | ->] by lia; reflexivity.
Qed.

Lemma lap_cycle_differs l : lap_cycle (l - 1) <> lap_cycle l.
Proof.
  unfold lap_cycle. divlia.
Qed.

Lemma entry_bit v c : c = 0 \/ c = 1 -> ((v &&& u32 (Z.lnot 1)) ||| c) &&& 1 = c.
Proof.
  intros [-> | ->]; apply Z.bits_inj'; intros i Hi; rewrite !Z.land_spec, Z.lor_spec, Z.land_spec.
  - rewrite Z.bits_0. destruct (decide (i = 0)) as [->|]; [by rewrite andb_false_r|].
    change 1 with (Z.ones 1) at 2. rewrite (Z.testbit_ones_nonneg 1) by lia.
    by rewrite (proj2 (Z.ltb_ge i 1)) by lia; rewrite !andb_false_r.
  - destruct (Z.testbit 1 i) eqn:E; [|by rewrite andb_false_r].
    change (u32 (Z.lnot 1)) with 0xFFFFFFFE. by rewrite orb_true_r.
Qed.

Lemma entry_type c cyc : cyc = 0 \/ cyc = 1 -> trb_type (entry_of c cyc) = trb_type c.
Proof.
  intros Hc. unfold trb_type, entry_of. cbn [d3]. apply Z.bits_inj'. intros i Hi.
  rewrite !Z.land_spec, !Z.shiftr_spec, Z.lor_spec, Z.land_spec by lia.
  destruct (Z.testbit 63 i) eqn:E; [|by rewrite !andb_false_r]. rewrite !andb_true_r.
  assert (i < 6) as Hi6.
  { destruct (Z.lt_ge_cases i 6); [done|]. rewrite (testbit_above 63 6 i) in E by lia. done. }
  assert (Z.testbit cyc (i + 10) = false) as ->.
  { apply (testbit_above _ 1); [destruct Hc as [-> | ->]; lia|lia]. }
  rewrite orb_false_r. change (u32 (Z.lnot 1)) with (Z.ldiff (Z.ones 32) 1).
  rewrite Z.ldiff_spec, testbit_ones by lia. rewrite (proj2 (Z.ltb_lt _ _)) by lia.
  rewrite (testbit_above 1 1 (i + 10)) by lia. by rewrite andb_true_r.
Qed.

Lemma entry_clear c cyc : cyc = 0 \/ cyc = 1 -> clear_cycle (entry_of c cyc) = clear_cycle c.
Proof.
  intros Hc. unfold clear_cycle, entry_of. cbn [d0 d1 d2 d3]. f_equal. apply Z.bits_inj'. intros i Hi.
  rewrite !Z.land_spec, Z.lor_spec, Z.land_spec.
  destruct (Z.testbit (u32 (Z.lnot 1)) i) eqn:E; [|by rewrite !andb_false_r]. rewrite !andb_true_r.
  assert (i <> 0) by (intros ->; discriminate E).
  assert (Z.testbit cyc i = false) as -> by (apply (testbit_above _ 1); [destruct Hc as [-> | ->]; lia|lia]).
  by rewrite orb_false_r.
Qed.

Lemma entry_words c cyc : trb_words c -> cyc = 0 \/ cyc = 1 -> trb_words (entry_of c cyc).
Proof.
  intros (H0 & H1 & H2 & H3) Hc. unfold trb_words, entry_of. cbn [d0 d1 d2 d3].
  refine (conj H0 (conj H1 (conj H2 _))). apply lor_bounded; [lia|by apply land_bounded|].
  destruct Hc as [-> | ->]; lia.
Qed.

Lemma published_entry j c : published j c = entry_of c (lap_cycle (Z.of_nat j / 255)).
Proof. done. Qed.

(** The link is followed to the first entry. *)
Lemma link_pointer phys v : 0 <= phys < 2 ^ 64 ->
  event_pointer (mkTrb (u32 phys) (u32 (phys >>> 32)) 0 v) = phys.
Proof.
  intros H. unfold event_pointer. cbn [d0 d1]. rewrite shiftr_div by lia.
  rewrite (u32_id (phys / 2 ^ 32)) by (change (2 ^ 32) with 4294967296; change (2 ^ 64) with (4294967296 * 4294967296) in H; divlia).
  rewrite lor_shiftl_add by (try lia; apply u32_range). unfold u32. change (2 ^ 32) with 4294967296. divlia.
Qed.

(** The index and cycle of the [k]-th entry. *)
Definition place (k : Z) : consumer := mkConsumer (k mod 255) (lap_cycle (k / 255)).

Record queue_ok (x : system) : Prop := {
  q_room : (length (consumed x) <= length (submitted x) <= length (consumed x) + 254)%nat;
  q_index : command_index (rings (obj (driver x))) = Z.of_nat (length (submitted x)) mod 255;
  q_cycle : command_cycle (rings (obj (driver x))) = lap_cycle (Z.of_nat (length (submitted x)) / 255);
  q_phys : 0 <= phys_of (driver x) /\ phys_of (driver x) + 4096 <= 2 ^ 64;
  q_bell : doorbell_base (rings (obj (driver x))) + 4 <= base_of (driver x) \/
           base_of (driver x) + 4096 <= doorbell_base (rings (obj (driver x)));
  q_entries : forall j c, submitted x !! j = Some c -> (length (submitted x) <= j + 255)%nat ->
    ring_of (driver x) (Z.of_nat j mod 255) = published j c;
  q_unused : forall i, Z.of_nat (length (submitted x)) <= i < 255 -> ring_of (driver x) i = no_trb;
  q_link : exists v, ring_of (driver x) 255 =
      mkTrb (u32 (phys_of (driver x))) (u32 (phys_of (driver x) >>> 32)) 0 v /\
    (255 <= Z.of_nat (length (submitted x)) -> v = link_d3 (lap_cycle (Z.of_nat (length (submitted x)) / 255 - 1)));
  q_hw : hw x = place (Z.of_nat (length (consumed x))) \/
    (0 < Z.of_nat (length (consumed x)) /\ Z.of_nat (length (consumed x)) mod 255 = 0 /\
     hw x = mkConsumer 255 (lap_cycle (Z.of_nat (length (consumed x)) / 255 - 1)));
  q_consumed : clear_cycle <$> consumed x = clear_cycle <$> take (length (consumed x)) (submitted x);
  q_submitted : Forall (fun c => trb_words c /\ trb_type c <> 6) (submitted x)
}.

Lemma queue_start s : ring_start s -> queue_ok (mkSystem s (mkConsumer 0 1) [] []).
Proof.
  intros H. constructor; cbn [driver hw submitted consumed length]; try apply H; try done; try lia.
  - eexists. split; [by apply start_link|]. lia.
  - by left.
Qed.

Lemma queue_other s s' h sub con : elsewhere s s' ->
  queue_ok (mkSystem s h sub con) -> queue_ok (mkSystem s' h sub con).
Proof.
  intros E H. destruct (else_trace _ _ E) as (l & Et & Hl).
  assert (forall i, 0 <= i < 256 -> ring_of s' i = ring_of s i) as Hr.
  { intros i Hi. unfold ring_of. rewrite (else_base _ _ E), Et. by apply trb_spared. }
  constructor; cbn [driver hw submitted consumed];
    rewrite ?(else_index _ _ E), ?(else_cycle _ _ E), ?(else_phys _ _ E), ?(else_base _ _ E), ?(else_bell _ _ E);
    try apply H.
  - intros j c Hj Hn. rewrite Hr by (pose proof (Z.mod_pos_bound (Z.of_nat j) 255); lia). by apply (q_entries _ H).
  - intros i Hi. rewrite Hr by lia. by apply (q_unused _ H).
  - rewrite Hr by lia. apply (q_link _ H).
Qed.

Lemma published_bit j c : d3 (published j c) &&& 1 = lap_cycle (Z.of_nat j / 255).
Proof. apply entry_bit, lap_cycle_bit. Qed.

(** What the controller finds at its next entry. *)
Lemma found_there x : queue_ok x -> let k := length (consumed x) in
  match submitted x !! k with
  | Some c => ring_of (driver x) (Z.of_nat k mod 255) = published k c
  | None => d3 (ring_of (driver x) (Z.of_nat k mod 255)) &&& 1 <> lap_cycle (Z.of_nat k / 255)
  end.
Proof.
  intros H k. pose proof (q_room _ H) as Hroom. fold k in Hroom. destruct (submitted x !! k) as [c|] eqn:Ek.
  - apply (q_entries _ H); [done|lia].
  - assert (length (submitted x) = k) as Hn by (apply lookup_ge_None in Ek; lia).
    destruct (Z.lt_ge_cases (Z.of_nat k) 255) as [Hs|Hs].
    + rewrite Z.mod_small, Z.div_small, (q_unused _ H) by lia. cbn. discriminate.
    + destruct (lookup_lt_is_Some_2 (submitted x) (k - 255)%nat) as [c Hc]; [lia|].
      pose proof (q_entries _ H _ _ Hc ltac:(lia)) as Hr.
      assert (Z.of_nat (k - 255) mod 255 = Z.of_nat k mod 255) as Em by divlia. rewrite Em in Hr.
      rewrite Hr, published_bit.
      replace (Z.of_nat (k - 255) / 255) with (Z.of_nat k / 255 - 1) by divlia. apply lap_cycle_differs.
Qed.

Lemma queue_submit c p s s' h sub con :
  trb_words c -> trb_type c <> 6 -> (length sub < length con + 254)%nat ->
  submit_command c s = Done p s' ->
  queue_ok (mkSystem s h sub con) -> queue_ok (mkSystem s' h (sub ++ [c]) con).
Proof.
  intros Hw Hty Hroom E H. pose proof (q_index _ H) as Hi. pose proof (q_cycle _ H) as Hcy.
  cbn [driver submitted] in Hi, Hcy. set (n := length sub) in *.
  pose proof (Z.mod_pos_bound (Z.of_nat n) 255 ltac:(lia)) as Hb.
  pose proof (wp_submit c s Hw ltac:(rewrite Hi; exact Hb) ltac:(rewrite Hcy; apply lap_cycle_bit)) as Wp.
  apply (wp_done _ _ _ _ _ Wp) in E. cbn zeta in E. destruct E as (_ & Hbase & Hphys & Hbell & Hi' & Hcy' & Ht). clear Wp.
  rewrite Hi, Hcy in *. set (i := Z.of_nat n mod 255) in *. set (cyc := lap_cycle (Z.of_nat n / 255)) in *.
  pose proof (entry_words c cyc Hw (lap_cycle_bit _)) as Hwe.
  pose proof (q_bell _ H) as Hout. cbn [driver] in Hout.
  assert (forall j t, 0 <= j < 256 -> trb_at (Wr Mmio 4 (doorbell_base (rings (obj s))) 0 :: t) (base_of s) j = trb_at t (base_of s) j) as Hd.
  { intros j t Hj. unfold trb_at, sizeof_XhciTrb. rewrite !word_other by lia. done. }
  assert (forall j, 0 <= j < 255 -> ring_of s' j = if j =? i then entry_of c cyc else ring_of s j) as Hr.
  { intros j Hj. unfold ring_of. rewrite Hbase, Ht, Hd by lia.
    transitivity (trb_at (trb_stores (base_of s) i (entry_of c cyc) ++ trace s) (base_of s) j).
    - destruct (i =? 254); [|done]. cbn [app]. unfold trb_at, sizeof_XhciTrb. by rewrite !word_other by lia.
    - destruct (Z.eqb_spec j i) as [->|]; [by apply trb_stored|by apply trb_elsewhere]. }
  assert (i = 254 -> (Z.of_nat n + 1) / 255 = Z.of_nat n / 255 + 1 /\ (Z.of_nat n + 1) mod 255 = 0) as Hlast by (subst i; divlia).
  assert (i <> 254 -> (Z.of_nat n + 1) / 255 = Z.of_nat n / 255 /\ (Z.of_nat n + 1) mod 255 = i + 1) as Hmid by (subst i; divlia).
  constructor; cbn [driver hw submitted consumed]; rewrite ?length_app; cbn [length]; fold n;
    rewrite ?Hbase, ?Hphys, ?Hbell, ?Hi', ?Hcy', ?Nat2Z.inj_add; change (Z.of_nat 1) with 1; try apply H.
  - pose proof (q_room _ H) as Hq. cbn [submitted consumed] in Hq. lia.
  - destruct (Z.eqb_spec i 254); lia.
  - destruct (Z.eqb_spec i 254) as [E|E].
    + rewrite (proj1 (Hlast E)). by rewrite lap_cycle_next.
    + by rewrite (proj1 (Hmid E)).
  - intros j c' Hj Hn. rewrite Hr by (pose proof (Z.mod_pos_bound (Z.of_nat j) 255); lia).
    destruct (decide (j = n)) as [->|Hne].
    + rewrite Z.eqb_refl. rewrite lookup_app_r, Nat.sub_diag in Hj by done. by injection Hj as <-.
    + assert (j < n)%nat as Hlt.
      { apply lookup_lt_Some in Hj. rewrite length_app in Hj. cbn in Hj. lia. }
      rewrite lookup_app_l in Hj by done.
      rewrite (proj2 (Z.eqb_neq _ _)) by (subst i; divlia). apply (q_entries _ H); [done|]. cbn [submitted]. lia.
  - intros j Hj. rewrite Hr by lia. rewrite (proj2 (Z.eqb_neq _ _)) by (subst i; rewrite Z.mod_small by lia; lia).
    apply (q_unused _ H). cbn [submitted]. lia.
  - destruct (q_link _ H) as (v & Hv & Hl). cbn [driver submitted] in Hv, Hl. unfold ring_of in *. rewrite Hbase, Ht, Hd by lia.
    destruct (Z.eqb_spec i 254) as [E|E].
    + exists (link_d3 cyc). split.
      * cbn [app]. unfold trb_at, sizeof_XhciTrb in Hv |- *.
        replace (base_of s + 16 * 255 + 12) with (base_of s + 4092) by lia.
        replace (base_of s + 16 * 255) with (base_of s + 4080) in * by lia.
        replace (base_of s + 4080 + 12) with (base_of s + 4092) in * by lia.
        rewrite word_same by (destruct (lap_cycle_bit (Z.of_nat n / 255)) as [Ec|Ec]; fold cyc in Ec; rewrite Ec; vm_compute; split; congruence).
        injection Hv as H0 H1 H2 _. unfold trb_stores, sizeof_XhciTrb. cbn [app].
        rewrite !word_other by lia. f_equal; assumption.
      * intros _. rewrite (proj1 (Hlast E)). subst cyc. f_equal. f_equal. lia.
    + exists v. cbn [app]. rewrite trb_elsewhere by lia. split; [done|]. intros Hge. rewrite (proj1 (Hmid E)). apply Hl.
      fold n. subst i. divlia.
  - destruct (q_room _ H). cbn [consumed submitted] in *. rewrite take_app_le by done. apply (q_consumed _ H).
  - apply Forall_app. split; [apply (q_submitted _ H)|]. by apply Forall_singleton.
Qed.

(** What the controller does next: the command it has not taken yet, or the link, or nothing
    when it has them all. *)
Lemma fetch_next x : queue_ok x -> let k := length (consumed x) in
  match fetch (ring_of (driver x)) (phys_of (driver x)) (hw x) with
  | Some (Some t, h') => exists c, submitted x !! k = Some c /\ t = published k c /\
      hw x = place (Z.of_nat k) /\ h' = mkConsumer (Z.of_nat k mod 255 + 1) (lap_cycle (Z.of_nat k / 255))
  | Some (None, h') => hw x <> place (Z.of_nat k) /\ h' = place (Z.of_nat k)
  | None => hw x = place (Z.of_nat k) /\ length (submitted x) = k
  end.
Proof.
  intros H k. pose proof (q_room _ H) as Hroom. fold k in Hroom. destruct (q_hw _ H) as [Eh|(Hpos & Hm & Eh)]; fold k in Eh.
  - pose proof (found_there x H) as Hf. cbn zeta in Hf. fold k in Hf. unfold fetch. rewrite Eh. unfold place at 1 2 3 4 5 6 7 8 9 10.
    cbn [c_index c_cycle]. destruct (submitted x !! k) as [c|] eqn:Ek.
    + rewrite Hf, published_bit, Z.eqb_refl. cbn [negb]. rewrite published_entry, entry_type by apply lap_cycle_bit.
      pose proof (proj1 (Forall_lookup _ _) (q_submitted _ H) _ _ Ek) as (_ & Hty).
      rewrite (proj2 (Z.eqb_neq _ _) Hty). by exists c.
    + rewrite (proj2 (Z.eqb_neq _ _) Hf). cbn [negb]. split; [done|].
      apply lookup_ge_None in Ek. lia.
  - fold k in Hpos, Hm. set (z := Z.of_nat k) in *.
    destruct (q_link _ H) as (v & Hv & Hl).
    assert (Z.of_nat (length (submitted x)) / 255 = z / 255) as Hd by (subst z; divlia).
    rewrite Hl, Hd in Hv by (subst z; divlia).
    unfold fetch. rewrite Eh. cbn [c_index c_cycle]. rewrite Hv. cbn [d3].
    assert (link_d3 (lap_cycle (z / 255 - 1)) &&& 1 = lap_cycle (z / 255 - 1)) as ->
      by (destruct (lap_cycle_bit (z / 255 - 1)) as [-> | ->]; reflexivity).
    rewrite Z.eqb_refl. cbn [negb].
    unfold trb_type. cbn [d3].
    replace (link_d3 (lap_cycle (z / 255 - 1)) >>> 10 &&& 63 =? 6) with true
      by (destruct (lap_cycle_bit (z / 255 - 1)) as [-> | ->]; reflexivity).
    replace (link_d3 (lap_cycle (z / 255 - 1)) &&& 2 =? 0) with false
      by (destruct (lap_cycle_bit (z / 255 - 1)) as [-> | ->]; reflexivity).
    rewrite link_pointer by (destruct (q_phys _ H); lia). rewrite Z.sub_diag.
    rewrite <- lap_cycle_next. replace (z / 255 - 1 + 1) with (z / 255) by lia.
    unfold place. rewrite Hm. split; [|done]. intros [=].
Qed.

Lemma queue_step x y : queue_ok x -> step x y -> queue_ok y.
Proof.
  intros H Hst. destruct Hst as [c p s s' h sub con ? ? ? ?|t s h h' sub con E|s h h' sub con E|s s' h sub con E].
  - by eapply queue_submit.
  - pose proof (fetch_next _ H) as Hf. cbn zeta in Hf. cbn [driver hw submitted consumed] in Hf. rewrite E in Hf.
    destruct Hf as (c & Hc & -> & _ & ->). pose proof (lookup_lt_Some _ _ _ Hc) as Hlt.
    constructor; cbn [driver hw submitted consumed]; try apply H; rewrite ?length_app; cbn [length].
    + pose proof (q_room _ H) as Hr. cbn in Hr. lia.
    + replace (Z.of_nat (length con + 1)) with (Z.of_nat (length con) + 1) by lia. set (z := Z.of_nat (length con)).
      destruct (Z.eq_dec (z mod 255) 254) as [Em|Em].
      * right. replace ((z + 1) / 255 - 1) with (z / 255) by divlia. rewrite Em. split; [lia|]. split; [divlia|done].
      * left. unfold place. f_equal; [divlia|f_equal; divlia].
    + rewrite Nat.add_1_r. rewrite (take_S_r _ _ _ Hc), !fmap_app.
      pose proof (q_consumed _ H) as Hq. cbn [consumed submitted] in Hq. rewrite Hq. f_equal. cbn. f_equal.
      apply (entry_clear c). apply lap_cycle_bit.
  - pose proof (fetch_next _ H) as Hf. cbn zeta in Hf. cbn [driver hw submitted consumed] in Hf. rewrite E in Hf.
    destruct Hf as [_ ->]. constructor; cbn [driver hw submitted consumed]; try apply H. by left.
  - by eapply queue_other.
Qed.

Lemma queue_reachable s0 x : ring_start s0 -> reachable s0 x -> queue_ok x.
Proof. intros H. induction 1; [by apply queue_start|by eapply queue_step]. Qed.

(** ** The abstract queue *)

(** What was submitted and is not taken yet. *)
Definition pending (x : system) : list XhciTrb :=
  clear_cycle <$> drop (length (consumed x)) (submitted x).

Inductive queue_does : list XhciTrb -> list XhciTrb -> Prop :=
| does_enqueue q c : queue_does q (q ++ [c])
| does_dequeue q c : queue_does (c :: q) q
| does_nothing q : queue_does q q.

Lemma pending_step x y : queue_ok x -> step x y -> queue_does (pending x) (pending y).
Proof.
  intros H Hst. destruct Hst as [c p s s' h sub con ? ? ? ?|t s h h' sub con E|s h h' sub con E|s s' h sub con E];
    try constructor.
  - unfold pending. cbn [consumed submitted]. pose proof (q_room _ H) as Hr. cbn in Hr.
    rewrite drop_app_le, fmap_app by lia. constructor.
  - pose proof (fetch_next _ H) as Hf. cbn zeta in Hf. cbn [driver hw submitted consumed] in Hf. rewrite E in Hf.
    destruct Hf as (c & Hc & _). unfold pending. cbn [consumed submitted]. rewrite length_app, Nat.add_1_r.
    rewrite (drop_S _ _ _ Hc). constructor.
Qed.

(** The controller gets to the next command by itself, over the link if it stands there. *)
Lemma progress x c q : queue_ok x -> pending x = c :: q ->
  exists t y, rtc step x y /\ driver y = driver x /\ submitted y = submitted x /\
    consumed y = consumed x ++ [t] /\ clear_cycle t = c.
Proof.
  intros H Hp. destruct x as [s h sub con]. unfold pending in Hp. cbn [consumed submitted] in Hp.
  destruct (sub !! length con) as [c'|] eqn:Ec.
  2: { apply lookup_ge_None in Ec. by rewrite drop_ge in Hp by done. }
  rewrite (drop_S _ _ _ Ec) in Hp. injection Hp as Hc _.
  assert (forall h1, queue_ok (mkSystem s h1 sub con) -> h1 = place (Z.of_nat (length con)) ->
    exists t y, step (mkSystem s h1 sub con) y /\ driver y = s /\ submitted y = sub /\
      consumed y = con ++ [t] /\ clear_cycle t = c) as Hgo.
  { intros h1 H1 E1. pose proof (fetch_next _ H1) as Hf. cbn zeta in Hf. cbn [driver hw submitted consumed] in Hf.
    destruct (fetch (ring_of s) (phys_of s) h1) as [[[t|] h']|] eqn:Ef.
    - destruct Hf as (c2 & Hc2 & -> & _). rewrite Ec in Hc2. injection Hc2 as <-.
      eexists _, _. split; [by apply (step_fetch _ _ _ _ _ _ Ef)|]. split; [done|]. split; [done|]. split; [done|].
      rewrite <- Hc. apply (entry_clear c'). apply lap_cycle_bit.
    - by destruct Hf.
    - destruct Hf as [_ Hn]. apply lookup_lt_Some in Ec. lia. }
  pose proof (fetch_next _ H) as Hf. cbn zeta in Hf. cbn [driver hw submitted consumed] in Hf.
  destruct (fetch (ring_of s) (phys_of s) h) as [[[t|] h']|] eqn:Ef.
  - destruct Hf as (c2 & _ & _ & Hh & _). destruct (Hgo h H Hh) as (t' & y & Hs & ?). exists t', y. split; [by apply rtc_once|done].
  - destruct Hf as [_ Hh]. pose proof (step_link _ _ _ sub con Ef) as Hs.
    destruct (Hgo h' (queue_step _ _ H Hs) Hh) as (t' & y & Hs' & ?). exists t', y. split; [|done].
    eapply rtc_l; [exact Hs|]. by apply rtc_once.
  - destruct Hf as [_ Hn]. apply lookup_lt_Some in Ec. lia.
Qed.
End Queue.

(** ** The property *)

(** C8: from the ring that [setup_rings] leaves, in whatever order the driver submits commands
    (at most 254 outstanding), the controller follows the ring and anything else happens in
    between, the ring is a first-in first-out queue: the controller has taken exactly the first
    commands submitted, each once and unchanged but for the cycle bit, over every turn of the
    ring and both values of the cycle bit; each step adds a command at the end of what is
    outstanding, takes the one at its front or leaves it; when the controller finds nothing,
    nothing is outstanding; and when something is, the controller by itself gets to the first
    of it. *)
Theorem command_queue_correct {W} `{!IO W} (s0 : xhci_state W) (x : system) :
  ring_start s0 -> reachable s0 x ->
  (clear_cycle <$> submitted x) = (clear_cycle <$> consumed x) ++ pending x /\
  (forall y, step x y -> queue_does (pending x) (pending y)) /\
  (fetch (ring_of (driver x)) (phys_of (driver x)) (hw x) = None -> pending x = []) /\
  (forall c q, pending x = c :: q -> exists t y, rtc step x y /\ driver y = driver x /\
     submitted y = submitted x /\ consumed y = consumed x ++ [t] /\ clear_cycle t = c).
Proof.
  intros H0 Hr. pose proof (queue_reachable _ _ H0 Hr) as H. split; [|split; [|split]].
  - rewrite (q_consumed _ H). unfold pending. by rewrite <- fmap_app, take_drop.
  - intros y. by apply pending_step.
  - intros Hn. pose proof (fetch_next _ H) as Hf. cbn zeta in Hf. rewrite Hn in Hf. destruct Hf as [_ Hf].
    unfold pending. by rewrite drop_ge by lia.
  - intros c q. by apply progress.
Qed.

(** ** A ring *)

(** The bare world: a history. *)
#[export] Instance history_IO : IO (list PortIO.event).
Proof. by refine {| trace t := t; set_trace t _ := t |}. Defined.

Lemma word_cleared base n a t : base <= a -> a + 4 <= base + n -> word_at (Wr Mmio n base 0 :: t) a = 0.
Proof.
  intros H1 H2. cbn. unfold covers. rewrite !(proj2 (Z.leb_le _ _)) by lia. cbn. by rewrite Z.shiftr_0_l.
Qed.

Definition sample_rings : XhciRings :=
  mkRings (mkDma 0 2 0x10000 0x50000) (mkDma 0 2 0x20000 0x60000) (mkDma 0 1 0x30000 0x70000)
    0x10000 0x20000 0x90000 0xA0020 true 0 1 0 1.
Definition sample_controller : usb_controller_t :=
  mkController true false [] 0 (mkAddr 0 0 0 0) (mkBar 0 0 0 0 false 0) 0x80000 0x0C 0x03 0x30 0.
Definition sample_xhci : xhci_controller :=
  mkXhci sample_controller None 0 0 0 0 0 0x80000 true sample_rings 0 no_trb 0 0 0 (replicate 8 0)
    false false 0 0 0 no_trb None 0 0 0 0.
Definition sample_history : list PortIO.event :=
  trb_stores 0x10000 255 (mkTrb 0x50000 0 0 (link_d3 1)) ++ [Wr Mmio 4096 0x10000 0].
Definition sample_state : xhci_state (list PortIO.event) := mkState sample_history sample_xhci.

Lemma sample_start : ring_start sample_state.
Proof.
  constructor; try reflexivity.
  - change (phys_of sample_state) with 0x50000. lia.
  - cbn. lia.
  - intros i Hi. change (ring_of sample_state) with (trb_at sample_history 0x10000). unfold sample_history.
    rewrite trb_elsewhere by lia. unfold trb_at, sizeof_XhciTrb. by rewrite !word_cleared by lia.
Qed.

Definition sample_command : XhciTrb := mkTrb 0 0 0 (23 <<< 10).
Definition sample_submitted : xhci_state (list PortIO.event) :=
  match submit_command sample_command sample_state with Done _ s => s | _ => sample_state end.
Definition sample_system : system := mkSystem sample_submitted (mkConsumer 1 1) [sample_command] [published 0 sample_command].

Lemma command_queue_correct_witness :
  (clear_cycle <$> submitted sample_system) = (clear_cycle <$> consumed sample_system) ++ pending sample_system /\
  (forall y, step sample_system y -> queue_does (pending sample_system) (pending y)) /\
  (fetch (ring_of (driver sample_system)) (phys_of (driver sample_system)) (hw sample_system) = None ->
     pending sample_system = []) /\
  (forall c q, pending sample_system = c :: q -> exists t y, rtc step sample_system y /\
     driver y = driver sample_system /\
     submitted y = submitted sample_system /\ consumed y = consumed sample_system ++ [t] /\ clear_cycle t = c).
Proof.
  apply (command_queue_correct sample_state sample_system sample_start).
  eapply (reach_step _ (mkSystem sample_submitted (mkConsumer 0 1) [sample_command] [])).
  - eapply (reach_step _ (mkSystem sample_state (mkConsumer 0 1) [] [])); [constructor|].
    apply (step_submit sample_command 0x50000 _ _ _ []).
    + vm_compute. intuition congruence.
    + discriminate.
    + cbn. lia.
    + reflexivity.
  - apply (step_fetch (published 0 sample_command) _ _ _ _ []). vm_compute. reflexivity.
Defined.
