(* ===== verification/XhciEvents.v ===== *)
(** * xHCI: the event ring

    A controller posts events into the ring, at most 255 ahead of the dequeue pointer it was
    last told. The driver handles them in the order they were posted, each once, and misses
    none: over every turn of the ring, and whatever else the controller answers. *)
From S2P Require Import KPrelude PortIO Pci Dma Timers TimersProofs UsbTypes Xhci XhciRings.

(** A word of a TRB. *)
Definition trb_word (e : XhciTrb) (f : Z) : Z :=
  if f =? 0 then d0 e else if f =? 1 then d1 e else if f =? 2 then d2 e else d3 e.

(** The events the dequeue pointer has passed: a store to it moves on to the entry it names. *)
Fixpoint freed (phys erdp : Z) (t : list PortIO.event) : Z :=
  match t with
  | [] => 0
  | Wr Mmio _ a v :: t' =>
      let n := freed phys erdp t' in
      if a =? erdp then n + (((v &&& Z.lnot 15) - phys) / 16 - n) mod 256 else n
  | _ :: t' => freed phys erdp t'
  end.

(** The bit of the lap an event is posted in. *)
Definition event_lap (j : Z) : Z := lap_cycle (j / 256).

(** What a controller does: [posted t] are the events it has posted after the history [t]. *)
Record producer (dev : device) (posted : list PortIO.event -> list XhciTrb) (base phys erdp : Z) : Prop := {
  prod_grows : forall e t, posted t `prefix_of` posted (e :: t);
  prod_lap : forall t j e, posted t !! j = Some e -> d3 e &&& 1 = event_lap (Z.of_nat j);
  prod_slot : forall t j e f, posted t !! j = Some e -> (length (posted t) <= j + 256)%nat -> 0 <= f < 4 ->
    io_value dev t Mmio 4 (base + 16 * (Z.of_nat j mod 256) + 4 * f) = trb_word e f;
  prod_unused : forall t i, Z.of_nat (length (posted t)) <= i < 256 ->
    io_value dev t Mmio 4 (base + 16 * i + 12) &&& 1 = 0;
  prod_flow : forall t, Z.of_nat (length (posted t)) <= freed phys erdp t + 255
}.

Section Events.
Context {W : Type} `{!IO W}.
Context (dev : device) (posted : list PortIO.event -> list XhciTrb) (base phys erdp : Z).
Context (prod : producer dev posted base phys erdp).

Lemma posted_grows l t : posted t `prefix_of` posted (l ++ t).
Proof.
  induction l as [|e l IH]; [done|]. cbn. etrans; [exact IH|]. apply (prod_grows _ _ _ _ _ prod).
Qed.

Lemma posted_stays l t j e : posted t !! j = Some e -> posted (l ++ t) !! j = Some e.
Proof. intros H. eapply prefix_lookup_Some; [exact H|]. apply posted_grows. Qed.

Lemma freed_read sp w a v t : freed phys erdp (Rd sp w a v :: t) = freed phys erdp t.
Proof. done. Qed.

(** The driver has handled [n] events. *)
Record events_ok (n : nat) (t : list PortIO.event) (r : XhciRings) : Prop := {
  ev_base : event r = base;
  ev_phys : physical_address (event_dma r) = phys;
  ev_erdp : interrupter0_base r + 0x18 = erdp;
  ev_index : event_index r = Z.of_nat n mod 256;
  ev_cycle : event_cycle r = event_lap (Z.of_nat n);
  ev_freed : freed phys erdp t <= Z.of_nat n;
  ev_posted : (n <= length (posted t))%nat
}.

Lemma events_grow n t r l : events_ok n t r -> freed phys erdp (l ++ t) = freed phys erdp t ->
  events_ok n (l ++ t) r.
Proof.
  intros H E. constructor; try apply H.
  - rewrite E. apply H.
  - pose proof (prefix_length _ _ (posted_grows l t)). pose proof (ev_posted _ _ _ H). lia.
Qed.

Lemma events_read n t r sp w a v : events_ok n t r -> events_ok n (Rd sp w a v :: t) r.
Proof. intros H. by apply (events_grow n t r [Rd sp w a v]). Qed.

(** The object when the driver has handled one more event. *)
Definition next_event (r : XhciRings) : XhciRings :=
  set_event_cycle (fun c => if event_index r =? 255 then Z.lxor c 1 else c)
    (set_event_index (fun i => if i =? 255 then 0 else i + 1) r).

Lemma events_next n t r : events_ok n t r -> (n < length (posted t))%nat -> events_ok (S n) t (next_event r).
Proof.
  intros H Hlt. constructor; try apply H; [| | |lia]; unfold next_event; cbn;
    rewrite ?(ev_index _ _ _ H), ?(ev_cycle _ _ _ H), ?Nat2Z.inj_succ, <- ?Z.add_1_r.
  - destruct (Z.eqb_spec (Z.of_nat n mod 256) 255); divlia.
  - unfold event_lap. destruct (Z.eqb_spec (Z.of_nat n mod 256) 255).
    + rewrite <- lap_cycle_next. f_equal. divlia.
    + f_equal. divlia.
  - pose proof (ev_freed _ _ _ H). lia.
Qed.

(** The slot the driver looks at. *)
Lemma slot_now n t r e f : events_ok n t r -> posted t !! n = Some e -> 0 <= f < 4 ->
  io_value dev t Mmio 4 (base + 16 * (Z.of_nat n mod 256) + 4 * f) = trb_word e f.
Proof.
  intros H He Hf. apply (prod_slot _ _ _ _ _ prod); [done| |done].
  pose proof (prod_flow _ _ _ _ _ prod t). pose proof (ev_freed _ _ _ H). lia.
Qed.

Lemma slot_empty n t r : events_ok n t r -> length (posted t) = n ->
  io_value dev t Mmio 4 (base + 16 * (Z.of_nat n mod 256) + 12) &&& 1 <> event_lap (Z.of_nat n).
Proof.
  intros H Hn. destruct (Z.lt_ge_cases (Z.of_nat n) 256) as [Hs|Hs].
  - rewrite Z.mod_small by lia. rewrite (prod_unused _ _ _ _ _ prod) by lia. unfold event_lap.
    rewrite Z.div_small by lia. discriminate.
  - destruct (lookup_lt_is_Some_2 (posted t) (n - 256)%nat) as [e He]; [lia|].
    assert (Z.of_nat (n - 256) mod 256 = Z.of_nat n mod 256) as Em by divlia. rewrite <- Em.
    rewrite (prod_slot _ _ _ _ _ prod t (n - 256) e 3 He ltac:(lia) ltac:(lia) : io_value dev t Mmio 4 (_ + 12) = _).
    cbn. rewrite (prod_lap _ _ _ _ _ prod _ _ _ He). unfold event_lap.
    replace (Z.of_nat (n - 256) / 256) with (Z.of_nat n / 256 - 1) by divlia. apply lap_cycle_differs.
Qed.

(** ** Looking at the ring *)

Definition is_read (e : PortIO.event) : Prop := match e with Rd _ _ _ _ => True | _ => False end.

Lemma freed_reads l t : Forall is_read l -> freed phys erdp (l ++ t) = freed phys erdp t.
Proof. induction 1 as [|[] l He _ IH]; done. Qed.

Lemma events_reads n t r l : events_ok n t r -> Forall is_read l -> events_ok n (l ++ t) r.
Proof. intros H Hl. apply events_grow; [done|]. by apply freed_reads. Qed.

(** A load of a word of the next event, after some loads. *)
Lemma wp_word n t r e f b l w x (Q : Z -> xhci_state W -> Prop) : events_ok n t r -> posted t !! n = Some e ->
  0 <= f < 4 -> Forall is_read l -> b = base + 16 * (Z.of_nat n mod 256) + 4 * f ->
  (forall rd, Forall is_read (rd :: l) -> Q (trb_word e f) (at_ ((rd :: l) ++ t) w x)) ->
  wp (r32 dev b) Q (at_ (l ++ t) w x).
Proof.
  intros H He Hf Hl -> HQ. x_step.
  rewrite (slot_now n (l ++ t) r e f (events_reads _ _ _ _ H Hl) (posted_stays _ _ _ _ He) Hf).
  apply (HQ (Rd Mmio 4 _ _)). by constructor.
Qed.

Lemma next_event_steps (r : XhciRings) x : 0 <= event_index r < 256 -> r = rings x ->
  (if u32 (event_index r + 1) =? 256 then
     set_rings (set_event_cycle (fun c => Z.lxor c 1)) (set_rings (set_event_index (fun _ => 0))
       (set_rings (set_event_index (fun _ => u32 (event_index r + 1))) x))
   else set_rings (set_event_index (fun _ => u32 (event_index r + 1))) x) = set_rings next_event x.
Proof.
  intros Hi ->. rewrite u32_id by lia. destruct x as [? ? ? ? ? ? ? ? ? [] ? ? ? ? ? ? ? ? ? ? ? ? ? ? ? ? ?].
  unfold next_event, set_rings, set_event_cycle, set_event_index. cbn in *.
  destruct (Z.eqb_spec event_index 255) as [->|]; [done|].
  by rewrite (proj2 (Z.eqb_neq _ _)) by lia.
Qed.

Lemma wp_poll_event n t w x (Q : option XhciTrb -> xhci_state W -> Prop) : events_ok n t (rings x) ->
  (length (posted t) = n -> forall rd, is_read rd -> Q None (at_ (rd :: t) w x)) ->
  (forall e l, posted t !! n = Some e -> Forall is_read l -> length l = 5%nat ->
     Q (Some e) (at_ (l ++ t) w (set_rings next_event x))) ->
  wp (poll_event dev) Q (at_ t w x).
Proof.
  intros H Hnone Hsome. unfold poll_event. x_step. x_step. x_step. rewrite (ev_base _ _ _ H), (ev_index _ _ _ H).
  unfold sizeof_XhciTrb. destruct (posted t !! n) as [e|] eqn:He.
  - apply (wp_word n t (rings x) e 3 _ []); try done. intros rd1 Hr1. change (trb_word e 3) with (d3 e).
    rewrite (prod_lap _ _ _ _ _ prod _ _ _ He), (ev_cycle _ _ _ H), Z.eqb_refl. cbn [negb].
    x_step. apply (wp_word n t (rings x) e 0); try done; [lia|]. intros rd2 Hr2.
    x_step. apply (wp_word n t (rings x) e 1); try done. intros rd3 Hr3.
    x_step. apply (wp_word n t (rings x) e 2); try done. intros rd4 Hr4.
    x_step. apply (wp_word n t (rings x) e 3); try done. intros rd5 Hr5. x_steps.
    pose proof (next_event_steps (rings x) x) as Hn. rewrite (ev_index _ _ _ H) in Hn.
    specialize (Hn (Z.mod_pos_bound _ 256 ltac:(lia)) eq_refl).
    destruct (u32 (Z.of_nat n mod 256 + 1) =? 256); x_steps; rewrite Hn; destruct e; by apply Hsome.
  - assert (length (posted t) = n) as Hl.
    { apply lookup_ge_None in He. pose proof (ev_posted _ _ _ H). lia. }
    x_step. pose proof (slot_empty n t _ H Hl) as Hs. rewrite (ev_cycle _ _ _ H), (proj2 (Z.eqb_neq _ _) Hs).
    cbn [negb]. x_steps. by apply Hnone.
Qed.

(** ** Draining it *)

(** The object when the events [es] have been taken and handled. *)
Definition drained (es : list XhciTrb) (x : xhci_controller) : xhci_controller :=
  fold_left (fun x e => handle_event e (set_rings next_event x)) es x.

Lemma drained_snoc es e x : drained (es ++ [e]) x = handle_event e (set_rings next_event (drained es x)).
Proof. unfold drained. by rewrite fold_left_app. Qed.

Lemma handle_rings e x : rings (handle_event e x) = rings x.
Proof. unfold handle_event. repeat case_match; done. Qed.

(** The events [es] are those posted after the first [n]. *)
Definition taken (n : nat) (es : list XhciTrb) (t : list PortIO.event) : Prop :=
  es = take (length es) (drop n (posted t)).

Lemma taken_grows n es l t : taken n es t -> taken n es (l ++ t).
Proof.
  unfold taken. intros H. destruct (posted_grows l t) as [k ->].
  pose proof (f_equal length H) as Hl. rewrite length_take, length_drop in Hl.
  destruct (Nat.le_gt_cases n (length (posted t))) as [Hn|Hn].
  - by rewrite drop_app_le, take_app_le by (rewrite ?length_drop; lia).
  - assert (length es = 0%nat) as E by lia. by destruct es.
Qed.

Lemma taken_snoc n es e t : taken n es t -> posted t !! (n + length es)%nat = Some e -> taken n (es ++ [e]) t.
Proof.
  unfold taken. intros H He. rewrite length_app. cbn. rewrite Nat.add_1_r.
  rewrite (take_S_r _ _ e) by (by rewrite lookup_drop). by rewrite <- H.
Qed.

Record drain_result (n : nat) (t : list PortIO.event) (w : W) (x : xhci_controller)
    (es : list XhciTrb) (l : list PortIO.event) : Prop := {
  dr_reads : Forall is_read l;
  dr_ok : events_ok (n + length es) (l ++ t) (rings (drained es x));
  dr_taken : taken n es (l ++ t)
}.

Lemma wp_drain n t w x : events_ok n t (rings x) ->
  wp (drain dev) (fun k s' => exists es l, k = Z.of_nat (length es) /\ s' = at_ (l ++ t) w (drained es x) /\
    drain_result n t w x es l /\ (length (posted t) <= n + length es)%nat /\ (length l <= 1276)%nat) (at_ t w x).
Proof.
  intros H. unfold drain.
  eapply (wp_while _ (fun k s => exists es l, k = Z.of_nat (length es) /\ s = at_ (l ++ t) w (drained es x) /\
    drain_result n t w x es l /\ (length l = 5 * length es)%nat) (fun k _ => 257 - k)).
  - intros k s (es & l & -> & -> & Hr & Hlen). pose proof (dr_ok _ _ _ _ _ _ Hr) as Hok.
    pose proof (prod_flow _ _ _ _ _ prod (l ++ t)) as Hf. rewrite freed_reads in Hf by apply Hr.
    pose proof (ev_posted _ _ _ Hok). pose proof (ev_freed _ _ _ H).
    rewrite (proj2 (Z.ltb_lt _ _)) by lia. x_step. apply (wp_poll_event (n + length es)); [done| |].
    + intros Hl rd Hrd. x_steps. exists es, (rd :: l). split; [done|]. split; [done|]. split.
      * constructor; [by constructor; [|apply Hr]| |].
        -- apply (events_reads _ (l ++ t) _ [rd]); [done|by constructor].
        -- apply (taken_grows _ _ [rd]), Hr.
      * pose proof (prefix_length _ _ (posted_grows l t)). cbn [length]. lia.
    + intros e l2 He Hl2 Hlen2. x_steps. split; [|lia]. exists (es ++ [e]), (l2 ++ l). rewrite drained_snoc, <- app_assoc.
      split; [rewrite length_app; cbn; lia|]. split; [done|]. split; [|rewrite !length_app; cbn [length]; lia].
      constructor; rewrite ?drained_snoc, <- ?app_assoc.
      * apply Forall_app. split; [done|apply Hr].
      * rewrite handle_rings, length_app, Nat.add_assoc. cbn. rewrite Nat.add_1_r.
        apply events_next; [by apply events_reads|]. apply lookup_lt_Some in He.
        pose proof (prefix_length _ _ (posted_grows l2 (l ++ t))). lia.
      * apply taken_grows. apply taken_snoc; [apply Hr|done].
  - exists [], []. split; [done|]. split; [done|]. split; [|done]. constructor; [done| |done]. cbn. by rewrite Nat.add_0_r.
  - unfold FUEL. lia.
Qed.

(** ** The whole handler *)

Lemma freed_other w a v t : a <> erdp -> freed phys erdp (Wr Mmio w a v :: t) = freed phys erdp t.
Proof. intros Ha. cbn. by rewrite (proj2 (Z.eqb_neq _ _) Ha). Qed.

Lemma events_store n t r w a v : events_ok n t r -> a <> erdp -> events_ok n (Wr Mmio w a v :: t) r.
Proof. intros H Ha. apply (events_grow n t r [Wr Mmio w a v]); [done|]. by apply freed_other. Qed.

(** The stored dequeue pointer, without its handler-busy bit. *)
Lemma pointer_bits p : 0 <= p -> p mod 16 = 0 -> ((p ||| (1 <<< 3)) &&& Z.lnot 15) = p.
Proof.
  intros Hp Ha. rewrite <- Z.ldiff_land. change 15 with (Z.ones 4). apply Z.bits_inj'. intros i Hi.
  rewrite Z.ldiff_spec, Z.lor_spec, testbit_ones by lia. change (1 <<< 3) with (2 ^ 3). rewrite Z.pow2_bits_eqb by lia.
  destruct (Z.ltb_spec i 4).
  - rewrite andb_false_r. symmetry. assert (p = p / 2 ^ 4 * 2 ^ 4) as -> by (change (2 ^ 4) with 16; divlia).
    by apply Z.mul_pow2_bits_low.
  - rewrite (proj2 (Z.eqb_neq 3 i)) by lia. by rewrite orb_false_r, andb_true_r.
Qed.

Lemma freed_pointer n w t r : 0 <= phys -> phys mod 16 = 0 -> events_ok n t r ->
  freed phys erdp (Wr Mmio w erdp ((phys + Z.of_nat n mod 256 * 16) ||| (1 <<< 3)) :: t) = Z.of_nat n.
Proof.
  intros Hp Ha H. cbn [freed]. rewrite Z.eqb_refl. pose proof (Z.mod_pos_bound (Z.of_nat n) 256 ltac:(lia)).
  rewrite pointer_bits by divlia. pose proof (ev_freed _ _ _ H). pose proof (ev_posted _ _ _ H).
  pose proof (prod_flow _ _ _ _ _ prod t).
  replace ((phys + Z.of_nat n mod 256 * 16 - phys) / 16) with (Z.of_nat n mod 256) by divlia. divlia.
Qed.

(** Where the ring and the registers lie. *)
Record placed (x : xhci_controller) : Prop := {
  pl_ring : base <> 0;
  pl_phys : 0 <= phys /\ phys + 4096 <= 2 ^ 64 /\ phys mod 16 = 0;
  pl_ac64 : ac64 (rings x) = false -> phys + 4096 <= 2 ^ 32;
  pl_registers : xhci_base x + 260 < erdp
}.

Lemma placed_drained es x : placed x -> placed (drained es x).
Proof.
  revert x. induction es as [|e es IH]; intros x H; [done|]. cbn. apply IH.
  constructor; rewrite ?handle_rings; try apply H.
  assert (forall y, xhci_base (handle_event e y) = xhci_base y) as -> by (intros; unfold handle_event; repeat case_match; done).
  apply H.
Qed.

Record processed (n : nat) (t : list PortIO.event) (x : xhci_controller) (es : list XhciTrb)
    (l : list PortIO.event) : Prop := {
  ps_ok : events_ok (n + length es) (l ++ t) (rings (drained es x));
  ps_taken : taken n es (l ++ t);
  ps_length : (0 < length l <= 1283)%nat;
  ps_all : (length (posted t) <= n + length es)%nat;
  ps_freed : es <> [] -> freed phys erdp (l ++ t) = Z.of_nat (n + length es)
}.

(** Accesses that leave the dequeue pointer alone. *)
Definition calm (k : nat) (t t' : list PortIO.event) : Prop :=
  exists l, t' = l ++ t /\ length l = k /\ freed phys erdp t' = freed phys erdp t.

Lemma calm_refl t : calm 0 t t.
Proof. by exists []. Qed.

Lemma calm_read k t t' sp w a v : calm k t t' -> calm (S k) t (Rd sp w a v :: t').
Proof. intros (l & -> & <- & E). by exists (Rd sp w a v :: l). Qed.

Lemma calm_store k t t' w a v : calm k t t' -> a <> erdp -> calm (S k) t (Wr Mmio w a v :: t').
Proof. intros (l & -> & <- & E) Ha. exists (Wr Mmio w a v :: l). split; [done|]. split; [done|]. by rewrite freed_other. Qed.

Lemma events_calm n k t t' r : events_ok n t r -> calm k t t' -> events_ok n t' r.
Proof. intros H (l & -> & _ & E). by apply events_grow. Qed.

Ltac calm_tac := repeat first [apply calm_read|apply calm_store; [|assumption]]; apply calm_refl.

Lemma wp_acknowledge n t w x : events_ok n t (rings x) -> placed x ->
  wp (acknowledge dev) (fun _ s' => exists k t', s' = at_ t' w x /\ calm k t t' /\ (1 <= k <= 5)%nat) (at_ t w x).
Proof.
  intros H Hp. unfold acknowledge, cap_length. x_steps.
  pose proof (io_value_range dev t Mmio 1 (xhci_base x) ltac:(lia)) as Hlen.
  set (len := io_value dev t Mmio 1 (xhci_base x)) in *. change (2 ^ (8 * 1)) with 256 in Hlen.
  pose proof (pl_registers _ Hp) as Hreg. pose proof (ev_erdp _ _ _ H) as He.
  assert (usbsts (xhci_base x + len) <> erdp) as Hs by (unfold usbsts; lia).
  assert (interrupter0_base (rings x) <> erdp) as Hi by lia.
  destruct (negb _); x_steps; destruct (negb _); x_steps; (eexists _, _; split; [reflexivity|]; split; [calm_tac|lia]).
Qed.

Lemma wp_update n t w x pending k : events_ok n t (rings x) -> placed x ->
  wp (update_dequeue dev pending k) (fun _ s' => exists l, s' = at_ (l ++ t) w x /\ events_ok n (l ++ t) (rings x) /\
    (k <> 0 -> freed phys erdp (l ++ t) = Z.of_nat n) /\ (length l <= 2)%nat) (at_ t w x).
Proof.
  intros H Hp. unfold update_dequeue. x_steps. destruct (pl_phys _ Hp) as (Hp1 & Hp2 & Hp3).
  pose proof (Z.mod_pos_bound (Z.of_nat n) 256 ltac:(lia)) as Hm.
  assert (forall rd, Forall is_read rd -> (length rd <= 1)%nat -> let t' := rd ++ t in
    wp (write_pointer_register (interrupter0_base (rings x) + 0x18)
      (u64 (physical_address (event_dma (rings x)) + event_index (rings x) * sizeof_XhciTrb) ||| (1 <<< 3)) (ac64 (rings x)))
      (fun _ s' => exists l, s' = at_ (l ++ t) w x /\ events_ok n (l ++ t) (rings x) /\
        (k <> 0 -> freed phys erdp (l ++ t) = Z.of_nat n) /\ (length l <= 2)%nat) (at_ t' w x)) as Hw.
  { intros rd Hrd Hlen t'. pose proof (events_reads _ _ _ _ H Hrd) as H'. fold t' in H'.
    rewrite (ev_erdp _ _ _ H), (ev_phys _ _ _ H), (ev_index _ _ _ H). unfold sizeof_XhciTrb.
    rewrite u64_id by lia. set (v := (phys + _ ||| (1 <<< 3))).
    assert (0 <= v < 2 ^ 64) as Hv by (apply lor_bounded; [lia|lia|vm_compute; split; congruence]).
    assert (forall w0, exists l, Wr Mmio w0 erdp v :: t' = l ++ t /\ events_ok n (l ++ t) (rings x) /\
      (k <> 0 -> freed phys erdp (l ++ t) = Z.of_nat n) /\ (length l <= 2)%nat) as Hfin.
    { intros w0. exists (Wr Mmio w0 erdp v :: rd). split; [done|]. cbn [app]. fold t'.
      pose proof (freed_pointer n w0 t' (rings x) Hp1 Hp3 H') as Hf. fold v in Hf. split; [|by split; [intros _|cbn; lia]].
      constructor; try apply H'; [by rewrite Hf|].
      pose proof (prefix_length _ _ (posted_grows [Wr Mmio w0 erdp v] t')). pose proof (ev_posted _ _ _ H').
      cbn [app] in *. lia. }
    unfold write_pointer_register. destruct (ac64 (rings x)) eqn:E; x_step.
    - rewrite (Z.mod_small v) by exact Hv. destruct (Hfin 8) as (l & E' & ?). exists l. by rewrite E'.
    - pose proof (pl_ac64 _ Hp E) as Hs.
      assert (0 <= v < 2 ^ 32) as Hv32 by (apply lor_bounded; [lia|lia|vm_compute; split; congruence]).
      rewrite (u32_id v), (Z.mod_small v) by exact Hv32. destruct (Hfin 4) as (l & E' & ?). exists l. by rewrite E'. }
  destruct (negb (k =? 0) || negb (pending &&& 1 =? 0)) eqn:Ek; x_steps.
  - apply (Hw []); [constructor|cbn; lia].
  - assert (k = 0) as -> by (destruct (Z.eqb_spec k 0); [done|discriminate Ek]).
    x_steps. destruct (negb (io_value _ _ _ _ _ &&& _ =? 0)).
    + apply (Hw [Rd Mmio 4 _ _]); [by repeat constructor|done].
    + x_step. exists [Rd Mmio 4 (interrupter0_base (rings x) + 24) (io_value dev t Mmio 4 (interrupter0_base (rings x) + 24))].
      split; [done|]. split; [by apply events_read|]. split; [done|cbn; lia].
Qed.

(** The flag of the handler takes no part in what an event does. *)
Lemma handle_busy f e x : handle_event e (set_rings next_event (set_processing_events f x)) =
  set_processing_events f (handle_event e (set_rings next_event x)).
Proof. unfold handle_event, set_processing_events, set_rings. cbn. repeat case_match; done. Qed.

Lemma drained_busy f es : forall x, drained es (set_processing_events f x) = set_processing_events f (drained es x).
Proof. induction es as [|e es IH]; intros x; [done|]. cbn. by rewrite handle_busy, IH. Qed.

Lemma drained_idle es : forall x, processing_events (drained es x) = processing_events x.
Proof.
  induction es as [|e es IH]; intros x; [done|]. cbn. rewrite IH. unfold handle_event. repeat case_match; done.
Qed.

Lemma busy_done es x : processing_events x = 0 ->
  set_processing_events (fun _ => 0) (drained es (set_processing_events (fun _ => 1) x)) = drained es x.
Proof.
  intros H. rewrite drained_busy. pose proof (drained_idle es x) as Hd. rewrite H in Hd.
  destruct (drained es x). cbn in Hd. by subst.
Qed.

Lemma wp_process n t w x : events_ok n t (rings x) -> placed x -> processing_events x = 0 ->
  wp (xhci_process_events dev) (fun k s' => exists es l, k = Z.of_nat (length es) /\
    s' = at_ (l ++ t) w (drained es x) /\ processed n t x es l) (at_ t w x).
Proof.
  intros H Hp Hb. unfold xhci_process_events. x_step. x_step. rewrite (ev_base _ _ _ H), (proj2 (Z.eqb_neq _ _) (pl_ring _ Hp)).
  x_step. x_step. x_step. x_step. rewrite Hb. cbn [negb Z.eqb]. set (x1 := set_processing_events (fun _ => 1) x).
  assert (placed x1) as Hp1 by (destruct Hp; by constructor).
  x_step. eapply wp_mono; [by apply (wp_acknowledge n)|]. intros pending s' (k0 & t' & -> & Hc & Hk0).
  x_step. eapply wp_mono; [apply (wp_drain n); by eapply events_calm|].
  intros k s' (es & l & -> & -> & Hd & Hall & Hlen). x_step.
  eapply wp_mono; [apply (wp_update (n + length es)); [apply Hd|by apply placed_drained]|].
  intros _ s' (l2 & -> & Hok & Hf & Hlen2). x_steps. destruct Hc as (l0 & -> & Hlen0 & _).
  exists es, (l2 ++ l ++ l0). subst x1. rewrite busy_done by done. rewrite <- !app_assoc.
  split; [done|]. split; [done|].
  rewrite drained_busy in Hok. constructor; rewrite <- ?app_assoc; try done.
  - apply taken_grows, Hd.
  - rewrite !length_app. lia.
  - pose proof (prefix_length _ _ (posted_grows l0 t)). lia.
  - intros Hes. apply Hf. destruct es; [done|]. cbn. lia.
Qed.
End Events.

(** ** The property *)

(** C19: on a controller that posts events into the ring and stays within the dequeue pointer it
    was told, a driver that has handled the first [n] events and runs [xhci_process_events]
    returns; it then has handled exactly the events that follow, in the order they were posted
    and each once, among them every event that was posted before the call; the answer is their
    number, the object is what they make of it one after the other, and when there were any the
    controller has been told a dequeue pointer just behind them. *)
Theorem process_events_correct {W} `{!IO W} (dev : device) (posted : list PortIO.event -> list XhciTrb)
    (base phys erdp : Z) (n : nat) (s : xhci_state W) :
  producer dev posted base phys erdp ->
  events_ok posted base phys erdp n (trace s) (rings (obj s)) -> placed base phys erdp (obj s) ->
  processing_events (obj s) = 0 ->
  exists es s', xhci_process_events dev s = Done (Z.of_nat (length es)) s' /\
    es = take (length es) (drop n (posted (trace s'))) /\ (length (posted (trace s)) <= n + length es)%nat /\
    obj s' = drained es (obj s) /\
    events_ok posted base phys erdp (n + length es) (trace s') (rings (obj s')) /\
    (es <> [] -> freed phys erdp (trace s') = Z.of_nat (n + length es)).
Proof.
  intros Hp Hok Hpl Hb.
  destruct (wp_inv _ _ _ (wp_process dev posted base phys erdp Hp n (trace s) (world s) (obj s) Hok Hpl Hb))
    as (k & s' & E & es & l & -> & -> & H). rewrite at_same in E.
  exists es. eexists. split; [exact E|]. rewrite !trace_at. split; [apply H|]. split; [apply H|]. split; [done|].
  split; [apply H|]. apply H.
Qed.

(** ** A controller *)

Definition sample_event : XhciTrb := mkTrb 0x50000 0 (1 <<< 24) ((33 <<< 10) ||| 1).
Definition sample_device : device := fun _ sp _ a =>
  match sp with
  | Mmio => if a =? 0x20000 then d0 sample_event else if a =? 0x20004 then d1 sample_event
            else if a =? 0x20008 then d2 sample_event else if a =? 0x2000C then d3 sample_event else 0
  | _ => 0
  end.
Definition sample_posted (_ : list PortIO.event) : list XhciTrb := [sample_event].

Lemma freed_nonneg phys erdp t : 0 <= freed phys erdp t.
Proof.
  induction t as [|[|[] w a v] t IH]; cbn; try done. destruct (a =? erdp); [|done].
  pose proof (Z.mod_pos_bound (((v &&& Z.lnot 15) - phys) / 16 - freed phys erdp t) 256). lia.
Qed.

Lemma sample_producer : producer sample_device sample_posted 0x20000 0x60000 0xA0038.
Proof.
  constructor.
  - done.
  - intros t [|[|j]] e He; try discriminate He. by injection He as <-.
  - intros t [|[|j]] e f He _ Hf; try discriminate He. injection He as <-.
    assert (f = 0 \/ f = 1 \/ f = 2 \/ f = 3) as [-> |[-> |[-> | ->]]] by lia; reflexivity.
  - intros t i Hi. cbn [length sample_posted] in Hi. unfold io_value, sample_device.
    rewrite !(proj2 (Z.eqb_neq _ _)) by lia. done.
  - intros t. cbn. pose proof (freed_nonneg 0x60000 0xA0038 t). lia.
Qed.

Lemma sample_events_ok : events_ok sample_posted 0x20000 0x60000 0xA0038 0 (trace sample_state) (rings (obj sample_state)).
Proof. constructor; try reflexivity; cbn; lia. Qed.

Lemma sample_placed : placed 0x20000 0x60000 0xA0038 (obj sample_state).
Proof. constructor; cbn; done || lia. Qed.

Lemma process_events_correct_witness :
  exists es s', xhci_process_events sample_device sample_state = Done (Z.of_nat (length es)) s' /\
    es = take (length es) (drop 0 (sample_posted (trace s'))) /\
    (length (sample_posted (trace sample_state)) <= 0 + length es)%nat /\
    obj s' = drained es (obj sample_state) /\
    events_ok sample_posted 0x20000 0x60000 0xA0038 (0 + length es) (trace s') (rings (obj s')) /\
    (es <> [] -> freed 0x60000 0xA0038 (trace s') = Z.of_nat (0 + length es)).
Proof.
  apply (process_events_correct sample_device sample_posted 0x20000 0x60000 0xA0038 0 sample_state
    sample_producer sample_events_ok sample_placed). reflexivity.
Defined.
