(* ===== verification/XhciWait.v ===== *)
(** * xHCI: waiting

    Timed waits end, whatever the controller does; a wait for a command ends with the
    controller's completion event of that command, or when the time is over and no such event
    had been posted. *)
From S2P Require Import KPrelude PortIO Pci Dma Timers TimersProofs UsbTypes Xhci XhciRings XhciEvents.

(** A time source that is read by loads and shows a clock; each access takes some ticks, at
    most 64. *)
Record ticking {W} `{!IO W} (T : TimerSource W) (freq : Z) (clock : list PortIO.event -> Z) : Prop := {
  tk_read : forall w, exists v e, @read W T w = Done v (set_trace (e :: trace w) w) /\ is_read e /\
    v mod 2 ^ 24 = clock (trace w) mod 2 ^ 24;
  tk_freq : forall w, exists l, @read_freq W T w = Done freq (set_trace (l ++ trace w) w) /\
    Forall is_read l /\ (length l <= 1)%nat;
  tk_clock : forall e t, 0 < clock (e :: t) - clock t <= 2 ^ 6
}.

Section Wait.
Context {W : Type} `{!IO W} (timer : TimerSource W) (freq : Z) (clock : list PortIO.event -> Z).
Context (tk : ticking timer freq clock).

Lemma clock_app l t : Z.of_nat (length l) <= clock (l ++ t) - clock t <= 2 ^ 6 * Z.of_nat (length l).
Proof.
  induction l as [|e l IH]; cbn [length app]; [lia|]. pose proof (tk_clock _ _ _ tk e (l ++ t)). lia.
Qed.

Lemma wp_tick24 t w x (Q : Z -> xhci_state W -> Prop) :
  (forall e, is_read e -> Q (clock t mod 2 ^ 24) (at_ (e :: t) w x)) -> wp (tick24 timer) Q (at_ t w x).
Proof.
  intros HQ. unfold tick24. apply wp_bind. apply wp_lift. destruct (tk_read _ _ _ tk (set_trace t w)) as (v & e & E & He & Hv).
  unfold wp. rewrite E. cbn. rewrite !trace_set in *. unfold at_. rewrite !set_trace_twice.
  rewrite low24, Hv. by apply HQ.
Qed.

Lemma wp_freq t w x (Q : Z -> xhci_state W -> Prop) :
  (forall l, Forall is_read l -> (length l <= 1)%nat -> Q freq (at_ (l ++ t) w x)) ->
  wp (@read_freq _ (xhci_timer timer)) Q (at_ t w x).
Proof.
  intros HQ. cbn. apply wp_lift. destruct (tk_freq _ _ _ tk (set_trace t w)) as (l & E & Hl & Hn).
  unfold wp. rewrite E. rewrite !trace_set. unfold at_. rewrite !set_trace_twice. by apply HQ.
Qed.

(** A poll makes at most 2000 accesses. The loop ends; when it ends for the time, the clock has
    passed the limit since the loop was entered, and was less than 2^17 ticks before it when
    the last poll began. [I t1 t x]: a poll began at [t1], and the loop goes on from [t]. *)
Lemma wp_timed_loop {A} limit (poll : M (xhci_state W) (option A)) w
    (I0 : list PortIO.event -> xhci_controller -> Prop)
    (I : list PortIO.event -> list PortIO.event -> xhci_controller -> Prop)
    (P : A -> xhci_state W -> Prop) t0 x0 :
  0 < limit < 2 ^ 63 ->
  (forall e t x, is_read e -> I0 t x -> I0 (e :: t) x) ->
  (forall e t1 t x, is_read e -> I t1 t x -> I t1 (e :: t) x) ->
  (forall t x, (I0 t x \/ exists t1, I t1 t x) -> wp poll (fun r s' => match r with
     | Some a => P a s'
     | None => exists l x', s' = at_ (l ++ t) w x' /\ (length l <= 2000)%nat /\ I t (l ++ t) x'
     end) (at_ t w x)) ->
  I0 t0 x0 ->
  wp (timed_loop timer limit poll) (fun r s' => match r with
    | Some a => P a s'
    | None => exists l x' t1, s' = at_ (l ++ t0) w x' /\ I t1 (l ++ t0) x' /\
        limit <= clock (l ++ t0) - clock t0 /\ limit - 2 ^ 17 <= clock t1 - clock t0
    end) (at_ t0 w x0).
Proof.
  intros Hlim Hread0 Hread Hpoll H0. unfold timed_loop. apply wp_bind. apply wp_tick24. intros e0 He0. cbn beta.
  eapply (wp_while_ix _ (fun m '(elapsed, previous) s => exists l lp x, s = at_ (l ++ t0) w x /\
      ((I0 (l ++ t0) x /\ elapsed = 0) \/ exists t1, I t1 (l ++ t0) x /\ clock (lp ++ t0) <= clock t1 + 2000 * 2 ^ 6) /\
      previous = clock (lp ++ t0) mod 2 ^ 24 /\ (exists l', l = l' ++ lp /\ (0 < length l' <= 1)%nat) /\
      elapsed = clock (lp ++ t0) - clock t0 /\ m = elapsed /\ 0 <= elapsed < limit + 2 ^ 24)
    (fun m => limit + 2 ^ 24 - m)).
  - intros m [elapsed previous] s (l & lp & x & -> & HI & -> & (l' & -> & Hl') & He & -> & Hb).
    change (2 ^ 6) with 64 in *. change (2 ^ 24) with 16777216 in *. change (2 ^ 17) with 131072.
    change (2 ^ 63) with 9223372036854775808 in Hlim.
    destruct (Z.ltb_spec elapsed limit) as [Hlt|Hge].
    + apply wp_bind. eapply wp_mono; [apply Hpoll; destruct HI as [[? _]|(t1 & ? & _)]; eauto|].
      intros [a|] s1; [intros Hp; by apply wp_ret|].
      intros (l1 & x1 & -> & Hlen & HI1). apply wp_bind. apply wp_tick24. intros e He1. apply wp_ret.
      set (tp := (l' ++ lp) ++ t0) in *.
      rewrite (app_assoc l1 (l' ++ lp) t0 : l1 ++ tp = _) in *. set (ln := l1 ++ l' ++ lp) in *.
      assert (clock (ln ++ t0) - clock (lp ++ t0) = clock ((l1 ++ l') ++ lp ++ t0) - clock (lp ++ t0)) as Eq
        by (subst ln; by rewrite <- !app_assoc).
      pose proof (clock_app (l1 ++ l') (lp ++ t0)) as Hc. rewrite length_app in Hc. change (2 ^ 6) with 64 in Hc.
      assert (u32 (clock (ln ++ t0) mod 16777216 - clock (lp ++ t0) mod 16777216) &&& 0x00FFFFFF =
              clock (ln ++ t0) - clock (lp ++ t0)) as Hd.
      { rewrite low24. change (2 ^ 24) with 16777216. divlia. }
      change (2 ^ 24) with 16777216. rewrite Hd, u64_id by (change (2 ^ 64) with 18446744073709551616; lia).
      exists (clock (ln ++ t0) - clock t0). split; [|lia].
      exists (e :: ln), ln, x1. split; [done|]. split.
      { right. exists tp. split; [by apply Hread|]. pose proof (clock_app l1 tp) as Hc1.
        change (2 ^ 6) with 64 in *. assert (l1 ++ tp = ln ++ t0) as <- by (subst ln tp; by rewrite <- !app_assoc). lia. }
      split; [done|]. split; [exists [e]; cbn; split; [done|lia]|]. split; [lia|]. split; lia.
    + destruct HI as [[_ ?]|(t1 & HI & Ht1)]; [lia|].
      apply wp_ret. exists (l' ++ lp), x, t1. split; [done|]. split; [done|].
      pose proof (clock_app l' (lp ++ t0)). rewrite app_assoc in *. lia.
  - instantiate (1 := 0). exists [e0], [], x0. split; [done|]. split; [left; split; [by apply Hread0|done]|]. split; [done|].
    split; [exists [e0]; cbn; split; [done|lia]|]. cbn [app]. change (2 ^ 24) with 16777216. lia.
  - unfold FUEL. change (2 ^ 24) with 16777216. change (2 ^ 63) with 9223372036854775808 in Hlim. lia.
Qed.

(** ** Waiting for a command *)

Section Command.
Context (dev : device) (posted : list PortIO.event -> list XhciTrb) (base phys erdp : Z).
Context (prod : producer dev posted base phys erdp).

(** The completion event of the command at [p]. *)
Definition completes (p : Z) (e : XhciTrb) : Prop := trb_type e = 33 /\ event_pointer e = p.

Lemma handle_completes p e x : pending_command_physical x = p -> completes p e ->
  pending_command_done (handle_event e x) = 1 /\ pending_command_completion (handle_event e x) = e.
Proof. intros Hx [Ht Hp]. unfold handle_event. rewrite Ht, Hp, Hx. by rewrite !Z.eqb_refl. Qed.

Lemma handle_others p e x : pending_command_physical x = p -> ~ completes p e ->
  pending_command_done (handle_event e x) = pending_command_done x /\
  pending_command_completion (handle_event e x) = pending_command_completion x.
Proof.
  intros Hx Hn. unfold handle_event. destruct (Z.eqb_spec (trb_type e) 33) as [E|E].
  - rewrite (proj2 (Z.eqb_neq _ _)) by (intros Hp; apply Hn; split; [done|congruence]). done.
  - repeat case_match; done.
Qed.

Lemma handle_physical e x : pending_command_physical (handle_event e x) = pending_command_physical x.
Proof. unfold handle_event. repeat case_match; done. Qed.

#[export] Instance completes_dec p e : Decision (completes p e).
Proof. apply and_dec; apply Z.eq_dec. Defined.

(** What a drain does to the pending command. *)
Lemma drained_command p es : forall x, pending_command_physical x = p ->
  pending_command_physical (drained es x) = p /\
  ((exists e, e ∈ es /\ completes p e /\ pending_command_done (drained es x) = 1 /\
     pending_command_completion (drained es x) = e) \/
   (Forall (fun e => ~ completes p e) es /\ pending_command_done (drained es x) = pending_command_done x)).
Proof.
  induction es as [|e es IH] using rev_ind; intros x Hx; [split; [done|by right]|].
  destruct (IH x Hx) as [Hp Hc]. rewrite drained_snoc. set (y := set_rings next_event (drained es x)).
  assert (pending_command_physical y = p) as Hy by done. split; [by rewrite handle_physical|].
  destruct (decide (completes p e)) as [He|He].
  - left. exists e. destruct (handle_completes p e y Hy He). split; [|done].
    apply elem_of_app. right. by apply list_elem_of_singleton.
  - destruct (handle_others p e y Hy He) as [Hd Hcc]. rewrite Hd, Hcc. destruct Hc as [(e' & Hin & ? & ?)|[Hall Hdn]].
    + left. exists e'. split; [apply elem_of_app; by left|done].
    + right. split; [|done]. apply Forall_app. split; [done|by apply Forall_singleton].
Qed.

(** Ready to wait: events, registers and the handler are as they should be. *)
Record waiting (n : nat) (p : Z) (t : list PortIO.event) (x : xhci_controller) : Prop := {
  wt_ok : events_ok posted base phys erdp n t (rings x);
  wt_placed : placed base phys erdp x;
  wt_idle : processing_events x = 0;
  wt_command : pending_command_physical x = p
}.

(** One poll. *)
Lemma wp_poll_command n p t w x : waiting n p t x -> pending_command_done x = 0 ->
  wp (xhci_process_events dev;;
      x ← get (fun x => x);
      if negb (pending_command_done x =? 0) && (pending_command_physical x =? p)
      then upd (set_pending_command_done (fun _ => 0));; mret (Some (pending_command_completion x))
      else mret None)
    (fun r s' => exists es l x', s' = at_ (l ++ t) w x' /\ (length l <= 2000)%nat /\
       taken posted n es (l ++ t) /\ (length (posted t) <= n + length es)%nat /\
       waiting (n + length es) p (l ++ t) x' /\ pending_command_done x' = 0 /\
       match r with
       | Some e => e ∈ es /\ completes p e
       | None => Forall (fun e => ~ completes p e) es
       end) (at_ t w x).
Proof.
  intros H Hd. apply wp_bind. eapply wp_mono; [by apply (wp_process dev posted base phys erdp prod n t w x); apply H|].
  intros k s' (es & l & -> & -> & Hp). apply wp_bind. apply wp_get.
  destruct (drained_command p es x (wt_command _ _ _ _ H)) as [Hph Hc]. rewrite Hph, Z.eqb_refl, andb_true_r.
  pose proof (placed_drained base phys erdp es x (wt_placed _ _ _ _ H)) as Hpl.
  pose proof (ps_length _ _ _ _ _ _ _ _ _ Hp) as Hlen.
  destruct Hc as [(e & Hin & He & Hd1 & Hcc)|[Hall Hd0]].
  - rewrite Hd1. cbn [negb Z.eqb]. x_steps. exists es, l. eexists. split; [done|]. split; [lia|]. split; [apply Hp|].
    split; [apply Hp|]. split; [|split; [done|by rewrite Hcc]].
    constructor; [apply Hp|by destruct Hpl|by rewrite <- (wt_idle _ _ _ _ H), <- (drained_idle es x)|done].
  - rewrite Hd0, Hd. cbn [negb Z.eqb]. x_steps. exists es, l. eexists. split; [done|]. split; [lia|]. split; [apply Hp|].
    split; [apply Hp|]. split; [|by rewrite Hd0].
    constructor; [apply Hp|done|by rewrite drained_idle, (wt_idle _ _ _ _ H)|done].
Qed.

Lemma taken_app n es es2 l t : taken posted n es t -> taken posted (n + length es) es2 (l ++ t) ->
  taken posted n (es ++ es2) (l ++ t).
Proof.
  intros H H2. apply (taken_grows dev posted base phys erdp prod n es l) in H. unfold taken in *.
  rewrite length_app, <- take_take_drop, drop_drop. by rewrite <- H, <- H2.
Qed.

Lemma waiting_read n p t x e : is_read e -> waiting n p t x -> waiting n p (e :: t) x.
Proof.
  intros He H. destruct e; [|done]. constructor; try apply H. by apply (events_read dev posted base phys erdp prod), H.
Qed.

Lemma taken_read n es e t : taken posted n es t -> taken posted n es (e :: t).
Proof. apply (taken_grows dev posted base phys erdp prod n es [e]). Qed.

Lemma wp_wait_command n p timeout t w x : waiting n p t x -> pending_command_done x = 0 ->
  0 < freq -> 0 < limit_of freq timeout < 2 ^ 63 ->
  wp (wait_command dev timer p timeout) (fun r s' => exists es t' x', s' = at_ t' w x' /\
    taken posted n es t' /\ waiting (n + length es) p t' x' /\ pending_command_done x' = 0 /\
    match r with
    | Some e => e ∈ es /\ completes p e
    | None => Forall (fun e => ~ completes p e) es /\ exists t1, (length (posted t1) <= n + length es)%nat /\
        limit_of freq timeout - 2 ^ 17 <= clock t1 - clock t
    end) (at_ t w x).
Proof.
  intros H Hd Hf Hlim. unfold wait_command. apply wp_bind. apply wp_freq. intros lf Hlf Hlen. cbn beta.
  rewrite (proj2 (Z.eqb_neq freq 0)) by lia.
  assert (waiting n p (lf ++ t) x) as Ht.
  { clear Hlen. induction Hlf; [done|]. by apply waiting_read. }
  eapply wp_mono; [eapply (wp_timed_loop _ _ w
    (fun t x => waiting n p t x /\ pending_command_done x = 0)
    (fun t1 t x => exists es, taken posted n es t /\ waiting (n + length es) p t x /\ pending_command_done x = 0 /\
       Forall (fun e => ~ completes p e) es /\ (length (posted t1) <= n + length es)%nat)
    (fun e s' => exists es t' x', s' = at_ t' w x' /\ taken posted n es t' /\ waiting (n + length es) p t' x' /\
       pending_command_done x' = 0 /\ e ∈ es /\ completes p e)); [done|..]|].
  - intros e t0 x0 He [Hw ?]. split; [by apply waiting_read|done].
  - intros e t1 t0 x0 He (es & ? & ? & ?). exists es. split; [by apply taken_read|]. split; [by apply waiting_read|done].
  - intros t0 x0 HI.
    assert (exists es, taken posted n es t0 /\ waiting (n + length es) p t0 x0 /\ pending_command_done x0 = 0 /\
      Forall (fun e => ~ completes p e) es) as (es & Htk & Hw & Hd0 & Hall).
    { destruct HI as [[Hw ?]|(t1 & es & ? & ? & ? & ? & _)]; [|by exists es].
      exists []. split; [done|]. cbn. by rewrite Nat.add_0_r. }
    eapply wp_mono; [by apply (wp_poll_command (n + length es) p t0 w x0)|].
    intros r s' (es2 & l & x' & -> & Hl & Htk2 & Hlen2 & Hw2 & Hd2 & Hr).
    assert (taken posted n (es ++ es2) (l ++ t0)) as Htk' by (by apply taken_app).
    rewrite <- Nat.add_assoc, <- length_app in Hw2, Hlen2. destruct r as [e|].
    + destruct Hr as [Hin Hc]. exists (es ++ es2), (l ++ t0), x'. split_and!; try done. apply elem_of_app. by right.
    + exists l, x'. split; [done|]. split; [done|]. exists (es ++ es2). split_and!; try done. by apply Forall_app.
  - done.
  - intros [e|] s'.
    + intros (es & t' & x' & -> & ? & ? & ? & ? & ?). by exists es, t', x'.
    + intros (l & x' & t1 & -> & (es & ? & ? & ? & ? & ?) & _ & Hck). exists es, (l ++ lf ++ t), x'. split_and!; try done.
      exists t1. split; [done|]. pose proof (clock_app lf t). lia.
Qed.
End Command.
End Wait.

(** ** The property *)

(** C20: with a time source that ticks and a controller that posts events as it should, a
    [wait_command] for the command at [p] returns, whatever is posted and whatever the registers
    show. It answers a completion only if the controller posted it for this command, after the
    events handled before; it answers none only when no event it handled completes the command,
    and then it has handled every event posted up to a poll that began less than 2^17 ticks before
    the end of the time. *)
Theorem wait_command_correct {W} `{!IO W} (timer : TimerSource W) (freq : Z)
    (clock : list PortIO.event -> Z) (dev : device) (posted : list PortIO.event -> list XhciTrb)
    (base phys erdp : Z) (n : nat) (p timeout : Z) (s : xhci_state W) :
  ticking timer freq clock -> producer dev posted base phys erdp ->
  waiting posted base phys erdp n p (trace s) (obj s) -> pending_command_done (obj s) = 0 ->
  0 < freq -> 0 < limit_of freq timeout < 2 ^ 63 ->
  exists r s' es, wait_command dev timer p timeout s = Done r s' /\
    es = take (length es) (drop n (posted (trace s'))) /\
    waiting posted base phys erdp (n + length es) p (trace s') (obj s') /\
    match r with
    | Some e => e ∈ es /\ completes p e
    | None => Forall (fun e => ~ completes p e) es /\ exists t1, (length (posted t1) <= n + length es)%nat /\
        limit_of freq timeout - 2 ^ 17 <= clock t1 - clock (trace s)
    end.
Proof.
  intros Ht Hp Hw Hd Hf Hl.
  destruct (wp_inv _ _ _ (wp_wait_command timer freq clock Ht dev posted base phys erdp Hp n p timeout
    (trace s) (world s) (obj s) Hw Hd Hf Hl)) as (r & s' & E & es & t' & x' & -> & Htk & Hw' & _ & Hr).
  rewrite at_same in E. eexists r, _, es. split; [exact E|]. by rewrite trace_at.
Qed.

(** A clock that counts accesses. *)
Definition sample_timer : TimerSource (list PortIO.event) := {|
  read := fun t => Done (Z.of_nat (length t)) (Rd Port 4 0x608 0 :: t);
  read_freq := mret PM_TIMER_FREQUENCY
|}.
Definition sample_clock (t : list PortIO.event) : Z := Z.of_nat (length t).

Lemma sample_ticking : ticking sample_timer PM_TIMER_FREQUENCY sample_clock.
Proof.
  constructor.
  - intros w. by exists (sample_clock w), (Rd Port 4 0x608 0).
  - intros w. exists []. split; [done|]. split; [done|]. cbn. lia.
  - intros e t. unfold sample_clock. cbn [length]. lia.
Qed.

Definition sample_waiting : xhci_state (list PortIO.event) :=
  mkState sample_history (set_pending_command_physical (fun _ => 0x50000) sample_xhci).

Lemma sample_waiting_ok : waiting sample_posted 0x20000 0x60000 0xA0038 0 0x50000 (trace sample_waiting) (obj sample_waiting).
Proof.
  constructor; [|constructor; cbn; done || lia|done|done]. apply sample_events_ok.
Qed.

Lemma wait_command_correct_witness :
  exists r s' es, wait_command sample_device sample_timer 0x50000 1000 sample_waiting = Done r s' /\
    es = take (length es) (drop 0 (sample_posted (trace s'))) /\
    waiting sample_posted 0x20000 0x60000 0xA0038 (0 + length es) 0x50000 (trace s') (obj s') /\
    match r with
    | Some e => e ∈ es /\ completes 0x50000 e
    | None => Forall (fun e => ~ completes 0x50000 e) es /\
        exists t1, (length (sample_posted t1) <= 0 + length es)%nat /\
        limit_of PM_TIMER_FREQUENCY 1000 - 2 ^ 17 <= sample_clock t1 - sample_clock (trace sample_waiting)
    end.
Proof.
  apply (wait_command_correct sample_timer PM_TIMER_FREQUENCY sample_clock sample_device sample_posted
    0x20000 0x60000 0xA0038 0 0x50000 1000 sample_waiting sample_ticking sample_producer sample_waiting_ok);
    vm_compute; done || (split; done).
Defined.
