(* ===== verification/XhciTransfers.v ===== *)
(** * xHCI: control transfers on the default endpoint

    What [usb_send_packet] publishes on the ring of the default endpoint, and what a controller
    that follows the ring makes of it. *)
From S2P Require Import KPrelude PortIO Pci Dma Timers UsbTypes Xhci XhciRings XhciDevices.

(** The controller follows the ring: the entries it takes, and where it gets to. *)
Inductive runs (ring : Z -> XhciTrb) (phys : Z) : consumer -> list XhciTrb -> consumer -> Prop :=
| runs_stop h : runs ring phys h [] h
| runs_take h t h' l h2 : fetch ring phys h = Some (Some t, h') -> runs ring phys h' l h2 -> runs ring phys h (t :: l) h2
| runs_link h h' l h2 : fetch ring phys h = Some (None, h') -> runs ring phys h' l h2 -> runs ring phys h l h2.

Lemma runs_app ring phys h l h1 l' h2 : runs ring phys h l h1 -> runs ring phys h1 l' h2 -> runs ring phys h (l ++ l') h2.
Proof.
  induction 1; intros; [done| |]; cbn; [eapply runs_take; [done|auto]|eapply runs_link; [done|auto]].
Qed.

Lemma runs_entries ring phys c l : forall i,
  (forall k t, l !! k = Some t -> ring (i + Z.of_nat k) = t /\ d3 t &&& 1 = c /\ trb_type t <> 6) ->
  runs ring phys (mkConsumer i c) l (mkConsumer (i + Z.of_nat (length l)) c).
Proof.
  induction l as [|t l IH]; intros i H.
  - cbn. replace (i + Z.of_nat 0) with i by lia. constructor.
  - destruct (H 0%nat t eq_refl) as (Hr & Hc & Ht). replace (i + Z.of_nat 0) with i in Hr by lia.
    eapply (runs_take _ _ _ t (mkConsumer (i + 1) c)).
    + unfold fetch. cbn [c_index c_cycle]. rewrite Hr, Hc, Z.eqb_refl. cbn [negb].
      by rewrite (proj2 (Z.eqb_neq _ _) Ht).
    + cbn [length]. replace (i + Z.of_nat (S (length l))) with (i + 1 + Z.of_nat (length l)) by lia.
      apply IH. intros k t' Hk. destruct (H (S k) t' Hk) as (Hr' & ?).
      by replace (i + Z.of_nat (S k)) with (i + 1 + Z.of_nat k) in Hr' by lia.
Qed.

(** The ring of a slot between two transfers: the driver is about to fill entry [i] with cycle
    [c], the controller waits there, and the link has the cycle bit [l]. *)
Definition link_entry (phys l : Z) : XhciTrb := mkTrb (u32 phys) (u32 (phys >>> 32)) 0 (link_d3 l).
Definition bit (c : Z) : Prop := c = 0 \/ c = 1.

Record between (ring : Z -> XhciTrb) (phys i c l : Z) : Prop := {
  bt_index : 0 <= i < 255;
  bt_cycle : bit c;
  bt_link_bit : bit l;
  bt_link : ring 255 = link_entry phys l;
  bt_done : forall j, 0 <= j < i -> d3 (ring j) &&& 1 = c;
  bt_free : forall j, i <= j < 255 -> d3 (ring j) &&& 1 = Z.lxor c 1
}.

Lemma fetch_link ring phys c l : 0 <= phys < 2 ^ 64 -> bit l -> ring 255 = link_entry phys l ->
  fetch ring phys (mkConsumer 255 c) = if l =? c then Some (None, mkConsumer 0 (Z.lxor c 1)) else None.
Proof.
  intros Hp Hl E. unfold fetch. cbn [c_index c_cycle]. rewrite E. unfold link_entry. cbn [d3].
  assert (link_d3 l &&& 1 = l) as -> by (destruct Hl as [-> | ->]; reflexivity).
  destruct (l =? c); [|done]. cbn [negb]. unfold trb_type. cbn [d3].
  replace (link_d3 l >>> 10 &&& 63 =? 6) with true by (destruct Hl as [-> | ->]; reflexivity).
  replace (link_d3 l &&& 2 =? 0) with false by (destruct Hl as [-> | ->]; reflexivity).
  by rewrite link_pointer, Z.sub_diag by done.
Qed.

(** ** What is published *)

Definition transfer (has_data : bool) (setup data status : XhciTrb) : list XhciTrb :=
  if has_data then [setup; data; status] else [setup; status].
Definition skipped (i c : Z) : list XhciTrb := replicate (Z.to_nat (255 - i)) (mkTrb 0 0 0 (TRB_TYPE 8 ||| c)).

Section Publish.
Context {W : Type} `{!IO W}.

Lemma wp_write_trb base i e (Q : unit -> xhci_state W -> Prop) t w x : trb_words e ->
  Q () (at_ (trb_stores base i e ++ t) w x) -> wp (write_trb base i e) Q (at_ t w x).
Proof.
  intros (H0 & H1 & H2 & H3) HQ. unfold write_trb. x_steps. by rewrite !(Z.mod_small _ (2 ^ (8 * 4))) by assumption.
Qed.

(** The No-ops, from the last entry down to [i]. *)
Lemma wp_skip_noops base i c w x t : 0 <= i < 255 -> bit c ->
  wp (for_ 0 (EP0_LINK - i) (fun k _ => write_trb base (EP0_LINK - 1 - k) (mkTrb 0 0 0 (TRB_TYPE 8 ||| c))) ())
    (fun _ s' => exists l, s' = at_ (l ++ t) w x /\ forall j,
       trb_at (l ++ t) base j = if (i <=? j) && (j <? 255) then mkTrb 0 0 0 (TRB_TYPE 8 ||| c) else trb_at t base j)
    (at_ t w x).
Proof.
  intros Hi Hc. unfold EP0_LINK. set (e := mkTrb 0 0 0 (TRB_TYPE 8 ||| c)).
  assert (trb_words e) as He by (subst e; destruct Hc as [-> | ->]; vm_compute; intuition congruence).
  eapply wp_mono; [apply (wp_for (fun n (_ : unit) s => exists l, s = at_ (l ++ t) w x /\ forall j,
    trb_at (l ++ t) base j = if (255 - n <=? j) && (j <? 255) then e else trb_at t base j)); [lia| |]|].
  - exists []. split; [done|]. intros j. destruct (Z.leb_spec (255 - 0) j), (Z.ltb_spec j 255); cbn; done || lia.
  - intros n [] s Hn (l & -> & Hl). apply wp_write_trb; [done|]. exists (trb_stores base (255 - 1 - n) e ++ l).
    split; [by rewrite <- app_assoc|]. intros j. rewrite <- app_assoc.
    destruct (decide (j = 255 - 1 - n)) as [->|Hne].
    + rewrite trb_stored by done. rewrite (proj2 (Z.leb_le _ _)), (proj2 (Z.ltb_lt _ _)) by lia. done.
    + rewrite trb_elsewhere, Hl by done.
      destruct (Z.leb_spec (255 - n) j), (Z.leb_spec (255 - (n + 1)) j); cbn; done || lia.
  - intros [] s (l & -> & Hl). exists l. split; [done|]. intros j. rewrite Hl.
    by replace (255 - (0 + (255 - i))) with i by lia.
Qed.

(** The entries of a transfer: nothing but words, no link, the cycle bit still clear. *)
Definition plain (e : XhciTrb) : Prop := trb_words e /\ trb_type e <> 6 /\ d3 e &&& 1 = 0.

Lemma cycle_words c e : bit c -> trb_words e -> trb_words (with_cycle c e).
Proof.
  intros Hc (H0 & H1 & H2 & H3). refine (conj H0 (conj H1 (conj H2 _))). apply lor_bounded; [lia|done|].
  destruct Hc as [-> | ->]; lia.
Qed.

Lemma cycle_bit c e : bit c -> d3 e &&& 1 = 0 -> d3 (with_cycle c e) &&& 1 = c.
Proof.
  intros Hc He. cbn [with_cycle d3]. rewrite Z.land_lor_distr_l, He. by destruct Hc as [-> | ->].
Qed.

Lemma cycle_type c e : bit c -> trb_type (with_cycle c e) = trb_type e.
Proof.
  intros Hc. unfold trb_type. cbn [with_cycle d3]. rewrite Z.shiftr_lor.
  replace (c >>> 10) with 0 by (destruct Hc as [-> | ->]; reflexivity). by rewrite Z.lor_0_r.
Qed.

Definition entries (has_data : bool) (cycle : Z) (setup data status : XhciTrb) : list XhciTrb :=
  with_cycle cycle <$> transfer has_data setup data status.

(** The ring after [publish]. *)
Definition after_publish (ring : Z -> XhciTrb) (first cycle i c : Z) (wrap : bool) (td : list XhciTrb) (j : Z) : XhciTrb :=
  if (first <=? j) && (j <? first + Z.of_nat (length td)) then default no_trb (td !! Z.to_nat (j - first))
  else if wrap && (i <=? j) && (j <? 255) then mkTrb 0 0 0 (TRB_TYPE 8 ||| c)
  else if wrap && (j =? 255) then mkTrb (d0 (ring j)) (d1 (ring j)) (d2 (ring j)) (link_d3 c)
  else ring j.

Lemma wp_publish base i c (has_data : bool) setup data status w x t :
  let count := if has_data then 3 else 2 in
  let wrap := i + count >? EP0_LINK in
  let first := if wrap then 0 else i in
  let cycle := if wrap then Z.lxor c 1 else c in
  0 <= i < 255 -> bit c -> plain setup -> plain data -> plain status ->
  wp (publish base first count cycle i c wrap setup data status)
    (fun _ s' => exists l, s' = at_ (l ++ t) w x /\ forall j,
       trb_at (l ++ t) base j = after_publish (trb_at t base) first cycle i c wrap (entries has_data cycle setup data status) j)
    (at_ t w x).
Proof.
  intros count wrap first cycle Hi Hc (Hs & _) (Hd & _) (Ht & _).
  assert (bit cycle) as Hcy by (subst cycle; destruct wrap; [destruct Hc as [-> | ->]; [by right|by left]|done]).
  assert (0 <= first /\ first + count <= 255) as Hfirst.
  { subst first wrap. unfold EP0_LINK. destruct (Z.gtb_spec (i + count) 255); subst count; destruct has_data; lia. }
  unfold publish. apply wp_bind. apply wp_write_trb; [by apply cycle_words|].
  set (td := entries has_data cycle setup data status).
  assert (Z.of_nat (length td) = count) as Hlen by (subst td count; by destruct has_data).
  apply wp_bind.
  assert (wp (if count =? 3 then write_trb base (first + 1) (with_cycle cycle data) else mret ())
    (fun _ s' => exists l, s' = at_ (l ++ t) w x /\ forall j,
       trb_at (l ++ t) base j = if (first + 1 <=? j) && (j <? first + count)
         then default no_trb (td !! Z.to_nat (j - first)) else trb_at t base j)
    (at_ (trb_stores base (first + count - 1) (with_cycle cycle status) ++ t) w x)) as H1.
  { subst count td. destruct has_data; cbn [Z.eqb].
    - change (3 =? 3) with true. cbn iota. apply wp_write_trb; [by apply cycle_words|].
      exists (trb_stores base (first + 1) (with_cycle cycle data) ++ trb_stores base (first + 3 - 1) (with_cycle cycle status)).
      rewrite <- app_assoc. split; [reflexivity|]. intros j.
      destruct (decide (j = first + 1)) as [->|]; [|destruct (decide (j = first + 2)) as [->|]].
      + rewrite trb_stored by (by apply cycle_words). rewrite (proj2 (Z.leb_le _ _)), (proj2 (Z.ltb_lt _ _)) by lia.
        by replace (first + 1 - first) with 1 by lia.
      + rewrite trb_elsewhere by lia. replace (first + 3 - 1) with (first + 2) by lia.
        rewrite trb_stored by (by apply cycle_words). rewrite (proj2 (Z.leb_le _ _)), (proj2 (Z.ltb_lt _ _)) by lia.
        by replace (first + 2 - first) with 2 by lia.
      + rewrite !trb_elsewhere by lia. destruct (Z.leb_spec (first + 1) j), (Z.ltb_spec j (first + 3)); cbn; done || lia.
    - change (2 =? 3) with false. cbn iota. apply wp_ret. eexists. split; [reflexivity|]. intros j.
      replace (first + 2 - 1) with (first + 1) by lia. destruct (decide (j = first + 1)) as [->|].
      + rewrite trb_stored by (by apply cycle_words). rewrite (proj2 (Z.leb_le _ _)), (proj2 (Z.ltb_lt _ _)) by lia.
        by replace (first + 1 - first) with 1 by lia.
      + rewrite !trb_elsewhere by lia. destruct (Z.leb_spec (first + 1) j), (Z.ltb_spec j (first + 2)); cbn; done || lia. }
  eapply wp_mono; [exact H1|]. intros _ s' (l & -> & Hl). apply wp_bind. apply wp_write_trb; [by apply cycle_words|].
  assert (forall j, trb_at (trb_stores base first (with_cycle cycle setup) ++ l ++ t) base j =
    after_publish (trb_at t base) first cycle i c false td j) as H2.
  { intros j. unfold after_publish. cbn [andb]. rewrite Hlen. destruct (decide (j = first)) as [->|].
    - rewrite trb_stored by (by apply cycle_words). rewrite (proj2 (Z.leb_le _ _)), (proj2 (Z.ltb_lt _ _)) by (subst count; destruct has_data; lia).
      rewrite Z.sub_diag. subst td. by destruct has_data.
    - rewrite trb_elsewhere, Hl by done. destruct (Z.leb_spec (first + 1) j), (Z.leb_spec first j); cbn; done || lia. }
  rewrite app_assoc. set (l2 := trb_stores base first (with_cycle cycle setup) ++ l) in *. rewrite app_assoc in H2. fold l2 in H2.
  destruct wrap eqn:Ew.
  - apply wp_bind. eapply wp_mono; [by apply wp_skip_noops|]. intros _ s' (l3 & -> & Hl3). x_steps.
    assert (link_d3 c mod 2 ^ (8 * 4) = link_d3 c) as Hlk by (destruct Hc as [-> | ->]; reflexivity). rewrite Hlk.
    exists (Wr Mmio 4 (base + sizeof_XhciTrb * EP0_LINK + 12) (link_d3 c) :: l3 ++ l2).
    split; [by cbn; rewrite <- app_assoc|]. intros j. cbn [app]. rewrite <- app_assoc.
    assert (EP0_LINK < i + count) as Hw by (revert Ew; subst wrap; destruct (Z.gtb_spec (i + count) EP0_LINK); [lia|done]).
    unfold EP0_LINK in *. unfold sizeof_XhciTrb in *.
    assert (0 <= link_d3 c < 2 ^ 32) as Hlw by (destruct Hc as [-> | ->]; vm_compute; split; congruence).
    assert (first = 0) as Hf0 by done. assert (count <= 3) by (subst count; destruct has_data; lia).
    destruct (decide (j = 255)) as [->|Hne].
    + transitivity (mkTrb (d0 (trb_at (l3 ++ l2 ++ t) base 255)) (d1 (trb_at (l3 ++ l2 ++ t) base 255))
        (d2 (trb_at (l3 ++ l2 ++ t) base 255)) (link_d3 c)).
      { unfold trb_at. cbn [d0 d1 d2]. unfold sizeof_XhciTrb. rewrite word_same by done. by rewrite !word_other by lia. }
      rewrite Hl3, H2. rewrite (proj2 (Z.leb_le i 255)) by lia. change (255 <? 255) with false. cbn [andb].
      unfold after_publish. rewrite Hlen. rewrite (proj2 (Z.ltb_ge 255 (first + count))) by lia.
      rewrite !andb_false_r. cbn [andb]. done.
    + transitivity (trb_at (l3 ++ l2 ++ t) base j).
      { unfold trb_at, sizeof_XhciTrb. by rewrite !word_other by lia. }
      rewrite Hl3, H2. unfold after_publish. rewrite Hlen. cbn [andb]. rewrite (proj2 (Z.eqb_neq j 255)) by done.
      destruct (Z.leb_spec i j), (Z.ltb_spec j 255); cbn [andb]; try done; try lia.
      rewrite (proj2 (Z.ltb_ge j (first + count))) by lia. by rewrite andb_false_r.
  - apply wp_ret. exists l2. split; [done|]. exact H2.
Qed.
End Publish.

(** ** One transfer *)

Section Transfer.
Context (ring : Z -> XhciTrb) (phys i c l : Z) (has_data : bool) (setup data status : XhciTrb).
Context (H : between ring phys i c l) (Hphys : 0 <= phys < 2 ^ 64).
Context (Hs : plain setup) (Hd : plain data) (Ht : plain status).

Let count := if has_data then 3 else 2.
Let wrap := i + count >? EP0_LINK.
Let first := if wrap then 0 else i.
Let cycle := if wrap then Z.lxor c 1 else c.
Let td := entries has_data cycle setup data status.
Let ring' := after_publish ring first cycle i c wrap td.

Lemma transfer_cycle : bit cycle.
Proof. subst cycle. destruct (bt_cycle _ _ _ _ _ H) as [-> | ->], wrap; (by left) || (by right). Qed.

Lemma transfer_length : Z.of_nat (length td) = count /\ 2 <= count <= 3.
Proof. clear. subst td count. destruct has_data; cbn; lia. Qed.

Lemma transfer_first : 0 <= first /\ first + count <= 255 /\ (wrap = true -> first = 0 /\ count <= i) /\ (wrap = false -> first = i).
Proof.
  pose proof transfer_length. pose proof (bt_index _ _ _ _ _ H). subst first wrap. unfold EP0_LINK.
  destruct (Z.gtb_spec (i + count) 255); split_and!; try lia; try discriminate; intros; lia.
Qed.

Lemma transfer_entry k e : td !! k = Some e -> ring' (first + Z.of_nat k) = e /\ d3 e &&& 1 = cycle /\ trb_type e <> 6.
Proof.
  intros Hk. pose proof (lookup_lt_Some _ _ _ Hk) as Hlt. split.
  - subst ring'. unfold after_publish. rewrite (proj2 (Z.leb_le _ _)), (proj2 (Z.ltb_lt _ _)) by lia. cbn [andb].
    replace (first + Z.of_nat k - first) with (Z.of_nat k) by lia. rewrite Nat2Z.id, Hk. done.
  - assert (exists e0, e = with_cycle cycle e0 /\ plain e0) as (e0 & -> & _ & Hty & Hb).
    { subst td. unfold entries in Hk. apply list_lookup_fmap_Some in Hk as (e0 & -> & Hk). exists e0. split; [done|].
      unfold transfer in Hk. destruct has_data; repeat (destruct k as [|k]; [by injection Hk as <-|]); discriminate Hk. }
    split; [apply cycle_bit; [apply transfer_cycle|done]|]. by rewrite cycle_type by apply transfer_cycle.
Qed.

Lemma transfer_runs : runs ring' phys (mkConsumer i c) ((if wrap then skipped i c else []) ++ td) (mkConsumer (first + count) cycle).
Proof.
  destruct transfer_length as [Hlen Hcount]. destruct transfer_first as (Hf0 & Hf1 & Hf2 & Hf3).
  pose proof (bt_index _ _ _ _ _ H) as Hi. pose proof (bt_cycle _ _ _ _ _ H) as Hc.
  apply (runs_app _ _ _ _ (mkConsumer first cycle)).
  - destruct wrap eqn:Ew; [|rewrite Hf3 by done; subst cycle; rewrite ?Ew; constructor].
    destruct (Hf2 eq_refl) as [-> Hci].
    rewrite <- (app_nil_r (skipped i c)). apply (runs_app _ _ _ _ (mkConsumer 255 c)).
    + pose proof (runs_entries ring' phys c (skipped i c) i) as Hr.
      replace (i + Z.of_nat (length (skipped i c))) with 255 in Hr by (unfold skipped; rewrite length_replicate; lia).
      apply Hr. clear Hr. intros k e Hk. unfold skipped in Hk. apply lookup_replicate in Hk as [-> Hk].
      split; [|split].
      * subst ring'. unfold after_publish. rewrite Hlen. rewrite (proj2 (Z.ltb_ge (i + Z.of_nat k) _)) by lia.
        rewrite andb_false_r. rewrite (proj2 (Z.leb_le i _)), (proj2 (Z.ltb_lt _ 255)) by lia. done.
      * destruct Hc as [-> | ->]; reflexivity.
      * destruct Hc as [-> | ->]; discriminate.
    + eapply runs_link; [|constructor]. rewrite (fetch_link ring' phys c c); [rewrite Z.eqb_refl; by subst cycle|done|done|].
      subst ring'. unfold after_publish. rewrite Hlen, (proj2 (Z.ltb_ge 255 _)) by lia. rewrite andb_false_r.
      rewrite (bt_link _ _ _ _ _ H). change (255 <? 255) with false. rewrite andb_false_r. done.
  - rewrite <- Hlen. apply runs_entries. intros k e Hk. by apply transfer_entry.
Qed.

Lemma transfer_link : ring' 255 = link_entry phys (if wrap then c else l).
Proof.
  destruct transfer_length as [Hlen _]. destruct transfer_first as (Hf0 & Hf1 & _).
  subst ring'. unfold after_publish. rewrite Hlen, (proj2 (Z.ltb_ge 255 _)) by lia. rewrite andb_false_r.
  change (255 <? 255) with false. rewrite andb_false_r, (bt_link _ _ _ _ _ H). by destruct wrap.
Qed.

(** The driver and the controller meet at the next entry. *)
Lemma transfer_between : first + count < 255 ->
  between ring' phys (first + count) cycle (if wrap then c else l).
Proof.
  intros Hfit. destruct transfer_length as [Hlen Hcount]. destruct transfer_first as (Hf0 & Hf1 & Hf2 & Hf3).
  pose proof (bt_index _ _ _ _ _ H) as Hi. pose proof (bt_cycle _ _ _ _ _ H) as Hc.
  constructor; [lia|apply transfer_cycle|destruct wrap; [done|apply H]|apply transfer_link| |].
  - intros j Hj. destruct (Z.lt_ge_cases j first) as [Hlt|Hge].
    + destruct wrap eqn:Ew; [destruct (Hf2 eq_refl); lia|]. rewrite (Hf3 eq_refl) in Hlt.
      subst ring'. unfold after_publish. rewrite (Hf3 eq_refl), (proj2 (Z.leb_gt i j)) by lia. cbn [andb].
      rewrite ?Ew. cbn [andb]. subst cycle. rewrite ?Ew. apply (bt_done _ _ _ _ _ H). lia.
    + destruct (lookup_lt_is_Some_2 td (Z.to_nat (j - first))) as [e He]; [lia|].
      destruct (transfer_entry _ _ He) as (Hr & Hb & _). replace (first + Z.of_nat (Z.to_nat (j - first))) with j in Hr by lia.
      by rewrite Hr.
  - intros j Hj. subst ring'. unfold after_publish. rewrite Hlen, (proj2 (Z.ltb_ge j _)) by lia. rewrite andb_false_r.
    rewrite (proj2 (Z.eqb_neq j 255)) by lia. rewrite (proj2 (Z.ltb_lt j 255)) by lia. rewrite andb_false_r, andb_true_r.
    destruct wrap eqn:Ew.
    + assert (Z.lxor cycle 1 = c) as -> by (subst cycle; rewrite ?Ew; destruct Hc as [-> | ->]; reflexivity).
      cbn [andb]. destruct (Z.leb_spec i j); [destruct Hc as [-> | ->]; reflexivity|].
      apply (bt_done _ _ _ _ _ H). lia.
    + cbn [andb]. subst cycle. rewrite ?Ew. apply (bt_free _ _ _ _ _ H). rewrite (Hf3 eq_refl) in Hj. lia.
Qed.

(** When the transfer ends at the link, the controller goes on only if the link still has the
    cycle bit of this lap: nothing has rewritten it. *)
Lemma transfer_exact : first + count = 255 ->
  wrap = false /\ fetch ring' phys (mkConsumer 255 c) = (if l =? c then Some (None, mkConsumer 0 (Z.lxor c 1)) else None) /\
  between ring' phys 0 (Z.lxor c 1) l.
Proof.
  intros Hfit. destruct transfer_length as [Hlen Hcount]. destruct transfer_first as (Hf0 & Hf1 & Hf2 & Hf3).
  pose proof (bt_index _ _ _ _ _ H) as Hi. pose proof (bt_cycle _ _ _ _ _ H) as Hc.
  assert (wrap = false) as Ew by (destruct wrap; [destruct (Hf2 eq_refl); lia|done]).
  pose proof transfer_link as Hl. rewrite ?Ew in Hl. split; [done|]. split.
  - apply fetch_link; [done|apply H|done].
  - constructor; [lia|destruct Hc as [-> | ->]; [by right|by left]|apply H|done|lia|].
    intros j Hj. assert (Z.lxor (Z.lxor c 1) 1 = c) as -> by (destruct Hc as [-> | ->]; reflexivity).
    rewrite (Hf3 Ew) in *. destruct (Z.lt_ge_cases j i) as [Hlt|Hge].
    + subst ring'. unfold after_publish. rewrite (Hf3 Ew), (proj2 (Z.leb_gt i j)) by lia. cbn [andb]. rewrite ?Ew. cbn [andb].
      apply (bt_done _ _ _ _ _ H). lia.
    + destruct (lookup_lt_is_Some_2 td (Z.to_nat (j - i))) as [e He]; [lia|].
      destruct (transfer_entry _ _ He) as (Hr & Hb & _). rewrite (Hf3 Ew) in Hr.
      replace (i + Z.of_nat (Z.to_nat (j - i))) with j in Hr by lia. rewrite Hr, Hb. subst cycle. rewrite ?Ew; done.
Qed.
End Transfer.

Lemma fetch_ext ring ring' phys h : (forall j, ring j = ring' j) -> fetch ring phys h = fetch ring' phys h.
Proof. intros E. unfold fetch. by rewrite E. Qed.

Lemma runs_ext ring ring' phys h l h' : (forall j, ring j = ring' j) -> runs ring phys h l h' -> runs ring' phys h l h'.
Proof.
  intros E. induction 1 as [h|h t h' l h2 Hf _ IH|h h' l h2 Hf _ IH]; [constructor| |].
  - eapply runs_take; [|exact IH]. by rewrite <- (fetch_ext ring ring').
  - eapply runs_link; [|exact IH]. by rewrite <- (fetch_ext ring ring').
Qed.

Lemma between_ext ring ring' phys i c l : (forall j, ring j = ring' j) -> between ring phys i c l -> between ring' phys i c l.
Proof. intros E H. constructor; try apply H; intros; rewrite <- E; by apply H. Qed.

Lemma between_waits ring phys i c l : between ring phys i c l -> fetch ring phys (mkConsumer i c) = None.
Proof.
  intros H. unfold fetch. cbn [c_index c_cycle]. rewrite (bt_free _ _ _ _ _ H) by (pose proof (bt_index _ _ _ _ _ H); lia).
  destruct (bt_cycle _ _ _ _ _ H) as [-> | ->]; done.
Qed.

(** ** What the entries say

    The stages of a control transfer, read from the fields of the entries as the xHCI specification
    gives them: type, cycle and chain bits, immediate data, transfer type and direction. *)

Inductive stage :=
| SetupStage (packet : usb_setup_packet) (transfer_type : Z)
| DataStage (dir_in : bool) (buffer length : Z)
| StatusStage (dir_in interrupts : bool)
| NoOp.

Definition decode (t : XhciTrb) : option stage :=
  let flag n := Z.testbit (d3 t) n in
  if flag 4 then None
  else if trb_type t =? 2 then
    if flag 6 && (d2 t =? 8) then
      Some (SetupStage (mkSetup (d0 t mod 256) (d0 t / 256 mod 256) (d0 t / 65536)
                          (d1 t mod 65536) (d1 t / 65536)) (d3 t / 2 ^ 16 mod 4))
    else None
  else if trb_type t =? 3 then
    if flag 6 || negb (d2 t <? 2 ^ 17) then None
    else Some (DataStage (flag 16) (d0 t + 2 ^ 32 * d1 t) (d2 t))
  else if trb_type t =? 4 then Some (StatusStage (flag 16) (flag 5))
  else if trb_type t =? 8 then Some NoOp
  else None.

(** A request as the device must see it: the packet; its data from the device, when it has any;
    the status in the other direction, which says when all is over. *)
Definition control_transfer (packet : usb_setup_packet) (buffer : Z) : list stage :=
  if wLength packet =? 0 then [SetupStage packet 0; StatusStage true true]
  else [SetupStage packet 3; DataStage true buffer (wLength packet); StatusStage false true].

Lemma setup_words packet has_data : packet_ok packet ->
  d0 (setup_trb packet has_data) = BmRequestType packet + 256 * bRequest packet + 65536 * wValue packet /\
  d1 (setup_trb packet has_data) = wIndex packet + 65536 * wLength packet.
Proof.
  intros (H1 & H2 & H3 & H4 & H5). unfold setup_trb. cbn [d0 d1].
  rewrite !(u32_id (_ <<< _)) by (rewrite shiftl_mul by lia; lia).
  rewrite (Z.lor_comm (BmRequestType packet)), (lor_shiftl_add _ _ 8) by lia.
  rewrite Z.lor_comm, (lor_shiftl_add _ _ 16), Z.lor_comm, (lor_shiftl_add _ _ 16) by lia. lia.
Qed.

Lemma plain_setup packet has_data : packet_ok packet -> plain (setup_trb packet has_data).
Proof.
  intros Hp. destruct (setup_words packet has_data Hp) as [E0 E1]. destruct Hp as (? & ? & ? & ? & ?).
  split; [|split; destruct has_data; done].
  split; [rewrite E0; lia|]. split; [rewrite E1; lia|]. by destruct has_data.
Qed.

Lemma plain_data buffer length : 0 <= buffer < 2 ^ 64 -> plain (data_trb buffer length).
Proof.
  intros Hb. split; [|by split]. split; [apply u32_range|]. split; [apply u32_range|]. split; [apply u32_range|done].
Qed.

Lemma plain_status has_data : plain (status_trb has_data).
Proof. destruct has_data; vm_compute; intuition congruence. Qed.

Lemma decode_setup c packet has_data : bit c -> packet_ok packet ->
  decode (with_cycle c (setup_trb packet has_data)) = Some (SetupStage packet (if has_data then 3 else 0)).
Proof.
  intros Hc Hp. destruct (setup_words packet has_data Hp) as [E0 E1]. destruct Hp as (? & ? & ? & ? & ?).
  unfold decode. cbn [with_cycle d0 d1 d2]. rewrite E0, E1. destruct packet as [b q v i l]. cbn in *.
  assert ((b + 256 * q + 65536 * v) mod 256 = b /\ (b + 256 * q + 65536 * v) / 256 mod 256 = q /\
    (b + 256 * q + 65536 * v) / 65536 = v /\ (i + 65536 * l) mod 65536 = i /\ (i + 65536 * l) / 65536 = l)
    as (-> & -> & -> & -> & ->) by (split_and!; divlia).
  by destruct Hc as [-> | ->], has_data.
Qed.

Lemma decode_data c buffer length : bit c -> 0 <= buffer < 2 ^ 64 -> 0 <= length < 2 ^ 17 ->
  decode (with_cycle c (data_trb buffer length)) = Some (DataStage true buffer length).
Proof.
  intros Hc Hb Hl. unfold decode. cbn [with_cycle data_trb d0 d1 d2]. rewrite (u32_id length) by lia.
  rewrite (proj2 (Z.ltb_lt _ _)) by lia. rewrite shiftr_div by lia. rewrite (u32_id (buffer / 2 ^ 32)) by divlia.
  assert (u32 buffer + 2 ^ 32 * (buffer / 2 ^ 32) = buffer) as -> by (unfold u32; divlia).
  by destruct Hc as [-> | ->].
Qed.

Lemma decode_status c has_data : bit c ->
  decode (with_cycle c (status_trb has_data)) = Some (StatusStage (negb has_data) true).
Proof. intros Hc. by destruct Hc as [-> | ->], has_data. Qed.

Lemma decode_skipped i c : bit c -> decode <$> skipped i c = replicate (Z.to_nat (255 - i)) (Some NoOp).
Proof. intros Hc. unfold skipped. rewrite fmap_replicate. f_equal. by destruct Hc as [-> | ->]. Qed.

Lemma decode_entries c packet buffer : bit c -> packet_ok packet -> 0 <= buffer < 2 ^ 64 ->
  let has_data := negb (wLength packet =? 0) in
  decode <$> entries has_data c (setup_trb packet has_data) (data_trb buffer (wLength packet)) (status_trb has_data) =
  Some <$> control_transfer packet buffer.
Proof.
  intros Hc Hp Hb. cbn zeta. pose proof Hp as (_ & _ & _ & _ & Hl). unfold control_transfer, entries, transfer.
  destruct (Z.eqb_spec (wLength packet) 0); cbn [negb fmap list_fmap].
  - by rewrite decode_setup, decode_status.
  - by rewrite decode_setup, decode_status, decode_data by (done || lia).
Qed.

(** ** The property *)

(** The object when a transfer is armed with the address of its status entry. *)
Definition armed (slot status : Z) (x : xhci_controller) : xhci_controller :=
  set_transfer_waiting (fun _ => true) (set_transfer_completed (fun _ => false)
    (set_transfer_trb_pointer (fun _ => status) (set_transfer_endpoint (fun _ => 1)
      (set_transfer_slot (fun _ => slot) x)))).

(** C21: between two transfers the driver is at entry [i] of the ring with the cycle bit [c], the
    link has the bit [l], and the controller waits at entry [i]. [usb_send_packet] arms the
    transfer with the address of its last entry and stores; what the controller then takes, until
    it waits again, is: No-ops up to the link when the transfer does not fit before it, and the
    stages of the request, in order, as the fields of the entries say; nothing else. The driver
    goes on at [next], where the entries are again the ones the controller does not own. The
    controller waits there too, unless the transfer ended exactly in front of a link with the
    cycle bit of another lap: then it stands at the link. *)
Theorem ep0_transfer_correct {W} `{!IO W} (s : xhci_state W) (slot base phys i c l : Z)
    (packet : usb_setup_packet) (buffer : Z) :
  let has_data := negb (wLength packet =? 0) in
  let count := if has_data then 3 else 2 in
  between (trb_at (trace s) base) phys i c l -> 0 <= phys < 2 ^ 64 - 4096 ->
  packet_ok packet -> 0 <= buffer < 2 ^ 64 ->
  exists s' taken h, publish_request slot base phys i c packet has_data buffer (wLength packet) s = Done () s' /\
    let ring := trb_at (trace s') base in
    let next := advance (first_of count i) count (cycle_of count i c) in
    runs ring phys (mkConsumer i c) taken h /\ fetch ring phys h = None /\
    decode <$> taken = replicate (Z.to_nat (if 255 <? i + count then 255 - i else 0)) (Some NoOp) ++
                       (Some <$> control_transfer packet buffer) /\
    obj s' = armed slot (phys + 16 * ((if 255 <? i + count then 0 else i) + count - 1)) (obj s) /\
    (exists l', between ring phys next.1 next.2 l') /\
    h = (if (i + count =? 255) && negb (l =? c) then mkConsumer 255 c else mkConsumer next.1 next.2).
Proof.
  intros has_data count H Hp Hpk Hb.
  pose proof (bt_index _ _ _ _ _ H) as Hi. pose proof (bt_cycle _ _ _ _ _ H) as Hc.
  assert (2 <= count <= 3) as Hcount by (subst count; destruct has_data; lia).
  set (setup := setup_trb packet has_data). set (data := data_trb buffer (wLength packet)). set (status := status_trb has_data).
  pose proof (plain_setup packet has_data Hpk) as Hs. pose proof (plain_data buffer (wLength packet) Hb) as Hd.
  pose proof (plain_status has_data) as Ht. fold setup in Hs. fold data in Hd. fold status in Ht.
  set (wrap := wraps count i). set (first := first_of count i). set (cycle := cycle_of count i c).
  set (x := armed slot (u64 (phys + (first + count - 1) * sizeof_XhciTrb)) (obj s)).
  pose proof (wp_publish base i c has_data setup data status (world s) x (trace s) Hi Hc Hs Hd Ht) as Wp.
  destruct (wp_inv _ _ _ Wp) as ([] & s' & E & k & -> & Hr). clear Wp.
  set (ring' := trb_at (k ++ trace s) base) in *.
  assert (0 <= phys < 2 ^ 64) as Hp' by lia.
  pose proof (transfer_runs _ _ _ _ _ has_data _ _ _ H Hp' Hs Hd Ht) as Hruns.
  pose proof (transfer_between _ _ _ _ _ has_data _ _ _ H Hs Hd Ht) as Hbt.
  pose proof (transfer_exact _ _ _ _ _ has_data _ _ _ H Hp' Hs Hd Ht) as Hex.
  pose proof (transfer_first _ _ _ _ _ has_data setup data status H) as Hf.
  pose proof (transfer_cycle _ _ _ _ _ has_data setup data status H) as Hcy.
  cbn zeta in Hruns, Hbt, Hex, Hf, Hr, Hcy.
  change (if has_data then 3 else 2) with count in Hruns, Hbt, Hex, Hf, Hr, Hcy.
  change (i + count >? EP0_LINK) with wrap in Hruns, Hbt, Hex, Hf, Hr, Hcy.
  change (if wrap then 0 else i) with first in Hruns, Hbt, Hex, Hf, Hr.
  change (if wrap then Z.lxor c 1 else c) with cycle in Hruns, Hbt, Hex, Hf, Hr, Hcy.
  destruct Hf as (Hf0 & Hle & Hw1 & Hw2).
  apply (runs_ext _ ring') in Hruns; [|intros; symmetry; apply Hr].
  assert ((255 <? i + count) = wrap) as Ew by (subst wrap; unfold wraps, EP0_LINK; by rewrite Z.gtb_ltb).
  assert (decode <$> (if wrap then skipped i c else []) ++ entries has_data cycle setup data status =
    replicate (Z.to_nat (if 255 <? i + count then 255 - i else 0)) (Some NoOp) ++ (Some <$> control_transfer packet buffer)) as Hdec.
  { rewrite Ew, fmap_app. unfold setup, data, status, has_data. rewrite decode_entries by done. f_equal.
    destruct wrap; [by apply decode_skipped|done]. }
  assert (publish_request slot base phys i c packet has_data buffer (wLength packet) s = Done () (at_ (k ++ trace s) (world s) x)) as Epub.
  { rewrite <- E. unfold publish_request. rewrite <- (at_same s) at 1. reflexivity. }
  assert (x = armed slot (phys + 16 * ((if 255 <? i + count then 0 else i) + count - 1)) (obj s)) as Ex.
  { subst x. f_equal. rewrite Ew. unfold first, first_of, sizeof_XhciTrb in *. fold wrap in Hf0, Hle |- *. rewrite u64_id by lia. lia. }
  eexists _, ((if wrap then skipped i c else []) ++ entries has_data cycle setup data status),
    (if (i + count =? 255) && negb (l =? c) then mkConsumer 255 c
     else mkConsumer (advance first count cycle).1 (advance first count cycle).2).
  split; [exact Epub|]. rewrite trace_at. fold ring'. cbn zeta. fold first cycle.
  unfold advance. destruct (Z.eqb_spec (first + count) EP0_LINK) as [El|El]; unfold EP0_LINK in El; cbn [fst snd].
  - destruct (Hex El) as (Ewf & Hf & Hbn). rewrite El in Hruns.
    assert (cycle = c) as Ec by (subst cycle; unfold cycle_of; fold wrap; by rewrite Ewf).
    assert (i + count = 255) as Ei by (rewrite <- (Hw2 Ewf); done).
    apply (between_ext _ ring') in Hbn; [|intros; symmetry; apply Hr].
    rewrite <- (fetch_ext ring') in Hf by apply Hr.
    rewrite (proj2 (Z.eqb_eq _ _) Ei). cbn [andb]. rewrite Ec in Hruns, Hdec |- *.
    destruct (l =? c) eqn:Elc; cbn [negb].
    + split; [|split; [by eapply between_waits|split; [exact Hdec|split; [exact Ex|split; [by eexists|done]]]]].
      rewrite <- (app_nil_r (_ ++ entries _ _ _ _ _)). eapply runs_app; [exact Hruns|]. eapply runs_link; [exact Hf|constructor].
    + split; [|split; [exact Hf|split; [exact Hdec|split; [exact Ex|split; [by eexists|done]]]]]. exact Hruns.
  - assert (first + count < 255) as Hlt by lia. specialize (Hbt Hlt).
    apply (between_ext _ ring') in Hbt; [|intros; symmetry; apply Hr].
    assert ((i + count =? 255) = false) as ->.
    { apply Z.eqb_neq. destruct wrap eqn:Ew'; [destruct (Hw1 eq_refl); subst wrap; unfold wraps, EP0_LINK in *|rewrite (Hw2 eq_refl) in El; done].
      apply Z.gtb_lt in Ew'. lia. }
    cbn [andb]. split; [exact Hruns|]. split; [by eapply between_waits|]. split; [exact Hdec|]. split; [exact Ex|]. split; [by eexists|done].
Qed.

(** ** The second lap *)

Lemma runs_det ring phys h l1 h1 : runs ring phys h l1 h1 -> fetch ring phys h1 = None ->
  forall l2 h2, runs ring phys h l2 h2 -> fetch ring phys h2 = None -> h1 = h2.
Proof.
  induction 1 as [h|h t h' l h1 Hf _ IH|h h' l h1 Hf _ IH]; intros Hn l2 h2 H2 Hn2; inversion H2; subst; try congruence.
  - rewrite Hf in *. match goal with H : Some _ = Some _ |- _ => injection H as <- <- end. eauto.
  - rewrite Hf in *. match goal with H : Some _ = Some _ |- _ => injection H as <- end. eauto.
Qed.

Section Session.
Context {W : Type} `{!IO W} (base phys : Z) (setup data status : XhciTrb).

(** Transfers with data, one after the other, from the ring that [identify_device] leaves behind
    its own first transfer. After each the controller follows the ring as far as it can. *)
Inductive session (s0 : xhci_state W) : nat -> xhci_state W -> Z * Z -> consumer -> Prop :=
| session_start : session s0 0 s0 (3, 1) (mkConsumer 3 1)
| session_next n s i c h s' l h' : session s0 n s (i, c) h ->
    let wrap := i + 3 >? EP0_LINK in
    let first := if wrap then 0 else i in
    let cycle := if wrap then Z.lxor c 1 else c in
    publish base first 3 cycle i c wrap setup data status s = Done () s' ->
    runs (trb_at (trace s') base) phys h l h' -> fetch (trb_at (trace s') base) phys h' = None ->
    session s0 (S n) s' (advance first 3 cycle) h'.

Context (Hs : plain setup) (Hd : plain data) (Ht : plain status) (Hp : 0 <= phys < 2 ^ 64).

(** Entry [m] of the endless ring, and where the controller is. *)
Definition entry_pos (m : Z) : Z * Z := (m mod 255, lap_cycle (m / 255)).
Definition hw_pos (m : Z) : consumer := if m <? 510 then mkConsumer (m mod 255) (lap_cycle (m / 255)) else mkConsumer 255 0.

Lemma session_step s m : 0 < m -> m mod 3 = 0 ->
  between (trb_at (trace s) base) phys (entry_pos m).1 (entry_pos m).2 1 ->
  let i := (entry_pos m).1 in let c := (entry_pos m).2 in
  (i + 3 >? EP0_LINK) = false /\ advance i 3 c = entry_pos (m + 3) /\
  exists s', publish base i 3 c i c false setup data status s = Done () s' /\
    between (trb_at (trace s') base) phys (entry_pos (m + 3)).1 (entry_pos (m + 3)).2 1 /\
    exists l, runs (trb_at (trace s') base) phys (hw_pos m) l (hw_pos (m + 3)) /\
      fetch (trb_at (trace s') base) phys (hw_pos (m + 3)) = None.
Proof.
  intros Hm H3 H i c. pose proof (bt_index _ _ _ _ _ H) as Hi. pose proof (bt_cycle _ _ _ _ _ H) as Hc. fold i c in H, Hi, Hc.
  assert (i mod 3 = 0) as Hi3 by (subst i; cbn [entry_pos fst]; divlia).
  assert ((i + 3 >? EP0_LINK) = false) as Ew by (unfold EP0_LINK; destruct (Z.gtb_spec (i + 3) 255); [divlia|done]).
  assert (entry_pos (m + 3) = if i + 3 =? 255 then (0, Z.lxor c 1) else (i + 3, c)) as Enext.
  { subst i c. cbn [entry_pos fst snd] in *. unfold entry_pos. destruct (Z.eqb_spec (m mod 255 + 3) 255).
    - rewrite <- lap_cycle_next. f_equal; [divlia|f_equal; divlia].
    - f_equal; [divlia|f_equal; divlia]. }
  split; [done|]. split; [by rewrite Enext|].
  pose proof (wp_publish base i c true setup data status (world s) (obj s) (trace s) Hi Hc Hs Hd Ht) as Wp.
  cbn zeta iota in Wp. rewrite Ew, at_same in Wp.
  destruct (wp_inv _ _ _ Wp) as ([] & s' & E & k & -> & Hr). eexists. split; [exact E|]. rewrite trace_at.
  set (ring' := trb_at (k ++ trace s) base) in *.
  pose proof (transfer_runs _ _ _ _ _ true _ _ _ H Hp Hs Hd Ht) as Hruns.
  pose proof (transfer_between _ _ _ _ _ true _ _ _ H Hs Hd Ht) as Hbt.
  pose proof (transfer_exact _ _ _ _ _ true _ _ _ H Hp Hs Hd Ht) as Hex.
  cbn zeta iota in Hruns, Hbt, Hex. rewrite Ew in Hruns, Hbt, Hex. cbn iota in Hruns, Hbt, Hex.
  apply (runs_ext _ ring') in Hruns; [|intros; symmetry; apply Hr].
  assert (ring' 255 = link_entry phys 1) as Hlink.
  { rewrite Hr. pose proof (transfer_link _ _ _ _ _ true setup data status H) as Hl. cbn zeta iota in Hl. by rewrite Ew in Hl. }
  assert (fetch ring' phys (mkConsumer 255 0) = None) as Hstuck.
  { rewrite (fetch_link ring' phys 0 1); [done|done|by right|done]. }
  assert (between ring' phys (entry_pos (m + 3)).1 (entry_pos (m + 3)).2 1) as Hb.
  { rewrite Enext. destruct (Z.eqb_spec (i + 3) 255) as [E3|E3]; cbn [fst snd].
    - destruct (Hex E3) as (_ & _ & Hb). by apply (between_ext _ ring') in Hb; [|intros; symmetry; apply Hr].
    - specialize (Hbt ltac:(unfold EP0_LINK in Ew; destruct (Z.gtb_spec (i + 3) 255); [done|lia])).
      by apply (between_ext _ ring') in Hbt; [|intros; symmetry; apply Hr]. }
  split; [done|]. unfold hw_pos. change (m mod 255) with i. change (lap_cycle (m / 255)) with c.
  destruct (Z.ltb_spec m 510) as [Hlt|Hge].
  - destruct (Z.ltb_spec (m + 3) 510) as [Hlt'|Hge'].
    + exists ([] ++ entries true c setup data status). change ((m + 3) mod 255) with (entry_pos (m + 3)).1.
      change (lap_cycle ((m + 3) / 255)) with (entry_pos (m + 3)).2.
      split; [|by eapply between_waits]. rewrite Enext. destruct (Z.eqb_spec (i + 3) 255) as [E3|E3]; cbn [fst snd]; [|exact Hruns].
      rewrite <- (app_nil_r (_ ++ _)). eapply runs_app; [exact Hruns|]. rewrite E3. eapply runs_link; [|constructor].
      destruct (Hex E3) as (_ & Hf & _). rewrite <- (fetch_ext ring') in Hf by apply Hr. rewrite Hf.
      assert (c = 1) as -> by (subst c i; cbn [entry_pos fst snd] in *; replace (m / 255) with 0 by divlia; done). done.
    + exists ([] ++ entries true c setup data status). split; [|done].
      assert (i + 3 = 255 /\ c = 0) as [E3 Ec].
      { subst c i. cbn [entry_pos fst snd] in *. split; [divlia|]. replace (m / 255) with 1 by divlia. done. }
      rewrite E3, Ec in Hruns. rewrite Ec. exact Hruns.
  - rewrite (proj2 (Z.ltb_ge (m + 3) 510)) by lia. exists []. split; [constructor|done].
Qed.

Lemma session_is s0 n : between (trb_at (trace s0) base) phys 3 1 1 ->
  let m := 3 + 3 * Z.of_nat n in
  (exists s, session s0 n s (entry_pos m) (hw_pos m)) /\
  (forall s pos h, session s0 n s pos h ->
     pos = entry_pos m /\ h = hw_pos m /\ between (trb_at (trace s) base) phys (entry_pos m).1 (entry_pos m).2 1).
Proof.
  intros H0. induction n as [|n [[s Hex] Hall]]; cbn zeta.
  - change (3 + 3 * Z.of_nat 0) with 3. split.
    + exists s0. constructor.
    + intros s pos h Hss. inversion Hss; subst. done.
  - set (m := 3 + 3 * Z.of_nat n) in *. replace (3 + 3 * Z.of_nat (S n)) with (m + 3) by lia.
    assert (0 < m /\ m mod 3 = 0) as [Hm H3] by (subst m; divlia).
    split.
    + destruct (Hall _ _ _ Hex) as (_ & _ & Hb).
      destruct (session_step s m Hm H3 Hb) as (Ew & Ea & s' & E & _ & l & Hr & Hf).
      exists s'. rewrite <- Ea. pose proof (session_next s0 n s (entry_pos m).1 (entry_pos m).2 (hw_pos m) s' l (hw_pos (m + 3))) as Hn.
      cbn zeta in Hn. rewrite Ew in Hn. by apply Hn.
    + intros s1 pos h Hss. inversion Hss as [|? s2 i c h0 s' l h' Hs2 wrap first cycle E Hr Hf]; subst.
      destruct (Hall _ _ _ Hs2) as (Hpos & -> & Hb).
      destruct (session_step s2 m Hm H3 Hb) as (Ew & Ea & s'' & E' & Hb' & l' & Hr' & Hf').
      assert (i = (entry_pos m).1 /\ c = (entry_pos m).2) as [Ei Ec] by (by rewrite <- Hpos).
      subst wrap first cycle. rewrite Ei, Ec, Ew in E |- *. rewrite E in E'. injection E' as <-.
      split; [done|]. split; [|done]. by eapply runs_det.
Qed.
End Session.

(** The driver never rewrites the link when a transfer ends exactly in front of it. From the
    ring [identify_device] leaves, transfers with data (three entries each) fill the first lap, and
    the second, exactly. The driver can go on for ever, but from the 169th such transfer on the
    controller stands at the link, whose cycle bit is that of the first lap, and takes nothing
    any more. *)
Lemma ep0_second_lap_stalls {W} `{!IO W} (base phys : Z) (setup data status : XhciTrb) (s0 : xhci_state W) (n : nat) :
  plain setup -> plain data -> plain status -> 0 <= phys < 2 ^ 64 ->
  between (trb_at (trace s0) base) phys 3 1 1 -> (169 <= n)%nat ->
  (exists s pos h, session base phys setup data status s0 n s pos h) /\
  forall s pos h, session base phys setup data status s0 n s pos h ->
    h = mkConsumer 255 0 /\ forall l h', runs (trb_at (trace s) base) phys h l h' -> l = [].
Proof.
  intros Hs Hd Ht Hp H0 Hn. destruct (session_is base phys setup data status Hs Hd Ht Hp s0 n H0) as [[s Hex] Hall].
  split; [by eexists _, _, _|]. intros s1 pos h Hss. destruct (Hall _ _ _ Hss) as (_ & -> & Hb).
  assert (hw_pos (3 + 3 * Z.of_nat n) = mkConsumer 255 0) as -> by (unfold hw_pos; rewrite (proj2 (Z.ltb_ge _ _)) by lia; done).
  split; [done|]. intros l h' Hr.
  assert (fetch (trb_at (trace s1) base) phys (mkConsumer 255 0) = None) as Hf.
  { rewrite (fetch_link _ phys 0 1 Hp); [done|by right|apply (bt_link _ _ _ _ _ Hb)]. }
  inversion Hr; subst; congruence.
Qed.

(** ** A ring *)

(** The three entries of the first transfer, the link, and the cleared memory below them. *)
Definition sample_ring_history : list PortIO.event :=
  trb_stores 0x10000 2 (with_cycle 1 (status_trb true)) ++
  trb_stores 0x10000 1 (with_cycle 1 (data_trb 0x70000 8)) ++
  trb_stores 0x10000 0 (with_cycle 1 DESCRIPTOR_SETUP) ++
  trb_stores 0x10000 255 (link_entry 0x50000 1) ++ [Wr Mmio 4096 0x10000 0].
Definition sample_ring : xhci_state (list PortIO.event) := mkState sample_ring_history sample_xhci.

Lemma sample_between : between (trb_at (trace sample_ring) 0x10000) 0x50000 3 1 1.
Proof.
  constructor; try lia; try (by right).
  - reflexivity.
  - intros j Hj. assert (j = 0 \/ j = 1 \/ j = 2) as [-> |[-> | ->]] by lia; reflexivity.
  - intros j Hj. change (trace sample_ring) with sample_ring_history. unfold sample_ring_history.
    rewrite !trb_elsewhere by lia. unfold trb_at, sizeof_XhciTrb. cbn [d3]. by rewrite word_cleared by lia.
Qed.

Definition sample_packet : usb_setup_packet := mkSetup 0x80 6 0x0200 0 9.

Lemma sample_packet_ok : packet_ok sample_packet.
Proof. vm_compute. intuition congruence. Qed.

Lemma ep0_transfer_correct_witness :
  exists s' taken, publish_request 7 0x10000 0x50000 3 1 sample_packet true 0x80000 9 sample_ring = Done () s' /\
    let ring := trb_at (trace s') 0x10000 in
    runs ring 0x50000 (mkConsumer 3 1) taken (mkConsumer 6 1) /\ fetch ring 0x50000 (mkConsumer 6 1) = None /\
    decode <$> taken = Some <$> [SetupStage sample_packet 3; DataStage true 0x80000 9; StatusStage false true] /\
    obj s' = armed 7 (0x50000 + 16 * 5) (obj sample_ring) /\
    (exists l', between ring 0x50000 6 1 l').
Proof.
  destruct (ep0_transfer_correct sample_ring 7 0x10000 0x50000 3 1 1 sample_packet 0x80000
    sample_between ltac:(lia) sample_packet_ok ltac:(lia)) as (s' & taken & h & E & Hr & Hf & Hd & Ho & Hb & ->).
  exists s', taken. split; [exact E|]. split; [exact Hr|]. split; [exact Hf|]. split; [exact Hd|].
  split; [exact Ho|exact Hb].
Defined.

Lemma ep0_second_lap_stalls_witness :
  (exists s pos h, session 0x10000 0x50000 (setup_trb sample_packet true) (data_trb 0x80000 9) (status_trb true)
     sample_ring 200 s pos h) /\
  forall s pos h, session 0x10000 0x50000 (setup_trb sample_packet true) (data_trb 0x80000 9) (status_trb true)
     sample_ring 200 s pos h ->
    h = mkConsumer 255 0 /\ forall l h', runs (trb_at (trace s) 0x10000) 0x50000 h l h' -> l = [].
Proof.
  apply (ep0_second_lap_stalls 0x10000 0x50000 (setup_trb sample_packet true) (data_trb 0x80000 9) (status_trb true)
    sample_ring 200 (plain_setup _ true sample_packet_ok) (plain_data 0x80000 9 ltac:(lia)) (plain_status true) ltac:(lia) sample_between). lia.
Defined.
