(* ===== verification/XhciPorts.v ===== *)
(** * xHCI: ports

    What [reset_port] stores in a port's register and when it reports success; the bitmap of
    port changes between the event handler and the port worker. *)
From S2P Require Import KPrelude PortIO Pci Dma Timers TimersProofs UsbTypes Xhci XhciRings XhciEvents XhciWait.

Lemma wp_and_wlp {S A} (m : M S A) (P Q : A -> S -> Prop) s : wp m P s -> wlp m Q s -> wp m (fun a s' => P a s' /\ Q a s') s.
Proof. unfold wp, wlp. by destruct (m s). Qed.

Section Ports.
Context {W : Type} `{!IO W} (timer : TimerSource W) (freq : Z) (clock : list PortIO.event -> Z).
Context (tk : ticking timer freq clock).

Lemma xhci_advancing : advancing (xhci_timer timer) freq (fun s => clock (trace s)).
Proof.
  constructor.
  - intros [w x]. destruct (tk_freq _ _ _ tk w) as (l & E & _ & Hl). exists (mkState (set_trace (l ++ trace w) w) x).
    cbn. unfold lift, zoom. cbn. rewrite E, trace_set. split; [done|]. pose proof (clock_app timer freq clock tk l (trace w)).
    change (2 ^ 24) with 16777216. change (2 ^ 6) with 64 in *. lia.
  - intros [w x]. destruct (tk_read _ _ _ tk w) as (v & e & E & _ & Hv). exists v, (mkState (set_trace (e :: trace w) w) x).
    cbn. unfold lift, zoom. cbn. rewrite E, trace_set. split; [done|]. split; [done|]. pose proof (tk_clock _ _ _ tk e (trace w)).
    change (2 ^ 24) with 16777216. change (2 ^ 6) with 64 in *. lia.
Qed.

(** A wait only reads the timer. *)
Lemma wait_reads ms t w x :
  wlp (wait_ms (xhci_timer timer) ms) (fun _ s' => exists l, s' = at_ (l ++ t) w x /\ Forall is_read l) (at_ t w x).
Proof.
  assert (forall s l (Q : Z -> xhci_state W -> Prop), s = at_ (l ++ t) w x -> Forall is_read l ->
    (forall v e, is_read e -> Q v (at_ ((e :: l) ++ t) w x)) -> wlp (@read _ (xhci_timer timer)) Q s) as Hread.
  { intros s l Q -> Hl HQ. apply wp_wlp. cbn. apply wp_lift.
    destruct (tk_read _ _ _ tk (set_trace (l ++ t) w)) as (v & e & E & He & _). unfold wp. rewrite E, !trace_set.
    unfold at_ in HQ |- *. rewrite !set_trace_twice. by apply HQ. }
  unfold wait_ms. apply wlp_bind. apply wp_wlp. apply (wp_freq timer freq clock tk). intros lf Hlf _. cbn beta.
  apply wlp_bind. eapply (Hread _ lf); [done|done|]. intros v e He. cbn beta.
  apply (wlp_while _ (fun _ s => exists l, s = at_ (l ++ t) w x /\ Forall is_read l)).
  - intros [elapsed previous] s (l & -> & Hl). destruct (elapsed <? _); [|by exists l].
    apply wlp_bind. eapply (Hread _ l); [done|done|]. intros v' e' He'. exists (e' :: l). split; [done|by constructor].
  - exists (e :: lf). split; [done|by constructor].
Qed.

Lemma wp_wait ms t w x (Q : unit -> xhci_state W -> Prop) : 0 <= freq -> 0 <= ms -> freq * ms + 999 < 2 ^ 64 ->
  (forall l, Forall is_read l -> Q () (at_ (l ++ t) w x)) -> wp (wait_ms (xhci_timer timer) ms) Q (at_ t w x).
Proof.
  intros Hf Hms Hb HQ. eapply wp_mono; [apply wp_and_wlp; [by apply (wp_wait_ms _ _ _ xhci_advancing)|apply wait_reads]|].
  intros [] s' [_ (l & -> & Hl)]. by apply HQ.
Qed.

(** ** Resetting a port *)

(** Bits whose write does something beside a reset and the acknowledgement of its end: disabling
    the port, a write of the link state, the other change bits, a warm reset. *)
Definition FORBIDDEN := 0x80DF0002.

Lemma neutral_safe v b : b = PRC \/ b = PR -> (xhci_portsc_neutral v ||| b) &&& FORBIDDEN = 0.
Proof.
  intros Hb. unfold xhci_portsc_neutral. rewrite !Z.land_lor_distr_l, <- !Z.land_assoc.
  change (RO_MASK &&& FORBIDDEN) with 0. change (RWS_MASK &&& FORBIDDEN) with 0. rewrite !Z.land_0_r.
  by destruct Hb as [-> | ->].
Qed.

(** An access of a reset: a store to the port's register has none of these bits. *)
Definition reset_access (portsc : Z) (e : PortIO.event) : Prop :=
  match e with Rd _ _ _ _ => True | Wr sp w a v => sp = Mmio /\ w = 4 /\ a = portsc /\ v &&& FORBIDDEN = 0 end.

(** A port that is connected, enabled and in U0. *)
Definition enabled (v : Z) : Prop := v &&& CCS <> 0 /\ v &&& OCA = 0 /\ v &&& PED <> 0 /\ v &&& PLS_MASK = 0 /\ v &&& PR = 0.

Lemma reset_state_success v : reset_state v = Some RESET_SUCCESS -> enabled v.
Proof.
  unfold reset_state, enabled. destruct (v =? ALL_ONES); [discriminate|].
  destruct (Z.eqb_spec (v &&& CCS) 0); [discriminate|].
  destruct (Z.eqb_spec (v &&& OCA) 0); cbn [negb]; [|discriminate].
  destruct (Z.eqb_spec (v &&& PRC) 0); cbn [negb]; [discriminate|].
  destruct (Z.eqb_spec (v &&& PR) 0); cbn [negb]; [|discriminate].
  destruct (Z.eqb_spec (v &&& PED) 0); [discriminate|].
  destruct (Z.eqb_spec (v &&& PLS_MASK) U0); cbn [negb]; [|discriminate].
  intros _. by split_and!.
Qed.

Section Reset.
Context (dev : device) (portsc : Z) (t0 : list PortIO.event) (w : W) (x : xhci_controller).

(** What holds while a reset goes on: the accesses so far, with a value the register showed. *)
Definition going (seen : option Z) (s : xhci_state W) : Prop :=
  exists l, s = at_ (l ++ t0) w x /\ Forall (reset_access portsc) l /\
    match seen with Some v => Rd Mmio 4 portsc v ∈ l | None => True end.

(** An answer is a success only if the port was seen enabled. *)
Definition finished (r : Z) (s : xhci_state W) : Prop :=
  exists l, s = at_ (l ++ t0) w x /\ Forall (reset_access portsc) l /\
    (r = RESET_SUCCESS -> exists v, Rd Mmio 4 portsc v ∈ l /\ enabled v).

Lemma finish_failed o r s : going o s -> r <> RESET_SUCCESS -> finished r s.
Proof. intros (l & -> & Hl & _) Hr. by exists l. Qed.

Lemma finish_seen v r s : going (Some v) s -> (r = RESET_SUCCESS -> enabled v) -> finished r s.
Proof. intros (l & -> & Hl & Hv) Hr. exists l. split_and!; try done. intros E. exists v. auto. Qed.

Lemma reads_access l : Forall is_read l -> Forall (reset_access portsc) l.
Proof. intros H. eapply Forall_impl; [exact H|]. by intros []. Qed.

Lemma going_more o l l' : Forall (reset_access portsc) l' -> going o (at_ (l ++ t0) w x) ->
  Forall (reset_access portsc) l -> (match o with Some v => Rd Mmio 4 portsc v ∈ l | None => True end) ->
  going o (at_ ((l' ++ l) ++ t0) w x).
Proof.
  intros Hl' _ Hl Ho. exists (l' ++ l). split; [done|]. split; [by apply Forall_app|]. destruct o; [|done].
  apply elem_of_app. by right.
Qed.

Lemma wp_look o (Q : Z -> xhci_state W -> Prop) s : going o s ->
  (forall v s', going (Some v) s' -> Q v s') -> wp (r32 dev portsc) Q s.
Proof.
  intros (l & -> & Hl & _) HQ. x_step. set (v := io_value _ _ _ _ _). apply HQ.
  exists (Rd Mmio 4 portsc v :: l). split; [done|]. split; [by constructor|by left].
Qed.

Lemma wp_set o b v (Q : unit -> xhci_state W -> Prop) s : going o s -> b = PRC \/ b = PR ->
  (forall s', going o s' -> Q () s') -> wp (w32 portsc (xhci_portsc_neutral v ||| b)) Q s.
Proof.
  intros (l & -> & Hl & Ho) Hb HQ. x_step. apply HQ.
  apply (going_more o l [Wr Mmio 4 portsc _]); [|by exists l|done|done]. apply Forall_singleton.
  split; [done|]. split; [done|]. split; [done|]. change (2 ^ (8 * 4)) with (2 ^ 32). rewrite <- (Z.land_ones _ 32) by lia.
  rewrite <- Z.land_assoc. change (Z.ones 32 &&& FORBIDDEN) with FORBIDDEN. by apply neutral_safe.
Qed.

Lemma wp_read_other o (a width : Z) (Q : Z -> xhci_state W -> Prop) s : going o s ->
  (forall v s', going o s' -> Q v s') -> wp (mmio_read dev width a) Q s.
Proof.
  intros (l & -> & Hl & Ho) HQ. x_step. apply HQ.
  apply (going_more o l [Rd Mmio width a _]); [by apply Forall_singleton|by exists l|done|done].
Qed.

Lemma wp_protocol o port (Q : Z -> xhci_state W -> Prop) s : going o s ->
  (forall v s', going o s' -> Q v s') -> wp (protocol_major_of dev port) Q s.
Proof.
  intros Hg HQ. unfold protocol_major_of, read_protocol. apply wp_bind. apply wp_bind.
  assert (get (fun x => io_base (controller x)) s = Done (io_base (controller x)) s) as E by (by destruct Hg as (l & -> & _)).
  unfold wp at 1. rewrite E. apply wp_bind. apply (wp_read_other o); [done|]. intros v s1 Hg1. cbn beta.
  eapply wp_mono; [apply (wp_while _ (fun '(_, remaining) s => going o s /\ 0 <= remaining <= 256) (fun '(_, remaining) _ => remaining)
     (fun _ s => going o s))|].
  - intros [offset remaining] s2 (Hg2 & Hb). destruct ((offset =? 0) || (remaining =? 0)) eqn:Eo; [by apply wp_ret|].
    apply wp_bind. apply (wp_read_other o); [done|]. intros header s3 Hg3. apply wp_bind.
    assert (remaining <> 0) by (intros ->; rewrite orb_true_r in Eo; done).
    destruct (header &&& 255 =? 2).
    + apply wp_bind. apply (wp_read_other o); [done|]. intros p s4 Hg4. apply wp_bind. apply (wp_read_other o); [done|].
      intros q s5 Hg5. destruct (_ && _); apply wp_ret, wp_ret; [done|].
      destruct ((header >>> 8) &&& 0xff =? 0); [done|]. cbn. split_and!; done || lia.
    + apply wp_ret, wp_ret. destruct ((header >>> 8) &&& 0xff =? 0); [done|]. cbn. split_and!; done || lia.
  - split; [done|lia].
  - unfold FUEL. lia.
  - intros [ty major] s2 Hg2. apply wp_ret. by apply HQ.
Qed.

Context (Hf : 0 <= freq) (Hb : freq + 999 < 2 ^ 64).

Lemma wp_pause o (Q : unit -> xhci_state W -> Prop) s : going o s -> (forall s', going o s' -> Q () s') ->
  wp (wait_ms (xhci_timer timer) 1) Q s.
Proof.
  intros (l & -> & Hl & Ho) HQ. apply wp_wait; [done|lia|lia|]. intros l' Hl'. apply HQ. rewrite app_assoc.
  apply going_more; try done; [by apply reads_access|by exists l].
Qed.

(** The loop that waits for the end of the reset. *)
Lemma wp_reset_loop o s : going o s ->
  wp (while FUEL (fun elapsed =>
        if elapsed <? RESET_TIMEOUT then
          status ← r32 dev portsc;
          match reset_state status with
          | Some code => mret (inr (Some code))
          | None => wait_ms (xhci_timer timer) 1;; mret (inl (elapsed + 1))
          end
        else mret (inr None)) 0)
    (fun r s' => match r with Some code => finished code s' | None => exists o', going o' s' end) s.
Proof.
  intros Hg. apply (wp_while _ (fun elapsed s => (exists o, going o s) /\ 0 <= elapsed <= RESET_TIMEOUT)
    (fun elapsed _ => RESET_TIMEOUT - elapsed)).
  - clear s Hg. intros elapsed s [(o' & Hg) He]. destruct (Z.ltb_spec elapsed RESET_TIMEOUT); [|apply wp_ret; by exists o'].
    apply wp_bind. apply (wp_look o'); [done|]. intros v s1 Hg1. destruct (reset_state v) as [code|] eqn:Er.
    + apply wp_ret. apply (finish_seen v); [done|]. intros ->. by apply reset_state_success.
    + apply wp_bind. apply (wp_pause (Some v)); [done|]. intros s2 Hg2. apply wp_ret. split_and!; [by exists (Some v)|lia..].
  - split; [by exists o|]. unfold RESET_TIMEOUT. lia.
  - unfold RESET_TIMEOUT, FUEL. lia.
Qed.
End Reset.

Ltac failed := eapply finish_failed; [eassumption|let E := fresh in intros E; discriminate E].

Lemma wp_reset_port (dev : device) port t w x : 0 <= freq -> freq + 999 < 2 ^ 64 ->
  let op := io_base (controller x) + io_value dev t Mmio 1 (io_base (controller x)) in
  wp (reset_port dev timer port)
    (finished (op + XHCI_PORTSC_BASE + (port - 1) * XHCI_PORTSC_STRIDE) t w x) (at_ t w x).
Proof.
  intros Hf Hb op. set (portsc := op + XHCI_PORTSC_BASE + (port - 1) * XHCI_PORTSC_STRIDE).
  unfold reset_port. apply wp_bind. apply wp_get. cbn beta. destruct ((port <? 1) || (port >? ports_count x)).
  { apply wp_ret. by exists []. }
  apply wp_bind. unfold op_base, cap_length. apply wp_bind. apply wp_get. apply wp_bind. x_step. apply wp_ret.
  fold op. fold portsc.
  assert (going portsc t w x None (at_ (Rd Mmio 1 (io_base (controller x)) (io_value dev t Mmio 1 (io_base (controller x))) :: t) w x)) as Hg.
  { eexists [_]. split; [done|]. split; [by repeat constructor|done]. }
  revert Hg. generalize (at_ (Rd Mmio 1 (io_base (controller x)) (io_value dev t Mmio 1 (io_base (controller x))) :: t) w x).
  intros s0 Hg0. apply wp_bind. apply (wp_look dev portsc t w x None); [done|]. intros v s1 Hg1. cbn beta.
  destruct (v =? ALL_ONES); [apply wp_ret; by eapply finish_failed|].
  destruct (Z.eqb_spec (v &&& CCS) 0) as [|Hccs]; [apply wp_ret; by eapply finish_failed|].
  destruct (Z.eqb_spec (v &&& OCA) 0) as [Hoca|]; cbn [negb]; [|apply wp_ret; failed].
  destruct (Z.eqb_spec (v &&& PR) 0) as [Hpr|]; cbn [negb]; [|apply wp_ret; failed].
  apply wp_bind. apply (wp_protocol dev portsc t w x (Some v)); [done|]. intros major s2 Hg2. cbn beta.
  destruct ((3 <=? major) && negb (v &&& PED =? 0) && (v &&& PLS_MASK =? U0)) eqn:Eu.
  { apply wp_ret. apply (finish_seen portsc t w x v); [done|]. intros _. apply andb_prop in Eu as [Eu Epls].
    apply andb_prop in Eu as [_ Eped]. apply Z.eqb_eq in Epls. apply negb_true_iff, Z.eqb_neq in Eped. by split_and!. }
  apply wp_bind. apply (wp_set portsc t w x (Some v)); [done|by left|]. intros s3 Hg3.
  apply wp_bind. apply (wp_look dev portsc t w x (Some v)); [done|]. intros v4 s4 Hg4. cbn beta.
  destruct (v4 =? ALL_ONES); [apply wp_ret; by eapply finish_failed|].
  destruct (v4 &&& CCS =? 0); [apply wp_ret; by eapply finish_failed|].
  destruct (negb (v4 &&& PRC =? 0)); [apply wp_ret; by eapply finish_failed|].
  apply wp_bind. apply (wp_set portsc t w x (Some v4)); [done|by right|]. intros s5 Hg5.
  apply wp_bind. eapply wp_mono; [by eapply (wp_reset_loop dev portsc t w x)|]. intros [code|] s6.
  - intros H. by apply wp_ret.
  - intros (o & Hg6). apply wp_bind. apply (wp_look dev portsc t w x o); [done|]. intros v7 s7 Hg7. apply wp_ret.
    destruct (negb (v7 =? ALL_ONES) && negb (v7 &&& PR =? 0)); failed.
Qed.
End Ports.

(** ** The properties *)

(** C24: with a time source that ticks, [reset_port] returns whatever the port's register shows, and
    leaves the object alone. All it stores is in that register, and no value it stores disables
    the port, writes the link state, acknowledges another change than the end of a reset or asks
    for a warm reset; it reports success only if the register showed the port connected, without
    over-current, enabled, in U0 and not in reset. *)
Theorem reset_port_correct {W} `{!IO W} (timer : TimerSource W) (freq : Z) (clock : list PortIO.event -> Z)
    (dev : device) (port : Z) (s : xhci_state W) :
  ticking timer freq clock -> 0 <= freq -> freq + 999 < 2 ^ 64 ->
  let base := io_base (controller (obj s)) in
  let portsc := base + io_value dev (trace s) Mmio 1 base + XHCI_PORTSC_BASE + (port - 1) * XHCI_PORTSC_STRIDE in
  exists r s' l, reset_port dev timer port s = Done r s' /\ obj s' = obj s /\ trace s' = l ++ trace s /\
    Forall (reset_access portsc) l /\
    (r = RESET_SUCCESS -> exists v, Rd Mmio 4 portsc v ∈ l /\ enabled v).
Proof.
  intros Ht Hf Hb base portsc.
  destruct (wp_inv _ _ _ (wp_reset_port timer freq clock Ht dev port (trace s) (world s) (obj s) Hf Hb))
    as (r & s' & E & l & -> & Hl & Hr). rewrite at_same in E.
  eexists r, _, l. split; [exact E|]. split; [done|]. rewrite trace_at. done.
Qed.

Lemma reset_port_correct_witness :
  let portsc := 0x80000 + io_value sample_device sample_history Mmio 1 0x80000 + XHCI_PORTSC_BASE + (1 - 1) * XHCI_PORTSC_STRIDE in
  exists r s' l, reset_port sample_device sample_timer 1 sample_state = Done r s' /\ obj s' = obj sample_state /\
    trace s' = l ++ trace sample_state /\ Forall (reset_access portsc) l /\
    (r = RESET_SUCCESS -> exists v, Rd Mmio 4 portsc v ∈ l /\ enabled v).
Proof.
  apply (reset_port_correct sample_timer PM_TIMER_FREQUENCY sample_clock sample_device 1 sample_state sample_ticking);
    vm_compute; done.
Defined.

(** ** Port changes *)

Record changes_ok (x : xhci_controller) : Prop := {
  ch_length : length (pending_port_changes x) = 8%nat;
  ch_words : Forall (fun v => 0 <= v < 2 ^ 32) (pending_port_changes x)
}.

(** A change of port [q] is pending. *)
Definition pending_port (x : xhci_controller) (q : Z) : bool :=
  match pending_port_changes x !! Z.to_nat (q >>> 5) with Some v => Z.testbit v (q &&& 31) | None => false end.

Lemma port_place q : 0 <= q < 256 -> q >>> 5 = q / 32 /\ q &&& 31 = q mod 32 /\ (Z.to_nat (q / 32) < 8)%nat.
Proof.
  intros H. rewrite shiftr_div by lia. change 31 with (Z.ones 5). rewrite Z.land_ones by lia. split_and!; [done|done|divlia].
Qed.

Lemma port_mask q : 0 <= q < 256 -> u32 (1 <<< (q &&& 31)) = 2 ^ (q mod 32).
Proof.
  intros H. destruct (port_place q H) as (_ & -> & _). rewrite shiftl_mul, Z.mul_1_l by divlia.
  apply u32_id. split; [apply Z.pow_nonneg; lia|]. apply Z.pow_lt_mono_r; divlia.
Qed.

(** A word of the bitmap is rewritten. *)
Lemma pending_rewrite x v v' i (f : Z -> bool) : changes_ok x -> (i < 8)%nat ->
  pending_port_changes x !! i = Some v -> 0 <= v' < 2 ^ 32 -> (forall b, 0 <= b < 32 -> Z.testbit v' b = f (32 * Z.of_nat i + b)) ->
  let x' := set_pending_port_changes (<[i := v']>) x in
  changes_ok x' /\ forall q, 0 <= q < 256 -> pending_port x' q = if q / 32 =? Z.of_nat i then f q else pending_port x q.
Proof.
  intros H Hi Hv Hv' Hf x'. split.
  - constructor; cbn; [by rewrite length_insert, (ch_length _ H)|]. apply Forall_insert; [apply H|done].
  - intros q Hq. unfold pending_port. destruct (port_place q Hq) as (-> & -> & Hlt). cbn [pending_port_changes x' set_pending_port_changes].
    destruct (Z.eqb_spec (q / 32) (Z.of_nat i)) as [E|E].
    + rewrite E, Nat2Z.id, list_lookup_insert_eq by (by rewrite (ch_length _ H)). rewrite Hf by divlia. f_equal. divlia.
    + by rewrite list_lookup_insert_ne by divlia.
Qed.

Lemma port_word x q : changes_ok x -> 0 <= q < 256 ->
  exists v, pending_port_changes x !! Z.to_nat (q / 32) = Some v /\ 0 <= v < 2 ^ 32 /\
    forall b, 0 <= b < 32 -> Z.testbit v b = pending_port x (32 * (q / 32) + b).
Proof.
  intros H Hq. destruct (port_place q Hq) as (_ & _ & Hlt).
  destruct (lookup_lt_is_Some_2 (pending_port_changes x) (Z.to_nat (q / 32))) as [v Hv]; [by rewrite (ch_length _ H)|].
  exists v. split; [done|]. split; [apply (proj1 (Forall_lookup _ _) (ch_words _ H) _ _ Hv)|].
  intros b Hb. unfold pending_port. destruct (port_place (32 * (q / 32) + b)) as (-> & -> & _); [divlia|].
  replace ((32 * (q / 32) + b) / 32) with (q / 32) by divlia. rewrite Hv. f_equal. divlia.
Qed.

Lemma handle_change x e : changes_ok x -> 0 <= d0 e < 2 ^ 32 -> trb_type e = 34 ->
  changes_ok (handle_event e x) /\ forall q, 0 < q < 256 ->
    pending_port (handle_event e x) q = (q =? d0 e >>> 24) || pending_port x q.
Proof.
  intros H Hd Ht. unfold handle_event. rewrite Ht. change (34 =? 33) with false. change (34 =? 34) with true. cbn iota.
  set (p := d0 e >>> 24). assert (0 <= p < 256) as Hp by (subst p; rewrite shiftr_div by lia; change (2 ^ 24) with 16777216; change (2 ^ 32) with 4294967296 in Hd; divlia).
  rewrite (proj2 (Z.ltb_lt p 256)) by lia. rewrite andb_true_r. destruct (Z.eqb_spec p 0) as [E|E]; cbn [negb].
  { split; [done|]. intros q Hq. by rewrite (proj2 (Z.eqb_neq q p)) by lia. }
  destruct (port_place p Hp) as (Ep & _ & Hlt). rewrite port_mask by done. rewrite Ep.
  destruct (port_word x p H Hp) as (v & Hv & Hvr & Hvb).
  assert (set_pending_port_changes (alter (fun w => w ||| 2 ^ (p mod 32)) (Z.to_nat (p / 32))) x =
          set_pending_port_changes (<[Z.to_nat (p / 32) := v ||| 2 ^ (p mod 32)]>) x) as ->.
  { unfold set_pending_port_changes. f_equal. apply list_eq. intros j. destruct (decide (j = Z.to_nat (p / 32))) as [->|Hne].
    - rewrite list_lookup_alter_eq, Hv, list_lookup_insert_eq by (by rewrite (ch_length _ H)). done.
    - by rewrite list_lookup_alter_ne, list_lookup_insert_ne by done. }
  pose proof (Z.mod_pos_bound p 32 ltac:(lia)) as Hm.
  destruct (pending_rewrite x v (v ||| 2 ^ (p mod 32)) (Z.to_nat (p / 32)) (fun q => (q =? p) || pending_port x q) H Hlt Hv) as [Hok Hall].
  - apply lor_bounded; [lia|done|]. split; [apply Z.pow_nonneg; lia|apply Z.pow_lt_mono_r; lia].
  - intros b Hb. rewrite Z.lor_spec, Z.pow2_bits_eqb, Hvb by lia. rewrite orb_comm.
    replace (32 * Z.of_nat (Z.to_nat (p / 32)) + b) with (32 * (p / 32) + b) by divlia. f_equal.
    destruct (Z.eqb_spec (p mod 32) b), (Z.eqb_spec (32 * (p / 32) + b) p); try done; divlia.
  - split; [done|]. intros q Hq. rewrite Hall by lia. destruct (Z.eqb_spec (q / 32) (Z.of_nat (Z.to_nat (p / 32)))) as [Eq|Eq]; [done|].
    rewrite (proj2 (Z.eqb_neq q p)) by (intros ->; divlia). done.
Qed.

Section Take.
Context {W : Type} `{!IO W}.

(** The bitmap is a set of ports: a Port Status Change event adds its port (port 0 is no port),
    and [xhci_take_port_change] answers whether its port is in the set and takes it out. Either
    leaves every other port alone. So a worker sees each change once, and none is lost before it
    is taken. *)
Lemma port_changes_correct (s : xhci_state W) (p : Z) : changes_ok (obj s) -> 0 <= p < 256 ->
  (forall e, 0 <= d0 e < 2 ^ 32 -> trb_type e = 34 ->
     changes_ok (handle_event e (obj s)) /\ forall q, 0 < q < 256 ->
       pending_port (handle_event e (obj s)) q = (q =? d0 e >>> 24) || pending_port (obj s) q) /\
  exists s', xhci_take_port_change p s = Done (if (0 <? p) && pending_port (obj s) p then 1 else 0) s' /\
    changes_ok (obj s') /\ world s' = world s /\
    forall q, 0 < q < 256 -> pending_port (obj s') q = negb (q =? p) && pending_port (obj s) q.
Proof.
  intros H Hp. split; [intros e; by apply handle_change|]. unfold xhci_take_port_change.
  destruct (Z.eqb_spec p 0) as [->|Hne].
  { eexists. split; [reflexivity|]. split; [done|]. split; [done|]. intros q Hq. by rewrite (proj2 (Z.eqb_neq q 0)) by lia. }
  rewrite (proj2 (Z.ltb_lt 0 p)) by lia. cbn [andb]. destruct (port_place p Hp) as (Ep & Em & Hlt). rewrite port_mask, Ep by done.
  destruct (port_word (obj s) p H Hp) as (v & Hv & Hvr & Hvb). pose proof (Z.mod_pos_bound p 32 ltac:(lia)) as Hm.
  eexists. split.
  - unfold get, gets, mbind, M_bind. rewrite Hv. cbn.
    assert ((v &&& 2 ^ (p mod 32) =? 0) = negb (pending_port (obj s) p)) as ->.
    { replace (pending_port (obj s) p) with (Z.testbit v (p mod 32)) by (rewrite Hvb by lia; f_equal; divlia).
      destruct (Z.testbit v (p mod 32)) eqn:E; cbn.
      - apply Z.eqb_neq. intros E0. apply (f_equal (fun z => Z.testbit z (p mod 32))) in E0.
        rewrite Z.land_spec, E, Z.pow2_bits_true, Z.bits_0 in E0 by lia. done.
      - apply Z.eqb_eq. apply Z.bits_inj'. intros b Hb. rewrite Z.land_spec, Z.bits_0, Z.pow2_bits_eqb by lia.
        destruct (Z.eqb_spec (p mod 32) b) as [<-|]; [by rewrite E|by rewrite andb_false_r]. }
    by destruct (pending_port (obj s) p).
  - cbn [obj world].
    destruct (pending_rewrite (obj s) v (v &&& u32 (Z.lnot (2 ^ (p mod 32)))) (Z.to_nat (p / 32))
      (fun q => negb (q =? p) && pending_port (obj s) q) H Hlt Hv) as [Hok Hall].
    + by apply land_bounded.
    + intros b Hb. rewrite Z.land_spec, Hvb by lia. unfold u32. rewrite testbit_mod_pow2, Z.lnot_spec, Z.pow2_bits_eqb by lia.
      rewrite (proj2 (Z.ltb_lt b 32)) by lia. cbn [andb]. rewrite andb_comm.
      replace (32 * Z.of_nat (Z.to_nat (p / 32)) + b) with (32 * (p / 32) + b) by divlia. f_equal. f_equal.
      destruct (Z.eqb_spec (p mod 32) b), (Z.eqb_spec (32 * (p / 32) + b) p); try done; divlia.
    + split; [done|]. split; [done|]. intros q Hq. rewrite Hall by lia.
      destruct (Z.eqb_spec (q / 32) (Z.of_nat (Z.to_nat (p / 32)))) as [Eq|Eq]; [done|].
      rewrite (proj2 (Z.eqb_neq q p)) by (intros ->; divlia). done.
Qed.
End Take.

Definition sample_change : xhci_state (list PortIO.event) :=
  mkState [] (handle_event (mkTrb (5 <<< 24) 0 0 (34 <<< 10)) sample_xhci).

Lemma port_changes_correct_witness :
  pending_port (obj sample_change) 5 = true /\
  (forall e, 0 <= d0 e < 2 ^ 32 -> trb_type e = 34 ->
     changes_ok (handle_event e (obj sample_change)) /\ forall q, 0 < q < 256 ->
       pending_port (handle_event e (obj sample_change)) q = (q =? d0 e >>> 24) || pending_port (obj sample_change) q) /\
  exists s', xhci_take_port_change 5 sample_change = Done (if (0 <? 5) && pending_port (obj sample_change) 5 then 1 else 0) s' /\
    changes_ok (obj s') /\ world s' = world sample_change /\
    forall q, 0 < q < 256 -> pending_port (obj s') q = negb (q =? 5) && pending_port (obj sample_change) q.
Proof.
  split; [reflexivity|]. apply (port_changes_correct sample_change 5); [|lia]. constructor; [reflexivity|].
  cbn. repeat constructor; vm_compute; congruence.
Defined.
