(* ===== verification/UsbDesc.v ===== *)
(** * USB: configuration trees ([drivers/usb/usb.cpp])

    The bytes a device sends as its configuration are a sequence of descriptors, each with its
    length in front. Two passes go over them: one counts the interfaces, one fills an array of
    them with their endpoints. A byte outside the buffer is a fault, and so is a store outside the
    array. *)
From S2P Require Import KPrelude PortIO Pci Dma Timers UsbTypes.

Definition interface_case := 0x04.
Definition sizeof_usb_endpoint := 22.

(** A byte of the buffer, and a [memcpy] out of it. *)
Definition tree_byte {S} (tree : list Z) (i : Z) : M S Z :=
  if 0 <=? i then of_option (tree !! Z.to_nat i) else fault.
Definition tree_copy {S} (tree : list Z) (i n : Z) : M S (list Z) :=
  for_ 0 n (fun k acc => b ← tree_byte tree (i + k); mret (acc ++ [b])) [].

Definition count_tree {S} (tree : list Z) (max_length Case : Z) : M S Z :=
  while FUEL (fun '(count, offset) =>
    if offset <? max_length then
      if max_length - offset <? 2 then mret (inr count)
      else
        length ← tree_byte tree offset;
        type ← tree_byte tree (offset + 1);
        if (length <? 2) || (length >? max_length - offset) then mret (inr count)
        else mret (inl (if type =? Case then u16 (count + 1) else count, u16 (offset + length)))
    else mret (inr count)) (0, 0).

(** The header of the descriptor at [offset]; [None] when it does not fit. *)
Definition descriptor_header {S} (tree : list Z) (max_length offset : Z) : M S (option (Z * Z)) :=
  if max_length - offset <? 2 then mret None
  else
    length ← tree_byte tree offset;
    type ← tree_byte tree (offset + 1);
    mret (if (length <? 2) || (length >? max_length - offset) then None else Some (length, type)).

(** The loop up to the first endpoint. *)
Definition skip_to_endpoint {S} (tree : list Z) (max_length offset length type : Z)
    : M S (option (Z * Z)) :=
  while FUEL (fun '(offset, length, type) =>
    if type =? 0x05 then mret (inr (Some (offset, length)))
    else
      let offset := u16 (offset + length) in
      h ← descriptor_header tree max_length offset;
      mret (match h with
            | None => inr None
            | Some (length, type) => if type =? 0x04 then inr None else inl (offset, length, type)
            end)) (offset, length, type).

(** The endpoint whose descriptor is at [offset]; [None] when it is malformed (what the element
    holds then does not matter: the caller gives the whole array back). *)
Definition read_endpoint {S} (tree : list Z) (max_length offset length : Z) (i : usb_interface)
    : M S (option usb_endpoint) :=
  if length <? 7 then mret None
  else
    d ← tree_copy tree offset 7;
    let next_offset := u16 (offset + length) in
    let fill c := mkEndpoint (bEndpointAddress d) (bmAttributes d &&& 0x03)
                    (wMaxPacketSize d &&& 0x07ff) (bInterval d) 0
                    (bInterfaceNumber (if_descriptor i)) (bAlternateSetting (if_descriptor i)) d
                    (match c with Some _ => true | None => false end)
                    (default (replicate 6 0) c) in
    if max_length - next_offset <? 2 then mret (Some (fill None))
    else
      type ← tree_byte tree (next_offset + 1);
      if type =? 0x30 then
        companion_length ← tree_byte tree next_offset;
        if (companion_length <? 6) || (companion_length >? max_length - next_offset) then mret None
        else c ← tree_copy tree next_offset 6; mret (Some (fill (Some c)))
      else mret (Some (fill None)).

(** The endpoints of one interface, from the first endpoint descriptor on: whether it went well,
    the offset behind the last one and the array. *)
Definition endpoint_loop {S} (tree : list Z) (max_length : Z) (i : usb_interface)
    (offset length : Z) (array : list usb_endpoint) : M S (bool * Z * list usb_endpoint) :=
  while FUEL (fun '(offset, length, type, j, array) =>
    if j <? endpoint_count i then
      if type =? 0x04 then mret (inr (false, offset, array))
      else
        let was_endpoint := if type =? 0x05 then 1 else 0 in
        e ← (if type =? 0x05 then read_endpoint tree max_length offset length i
             else mret (Some no_endpoint)) : M S (option usb_endpoint);
        match e with
        | None => mret (inr (false, offset, array))
        | Some e =>
            array ← (if type =? 0x05 then of_option (array_set array j e) else mret array);
            let offset := u16 (offset + length) in
            if j + was_endpoint =? endpoint_count i then mret (inr (true, offset, array))
            else
              h ← descriptor_header tree max_length offset;
              mret (match h with
                    | None => inr (false, offset, array)
                    | Some (length, type) => inl (offset, length, type, u8 (j + was_endpoint), array)
                    end)
        end
    else mret (inr (true, offset, array))) (offset, length, 0x05, 0, array).

Section Fill.
Context {S : Type} `{!HeapOps S}.

(** The interface whose descriptor is at [offset]: whether it went well, the offset behind it and
    what the array holds for it. [new usb_endpoint[n]{}] initialises the elements at the address that
    [operator new] answers before the code compares it with null (neither operator is [noexcept]), so
    a heap without a block is a fault. *)
Definition fill_interface (tree : list Z) (max_length offset length : Z) (old : usb_interface)
    : M S (bool * Z * usb_interface) :=
  if length <? 9 then mret (false, offset, old)
  else
    d ← tree_copy tree offset 9;
    if bNumEndpoints d =? 0 then mret (true, u16 (offset + length), mkInterface d None 0 0)
    else
      let n := bNumEndpoints d in
      p ← operator_new (n * sizeof_usb_endpoint);
      if p =? 0 then fault
      else
        let array := replicate (Z.to_nat n) no_endpoint in
        let i := mkInterface d (Some array) p n in
        first ← skip_to_endpoint tree max_length offset length 0x04;
        match first with
        | None => mret (false, offset, i)
        | Some (offset, length) =>
            '(ok, offset, array) ← endpoint_loop tree max_length i offset length array;
            mret (ok, offset, mkInterface d (Some array) p n)
        end.

Definition fill_interfaces (tree : list Z) (max_length : Z) (interfaces : list usb_interface)
    (interfaces_count : Z) : M S (bool * list usb_interface) :=
  while FUEL (fun '(offset, i, interfaces) =>
    if (offset <? max_length) && (i <? interfaces_count) then
      h ← descriptor_header tree max_length offset;
      match h with
      | None => mret (inr (false, interfaces))
      | Some (length, type) =>
          if type =? 0x04 then
            old ← of_option (interfaces !! Z.to_nat i);
            '(ok, offset', new) ← fill_interface tree max_length offset length old;
            let interfaces := <[Z.to_nat i := new]> interfaces in
            mret (if (ok : bool) then inl (offset', u16 (i + 1), interfaces) else inr (false, interfaces))
          else mret (inl (u16 (offset + length), i, interfaces))
      end
    else mret (inr (i =? interfaces_count, interfaces))) (0, 0, interfaces).
End Fill.
