(* ===== verification/UsbDescProofs.v ===== *)
(** * USB: configuration trees, proofs

    On a sequence of descriptors the two passes compute what a recursive reading of the sequence
    says; on any bytes at all they stay inside the buffer and end. *)
From S2P Require Import KPrelude PortIO Pci Dma Timers UsbTypes UsbDesc.

(** ** The reference: reading a list of descriptors *)

Definition desc_type (d : list Z) : Z := field8 d 1.
Record desc_ok (d : list Z) : Prop := {
  do_length : field8 d 0 = Z.of_nat (length d);
  do_short : (2 <= length d)%nat
}.

(** The companion that follows an endpoint: [None] when it is malformed. *)
Definition companion (r : list (list Z)) : option (option (list Z)) :=
  match r with
  | c :: _ => if desc_type c =? 0x30 then (if Z.of_nat (length c) <? 6 then None else Some (Some (take 6 c)))
              else Some None
  | [] => Some None
  end.

Definition the_endpoint (i : usb_interface_descriptor) (d : list Z) (c : option (list Z)) : usb_endpoint :=
  mkEndpoint (bEndpointAddress (take 7 d)) (bmAttributes (take 7 d) &&& 0x03) (wMaxPacketSize (take 7 d) &&& 0x07ff)
    (bInterval (take 7 d)) 0 (bInterfaceNumber i) (bAlternateSetting i) (take 7 d)
    (match c with Some _ => true | None => false end) (default (replicate 6 0) c).

(** The next [k] endpoints of the interface [i], and what is left behind them. *)
Fixpoint read_endpoints (i : usb_interface_descriptor) (k : nat) (ds : list (list Z))
    : option (list usb_endpoint * list (list Z)) :=
  match k, ds with
  | O, _ => Some ([], ds)
  | S _, [] => None
  | S k', d :: r =>
      if desc_type d =? 0x04 then None
      else if desc_type d =? 0x05 then
        if Z.of_nat (length d) <? 7 then None
        else match companion r with
             | None => None
             | Some c =>
                 match read_endpoints i k' r with
                 | Some (es, rest) => Some (the_endpoint i d c :: es, rest)
                 | None => None
                 end
             end
      else read_endpoints i k r
  end.

Lemma read_endpoints_cons i k d r : read_endpoints i (S k) (d :: r) =
  if desc_type d =? 0x04 then None
  else if desc_type d =? 0x05 then
    if Z.of_nat (length d) <? 7 then None
    else match companion r with
         | None => None
         | Some c => match read_endpoints i k r with
                     | Some (es, rest) => Some (the_endpoint i d c :: es, rest)
                     | None => None
                     end
         end
  else read_endpoints i (S k) r.
Proof. done. Qed.

(** The next [n] interfaces. *)
Fixpoint read_interfaces (fuel : nat) (n : nat) (ds : list (list Z))
    : option (list (usb_interface_descriptor * list usb_endpoint)) :=
  match fuel, n, ds with
  | _, O, _ => Some []
  | O, _, _ | _, S _, [] => None
  | S fuel, S n', d :: r =>
      if desc_type d =? 0x04 then
        if Z.of_nat (length d) <? 9 then None
        else
          let i := take 9 d in
          match read_endpoints i (Z.to_nat (bNumEndpoints i)) r with
          | Some (es, rest) =>
              match read_interfaces fuel n' rest with Some l => Some ((i, es) :: l) | None => None end
          | None => None
          end
      else read_interfaces fuel n r
  end.

Lemma read_endpoints_rest i k : forall ds es rest, read_endpoints i k ds = Some (es, rest) ->
  (length rest <= length ds)%nat /\ length es = k.
Proof.
  induction k as [|k IH]; intros ds es rest E; [destruct ds; by injection E as <- <-|].
  induction ds as [|d r IHr]; [done|]. rewrite read_endpoints_cons in E. cbn [length].
  destruct (_ =? 4); [done|]. destruct (_ =? 5); [|destruct (IHr E); lia].
  destruct (_ <? 7); [done|]. destruct (companion r) as [c|]; [|done].
  destruct (read_endpoints i k r) as [[es' rest']|] eqn:Er; [|done]. injection E as <- <-.
  destruct (IH _ _ _ Er). cbn [length]. lia.
Qed.

Lemma read_interfaces_fuel f : forall f' n ds, (length ds <= f)%nat -> (length ds <= f')%nat ->
  read_interfaces f n ds = read_interfaces f' n ds.
Proof.
  induction f as [|f IH]; intros [|f'] [|n] [|d r] H1 H2; cbn [length] in *; try lia; try done. cbn [read_interfaces].
  destruct (_ =? 4); [|apply IH; lia]. destruct (_ <? 9); [done|].
  destruct (read_endpoints _ _ r) as [[es rest]|] eqn:E; [|done]. apply read_endpoints_rest in E as [Hl _].
  rewrite (IH f' n rest) by lia. done.
Qed.

(** The interfaces of a sequence of descriptors. *)
Definition interfaces_of (n : nat) (ds : list (list Z)) := read_interfaces (length ds) n ds.

Lemma interfaces_of_cons n d r : interfaces_of (S n) (d :: r) =
  if desc_type d =? 0x04 then
    match (if Z.of_nat (length d) <? 9 then None
           else read_endpoints (take 9 d) (Z.to_nat (bNumEndpoints (take 9 d))) r) with
    | Some (es, rest) => match interfaces_of n rest with Some l => Some ((take 9 d, es) :: l) | None => None end
    | None => None
    end
  else interfaces_of (S n) r.
Proof.
  unfold interfaces_of. cbn [length read_interfaces]. destruct (_ =? 4); [|done]. destruct (_ <? 9); [done|].
  destruct (read_endpoints _ _ r) as [[es rest]|] eqn:E; [|done]. apply read_endpoints_rest in E as [Hl _].
  by rewrite (read_interfaces_fuel (length r) (length rest) n rest) by lia.
Qed.

Lemma concat_length ds : Forall desc_ok ds -> (length ds <= length (concat ds))%nat.
Proof. induction 1 as [|d r [_ Hs] _ IH]; cbn [concat length]; [lia|]. rewrite length_app. lia. Qed.

(** ** Reading the bytes *)

Section Tree.
Context (tree : list Z).
Abbreviation max := (Z.of_nat (length tree)).
Context (Hshort : Z.of_nat (length tree) < 65536).

(** The descriptors [ds] are what the tree holds from [offset] on. *)
Definition at_offset (offset : Z) (ds : list (list Z)) : Prop :=
  exists pre, tree = pre ++ concat ds /\ offset = Z.of_nat (length pre) /\ Forall desc_ok ds.

Lemma at_range offset ds : at_offset offset ds -> 0 <= offset /\ offset + Z.of_nat (length (concat ds)) = max.
Proof. intros (pre & E & -> & _). rewrite E, length_app. lia. Qed.

Lemma at_next offset d r : at_offset offset (d :: r) -> at_offset (u16 (offset + Z.of_nat (length d))) r.
Proof.
  intros H. pose proof (at_range _ _ H) as Hr. cbn [concat] in Hr. rewrite length_app in Hr.
  destruct H as (pre & E & -> & Hds). exists (pre ++ d). cbn [concat] in E. rewrite E, <- app_assoc. split; [done|].
  split; [|by inversion Hds]. rewrite length_app, Nat2Z.inj_add. apply u16_id. change (2 ^ 16) with 65536. lia.
Qed.

Lemma at_byte {S} offset d r k v (Q : Z -> S -> Prop) s : at_offset offset (d :: r) -> d !! k = Some v ->
  Q v s -> wp (tree_byte tree (offset + Z.of_nat k)) Q s.
Proof.
  intros (pre & E & -> & _) Hk HQ. unfold tree_byte. rewrite (proj2 (Z.leb_le _ _)) by lia.
  replace (Z.to_nat (Z.of_nat (length pre) + Z.of_nat k)) with (length pre + k)%nat by lia.
  apply wp_of_option. exists v. split; [|done]. rewrite E. cbn [concat]. rewrite lookup_app_r by lia.
  replace (length pre + k - length pre)%nat with k by lia. rewrite lookup_app_l by (by eapply lookup_lt_Some). done.
Qed.

Lemma field_lookup d k : (k < length d)%nat -> d !! k = Some (field8 d k).
Proof. intros H. unfold field8. destruct (lookup_lt_is_Some_2 d k H) as [v E]. by rewrite E. Qed.

Lemma at_copy {S} offset d r n (Q : list Z -> S -> Prop) s : at_offset offset (d :: r) -> (n <= length d)%nat ->
  Q (take n d) s -> wp (tree_copy tree offset (Z.of_nat n)) Q s.
Proof.
  intros H Hn HQ. unfold tree_copy.
  eapply wp_mono; [apply (wp_for (fun k acc s' => s' = s /\ acc = take (Z.to_nat k) d)); [lia|done|]|].
  - intros k acc s' Hk [-> ->]. apply wp_bind.
    replace (offset + k) with (offset + Z.of_nat (Z.to_nat k)) by lia.
    eapply (at_byte _ d r); [done|apply field_lookup; lia|]. apply wp_ret. split; [done|].
    replace (Z.to_nat (k + 1)) with (Datatypes.S (Z.to_nat k)) by lia.
    symmetry. apply take_S_r. apply field_lookup. lia.
  - intros acc s' [-> ->]. by rewrite Z.add_0_l, Nat2Z.id.
Qed.

Lemma at_header {S} offset ds (Q : option (Z * Z) -> S -> Prop) s : at_offset offset ds ->
  Q (match ds with [] => None | d :: _ => Some (Z.of_nat (length d), desc_type d) end) s ->
  wp (descriptor_header tree max offset) Q s.
Proof.
  intros H HQ. pose proof (at_range _ _ H) as Hr. unfold descriptor_header. destruct ds as [|d r].
  - cbn in Hr. rewrite (proj2 (Z.ltb_lt _ _)) by lia. by apply wp_ret.
  - assert (desc_ok d) as [Hl Hs] by (destruct H as (_ & _ & _ & Hds); by inversion Hds).
    cbn [concat] in Hr. rewrite length_app in Hr. rewrite (proj2 (Z.ltb_ge _ _)) by lia.
    apply wp_bind. replace offset with (offset + Z.of_nat 0) at 1 by lia.
    eapply (at_byte offset d r 0); [done|apply field_lookup; lia|]. apply wp_bind.
    eapply (at_byte offset d r 1); [done|apply field_lookup; lia|]. apply wp_ret. rewrite Hl.
    rewrite (proj2 (Z.ltb_ge _ _)) by lia. destruct (Z.gtb_spec (Z.of_nat (length d)) (max - offset)); [lia|]. done.
Qed.

(** ** Endpoints *)

Lemma wp_read_endpoint {S} offset d r (i : usb_interface) (Q : option usb_endpoint -> S -> Prop) s :
  at_offset offset (d :: r) ->
  Q (if Z.of_nat (length d) <? 7 then None
     else match companion r with None => None | Some c => Some (the_endpoint (if_descriptor i) d c) end) s ->
  wp (read_endpoint tree max offset (Z.of_nat (length d)) i) Q s.
Proof.
  intros H HQ. unfold read_endpoint. destruct (Z.ltb_spec (Z.of_nat (length d)) 7); [by apply wp_ret|].
  apply wp_bind. change 7 with (Z.of_nat 7). eapply (at_copy offset d r 7); [done|lia|]. cbn beta zeta.
  pose proof (at_next _ _ _ H) as Hn. pose proof (at_range _ _ Hn) as Hr.
  set (next := u16 (offset + Z.of_nat (length d))) in *. destruct r as [|c r].
  - cbn in Hr. rewrite (proj2 (Z.ltb_lt _ _)) by lia. by apply wp_ret.
  - assert (desc_ok c) as [Hl Hs] by (destruct Hn as (_ & _ & _ & Hds); by inversion Hds).
    cbn [concat] in Hr. rewrite length_app in Hr. rewrite (proj2 (Z.ltb_ge _ _)) by lia.
    apply wp_bind. eapply (at_byte next c r 1); [done|apply field_lookup; lia|]. cbn [companion] in HQ. unfold desc_type in HQ.
    destruct (field8 c 1 =? 48); [|by apply wp_ret].
    apply wp_bind. replace next with (next + Z.of_nat 0) at 1 by lia.
    eapply (at_byte next c r 0); [done|apply field_lookup; lia|]. rewrite Hl.
    destruct (Z.gtb_spec (Z.of_nat (length c)) (max - next)); [lia|]. rewrite orb_false_r.
    destruct (Z.ltb_spec (Z.of_nat (length c)) 6); [by apply wp_ret|].
    apply wp_bind. change 6 with (Z.of_nat 6). eapply (at_copy next c r 6); [done|lia|]. by apply wp_ret.
Qed.

(** The first endpoint behind the descriptor at [offset]. *)
Lemma wp_skip {S} (i : usb_interface_descriptor) offset d0 r0 (s : S) : at_offset offset (d0 :: r0) -> desc_type d0 <> 5 ->
  wp (skip_to_endpoint tree max offset (Z.of_nat (length d0)) (desc_type d0)) (fun o s' => s' = s /\
    match o with
    | None => forall k, read_endpoints i (Datatypes.S k) r0 = None
    | Some (offset', length') => exists e r, at_offset offset' (e :: r) /\ desc_type e = 5 /\ length' = Z.of_nat (length e) /\
        forall k, read_endpoints i (Datatypes.S k) r0 = read_endpoints i (Datatypes.S k) (e :: r)
    end) s.
Proof.
  intros H0 Ht0. unfold skip_to_endpoint.
  eapply (wp_while_ix _ (fun '(d, r) '(offset, len, type) s' => s' = s /\ at_offset offset (d :: r) /\
      len = Z.of_nat (length d) /\ type = desc_type d /\
      forall k, read_endpoints i (Datatypes.S k) r0 =
        if desc_type d =? 5 then read_endpoints i (Datatypes.S k) (d :: r) else read_endpoints i (Datatypes.S k) r)
    (fun '(_, r) => Z.of_nat (length r))).
  - intros [d r] [[off len] type] s' (-> & H & -> & -> & Hsame). destruct (Z.eqb_spec (desc_type d) 5) as [E|E].
    + apply wp_ret. split; [done|]. by exists d, r.
    + apply wp_bind. apply (at_header _ r); [by apply at_next|]. apply wp_ret. destruct r as [|e r].
      * split; [done|]. intros k. by rewrite Hsame.
      * destruct (Z.eqb_spec (desc_type e) 4) as [E4|E4].
        -- split; [done|]. intros k. by rewrite Hsame, read_endpoints_cons, E4.
        -- exists (e, r). split; [|cbn [length]; lia]. split; [done|]. split; [by apply (at_next _ d)|]. split; [done|].
           split; [done|]. intros k. rewrite Hsame. destruct (Z.eqb_spec (desc_type e) 5) as [E5|E5]; [done|].
           by rewrite read_endpoints_cons, (proj2 (Z.eqb_neq _ _) E4), (proj2 (Z.eqb_neq _ _) E5).
  - instantiate (1 := (d0, r0)). split; [done|]. split; [done|]. split; [done|]. split; [done|]. intros k.
    by rewrite (proj2 (Z.eqb_neq _ _) Ht0).
  - pose proof (at_range _ _ H0) as Hr. cbn [concat] in Hr. rewrite length_app in Hr.
    destruct H0 as (_ & _ & _ & Hds). pose proof (concat_length r0 ltac:(by inversion Hds)). unfold FUEL. lia.
Qed.

(** The endpoints from the descriptor [d0] on. *)
Lemma wp_endpoint_loop {S} (i : usb_interface) offset d0 r0 n (s : S) : at_offset offset (d0 :: r0) ->
  desc_type d0 = 5 -> endpoint_count i = Z.of_nat n -> (0 < n < 256)%nat ->
  wp (endpoint_loop tree max i offset (Z.of_nat (length d0)) (replicate n no_endpoint)) (fun '(ok, offset', array) s' => s' = s /\
    match read_endpoints (if_descriptor i) n (d0 :: r0) with
    | Some (es, rest) => ok = true /\ array = es /\ at_offset offset' rest
    | None => ok = false
    end) s.
Proof.
  intros H0 Ht0 Hn Hpos. unfold endpoint_loop. rewrite Hn. set (id := if_descriptor i).
  eapply (wp_while_ix _ (fun '(d, r, done_) '(offset, len, type, j, array) s' => s' = s /\ at_offset offset (d :: r) /\
      len = Z.of_nat (length d) /\ type = desc_type d /\ j = Z.of_nat (length done_) /\ (length done_ < n)%nat /\
      array = done_ ++ replicate (n - length done_) no_endpoint /\
      read_endpoints id n (d0 :: r0) = match read_endpoints id (n - length done_) (d :: r) with
                                       | Some (es, rest) => Some (done_ ++ es, rest) | None => None end)
    (fun '(_, r, _) => Z.of_nat (length r))).
  - intros [[d r] dn] [[[[off len] type] j] array] s' (-> & H & -> & -> & -> & Hlt & -> & Hsame).
    rewrite (proj2 (Z.ltb_lt _ _)) by lia. rewrite Hsame. clear Hsame.
    remember (n - length dn)%nat as k eqn:Ek. destruct k as [|k]; [lia|].
    assert (forall (x : usb_endpoint), array_set (dn ++ replicate (Datatypes.S k) no_endpoint) (Z.of_nat (length dn)) x =
      Some ((dn ++ [x]) ++ replicate k no_endpoint)) as Hins.
    { intros x. rewrite array_set_Some by (rewrite length_app, length_replicate; lia). f_equal.
      rewrite Nat2Z.id, insert_app_r_alt, Nat.sub_diag by lia. cbn. by rewrite <- app_assoc. }
    rewrite read_endpoints_cons. destruct (Z.eqb_spec (desc_type d) 4) as [E4|E4]; [by apply wp_ret|].
    pose proof (at_next _ _ _ H) as Hnext. set (next := u16 (off + Z.of_nat (length d))) in *.
    destruct (Z.eqb_spec (desc_type d) 5) as [E5|E5].
    + apply wp_bind. eapply wp_read_endpoint; [exact H|].
      destruct (Z.of_nat (length d) <? 7); [by apply wp_ret|]. destruct (companion r) as [c|]; [|by apply wp_ret].
      fold id. set (e := the_endpoint id d c). rewrite Hins. cbn zeta. cbn [of_option]. apply wp_bind, wp_ret.
      destruct (Z.eqb_spec (Z.of_nat (length dn) + 1) (Z.of_nat n)) as [Ee|Ee].
      * assert (k = 0%nat) as -> by lia. apply wp_ret. cbn [read_endpoints replicate]. rewrite app_nil_r. by destruct r.
      * apply wp_bind. apply (at_header _ r); [done|]. apply wp_ret. destruct r as [|d' r].
        -- destruct k as [|k]; [lia|]. done.
        -- exists (d', r, dn ++ [e]). rewrite length_app. cbn [length]. split; [|lia].
           replace (n - (length dn + 1))%nat with k by lia.
           split; [done|]. split; [done|]. split; [done|]. split; [done|].
           split; [rewrite Nat2Z.inj_add; apply u8_id; change (2 ^ 8) with 256; lia|]. split; [lia|]. split; [done|].
           destruct (read_endpoints id k (d' :: r)) as [[es rest]|]; [|done]. by rewrite <- app_assoc.
    + apply wp_bind, wp_ret. cbn zeta. rewrite Z.add_0_r. apply wp_bind, wp_ret.
      rewrite (proj2 (Z.eqb_neq (Z.of_nat (length dn)) (Z.of_nat n))) by lia.
      apply wp_bind. apply (at_header _ r); [done|]. apply wp_ret. destruct r as [|d' r]; [done|].
      exists (d', r, dn). split; [|cbn [length]; lia]. rewrite <- Ek. split; [done|]. split; [done|]. split; [done|]. split; [done|].
      split; [apply u8_id; change (2 ^ 8) with 256; lia|]. done.
  - instantiate (1 := (d0, r0, [])). cbn [length app]. rewrite Nat.sub_0_r. split; [done|]. split; [done|]. split; [done|].
    split; [done|]. split; [done|]. split; [lia|]. split; [done|].
    by destruct (read_endpoints id n (d0 :: r0)) as [[es rest]|].
  - pose proof (at_range _ _ H0) as Hr. cbn [concat] in Hr. rewrite length_app in Hr.
    destruct H0 as (_ & _ & _ & Hds). pose proof (concat_length r0 ltac:(by inversion Hds)). unfold FUEL. lia.
Qed.

(** ** Interfaces *)

(** An element of the array holds the interface that was read. *)
Definition holds_interface (new : usb_interface) (x : usb_interface_descriptor * list usb_endpoint) : Prop :=
  if_descriptor new = x.1 /\ endpoint_count new = Z.of_nat (length x.2) /\
  endpoints new = match x.2 with [] => None | es => Some es end.

Context (Hbytes : Forall (fun b => 0 <= b < 256) tree).

Lemma desc_byte offset d r k : at_offset offset (d :: r) -> (k < length d)%nat -> 0 <= field8 d k < 256.
Proof.
  intros (pre & E & _ & _) Hk. pose proof (field_lookup d k Hk) as Hf.
  apply (proj1 (Forall_lookup _ _) Hbytes (length pre + k)%nat). rewrite E. cbn [concat].
  rewrite lookup_app_r by lia. replace (length pre + k - length pre)%nat with k by lia. by rewrite lookup_app_l by lia.
Qed.

Section Fill.
Context {S : Type} `{!HeapOps S} (Hheap : forall n (s : S), exists p s', kmalloc n s = Done p s' /\ p <> 0).

Lemma wp_fill_interface offset d r old (s : S) : at_offset offset (d :: r) -> desc_type d = 4 ->
  wp (fill_interface tree max offset (Z.of_nat (length d)) old) (fun '(ok, offset', new) _ =>
    match (if Z.of_nat (length d) <? 9 then None
           else read_endpoints (take 9 d) (Z.to_nat (bNumEndpoints (take 9 d))) r) with
    | Some (es, rest) => ok = true /\ at_offset offset' rest /\ holds_interface new (take 9 d, es)
    | None => ok = false
    end) s.
Proof.
  intros H Ht. unfold fill_interface. destruct (Z.ltb_spec (Z.of_nat (length d)) 9); [by apply wp_ret|].
  apply wp_bind. change 9 with (Z.of_nat 9) at 1. eapply (at_copy offset d r 9); [done|lia|].
  set (i := take 9 d). assert (0 <= bNumEndpoints i < 256) as Hn.
  { unfold bNumEndpoints, field8. subst i. rewrite lookup_take_lt by lia. apply (desc_byte offset d r 4 H). lia. }
  destruct (Z.eqb_spec (bNumEndpoints i) 0) as [E0|E0].
  { apply wp_ret. rewrite E0. change (Z.to_nat 0) with 0%nat. cbn [read_endpoints].
    assert (forall X (a b : X), match r with [] => a | _ :: _ => a end = a) as _ by (by destruct r).
    destruct r; (split; [done|]; split; [by apply (at_next _ d)|done]). }
  apply wp_bind. unfold operator_new. destruct (Hheap (bNumEndpoints i * sizeof_usb_endpoint) s) as (p & s1 & E & Hp).
  unfold wp at 1. rewrite E. rewrite (proj2 (Z.eqb_neq _ _) Hp). apply wp_bind.
  rewrite <- Ht. eapply wp_mono; [apply (wp_skip i offset d r); [done|by rewrite Ht]|].
  intros o s2 (-> & Ho). remember (Z.to_nat (bNumEndpoints i)) as n eqn:En. destruct n as [|n]; [lia|].
  destruct o as [[off' len']|]; [|apply wp_ret; by rewrite Ho].
  destruct Ho as (e & r' & He & Hte & -> & Hsame). apply wp_bind.
  eapply wp_mono; [apply (wp_endpoint_loop (mkInterface i (Some (replicate (Datatypes.S n) no_endpoint)) p (bNumEndpoints i))
    off' e r' (Datatypes.S n)); [done|done|cbn; lia|lia]|].
  intros [[ok off2] array] s2 (-> & Hr). apply wp_ret. cbn [if_descriptor] in Hr. rewrite Hsame.
  destruct (read_endpoints i (Datatypes.S n) (e :: r')) as [[es rest]|] eqn:Er; [|done].
  destruct Hr as (-> & -> & Hat). split; [done|]. split; [done|]. apply read_endpoints_rest in Er as [_ Hl].
  split; [done|]. cbn [snd]. split; [cbn; lia|]. destruct es; [discriminate Hl|done].
Qed.

Lemma wp_fill_interfaces ds0 n (s : S) : at_offset 0 ds0 -> (Z.of_nat n < 65536) ->
  wp (fill_interfaces tree max (replicate n no_interface) (Z.of_nat n)) (fun '(ok, array) _ =>
    match interfaces_of n ds0 with
    | Some l => ok = true /\ Forall2 holds_interface array l
    | None => ok = false
    end) s.
Proof.
  intros H0 Hn. unfold fill_interfaces.
  eapply (wp_while_ix _ (fun '(ds, l) '(offset, i, array) (_ : S) => at_offset offset ds /\ i = Z.of_nat (length l) /\
      (length l <= n)%nat /\ (exists a, array = a ++ replicate (n - length l) no_interface /\ Forall2 holds_interface a l) /\
      interfaces_of n ds0 = match interfaces_of (n - length l) ds with Some l' => Some (l ++ l') | None => None end)
    (fun '(ds, _) => Z.of_nat (length ds))).
  - intros [ds l] [[off i] array] s1 (H & -> & Hl & (a & -> & Ha) & ->). pose proof (at_range _ _ H) as Hr.
    pose proof (Forall2_length _ _ _ Ha) as Hla.
    destruct (Z.ltb_spec off max) as [Hlt|Hge]; cbn [andb].
    2: { apply wp_ret. assert (ds = []) as ->.
         { destruct ds as [|d r]; [done|]. destruct H as (_ & _ & _ & Hds).
           pose proof (concat_length _ Hds) as Hc. cbn [length] in Hc. lia. }
         destruct (Z.eqb_spec (Z.of_nat (length l)) (Z.of_nat n)) as [E|E].
         - replace (n - length l)%nat with 0%nat by lia. cbn [replicate interfaces_of read_interfaces length].
           rewrite !app_nil_r. done.
         - destruct (n - length l)%nat eqn:Ek; [lia|done]. }
    destruct (Z.ltb_spec (Z.of_nat (length l)) (Z.of_nat n)) as [Hlt2|Hge2].
    2: { apply wp_ret. replace (n - length l)%nat with 0%nat by lia. rewrite (proj2 (Z.eqb_eq _ _)) by lia.
         unfold interfaces_of. destruct (length ds); cbn [replicate read_interfaces]; rewrite !app_nil_r; done. }
    destruct (n - length l)%nat as [|k] eqn:Ek; [lia|].
    apply wp_bind. apply (at_header _ ds); [done|]. destruct ds as [|d r]; [by apply wp_ret|].
    rewrite interfaces_of_cons. destruct (Z.eqb_spec (desc_type d) 4) as [E4|E4].
    + apply wp_bind. apply wp_of_option. exists no_interface. split.
      { rewrite Nat2Z.id, lookup_app_r by lia. by rewrite Hla, Nat.sub_diag. }
      apply wp_bind. eapply wp_mono; [by apply (wp_fill_interface off d r)|]. intros [[ok off2] new] s2 Hr2. apply wp_ret.
      assert (<[Z.to_nat (Z.of_nat (length l)) := new]> (a ++ replicate (Datatypes.S k) no_interface) = (a ++ [new]) ++ replicate k no_interface) as Hins.
      { rewrite Nat2Z.id, insert_app_r_alt by lia. rewrite Hla, Nat.sub_diag. cbn. by rewrite <- app_assoc. }
      destruct (if Z.of_nat (length d) <? 9 then None else _) as [[es rest]|] eqn:Ee; [|by rewrite Hr2].
      destruct Hr2 as (-> & Hat & Hnew). rewrite Hins. exists (rest, l ++ [(take 9 d, es)]). rewrite length_app. cbn [length].
      split.
      * split; [done|]. split; [rewrite u16_id by (change (2 ^ 16) with 65536; lia); lia|]. split; [lia|].
        replace (n - (length l + 1))%nat with k by lia. split.
        -- exists (a ++ [new]). split; [done|]. apply Forall2_app; [done|by constructor].
        -- destruct (interfaces_of k rest); [|done]. by rewrite <- app_assoc.
      * destruct (Z.of_nat (length d) <? 9); [done|]. apply read_endpoints_rest in Ee as [Hrl _]. lia.
    + apply wp_ret. exists (r, l). split; [|cbn [length]; lia]. split; [by apply (at_next _ d)|]. split; [done|]. split; [done|].
      rewrite Ek. split; [by exists a|done].
  - instantiate (1 := (ds0, [])). split; [done|]. split; [done|]. split; [cbn; lia|]. cbn [length]. rewrite Nat.sub_0_r.
    split; [by exists []|]. by destruct (interfaces_of n ds0).
  - pose proof (at_range _ _ H0). destruct H0 as (_ & _ & _ & Hds). pose proof (concat_length _ Hds). unfold FUEL. lia.
Qed.
End Fill.

(** The first pass counts the interface descriptors. *)
Definition interface_count (ds : list (list Z)) : nat := length (filter (fun d => desc_type d = 4) ds).

Lemma wp_count_tree {S} ds0 (s : S) : at_offset 0 ds0 ->
  wp (count_tree tree max interface_case) (fun n s' => s' = s /\ n = Z.of_nat (interface_count ds0)) s.
Proof.
  intros H0. unfold count_tree.
  eapply (wp_while_ix _ (fun ds '(count, offset) s' => s' = s /\ at_offset offset ds /\ 0 <= count /\
      count + Z.of_nat (length ds) < 65536 /\ Z.of_nat (interface_count ds0) = count + Z.of_nat (interface_count ds))
    (fun ds => Z.of_nat (length ds))).
  - intros ds [count off] s' (-> & H & Hc & Hb & Hsum). pose proof (at_range _ _ H) as Hr.
    assert (forall (d : list Z) r, ds = d :: r -> desc_ok d) as Hd by (intros d r ->; destruct H as (_ & _ & _ & Hds); by inversion Hds).
    destruct ds as [|d r].
    + cbn in Hr. rewrite (proj2 (Z.ltb_ge _ _)) by lia. apply wp_ret. split; [done|]. rewrite Hsum. cbn. lia.
    + destruct (Hd d r eq_refl) as [Hdl Hds]. cbn [concat] in Hr. rewrite length_app in Hr.
      rewrite (proj2 (Z.ltb_lt _ _)), (proj2 (Z.ltb_ge _ _)) by lia.
      apply wp_bind. replace off with (off + Z.of_nat 0) at 1 by lia.
      eapply (at_byte off d r 0); [done|apply field_lookup; lia|]. apply wp_bind.
      eapply (at_byte off d r 1); [done|apply field_lookup; lia|]. rewrite Hdl.
      rewrite (proj2 (Z.ltb_ge _ _)) by lia. destruct (Z.gtb_spec (Z.of_nat (length d)) (max - off)); [lia|]. cbn [orb].
      apply wp_ret. exists r. split; [|cbn [length]; lia]. cbn [length] in Hb. split; [done|].
      split; [by apply (at_next _ d)|]. unfold interface_case, interface_count in *. rewrite filter_cons in Hsum.
      change (field8 d 1) with (desc_type d). destruct (Z.eqb_spec (desc_type d) 4) as [E|E].
      * rewrite decide_True in Hsum by done. cbn [length] in Hsum. rewrite u16_id by (change (2 ^ 16) with 65536; lia). lia.
      * rewrite decide_False in Hsum by done. lia.
  - split; [done|]. split; [done|]. split; [lia|]. split; [|lia].
    pose proof (at_range _ _ H0). destruct H0 as (_ & _ & _ & Hds).
    pose proof (concat_length _ Hds). lia.
  - pose proof (at_range _ _ H0). destruct H0 as (_ & _ & _ & Hds).
    pose proof (concat_length _ Hds). unfold FUEL. lia.
Qed.
End Tree.

(** ** Any bytes *)

(** The heap blocks that the interfaces of an array hold. *)
Definition blocks (l : list usb_interface) : list Z := filter (fun p => p <> 0) (map endpoints_at l).

Section Any.
Context (tree : list Z) (Hshort : Z.of_nat (length tree) < 65536) (Hbytes : Forall (fun b => 0 <= b < 256) tree).
Abbreviation max := (Z.of_nat (length tree)).

Lemma safe_byte {S} i (Q : Z -> S -> Prop) s : 0 <= i < max -> (forall v, 0 <= v < 256 -> Q v s) -> wp (tree_byte tree i) Q s.
Proof.
  intros Hi HQ. unfold tree_byte. rewrite (proj2 (Z.leb_le _ _)) by lia. apply wp_of_option.
  destruct (lookup_lt_is_Some_2 tree (Z.to_nat i)) as [v Hv]; [lia|]. exists v. split; [done|]. apply HQ.
  by apply (proj1 (Forall_lookup _ _) Hbytes _ _ Hv).
Qed.

Lemma safe_copy {S} i n (Q : list Z -> S -> Prop) s : 0 <= i -> 0 <= n -> i + n <= max ->
  (forall l, Forall (fun b => 0 <= b < 256) l -> Q l s) -> wp (tree_copy tree i n) Q s.
Proof.
  intros Hi Hn Hm HQ. unfold tree_copy.
  eapply wp_mono; [apply (wp_for (fun _ l s' => s' = s /\ Forall (fun b => 0 <= b < 256) l)); [done|done|]|].
  - intros k l s' Hk [-> Hl]. apply wp_bind. apply safe_byte; [lia|]. intros v Hv. apply wp_ret. split; [done|].
    apply Forall_app. split; [done|by apply Forall_singleton].
  - intros l s' [-> Hl]. by apply HQ.
Qed.

(** A descriptor that fits. *)
Definition fits (offset length : Z) : Prop := 0 <= offset /\ 2 <= length < 256 /\ offset + length <= max.

Lemma fits_next offset length : fits offset length -> u16 (offset + length) = offset + length.
Proof. intros (? & ? & ?). apply u16_id. change (2 ^ 16) with 65536. lia. Qed.

Lemma safe_header {S} offset (Q : option (Z * Z) -> S -> Prop) s : 0 <= offset ->
  Q None s -> (forall length type, fits offset length -> Q (Some (length, type)) s) ->
  wp (descriptor_header tree max offset) Q s.
Proof.
  intros Ho HN HS. unfold descriptor_header. destruct (Z.ltb_spec (max - offset) 2); [by apply wp_ret|].
  apply wp_bind. apply safe_byte; [lia|]. intros len Hl. apply wp_bind. apply safe_byte; [lia|]. intros type _. apply wp_ret.
  destruct (Z.ltb_spec len 2); [done|]. destruct (Z.gtb_spec len (max - offset)); [done|]. apply HS. split; lia.
Qed.

Lemma safe_skip {S} offset len type (Q : option (Z * Z) -> S -> Prop) s : fits offset len ->
  Q None s -> (forall o l, offset <= o -> fits o l -> Q (Some (o, l)) s) ->
  wp (skip_to_endpoint tree max offset len type) Q s.
Proof.
  intros Hf HN HS. unfold skip_to_endpoint.
  apply (wp_while _ (fun '(o, l, _) s' => s' = s /\ offset <= o /\ fits o l) (fun '(o, _, _) _ => max - o)).
  - intros [[o l] ty] s' (-> & Ho & Hfo). destruct (ty =? 5); [apply wp_ret; by apply HS|].
    apply wp_bind. rewrite (fits_next _ _ Hfo). destruct Hfo as (? & ? & ?). apply safe_header; [lia|by apply wp_ret|].
    intros l' ty' Hf'. apply wp_ret. destruct (ty' =? 4); [done|]. pose proof Hf' as (? & ? & ?). split_and!; try done; lia.
  - done.
  - destruct Hf as (? & ? & ?). unfold FUEL. lia.
Qed.

Lemma safe_endpoint {S} offset len i (Q : option usb_endpoint -> S -> Prop) s : fits offset len ->
  (forall e, Q e s) -> wp (read_endpoint tree max offset len i) Q s.
Proof.
  intros Hf HQ. unfold read_endpoint. destruct (Z.ltb_spec len 7); [by apply wp_ret|]. pose proof Hf as (? & ? & ?).
  apply wp_bind. apply safe_copy; [lia..|]. intros d _. rewrite (fits_next _ _ Hf).
  destruct (Z.ltb_spec (max - (offset + len)) 2); [by apply wp_ret|].
  apply wp_bind. apply safe_byte; [lia|]. intros ty _. destruct (ty =? 48); [|by apply wp_ret].
  apply wp_bind. apply safe_byte; [lia|]. intros cl Hc. destruct (Z.ltb_spec cl 6); [by apply wp_ret|].
  destruct (Z.gtb_spec cl (max - (offset + len))); [by apply wp_ret|]. cbn [orb].
  apply wp_bind. apply safe_copy; [lia..|]. intros c _. by apply wp_ret.
Qed.

Lemma safe_endpoints {S} (i : usb_interface) offset len array (Q : bool * Z * list usb_endpoint -> S -> Prop) s :
  fits offset len -> 0 < endpoint_count i < 256 -> Z.of_nat (length array) = endpoint_count i ->
  (forall ok o a, offset < o <= max \/ ok = false -> length a = length array -> Q (ok, o, a) s) ->
  wp (endpoint_loop tree max i offset len array) Q s.
Proof.
  intros Hf Hn Hlen HQ. unfold endpoint_loop.
  apply (wp_while _ (fun '(o, l, _, j, a) s' => s' = s /\ offset <= o /\ fits o l /\ 0 <= j < endpoint_count i /\ length a = length array)
    (fun '(o, _, _, _, _) _ => max - o)).
  - intros [[[[o l] ty] j] a] s' (-> & Ho & Hfo & Hj & Ha). rewrite (proj2 (Z.ltb_lt _ _)) by lia.
    destruct (ty =? 4); [apply wp_ret; apply HQ; [by right|done]|]. apply wp_bind. pose proof Hfo as (? & ? & ?).
    assert (forall (P : option usb_endpoint -> S -> Prop), (forall e, P e s) ->
      wp (if ty =? 5 then read_endpoint tree max o l i else mret (Some no_endpoint)) P s) as He.
    { intros P HP. destruct (ty =? 5); [by apply safe_endpoint|by apply wp_ret]. }
    apply He. intros [e|]; [|apply wp_ret; apply HQ; [by right|done]]. cbn zeta. apply wp_bind.
    assert (forall (P : list usb_endpoint -> S -> Prop), (forall a', length a' = length array -> P a' s) ->
      wp (if ty =? 5 then of_option (array_set a j e) else mret a) P s) as Hs.
    { intros P HP. destruct (ty =? 5); [|by apply wp_ret, HP]. rewrite array_set_Some by lia. apply wp_ret, HP. by rewrite length_insert. }
    apply Hs. intros a' Ha'. rewrite (fits_next _ _ Hfo).
    set (was := if ty =? 5 then 1 else 0). assert (0 <= was <= 1) as Hw by (subst was; destruct (ty =? 5); lia).
    destruct (Z.eqb_spec (j + was) (endpoint_count i)) as [Ej|Ej]; [apply wp_ret; apply HQ; [left; lia|done]|].
    apply wp_bind. apply safe_header; [lia|apply wp_ret; apply HQ; [by right|done]|]. intros l' ty' Hf'. apply wp_ret.
    pose proof Hf' as (? & ? & ?). rewrite u8_id by (change (2 ^ 8) with 256; lia). split_and!; try done; lia.
  - split_and!; try done; lia.
  - destruct Hf as (? & ? & ?). unfold FUEL. lia.
Qed.

(** What the heap lends is tracked by a predicate [I] of the blocks in hand. *)
Section Fill.
Context {S : Type} `{!HeapOps S} (I : list Z -> S -> Prop).
Context (Hheap : forall n l (s : S), I l s -> wp (kmalloc n) (fun p s' => p <> 0 /\ I (p :: l) s') s).
Context (Hperm : forall l l' (s : S), I (l ++ l') s -> I (l' ++ l) s).

Lemma blocks_app l l' : blocks (l ++ l') = blocks l ++ blocks l'.
Proof. unfold blocks. by rewrite map_app, filter_app. Qed.
Lemma blocks_none n : blocks (replicate n no_interface) = [].
Proof. induction n as [|n IH]; [done|]. exact IH. Qed.

(** The array that an interface points to has as many elements as it says. *)
Definition interface_ok (i : usb_interface) : Prop :=
  0 <= endpoint_count i < 256 /\
  (endpoint_count i = 0 \/ exists es, endpoints i = Some es /\ Z.of_nat (length es) = endpoint_count i).

Lemma safe_fill_interface offset len L (Q : bool * Z * usb_interface -> S -> Prop) s : fits offset len -> I L s ->
  (forall ok o new s', offset < o <= max \/ ok = false -> I (blocks [new] ++ L) s' -> interface_ok new -> Q (ok, o, new) s') ->
  wp (fill_interface tree max offset len no_interface) Q s.
Proof.
  intros Hf HI HQ. unfold fill_interface.
  assert (forall d p, interface_ok (mkInterface d None p 0)) as Hnone by (intros d p; split; [cbn; lia|by left]).
  destruct (Z.ltb_spec len 9); [apply wp_ret, HQ; [by right|done|apply Hnone]|].
  pose proof Hf as (? & ? & ?). apply wp_bind. apply safe_copy; [lia..|]. intros d Hd. rewrite (fits_next _ _ Hf).
  destruct (Z.eqb_spec (bNumEndpoints d) 0) as [E|E]; [apply wp_ret, HQ; [left; lia|done|apply Hnone]|].
  assert (0 <= bNumEndpoints d < 256) as Hn.
  { unfold bNumEndpoints, field8. destruct (d !! 4%nat) as [v|] eqn:Ev; cbn; [by apply (proj1 (Forall_lookup _ _) Hd _ _ Ev)|lia]. }
  apply wp_bind. unfold operator_new. eapply wp_mono; [by apply Hheap|]. intros p s1 [Hp Hlent]. rewrite (proj2 (Z.eqb_neq _ _) Hp).
  assert (forall e k, I (blocks [mkInterface d e p k] ++ L) s1) as HI1.
  { intros e k. unfold blocks. cbn [map endpoints_at].
    by rewrite filter_cons_True by exact Hp. }
  assert (forall a, length a = length (replicate (Z.to_nat (bNumEndpoints d)) no_endpoint) ->
    interface_ok (mkInterface d (Some a) p (bNumEndpoints d))) as Hok.
  { intros a Ha. rewrite length_replicate in Ha. split; cbn; [lia|]. right. exists a. split; [done|lia]. }
  apply wp_bind. apply safe_skip; [done|apply wp_ret, HQ; [by right|apply HI1|by apply Hok]|]. intros o l Ho Hfo.
  apply wp_bind. apply safe_endpoints; [done|cbn; lia|cbn; rewrite length_replicate; lia|]. intros ok o2 a Hr Ha. apply wp_ret, HQ; [|apply HI1|by apply Hok].
  destruct Hr as [?|?]; [left; lia|by right].
Qed.

Lemma safe_fill_interfaces n (s : S) : (Z.of_nat n < 65536) -> I [] s ->
  wp (fill_interfaces tree max (replicate n no_interface) (Z.of_nat n))
    (fun '(ok, array) s' => length array = n /\ I (blocks array) s' /\ Forall interface_ok array) s.
Proof.
  intros Hn HI. unfold fill_interfaces.
  apply (wp_while _ (fun '(o, i, a) (s' : S) => 0 <= o <= max /\ 0 <= i <= Z.of_nat n /\
      exists d, a = d ++ replicate (n - Z.to_nat i) no_interface /\ length d = Z.to_nat i /\ I (blocks d) s' /\ Forall interface_ok d)
    (fun '(o, _, _) _ => max - o)).
  - intros [[o i] a] s1 (Ho & Hi & d & Ea & Hd & HId & Hdok).
    assert (forall k, Forall interface_ok (replicate k no_interface)) as Hnone by (intros k; apply Forall_replicate; split; [cbn; lia|by left]).
    assert (length a = n /\ I (blocks a) s1 /\ Forall interface_ok a) as Ha.
    { subst a. rewrite length_app, length_replicate, blocks_app, blocks_none, app_nil_r. split; [lia|]. split; [done|]. by apply Forall_app. }
    destruct (Z.ltb_spec o max); cbn [andb]; [|by apply wp_ret].
    destruct (Z.ltb_spec i (Z.of_nat n)); [|by apply wp_ret].
    apply wp_bind. apply safe_header; [lia|by apply wp_ret|]. intros l ty Hf. pose proof Hf as (? & ? & ?). destruct (ty =? 4).
    + apply wp_bind. apply wp_of_option. exists no_interface.
      assert (exists k, n - Z.to_nat i = Datatypes.S k /\ k = n - Z.to_nat (i + 1))%nat as (k & Ek & Ek') by (exists (n - Z.to_nat (i + 1))%nat; lia).
      rewrite Ek in Ea. cbn [replicate] in Ea. split; [subst a; by rewrite list_lookup_middle|].
      apply wp_bind. eapply (safe_fill_interface _ _ (blocks d)); [done|done|]. intros ok o2 new s2 Hr HI2 Hnew. apply wp_ret.
      assert (Forall interface_ok (d ++ [new])) as Hdok2 by (apply Forall_app; split; [done|by constructor]).
      assert (<[Z.to_nat i := new]> a = (d ++ [new]) ++ replicate k no_interface) as ->.
      { subst a. rewrite <- Hd, <- app_assoc. cbn [app]. replace (length d) with (length d + 0)%nat by lia. by rewrite insert_app_r. }
      assert (I (blocks (d ++ [new])) s2) as HI3 by (rewrite blocks_app; by apply Hperm).
      destruct ok.
      * destruct Hr as [Hr|]; [|done]. rewrite u16_id by (change (2 ^ 16) with 65536; lia).
        split; [|lia]. split; [lia|]. split; [lia|]. exists (d ++ [new]). rewrite <- Ek'. split; [done|].
        split; [rewrite length_app; cbn; lia|done].
      * split; [rewrite !length_app, length_replicate; cbn; lia|]. rewrite blocks_app, blocks_none, app_nil_r. split; [done|]. by apply Forall_app.
    + apply wp_ret. rewrite (fits_next _ _ Hf). split; [|lia]. split; [lia|]. split; [lia|]. by exists d.
  - split; [lia|]. split; [lia|]. exists []. by rewrite Nat.sub_0_r.
  - unfold FUEL. lia.
Qed.
End Fill.

Lemma safe_count_tree {S} (s : S) : wp (count_tree tree max interface_case) (fun n s' => s' = s /\ 0 <= n /\ 2 * n <= max) s.
Proof.
  unfold count_tree. apply (wp_while _ (fun '(n, o) s' => s' = s /\ 0 <= o <= max /\ 0 <= n /\ 2 * n <= o) (fun '(_, o) _ => max - o)).
  - intros [n o] s' (-> & Ho & Hn & Hb). destruct (Z.ltb_spec o max); [|apply wp_ret; split_and!; done || lia].
    destruct (Z.ltb_spec (max - o) 2); [apply wp_ret; split_and!; done || lia|].
    apply wp_bind. apply safe_byte; [lia|]. intros l Hl. apply wp_bind. apply safe_byte; [lia|]. intros ty _.
    destruct (Z.ltb_spec l 2); [apply wp_ret; split_and!; done || lia|].
    destruct (Z.gtb_spec l (max - o)); [apply wp_ret; split_and!; done || lia|]. cbn [orb]. apply wp_ret.
    rewrite (u16_id (o + l)) by (change (2 ^ 16) with 65536; lia).
    destruct (ty =? interface_case); rewrite ?u16_id by (change (2 ^ 16) with 65536; lia); split_and!; done || lia.
  - split_and!; done || lia.
  - unfold FUEL. lia.
Qed.
End Any.

Lemma heap_gives {S} (m : M S Z) s : (exists p s', m s = Done p s' /\ p <> 0) -> wp m (fun p _ => p <> 0 /\ True) s.
Proof. intros (p & s' & E & Hp). unfold wp. by rewrite E. Qed.

(** The endpoints' array is initialised also where there is none. *)
Lemma fill_interface_dry {S} `{!HeapOps S} tree max offset length old d (s s' : S) :
  9 <= length -> tree_copy tree offset 9 s = Done d s -> bNumEndpoints d <> 0 ->
  kmalloc (bNumEndpoints d * sizeof_usb_endpoint) s = Done 0 s' -> fill_interface tree max offset length old s = Fault.
Proof.
  intros Hl Hc Hn Hm. unfold fill_interface. rewrite (proj2 (Z.ltb_ge _ _)) by done. unfold mbind, M_bind.
  rewrite Hc, (proj2 (Z.eqb_neq _ _)) by done. unfold operator_new. by rewrite Hm.
Qed.

(** ** The properties *)

(** C22: on a configuration that is a sequence of well-formed descriptors, [count_tree] counts the
    interface descriptors, and [fill_interfaces] with that count succeeds exactly when a recursive
    reading of the sequence does (an interface descriptor of at least 9 bytes, then its endpoints,
    with other descriptors in between but no interface before the last endpoint, a malformed
    SuperSpeed companion refused), and fills the array with the interfaces of that reading: their
    descriptors and their endpoints in order, each with its companion. *)
Theorem fill_interfaces_correct {S} `{!HeapOps S} (ds : list (list Z)) (s : S) :
  (forall n (s : S), exists p s', kmalloc n s = Done p s' /\ p <> 0) ->
  let tree := concat ds in let max := Z.of_nat (length tree) in
  Forall desc_ok ds -> Forall (fun b => 0 <= b < 256) tree -> max < 65536 ->
  let n := interface_count ds in
  count_tree tree max interface_case s = Done (Z.of_nat n) s /\
  exists ok array s', fill_interfaces tree max (replicate n no_interface) (Z.of_nat n) s = Done (ok, array) s' /\
    match interfaces_of n ds with
    | Some l => ok = true /\ Forall2 holds_interface array l
    | None => ok = false
    end.
Proof.
  intros Hheap tree max Hds Hb Hmax n. assert (at_offset tree 0 ds) as H0 by (by exists []). split.
  - destruct (wp_inv _ _ _ (wp_count_tree tree Hmax ds s H0)) as (c & s' & E & -> & ->). exact E.
  - assert (Z.of_nat n < 65536) as Hn.
    { pose proof (concat_length _ Hds). unfold n, interface_count. pose proof (length_filter (fun d => desc_type d = 4) ds).
      unfold max, tree in Hmax. lia. }
    destruct (wp_inv _ _ _ (wp_fill_interfaces tree Hmax Hb Hheap ds n s H0 Hn)) as ([ok array] & s' & E & H).
    by exists ok, array, s'.
Qed.

(** C23: whatever bytes a device sends as its configuration, [count_tree] and [fill_interfaces], on a
    heap that has the blocks they ask for, read none outside the buffer, store nothing outside the
    array of interfaces or the array of endpoints of one of them (either is a fault), and return; the
    count is at most half the length, the array keeps its length, and every interface in it says how
    long its array of endpoints is. Without a block the first interface with endpoints is a fault
    ([fill_interface_dry]). *)
Theorem fill_interfaces_safe {S} `{!HeapOps S} (tree : list Z) (n : nat) (s : S) :
  (forall n (s : S), exists p s', kmalloc n s = Done p s' /\ p <> 0) ->
  let max := Z.of_nat (length tree) in
  Forall (fun b => 0 <= b < 256) tree -> max < 65536 -> Z.of_nat n < 65536 ->
  (exists c, count_tree tree max interface_case s = Done c s /\ 0 <= 2 * c <= max) /\
  exists ok array s', fill_interfaces tree max (replicate n no_interface) (Z.of_nat n) s = Done (ok, array) s' /\
    length array = n /\ Forall interface_ok array.
Proof.
  intros Hheap max Hb Hmax Hn. split.
  - destruct (wp_inv _ _ _ (safe_count_tree tree Hmax Hb s)) as (c & s' & E & -> & Hc). exists c. split; [exact E|]. lia.
  - destruct (wp_inv _ _ _ (safe_fill_interfaces tree Hmax Hb (fun _ _ => True)
      (fun n l s _ => heap_gives _ _ (Hheap n s)) (fun _ _ _ _ => I) n s Hn I)) as ([ok array] & s' & E & H & _ & Hok).
    by exists ok, array, s'.
Qed.

(** A heap that never runs dry, and a configuration with one interface and two endpoints. *)
#[local] Instance endless_heap : HeapOps Z := {|
  kmalloc n := fun top => Done (Z.abs top + 1) (Z.abs top + 1 + Z.abs n);
  kfree _ := mret ();
  krealloc _ _ n := fun top => Done (Z.abs top + 1) (Z.abs top + 1 + Z.abs n)
|}.
Definition sample_descriptors : list (list Z) :=
  [[9; 2; 41; 0; 1; 1; 0; 0x80; 50]; [9; 4; 0; 0; 2; 8; 6; 0x50; 0]; [7; 5; 0x81; 2; 0; 4; 0]; [6; 0x30; 15; 0; 0; 0];
   [4; 0x24; 0; 0]; [7; 5; 2; 2; 0; 4; 0]].

(** The witness, with the reading of the sample: one interface, two endpoints, the first with a
    companion. *)
Lemma fill_interfaces_correct_witness :
  count_tree (concat sample_descriptors) 42 interface_case 0 = Done 1 0 /\
  (exists ok array s', fill_interfaces (concat sample_descriptors) 42 (replicate 1 no_interface) 1 0 = Done (ok, array) s' /\
    match interfaces_of 1 sample_descriptors with
    | Some l => ok = true /\ Forall2 holds_interface array l
    | None => ok = false
    end) /\
  (fun l => map (fun e => (ep_address e, has_ss_companion e)) (snd l)) <$>
    (interfaces_of 1 sample_descriptors ≫= head) = Some [(0x81, true); (0x02, false)].
Proof.
  destruct (fill_interfaces_correct sample_descriptors (0 : Z)) as [H1 H2].
  - intros n s. exists (Z.abs s + 1), (Z.abs s + 1 + Z.abs n). split; [reflexivity|lia].
  - repeat constructor; vm_compute; lia.
  - repeat constructor; lia.
  - reflexivity.
  - split; [exact H1|]. split; [exact H2|reflexivity].
Defined.

(** Garbage whose last descriptor is cut off. *)
Lemma fill_interfaces_safe_witness :
  (exists c, count_tree [3; 0; 7; 9; 4; 0] 6 interface_case 0 = Done c 0 /\ 0 <= 2 * c <= 6) /\
  exists ok array s', fill_interfaces [3; 0; 7; 9; 4; 0] 6 (replicate 2 no_interface) 2 0 = Done (ok, array) s' /\
    length array = 2%nat /\ Forall interface_ok array.
Proof.
  apply (fill_interfaces_safe [3; 0; 7; 9; 4; 0] 2 (0 : Z)).
  - intros n s. exists (Z.abs s + 1), (Z.abs s + 1 + Z.abs n). split; [reflexivity|lia].
  - repeat constructor; lia.
  - reflexivity.
  - reflexivity.
Defined.
