(* ===== verification/Usb.v ===== *)
(** * USB: the part all host controllers share ([drivers/usb/usb.cpp])

    The base class [usb_controller]: finding the controller on PCI, mapping its registers, and the
    enumeration of a device, over the virtual methods of a controller ([HostController]). *)
From S2P Require Import KPrelude Paging PortIO Pci UsbTypes UsbDesc.

Definition MMIO := 0.
Definition IO_BAR := 1.
Definition config_case := 0x02.
Definition sizeof_usb_interface := 32.
Definition sizeof_usb_device := 72.

(** The addresses of the controllers found so far, as four arrays; the heap gave them their
    lengths. *)
Record usb_globals := mkUsb {
  taken_segment : list Z;
  taken_bus : list Z;
  taken_device : list Z;
  taken_function : list Z;
  Addr_count : Z;
  current_index : Z
}.

(** What the base class uses besides the heap: the state of PCI and its own static variables. *)
Class UsbHost (S : Type) := {
  host_pci : S -> pci_state;
  host_set_pci : pci_state -> S -> S;
  host_usb : S -> usb_globals;
  host_set_usb : usb_globals -> S -> S
}.

(** The fields a controller inherits and the methods it overrides. *)
Class HostController (S : Type) := {
  hc_class_code : Z;
  hc_subclass : Z;
  hc_prog_if : Z;
  hc_type : Z;
  hc_controller : S -> usb_controller_t;
  hc_set_controller : (usb_controller_t -> usb_controller_t) -> S -> S;
  hc_ports : S -> option (list usb_port_descriptor);
  hc_set_ports : (option (list usb_port_descriptor) -> option (list usb_port_descriptor)) -> S -> S;
  hc_ports_count : S -> Z;
  hc_set_ports_count : Z -> S -> S;
  controller_init : M S Z;
  enumrate_ports : M S Z;
  reset_port : Z -> M S Z;
  identify_device : Z -> M S usb_device_descriptor;
  set_address : usb_device_descriptor -> Z -> M S usb_device;
  usb_send_packet : usb_setup_packet -> Z -> Z -> Z -> Z -> M S packet_reply;
  configure_endpoints : usb_device -> Z -> Z -> Z -> M S Z;
  (** [None] keeps the base class's method. *)
  scan_ports_override : option ((Z -> M S usb_device) -> M S unit)
}.

Section Usb.
Context {S : Type} `{!HeapOps S} `{!UsbHost S} `{!HostController S}.
Context (dev : device).

Definition pci {A} (m : M pci_state A) : M S A := on_pci host_pci host_set_pci m.
Definition upd_controller (f : usb_controller_t -> usb_controller_t) : M S unit :=
  modify (hc_set_controller f).

(** *** Finding a controller *)

Definition class_is (device : PCI_ret) (class sub prog : Z) : bool :=
  (class_code device =? class) && (subclass device =? sub) && (prog_if device =? prog).

(** [count] is [Match->count]. *)
Definition usb_count_controllers (class sub prog : Z) (device : PCI_ret) (count : Z) : Z :=
  if negb (PCI_status device =? PCI_STATUS_SUCCESS) then count
  else if negb (class_is device class sub prog) then count
  else u8 (count + 1).

(** Whether one of the addresses taken so far is the device's. *)
Definition already_taken (device : PCI_ret) : M S bool :=
  u ← gets host_usb;
  let a := ret_address_ device in
  while FUEL (fun i =>
    if i <? Addr_count u then
      s ← of_option (array_get (taken_segment u) i);
      b ← of_option (array_get (taken_bus u) i);
      d ← of_option (array_get (taken_device u) i);
      f ← of_option (array_get (taken_function u) i);
      mret (if (segment a =? s) && (bus a =? b) && (device_ a =? d) && (function_ a =? f)
            then inr true else inl (u8 (i + 1)))
    else mret (inr false)) 0.

Definition usb_find_callback (device : PCI_ret) : M S unit :=
  c ← gets hc_controller;
  if found c || negb (PCI_status device =? PCI_STATUS_SUCCESS) then mret ()
  else if negb (class_is device (c_class_code c) (c_subclass c) (c_prog_if c)) then mret ()
  else
    taken ← already_taken device;
    if (taken : bool) then mret ()
    else
      upd_controller (set_pci_address (fun _ => ret_address_ device));;
      upd_controller (set_found (fun _ => true)).

Definition no_bar : pci_bar_t := mkBar 0 0 0 0 false 0.

Definition discover_controller (class sub prog : Z) : M S bool :=
  u ← gets host_usb;
  upd_controller (fun _ => mkController false false [] 0 (mkAddr 0 0 0 0) no_bar 0 class sub prog
                             (current_index u));;
  modify (host_set_usb (mkUsb (taken_segment u) (taken_bus u) (taken_device u) (taken_function u)
                          (Addr_count u) (u8 (current_index u + 1))));;
  pci_enumerate dev host_pci host_set_pci (Some usb_find_callback);;
  c ← gets hc_controller;
  mret (found c).

(** The loop over the base address registers: the first one in memory is mapped. *)
Definition map_bar (address : pci_address_t) (i : Z) : M S bool :=
  '(status, b) ← pci (pci_read_bar dev address i true);
  let b := default no_bar b in
  if negb (status =? PCI_STATUS_SUCCESS) then mret false
  else if bar_type b =? MMIO then
    let addr := bar_address b in
    let phys_start := addr &&& u64 (Z.lnot 4095) in
    let offset := u64 (bar_address b - phys_start) in
    let pages := u64 (offset + bar_size b + 4095) >>> 12 in
    pci (pg (root ← gets KernelPML4;
             create_mapping (u64 (phys_start + BASE)) phys_start pages 0x13 root));;
    pci (pg (flush_pages (u64 (phys_start + BASE)) pages));;
    upd_controller (set_io_base (fun _ => u64 (addr + BASE)));;
    upd_controller (set_bar (fun _ => b));;
    mret true
  else mret false.

Definition bar_count_of (header_type : Z) : option Z :=
  if header_type =? 0 then Some 6 else if header_type =? 1 then Some 2 else None.

(** The controller passed is always the object's. *)
Definition MapController (type : Z) : M S unit :=
  if type >? 1 then mret ()
  else
    c ← gets hc_controller;
    device ← pci (pci_get_info dev (pci_address c));
    if negb (PCI_status device =? PCI_STATUS_SUCCESS) then mret ()
    else if type =? IO_BAR then
      '(status, b) ← pci (pci_read_bar dev (pci_address c) 4 false);
      if negb (status =? PCI_STATUS_SUCCESS) then mret ()
      else
        let b := default no_bar b in
        upd_controller (set_io_base (fun _ => u16 (bar_address b)));;
        upd_controller (set_bar (fun _ => b))
    else
      match bar_count_of (header_type device &&& 0x7F) with
      | None => mret ()
      | Some bar_count =>
          while FUEL (fun i =>
            if i <? bar_count then
              mapped ← map_bar (pci_address c) i;
              mret (if (mapped : bool) then inr () else inl (u8 (i + 1)))
            else mret (inr ())) 0
      end.

(** *** Enumerating a device *)

Definition CONFIG_REQUEST (length : Z) : usb_setup_packet := mkSetup 0x80 0x06 0x0200 0 length.

Definition config_valid (d : configuration_descriptor) : bool :=
  (bLength d =? 9) && (bDescriptorType d =? config_case) && (9 <=? wTotalLength d) &&
  (wTotalLength d <=? 4096) && negb (bConfigurationValue d =? 0).

(** The sentinel of a request without data is no pointer. *)
Definition get_config (address maxpacketsize port : Z) : M S configuration_descriptor :=
  reply ← usb_send_packet (CONFIG_REQUEST 9) maxpacketsize 9 address port;
  match reply with
  | NoReply => mret (replicate 9 0)
  | Completed => fault
  | Reply buffer bytes =>
      kfree buffer;;
      mret (if config_valid bytes then take 9 bytes else replicate 9 0)
  end.

(** The interfaces' endpoint arrays, then the array of interfaces. *)
Definition delete_interfaces (at_ : Z) (l : list usb_interface) (count : Z) : M S unit :=
  (if at_ =? 0 then mret ()
   else for_ 0 count (fun i _ =>
     x ← of_option (array_get l i); operator_delete (endpoints_at x)) ());;
  operator_delete at_.

(** The interfaces from the configuration's bytes at [tree]; [false] when the device is given up. The
    array's elements are initialised before its address is compared with null. *)
Definition read_interfaces (Device : usb_device) (tree total : Z) (bytes : list Z)
    : M S (bool * usb_device) :=
  interfaces_count ← count_tree bytes total interface_case;
  if interfaces_count =? 0 then
    kfree tree;; mret (false, set_discovered (fun _ => false) Device)
  else
    p ← operator_new (interfaces_count * sizeof_usb_interface);
    let blank := replicate (Z.to_nat interfaces_count) no_interface in
    '(result, l) ← (if p =? 0 then fault else fill_interfaces bytes total blank interfaces_count);
    kfree tree;;
    if negb result then
      delete_interfaces p l interfaces_count;;
      mret (false, set_discovered (fun _ => false) (set_interfaces None 0 0 Device))
    else mret (true, set_interfaces (Some l) p interfaces_count Device).

Definition SET_CONFIGURATION (value : Z) : usb_setup_packet := mkSetup 0x00 0x09 value 0 0.

(** The endpoints are configured before the request on xHCI and after it elsewhere. *)
Definition select_configuration (Device : usb_device) (is_xhci : bool) (ep0_mps port : Z)
    : M S usb_device :=
  let value := bConfigurationValue (config Device) in
  let given_up := set_discovered (fun _ => false) Device in
  early ← (if is_xhci then configure_endpoints Device value ep0_mps (dev_address Device)
           else mret 0);
  if negb (early =? 0) then mret given_up
  else
    code ← usb_send_packet (SET_CONFIGURATION value) ep0_mps 0 (dev_address Device) port;
    match code with
    | Completed =>
        late ← (if is_xhci then mret 0
                else configure_endpoints Device value ep0_mps (dev_address Device));
        mret (if late =? 0 then Device else given_up)
    | _ =>
        (if is_xhci then upd_controller (set_needs_reinit (fun _ => true)) else mret ());;
        mret given_up
    end.

Definition is_xhci_controller (c : usb_controller_t) : bool :=
  (c_class_code c =? 0x0c) && (c_subclass c =? 0x03) && (c_prog_if c =? 0x30).
Definition ep0_mps_of (is_xhci : bool) (d : usb_device_descriptor) : Z :=
  if is_xhci && (bMaxPacketSize0 d =? 9) then 512 else bMaxPacketSize0 d.

(** An addressed device: its configuration, its interfaces, its endpoints. *)
Definition configure_device (Device : usb_device) (port : Z) : M S usb_device :=
  c ← gets hc_controller;
  let is_xhci := is_xhci_controller c in
  let ep0_mps := ep0_mps_of is_xhci (dev_descriptor Device) in
  conf ← get_config (dev_address Device) ep0_mps port;
  let Device := set_config (fun _ => conf) Device in
  let total := wTotalLength conf in
  if total <? 9 then mret (set_discovered (fun _ => false) Device)
  else
    tree ← usb_send_packet (CONFIG_REQUEST total) ep0_mps total (dev_address Device) port;
    match tree with
    | NoReply => mret (set_discovered (fun _ => false) Device)
    | Completed => fault
    | Reply tree bytes =>
        '(ok, Device) ← read_interfaces Device tree total bytes;
        if (ok : bool) then select_configuration Device is_xhci ep0_mps port else mret Device
    end.

Definition get_device (port : Z) : M S usb_device :=
  rests ← reset_port port;
  if negb (rests =? RESET_SUCCESS) then mret no_device
  else
    desc ← identify_device port;
    Device ← set_address desc port;
    if negb (discovered Device) then mret Device
    else
      let d := dev_descriptor Device in
      configure_device
        (set_dev_port_number (fun _ => port)
          (set_dev_vendor_id (fun _ => idVendor d)
            (set_dev_product_id (fun _ => idProduct d) Device))) port.

(** *** Bringing a controller up *)

Definition scan_ports_base : M S unit :=
  count ← gets hc_ports_count;
  for_ 0 count (fun i _ =>
    l ← gets hc_ports;
    l ← of_option l;
    p ← of_option (array_get l i);
    if negb (connected p) then mret ()
    else
      enumerated ← get_device (port_number p);
      if negb (discovered enumerated) then mret ()
      else
        q ← operator_new sizeof_usb_device;
        if q =? 0 then fault
        else
          modify (hc_set_ports (fmap (alter (fun p =>
            mkPort (port_number p) (connected p) (controller_type p) (port_status p)
              (Some enumerated)) (Z.to_nat i))))) ().

Definition scan_ports : M S unit :=
  match scan_ports_override with Some m => m get_device | None => scan_ports_base end.

(** The stores into the four arrays; outside of them is a fault. *)
Definition record_address : M S unit :=
  u ← gets host_usb;
  c ← gets hc_controller;
  let a := pci_address c in
  let i := Addr_count u in
  of_option (array_get (taken_segment u) i);;
  of_option (array_get (taken_bus u) i);;
  of_option (array_get (taken_device u) i);;
  of_option (array_get (taken_function u) i);;
  modify (host_set_usb (mkUsb
    (<[Z.to_nat i := segment a]> (taken_segment u)) (<[Z.to_nat i := bus a]> (taken_bus u))
    (<[Z.to_nat i := device_ a]> (taken_device u)) (<[Z.to_nat i := function_ a]> (taken_function u))
    (u8 (Addr_count u + 1)) (current_index u))).

(** The answer is [status]. *)
Definition construct_controller : M S Z :=
  dists ← discover_controller hc_class_code hc_subclass hc_prog_if;
  if negb dists then mret 1
  else
    MapController hc_type;;
    c ← gets hc_controller;
    st ← pci (pci_enable_device dev (pci_address c));
    if negb (st =? PCI_STATUS_SUCCESS) then mret 1
    else
      st ← pci (pci_enable_bus_mastering dev (pci_address c));
      if negb (st =? PCI_STATUS_SUCCESS) then mret 1
      else
        status ← controller_init;
        (if status =? 0 then
           n ← enumrate_ports;
           modify (hc_set_ports_count n);;
           if n >? 0 then scan_ports else mret ()
         else mret ());;
        record_address;;
        mret status.
End Usb.
