(* ===== verification/UsbProofs.v ===== *)
(** * USB: the enumeration of a device, proofs

    What [get_device] asks of a host controller is the class [HostLaws]; over it, the enumeration
    ends, returns or keeps every heap block it took, and makes its requests in the right order. *)
From S2P Require Import KPrelude PortIO Pci UsbTypes UsbDesc UsbDescProofs Usb.

(** What a controller was asked to do. *)
Inductive call :=
| Reset (port : Z)
| Identify (port : Z)
| Address (port : Z) (taken : bool)
| Request (packet : usb_setup_packet) (port : Z)
| Endpoints (value : Z).

(** The block that a reply hands over. *)
Definition reply_block (r : packet_reply) : list Z :=
  match r with Reply p _ => [p] | _ => [] end.
(** A reply fits the length that was asked for. *)
Definition reply_fits (length_ : Z) (r : packet_reply) : Prop :=
  match r with
  | NoReply => True
  | Completed => length_ = 0
  | Reply p b => length_ <> 0 /\ p <> 0 /\ Z.of_nat (length b) = length_ /\ Forall (fun v => 0 <= v < 256) b
  end.

(** The devices that have got an address and no endpoints yet. *)
Fixpoint unconfigured (C : list call) : Z :=
  match C with
  | [] => 0
  | Address _ true :: C => unconfigured C + 1
  | Endpoints _ :: C => unconfigured C - 1
  | _ :: C => unconfigured C
  end.

(** A device record whose arrays are as long as it says. *)
Definition device_ok (d : usb_device) : Prop :=
  exists l, interfaces d = Some l /\ usb_interface_count d = Z.of_nat (length l) /\ Z.of_nat (length l) < 65536 /\
    Forall interface_ok l.

(** [in_hand L C x s]: the blocks [L] are in the caller's hands, the calls [C] were made, the latest
    first, and the controller is an xHCI or not. The heap has a block whenever one is asked for. *)
Class HostLaws (S : Type) `{!HeapOps S} `{!HostController S} := {
  in_hand : list Z -> list call -> bool -> S -> Prop;
  in_hand_perm L L' C x s : L ≡ₚ L' -> in_hand L C x s -> in_hand L' C x s;
  in_hand_kind L C x s : in_hand L C x s -> is_xhci_controller (hc_controller s) = x;
  in_hand_calls L C x s : in_hand L C x s -> 0 <= unconfigured C;
  kmalloc_law n L C x s : in_hand L C x s ->
    wp (kmalloc n) (fun p s' => p <> 0 /\ in_hand (p :: L) C x s') s;
  kfree_law p L C x s : in_hand (p :: L) C x s -> wp (kfree p) (fun _ => in_hand L C x) s;
  reset_law port L C x s : in_hand L C x s ->
    wp (reset_port port) (fun _ => in_hand L (Reset port :: C) x) s;
  identify_law port L C x s : in_hand L C x s ->
    wp (identify_device port) (fun _ => in_hand L (Identify port :: C) x) s;
  address_law desc port L C x s : in_hand L C x s ->
    wp (set_address desc port) (fun d s' => in_hand L (Address port (discovered d) :: C) x s' /\ interfaces d = None) s;
  request_law packet mps length_ address port L C x s : in_hand L C x s -> 0 <= length_ < 65536 ->
    wp (usb_send_packet packet mps length_ address port) (fun r s' =>
      in_hand (reply_block r ++ L) (Request packet port :: C) x s' /\ reply_fits length_ r) s;
  endpoints_law d value mps address L C x s : in_hand L C x s -> device_ok d -> 0 < unconfigured C ->
    wp (configure_endpoints d value mps address) (fun _ => in_hand L (Endpoints value :: C) x) s;
  reinit_law L C x s : in_hand L C x s ->
    in_hand L C x (hc_set_controller (set_needs_reinit (fun _ => true)) s)
}.

Section Enumeration.
Context {S : Type} `{!HeapOps S} `{!HostController S} `{!HostLaws S}.
Implicit Types (L : list Z) (C : list call) (x : bool) (s : S).

Ltac hand H := eapply in_hand_perm; [|exact H]; cbn; solve_Permutation.

(** The blocks that a device record holds. *)
Definition device_blocks (d : usb_device) : list Z :=
  match interfaces d with None => [] | Some l => interfaces_at d :: blocks l end.

Lemma wp_operator_delete p L C x s : in_hand (filter (fun p => p <> 0) [p] ++ L) C x s ->
  wp (operator_delete p) (fun _ => in_hand L C x) s.
Proof.
  intros H. unfold operator_delete. destruct (Z.eqb_spec p 0) as [->|Hp]; [exact H|].
  rewrite filter_cons_True in H by exact Hp. by apply kfree_law.
Qed.

Lemma wp_delete_interfaces p l L C x s : p <> 0 -> in_hand (p :: blocks l ++ L) C x s ->
  wp (delete_interfaces p l (Z.of_nat (length l))) (fun _ => in_hand L C x) s.
Proof.
  intros Hp H. unfold delete_interfaces. rewrite (proj2 (Z.eqb_neq _ _) Hp). apply wp_bind.
  eapply wp_mono.
  { apply (wp_for (fun i (_ : unit) s' => in_hand (p :: blocks (drop (Z.to_nat i) l) ++ L) C x s')); [lia|exact H|].
    intros i _ s' Hi HI. apply wp_bind. destruct (array_get_Some l i) as (e & Ee & El); [lia|].
    apply wp_of_option. exists e. split; [done|]. apply wp_operator_delete.
    rewrite (drop_S _ _ _ El) in HI. eapply in_hand_perm; [|exact HI].
    replace (Z.to_nat (i + 1)) with (Datatypes.S (Z.to_nat i)) by lia. unfold blocks. cbn [map].
    rewrite <- (take_drop 1 (endpoints_at e :: _)). cbn [take drop]. rewrite filter_app.
    solve_Permutation. }
  cbn beta. intros _ s' HI. rewrite Z.add_0_l, Nat2Z.id, drop_all in HI. unfold operator_delete.
  rewrite (proj2 (Z.eqb_neq _ _) Hp). by apply kfree_law.
Qed.

Lemma config_valid_length d : config_valid d = true -> 9 <= wTotalLength d < 65536.
Proof.
  unfold config_valid. rewrite !andb_true_iff. intros [[[_ H1] H2] _].
  apply Z.leb_le in H1, H2. lia.
Qed.

Lemma wp_get_config address mps port L C x s : in_hand L C x s ->
  wp (get_config address mps port) (fun d s' =>
    in_hand L (Request (CONFIG_REQUEST 9) port :: C) x s' /\ wTotalLength d < 65536) s.
Proof.
  intros H. unfold get_config. apply wp_bind. eapply wp_mono; [apply request_law; [exact H|lia]|]. intros r s1 [H1 Hr].
  destruct r as [| |p b]; [apply wp_ret; split; [exact H1|reflexivity]|discriminate Hr|]. apply wp_bind. eapply wp_mono; [apply (kfree_law _ L), H1|].
  intros [] s2 H2. apply wp_ret. split; [done|]. destruct (config_valid b) eqn:E; [|reflexivity].
  destruct Hr as (_ & _ & Hl & _). rewrite take_ge by lia. apply config_valid_length in E. lia.
Qed.

Lemma wp_read_interfaces D tree bytes L C x s : interfaces D = None ->
  Z.of_nat (length bytes) < 65536 -> Forall (fun v => 0 <= v < 256) bytes -> in_hand (tree :: L) C x s ->
  wp (read_interfaces D tree (Z.of_nat (length bytes)) bytes) (fun '(ok, d) s' =>
    in_hand (device_blocks d ++ L) C x s' /\
    if (ok : bool) then exists l p, d = set_interfaces (Some l) p (Z.of_nat (length l)) D /\ l <> [] /\ device_ok d
    else discovered d = false) s.
Proof.
  intros HD Hlen Hb H. unfold read_interfaces. apply wp_bind.
  eapply wp_mono; [by apply (safe_count_tree bytes Hlen Hb)|]. intros c s' (-> & Hc & Hc2).
  destruct (Z.eqb_spec c 0) as [->|Hc0].
  - apply wp_bind. eapply wp_mono; [by apply kfree_law|]. intros [] s1 H1. apply wp_ret. cbn.
    unfold device_blocks. cbn. by rewrite HD.
  - apply wp_bind. unfold operator_new. eapply wp_mono; [by apply kmalloc_law|]. intros p s1 [Hp H1]. cbv beta in H1.
    set (n := Z.to_nat c). assert (Z.of_nat n = c) as En by lia.
    rewrite (proj2 (Z.eqb_neq _ _) Hp).
    apply wp_bind. rewrite <- En. eapply wp_mono.
    { apply (safe_fill_interfaces bytes Hlen Hb (fun B s => in_hand (B ++ p :: tree :: L) C x s)); [| |lia|exact H1].
      - intros k B s0 H0. by apply (kmalloc_law k (B ++ p :: tree :: L)).
      - intros B B' s0 H0. eapply in_hand_perm; [|exact H0]. by rewrite (Permutation_app_comm B). }
    intros [ok l] s2 (Hll & H2 & Hlok). cbn [fst snd]. apply wp_bind.
    eapply wp_mono; [apply (kfree_law tree (p :: blocks l ++ L) C x); eapply in_hand_perm; [|exact H2]; solve_Permutation|].
    intros [] s3 H3. destruct ok; cbn [negb].
    + apply wp_ret. cbn. split; [exact H3|]. exists l, p. rewrite Hll. split; [done|]. split; [intros ->; cbn in Hll; lia|].
      exists l. cbn. split_and!; [done|lia|lia|done].
    + apply wp_bind. rewrite <- Hll. eapply wp_mono; [by apply wp_delete_interfaces|]. intros [] s4 H4. apply wp_ret.
      by cbn.
Qed.

(** The interfaces' array is initialised also where there is none. *)
Lemma read_interfaces_dry D tree total bytes c s s1 s2 : count_tree bytes total interface_case s = Done c s1 -> c <> 0 ->
  kmalloc (c * sizeof_usb_interface) s1 = Done 0 s2 -> read_interfaces D tree total bytes s = Fault.
Proof.
  intros Hc Hn Hm. unfold read_interfaces, mbind, M_bind. rewrite Hc, (proj2 (Z.eqb_neq _ _)) by done.
  unfold operator_new. by rewrite Hm.
Qed.

(** What a successful enumeration asks, the latest first. *)
Definition last_calls (x : bool) (d : usb_device) (port : Z) : list call :=
  let select := Request (SET_CONFIGURATION (bConfigurationValue (config d))) port in
  let configure := Endpoints (bConfigurationValue (config d)) in
  if x then [select; configure] else [configure; select].
Definition session (x : bool) (d : usb_device) (port : Z) : list call :=
  last_calls x d port ++
  [Request (CONFIG_REQUEST (wTotalLength (config d))) port; Request (CONFIG_REQUEST 9) port;
   Address port true; Identify port; Reset port].

Lemma wp_select_configuration D mps port L C x s : in_hand L C x s -> device_ok D -> 0 < unconfigured C ->
  wp (select_configuration D x mps port) (fun d s' =>
    device_blocks d = device_blocks D /\
    exists C', in_hand L (C' ++ C) x s' /\ (discovered d = true -> d = D /\ C' = last_calls x D port)) s.
Proof.
  intros H HD HC. unfold select_configuration, last_calls. set (v := bConfigurationValue (config D)). apply wp_bind.
  assert (forall (Q : Z -> S -> Prop), (forall r s', in_hand L (if x then Endpoints v :: C else C) x s' -> Q r s') ->
    wp (if x then configure_endpoints D v mps (dev_address D) else mret 0) Q s) as He.
  { intros Q HQ. destruct x; [|by apply wp_ret, HQ]. eapply wp_mono; [by apply endpoints_law|]. intros r s' H'. by apply HQ. }
  apply He. intros r s1 H1. destruct (r =? 0); cbn [negb].
  - apply wp_bind. eapply wp_mono; [apply request_law; [exact H1|lia]|]. intros c s2 [H2 Hf]. destruct c as [| |p b].
    + apply wp_bind. destruct x; [apply wp_modify|apply wp_ret]; apply wp_ret; (split; [done|]).
      * exists [Request (SET_CONFIGURATION v) port; Endpoints v]. split; [by apply reinit_law|done].
      * exists [Request (SET_CONFIGURATION v) port]. by split.
    + apply wp_bind. destruct x.
      * apply wp_ret, wp_ret. cbn [Z.eqb]. split; [done|]. by exists [Request (SET_CONFIGURATION v) port; Endpoints v].
      * eapply wp_mono; [by apply (endpoints_law _ _ _ _ _ _ _ _ H2)|]. intros q s3 H3. apply wp_ret.
        destruct (q =? 0); (split; [done|]); by exists [Endpoints v; Request (SET_CONFIGURATION v) port].
    + by destruct Hf as [Hf _].
  - apply wp_ret. split; [done|]. exists (if x then [Endpoints v] else []). split; [by destruct x|done].
Qed.

(** A device that counts as discovered. *)
Definition enumerated (d : usb_device) (port : Z) : Prop :=
  (exists l, interfaces d = Some l /\ l <> [] /\ usb_interface_count d = Z.of_nat (length l)) /\
  dev_port_number d = port /\ dev_vendor_id d = idVendor (dev_descriptor d) /\
  dev_product_id d = idProduct (dev_descriptor d).

Lemma wp_configure_device D port L C x s : in_hand L C x s -> 0 < unconfigured C -> interfaces D = None -> dev_port_number D = port ->
  dev_vendor_id D = idVendor (dev_descriptor D) -> dev_product_id D = idProduct (dev_descriptor D) ->
  wp (configure_device D port) (fun d s' => exists C', in_hand (device_blocks d ++ L) (C' ++ C) x s' /\
    (discovered d = true -> C' ++ [Address port true; Identify port; Reset port] = session x d port /\ enumerated d port)) s.
Proof.
  intros H HC HD Hp Hv Hi. unfold configure_device. apply wp_bind, wp_gets. rewrite (in_hand_kind _ _ _ _ H).
  set (mps := ep0_mps_of x (dev_descriptor D)). apply wp_bind.
  eapply wp_mono; [by apply wp_get_config|]. intros conf s1 [H1 Hc]. set (D1 := set_config (fun _ => conf) D).
  assert (device_blocks D1 = []) as HB by (unfold device_blocks, D1; cbn; by rewrite HD).
  assert (forall L', in_hand (device_blocks (set_discovered (fun _ => false) D1) ++ L') =
    in_hand (S := S) L') as Hg by (intros L'; change (device_blocks (set_discovered (fun _ => false) D1)) with (device_blocks D1); by rewrite HB).
  destruct (Z.ltb_spec (wTotalLength conf) 9).
  - apply wp_ret. rewrite Hg. by exists [Request (CONFIG_REQUEST 9) port].
  - apply wp_bind. eapply wp_mono; [apply request_law; [exact H1|lia]|]. intros t s2 [H2 Ht].
    destruct t as [| |tree b]; [| exfalso; cbn in Ht; lia|].
    + apply wp_ret. rewrite Hg.
      by exists [Request (CONFIG_REQUEST (wTotalLength conf)) port; Request (CONFIG_REQUEST 9) port].
    + destruct Ht as (_ & _ & Hl & Hb). rewrite <- Hl. apply wp_bind.
      eapply wp_mono; [apply (wp_read_interfaces D1 tree b L); [done|lia|done|exact H2]|].
      intros [ok d] s3 [H3 Hok]. cbn beta iota. destruct ok.
      * destruct Hok as (l & p & -> & Hne & Hdok). eapply wp_mono; [by apply wp_select_configuration|].
        cbn beta. intros d s4 (Hbl & C' & H4 & Hd). rewrite Hbl.
        exists (C' ++ [Request (CONFIG_REQUEST (wTotalLength conf)) port; Request (CONFIG_REQUEST 9) port]).
        rewrite <- !app_assoc. split; [exact H4|]. intros E. destruct (Hd E) as [-> ->]. split; [done|].
        split_and!; [by exists l|done..].
      * apply wp_ret. exists [Request (CONFIG_REQUEST (wTotalLength conf)) port; Request (CONFIG_REQUEST 9) port].
        split; [exact H3|]. congruence.
Qed.

Lemma wp_get_device port L C x s : in_hand L C x s ->
  wp (get_device port) (fun d s' => exists C', in_hand (device_blocks d ++ L) (C' ++ C) x s' /\
    (discovered d = true -> C' = session x d port /\ enumerated d port)) s.
Proof.
  intros H. unfold get_device. apply wp_bind. eapply wp_mono; [by apply reset_law|]. cbn beta. intros r s1 H1.
  destruct (r =? RESET_SUCCESS); cbn [negb]; [|apply wp_ret; exists [Reset port]; split; [exact H1|discriminate]].
  apply wp_bind. eapply wp_mono; [by apply identify_law|]. cbn beta. intros desc s2 H2. apply wp_bind.
  eapply wp_mono; [by apply address_law|]. cbn beta. intros d s3 [H3 Hn]. pose proof (in_hand_calls _ _ _ _ H) as HC. destruct (discovered d) eqn:Ed; cbn [negb].
  - eapply wp_mono; [apply (wp_configure_device _ _ L); [exact H3|cbn; lia|done..]|]. cbn beta. intros e s4 (C' & H4 & He).
    exists (C' ++ [Address port true; Identify port; Reset port]). rewrite <- app_assoc. split; [exact H4|]. intros E.
    by apply He.
  - apply wp_ret. exists [Address port false; Identify port; Reset port]. unfold device_blocks. rewrite Hn. split; [exact H3|].
    congruence.
Qed.
End Enumeration.

(** C9: over any host controller that keeps [HostLaws], [get_device] returns; the laws ask for a heap
    that has the blocks the enumeration asks for, since without one it faults
    ([read_interfaces_dry]). Of the heap blocks it takes it keeps exactly those that the device
    record points to (the array of interfaces and their arrays of endpoints) and gives every other
    back, once. It calls a device discovered only after resetting the port, identifying and
    addressing the device, reading its configuration in two steps, and then selecting it, with the
    endpoints configured before the request on xHCI and after it on other controllers; the record
    then has at least one interface. *)
Theorem get_device_correct {S} `{!HeapOps S} `{!HostController S} `{!HostLaws S} port L C x (s : S) :
  in_hand L C x s ->
  exists d s' C', get_device port s = Done d s' /\ in_hand (device_blocks d ++ L) (C' ++ C) x s' /\
    (discovered d = true -> C' = session x d port /\ enumerated d port).
Proof.
  intros H. destruct (wp_inv _ _ _ (wp_get_device port L C x s H)) as (d & s' & E & C' & Hd). by exists d, s', C'.
Qed.

(** A controller with one device, over a heap that never runs dry. *)
Record sample_host := mkHost { top : Z; lent : list Z; asked : list call; host : usb_controller_t }.
Definition ask (c : call) (s : sample_host) : sample_host := mkHost (top s) (lent s) (c :: asked s) (host s).
Fixpoint take_out (p : Z) (l : list Z) : option (list Z) :=
  match l with
  | [] => None
  | q :: r => if q =? p then Some r else cons q <$> take_out p r
  end.
Lemma take_out_Some p l : forall r, l ≡ₚ p :: r -> exists r', take_out p l = Some r' /\ r' ≡ₚ r.
Proof.
  induction l as [|q l IH]; intros r E; [by apply Permutation_nil_cons in E|]. cbn [take_out].
  destruct (Z.eqb_spec q p) as [->|Hq]; [exists l; split; [done|by eapply Permutation_cons_inv]|].
  assert (q ∈ r) as Hr.
  { assert (q ∈ p :: r) as Hin by (rewrite <- E; by left). apply elem_of_cons in Hin as [?|?]; [by subst|done]. }
  apply elem_of_Permutation in Hr as [r1 Er]. destruct (IH r1) as (r' & -> & Er').
  - apply (Permutation_cons_inv (a := q)). rewrite E, Er. apply Permutation_swap.
  - exists (q :: r'). split; [done|]. by rewrite Er', Er.
Qed.

#[export] Instance sample_host_heap : HeapOps sample_host := {|
  kmalloc n := fun s => let p := Z.abs (top s) + 1 in Done p (mkHost (p + Z.abs n) (p :: lent s) (asked s) (host s));
  kfree p := fun s => match take_out p (lent s) with
                      | Some l => Done () (mkHost (top s) l (asked s) (host s))
                      | None => Fault
                      end;
  krealloc _ _ n := fault
|}.

Definition sample_configuration : list Z :=
  concat (<[0%nat := [9; 2; 42; 0; 1; 1; 0; 0x80; 50]]> sample_descriptors).
Definition sample_descriptor : usb_device_descriptor :=
  [18; 1; 0; 2; 0; 0; 0; 64; 0x81; 0x07; 0x67; 0x55; 0; 1; 1; 2; 3; 1].
Definition sample_reply (n : Z) : M sample_host packet_reply :=
  if n =? 0 then mret Completed
  else
    p ← kmalloc n;
    mret (Reply p (take (Z.to_nat n) (sample_configuration ++ replicate (Z.to_nat n) 0))).

#[export] Instance sample_controller : HostController sample_host := {|
  hc_class_code := 0x0c; hc_subclass := 0x03; hc_prog_if := 0x30; hc_type := 0;
  hc_controller := host;
  hc_set_controller f s := mkHost (top s) (lent s) (asked s) (f (host s));
  hc_ports _ := None; hc_set_ports _ s := s;
  hc_ports_count _ := 0; hc_set_ports_count _ s := s;
  controller_init := mret 0;
  enumrate_ports := mret 0;
  reset_port port := modify (ask (Reset port));; mret 0;
  identify_device port := modify (ask (Identify port));; mret sample_descriptor;
  set_address desc port :=
    modify (ask (Address port true));;
    mret (set_discovered (fun _ => true) (set_dev_descriptor (fun _ => desc) (set_dev_address (fun _ => 5) no_device)));
  usb_send_packet packet _ n _ port := modify (ask (Request packet port));; sample_reply n;
  configure_endpoints _ value _ _ := modify (ask (Endpoints value));; mret 0;
  scan_ports_override := None
|}.

#[export] Instance sample_laws : HostLaws sample_host.
Proof.
  refine {| in_hand L C x s := lent s ≡ₚ L /\ asked s = C /\ 0 <= unconfigured C /\ is_xhci_controller (host s) = x |}.
  - intros L L' C x s E (H & ?). by rewrite H.
  - by intros L C x s (? & ? & ? & ?).
  - by intros L C x s (? & ? & ? & ?).
  - intros n L C x s (H & ? & ? & ?). unfold wp. cbn [kmalloc sample_host_heap].
    split; [lia|]. cbn. by rewrite H.
  - intros p L C x s (H & ? & ? & ?). unfold wp. cbn. destruct (take_out_Some _ _ _ H) as (r & -> & Hr). done.
  - by intros port L C x s (H & <- & ? & ?).
  - by intros port L C x s (H & <- & ? & ?).
  - intros desc port L C x s (H & <- & ? & ?). apply wp_bind, wp_modify, wp_ret. cbn. split_and!; (done || lia).
  - intros packet mps n a port L C x s (H & <- & ? & ?) Hn. apply wp_bind, wp_modify. unfold sample_reply.
    destruct (Z.eqb_spec n 0) as [->|Hn0]; [by apply wp_ret|]. apply wp_bind. unfold wp at 1.
    cbn [kmalloc sample_host_heap]. apply wp_ret. cbn [lent asked host ask]. split.
    + split; [|done]. cbn. by rewrite H.
    + split; [done|]. split; [lia|]. split.
      * rewrite length_take, length_app, length_replicate. lia.
      * apply Forall_take, Forall_app. split; [|apply Forall_replicate; lia].
        unfold sample_configuration, sample_descriptors. cbn. repeat constructor; lia.
  - intros d value mps a L C x s (H & <- & ? & ?) Hd Hc. apply wp_bind, wp_modify, wp_ret. cbn. split_and!; (done || lia).
  - by intros L C x s (? & ? & ? & ?).
Defined.

Definition sample_bus : sample_host :=
  mkHost 0x1000 [0x500] [] (mkController true false [] 0 (mkAddr 0 0 0 0) no_bar 0 0x0c 0x03 0x30 0).

(** The witness; the enumeration of the sample succeeds. *)
Lemma get_device_correct_witness :
  (exists d s' C', get_device 3 sample_bus = Done d s' /\ in_hand (device_blocks d ++ [0x500]) (C' ++ []) true s' /\
    (discovered d = true -> C' = session true d 3 /\ enumerated d 3)) /\
  match get_device 3 sample_bus with
  | Done d s' => discovered d = true /\ length (lent s') = 3%nat
  | _ => False
  end.
Proof.
  split; [|vm_compute; done]. apply (get_device_correct 3 [0x500] [] true sample_bus). by split_and!.
Defined.
