(* ===== verification/XhciHost.v ===== *)
(** * xHCI as a host controller

    The xHCI driver implements the interface of [Usb] on its own state; the constructor runs the
    base class over it. *)
From S2P Require Import KPrelude PortIO Pci Dma Timers UsbTypes Xhci XhciDevices UsbDesc Usb.

Section Host.
Context {W : Type} `{!IO W} `{!DmaOps W} `{!HeapOps W} `{!UsbHost W}.
Context (dev : device) (timer : TimerSource W).

#[export] Instance xhci_heap : HeapOps (xhci_state W) := {|
  kmalloc n := lift (kmalloc n);
  kfree p := lift (kfree p);
  krealloc p old new := lift (krealloc p old new)
|}.
#[export] Instance xhci_usb : UsbHost (xhci_state W) := {|
  host_pci s := host_pci (world s);
  host_set_pci p s := mkState (host_set_pci p (world s)) (obj s);
  host_usb s := host_usb (world s);
  host_set_usb u s := mkState (host_set_usb u (world s)) (obj s)
|}.

(** The class codes are those the constructor stores. *)
Definition xhci_host : HostController (xhci_state W) := {|
  hc_class_code := 0x0C;
  hc_subclass := 0x03;
  hc_prog_if := 0x30;
  hc_type := Usb.MMIO;
  hc_controller s := controller (obj s);
  hc_set_controller f s := mkState (world s) (set_controller f (obj s));
  hc_ports s := ports (obj s);
  hc_set_ports f s := mkState (world s) (set_ports f (obj s));
  hc_ports_count s := ports_count (obj s);
  hc_set_ports_count n s := mkState (world s) (set_ports_count (fun _ => n) (obj s));
  Usb.controller_init := XhciDevices.controller_init dev timer;
  Usb.enumrate_ports := Xhci.enumrate_ports dev;
  Usb.reset_port := Xhci.reset_port dev timer;
  Usb.identify_device := XhciDevices.identify_device dev timer;
  Usb.set_address := XhciDevices.set_address dev timer;
  Usb.usb_send_packet := XhciDevices.usb_send_packet dev timer;
  Usb.configure_endpoints := XhciDevices.configure_endpoints dev timer;
  scan_ports_override := Some (XhciDevices.scan_ports dev timer)
|}.

(** [xhci_controller::xhci_controller]; the fields have their initialisers' values before. *)
Definition xhci_construct : M (xhci_state W) Z :=
  upd (set_controller (fun _ => mkController false false [] 0 (mkAddr 0 0 0 0) no_bar 0 0 0 0 0));;
  construct_controller (HostController0 := xhci_host) dev.
End Host.
