(* ===== verification/UsbDriver.v ===== *)
(** * USB: the frame of a driver

    The UHCI, OHCI and EHCI drivers keep an object of their own beside the world that the kernel's
    services work on. The services, the history and the time of the world are those of the pair. *)
From S2P Require Import KPrelude PortIO Pci Dma Timers UsbTypes Usb.

Record driver (W O : Type) := mkDriver { world : W; obj : O }.
Arguments mkDriver {W O}.
Arguments world {W O}.
Arguments obj {W O}.

Section Driver.
Context {W O : Type} `{!IO W} (dev : device).

Abbreviation MD := (M (driver W O)).

(** A service of the world; it leaves the object alone. *)
Definition lift {A} (m : M W A) : MD A := zoom world (fun w s => mkDriver w (obj s)) m.
Definition get {A} (f : O -> A) : MD A := gets (fun s => f (obj s)).
Definition upd (f : O -> O) : MD unit := modify (fun s => mkDriver (world s) (f (obj s))).

#[export] Instance driver_IO : IO (driver W O).
Proof.
  refine {| trace s := trace (world s); set_trace t s := mkDriver (set_trace t (world s)) (obj s) |}.
  - intros t s. apply trace_set.
  - intros t u s. cbn. by rewrite set_trace_twice.
  - intros [w x]. cbn. by rewrite set_trace_same.
Defined.

#[export] Instance driver_heap `{!HeapOps W} : HeapOps (driver W O) := {|
  kmalloc n := lift (kmalloc n);
  kfree p := lift (kfree p);
  krealloc p old new := lift (krealloc p old new)
|}.
#[export] Instance driver_dma `{!DmaOps W} : DmaOps (driver W O) := {|
  allocate_dma n := lift (allocate_dma n);
  free_dma a := lift (free_dma a);
  dma_phys_to_virt a := lift (dma_phys_to_virt a)
|}.
#[export] Instance driver_timer (timer : TimerSource W) : TimerSource (driver W O) := {|
  read := lift (@read W timer);
  read_freq := lift (@read_freq W timer)
|}.
#[export] Instance driver_usb `{!UsbHost W} : UsbHost (driver W O) := {|
  host_pci s := host_pci (world s);
  host_set_pci p s := mkDriver (host_set_pci p (world s)) (obj s);
  host_usb s := host_usb (world s);
  host_set_usb u s := mkDriver (host_set_usb u (world s)) (obj s)
|}.

(** Accesses to registers and to shared memory. *)
Definition r8 (a : Z) : MD Z := mmio_read dev 1 a.
Definition r16 (a : Z) : MD Z := mmio_read dev 2 a.
Definition r32 (a : Z) : MD Z := mmio_read dev 4 a.
Definition w8 (a v : Z) : MD unit := mmio_write 1 a v.
Definition w16 (a v : Z) : MD unit := mmio_write 2 a v.
Definition w32 (a v : Z) : MD unit := mmio_write 4 a v.

(** [*setup = packet]: the 8 bytes of a setup packet. *)
Definition sizeof_usb_setup_packet := 8.
Definition store_setup (a : Z) (p : usb_setup_packet) : MD unit :=
  w8 a (BmRequestType p);; w8 (a + 1) (bRequest p);; w16 (a + 2) (wValue p);;
  w16 (a + 4) (wIndex p);; w16 (a + 6) (wLength p).
End Driver.
