(* ===== verification/UsbWorld.v ===== *)
(** * USB: what a driver relies on, and what it leaves alone

    The contract of the services that a driver uses ([WorldLaws]), and the operations that only
    talk to the controller and wait ([calm]): they end, keep the driver's object, its heap blocks
    and its regions. *)
From S2P Require Import KPrelude PortIO Pci Dma Timers TimersProofs UsbTypes Usb UsbDriver.

(** [owns B R w]: the blocks [B] and the regions [R] are lent to the driver. The heap always has a
    block, which the drivers rely on: they do not look at what [new] answers. Time passes. *)
Class WorldLaws (W : Type) `{!IO W} `{!HeapOps W} `{!DmaOps W} (timer : TimerSource W) := {
  owns : list Z -> list Z -> W -> Prop;
  owns_perm B B' R R' w : B ≡ₚ B' -> R ≡ₚ R' -> owns B R w -> owns B' R' w;
  owns_trace B R w t : owns B R w -> owns B R (set_trace t w);
  new_law n B R w : owns B R w -> wp (kmalloc n) (fun p w' => p <> 0 /\ owns (p :: B) R w') w;
  delete_law p B R w : owns (p :: B) R w -> wp (kfree p) (fun _ => owns B R) w;
  grow_law p old new B R w : owns (p :: B) R w ->
    wp (krealloc p old new) (fun q w' => q <> 0 /\ owns (q :: B) R w') w;
  grow_none_law new B R w : owns B R w ->
    wp (krealloc 0 0 new) (fun q w' => q <> 0 /\ owns (q :: B) R w') w;
  region_law n B R w : owns B R w ->
    wp (allocate_dma n) (fun r w' => if ret_status r =? 0 then owns B (virtual_address r :: R) w' else virtual_address r = 0 /\ owns B R w') w;
  release_law a B R w : owns B (a :: R) w -> wp (free_dma a) (fun _ => owns B R) w;
  find_law a B R w : owns B R w -> wp (dma_phys_to_virt a) (fun _ => owns B R) w;
  time_law ms B R w : owns B R w -> 0 <= ms < 1000 -> wp (wait_ms timer ms) (fun _ => owns B R) w
}.

Section World.
Context {W O : Type} `{!IO W} `{!HeapOps W} `{!DmaOps W} (timer : TimerSource W) `{!WorldLaws W timer}.
Context (dev : device).
Implicit Types (s : driver W O) (B R : list Z).

Definition holds B R s : Prop := owns B R (world s).

Lemma holds_perm B B' R R' s : B ≡ₚ B' -> R ≡ₚ R' -> holds B R s -> holds B' R' s.
Proof. apply owns_perm. Qed.

(** The operation ends with a [P], and changes nothing but the history and the time. *)
Definition calm {A} (m : M (driver W O) A) (P : A -> Prop) : Prop := forall B R s, holds B R s ->
  wp m (fun a s' => holds B R s' /\ obj s' = obj s /\ P a) s.

Lemma calm_ret {A} (a : A) (P : A -> Prop) : P a -> calm (mret a) P.
Proof. intros HP B R s H. by apply wp_ret. Qed.

Lemma calm_bind {A C} (m : M (driver W O) A) (f : A -> M (driver W O) C) (P : A -> Prop) (Q : C -> Prop) :
  calm m P -> (forall a, P a -> calm (f a) Q) -> calm (m ≫= f) Q.
Proof.
  intros Hm Hf B R s H. apply wp_bind. eapply wp_mono; [by apply Hm|]. cbn beta. intros a s1 (H1 & E1 & Ha).
  eapply wp_mono; [by apply Hf|]. cbn beta. intros c s2 (H2 & E2 & Hc). by rewrite E2, E1.
Qed.

Lemma calm_then {A C} (m : M (driver W O) A) (f : A -> M (driver W O) C) (Q : C -> Prop) :
  calm m (fun _ => True) -> (forall a, calm (f a) Q) -> calm (m ≫= f) Q.
Proof. intros Hm Hf. eapply calm_bind; [exact Hm|]. intros a _. apply Hf. Qed.

Lemma calm_mono {A} (m : M (driver W O) A) (P Q : A -> Prop) : calm m P -> (forall a, P a -> Q a) -> calm m Q.
Proof. intros Hm HPQ B R s H. eapply wp_mono; [by apply Hm|]. cbn beta. intros a s' (? & ? & ?). auto. Qed.

Lemma calm_gets {A} (f : O -> A) (P : A -> Prop) : (forall x, P (f x)) -> calm (get f) P.
Proof. intros HP B R s H. by apply wp_gets. Qed.

Lemma calm_device_read sp width a : 0 <= width -> calm (io_read dev sp width a) (fun v => 0 <= v < 2 ^ (8 * width)).
Proof.
  intros Hw B R s H. apply wp_io_read. split; [by apply owns_trace|]. split; [done|]. by apply io_value_range.
Qed.

Lemma calm_look sp width a : 0 <= width -> calm (io_read dev sp width a) (fun _ => True).
Proof. intros Hw. by eapply calm_mono; [apply calm_device_read|]. Qed.

Lemma calm_write sp width a v : calm (io_write sp width a v) (fun _ => True).
Proof. intros B R s H. apply wp_io_write. split; [by apply owns_trace|]. done. Qed.

Lemma calm_rounds {A} (body : Z -> A -> M (driver W O) A) i n a : (forall j a, calm (body j a) (fun _ => True)) ->
  calm (for_ i n body a) (fun _ => True).
Proof.
  intros Hb. unfold for_. generalize (Z.to_nat n). intros k. revert i a. induction k as [|k IH]; intros i a; cbn [for_nat]; [by apply calm_ret|].
  eapply calm_then; [apply Hb|]. intros; apply IH.
Qed.

Lemma calm_for {A} (body : Z -> A -> M (driver W O) A) i n a (I : Z -> A -> Prop) : 0 <= n -> I i a ->
  (forall j a, i <= j < i + n -> I j a -> calm (body j a) (I (j + 1))) -> calm (for_ i n body a) (I (i + n)).
Proof.
  intros Hn Ha Hb B R s H. eapply wp_mono.
  - apply (wp_for (fun j a s' => holds B R s' /\ obj s' = obj s /\ I j a)); [done|done|]. intros j a1 s1 Hj (H1 & E1 & HI).
    eapply wp_mono; [by apply Hb|]. cbn beta. intros a2 s2 (H2 & E2 & HI2). by rewrite E2.
  - done.
Qed.

Lemma calm_while {A C} (body : A -> M (driver W O) (A + C)) a (I : A -> Prop) (Q : C -> Prop) (measure : A -> Z) :
  I a -> measure a < Zpos FUEL ->
  (forall a, I a -> calm (body a) (fun r => match r with
     | inl a' => I a' /\ 0 <= measure a' < measure a | inr c => Q c end)) -> calm (while FUEL body a) Q.
Proof.
  intros Ha Hm Hb B R s H.
  apply (wp_while _ (fun a s' => holds B R s' /\ obj s' = obj s /\ I a) (fun a _ => measure a)); [|done|done].
  intros a1 s1 (H1 & E1 & HI). eapply wp_mono; [by apply Hb|]. cbn beta. intros [a2|c] s2 (H2 & E2 & HI2); rewrite E2, E1; naive_solver.
Qed.

(** A wait at the driver is a wait of its world. *)
Lemma lift_while {A C} fuel (body : A -> M (driver W O) (A + C)) (body' : A -> M W (A + C)) a s :
  (forall a s, body a s = lift (body' a) s) -> while fuel body a s = lift (while fuel body' a) s.
Proof.
  intros Hb. assert (forall p a s, loop_pos p body a s = lift (loop_pos p body' a) s) as Hl.
  { induction p as [p IH|p IH|]; intros a1 s1; cbn [loop_pos]; [| |apply Hb]; unfold mbind, M_bind.
    - rewrite Hb. unfold lift, zoom. destruct (body' a1 (world s1)) as [[a2|c] w| |]; [|done..].
      rewrite IH. unfold lift, zoom. cbn [world obj]. destruct (loop_pos p body' a2 w) as [[a3|c] w2| |]; [|done..].
      rewrite IH. unfold lift, zoom. cbn [world obj]. by destruct (loop_pos p body' a3 w2).
    - rewrite IH. unfold lift, zoom. destruct (loop_pos p body' a1 (world s1)) as [[a2|c] w| |]; [|done..].
      rewrite IH. unfold lift, zoom. cbn [world obj]. by destruct (loop_pos p body' a2 w). }
  unfold while, mbind, M_bind. rewrite Hl. unfold lift, zoom. by destruct (loop_pos fuel body' a (world s)) as [[?|?] ?| |].
Qed.

Lemma lift_wait ms s : wait_ms (driver_timer timer) ms s = lift (wait_ms timer ms) s.
Proof.
  unfold wait_ms, lift, zoom, mbind, M_bind. cbn [read_freq read driver_timer]. unfold lift, zoom.
  destruct (read_freq (world s)) as [f w| |]; [|done..]. cbn [world obj]. destruct (read w) as [v w1| |]; [|done..].
  cbn [world obj].
  match goal with |- while FUEL ?b ?a ?s = match while FUEL ?b' _ _ with _ => _ end =>
    etrans; [apply (lift_while FUEL b b' a s)|done] end.
  intros [e p] s1. unfold lift, zoom. destruct (_ <? _); [|by destruct s1]. by destruct (read (world s1)).
Qed.

Lemma calm_wait ms : 0 <= ms < 1000 -> calm (wait_ms (driver_timer timer) ms) (fun _ => True).
Proof.
  intros Hms B R s H. unfold wp. rewrite lift_wait. unfold lift, zoom. pose proof (time_law ms _ _ _ H Hms) as Hw. unfold wp in Hw.
  by destruct (wait_ms timer ms (world s)).
Qed.

Lemma calm_find a : calm (dma_phys_to_virt a) (fun _ => True).
Proof.
  intros B R s H. cbn [dma_phys_to_virt driver_dma]. unfold lift. apply wp_zoom.
  eapply wp_mono; [by apply (find_law a B R)|]. cbn beta. intros _ w' H'. done.
Qed.

(** ** The rules of the other services *)

Lemma wp_calm {A} (m : M (driver W O) A) (P : A -> Prop) (Q : A -> driver W O -> Prop) B R s :
  calm m P -> holds B R s -> (forall a s', holds B R s' -> obj s' = obj s -> P a -> Q a s') -> wp m Q s.
Proof. intros Hm H HQ. eapply wp_mono; [by apply Hm|]. cbn beta. intros a s' (? & ? & ?). auto. Qed.

Lemma wp_obj_upd (f : O -> O) (Q : unit -> driver W O -> Prop) B R s :
  holds B R s -> (forall s', holds B R s' -> obj s' = f (obj s) -> Q () s') -> wp (upd f) Q s.
Proof. intros H HQ. by apply wp_modify, HQ. Qed.

Lemma wp_heap_new n (Q : Z -> driver W O -> Prop) B R s : holds B R s ->
  (forall p s', p <> 0 -> holds (p :: B) R s' -> obj s' = obj s -> Q p s') -> wp (kmalloc n) Q s.
Proof.
  intros H HQ. cbn [kmalloc driver_heap]. unfold lift. apply wp_zoom. eapply wp_mono; [by apply new_law|]. cbn beta.
  intros p w' [Hp H']. by apply HQ.
Qed.

Lemma wp_delete p (Q : unit -> driver W O -> Prop) B R s : holds (p :: B) R s ->
  (forall s', holds B R s' -> obj s' = obj s -> Q () s') -> wp (kfree p) Q s.
Proof.
  intros H HQ. cbn [kfree driver_heap]. unfold lift. apply wp_zoom. eapply wp_mono; [by apply delete_law|]. cbn beta.
  intros [] w' H'. by apply HQ.
Qed.

Lemma wp_operator_delete_live p (Q : unit -> driver W O -> Prop) B R s : p <> 0 -> holds (p :: B) R s ->
  (forall s', holds B R s' -> obj s' = obj s -> Q () s') -> wp (operator_delete p) Q s.
Proof. intros Hp H HQ. unfold operator_delete. rewrite (proj2 (Z.eqb_neq _ _) Hp). by eapply wp_delete. Qed.

Lemma wp_grow p old new (Q : Z -> driver W O -> Prop) B R s : holds (p :: B) R s ->
  (forall q s', q <> 0 -> holds (q :: B) R s' -> obj s' = obj s -> Q q s') -> wp (krealloc p old new) Q s.
Proof.
  intros H HQ. cbn [krealloc driver_heap]. unfold lift. apply wp_zoom. eapply wp_mono; [by apply grow_law|]. cbn beta.
  intros q w' [Hp H']. by apply HQ.
Qed.

Lemma wp_grow_none new (Q : Z -> driver W O -> Prop) B R s : holds B R s ->
  (forall q s', q <> 0 -> holds (q :: B) R s' -> obj s' = obj s -> Q q s') -> wp (krealloc 0 0 new) Q s.
Proof.
  intros H HQ. cbn [krealloc driver_heap]. unfold lift. apply wp_zoom. eapply wp_mono; [by apply grow_none_law|]. cbn beta.
  intros q w' [Hp H']. by apply HQ.
Qed.

Lemma wp_region_or_none n (Q : dma_ret -> driver W O -> Prop) B R s : holds B R s ->
  (forall r s', ret_status r = 0 -> holds B (virtual_address r :: R) s' -> obj s' = obj s -> Q r s') ->
  (forall r s', ret_status r <> 0 -> virtual_address r = 0 -> holds B R s' -> obj s' = obj s -> Q r s') -> wp (allocate_dma n) Q s.
Proof.
  intros H HQ HQ'. cbn [allocate_dma driver_dma]. unfold lift. apply wp_zoom. eapply wp_mono; [by apply region_law|]. cbn beta.
  intros r w' H'. destruct (Z.eqb_spec (ret_status r) 0); [by apply HQ|]. destruct H'. by apply HQ'.
Qed.
Lemma wp_region n (Q : dma_ret -> driver W O -> Prop) B R s : holds B R s ->
  (forall r s', ret_status r = 0 -> holds B (virtual_address r :: R) s' -> obj s' = obj s -> Q r s') ->
  (forall r s', ret_status r <> 0 -> holds B R s' -> obj s' = obj s -> Q r s') -> wp (allocate_dma n) Q s.
Proof. intros H HQ HQ'. eapply wp_region_or_none; [exact H|exact HQ|]. intros r s' Hr _. by apply HQ'. Qed.

Lemma wp_free_region a (Q : unit -> driver W O -> Prop) B R s : holds B (a :: R) s ->
  (forall s', holds B R s' -> obj s' = obj s -> Q () s') -> wp (free_dma a) Q s.
Proof.
  intros H HQ. cbn [free_dma driver_dma]. unfold lift. apply wp_zoom. eapply wp_mono; [by apply release_law|]. cbn beta.
  intros [] w' H'. by apply HQ.
Qed.

(** *** Bytes of shared memory *)

Lemma calm_read_bytes a n : 0 <= n -> calm (read_bytes dev a n)
  (fun l => Z.of_nat (length l) = n /\ Forall (fun v => 0 <= v < 256) l).
Proof.
  intros Hn. unfold read_bytes. eapply calm_mono.
  - apply (calm_for _ 0 n [] (fun i l => Z.of_nat (length l) = i /\ Forall (fun v => 0 <= v < 256) l)); [done|done|].
    intros j l Hj [Hl Hf]. eapply calm_bind; [apply (calm_device_read Mmio 1); lia|]. cbn beta. intros v Hv. apply calm_ret.
    rewrite length_app. cbn [length]. split; [lia|]. apply Forall_app. split; [done|]. constructor; [exact Hv|done].
  - done.
Qed.

Lemma calm_write_bytes a l : calm (write_bytes a l) (fun _ => True).
Proof.
  unfold write_bytes. eapply calm_mono; [apply (calm_for _ _ _ _ (fun _ _ => True)); [lia|done|]|done].
  intros j [] _ _. apply calm_write.
Qed.

Lemma calm_setup a p : calm (store_setup (W := W) (O := O) a p) (fun _ => True).
Proof. unfold store_setup. repeat (eapply calm_bind; [apply calm_write|intros _ _]). apply calm_write. Qed.
End World.

(** ** Time *)

Section Time.
Context {W : Type} (P : W -> Prop).

(** If the operation ends, [P] still holds. *)
Definition keeps {A} (m : M W A) : Prop := forall w, P w -> match m w with Done _ w' => P w' | _ => True end.

Lemma keeps_ret {A} (a : A) : keeps (mret a).
Proof. by intros w H. Qed.
Lemma keeps_bind {A C} (m : M W A) (f : A -> M W C) : keeps m -> (forall a, keeps (f a)) -> keeps (m ≫= f).
Proof.
  intros Hm Hf w H. unfold mbind, M_bind. pose proof (Hm w H). destruct (m w) as [a w1| |]; [|done..]. by apply Hf.
Qed.
Lemma keeps_while {A C} fuel (body : A -> M W (A + C)) a : (forall a, keeps (body a)) -> keeps (while fuel body a).
Proof.
  intros Hb. assert (forall p a, keeps (loop_pos p body a)) as Hl.
  { induction p as [p IH|p IH|]; intros a1; cbn [loop_pos]; [| |apply Hb].
    - apply keeps_bind; [apply Hb|]. intros [a2|c]; [|apply keeps_ret]. apply keeps_bind; [apply IH|].
      intros [a3|c]; [apply IH|apply keeps_ret].
    - apply keeps_bind; [apply IH|]. intros [a2|c]; [apply IH|apply keeps_ret]. }
  unfold while. apply keeps_bind; [apply Hl|]. intros [a1|c]; [by intros w _|apply keeps_ret].
Qed.

(** A clock that advances and leaves [P] alone gives a wait that ends and leaves [P] alone. *)
Lemma clock_law (T : TimerSource W) freq clock ms w : advancing T freq clock -> 0 <= freq < 2 ^ 50 -> 0 <= ms < 1000 ->
  keeps read_freq -> keeps read -> P w -> wp (wait_ms T ms) (fun _ => P) w.
Proof.
  intros Ha Hf Hms H1 H2 Hw. assert (keeps (wait_ms T ms)) as Hk.
  { unfold wait_ms. apply keeps_bind; [done|]. intros f. apply keeps_bind; [done|]. intros v. apply keeps_while. intros [e p].
    destruct (_ <? _); [|apply keeps_ret]. apply keeps_bind; [done|]. intros; apply keeps_ret. }
  assert (freq * ms + 999 < 2 ^ 64) as Hlim.
  { change (2 ^ 50) with 1125899906842624 in Hf. change (2 ^ 64) with 18446744073709551616. nia. }
  pose proof (wp_wait_ms T freq clock Ha ms w (proj1 Hf) (proj1 Hms) Hlim) as He. specialize (Hk w Hw).
  unfold wp in *. by destruct (wait_ms T ms w).
Qed.
End Time.

(** One step of an operation that is calm; what is left is a loop, a lemma away, or arithmetic. *)
Ltac calm_step :=
  lazymatch goal with
  | |- calm _ (_ ≫= _) _ => eapply calm_then; [|intros ?]
  | |- calm _ (mret _) _ => apply calm_ret; try done
  | |- calm _ (get _) _ => apply (calm_gets _ _ (fun _ => True)); done
  | |- calm _ (io_read _ _ _ _) _ => apply calm_look; lia
  | |- calm _ (io_write _ _ _ _) _ => apply calm_write
  | |- calm _ (if ?b then _ else _) _ => let E := fresh "E" in destruct b eqn:E
  | |- calm _ (let _ := _ in _) _ => cbv zeta
  | |- calm _ (match ?p with _ => _ end) _ => destruct p
  end.
(** The lemmas of a driver's own operations, by their heads. *)
Ltac calm_known := fail.
Ltac calm_io := unfold inw, outw, outl, inl_, inb, outb, r8, r16, r32, w8, w16, w32, clear_memory, mmio_read, mmio_write in *.
Ltac calm_go := calm_io; repeat (calm_step || calm_known).

(** ** A world

    Blocks and regions are numbers that were never given before, a block is not 0; every access takes a tick. *)
Module Toy.
Record toy := mkToy { toy_trace : list event; blocks : list Z; regions : list Z; top : Z }.

#[export] Instance toy_IO : IO toy.
Proof. by refine {| trace := toy_trace; set_trace t s := mkToy t (blocks s) (regions s) (top s) |}; [| |intros []]. Defined.

(** One occurrence less. *)
Fixpoint take_out (p : Z) (l : list Z) : option (list Z) :=
  match l with
  | [] => None
  | q :: r => if q =? p then Some r else cons q <$> take_out p r
  end.
Lemma take_out_perm p l : forall r, l ≡ₚ p :: r -> exists r', take_out p l = Some r' /\ r' ≡ₚ r.
Proof.
  induction l as [|q l IH]; intros r E; [by apply Permutation_nil_cons in E|]. cbn [take_out].
  destruct (Z.eqb_spec q p) as [->|Hq]; [exists l; split; [done|by eapply Permutation_cons_inv]|].
  assert (q ∈ r) as Hr.
  { assert (q ∈ p :: r) as Hin by (rewrite <- E; by left). apply elem_of_cons in Hin as [?|?]; [by subst|done]. }
  apply elem_of_Permutation in Hr as [r1 Er]. destruct (IH r1) as (r' & -> & Er').
  - apply (Permutation_cons_inv (a := q)). rewrite E, Er. apply Permutation_swap.
  - exists (q :: r'). split; [done|]. by rewrite Er', Er.
Qed.

#[export] Instance toy_heap : HeapOps toy := {|
  kmalloc n := fun s => let p := Z.abs (top s) + 1 in Done p (mkToy (toy_trace s) (p :: blocks s) (regions s) p);
  kfree p := fun s => match take_out p (blocks s) with
                      | Some l => Done () (mkToy (toy_trace s) l (regions s) (top s))
                      | None => Fault
                      end;
  krealloc p _ _ := fun s => let q := Z.abs (top s) + 1 in
    match (if p =? 0 then Some (blocks s) else take_out p (blocks s)) with
    | Some l => Done q (mkToy (toy_trace s) (q :: l) (regions s) q)
    | None => Fault
    end
|}.
#[export] Instance toy_dma : DmaOps toy := {|
  allocate_dma n := fun s => let a := 0x1000 * (Z.abs (top s) + 1) in
    Done (mkDma 0 1 a a) (mkToy (toy_trace s) (blocks s) (a :: regions s) (Z.abs (top s) + 1));
  free_dma a := fun s => match take_out a (regions s) with
                         | Some l => Done () (mkToy (toy_trace s) (blocks s) l (top s))
                         | None => Fault
                         end;
  dma_phys_to_virt a := mret a
|}.
Definition toy_timer : TimerSource toy := {|
  read := fun s => let n := Z.of_nat (length (toy_trace s)) in Done n (set_trace (Rd Port 4 0x608 n :: toy_trace s) s);
  read_freq := mret 1000
|}.

Lemma toy_advancing : advancing toy_timer 1000 (fun s => Z.of_nat (length (toy_trace s))).
Proof.
  constructor.
  - intros s. exists s. split; [done|]. lia.
  - intros s. eexists _, _. split; [reflexivity|]. split; [done|]. cbn [toy_trace set_trace toy_IO length]. lia.
Qed.

#[export] Instance toy_laws : WorldLaws toy toy_timer.
Proof.
  refine {| owns B R s := (0 ∉ B) /\ blocks s ≡ₚ B /\ regions s ≡ₚ R |}.
  - intros B B' R R' s EB ER (H0 & H1 & H2). by rewrite <- EB, H1, H2.
  - done.
  - intros n B R s (H0 & H1 & H2). unfold wp. cbn. rewrite not_elem_of_cons, H1. split_and!; (done || lia).
  - intros p B R s (H0 & H1 & H2). rewrite not_elem_of_cons in H0. destruct H0 as [Hp H0]. unfold wp. cbn.
    by destruct (take_out_perm _ _ _ H1) as (r & -> & Hr).
  - intros p o n B R s (H0 & H1 & H2). rewrite not_elem_of_cons in H0. unfold wp. cbn.
    destruct H0 as [Hp H0]. rewrite (proj2 (Z.eqb_neq p 0)) by congruence. destruct (take_out_perm _ _ _ H1) as (r & -> & Hr). cbn.
    rewrite not_elem_of_cons, Hr. split_and!; (naive_solver || lia).
  - intros n B R s (H0 & H1 & H2). unfold wp. cbn. rewrite not_elem_of_cons, H1. split_and!; (done || lia).
  - intros n B R s (H0 & H1 & H2). unfold wp. cbn. by rewrite H2.
  - intros p B R s (H0 & H1 & H2). unfold wp. cbn. by destruct (take_out_perm _ _ _ H2) as (r & -> & Hr).
  - done.
  - intros ms B R s H Hms.
    apply (clock_law (fun s => (0 ∉ B) /\ blocks s ≡ₚ B /\ regions s ≡ₚ R) toy_timer _ _ _ _ toy_advancing);
      [lia|done|by intros w Hw|by intros w Hw|exact H].
Defined.
End Toy.
