(* ===== verification/UsbMemory.v ===== *)
(** * USB: shared memory as the history of its stores

    What a controller finds in the memory that it shares with a driver: each byte is what the latest
    store that covers it put there. *)
From S2P Require Import KPrelude PortIO Pci Dma Timers UsbTypes Usb UsbDriver.

Fixpoint byte_at (t : list event) (a : Z) : Z :=
  match t with
  | [] => 0
  | Wr Mmio w b v :: t => if (b <=? a) && (a <? b + w) then v / 256 ^ (a - b) mod 256 else byte_at t a
  | _ :: t => byte_at t a
  end.

(** [n] bytes, the lowest first. *)
Fixpoint value_at (n : nat) (t : list event) (a : Z) : Z :=
  match n with O => 0 | S n => byte_at t a + 256 * value_at n t (a + 1) end.
Definition word (t : list event) (a : Z) : Z := value_at 4 t a.

(** Between the histories only the memory from [lo] up to [hi] is stored into. *)
Definition stores_in (lo hi : Z) (t t' : list event) : Prop :=
  forall a, a < lo \/ hi <= a -> byte_at t' a = byte_at t a.

Lemma stores_refl lo hi t : stores_in lo hi t t.
Proof. done. Qed.
Lemma stores_trans lo hi t t' t'' : stores_in lo hi t t' -> stores_in lo hi t' t'' -> stores_in lo hi t t''.
Proof. intros H1 H2 a Ha. by rewrite H2, H1. Qed.
Lemma stores_wider lo hi lo' hi' t t' : stores_in lo hi t t' -> lo' <= lo -> hi <= hi' -> stores_in lo' hi' t t'.
Proof. intros H H1 H2 a Ha. apply H. lia. Qed.

Lemma value_elsewhere n lo hi t t' a : stores_in lo hi t t' -> a + Z.of_nat n <= lo \/ hi <= a ->
  value_at n t' a = value_at n t a.
Proof.
  intros H. revert a. induction n as [|n IH]; intros a Ha; cbn [value_at]; [done|]. rewrite H, IH by lia. done.
Qed.
Lemma word_elsewhere lo hi t t' a : stores_in lo hi t t' -> a + 4 <= lo \/ hi <= a -> word t' a = word t a.
Proof. intros H Ha. by apply (value_elsewhere 4 lo hi). Qed.

Lemma store_one w a v t : stores_in a (a + w) t (Wr Mmio w a v :: t).
Proof.
  intros b Hb. cbn [byte_at]. destruct (Z.leb_spec a b), (Z.ltb_spec b (a + w)); cbn [andb]; done || lia.
Qed.

(** A value that was stored is found again. *)
Lemma value_part n : forall k w a v t, (n + k = w)%nat -> 0 <= v ->
  value_at n (Wr Mmio (Z.of_nat w) a v :: t) (a + Z.of_nat k) = v / 256 ^ Z.of_nat k mod 256 ^ Z.of_nat n.
Proof.
  induction n as [|n IH]; intros k w a v t Hw Hv; cbn [value_at]; [by rewrite Z.mod_1_r|].
  cbn [byte_at]. rewrite (proj2 (Z.leb_le _ _)), (proj2 (Z.ltb_lt _ _)) by lia. cbn [andb].
  replace (a + Z.of_nat k - a) with (Z.of_nat k) by lia. rewrite <- Z.add_assoc.
  replace (Z.of_nat k + 1) with (Z.of_nat (S k)) by lia. rewrite (IH (S k)) by lia.
  rewrite !Nat2Z.inj_succ, !Z.pow_succ_r by lia. set (p := 256 ^ Z.of_nat k). assert (0 < p) by (apply Z.pow_pos_nonneg; lia).
  set (q := 256 ^ Z.of_nat n). assert (0 < q) by (apply Z.pow_pos_nonneg; lia).
  rewrite (Z.mul_comm 256 p), <- Z.div_div by lia. set (x := v / p). rewrite Z.rem_mul_r by lia. done.
Qed.

Lemma value_stored n a v t : 0 <= v -> value_at n (Wr Mmio (Z.of_nat n) a v :: t) a = v mod 256 ^ Z.of_nat n.
Proof.
  intros Hv. pose proof (value_part n 0 n a v t ltac:(lia) Hv) as H. rewrite Z.add_0_r in H. rewrite H.
  by rewrite Z.pow_0_r, Z.div_1_r.
Qed.
Lemma word_stored a v t : 0 <= v < 2 ^ 32 -> word (Wr Mmio 4 a v :: t) a = v.
Proof. intros Hv. unfold word. rewrite (value_stored 4) by lia. by apply Z.mod_small. Qed.

Lemma value_cleared n w a b t : a <= b -> b + Z.of_nat n <= a + w -> value_at n (Wr Mmio w a 0 :: t) b = 0.
Proof.
  revert b. induction n as [|n IH]; intros b H1 H2; cbn [value_at]; [done|]. rewrite IH by lia. cbn [byte_at].
  rewrite (proj2 (Z.leb_le _ _)), (proj2 (Z.ltb_lt _ _)) by lia. cbn [andb]. by rewrite Z.div_0_l by (apply Z.pow_nonzero; lia).
Qed.

Lemma byte_range t a : 0 <= byte_at t a < 256.
Proof.
  induction t as [|e t IH]; cbn [byte_at]; [lia|]. destruct e as [| [] ]; try exact IH. destruct (_ && _); [|exact IH].
  apply Z.mod_pos_bound. lia.
Qed.
Lemma value_range n t a : 0 <= value_at n t a < 256 ^ Z.of_nat n.
Proof.
  revert a. induction n as [|n IH]; intros a; cbn [value_at]; [lia|]. pose proof (byte_range t a). specialize (IH (a + 1)).
  rewrite Nat2Z.inj_succ, Z.pow_succ_r by lia. lia.
Qed.
Lemma word_range t a : 0 <= word t a < 2 ^ 32.
Proof. apply (value_range 4). Qed.

(** ** The bytes of a setup packet *)

Definition packet_at (t : list event) (a : Z) : usb_setup_packet :=
  mkSetup (value_at 1 t a) (value_at 1 t (a + 1)) (value_at 2 t (a + 2)) (value_at 2 t (a + 4)) (value_at 2 t (a + 6)).

Lemma packet_elsewhere lo hi t t' a : stores_in lo hi t t' -> a + 8 <= lo \/ hi <= a -> packet_at t' a = packet_at t a.
Proof.
  intros H Ha. unfold packet_at. by rewrite !(value_elsewhere _ lo hi t t' _ H) by (cbn; lia).
Qed.

(** A controller that does not store here: loads answer what was stored. *)
Definition unchanged (dev : device) (lo hi : Z) : Prop :=
  forall (n : nat) t a, lo <= a -> a + Z.of_nat n <= hi -> io_value dev t Mmio (Z.of_nat n) a = value_at n t a.

Section Stores.
Context {W O : Type} `{!IO W} (dev : device).

Lemma wp_mem_store w a v (Q : unit -> driver W O -> Prop) (s : driver W O) :
  (forall s', obj s' = obj s -> trace s' = Wr Mmio w a (v mod 2 ^ (8 * w)) :: trace s -> Q () s') -> wp (mmio_write w a v) Q s.
Proof. intros HQ. apply wp_io_write, HQ; [done|]. apply trace_logged. Qed.

Lemma wp_mem_load w a (Q : Z -> driver W O -> Prop) (s : driver W O) :
  (forall v s', obj s' = obj s -> v = io_value dev (trace s) Mmio w a -> trace s' = Rd Mmio w a v :: trace s -> Q v s') ->
  wp (mmio_read dev w a) Q s.
Proof. intros HQ. apply wp_io_read. eapply HQ; [done|done|]. apply trace_logged. Qed.

Lemma value_other n w a b v t : b + Z.of_nat n <= a \/ a + w <= b -> value_at n (Wr Mmio w a v :: t) b = value_at n t b.
Proof. intros H. eapply value_elsewhere; [apply store_one|done]. Qed.
Lemma word_other_store w a b v t : b + 4 <= a \/ a + w <= b -> word (Wr Mmio w a v :: t) b = word t b.
Proof. intros H. eapply word_elsewhere; [apply store_one|done]. Qed.

Lemma wp_store_setup a p (Q : unit -> driver W O -> Prop) (s : driver W O) : packet_ok p ->
  (forall s', obj s' = obj s -> stores_in a (a + 8) (trace s) (trace s') -> packet_at (trace s') a = p -> Q () s') ->
  wp (store_setup a p) Q s.
Proof.
  intros (H1 & H2 & H3 & H4 & H5) HQ. unfold store_setup.
  apply wp_bind, wp_mem_store. intros s1 E1 T1. apply wp_bind, wp_mem_store. intros s2 E2 T2. apply wp_bind, wp_mem_store. intros s3 E3 T3.
  apply wp_bind, wp_mem_store. intros s4 E4 T4. apply wp_mem_store. intros s5 E5 T5. apply HQ; [congruence| |].
  - rewrite T5, T4, T3, T2, T1.
    do 5 (eapply stores_trans; [|eapply stores_wider; [apply store_one|lia|lia]]). apply stores_refl.
  - rewrite T5, T4, T3, T2, T1. unfold packet_at.
    rewrite !(Z.mod_small (BmRequestType p)), !(Z.mod_small (bRequest p)), !(Z.mod_small (wValue p)), !(Z.mod_small (wIndex p)),
      !(Z.mod_small (wLength p)) by lia.
    assert (forall n b v t, 0 <= v < 256 ^ Z.of_nat n -> value_at n (Wr Mmio (Z.of_nat n) b v :: t) b = v) as Hs.
    { intros n b v t Hv. rewrite value_stored by lia. by apply Z.mod_small. }
    assert (forall b v t, 0 <= v < 65536 -> value_at 2 (Wr Mmio 2 b v :: t) b = v) as Hs2 by (intros; by apply (Hs 2%nat)).
    assert (forall b v t, 0 <= v < 256 -> value_at 1 (Wr Mmio 1 b v :: t) b = v) as Hs1 by (intros; by apply (Hs 1%nat)).
    rewrite !(value_other 1 2) by lia. rewrite (Hs1 (a + 1)), (value_other 1 1 (a + 1)), Hs1 by (done || lia). rewrite (Hs2 (a + 6)) by done.
    rewrite !(value_other 2 2 (a + 6)), (Hs2 (a + 4)) by (done || lia).
    rewrite !(value_other 2 2 (a + 4)), (Hs2 (a + 2)) by (done || lia). by destruct p.
Qed.

(** The history goes on with stores from [lo] up to [hi]. *)
Definition extends lo hi (s s' : driver W O) : Prop :=
  obj s' = obj s /\ stores_in lo hi (trace s) (trace s').
Lemma extends_trans lo hi s s' s'' : extends lo hi s s' -> extends lo hi s' s'' -> extends lo hi s s''.
Proof. intros [E1 H1] [E2 H2]. split; [congruence|by eapply stores_trans]. Qed.
Lemma extends_wider lo hi lo' hi' s s' : extends lo hi s s' -> lo' <= lo -> hi <= hi' -> extends lo' hi' s s'.
Proof. intros [E H] H1 H2. split; [done|by eapply stores_wider]. Qed.
Lemma extends_refl lo hi s : extends lo hi s s.
Proof. by split. Qed.
Lemma extends_word lo hi s s' a : extends lo hi s s' -> a + 4 <= lo \/ hi <= a -> word (trace s') a = word (trace s) a.
Proof. intros [_ H]. by apply word_elsewhere. Qed.

Lemma wp_w32 a v (Q : unit -> driver W O -> Prop) s :
  (forall s', extends a (a + 4) s s' -> word (trace s') a = u32 v -> Q () s') -> wp (w32 a v) Q s.
Proof.
  intros HQ. apply wp_mem_store. intros s' E T. apply HQ; [split; [done|]; rewrite T; apply store_one|].
  rewrite T. apply word_stored. apply u32_range.
Qed.

Lemma wp_clear a n (Q : unit -> driver W O -> Prop) s :
  (forall s', extends a (a + n) s s' -> Q () s') -> wp (clear_memory a n) Q s.
Proof. intros HQ. apply wp_mem_store. intros s' E T. apply HQ. split; [done|]. rewrite T. apply store_one. Qed.

Lemma extends_packet lo hi (s s' : driver W O) a : extends lo hi s s' -> a + 8 <= lo \/ hi <= a ->
  packet_at (trace s') a = packet_at (trace s) a.
Proof. intros [_ H]. by apply packet_elsewhere. Qed.
End Stores.

(** The memory that gives back what was stored in it. *)
Definition plain_memory : device := fun t _ w a => value_at (Z.to_nat w) t a.
Lemma plain_unchanged lo hi : unchanged plain_memory lo hi.
Proof.
  intros n t b _ _. unfold io_value, plain_memory. rewrite Nat2Z.id. apply Z.mod_small.
  replace (2 ^ (8 * Z.of_nat n)) with (256 ^ Z.of_nat n) by (rewrite Z.pow_mul_r by lia; done). apply value_range.
Qed.
