(* ===== verification/UsbQueue.v ===== *)
(** * USB: lists of queue heads in shared memory

    The schedules of UHCI and EHCI are queue heads whose horizontal links lead from one to the next. A
    queue head goes in front of the others and is taken out from anywhere; the other operations keep
    the memory. *)
From S2P Require Import KPrelude PortIO Pci Dma Timers UsbTypes Usb UsbDriver UsbWorld UsbMemory.

(** ** The list *)

(** A queue head: where the driver finds it, and where the controller does. *)
Record queue_head := mkHead { qh_virt : Z; qh_phys : Z }.

(** From the queue head at [v] on, the horizontal links lead through the list, and to [last]. *)
Fixpoint linked (last : Z) (t : list event) (v : Z) (l : list queue_head) : Prop :=
  match l with
  | [] => word t v = last
  | q :: l => word t v = qh_phys q + 2 /\ linked last t (qh_virt q) l
  end.

(** A link to a queue head, taken apart as the driver does. *)
Lemma link_fields p : 0 <= p < 2 ^ 32 -> p mod 16 = 0 ->
  p ||| 2 = p + 2 /\ u32 (p + 2) = p + 2 /\ (p + 2) &&& 1 = 0 /\ (p + 2) &&& 2 = 2 /\ (p + 2) &&& u32 (Z.lnot 0x0f) = p.
Proof.
  intros Hp Hm. change (2 ^ 32) with 4294967296 in Hp.
  assert (p = (p / 16) <<< 4) as Ep by (rewrite shiftl_mul by lia; change (2 ^ 4) with 16; divlia).
  set (k := p / 16) in *. assert (0 <= k < 2 ^ 28) as Hk by (change (2 ^ 28) with 268435456; subst k; divlia). clearbody k. subst p.
  assert (forall b, 0 <= b < 16 -> (k <<< 4) + b = (k <<< 4) ||| b) as Hor
    by (intros b Hb; rewrite lor_shiftl_add, shiftl_mul by lia; done).
  assert (forall i, i < 4 -> Z.testbit (k <<< 4) i = false) as Hlow by (intros; apply Z.shiftl_spec_low; lia).
  rewrite Hor by lia. split; [done|]. split.
  { rewrite lor_shiftl_add by lia. apply u32_id. change (2 ^ 4) with 16. change (2 ^ 28) with 268435456 in Hk. change (2 ^ 32) with 4294967296. lia. }
  change (u32 (Z.lnot 15)) with ((2 ^ 28 - 1) <<< 4).
  assert (forall m, (k <<< 4 ||| 2) &&& m = ((k <<< 4) &&& m) ||| (2 &&& m)) as Hd by (intros; apply Z.land_lor_distr_l).
  rewrite !Hd. change (2 &&& 1) with 0. change (2 &&& 2) with 2. change (2 &&& ((2 ^ 28 - 1) <<< 4)) with 0. rewrite !Z.lor_0_r.
  assert ((k <<< 4) &&& 1 = 0) as -> by (change 1 with (Z.ones 1); rewrite Z.land_ones, shiftl_mul by lia; change (2 ^ 4) with 16; change (2 ^ 1) with 2; divlia).
  split; [done|]. split.
  - apply Z.bits_inj'. intros i Hi. rewrite Z.lor_spec, Z.land_spec. destruct (Z.ltb_spec i 4); [by rewrite Hlow by lia|].
    assert (Z.testbit 2 i = false) as ->; [|by rewrite andb_false_r]. apply (testbit_above 2 2); [done|lia].
  - rewrite <- Z.shiftl_land. f_equal. change (2 ^ 28 - 1) with (Z.ones 28). rewrite Z.land_ones by lia. by apply Z.mod_small.
Qed.

Definition head_ok (q : queue_head) : Prop := 0 <= qh_phys q < 2 ^ 32 /\ qh_phys q mod 16 = 0 /\ 1 < qh_virt q.

Section List.
(** Where the last link leads to, and the size of a queue head. *)
Context (last size : Z) (Hsize : 4 <= size).

Abbreviation linked := (linked last).

Definition apart (v v' : Z) : Prop := v + size <= v' \/ v' + size <= v.
(** The structures do not overlap. *)
Definition disjoint_heads (v : Z) (l : list queue_head) : Prop :=
  forall q, q ∈ l -> apart v (qh_virt q) /\
    forall q', q' ∈ l -> q <> q' -> apart (qh_virt q) (qh_virt q') /\ qh_phys q <> qh_phys q'.

Lemma linked_store t v l a w x : linked t v l -> (forall b, b = v \/ b ∈ qh_virt <$> l -> b + 4 <= a \/ a + w <= b) ->
  linked (Wr Mmio w a x :: t) v l.
Proof.
  revert v. induction l as [|q l IH]; intros v H Ha; cbn [linked] in *.
  - rewrite word_other_store; [done|]. apply Ha. by left.
  - destruct H as [H1 H2]. split; [rewrite word_other_store; [done|apply Ha; by left]|]. apply IH; [done|]. intros b Hb. apply Ha. right.
    cbn. destruct Hb as [->|Hb]; [by left|by right].
Qed.

Lemma linked_same t t' v l : (forall b, byte_at t' b = byte_at t b) -> linked t v l -> linked t' v l.
Proof.
  intros Hb. assert (forall a, word t' a = word t a) as Hw by (intros; unfold word; cbn [value_at]; by rewrite !Hb).
  revert v. induction l as [|q l IH]; intros v; cbn [linked]; rewrite Hw; [done|]. intros [H1 H2]. auto.
Qed.

(** The queue head before whatever follows [d]. *)
Fixpoint end_of (v : Z) (d : list queue_head) : Z :=
  match d with [] => v | q :: d => end_of (qh_virt q) d end.
Lemma end_of_snoc v d q : end_of v (d ++ [q]) = qh_virt q.
Proof. revert v. induction d as [|q' d IH]; intros v; [done|apply IH]. Qed.
Lemma end_of_in v d : end_of v d = v \/ end_of v d ∈ qh_virt <$> d.
Proof.
  revert v. induction d as [|q d IH]; intros v; [by left|right]. cbn. destruct (IH (qh_virt q)) as [->|?]; [by left|by right].
Qed.
Lemma linked_drop t d : forall v r, linked t v (d ++ r) -> linked t (end_of v d) r.
Proof. induction d as [|q d IH]; intros v r; [done|]. cbn. intros [_ H]. by apply IH. Qed.

(** The same link elsewhere leads to the same list. *)
Lemma linked_moved t t' v v' l : linked t v l -> word t' v' = word t v ->
  (forall q r, l = q :: r -> linked t (qh_virt q) r -> linked t' (qh_virt q) r) -> linked t' v' l.
Proof. destruct l as [|q l]; cbn; intros H E Hl; rewrite E; [done|]. destruct H as [H1 H2]. split; [done|by eapply Hl]. Qed.

Section Heads.
Context (a : Z) (U : list queue_head) (Hapart : disjoint_heads a U).

(** Where the links of the schedule are. *)
Definition place (v : Z) : Prop := v = a \/ exists q, v = qh_virt q /\ q ∈ U.

Lemma place_apart v w : place v -> place w -> v <> w -> apart v w.
Proof.
  intros [->|(q & -> & Hq)] [->|(q' & -> & Hq')] Hne; [done|by apply Hapart| |].
  - destruct (Hapart q Hq) as [H _]. unfold apart in *. lia.
  - apply (proj2 (Hapart q Hq) q' Hq'). by intros ->.
Qed.
Lemma head_apart q q' : q ∈ U -> q' ∈ U -> q <> q' -> qh_virt q <> qh_virt q'.
Proof. intros H H' Hne. destruct (proj2 (Hapart q H) q' H' Hne) as [Ha _]. unfold apart in Ha. lia. Qed.
Lemma anchor_apart q : q ∈ U -> a <> qh_virt q.
Proof. intros H. destruct (Hapart q H) as [Ha _]. unfold apart in Ha. lia. Qed.
Lemma elsewhere q l : q ∈ U -> l ⊆ U -> q ∉ l -> qh_virt q ∉ qh_virt <$> l.
Proof.
  intros Hq Hl Hn Hin. apply list_elem_of_fmap in Hin as (q' & E & Hq'). apply (head_apart q q'); [done|auto| |done]. by intros ->.
Qed.
Lemma anchor_elsewhere l : l ⊆ U -> a ∉ qh_virt <$> l.
Proof. intros Hl Hin. apply list_elem_of_fmap in Hin as (q' & E & Hq'). by apply (anchor_apart q'); auto. Qed.

Lemma linked_kept t v l w x : linked t v l -> place v -> l ⊆ U -> place w -> v <> w -> w ∉ qh_virt <$> l ->
  linked (Wr Mmio 4 w x :: t) v l.
Proof.
  intros H Hv Hl Hw Hvw Hwl. apply linked_store; [done|]. intros b Hb.
  assert (place b) as Hb'.
  { destruct Hb as [->|Hb]; [done|]. apply list_elem_of_fmap in Hb as (q' & -> & Hq'). right. exists q'. auto. }
  assert (apart b w) as Hap; [|unfold apart in Hap; lia]. apply place_apart; [done|done|]. destruct Hb as [->|Hb]; [done|by intros ->].
Qed.

(** A queue head in front. *)
Lemma linked_front t l q : linked t a l -> l ⊆ U -> q ∈ U -> q ∉ l -> 0 <= qh_phys q < 2 ^ 32 - 2 ->
  linked (Wr Mmio 4 a (qh_phys q + 2) :: Wr Mmio 4 (qh_virt q) (word t a) :: t) a (q :: l).
Proof.
  intros H Hl Hq Hn Hp. cbn [linked]. split; [apply word_stored; lia|].
  assert (place (qh_virt q)) as Pq by (right; by exists q). assert (place a) as Pa by (by left).
  pose proof (anchor_apart q Hq) as Ha. pose proof (elsewhere q l Hq Hl Hn) as He.
  apply linked_kept; [|done|done|done|done|by apply anchor_elsewhere].
  eapply linked_moved; [exact H|by rewrite word_stored by apply word_range|].
  intros q0 r -> Hr. assert (q0 ∈ U) as Hq0 by (apply Hl; by left).
  apply linked_kept; [exact Hr|right; by exists q0| |done| |].
  - intros y Hy. apply Hl. by right.
  - apply head_apart; [done|done|]. intros ->. apply Hn. by left.
  - cbn in He. rewrite not_elem_of_cons in He. apply He.
Qed.

(** A queue head taken out from behind [d]. *)
Lemma linked_out t q r d v x : linked t v (d ++ q :: r) -> place v -> NoDup (d ++ q :: r) -> v ∉ qh_virt <$> d ++ q :: r ->
  d ++ q :: r ⊆ U ->
  linked (Wr Mmio 4 (qh_virt q) x :: Wr Mmio 4 (end_of v d) (word t (qh_virt q)) :: t) v (d ++ r).
Proof.
  revert v. induction d as [|q0 d IH]; intros v H Pv Hnd Hv HU.
  - cbn [app end_of linked] in *. destruct H as [_ H]. assert (q ∈ U) as Hq by (apply HU; by left).
    apply NoDup_cons in Hnd as [Hqr Hnd]. cbn in Hv. rewrite not_elem_of_cons in Hv. destruct Hv as [Hvq Hvr].
    assert (r ⊆ U) as HrU by (intros y Hy; apply HU; by right). assert (place (qh_virt q)) as Pq by (right; by exists q).
    apply linked_kept; [|done|done|done|done|by apply elsewhere].
    eapply linked_moved; [exact H|by rewrite word_stored by apply word_range|].
    intros q0 r' -> Hr. cbn in Hvr. rewrite not_elem_of_cons in Hvr. destruct Hvr.
    apply linked_kept; [exact Hr|right; exists q0; split; [done|apply HrU; by left]|intros y Hy; apply HrU; by right|done|congruence|done].
  - cbn [app end_of linked] in *. destruct H as [Hw H]. apply NoDup_cons in Hnd as [Hq0 Hnd].
    cbn in Hv. rewrite not_elem_of_cons in Hv. destruct Hv as [Hvq Hvr].
    assert (q0 ∈ U) as HqU by (apply HU; by left). assert (d ++ q :: r ⊆ U) as HU' by (intros y Hy; apply HU; by right).
    assert (place (qh_virt q0)) as P0 by (right; by exists q0). assert (q ∈ U) as Hq by (apply HU'; set_solver).
    split; [|apply IH; [done|done|done|by apply elsewhere|done]].
    assert (place (qh_virt q)) as Pq by (right; by exists q).
    assert (v <> qh_virt q) as Hvq'.
    { intros ->. apply Hvr. rewrite fmap_app. apply elem_of_app. right. by left. }
    assert (place (end_of (qh_virt q0) d) /\ v <> end_of (qh_virt q0) d) as [Pe He].
    { destruct (end_of_in (qh_virt q0) d) as [->|Hin]; [done|]. split.
      - apply list_elem_of_fmap in Hin as (y & -> & Hy). right. exists y. split; [done|]. apply HU'. apply elem_of_app. by left.
      - intros E. apply Hvr. rewrite fmap_app. apply elem_of_app. left. by rewrite E. }
    pose proof (place_apart v _ Pv Pq Hvq') as A1. pose proof (place_apart v _ Pv Pe He) as A2. unfold apart in A1, A2.
    rewrite !word_other_store by lia. done.
Qed.
End Heads.

End List.

(** ** Operations that keep shared memory

    [R] relates the memory before and after: the same everywhere, or outside of some registers. *)

Definition same_memory (t t' : list event) : Prop := forall b, byte_at t' b = byte_at t b.
Lemma same_memory_refl t : same_memory t t.
Proof. done. Qed.
Lemma same_memory_trans t t' t'' : same_memory t t' -> same_memory t' t'' -> same_memory t t''.
Proof. intros H1 H2 b. by rewrite H2, H1. Qed.

Section Still.
Context {W O : Type} `{!IO W} `{!DmaOps W} (timer : TimerSource W) (dev : device).
Context (R : list event -> list event -> Prop) (R_refl : forall t, R t t)
  (R_trans : forall t t' t'', R t t' -> R t' t'' -> R t t'').
Implicit Types s : driver W O.

Definition still {A} (m : M (driver W O) A) : Prop := forall s,
  wp m (fun _ s' => obj s' = obj s /\ R (trace s) (trace s')) s.

Lemma still_ret {A} (a : A) : still (mret a).
Proof. intros s. by apply wp_ret. Qed.
Lemma still_bind {A C} (m : M (driver W O) A) (f : A -> M (driver W O) C) : still m -> (forall a, still (f a)) -> still (m ≫= f).
Proof.
  intros Hm Hf s. apply wp_bind. eapply wp_mono; [apply Hm|]. cbn beta. intros a s1 [E1 M1].
  eapply wp_mono; [apply Hf|]. cbn beta. intros c s2 [E2 M2]. split; [congruence|by eapply R_trans].
Qed.
Lemma still_get {A} (f : O -> A) : still (get f).
Proof. intros s. by apply wp_gets. Qed.
(** The body keeps a measure falling. *)
Lemma still_while {A C} (body : A -> M (driver W O) (A + C)) a (I : A -> Prop) (measure : A -> Z) : I a -> measure a < Zpos FUEL ->
  (forall a s, I a -> wp (body a) (fun r s' => obj s' = obj s /\ R (trace s) (trace s') /\
     match r with inl a' => I a' /\ 0 <= measure a' < measure a | inr _ => True end) s) -> still (while FUEL body a).
Proof.
  intros Ha Hm Hb s.
  apply (wp_while _ (fun a s' => obj s' = obj s /\ R (trace s) (trace s') /\ I a) (fun a _ => measure a)); [|done|done].
  intros a1 s1 (E1 & M1 & HI). eapply wp_mono; [by apply Hb|]. cbn beta. intros r s2 (E2 & M2 & Hr).
  assert (obj s2 = obj s /\ R (trace s) (trace s2)) as [E M] by (split; [congruence|by eapply R_trans]).
  destruct r; [|done]. destruct Hr. done.
Qed.

(** Waiting ends and stores nothing in shared memory. *)
Context (Htime : forall ms (w : W), 0 <= ms < 1000 -> wp (wait_ms timer ms) (fun _ w' => R (trace w) (trace w')) w).
Lemma still_wait ms : 0 <= ms < 1000 -> still (wait_ms (driver_timer timer) ms).
Proof.
  intros Hms s. unfold wp. rewrite lift_wait. unfold lift, zoom. pose proof (Htime ms (world s) Hms) as H. unfold wp in H.
  by destruct (wait_ms timer ms (world s)).
Qed.
End Still.
