(* ===== verification/UsbStates.v ===== *)
(** * USB: what the drivers of the host controllers have in common

    [drivers/usb/ehci.cpp] and [drivers/usb/ohci.cpp] treat devices alike: the array of address states
    with interfaces and endpoints, the counter of addresses, the regions that are put aside in
    [controller.cached] because a controller may still use them, and the checks of what a device sent.
    The code is written out in both files; here it is once, over the fields that it needs
    ([kept_fields]) and for any type of endpoint states, as [ehci.cpp] has it; [Ehci] is its instance.
    So are the loops that wait for a register. *)
From S2P Require Import KPrelude PortIO Pci Dma Timers UsbTypes UsbDesc Usb UsbDriver.

(** ** Polling *)

Definition has (v mask : Z) : bool := negb (v &&& mask =? 0).

Section Polling.
Context {W O : Type} `{!IO W} (dev : device) (timer : TimerSource W).

Abbreviation MP := (M (driver W O)).

Definition wait (ms : Z) : MP unit := wait_ms (driver_timer timer) ms.

(** A register under a mask. *)
Definition test (r mask : Z) : MP bool := v ← r32 dev r; mret (has v mask).

(** [while (test != wanted && ms < limit) { wait_ms(timer, 1); ms++; }] *)
Definition await (r mask : Z) (wanted : bool) (limit : Z) : MP unit :=
  while FUEL (fun ms =>
    b ← test r mask;
    if negb (Bool.eqb b wanted) && (ms <? limit) then wait 1;; mret (inl (ms + 1)) else mret (inr ())) 0.
(** [for (elapsed = 0; elapsed < limit; elapsed++) { if (test == wanted) break; wait_ms(timer, 1); }] *)
Definition await_for (r mask : Z) (wanted : bool) (limit : Z) : MP unit :=
  while FUEL (fun elapsed =>
    if elapsed <? limit then
      b ← test r mask;
      if Bool.eqb b wanted then mret (inr ()) else wait 1;; mret (inl (elapsed + 1))
    else mret (inr ())) 0.
End Polling.

(** ** Devices, addresses and regions *)

(** [ohci_interface_state], [ehci_interface_state] *)
Record interface_state (E : Type) := mkInterfaceState {
  is_interface_number : Z;
  is_endpoints : option (list E);
  is_endpoint_count : Z
}.
Arguments mkInterfaceState {E}.
Arguments is_interface_number {E}.
Arguments is_endpoints {E}.
Arguments is_endpoint_count {E}.

(** [ohci_address_state], [ehci_address_state] *)
Record address_state (E : Type) := mkAddressState {
  as_device_address : Z;
  as_interfaces : option (list (interface_state E));
  as_interfaces_count : Z
}.
Arguments mkAddressState {E}.
Arguments as_device_address {E}.
Arguments as_interfaces {E}.
Arguments as_interfaces_count {E}.

Definition sizeof_interface_state := 24.
Definition sizeof_address_state := 24.

(** The fields of a driver's object that this file is about, [next_usb_address] among them, which is
    static in the code. *)
Record kept_fields (E : Type) := mkKept {
  kp_controller : usb_controller_t;
  kp_states : list (address_state E);
  kp_states_at : Z;
  kp_state_count : Z;
  kp_next_address : Z
}.
Arguments mkKept {E}.
Arguments kp_controller {E}.
Arguments kp_states {E}.
Arguments kp_states_at {E}.
Arguments kp_state_count {E}.
Arguments kp_next_address {E}.

Section Setters.
Context {E : Type}.
Definition set_kp_controller (f : usb_controller_t -> usb_controller_t) (k : kept_fields E) : kept_fields E :=
  mkKept (f (kp_controller k)) (kp_states k) (kp_states_at k) (kp_state_count k) (kp_next_address k).
Definition set_kp_states (f : list (address_state E) -> list (address_state E)) (k : kept_fields E) : kept_fields E :=
  mkKept (kp_controller k) (f (kp_states k)) (kp_states_at k) (kp_state_count k) (kp_next_address k).
Definition set_kp_states_at (f : Z -> Z) (k : kept_fields E) : kept_fields E :=
  mkKept (kp_controller k) (kp_states k) (f (kp_states_at k)) (kp_state_count k) (kp_next_address k).
Definition set_kp_state_count (f : Z -> Z) (k : kept_fields E) : kept_fields E :=
  mkKept (kp_controller k) (kp_states k) (kp_states_at k) (f (kp_state_count k)) (kp_next_address k).
Definition set_kp_next_address (f : Z -> Z) (k : kept_fields E) : kept_fields E :=
  mkKept (kp_controller k) (kp_states k) (kp_states_at k) (kp_state_count k) (f (kp_next_address k)).
End Setters.

(** An object with these fields. *)
Class Keeper (O E : Type) := {
  kept : O -> kept_fields E;
  keep : (kept_fields E -> kept_fields E) -> O -> O;
  kept_keep f x : kept (keep f x) = f (kept x)
}.

Section States.
Context {W O E : Type} `{!IO W} `{!DmaOps W} `{!HeapOps W} `{!Keeper O E}.
Context (dev : device).

Abbreviation MK := (M (driver W O)).

Definition the {A} (f : kept_fields E -> A) : MK A := get (fun x => f (kept x)).
Definition upd_kept (f : kept_fields E -> kept_fields E) : MK unit := upd (keep f).

(** A region that the controller may still use is put aside in [controller.cached], for good; a failed
    allocation of the lists faults, as the code does not look at its result. *)
Definition put_aside (error_code : Z) (alloc : dma_ret) : MK unit :=
  upd_kept (set_kp_controller (set_needs_reinit (fun _ => true)));;
  p ← operator_new 32;
  q ← operator_new 2;
  if (p =? 0) || (q =? 0) then fault
  else
    c ← the kp_controller;
    let old_size := Z.of_nat (length (cached c)) * 24 in
    cache ← krealloc (cached_at c) old_size (old_size + 24);
    if cache =? 0 then fault
    else
      upd_kept (set_kp_controller (fun c =>
        set_cached_at (fun _ => cache) (set_cached (fun l => l ++ [mkCache [alloc] [error_code]]) c))).

(** 0 when there are no addresses left. *)
Definition allocate_usb_address : MK Z :=
  n ← the kp_next_address;
  if n >? 127 then mret 0 else upd_kept (set_kp_next_address (fun n => u8 (n + 1)));; mret n.

(** The 8 bytes that came, if they start a device descriptor. *)
Definition read_first (buffer received : Z) : MK usb_device_descriptor :=
  if negb (received =? 8) then mret no_descriptor
  else
    len ← r8 dev buffer;
    if negb (len =? 18) then mret no_descriptor
    else
      type ← r8 dev (buffer + 1);
      if negb (type =? 1) then mret no_descriptor
      else b ← read_bytes dev buffer 8; mret (b ++ replicate 10 0).

(** All of the descriptor, checked. *)
Definition read_descriptor (buffer received : Z) : MK (option usb_device_descriptor) :=
  if negb (received =? 18) then mret None
  else
    type ← r8 dev (buffer + 1);
    if negb (type =? 0x01) then mret None
    else
      len ← r8 dev buffer;
      if negb (len =? 18) then mret None else b ← read_bytes dev buffer 18; mret (Some b).

(** The request for all of a descriptor fails: the port is reset, and the address may be given again. *)
Definition device_request_failed (reset : MK Z) (device : usb_device) (a address : Z) : MK usb_device :=
  rests ← reset;
  (if negb (rests =? 0) then mret () else upd_kept (set_kp_next_address (fun _ => address)));;
  free_dma a;;
  mret (set_dev_address (fun _ => 0) (set_discovered (fun _ => false) device)).

(** The reply of a request of [length] bytes, whose region is freed. *)
Definition take_reply (a data length : Z) : MK packet_reply :=
  if length =? 0 then free_dma a;; mret Completed
  else
    p ← kmalloc length;
    if p =? 0 then free_dma a;; mret NoReply
    else
      b ← read_bytes dev data length;
      free_dma a;;
      mret (Reply p b).

(** *** The array of address states *)

(** One more address state behind the others; a failed allocation is not noticed, and faults when
    the state is filled in. *)
Definition allocate_state (device : usb_device) : MK unit :=
  x ← the (fun k => k);
  let fresh := mkAddressState (dev_address device) None (usb_interface_count device) in
  if kp_state_count x =? 0 then
    p ← operator_new sizeof_address_state;
    if p =? 0 then fault
    else upd_kept (set_kp_states_at (fun _ => p));; upd_kept (set_kp_states (fun _ => [fresh]))
  else
    let old_size := kp_state_count x * sizeof_address_state in
    p ← krealloc (kp_states_at x) old_size (old_size + sizeof_address_state);
    if p =? 0 then fault
    else
      upd_kept (set_kp_states_at (fun _ => p));;
      upd_kept (set_kp_states (fun l => take (Z.to_nat (kp_state_count x)) l ++ [fresh])).

(** Stores into the state [k] of the array, its interface [i] and its endpoint [j]. *)
Definition update_state (k : Z) (f : address_state E -> address_state E) : MK unit :=
  l ← the kp_states; of_option (array_get l k);; upd_kept (set_kp_states (alter f (Z.to_nat k))).
Definition update_interface (k i : Z) (f : interface_state E -> interface_state E) : MK unit :=
  l ← the kp_states;
  s ← of_option (array_get l k);
  ifs ← of_option (as_interfaces s);
  of_option (array_get ifs i);;
  update_state k (fun s => mkAddressState (as_device_address s) (alter f (Z.to_nat i) <$> as_interfaces s)
                             (as_interfaces_count s)).
Definition find_endpoint (k i j : Z) : MK E :=
  l ← the kp_states;
  s ← of_option (array_get l k);
  ifs ← of_option (as_interfaces s);
  it ← of_option (array_get ifs i);
  es ← of_option (is_endpoints it);
  of_option (array_get es j).
Definition update_endpoint (k i j : Z) (f : E -> E) : MK unit :=
  find_endpoint k i j;;
  update_interface k i (fun it => mkInterfaceState (is_interface_number it) (alter f (Z.to_nat j) <$> is_endpoints it)
                                    (is_endpoint_count it)).

(** *** [configure_endpoints] *)

(** What a new array of endpoint or interface states holds, the size of an endpoint state, and the
    configuration of endpoint [j] of interface [i]. *)
Context (stale_endpoint : E) (stale_interface : interface_state E) (sizeof_endpoint : Z) (ep_dma : E -> dma_ret).
Context (configure_endpoint : usb_device -> Z -> Z -> MK E).

(** The endpoints of interface [i]; [false] when one cannot be had. *)
Definition configure_interface (device : usb_device) (k i : Z) : MK bool :=
  ifs ← of_option (interfaces device);
  it ← of_option (array_get ifs i);
  update_interface k i (fun s => mkInterfaceState (bInterfaceNumber (if_descriptor it)) (is_endpoints s) (is_endpoint_count s));;
  update_interface k i (fun s => mkInterfaceState (is_interface_number s) (is_endpoints s) (endpoint_count it));;
  p ← operator_new (endpoint_count it * sizeof_endpoint);
  update_interface k i (fun s => mkInterfaceState (is_interface_number s)
    (if p =? 0 then None else Some (replicate (Z.to_nat (endpoint_count it)) stale_endpoint)) (is_endpoint_count s));;
  while FUEL (fun j =>
    if j <? endpoint_count it then
      e ← configure_endpoint device j i;
      update_endpoint k i j (fun _ => e);;
      mret (if ret_status (ep_dma e) =? 0 then inl (j + 1) else inr false)
    else mret (inr true)) 0.

Definition configure_states (device : usb_device) : MK Z :=
  allocate_state device;;
  upd_kept (set_kp_state_count (fun c => u8 (c + 1)));;
  c ← the kp_state_count;
  let k := c - 1 in
  l ← the kp_states;
  s ← of_option (array_get l k);
  let interfaces_count := as_interfaces_count s in
  p ← operator_new (interfaces_count * sizeof_interface_state);
  update_state k (fun s => mkAddressState (as_device_address s)
    (if p =? 0 then None else Some (replicate (Z.to_nat interfaces_count) stale_interface)) (as_interfaces_count s));;
  while FUEL (fun i =>
    if i <? interfaces_count then
      ok ← configure_interface device k i;
      mret (if (ok : bool) then inl (i + 1) else inr 1)
    else mret (inr 0)) 0.
End States.
