(* ===== verification/UsbKeep.v ===== *)
(** * USB: a driver keeps what it has

    The blocks of the driver's arrays and the regions that it has put aside ([arrays_ok]), the rules of
    the services and of the operations of [UsbStates] for a driver that has them and uses others for a
    while ([K]), and with them the contract [HostLaws] from the contracts of a driver's methods
    ([keeper_laws]). *)
From S2P Require Import KPrelude PortIO Pci Dma Timers UsbTypes UsbDesc UsbDescProofs Usb UsbProofs UsbDriver UsbWorld UsbStates.

(** ** What the driver has *)

Section Arrays.
Context {E : Type}.
Implicit Types (x y : kept_fields E) (B R : list Z).

(** The blocks of its arrays, and the regions that it keeps for good. *)
Definition state_blocks x : list Z := if kp_state_count x =? 0 then [] else [kp_states_at x].
Definition cache_blocks (c : usb_controller_t) : list Z := match cached c with [] => [] | _ => [cached_at c] end.
Definition quarantined (c : usb_controller_t) : list Z := cached c ≫= (fun k => virtual_address <$> cache_dma k).

Record arrays_ok B R x : Prop := {
  ok_count : Z.of_nat (length (kp_states x)) = kp_state_count x;
  ok_cache : cached (kp_controller x) = [] -> cached_at (kp_controller x) = 0;
  ok_blocks : exists B', B ≡ₚ state_blocks x ++ cache_blocks (kp_controller x) ++ B';
  ok_quarantine : exists R', R ≡ₚ quarantined (kp_controller x) ++ R'
}.

(** The same for the driver's arrays. *)
Definition same_arrays x y : Prop :=
  kp_states y = kp_states x /\ kp_states_at y = kp_states_at x /\ kp_state_count y = kp_state_count x /\
  cached (kp_controller y) = cached (kp_controller x) /\ cached_at (kp_controller y) = cached_at (kp_controller x).
Lemma arrays_same B R x y : same_arrays x y -> arrays_ok B R x -> arrays_ok B R y.
Proof.
  intros (E1 & E2 & E3 & E4 & E5) [H1 H2 H3 H4]. constructor.
  - by rewrite E1, E3.
  - by rewrite E4, E5.
  - unfold state_blocks, cache_blocks. by rewrite E2, E3, E4, E5.
  - unfold quarantined. by rewrite E4.
Qed.
Lemma arrays_more B R B' R' x : arrays_ok B R x -> arrays_ok (B ++ B') (R ++ R') x.
Proof.
  intros [H1 H2 [B1 H3] [R1 H4]]. constructor; [done|done| |].
  - exists (B1 ++ B'). rewrite H3. by rewrite <- !app_assoc.
  - exists (R1 ++ R'). rewrite H4. by rewrite <- !app_assoc.
Qed.

(** The regions kept for good, as they were or with more behind them. *)
Definition keeps_quarantine x y : Prop := exists l, cached (kp_controller y) = cached (kp_controller x) ++ l.
Lemma keeps_refl x : keeps_quarantine x x.
Proof. exists []. by rewrite app_nil_r. Qed.
Lemma keeps_trans x y z : keeps_quarantine x y -> keeps_quarantine y z -> keeps_quarantine x z.
Proof. intros [l1 E1] [l2 E2]. exists (l1 ++ l2). by rewrite E2, E1, app_assoc. Qed.

(** The interfaces of the state [j]. *)
Definition at_state (j : Z) x : option (list (interface_state E)) := s ← kp_states x !! Z.to_nat j; as_interfaces s.
End Arrays.

Section Keep.
Context {W O E : Type} `{!IO W} `{!HeapOps W} `{!DmaOps W} `{!Keeper O E} (timer : TimerSource W) `{!WorldLaws W timer}.
Context (dev : device).

Abbreviation MK := (M (driver W O)).
Abbreviation post A := (A -> driver W O -> Prop).
Abbreviation quiet m := (calm timer m (fun _ => True)).
Implicit Types (s : driver W O) (x : kept_fields E).

(** The blocks [L] and the regions [T] are in use besides what the driver has; [n] is the next address,
    [c] the number of states, [k] whether the controller says that it is an xHCI, and [x] the fields at
    the start. *)
Definition K (L T : list Z) (n c : Z) (k : bool) x s : Prop :=
  exists B R, holds timer (B ++ L) (R ++ T) s /\ arrays_ok B R (kept (obj s)) /\ kp_next_address (kept (obj s)) = n /\
    kp_state_count (kept (obj s)) = c /\ is_xhci_controller (kp_controller (kept (obj s))) = k /\ keeps_quarantine x (kept (obj s)).

Lemma K_next L T n c k x s : K L T n c k x s -> kp_next_address (kept (obj s)) = n.
Proof. by intros (? & ? & ? & ? & ? & ?). Qed.
Lemma K_count L T n c k x s : K L T n c k x s -> kp_state_count (kept (obj s)) = c.
Proof. by intros (? & ? & ? & ? & ? & ? & ?). Qed.

Lemma K_calm {A} (m : MK A) (P : A -> Prop) (Q : post A) L T n c k x s : calm timer m P -> K L T n c k x s ->
  (forall a s', K L T n c k x s' -> obj s' = obj s -> P a -> Q a s') -> wp m Q s.
Proof.
  intros Hm (B & R & H & HK) HQ. eapply (wp_calm timer); [exact Hm|exact H|]. cbn beta. intros a s' H' Eo HP.
  apply HQ; [|done|done]. exists B, R. by rewrite Eo.
Qed.

(** A store into a field that has nothing to do with the arrays. *)
Lemma K_upd f (Q : post unit) L T n c k x s : K L T n c k x s -> same_arrays (kept (obj s)) (kept (f (obj s))) ->
  is_xhci_controller (kp_controller (kept (f (obj s)))) = is_xhci_controller (kp_controller (kept (obj s))) ->
  (forall s', K L T (kp_next_address (kept (f (obj s)))) c k x s' -> obj s' = f (obj s) -> Q () s') -> wp (upd f) Q s.
Proof.
  intros (B & R & H & HA & Hn & Hc & Hk & Hq) Hf Hx HQ. eapply (wp_obj_upd timer); [exact H|]. intros s' H' Eo.
  apply HQ; [|done]. exists B, R. rewrite Eo. split; [done|]. split; [by eapply arrays_same|]. split; [done|].
  destruct Hf as (_ & _ & Ec & Eq & _). split; [congruence|]. split; [congruence|]. eapply keeps_trans; [exact Hq|].
  exists []. by rewrite Eq, app_nil_r.
Qed.

Lemma K_upd_kept f (Q : post unit) L T n c k x s : K L T n c k x s -> same_arrays (kept (obj s)) (f (kept (obj s))) ->
  is_xhci_controller (kp_controller (f (kept (obj s)))) = is_xhci_controller (kp_controller (kept (obj s))) ->
  (forall s', K L T (kp_next_address (f (kept (obj s)))) c k x s' -> Q () s') -> wp (upd_kept f) Q s.
Proof.
  intros H Hf Hx HQ. unfold upd_kept. eapply K_upd; [exact H|by rewrite kept_keep|by rewrite kept_keep|].
  intros s' H' _. rewrite kept_keep in H'. by apply HQ.
Qed.

Lemma K_the {A} (f : kept_fields E -> A) (Q : post A) s : Q (f (kept (obj s))) s -> wp (the f) Q s.
Proof. intros HQ. by apply wp_gets. Qed.

Lemma K_region_or_none sz (Q : post dma_ret) L T n c k x s : K L T n c k x s ->
  (forall r s', ret_status r = 0 -> K L (virtual_address r :: T) n c k x s' -> obj s' = obj s -> Q r s') ->
  (forall r s', ret_status r <> 0 -> virtual_address r = 0 -> K L T n c k x s' -> obj s' = obj s -> Q r s') -> wp (allocate_dma sz) Q s.
Proof.
  intros (B & R & H & HK) H1 H2. eapply (wp_region_or_none timer); [exact H| |]; intros r s' Hr.
  - intros H' Eo. apply H1; [done| |done]. exists B, R. rewrite Eo. split; [|done].
    eapply holds_perm; [reflexivity| |exact H']. solve_Permutation.
  - intros Ha H' Eo. apply H2; [done|done| |done]. exists B, R. by rewrite Eo.
Qed.
Lemma K_region sz (Q : post dma_ret) L T n c k x s : K L T n c k x s ->
  (forall r s', ret_status r = 0 -> K L (virtual_address r :: T) n c k x s' -> obj s' = obj s -> Q r s') ->
  (forall r s', ret_status r <> 0 -> K L T n c k x s' -> obj s' = obj s -> Q r s') -> wp (allocate_dma sz) Q s.
Proof. intros H HQ HQ'. eapply K_region_or_none; [exact H|exact HQ|]. intros r s' Hr _. by apply HQ'. Qed.

Lemma K_free a (Q : post unit) L T n c k x s : K L (a :: T) n c k x s ->
  (forall s', K L T n c k x s' -> obj s' = obj s -> Q () s') -> wp (free_dma a) Q s.
Proof.
  intros (B & R & H & HK) HQ. eapply (wp_free_region timer a _ (B ++ L) (R ++ T)).
  - eapply holds_perm; [reflexivity| |exact H]. solve_Permutation.
  - intros s' H' Eo. apply HQ; [|done]. exists B, R. by rewrite Eo.
Qed.

Lemma K_new sz (Q : post Z) L T n c k x s : K L T n c k x s ->
  (forall p s', p <> 0 -> K (p :: L) T n c k x s' -> obj s' = obj s -> Q p s') -> wp (kmalloc sz) Q s.
Proof.
  intros (B & R & H & HK) HQ. eapply (wp_heap_new timer); [exact H|]. intros p s' Hp H' Eo. apply HQ; [done| |done].
  exists B, R. rewrite Eo. split; [|done]. eapply holds_perm; [|reflexivity|exact H']. solve_Permutation.
Qed.

(** Blocks and regions in use become the driver's own. *)
Lemma K_own p r L T n c k x s : K (p ++ L) (r ++ T) n c k x s -> K L T n c k x s.
Proof.
  intros (B & R & H & HA & HK). exists (B ++ p), (R ++ r). rewrite <- !app_assoc. split; [done|]. split; [by apply arrays_more|done].
Qed.

(** The array of the kept regions grows, whether there was one or not. *)
Lemma wp_grow_cache sz B L R T s (Q : post Z) : holds timer (B ++ L) T s -> arrays_ok B R (kept (obj s)) ->
  (forall q B' s', q <> 0 -> holds timer ((q :: B') ++ L) T s' -> obj s' = obj s ->
     (exists B'', B' ≡ₚ state_blocks (kept (obj s)) ++ B'') -> Q q s') ->
  let c := kp_controller (kept (obj s)) in wp (krealloc (cached_at c) (Z.of_nat (length (cached c)) * 24) sz) Q s.
Proof.
  intros H HA HQ. cbn zeta. destruct (ok_blocks _ _ _ HA) as [B1 EB]. unfold cache_blocks in EB.
  destruct (cached (kp_controller (kept (obj s)))) as [|y l] eqn:Ec.
  - rewrite (ok_cache _ _ _ HA Ec). eapply (wp_grow_none timer); [exact H|]. intros q s' Hq H' Eo. cbn [app] in EB.
    eapply HQ; [done|exact H'|done|]. by exists B1.
  - eapply (wp_grow timer _ _ _ _ ((state_blocks (kept (obj s)) ++ B1) ++ L)).
    + eapply holds_perm; [|reflexivity|exact H]. rewrite EB. cbn [app]. solve_Permutation.
    + intros q s' Hq H' Eo. eapply HQ; [done|exact H'|done|]. by exists B1.
Qed.

(** The arrays with one more region put aside. *)
Lemma arrays_aside B B' R p y a x : arrays_ok B R x -> (exists B'', B' ≡ₚ state_blocks x ++ B'') ->
  virtual_address <$> cache_dma y = [a] ->
  arrays_ok (p :: B') (R ++ [a]) (set_kp_controller (fun c => set_cached_at (fun _ => p) (set_cached (fun l => l ++ [y]) c)) x).
Proof.
  intros [A1 A2 A3 [R1 A4]] [B2 EB] Ey. constructor; cbn; [done|by intros [??]%app_eq_nil| |].
  - exists B2. unfold cache_blocks. cbn. destruct (cached _ ++ _) eqn:Ecache; [by apply app_eq_nil in Ecache as [??]|].
    change (state_blocks (set_kp_controller _ _)) with (state_blocks x). rewrite EB. solve_Permutation.
  - exists R1. unfold quarantined in *. cbn. rewrite bind_app, A4. cbn. rewrite Ey. solve_Permutation.
Qed.

Lemma K_aside code alloc (Q : post unit) L T n c k x s : K L (virtual_address alloc :: T) n c k x s ->
  (forall s', K L T n c k x s' -> Q () s') -> wp (put_aside code alloc) Q s.
Proof.
  intros H HQ. unfold put_aside, operator_new. apply wp_bind. eapply K_upd_kept; [exact H|done|done|].
  cbn [set_kp_controller kp_next_address]. rewrite (K_next _ _ _ _ _ _ _ H). intros s1 H1.
  apply wp_bind. eapply K_new; [exact H1|]. intros p s2 Hp H2 E2. apply wp_bind. eapply K_new; [exact H2|]. intros q s3 Hq H3 E3.
  rewrite (proj2 (Z.eqb_neq _ _) Hp), (proj2 (Z.eqb_neq _ _) Hq). cbn [orb].
  apply (K_own [q; p] []) in H3. destruct H3 as (B & R & H3 & HA & Hn & Hc & Hk & Hkeep).
  apply wp_bind, K_the, wp_bind. eapply wp_grow_cache; [exact H3|exact HA|]. intros a B' s4 Ha H4 E4 EB.
  rewrite (proj2 (Z.eqb_neq _ _) Ha). unfold upd_kept. eapply (wp_obj_upd timer); [exact H4|]. intros s5 H5 E5. apply HQ.
  exists (a :: B'), (R ++ [virtual_address alloc]). rewrite E5, E4, kept_keep. split; [by rewrite <- app_assoc|].
  split; [by eapply arrays_aside|]. split; [done|]. split; [done|]. split; [done|].
  eapply keeps_trans; [exact Hkeep|]. by eexists.
Qed.

(** *** Polling *)

Lemma calm_waiting ms : 0 <= ms < 1000 -> quiet (wait timer ms : MK unit).
Proof. apply calm_wait. Qed.
Lemma calm_test r mask : quiet (test dev r mask : MK bool).
Proof. unfold test. calm_go. Qed.
Lemma calm_await_for r mask b limit : 0 <= limit < 2 ^ 32 -> quiet (await_for dev timer r mask b limit : MK unit).
Proof.
  intros Hl. unfold await_for. apply (calm_while _ _ _ (fun e => 0 <= e <= limit) _ (fun e => limit - e)); [lia|unfold FUEL; lia|].
  intros e He. destruct (Z.ltb_spec e limit); [|by apply calm_ret]. eapply calm_then; [apply calm_test|intros t].
  destruct (Bool.eqb t b); [by apply calm_ret|]. eapply calm_then; [apply calm_waiting; lia|intros _]. apply calm_ret. lia.
Qed.

(** *** What a device sent *)

Lemma calm_first_bytes a n : quiet (read_first dev a n : MK usb_device_descriptor).
Proof. unfold read_first. calm_go. eapply calm_mono; [apply (calm_read_bytes timer dev); lia|done]. Qed.
Lemma calm_full_descriptor a n : quiet (read_descriptor dev a n : MK (option usb_device_descriptor)).
Proof. unfold read_descriptor. calm_go. eapply calm_mono; [apply (calm_read_bytes timer dev); lia|done]. Qed.

(** The address [n] is taken, when there is one. *)
Lemma K_take_address (Q : post Z) L T n c k x s : K L T n c k x s -> 1 <= n <= 128 ->
  (n = 128 -> Q 0 s) -> (forall s', K L T (n + 1) c k x s' -> n <= 127 -> Q n s') -> wp allocate_usb_address Q s.
Proof.
  intros H Hn HQ0 HQ. unfold allocate_usb_address. apply wp_bind, K_the. rewrite (K_next _ _ _ _ _ _ _ H).
  destruct (Z.gtb_spec n 127); [apply wp_ret, HQ0; lia|]. apply wp_bind. eapply K_upd_kept; [exact H|done|done|].
  cbn [set_kp_next_address kp_next_address]. rewrite (K_next _ _ _ _ _ _ _ H), u8_id by (change (2 ^ 8) with 256; lia).
  intros s' H'. by apply wp_ret, HQ.
Qed.
Lemma K_address v (Q : post unit) L T n c k x s : K L T n c k x s ->
  (forall s', K L T v c k x s' -> Q () s') -> wp (upd_kept (set_kp_next_address (fun _ => v))) Q s.
Proof. intros H HQ. eapply K_upd_kept; [exact H|done|done|]. exact HQ. Qed.

(** Where [set_address] may end: the next address is [n']. *)
Definition address_post (L : list Z) (n c : Z) (k : bool) x (d : usb_device) s : Prop :=
  exists n', K L [] n' c k x s /\ n <= n' <= 128 /\ (discovered d = true -> n < n') /\ interfaces d = None.

Lemma post_at n' L n c k x d s : K L [] n' c k x s -> n' = n /\ discovered d = false \/ n' = n + 1 -> 1 <= n <= 127 ->
  interfaces d = None -> address_post L n c k x d s.
Proof. intros H Hn Hb Hd. exists n'. split; [done|]. destruct Hn as [[-> Hf] | ->]; (split; [lia|]); split; try done; [congruence|lia]. Qed.

Lemma wp_device_failed reset d a L n c k x s : quiet (reset : MK Z) -> K L [a] (n + 1) c k x s -> 1 <= n <= 127 -> interfaces d = None ->
  wp (device_request_failed reset d a n) (address_post L n c k x) s.
Proof.
  intros Hreset H Hn Hd. unfold device_request_failed. apply wp_bind. eapply (K_calm _ _ _ _ _ _ _ _ _ _ Hreset); [exact H|].
  intros r s1 H1 _ _. apply wp_bind. destruct (r =? 0); cbn [negb].
  - eapply K_address; [exact H1|]. intros s2 H2. apply wp_bind. eapply K_free; [exact H2|]. intros s3 H3 _. apply wp_ret.
    eapply post_at; [exact H3|by left|done|done].
  - apply wp_ret, wp_bind. eapply K_free; [exact H1|]. intros s3 H3 _. apply wp_ret. eapply post_at; [exact H3|by right|done|done].
Qed.

(** The reply's block stays with the caller. *)
Definition reply_post (L : list Z) (n c : Z) (k : bool) x (len : Z) (r : packet_reply) s : Prop :=
  K (reply_block r ++ L) [] n c k x s /\ reply_fits len r.

Lemma wp_reply a data len L n c k x s : 0 <= len -> K L [a] n c k x s ->
  wp (take_reply dev a data len) (reply_post L n c k x len) s.
Proof.
  intros Hn H. unfold take_reply. destruct (Z.eqb_spec len 0) as [->|Hl].
  - apply wp_bind. eapply K_free; [exact H|]. intros s1 H1 _. by apply wp_ret.
  - apply wp_bind. eapply K_new; [exact H|]. intros p s1 Hp H1 _. rewrite (proj2 (Z.eqb_neq _ _) Hp).
    apply wp_bind. eapply (K_calm _ _ _ _ _ _ _ _ _ _ (calm_read_bytes (O := O) timer dev data len Hn)); [exact H1|].
    intros b s2 H2 _ [Hb Hf]. apply wp_bind. eapply K_free; [exact H2|]. intros s3 H3 _. apply wp_ret. by split.
Qed.

(** *** The array of address states *)

(** A store into the array of states. *)
Lemma K_states f (Q : post unit) L T n c k x s : K L T n c k x s ->
  length (f (kp_states (kept (obj s)))) = length (kp_states (kept (obj s))) ->
  (forall s', K L T n c k x s' -> kp_states (kept (obj s')) = f (kp_states (kept (obj s))) -> Q () s') -> wp (upd_kept (set_kp_states f)) Q s.
Proof.
  intros (B & R & H & [A1 A2 A3 A4] & HK) Hf HQ. unfold upd_kept. eapply (wp_obj_upd timer); [exact H|]. intros s' H' Eo.
  apply HQ; [|by rewrite Eo, kept_keep]. exists B, R. rewrite Eo, kept_keep. split; [done|]. split; [|done].
  constructor; [|exact A2|exact A3|exact A4]. cbn. by rewrite Hf.
Qed.

Lemma wp_interface j i f l L T n c k x s (Q : post unit) : K L T n c k x s -> 0 <= j ->
  at_state j (kept (obj s)) = Some l -> 0 <= i < Z.of_nat (length l) ->
  (forall s', K L T n c k x s' -> at_state j (kept (obj s')) = Some (alter f (Z.to_nat i) l) -> Q () s') ->
  wp (update_interface j i f) Q s.
Proof.
  intros H Hj El Hi HQ. unfold at_state in El. destruct (kp_states (kept (obj s)) !! Z.to_nat j) as [st|] eqn:Es; [|done]. cbn in El.
  unfold update_interface, update_state. destruct (array_get_Some l i Hi) as (it & Ei & _).
  rewrite !wp_bind. apply K_the. rewrite !wp_bind, (array_get_of _ _ _ Hj Es). apply wp_ret. rewrite !wp_bind, El. apply wp_ret.
  rewrite !wp_bind, Ei. apply wp_ret. rewrite !wp_bind. apply K_the. rewrite !wp_bind, (array_get_of _ _ _ Hj Es). apply wp_ret.
  eapply K_states; [exact H|by rewrite length_alter|]. intros s' H' E'. apply HQ; [done|].
  unfold at_state. rewrite E', list_lookup_alter_eq, Es. cbn. by rewrite El.
Qed.

Lemma wp_endpoint j i m f l it es L T n c k x s (Q : post unit) : K L T n c k x s -> 0 <= j ->
  at_state j (kept (obj s)) = Some l -> 0 <= i -> l !! Z.to_nat i = Some it -> is_endpoints it = Some es -> 0 <= m < Z.of_nat (length es) ->
  (forall s' l' it' es', K L T n c k x s' -> at_state j (kept (obj s')) = Some l' -> length l' = length l ->
     l' !! Z.to_nat i = Some it' -> is_endpoints it' = Some es' -> length es' = length es -> Q () s') ->
  wp (update_endpoint j i m f) Q s.
Proof.
  intros H Hj El Hi Ei Ee Hm HQ. unfold update_endpoint, find_endpoint.
  pose proof El as Es. unfold at_state in Es. destruct (kp_states (kept (obj s)) !! Z.to_nat j) as [st|] eqn:Est; [|done]. cbn in Es.
  destruct (array_get_Some es m Hm) as (e & Eg & _).
  rewrite !wp_bind. apply K_the. rewrite !wp_bind, (array_get_of _ _ _ Hj Est). apply wp_ret. rewrite !wp_bind, Es. apply wp_ret.
  rewrite !wp_bind, (array_get_of _ _ _ Hi Ei). apply wp_ret. rewrite !wp_bind, Ee. apply wp_ret. rewrite Eg. apply wp_ret.
  pose proof (lookup_lt_Some _ _ _ Ei). eapply (wp_interface j i _ l); [exact H|done|done|lia|].
  intros s' H' E'. eapply HQ; [exact H'|exact E'|by rewrite length_alter|by rewrite list_lookup_alter_eq, Ei| |].
  - cbn. by rewrite Ee.
  - by rewrite length_alter.
Qed.

(** *** [configure_endpoints] *)

Section Configure.
Context (stale_endpoint : E) (stale_interface : interface_state E) (sizeof_endpoint : Z) (ep_dma : E -> dma_ret).
Context (configure_endpoint : usb_device -> Z -> Z -> MK E).

(** An endpoint's region stays with the driver. *)
Hypothesis configure_endpoint_ok : forall d i m ds it es L n c k x s, K L [] n c k x s -> interfaces d = Some ds -> 0 <= i ->
  ds !! Z.to_nat i = Some it -> endpoints it = Some es -> 0 <= m < Z.of_nat (length es) ->
  wp (configure_endpoint d m i) (fun _ s' => K L [] n c k x s' /\ kept (obj s') = kept (obj s)) s.

Abbreviation configure_interface := (configure_interface stale_endpoint sizeof_endpoint ep_dma configure_endpoint).

Lemma wp_interfaces d ds it i j l L n c k x s : interfaces d = Some ds -> 0 <= i < Z.of_nat (length l) -> 0 <= j ->
  ds !! Z.to_nat i = Some it -> interface_ok it -> K L [] n c k x s -> at_state j (kept (obj s)) = Some l ->
  wp (configure_interface d j i) (fun _ s' => K L [] n c k x s' /\
    exists l', at_state j (kept (obj s')) = Some l' /\ length l' = length l) s.
Proof.
  intros Ed Hi Hj Ei [Hc Hes] H El. unfold UsbStates.configure_interface.
  rewrite !wp_bind, Ed. apply wp_ret. rewrite !wp_bind, (array_get_of _ _ _ (proj1 Hi) Ei). apply wp_ret. rewrite !wp_bind.
  eapply wp_interface; [exact H|done|exact El|done|]. intros s1 H1 L1. rewrite !wp_bind.
  eapply wp_interface; [exact H1|done|exact L1|by rewrite length_alter|]. intros s2 H2 L2. rewrite !wp_bind.
  eapply K_new; [exact H2|]. intros p s3 Hp H3 E3. rewrite !wp_bind.
  eapply wp_interface; [exact H3|done|by rewrite E3|by rewrite !length_alter|]. intros s4 H4 L4.
  rewrite (proj2 (Z.eqb_neq _ _) Hp) in L4. set (m := Z.to_nat (endpoint_count it)) in *.
  apply (K_own [p] []) in H4.
  set (I := fun s' => K L [] n c k x s' /\ exists l' it' es', at_state j (kept (obj s')) = Some l' /\
    length l' = length l /\ l' !! Z.to_nat i = Some it' /\ is_endpoints it' = Some es' /\ length es' = m).
  assert (forall s', I s' -> K L [] n c k x s' /\ exists l', at_state j (kept (obj s')) = Some l' /\ length l' = length l) as HI.
  { intros s' (? & l' & it' & es' & ? & ? & _). split; [done|by exists l']. }
  apply (wp_while _ (fun e s' => 0 <= e <= endpoint_count it /\ I s') (fun e _ => endpoint_count it - e)).
  - intros e s5 (He & H5 & l' & it' & es' & L5 & Hl5 & Ei5 & Ee5 & Hm5).
    destruct (Z.ltb_spec e (endpoint_count it)); [|apply wp_ret, HI; split; [done|by exists l', it', es']].
    destruct Hes as [Hes|(es & Ees & Hles)]; [lia|].
    apply wp_bind. eapply wp_mono; [eapply (configure_endpoint_ok d i e ds it es); [exact H5|done|lia|done|done|lia]|].
    cbn beta. intros y s6 [H6 E6]. apply wp_bind.
    eapply (wp_endpoint j i e _ l' it' es'); [exact H6|done|by rewrite E6|lia|done|done|lia|].
    intros s7 l7 it7 es7 H7 L7 Hl7 Ei7 Ee7 Hm7. apply wp_ret.
    assert (I s7) as HI7 by (split; [done|]; exists l7, it7, es7; split_and!; (done || congruence)).
    destruct (_ =? 0); [split; [split; [lia|done]|lia]|by apply HI].
  - split; [lia|]. split; [exact H4|]. assert (i < Z.of_nat (length l)) as Hil by lia.
    destruct (lookup_lt_is_Some_2 l (Z.to_nat i)) as [old Eold]; [lia|].
    eexists _, _, _. split; [exact L4|]. split; [by rewrite !length_alter|].
    split; [by rewrite !list_lookup_alter_eq, Eold|]. split; [reflexivity|]. apply length_replicate.
  - unfold FUEL. lia.
Qed.

(** A fresh state behind the others. *)
Lemma wp_fresh_state d L n c k x s (Q : post unit) : K L [] n c k x s -> c < 255 ->
  (forall s' l, K L [] n (c + 1) k x s' -> kp_states (kept (obj s')) = l ++ [mkAddressState (dev_address d) None (usb_interface_count d)] ->
     Z.of_nat (length l) = c -> Q () s') ->
  wp (allocate_state d;; upd_kept (set_kp_state_count (fun c => u8 (c + 1)))) Q s.
Proof.
  intros (B & R & H & [A1 A2 [B1 A3] [R1 A4]] & Hn & Hc & Hk & Hkeep) Hc255 HQ. unfold allocate_state.
  rewrite !wp_bind. apply K_the. set (st := mkAddressState _ _ _). set (x1 := kept (obj s)) in *.
  assert (forall p s3 l, p <> 0 -> holds timer ((p :: cache_blocks (kp_controller x1) ++ B1) ++ L) (R ++ []) s3 ->
    kept (obj s3) = set_kp_states (fun _ => l ++ [st]) (set_kp_states_at (fun _ => p) x1) -> Z.of_nat (length l) = c ->
    wp (upd_kept (set_kp_state_count (fun c => u8 (c + 1)))) Q s3) as Hend.
  { intros p s3 l Hp H3 E3 Hl. unfold upd_kept. eapply (wp_obj_upd timer); [exact H3|]. intros s4 H4 E4.
    assert (u8 (c + 1) = c + 1) as Eu by (apply u8_id; change (2 ^ 8) with 256; lia).
    apply (HQ s4 l); [|by rewrite E4, kept_keep, E3|done]. exists (p :: cache_blocks (kp_controller x1) ++ B1), R.
    rewrite E4, kept_keep, E3. cbn. rewrite Hc, Eu. split; [done|]. split; [|done]. constructor; cbn.
    - rewrite length_app. cbn [length]. rewrite Hc, Eu. lia.
    - done.
    - exists B1. unfold state_blocks. cbn. by rewrite Hc, Eu, (proj2 (Z.eqb_neq (c + 1) 0)) by lia.
    - by exists R1. }
  assert (forall p l f s1, p <> 0 -> f (kp_states x1) = l ++ [st] -> holds timer ((p :: cache_blocks (kp_controller x1) ++ B1) ++ L) (R ++ []) s1 -> obj s1 = obj s ->
    Z.of_nat (length l) = c -> wp (upd_kept (set_kp_states_at (fun _ => p));; upd_kept (set_kp_states f))
      (fun _ => wp (upd_kept (set_kp_state_count (fun c => u8 (c + 1)))) Q) s1) as Hset.
  { intros p l f s1 Hp Hf H1 E1 Hl. unfold upd_kept at 1 2. apply wp_bind. eapply (wp_obj_upd timer); [exact H1|]. intros s2 H2 E2.
    eapply (wp_obj_upd timer); [exact H2|]. intros s3 H3 E3. apply (Hend p s3 l); [done|done| |done].
    rewrite E3, E2, E1, !kept_keep. unfold set_kp_states. cbn. fold x1. by rewrite Hf. }
  destruct (Z.eqb_spec (kp_state_count x1) 0) as [E0|E0]; unfold state_blocks in A3; rewrite ?E0 in A3; cbn [Z.eqb app] in A3.
  - apply wp_bind. unfold operator_new. eapply (wp_heap_new timer); [exact H|]. intros p s1 Hp H1 E1.
    rewrite (proj2 (Z.eqb_neq _ _) Hp). apply (Hset p []); [done|done| |done|cbn; lia].
    eapply holds_perm; [|reflexivity|exact H1]. by rewrite A3.
  - rewrite (proj2 (Z.eqb_neq _ _) E0) in A3. cbn [app] in A3.
    apply wp_bind. eapply (wp_grow timer _ _ _ _ ((cache_blocks (kp_controller x1) ++ B1) ++ L)).
    { eapply holds_perm; [|reflexivity|exact H]. by rewrite A3. }
    intros q s1 Hq H1 E1. rewrite (proj2 (Z.eqb_neq _ _) Hq).
    apply (Hset q (take (Z.to_nat (kp_state_count x1)) (kp_states x1))); [done|done|exact H1|done|].
    rewrite length_take_le; lia.
Qed.

Lemma wp_configure_states d L n c k x s : K L [] n c k x s -> 0 <= c < 255 -> device_ok d ->
  wp (configure_states stale_endpoint stale_interface sizeof_endpoint ep_dma configure_endpoint d) (fun _ => K L [] n (c + 1) k x) s.
Proof.
  intros H Hc255 (ds & Eds & Hn & Hlen & Hds). unfold configure_states.
  rewrite wp_bind. match goal with |- wp (allocate_state d) (fun a => wp (_ ≫= ?f) ?Q) s =>
    enough (wp (allocate_state d;; upd_kept (set_kp_state_count (fun c => u8 (c + 1)))) (fun a => wp (f a) Q) s) as Hw end.
  { rewrite wp_bind in Hw. eapply wp_mono; [exact Hw|]. cbn beta. intros a s' Hs'. by apply wp_bind. }
  eapply wp_fresh_state; [exact H|lia|]. intros s2 l H2 El Hl.
  set (st := mkAddressState (dev_address d) None (usb_interface_count d)) in *.
  apply wp_bind, K_the. rewrite (K_count _ _ _ _ _ _ _ H2). replace (c + 1 - 1) with c by lia.
  assert (kp_states (kept (obj s2)) !! Z.to_nat c = Some st) as Est by (rewrite El; apply list_lookup_middle; lia).
  assert (0 <= c) as Hc0 by lia.
  rewrite !wp_bind. apply K_the. rewrite !wp_bind, (array_get_of _ _ _ Hc0 Est). apply wp_ret.
  cbn [as_interfaces_count st]. set (len := length ds) in *. rewrite !wp_bind. unfold operator_new.
  eapply K_new; [exact H2|]. intros p s3 Hp H3 E3. rewrite (proj2 (Z.eqb_neq _ _) Hp). unfold update_state.
  rewrite !wp_bind. apply K_the. rewrite !wp_bind, E3, (array_get_of _ _ _ Hc0 Est). apply wp_ret.
  eapply K_states; [exact H3|by rewrite length_alter|]. intros s4 H4 E4. apply (K_own [p] []) in H4.
  assert (at_state c (kept (obj s4)) = Some (replicate (Z.to_nat (usb_interface_count d)) stale_interface)) as Ea.
  { unfold at_state. rewrite E4, E3, list_lookup_alter_eq, Est. done. }
  apply (wp_while _ (fun i s' => 0 <= i <= Z.of_nat len /\ K L [] n (c + 1) k x s' /\
      exists l', at_state c (kept (obj s')) = Some l' /\ length l' = len) (fun i _ => Z.of_nat len - i)).
  - intros i s5 (Hi & H5 & l5 & L5 & Hl5). cbn [as_interfaces_count st]. rewrite Hn.
    destruct (Z.ltb_spec i (Z.of_nat len)); [|by apply wp_ret].
    destruct (lookup_lt_is_Some_2 ds (Z.to_nat i)) as [it Eit]; [unfold len in *; lia|].
    apply wp_bind. eapply wp_mono; [eapply (wp_interfaces d ds it i c l5); [done|lia|done|done|by eapply Forall_lookup_1|exact H5|done]|].
    cbn beta. intros ok s6 (H6 & l6 & L6 & Hl6). apply wp_ret. destruct ok; [|done].
    split; [|lia]. split; [lia|]. split; [done|]. exists l6. split; [done|congruence].
  - split; [lia|]. split; [exact H4|]. eexists. split; [exact Ea|]. rewrite length_replicate, Hn. lia.
  - unfold FUEL. lia.
Qed.
End Configure.

(** ** The contract of a host controller *)

(** [u] devices have an address and no endpoints yet; [x0] are the fields at the start. *)
Definition keeper_holds x0 (L : list Z) (u : Z) (k : bool) s : Prop :=
  exists n c, K L [] n c k x0 s /\ 1 <= n <= 128 /\ 0 <= c /\ 0 <= u /\ c + u <= n - 1.

(** What the methods of a driver owe, over any fields at the start. *)
Record methods_ok (H : HostController (driver W O)) : Prop := {
  controller_view s : hc_controller s = kp_controller (kept (obj s));
  controller_store f s : exists y, hc_set_controller f s = mkDriver (world s) y /\ kept y = set_kp_controller f (kept (obj s));
  reset_ok port L n c k x s : K L [] n c k x s -> wp (reset_port port) (fun _ => K L [] n c k x) s;
  identify_ok port L n c k x s : K L [] n c k x s -> wp (identify_device port) (fun _ => K L [] n c k x) s;
  address_ok desc port L n c k x s : K L [] n c k x s -> 1 <= n <= 128 -> wp (set_address desc port) (address_post L n c k x) s;
  request_ok packet mps len address port L n c k x s : K L [] n c k x s -> 0 <= len ->
    wp (usb_send_packet packet mps len address port) (reply_post L n c k x len) s;
  endpoints_ok d value mps address L n c k x s : K L [] n c k x s -> 0 <= c < 255 -> device_ok d ->
    wp (configure_endpoints d value mps address) (fun _ => K L [] n (c + 1) k x) s
}.

Definition keeper_laws (H : HostController (driver W O)) (ok : methods_ok H) (x0 : kept_fields E) : HostLaws (driver W O).
Proof.
  refine {| in_hand L C k s := keeper_holds x0 L (unconfigured C) k s |}.
  - intros L L' C k s EL (n & c & (B & R & Hh & HK) & Hb). exists n, c. split; [|done]. exists B, R. split; [|done].
    eapply holds_perm; [|reflexivity|exact Hh]. by rewrite EL.
  - intros L C k s (n & c & (B & R & Hh & HA & Hn & Hc & Hk & _) & _). by rewrite (controller_view H ok).
  - by intros L C k s (n & c & HK & Hb & Hc & Hu & _).
  - intros sz L C k s (n & c & HK & Hb). eapply K_new; [exact HK|]. intros p s' Hp H' _. split; [done|]. by exists n, c.
  - intros p L C k s (n & c & (B & R & Hh & HK) & Hb). eapply (wp_delete timer p _ (B ++ L) (R ++ [])).
    + eapply holds_perm; [|reflexivity|exact Hh]. solve_Permutation.
    + intros s' H' Eo. exists n, c. split; [|done]. exists B, R. by rewrite Eo.
  - intros port L C k s (n & c & HK & Hb). eapply wp_mono; [by eapply (reset_ok H ok)|]. cbn beta. intros r s' H'. by exists n, c.
  - intros port L C k s (n & c & HK & Hb). eapply wp_mono; [by eapply (identify_ok H ok)|]. cbn beta. intros d s' H'. by exists n, c.
  - intros desc port L C k s (n & c & HK & Hb & Hc & Hu & Hr). eapply wp_mono; [by apply (address_ok H ok)|].
    cbn beta. intros d s' (n' & H' & Hn' & Hd & Hi). split; [|done]. exists n', c. cbn [unconfigured]. split; [exact H'|].
    destruct (discovered d); [specialize (Hd eq_refl)|]; lia.
  - intros packet mps len address port L C k s (n & c & HK & Hb) Hl.
    eapply wp_mono; [apply (request_ok H ok); [exact HK|lia]|]. cbn beta. intros r s' [H' Hf]. split; [|done]. by exists n, c.
  - intros d value mps address L C k s (n & c & HK & Hb & Hc & Hu & Hr) Hd Hu1.
    eapply wp_mono; [eapply (endpoints_ok H ok); [exact HK|lia|done]|]. cbn beta. intros r s' H'. exists n, (c + 1).
    cbn [unconfigured]. split; [exact H'|lia].
  - intros L C k s (n & c & (B & R & Hh & HA & HK) & Hb). destruct (controller_store H ok (set_needs_reinit (fun _ => true)) s) as (y & -> & Ey).
    exists n, c. split; [|done]. exists B, R. cbn [obj]. rewrite Ey. split; [done|]. split; [by destruct HA|done].
Defined.

(** Before an enumeration: [L] are the caller's blocks. *)
Definition keeper_ready (L : list Z) s : Prop :=
  exists B R, holds timer (B ++ L) R s /\ arrays_ok B R (kept (obj s)) /\ 1 <= kp_next_address (kept (obj s)) <= 128 /\
    kp_state_count (kept (obj s)) <= kp_next_address (kept (obj s)) - 1.

Lemma enumeration_ok (H : HostController (driver W O)) `{!UsbHost (driver W O)} (ok : methods_ok H) port L s : keeper_ready L s ->
  is_xhci_controller (kp_controller (kept (obj s))) = false ->
  wp (get_device (HostController0 := H) port) (fun d s' => keeper_ready (device_blocks d ++ L) s' /\
    keeps_quarantine (kept (obj s)) (kept (obj s')) /\ (discovered d = true -> enumerated d port)) s.
Proof.
  intros (B & R & Hh & HA & Hn & Hr) Hx.
  assert (in_hand (HostLaws := keeper_laws H ok (kept (obj s))) L [] false s) as Hin.
  { exists (kp_next_address (kept (obj s))), (kp_state_count (kept (obj s))). split.
    - exists B, R. rewrite app_nil_r. split_and!; (done || apply keeps_refl).
    - destruct HA. cbn [unconfigured]. lia. }
  eapply wp_mono; [apply (wp_get_device (HostLaws0 := keeper_laws H ok (kept (obj s))) port L [] false s Hin)|].
  cbn beta. intros d s' (C' & (n & c & (B' & R' & H' & HA' & Hn' & Hc' & _ & Hk') & Hb) & Hd). split; [|split; [done|]].
  - exists B', R'. rewrite app_nil_r in H'. rewrite Hn', Hc'. split; [done|]. split; [done|lia].
  - intros Ed. by destruct (Hd Ed) as [_ He].
Qed.
End Keep.
