(* ===== verification/Uhci.v ===== *)
(** * UHCI: the controller and its control transfers ([drivers/usb/uhci.cpp])

    The controller object, its registers, ports, the transfer descriptors of a control transfer
    and the loop that waits for them, and the enumeration requests. The frame list, the queue heads
    and the transfer descriptors are shared memory, reached by accesses of the history. *)
From S2P Require Import KPrelude PortIO Pci Dma Timers UsbTypes Usb UsbDriver.

Definition UHCI_PORT_COUNT := 2.
Definition UHCI_CCS := 1.
Definition PR := 1 <<< 9.
Definition PE := 1 <<< 2.
Definition UHCI_W1C_MASK := 0x0A0A.
Definition UHCI_WZ_MASK := 0xE000.
Definition UHCI_CMD_RS := 0x0001.
Definition UHCI_CMD_HCRESET := 0x0002.
Definition UHCI_STS_HCH := 0x0020.
Definition UHCI_FRAME_COUNT := 1024.
Definition UHCI_LINK_TERMINATE := 1.

(** [UHCI_Regs] *)
Definition UHCI_USBCMD := 0x00.
Definition UHCI_USBSTS := 0x02.
Definition UHCI_USBINTR := 0x04.
Definition UHCI_FRNUM := 0x06.
Definition UHCI_FLBASEADD := 0x08.
Definition UHCI_SOFMOD := 0x0C.

Definition USB_PID_SETUP := 0x2D.
Definition USB_PID_IN := 0x69.
Definition USB_PID_OUT := 0xE1.
Definition UHCI_PTR_DEPTH := 4.
Definition TD_ACTIVE := 1 <<< 23.
Definition TD_IOC := 1 <<< 24.
Definition TD_LOW_SPEED := 1 <<< 26.
Definition TD_ERROR_COUNT := 3 <<< 27.
Definition TD_SPD := 1 <<< 29.
Definition TD_ACTLEN_INIT := 0x7FF.
Definition TD_ERROR_MASK := 0x007E0000.

Definition UHCI_TOKEN_ADDR (addr : Z) : Z := addr <<< 8.
Definition UHCI_TOKEN_TOGGLE (t : Z) : Z := t <<< 19.
Definition UHCI_TOKEN_MAXLEN (len : Z) : Z := u32 ((if len =? 0 then 0x7FF else u32 (len - 1)) <<< 21).

(** ** Data ([uhci.hpp]) *)

Definition sizeof_uhci_td := 32.
Definition sizeof_uhci_qh := 16.
Definition sizeof_uhci_endpoint_state := 80.
Definition sizeof_uhci_interface_state := 24.
Definition sizeof_uhci_address_state := 24.

Definition no_dma : dma_ret := mkDma 0 0 0 0.

Record uhci_endpoint_state := mkUhciEndpoint {
  ep_device_address : Z;
  ep_endpoint_address : Z;
  ep_transfer_type : Z;
  ep_interval : Z;
  ep_data_toggle : Z;
  ep_max_packet_size : Z;
  ep_speed : Z;
  scheduled : bool;
  ep_dma : dma_ret;
  ep_qh : Z;
  ep_td : Z;
  ep_qh_phys : Z;
  ep_td_phys : Z;
  ep_buffer_phys : Z
}.
Definition no_uhci_endpoint : uhci_endpoint_state := mkUhciEndpoint 0 0 0 0 0 0 0 false no_dma 0 0 0 0 0.
Definition uhci_endpoint_eta (e : uhci_endpoint_state) : uhci_endpoint_state :=
  mkUhciEndpoint (ep_device_address e) (ep_endpoint_address e) (ep_transfer_type e) (ep_interval e)
    (ep_data_toggle e) (ep_max_packet_size e) (ep_speed e) (scheduled e) (ep_dma e) (ep_qh e) (ep_td e)
    (ep_qh_phys e) (ep_td_phys e) (ep_buffer_phys e).
Definition set_ep_data_toggle : (Z -> Z) -> uhci_endpoint_state -> uhci_endpoint_state :=
  ltac:(setter uhci_endpoint_eta ep_data_toggle).
Definition set_scheduled : (bool -> bool) -> uhci_endpoint_state -> uhci_endpoint_state :=
  ltac:(setter uhci_endpoint_eta scheduled).
Definition set_ep_dma : (dma_ret -> dma_ret) -> uhci_endpoint_state -> uhci_endpoint_state :=
  ltac:(setter uhci_endpoint_eta ep_dma).

Record uhci_interface_state := mkUhciInterface {
  is_interface_number : Z;
  is_endpoints : option (list uhci_endpoint_state);
  is_endpoint_count : Z
}.
Record uhci_address_state := mkUhciAddress {
  as_device_address : Z;
  as_interfaces : option (list uhci_interface_state);
  as_interfaces_count : Z
}.

(** The object, with the file's static variable at its end. [states] is the array that the heap holds
    at [states_at]. *)
Record uhci_controller := mkUhci {
  controller : usb_controller_t;
  ports : option (list usb_port_descriptor);
  ports_count : Z;
  frame_list : Z;
  states : list uhci_address_state;
  states_at : Z;
  state_count : Z;
  anchor : Z;
  anchor_phys : Z;
  next_usb_address : Z
}.
Definition uhci_eta (x : uhci_controller) : uhci_controller :=
  mkUhci (controller x) (ports x) (ports_count x) (frame_list x) (states x) (states_at x) (state_count x)
    (anchor x) (anchor_phys x) (next_usb_address x).
Definition set_controller : (usb_controller_t -> usb_controller_t) -> uhci_controller -> uhci_controller :=
  ltac:(setter uhci_eta controller).
Definition set_ports : (option (list usb_port_descriptor) -> option (list usb_port_descriptor)) -> uhci_controller -> uhci_controller :=
  ltac:(setter uhci_eta ports).
Definition set_ports_count : (Z -> Z) -> uhci_controller -> uhci_controller := ltac:(setter uhci_eta ports_count).
Definition set_frame_list : (Z -> Z) -> uhci_controller -> uhci_controller := ltac:(setter uhci_eta frame_list).
Definition set_states : (list uhci_address_state -> list uhci_address_state) -> uhci_controller -> uhci_controller :=
  ltac:(setter uhci_eta states).
Definition set_states_at : (Z -> Z) -> uhci_controller -> uhci_controller := ltac:(setter uhci_eta states_at).
Definition set_state_count : (Z -> Z) -> uhci_controller -> uhci_controller := ltac:(setter uhci_eta state_count).
Definition set_anchor : (Z -> Z) -> uhci_controller -> uhci_controller := ltac:(setter uhci_eta anchor).
Definition set_anchor_phys : (Z -> Z) -> uhci_controller -> uhci_controller := ltac:(setter uhci_eta anchor_phys).
Definition set_next_usb_address : (Z -> Z) -> uhci_controller -> uhci_controller :=
  ltac:(setter uhci_eta next_usb_address).

(** [uhci_transfer_result] *)
Inductive transfer_outcome := success | timeout | transfer_error.
#[export] Instance transfer_outcome_eq_dec : EqDecision transfer_outcome.
Proof. solve_decision. Defined.

Definition uhci_actual_length (status : Z) : Z := ((status &&& 0x7FF) + 1) &&& 0x7FF.
Definition uhci_max_length (token : Z) : Z := (((token >>> 21) &&& 0x7FF) + 1) &&& 0x7FF.
Definition uhci_td_failed (status : Z) : bool :=
  (status &&& TD_ACTIVE =? 0) && negb (status &&& TD_ERROR_MASK =? 0).

(** What a look at the data stage finds. *)
Inductive data_stage :=
| StageFailed
| StagePending (received : Z)
| StageDone (received : Z) (short : bool).

Section Uhci.
Context {W : Type} `{!IO W} `{!DmaOps W} `{!HeapOps W}.
Context (dev : device) (timer : TimerSource W).

Abbreviation MU := (M (driver W uhci_controller)).

Definition now : MU Z := @read _ (driver_timer timer).
Definition wait (ms : Z) : MU unit := wait_ms (driver_timer timer) ms.

(** [(u16)controller.io_base], and a register's port. *)
Definition base_port : MU Z := base ← get (fun x => io_base (controller x)); mret (u16 base).
Definition reg (base offset : Z) : Z := u16 (base + offset).

(** *** Bringing the controller up *)

(** A poll with a deadline. *)
Definition poll_until (duration : Z) (poll : MU bool) : MU bool :=
  start ← now;
  while FUEL (fun _ : unit =>
    t ← now;
    if u64 (t - start) <? duration then
      ok ← poll; mret (if (ok : bool) then inr true else inl ())
    else mret (inr false)) ().

Definition controller_init : MU Z :=
  upd (set_states (fun _ => []));;
  upd (set_states_at (fun _ => 0));;
  upd (set_state_count (fun _ => 0));;
  upd (set_anchor (fun _ => 0));;
  base ← base_port;
  outw (reg base UHCI_USBCMD) 0;;
  start ← now;
  freq ← @read_freq _ (driver_timer timer);
  let duration := freq / 100 in
  halted ← while FUEL (fun _ : unit =>
    t ← now;
    if u64 (t - start) <? duration then
      sts ← inw dev (reg base UHCI_USBSTS);
      mret (if sts &&& UHCI_STS_HCH =? 0 then inl () else inr true)
    else mret (inr false)) ();
  if negb halted then mret 1
  else
    outw (reg base UHCI_USBCMD) UHCI_CMD_HCRESET;;
    reset ← poll_until duration (cmd ← inw dev (reg base UHCI_USBCMD); mret (cmd &&& UHCI_CMD_HCRESET =? 0));
    if negb reset then mret 1
    else
      outw (reg base UHCI_USBSTS) 0x003F;;
      outw (reg base UHCI_USBINTR) 0;;
      outw (reg base UHCI_FRNUM) 0;;
      outw (reg base UHCI_SOFMOD) 64;;
      ret ← allocate_dma 4096;
      if negb (ret_status ret =? 0) then mret 1
      else
        let fl := virtual_address ret in
        upd (set_frame_list (fun _ => fl));;
        for_ 0 UHCI_FRAME_COUNT (fun i _ => w32 (fl + 4 * i) UHCI_LINK_TERMINATE) ();;
        if physical_address ret >? 0xFFFFFFFF then mret 1
        else
          outl (reg base UHCI_FLBASEADD) (physical_address ret);;
          outw (reg base UHCI_USBCMD) UHCI_CMD_RS;;
          running ← poll_until duration (sts ← inw dev (reg base UHCI_USBSTS); mret (sts &&& UHCI_STS_HCH =? 0));
          mret (if (running : bool) then 0 else 1).

(** *** Ports *)

Definition uhci_read_port (io_base port : Z) : MU Z := inw dev (reg io_base (0x10 + (port <<< 1))).

Definition enumrate_ports : MU Z :=
  base ← base_port;
  p ← kmalloc (UHCI_PORT_COUNT * 24);
  upd (set_ports (fun _ => if p =? 0 then None else Some (replicate 2 (mkPort 0 false 0 0 None))));;
  if p =? 0 then mret (-1)
  else
    for_ 0 UHCI_PORT_COUNT (fun port _ =>
      status ← uhci_read_port base port;
      upd (set_ports (fmap (fun l => <[Z.to_nat port :=
        mkPort (port + 1) (negb (status &&& UHCI_CCS =? 0)) UHCI status None]> l)))) ();;
    mret UHCI_PORT_COUNT.

Definition reset_port (port : Z) : MU Z :=
  if (port <? 1) || (port >? 2) then mret INVALID_PORT
  else
    base ← get (fun x => io_base (controller x));
    let r := u16 (base + 0x10 + ((port - 1) <<< 1)) in
    status ← inw dev r;
    if status &&& UHCI_CCS =? 0 then mret NO_DEVICE
    else
      outw r ((status &&& 0x1FF &&& Z.lnot UHCI_W1C_MASK) ||| PR);;
      wait 50;;
      status ← inw dev r;
      outw r (status &&& Z.lnot (PR ||| UHCI_W1C_MASK ||| UHCI_WZ_MASK) &&& Z.lnot PR);;
      wait 10;;
      status ← inw dev r;
      if negb (status &&& PR =? 0) then mret RESET_STILL_ASSERTED
      else
        status ← (if status &&& PE =? 0 then
                    outw r ((status &&& Z.lnot (UHCI_W1C_MASK ||| UHCI_WZ_MASK)) ||| PE);;
                    wait 1;;
                    inw dev r
                  else mret status);
        mret (if negb (status &&& UHCI_CCS =? 0) && negb (status &&& PE =? 0) && (status &&& PR =? 0)
              then RESET_SUCCESS else RESET_FAILED).

Definition CLEAR_PE := Z.lnot (PE ||| UHCI_W1C_MASK ||| UHCI_WZ_MASK).

Definition disable_port (port : Z) : MU Z :=
  if (port <? 1) || (port >? 2) then mret INVALID_PORT
  else
    base ← get (fun x => io_base (controller x));
    let r := u16 (base + 0x10 + ((port - 1) <<< 1)) in
    status ← inw dev r;
    if status =? 0xFFFF then mret INVALID_STATUS
    else
      outw r (status &&& CLEAR_PE);;
      status ← while FUEL (fun '(i, status) =>
        if i <? 100 then
          status ← inw dev r;
          if status &&& PE =? 0 then mret (inr status)
          else wait 1;; mret (inl (i + 1, status))
        else mret (inr status)) (0, status &&& CLEAR_PE);
      mret (if status &&& PE =? 0 then RESET_SUCCESS else RESET_FAILED).

(** *** Transfer descriptors *)

Definition td_link (td : Z) := td.
Definition td_status (td : Z) := td + 4.
Definition td_token (td : Z) := td + 8.
Definition td_buffer (td : Z) := td + 12.
Definition head_link (qh : Z) := qh.
Definition element_link (qh : Z) := qh + 4.

(** The data stage, from the descriptor [i] on, with [total] bytes so far. *)
Definition scan_data (qh data_tds data_td_count status_td_phys : Z) : MU data_stage :=
  while FUEL (fun '(i, total_received) =>
    if i <? data_td_count then
      let td := data_tds + sizeof_uhci_td * i in
      status ← r32 dev (td_status td);
      if uhci_td_failed status then mret (inr StageFailed)
      else if negb (status &&& TD_ACTIVE =? 0) then mret (inr (StagePending total_received))
      else
        token ← r32 dev (td_token td);
        let actual := uhci_actual_length status in
        let total_received := u32 (total_received + actual) in
        if negb (status &&& TD_SPD =? 0) && (actual <? uhci_max_length token) then
          w32 (element_link qh) status_td_phys;;
          mret (inr (StageDone total_received true))
        else mret (inl (i + 1, total_received))
    else mret (inr (StageDone total_received false))) (0, 0).

(** The outcome, and the bytes received. *)
Definition wait_for_control_transfer (qh setup_td data_tds data_td_count status_td status_td_phys : Z)
    : MU (transfer_outcome * Z) :=
  while FUEL (fun '(elapsed, received, short_packet) =>
    if elapsed <? 100 then
      setup_status ← r32 dev (td_status setup_td);
      if uhci_td_failed setup_status then mret (inr (transfer_error, received))
      else if negb (setup_status &&& TD_ACTIVE =? 0) then
        wait 1;; mret (inl (elapsed + 1, received, short_packet))
      else
        stage ← (if (short_packet : bool) then mret (StageDone received true)
                 else scan_data qh data_tds data_td_count status_td_phys);
        match stage with
        | StageFailed => mret (inr (transfer_error, received))
        | StagePending received => wait 1;; mret (inl (elapsed + 1, received, short_packet))
        | StageDone received short_packet =>
            status_status ← r32 dev (td_status status_td);
            if uhci_td_failed status_status then mret (inr (transfer_error, received))
            else if status_status &&& TD_ACTIVE =? 0 then mret (inr (success, received))
            else wait 1;; mret (inl (elapsed + 1, received, short_packet))
        end
    else mret (inr (timeout, received))) (0, 0, false).

(** *** Stopping and starting the schedule *)

(** At most 100 looks a millisecond apart, and a last one. *)
Definition wait_status (io_base : Z) (halted : bool) : MU bool :=
  let look := sts ← inw dev (reg io_base UHCI_USBSTS);
              mret (Bool.eqb (negb (sts &&& UHCI_STS_HCH =? 0)) halted) in
  while FUEL (fun elapsed =>
    ok ← look;
    if elapsed <? 100 then
      if (ok : bool) then mret (inr true) else wait 1;; mret (inl (elapsed + 1))
    else mret (inr ok)) 0.
Definition wait_for_halted (io_base : Z) : MU bool := wait_status io_base true.
Definition wait_for_start (io_base : Z) : MU bool := wait_status io_base false.

(** The old command, and whether the controller has stopped. *)
Definition halt_schedule (io_base : Z) : MU (Z * bool) :=
  old_command ← inw dev (reg io_base UHCI_USBCMD);
  outw (reg io_base UHCI_USBCMD) (old_command &&& Z.lnot 1);;
  ok ← wait_for_halted io_base;
  mret (old_command, ok).
Definition start_schedule (io_base old_command : Z) : MU bool :=
  outw (reg io_base UHCI_USBCMD) (old_command ||| 1);;
  wait_for_start io_base.

(** Every frame is led to the queue head at [qh_phys]; the answer is what was there. *)
Definition borrow_frames (qh_phys : Z) : MU (list Z) :=
  for_ 0 1024 (fun i backup =>
    fl ← get frame_list;
    v ← r32 dev (fl + 4 * i);
    w32 (fl + 4 * i) (qh_phys ||| 2);;
    mret (backup ++ [v])) [].
Definition lead_frames (qh_phys : Z) : MU unit :=
  for_ 0 1024 (fun i _ => fl ← get frame_list; w32 (fl + 4 * i) (qh_phys ||| 2)) ().
Definition restore_frames (backup : list Z) : MU unit :=
  for_ 0 1024 (fun i _ =>
    fl ← get frame_list; v ← of_option (array_get backup i); w32 (fl + 4 * i) v) ().

(** [new u32[1024]]: the array is stored into at once. *)
Definition new_backup : MU Z :=
  p ← operator_new 4096; if p =? 0 then fault else mret p.

(** The bit for the low speed of the device at a port. *)
Definition low_speed_status (io_base port : Z) : MU Z :=
  status ← uhci_read_port io_base (u8 (port - 1));
  mret (if status &&& (1 <<< 8) =? 0 then 0 else TD_LOW_SPEED).
End Uhci.
