(* ===== verification/UhciRequests.v ===== *)
(** * UHCI: control requests ([drivers/usb/uhci.cpp])

    Reading the first bytes of a device's descriptor, giving it an address, and any control request.
    Each builds a chain of transfer descriptors, leads all frames of the schedule to it while the
    controller is stopped, waits, and puts the frames back. *)
From S2P Require Import KPrelude PortIO Pci Dma Timers UsbTypes Usb UsbDriver Uhci.

Section Requests.
Context {W : Type} `{!IO W} `{!DmaOps W} `{!HeapOps W}.
Context (dev : device) (timer : TimerSource W).

Abbreviation MU := (M (driver W uhci_controller)).

(** A transfer descriptor's four words, in the order of the code. *)
Definition store_td (td link status token buffer : Z) : MU unit :=
  w32 (td_link td) link;; w32 (td_status td) status;; w32 (td_token td) token;; w32 (td_buffer td) buffer.

(** *** [identify_device] *)

Definition FIRST_DESCRIPTOR : usb_setup_packet := mkSetup 0x80 0x06 0x0100 0x0000 8.

(** The structures in the region at [a], whose physical address is [p]. *)
Definition fill_identify (a p low : Z) : MU unit :=
  store_setup (a + 112) FIRST_DESCRIPTOR;;
  w32 (head_link a) 1;;
  w32 (element_link a) (u32 (p + 16));;
  w32 (a + 8) 0;;
  w32 (a + 12) 0;;
  store_td (a + 16) (u32 (p + 48) ||| UHCI_PTR_DEPTH) (TD_ACTIVE ||| TD_ERROR_COUNT ||| low)
    (0x2D ||| (7 <<< 21)) (u32 (p + 112));;
  store_td (a + 48) (u32 (p + 80) ||| UHCI_PTR_DEPTH)
    (TD_ACTIVE ||| TD_ERROR_COUNT ||| TD_ACTLEN_INIT ||| low) (0x69 ||| (1 <<< 19) ||| (7 <<< 21)) (u32 (p + 120));;
  store_td (a + 80) UHCI_LINK_TERMINATE
    (TD_ACTIVE ||| TD_ERROR_COUNT ||| TD_ACTLEN_INIT ||| TD_IOC ||| low)
    (0xE1 ||| (1 <<< 19) ||| (0x7FF <<< 21)) 0.

(** The 8 bytes that came, if they start a device descriptor. *)
Definition read_first (buffer : Z) : MU usb_device_descriptor :=
  len ← r8 dev buffer;
  if negb (len =? 0x12) then mret no_descriptor
  else
    type ← r8 dev (buffer + 1);
    if negb (type =? 0x01) then mret no_descriptor
    else b ← read_bytes dev buffer 8; mret (b ++ replicate 10 0).

(** The end of [identify_device] on both outcomes. *)
Definition give_frames_back (io_base a backup_at : Z) (backup : list Z) : MU unit :=
  '(old_command, ok) ← halt_schedule dev timer io_base;
  if negb ok then free_dma a;; operator_delete backup_at
  else
    restore_frames backup;;
    start_schedule dev timer io_base old_command;;
    operator_delete backup_at;;
    free_dma a.

Definition identify_device (port : Z) : MU usb_device_descriptor :=
  base ← base_port;
  low ← low_speed_status dev base port;
  alloc ← allocate_dma 128;
  if negb (ret_status alloc =? 0) then mret no_descriptor
  else
    let a := virtual_address alloc in
    let p := physical_address alloc in
    if p >? 0xFFFFFFFF then free_dma a;; mret no_descriptor
    else
      fill_identify a p low;;
      '(old_command, ok) ← halt_schedule dev timer base;
      if negb ok then free_dma a;; mret no_descriptor
      else
        backup_at ← new_backup;
        backup ← borrow_frames dev (u32 p);
        ok ← start_schedule dev timer base old_command;
        if negb ok then free_dma a;; operator_delete backup_at;; mret no_descriptor
        else
          '(result, _) ← wait_for_control_transfer dev timer a (a + 16) (a + 48) 1 (a + 80) (u32 (p + 80));
          desc ← (if bool_decide (result = success) then read_first (a + 120) else mret no_descriptor);
          give_frames_back base a backup_at backup;;
          mret desc.

(** *** [set_address] *)

Definition valid_mps (n : Z) : bool := (n =? 8) || (n =? 16) || (n =? 32) || (n =? 64).

(** 0 when there are no addresses left. *)
Definition allocate_usb_address : MU Z :=
  n ← get next_usb_address;
  if n >? 127 then mret 0 else upd (set_next_usb_address (fun n => u8 (n + 1)));; mret n.

Definition ADDRESS_REQUEST (address : Z) : usb_setup_packet := mkSetup 0x00 0x05 address 0 0.
Definition DEVICE_REQUEST : usb_setup_packet := mkSetup 0x80 0x06 0x0100 0 18.

(** Queue head, two descriptors and the packet of SET_ADDRESS. *)
Definition fill_address (a p low address : Z) : MU unit :=
  store_setup (a + 80) (ADDRESS_REQUEST address);;
  clear_memory a 16;;
  w32 (head_link a) 1;;
  w32 (element_link a) (u32 (p + 16));;
  clear_memory (a + 16) 32;;
  store_td (a + 16) (u32 (p + 48) ||| UHCI_PTR_DEPTH) (TD_ACTIVE ||| TD_ERROR_COUNT ||| low)
    (USB_PID_SETUP ||| UHCI_TOKEN_MAXLEN 8) (u32 (p + 80));;
  clear_memory (a + 48) 32;;
  store_td (a + 48) UHCI_LINK_TERMINATE (TD_ACTIVE ||| TD_ERROR_COUNT ||| low)
    (USB_PID_IN ||| UHCI_TOKEN_TOGGLE 1 ||| UHCI_TOKEN_MAXLEN 0) 0.

(** The data stage of a request: the descriptors at [tds] (physical [tds_phys]) take [length] bytes
    to [buffer] in packets of [mps], and lead to [status_phys]. *)
Definition fill_data (tds tds_phys count status_phys buffer length mps address status : Z) : MU unit :=
  for_ 0 count (fun i '(offset, toggle) =>
    let remaining := u32 (length - offset) in
    let len := if remaining <? mps then remaining else mps in
    let last := i =? u32 (count - 1) in
    store_td (tds + sizeof_uhci_td * i)
      (u32 ((if last then status_phys else tds_phys + (i + 1) * sizeof_uhci_td) ||| UHCI_PTR_DEPTH))
      (status ||| (if last then 0 else TD_SPD))
      (USB_PID_IN ||| UHCI_TOKEN_ADDR address ||| UHCI_TOKEN_TOGGLE toggle ||| UHCI_TOKEN_MAXLEN len)
      (u32 (buffer + offset));;
    mret (u32 (offset + len), Z.lxor toggle 1)) (0, 1);;
  mret ().

(** Queue head, descriptors and packet of the request for all of the device descriptor. *)
Definition fill_device_request (a p address common_status mps count : Z) : MU unit :=
  store_setup (a + 176) DEVICE_REQUEST;;
  store_td (a + 16) (u32 ((p + 48) ||| UHCI_PTR_DEPTH)) common_status
    (USB_PID_SETUP ||| UHCI_TOKEN_ADDR address ||| UHCI_TOKEN_MAXLEN 8) (u32 (p + 176));;
  fill_data (a + 48) (p + 48) count (p + 144) (p + 184) 18 mps address common_status;;
  store_td (a + 144) 1 (common_status ||| TD_IOC)
    (USB_PID_OUT ||| UHCI_TOKEN_ADDR address ||| UHCI_TOKEN_TOGGLE 1 ||| UHCI_TOKEN_MAXLEN 0) 0;;
  w32 (head_link a) 1;;
  w32 (element_link a) (u32 (p + 16)).

(** All of the descriptor, checked. *)
Definition read_descriptor (buffer received : Z) : MU (option usb_device_descriptor) :=
  if negb (received =? 18) then mret None
  else
    type ← r8 dev (buffer + 1);
    if negb (type =? 0x01) then mret None
    else
      len ← r8 dev buffer;
      if negb (len =? 18) then mret None else b ← read_bytes dev buffer 18; mret (Some b).

(** The second request fails: the port is reset, and the address may be given again. *)
Definition device_request_failed (device : usb_device) (a backup_at address port io_base : Z) (backup : list Z)
    : MU usb_device :=
  '(old_command, ok) ← halt_schedule dev timer io_base;
  if negb ok then free_dma a;; operator_delete backup_at;; mret device
  else
    restore_frames backup;;
    start_schedule dev timer io_base old_command;;
    rests ← reset_port dev timer port;
    (if negb (rests =? 0) then mret () else upd (set_next_usb_address (fun _ => address)));;
    free_dma a;; operator_delete backup_at;;
    mret (set_dev_address (fun _ => 0) device).

(** The request for all of the descriptor, when the device has its address. *)
Definition request_descriptor (device : usb_device) (desc : usb_device_descriptor)
    (backup_at address port io_base : Z) (backup : list Z) : MU usb_device :=
  alloc ← allocate_dma 202;
  if negb (ret_status alloc =? 0) then mret device
  else
    let a := virtual_address alloc in
    let p := physical_address alloc in
    if p >? 0xFFFFFFFF then free_dma a;; mret device
    else
      status ← uhci_read_port dev io_base (u8 (port - 1));
      let common_status := TD_ACTIVE ||| TD_ERROR_COUNT |||
                           (if status &&& (1 <<< 8) =? 0 then 0 else TD_LOW_SPEED) in
      let mps := bMaxPacketSize0 desc in
      let count := (18 + mps - 1) / mps in
      fill_device_request a p address common_status mps count;;
      '(old_command, ok) ← halt_schedule dev timer io_base;
      if negb ok then free_dma a;; mret device
      else
        lead_frames p;;
        ok ← start_schedule dev timer io_base old_command;
        if negb ok then free_dma a;; operator_delete backup_at;; mret device
        else
          '(result, received) ← wait_for_control_transfer dev timer a (a + 16) (a + 48) count (a + 144) (u32 (p + 144));
          if negb (bool_decide (result = success)) then
            device_request_failed device a backup_at address port io_base backup
          else
            full ← read_descriptor (a + 184) received;
            '(old_command, ok) ← halt_schedule dev timer io_base;
            if negb ok then free_dma a;; operator_delete backup_at;; mret device
            else
              restore_frames backup;;
              start_schedule dev timer io_base old_command;;
              operator_delete backup_at;;
              free_dma a;;
              mret (set_discovered (fun _ => bool_decide (is_Some full))
                      (set_dev_descriptor (fun _ => default desc full) device)).

(** SET_ADDRESS is over: the frames are put back before the second request. *)
Definition address_taken (device : usb_device) (desc : usb_device_descriptor)
    (a backup_at address port io_base : Z) (backup : list Z) : MU usb_device :=
  let device := set_dev_address (fun _ => address) device in
  wait timer 2;;
  '(old_command, ok) ← halt_schedule dev timer io_base;
  if negb ok then free_dma a;; mret device
  else
    restore_frames backup;;
    ok ← start_schedule dev timer io_base old_command;
    if negb ok then free_dma a;; operator_delete backup_at;; mret device
    else
      free_dma a;;
      request_descriptor device desc backup_at address port io_base backup.

Definition address_failed (device : usb_device) (a backup_at address io_base : Z) (backup : list Z)
    : MU usb_device :=
  '(old_command, ok) ← halt_schedule dev timer io_base;
  if negb ok then free_dma a;; operator_delete backup_at;; mret device
  else
    restore_frames backup;;
    start_schedule dev timer io_base old_command;;
    upd (set_next_usb_address (fun _ => address));;
    free_dma a;; operator_delete backup_at;; mret device.

(** The caller's [desc] is overwritten as well; nobody reads it afterwards. *)
Definition set_address (desc : usb_device_descriptor) (port : Z) : MU usb_device :=
  if negb (bLength desc =? 18) || negb (bDescriptorType desc =? 1) || negb (valid_mps (bMaxPacketSize0 desc))
  then mret no_device
  else
    base ← base_port;
    low ← low_speed_status dev base port;
    slow ← uhci_read_port dev base (u8 (port - 1));
    let device := set_dev_speed (fun _ => if slow &&& (1 <<< 8) =? 0 then USB_SPEED_FULL else USB_SPEED_LOW)
                    no_device in
    alloc ← allocate_dma 88;
    if negb (ret_status alloc =? 0) then mret device
    else
      let a := virtual_address alloc in
      let p := physical_address alloc in
      if p >? 0xFFFFFFFF then free_dma a;; mret device
      else
        address ← allocate_usb_address;
        if address =? 0 then free_dma a;; mret device
        else
          fill_address a p low address;;
          '(old_command, ok) ← halt_schedule dev timer base;
          if negb ok then free_dma a;; mret device
          else
            backup_at ← new_backup;
            backup ← borrow_frames dev p;
            ok ← start_schedule dev timer base old_command;
            if negb ok then free_dma a;; operator_delete backup_at;; mret device
            else
              '(result, _) ← wait_for_control_transfer dev timer a (a + 16) 0 0 (a + 48) (u32 (p + 48));
              if negb (bool_decide (result = success)) then address_failed device a backup_at address base backup
              else address_taken device desc a backup_at address port base backup.

(** *** [usb_send_packet] *)

(** Offsets in a region for [count] data descriptors. *)
Definition status_at (count : Z) : Z := 48 + sizeof_uhci_td * count.
Definition setup_at (count : Z) : Z := status_at count + sizeof_uhci_td.

Definition fill_request (a p : Z) (packet : usb_setup_packet) (low mps length count address : Z) : MU unit :=
  let status_td := a + status_at count in
  let setup := a + setup_at count in
  store_setup setup packet;;
  clear_memory (a + 16) 32;;
  w32 (td_link (a + 16)) (if count =? 0 then u32 (p + status_at count) else u32 (p + 48));;
  w32 (td_token (a + 16)) (USB_PID_SETUP ||| UHCI_TOKEN_ADDR address ||| UHCI_TOKEN_MAXLEN 8);;
  w32 (td_status (a + 16)) (TD_ACTIVE ||| TD_ERROR_COUNT ||| low);;
  w32 (td_buffer (a + 16)) (u32 (p + setup_at count));;
  (if count =? 0 then mret ()
   else fill_data (a + 48) (u32 (p + 48)) count (u32 (p + status_at count)) (u32 (p + setup_at count + 8)) length mps
          address (TD_ACTIVE ||| TD_ERROR_COUNT ||| low));;
  clear_memory status_td 32;;
  w32 (td_status status_td) (TD_ACTIVE ||| TD_ERROR_COUNT ||| low);;
  request_type ← r8 dev setup;
  request_length ← r16 dev (setup + 6);
  let status_in := (request_length =? 0) || (request_type &&& 0x80 =? 0) in
  w32 (td_token status_td) ((if status_in then USB_PID_IN else USB_PID_OUT) ||| UHCI_TOKEN_ADDR address |||
                            UHCI_TOKEN_TOGGLE 1 ||| UHCI_TOKEN_MAXLEN 0);;
  w32 (td_buffer status_td) 0;;
  w32 (td_link status_td) UHCI_LINK_TERMINATE;;
  clear_memory a 16;;
  w32 (head_link a) UHCI_LINK_TERMINATE;;
  w32 (element_link a) (u32 (p + 16)).

(** The reply of a request of [length] bytes, whose region is freed. *)
Definition take_reply (a data length : Z) : MU packet_reply :=
  if length =? 0 then free_dma a;; mret Completed
  else
    p ← kmalloc length;
    if p =? 0 then free_dma a;; mret NoReply
    else
      b ← read_bytes dev data length;
      free_dma a;;
      mret (Reply p b).

Definition request_failed (a backup_at io_base : Z) (backup : list Z) : MU packet_reply :=
  '(old_command, ok) ← halt_schedule dev timer io_base;
  if negb ok then free_dma a;; operator_delete backup_at;; mret NoReply
  else
    restore_frames backup;;
    start_schedule dev timer io_base old_command;;
    free_dma a;; operator_delete backup_at;; mret NoReply.

Definition request_done (a backup_at io_base data length : Z) (backup : list Z) : MU packet_reply :=
  wait timer 2;;
  '(old_command, ok) ← halt_schedule dev timer io_base;
  if negb ok then free_dma a;; operator_delete backup_at;; mret NoReply
  else
    restore_frames backup;;
    ok ← start_schedule dev timer io_base old_command;
    if negb ok then free_dma a;; operator_delete backup_at;; mret NoReply
    else operator_delete backup_at;; take_reply a data length.

Definition usb_send_packet (packet : usb_setup_packet) (maxpacketsize length address port : Z) : MU packet_reply :=
  if (maxpacketsize =? 0) || negb (length =? wLength packet) || (length >? 4096) ||
     (negb (length =? 0) && (BmRequestType packet &&& IN =? 0)) then mret NoReply
  else
    base ← base_port;
    low ← low_speed_status dev base port;
    let count := u32 ((length + maxpacketsize - 1) / maxpacketsize) in
    alloc ← allocate_dma ((count + 2) * sizeof_uhci_td + sizeof_uhci_qh + length + 8);
    if negb (ret_status alloc =? 0) then mret NoReply
    else
      let a := virtual_address alloc in
      let p := physical_address alloc in
      if p >? 0xFFFFFFFF then free_dma a;; mret NoReply
      else
        fill_request a p packet low maxpacketsize length count address;;
        '(old_command, ok) ← halt_schedule dev timer base;
        if negb ok then free_dma a;; mret NoReply
        else
          backup_at ← new_backup;
          backup ← borrow_frames dev (u32 p);
          ok ← start_schedule dev timer base old_command;
          if negb ok then free_dma a;; operator_delete backup_at;; mret NoReply
          else
            '(result, _) ← wait_for_control_transfer dev timer a (a + 16) (a + 48) count
                             (a + status_at count) (u32 (p + status_at count));
            if negb (bool_decide (result = success)) then request_failed a backup_at base backup
            else request_done a backup_at base (a + setup_at count + 8) length backup.
End Requests.
