(* ===== verification/UhciSchedule.v ===== *)
(** * UHCI: endpoints and transfers ([drivers/usb/uhci.cpp])

    The state of a device's endpoints, the schedule of queue heads behind the anchor, bulk and
    interrupt transfers, and the driver as a host controller. *)
From S2P Require Import KPrelude PortIO Pci Dma Timers UsbTypes UsbDesc Usb UsbDriver Uhci UhciRequests.

Section Schedule.
Context {W : Type} `{!IO W} `{!DmaOps W} `{!HeapOps W}.
Context (dev : device) (timer : TimerSource W).
(** What a new array of endpoint or interface states holds. *)
Context (stale_endpoint : uhci_endpoint_state) (stale_interface : uhci_interface_state).

Abbreviation MU := (M (driver W uhci_controller)).

(** *** [configure_endpoints] *)

(** One more address state behind the others; a failed allocation is not noticed, and faults when
    the state is filled in. *)
Definition allocate_state (device : usb_device) : MU unit :=
  x ← get (fun x => x);
  let fresh := mkUhciAddress (dev_address device) None (usb_interface_count device) in
  if state_count x =? 0 then
    p ← operator_new sizeof_uhci_address_state;
    if p =? 0 then fault
    else upd (set_states_at (fun _ => p));; upd (set_states (fun _ => [fresh]))
  else
    let old_size := state_count x * sizeof_uhci_address_state in
    p ← krealloc (states_at x) old_size (old_size + sizeof_uhci_address_state);
    if p =? 0 then fault
    else
      upd (set_states_at (fun _ => p));;
      upd (set_states (fun l => take (Z.to_nat (state_count x)) l ++ [fresh])).

(** Stores into the state [k] of the array, its interface [i] and its endpoint [j]. *)
Definition update_state (k : Z) (f : uhci_address_state -> uhci_address_state) : MU unit :=
  l ← get states; of_option (array_get l k);; upd (set_states (alter f (Z.to_nat k))).
Definition update_interface (k i : Z) (f : uhci_interface_state -> uhci_interface_state) : MU unit :=
  l ← get states;
  s ← of_option (array_get l k);
  ifs ← of_option (as_interfaces s);
  of_option (array_get ifs i);;
  update_state k (fun s => mkUhciAddress (as_device_address s) (alter f (Z.to_nat i) <$> as_interfaces s)
                             (as_interfaces_count s)).
Definition find_endpoint (k i j : Z) : MU uhci_endpoint_state :=
  l ← get states;
  s ← of_option (array_get l k);
  ifs ← of_option (as_interfaces s);
  it ← of_option (array_get ifs i);
  es ← of_option (is_endpoints it);
  of_option (array_get es j).
Definition update_endpoint (k i j : Z) (f : uhci_endpoint_state -> uhci_endpoint_state) : MU unit :=
  find_endpoint k i j;;
  update_interface k i (fun it => mkUhciInterface (is_interface_number it) (alter f (Z.to_nat j) <$> is_endpoints it)
                                    (is_endpoint_count it)).

Definition ALIGN_UP (value alignment : Z) : Z := (value + (alignment - 1)) &&& Z.lnot (alignment - 1).

(** The anchor of the schedule, when there is none yet; every frame leads to it from then on. *)
Definition make_anchor : MU unit :=
  base ← base_port;
  alloc ← allocate_dma sizeof_uhci_qh;
  if negb (ret_status alloc =? 0) then mret ()
  else if physical_address alloc >? 0xFFFFFFFF then free_dma (virtual_address alloc)
  else
    upd (set_anchor_phys (fun _ => physical_address alloc));;
    upd (set_anchor (fun _ => virtual_address alloc));;
    w32 (element_link (virtual_address alloc)) 1;;
    w32 (head_link (virtual_address alloc)) 1;;
    '(old_command, ok) ← halt_schedule dev timer base;
    if negb ok then
      upd (set_anchor (fun _ => 0));; free_dma (virtual_address alloc)
    else
      lead_frames (physical_address alloc);;
      start_schedule dev timer base old_command;;
      mret ().

Definition configure_endpoint (device : usb_device) (endpoint_index interface_index : Z) : MU uhci_endpoint_state :=
  ifs ← of_option (interfaces device);
  it ← of_option (array_get ifs interface_index);
  es ← of_option (endpoints it);
  e ← of_option (array_get es endpoint_index);
  let mps := max_packet_size e in
  alloc ← allocate_dma (sizeof_uhci_td + sizeof_uhci_qh + 16 + u32 (ALIGN_UP mps 16));
  if negb (ret_status alloc =? 0) then mret (set_ep_dma (fun _ => alloc) no_uhci_endpoint)
  else if physical_address alloc >? 0xFFFFFFFF then
    free_dma (virtual_address alloc);;
    mret (set_ep_dma (fun _ => mkDma 1 (ret_pages alloc) (virtual_address alloc) (physical_address alloc)) no_uhci_endpoint)
  else
    let a := virtual_address alloc in
    let p := physical_address alloc in
    clear_memory a 16;;
    clear_memory (a + 16) 32;;
    w32 (head_link a) 1;;
    w32 (element_link a) 1;;
    anchored ← get anchor;
    (if anchored =? 0 then make_anchor else mret ());;
    mret (mkUhciEndpoint (dev_address device) (ep_address e) (transfer_type e) (interval e) 0 mps (dev_speed device)
            false alloc a (a + 16) (u32 p) (u32 (p + 16)) (u32 (p + 48))).

(** The endpoints of interface [i]; [false] when one cannot be had. *)
Definition configure_interface (device : usb_device) (k i : Z) : MU bool :=
  ifs ← of_option (interfaces device);
  it ← of_option (array_get ifs i);
  update_interface k i (fun s => mkUhciInterface (bInterfaceNumber (if_descriptor it)) (is_endpoints s) (is_endpoint_count s));;
  update_interface k i (fun s => mkUhciInterface (is_interface_number s) (is_endpoints s) (endpoint_count it));;
  p ← operator_new (endpoint_count it * sizeof_uhci_endpoint_state);
  update_interface k i (fun s => mkUhciInterface (is_interface_number s)
    (if p =? 0 then None else Some (replicate (Z.to_nat (endpoint_count it)) stale_endpoint)) (is_endpoint_count s));;
  while FUEL (fun j =>
    if j <? endpoint_count it then
      e ← configure_endpoint device j i;
      update_endpoint k i j (fun _ => e);;
      mret (if ret_status (ep_dma e) =? 0 then inl (j + 1) else inr false)
    else mret (inr true)) 0.

Definition configure_endpoints (device : usb_device) (bConfigurationValue maxpacketsize address : Z) : MU Z :=
  allocate_state device;;
  upd (set_state_count (fun c => u8 (c + 1)));;
  c ← get state_count;
  let k := c - 1 in
  l ← get states;
  s ← of_option (array_get l k);
  let interfaces_count := as_interfaces_count s in
  p ← operator_new (interfaces_count * sizeof_uhci_interface_state);
  update_state k (fun s => mkUhciAddress (as_device_address s)
    (if p =? 0 then None else Some (replicate (Z.to_nat interfaces_count) stale_interface)) (as_interfaces_count s));;
  while FUEL (fun i =>
    if i <? interfaces_count then
      ok ← configure_interface device k i;
      mret (if (ok : bool) then inl (i + 1) else inr 1)
    else mret (inr 0)) 0.

(** *** The schedule *)

(** The queue head of an endpoint goes in front of the others. *)
Definition link_qh (k i j : Z) : MU bool :=
  anchored ← get anchor;
  ep ← find_endpoint k i j;
  if (anchored =? 0) || (ep_qh ep =? 0) then mret false
  else
    base ← base_port;
    '(old_command, ok) ← halt_schedule dev timer base;
    if negb ok then mret false
    else
      first ← r32 dev (head_link anchored);
      w32 (head_link (ep_qh ep)) first;;
      w32 (head_link anchored) (ep_qh_phys ep ||| 2);;
      update_endpoint k i j (set_scheduled (fun _ => true));;
      ok ← start_schedule dev timer base old_command;
      if negb ok then update_endpoint k i j (set_scheduled (fun _ => false));; mret false
      else mret true.

(** The walk from [previous] to the queue head of the endpoint, which is taken out. *)
Definition unlink_walk (k i j base old_command : Z) (ep : uhci_endpoint_state) (anchored : Z) : MU bool :=
  while FUEL (fun previous =>
    link ← r32 dev (head_link previous);
    if negb (link &&& 1 =? 0) then mret (inr false)
    else if link &&& 2 =? 0 then mret (inr false)
    else
      let next_phys := link &&& u32 (Z.lnot 0x0f) in
      if next_phys =? ep_qh_phys ep then
        next ← r32 dev (head_link (ep_qh ep));
        w32 (head_link previous) next;;
        w32 (head_link (ep_qh ep)) 1;;
        update_endpoint k i j (set_scheduled (fun _ => false));;
        ok ← start_schedule dev timer base old_command;
        mret (inr ok)
      else
        next_virt ← dma_phys_to_virt next_phys;
        mret (if (next_virt =? 0) || (next_virt =? 1) then inr false else inl next_virt)) anchored.

Definition unlink_qh (k i j : Z) : MU bool :=
  anchored ← get anchor;
  ep ← find_endpoint k i j;
  if (anchored =? 0) || (ep_qh ep =? 0) then mret false
  else if negb (scheduled ep) then mret true
  else
    base ← base_port;
    '(old_command, ok) ← halt_schedule dev timer base;
    if negb ok then mret false else unlink_walk k i j base old_command ep anchored.

(** *** [usb_transfer] *)

(** The state of a device is the last one with its address. *)
Definition find_state (l : list uhci_address_state) (count device_address : Z) : option Z :=
  fold_left (fun found k => match l !! k with
                            | Some s => if as_device_address s =? device_address then Some (Z.of_nat k) else found
                            | None => found
                            end) (seq 0 (Z.to_nat count)) None.

Definition terminal_errors := (1 <<< 17) ||| (1 <<< 18) ||| (1 <<< 20) ||| (1 <<< 21) ||| (1 <<< 22).

(** The descriptor of a transfer of [length] bytes. *)
Definition fill_transfer (ep : uhci_endpoint_state) (in_ : bool) (length : Z) : MU unit :=
  clear_memory (ep_td ep) 32;;
  w32 (td_link (ep_td ep)) 1;;
  w32 (td_buffer (ep_td ep)) (ep_buffer_phys ep);;
  w32 (td_token (ep_td ep))
    ((if in_ then USB_PID_IN else USB_PID_OUT) ||| (ep_device_address ep <<< 8) |||
     ((ep_endpoint_address ep &&& 0x0f) <<< 15) ||| ((ep_data_toggle ep &&& 1) <<< 19) ||| UHCI_TOKEN_MAXLEN length);;
  w32 (td_status (ep_td ep))
    (TD_ACTLEN_INIT ||| TD_ACTIVE ||| TD_ERROR_COUNT ||| (if ep_speed ep =? USB_SPEED_LOW then TD_LOW_SPEED else 0)).

(** [Some bytes] are the caller's buffer; it comes back with what arrived in front. *)
Definition copy_in (buffer : option (list Z)) (bytes : list Z) : MU (option (list Z)) :=
  b ← of_option buffer;
  if Z.of_nat (length b) <? Z.of_nat (length bytes) then fault
  else mret (Some (bytes ++ drop (length bytes) b)).
Definition copy_out (dma_buffer : Z) (buffer : option (list Z)) (n : Z) : MU unit :=
  b ← of_option buffer;
  if Z.of_nat (length b) <? n then fault else write_bytes dma_buffer (take (Z.to_nat n) b).

(** The transfer of an endpoint that may be used, behind the checks. The code of a transfer that went
    well is [SUCCESS] in the code, which no header declares; the one of [usb.hpp] is taken. *)
Definition transfer_endpoint (k i j : Z) (ep : uhci_endpoint_state) (transfer : usb_transfer_result)
    (buffer : option (list Z)) (length timeout_ : Z) : MU (usb_transfer_result * option (list Z)) :=
  let answer code := mkResult (hardware_status transfer) (actual_length transfer) (result_index transfer)
                       (result_type transfer) code (endpoint_handle transfer) in
  let in_ := negb (ep_endpoint_address ep &&& 0x80 =? 0) in
  fill_transfer ep in_ length;;
  let dma_buffer := u64 (virtual_address (ep_dma ep) + u64 (ep_buffer_phys ep - physical_address (ep_dma ep))) in
  (if negb in_ && negb (length =? 0) then copy_out dma_buffer buffer length else mret ());;
  w32 (element_link (ep_qh ep)) (ep_td_phys ep);;
  linked ← link_qh k i j;
  if negb linked then mret (answer LINK_ERROR, buffer)
  else
    for_ 0 timeout_ (fun _ _ => wait timer 1) ();;
    unlinked ← unlink_qh k i j;
    if negb unlinked then mret (answer UNLINK_ERROR, buffer)
    else
      status ← r32 dev (td_status (ep_td ep));
      if negb (status &&& TD_ACTIVE =? 0) then mret (answer TRANSFER_TIMEOUT, buffer)
      else if negb (status &&& terminal_errors =? 0) then mret (answer FAILED, buffer)
      else
        let actual := uhci_actual_length status in
        update_endpoint k i j (set_ep_data_toggle (fun t => Z.lxor t 1));;
        if actual >? length then mret (answer FAILED, buffer)
        else
          buffer ← (if in_ && negb (actual =? 0)
                    then bytes ← read_bytes dev dma_buffer actual; copy_in buffer bytes
                    else mret buffer);
          w32 (element_link (ep_qh ep)) 1;;
          mret (mkResult status actual (result_index transfer) (result_type transfer) TRANSFER_SUCCESS
                  (endpoint_handle transfer), buffer).

Definition usb_transfer (endpoint_address : Z) (buffer : option (list Z)) (length timeout_ : Z)
    : MU (usb_transfer_result * option (list Z)) :=
  x ← get (fun x => x);
  let transfer := mkResult 0 0 (c_index (controller x)) UHCI 0 endpoint_address in
  let answer code := mkResult 0 0 (c_index (controller x)) UHCI code endpoint_address in
  let port_index := (endpoint_address &&& 0xFF0000) >>> 16 in
  let interface_index := (endpoint_address &&& 0x00FF00) >>> 8 in
  let endpoint_index := endpoint_address &&& 0x0000FF in
  l ← of_option (ports x);
  port ← of_option (array_get l port_index);
  if negb (connected port) then mret (answer NOT_CONNECTED, buffer)
  else
    device ← of_option (port_device port);
    if negb (discovered device) then mret (answer NOT_DISCOVERED, buffer)
    else
      match find_state (states x) (state_count x) (dev_address device) with
      | None => mret (answer NO_ADDRESS, buffer)
      | Some k =>
          ep ← find_endpoint k interface_index endpoint_index;
          if length >? ep_max_packet_size ep then mret (answer INVALID_LENGTH, buffer)
          else if (length >? 0) && bool_decide (buffer = None) then mret (answer FAILED, buffer)
          else if negb (ep_transfer_type ep =? 2) && negb (ep_transfer_type ep =? 3) then mret (answer FAILED, buffer)
          else transfer_endpoint k interface_index endpoint_index ep transfer buffer length timeout_
      end.

(** ** The driver as a host controller *)

Definition uhci_host : HostController (driver W uhci_controller) := {|
  hc_class_code := 0x0C;
  hc_subclass := 0x03;
  hc_prog_if := 0x00;
  hc_type := IO_BAR;
  hc_controller s := controller (obj s);
  hc_set_controller f s := mkDriver (world s) (set_controller f (obj s));
  hc_ports s := ports (obj s);
  hc_set_ports f s := mkDriver (world s) (set_ports f (obj s));
  hc_ports_count s := ports_count (obj s);
  hc_set_ports_count n s := mkDriver (world s) (set_ports_count (fun _ => n) (obj s));
  Usb.controller_init := Uhci.controller_init dev timer;
  Usb.enumrate_ports := Uhci.enumrate_ports dev;
  Usb.reset_port := Uhci.reset_port dev timer;
  Usb.identify_device := UhciRequests.identify_device dev timer;
  Usb.set_address := UhciRequests.set_address dev timer;
  Usb.usb_send_packet := UhciRequests.usb_send_packet dev timer;
  Usb.configure_endpoints := configure_endpoints;
  scan_ports_override := None
|}.

Context `{!UsbHost W}.

(** [uhci_controller::uhci_controller] *)
Definition uhci_construct : MU Z :=
  upd (set_controller (fun _ => mkController false false [] 0 (mkAddr 0 0 0 0) no_bar 0 0 0 0 0));;
  construct_controller (HostController0 := uhci_host) dev.
End Schedule.
