(* ===== verification/UhciSafe.v ===== *)
(** * UHCI: the driver keeps the contract of a host controller

    Over any world that keeps [WorldLaws] and with any controller, the methods that [get_device]
    calls end without a fault, and give back what they borrow. *)
From S2P Require Import KPrelude PortIO Pci Dma Timers UsbTypes UsbDesc UsbDescProofs Usb UsbProofs UsbDriver UsbWorld Uhci UhciRequests UhciSchedule.

Section Safe.
Context {W : Type} `{!IO W} `{!HeapOps W} `{!DmaOps W} (timer : TimerSource W) `{!WorldLaws W timer}.
Context (dev : device).

Abbreviation MU := (M (driver W uhci_controller)).
Abbreviation quiet m := (calm timer m (fun _ => True)).

Lemma calm_uwait ms : 0 <= ms < 1000 -> quiet (wait timer ms : MU unit).
Proof. apply calm_wait. Qed.

Ltac calm_known ::= lazymatch goal with
  | |- calm _ (wait _ _) _ => apply calm_uwait; lia
  end.

Lemma calm_base_port : quiet (base_port : MU Z).
Proof. unfold base_port. calm_go. Qed.

Lemma calm_read_port base port : quiet (uhci_read_port dev base port : MU Z).
Proof. unfold uhci_read_port. calm_go. Qed.

Lemma calm_low_speed base port : quiet (low_speed_status dev base port : MU Z).
Proof. unfold low_speed_status. calm_go. apply calm_read_port. Qed.

Lemma calm_wait_status base h : calm timer (wait_status dev timer base h : MU bool) (fun _ => True).
Proof.
  unfold wait_status. apply (calm_while _ _ _ (fun e => 0 <= e <= 100) _ (fun e => 101 - e)); [lia|unfold FUEL; lia|].
  intros e He. calm_go; apply Z.ltb_lt in E; lia.
Qed.

Lemma calm_halt base : quiet (halt_schedule dev timer base : MU (Z * bool)).
Proof. unfold halt_schedule. calm_go; apply calm_wait_status. Qed.
Lemma calm_start base old : quiet (start_schedule dev timer base old : MU bool).
Proof. unfold start_schedule. calm_go. apply calm_wait_status. Qed.

Lemma calm_borrow p : calm timer (borrow_frames dev p : MU (list Z)) (fun l => Z.of_nat (length l) = 1024).
Proof.
  unfold borrow_frames. eapply calm_mono; [apply (calm_for _ _ _ _ _ (fun i l => Z.of_nat (length l) = i)); [lia|done|]|done].
  intros j l Hj Hl. calm_go. rewrite length_app. cbn [length]. lia.
Qed.
Lemma calm_lead p : quiet (lead_frames p : MU unit).
Proof.
  unfold lead_frames. eapply calm_mono; [apply (calm_for _ _ _ _ _ (fun _ _ => True)); [lia|done|]|done].
  intros j [] _ _. calm_go.
Qed.
Lemma calm_restore l : Z.of_nat (length l) = 1024 -> quiet (restore_frames l : MU unit).
Proof.
  intros Hl. unfold restore_frames. eapply calm_mono; [apply (calm_for _ _ _ _ _ (fun _ _ => True)); [lia|done|]|done].
  intros j [] Hj _. calm_go. destruct (array_get_Some l j) as (v & E & _); [lia|]. rewrite E. by apply calm_ret.
Qed.

Lemma calm_scan qh tds count status : 0 <= count < 2 ^ 32 ->
  quiet (scan_data dev qh tds count status : MU data_stage).
Proof.
  intros Hc. unfold scan_data.
  apply (calm_while _ _ _ (fun '(i, _) => 0 <= i <= count) _ (fun '(i, _) => count - i)); [lia|unfold FUEL; lia|].
  intros [i total] Hi. calm_go. apply Z.ltb_lt in E. lia.
Qed.

Ltac calm_known ::= lazymatch goal with
  | |- calm _ (wait _ _) _ => apply calm_uwait; lia
  | |- calm _ (scan_data _ _ _ _ _) _ => by apply calm_scan
  end.

Lemma calm_wait_control qh setup tds count status phys : 0 <= count < 2 ^ 32 ->
  quiet (wait_for_control_transfer dev timer qh setup tds count status phys : MU (transfer_outcome * Z)).
Proof.
  intros Hc. unfold wait_for_control_transfer.
  apply (calm_while _ _ _ (fun '(e, _, _) => 0 <= e <= 100) _ (fun '(e, _, _) => 100 - e)); [lia|unfold FUEL; lia|].
  intros [[e r] short] He. calm_go; apply Z.ltb_lt in E; lia.
Qed.

Lemma calm_reset port : quiet (reset_port dev timer port : MU Z).
Proof. unfold reset_port. calm_go. Qed.

Lemma calm_read_first a : quiet (read_first dev a : MU usb_device_descriptor).
Proof.
  unfold read_first. calm_go. eapply calm_mono; [apply (calm_read_bytes timer dev); lia|done].
Qed.
Lemma calm_store_td td l s k b : quiet (store_td td l s k b : MU unit).
Proof. unfold store_td. calm_go. Qed.
Lemma calm_usetup a p : quiet (store_setup a p : MU unit).
Proof. apply calm_setup. Qed.

(** *** The requests *)

(** The next operation is calm, by a lemma. *)
Ltac pass lem := apply wp_bind; eapply (wp_calm timer); [apply lem|eassumption|cbn beta].
(** A service. *)
Ltac give := first [eapply (wp_free_region timer); [eassumption|]
                   |eapply (wp_operator_delete_live timer); [eassumption|eassumption|]].

Lemma wp_new_backup B R s (Q : Z -> driver W uhci_controller -> Prop) : holds timer B R s ->
  (forall p s', p <> 0 -> holds timer (p :: B) R s' -> obj s' = obj s -> Q p s') -> wp new_backup Q s.
Proof.
  intros H HQ. unfold new_backup, operator_new. apply wp_bind. eapply (wp_heap_new timer); [exact H|]. intros p s' Hp H' E.
  rewrite (proj2 (Z.eqb_neq _ _) Hp). apply wp_ret. by apply HQ.
Qed.

Lemma wp_give_frames_back base a p l B R s (Q : unit -> driver W uhci_controller -> Prop) : p <> 0 -> Z.of_nat (length l) = 1024 ->
  holds timer (p :: B) (a :: R) s -> (forall s', holds timer B R s' -> obj s' = obj s -> Q () s') ->
  wp (give_frames_back dev timer base a p l) Q s.
Proof.
  intros Hp Hl H HQ. unfold give_frames_back. pass calm_halt. intros [old ok] s1 H1 E1 _. destruct ok; cbn [negb].
  - pass calm_restore; [done|]. intros _ s2 H2 E2 _. pass calm_start. intros ok s3 H3 E3 _. apply wp_bind. give.
    intros s4 H4 E4. give. intros s5 H5 E5. apply HQ; [done|congruence].
  - apply wp_bind. give. intros s2 H2 E2. give. intros s3 H3 E3. apply HQ; [done|congruence].
Qed.

Lemma calm_fill_identify a p low : quiet (fill_identify a p low : MU unit).
Proof. unfold fill_identify, store_td. calm_go. apply calm_usetup. Qed.

Lemma wp_identify port B R s (Q : usb_device_descriptor -> driver W uhci_controller -> Prop) : holds timer B R s ->
  (forall d s', holds timer B R s' -> obj s' = obj s -> Q d s') -> wp (identify_device dev timer port) Q s.
Proof.
  intros H HQ. unfold identify_device. pass calm_base_port. intros base s1 H1 E1 _. pass calm_low_speed. intros low s2 H2 E2 _.
  apply wp_bind. eapply (wp_region timer); [exact H2| |]; intros r s3 Hr H3 E3; [rewrite Hr|rewrite (proj2 (Z.eqb_neq _ _) Hr)];
    cbn [Z.eqb negb]; [|apply wp_ret, HQ; [done|congruence]].
  destruct (_ >? _); [apply wp_bind; give; intros s4 H4 E4; apply wp_ret, HQ; [done|congruence]|].
  pass calm_fill_identify. intros _ s4 H4 E4 _. pass calm_halt. intros [old ok] s5 H5 E5 _. destruct ok; cbn [negb].
  - apply wp_bind. eapply wp_new_backup; [exact H5|]. intros p s6 Hp H6 E6. pass calm_borrow. intros l s7 H7 E7 Hl.
    pass calm_start. intros ok s8 H8 E8 _. destruct ok; cbn [negb].
    + pass calm_wait_control; [lia|]. intros [res n] s9 H9 E9 _. apply wp_bind.
      eapply (wp_calm timer _ (fun _ => True)); [|exact H9|].
      { case_bool_decide; [apply calm_read_first|by apply calm_ret]. }
      intros d s10 H10 E10 _. apply wp_bind. eapply wp_give_frames_back; [done|done|exact H10|]. intros s11 H11 E11.
      apply wp_ret, HQ; [done|congruence].
    + apply wp_bind. give. intros s9 H9 E9. apply wp_bind. give. intros s10 H10 E10. apply wp_ret, HQ; [done|congruence].
  - apply wp_bind. give. intros s6 H6 E6. apply wp_ret, HQ; [done|congruence].
Qed.

(** *** [set_address] *)

Lemma calm_fill_address a p low address : quiet (fill_address a p low address : MU unit).
Proof. unfold fill_address, store_td. calm_go. apply calm_usetup. Qed.
Lemma calm_fill_data tds phys n status buffer len mps address st : quiet (fill_data tds phys n status buffer len mps address st : MU unit).
Proof.
  unfold fill_data. eapply calm_then; [|intros; by apply calm_ret]. apply (calm_rounds timer). intros i [o t]. cbv zeta.
  eapply calm_then; [apply calm_store_td|intros; by apply calm_ret].
Qed.
Lemma calm_fill_device_request a p address st mps n : quiet (fill_device_request a p address st mps n : MU unit).
Proof. unfold fill_device_request, store_td. calm_go; (apply calm_usetup || apply calm_fill_data). Qed.
Lemma calm_read_descriptor a n : quiet (read_descriptor dev a n : MU (option usb_device_descriptor)).
Proof. unfold read_descriptor. calm_go. eapply calm_mono; [apply (calm_read_bytes timer dev); lia|done]. Qed.

(** Where [set_address] may end: the blocks [B'] are left behind, and the next address is [n']. *)
Definition address_post (B R : list Z) (x : uhci_controller) (d : usb_device) (s' : driver W uhci_controller) : Prop :=
  exists B' n', holds timer (B' ++ B) R s' /\ obj s' = set_next_usb_address (fun _ => n') x /\
    next_usb_address x <= n' <= 128 /\ (discovered d = true -> next_usb_address x < n') /\ interfaces d = None.

(** The state behind the allocation of the address [n]. *)
Definition taken (n : Z) (x y : uhci_controller) : Prop :=
  y = set_next_usb_address (fun _ => n + 1) x /\ next_usb_address x = n /\ 1 <= n <= 127.

Lemma post_kept n B B' R x y d s' : taken n x y -> obj s' = y -> holds timer (B' ++ B) R s' -> interfaces d = None ->
  address_post B R x d s'.
Proof.
  intros (-> & Hn & Hb) E H Hd. exists B', (n + 1). split_and!; try done; lia.
Qed.
Lemma post_reset n B B' R x y d s' : taken n x y -> obj s' = set_next_usb_address (fun _ => n) y -> holds timer (B' ++ B) R s' ->
  interfaces d = None -> discovered d = false -> address_post B R x d s'.
Proof.
  intros (-> & Hn & Hb) E H Hd Hf. exists B', n. split_and!; try done; try lia. congruence.
Qed.

Ltac kept l := eapply (post_kept _ _ l); [eassumption|congruence|eassumption|done].

Lemma wp_device_request_failed d a p n port base l B R x y s : taken n x y -> obj s = y -> p <> 0 -> Z.of_nat (length l) = 1024 ->
  interfaces d = None -> discovered d = false -> holds timer (p :: B) (a :: R) s ->
  wp (device_request_failed dev timer d a p n port base l) (address_post B R x) s.
Proof.
  intros Ht Eo Hp Hl Hd Hf H. unfold device_request_failed. pass calm_halt. intros [old ok] s1 H1 E1 _. destruct ok; cbn [negb].
  - pass calm_restore; [done|]. intros _ s2 H2 E2 _. pass calm_start. intros ok s3 H3 E3 _. pass calm_reset. intros r s4 H4 E4 _.
    apply wp_bind. destruct (r =? 0); cbn [negb].
    + eapply (wp_obj_upd timer); [exact H4|]. intros s5 H5 E5. apply wp_bind. give. intros s6 H6 E6. apply wp_bind. give. intros s7 H7 E7.
      apply wp_ret. eapply (post_reset n B []); [done| |exact H7|done|done]. rewrite E7, E6, E5. congruence.
    + apply wp_ret. apply wp_bind. give. intros s6 H6 E6. apply wp_bind. give. intros s7 H7 E7. apply wp_ret. kept (@nil Z).
  - apply wp_bind. give. intros s2 H2 E2. apply wp_bind. give. intros s3 H3 E3. apply wp_ret. kept (@nil Z).
Qed.

Lemma wp_request_descriptor d desc p n port base l B R x y s : taken n x y -> obj s = y -> p <> 0 -> Z.of_nat (length l) = 1024 ->
  valid_mps (bMaxPacketSize0 desc) = true -> interfaces d = None -> discovered d = false -> holds timer (p :: B) R s ->
  wp (request_descriptor dev timer d desc p n port base l) (address_post B R x) s.
Proof.
  intros Ht Eo Hp Hl Hm Hd Hf H. unfold request_descriptor.
  apply wp_bind. eapply (wp_region timer); [exact H| |]; intros r s1 Hr H1 E1; [rewrite Hr|rewrite (proj2 (Z.eqb_neq _ _) Hr)];
    cbn [Z.eqb negb]; [|apply wp_ret; kept [p]].
  destruct (_ >? _); [apply wp_bind; give; intros s2 H2 E2; apply wp_ret; kept [p]|].
  pass calm_read_port. intros st s2 H2 E2 _. pass calm_fill_device_request. intros _ s3 H3 E3 _.
  pass calm_halt. intros [old ok] s4 H4 E4 _. destruct ok; cbn [negb];
    [|apply wp_bind; give; intros s5 H5 E5; apply wp_ret; kept [p]].
  pass calm_lead. intros _ s5 H5 E5 _. pass calm_start. intros ok s6 H6 E6 _. destruct ok; cbn [negb].
  2: { apply wp_bind. give. intros s7 H7 E7. apply wp_bind. give. intros s8 H8 E8. apply wp_ret. kept (@nil Z). }
  pass calm_wait_control.
  { unfold valid_mps in Hm. rewrite !orb_true_iff, !Z.eqb_eq in Hm.
    destruct Hm as [[[-> | ->] | ->] | ->]; vm_compute; split; congruence. }
  intros [res got] s7 H7 E7 _. case_bool_decide; cbn [negb].
  2: { eapply wp_device_request_failed; [exact Ht|congruence|done..]. }
  pass calm_read_descriptor. intros full s8 H8 E8 _. pass calm_halt. intros [old2 ok2] s9 H9 E9 _. destruct ok2; cbn [negb].
  - pass calm_restore; [done|]. intros _ s10 H10 E10 _. pass calm_start. intros ok3 s11 H11 E11 _. apply wp_bind. give.
    intros s12 H12 E12. apply wp_bind. give. intros s13 H13 E13. apply wp_ret. kept (@nil Z).
  - apply wp_bind. give. intros s10 H10 E10. apply wp_bind. give. intros s11 H11 E11. apply wp_ret. kept (@nil Z).
Qed.

Lemma wp_address_failed d a p n base l B R x y s : taken n x y -> obj s = y -> p <> 0 -> Z.of_nat (length l) = 1024 ->
  interfaces d = None -> discovered d = false -> holds timer (p :: B) (a :: R) s ->
  wp (address_failed dev timer d a p n base l) (address_post B R x) s.
Proof.
  intros Ht Eo Hp Hl Hd Hf H. unfold address_failed. pass calm_halt. intros [old ok] s1 H1 E1 _. destruct ok; cbn [negb].
  - pass calm_restore; [done|]. intros _ s2 H2 E2 _. pass calm_start. intros ok s3 H3 E3 _. apply wp_bind.
    eapply (wp_obj_upd timer); [exact H3|]. intros s5 H5 E5. apply wp_bind. give. intros s6 H6 E6. apply wp_bind. give. intros s7 H7 E7.
    apply wp_ret. eapply (post_reset n B []); [done| |exact H7|done|done]. rewrite E7, E6, E5. congruence.
  - apply wp_bind. give. intros s2 H2 E2. apply wp_bind. give. intros s3 H3 E3. apply wp_ret. kept (@nil Z).
Qed.

Lemma wp_address_taken d desc a p n port base l B R x y s : taken n x y -> obj s = y -> p <> 0 -> Z.of_nat (length l) = 1024 ->
  valid_mps (bMaxPacketSize0 desc) = true -> interfaces d = None -> discovered d = false -> holds timer (p :: B) (a :: R) s ->
  wp (address_taken dev timer d desc a p n port base l) (address_post B R x) s.
Proof.
  intros Ht Eo Hp Hl Hm Hd Hf H. unfold address_taken. pass calm_uwait; [lia|]. intros _ s1 H1 E1 _.
  pass calm_halt. intros [old ok] s2 H2 E2 _. destruct ok; cbn [negb]; [|apply wp_bind; give; intros s3 H3 E3; apply wp_ret; kept [p]].
  pass calm_restore; [done|]. intros _ s3 H3 E3 _. pass calm_start. intros ok s4 H4 E4 _. destruct ok; cbn [negb].
  - apply wp_bind. give. intros s5 H5 E5. eapply wp_request_descriptor; [exact Ht|congruence|done..].
  - apply wp_bind. give. intros s5 H5 E5. apply wp_bind. give. intros s6 H6 E6. apply wp_ret. kept (@nil Z).
Qed.

Lemma wp_set_address desc port B R s : holds timer B R s -> 1 <= next_usb_address (obj s) <= 128 ->
  wp (set_address dev timer desc port) (address_post B R (obj s)) s.
Proof.
  intros H Hn. unfold set_address.
  assert (forall d s', holds timer B R s' -> obj s' = obj s -> discovered d = false -> interfaces d = None -> address_post B R (obj s) d s') as Hsame.
  { intros d s' H' E Hf Hd. exists [], (next_usb_address (obj s)). split_and!; try done; try lia; [by rewrite E; destruct (obj s)|congruence]. }
  destruct (negb (bLength desc =? 18)); cbn [orb]; [by apply wp_ret, Hsame|].
  destruct (negb (bDescriptorType desc =? 1)); cbn [orb]; [by apply wp_ret, Hsame|].
  destruct (valid_mps (bMaxPacketSize0 desc)) eqn:Hm; cbn [negb]; [|by apply wp_ret, Hsame].
  pass calm_base_port. intros base s1 H1 E1 _. pass calm_low_speed. intros low s2 H2 E2 _. pass calm_read_port. intros slow s3 H3 E3 _.
  apply wp_bind. eapply (wp_region timer); [exact H3| |]; intros r s4 Hr H4 E4; [rewrite Hr|rewrite (proj2 (Z.eqb_neq _ _) Hr)];
    cbn [Z.eqb negb]; [|apply wp_ret, Hsame; [done|congruence|done..]].
  destruct (_ >? _); [apply wp_bind; give; intros s5 H5 E5; apply wp_ret, Hsame; [done|congruence|done..]|].
  assert (obj s4 = obj s) as E by congruence. unfold allocate_usb_address. rewrite !wp_bind. apply wp_gets. rewrite E.
  destruct (Z.gtb_spec (next_usb_address (obj s)) 127).
  { apply wp_ret. cbn [Z.eqb]. apply wp_bind. give. intros s5 H5 E5. apply wp_ret, Hsame; [done|congruence|done..]. }
  apply wp_bind. eapply (wp_obj_upd timer); [exact H4|]. intros s5 H5 E5. apply wp_ret. rewrite (proj2 (Z.eqb_neq _ _)) by lia.
  assert (taken (next_usb_address (obj s)) (obj s) (obj s5)) as Ht.
  { split; [|split; [done|lia]]. rewrite E5, E. unfold set_next_usb_address. cbn. by rewrite u8_id by (change (2 ^ 8) with 256; lia). }
  pass calm_fill_address. intros _ s6 H6 E6 _. pass calm_halt. intros [old ok] s7 H7 E7 _. destruct ok; cbn [negb].
  2: { apply wp_bind. give. intros s8 H8 E8. apply wp_ret. kept (@nil Z). }
  apply wp_bind. eapply wp_new_backup; [exact H7|]. intros p s8 Hp H8 E8. pass calm_borrow. intros l s9 H9 E9 Hl.
  pass calm_start. intros ok s10 H10 E10 _. destruct ok; cbn [negb].
  2: { apply wp_bind. give. intros s11 H11 E11. apply wp_bind. give. intros s12 H12 E12. apply wp_ret. kept (@nil Z). }
  pass calm_wait_control; [lia|]. intros [res got] s11 H11 E11 _. case_bool_decide; cbn [negb].
  - eapply wp_address_taken; [exact Ht|congruence|done..].
  - eapply wp_address_failed; [exact Ht|congruence|done..].
Qed.

(** *** [usb_send_packet] *)

Lemma calm_fill_request a p packet low mps len n address : quiet (fill_request dev a p packet low mps len n address : MU unit).
Proof. unfold fill_request. calm_go; (apply calm_usetup || apply calm_fill_data). Qed.

(** The reply's block stays. *)
Definition reply_post (B R : list Z) (x : uhci_controller) (len : Z) (r : packet_reply) (s' : driver W uhci_controller) : Prop :=
  holds timer (reply_block r ++ B) R s' /\ obj s' = x /\ reply_fits len r.

Lemma wp_take_reply a data len B R s : 0 <= len -> holds timer B (a :: R) s ->
  wp (take_reply dev a data len) (reply_post B R (obj s) len) s.
Proof.
  intros Hn H. unfold take_reply. destruct (Z.eqb_spec len 0) as [->|Hl].
  - apply wp_bind. give. intros s1 H1 E1. by apply wp_ret.
  - apply wp_bind. eapply (wp_heap_new timer); [exact H|]. intros p s1 Hp H1 E1. rewrite (proj2 (Z.eqb_neq _ _) Hp).
    apply wp_bind. eapply (wp_calm timer); [by apply (calm_read_bytes timer dev)|exact H1|]. cbn beta. intros b s2 H2 E2 [Hb Hf].
    apply wp_bind. give. intros s3 H3 E3. apply wp_ret. split; [done|]. split; [congruence|]. done.
Qed.

Lemma wp_request_failed a p base l B R x s len : p <> 0 -> Z.of_nat (length l) = 1024 -> holds timer (p :: B) (a :: R) s ->
  obj s = x -> wp (request_failed dev timer a p base l) (reply_post B R x len) s.
Proof.
  intros Hp Hl H E. unfold request_failed. pass calm_halt. intros [old ok] s1 H1 E1 _. destruct ok; cbn [negb].
  - pass calm_restore; [done|]. intros _ s2 H2 E2 _. pass calm_start. intros ok s3 H3 E3 _. apply wp_bind. give. intros s4 H4 E4.
    apply wp_bind. give. intros s5 H5 E5. apply wp_ret. split; [done|]. split; [congruence|done].
  - apply wp_bind. give. intros s4 H4 E4. apply wp_bind. give. intros s5 H5 E5. apply wp_ret. split; [done|]. split; [congruence|done].
Qed.

Lemma wp_request_done a p base data len l B R x s : p <> 0 -> 0 <= len -> Z.of_nat (length l) = 1024 ->
  holds timer (p :: B) (a :: R) s -> obj s = x -> wp (request_done dev timer a p base data len l) (reply_post B R x len) s.
Proof.
  intros Hp Hn Hl H E. unfold request_done. pass calm_uwait; [lia|]. intros _ s0 H0 E0 _.
  assert (forall s', holds timer B R s' -> obj s' = x -> reply_post B R x len NoReply s') as Hno by done.
  pass calm_halt. intros [old ok] s1 H1 E1 _. destruct ok; cbn [negb].
  - pass calm_restore; [done|]. intros _ s2 H2 E2 _. pass calm_start. intros ok s3 H3 E3 _. destruct ok; cbn [negb].
    + apply wp_bind. give. intros s4 H4 E4. replace x with (obj s4) by congruence. by apply wp_take_reply.
    + apply wp_bind. give. intros s4 H4 E4. apply wp_bind. give. intros s5 H5 E5. apply wp_ret, Hno; [done|congruence].
  - apply wp_bind. give. intros s4 H4 E4. apply wp_bind. give. intros s5 H5 E5. apply wp_ret, Hno; [done|congruence].
Qed.

Lemma wp_send packet mps len address port B R s : holds timer B R s -> 0 <= len ->
  wp (usb_send_packet dev timer packet mps len address port) (reply_post B R (obj s) len) s.
Proof.
  intros H Hn. unfold usb_send_packet.
  assert (forall s', holds timer B R s' -> obj s' = obj s -> reply_post B R (obj s) len NoReply s') as Hno by done.
  destruct (_ || _); [by apply wp_ret, Hno|].
  pass calm_base_port. intros base s1 H1 E1 _. pass calm_low_speed. intros low s2 H2 E2 _. cbv zeta. set (n := u32 _).
  apply wp_bind. eapply (wp_region timer); [exact H2| |]; intros r s4 Hr H4 E4; [rewrite Hr|rewrite (proj2 (Z.eqb_neq _ _) Hr)];
    cbn [Z.eqb negb]; [|apply wp_ret, Hno; [done|congruence]].
  destruct (_ >? _); [apply wp_bind; give; intros s5 H5 E5; apply wp_ret, Hno; [done|congruence]|].
  pass calm_fill_request. intros _ s6 H6 E6 _. pass calm_halt. intros [old ok] s7 H7 E7 _. destruct ok; cbn [negb].
  2: { apply wp_bind. give. intros s8 H8 E8. apply wp_ret, Hno; [done|congruence]. }
  apply wp_bind. eapply wp_new_backup; [exact H7|]. intros p s8 Hp H8 E8. pass calm_borrow. intros l s9 H9 E9 Hl.
  pass calm_start. intros ok s10 H10 E10 _. destruct ok; cbn [negb].
  2: { apply wp_bind. give. intros s11 H11 E11. apply wp_bind. give. intros s12 H12 E12. apply wp_ret, Hno; [done|congruence]. }
  pass calm_wait_control; [apply u32_range|]. intros [res got] s11 H11 E11 _. case_bool_decide; cbn [negb].
  - apply wp_request_done; [done..|congruence].
  - apply wp_request_failed; [done..|congruence].
Qed.
End Safe.
