(* ===== verification/UhciLaws.v ===== *)
(** * UHCI: the contract of a host controller, discharged

    The endpoints' states and the anchor; then all of [HostLaws] for the driver, and what the
    enumeration of a device does over it. *)
From S2P Require Import KPrelude PortIO Pci Dma Timers UsbTypes UsbDesc UsbDescProofs Usb UsbProofs UsbDriver UsbWorld Uhci UhciRequests UhciSchedule UhciSafe.

Section Endpoints.
Context {W : Type} `{!IO W} `{!HeapOps W} `{!DmaOps W} (timer : TimerSource W) `{!WorldLaws W timer}.
Context (dev : device) (stale_endpoint : uhci_endpoint_state) (stale_interface : uhci_interface_state).

Abbreviation MU := (M (driver W uhci_controller)).
Ltac pass lem := apply wp_bind; eapply (wp_calm timer); [apply lem|eassumption|cbn beta].
Ltac give := first [eapply (wp_free_region timer); [eassumption|]
                   |eapply (wp_operator_delete_live timer); [eassumption|eassumption|]].

(** What does not change while endpoints are configured. *)
Definition frame (x y : uhci_controller) : Prop :=
  state_count y = state_count x /\ states_at y = states_at x /\ next_usb_address y = next_usb_address x /\
  controller y = controller x /\ length (states y) = length (states x).
Lemma frame_trans x y z : frame x y -> frame y z -> frame x z.
Proof. unfold frame. intuition congruence. Qed.
Lemma frame_refl x : frame x x.
Proof. by unfold frame. Qed.

(** The interfaces of the state [k]. *)
Definition at_state (k : Z) (x : uhci_controller) : option (list uhci_interface_state) :=
  s ← states x !! Z.to_nat k; as_interfaces s.

Lemma wp_update_interface k i f l B R s (Q : unit -> driver W uhci_controller -> Prop) : holds timer B R s -> 0 <= k ->
  at_state k (obj s) = Some l -> 0 <= i < Z.of_nat (length l) ->
  (forall s', holds timer B R s' -> frame (obj s) (obj s') -> at_state k (obj s') = Some (alter f (Z.to_nat i) l) -> Q () s') ->
  wp (update_interface k i f) Q s.
Proof.
  intros H Hk El Hi HQ. unfold at_state in El. destruct (states (obj s) !! Z.to_nat k) as [st|] eqn:Es; [|done]. cbn in El.
  unfold update_interface, update_state. destruct (array_get_Some l i Hi) as (it & Ei & _).
  rewrite !wp_bind. apply wp_gets. rewrite !wp_bind, (array_get_of _ _ _ Hk Es). apply wp_ret. rewrite !wp_bind, El. apply wp_ret.
  rewrite !wp_bind, Ei. apply wp_ret. rewrite !wp_bind. apply wp_gets. rewrite !wp_bind, (array_get_of _ _ _ Hk Es). apply wp_ret.
  eapply (wp_obj_upd timer); [exact H|]. intros s' H' E. apply HQ; [done| |]; rewrite E.
  - unfold frame. cbn. by rewrite length_alter.
  - unfold at_state. cbn. rewrite list_lookup_alter_eq, Es. cbn. by rewrite El.
Qed.

Lemma wp_update_endpoint k i j f l it es B R s (Q : unit -> driver W uhci_controller -> Prop) : holds timer B R s -> 0 <= k ->
  at_state k (obj s) = Some l -> 0 <= i -> l !! Z.to_nat i = Some it -> is_endpoints it = Some es -> 0 <= j < Z.of_nat (length es) ->
  (forall s' l' it' es', holds timer B R s' -> frame (obj s) (obj s') -> at_state k (obj s') = Some l' -> length l' = length l ->
     l' !! Z.to_nat i = Some it' -> is_endpoints it' = Some es' -> length es' = length es -> Q () s') ->
  wp (update_endpoint k i j f) Q s.
Proof.
  intros H Hk El Hi Ei Ee Hj HQ. unfold update_endpoint, find_endpoint.
  pose proof El as Es. unfold at_state in Es. destruct (states (obj s) !! Z.to_nat k) as [st|] eqn:Est; [|done]. cbn in Es.
  destruct (array_get_Some es j Hj) as (e & Eg & _).
  rewrite !wp_bind. apply wp_gets. rewrite !wp_bind, (array_get_of _ _ _ Hk Est). apply wp_ret. rewrite !wp_bind, Es. apply wp_ret.
  rewrite !wp_bind, (array_get_of _ _ _ Hi Ei). apply wp_ret. rewrite !wp_bind, Ee. apply wp_ret. rewrite Eg. apply wp_ret.
  pose proof (lookup_lt_Some _ _ _ Ei). eapply (wp_update_interface k i _ l); [done|done|done|lia|].
  intros s' H' Hf E'. eapply HQ; [done|done|exact E'|by rewrite length_alter|by rewrite list_lookup_alter_eq, Ei| |].
  - cbn. by rewrite Ee.
  - by rewrite length_alter.
Qed.

(** *** Endpoints *)

(** The anchor may be new. *)
Definition anchored (x y : uhci_controller) : Prop := states y = states x /\ frame x y.

Lemma wp_make_anchor B R s : holds timer B R s ->
  wp (make_anchor dev timer) (fun _ s' => exists R', holds timer B (R' ++ R) s' /\ anchored (obj s) (obj s')) s.
Proof.
  intros H. unfold make_anchor.
  assert (forall s' : driver W uhci_controller, obj s' = obj s -> anchored (obj s) (obj s')) as Hs by (by intros s' ->).
  pass calm_base_port. intros base s1 H1 E1 _.
  apply wp_bind. eapply (wp_region timer); [exact H1| |]; intros r s2 Hr H2 E2; [rewrite Hr|rewrite (proj2 (Z.eqb_neq _ _) Hr)];
    cbn [Z.eqb negb]; [|apply wp_ret; exists []; split; [done|apply Hs; congruence]].
  destruct (_ >? _); [give; intros s3 H3 E3; exists []; split; [done|apply Hs; congruence]|].
  apply wp_bind. eapply (wp_obj_upd timer); [exact H2|]. intros s3 H3 E3. apply wp_bind. eapply (wp_obj_upd timer); [exact H3|]. intros s4 H4 E4.
  apply wp_bind. eapply (wp_calm timer _ (fun _ => True)); [apply calm_write|exact H4|]. intros _ s5 H5 E5 _.
  apply wp_bind. eapply (wp_calm timer _ (fun _ => True)); [apply calm_write|exact H5|]. intros _ s6 H6 E6 _.
  assert (anchored (obj s) (obj s6)) as H06.
  { rewrite E6, E5, E4, E3, E2, E1. done. }
  pass calm_halt. intros [old ok] s7 H7 E7 _. destruct ok; cbn [negb].
  - pass calm_lead. intros _ s8 H8 E8 _. pass calm_start. intros ok s9 H9 E9 _. apply wp_ret. exists [virtual_address r].
    split; [done|]. by rewrite E9, E8, E7.
  - apply wp_bind. eapply (wp_obj_upd timer); [exact H7|]. intros s8 H8 E8. give. intros s9 H9 E9. exists []. split; [done|].
    rewrite E9, E8, E7. destruct H06 as [Hs6 Hf6]. split; [exact Hs6|]. eapply frame_trans; [exact Hf6|done].
Qed.

Lemma wp_configure_endpoint d i j ds it es B R s : holds timer B R s -> interfaces d = Some ds -> 0 <= i ->
  ds !! Z.to_nat i = Some it -> endpoints it = Some es -> 0 <= j < Z.of_nat (length es) ->
  wp (configure_endpoint dev timer d j i) (fun e s' => exists R', holds timer B (R' ++ R) s' /\ anchored (obj s) (obj s')) s.
Proof.
  intros H Ed Hi Ei Ee Hj. unfold configure_endpoint. destruct (array_get_Some es j Hj) as (e & Eg & _).
  assert (forall s' : driver W uhci_controller, obj s' = obj s -> anchored (obj s) (obj s')) as Hs by (by intros s' ->).
  rewrite !wp_bind, Ed. apply wp_ret. rewrite !wp_bind, (array_get_of _ _ _ Hi Ei). apply wp_ret. rewrite !wp_bind, Ee. apply wp_ret.
  rewrite !wp_bind, Eg. apply wp_ret.
  rewrite wp_bind. eapply (wp_region timer); [exact H| |]; intros r s2 Hr H2 E2; [rewrite Hr|rewrite (proj2 (Z.eqb_neq _ _) Hr)];
    cbn [Z.eqb negb]; [|apply wp_ret; exists []; split; [done|apply Hs; congruence]].
  destruct (_ >? _); [apply wp_bind; give; intros s3 H3 E3; apply wp_ret; exists []; split; [done|apply Hs; congruence]|].
  apply wp_bind. eapply (wp_calm timer _ (fun _ => True)); [apply calm_write|exact H2|]. intros _ s3 H3 E3 _.
  apply wp_bind. eapply (wp_calm timer _ (fun _ => True)); [apply calm_write|exact H3|]. intros _ s4 H4 E4 _.
  apply wp_bind. eapply (wp_calm timer _ (fun _ => True)); [apply calm_write|exact H4|]. intros _ s5 H5 E5 _.
  apply wp_bind. eapply (wp_calm timer _ (fun _ => True)); [apply calm_write|exact H5|]. intros _ s6 H6 E6 _.
  apply wp_bind, wp_gets, wp_bind. assert (obj s6 = obj s) as E by congruence.
  destruct (anchor (obj s6) =? 0).
  - eapply wp_mono; [by apply wp_make_anchor|]. cbn beta. intros _ s7 (R' & H7 & Ha). apply wp_ret.
    exists (R' ++ [virtual_address r]). rewrite <- app_assoc. split; [done|]. by rewrite <- E.
  - apply wp_ret, wp_ret. exists [virtual_address r]. split; [done|by apply Hs].
Qed.

(** *** Interfaces *)

(** The state [k] has [n] interfaces while they are filled. *)
Definition filling (B R : list Z) (x : uhci_controller) (k : Z) (n : nat) (s' : driver W uhci_controller) : Prop :=
  exists B' R' l, holds timer (B' ++ B) (R' ++ R) s' /\ frame x (obj s') /\ at_state k (obj s') = Some l /\ length l = n.

Lemma wp_configure_interface d ds it i k l B R s : interfaces d = Some ds -> 0 <= i < Z.of_nat (length l) -> 0 <= k ->
  ds !! Z.to_nat i = Some it -> interface_ok it -> holds timer B R s -> at_state k (obj s) = Some l ->
  wp (configure_interface dev timer stale_endpoint d k i) (fun _ => filling B R (obj s) k (length l)) s.
Proof.
  intros Ed Hi Hk Ei [Hc Hes] H El. unfold configure_interface.
  rewrite !wp_bind, Ed. apply wp_ret. rewrite !wp_bind, (array_get_of _ _ _ (proj1 Hi) Ei). apply wp_ret. rewrite !wp_bind.
  eapply wp_update_interface; [exact H|done|exact El|done|]. intros s1 H1 F1 L1. rewrite !wp_bind.
  eapply wp_update_interface; [exact H1|done|exact L1|by rewrite length_alter|]. intros s2 H2 F2 L2. rewrite !wp_bind.
  eapply (wp_heap_new timer); [exact H2|]. intros p s3 Hp H3 E3. rewrite !wp_bind.
  eapply wp_update_interface; [exact H3|done|by rewrite E3|by rewrite !length_alter|]. intros s4 H4 F4 L4. rewrite E3 in F4.
  rewrite (proj2 (Z.eqb_neq _ _) Hp) in L4. set (m := Z.to_nat (endpoint_count it)) in *.
  assert (frame (obj s) (obj s4)) as F by (eapply frame_trans; [exact F1|by eapply frame_trans]).
  set (I := fun (s' : driver W uhci_controller) => exists R' l' it' es', holds timer (p :: B) (R' ++ R) s' /\ frame (obj s) (obj s') /\
      at_state k (obj s') = Some l' /\ length l' = length l /\ l' !! Z.to_nat i = Some it' /\ is_endpoints it' = Some es' /\ length es' = m).
  assert (forall s', I s' -> filling B R (obj s) k (length l) s') as HI.
  { intros s' (R' & l' & it' & es' & ? & ? & ? & ? & _). by exists [p], R', l'. }
  apply (wp_while _ (fun j s' => 0 <= j <= endpoint_count it /\ I s') (fun j _ => endpoint_count it - j)).
  - intros j s5 (Hj & R' & l' & it' & es' & H5 & F5 & L5 & Hl5 & Ei5 & Ee5 & Hm5).
    destruct (Z.ltb_spec j (endpoint_count it)); [|apply wp_ret, HI; by exists R', l', it', es'].
    destruct Hes as [Hes|(es & Ees & Hles)]; [lia|].
    apply wp_bind. eapply wp_mono; [eapply (wp_configure_endpoint d i j ds it es); [exact H5|done|lia|done|done|lia]|].
    cbn beta. intros e s6 (R6 & H6 & Es6 & F6). apply wp_bind.
    eapply (wp_update_endpoint k i j _ l' it' es'); [exact H6|done| |lia|done|done|lia|].
    { unfold at_state. by rewrite Es6. }
    intros s7 l7 it7 es7 H7 F7 L7 Hl7 Ei7 Ee7 Hm7. apply wp_ret.
    assert (I s7) as HI7.
    { exists (R6 ++ R'), l7, it7, es7. rewrite <- app_assoc. split_and!; try done; try congruence.
      eapply frame_trans; [exact F5|by eapply frame_trans]. }
    destruct (_ =? 0); [split; [split; [lia|done]|lia]|by apply HI].
  - split; [lia|]. assert (i < Z.of_nat (length l)) as Hil by lia.
    destruct (lookup_lt_is_Some_2 l (Z.to_nat i)) as [old Eold]; [lia|].
    eexists [], _, _, _. split; [exact H4|]. split; [exact F|]. split; [exact L4|].
    split; [by rewrite !length_alter|]. split; [by rewrite !list_lookup_alter_eq, Eold|]. split; [reflexivity|].
    apply length_replicate.
  - unfold FUEL. lia.
Qed.

(** *** Devices *)

(** The object: [u] devices have an address and no endpoints yet. The heap blocks [B] hold the array of
    states. *)
Record uhci_ok (B : list Z) (u : Z) (x : uhci_controller) : Prop := {
  ok_count : Z.of_nat (length (states x)) = state_count x;
  ok_array : state_count x = 0 \/ states_at x ∈ B;
  ok_address : 1 <= next_usb_address x <= 128;
  ok_unconfigured : 0 <= u;
  ok_room : state_count x + u <= next_usb_address x - 1
}.

(** A fresh state behind the others. *)
Lemma wp_allocate_state d u L B R s : holds timer (B ++ L) R s -> uhci_ok B u (obj s) ->
  wp (allocate_state d) (fun _ s' => exists B', holds timer (B' ++ L) R s' /\ states_at (obj s') ∈ B' /\
    state_count (obj s') = state_count (obj s) /\ next_usb_address (obj s') = next_usb_address (obj s) /\
    controller (obj s') = controller (obj s) /\
    exists l, states (obj s') = l ++ [mkUhciAddress (dev_address d) None (usb_interface_count d)] /\
      Z.of_nat (length l) = state_count (obj s)) s.
Proof.
  intros H Hok. unfold allocate_state. apply wp_bind, wp_gets. pose proof (ok_count _ _ _ Hok) as Hc.
  destruct (Z.eqb_spec (state_count (obj s)) 0) as [E0|E0].
  - apply wp_bind. unfold operator_new. eapply (wp_heap_new timer); [exact H|]. intros p s1 Hp H1 E1.
    rewrite (proj2 (Z.eqb_neq _ _) Hp). apply wp_bind. eapply (wp_obj_upd timer); [exact H1|]. intros s2 H2 E2.
    eapply (wp_obj_upd timer); [exact H2|]. intros s3 H3 E3. exists (p :: B). rewrite E3, E2, E1. cbn.
    split_and!; try done; [by left|]. exists []. cbn. split; [done|lia].
  - destruct (ok_array _ _ _ Hok) as [?|Hin]; [done|]. apply elem_of_Permutation in Hin as [B1 EB].
    apply wp_bind. eapply (wp_grow timer _ _ _ _ (B1 ++ L)); [eapply holds_perm; [|reflexivity|exact H]|].
    { by rewrite EB. }
    intros q s1 Hq H1 E1.
    rewrite (proj2 (Z.eqb_neq _ _) Hq). apply wp_bind. eapply (wp_obj_upd timer); [exact H1|]. intros s2 H2 E2.
    eapply (wp_obj_upd timer); [exact H2|]. intros s3 H3 E3. exists (q :: B1). rewrite E3, E2, E1. cbn.
    split_and!; try done; [by left|].
    exists (take (Z.to_nat (state_count (obj s))) (states (obj s))). split; [done|]. rewrite length_take_le; lia.
Qed.

Lemma wp_configure_endpoints d value mps address u L B R s : holds timer (B ++ L) R s -> uhci_ok B u (obj s) -> 0 < u -> device_ok d ->
  wp (configure_endpoints dev timer stale_endpoint stale_interface d value mps address) (fun _ s' => exists B' R',
    holds timer (B' ++ L) R' s' /\ uhci_ok B' (u - 1) (obj s') /\ controller (obj s') = controller (obj s)) s.
Proof.
  intros H Hok Hu (ds & Eds & Hn & Hlen & Hds). unfold configure_endpoints. apply wp_bind.
  eapply wp_mono; [by apply (wp_allocate_state d u L B R)|]. cbn beta.
  intros _ s1 (B1 & H1 & Hat & Hc1 & Hn1 & Hk1 & l & El & Hl). pose proof (ok_count _ _ _ Hok) as Hcnt.
  pose proof (ok_room _ _ _ Hok) as Hroom. pose proof (ok_address _ _ _ Hok) as Haddr.
  apply wp_bind. eapply (wp_obj_upd timer); [exact H1|]. intros s2 H2 E2. apply wp_bind, wp_gets. rewrite E2. cbn [set_state_count state_count].
  rewrite Hc1, u8_id by (change (2 ^ 8) with 256; lia). set (c := state_count (obj s)) in *. replace (c + 1 - 1) with c by lia.
  set (st := mkUhciAddress (dev_address d) None (usb_interface_count d)) in *.
  assert (states (obj s2) = l ++ [st]) as El2 by (by rewrite E2).
  assert (states (obj s2) !! Z.to_nat c = Some st) as Est by (rewrite El2; apply list_lookup_middle; lia).
  assert (0 <= c) as Hc0 by lia.
  rewrite !wp_bind. apply wp_gets. rewrite !wp_bind, (array_get_of _ _ _ Hc0 Est). apply wp_ret.
  cbn [as_interfaces_count st]. set (n := length ds) in *. rewrite !wp_bind. unfold operator_new.
  eapply (wp_heap_new timer); [exact H2|]. intros p s3 Hp H3 E3. rewrite (proj2 (Z.eqb_neq _ _) Hp). unfold update_state.
  rewrite !wp_bind. apply wp_gets. rewrite !wp_bind, E3, (array_get_of _ _ _ Hc0 Est). apply wp_ret.
  eapply (wp_obj_upd timer); [exact H3|]. intros s4 H4 E4.
  assert (at_state c (obj s4) = Some (replicate (Z.to_nat (usb_interface_count d)) stale_interface)) as Ea.
  { unfold at_state. rewrite E4. cbn. rewrite E3, list_lookup_alter_eq, Est. done. }
  assert (forall B' R' s', holds timer (B' ++ (p :: B1 ++ L)) R' s' -> frame (obj s4) (obj s') ->
    exists B' R', holds timer (B' ++ L) R' s' /\ uhci_ok B' (u - 1) (obj s') /\ controller (obj s') = controller (obj s)) as Hend.
  { intros B' R' s' H' (F1 & F2 & F3 & F4 & F5). exists (B' ++ p :: B1), R'. rewrite <- app_assoc. split; [done|].
    rewrite E4, E3, E2 in F1, F2, F3, F4, F5. cbn in F1, F2, F3, F4, F5. rewrite F4, Hk1. split; [|done].
    rewrite Hc1, u8_id in F1 by (change (2 ^ 8) with 256; lia). constructor.
    - rewrite F5, length_alter, El, length_app, F1. cbn [length]. lia.
    - right. rewrite F2. apply elem_of_app. right. by right.
    - by rewrite F3, Hn1.
    - lia.
    - rewrite F1, F3, Hn1. fold c. lia. }
  apply (wp_while _ (fun i s' => 0 <= i <= Z.of_nat n /\ filling (p :: B1 ++ L) R (obj s4) c n s') (fun i _ => Z.of_nat n - i)).
  - intros i s5 (Hi & B5 & R5 & l5 & H5 & F5 & L5 & Hl5). cbn [as_interfaces_count st]. rewrite Hn.
    destruct (Z.ltb_spec i (Z.of_nat n)); [|apply wp_ret; by eapply Hend].
    destruct (lookup_lt_is_Some_2 ds (Z.to_nat i)) as [it Eit]; [unfold n in *; lia|].
    apply wp_bind. eapply wp_mono; [eapply (wp_configure_interface d ds it i c l5); try done; [lia|by eapply Forall_lookup_1]|].
    cbn beta. intros ok s6 (B6 & R6 & l6 & H6 & F6 & L6 & Hl6).
    assert (filling (p :: B1 ++ L) R (obj s4) c n s6) as Hf.
    { exists (B6 ++ B5), (R6 ++ R5), l6. rewrite <- !app_assoc. split; [done|]. split; [by eapply frame_trans|]. split; [done|congruence]. }
    apply wp_ret. destruct ok; [split; [split; [lia|done]|lia]|].
    destruct Hf as (B7 & R7 & l7 & H7 & F7 & _). by eapply Hend.
  - split; [lia|]. eexists [], [], _. split; [exact H4|]. split; [apply frame_refl|]. split; [exact Ea|].
    rewrite length_replicate, Hn. lia.
  - unfold FUEL. lia.
Qed.

(** ** The contract *)

#[export] Instance uhci_laws : HostLaws (driver W uhci_controller)
  (HostController0 := uhci_host dev timer stale_endpoint stale_interface).
Proof.
  refine {| in_hand L C x s := exists B R, holds timer (B ++ L) R s /\ uhci_ok B (unconfigured C) (obj s) /\
    is_xhci_controller (controller (obj s)) = x |}.
  - intros L L' C x s EL (B & R & H & ?). exists B, R. split; [|done]. eapply holds_perm; [|reflexivity|exact H]. by rewrite EL.
  - by intros L C x s (B & R & H & Hok & <-).
  - intros L C x s (B & R & H & Hok & _). apply Hok.
  - intros n L C x s (B & R & H & Hok & Hx). eapply (wp_heap_new timer); [exact H|]. intros p s' Hp H' E.
    split; [done|]. exists B, R. rewrite E. split; [|done].
    eapply holds_perm; [|reflexivity|exact H']. solve_Permutation.
  - intros p L C x s (B & R & H & Hok & Hx). eapply (wp_delete timer p _ (B ++ L) R).
    + eapply holds_perm; [|reflexivity|exact H]. solve_Permutation.
    + intros s' H' E. exists B, R. by rewrite E.
  - intros port L C x s (B & R & H & Hok & Hx). eapply (wp_calm timer); [apply calm_reset|exact H|].
    intros r s' H' E _. exists B, R. by rewrite E.
  - intros port L C x s (B & R & H & Hok & Hx). eapply wp_identify; [exact H|]. intros d s' H' E. exists B, R. by rewrite E.
  - intros desc port L C x s (B & R & H & Hok & Hx). eapply wp_mono; [apply wp_set_address; [exact H|apply Hok]|].
    cbn beta. intros d s' (B' & n & H' & E & Hn & Hd & Hi). split; [|done]. exists (B' ++ B), R. rewrite <- app_assoc, E.
    split; [done|]. split; [|done]. destruct Hok. cbn [unconfigured]. constructor; cbn; try done.
    + destruct ok_array0; [by left|right; apply elem_of_app; by right].
    + lia.
    + destruct (discovered d); lia.
    + destruct (discovered d); [specialize (Hd eq_refl)|]; lia.
  - intros packet mps len address port L C x s (B & R & H & Hok & Hx) Hl.
    eapply wp_mono; [apply wp_send; [exact H|lia]|]. cbn beta. intros r s' (H' & E & Hf). split; [|done]. exists B, R.
    rewrite E. split; [|done]. eapply holds_perm; [|reflexivity|exact H']. solve_Permutation.
  - intros d value mps address L C x s (B & R & H & Hok & Hx) Hd Hu.
    eapply wp_mono; [by eapply wp_configure_endpoints|]. cbn beta. intros r s' (B' & R' & H' & Hok' & E). exists B', R'.
    by rewrite E.
  - intros L C x s (B & R & H & Hok & Hx). exists B, R. split; [done|]. split; [by destruct Hok|done].
Defined.

(** The object before the first enumeration, and later: [L] are the caller's blocks. *)
Definition uhci_ready (L : list Z) (s : driver W uhci_controller) : Prop :=
  exists B R, holds timer (B ++ L) R s /\ uhci_ok B 0 (obj s).
End Endpoints.

(** C10: over UHCI, whatever the controller answers, in a world that keeps [WorldLaws], [get_device]
    returns without a fault. It never touches a block of the caller's, frees no block or region that
    it does not have, keeps the array of states as long as its count, and gives at most 127
    addresses. A device that counts as discovered has at least one interface, its arrays are as long
    as the record says, and they are in the caller's hands. *)
Theorem uhci_get_device_correct {W} `{!IO W} `{!HeapOps W} `{!DmaOps W} (timer : TimerSource W) `{!WorldLaws W timer}
    (dev : device) (stale_endpoint : uhci_endpoint_state) (stale_interface : uhci_interface_state) (port : Z)
    (L : list Z) (s : driver W uhci_controller) : uhci_ready timer L s -> is_xhci_controller (controller (obj s)) = false ->
  exists d s', get_device (HostController0 := uhci_host dev timer stale_endpoint stale_interface) port s = Done d s' /\
    (exists B R u, holds timer (B ++ device_blocks d ++ L) R s' /\ uhci_ok B u (obj s')) /\
    (discovered d = true -> enumerated d port /\ uhci_ready timer (device_blocks d ++ L) s').
Proof.
  intros (B & R & H & Hok) Hx.
  assert (in_hand (HostLaws := uhci_laws timer dev stale_endpoint stale_interface) L [] false s) as Hin by (by exists B, R).
  destruct (wp_inv _ _ _ (wp_get_device (HostLaws0 := uhci_laws timer dev stale_endpoint stale_interface) port L [] false s Hin))
    as (d & s' & E & C' & (B' & R' & H' & Hok' & _) & Hd). exists d, s'. split; [exact E|]. split; [by exists B', R', (unconfigured (C' ++ []))|].
  intros Ed. destruct (Hd Ed) as [-> He]. split; [exact He|]. by exists B', R'.
Qed.

(** A controller that answers 5 to everything: the port's device survives the reset, and the
    schedule does not stop. *)
Import Toy.
Definition sample_uhci : driver toy uhci_controller :=
  mkDriver (mkToy [] [7] [9] 100)
    (mkUhci (mkController true false [] 0 (mkAddr 0 0 0 0) no_bar 0xC000 0x0c 0x03 0x00 0) None 2 0x9000 [] 0 0 0 0 1).
Lemma uhci_get_device_correct_witness :
  exists d s', get_device (HostController0 := uhci_host (fun _ _ _ _ => 5) toy_timer no_uhci_endpoint (mkUhciInterface 0 None 0)) 1
    sample_uhci = Done d s' /\
    (exists B R u, holds toy_timer (B ++ device_blocks d ++ [7]) R s' /\ uhci_ok B u (obj s')) /\
    (discovered d = true -> enumerated d 1 /\ uhci_ready toy_timer (device_blocks d ++ [7]) s').
Proof.
  apply (uhci_get_device_correct toy_timer (fun _ _ _ _ => 5) no_uhci_endpoint (mkUhciInterface 0 None 0) 1 [7] sample_uhci).
  - exists [], [9]. split; [split; [set_solver|split; reflexivity]|]. constructor; cbn; [reflexivity|by left|lia|lia|lia].
  - reflexivity.
Defined.
