(* ===== verification/UhciChain.v ===== *)
(** * UHCI: a control request as the controller reads it

    The controller walks from a queue head through the transfer descriptors in memory. What it finds
    behind the queue head of a request is the control transfer of the USB specification. *)
From S2P Require Import KPrelude PortIO Pci Dma Timers UsbTypes Usb UsbDriver UsbMemory Uhci UhciRequests.

(** ** The controller's reading of memory *)

Record transaction := mkTx {
  tx_pid : Z;
  tx_address : Z;
  tx_endpoint : Z;
  tx_toggle : Z;
  tx_length : Z;
  tx_buffer : Z;
  tx_short : bool;
  tx_low : bool
}.

(** The fields of a descriptor's status, token and buffer words. *)
Definition decode (status token buffer : Z) : transaction :=
  mkTx (token mod 256) (token / 2 ^ 8 mod 128) (token / 2 ^ 15 mod 16) (token / 2 ^ 19 mod 2)
    ((token / 2 ^ 21 + 1) mod 2048) buffer (Z.testbit status 29) (Z.testbit status 26).

(** [mem] is physical memory, by words. A link ends the chain (bit 0), or leads to a descriptor, which
    is active and allows three errors. *)
Inductive chain (mem : Z -> Z) : Z -> list transaction -> Prop :=
| chain_end link : Z.testbit link 0 = true -> chain mem link []
| chain_td link td txs : Z.testbit link 0 = false -> Z.testbit link 1 = false -> td = 16 * (link / 16) ->
    Z.testbit (mem (td + 4)) 23 = true -> mem (td + 4) / 2 ^ 27 mod 4 = 3 -> chain mem (mem td) txs ->
    chain mem link (decode (mem (td + 4)) (mem (td + 8)) (mem (td + 12)) :: txs).

(** ** The transfer that a request means *)

Definition PID_SETUP := 0x2D.
Definition PID_IN := 0x69.
Definition PID_OUT := 0xE1.

(** The packets of the data stage: [length] bytes in [n] packets of at most [mps], with alternating
    toggles from DATA1 on; the last one alone is not expected to be full. *)
Definition data_packet (address mps length buffer n : Z) (low : bool) (i : Z) : transaction :=
  mkTx PID_IN address 0 ((i + 1) mod 2) (Z.min mps (length - i * mps)) (buffer + i * mps) (negb (i =? n - 1)) low.
Definition control_transfer (length address mps setup buffer : Z) (low : bool) : list transaction :=
  let n := (length + mps - 1) / mps in
  mkTx PID_SETUP address 0 0 8 setup false low ::
  map (data_packet address mps length buffer n low) (seqZ 0 n) ++
  [mkTx (if length =? 0 then PID_IN else PID_OUT) address 0 1 0 0 false low].

(** ** Words of a descriptor *)

Definition encoded (len : Z) : Z := if len =? 0 then 2047 else len - 1.

Lemma token_sum pid address toggle len : 0 <= pid < 256 -> 0 <= address < 128 -> 0 <= toggle < 2 -> 0 <= len <= 1024 ->
  pid ||| UHCI_TOKEN_ADDR address ||| UHCI_TOKEN_TOGGLE toggle ||| UHCI_TOKEN_MAXLEN len =
  encoded len * 2 ^ 21 + (toggle * 2 ^ 19 + (address * 2 ^ 8 + pid)).
Proof.
  intros Hp Ha Ht Hl. unfold UHCI_TOKEN_ADDR, UHCI_TOKEN_TOGGLE, UHCI_TOKEN_MAXLEN.
  assert (u32 ((if len =? 0 then 0x7FF else u32 (len - 1)) <<< 21) = encoded len <<< 21) as ->.
  { unfold encoded. destruct (Z.eqb_spec len 0); [reflexivity|]. rewrite (u32_id (len - 1)) by (change (2 ^ 32) with 4294967296; lia).
    rewrite shiftl_mul by lia. apply u32_id. change (2 ^ 21) with 2097152. change (2 ^ 32) with 4294967296. lia. }
  assert (0 <= encoded len < 2048) as He by (unfold encoded; destruct (Z.eqb_spec len 0); lia).
  rewrite (Z.lor_comm pid), (lor_shiftl_add address pid 8) by (change (2 ^ 8) with 256; lia).
  rewrite (Z.lor_comm _ (toggle <<< 19)), (lor_shiftl_add toggle _ 19) by (change (2 ^ 8) with 256; change (2 ^ 19) with 524288; lia).
  rewrite (Z.lor_comm _ (encoded len <<< 21)), (lor_shiftl_add (encoded len) _ 21)
    by (change (2 ^ 8) with 256; change (2 ^ 19) with 524288; change (2 ^ 21) with 2097152; lia).
  done.
Qed.

Lemma token_decoded pid address toggle len status buffer :
  0 <= pid < 256 -> 0 <= address < 128 -> 0 <= toggle < 2 -> 0 <= len <= 1024 ->
  decode status (pid ||| UHCI_TOKEN_ADDR address ||| UHCI_TOKEN_TOGGLE toggle ||| UHCI_TOKEN_MAXLEN len) buffer =
  mkTx pid address 0 toggle len buffer (Z.testbit status 29) (Z.testbit status 26).
Proof.
  intros Hp Ha Ht Hl. rewrite token_sum by done. unfold decode.
  assert (0 <= encoded len < 2048 /\ (encoded len + 1) mod 2048 = len) as [He Hlen].
  { unfold encoded. destruct (Z.eqb_spec len 0) as [->|]; [done|]. split; [lia|]. rewrite Z.mod_small by lia. lia. }
  change (2 ^ 8) with 256. change (2 ^ 15) with 32768. change (2 ^ 19) with 524288. change (2 ^ 21) with 2097152.
  set (e := encoded len) in *. clearbody e.
  f_equal; [divlia..|]. rewrite <- Hlen. f_equal. f_equal. divlia.
Qed.

Lemma token_range pid address toggle len : 0 <= pid < 256 -> 0 <= address < 128 -> 0 <= toggle < 2 -> 0 <= len <= 1024 ->
  u32 (pid ||| UHCI_TOKEN_ADDR address ||| UHCI_TOKEN_TOGGLE toggle ||| UHCI_TOKEN_MAXLEN len) =
  pid ||| UHCI_TOKEN_ADDR address ||| UHCI_TOKEN_TOGGLE toggle ||| UHCI_TOKEN_MAXLEN len.
Proof.
  intros Hp Ha Ht Hl. rewrite token_sum by done. apply u32_id.
  assert (0 <= encoded len < 2048) as He by (unfold encoded; destruct (Z.eqb_spec len 0); lia).
  change (2 ^ 8) with 256. change (2 ^ 19) with 524288. change (2 ^ 21) with 2097152. change (2 ^ 32) with 4294967296. lia.
Qed.

(** A link to a descriptor, depth first or not. *)
Lemma link_to x : 0 <= x < 2 ^ 32 -> x mod 16 = 0 ->
  u32 x = x /\ u32 (x ||| UHCI_PTR_DEPTH) = x + 4 /\
  forall d, d = 0 \/ d = 4 -> Z.testbit (x + d) 0 = false /\ Z.testbit (x + d) 1 = false /\ x = 16 * ((x + d) / 16).
Proof.
  intros Hx Hm. change (2 ^ 32) with 4294967296 in Hx.
  assert (x ||| UHCI_PTR_DEPTH = x + 4) as ->.
  { assert (x = (x / 16) <<< 4) as -> by (rewrite shiftl_mul by lia; change (2 ^ 4) with 16; divlia).
    unfold UHCI_PTR_DEPTH. rewrite lor_shiftl_add by lia. rewrite shiftl_mul by lia. done. }
  split; [apply u32_id; done|]. split; [apply u32_id; change (2 ^ 32) with 4294967296; divlia|].
  intros d Hd. split; [|split]; [| |divlia].
  - apply Z.b2z_inj. rewrite Z.testbit_spec' by lia. change (2 ^ 0) with 1. cbn [Z.b2z]. divlia.
  - apply Z.b2z_inj. rewrite Z.testbit_spec' by lia. change (2 ^ 1) with 2. cbn [Z.b2z]. divlia.
Qed.

Lemma lxor_next i : Z.lxor ((i + 1) mod 2) 1 = (i + 1 + 1) mod 2.
Proof.
  assert ((i + 1) mod 2 = 0 /\ (i + 1 + 1) mod 2 = 1 \/ (i + 1) mod 2 = 1 /\ (i + 1 + 1) mod 2 = 0) as [[-> ->] | [-> ->]]
    by divlia; reflexivity.
Qed.
Ltac divnia := Z.to_euclidean_division_equations; nia.

(** The status word of an active descriptor. *)
Definition low_bit (low : Z) : Prop := low = 0 \/ low = TD_LOW_SPEED.
Definition low_of (low : Z) : bool := negb (low =? 0).
Lemma status_word low extra : low_bit low -> extra = 0 \/ extra = TD_SPD ->
  let st := TD_ACTIVE ||| TD_ERROR_COUNT ||| low ||| extra in
  u32 st = st /\ Z.testbit st 23 = true /\ st / 2 ^ 27 mod 4 = 3 /\ Z.testbit st 29 = negb (extra =? 0) /\
  Z.testbit st 26 = low_of low.
Proof. intros [-> | ->] [-> | ->]; repeat split. Qed.

Section Fill.
Context {W : Type} `{!IO W} (dev : device).
Implicit Types s : driver W uhci_controller.

(** The four words of a descriptor. *)
Definition td_words (t : list event) (td link status token buffer : Z) : Prop :=
  word t td = link /\ word t (td + 4) = status /\ word t (td + 8) = token /\ word t (td + 12) = buffer.

Lemma td_elsewhere lo hi s s' td l st k b : extends lo hi s s' -> td + 16 <= lo \/ hi <= td ->
  td_words (trace s) td l st k b -> td_words (trace s') td l st k b.
Proof. intros H Hd (H1 & H2 & H3 & H4). unfold td_words. by rewrite !(extends_word lo hi s s') by (done || lia). Qed.

Lemma wp_store_td td l st k b (Q : unit -> driver W uhci_controller -> Prop) s :
  (forall s', extends td (td + 16) s s' -> td_words (trace s') td (u32 l) (u32 st) (u32 k) (u32 b) -> Q () s') ->
  wp (store_td td l st k b) Q s.
Proof.
  intros HQ. unfold store_td, td_link, td_status, td_token, td_buffer.
  apply wp_bind, wp_w32. intros s1 X1 W1. apply wp_bind, wp_w32. intros s2 X2 W2. apply wp_bind, wp_w32. intros s3 X3 W3.
  apply wp_w32. intros s4 X4 W4. apply HQ.
  - eapply extends_trans; [eapply extends_wider; [exact X1|lia|lia]|]. eapply extends_trans; [eapply extends_wider; [exact X2|lia|lia]|].
    eapply extends_trans; [eapply extends_wider; [exact X3|lia|lia]|]. eapply extends_wider; [exact X4|lia|lia].
  - unfold td_words. rewrite W4.
    rewrite (extends_word _ _ _ _ (td + 8) X4), W3 by lia.
    rewrite (extends_word _ _ _ _ (td + 4) X4), (extends_word _ _ _ _ (td + 4) X3), W2 by lia.
    rewrite (extends_word _ _ _ _ td X4), (extends_word _ _ _ _ td X3), (extends_word _ _ _ _ td X2), W1 by lia. done.
Qed.

(** *** The data stage *)

Context (tds phys count status_phys buffer len mps address low : Z).
Context (Hlow : low_bit low) (Hlen : 0 < len <= 4096) (Hmps : 1 <= mps <= 1024) (Haddr : 0 <= address < 128).
Context (Hcount : count = (len + mps - 1) / mps).

Lemma count_bounds : 1 <= count <= 4096 /\ (count - 1) * mps < len <= count * mps.
Proof. rewrite Hcount. assert (0 < mps) by lia. split; [split|split]; divnia. Qed.

(** The words of the data descriptor [i]. *)
Definition data_td (t : list event) (i : Z) : Prop :=
  td_words t (tds + 32 * i)
    (u32 ((if i =? count - 1 then status_phys else phys + (i + 1) * 32) ||| UHCI_PTR_DEPTH))
    (TD_ACTIVE ||| TD_ERROR_COUNT ||| low ||| (if i =? count - 1 then 0 else TD_SPD))
    (USB_PID_IN ||| UHCI_TOKEN_ADDR address ||| UHCI_TOKEN_TOGGLE ((i + 1) mod 2) ||| UHCI_TOKEN_MAXLEN (Z.min mps (len - i * mps)))
    (u32 (buffer + i * mps)).

Definition data_tds (t : list event) : Prop := forall i, 0 <= i < count -> data_td t i.

Lemma wp_fill_data (Q : unit -> driver W uhci_controller -> Prop) s :
  (forall s', extends tds (tds + 32 * count) s s' -> data_tds (trace s') -> Q () s') ->
  wp (fill_data tds phys count status_phys buffer len mps address (TD_ACTIVE ||| TD_ERROR_COUNT ||| low)) Q s.
Proof.
  intros HQ. destruct count_bounds as [Hc1 Hc2]. unfold fill_data. apply wp_bind. eapply wp_mono.
  - apply (wp_for (fun i '(o, t) s' => 0 <= i <= count /\ o = Z.min (i * mps) len /\ t = (i + 1) mod 2 /\
      extends tds (tds + 32 * count) s s' /\ forall j, 0 <= j < i -> data_td (trace s') j)); [lia| |].
    { split; [lia|]. split; [lia|]. split; [done|]. split; [apply extends_refl|lia]. }
    intros i [o t] s1 Hi (_ & -> & -> & Hx & Htd). cbn zeta. rewrite Z.min_l by nia.
    rewrite (u32_id (len - i * mps)) by (change (2 ^ 32) with 4294967296; nia).
    assert ((if len - i * mps <? mps then len - i * mps else mps) = Z.min mps (len - i * mps)) as ->
      by (destruct (Z.ltb_spec (len - i * mps) mps); lia).
    rewrite (u32_id (count - 1)) by (change (2 ^ 32) with 4294967296; lia).
    assert (0 < Z.min mps (len - i * mps) <= 1024) as Hchunk by nia. pose proof (Z.mod_pos_bound (i + 1) 2 ltac:(lia)) as Ht.
    apply wp_bind, wp_store_td. intros s2 X2 T2. apply wp_ret. unfold sizeof_uhci_td in *. split; [lia|].
    split; [rewrite u32_id by (change (2 ^ 32) with 4294967296; nia); nia|].
    split; [apply (lxor_next i)|]. split.
    { eapply extends_trans; [exact Hx|]. eapply extends_wider; [exact X2|nia|nia]. }
    intros j Hj. destruct (Z.eq_dec j i) as [->|Hne].
    + unfold data_td. rewrite token_range in T2 by (unfold USB_PID_IN; lia).
      assert (u32 (TD_ACTIVE ||| TD_ERROR_COUNT ||| low ||| (if i =? count - 1 then 0 else TD_SPD)) =
        TD_ACTIVE ||| TD_ERROR_COUNT ||| low ||| (if i =? count - 1 then 0 else TD_SPD)) as Es.
      { apply (status_word low); [done|]. destruct (i =? count - 1); [by left|by right]. }
      rewrite Es, (u32_id (u32 (_ ||| _)) (u32_range _)), (u32_id (u32 (buffer + _)) (u32_range _)) in T2. exact T2.
    + eapply td_elsewhere; [exact X2|nia|]. apply Htd. lia.
  - intros [o t] s' (_ & _ & _ & Hx & Htd). apply wp_ret. apply HQ; [done|]. intros i Hi. apply Htd. lia.
Qed.
End Fill.

Lemma data_elsewhere {W} `{!IO W} (tds phys count status_phys buffer len mps address low lo hi : Z) (s s' : driver W uhci_controller) :
  extends lo hi s s' -> hi <= tds \/ tds + 32 * count <= lo ->
  data_tds tds phys count status_phys buffer len mps address low (trace s) ->
  data_tds tds phys count status_phys buffer len mps address low (trace s').
Proof. intros X Hd H i Hi. eapply td_elsewhere; [exact X|lia|]. by apply H. Qed.

(** Facts about words survive a step that stores elsewhere. *)
Ltac carry X :=
  repeat match goal with
  | H : word (trace ?s) ?x = _ |- _ =>
      match type of X with extends _ _ s _ => rewrite <- (extends_word _ _ _ _ x X) in H by lia end
  | H : packet_at (trace ?s) ?x = _ |- _ =>
      match type of X with extends _ _ s _ => rewrite <- (extends_packet _ _ _ _ x X) in H by lia end
  | H : data_tds _ _ _ _ _ _ _ _ _ (trace ?s) |- _ =>
      match type of X with extends _ _ s _ => eapply (data_elsewhere _ _ _ _ _ _ _ _ _ _ _ _ _ X) in H; [|lia] end
  end.

Section Request.
Context {W : Type} `{!IO W} (dev : device).
Implicit Types s : driver W uhci_controller.
Context (a p : Z) (packet : usb_setup_packet) (low mps address : Z).
Let len := wLength packet.
Let count := (len + mps - 1) / mps.
Context (Hp : packet_ok packet) (Hlow : low_bit low) (Hlen : len <= 4096) (Hmps : 1 <= mps <= 1024) (Haddr : 0 <= address < 128).
Context (Hin : len <> 0 -> BmRequestType packet &&& 0x80 <> 0).
Context (Hphys : 0 <= p /\ p mod 16 = 0 /\ p + setup_at count + 8 + len <= 2 ^ 32).
Context (Hdev : unchanged dev a (a + setup_at count + 8)).

Lemma count_zero : 0 <= len /\ 0 <= count <= 4096 /\ (count = 0 <-> len = 0).
Proof.
  destruct Hp as (_ & _ & _ & _ & ?). unfold count. fold len in H. split; [lia|].
  assert (0 < mps) by lia. split; [split; divnia|]. split; intros E; [divnia|]. rewrite E. apply Z.div_small. lia.
Qed.

(** What is in memory when the request is built. *)
Definition built (t : list event) : Prop :=
  packet_at t (a + setup_at count) = packet /\
  td_words t (a + 16) (u32 (p + 48)) (TD_ACTIVE ||| TD_ERROR_COUNT ||| low)
    (USB_PID_SETUP ||| UHCI_TOKEN_ADDR address ||| UHCI_TOKEN_MAXLEN 8) (u32 (p + setup_at count)) /\
  data_tds (a + 48) (u32 (p + 48)) count (u32 (p + status_at count)) (u32 (p + setup_at count + 8)) len mps address low t /\
  td_words t (a + status_at count) UHCI_LINK_TERMINATE (TD_ACTIVE ||| TD_ERROR_COUNT ||| low)
    ((if len =? 0 then USB_PID_IN else USB_PID_OUT) ||| UHCI_TOKEN_ADDR address ||| UHCI_TOKEN_TOGGLE 1 ||| UHCI_TOKEN_MAXLEN 0) 0 /\
  word t a = UHCI_LINK_TERMINATE /\ word t (a + 4) = u32 (p + 16).

Lemma wp_fill_request s : wp (fill_request dev a p packet low mps len count address)
  (fun _ s' => extends a (a + setup_at count + 8) s s' /\ built (trace s')) s.
Proof.
  destruct count_zero as (Hl0 & Hc & Hcl). unfold fill_request, status_at, setup_at in *. unfold setup_at, status_at, sizeof_uhci_td in *.
  apply wp_bind, wp_store_setup; [done|]. intros s1 E1 T1 P1.
  assert (extends (a + (48 + 32 * count + 32)) (a + (48 + 32 * count + 32) + 8) s s1) as X1 by done. clear E1 T1.
  apply wp_bind, wp_clear. intros s2 X2. unfold td_link, td_status, td_token, td_buffer.
  carry X2. apply wp_bind, wp_w32. intros s3 X3 L3. carry X3. apply wp_bind, wp_w32. intros s4 X4 K4. carry X4.
  apply wp_bind, wp_w32. intros s5 X5 S5. carry X5. apply wp_bind, wp_w32. intros s6 X6 B6. carry X6.
  apply wp_bind. set (setup := a + (48 + 32 * count + 32)) in *. set (st := a + (48 + 32 * count)) in *.
  set (D := fun s => data_tds (a + 48) (u32 (p + 48)) count (u32 (p + (48 + 32 * count)))
    (u32 (p + (48 + 32 * count + 32) + 8)) len mps address low (trace s)).
  assert (forall (Q : unit -> driver W uhci_controller -> Prop), (forall s7, extends (a + 48) (a + 48 + 32 * count) s6 s7 -> D s7 -> Q () s7) ->
    wp (if count =? 0 then mret ()
        else fill_data (a + 48) (u32 (p + 48)) count (u32 (p + (48 + 32 * count))) (u32 (p + (48 + 32 * count + 32) + 8)) len mps
               address (TD_ACTIVE ||| TD_ERROR_COUNT ||| low)) Q s6) as Hfill.
  { intros Q HQ. destruct (Z.eqb_spec count 0) as [E|E].
    - apply wp_ret, HQ; [apply extends_refl|]. intros i Hi. lia.
    - apply wp_fill_data; try done. lia. }
  assert (u32 (p + (48 + 32 * count + 32 + 8)) = u32 (p + (48 + 32 * count + 32) + 8)) as Eb by (f_equal; lia).
  replace (p + (48 + 32 * count + 32) + 8) with (p + (48 + 32 * count + 32 + 8)) in * by lia.
  apply Hfill. clear Hfill Eb. intros s7 X7 D7. unfold D in D7. clear D. carry X7.
  apply wp_bind, wp_clear. intros s8 X8. carry X8. apply wp_bind, wp_w32. intros s9 X9 S9. carry X9.
  apply wp_bind, wp_mem_load. intros rt s10 O10 Ert T10.
  assert (extends a a s9 s10) as X10 by (split; [done|by rewrite T10]). clear O10 T10.
  rewrite (Hdev 1%nat) in Ert by (unfold setup; cbn; lia). pose proof (f_equal BmRequestType P1) as Hrt. cbn in Hrt. cbn in Ert.
  rewrite Hrt in Ert. subst rt. carry X10.
  apply wp_bind, wp_mem_load. intros rl s11 O11 Erl T11.
  assert (extends a a s10 s11) as X11 by (split; [done|by rewrite T11]). clear O11 T11.
  rewrite (Hdev 2%nat) in Erl by (unfold setup; cbn; lia). pose proof (f_equal wLength P1) as Hrl. cbn [wLength packet_at] in Hrl.
  rewrite Hrl in Erl. subst rl. carry X11. fold len.
  assert ((len =? 0) || (BmRequestType packet &&& 0x80 =? 0) = (len =? 0)) as ->.
  { destruct (Z.eqb_spec len 0); [done|]. by rewrite (proj2 (Z.eqb_neq _ _)) by auto. }
  apply wp_bind, wp_w32. intros s12 X12 K12. carry X12. apply wp_bind, wp_w32. intros s13 X13 B13. carry X13.
  apply wp_bind, wp_w32. intros s14 X14 L14. carry X14. apply wp_bind, wp_clear. intros s15 X15. carry X15.
  unfold head_link, element_link. apply wp_bind, wp_w32. intros s16 X16 H16. carry X16. apply wp_w32. intros s17 X17 E17. carry X17.
  split.
  - do 17 (eapply extends_trans; [eapply extends_wider; [eassumption|lia|lia]|]). apply extends_refl.
  - assert (forall x, u32 (u32 x) = u32 x) as Huu by (intros; apply u32_id, u32_range). rewrite !Huu in *.
    assert (u32 (TD_ACTIVE ||| TD_ERROR_COUNT ||| low) = TD_ACTIVE ||| TD_ERROR_COUNT ||| low) as Hst
      by (destruct Hlow as [-> | ->]; reflexivity).
    unfold built, td_words. unfold setup_at, status_at, sizeof_uhci_td. fold setup st.
    assert (forall t, 0 <= t < 2 -> forall len pid, 0 <= len <= 1024 -> 0 <= pid < 256 ->
      u32 (pid ||| UHCI_TOKEN_ADDR address ||| UHCI_TOKEN_TOGGLE t ||| UHCI_TOKEN_MAXLEN len) =
      pid ||| UHCI_TOKEN_ADDR address ||| UHCI_TOKEN_TOGGLE t ||| UHCI_TOKEN_MAXLEN len) as Htok by (intros; by apply token_range).
    split_and!; try done.
    + rewrite L3. destruct (Z.eqb_spec count 0) as [->|]; [|done]. done.
    + by rewrite S5.
    + rewrite K4. specialize (Htok 0 ltac:(lia) 8 USB_PID_SETUP ltac:(lia) ltac:(unfold USB_PID_SETUP; lia)).
      unfold UHCI_TOKEN_TOGGLE in Htok. rewrite Z.shiftl_0_l, Z.lor_0_r in Htok. exact Htok.
    + by rewrite S9.
    + rewrite K12. apply Htok; [lia|lia|]. destruct (len =? 0); unfold USB_PID_IN, USB_PID_OUT; lia.
Qed.

(** *** The controller's walk *)

Definition mem_of (t : list event) (q : Z) : Z := word t (a + (q - p)).

Lemma chain_of t link td l st k b d txs : td_words t (a + (td - p)) l st k b -> 0 <= td < 2 ^ 32 -> td mod 16 = 0 ->
  d = 0 \/ d = 4 -> link = td + d -> Z.testbit st 23 = true -> st / 2 ^ 27 mod 4 = 3 -> chain (mem_of t) l txs ->
  chain (mem_of t) link (decode st k b :: txs).
Proof.
  intros (H1 & H2 & H3 & H4) Htd Hm Hd -> Ha Hc Ht. destruct (link_to td Htd Hm) as (_ & _ & Hl).
  destruct (Hl d Hd) as (T0 & T1 & E).
  assert (mem_of t (td + 4) = st) as E4 by (unfold mem_of; rewrite <- H2; f_equal; lia).
  assert (mem_of t (td + 8) = k) as E8 by (unfold mem_of; rewrite <- H3; f_equal; lia).
  assert (mem_of t (td + 12) = b) as E12 by (unfold mem_of; rewrite <- H4; f_equal; lia).
  rewrite <- E4, <- E8, <- E12. apply chain_td; [done|done|done|by rewrite E4|by rewrite E4|]. unfold mem_of. by rewrite H1.
Qed.

Lemma built_chain t : built t ->
  chain (mem_of t) (mem_of t (p + 4)) (control_transfer len address mps (p + setup_at count) (p + setup_at count + 8) (low_of low)).
Proof.
  intros (_ & Hsetup & Hdata & Hstatus & _ & Helem). destruct count_zero as (Hl0 & Hc & Hcl). destruct Hphys as (Hp0 & Hp16 & Hplim).
  unfold setup_at, status_at, sizeof_uhci_td in *. change (2 ^ 32) with 4294967296 in *.
  assert (forall x, 0 <= x -> p + x < 4294967296 -> u32 (p + x) = p + x) as Hid
    by (intros; apply u32_id; change (2 ^ 32) with 4294967296; lia).
  destruct (status_word low 0 Hlow ltac:(by left)) as (_ & Sa & Sc & Ss & Sl). rewrite Z.lor_0_r in Sa, Sc, Ss, Sl. cbn [negb Z.eqb] in Ss.
  set (st := TD_ACTIVE ||| TD_ERROR_COUNT ||| low) in *. fold count.
  assert (chain (mem_of t) UHCI_LINK_TERMINATE []) as Hend by (by constructor).
  assert (forall d, d = 0 \/ d = 4 -> chain (mem_of t) (p + (48 + 32 * count) + d)
    [mkTx (if len =? 0 then PID_IN else PID_OUT) address 0 1 0 0 false (low_of low)]) as Hst.
  { intros d Hd. replace (mkTx _ _ _ _ _ _ _ _) with (decode st ((if len =? 0 then USB_PID_IN else USB_PID_OUT) |||
      UHCI_TOKEN_ADDR address ||| UHCI_TOKEN_TOGGLE 1 ||| UHCI_TOKEN_MAXLEN 0) 0).
    - eapply (chain_of _ _ (p + (48 + 32 * count))); [|lia|divlia|exact Hd|done|done|done|exact Hend].
      replace (a + (p + (48 + 32 * count) - p)) with (a + (48 + 32 * count)) by lia. exact Hstatus.
    - rewrite token_decoded, Ss, Sl; [by destruct (len =? 0)|destruct (len =? 0); unfold USB_PID_IN, USB_PID_OUT; lia|done|lia|lia]. }
  assert (forall n d, (Z.of_nat n <= count) -> d = 0 \/ d = 4 ->
    chain (mem_of t) (p + (48 + 32 * (count - Z.of_nat n)) + d)
      (map (data_packet address mps len (p + (48 + 32 * count + 32) + 8) count (low_of low)) (seqZ (count - Z.of_nat n) (Z.of_nat n)) ++
       [mkTx (if len =? 0 then PID_IN else PID_OUT) address 0 1 0 0 false (low_of low)])) as Hdt.
  { induction n as [|n IH]; intros d Hn Hd.
    - replace (count - Z.of_nat 0) with count by lia. by apply Hst.
    - set (i := count - Z.of_nat (S n)). assert (0 <= i < count) as Hi by lia. rewrite seqZ_cons by lia. cbn [map app].
      replace (Z.succ i) with (count - Z.of_nat n) by lia. replace (Z.pred (Z.of_nat (S n))) with (Z.of_nat n) by lia.
      assert (mps * count < len + mps) as Hmc by (unfold count in *; divnia).
      pose proof (Hdata i Hi) as Htd. unfold data_td in Htd.
      destruct (status_word low (if i =? count - 1 then 0 else TD_SPD) Hlow ltac:(destruct (i =? count - 1); [by left|by right]))
        as (_ & Da & Dc & Ds & Dl). fold st in Da, Dc, Ds, Dl, Htd.
      assert (data_packet address mps len (p + (48 + 32 * count + 32) + 8) count (low_of low) i =
        decode (st ||| (if i =? count - 1 then 0 else TD_SPD)) (USB_PID_IN ||| UHCI_TOKEN_ADDR address |||
          UHCI_TOKEN_TOGGLE ((i + 1) mod 2) ||| UHCI_TOKEN_MAXLEN (Z.min mps (len - i * mps)))
          (u32 (u32 (p + (48 + 32 * count + 32) + 8) + i * mps))) as ->.
      { rewrite token_decoded, Ds, Dl by (unfold USB_PID_IN; divlia || nia). unfold data_packet.
        rewrite <- !Z.add_assoc, Hid, u32_id by (change (2 ^ 32) with 4294967296; nia).
        f_equal; [lia|]. by destruct (i =? count - 1). }
      eapply (chain_of _ _ (p + (48 + 32 * i))); [|lia|divlia|exact Hd|done|done|done|].
      + replace (a + (p + (48 + 32 * i) - p)) with (a + 48 + 32 * i) by lia. exact Htd.
      + set (x := if i =? count - 1 then u32 (p + (48 + 32 * count)) else u32 (p + 48) + (i + 1) * 32).
        assert (x = p + (48 + 32 * (count - Z.of_nat n))) as ->.
        { subst x. destruct (Z.eqb_spec i (count - 1)); rewrite Hid by lia; lia. }
        destruct (link_to (p + (48 + 32 * (count - Z.of_nat n)))) as (_ & -> & _); [change (2 ^ 32) with 4294967296; lia|divlia|].
        apply IH; [lia|by right]. }
  assert (mem_of t (p + 4) = p + 16) as -> by (unfold mem_of; replace (a + (p + 4 - p)) with (a + 4) by lia; rewrite Helem; apply Hid; lia).
  unfold control_transfer. fold count. rewrite Hid in Hsetup by lia.
  replace (mkTx PID_SETUP address 0 0 8 (p + (48 + 32 * count + 32)) false (low_of low)) with
    (decode st (USB_PID_SETUP ||| UHCI_TOKEN_ADDR address ||| UHCI_TOKEN_MAXLEN 8) (p + (48 + 32 * count + 32))).
  - eapply (chain_of _ _ (p + 16) _ _ _ _ 0); [|lia|divlia|by left|lia|done|done|].
    + replace (a + (p + 16 - p)) with (a + 16) by lia. rewrite <- (Hid (48 + 32 * count + 32)) by lia. exact Hsetup.
    + specialize (Hdt (Z.to_nat count) 0). replace (count - Z.of_nat (Z.to_nat count)) with 0 in Hdt by lia.
      rewrite Z2Nat.id in Hdt by lia. replace (p + (48 + 32 * 0) + 0) with (p + 48) in Hdt by lia. apply Hdt; [lia|by left].
  - pose proof (token_decoded USB_PID_SETUP address 0 8 st (p + (48 + 32 * count + 32)) ltac:(unfold USB_PID_SETUP; lia) Haddr ltac:(lia) ltac:(lia)) as E.
    unfold UHCI_TOKEN_TOGGLE in E. rewrite Z.shiftl_0_l, Z.lor_0_r in E. rewrite E, Ss, Sl. done.
Qed.
End Request.

(** C11: for every control request without data or with data to the host, in a region below 4 GiB
    that the controller does not store into, what [usb_send_packet] builds is what a controller
    reads as that transfer when it starts at the queue head: the SETUP stage with the eight bytes of
    the packet, data packets that cover the buffer without a gap, with alternating toggles from
    DATA1 on, short packets only expected before the last one, and a status stage in the other
    direction with DATA1; the queue head is the last, every descriptor is active with three errors
    allowed, and nothing outside of the structures is stored. *)
Theorem request_chain_correct {W} `{!IO W} (dev : device) (a p : Z) (packet : usb_setup_packet) (low mps address : Z)
    (s : driver W uhci_controller) :
  let len := wLength packet in
  let count := (len + mps - 1) / mps in
  packet_ok packet -> low_bit low -> len <= 4096 -> 1 <= mps <= 1024 -> 0 <= address < 128 ->
  (len <> 0 -> BmRequestType packet &&& 0x80 <> 0) ->
  0 <= p /\ p mod 16 = 0 /\ p + setup_at count + 8 + len <= 2 ^ 32 -> unchanged dev a (a + setup_at count + 8) ->
  exists s', fill_request dev a p packet low mps len count address s = Done () s' /\ obj s' = obj s /\
    stores_in a (a + setup_at count + 8) (trace s) (trace s') /\
    let mem := mem_of a p (trace s') in
    mem p = UHCI_LINK_TERMINATE /\ packet_at (trace s') (a + setup_at count) = packet /\
    chain mem (mem (p + 4)) (control_transfer len address mps (p + setup_at count) (p + setup_at count + 8) (low_of low)).
Proof.
  intros len count Hp Hlow Hlen Hmps Haddr Hin Hphys Hdev.
  destruct (wp_inv _ _ _ (wp_fill_request dev a p packet low mps address Hp Hlow Hlen Hmps Haddr Hin Hphys Hdev s)) as ([] & s' & E & [Eo Es] & B).
  exists s'. split; [exact E|]. split; [done|]. split; [done|]. cbn zeta. split; [|split; [apply B|]].
  - unfold mem_of. rewrite Z.sub_diag, Z.add_0_r. apply B.
  - by apply (built_chain a p packet low mps address Hp Hlow Hlen Hmps Haddr Hphys).
Qed.

(** A memory, and the request for a device descriptor in packets of 8 bytes. *)
#[local] Instance trace_IO : IO (list event).
Proof. by refine {| trace t := t; set_trace t _ := t |}. Defined.
Definition sample_object : uhci_controller :=
  mkUhci (mkController true false [] 0 (mkAddr 0 0 0 0) no_bar 0xC000 0x0c 0x03 0x00 0) None 2 0x9000 [] 0 0 0 0 1.

Lemma request_chain_correct_witness :
  exists s', fill_request plain_memory 0x10000 0x20000 DEVICE_REQUEST 0 8 18 3 5 (mkDriver ([] : list event) sample_object) = Done () s' /\
    obj s' = sample_object /\ stores_in 0x10000 0x100b8 [] (trace s') /\
    let mem := mem_of 0x10000 0x20000 (trace s') in
    mem 0x20000 = UHCI_LINK_TERMINATE /\ packet_at (trace s') 0x100b0 = DEVICE_REQUEST /\
    chain mem (mem 0x20004)
      [mkTx 0x2D 5 0 0 8 0x200b0 false false; mkTx 0x69 5 0 1 8 0x200b8 true false; mkTx 0x69 5 0 0 8 0x200c0 true false;
       mkTx 0x69 5 0 1 2 0x200c8 false false; mkTx 0xE1 5 0 1 0 0 false false].
Proof.
  refine (request_chain_correct plain_memory 0x10000 0x20000 DEVICE_REQUEST 0 8 5 (mkDriver ([] : list event) sample_object) _ _ _ _ _ _ _ _).
  - repeat split; cbn; lia.
  - by left.
  - cbn. lia.
  - lia.
  - lia.
  - intros _. vm_compute. congruence.
  - vm_compute. repeat split; congruence.
  - apply plain_unchanged.
Defined.
