(* ===== verification/UhciQueue.v ===== *)
(** * UHCI: the schedule of queue heads

    The queue heads behind the anchor are a list in shared memory. Linking an endpoint puts it in front;
    unlinking takes it out wherever it is by now. *)
From S2P Require Import KPrelude PortIO Pci Dma Timers UsbTypes Usb UsbDriver UsbWorld UsbMemory UsbQueue Uhci UhciRequests UhciSchedule UhciLaws UhciChain.

Abbreviation linked := (linked 1).
Abbreviation disjoint_heads := (disjoint_heads 16).
Abbreviation still := (still same_memory).

Section Ports.
Context {W O : Type} `{!IO W} (dev : device).
Lemma still_port_read w a : still (io_read dev Port w a : M (driver W O) Z).
Proof. intros s. apply wp_io_read. split; [done|]. intros b. by rewrite trace_logged. Qed.
Lemma still_port_write w a v : still (io_write Port w a v : M (driver W O) unit).
Proof. intros s. apply wp_io_write. split; [done|]. intros b. by rewrite trace_logged. Qed.
End Ports.

Section Queue.
Context {W : Type} `{!IO W} `{!HeapOps W} `{!DmaOps W} (timer : TimerSource W) (dev : device).
Context (Htime : forall ms (w : W), 0 <= ms < 1000 -> wp (wait_ms timer ms) (fun _ w' => same_memory (trace w) (trace w')) w).
Implicit Types s : driver W uhci_controller.

Abbreviation MU := (M (driver W uhci_controller)).

Lemma still_wait_status base h : still (wait_status dev timer base h : MU bool).
Proof.
  unfold wait_status. apply (still_while _ same_memory_refl same_memory_trans _ _ (fun e => 0 <= e <= 100) (fun e => 101 - e)); [lia|unfold FUEL; lia|].
  intros e s He. apply wp_bind, wp_bind. eapply wp_mono; [apply still_port_read|]. cbn beta. intros v s1 [E1 M1]. apply wp_ret.
  destruct (Z.ltb_spec e 100); [|by apply wp_ret]. destruct (Bool.eqb _ _); [by apply wp_ret|]. apply wp_bind.
  eapply wp_mono; [apply (still_wait timer _ Htime 1); lia|]. cbn beta. intros _ s2 [E2 M2]. apply wp_ret.
  split; [congruence|]. split; [intros b; by rewrite M2, M1|]. lia.
Qed.
Lemma still_halt base : still (halt_schedule dev timer base : MU (Z * bool)).
Proof.
  unfold halt_schedule. apply (still_bind _ same_memory_trans); [apply still_port_read|]. intros v. apply (still_bind _ same_memory_trans); [apply still_port_write|]. intros _.
  apply (still_bind _ same_memory_trans); [apply still_wait_status|]. intros; apply (still_ret _ same_memory_refl).
Qed.
Lemma still_start base old : still (start_schedule dev timer base old : MU bool).
Proof. unfold start_schedule. apply (still_bind _ same_memory_trans); [apply still_port_write|]. intros _. apply still_wait_status. Qed.
Lemma still_base : still (base_port : MU Z).
Proof. intros s. apply wp_bind, wp_gets. by apply wp_ret. Qed.

(** *** The endpoint *)

Definition endpoint_at (k i j : Z) (x : uhci_controller) : option uhci_endpoint_state :=
  ifs ← at_state k x; it ← ifs !! Z.to_nat i; es ← is_endpoints it; es !! Z.to_nat j.

Context (k i j : Z) (Hk : 0 <= k) (Hi : 0 <= i) (Hj : 0 <= j).

Lemma wp_find_endpoint ep (Q : uhci_endpoint_state -> driver W uhci_controller -> Prop) s : endpoint_at k i j (obj s) = Some ep ->
  Q ep s -> wp (find_endpoint k i j) Q s.
Proof.
  intros E HQ. unfold endpoint_at, at_state in E.
  destruct (states (obj s) !! Z.to_nat k) as [st|] eqn:E1; [|done]. cbn in E.
  destruct (as_interfaces st) as [l|] eqn:E2; [|done]. cbn in E. destruct (l !! Z.to_nat i) as [it|] eqn:E3; [|done]. cbn in E.
  destruct (is_endpoints it) as [es|] eqn:E4; [|done]. cbn in E. unfold find_endpoint.
  rewrite !wp_bind. apply wp_gets. rewrite !wp_bind, (array_get_of _ _ _ Hk E1). apply wp_ret. rewrite !wp_bind, E2. apply wp_ret.
  rewrite !wp_bind, (array_get_of _ _ _ Hi E3). apply wp_ret. rewrite !wp_bind, E4. apply wp_ret.
  rewrite (array_get_of _ _ _ Hj E). by apply wp_ret.
Qed.

Lemma wp_mark f ep (Q : unit -> driver W uhci_controller -> Prop) s : endpoint_at k i j (obj s) = Some ep ->
  (forall s', trace s' = trace s -> anchor (obj s') = anchor (obj s) -> endpoint_at k i j (obj s') = Some (f ep) -> Q () s') ->
  wp (update_endpoint k i j f) Q s.
Proof.
  intros E HQ. unfold update_endpoint. apply wp_bind, (wp_find_endpoint ep); [done|]. unfold endpoint_at, at_state in E.
  destruct (states (obj s) !! Z.to_nat k) as [st|] eqn:E1; [|done]. cbn in E.
  destruct (as_interfaces st) as [l|] eqn:E2; [|done]. cbn in E. destruct (l !! Z.to_nat i) as [it|] eqn:E3; [|done]. cbn in E.
  destruct (is_endpoints it) as [es|] eqn:E4; [|done]. cbn in E. unfold update_interface, update_state.
  rewrite !wp_bind. apply wp_gets. rewrite !wp_bind, (array_get_of _ _ _ Hk E1). apply wp_ret. rewrite !wp_bind, E2. apply wp_ret.
  rewrite !wp_bind, (array_get_of _ _ _ Hi E3). apply wp_ret. rewrite !wp_bind. apply wp_gets.
  rewrite !wp_bind, (array_get_of _ _ _ Hk E1). apply wp_ret. apply wp_modify. apply HQ; [done|done|].
  unfold endpoint_at, at_state. cbn. rewrite list_lookup_alter_eq, E1. cbn. rewrite E2. cbn.
  rewrite list_lookup_alter_eq, E3. cbn. rewrite E4. cbn. by rewrite list_lookup_alter_eq, E.
Qed.

(** *** The schedule *)

Context (a : Z) (U : list queue_head).
(** The queue heads of the controller: the structures do not overlap, and the controller leaves their
    links alone. *)
Record heads_ok : Prop := {
  heads_disjoint : disjoint_heads a U;
  heads_valid q : q ∈ U -> head_ok q;
  heads_number : Z.of_nat (length U) < 2 ^ 32;
  heads_load t v : place a U v -> io_value dev t Mmio 4 v = word t v;
  heads_find q (w : W) : q ∈ U -> wp (dma_phys_to_virt (qh_phys q)) (fun v w' => v = qh_virt q /\ same_memory (trace w) (trace w')) w
}.
Context (HU : heads_ok).

Definition schedule (l : list queue_head) s : Prop :=
  anchor (obj s) = a /\ a <> 0 /\ linked (trace s) a l /\ NoDup l /\ l ⊆ U.
Definition endpoint_is (q : queue_head) (ep : uhci_endpoint_state) : Prop := ep_qh ep = qh_virt q /\ ep_qh_phys ep = qh_phys q.

Lemma schedule_same l s s' : same_memory (trace s) (trace s') -> anchor (obj s') = anchor (obj s) -> schedule l s -> schedule l s'.
Proof. intros HM E (H1 & H2 & H3 & H4). split; [congruence|]. split; [done|]. split; [by eapply linked_same|done]. Qed.

Lemma wp_head v (Q : Z -> driver W uhci_controller -> Prop) s : place a U v ->
  (forall s', obj s' = obj s -> same_memory (trace s) (trace s') -> Q (word (trace s) v) s') -> wp (r32 dev (head_link v)) Q s.
Proof.
  intros Hv HQ. apply wp_mem_load. intros x s' E -> T. rewrite (heads_load HU) by done. apply HQ; [done|]. intros b. by rewrite T.
Qed.
Lemma wp_set_head v x (Q : unit -> driver W uhci_controller -> Prop) s : 0 <= x < 2 ^ 32 ->
  (forall s', obj s' = obj s -> trace s' = Wr Mmio 4 v x :: trace s -> Q () s') -> wp (w32 (head_link v) x) Q s.
Proof. intros Hx HQ. apply wp_mem_store. intros s' E T. apply HQ; [done|]. by rewrite T, Z.mod_small. Qed.

Lemma wp_link_qh q ep l s : endpoint_at k i j (obj s) = Some ep -> endpoint_is q ep -> q ∈ U -> q ∉ l -> schedule l s ->
  wp (link_qh dev timer k i j) (fun ok s' => if (ok : bool)
    then schedule (q :: l) s' /\ endpoint_at k i j (obj s') = Some (set_scheduled (fun _ => true) ep)
    else schedule l s' /\ endpoint_at k i j (obj s') = Some ep \/
         schedule (q :: l) s' /\ endpoint_at k i j (obj s') = Some (set_scheduled (fun _ => false) ep)) s.
Proof.
  intros Hep [Eq Ep] Hq Hn Hs. pose proof Hs as (Ea & Ha0 & Hl & Hnd & HlU). destruct (heads_valid HU q Hq) as (Hp & Hm & Hv).
  destruct (link_fields _ Hp Hm) as (Hor & Hu & _).
  assert (0 <= qh_phys q < 2 ^ 32 - 2) as Hp'.
  { change (2 ^ 32 - 2) with 4294967294. change (2 ^ 32) with 4294967296 in Hp. divlia. }
  unfold link_qh. apply wp_bind, wp_gets. apply wp_bind, (wp_find_endpoint ep); [done|]. rewrite Ea, Eq, Ep.
  rewrite (proj2 (Z.eqb_neq _ _) Ha0), (proj2 (Z.eqb_neq (qh_virt q) 0)) by lia. cbn [orb].
  apply wp_bind. eapply wp_mono; [apply still_base|]. cbn beta. intros base s1 [E1 M1].
  apply wp_bind. eapply wp_mono; [apply still_halt|]. cbn beta. intros [old ok] s2 [E2 M2].
  assert (schedule l s2) as Hs2 by (eapply schedule_same; [|by rewrite E2, E1|exact Hs]; intros b; by rewrite M2, M1).
  destruct ok; cbn [negb]; [|apply wp_ret; left; rewrite E2, E1; done].
  assert (place a U a) as Pa by (by left). destruct Hs2 as (Ea2 & _ & Hl2 & _).
  apply wp_bind, (wp_head a); [done|]. intros s3 E3 M3.
  apply wp_bind, wp_set_head; [apply word_range|]. intros s4 E4 T4.
  apply wp_bind. rewrite Hor. apply wp_set_head; [change (2 ^ 32) with 4294967296 in *; lia|]. intros s5 E5 T5.
  assert (endpoint_at k i j (obj s5) = Some ep) as Hep5 by (by rewrite E5, E4, E3, E2, E1).
  apply wp_bind, (wp_mark _ ep); [done|]. intros s6 T6 A6 Hep6.
  assert (linked (trace s3) a l) as Hl3 by (by eapply linked_same).
  assert (word (trace s2) a = word (trace s3) a) as Ew by (unfold word; cbn [value_at]; by rewrite !M3).
  assert (schedule (q :: l) s6) as Hs6.
  { split; [by rewrite A6, E5, E4, E3|]. split; [done|]. split; [|split; [by constructor|]].
    - rewrite T6, T5, T4, Ew. by apply (linked_front 1 16 ltac:(lia) a U (heads_disjoint HU)).
    - intros y Hy. apply elem_of_cons in Hy as [->|Hy]; auto. }
  apply wp_bind. eapply wp_mono; [apply still_start|]. cbn beta. intros ok s7 [E7 M7].
  assert (schedule (q :: l) s7) as Hs7 by (eapply schedule_same; [exact M7|by rewrite E7|done]).
  destruct ok; cbn [negb]; [apply wp_ret; by rewrite E7|].
  apply wp_bind, (wp_mark _ (set_scheduled (fun _ => true) ep)); [by rewrite E7|]. intros s8 T8 A8 Hep8. apply wp_ret. right.
  split; [|by destruct ep]. eapply schedule_same; [|exact A8|exact Hs7]. by rewrite T8.
Qed.

(** The walk has passed [d]; [q] is ahead. *)
Lemma wp_unlink_walk q ep l1 l2 base old s : endpoint_at k i j (obj s) = Some ep -> endpoint_is q ep -> schedule (l1 ++ q :: l2) s ->
  wp (unlink_walk dev timer k i j base old ep a) (fun _ s' =>
    schedule (l1 ++ l2) s' /\ endpoint_at k i j (obj s') = Some (set_scheduled (fun _ => false) ep)) s.
Proof.
  intros Hep [Eq Ep] Hs. pose proof Hs as (Ea & Ha0 & Hl & Hnd & HlU). unfold unlink_walk.
  assert (q ∈ U) as Hq by (apply HlU; set_solver). destruct (heads_valid HU q Hq) as (Hp & Hm & Hv).
  assert (length (l1 ++ q :: l2) <= length U)%nat as Hlen by (apply submseteq_length, NoDup_submseteq; done).
  pose proof (heads_number HU) as Hnum. rewrite length_app in Hlen. cbn [length] in Hlen.
  apply (wp_while_ix _ (fun '(d, m) v s' => l1 = d ++ m /\ v = end_of a d /\ obj s' = obj s /\ same_memory (trace s) (trace s'))
    (fun '(_, m) => Z.of_nat (length m))) with (x := ([], l1)).
  2: done. 2: (unfold FUEL; lia).
  intros [d m] v s1 (-> & -> & E1 & M1). rewrite <- app_assoc in Hl, HlU, Hnd.
  assert (place a U (end_of a d)) as Pe.
  { destruct (end_of_in a d) as [->|Hin]; [by left|]. apply list_elem_of_fmap in Hin as (y & -> & Hy). right. exists y. split; [done|].
    apply HlU, elem_of_app. by left. }
  assert (linked (trace s1) a (d ++ m ++ q :: l2)) as Hl1 by (by eapply linked_same).
  pose proof (linked_drop _ _ _ _ _ Hl1) as Hd.
  apply wp_bind, wp_head; [done|]. intros s2 E2 M2. destruct m as [|q0 m].
  - cbn [app linked] in Hd. destruct Hd as [-> _]. destruct (link_fields _ Hp Hm) as (_ & _ & -> & -> & ->). cbn [negb Z.eqb Pos.eqb].
    rewrite Ep, Z.eqb_refl, Eq. assert (place a U (qh_virt q)) as Pq by (right; by exists q).
    apply wp_bind, wp_head; [done|]. intros s3 E3 M3. apply wp_bind, wp_set_head; [apply word_range|]. intros s4 E4 T4.
    apply wp_bind, wp_set_head; [lia|]. intros s5 E5 T5.
    apply wp_bind, (wp_mark _ ep); [by rewrite E5, E4, E3, E2, E1|]. intros s6 T6 A6 Hep6.
    apply wp_bind. eapply wp_mono; [apply still_start|]. cbn beta. intros ok s7 [E7 M7]. apply wp_ret. rewrite E7.
    split; [|done]. eapply schedule_same with (s := s6); [exact M7|by rewrite E7|]. cbn [app] in *. rewrite app_nil_r.
    split; [by rewrite A6, E5, E4, E3, E2, E1|]. split; [done|].
    assert (word (trace s2) (qh_virt q) = word (trace s3) (qh_virt q)) as Ew by (unfold word; cbn [value_at]; by rewrite !M3).
    assert (linked (trace s3) a (d ++ q :: l2)) as Hl3 by (eapply linked_same; [|exact Hl1]; intros b; by rewrite M3, M2).
    split; [|split].
    + rewrite T6, T5, T4, Ew. apply (linked_out 1 16 ltac:(lia) a U (heads_disjoint HU)); [done|by left|done|by apply (anchor_elsewhere 16 ltac:(lia) a U (heads_disjoint HU))|done].
    + apply NoDup_app in Hnd as (N1 & N2 & N3). apply NoDup_cons in N3 as [N3 N4]. apply NoDup_app. split; [done|]. split; [|done].
      intros y Hy Hy'. apply (N2 y Hy). by right.
    + intros y Hy. apply HlU. apply elem_of_app. apply elem_of_app in Hy as [?|?]; [by left|right; by right].
  - cbn [app linked] in Hd. destruct Hd as [-> Hd]. assert (q0 ∈ U) as H0 by (apply HlU; set_solver).
    destruct (heads_valid HU q0 H0) as (Hp0 & Hm0 & Hv0). destruct (link_fields _ Hp0 Hm0) as (_ & _ & -> & -> & ->). cbn [negb Z.eqb Pos.eqb].
    assert (q0 <> q) as Hne.
    { intros ->. apply NoDup_app in Hnd as (_ & _ & N). cbn in N. apply NoDup_cons in N as [N _]. set_solver. }
    rewrite Ep, (proj2 (Z.eqb_neq _ _)) by (by apply (proj2 (heads_disjoint HU q0 H0) q Hq)).
    apply wp_bind. unfold dma_phys_to_virt, driver_dma, lift, zoom, wp. pose proof (heads_find HU q0 (world s2) H0) as Hf. unfold wp in Hf.
    destruct (dma_phys_to_virt (qh_phys q0) (world s2)) as [x w'| |]; [|done..]. destruct Hf as [-> Hf]. apply wp_ret.
    rewrite (proj2 (Z.eqb_neq (qh_virt q0) 0)), (proj2 (Z.eqb_neq (qh_virt q0) 1)) by lia. cbn [orb].
    exists (d ++ [q0], m). split; [|cbn [length]; lia]. rewrite <- app_assoc, end_of_snoc. split; [done|]. split; [done|].
    split; [cbn; congruence|]. intros b. cbn. rewrite Hf. change (trace (world s2)) with (trace s2). by rewrite M2, M1.
Qed.

Lemma wp_unlink_qh q ep l1 l2 s : endpoint_at k i j (obj s) = Some ep -> endpoint_is q ep -> scheduled ep = true ->
  schedule (l1 ++ q :: l2) s ->
  wp (unlink_qh dev timer k i j) (fun ok s' =>
    schedule (l1 ++ l2) s' /\ endpoint_at k i j (obj s') = Some (set_scheduled (fun _ => false) ep) \/
    ok = false /\ schedule (l1 ++ q :: l2) s' /\ endpoint_at k i j (obj s') = Some ep) s.
Proof.
  intros Hep He Hsch Hs. pose proof Hs as (Ea & Ha0 & _ & _ & HlU). pose proof He as [Eq _].
  destruct (heads_valid HU q) as (_ & _ & Hv); [apply HlU; set_solver|].
  unfold unlink_qh. apply wp_bind, wp_gets. apply wp_bind, (wp_find_endpoint ep); [done|]. rewrite Ea, Eq, Hsch.
  rewrite (proj2 (Z.eqb_neq _ _) Ha0), (proj2 (Z.eqb_neq (qh_virt q) 0)) by lia. cbn [orb negb].
  apply wp_bind. eapply wp_mono; [apply still_base|]. cbn beta. intros base s1 [E1 M1].
  apply wp_bind. eapply wp_mono; [apply still_halt|]. cbn beta. intros [old ok] s2 [E2 M2].
  assert (schedule (l1 ++ q :: l2) s2) as Hs2 by (eapply schedule_same; [|by rewrite E2, E1|exact Hs]; intros b; by rewrite M2, M1).
  assert (endpoint_at k i j (obj s2) = Some ep) as Hep2 by (by rewrite E2, E1).
  destruct ok; cbn [negb]; [|apply wp_ret; by right].
  eapply wp_mono; [by eapply wp_unlink_walk|]. cbn beta. intros ok s3 H. by left.
Qed.
End Queue.

(** C12: the schedule as a list in shared memory. An endpoint's queue head that is linked stands in
    front of the others, and the links behind it lead through the same list as before; when the
    controller does not halt nothing changes, and when it does not start again the queue head stays in
    the list although the endpoint counts as not scheduled. A queue head that is unlinked is taken out
    from wherever it is by then and the others keep their order; when the controller does not halt
    nothing changes. Both operations end, on any list, without a fault. *)
Theorem schedule_correct {W} `{!IO W} `{!HeapOps W} `{!DmaOps W} (timer : TimerSource W) (dev : device) (k i j a : Z)
    (U : list queue_head) (q : queue_head) (ep : uhci_endpoint_state) (l : list queue_head) (s : driver W uhci_controller) :
  (forall ms (w : W), 0 <= ms < 1000 -> wp (wait_ms timer ms) (fun _ w' => same_memory (trace w) (trace w')) w) ->
  heads_ok dev a U -> 0 <= k -> 0 <= i -> 0 <= j -> endpoint_at k i j (obj s) = Some ep -> endpoint_is q ep -> q ∈ U ->
  schedule a U l s ->
  (q ∉ l -> exists ok s', link_qh dev timer k i j s = Done ok s' /\
    if (ok : bool) then schedule a U (q :: l) s' /\ endpoint_at k i j (obj s') = Some (set_scheduled (fun _ => true) ep)
    else schedule a U l s' /\ endpoint_at k i j (obj s') = Some ep \/
         schedule a U (q :: l) s' /\ endpoint_at k i j (obj s') = Some (set_scheduled (fun _ => false) ep)) /\
  (forall l1 l2, l = l1 ++ q :: l2 -> scheduled ep = true -> exists ok s', unlink_qh dev timer k i j s = Done ok s' /\
    (schedule a U (l1 ++ l2) s' /\ endpoint_at k i j (obj s') = Some (set_scheduled (fun _ => false) ep) \/
     ok = false /\ schedule a U l s' /\ endpoint_at k i j (obj s') = Some ep)).
Proof.
  intros Htime HU Hk Hi Hj Hep He Hq Hs. split.
  - intros Hn. eapply wp_inv, wp_link_qh; done.
  - intros l1 l2 -> Hsch. eapply wp_inv, wp_unlink_qh; done.
Qed.

(** Two queue heads, and memory that the controller only reads. *)
Import Toy.
Definition memory_only : device := fun t sp w x => match sp with Mmio => value_at (Z.to_nat w) t x | _ => 0 end.
Definition sample_heads := [mkHead 0x2000 0x2000; mkHead 0x3000 0x3000].
Definition sample_endpoint (on : bool) : uhci_endpoint_state :=
  mkUhciEndpoint 1 0x81 2 1 0 64 1 on (mkDma 0 1 0x2000 0x2000) 0x2000 0x2010 0x2000 0x2010 0x2030.
Definition sample_schedule (on : bool) (t : list event) : driver toy uhci_controller :=
  mkDriver (mkToy t [] [] 100)
    (mkUhci (mkController true false [] 0 (mkAddr 0 0 0 0) no_bar 0xC000 0x0c 0x03 0x00 0) None 2 0x9000
       [mkUhciAddress 1 (Some [mkUhciInterface 0 (Some [sample_endpoint on]) 1]) 1] 0x500 1 0x1000 0x1000 1).

Lemma memory_load t x : io_value memory_only t Mmio 4 x = word t x.
Proof. unfold io_value, memory_only, word. apply Z.mod_small, value_range. Qed.
Lemma sample_heads_ok : heads_ok memory_only 0x1000 sample_heads.
Proof.
  constructor.
  - intros q Hq. repeat (apply elem_of_cons in Hq as [->|Hq]); [..|by apply elem_of_nil in Hq];
      (split; [vm_compute; by left|]; intros q' Hq' Hne; repeat (apply elem_of_cons in Hq' as [->|Hq']);
       [..|by apply elem_of_nil in Hq']; try done; (split; [vm_compute|done]); (by left) || by right).
  - intros q Hq. repeat (apply elem_of_cons in Hq as [->|Hq]); [unfold head_ok; cbn; split_and!; (done || lia)..|by apply elem_of_nil in Hq].
  - done.
  - intros t v _. apply memory_load.
  - intros q w Hq. apply wp_ret. split; [|done]. by repeat (apply elem_of_cons in Hq as [->|Hq]); [..|by apply elem_of_nil in Hq].
Qed.
Lemma toy_quiet ms (w : toy) : 0 <= ms < 1000 -> wp (wait_ms toy_timer ms) (fun _ w' => same_memory (trace w) (trace w')) w.
Proof.
  intros Hms. apply (clock_law (fun w' => same_memory (trace w) (trace w')) toy_timer _ _ _ _ toy_advancing); try done.
  all: intros w' Hw b; rewrite <- (Hw b); done.
Qed.

Definition sample_link : list event := [Wr Mmio 4 0x1000 0x3002; Wr Mmio 4 0x3000 1].
Definition sample_links : list event := [Wr Mmio 4 0x1000 0x3002; Wr Mmio 4 0x3000 0x2002; Wr Mmio 4 0x2000 1].
Lemma schedule_correct_witness :
  (exists ok s', link_qh memory_only toy_timer 0 0 0 (sample_schedule false sample_link) = Done ok s' /\
    if (ok : bool) then schedule 0x1000 sample_heads [mkHead 0x2000 0x2000; mkHead 0x3000 0x3000] s' /\
                        endpoint_at 0 0 0 (obj s') = Some (set_scheduled (fun _ => true) (sample_endpoint false))
    else schedule 0x1000 sample_heads [mkHead 0x3000 0x3000] s' /\ endpoint_at 0 0 0 (obj s') = Some (sample_endpoint false) \/
         schedule 0x1000 sample_heads [mkHead 0x2000 0x2000; mkHead 0x3000 0x3000] s' /\
         endpoint_at 0 0 0 (obj s') = Some (set_scheduled (fun _ => false) (sample_endpoint false))) /\
  (exists ok s', unlink_qh memory_only toy_timer 0 0 0 (sample_schedule true sample_links) = Done ok s' /\
    (schedule 0x1000 sample_heads ([mkHead 0x3000 0x3000] ++ []) s' /\
     endpoint_at 0 0 0 (obj s') = Some (set_scheduled (fun _ => false) (sample_endpoint true)) \/
     ok = false /\ schedule 0x1000 sample_heads [mkHead 0x3000 0x3000; mkHead 0x2000 0x2000] s' /\
     endpoint_at 0 0 0 (obj s') = Some (sample_endpoint true))).
Proof.
  split.
  - refine (proj1 (schedule_correct toy_timer memory_only 0 0 0 0x1000 sample_heads (mkHead 0x2000 0x2000) (sample_endpoint false)
      [mkHead 0x3000 0x3000] (sample_schedule false sample_link) _ _ _ _ _ _ _ _ _) _);
      [apply toy_quiet|apply sample_heads_ok|lia..|reflexivity|done|by left| |].
    + split; [done|]. split; [done|]. split; [done|]. split; [apply NoDup_singleton|]. intros y Hy. by right.
    + intros Hin. apply list_elem_of_singleton in Hin. done.
  - refine (proj2 (schedule_correct toy_timer memory_only 0 0 0 0x1000 sample_heads (mkHead 0x2000 0x2000) (sample_endpoint true)
      [mkHead 0x3000 0x3000; mkHead 0x2000 0x2000] (sample_schedule true sample_links) _ _ _ _ _ _ _ _ _)
      [mkHead 0x3000 0x3000] [] _ _); [apply toy_quiet|apply sample_heads_ok|lia..|reflexivity|done|by left| |reflexivity|reflexivity].
    split; [done|]. split; [done|]. split; [done|]. split; [apply NoDup_cons; split; [|apply NoDup_singleton]|set_solver].
    intros Hin. apply list_elem_of_singleton in Hin. done.
Defined.
