(* ===== verification/Ehci.v ===== *)
(** * EHCI: the controller and its asynchronous schedule ([drivers/usb/ehci.cpp])

    The controller object, its registers, ports, the wait for the descriptors of a control transfer,
    and the queue heads that are put into the asynchronous schedule and taken out again. The
    registers and the schedule are reached by accesses of the history; [mfence] orders accesses that
    the history keeps in order anyway. *)
From S2P Require Import KPrelude PortIO Pci Dma Timers UsbTypes Usb UsbDriver UsbStates.

Definition HCHalted := 1 <<< 12.
Definition HCRESET := 1 <<< 1.
Definition EHCI_PORTSC := 0x44.
Definition CCS := 1 <<< 0.
Definition CSC := 1 <<< 1.
Definition PE := 1 <<< 2.
Definition PEC := 1 <<< 3.
Definition OCC := 1 <<< 5.
Definition FPR := 1 <<< 6.
Definition PR := 1 <<< 8.
Definition LINE_MASK := 3 <<< 10.
Definition LINE_K := 1 <<< 10.
Definition OWNER := 1 <<< 13.
Definition W1C_MASK := CSC ||| PEC ||| OCC.
Definition ASS := 1 <<< 15.
Definition EHCI_USBCMD_IAAD := 1 <<< 6.
Definition EHCI_USBSTS_IAA := 1 <<< 5.
Definition EHCI_QTD_ACTIVE := 1 <<< 7.

(** Further answers of [reset_port] ([usb.hpp]). *)
Definition CONTROLLER_HALTED := 5.
Definition COMPANION_REQUIRED := 6.
Definition PORT_BUSY := 7.
Definition LINK_ISSUE := 1.

(** [ehci_cap_regs_t] and [ehci_op_regs_t] *)
Definition cap_hcs_params := 0x04.
Definition cap_hcc_params := 0x08.
Definition USBCMD := 0x00.
Definition USBSTS := 0x04.
Definition USBINTR := 0x08.
Definition FRINDEX := 0x0C.
Definition CTRLDSSEGMENT := 0x10.
Definition PERIODICLISTBASE := 0x14.
Definition ASYNCLISTADDR := 0x18.
Definition config_flag := 0x40.

(** ** Data ([ehci.hpp]) *)

Definition sizeof_ehci_qh := 96.
Definition sizeof_ehci_qtd := 64.
Definition sizeof_ehci_endpoint_state := 104.

(** The fields of a queue head and of a transfer descriptor, in shared memory. *)
Definition qh_horizontal_link (qh : Z) := qh.
Definition qh_endpoint_characteristics (qh : Z) := qh + 4.
Definition qh_endpoint_capabilities (qh : Z) := qh + 8.
Definition qh_current_qtd (qh : Z) := qh + 12.
Definition qh_next_qtd (qh : Z) := qh + 16.
Definition qh_alternate_next_qtd (qh : Z) := qh + 20.
Definition qh_token (qh : Z) := qh + 24.
Definition qh_buffer (qh i : Z) := qh + 28 + 4 * i.
Definition qh_extended_buffer (qh i : Z) := qh + 48 + 4 * i.
Definition qtd_next (td : Z) := td.
Definition qtd_alternate_next (td : Z) := td + 4.
Definition qtd_token (td : Z) := td + 8.
Definition qtd_buffer (td i : Z) := td + 12 + 4 * i.
Definition qtd_extended_buffer (td i : Z) := td + 32 + 4 * i.

Definition no_dma : dma_ret := mkDma 0 0 0 0.

Record ehci_endpoint_state := mkEhciEndpoint {
  ep_device_address : Z;
  ep_endpoint_address : Z;
  ep_transfer_type : Z;
  ep_interval : Z;
  ep_speed : Z;
  ep_max_packet_size : Z;
  ep_mult : Z;
  scheduled : bool;
  ep_dma : dma_ret;
  ep_qh : Z;
  ep_qh_phys : Z;
  ep_dummy_qtd : Z;
  ep_dummy_qtd_phys : Z;
  ep_data_qtd : Z;
  ep_data_qtd_phys : Z;
  ep_buffer_phys : Z;
  ep_buffer : Z
}.
Definition ehci_endpoint_eta (e : ehci_endpoint_state) : ehci_endpoint_state :=
  mkEhciEndpoint (ep_device_address e) (ep_endpoint_address e) (ep_transfer_type e) (ep_interval e) (ep_speed e)
    (ep_max_packet_size e) (ep_mult e) (scheduled e) (ep_dma e) (ep_qh e) (ep_qh_phys e) (ep_dummy_qtd e)
    (ep_dummy_qtd_phys e) (ep_data_qtd e) (ep_data_qtd_phys e) (ep_buffer_phys e) (ep_buffer e).
Definition set_scheduled : (bool -> bool) -> ehci_endpoint_state -> ehci_endpoint_state :=
  ltac:(setter ehci_endpoint_eta scheduled).
Definition set_ep_dma : (dma_ret -> dma_ret) -> ehci_endpoint_state -> ehci_endpoint_state :=
  ltac:(setter ehci_endpoint_eta ep_dma).
Definition no_ehci_endpoint : ehci_endpoint_state := mkEhciEndpoint 0 0 0 0 0 0 0 false no_dma 0 0 0 0 0 0 0 0.

Definition ehci_interface_state := interface_state ehci_endpoint_state.
Definition ehci_address_state := address_state ehci_endpoint_state.

(** The object, with the file's two static variables at its end. [states] is the array that the heap
    holds at [states_at]. *)
Record ehci_controller := mkEhci {
  controller : usb_controller_t;
  ports : option (list usb_port_descriptor);
  ports_count : Z;
  Frame_list : Z;
  async_head : Z;
  async_head_phys : Z;
  states : list ehci_address_state;
  states_at : Z;
  state_count : Z;
  REQUESTED_BYTES : Z;
  next_usb_address : Z
}.
Definition ehci_eta (x : ehci_controller) : ehci_controller :=
  mkEhci (controller x) (ports x) (ports_count x) (Frame_list x) (async_head x) (async_head_phys x) (states x)
    (states_at x) (state_count x) (REQUESTED_BYTES x) (next_usb_address x).
Definition set_controller : (usb_controller_t -> usb_controller_t) -> ehci_controller -> ehci_controller :=
  ltac:(setter ehci_eta controller).
Definition set_ports : (option (list usb_port_descriptor) -> option (list usb_port_descriptor)) -> ehci_controller -> ehci_controller :=
  ltac:(setter ehci_eta ports).
Definition set_ports_count : (Z -> Z) -> ehci_controller -> ehci_controller := ltac:(setter ehci_eta ports_count).
Definition set_Frame_list : (Z -> Z) -> ehci_controller -> ehci_controller := ltac:(setter ehci_eta Frame_list).
Definition set_async_head : (Z -> Z) -> ehci_controller -> ehci_controller := ltac:(setter ehci_eta async_head).
Definition set_async_head_phys : (Z -> Z) -> ehci_controller -> ehci_controller := ltac:(setter ehci_eta async_head_phys).
Definition set_states : (list ehci_address_state -> list ehci_address_state) -> ehci_controller -> ehci_controller :=
  ltac:(setter ehci_eta states).
Definition set_states_at : (Z -> Z) -> ehci_controller -> ehci_controller := ltac:(setter ehci_eta states_at).
Definition set_state_count : (Z -> Z) -> ehci_controller -> ehci_controller := ltac:(setter ehci_eta state_count).
Definition set_REQUESTED_BYTES : (Z -> Z) -> ehci_controller -> ehci_controller := ltac:(setter ehci_eta REQUESTED_BYTES).
Definition set_next_usb_address : (Z -> Z) -> ehci_controller -> ehci_controller := ltac:(setter ehci_eta next_usb_address).

(** What the drivers share of it. *)
#[export] Instance ehci_keeper : Keeper ehci_controller ehci_endpoint_state.
Proof.
  refine {|
    kept x := mkKept (controller x) (states x) (states_at x) (state_count x) (next_usb_address x);
    keep f x := let k := f (mkKept (controller x) (states x) (states_at x) (state_count x) (next_usb_address x)) in
      mkEhci (kp_controller k) (ports x) (ports_count x) (Frame_list x) (async_head x) (async_head_phys x) (kp_states k)
        (kp_states_at k) (kp_state_count k) (REQUESTED_BYTES x) (kp_next_address k)
  |}.
  intros f x. cbn. by destruct (f _).
Defined.

(** [ehci_transfer_result] *)
Inductive ehci_transfer_result := success | timeout | transfer_error.
#[export] Instance ehci_transfer_result_eq_dec : EqDecision ehci_transfer_result.
Proof. solve_decision. Defined.

Record ehci_async_link_state := mkLink {
  previous : Z;
  inserted : Z;
  old_next : Z;
  linked : bool
}.

Section Ehci.
Context {W : Type} `{!IO W} `{!DmaOps W} `{!HeapOps W} `{!UsbHost W}.
Context (dev : device) (timer : TimerSource W).

Abbreviation ME := (M (driver W ehci_controller)).
Abbreviation wait := (wait timer).
Abbreviation test := (test dev).
Abbreviation await := (await dev timer).
Abbreviation await_for := (await_for dev timer).

(** [controller.io_base + cap_regs->cap_length] *)
Definition op_regs : ME Z :=
  base ← get (fun x => io_base (controller x)); cap_length ← r8 dev base; mret (u64 (base + cap_length)).

(** *** Bringing the controller up *)

(** The wait for the firmware to let go, of at most 1000 milliseconds. *)
Definition await_owner (address : pci_address_t) (eecp : Z) : ME unit :=
  while FUEL (fun ms_count =>
    v ← pci (pci_read8 dev address (eecp + 2));
    if v &&& 1 =? 0 then mret (inr ())
    else if ms_count =? 1000 then mret (inr ())
    else wait 1;; mret (inl (ms_count + 1))) 0.

(** The capability that hands the controller over; [false] when that fails. *)
Definition take_ownership (address : pci_address_t) (eecp : Z) : ME bool :=
  st ← pci (pci_write8 dev address (eecp + 3) 1);
  if negb (st =? PCI_STATUS_SUCCESS) then mret false
  else
    await_owner address eecp;;
    v ← pci (pci_read8 dev address (eecp + 2));
    if v &&& 1 =? 0 then
      st ← pci (pci_write32 dev address (eecp + 4) 0);
      mret (st =? PCI_STATUS_SUCCESS)
    else mret false.

(** The walk through the capabilities, from [eecp] on. *)
Definition find_ownership (address : pci_address_t) (eecp : Z) : ME bool :=
  while FUEL (fun eecp =>
    if eecp =? 0 then mret (inr true)
    else
      '(st, header) ← pci (pci_config_read dev address eecp 4 (Some 0));
      if negb (st =? PCI_STATUS_SUCCESS) then mret (inr false)
      else
        let header := default 0 header in
        let capability_id := header &&& 0xFF in
        let next := (header >>> 8) &&& 0xFF in
        if capability_id =? 1 then ok ← take_ownership address eecp; mret (inr ok)
        else mret (inl next)) eecp.

(** The queue head that the schedule starts from, and leads back to. *)
Definition fill_async_head (head phys : Z) : ME unit :=
  clear_memory head sizeof_ehci_qh;;
  w32 (qh_horizontal_link head) (phys ||| 0x02);;
  w32 (qh_endpoint_characteristics head) ((1 <<< 15) ||| (2 <<< 12) ||| (64 <<< 16));;
  w32 (qh_endpoint_capabilities head) 0;;
  w32 (qh_current_qtd head) 0;;
  w32 (qh_next_qtd head) 1;;
  w32 (qh_alternate_next_qtd head) 1;;
  w32 (qh_token head) 0.

(** Whether the frame index moves. *)
Definition frames_advance (op : Z) : ME Z :=
  before ← r32 dev (op + FRINDEX);
  moving ← while FUEL (fun elapsed =>
    if elapsed <? 100 then
      f ← r32 dev (op + FRINDEX);
      if f =? before then
        wait 1;;
        halted ← test (op + USBSTS) HCHalted;
        mret (if (halted : bool) then inr false else inl (elapsed + 1))
      else mret (inr true)
    else mret (inr true)) 0;
  if negb moving then mret 1
  else f ← r32 dev (op + FRINDEX); mret (if f =? before then 1 else 0).

(** The schedules run, and the ports belong to this controller. *)
Definition start_controller (op : Z) : ME Z :=
  cmd ← r32 dev (op + USBCMD);
  w32 (op + USBCMD) ((cmd &&& u32 (Z.lnot ((1 <<< 4) ||| (1 <<< 5)))) ||| (1 <<< 4) ||| (1 <<< 5) ||| 1);;
  w32 (op + config_flag) 1;;
  await (op + USBSTS) HCHalted false 100;;
  halted ← test (op + USBSTS) HCHalted;
  if (halted : bool) then mret 1
  else
    await (op + USBSTS) ASS true 100;;
    running ← test (op + USBSTS) ASS;
    if negb running then mret 1 else frames_advance op.

(** The two lists of the schedules. *)
Definition build_schedules (op : Z) : ME Z :=
  PerFrameList ← allocate_dma 4096;
  if negb (ret_status PerFrameList =? 0) then mret 1
  else if physical_address PerFrameList >? 0xFFFFFFFF then mret 1
  else
    let fl := virtual_address PerFrameList in
    upd (set_Frame_list (fun _ => fl));;
    for_ 0 1024 (fun i _ => w32 (fl + 4 * i) 1) ();;
    w32 (op + PERIODICLISTBASE) (physical_address PerFrameList);;
    AsyncHeadAlloc ← allocate_dma 64;
    if negb (ret_status AsyncHeadAlloc =? 0) || (physical_address AsyncHeadAlloc >? 0xFFFFFFFF) ||
       negb (physical_address AsyncHeadAlloc &&& 0x1F =? 0) then mret 1
    else
      let head := virtual_address AsyncHeadAlloc in
      let phys := u32 (physical_address AsyncHeadAlloc) in
      upd (set_async_head (fun _ => head));;
      upd (set_async_head_phys (fun _ => phys));;
      fill_async_head head phys;;
      w32 (op + ASYNCLISTADDR) phys;;
      start_controller op.

Definition controller_init : ME Z :=
  upd (set_states (fun _ => []));;
  upd (set_states_at (fun _ => 0));;
  upd (set_state_count (fun _ => 0));;
  op ← op_regs;
  c ← get controller;
  hcc ← r32 dev (io_base c + cap_hcc_params);
  owned ← find_ownership (pci_address c) ((hcc >>> 8) &&& 0xFF);
  if negb owned then mret 1
  else
    cmd ← r32 dev (op + USBCMD);
    w32 (op + USBCMD) (cmd &&& u32 (Z.lnot 1));;
    await (op + USBSTS) HCHalted true 10;;
    halted ← test (op + USBSTS) HCHalted;
    if negb halted then mret 1
    else
      cmd ← r32 dev (op + USBCMD);
      w32 (op + USBCMD) (cmd ||| HCRESET);;
      await (op + USBCMD) HCRESET false 250;;
      resetting ← test (op + USBCMD) HCRESET;
      if (resetting : bool) then mret 1
      else
        w32 (op + USBINTR) 0;;
        w32 (op + USBSTS) 0x3F;;
        w32 (op + CTRLDSSEGMENT) 0;;
        build_schedules op.

(** *** Ports *)

Definition ehci_read_port (op_base port : Z) : ME Z := r32 dev (u64 (op_base + EHCI_PORTSC + (port <<< 2))).

Definition enumrate_ports : ME Z :=
  op_base ← op_regs;
  base ← get (fun x => io_base (controller x));
  hcs ← r32 dev (base + cap_hcs_params);
  let ehci_port_count := u8 (hcs &&& 0x0F) in
  p ← kmalloc (ehci_port_count * 24);
  upd (set_ports (fun _ => if p =? 0 then None
                           else Some (replicate (Z.to_nat ehci_port_count) (mkPort 0 false 0 0 None))));;
  if p =? 0 then mret (-1)
  else
    for_ 0 ehci_port_count (fun port _ =>
      status ← ehci_read_port op_base port;
      upd (set_ports (fmap (fun l => <[Z.to_nat port := mkPort (port + 1) (has status CCS) EHCI status None]> l)))) ();;
    mret ehci_port_count.

(** [*portsc = value; (void)*portsc;] *)
Definition set_portsc (portsc value : Z) : ME unit := w32 portsc value;; r32 dev portsc;; mret ().
Definition to_companion (portsc status : Z) : ME Z :=
  set_portsc portsc ((status &&& u32 (Z.lnot W1C_MASK) &&& u32 (Z.lnot PE)) ||| OWNER);;
  mret COMPANION_REQUIRED.

(** The wait for the reset to end: the answer to give up with, or whether it is complete. *)
Definition await_reset (portsc : Z) : ME (Z + bool) :=
  while FUEL (fun elapsed =>
    if elapsed <? 10 then
      status ← r32 dev portsc;
      if status =? 0xFFFFFFFF then mret (inr (inl INVALID_STATUS))
      else if negb (has status CCS) then mret (inr (inl NO_DEVICE))
      else if negb (has status PR) then mret (inr (inr true))
      else wait 1;; mret (inl (elapsed + 1))
    else mret (inr (inr false))) 0.

(** Behind the reset. *)
Definition reset_outcome (portsc : Z) : ME Z :=
  wait 10;;
  status ← r32 dev portsc;
  if status =? 0xFFFFFFFF then mret INVALID_STATUS
  else if negb (has status CCS) then mret NO_DEVICE
  else if has status PR then mret RESET_STILL_ASSERTED
  else if has status PE then mret RESET_SUCCESS
  else to_companion portsc status.

(** The reset itself. *)
Definition drive_reset (portsc status : Z) : ME Z :=
  set_portsc portsc ((status &&& u32 (Z.lnot W1C_MASK) &&& u32 (Z.lnot PE)) ||| PR);;
  wait 50;;
  status ← r32 dev portsc;
  if status =? 0xFFFFFFFF then mret INVALID_STATUS
  else if negb (has status CCS) then mret NO_DEVICE
  else
    set_portsc portsc (status &&& u32 (Z.lnot W1C_MASK) &&& u32 (Z.lnot (PE ||| PR)));;
    r ← await_reset portsc;
    match r with
    | inl answer => mret answer
    | inr false => mret RESET_STILL_ASSERTED
    | inr true => reset_outcome portsc
    end.

Definition reset_port (port : Z) : ME Z :=
  count ← get ports_count;
  if (port <? 1) || (port >? count) then mret INVALID_PORT
  else
    op ← op_regs;
    let portsc := u64 (op + EHCI_PORTSC + ((port - 1) <<< 2)) in
    halted ← test (op + USBSTS) HCHalted;
    if (halted : bool) then mret CONTROLLER_HALTED
    else
      status ← r32 dev portsc;
      if status =? 0xFFFFFFFF then mret INVALID_STATUS
      else if has status OWNER then mret COMPANION_REQUIRED
      else if negb (has status CCS) then mret NO_DEVICE
      else if has status FPR then mret PORT_BUSY
      else if negb (has status PE) && (status &&& LINE_MASK =? LINE_K) then to_companion portsc status
      else drive_reset portsc status.

Definition port_to_address (port : Z) : ME Z :=
  op_base ← op_regs; mret (u64 (op_base + EHCI_PORTSC + ((port - 1) <<< 2))).

Definition disable_port (port : Z) : ME Z :=
  count ← get ports_count;
  if (port <? 1) || (port >? count) then mret INVALID_PORT
  else
    portsc ← port_to_address port;
    value ← r32 dev portsc;
    if value =? 0xFFFFFFFF then mret INVALID_STATUS
    else
      set_portsc portsc (value &&& u32 (Z.lnot W1C_MASK) &&& u32 (Z.lnot PE));;
      await_for portsc PE false 100;;
      enabled ← test portsc PE;
      mret (if (enabled : bool) then RESET_FAILED else RESET_SUCCESS).

(** *** Waiting for a control transfer *)

Definition QTD_STATUS_ERROR_MASK := (1 <<< 6) ||| (1 <<< 5) ||| (1 <<< 4) ||| (1 <<< 3) ||| (1 <<< 2).
Definition qtd_active (token : Z) : bool := has token EHCI_QTD_ACTIVE.
Definition qtd_failed (token : Z) : bool := negb (qtd_active token) && has token QTD_STATUS_ERROR_MASK.
Definition qtd_remaining (token : Z) : Z := (token >>> 16) &&& 0x7FFF.

(** A null [data_td] is 0. *)
Definition token_or_none (td : Z) : ME Z := if td =? 0 then mret 0 else r32 dev (qtd_token td).

(** What the three tokens say: [None] while the transfer goes on. *)
Definition judge_tokens (setup data status : Z) (has_data : bool) (requested : Z) : option (ehci_transfer_result * Z) :=
  if qtd_failed setup || qtd_failed data || qtd_failed status then Some (transfer_error, 0)
  else if negb (qtd_active setup) && negb (qtd_active data) && negb (qtd_active status) then
    if has_data then
      if negb (qtd_remaining setup =? 0) then Some (transfer_error, 0)
      else if negb (qtd_remaining status =? 0) then Some (transfer_error, 0)
      else if qtd_remaining data >? requested then Some (transfer_error, 0)
      else Some (success, requested - qtd_remaining data)
    else Some (success, 0)
  else None.

(** The outcome, and the bytes received. *)
Definition wait_for_descriptor (setup_td data_td status_td : Z) : ME (ehci_transfer_result * Z) :=
  while FUEL (fun elapsed =>
    if elapsed <? 500 then
      setup_token ← r32 dev (qtd_token setup_td);
      status_token ← r32 dev (qtd_token status_td);
      data_token ← token_or_none data_td;
      requested ← get REQUESTED_BYTES;
      match judge_tokens setup_token data_token status_token (negb (data_td =? 0)) requested with
      | Some r => mret (inr r)
      | None => wait 1;; mret (inl (elapsed + 1))
      end
    else mret (inr (timeout, 0))) 0.

(** *** The asynchronous schedule *)

Definition insert_async_qh (head head_phys qh qh_phys : Z) : ME ehci_async_link_state :=
  first ← r32 dev (qh_horizontal_link head);
  again ← r32 dev (qh_horizontal_link head);
  w32 (qh_horizontal_link qh) again;;
  w32 (qh_horizontal_link head) (qh_phys ||| 0x02);;
  mret (mkLink head qh first true).

(** [a || b], where [b] is not read when [a] holds. *)
Definition or_else (a : bool) (b : ME bool) : ME bool := if a then mret true else b.

(** Ringing the doorbell, and the wait for the controller to have seen it. *)
Definition advance_async (regs : Z) : ME bool :=
  command ← r32 dev (regs + USBCMD);
  w32 (regs + USBCMD) (command ||| EHCI_USBCMD_IAAD);;
  r32 dev (regs + USBCMD);;
  while FUEL (fun elapsed =>
    if elapsed <? 100 then
      seen ← test (regs + USBSTS) EHCI_USBSTS_IAA;
      if (seen : bool) then w32 (regs + USBSTS) EHCI_USBSTS_IAA;; mret (inr true)
      else wait 1;; mret (inl (elapsed + 1))
    else mret (inr false)) 0.

(** The link state is not used any more afterwards. *)
Definition unlink_async_qh (regs : Z) (state : ehci_async_link_state) (qh setup_qtd data_qtd status_qtd : Z) : ME bool :=
  if negb (linked state) then mret true
  else
    data_token ← token_or_none data_qtd;
    active ← test (qh_token qh) EHCI_QTD_ACTIVE;
    active ← or_else active (test (qtd_token setup_qtd) EHCI_QTD_ACTIVE);
    active ← or_else (active || qtd_active data_token) (test (qtd_token status_qtd) EHCI_QTD_ACTIVE);
    if (active : bool) then mret false
    else
      ringing ← test (regs + USBCMD) EHCI_USBCMD_IAAD;
      if (ringing : bool) then mret false
      else
        w32 (regs + USBSTS) EHCI_USBSTS_IAA;;
        w32 (qh_horizontal_link (previous state)) (old_next state);;
        w32 (qh_horizontal_link qh) (old_next state);;
        advance_async regs.

(** A region whose queue head did not leave the schedule. *)
Definition quarantine (alloc : dma_ret) : ME unit := put_aside ((EHCI <<< 8) ||| LINK_ISSUE) alloc.
End Ehci.
