(* ===== verification/EhciRequests.v ===== *)
(** * EHCI: control requests and endpoints ([drivers/usb/ehci.cpp])

    Reading the first bytes of a device's descriptor, giving it an address, any control request, the
    states of a device's endpoints, and the driver as a host controller. A request is a queue head with
    its transfer descriptors in one region; a region that does not leave the schedule is kept. *)
From S2P Require Import KPrelude PortIO Pci Dma Timers UsbTypes UsbDesc Usb UsbDriver UsbStates Ehci.

Definition EHCI_LINK_TERMINATE := 1 <<< 0.
Definition EHCI_QTD_TOGGLE := 1 <<< 31.
Definition EHCI_QTD_BYTES (n : Z) : Z := u32 (u32 n <<< 16).
Definition EHCI_QTD_IOC := 1 <<< 15.
Definition EHCI_QTD_CERR (n : Z) : Z := n <<< 10.
Definition EHCI_QTD_PID_OUT := 0 <<< 8.
Definition EHCI_QTD_PID_IN := 1 <<< 8.
Definition EHCI_QTD_PID_SETUP := 2 <<< 8.
Definition EHCI_QH_MAX_PACKET (n : Z) : Z := n <<< 16.
Definition EHCI_QH_DTC := 1 <<< 14.
Definition EHCI_QH_HIGH_SPEED := 2 <<< 12.
Definition EHCI_QH_ENDPOINT (n : Z) : Z := n <<< 8.
Definition EHCI_QH_ADDRESS (n : Z) : Z := n.
Definition EHCI_QH_NAK_RELOAD (n : Z) : Z := n <<< 28.
Definition EHCI_QH_RL (v : Z) : Z := v <<< 28.
Definition EHCI_QH_MPS (v : Z) : Z := (v &&& 0x7FF) <<< 16.
Definition EHCI_QH_SPEED (v : Z) : Z := (v &&& 3) <<< 12.
Definition EHCI_QH_EP (v : Z) : Z := (v &&& 0xF) <<< 8.
Definition EHCI_QH_ADDR (v : Z) : Z := v &&& 0x7F.
Definition EHCI_SPEED_HIGH := 2.

Section Requests.
Context {W : Type} `{!IO W} `{!DmaOps W} `{!HeapOps W} `{!UsbHost W}.
Context (dev : device) (timer : TimerSource W).
(** What a new array of endpoint or interface states holds. *)
Context (stale_endpoint : ehci_endpoint_state) (stale_interface : ehci_interface_state).

Abbreviation ME := (M (driver W ehci_controller)).

(** A queue head or a descriptor, cleared, and its first words in the orders of the code. *)
Definition store_qh (qh characteristics next : Z) : ME unit :=
  w32 (qh_endpoint_characteristics qh) characteristics;;
  w32 (qh_endpoint_capabilities qh) 0;;
  w32 (qh_current_qtd qh) 0;;
  w32 (qh_next_qtd qh) next;;
  w32 (qh_alternate_next_qtd qh) EHCI_LINK_TERMINATE;;
  w32 (qh_token qh) 0.
Definition store_qtd (td next alternate token : Z) : ME unit :=
  clear_memory td sizeof_ehci_qtd;;
  w32 (qtd_next td) next;; w32 (qtd_alternate_next td) alternate;; w32 (qtd_token td) token.
Definition store_qtd_token (td token next alternate : Z) : ME unit :=
  clear_memory td sizeof_ehci_qtd;;
  w32 (qtd_token td) token;; w32 (qtd_next td) next;; w32 (qtd_alternate_next td) alternate.

(** The queue head goes into the schedule, the transfer is waited for, and the queue head is taken out:
    the outcome, the bytes received, and whether it is out. *)
Definition run_transfer (op qh qh_phys setup_qtd data_qtd status_qtd : Z) : ME (ehci_transfer_result * Z * bool) :=
  head ← get async_head;
  head_phys ← get async_head_phys;
  link_state ← insert_async_qh dev head head_phys qh qh_phys;
  '(result, received) ← wait_for_descriptor dev timer setup_qtd data_qtd status_qtd;
  unlinked ← unlink_async_qh dev timer op link_state qh setup_qtd data_qtd status_qtd;
  mret (result, received, unlinked).

(** *** [identify_device] *)

Definition FIRST_DESCRIPTOR : usb_setup_packet := mkSetup 0x80 0x06 0x0100 0x0000 8.

(** The structures in the region at [a], whose physical address is [p]. *)
Definition fill_identify (a p : Z) : ME unit :=
  let setup_qtd_phys := u32 (p + 96) in
  let data_qtd_phys := u32 (setup_qtd_phys + 64) in
  let status_qtd_phys := u32 (data_qtd_phys + 64) in
  store_setup (a + 288) FIRST_DESCRIPTOR;;
  clear_memory a sizeof_ehci_qh;;
  w32 (qh_horizontal_link a) 1;;
  w32 (qh_endpoint_characteristics a) ((0 <<< 0) ||| (0 <<< 8) ||| (2 <<< 12) ||| (1 <<< 14) ||| (64 <<< 16));;
  w32 (qh_endpoint_capabilities a) 0;;
  w32 (qh_current_qtd a) 0;;
  w32 (qh_alternate_next_qtd a) 1;;
  w32 (qh_token a) 0;;
  w32 (qh_next_qtd a) setup_qtd_phys;;
  store_qtd (a + 96) data_qtd_phys 1 ((2 <<< 8) ||| (3 <<< 10) ||| (8 <<< 16) ||| (1 <<< 7));;
  w32 (qtd_buffer (a + 96) 0) (p + 288);;
  store_qtd (a + 160) status_qtd_phys status_qtd_phys
    ((1 <<< 31) ||| (1 <<< 8) ||| (3 <<< 10) ||| (8 <<< 16) ||| (1 <<< 7));;
  w32 (qtd_buffer (a + 160) 0) (p + 296);;
  store_qtd (a + 224) 1 1 ((1 <<< 31) ||| (0 <<< 8) ||| (3 <<< 10) ||| (1 <<< 7)).

(** A region above 4 GiB is not given back here. *)
Definition identify_device (port : Z) : ME usb_device_descriptor :=
  upd (set_REQUESTED_BYTES (fun _ => 8));;
  op ← op_regs dev;
  alloc ← allocate_dma 320;
  if negb (ret_status alloc =? 0) || (physical_address alloc >? 0xFFFFFFFF) then mret no_descriptor
  else
    let a := virtual_address alloc in
    let p := physical_address alloc in
    fill_identify a p;;
    '(result, received, unlinked) ← run_transfer op a (u32 p) (a + 96) (a + 160) (a + 224);
    if negb unlinked then quarantine alloc;; mret no_descriptor
    else if negb (bool_decide (result = success)) then free_dma a;; mret no_descriptor
    else
      desc ← read_first dev (a + 296) received;
      free_dma a;;
      mret desc.

(** *** [set_address] *)

Definition ADDRESS_REQUEST (address : Z) : usb_setup_packet := mkSetup 0x00 0x05 address 0 0.
Definition DEVICE_REQUEST : usb_setup_packet := mkSetup 0x80 0x06 0x0100 0 18.

(** [for (i = from; i < 5; i++) { buffer[i] = 0; extended_buffer[i] = 0; }] *)
Definition clear_buffers (buffer extended : Z -> Z) (from : Z) : ME unit :=
  for_ from (5 - from) (fun i _ => w32 (buffer i) 0;; w32 (extended i) 0) ().

(** Queue head, two descriptors and the packet of SET_ADDRESS. *)
Definition fill_address (a p address : Z) : ME unit :=
  let setup_qtd_phys := u32 (u32 p + 96) in
  let status_qtd_phys := u32 (setup_qtd_phys + 64) in
  let setup_phys := u32 (status_qtd_phys + 64) in
  store_setup (a + 224) (ADDRESS_REQUEST address);;
  clear_memory a sizeof_ehci_qh;;
  store_qh a (EHCI_QH_NAK_RELOAD 4 ||| EHCI_QH_ADDRESS 0 ||| EHCI_QH_ENDPOINT 0 ||| EHCI_QH_HIGH_SPEED |||
              EHCI_QH_DTC ||| EHCI_QH_MAX_PACKET 64) setup_qtd_phys;;
  clear_buffers (qh_buffer a) (qh_extended_buffer a) 0;;
  store_qtd_token (a + 96) (EHCI_QTD_ACTIVE ||| EHCI_QTD_CERR 3 ||| EHCI_QTD_PID_SETUP ||| EHCI_QTD_BYTES 8)
    status_qtd_phys EHCI_LINK_TERMINATE;;
  w32 (qtd_buffer (a + 96) 0) setup_phys;;
  clear_buffers (qtd_buffer (a + 96)) (qtd_extended_buffer (a + 96)) 1;;
  w32 (qtd_extended_buffer (a + 96) 0) 0;;
  clear_memory (a + 160) sizeof_ehci_qtd;;
  w32 (qtd_token (a + 160)) (EHCI_QTD_ACTIVE ||| EHCI_QTD_CERR 3 ||| EHCI_QTD_PID_IN ||| EHCI_QTD_TOGGLE |||
                             EHCI_QTD_BYTES 0 ||| EHCI_QTD_IOC);;
  clear_buffers (qtd_buffer (a + 160)) (qtd_extended_buffer (a + 160)) 0;;
  w32 (qtd_next (a + 160)) EHCI_LINK_TERMINATE;;
  w32 (qtd_alternate_next (a + 160)) EHCI_LINK_TERMINATE.

(** Queue head, three descriptors and the packet of the request for all of the device descriptor. *)
Definition fill_device_request (a p address mps : Z) : ME unit :=
  let setup_qtd_phys := u32 (u32 p + 96) in
  let data_qtd_phys := u32 (setup_qtd_phys + 64) in
  let status_qtd_phys := u32 (data_qtd_phys + 64) in
  let setup_phys := u32 (status_qtd_phys + 64) in
  let desc_phys := u32 (setup_phys + 8) in
  store_setup (a + 288) DEVICE_REQUEST;;
  clear_memory a sizeof_ehci_qh;;
  w32 (qh_endpoint_characteristics a) (EHCI_QH_NAK_RELOAD 4 ||| EHCI_QH_ADDRESS address ||| EHCI_QH_ENDPOINT 0 |||
                                       EHCI_QH_HIGH_SPEED ||| EHCI_QH_DTC ||| EHCI_QH_MAX_PACKET mps);;
  w32 (qh_endpoint_capabilities a) 0;;
  w32 (qh_alternate_next_qtd a) EHCI_LINK_TERMINATE;;
  w32 (qh_next_qtd a) setup_qtd_phys;;
  w32 (qh_current_qtd a) 0;;
  w32 (qh_token a) 0;;
  store_qtd_token (a + 96) (EHCI_QTD_ACTIVE ||| EHCI_QTD_CERR 3 ||| EHCI_QTD_PID_SETUP ||| EHCI_QTD_BYTES 8)
    data_qtd_phys EHCI_LINK_TERMINATE;;
  w32 (qtd_buffer (a + 96) 0) setup_phys;;
  store_qtd_token (a + 160) (EHCI_QTD_ACTIVE ||| EHCI_QTD_CERR 3 ||| EHCI_QTD_PID_IN ||| EHCI_QTD_TOGGLE ||| EHCI_QTD_BYTES 18)
    status_qtd_phys status_qtd_phys;;
  w32 (qtd_buffer (a + 160) 0) desc_phys;;
  store_qtd_token (a + 224) (EHCI_QTD_ACTIVE ||| EHCI_QTD_CERR 3 ||| EHCI_QTD_PID_OUT ||| EHCI_QTD_TOGGLE |||
                             EHCI_QTD_BYTES 0 ||| EHCI_QTD_IOC) EHCI_LINK_TERMINATE EHCI_LINK_TERMINATE.

(** The request for all of the descriptor, when the device has its address. *)
Definition request_descriptor (device : usb_device) (desc : usb_device_descriptor) (address port op : Z) : ME usb_device :=
  alloc ← allocate_dma 314;
  if negb (ret_status alloc =? 0) then mret device
  else
    let a := virtual_address alloc in
    let p := physical_address alloc in
    if p >? 0xFFFFFFFF then free_dma a;; mret device
    else
      fill_device_request a p address (bMaxPacketSize0 desc);;
      '(result, received, unlinked) ← run_transfer op a (u32 p) (a + 96) (a + 160) (a + 224);
      if negb unlinked then quarantine alloc;; mret device
      else if negb (bool_decide (result = success)) then device_request_failed (reset_port dev timer port) device a address
      else
        full ← read_descriptor dev (a + 296) received;
        free_dma a;;
        mret (set_discovered (fun _ => bool_decide (is_Some full))
                (set_dev_descriptor (fun _ => default desc full) device)).

(** The caller's [desc] is overwritten as well; nobody reads it afterwards. [discovered] is false until
    the end. *)
Definition set_address (desc : usb_device_descriptor) (port : Z) : ME usb_device :=
  if negb (bLength desc =? 18) || negb (bDescriptorType desc =? 1) || negb (bMaxPacketSize0 desc =? 64)
  then mret no_device
  else
    upd (set_REQUESTED_BYTES (fun _ => 18));;
    op ← op_regs dev;
    alloc ← allocate_dma 232;
    if negb (ret_status alloc =? 0) then mret no_device
    else
      let a := virtual_address alloc in
      let p := physical_address alloc in
      if p >? 0xFFFFFFFF then free_dma a;; mret no_device
      else
        address ← allocate_usb_address;
        if address =? 0 then free_dma a;; mret no_device
        else
          fill_address a p address;;
          '(result, _, unlinked) ← run_transfer op a (u32 p) (a + 96) 0 (a + 160);
          if negb unlinked then quarantine alloc;; mret no_device
          else if negb (bool_decide (result = success)) then
            upd_kept (set_kp_next_address (fun _ => address));; free_dma a;; mret no_device
          else
            wait timer 2;;
            free_dma a;;
            request_descriptor (set_dev_address (fun _ => address) no_device) desc address port op.

(** *** [usb_send_packet] *)

(** Offsets in a region for a request of [length] bytes. *)
Definition status_at (length : Z) : Z := if length >? 0 then 224 else 160.
Definition setup_at (length : Z) : Z := status_at length + 64.

(** The descriptor of the data stage. *)
Definition fill_data (td phys status_phys length data_phys : Z) (data_in : bool) : ME unit :=
  store_qtd td status_phys (if data_in then status_phys else EHCI_LINK_TERMINATE)
    (EHCI_QTD_TOGGLE ||| EHCI_QTD_BYTES length ||| EHCI_QTD_CERR 3 |||
     (if data_in then EHCI_QTD_PID_IN else EHCI_QTD_PID_OUT) ||| EHCI_QTD_ACTIVE);;
  w32 (qtd_buffer td 0) data_phys;;
  let bytes_to_page_end := 4096 - (data_phys &&& 4095) in
  if length >? bytes_to_page_end then w32 (qtd_buffer td 1) (u32 (data_phys + 4095) &&& u32 (Z.lnot 4095)) else mret ().

Definition fill_request (a p : Z) (packet : usb_setup_packet) (mps length address : Z) : ME unit :=
  let setup_td_phys := u32 (u32 p + 96) in
  let data_td_phys := if length >? 0 then u32 (setup_td_phys + 64) else 0 in
  let status_td_phys := if length >? 0 then u32 (data_td_phys + 64) else u32 (setup_td_phys + 64) in
  let setup_phys := u32 (status_td_phys + 64) in
  let data_phys := u32 (setup_phys + sizeof_usb_setup_packet) in
  let status_td := a + status_at length in
  let setup := a + setup_at length in
  store_setup setup packet;;
  store_qtd (a + 96) (if length =? 0 then status_td_phys else data_td_phys) EHCI_LINK_TERMINATE
    (EHCI_QTD_BYTES 8 ||| EHCI_QTD_CERR 3 ||| EHCI_QTD_PID_SETUP ||| EHCI_QTD_ACTIVE);;
  w32 (qtd_buffer (a + 96) 0) setup_phys;;
  request_type ← r8 dev setup;
  let data_in := has request_type 0x80 in
  (if length >? 0 then fill_data (a + 160) data_td_phys status_td_phys length data_phys data_in else mret ());;
  request_length ← r16 dev (setup + 6);
  let status_in := (request_length =? 0) || negb data_in in
  store_qtd status_td EHCI_LINK_TERMINATE EHCI_LINK_TERMINATE
    (EHCI_QTD_TOGGLE ||| EHCI_QTD_BYTES 0 ||| EHCI_QTD_CERR 3 |||
     (if status_in then EHCI_QTD_PID_IN else EHCI_QTD_PID_OUT) ||| EHCI_QTD_ACTIVE);;
  clear_memory a sizeof_ehci_qh;;
  store_qh a (EHCI_QH_RL 4 ||| EHCI_QH_ADDR address ||| EHCI_QH_EP 0 ||| EHCI_QH_SPEED EHCI_SPEED_HIGH ||| EHCI_QH_DTC |||
              EHCI_QH_MPS mps) setup_td_phys.

Definition usb_send_packet (packet : usb_setup_packet) (maxpacketsize length address port : Z) : ME packet_reply :=
  if (maxpacketsize =? 0) || negb (length =? wLength packet) || (length >? 4096) ||
     (negb (length =? 0) && negb (has (BmRequestType packet) IN)) then mret NoReply
  else
    upd (set_REQUESTED_BYTES (fun _ => u32 length));;
    op ← op_regs dev;
    alloc ← allocate_dma (sizeof_ehci_qh + sizeof_ehci_qtd * (if length >? 0 then 3 else 2) + length + 8);
    if negb (ret_status alloc =? 0) then mret NoReply
    else
      let a := virtual_address alloc in
      let p := physical_address alloc in
      if p >? 0xFFFFFFFF then free_dma a;; mret NoReply
      else
        fill_request a p packet maxpacketsize length address;;
        '(result, _, unlinked) ← run_transfer op a (u32 p) (a + 96) (if length >? 0 then a + 160 else 0) (a + status_at length);
        if negb unlinked then quarantine alloc;; mret NoReply
        else if negb (bool_decide (result = success)) then free_dma a;; mret NoReply
        else wait timer 2;; take_reply dev a (a + setup_at length + 8) length.

(** *** [configure_endpoints] *)

(** The memory of the endpoint is left as it is. *)
Definition configure_endpoint (device : usb_device) (endpoint_index interface_index : Z) : ME ehci_endpoint_state :=
  ifs ← of_option (interfaces device);
  it ← of_option (array_get ifs interface_index);
  es ← of_option (endpoints it);
  e ← of_option (array_get es endpoint_index);
  alloc ← allocate_dma (sizeof_ehci_qh + (sizeof_ehci_qtd <<< 1) + max_packet_size e);
  if negb (ret_status alloc =? 0) then mret (set_ep_dma (fun _ => alloc) no_ehci_endpoint)
  else if physical_address alloc >? 0xFFFFFFFF then
    free_dma (virtual_address alloc);;
    mret (set_ep_dma (fun _ => mkDma 1 (ret_pages alloc) (virtual_address alloc) (physical_address alloc)) no_ehci_endpoint)
  else
    let a := virtual_address alloc in
    let raw := wMaxPacketSize (ep_descriptor e) in
    let qh_phys := u32 (physical_address alloc) in
    let dummy_qtd_phys := u32 (qh_phys + sizeof_ehci_qh) in
    mret (mkEhciEndpoint (dev_address device) (ep_address e) (transfer_type e) (interval e) (dev_speed device)
            (max_packet_size e) ((raw >>> 11) &&& 0x03) false alloc a qh_phys (a + 96) dummy_qtd_phys
            (a + 96 + 64) (u32 (dummy_qtd_phys + 64)) (u32 (dummy_qtd_phys + 128)) (a + 96 + 128)).

Definition configure_endpoints (device : usb_device) (bConfigurationValue maxpacketsize address : Z) : ME Z :=
  configure_states stale_endpoint stale_interface sizeof_ehci_endpoint_state ep_dma configure_endpoint device.

(** *** [link_qh] *)

(** A bulk endpoint's queue head goes in front of the others while the schedule stands still: the
    answer, and the endpoint as it is then. *)
Definition link_qh (ep : ehci_endpoint_state) : ME (bool * ehci_endpoint_state) :=
  if (ep_qh ep =? 0) || scheduled ep || negb (ep_transfer_type ep =? 2) then mret (false, ep)
  else
    op ← op_regs dev;
    cmd ← r32 dev (op + USBCMD);
    let ase := cmd &&& 0x20 in
    await_for dev timer (op + USBSTS) ASS true 100;;
    running ← test dev (op + USBSTS) ASS;
    if negb running then mret (false, ep)
    else
      cmd ← r32 dev (op + USBCMD);
      w32 (op + USBCMD) (cmd &&& u32 (Z.lnot ase));;
      await_for dev timer (op + USBSTS) ASS false 100;;
      running ← test dev (op + USBSTS) ASS;
      if (running : bool) then mret (false, ep)
      else
        head ← get async_head;
        first ← r32 dev (qh_horizontal_link head);
        w32 (qh_horizontal_link (ep_qh ep)) first;;
        w32 (qh_horizontal_link head) (ep_qh_phys ep ||| 0x02);;
        cmd ← r32 dev (op + USBCMD);
        w32 (op + USBCMD) (cmd ||| ase);;
        await_for dev timer (op + USBSTS) ASS true 100;;
        running ← test dev (op + USBSTS) ASS;
        mret (running, set_scheduled (fun _ => true) ep).

(** ** The driver as a host controller *)

Definition ehci_host : HostController (driver W ehci_controller) := {|
  hc_class_code := 0x0C;
  hc_subclass := 0x03;
  hc_prog_if := 0x20;
  hc_type := MMIO;
  hc_controller s := controller (obj s);
  hc_set_controller f s := mkDriver (world s) (set_controller f (obj s));
  hc_ports s := ports (obj s);
  hc_set_ports f s := mkDriver (world s) (set_ports f (obj s));
  hc_ports_count s := ports_count (obj s);
  hc_set_ports_count n s := mkDriver (world s) (set_ports_count (fun _ => n) (obj s));
  Usb.controller_init := Ehci.controller_init dev timer;
  Usb.enumrate_ports := Ehci.enumrate_ports dev;
  Usb.reset_port := Ehci.reset_port dev timer;
  Usb.identify_device := identify_device;
  Usb.set_address := set_address;
  Usb.usb_send_packet := usb_send_packet;
  Usb.configure_endpoints := configure_endpoints;
  scan_ports_override := None
|}.

(** [ehci_controller::ehci_controller] *)
Definition ehci_construct : ME Z :=
  upd (set_controller (fun _ => mkController false false [] 0 (mkAddr 0 0 0 0) no_bar 0 0 0 0 0));;
  construct_controller (HostController0 := ehci_host) dev.
End Requests.
