(* ===== verification/EhciSafe.v ===== *)
(** * EHCI: the driver keeps the contract of a host controller

    Over any world that keeps [WorldLaws] and with any controller, the methods that [get_device]
    calls end without a fault. What they borrow they give back, except the regions of requests that did
    not leave the schedule: those stay with the driver for good. *)
From S2P Require Import KPrelude PortIO Pci Dma Timers UsbTypes UsbDesc UsbDescProofs Usb UsbProofs UsbDriver UsbWorld UsbStates UsbKeep Ehci EhciRequests.

Section Calm.
Context {W : Type} `{!IO W} `{!HeapOps W} `{!DmaOps W} `{!UsbHost W} (timer : TimerSource W) `{!WorldLaws W timer}.
Context (dev : device).

Abbreviation ME := (M (driver W ehci_controller)).
Abbreviation quiet m := (calm timer m (fun _ => True)).

Lemma calm_esetup a p : quiet (store_setup a p : ME unit).
Proof. apply calm_setup. Qed.

Ltac calm_known ::= lazymatch goal with
  | |- calm _ (wait _ _) _ => apply (calm_waiting timer); lia
  end.

Lemma calm_op_regs : quiet (op_regs dev : ME Z).
Proof. unfold op_regs. calm_go. Qed.

Ltac calm_known ::= lazymatch goal with
  | |- calm _ (wait _ _) _ => apply (calm_waiting timer); lia
  | |- calm _ (test _ _ _) _ => apply (calm_test timer dev)
  | |- calm _ (op_regs _) _ => apply calm_op_regs
  end.

Lemma calm_set_portsc r v : quiet (set_portsc dev r v : ME unit).
Proof. unfold set_portsc. calm_go. Qed.
Lemma calm_to_companion r v : quiet (to_companion dev r v : ME Z).
Proof. unfold to_companion. eapply calm_then; [apply calm_set_portsc|intros; by apply calm_ret]. Qed.
Lemma calm_await_reset r : quiet (await_reset dev timer r : ME (Z + bool)).
Proof.
  unfold await_reset. apply (calm_while _ _ _ (fun e => 0 <= e <= 10) _ (fun e => 10 - e)); [lia|unfold FUEL; lia|].
  intros e He. calm_go; apply Z.ltb_lt in E; lia.
Qed.

Ltac calm_known ::= lazymatch goal with
  | |- calm _ (wait _ _) _ => apply (calm_waiting timer); lia
  | |- calm _ (test _ _ _) _ => apply (calm_test timer dev)
  | |- calm _ (op_regs _) _ => apply calm_op_regs
  | |- calm _ (set_portsc _ _ _) _ => apply calm_set_portsc
  | |- calm _ (to_companion _ _ _) _ => apply calm_to_companion
  | |- calm _ (await_reset _ _ _) _ => apply calm_await_reset
  end.

Lemma calm_ehci_reset port : quiet (reset_port dev timer port : ME Z).
Proof. unfold reset_port, drive_reset, reset_outcome. calm_go. Qed.

(** *** A transfer *)

Lemma calm_token td : quiet (token_or_none dev td : ME Z).
Proof. unfold token_or_none. calm_go. Qed.

Lemma calm_wait_descriptor setup data status : quiet (wait_for_descriptor dev timer setup data status : ME (ehci_transfer_result * Z)).
Proof.
  unfold wait_for_descriptor. apply (calm_while _ _ _ (fun e => 0 <= e <= 500) _ (fun e => 500 - e)); [lia|unfold FUEL; lia|].
  intros e He. destruct (Z.ltb_spec e 500); [|by apply calm_ret]. unfold r32, mmio_read.
  eapply calm_then; [apply calm_look; lia|intros t1]. eapply calm_then; [apply calm_look; lia|intros t2].
  eapply calm_then; [apply calm_token|intros t3]. eapply calm_then; [by apply (calm_gets _ _ (fun _ => True))|intros n].
  destruct (judge_tokens _ _ _ _ _); [by apply calm_ret|]. eapply calm_then; [apply (calm_waiting timer); lia|intros _]. apply calm_ret. lia.
Qed.

Lemma calm_insert head phys qh qh_phys : quiet (insert_async_qh dev head phys qh qh_phys : ME ehci_async_link_state).
Proof. unfold insert_async_qh. calm_go. Qed.

Lemma calm_advance regs : quiet (advance_async dev timer regs : ME bool).
Proof.
  unfold advance_async. calm_io. eapply calm_then; [apply calm_look; lia|intros v]. eapply calm_then; [apply calm_write|intros _].
  eapply calm_then; [apply calm_look; lia|intros _].
  apply (calm_while _ _ _ (fun e => 0 <= e <= 100) _ (fun e => 100 - e)); [lia|unfold FUEL; lia|].
  intros e He. calm_go; apply Z.ltb_lt in E; lia.
Qed.

Lemma calm_or_else b (m : ME bool) : quiet m -> quiet (or_else b m).
Proof. intros Hm. unfold or_else. destruct b; [by apply calm_ret|done]. Qed.

Lemma calm_unlink regs st qh setup data status : quiet (unlink_async_qh dev timer regs st qh setup data status : ME bool).
Proof.
  unfold unlink_async_qh. destruct (negb (Ehci.linked st)); [by apply calm_ret|].
  eapply calm_then; [apply calm_token|intros t]. eapply calm_then; [apply (calm_test timer dev)|intros b1].
  eapply calm_then; [apply calm_or_else, (calm_test timer dev)|intros b2]. eapply calm_then; [apply calm_or_else, (calm_test timer dev)|intros b3].
  destruct b3; [by apply calm_ret|]. eapply calm_then; [apply (calm_test timer dev)|intros b4]. destruct b4; [by apply calm_ret|].
  calm_io. eapply calm_then; [apply calm_write|intros _]. eapply calm_then; [apply calm_write|intros _].
  eapply calm_then; [apply calm_write|intros _]. apply calm_advance.
Qed.

Lemma calm_run op qh phys setup data status :
  quiet (run_transfer dev timer op qh phys setup data status : ME (ehci_transfer_result * Z * bool)).
Proof.
  unfold run_transfer. eapply calm_then; [by apply (calm_gets _ _ (fun _ => True))|intros head].
  eapply calm_then; [by apply (calm_gets _ _ (fun _ => True))|intros head_phys].
  eapply calm_then; [apply calm_insert|intros st]. eapply calm_then; [apply calm_wait_descriptor|intros [res got]].
  eapply calm_then; [apply calm_unlink|intros; by apply calm_ret].
Qed.

(** *** Building requests *)

Lemma calm_store_qh qh c n : quiet (store_qh qh c n : ME unit).
Proof. unfold store_qh. calm_go. Qed.
Lemma calm_store_qtd td n a t : quiet (store_qtd td n a t : ME unit).
Proof. unfold store_qtd. calm_go. Qed.
Lemma calm_store_qtd_token td n a t : quiet (store_qtd_token td n a t : ME unit).
Proof. unfold store_qtd_token. calm_go. Qed.
Lemma calm_clear_buffers b e i : quiet (clear_buffers b e i : ME unit).
Proof. unfold clear_buffers. apply (calm_rounds timer). intros j []. calm_go. Qed.

Ltac calm_known ::= lazymatch goal with
  | |- calm _ (store_setup _ _) _ => apply calm_esetup
  | |- calm _ (store_qh _ _ _) _ => apply calm_store_qh
  | |- calm _ (store_qtd _ _ _ _) _ => apply calm_store_qtd
  | |- calm _ (store_qtd_token _ _ _ _) _ => apply calm_store_qtd_token
  | |- calm _ (clear_buffers _ _ _) _ => apply calm_clear_buffers
  end.

Lemma calm_ehci_fill_identify a p : quiet (fill_identify a p : ME unit).
Proof. unfold fill_identify. calm_go. Qed.
Lemma calm_ehci_fill_address a p n : quiet (fill_address a p n : ME unit).
Proof. unfold fill_address. calm_go. Qed.
Lemma calm_ehci_fill_device_request a p n mps : quiet (fill_device_request a p n mps : ME unit).
Proof. unfold fill_device_request. calm_go. Qed.
Lemma calm_ehci_fill_data td p sp n d i : quiet (fill_data td p sp n d i : ME unit).
Proof. unfold fill_data. calm_go. Qed.
Lemma calm_ehci_fill_request a p packet mps n address : quiet (fill_request dev a p packet mps n address : ME unit).
Proof. unfold fill_request. calm_go; apply calm_ehci_fill_data. Qed.
End Calm.

Section Safe.
Context {W : Type} `{!IO W} `{!HeapOps W} `{!DmaOps W} `{!UsbHost W} (timer : TimerSource W) `{!WorldLaws W timer}.
Context (dev : device) (stale_endpoint : ehci_endpoint_state) (stale_interface : ehci_interface_state).

Abbreviation ME := (M (driver W ehci_controller)).
Abbreviation post A := (A -> driver W ehci_controller -> Prop).
Abbreviation K := (K (O := ehci_controller) timer).

(** *** The requests *)

(** The next operation is calm, by a lemma; or a service. *)
Ltac pass lem := apply wp_bind; eapply (K_calm timer _ _ _ _ _ _ _ _ _ _ lem); [eassumption|cbn beta].
Ltac give_back := apply wp_bind; eapply (K_free timer); [eassumption|].

(** The number of bytes that are asked for. *)
Lemma K_requested v (Q : post unit) L E n c k x s : K L E n c k x s ->
  (forall s', K L E n c k x s' -> Q () s') -> wp (upd (set_REQUESTED_BYTES v)) Q s.
Proof.
  intros H HQ. eapply (K_upd timer); [exact H|done|done|]. intros s' H' _. apply HQ.
  pose proof (K_next timer _ _ _ _ _ _ _ H) as En. cbn in En, H'. by rewrite En in H'.
Qed.
Lemma wp_ehci_identify port L n c k x s : K L [] n c k x s ->
  wp (identify_device dev timer port) (fun _ => K L [] n c k x) s.
Proof.
  intros H. unfold identify_device. apply wp_bind. eapply K_requested; [exact H|]. intros s1 H1.
  pass (calm_op_regs timer dev). intros op s2 H2 _ _.
  apply wp_bind. eapply (K_region timer); [exact H2| |]; intros r s3 Hr H3 _; [rewrite Hr|rewrite (proj2 (Z.eqb_neq _ _) Hr)];
    cbn [Z.eqb negb orb]; [|by apply wp_ret].
  destruct (_ >? _); [apply wp_ret; by eapply (K_own timer [] [_])|].
  pass (calm_ehci_fill_identify timer (virtual_address r) (physical_address r)). intros _ s4 H4 _ _.
  pass (calm_run timer dev op (virtual_address r) (u32 (physical_address r)) (virtual_address r + 96) (virtual_address r + 160) (virtual_address r + 224)).
  intros [[res got] out] s5 H5 _ _. destruct out; cbn [negb].
  - case_bool_decide as Hres; cbn [negb]; [|give_back; intros s6 H6 _; by apply wp_ret].
    pass (calm_first_bytes (O := ehci_controller) timer dev (virtual_address r + 296) got). intros d s6 H6 _ _. give_back. intros s7 H7 _. by apply wp_ret.
  - apply wp_bind. eapply (K_aside timer); [exact H5|]. intros s6 H6. by apply wp_ret.
Qed.

(** *** [set_address] *)

Lemma wp_ehci_request_descriptor d desc port op L n c k x s : K L [] (n + 1) c k x s -> 1 <= n <= 127 -> interfaces d = None ->
  wp (request_descriptor dev timer d desc n port op) (address_post timer L n c k x) s.
Proof.
  intros H Hn Hd. unfold request_descriptor.
  assert (forall d s', K L [] (n + 1) c k x s' -> interfaces d = None -> address_post timer L n c k x d s') as Hkept
    by (intros d' s' H' Hd'; eapply (post_at timer); [exact H'|by right|done|done]).
  apply wp_bind. eapply (K_region timer); [exact H| |]; intros r s1 Hr H1 _; [rewrite Hr|rewrite (proj2 (Z.eqb_neq _ _) Hr)];
    cbn [Z.eqb negb]; [|by apply wp_ret, Hkept].
  destruct (_ >? _); [give_back; intros s2 H2 _; by apply wp_ret, Hkept|].
  pass (calm_ehci_fill_device_request timer (virtual_address r) (physical_address r) n (bMaxPacketSize0 desc)). intros _ s2 H2 _ _.
  pass (calm_run timer dev op (virtual_address r) (u32 (physical_address r)) (virtual_address r + 96) (virtual_address r + 160) (virtual_address r + 224)).
  intros [[res got] out] s3 H3 _ _. destruct out; cbn [negb].
  - case_bool_decide as Hres; cbn [negb]; [|apply (wp_device_failed timer); [apply (calm_ehci_reset timer dev)|done..]].
    pass (calm_full_descriptor (O := ehci_controller) timer dev (virtual_address r + 296) got). intros full s4 H4 _ _. give_back. intros s5 H5 _. by apply wp_ret, Hkept.
  - apply wp_bind. eapply (K_aside timer); [exact H3|]. intros s4 H4. by apply wp_ret, Hkept.
Qed.

Lemma wp_ehci_set_address desc port L n c k x s : K L [] n c k x s -> 1 <= n <= 128 ->
  wp (set_address dev timer desc port) (address_post timer L n c k x) s.
Proof.
  intros H Hn. unfold set_address.
  assert (forall s', K L [] n c k x s' -> address_post timer L n c k x no_device s') as Hsame
    by (intros s' H'; exists n; by split_and!; (done || lia)).
  destruct (negb (bLength desc =? 18)); cbn [orb]; [by apply wp_ret, Hsame|].
  destruct (negb (bDescriptorType desc =? 1)); cbn [orb]; [by apply wp_ret, Hsame|].
  destruct (negb _); [by apply wp_ret, Hsame|].
  apply wp_bind. eapply K_requested; [exact H|]. intros s1 H1. pass (calm_op_regs timer dev). intros op s2 H2 _ _.
  apply wp_bind. eapply (K_region timer); [exact H2| |]; intros r s3 Hr H3 _; [rewrite Hr|rewrite (proj2 (Z.eqb_neq _ _) Hr)];
    cbn [Z.eqb negb]; [|by apply wp_ret, Hsame].
  destruct (_ >? _); [give_back; intros s4 H4 _; by apply wp_ret, Hsame|].
  apply wp_bind. eapply (K_take_address timer); [exact H3|done| |].
  { intros _. cbn [Z.eqb]. give_back. intros s4 H4 _. by apply wp_ret, Hsame. }
  intros s4 H4 Hn127. rewrite (proj2 (Z.eqb_neq n 0)) by lia.
  assert (forall s', K L [] (n + 1) c k x s' -> address_post timer L n c k x no_device s') as Hkept
    by (intros s' H'; eapply (post_at timer); [exact H'|by right|lia|done]).
  pass (calm_ehci_fill_address timer (virtual_address r) (physical_address r) n). intros _ s5 H5 _ _.
  pass (calm_run timer dev op (virtual_address r) (u32 (physical_address r)) (virtual_address r + 96) 0 (virtual_address r + 160)).
  intros [[res got] out] s6 H6 _ _. destruct out; cbn [negb].
  - case_bool_decide as Hres; cbn [negb].
    + pass (calm_waiting (O := ehci_controller) timer 2 ltac:(lia)). intros _ s7 H7 _ _. give_back. intros s8 H8 _.
      apply wp_ehci_request_descriptor; [done|lia|done].
    + apply wp_bind. eapply (K_address timer); [exact H6|]. intros s7 H7. give_back. intros s8 H8 _. by apply wp_ret, Hsame.
  - apply wp_bind. eapply (K_aside timer); [exact H6|]. intros s7 H7. by apply wp_ret, Hkept.
Qed.

(** *** [usb_send_packet] *)

Lemma wp_ehci_send packet mps len address port L n c k x s : K L [] n c k x s -> 0 <= len ->
  wp (usb_send_packet dev timer packet mps len address port) (reply_post timer L n c k x len) s.
Proof.
  intros H Hn. unfold usb_send_packet.
  assert (forall s', K L [] n c k x s' -> reply_post timer L n c k x len NoReply s') as Hno by done.
  destruct (_ || _); [by apply wp_ret, Hno|].
  apply wp_bind. eapply K_requested; [exact H|]. intros s1 H1. pass (calm_op_regs timer dev). intros op s2 H2 _ _.
  apply wp_bind. eapply (K_region timer); [exact H2| |]; intros r s3 Hr H3 _; [rewrite Hr|rewrite (proj2 (Z.eqb_neq _ _) Hr)];
    cbn [Z.eqb negb]; [|by apply wp_ret, Hno].
  destruct (physical_address r >? 0xFFFFFFFF); [give_back; intros s4 H4 _; by apply wp_ret, Hno|].
  pass (calm_ehci_fill_request timer dev (virtual_address r) (physical_address r) packet mps len address). intros _ s4 H4 _ _.
  pass (calm_run timer dev op (virtual_address r) (u32 (physical_address r)) (virtual_address r + 96)
    (if len >? 0 then virtual_address r + 160 else 0) (virtual_address r + status_at len)).
  intros [[res got] out] s5 H5 _ _. destruct out; cbn [negb].
  - case_bool_decide as Hres; cbn [negb]; [|give_back; intros s6 H6 _; by apply wp_ret, Hno].
    pass (calm_waiting (O := ehci_controller) timer 2 ltac:(lia)). intros _ s6 H6 _ _. by apply (wp_reply timer).
  - apply wp_bind. eapply (K_aside timer); [exact H5|]. intros s6 H6. by apply wp_ret, Hno.
Qed.

(** *** Endpoints *)

(** An endpoint's region stays with the driver. *)
Lemma wp_ehci_endpoint d i m ds it es L n c k x s : K L [] n c k x s -> interfaces d = Some ds -> 0 <= i ->
  ds !! Z.to_nat i = Some it -> endpoints it = Some es -> 0 <= m < Z.of_nat (length es) ->
  wp (configure_endpoint d m i) (fun _ s' => K L [] n c k x s' /\ kept (obj s') = kept (obj s)) s.
Proof.
  intros H Ed Hi Ei Ee Hm. unfold configure_endpoint. destruct (array_get_Some es m Hm) as (e & Eg & _).
  rewrite !wp_bind, Ed. apply wp_ret. rewrite !wp_bind, (array_get_of _ _ _ Hi Ei). apply wp_ret. rewrite !wp_bind, Ee. apply wp_ret.
  rewrite !wp_bind, Eg. apply wp_ret.
  rewrite wp_bind. eapply (K_region timer); [exact H| |]; intros r s2 Hr H2 E2; [rewrite Hr|rewrite (proj2 (Z.eqb_neq _ _) Hr)];
    cbn [Z.eqb negb]; [|apply wp_ret; by rewrite E2].
  destruct (_ >? _).
  - apply wp_bind. eapply (K_free timer); [exact H2|]. intros s3 H3 E3. apply wp_ret. split; [done|congruence].
  - apply wp_ret. split; [by eapply (K_own timer [] [_])|by rewrite E2].
Qed.

(** ** The contract *)

Lemma ehci_methods : methods_ok timer (ehci_host dev timer stale_endpoint stale_interface).
Proof.
  constructor.
  - done.
  - intros f s. by eexists.
  - intros port L n c k x s H. eapply (K_calm timer); [apply (calm_ehci_reset timer dev)|exact H|]. by intros r s' H' _ _.
  - intros port L n c k x s H. by apply wp_ehci_identify.
  - intros desc port L n c k x s H Hn. by apply wp_ehci_set_address.
  - intros packet mps len address port L n c k x s H Hl. by apply wp_ehci_send.
  - intros d value mps address L n c k x s H Hc Hd.
    change (wp (EhciRequests.configure_endpoints stale_endpoint stale_interface d value mps address) (fun _ => K L [] n (c + 1) k x) s).
    unfold EhciRequests.configure_endpoints.
    apply (wp_configure_states timer stale_endpoint stale_interface sizeof_ehci_endpoint_state ep_dma configure_endpoint wp_ehci_endpoint); done.
Qed.
End Safe.
