(* ===== verification/EhciLaws.v ===== *)
(** * EHCI: the enumeration of a device

    What [get_device] does over the driver. *)
From S2P Require Import KPrelude PortIO Pci PciProofs Dma Timers UsbTypes UsbDesc UsbDescProofs Usb UsbProofs UsbDriver UsbWorld UsbStates UsbKeep Ehci EhciRequests EhciSafe.

(** C13: over EHCI, whatever the controller answers, in a world that keeps [WorldLaws], [get_device]
    returns without a fault. It never touches a block of the caller's, frees no block or region that
    it does not have, keeps its two arrays with the heap and the array of states as long as its count,
    and gives at most 127 addresses. A region that was put aside because its queue head did not leave
    the schedule is never given back, neither one of before nor one of this enumeration. A device that
    counts as discovered has at least one interface, its arrays are as long as the record says, and
    they are in the caller's hands. *)
Theorem ehci_get_device_correct {W} `{!IO W} `{!HeapOps W} `{!DmaOps W} `{!UsbHost W} (timer : TimerSource W)
    `{!WorldLaws W timer} (dev : device) (stale_endpoint : ehci_endpoint_state) (stale_interface : ehci_interface_state)
    (port : Z) (L : list Z) (s : driver W ehci_controller) :
  keeper_ready timer L s -> is_xhci_controller (controller (obj s)) = false ->
  exists d s', get_device (HostController0 := ehci_host dev timer stale_endpoint stale_interface) port s = Done d s' /\
    keeper_ready timer (device_blocks d ++ L) s' /\ keeps_quarantine (kept (obj s)) (kept (obj s')) /\
    (discovered d = true -> enumerated d port).
Proof.
  intros H Hx.
  destruct (wp_inv _ _ _ (enumeration_ok timer _ (ehci_methods timer dev stale_endpoint stale_interface) port L s H Hx))
    as (d & s' & E & Hpost). by exists d, s'.
Qed.

(** A controller that answers 5 to everything: the port's device survives the reset. One region was put
    aside before. *)
Import Toy.
#[local] Instance toy_usb : UsbHost toy := {|
  host_pci _ := sample_pci; host_set_pci _ s := s;
  host_usb _ := mkUsb [] [] [] [] 0 0; host_set_usb _ s := s
|}.
Definition sample_ehci : driver toy ehci_controller :=
  mkDriver (mkToy [] [11; 7] [13; 9] 100)
    (mkEhci (mkController true true [mkCache [mkDma 0 1 13 13] [0x301]] 11 (mkAddr 0 0 0 0) no_bar 0xC000 0x0c 0x03 0x20 0)
       None 2 0x9000 0x8000 0x8000 [] 0 0 8 1).
Lemma ehci_get_device_correct_witness :
  exists d s', get_device (HostController0 := ehci_host (fun _ _ _ _ => 5) toy_timer no_ehci_endpoint (mkInterfaceState 0 None 0)) 1
    sample_ehci = Done d s' /\
    keeper_ready toy_timer (device_blocks d ++ [7]) s' /\ keeps_quarantine (kept (obj sample_ehci)) (kept (obj s')) /\
    (discovered d = true -> enumerated d 1).
Proof.
  apply (ehci_get_device_correct toy_timer (fun _ _ _ _ => 5) no_ehci_endpoint (mkInterfaceState 0 None 0) 1 [7] sample_ehci).
  - exists [11], [13; 9]. split; [split; [set_solver|split; reflexivity]|]. split; [|cbn; lia].
    constructor; cbn; [reflexivity|discriminate|by exists []|by exists [9]].
  - reflexivity.
Defined.
