(* ===== verification/EhciChain.v ===== *)
(** * EHCI: a control request as the controller reads it

    The controller takes a queue head's fields and walks from it through the transfer descriptors in
    memory. What it finds in the queue head of a request is the control transfer of the USB
    specification. *)
From S2P Require Import KPrelude PortIO Pci Dma Timers UsbTypes Usb UsbDriver UsbMemory UsbStates Ehci EhciRequests.

(** ** The controller's reading of memory *)

(** A stage of a transfer. The last four words give where its bytes are, by two pages. *)
Record stage := mkStage {
  st_pid : Z;
  st_toggle : Z;
  st_bytes : Z;
  st_alternate : Z;
  st_buffer0 : Z;
  st_buffer1 : Z;
  st_high0 : Z;
  st_high1 : Z
}.

(** [mem] is physical memory, by words. *)
Definition stage_at (mem : Z -> Z) (td : Z) : stage :=
  mkStage (mem (td + 8) / 2 ^ 8 mod 4) (mem (td + 8) / 2 ^ 31 mod 2) (mem (td + 8) / 2 ^ 16 mod 2 ^ 15) (mem (td + 4))
    (mem (td + 12)) (mem (td + 16)) (mem (td + 32)) (mem (td + 36)).

(** Where byte [k] of a stage is: from the offset in the first page on, and then in the second page. *)
Definition stage_address (st : stage) (k : Z) : Z :=
  let o := st_buffer0 st mod 4096 + k in
  if o <? 4096 then st_high0 st * 2 ^ 32 + st_buffer0 st / 4096 * 4096 + o
  else st_high1 st * 2 ^ 32 + st_buffer1 st / 4096 * 4096 + (o - 4096).

(** A link ends the list (bit 0), or leads to a descriptor, which is active, without a status from an
    earlier transfer, starts in its first page and allows three errors. *)
Inductive stages (mem : Z -> Z) : Z -> list stage -> Prop :=
| stages_end link : Z.testbit link 0 = true -> stages mem link []
| stages_td td l : td mod 32 = 0 -> mem (td + 8) mod 2 ^ 8 = 2 ^ 7 -> mem (td + 8) / 2 ^ 10 mod 4 = 3 ->
    mem (td + 8) / 2 ^ 12 mod 8 = 0 -> stages mem (mem td) l -> stages mem td (stage_at mem td :: l).

(** A queue head's endpoint. *)
Record head := mkQh {
  h_address : Z;
  h_endpoint : Z;
  h_speed : Z;
  h_toggle_control : bool;
  h_reclamation : bool;
  h_max_packet : Z
}.
Definition head_at (mem : Z -> Z) (qh : Z) : head :=
  let c := mem (qh + 4) in
  mkQh (c mod 2 ^ 7) (c / 2 ^ 8 mod 2 ^ 4) (c / 2 ^ 12 mod 4) (Z.testbit c 14) (Z.testbit c 15) (c / 2 ^ 16 mod 2 ^ 11).

(** ** The transfer that a request means *)

Definition PID_OUT := 0.
Definition PID_IN := 1.
Definition PID_SETUP := 2.
Definition HIGH_SPEED := 2.

(** The stage moves [n] bytes from or to [buffer]. *)
Definition moves (st : stage) (pid toggle n buffer : Z) : Prop :=
  st_pid st = pid /\ st_toggle st = toggle /\ st_bytes st = n /\ forall k, 0 <= k < n -> stage_address st k = buffer + k.

(** SETUP with its eight bytes, the data, which leads to the last stage when less arrives, and the status
    in the other direction. *)
Definition control_stages (length setup buffer status : Z) (l : list stage) : Prop :=
  exists first last, moves first PID_SETUP 0 8 setup /\ st_bytes last = 0 /\ st_toggle last = 1 /\
    st_pid last = (if length =? 0 then PID_IN else PID_OUT) /\
    if length =? 0 then l = [first; last]
    else exists data, l = [first; data; last] /\ moves data PID_IN 1 length buffer /\ st_alternate data = status.

(** ** Words *)

Lemma data_token len : 0 < len <= 4096 ->
  let t := EHCI_QTD_TOGGLE ||| EHCI_QTD_BYTES len ||| EHCI_QTD_CERR 3 ||| EHCI_QTD_PID_IN ||| EHCI_QTD_ACTIVE in
  t = 2 ^ 31 + len * 2 ^ 16 + 3456 /\ u32 t = t.
Proof.
  intros Hl. cbv zeta. change (2 ^ 31) with 2147483648. change (2 ^ 16) with 65536.
  assert (EHCI_QTD_BYTES len = len <<< 16) as ->.
  { unfold EHCI_QTD_BYTES. rewrite (u32_id len) by (change (2 ^ 32) with 4294967296; lia). apply u32_id.
    rewrite shiftl_mul by lia. change (2 ^ 16) with 65536. change (2 ^ 32) with 4294967296. lia. }
  rewrite <- !Z.lor_assoc. change (EHCI_QTD_CERR 3 ||| (EHCI_QTD_PID_IN ||| EHCI_QTD_ACTIVE)) with 3456.
  rewrite (lor_shiftl_add len 3456 16) by (change (2 ^ 16) with 65536; lia). unfold EHCI_QTD_TOGGLE. change (2 ^ 16) with 65536.
  rewrite (lor_shiftl_add 1 _ 31) by (change (2 ^ 31) with 2147483648; lia). change (2 ^ 31) with 2147483648.
  split; [lia|]. apply u32_id. change (2 ^ 32) with 4294967296. lia.
Qed.

Lemma data_fields len : 0 < len <= 4096 -> let w := 2 ^ 31 + len * 2 ^ 16 + 3456 in
  w mod 2 ^ 8 = 2 ^ 7 /\ w / 2 ^ 10 mod 4 = 3 /\ w / 2 ^ 12 mod 8 = 0 /\ w / 2 ^ 8 mod 4 = PID_IN /\
  w / 2 ^ 31 mod 2 = 1 /\ w / 2 ^ 16 mod 2 ^ 15 = len.
Proof.
  intros Hl. cbv zeta. unfold PID_IN. change (2 ^ 31) with 2147483648. change (2 ^ 16) with 65536. change (2 ^ 8) with 256.
  change (2 ^ 7) with 128. change (2 ^ 10) with 1024. change (2 ^ 12) with 4096. change (2 ^ 15) with 32768.
  repeat split; divlia.
Qed.

(** Offsets in an aligned region. *)
Lemma aligned_at p o : p mod 32 = 0 -> o mod 32 = 0 -> (p + o) mod 32 = 0.
Proof. intros H1 H2. divlia. Qed.
Lemma aligned_8 p : p mod 32 = 0 -> p mod 4096 + 8 <= 4096 /\ 0 < (p + 8) mod 4096.
Proof. intros H. divlia. Qed.

Lemma characteristics_sum mps address : 0 <= address < 128 -> 0 <= mps < 2048 ->
  EHCI_QH_RL 4 ||| EHCI_QH_ADDR address ||| EHCI_QH_EP 0 ||| EHCI_QH_SPEED EHCI_SPEED_HIGH ||| EHCI_QH_DTC ||| EHCI_QH_MPS mps =
  4 * 2 ^ 28 + (mps * 2 ^ 16 + (3 * 2 ^ 13 + address)).
Proof.
  intros Ha Hm. unfold EHCI_QH_RL, EHCI_QH_ADDR, EHCI_QH_MPS.
  assert (address &&& 0x7F = address) as -> by (change 0x7F with (Z.ones 7); rewrite land_ones_mod by lia; apply Z.mod_small; change (2 ^ 7) with 128; lia).
  assert (mps &&& 0x7FF = mps) as -> by (change 0x7FF with (Z.ones 11); rewrite land_ones_mod by lia; apply Z.mod_small; change (2 ^ 11) with 2048; lia).
  change (EHCI_QH_EP 0) with 0. rewrite Z.lor_0_r.
  transitivity (4 <<< 28 ||| (mps <<< 16 ||| (3 <<< 13 ||| address))).
  - change (3 <<< 13) with (EHCI_QH_SPEED EHCI_SPEED_HIGH ||| EHCI_QH_DTC).
    apply Z.bits_inj'. intros i _. rewrite !Z.lor_spec. by destruct (Z.testbit (4 <<< 28) i), (Z.testbit address i),
      (Z.testbit (EHCI_QH_SPEED EHCI_SPEED_HIGH) i), (Z.testbit EHCI_QH_DTC i), (Z.testbit (mps <<< 16) i).
  - rewrite (lor_shiftl_add 3 address 13), (lor_shiftl_add mps _ 16), (lor_shiftl_add 4 _ 28)
      by (change (2 ^ 13) with 8192; change (2 ^ 16) with 65536; change (2 ^ 28) with 268435456; lia). done.
Qed.

Lemma characteristics_read mem qh mps address : 0 <= address < 128 -> 0 <= mps < 2048 ->
  mem (qh + 4) = 4 * 2 ^ 28 + (mps * 2 ^ 16 + (3 * 2 ^ 13 + address)) ->
  head_at mem qh = mkQh address 0 HIGH_SPEED true false mps.
Proof.
  intros Ha Hm E. unfold head_at. rewrite E. change (2 ^ 28) with 268435456. change (2 ^ 16) with 65536. change (2 ^ 13) with 8192.
  change (2 ^ 7) with 128. change (2 ^ 8) with 256. change (2 ^ 12) with 4096. change (2 ^ 4) with 16. change (2 ^ 11) with 2048.
  f_equal; [divlia|divlia|unfold HIGH_SPEED; divlia| | |divlia]; apply Z.b2z_inj; rewrite Z.testbit_spec' by lia.
  - change (2 ^ 14) with 16384. cbn [Z.b2z]. divlia.
  - change (2 ^ 15) with 32768. cbn [Z.b2z]. divlia.
Qed.

Lemma land_page32 a : 0 <= a < 2 ^ 32 -> a &&& u32 (Z.lnot 4095) = a / 4096 * 4096.
Proof.
  intros Ha. unfold u32. rewrite <- (Z.land_ones (Z.lnot 4095)), (Z.land_comm _ (Z.ones 32)), Z.land_assoc, land_ones_mod by lia.
  rewrite Z.mod_small by done. change 4095 with 0xFFF. rewrite land_page. lia.
Qed.

(** ** What the code builds *)

Section Fill.
Context {W : Type} `{!IO W} (dev : device).
Implicit Types s : driver W ehci_controller.

(** A descriptor of at most two pages. *)
Record qtd_words (t : list event) (td next alternate token b0 b1 : Z) : Prop := {
  q_next : word t td = next;
  q_alternate : word t (td + 4) = alternate;
  q_token : word t (td + 8) = token;
  q_b0 : word t (td + 12) = b0;
  q_b1 : word t (td + 16) = b1;
  q_high0 : word t (td + 32) = 0;
  q_high1 : word t (td + 36) = 0
}.

Lemma qtd_elsewhere lo hi s s' td n alt k b0 b1 : extends lo hi s s' -> td + 40 <= lo \/ hi <= td ->
  qtd_words (trace s) td n alt k b0 b1 -> qtd_words (trace s') td n alt k b0 b1.
Proof. intros X Hd []. constructor; rewrite (extends_word lo hi s s') by (done || lia); done. Qed.

(** Clearing leaves words of 0. *)
Lemma wp_clear_words a n (Q : unit -> driver W ehci_controller -> Prop) s :
  (forall s', extends a (a + n) s s' -> (forall b, a <= b -> b + 4 <= a + n -> word (trace s') b = 0) -> Q () s') ->
  wp (clear_memory a n) Q s.
Proof.
  intros HQ. apply wp_mem_store. intros s' E T. apply HQ.
  - split; [done|]. rewrite T. apply store_one.
  - intros b H1 H2. rewrite T, Z.mod_0_l by (apply Z.pow_nonzero; lia). apply (value_cleared 4); lia.
Qed.

Lemma wp_store_qtd td n alt k (Q : unit -> driver W ehci_controller -> Prop) s :
  (forall s', extends td (td + 64) s s' -> qtd_words (trace s') td (u32 n) (u32 alt) (u32 k) 0 0 -> Q () s') ->
  wp (store_qtd td n alt k) Q s.
Proof.
  intros HQ. unfold store_qtd, qtd_next, qtd_alternate_next, qtd_token, sizeof_ehci_qtd.
  apply wp_bind, wp_clear_words. intros s1 X1 Z1. apply wp_bind, wp_w32. intros s2 X2 W2. apply wp_bind, wp_w32. intros s3 X3 W3.
  apply wp_w32. intros s4 X4 W4. apply HQ.
  - do 4 (eapply extends_trans; [eapply extends_wider; [eassumption|lia|lia]|]). apply extends_refl.
  - assert (forall b, td + 12 <= b -> b + 4 <= td + 64 -> word (trace s4) b = 0) as Hz.
    { intros b H1 H2. by rewrite (extends_word _ _ _ _ _ X4), (extends_word _ _ _ _ _ X3), (extends_word _ _ _ _ _ X2), Z1 by lia. }
    constructor; [| |done|apply Hz; lia..].
    + by rewrite (extends_word _ _ _ _ _ X4), (extends_word _ _ _ _ _ X3), W2 by lia.
    + by rewrite (extends_word _ _ _ _ _ X4), W3 by lia.
Qed.

(** A buffer pointer behind it. *)
Lemma wp_buffer0 td n alt k b0 b1 v (Q : unit -> driver W ehci_controller -> Prop) s : qtd_words (trace s) td n alt k b0 b1 ->
  (forall s', extends (td + 12) (td + 16) s s' -> qtd_words (trace s') td n alt k (u32 v) b1 -> Q () s') ->
  wp (w32 (qtd_buffer td 0) v) Q s.
Proof.
  intros H HQ. unfold qtd_buffer. replace (td + 12 + 4 * 0) with (td + 12) by lia. apply wp_w32. intros s' X E.
  replace (td + 12 + 4) with (td + 16) in X by lia. apply HQ; [done|].
  destruct H. constructor; try done; rewrite (extends_word _ _ _ _ _ X) by lia; done.
Qed.
Lemma wp_buffer1 td n alt k b0 b1 v (Q : unit -> driver W ehci_controller -> Prop) s : qtd_words (trace s) td n alt k b0 b1 ->
  (forall s', extends (td + 16) (td + 20) s s' -> qtd_words (trace s') td n alt k b0 (u32 v) -> Q () s') ->
  wp (w32 (qtd_buffer td 1) v) Q s.
Proof.
  intros H HQ. unfold qtd_buffer. replace (td + 12 + 4 * 1) with (td + 16) by lia. apply wp_w32. intros s' X E.
  replace (td + 16 + 4) with (td + 20) in X by lia. apply HQ; [done|].
  destruct H. constructor; try done; rewrite (extends_word _ _ _ _ _ X) by lia; done.
Qed.

(** The words of a queue head that is ready to be inserted. *)
Lemma wp_store_qh qh c n (Q : unit -> driver W ehci_controller -> Prop) s :
  (forall s', extends (qh + 4) (qh + 28) s s' -> word (trace s') (qh + 4) = u32 c -> word (trace s') (qh + 16) = u32 n ->
     word (trace s') (qh + 20) = EHCI_LINK_TERMINATE -> word (trace s') (qh + 24) = 0 -> Q () s') ->
  wp (store_qh qh c n) Q s.
Proof.
  intros HQ. unfold store_qh, qh_endpoint_characteristics, qh_endpoint_capabilities, qh_current_qtd, qh_next_qtd, qh_alternate_next_qtd, qh_token.
  apply wp_bind, wp_w32. intros s1 X1 W1. apply wp_bind, wp_w32. intros s2 X2 W2. apply wp_bind, wp_w32. intros s3 X3 W3.
  apply wp_bind, wp_w32. intros s4 X4 W4. apply wp_bind, wp_w32. intros s5 X5 W5. apply wp_w32. intros s6 X6 W6. apply HQ; [..|done].
  - do 6 (eapply extends_trans; [eapply extends_wider; [eassumption|lia|lia]|]). apply extends_refl.
  - by rewrite (extends_word _ _ _ _ _ X6), (extends_word _ _ _ _ _ X5), (extends_word _ _ _ _ _ X4), (extends_word _ _ _ _ _ X3),
      (extends_word _ _ _ _ _ X2), W1 by lia.
  - by rewrite (extends_word _ _ _ _ _ X6), (extends_word _ _ _ _ _ X5), W4 by lia.
  - by rewrite (extends_word _ _ _ _ _ X6), W5 by lia.
Qed.
End Fill.

(** Facts about memory survive a step that stores elsewhere. *)
Ltac carry_memory X :=
  repeat match goal with
  | H : word (trace ?s) ?x = _ |- _ =>
      match type of X with extends _ _ s _ => rewrite <- (extends_word _ _ _ _ x X) in H by lia end
  | H : packet_at (trace ?s) ?x = _ |- _ =>
      match type of X with extends _ _ s _ => rewrite <- (extends_packet _ _ _ _ x X) in H by lia end
  | H : qtd_words (trace ?s) _ _ _ _ _ _ |- _ =>
      match type of X with extends _ _ s _ => eapply (qtd_elsewhere _ _ _ _ _ _ _ _ _ _ X) in H; [|lia] end
  end.

Section Request.
Context {W : Type} `{!IO W} (dev : device).
Implicit Types s : driver W ehci_controller.
Context (a p : Z) (packet : usb_setup_packet) (mps address : Z).
Let len := wLength packet.
Context (Hp : packet_ok packet) (Hlen : len <= 4096) (Hmps : 0 < mps < 2048) (Haddr : 0 <= address < 128).
Context (Hin : len <> 0 -> has (BmRequestType packet) 0x80 = true).
Context (Hphys : 0 <= p /\ p mod 32 = 0 /\ p + setup_at len + 8 + len < 2 ^ 32).
Context (Hdev : unchanged dev a (a + setup_at len + 8)).

Lemma len_bounds : 0 <= len <= 4096 /\ (len >? 0) = negb (len =? 0) /\ setup_at len = status_at len + 64 /\
  status_at len = if len =? 0 then 160 else 224.
Proof.
  destruct Hp as (_ & _ & _ & _ & ?). fold len in H. split; [lia|]. split; [|split; [done|]]; unfold status_at;
    rewrite ?Z.gtb_ltb; destruct (Z.ltb_spec 0 len), (Z.eqb_spec len 0); done || lia.
Qed.

(** The second page of the data. *)
Definition second_page : Z :=
  let buffer := p + setup_at len + 8 in if 4096 <? buffer mod 4096 + len then (buffer + 4095) / 4096 * 4096 else 0.
Definition data_word : Z := 2 ^ 31 + len * 2 ^ 16 + 3456.
Definition data_built (t : list event) : Prop := len <> 0 ->
  qtd_words t (a + 160) (p + 224) (p + 224) data_word (p + setup_at len + 8) second_page.

(** The data stage's descriptor. *)
Lemma wp_ehci_fill_data s (Q : unit -> driver W ehci_controller -> Prop) : len <> 0 ->
  (forall s', extends (a + 160) (a + 224) s s' -> data_built (trace s') -> Q () s') ->
  wp (fill_data (a + 160) (p + 160) (p + 224) len (p + setup_at len + 8) true) Q s.
Proof.
  intros Hne HQ. destruct len_bounds as (Hl & _ & Hse & Hst). rewrite (proj2 (Z.eqb_neq _ _) Hne) in Hst.
  destruct Hphys as (Hp0 & Hp32 & Hlim). change (2 ^ 32) with 4294967296 in Hlim.
  assert (forall x, 0 <= x < 4294967296 -> u32 x = x) as Hid by (intros; apply u32_id; done).
  destruct (data_token len ltac:(lia)) as [Etok Eu]. unfold fill_data. set (tok := EHCI_QTD_TOGGLE ||| _) in *.
  apply wp_bind, wp_store_qtd. intros s1 X1 Q1. rewrite Eu, Etok, (Hid (p + 224)) in Q1 by lia.
  apply wp_bind. eapply wp_buffer0; [exact Q1|]. intros s2 X2 Q2. rewrite (Hid (p + setup_at len + 8)) in Q2 by lia.
  assert (extends (a + 160) (a + 224) s s2) as X12.
  { eapply extends_trans; [eapply extends_wider; [exact X1|lia|lia]|eapply extends_wider; [exact X2|lia|lia]]. }
  set (buffer := p + setup_at len + 8) in *. unfold data_built, second_page, data_word in HQ. fold buffer in HQ.
  assert (buffer &&& 4095 = buffer mod 4096) as -> by (change 4095 with (Z.ones 12); by apply land_ones_mod).
  assert ((len >? 4096 - buffer mod 4096) = (4096 <? buffer mod 4096 + len)) as ->
    by (rewrite Z.gtb_ltb; destruct (Z.ltb_spec (4096 - buffer mod 4096) len), (Z.ltb_spec 4096 (buffer mod 4096 + len)); done || lia).
  destruct (Z.ltb_spec 4096 (buffer mod 4096 + len)) as [Hc|Hc].
  - eapply wp_buffer1; [exact Q2|]. intros s3 X3 Q3. apply HQ.
    + eapply extends_trans; [exact X12|]. eapply extends_wider; [exact X3|lia|lia].
    + intros _. assert (0 <= buffer + 4095 < 4294967296) as Hb by divlia. rewrite (Hid (buffer + 4095)), land_page32 in Q3 by done.
      rewrite (Hid (_ * 4096)) in Q3 by divlia. exact Q3.
  - apply wp_ret, HQ; [done|]. intros _. exact Q2.
Qed.

(** What is in memory when the request is built. *)
Record built (t : list event) : Prop := {
  b_packet : packet_at t (a + setup_at len) = packet;
  b_setup : qtd_words t (a + 96) (p + 160) EHCI_LINK_TERMINATE
    (EHCI_QTD_BYTES 8 ||| EHCI_QTD_CERR 3 ||| EHCI_QTD_PID_SETUP ||| EHCI_QTD_ACTIVE) (p + setup_at len) 0;
  b_data : data_built t;
  b_status : qtd_words t (a + status_at len) EHCI_LINK_TERMINATE EHCI_LINK_TERMINATE
    (EHCI_QTD_TOGGLE ||| EHCI_QTD_BYTES 0 ||| EHCI_QTD_CERR 3 ||| (if len =? 0 then EHCI_QTD_PID_IN else EHCI_QTD_PID_OUT) |||
     EHCI_QTD_ACTIVE) 0 0;
  b_characteristics : word t (a + 4) = 4 * 2 ^ 28 + (mps * 2 ^ 16 + (3 * 2 ^ 13 + address));
  b_next : word t (a + 16) = p + 96;
  b_alternate : word t (a + 20) = EHCI_LINK_TERMINATE;
  b_token : word t (a + 24) = 0
}.

Lemma wp_ehci_fill_request s : wp (fill_request dev a p packet mps len address)
  (fun _ s' => extends a (a + setup_at len + 8) s s' /\ built (trace s')) s.
Proof.
  destruct len_bounds as (Hl & Hgt & Hse & Hst). destruct Hphys as (Hp0 & Hp32 & Hlim). change (2 ^ 32) with 4294967296 in Hlim.
  assert (160 <= status_at len <= 224) as Hstb by (rewrite Hst; destruct (len =? 0); lia).
  assert (forall x, 0 <= x < 4294967296 -> u32 x = x) as Hid by (intros; apply u32_id; done).
  unfold fill_request. rewrite Hgt. rewrite (Hid p), (Hid (p + 96)) by lia.
  replace (p + 96 + 64) with (p + 160) by lia. rewrite (Hid (p + 160)) by lia.
  set (data_phys := if negb (len =? 0) then p + 160 else 0).
  set (status_phys := if negb (len =? 0) then u32 (data_phys + 64) else p + 160). assert (status_phys = p + status_at len) as Esp.
  { subst status_phys data_phys. rewrite Hst. destruct (len =? 0); cbn [negb]; [done|]. replace (p + 160 + 64) with (p + 224) by lia. apply Hid. lia. }
  assert ((if len =? 0 then status_phys else data_phys) = p + 160) as ->.
  { rewrite Esp, Hst. subst data_phys. by destruct (len =? 0). }
  rewrite Esp. clear status_phys Esp. subst data_phys. replace (p + status_at len + 64) with (p + setup_at len) by lia.
  rewrite (Hid (p + setup_at len)) by lia. unfold sizeof_usb_setup_packet. rewrite (Hid (p + setup_at len + 8)) by lia.
  apply wp_bind, wp_store_setup; [done|]. intros s1 E1 T1 P1.
  assert (extends (a + setup_at len) (a + setup_at len + 8) s s1) as X1 by done. clear E1 T1.
  apply wp_bind, wp_store_qtd. intros s2 X2 Q2. carry_memory X2.
  apply wp_bind. eapply wp_buffer0; [exact Q2|]. intros s3 X3 Q3. clear Q2. carry_memory X3.
  rewrite (Hid (p + setup_at len)), (Hid (p + 160)) in Q3 by lia.
  apply wp_bind, wp_mem_load. intros rt s4 O4 Ert T4. assert (extends a a s3 s4) as X4 by (split; [done|by rewrite T4]). clear O4 T4.
  rewrite (Hdev 1%nat) in Ert by (cbn; lia). pose proof (f_equal BmRequestType P1) as Hrt. cbn in Hrt. cbn in Ert.
  rewrite Hrt in Ert. subst rt. carry_memory X4. apply wp_bind.
  assert (forall (Q : unit -> driver W ehci_controller -> Prop),
    (forall s5, extends (a + 160) (a + status_at len) s4 s5 -> data_built (trace s5) -> Q () s5) ->
    wp (if negb (len =? 0) then fill_data (a + 160) (if negb (len =? 0) then p + 160 else 0) (p + status_at len) len
          (p + setup_at len + 8) (has (BmRequestType packet) 128) else mret ()) Q s4) as Hfill.
  { intros Q HQ. rewrite Hst in HQ |- *. destruct (Z.eqb_spec len 0) as [E|E]; cbn [negb].
    - apply wp_ret, HQ; [apply extends_refl|by intros ?].
    - rewrite (Hin E). apply wp_ehci_fill_data; [done|]. intros s5 X5 D5. by apply HQ. }
  apply Hfill. clear Hfill. intros s5 X5 D5. carry_memory X5.
  apply wp_bind, wp_mem_load. intros rl s6 O6 Erl T6. assert (extends a a s5 s6) as X6 by (split; [done|by rewrite T6]). clear O6 T6.
  rewrite (Hdev 2%nat) in Erl by (cbn; lia). pose proof (f_equal wLength P1) as Hrl. cbn [wLength packet_at] in Hrl.
  rewrite Hrl in Erl. subst rl. carry_memory X6. fold len.
  assert ((len =? 0) || negb (has (BmRequestType packet) 128) = (len =? 0)) as ->.
  { destruct (Z.eqb_spec len 0); [done|]. by rewrite Hin. }
  apply wp_bind, wp_store_qtd. intros s7 X7 Q7. carry_memory X7. apply wp_bind, wp_clear_words. intros s8 X8 _.
  unfold sizeof_ehci_qh in X8. carry_memory X8. rewrite characteristics_sum by lia. apply wp_store_qh. intros s9 X9 W9 N9 A9 K9. carry_memory X9.
  split.
  - do 9 (eapply extends_trans; [eapply extends_wider; [eassumption|lia|lia]|]). apply extends_refl.
  - assert (data_built (trace s9)) as D9.
    { intros Hne. specialize (D5 Hne). rewrite Hst, (proj2 (Z.eqb_neq _ _) Hne) in *. carry_memory X6. carry_memory X7. carry_memory X8. by carry_memory X9. }
    change (2 ^ 28) with 268435456 in *. change (2 ^ 16) with 65536 in *. change (2 ^ 13) with 8192 in *.
    constructor; try done.
    + by destruct (len =? 0).
    + by rewrite W9, Hid by lia.
    + by rewrite N9, Hid by lia.
Qed.

(** *** The controller's walk *)

Definition mem_of (t : list event) (q : Z) : Z := word t (a + (q - p)).

Lemma mem_at t q x : word t (a + x) = q -> mem_of t (p + x) = q.
Proof. intros <-. unfold mem_of. f_equal. lia. Qed.

(** A descriptor at the offset [o] and what follows it. *)
Lemma stages_of t o n alt k b0 b1 l : qtd_words t (a + o) n alt k b0 b1 -> (p + o) mod 32 = 0 -> k mod 2 ^ 8 = 2 ^ 7 ->
  k / 2 ^ 10 mod 4 = 3 -> k / 2 ^ 12 mod 8 = 0 -> stages (mem_of t) n l ->
  stages (mem_of t) (p + o) (mkStage (k / 2 ^ 8 mod 4) (k / 2 ^ 31 mod 2) (k / 2 ^ 16 mod 2 ^ 15) alt b0 b1 0 0 :: l).
Proof.
  intros [H0 H4 H8 H12 H16 H32 H36] Hm Hs Hc Hp' Hl. apply mem_at in H0.
  assert (forall x v, word t (a + o + x) = v -> mem_of t (p + o + x) = v) as Hat.
  { intros x v Hv. rewrite <- Z.add_assoc. apply mem_at. by rewrite Z.add_assoc. }
  apply Hat in H4, H8, H12, H16, H32, H36.
  replace (mkStage _ _ _ _ _ _ _ _) with (stage_at (mem_of t) (p + o)) by (unfold stage_at; by rewrite H4, H8, H12, H16, H32, H36).
  constructor; [done|by rewrite H8..|by rewrite H0].
Qed.

(** Bytes on one page, or on two. *)
Lemma address_first st k : st_high0 st = 0 -> 0 <= k -> st_buffer0 st mod 4096 + k < 4096 -> stage_address st k = st_buffer0 st + k.
Proof. intros H0 Hk Hb. unfold stage_address. rewrite H0, (proj2 (Z.ltb_lt _ _)) by done. divlia. Qed.
Lemma address_second st k : st_high1 st = 0 -> 4096 <= st_buffer0 st mod 4096 + k < 8192 ->
  st_buffer1 st = (st_buffer0 st + 4095) / 4096 * 4096 -> 0 < st_buffer0 st mod 4096 -> stage_address st k = st_buffer0 st + k.
Proof.
  intros H1 Hk Hb Ho. unfold stage_address. rewrite H1, (proj2 (Z.ltb_ge _ _)), Hb by lia. cbv zeta. rewrite Z.div_mul by lia. divlia.
Qed.

Lemma built_stages t : built t -> exists l, stages (mem_of t) (mem_of t (p + 16)) l /\
  control_stages len (p + setup_at len) (p + setup_at len + 8) (p + status_at len) l.
Proof.
  intros H. destruct len_bounds as (Hl & _ & Hse & Hst). destruct Hphys as (Hp0 & Hp32 & Hlim). change (2 ^ 32) with 4294967296 in Hlim.
  rewrite (mem_at t (p + 96) 16) by apply H.
  assert (stages (mem_of t) EHCI_LINK_TERMINATE []) as Hend by (by constructor).
  assert (status_at len mod 32 = 0) as Hs0 by (rewrite Hst; by destruct (len =? 0)).
  pose proof (stages_of t (status_at len) _ _ _ _ _ [] (b_status t H) (aligned_at _ _ Hp32 Hs0)
    ltac:(by destruct (len =? 0)) ltac:(by destruct (len =? 0)) ltac:(by destruct (len =? 0)) Hend) as Hlast.
  set (last := mkStage _ _ _ _ _ _ _ _) in Hlast.
  pose proof (fun l => stages_of t 96 _ _ _ _ _ l (b_setup t H)) as Hfirst.
  set (setup := p + setup_at len) in *.
  assert (setup mod 32 = 0) as Hs32 by (apply aligned_at; [done|]; rewrite Hse, Hst; by destruct (len =? 0)).
  assert (moves (mkStage 2 0 8 EHCI_LINK_TERMINATE setup 0 0 0) PID_SETUP 0 8 setup) as Hms.
  { split_and!; try done. intros k Hk. apply address_first; [done|lia|]. cbn [st_buffer0].
    pose proof (proj1 (aligned_8 _ Hs32)). lia. }
  assert (st_pid last = if len =? 0 then PID_IN else PID_OUT) as Hpid by (subst last; cbn [st_pid]; by destruct (len =? 0)).
  assert (st_bytes last = 0) as Hb0 by (subst last; cbn [st_bytes]; by destruct (len =? 0)).
  assert (st_toggle last = 1) as Ht1 by (subst last; cbn [st_toggle]; by destruct (len =? 0)).
  pose proof (b_data t H) as Hd. unfold control_stages. destruct (Z.eqb_spec len 0) as [E|E].
  - rewrite Hst in Hlast. eexists. split; [apply Hfirst; [by apply aligned_at|done..|exact Hlast]|]. by eexists _, _.
  - specialize (Hd E). rewrite Hst in Hlast |- *.
    destruct (data_fields len ltac:(lia)) as (D1 & D2 & D3 & D4 & D5 & D6). fold data_word in D1, D2, D3, D4, D5, D6.
    pose proof (stages_of t 160 _ _ _ _ _ _ Hd (aligned_at p 160 Hp32 eq_refl) D1 D2 D3 Hlast) as Hdata. rewrite D4, D5, D6 in Hdata.
    eexists. split; [apply Hfirst; [by apply aligned_at|done..|exact Hdata]|].
    eexists _, _. split; [exact Hms|]. split; [done|]. split; [done|]. split; [done|].
    eexists. split; [reflexivity|]. split; [|done]. split_and!; try done. intros k Hk.
    set (d := mkStage _ _ _ _ _ _ _ _). change (stage_address d k = st_buffer0 d + k).
    assert (st_buffer0 d mod 4096 = (setup + 8) mod 4096) as Eo by done. pose proof (proj2 (aligned_8 _ Hs32)) as Ho.
    destruct (Z.ltb_spec (st_buffer0 d mod 4096 + k) 4096) as [Hk4|Hk4]; [apply address_first; [done|lia|done]|].
    apply address_second; [done|pose proof (Z.mod_pos_bound (st_buffer0 d) 4096); lia| |by rewrite Eo].
    subst d. cbn [st_buffer1 st_buffer0] in *. unfold second_page. fold setup. rewrite (proj2 (Z.ltb_lt _ _)) by lia. done.
Qed.
End Request.

(** C14: for every control request without data or with data to the host, in a region below 4 GiB
    that the controller does not store into, what [usb_send_packet] builds is what an EHCI controller
    reads as that transfer: the queue head is for endpoint 0 of the device at high speed, takes the data
    toggle from the descriptors, is not the head of the list and holds no transfer of its own; from it
    a list of active descriptors leads through the SETUP stage with the eight bytes of the packet, the
    data stage, whose bytes lie at the buffer one after the other on whichever side of a page's end,
    and the status stage in the other direction; a short answer leads to the status stage. Nothing
    outside of the structures is stored. *)
Theorem ehci_request_correct {W} `{!IO W} (dev : device) (a p : Z) (packet : usb_setup_packet) (mps address : Z)
    (s : driver W ehci_controller) :
  let len := wLength packet in
  packet_ok packet -> len <= 4096 -> 0 < mps < 2048 -> 0 <= address < 128 ->
  (len <> 0 -> has (BmRequestType packet) 0x80 = true) ->
  0 <= p /\ p mod 32 = 0 /\ p + setup_at len + 8 + len < 2 ^ 32 -> unchanged dev a (a + setup_at len + 8) ->
  exists s', fill_request dev a p packet mps len address s = Done () s' /\ obj s' = obj s /\
    stores_in a (a + setup_at len + 8) (trace s) (trace s') /\
    let mem := mem_of a p (trace s') in
    head_at mem p = mkQh address 0 HIGH_SPEED true false mps /\
    mem (p + 20) = EHCI_LINK_TERMINATE /\ mem (p + 24) = 0 /\ packet_at (trace s') (a + setup_at len) = packet /\
    exists l, stages mem (mem (p + 16)) l /\
      control_stages len (p + setup_at len) (p + setup_at len + 8) (p + status_at len) l.
Proof.
  intros len Hp Hlen Hmps Haddr Hin Hphys Hdev.
  destruct (wp_inv _ _ _ (wp_ehci_fill_request dev a p packet mps address Hp Hlen Hmps Haddr Hin Hphys Hdev s)) as ([] & s' & E & [Eo Es] & B).
  exists s'. split; [exact E|]. split; [done|]. split; [done|]. cbv zeta.
  split; [apply characteristics_read; [done|lia|]; by apply mem_at, (b_characteristics _ _ _ _ _ _ B)|].
  split; [by apply mem_at, (b_alternate _ _ _ _ _ _ B)|]. split; [by apply mem_at, (b_token _ _ _ _ _ _ B)|].
  split; [by apply (b_packet _ _ _ _ _ _ B)|]. by eapply built_stages.
Qed.

(** A memory, and a request for 200 bytes whose data lie on two pages. *)
#[local] Instance trace_IO : IO (list event).
Proof. by refine {| trace t := t; set_trace t _ := t |}. Defined.
Definition sample_object : ehci_controller :=
  mkEhci (mkController true false [] 0 (mkAddr 0 0 0 0) no_bar 0xC000 0x0c 0x03 0x20 0) None 2 0x9000 0x8000 0x8000 [] 0 0 200 6.
Definition sample_packet : usb_setup_packet := mkSetup 0x80 0x06 0x0200 0 200.

Lemma ehci_request_correct_witness :
  exists s', fill_request plain_memory 0x10e80 0x20e80 sample_packet 64 200 5 (mkDriver ([] : list event) sample_object) = Done () s' /\
    obj s' = sample_object /\ stores_in 0x10e80 0x10fa8 [] (trace s') /\
    let mem := mem_of 0x10e80 0x20e80 (trace s') in
    head_at mem 0x20e80 = mkQh 5 0 2 true false 64 /\ mem 0x20e94 = 1 /\ mem 0x20e98 = 0 /\
    packet_at (trace s') 0x10fa0 = sample_packet /\
    exists l, stages mem (mem 0x20e90) l /\ control_stages 200 0x20fa0 0x20fa8 0x20f60 l.
Proof.
  refine (ehci_request_correct plain_memory 0x10e80 0x20e80 sample_packet 64 5 (mkDriver ([] : list event) sample_object) _ _ _ _ _ _ _).
  - repeat split; cbn; lia.
  - cbn. lia.
  - lia.
  - lia.
  - by intros _.
  - vm_compute. repeat split; congruence.
  - apply plain_unchanged.
Defined.
