(* ===== verification/EhciQueue.v ===== *)
(** * EHCI: the asynchronous schedule

    The queue heads behind the first one are a ring in shared memory. A transfer puts its queue head in
    front; it is out again only when the controller has answered the doorbell that was rung after the
    ring had been closed without it. *)
From S2P Require Import KPrelude PortIO Pci PciProofs Dma Timers TimersProofs UsbTypes Usb UsbDriver UsbWorld UsbMemory UsbQueue UsbStates Ehci EhciRequests.

Abbreviation ring_links := UsbQueue.linked.

Section Ring.
Context {W : Type} `{!IO W} `{!HeapOps W} `{!DmaOps W} `{!UsbHost W} (timer : TimerSource W) (dev : device).
Implicit Types s : driver W ehci_controller.
Abbreviation ME := (M (driver W ehci_controller)).
Abbreviation post A := (A -> driver W ehci_controller -> Prop).

(** The registers are at [op]; the ring starts at [a], for the controller at [ap], and the queue heads that
    it may hold are [U]. *)
Context (op a ap : Z) (U : list queue_head).

(** The history goes on, with stores only into the command and status registers. *)
Definition mild (e : event) : Prop :=
  match e with Wr Mmio w x _ => op <= x /\ x + w <= op + 8 | _ => True end.
Definition goes_on (t t' : list event) : Prop := exists l, t' = l ++ t /\ Forall mild l.
Lemma goes_on_refl t : goes_on t t.
Proof. by exists []. Qed.
Lemma goes_on_trans t t' t'' : goes_on t t' -> goes_on t' t'' -> goes_on t t''.
Proof. intros (l1 & -> & H1) (l2 & -> & H2). exists (l2 ++ l1). rewrite app_assoc. split; [done|]. by apply Forall_app. Qed.
Lemma goes_on_one e t : mild e -> goes_on t (e :: t).
Proof. intros He. exists [e]. split; [done|by constructor]. Qed.
Lemma goes_on_part u u' t : goes_on t (u' ++ u ++ t) -> goes_on t (u ++ t).
Proof.
  intros (l & E & H). exists u. split; [done|]. rewrite app_assoc in E. apply app_inv_tail in E as <-. by apply Forall_app in H as [_ H].
Qed.
Lemma goes_on_stores t t' : goes_on t t' -> stores_in op (op + 8) t t'.
Proof.
  intros (l & -> & H). induction H as [|e l He _ IH]; [done|]. eapply stores_trans; [exact IH|]. cbn [app].
  destruct e as [| [] w x v]; try (by intros b _). eapply stores_wider; [apply store_one|apply He..].
Qed.

Context (Htime : forall ms (w : W), 0 <= ms < 1000 -> wp (wait_ms timer ms) (fun _ w' => goes_on (trace w) (trace w')) w).

(** The structures do not overlap, also not with the registers, and the controller leaves their horizontal
    links alone. *)
Record ring_ok : Prop := {
  ring_disjoint : disjoint_heads sizeof_ehci_qh a U;
  ring_valid q : q ∈ U -> head_ok q;
  ring_registers v : place a U v -> v + 4 <= op \/ op + 8 <= v;
  ring_load t v : place a U v -> io_value dev t Mmio 4 v = word t v
}.
Context (HU : ring_ok).

(** The horizontal links lead through [l] and back. *)
Definition ring (t : list event) (l : list queue_head) : Prop := ring_links (ap + 2) t a l.

Abbreviation still m := (still goes_on m).
Ltac still_step := first [apply (still_bind _ goes_on_trans); [|intros ?] | apply (still_ret _ goes_on_refl) | apply (still_get _ goes_on_refl)].

Lemma still_load r : still (r32 dev r : ME Z).
Proof.
  intros s. apply wp_mem_load. intros v s' Eo _ T. split; [done|]. rewrite T. by apply goes_on_one.
Qed.
Lemma still_register o v : o = 0 \/ o = 4 -> still (w32 (op + o) v : ME unit).
Proof.
  intros Ho s. apply wp_mem_store. intros s' Eo T. split; [done|]. rewrite T. apply goes_on_one. cbn. lia.
Qed.
Lemma still_test r mask : still (test dev r mask : ME bool).
Proof. unfold test. still_step; [apply still_load|still_step]. Qed.
Lemma still_token td : still (token_or_none dev td : ME Z).
Proof. unfold token_or_none. destruct (td =? 0); [still_step|apply still_load]. Qed.
Lemma still_or_else b (m : ME bool) : still m -> still (or_else b m).
Proof. intros Hm. unfold or_else. by destruct b; [still_step|]. Qed.

(** *** The wait

    The loads of one round, the latest first; a transfer without a data stage has no data descriptor. *)
Definition tokens (setup data status vs vd vst : Z) : list event :=
  (if data =? 0 then [] else [Rd Mmio 4 (qtd_token data) vd]) ++ [Rd Mmio 4 (qtd_token status) vst; Rd Mmio 4 (qtd_token setup) vs].
(** [n] rounds in which the descriptors were looked at, and the transfer went on. *)
Inductive rounds (setup data status requested : Z) : nat -> list event -> Prop :=
| rounds_none : rounds setup data status requested 0 []
| rounds_more n t w vs vd vst : rounds setup data status requested n t -> (data = 0 -> vd = 0) ->
    judge_tokens vs vd vst (negb (data =? 0)) requested = None ->
    rounds setup data status requested (S n) (w ++ tokens setup data status vs vd vst ++ t).
(** What the descriptors said in the end, within 500 rounds, or that they said nothing. *)
Definition waited (setup data status requested : Z) (t : list event) (r : ehci_transfer_result * Z) : Prop :=
  (exists n u vs vd vst, (n < 500)%nat /\ rounds setup data status requested n u /\ (data = 0 -> vd = 0) /\
     t = tokens setup data status vs vd vst ++ u /\ judge_tokens vs vd vst (negb (data =? 0)) requested = Some r) \/
  (rounds setup data status requested 500 t /\ r = (timeout, 0)).

Lemma wp_token td (Q : post Z) s :
  (forall v s', obj s' = obj s -> trace s' = (if td =? 0 then [] else [Rd Mmio 4 (qtd_token td) v]) ++ trace s -> (td = 0 -> v = 0) -> Q v s') ->
  wp (token_or_none dev td) Q s.
Proof.
  intros HQ. unfold token_or_none. destruct (Z.eqb_spec td 0) as [E|E]; [by apply wp_ret, HQ|].
  apply wp_mem_load. intros v s' Eo _ T. by apply HQ.
Qed.

Lemma mild_tokens setup data status vs vd vst : Forall mild (tokens setup data status vs vd vst).
Proof. unfold tokens. destruct (data =? 0); repeat constructor. Qed.

Lemma wp_wait_descriptor setup data status s : wp (wait_for_descriptor dev timer setup data status) (fun r s' =>
  obj s' = obj s /\ exists t, trace s' = t ++ trace s /\ Forall mild t /\ waited setup data status (REQUESTED_BYTES (obj s)) t r) s.
Proof.
  unfold wait_for_descriptor.
  apply (wp_while _ (fun e s' => 0 <= e <= 500 /\ obj s' = obj s /\ exists t, trace s' = t ++ trace s /\ Forall mild t /\
      rounds setup data status (REQUESTED_BYTES (obj s)) (Z.to_nat e) t) (fun e _ => 500 - e)).
  - intros e s1 (He & E1 & t & T1 & Ht & Hr). destruct (Z.ltb_spec e 500).
    2: { apply wp_ret. split; [done|]. exists t. split_and!; [done..|]. right. split; [|done]. by replace (Z.to_nat e) with 500%nat in Hr by lia. }
    apply wp_bind, wp_mem_load. intros vs s2 E2 _ T2. apply wp_bind, wp_mem_load. intros vst s3 E3 _ T3.
    apply wp_bind, wp_token. intros vd s4 E4 T4 Hvd. apply wp_bind, wp_gets.
    assert (obj s4 = obj s) as -> by congruence.
    assert (trace s4 = (tokens setup data status vs vd vst ++ t) ++ trace s) as T.
    { rewrite T4, T3, T2, T1. unfold tokens. by rewrite <- !app_assoc. }
    assert (Forall mild (tokens setup data status vs vd vst ++ t)) as Ht' by (apply Forall_app; split; [apply mild_tokens|done]).
    destruct (judge_tokens _ _ _ _ _) as [r|] eqn:J.
    + apply wp_ret. split; [congruence|]. eexists. split; [exact T|]. split; [done|]. left.
      exists (Z.to_nat e), t, vs, vd, vst. split; [lia|]. done.
    + apply wp_bind. eapply wp_mono; [apply (still_wait timer _ Htime 1); lia|]. cbn beta. intros _ s5 [E5 (w & Tw & Hw)].
      apply wp_ret. split; [|lia]. split; [lia|]. split; [congruence|]. eexists (w ++ _ ++ t).
      split; [by rewrite Tw, T, app_assoc|]. split; [by apply Forall_app|]. replace (Z.to_nat (e + 1)) with (S (Z.to_nat e)) by lia. by constructor.
  - split; [lia|]. split; [done|]. exists []. split_and!; [done|constructor..].
  - unfold FUEL. lia.
Qed.

(** *** The ring *)

Lemma place_load v (Q : post Z) s : place a U v ->
  (forall s', obj s' = obj s -> goes_on (trace s) (trace s') -> Q (word (trace s) v) s') -> wp (r32 dev (qh_horizontal_link v)) Q s.
Proof.
  intros Hv HQ. apply wp_mem_load. intros x s' E -> T. rewrite (ring_load HU) by done. apply HQ; [done|]. rewrite T.
  by apply goes_on_one.
Qed.
Lemma place_store v x (Q : post unit) s : 0 <= x < 2 ^ 32 ->
  (forall s', obj s' = obj s -> trace s' = Wr Mmio 4 v x :: trace s -> Q () s') -> wp (w32 (qh_horizontal_link v) x) Q s.
Proof. intros Hx HQ. apply wp_mem_store. intros s' E T. apply HQ; [done|]. by rewrite T, Z.mod_small. Qed.

Lemma word_kept t t' v : place a U v -> goes_on t t' -> word t' v = word t v.
Proof. intros Hv H. eapply word_elsewhere; [by apply goes_on_stores|]. destruct (ring_registers HU v Hv); [by left|by right]. Qed.

Lemma links_kept t t' v l : goes_on t t' -> place a U v -> l ⊆ U -> ring_links (ap + 2) t v l -> ring_links (ap + 2) t' v l.
Proof.
  intros HR. revert v. induction l as [|q l IH]; intros v Hv Hl; cbn [UsbQueue.linked]; rewrite (word_kept t t') by done; [done|].
  intros [H1 H2]. split; [done|]. apply IH; [right; exists q; split; [done|apply Hl; by left]| |done]. intros y Hy. apply Hl. by right.
Qed.
Lemma ring_kept t t' l : goes_on t t' -> l ⊆ U -> ring t l -> ring t' l.
Proof. intros HR Hl. apply links_kept; [done|by left|done]. Qed.

(** What the first link of the ring is. *)
Definition first_link (l : list queue_head) : Z := match l with [] => ap + 2 | q :: _ => qh_phys q + 2 end.
Lemma links_first t v l : ring_links (ap + 2) t v l -> word t v = first_link l.
Proof. by destruct l; [|intros [? _]]. Qed.

Lemma wp_insert q l (Q : post ehci_async_link_state) s : q ∈ U -> q ∉ l -> l ⊆ U -> ring (trace s) l ->
  (forall s', obj s' = obj s -> (exists r, trace s' = r ++ trace s) -> ring (trace s') (q :: l) ->
     Q (mkLink a (qh_virt q) (first_link l) true) s') ->
  wp (insert_async_qh dev a ap (qh_virt q) (qh_phys q)) Q s.
Proof.
  intros Hq Hn Hl Hr HQ. destruct (ring_valid HU q Hq) as (Hp & Hm & Hv). destruct (link_fields _ Hp Hm) as (Hor & Hu & _).
  assert (0 <= qh_phys q < 2 ^ 32 - 2) as Hp'.
  { change (2 ^ 32 - 2) with 4294967294. change (2 ^ 32) with 4294967296 in Hp. divlia. }
  assert (place a U a) as Pa by (by left). unfold insert_async_qh.
  apply wp_bind, (place_load a); [done|]. intros s1 E1 M1. apply wp_bind, (place_load a); [done|]. intros s2 E2 M2.
  apply wp_bind, place_store; [apply word_range|]. intros s3 E3 T3. apply wp_bind. rewrite Hor.
  apply place_store; [change (2 ^ 32) with 4294967296 in *; lia|]. intros s4 E4 T4. apply wp_ret.
  rewrite (links_first _ _ _ Hr). assert (goes_on (trace s) (trace s2)) as M by (by eapply goes_on_trans).
  apply HQ; [congruence| |].
  - destruct M as (r & Er & _). rewrite T4, T3, Er. by eexists (_ :: _ :: r).
  - rewrite T4, T3. rewrite <- (word_kept _ _ a Pa M2). unfold ring. apply (linked_front _ sizeof_ehci_qh ltac:(done) a U (ring_disjoint HU)); try done.
    by eapply ring_kept.
Qed.

(** *** The doorbell *)

(** After the ring was [l], the doorbell was rung, and the controller said that it has seen it. *)
Definition acknowledged (l : list queue_head) (t : list event) : Prop :=
  exists t3 v t2 command t1, t = t3 ++ Rd Mmio 4 (op + USBSTS) v :: t2 ++ Wr Mmio 4 (op + USBCMD) command :: t1 /\
    ring t1 l /\ has command EHCI_USBCMD_IAAD = true /\ has v EHCI_USBSTS_IAA = true.

Lemma bell_rung c : has ((c ||| EHCI_USBCMD_IAAD) mod 2 ^ (8 * 4)) EHCI_USBCMD_IAAD = true.
Proof.
  unfold has. rewrite <- Z.land_ones, <- Z.land_assoc by lia. change (Z.ones (8 * 4) &&& EHCI_USBCMD_IAAD) with EHCI_USBCMD_IAAD.
  rewrite Z.land_lor_distr_l, Z.land_diag. apply negb_true_iff, Z.eqb_neq. intros E. apply Z.lor_eq_0_iff in E. by destruct E.
Qed.

Lemma wp_advance l s : l ⊆ U -> ring (trace s) l -> wp (advance_async dev timer op)
  (fun ok s' => obj s' = obj s /\ goes_on (trace s) (trace s') /\ (ok = true -> acknowledged l (trace s'))) s.
Proof.
  intros HlU Hr. unfold advance_async.
  apply wp_bind. eapply wp_mono; [apply still_load|]. cbn beta. intros c s1 [E1 M1].
  apply wp_bind, wp_mem_store. intros s2 E2 T2. set (bell := Wr Mmio 4 (op + USBCMD) _) in T2.
  assert (goes_on (trace s1) (trace s2)) as M2.
  { rewrite T2. apply goes_on_one. cbn. unfold USBCMD. lia. }
  apply wp_bind. eapply wp_mono; [apply still_load|]. cbn beta. intros c2 s3 [E3 M3].
  assert (goes_on (trace s) (trace s3)) as M by (eapply goes_on_trans; [exact M1|by eapply goes_on_trans]).
  assert (exists t2, trace s3 = t2 ++ bell :: trace s1) as Hb by (destruct M3 as (r & Er & _); exists r; by rewrite Er, T2).
  assert (ring (trace s1) l) as Hr1 by (by eapply ring_kept).
  apply (wp_while _ (fun e s' => 0 <= e <= 100 /\ obj s' = obj s /\ goes_on (trace s) (trace s') /\
      exists t2, trace s' = t2 ++ bell :: trace s1) (fun e _ => 100 - e)); [|by split_and!; (lia || congruence)|unfold FUEL; lia].
  clear s2 s3 E2 T2 M2 E3 M3 M Hb.
  intros e s4 (He & E4 & M4 & t2 & T4). destruct (Z.ltb_spec e 100); [|by apply wp_ret].
  unfold test. rewrite !wp_bind. apply wp_mem_load. intros v s5 E5 _ T5. apply wp_ret.
  assert (goes_on (trace s4) (trace s5)) as M5 by (rewrite T5; by apply goes_on_one).
  destruct (has v EHCI_USBSTS_IAA) eqn:Hv; rewrite wp_bind.
  - apply wp_mem_store. intros s6 E6 T6. apply wp_ret. split; [congruence|]. split.
    + eapply goes_on_trans; [exact M4|]. eapply goes_on_trans; [exact M5|]. rewrite T6. apply goes_on_one. cbn. unfold USBSTS. lia.
    + intros _. eexists [_], v, t2, _, (trace s1). split; [rewrite T6, T5, T4; reflexivity|]. split; [done|]. split; [apply bell_rung|done].
  - eapply wp_mono; [apply (still_wait timer _ Htime 1); lia|]. cbn beta. intros _ s6 [E6 M6]. apply wp_ret.
    split; [|lia]. split; [lia|]. split; [congruence|]. split; [eapply goes_on_trans; [exact M4|by eapply goes_on_trans]|].
    destruct M6 as (r & Er & _). eexists (r ++ _ :: t2). rewrite Er, T5, T4. by rewrite <- app_assoc.
Qed.

(** *** Taking a queue head out *)

Lemma wp_unlink q l setup data status s : q ∈ U -> q ∉ l -> l ⊆ U -> NoDup l -> ring (trace s) (q :: l) ->
  0 <= ap < 2 ^ 32 - 2 ->
  wp (unlink_async_qh dev timer op (mkLink a (qh_virt q) (first_link l) true) (qh_virt q) setup data status)
    (fun out s' => obj s' = obj s /\ (exists r, trace s' = r ++ trace s) /\
       if (out : bool) then ring (trace s') l /\ acknowledged l (trace s') else ring (trace s') l \/ ring (trace s') (q :: l)) s.
Proof.
  intros Hq Hn Hl Hnd Hr Hap. unfold unlink_async_qh. cbn [Ehci.linked negb previous old_next].
  assert (q :: l ⊆ U) as HqU by (intros y Hy; apply elem_of_cons in Hy as [->|Hy]; auto).
  assert (forall s' : driver W ehci_controller, obj s' = obj s -> goes_on (trace s) (trace s') ->
    obj s' = obj s /\ (exists r, trace s' = r ++ trace s) /\ (ring (trace s') l \/ ring (trace s') (q :: l))) as Hleft.
  { intros s' E M. split; [done|]. split; [destruct M as (r & -> & _); by exists r|]. right. by eapply ring_kept. }
  rewrite wp_bind. eapply wp_mono; [apply still_token|]. cbn beta. intros t s1 [E1 M1].
  rewrite wp_bind. eapply wp_mono; [apply still_test|]. cbn beta. intros b1 s2 [E2 M2].
  rewrite wp_bind. eapply wp_mono; [apply still_or_else, still_test|]. cbn beta. intros b2 s3 [E3 M3].
  rewrite wp_bind. eapply wp_mono; [apply still_or_else, still_test|]. cbn beta. intros b3 s4 [E4 M4].
  assert (goes_on (trace s) (trace s4)) as M by (eapply goes_on_trans; [exact M1|eapply goes_on_trans; [exact M2|by eapply goes_on_trans]]).
  destruct b3; [apply wp_ret, Hleft; [congruence|done]|].
  rewrite wp_bind. eapply wp_mono; [apply still_test|]. cbn beta. intros b4 s5 [E5 M5].
  destruct b4; [apply wp_ret, Hleft; [congruence|by eapply goes_on_trans]|].
  rewrite wp_bind. eapply wp_mono; [apply still_register; by right|]. cbn beta. intros _ s6 [E6 M6].
  assert (goes_on (trace s) (trace s6)) as M06 by (eapply goes_on_trans; [exact M|by eapply goes_on_trans]).
  assert (ring (trace s6) (q :: l)) as Hr6 by (by eapply ring_kept).
  assert (0 <= first_link l < 2 ^ 32) as Hf.
  { change (2 ^ 32) with 4294967296 in *. destruct l as [|q' l]; cbn; [lia|]. destruct (ring_valid HU q') as (Hp & Hm & _); [apply Hl; by left|].
    change (2 ^ 32) with 4294967296 in *. divlia. }
  rewrite wp_bind. apply place_store; [done|]. intros s7 E7 T7. rewrite wp_bind. apply place_store; [done|]. intros s8 E8 T8.
  assert (ring (trace s8) l) as Hr8.
  { pose proof Hr6 as [_ Hq6]. rewrite T8, T7, <- (links_first _ _ _ Hq6).
    apply (linked_out (ap + 2) sizeof_ehci_qh ltac:(done) a U (ring_disjoint HU) _ q l [] a); [exact Hr6|by left|by apply NoDup_cons| |done].
    by apply (anchor_elsewhere sizeof_ehci_qh ltac:(done) a U (ring_disjoint HU)). }
  eapply wp_mono; [by apply (wp_advance l)|]. cbn beta. intros out s9 (E9 & M9 & Hack). split; [congruence|]. split.
  - destruct M9 as (r9 & Er9 & _), M06 as (r6 & Er6 & _). eexists (r9 ++ _ :: _ :: r6). rewrite Er9, T8, T7, Er6, <- app_assoc. reflexivity.
  - assert (ring (trace s9) l) as Hr9 by (by eapply ring_kept). destruct out; [by split; [|apply Hack]|by left].
Qed.

(** [t] is the history of a wait that ended with [r], from [t0] on: the ring was [l] all the time. *)
Definition waited_in (l : list queue_head) (setup data status requested : Z) (t0 t : list event) (r : ehci_transfer_result * Z) : Prop :=
  waited setup data status requested t r /\ forall u u', t = u' ++ u -> ring (u ++ t0) l.

Lemma wp_run_transfer q l setup data status s : async_head (obj s) = a -> async_head_phys (obj s) = ap -> 0 <= ap < 2 ^ 32 - 2 ->
  q ∈ U -> q ∉ l -> l ⊆ U -> NoDup l -> ring (trace s) l ->
  wp (run_transfer dev timer op (qh_virt q) (qh_phys q) setup data status) (fun '(res, got, out) s' => obj s' = obj s /\
    (exists t1 t2 t3, trace s' = t3 ++ t2 ++ t1 ++ trace s /\
       waited_in (q :: l) setup data status (REQUESTED_BYTES (obj s)) (t1 ++ trace s) t2 (res, got)) /\
    if (out : bool) then ring (trace s') l /\ acknowledged l (trace s') else ring (trace s') l \/ ring (trace s') (q :: l)) s.
Proof.
  intros Ea Eap Hap Hq Hn Hl Hnd Hr. unfold run_transfer.
  apply wp_bind, wp_gets, wp_bind, wp_gets. rewrite Ea, Eap. apply wp_bind. eapply wp_insert; try done.
  intros s1 E1 [t1 T1] R1. apply wp_bind. eapply wp_mono; [apply wp_wait_descriptor|]. cbn beta.
  intros [res got] s2 (E2 & t2 & T2 & Ht2 & Hw). rewrite E1 in Hw.
  assert (q :: l ⊆ U) as HqU by (intros y Hy; apply elem_of_cons in Hy as [->|Hy]; auto).
  assert (goes_on (trace s1) (trace s2)) as M2 by (by exists t2).
  apply wp_bind. eapply wp_mono; [apply wp_unlink; try done; by eapply ring_kept|]. cbn beta.
  intros out s3 (E3 & [t3 T3] & Hout). apply wp_ret. split; [congruence|]. split; [|exact Hout].
  exists t1, t2, t3. rewrite T3, T2, T1. split; [done|]. split; [done|]. intros u u' ->. rewrite <- T1.
  eapply ring_kept; [|done|exact R1]. apply (goes_on_part u u'). by rewrite app_assoc, <- T2.
Qed.
End Ring.

(** C15: a transfer on the asynchronous schedule, in shared memory whose horizontal links only the driver
    stores. The transfer ends, whatever the controller answers. There is a stretch of the history, the
    wait, all through which the queue head stands in front of the others, in a ring that leads back to
    its start, and in which the driver looks at the tokens of the three descriptors once a round; the
    answer is what these tokens say in the first round in which they say something, of at most 500, or
    the timeout when they never do ([waited_in]). When [run_transfer] says that
    the queue head is out, so that the callers free its memory, then the ring is the one of before, and
    after it had become that the doorbell was rung and the controller has answered that it does not hold
    the queue head any more. Otherwise the ring is the one of before or still has the queue head in
    front: it never leads anywhere else. *)
Theorem ehci_transfer_correct {W} `{!IO W} `{!HeapOps W} `{!DmaOps W} `{!UsbHost W} (timer : TimerSource W) (dev : device)
    (op a ap : Z) (U : list queue_head) (q : queue_head) (l : list queue_head) (setup data status : Z)
    (s : driver W ehci_controller) :
  (forall ms (w : W), 0 <= ms < 1000 -> wp (wait_ms timer ms) (fun _ w' => goes_on op (trace w) (trace w')) w) ->
  ring_ok dev op a U -> async_head (obj s) = a -> async_head_phys (obj s) = ap -> 0 <= ap < 2 ^ 32 - 2 ->
  q ∈ U -> q ∉ l -> l ⊆ U -> NoDup l -> ring a ap (trace s) l ->
  exists result received out s', run_transfer dev timer op (qh_virt q) (qh_phys q) setup data status s = Done (result, received, out) s' /\
    obj s' = obj s /\
    (exists t1 t2 t3, trace s' = t3 ++ t2 ++ t1 ++ trace s /\
       waited_in a ap (q :: l) setup data status (REQUESTED_BYTES (obj s)) (t1 ++ trace s) t2 (result, received)) /\
    if (out : bool) then ring a ap (trace s') l /\ acknowledged op a ap l (trace s')
    else ring a ap (trace s') l \/ ring a ap (trace s') (q :: l).
Proof.
  intros Htime HU Ea Eap Hap Hq Hn Hl Hnd Hr.
  destruct (wp_inv _ _ _ (wp_run_transfer timer dev op a ap U Htime HU q l setup data status s Ea Eap Hap Hq Hn Hl Hnd Hr))
    as ([[res got] out] & s' & E & H). by exists res, got, out, s'.
Qed.

(** Registers whose status says that the doorbell was heard, and memory; one queue head is in the ring. *)
Import Toy.
#[local] Instance toy_usb : UsbHost toy := {|
  host_pci _ := sample_pci; host_set_pci _ s := s;
  host_usb _ := mkUsb [] [] [] [] 0 0; host_set_usb _ s := s
|}.
Definition heard : device := fun t sp w x =>
  match sp with Mmio => if x =? 0x9004 then 0x20 else value_at (Z.to_nat w) t x | _ => 0 end.
Definition sample_heads := [mkHead 0x2000 0x2000; mkHead 0x3000 0x3000].
Definition sample_ring : driver toy ehci_controller :=
  mkDriver (mkToy [Wr Mmio 4 0x1000 0x3002; Wr Mmio 4 0x3000 0x1002] [] [] 100)
    (mkEhci (mkController true false [] 0 (mkAddr 0 0 0 0) no_bar 0x8F00 0x0c 0x03 0x20 0)
       None 2 0x9000 0x1000 0x1000 [] 0 0 8 1).

Lemma sample_ring_ok : ring_ok heard 0x9000 0x1000 sample_heads.
Proof.
  assert (forall v, place 0x1000 sample_heads v -> v = 0x1000 \/ v = 0x2000 \/ v = 0x3000) as Hp.
  { intros v [->|(q & -> & Hq)]; [by left|]. right.
    repeat (apply elem_of_cons in Hq as [->|Hq]); [by left|by right|by apply elem_of_nil in Hq]. }
  constructor.
  - intros q Hq. repeat (apply elem_of_cons in Hq as [->|Hq]); [..|by apply elem_of_nil in Hq];
      (split; [vm_compute; by left|]; intros q' Hq' Hne; repeat (apply elem_of_cons in Hq' as [->|Hq']);
       [..|by apply elem_of_nil in Hq']; try done; (split; [vm_compute|done]); (by left) || by right).
  - intros q Hq. repeat (apply elem_of_cons in Hq as [->|Hq]); [unfold head_ok; cbn; split_and!; (done || lia)..|by apply elem_of_nil in Hq].
  - intros v Hv. apply Hp in Hv. lia.
  - intros t v Hv. apply Hp in Hv. unfold io_value, heard. rewrite (proj2 (Z.eqb_neq _ _)) by lia. apply Z.mod_small, value_range.
Qed.
Lemma toy_goes_on ms (w : toy) : 0 <= ms < 1000 -> wp (wait_ms toy_timer ms) (fun _ w' => goes_on 0x9000 (trace w) (trace w')) w.
Proof.
  intros Hms. apply (clock_law (fun w' => goes_on 0x9000 (trace w) (trace w')) toy_timer _ _ _ _ toy_advancing); try done.
  - by intros w' Hw.
  - intros w' Hw. cbn. eapply goes_on_trans; [exact Hw|]. by apply goes_on_one.
  - apply goes_on_refl.
Qed.

Lemma ehci_transfer_correct_witness :
  exists result received out s', run_transfer heard toy_timer 0x9000 0x2000 0x2000 0x2060 0 0x20a0 sample_ring = Done (result, received, out) s' /\
    obj s' = obj sample_ring /\
    (exists t1 t2 t3, trace s' = t3 ++ t2 ++ t1 ++ trace sample_ring /\
       waited_in 0x1000 0x1000 sample_heads 0x2060 0 0x20a0 8 (t1 ++ trace sample_ring) t2 (result, received)) /\
    if (out : bool) then ring 0x1000 0x1000 (trace s') [mkHead 0x3000 0x3000] /\
                         acknowledged 0x9000 0x1000 0x1000 [mkHead 0x3000 0x3000] (trace s')
    else ring 0x1000 0x1000 (trace s') [mkHead 0x3000 0x3000] \/ ring 0x1000 0x1000 (trace s') sample_heads.
Proof.
  refine (ehci_transfer_correct toy_timer heard 0x9000 0x1000 0x1000 sample_heads (mkHead 0x2000 0x2000) [mkHead 0x3000 0x3000]
    0x2060 0 0x20a0 sample_ring _ _ _ _ _ _ _ _ _ _).
  - apply toy_goes_on.
  - apply sample_ring_ok.
  - reflexivity.
  - reflexivity.
  - vm_compute. split; [done|reflexivity].
  - by left.
  - intros Hin. apply list_elem_of_singleton in Hin. done.
  - intros y Hy. by right.
  - apply NoDup_singleton.
  - done.
Defined.
