(* ===== verification/AcpiPm.v ===== *)
(** * ACPI power management ([drivers/acpiPM.cpp])

    The fixed registers from the FADT, the sleep types from the DSDT's [_S5_] package, and what
    shutting down and resetting store. *)
From S2P Require Import KPrelude MemHelpers Paging Bytes Acpi PortIO Timers.

Definition IO_SPACE := 1.
Definition FACP : list Z := [70; 65; 67; 80].
(** The characters of [is_s5]. *)
Definition S5 : list Z := [95; 83; 53; 95].

Record ACPIAddress := mkAcpiAddress { address_space_id : Z; reg_address : Z }.
Record AcpiPmRegs := mkPmRegs {
  pm1a_type : Z;
  pm1b_type : Z;
  pm1a_event : Z;
  pm1b_event : Z;
  pm1a_control : Z;
  pm1b_control : Z;
  pm_timer : Z;
  dsdt_at : Z;
  reset_reg : ACPIAddress;
  reset_value : Z
}.

Section AcpiPm.
Context {S : Type} (mem : Z -> option Z).

(** The comparison stops at the first character that differs. *)
Definition is_s5 (name : Z) : M S bool := matches mem name S5.

(** 1 stands for not found. *)
Definition search_for_s5 (data_base length_ : Z) : M S Z :=
  while FUEL (fun i =>
    if i <? u64 (data_base + length_) then
      found ← is_s5 i;
      mret (if (found : bool) then inr i else inl (u64 (i + 1)))
    else mret (inr 1)) data_base.

(** The address behind the object, and its value. *)
Definition aml_parse (aml_base : Z) : M S (Z * Z) :=
  type ← byte mem aml_base;
  if type =? 0x00 then mret (u64 (aml_base + 1), 0)
  else if type =? 0x01 then mret (u64 (aml_base + 1), 1)
  else if type =? 0xFF then mret (u64 (aml_base + 1), u64 (Z.lnot 0))
  else
    let aml_base' := u64 (aml_base + 1) in
    if type =? 0x0A then v ← byte mem aml_base'; mret (u64 (aml_base' + 1), v)
    else if type =? 0x0B then v ← le16 mem aml_base'; mret (u64 (aml_base' + 2), v)
    else if type =? 0x0C then v ← le32 mem aml_base'; mret (u64 (aml_base' + 4), v)
    else if type =? 0x0E then v ← le64 mem aml_base'; mret (u64 (aml_base' + 8), v)
    else mret (aml_base', 0xFF).

Definition find_types (s5_base : Z) : M S (Z * Z) :=
  '(base, pm1a) ← aml_parse (u64 (s5_base + 7));
  '(_, pm1b) ← aml_parse base;
  mret (pm1a, pm1b).

(** The sleep types that the DSDT at [dsdt] gives. *)
Definition sleep_types (dsdt : Z) : M S (Z * Z) :=
  len ← le32 mem (dsdt + 4);
  s5_base ← search_for_s5 (u64 (dsdt + SDT_SIZE)) (u64 (len - SDT_SIZE));
  if s5_base =? 1 then mret (0xFF, 0xFF) else find_types s5_base.
End AcpiPm.

Definition KEYBOARD_RESET : ACPIAddress := mkAcpiAddress IO_SPACE 0x64.

Section Constructor.
Context (mem : Z -> option Z).

(** The pages of the DSDT. *)
Definition map_dsdt (dsdt : Z) : M timer_state unit :=
  let dsdt_virt := u64 (dsdt + BASE) in
  root ← on_pg (gets KernelPML4);
  on_pg (create_mapping dsdt_virt dsdt 1 0x03 root);;
  on_pg (flush_pages dsdt_virt 1);;
  len ← le32 mem (dsdt_virt + 4);
  let pages := (len + 4095) >>> 12 in
  root ← on_pg (gets KernelPML4);
  on_pg (create_mapping dsdt_virt dsdt (pages + 1) 0x03 root);;
  on_pg (flush_pages dsdt_virt pages).

(** The reset register of the FADT, or the keyboard controller. *)
Definition reset_descriptor (fadt : Z) : M timer_state (ACPIAddress * Z) :=
  flags ← le32 mem (fadt + 112);
  if flags &&& (1 <<< 10) =? 0 then mret (KEYBOARD_RESET, 0xFE)
  else
    id ← byte mem (fadt + 116);
    address ← le64 mem (fadt + 120);
    (if id =? MMIO then
       root ← on_pg (gets KernelPML4);
       on_pg (create_mapping (u64 (BASE + address) &&& u64 (Z.lnot 0xFFF))
                (address &&& u64 (Z.lnot 0xFFF)) 1 0x13 root)
     else mret ());;
    value ← byte mem (fadt + 128);
    mret (mkAcpiAddress id (if id =? MMIO then u64 (address + BASE) else address), value).

Definition AcpiPM : M timer_state AcpiPmRegs :=
  ret ← on_acpi (ACPI_discovery mem FACP);
  let fadt := ret_table ret in
  if fadt =? 0 then mret (mkPmRegs 0 0 0 0 0 0 0 0 KEYBOARD_RESET 0xFE)
  else
    ea ← le32 mem (fadt + 56);
    eb ← le32 mem (fadt + 60);
    ca ← le32 mem (fadt + 64);
    cb ← le32 mem (fadt + 68);
    tmr ← le32 mem (fadt + 76);
    dsdt ← le32 mem (fadt + 40);
    map_dsdt dsdt;;
    '(ta, tb) ← sleep_types mem (u64 (dsdt + BASE));
    '(reg, value) ← reset_descriptor fadt;
    mret (mkPmRegs ta tb ea eb ca cb tmr (u64 (dsdt + BASE)) reg value).
End Constructor.

Section Power.
Context {S : Type} `{!IO S} (dev : device).

(** The stores of a reset; the processor halts behind them, for ever. *)
Definition reset_access (regs : AcpiPmRegs) : M S unit :=
  let ResReg := reset_reg regs in
  let ResBase := reg_address ResReg in
  if (ResBase =? 0x64) && (address_space_id ResReg =? IO_SPACE) then
    while FUEL (fun _ : unit =>
      status ← inb dev (u16 ResBase);
      mret (if status &&& 0x02 =? 0 then inr () else inl ())) ();;
    outb (u16 ResBase) (reset_value regs)
  else io_outb ResBase (reset_value regs) (address_space_id ResReg).
Definition AcpiReset (regs : AcpiPmRegs) : M S unit := reset_access regs;; hang.

Definition SLP_EN := 1 <<< 13.
Definition SLP_TYP (x : Z) : Z := u64 ((x &&& 7) <<< 10).

Definition AcpiShutDown (regs : AcpiPmRegs) : M S unit :=
  (if negb (pm1a_control regs =? 0) && negb (pm1a_type regs =? 0xFF)
   then outw (u16 (pm1a_control regs)) (u16 (SLP_TYP (pm1a_type regs) ||| SLP_EN)) else mret ());;
  (if negb (pm1b_control regs =? 0) && negb (pm1b_type regs =? 0xFF)
   then outw (u16 (pm1b_control regs)) (u16 (SLP_TYP (pm1b_type regs) ||| SLP_EN)) else mret ()).
End Power.

(** ** Shutting down *)

(** Memory holds the bytes [bs] at [a]. *)
Definition holds_bytes (mem : Z -> option Z) (a : Z) (bs : list Z) : Prop :=
  forall i b, bs !! i = Some b -> mem (a + Z.of_nat i) = Some b.

(** The encodings of an AML integer. *)
Inductive aml_integer : list Z -> Z -> Prop :=
| ZeroOp : aml_integer [0x00] 0
| OneOp : aml_integer [0x01] 1
| OnesOp : aml_integer [0xFF] (2 ^ 64 - 1)
| BytePrefix v : 0 <= v < 2 ^ 8 -> aml_integer (0x0A :: bytes_of 1 v) v
| WordPrefix v : 0 <= v < 2 ^ 16 -> aml_integer (0x0B :: bytes_of 2 v) v
| DWordPrefix v : 0 <= v < 2 ^ 32 -> aml_integer (0x0C :: bytes_of 4 v) v
| QWordPrefix v : 0 <= v < 2 ^ 64 -> aml_integer (0x0E :: bytes_of 8 v) v.

Section Shutdown.
Context {S : Type} (mem : Z -> option Z).

Lemma held_cons a b bs : holds_bytes mem a (b :: bs) -> mem a = Some b /\ holds_bytes mem (a + 1) bs.
Proof.
  intros H. split; [rewrite <- (Z.add_0_r a); by apply (H 0%nat)|]. intros i c Hc.
  replace (a + 1 + Z.of_nat i) with (a + Z.of_nat (Datatypes.S i)) by lia. by apply H.
Qed.

Lemma held_app a bs bs' : holds_bytes mem a (bs ++ bs') ->
  holds_bytes mem a bs /\ holds_bytes mem (a + Z.of_nat (length bs)) bs'.
Proof.
  intros H. split; intros i b Hb.
  - apply H. rewrite lookup_app_l by (by eapply lookup_lt_Some). done.
  - rewrite <- Z.add_assoc, <- Nat2Z.inj_add. apply H. rewrite lookup_app_r by lia. by replace (length bs + i - length bs)%nat with i by lia.
Qed.

Lemma wp_held_byte a b bs (Q : Z -> S -> Prop) s : holds_bytes mem a (b :: bs) -> Q b s -> wp (byte mem a) Q s.
Proof. intros H HQ. apply held_cons in H as [H _]. unfold byte. apply wp_of_option. by exists b. Qed.

Lemma wp_held_le n : forall a v (Q : Z -> S -> Prop) s, holds_bytes mem a (bytes_of n v) -> 0 <= v < 256 ^ Z.of_nat n ->
  Q v s -> wp (le mem n a) Q s.
Proof.
  induction n as [|n IH]; intros a v Q s H Hv HQ; cbn [le bytes_of] in *.
  - change (256 ^ Z.of_nat 0) with 1 in Hv. apply wp_ret. by replace 0 with v by lia.
  - rewrite Nat2Z.inj_succ, Z.pow_succ_r in Hv by lia. apply wp_bind. eapply wp_held_byte; [exact H|].
    apply wp_bind. apply (IH _ (v / 256)); [by apply held_cons in H as [_ H]|divlia|]. apply wp_ret.
    by replace (v mod 256 + 256 * (v / 256)) with v by divlia.
Qed.

Lemma wp_held_matches sig : forall a l (Q : bool -> S -> Prop) s, holds_bytes mem a l -> (length sig <= length l)%nat ->
  Q (bool_decide (sig `prefix_of` l)) s -> wp (matches mem a sig) Q s.
Proof.
  induction sig as [|c sig IH]; intros a l Q s H Hl HQ; cbn [matches].
  - apply wp_ret. by rewrite bool_decide_true in HQ by apply prefix_nil.
  - destruct l as [|b l]; cbn [length] in Hl; [lia|]. apply wp_bind. eapply wp_held_byte; [exact H|].
    destruct (Z.eqb_spec b c) as [->|Hbc].
    + apply (IH _ l); [by apply held_cons in H as [_ H]|lia|].
      rewrite (bool_decide_ext _ (sig `prefix_of` l)) in HQ; [done|].
      split; [apply prefix_cons_inv_2|apply prefix_cons].
    + apply wp_ret. rewrite bool_decide_false in HQ; [done|]. intros [k Hk]. by injection Hk.
Qed.

Lemma wp_aml_parse a bs v rest (Q : Z * Z -> S -> Prop) s : aml_integer bs v -> holds_bytes mem a (bs ++ rest) ->
  0 <= a -> a + 9 < 2 ^ 64 -> Q (a + Z.of_nat (length bs), v) s -> wp (aml_parse mem a) Q s.
Proof.
  change (2 ^ 64) with 18446744073709551616.
  intros He H Ha Hlim HQ. unfold aml_parse. apply wp_bind.
  assert (exists b bs', bs = b :: bs') as (b & bs' & Eb) by (destruct He; eauto).
  eapply wp_held_byte; [rewrite Eb in H; exact H|].
  assert (holds_bytes mem (a + 1) (bs' ++ rest)) as Ht by (rewrite Eb in H; by apply held_cons in H as [_ H]).
  apply held_app in Ht as [Ht _]. rewrite (u64_id (a + 1)) by (change (2 ^ 64) with 18446744073709551616; lia).
  destruct He; injection Eb as <- <-; cbn [Z.eqb Pos.eqb length] in *.
  1-3: apply wp_ret; exact HQ.
  all: apply wp_bind.
  1: eapply wp_held_byte; [exact Ht|]; apply wp_ret;
     rewrite Z.mod_small, u64_id by (change (2 ^ 64) with 18446744073709551616; change (2 ^ 8) with 256 in *; lia);
     by replace (a + 1 + 1) with (a + Z.of_nat 2) by lia.
  all: eapply wp_held_le; [exact Ht|cbn; lia|]; apply wp_ret; rewrite u64_id by (change (2 ^ 64) with 18446744073709551616; lia);
     rewrite bytes_of_length in HQ; rewrite <- Z.add_assoc; exact HQ.
Qed.

(** The bytes of the definition block, from [i] on, hold the name first at [k]. *)
Lemma wp_search_s5 base data k (s : S) : holds_bytes mem base data -> 0 <= base -> base + Z.of_nat (length data) + 1 < 2 ^ 64 ->
  (k + 4 <= length data)%nat -> S5 `prefix_of` drop k data ->
  (forall j, (j < k)%nat -> ~ S5 `prefix_of` drop j data) ->
  wp (search_for_s5 mem base (Z.of_nat (length data))) (fun r s' => r = base + Z.of_nat k /\ s' = s) s.
Proof.
  intros H Hb Hlim Hk Hat Hno. unfold search_for_s5.
  apply (wp_while _ (fun i s' => s' = s /\ exists j, i = base + Z.of_nat j /\ (j <= k)%nat)
    (fun i _ => base + Z.of_nat k + 1 - i)).
  - intros i s' (-> & j & -> & Hj). rewrite (u64_id (base + _)) by lia. rewrite (proj2 (Z.ltb_lt _ _)) by lia.
    apply wp_bind. unfold is_s5. apply (wp_held_matches _ _ (drop j data)).
    + rewrite <- (take_drop j data) in H. apply held_app in H as [_ H]. by rewrite length_take_le in H by lia.
    + rewrite length_drop. cbn. lia.
    + apply wp_ret. case_bool_decide as Hd.
      * destruct (decide (j = k)) as [->|Hne]; [done|]. by destruct (Hno j ltac:(lia)).
      * assert (j <> k) by (intros ->; done). rewrite u64_id by lia. split; [|lia]. split; [done|].
        exists (Datatypes.S j). split; lia.
  - split; [done|]. exists 0%nat. split; lia.
  - unfold FUEL. lia.
Qed.

(** A definition block at [dsdt]: its header, whose length is that of the whole, and its body. *)
Definition block (dsdt : Z) (header body : list Z) : Prop :=
  holds_bytes mem dsdt (header ++ body) /\ length header = 36%nat /\
  take 4 (drop 4 header) = bytes_of 4 (Z.of_nat (36 + length body)) /\
  0 <= dsdt /\ dsdt + Z.of_nat (36 + length body) + 16 < 2 ^ 64 /\ Z.of_nat (36 + length body) < 2 ^ 32.

(** The first [_S5_] of the body, and the two integers its package starts with. *)
Definition s5_package (body : list Z) (a b : Z) : Prop :=
  exists pre len n ea eb rest, body = pre ++ S5 ++ [0x12; len; n] ++ ea ++ eb ++ rest /\
    (forall j, (j < length pre)%nat -> ~ S5 `prefix_of` drop j body) /\ aml_integer ea a /\ aml_integer eb b.

Lemma wp_sleep_types dsdt header body a b (s : S) : block dsdt header body -> s5_package body a b ->
  wp (sleep_types mem dsdt) (fun r s' => r = (a, b) /\ s' = s) s.
Proof.
  intros (H & Hh & Hl & H0 & Hlim & Hshort) (pre & len & n & ea & eb & rest & Eb & Hno & Ha & Hb).
  change (2 ^ 64) with 18446744073709551616 in *. change (2 ^ 32) with 4294967296 in *.
  unfold sleep_types, SDT_SIZE. apply wp_bind.
  assert (holds_bytes mem (dsdt + 4) (bytes_of 4 (Z.of_nat (36 + length body)))) as Hlen.
  { apply held_app in H as [H _]. rewrite <- (take_drop 4 header) in H. apply held_app in H as [_ H].
    rewrite length_take_le in H by lia. rewrite <- (take_drop 4 (drop 4 header)) in H. apply held_app in H as [H _].
    by rewrite Hl in H. }
  eapply wp_held_le; [exact Hlen|cbn; lia|]. apply wp_bind.
  rewrite !u64_id by (change (2 ^ 64) with 18446744073709551616; lia).
  replace (Z.of_nat (36 + length body) - 36) with (Z.of_nat (length body)) by lia.
  apply held_app in H as [_ H]. rewrite Hh in H.
  assert (length body = length pre + (7 + (length ea + (length eb + length rest))))%nat as Hbody
    by (rewrite Eb, !length_app; cbn; lia).
  eapply wp_mono; [apply (wp_search_s5 _ _ (length pre)); [exact H|lia| |lia| |exact Hno]|].
  { change (2 ^ 64) with 18446744073709551616. lia. }
  { rewrite Eb, drop_app_length. by exists ([0x12; len; n] ++ ea ++ eb ++ rest). }
  cbn beta. intros r s' [-> ->]. rewrite (proj2 (Z.eqb_neq _ _)) by lia. unfold find_types. apply wp_bind.
  rewrite u64_id by (change (2 ^ 64) with 18446744073709551616; lia).
  rewrite Eb in H. apply held_app in H as [_ H].
  change (S5 ++ [0x12; len; n] ++ ea ++ eb ++ rest) with ((S5 ++ [0x12; len; n]) ++ ea ++ eb ++ rest) in H.
  apply held_app in H as [_ H]. cbn [length app S5] in H.
  assert (length ea <= 9 /\ length eb <= 9 /\ 1 <= length ea /\ 1 <= length eb)%nat as (? & ? & ? & ?)
    by (destruct Ha, Hb; cbn; lia).
  replace (dsdt + 36 + Z.of_nat (length pre) + 7) with (dsdt + Z.of_nat 36 + Z.of_nat (length pre) + Z.of_nat 7) by lia.
  eapply wp_aml_parse; [exact Ha|exact H|lia|change (2 ^ 64) with 18446744073709551616; lia|].
  apply held_app in H as [_ H]. apply wp_bind.
  eapply wp_aml_parse; [exact Hb|exact H|lia|change (2 ^ 64) with 18446744073709551616; lia|]. by apply wp_ret.
Qed.
End Shutdown.

(** What a shutdown stores at one control port. *)
Definition power_store (port type : Z) : list event :=
  if (port =? 0) || (type =? 0xFF) then [] else [Wr Port 2 (port mod 2 ^ 16) (2 ^ 13 + 2 ^ 10 * (type mod 8))].

Lemma slp_value type : u16 (u16 (SLP_TYP type ||| SLP_EN)) = 2 ^ 13 + 2 ^ 10 * (type mod 8).
Proof.
  unfold SLP_TYP, SLP_EN. change 7 with (Z.ones 3). rewrite Z.land_ones by lia. change (2 ^ 3) with 8.
  pose proof (Z.mod_pos_bound type 8 ltac:(lia)). rewrite shiftl_mul by lia. change (2 ^ 10) with 1024.
  rewrite u64_id by (change (2 ^ 64) with 18446744073709551616; lia).
  assert (forall k, 0 <= k < 8 -> u16 (u16 (k * 1024 ||| 1 <<< 13)) = 2 ^ 13 + 1024 * k) as Hk; [|by apply Hk].
  intros k Hk. assert (k = 0 \/ k = 1 \/ k = 2 \/ k = 3 \/ k = 4 \/ k = 5 \/ k = 6 \/ k = 7) as Hc by lia.
  repeat destruct Hc as [-> | Hc]; try subst k; reflexivity.
Qed.

Lemma power_run {S} `{!IO S} port type (s : S) :
  (if negb (port =? 0) && negb (type =? 0xFF) then outw (u16 port) (u16 (SLP_TYP type ||| SLP_EN)) else mret ()) s =
  Done () (set_trace (power_store port type ++ trace s) s).
Proof.
  unfold power_store. destruct (port =? 0); cbn [negb andb orb app]; [by rewrite set_trace_same|].
  destruct (type =? 0xFF); cbn [negb andb orb app]; [by rewrite set_trace_same|].
  unfold outw, io_write. by rewrite slp_value.
Qed.

Lemma shutdown_run {S} `{!IO S} regs (s : S) : AcpiShutDown regs s =
  Done () (set_trace (power_store (pm1b_control regs) (pm1b_type regs) ++
                      power_store (pm1a_control regs) (pm1a_type regs) ++ trace s) s).
Proof.
  unfold AcpiShutDown, mbind, M_bind. rewrite power_run. cbn beta iota. rewrite power_run.
  by rewrite trace_set, set_trace_twice.
Qed.

(** C34: when the first [_S5_] of the DSDT names a package whose first two elements are integers, in
    any of AML's encodings, the constructor reads those as the sleep types; a shutdown then stores,
    at each control port the FADT names and in this order, the lowest three bits of its type in the
    field SLP_TYP together with SLP_EN, and nothing else, except that nothing is stored for the
    type 0xFF. *)
Theorem shutdown_correct {S} `{!IO S} (mem : Z -> option Z) (dsdt : Z) (header body : list Z) (a b : Z)
    (regs : AcpiPmRegs) (s : S) :
  block mem dsdt header body -> s5_package body a b -> pm1a_type regs = a -> pm1b_type regs = b ->
  sleep_types mem dsdt s = Done (a, b) s /\
  exists s', AcpiShutDown regs s = Done () s' /\
    trace s' = power_store (pm1b_control regs) b ++ power_store (pm1a_control regs) a ++ trace s.
Proof.
  intros Hb H5 Ha Hbt. split.
  - by destruct (wp_inv _ _ _ (wp_sleep_types mem _ _ _ _ _ s Hb H5)) as (r & s' & E & -> & ->).
  - eexists. split; [apply (shutdown_run regs)|]. rewrite trace_set, <- Ha, <- Hbt. by rewrite app_assoc.
Qed.

(** A block with the types 5 and 1. *)
Definition sample_body : list Z := [0x08] ++ S5 ++ [0x12; 0x08; 4] ++ [0x0A; 5] ++ [0x01] ++ [0; 0].
Definition sample_header : list Z := [68; 83; 68; 84; 49; 0; 0; 0] ++ replicate 28 0.
Definition sample_block : Z -> option Z := fun p =>
  if p <? 0x1000 then None else (sample_header ++ sample_body) !! Z.to_nat (p - 0x1000).
Definition sample_regs : AcpiPmRegs := mkPmRegs 5 1 0 0 0x604 0x608 0 0x1000 KEYBOARD_RESET 0xFE.

#[local] Instance history_IO : IO (list event).
Proof. by refine {| trace t := t; set_trace t _ := t |}. Defined.

Lemma shutdown_correct_witness :
  sleep_types sample_block 0x1000 ([] : list event) = Done (5, 1) [] /\
  exists s', AcpiShutDown sample_regs ([] : list event) = Done () s' /\
    trace s' = power_store 0x608 1 ++ power_store 0x604 5 ++ [].
Proof.
  refine (shutdown_correct sample_block 0x1000 sample_header sample_body 5 1 sample_regs ([] : list event) _ _ eq_refl eq_refl).
  - split; [|repeat split; vm_compute; congruence].
    intros i b Hi. unfold sample_block. rewrite (proj2 (Z.ltb_ge _ _)) by lia.
    by replace (Z.to_nat (0x1000 + Z.of_nat i - 0x1000)) with i by lia.
  - exists [0x08], 0x08, 4, [0x0A; 5], [0x01], [0; 0]. split; [reflexivity|]. split.
    + intros [|j] Hj; cbn in Hj; [|lia]. intros [k Hk]. discriminate Hk.
    + split; [apply (BytePrefix 5); lia|apply OneOp].
Defined.
