(* ===== verification/Ps2.v ===== *)
(** * PS/2 keyboard ([drivers/keyboard])

    The controller's initialisation, the translation of scan codes, and the interrupt handler with
    its two buffers. *)
From S2P Require Import KPrelude PortIO UsbTypes AcpiPm.

(** ** Scan codes *)

Record KeyMap := mkKey { km_scancode : Z; km_normal : Z; km_shifted : Z }.

(** Characters are their codes. *)
Definition keymap : list KeyMap := [
  mkKey 0x02 49 33; mkKey 0x03 50 64; mkKey 0x04 51 35; mkKey 0x05 52 36; mkKey 0x06 53 37;
  mkKey 0x07 54 94; mkKey 0x08 55 38; mkKey 0x09 56 42; mkKey 0x0A 57 40; mkKey 0x0B 48 41;
  mkKey 0x0C 45 95; mkKey 0x0D 61 43; mkKey 0x0E 8 8; mkKey 0x0F 9 9;
  mkKey 0x10 113 81; mkKey 0x11 119 87; mkKey 0x12 101 69; mkKey 0x13 114 82; mkKey 0x14 116 84;
  mkKey 0x15 121 89; mkKey 0x16 117 85; mkKey 0x17 105 73; mkKey 0x18 111 79; mkKey 0x19 112 80;
  mkKey 0x1A 91 123; mkKey 0x1B 93 125; mkKey 0x1C 10 10;
  mkKey 0x1E 97 65; mkKey 0x1F 115 83; mkKey 0x20 100 68; mkKey 0x21 102 70; mkKey 0x22 103 71;
  mkKey 0x23 104 72; mkKey 0x24 106 74; mkKey 0x25 107 75; mkKey 0x26 108 76; mkKey 0x27 59 58;
  mkKey 0x28 39 34; mkKey 0x29 96 126; mkKey 0x2B 92 124;
  mkKey 0x2C 122 90; mkKey 0x2D 120 88; mkKey 0x2E 99 67; mkKey 0x2F 118 86; mkKey 0x30 98 66;
  mkKey 0x31 110 78; mkKey 0x32 109 77; mkKey 0x33 44 60; mkKey 0x34 46 62; mkKey 0x35 47 63;
  mkKey 0x37 42 42; mkKey 0x39 32 32; mkKey 0x4A 45 45; mkKey 0x4E 43 43].

Definition lookup_scancode (code : Z) (shift caps_lock : bool) : Z :=
  match List.find (fun k => km_scancode k =? code) keymap with
  | None => 0
  | Some k =>
      let c := km_normal k in
      if (97 <=? c) && (c <=? 122) then (if xorb caps_lock shift then km_shifted k else c)
      else if shift then km_shifted k else c
  end.

(** The static variables of [scancode_to_ascii]. *)
Record decoder := mkDecoder {
  left_shift : bool;
  right_shift : bool;
  caps_lock : bool;
  caps_down : bool;
  num_lock : bool;
  num_down : bool;
  extended : bool;
  pause_bytes : Z
}.
Definition decoder_start : decoder := mkDecoder false false false false false false false 0.
Definition decoder_eta (d : decoder) : decoder :=
  mkDecoder (left_shift d) (right_shift d) (caps_lock d) (caps_down d) (num_lock d) (num_down d)
    (extended d) (pause_bytes d).
Definition set_left_shift : (bool -> bool) -> decoder -> decoder := ltac:(setter decoder_eta left_shift).
Definition set_right_shift : (bool -> bool) -> decoder -> decoder := ltac:(setter decoder_eta right_shift).
Definition set_caps_lock : (bool -> bool) -> decoder -> decoder := ltac:(setter decoder_eta caps_lock).
Definition set_caps_down : (bool -> bool) -> decoder -> decoder := ltac:(setter decoder_eta caps_down).
Definition set_num_lock : (bool -> bool) -> decoder -> decoder := ltac:(setter decoder_eta num_lock).
Definition set_num_down : (bool -> bool) -> decoder -> decoder := ltac:(setter decoder_eta num_down).
Definition set_extended : (bool -> bool) -> decoder -> decoder := ltac:(setter decoder_eta extended).
Definition set_pause_bytes : (Z -> Z) -> decoder -> decoder := ltac:(setter decoder_eta pause_bytes).

(** The digit of a key of the keypad. *)
Definition keypad_digit (code : Z) : Z :=
  if code =? 0x47 then 55 else if code =? 0x48 then 56 else if code =? 0x49 then 57
  else if code =? 0x4B then 52 else if code =? 0x4C then 53 else if code =? 0x4D then 54
  else if code =? 0x4F then 49 else if code =? 0x50 then 50 else if code =? 0x51 then 51
  else if code =? 0x52 then 48 else if code =? 0x53 then 46 else 0.

(** A lock key: it switches when it goes down, not while it is held. *)
Definition lock_key (released down lock : bool) : bool * bool :=
  if released then (false, lock) else if negb down then (true, negb lock) else (down, lock).

(** A key that makes a character. *)
Definition plain_key (d : decoder) (code : Z) : Z :=
  let shift := left_shift d || right_shift d in
  if code =? 0x4A then 45
  else if code =? 0x4E then 43
  else if (0x47 <=? code) && (code <=? 0x53) then
    let c := keypad_digit code in
    if xorb (num_lock d) shift && negb (c =? 0) then c else 0
  else lookup_scancode code shift (caps_lock d).

(** The character, 0 for none. *)
Definition scancode_to_ascii (scancode : Z) (d : decoder) : Z * decoder :=
  if negb (pause_bytes d =? 0) then (0, set_pause_bytes (fun n => n - 1) d)
  else if scancode =? 0xE1 then (0, set_extended (fun _ => false) (set_pause_bytes (fun _ => 5) d))
  else if scancode =? 0xE0 then (0, set_extended (fun _ => true) d)
  else
    let ext := extended d in
    let d := set_extended (fun _ => false) d in
    let released := negb (scancode &&& 0x80 =? 0) in
    let code := scancode &&& 0x7F in
    if ext then
      (if negb released && (code =? 0x1C) then 10
       else if negb released && (code =? 0x35) then 47 else 0, d)
    else if code =? 0x2A then (0, set_left_shift (fun _ => negb released) d)
    else if code =? 0x36 then (0, set_right_shift (fun _ => negb released) d)
    else if code =? 0x3A then
      let '(down, lock) := lock_key released (caps_down d) (caps_lock d) in
      (0, set_caps_down (fun _ => down) (set_caps_lock (fun _ => lock) d))
    else if code =? 0x45 then
      let '(down, lock) := lock_key released (num_down d) (num_lock d) in
      (0, set_num_down (fun _ => down) (set_num_lock (fun _ => lock) d))
    else if released then (0, d)
    else (plain_key d code, d).

(** ** The controller *)

Section Controller.
Context {S : Type} `{!IO S} (dev : device).

(** A status bit, polled 100000 times. *)
Definition ps2_poll (mask : Z) (want : bool) : M S bool :=
  while FUEL (fun i =>
    if i <? 100000 then
      status ← inb dev 0x64;
      mret (if Bool.eqb (negb (status &&& mask =? 0)) want then inr true else inl (i + 1))
    else mret (inr false)) 0.
Definition ps2_wait_input_empty : M S bool := ps2_poll 0x02 false.
Definition ps2_wait_output_full : M S bool := ps2_poll 0x01 true.

Definition ps2_command (command : Z) : M S bool :=
  ok ← ps2_wait_input_empty;
  if negb ok then mret false else outb 0x64 command;; mret true.
Definition ps2_write_data (data : Z) : M S bool :=
  ok ← ps2_wait_input_empty;
  if negb ok then mret false else outb 0x60 data;; mret true.
(** [None] stands for [false]. *)
Definition ps2_read_data : M S (option Z) :=
  ok ← ps2_wait_output_full;
  if negb ok then mret None else v ← inb dev 0x60; mret (Some v).
Definition ps2_write_config (config : Z) : M S bool :=
  ok ← ps2_command 0x60;
  if negb ok then mret false else ps2_write_data config.

(** Pending output is thrown away: at most 32 bytes. *)
Definition ps2_drain : M S unit :=
  while FUEL (fun i =>
    if i <? 32 then
      status ← inb dev 0x64;
      if status &&& 1 =? 0 then mret (inr ()) else inb dev 0x60;; mret (inl (i + 1))
    else mret (inr ())) 0.

(** IRQ1 off, clock on, translation on. *)
Definition quiet_config (config : Z) : Z :=
  (config &&& u8 (Z.lnot (1 <<< 0)) &&& u8 (Z.lnot (1 <<< 4))) ||| (1 <<< 6).

Definition ps2_controller_init : M S bool :=
  ok ← ps2_command 0xAD;
  if negb ok then mret false else
  ok ← ps2_command 0xA7;
  if negb ok then mret false else
  ps2_drain;;
  ok ← ps2_command 0x20;
  if negb ok then mret false else
  config ← ps2_read_data;
  match config with
  | None => mret false
  | Some config =>
      let config := quiet_config config in
      ok ← ps2_write_config config;
      if negb ok then mret false else
      ok ← ps2_command 0xAE;
      if negb ok then mret false else
      ok ← ps2_write_data 0xF4;
      if negb ok then mret false else
      response ← ps2_read_data;
      match response with
      | None => mret false
      | Some response =>
          if negb (response =? 0xFA) then mret false
          else ps2_write_config (config ||| (1 <<< 0))
      end
  end.
End Controller.

(** ** The interrupt *)

(** The members of [keyboard] that the handler uses. *)
Record keyboard := mkKeyboard {
  scancode_top : Z;
  ascii_top : Z;
  buffer : list Z;
  ascii : list Z
}.

Record keyboard_state (W : Type) := mkKeyboardState {
  kb_world : W;
  set : bool;
  globalkeyboard : option keyboard;
  kb_decoder : decoder;
  keyboard_irq_count : Z
}.
Arguments mkKeyboardState {W}.
Arguments kb_world {W}.
Arguments set {W}.
Arguments globalkeyboard {W}.
Arguments kb_decoder {W}.
Arguments keyboard_irq_count {W}.

Section Keyboard.
Context {W : Type} `{!IO W} `{!HeapOps W} (dev : device) (acpi : AcpiPmRegs).
(** What the buffers of a new object hold. *)
Context (stale_buffer stale_ascii : list Z).

#[export] Instance keyboard_IO : IO (keyboard_state W).
Proof.
  refine {| trace s := trace (kb_world s);
            set_trace t s := mkKeyboardState (set_trace t (kb_world s)) (set s) (globalkeyboard s)
                               (kb_decoder s) (keyboard_irq_count s) |}.
  - intros t s. apply trace_set.
  - intros t u s. cbn. by rewrite set_trace_twice.
  - intros [w ? ? ? ?]. cbn. by rewrite set_trace_same.
Defined.

Abbreviation MK := (M (keyboard_state W)).

Definition on_world {A} (m : M W A) : MK A :=
  zoom kb_world (fun w s => mkKeyboardState w (set s) (globalkeyboard s) (kb_decoder s)
                              (keyboard_irq_count s)) m.

(** [new GlobalKeyboard], with its [PS2K]: [init] clears a member of the derived class only, and
    the two indices start at 0. *)
Definition GlobalKeyboard : MK keyboard :=
  p ← on_world (operator_new 24);
  q ← (if p =? 0 then fault else on_world (operator_new 1056));
  if q =? 0 then fault else mret (mkKeyboard 0 0 stale_buffer stale_ascii).

(** The stores of one scan code; outside of a buffer is a fault. *)
Definition put {A} (l : list A) (i : Z) (v : A) : MK (list A) :=
  of_option (array_get l i);; mret (<[Z.to_nat i := v]> l).

Definition record_scancode (scancode : Z) : MK unit :=
  k ← gets globalkeyboard;
  k ← of_option k;
  b ← put (buffer k) (scancode_top k) scancode;
  d ← gets kb_decoder;
  let '(c, d) := scancode_to_ascii scancode d in
  '(a, top) ← (if negb (c =? 0) && (scancode &&& 0x80 =? 0) then
                 a ← put (ascii k) (ascii_top k) c; mret (a, ascii_top k + 1)
               else mret (ascii k, ascii_top k));
  let wrap i := if i =? 256 then 0 else i in
  modify (fun s => mkKeyboardState (kb_world s) (set s)
    (Some (mkKeyboard (wrap (scancode_top k + 1)) (wrap top) b a)) d
    (u64 (keyboard_irq_count s + 1))).

Definition keyboard_handler : MK unit :=
  ready ← gets set;
  (if (ready : bool) then mret ()
   else
     k ← GlobalKeyboard;
     modify (fun s => mkKeyboardState (kb_world s) true (Some k) (kb_decoder s) (keyboard_irq_count s)));;
  status ← inb dev 0x64;
  if status &&& 1 =? 0 then mret ()
  else
    scancode ← inb dev 0x60;
    (if scancode =? 0x57 then AcpiReset dev acpi
     else if scancode =? 0x58 then AcpiShutDown acpi
     else mret ());;
    record_scancode scancode.
End Keyboard.
