(* ===== verification/Ps2Proofs.v ===== *)
(** * PS/2 keyboard, proofs

    The translation of scan codes against a keyboard as its user sees it, the types of the handler's
    state, and what the initialisation may store. *)
From S2P Require Import KPrelude PortIO UsbTypes AcpiPm Ps2.

(** ** A keyboard and its typist *)

Inductive key :=
| Plain (code : Z)
| Extended (code : Z)
| PauseKey.
#[export] Instance key_eq_dec : EqDecision key.
Proof. solve_decision. Defined.

(** The codes of scan code set 1 end below 0x60; the prefixes lie above. *)
Definition key_ok (k : key) : Prop :=
  match k with Plain c | Extended c => 0 < c < 0x60 | PauseKey => True end.

(** A key goes down (again and again while it is held) and comes up; the Pause key sends all of its
    codes when it goes down. *)
Inductive stroke := Down (k : key) | Up (k : key).
Definition stroke_key (e : stroke) : key := match e with Down k | Up k => k end.
Definition codes (e : stroke) : list Z :=
  match e with
  | Down (Plain c) => [c]
  | Up (Plain c) => [c + 0x80]
  | Down (Extended c) => [0xE0; c]
  | Up (Extended c) => [0xE0; c + 0x80]
  | Down PauseKey => [0xE1; 0x1D; 0x45; 0xE1; 0x9D; 0xC5]
  | Up PauseKey => []
  end.

Definition LeftShift := Plain 0x2A.
Definition RightShift := Plain 0x36.
Definition CapsLock := Plain 0x3A.
Definition NumLock := Plain 0x45.

(** The keys held, and the two locks. *)
Record typist := mkTypist { held : list key; caps : bool; num : bool }.
Definition at_rest : typist := mkTypist [] false false.
Definition shifted (t : typist) : bool := bool_decide (LeftShift ∈ held t \/ RightShift ∈ held t).

Definition press (e : stroke) (t : typist) : typist :=
  match e with
  | Down k =>
      let fresh := bool_decide (k ∉ held t) in
      mkTypist (k :: held t)
        (if bool_decide (k = CapsLock) && fresh then negb (caps t) else caps t)
        (if bool_decide (k = NumLock) && fresh then negb (num t) else num t)
  | Up k => mkTypist (filter (fun k' => k' <> k) (held t)) (caps t) (num t)
  end.

(** The engraving of a key, and the letters' capitals. *)
Definition engraved (c : Z) : option (Z * Z) :=
  (fun k => (km_normal k, km_shifted k)) <$> List.find (fun k => km_scancode k =? c) keymap.
Definition symbol (t : typist) (normal other : Z) : Z :=
  if (97 <=? normal) && (normal <=? 122) then (if xorb (caps t) (shifted t) then normal - 32 else normal)
  else if shifted t then other else normal.

Definition keypad : list (Z * Z) :=
  [(0x47, 55); (0x48, 56); (0x49, 57); (0x4B, 52); (0x4C, 53); (0x4D, 54); (0x4F, 49); (0x50, 50);
   (0x51, 51); (0x52, 48); (0x53, 46)].

(** What a stroke types. *)
Definition typed (e : stroke) (t : typist) : list Z :=
  match e with
  | Down (Extended 0x1C) => [10]
  | Down (Extended 0x35) => [47]
  | Down (Plain c) =>
      if bool_decide (Plain c = LeftShift \/ Plain c = RightShift \/ Plain c = CapsLock \/ Plain c = NumLock) then []
      else match List.find (fun '(k, _) => k =? c) keypad with
           | Some (_, digit) => if xorb (num t) (shifted t) then [digit] else []
           | None => match engraved c with Some (n, o) => [symbol t n o] | None => [] end
           end
  | _ => []
  end.
Fixpoint text (es : list stroke) (t : typist) : list Z :=
  match es with [] => [] | e :: es => typed e t ++ text es (press e t) end.

(** The characters that a sequence of scan codes is translated to, 0 left out. *)
Fixpoint translate (bs : list Z) (d : decoder) : list Z * decoder :=
  match bs with
  | [] => ([], d)
  | b :: bs =>
      let '(c, d) := scancode_to_ascii b d in
      let '(l, d) := translate bs d in
      (if c =? 0 then l else c :: l, d)
  end.

Lemma translate_app l l' d : translate (l ++ l') d =
  let '(x, d) := translate l d in let '(y, d) := translate l' d in (x ++ y, d).
Proof.
  revert d. induction l as [|b l IH]; intros d; cbn [translate app]; [by destruct (translate l' d)|].
  destruct (scancode_to_ascii b d) as [c d1]. rewrite IH. destruct (translate l d1) as [x d2].
  destruct (translate l' d2) as [y d3]. by destruct (c =? 0).
Qed.

(** The decoder's variables say what the keyboard is. *)
Record agrees (d : decoder) (t : typist) : Prop := {
  ag_left : left_shift d = bool_decide (LeftShift ∈ held t);
  ag_right : right_shift d = bool_decide (RightShift ∈ held t);
  ag_caps_down : caps_down d = bool_decide (CapsLock ∈ held t);
  ag_num_down : num_down d = bool_decide (NumLock ∈ held t);
  ag_caps : caps_lock d = caps t;
  ag_num : num_lock d = num t;
  ag_extended : extended d = false;
  ag_pause : pause_bytes d = 0
}.

Lemma code_bits c : 0 <= c < 0x60 -> c &&& 0x80 = 0 /\ c &&& 0x7F = c /\
  (c + 0x80) &&& 0x80 = 0x80 /\ (c + 0x80) &&& 0x7F = c.
Proof.
  intros H. assert (forallb (fun c => (c &&& 0x80 =? 0) && (c &&& 0x7F =? c) && ((c + 0x80) &&& 0x80 =? 0x80) &&
    ((c + 0x80) &&& 0x7F =? c)) (seqZ 0 0x60) = true) as HF by reflexivity.
  rewrite List.forallb_forall in HF. specialize (HF c ltac:(apply list_elem_of_In, elem_of_seqZ; lia)).
  rewrite !andb_true_iff, !Z.eqb_eq in HF. naive_solver.
Qed.

Lemma agrees_shift d t : agrees d t -> left_shift d || right_shift d = shifted t.
Proof.
  intros H. rewrite (ag_left _ _ H), (ag_right _ _ H). unfold shifted. by rewrite bool_decide_or.
Qed.

Lemma keymap_letters : forallb (fun k => implb ((97 <=? km_normal k) && (km_normal k <=? 122))
  (km_shifted k =? km_normal k - 32)) keymap = true.
Proof. reflexivity. Qed.
Lemma keymap_visible : forallb (fun k => (0 <? km_normal k) && (0 <? km_shifted k)) keymap = true.
Proof. reflexivity. Qed.

Lemma lookup_engraved c t : lookup_scancode c (shifted t) (caps t) =
  match engraved c with Some (n, o) => symbol t n o | None => 0 end.
Proof.
  unfold lookup_scancode, engraved. destruct (List.find _ keymap) as [k|] eqn:E; [|done]. cbn [fmap option_fmap option_map].
  unfold symbol. destruct ((97 <=? km_normal k) && (km_normal k <=? 122)) eqn:El; [|done].
  apply List.find_some in E as [Hin _]. pose proof keymap_letters as H. rewrite List.forallb_forall in H.
  specialize (H k Hin). rewrite El in H. cbn in H. apply Z.eqb_eq in H. by rewrite H.
Qed.

Lemma symbol_nonzero c n o t : engraved c = Some (n, o) -> symbol t n o <> 0.
Proof.
  unfold engraved. destruct (List.find _ keymap) as [k|] eqn:E; [|done]. intros Hk. injection Hk as <- <-.
  apply List.find_some in E as [Hin _]. pose proof keymap_visible as H. rewrite List.forallb_forall in H.
  specialize (H k Hin). apply andb_prop in H as [H1 H2]. apply Z.ltb_lt in H1, H2. unfold symbol.
  repeat case_match; lia.
Qed.

Lemma keypad_find c : keypad_digit c = match List.find (fun '(k, _) => k =? c) keypad with Some (_, x) => x | None => 0 end.
Proof.
  unfold keypad_digit, keypad. cbn [List.find]. rewrite !(Z.eqb_sym c). repeat case_match; congruence || done.
Qed.

(** The characters of a plain key that is no modifier. *)
Lemma plain_key_typed d t c : agrees d t -> 
  (if plain_key d c =? 0 then [] else [plain_key d c]) =
  match List.find (fun '(k, _) => k =? c) keypad with
  | Some (_, digit) => if xorb (num t) (shifted t) then [digit] else []
  | None => match engraved c with Some (n, o) => [symbol t n o] | None => [] end
  end.
Proof.
  intros H. unfold plain_key. rewrite (agrees_shift _ _ H), (ag_num _ _ H), (ag_caps _ _ H).
  assert (match List.find (fun '(k, _) => k =? c) keypad with
          | Some (k, _) => k = c /\ 0x47 <= c <= 0x53 /\ c <> 0x4A /\ c <> 0x4E
          | None => (0x47 <=? c) && (c <=? 0x53) = true -> c = 0x4A \/ c = 0x4E end) as Hk.
  { destruct (List.find _ keypad) as [[k x]|] eqn:E.
    - apply List.find_some in E as [Hin Hc]. apply Z.eqb_eq in Hc. cbn in Hin. subst k.
      repeat destruct Hin as [Hin | Hin]; try done; injection Hin as <- <-; lia.
    - intros Hr. apply andb_prop in Hr as [H1 H2]. apply Z.leb_le in H1, H2.
      assert (c = 0x47 \/ c = 0x48 \/ c = 0x49 \/ c = 0x4A \/ c = 0x4B \/ c = 0x4C \/ c = 0x4D \/ c = 0x4E \/
        c = 0x4F \/ c = 0x50 \/ c = 0x51 \/ c = 0x52 \/ c = 0x53) as Hc by lia.
      repeat destruct Hc as [-> | Hc]; try discriminate E; [by left|by right|subst c; discriminate E]. }
  rewrite keypad_find. destruct (List.find _ keypad) as [[k x]|] eqn:E.
  - destruct Hk as (_ & Hr & H1 & H2). rewrite (proj2 (Z.eqb_neq c 0x4A)), (proj2 (Z.eqb_neq c 0x4E)) by done.
    rewrite (proj2 (Z.leb_le 0x47 c)), (proj2 (Z.leb_le c 0x53)) by lia. cbn [andb].
    assert (x <> 0) as Hx.
    { apply List.find_some in E as [Hin _]. cbn in Hin. repeat destruct Hin as [Hin | Hin]; try done; injection Hin as <- <-; lia. }
    rewrite (proj2 (Z.eqb_neq x 0) Hx), andb_true_r. destruct (xorb _ _); [|done]. by rewrite (proj2 (Z.eqb_neq x 0) Hx).
  - destruct (Z.eqb_spec c 0x4A) as [->|H1]; [unfold engraved, symbol; cbn; by destruct (shifted t)|].
    destruct (Z.eqb_spec c 0x4E) as [->|H2]; [unfold engraved, symbol; cbn; by destruct (shifted t)|].
    destruct ((0x47 <=? c) && (c <=? 0x53)) eqn:Er; [destruct (Hk eq_refl); done|].
    rewrite lookup_engraved. destruct (engraved c) as [[n o]|] eqn:Ee; [|done].
    by rewrite (proj2 (Z.eqb_neq _ _) (symbol_nonzero _ _ _ _ Ee)).
Qed.

Lemma held_down (x k : key) (l : list key) : bool_decide (x ∈ k :: l) = bool_decide (x = k) || bool_decide (x ∈ l).
Proof. rewrite <- bool_decide_or. apply bool_decide_ext. apply elem_of_cons. Qed.
Lemma held_up (x k : key) (l : list key) : bool_decide (x ∈ filter (fun k' => k' <> k) l) = bool_decide (x <> k) && bool_decide (x ∈ l).
Proof. rewrite <- bool_decide_and. apply bool_decide_ext. rewrite list_elem_of_filter. done. Qed.

Lemma translate_one b d : translate [b] d =
  (if fst (scancode_to_ascii b d) =? 0 then [] else [fst (scancode_to_ascii b d)], snd (scancode_to_ascii b d)).
Proof. cbn [translate]. by destruct (scancode_to_ascii b d) as [c d1]. Qed.

Lemma plain_neq a b : a <> b -> bool_decide (Plain a = Plain b) = false.
Proof. intros H. apply bool_decide_false. congruence. Qed.

(** A code without a prefix. *)
Lemma plain_code d t b : agrees d t -> b <> 0xE1 -> b <> 0xE0 -> scancode_to_ascii b d =
  let released := negb (b &&& 0x80 =? 0) in
  let code := b &&& 0x7F in
  if code =? 0x2A then (0, set_left_shift (fun _ => negb released) d)
  else if code =? 0x36 then (0, set_right_shift (fun _ => negb released) d)
  else if code =? 0x3A then
    let '(down, lock) := lock_key released (caps_down d) (caps_lock d) in
    (0, set_caps_down (fun _ => down) (set_caps_lock (fun _ => lock) d))
  else if code =? 0x45 then
    let '(down, lock) := lock_key released (num_down d) (num_lock d) in
    (0, set_num_down (fun _ => down) (set_num_lock (fun _ => lock) d))
  else if released then (0, d)
  else (plain_key d code, d).
Proof.
  intros H H1 H2. unfold scancode_to_ascii. rewrite (ag_pause _ _ H), (ag_extended _ _ H). cbn [Z.eqb negb].
  rewrite (proj2 (Z.eqb_neq _ _) H1), (proj2 (Z.eqb_neq _ _) H2).
  assert (set_extended (fun _ => false) d = d) as -> by (unfold set_extended; rewrite <- (ag_extended _ _ H); by destruct d).
  done.
Qed.

(** One field of [agrees] after a stroke. *)
Ltac member := rewrite ?elem_of_cons, ?list_elem_of_filter; unfold LeftShift, RightShift, CapsLock, NumLock in *;
  intuition congruence.
Ltac field H :=
  cbn [fst snd lock_key held caps num press set_left_shift set_right_shift set_caps_down set_caps_lock set_num_down set_num_lock
       left_shift right_shift caps_lock caps_down num_lock num_down extended pause_bytes negb];
  first [apply H
        |rewrite ?(ag_left _ _ H), ?(ag_right _ _ H), ?(ag_caps_down _ _ H), ?(ag_num_down _ _ H);
         first [reflexivity
               |apply bool_decide_ext; member
               |symmetry; apply bool_decide_true; member
               |symmetry; apply bool_decide_false; member]].

(** A key that is no lock leaves the locks alone. *)
Lemma press_other k t : k <> CapsLock -> k <> NumLock -> caps (press (Down k) t) = caps t /\ num (press (Down k) t) = num t.
Proof. intros H1 H2. cbn. by rewrite (bool_decide_false _ H1), (bool_decide_false _ H2). Qed.

Lemma down_plain d t c : 0 < c < 0x60 -> agrees d t ->
  exists d', translate (codes (Down (Plain c))) d = (typed (Down (Plain c)) t, d') /\ agrees d' (press (Down (Plain c)) t).
Proof.
  intros Hc H. destruct (code_bits c) as (Hb & Hm & _); [lia|]. cbn [codes]. rewrite translate_one.
  rewrite (plain_code d t) by (done || lia). cbv zeta. rewrite Hb, Hm. cbn [Z.eqb negb].
  destruct (Z.eqb_spec c 0x2A) as [->|H1]; [eexists; split; [reflexivity|]; constructor; field H|].
  destruct (Z.eqb_spec c 0x36) as [->|H2]; [eexists; split; [reflexivity|]; constructor; field H|].
  destruct (Z.eqb_spec c 0x3A) as [->|H3].
  { pose proof (ag_caps_down _ _ H) as Hcd. unfold lock_key.
    destruct (caps_down d); cbn [negb fst snd Z.eqb]; (eexists; split; [reflexivity|]);
    symmetry in Hcd; [apply bool_decide_eq_true in Hcd|apply bool_decide_eq_false in Hcd]; constructor; try (field H).
    - cbn. rewrite (bool_decide_false (Plain 58 ∉ held t)) by (intros Hn; by apply Hn). apply H.
    - cbn. rewrite (bool_decide_true (Plain 58 ∉ held t)) by done. cbn. f_equal. apply H. }
  destruct (Z.eqb_spec c 0x45) as [->|H4].
  { pose proof (ag_num_down _ _ H) as Hcd. unfold lock_key.
    destruct (num_down d); cbn [negb fst snd Z.eqb]; (eexists; split; [reflexivity|]);
    symmetry in Hcd; [apply bool_decide_eq_true in Hcd|apply bool_decide_eq_false in Hcd]; constructor; try (field H).
    - cbn. rewrite (bool_decide_false (Plain 69 ∉ held t)) by (intros Hn; by apply Hn). apply H.
    - cbn. rewrite (bool_decide_true (Plain 69 ∉ held t)) by done. cbn. f_equal. apply H. }
  cbn [fst snd]. exists d. split.
  - rewrite (plain_key_typed d t c H). cbn [typed].
    rewrite bool_decide_false by (unfold LeftShift, RightShift, CapsLock, NumLock; intuition congruence). done.
  - destruct (press_other (Plain c) t) as [Hp1 Hp2]; [unfold CapsLock; congruence|unfold NumLock; congruence|].
    constructor; rewrite ?Hp1, ?Hp2; field H.
Qed.

Lemma up_plain d t c : 0 < c < 0x60 -> agrees d t ->
  exists d', translate (codes (Up (Plain c))) d = (typed (Up (Plain c)) t, d') /\ agrees d' (press (Up (Plain c)) t).
Proof.
  intros Hc H. destruct (code_bits c) as (_ & _ & Hb & Hm); [lia|]. cbn [codes]. rewrite translate_one.
  rewrite (plain_code d t) by (done || lia). cbv zeta. rewrite Hb, Hm. cbn [Z.eqb negb].
  destruct (Z.eqb_spec c 0x2A) as [->|H1]; [eexists; split; [reflexivity|]; constructor; field H|].
  destruct (Z.eqb_spec c 0x36) as [->|H2]; [eexists; split; [reflexivity|]; constructor; field H|].
  destruct (Z.eqb_spec c 0x3A) as [->|H3]; [eexists; split; [reflexivity|]; constructor; field H|].
  destruct (Z.eqb_spec c 0x45) as [->|H4]; [eexists; split; [reflexivity|]; constructor; field H|].
  exists d. split; [done|]. constructor; field H.
Qed.

(** A code behind the prefix 0xE0. *)
Lemma extended_code d t b : agrees d t -> b <> 0xE1 -> b <> 0xE0 -> translate [0xE0; b] d =
  (if negb (negb (b &&& 0x80 =? 0)) && (b &&& 0x7F =? 0x1C) then [10]
   else if negb (negb (b &&& 0x80 =? 0)) && (b &&& 0x7F =? 0x35) then [47] else [], d).
Proof.
  intros H H1 H2. change [0xE0; b] with ([0xE0] ++ [b]). rewrite translate_app, !translate_one.
  assert (scancode_to_ascii 0xE0 d = (0, set_extended (fun _ => true) d)) as -> by (unfold scancode_to_ascii; by rewrite (ag_pause _ _ H)).
  cbn [fst snd Z.eqb app]. unfold scancode_to_ascii. cbn [set_extended pause_bytes extended].
  rewrite (ag_pause _ _ H). cbn [Z.eqb negb]. rewrite (proj2 (Z.eqb_neq _ _) H1), (proj2 (Z.eqb_neq _ _) H2).
  assert (forall g, set_extended (fun _ => false) (set_extended g d) = d) as Hd.
  { intros g. unfold set_extended. cbn. rewrite <- (ag_extended _ _ H). by destruct d. }
  destruct (negb (negb (b &&& 0x80 =? 0)) && (b &&& 0x7F =? 0x1C)); cbn [fst snd Z.eqb app]; [by rewrite Hd|].
  destruct (negb (negb (b &&& 0x80 =? 0)) && (b &&& 0x7F =? 0x35)); cbn [fst snd Z.eqb app]; by rewrite Hd.
Qed.

Lemma agrees_pressed d t e : (forall c, stroke_key e <> Plain c) -> agrees d t -> agrees d (press e t).
Proof.
  intros Hk H. destruct e as [k|k]; cbn [stroke_key] in Hk;
    assert (k <> LeftShift /\ k <> RightShift /\ k <> CapsLock /\ k <> NumLock) as (H1 & H2 & H3 & H4) by (repeat split; apply Hk).
  - destruct (press_other k t H3 H4) as [Hp1 Hp2]. constructor; rewrite ?Hp1, ?Hp2; field H.
  - constructor; field H.
Qed.

Lemma stroke_step d t e : key_ok (stroke_key e) -> agrees d t ->
  exists d', translate (codes e) d = (typed e t, d') /\ agrees d' (press e t).
Proof.
  intros Hk H. destruct e as [[c|c|]|[c|c|]]; cbn [stroke_key key_ok] in Hk.
  - by apply down_plain.
  - exists d. split; [|apply agrees_pressed; [done|exact H]]. cbn [codes]. rewrite (extended_code d t) by (done || lia).
    destruct (code_bits c) as (-> & -> & _); [lia|]. cbn [Z.eqb negb andb].
    destruct (Z.eqb_spec c 0x1C) as [->|H1]; [done|]. destruct (Z.eqb_spec c 0x35) as [->|H2]; [done|].
    cbn [typed]. repeat case_match; (done || congruence).
  - exists d. split; [|apply agrees_pressed; [done|exact H]]. pose proof (ag_pause _ _ H) as Hp.
    pose proof (ag_extended _ _ H) as Hx. destruct d. cbn in Hp, Hx. subst. reflexivity.
  - by apply up_plain.
  - exists d. split; [|apply agrees_pressed; [done|exact H]]. cbn [codes]. rewrite (extended_code d t) by (done || lia).
    destruct (code_bits c) as (_ & _ & -> & ->); [lia|]. done.
  - exists d. split; [done|]. apply agrees_pressed; [done|exact H].
Qed.

Lemma text_translated es : Forall (fun e => key_ok (stroke_key e)) es -> forall d t, agrees d t ->
  exists d', translate (concat (codes <$> es)) d = (text es t, d') /\ agrees d' (foldl (fun t e => press e t) t es).
Proof.
  induction 1 as [|e es He _ IH]; intros d t H; [by exists d|].
  destruct (stroke_step d t e He H) as (d1 & E1 & H1). destruct (IH d1 _ H1) as (d2 & E2 & H2). exists d2. cbn [fmap list_fmap concat text foldl].
  rewrite translate_app, E1, E2. done.
Qed.

(** C31: whatever the keys of the keyboard are pressed and released in, held and repeated, the scan
    codes they send (with their prefixes, and the six codes of Pause) are translated to exactly the
    text of a typist's keyboard: capitals when one of the shift keys is held or, for letters, caps
    lock is on, not both; the digits of the keypad under num lock; a lock key switches each time it
    goes down and not while it repeats; keys behind the prefix type a newline and a slash only. *)
Theorem typing_correct (es : list stroke) : Forall (fun e => key_ok (stroke_key e)) es ->
  fst (translate (concat (codes <$> es)) decoder_start) = text es at_rest.
Proof. intros H. by destruct (text_translated es H decoder_start at_rest) as (d & -> & _). Qed.

(** A capital A by the left shift key, Pause, caps lock held with repeats, a capital b, a slash of the
    keypad. *)
Definition sample_strokes : list stroke :=
  [Down LeftShift; Down (Plain 0x1E); Up (Plain 0x1E); Up LeftShift; Down PauseKey; Down CapsLock; Down CapsLock; Up CapsLock;
   Down (Plain 0x30); Up (Plain 0x30); Down (Extended 0x35); Up (Extended 0x35)].
Lemma typing_correct_witness :
  fst (translate (concat (codes <$> sample_strokes)) decoder_start) = text sample_strokes at_rest /\
  text sample_strokes at_rest = [65; 66; 47].
Proof.
  split; [|reflexivity]. apply (typing_correct sample_strokes).
  unfold sample_strokes, LeftShift, CapsLock. repeat constructor; cbn; lia.
Defined.

(** ** The interrupt handler *)

Lemma while_no_fault {S A B} (body : A -> M S (A + B)) fuel : (forall a s, body a s <> Fault) ->
  forall a s, while fuel body a s <> Fault.
Proof.
  intros Hb. assert (forall p a s, loop_pos p body a s <> Fault) as Hl.
  { induction p as [p IH|p IH|]; intros a s; cbn [loop_pos]; [| |apply Hb]; unfold mbind, M_bind.
    - pose proof (Hb a s). destruct (body a s) as [[a1|b] s1| |]; try done. pose proof (IH a1 s1).
      destruct (loop_pos p body a1 s1) as [[a2|b] s2| |]; done || apply IH.
    - pose proof (IH a s). destruct (loop_pos p body a s) as [[a1|b] s1| |]; done || apply IH. }
  intros a s. unfold while, mbind, M_bind. pose proof (Hl fuel a s).
  by destruct (loop_pos fuel body a s) as [[a1|b] s1| |].
Qed.

(** A reset never comes back. *)
Lemma AcpiReset_hangs {S} `{!IO S} dev regs (s : S) : AcpiReset dev regs s = Hang.
Proof.
  unfold AcpiReset, mbind, M_bind. assert (reset_access dev regs s <> Fault) as H; [|by destruct (reset_access dev regs s)].
  unfold reset_access. destruct (_ && _).
  - unfold mbind, M_bind. match goal with |- context [while FUEL ?b ()] => pose proof (while_no_fault b FUEL) as Hw end.
    specialize (Hw ltac:(intros [] s1; unfold mbind, M_bind, inb, io_read; done) () s). by destruct (while _ _ _ s).
  - unfold io_outb. by destruct (_ =? MMIO).
Qed.

(** Indices inside, contents of bytes. *)
Record keyboard_typed (k : keyboard) : Prop := {
  kt_top : 0 <= scancode_top k < 256;
  kt_ascii_top : 0 <= ascii_top k < 256;
  kt_buffer : length (buffer k) = 256%nat /\ Forall (fun v => 0 <= v < 256) (buffer k);
  kt_ascii : length (ascii k) = 256%nat /\ Forall (fun v => 0 <= v < 256) (ascii k)
}.

(** The keyboard after a scan code that was translated to [c]. *)
Definition pushed (sc c : Z) (k : keyboard) : keyboard :=
  let makes := negb (c =? 0) && (sc <? 128) in
  mkKeyboard ((scancode_top k + 1) mod 256) (if makes then (ascii_top k + 1) mod 256 else ascii_top k)
    (<[Z.to_nat (scancode_top k) := sc]> (buffer k))
    (if makes then <[Z.to_nat (ascii_top k) := c]> (ascii k) else ascii k).

Lemma translated_byte sc d : 0 <= fst (scancode_to_ascii sc d) < 256.
Proof.
  assert (forall c, 0 <= plain_key d c < 256) as Hp.
  { intros c. unfold plain_key, keypad_digit, lookup_scancode.
    destruct (List.find _ keymap) as [k|] eqn:E; [|repeat case_match; lia].
    apply List.find_some in E as [Hin _].
    assert (forallb (fun k => (0 <=? km_normal k) && (km_normal k <? 256) && (0 <=? km_shifted k) && (km_shifted k <? 256)) keymap = true) as Hk by done.
    rewrite List.forallb_forall in Hk. specialize (Hk k Hin). rewrite !andb_true_iff, !Z.leb_le, !Z.ltb_lt in Hk.
    repeat case_match; lia. }
  unfold scancode_to_ascii. repeat case_match; cbn [fst]; try lia. apply Hp.
Qed.

Section Handler.
Context {W : Type} `{!IO W} `{!HeapOps W} (dev : device) (acpi : AcpiPmRegs) (stale_buffer stale_ascii : list Z).
(** The heap answers, and a new object holds two buffers of bytes. *)
Context (Hheap : forall n (w : W), exists p w', kmalloc n w = Done p w' /\ p <> 0 /\ trace w' = trace w).
Context (Hstale : keyboard_typed (mkKeyboard 0 0 stale_buffer stale_ascii)).
Implicit Types (s : keyboard_state W) (k : keyboard).

Record state_typed s : Prop := {
  st_keyboard : set s = true -> exists k, globalkeyboard s = Some k /\ keyboard_typed k
}.
(** The keyboard that the handler works on. *)
Definition current s : keyboard :=
  if set s then default (mkKeyboard 0 0 stale_buffer stale_ascii) (globalkeyboard s)
  else mkKeyboard 0 0 stale_buffer stale_ascii.

Lemma current_typed s : state_typed s -> keyboard_typed (current s).
Proof.
  intros H. unfold current. destruct (set s) eqn:E; [|done]. by destruct (st_keyboard _ H E) as (k & -> & Hk).
Qed.

Lemma wrapped i : 0 <= i < 256 -> (if i + 1 =? 256 then 0 else i + 1) = (i + 1) mod 256.
Proof.
  intros H. destruct (Z.eqb_spec (i + 1) 256) as [->|]; [done|]. by rewrite Z.mod_small by lia.
Qed.

Lemma pushed_typed sc c k : 0 <= sc < 256 -> 0 <= c < 256 -> keyboard_typed k -> keyboard_typed (pushed sc c k).
Proof.
  intros Hs Hc [Ht Ha [Hb1 Hb2] [Hc1 Hc2]]. unfold pushed. constructor; cbn.
  - apply Z.mod_pos_bound. lia.
  - destruct (_ && _); [apply Z.mod_pos_bound; lia|done].
  - split; [by rewrite length_insert|]. by apply Forall_insert.
  - destruct (_ && _); [|done]. split; [by rewrite length_insert|]. by apply Forall_insert.
Qed.

Lemma high_bit sc : 0 <= sc < 256 -> (sc &&& 0x80 =? 0) = (sc <? 128).
Proof.
  intros H. assert (forallb (fun v => Bool.eqb (v &&& 0x80 =? 0) (v <? 128)) (seqZ 0 256) = true) as HF by reflexivity.
  rewrite List.forallb_forall in HF. specialize (HF sc ltac:(apply list_elem_of_In, elem_of_seqZ; lia)).
  by apply eqb_prop in HF.
Qed.

Lemma wp_put (l : list Z) i v (Q : list Z -> keyboard_state W -> Prop) s : 0 <= i < Z.of_nat (length l) ->
  Q (<[Z.to_nat i := v]> l) s -> wp (put l i v) Q s.
Proof.
  intros Hi HQ. unfold put. apply wp_bind. destruct (array_get_Some l i) as (x & E & _); [done|]. rewrite E. by apply wp_ret.
Qed.

Lemma wp_record sc k s : globalkeyboard s = Some k -> keyboard_typed k -> 0 <= sc < 256 ->
  wp (record_scancode sc) (fun _ s' => kb_world s' = kb_world s /\ set s' = set s /\
    globalkeyboard s' = Some (pushed sc (fst (scancode_to_ascii sc (kb_decoder s))) k) /\
    kb_decoder s' = snd (scancode_to_ascii sc (kb_decoder s)) /\
    keyboard_irq_count s' = u64 (keyboard_irq_count s + 1)) s.
Proof.
  intros Hk [Ht Ha [Hb1 Hb2] [Hc1 Hc2]] Hs. unfold record_scancode. wp_step. wp_step. rewrite Hk. wp_step. apply wp_ret.
  apply wp_bind. apply wp_put; [lia|]. wp_step. wp_step. pose proof (high_bit sc Hs) as Hh.
  unfold pushed. destruct (scancode_to_ascii sc (kb_decoder s)) as [c d] eqn:Ed. cbn [fst snd]. rewrite <- Hh.
  apply wp_bind. destruct (negb (c =? 0) && (sc &&& 0x80 =? 0)).
  - apply wp_bind. apply wp_put; [lia|]. apply wp_ret, wp_modify. cbn. by rewrite !wrapped by lia.
  - apply wp_ret, wp_modify. cbn. rewrite wrapped by lia. by rewrite (proj2 (Z.eqb_neq (ascii_top k) 256)) by lia.
Qed.

Lemma wp_new s : wp (GlobalKeyboard stale_buffer stale_ascii) (fun k s' => k = mkKeyboard 0 0 stale_buffer stale_ascii /\
  trace s' = trace s /\ kb_decoder s' = kb_decoder s /\ keyboard_irq_count s' = keyboard_irq_count s) s.
Proof.
  unfold GlobalKeyboard, on_world, operator_new. wp_step. apply wp_zoom. destruct (Hheap 24 (kb_world s)) as (p & w1 & E1 & Hp & T1).
  unfold wp at 1. rewrite E1. rewrite (proj2 (Z.eqb_neq _ _) Hp). wp_step. apply wp_zoom. cbn [kb_world].
  destruct (Hheap 1056 w1) as (q & w2 & E2 & Hq & T2). unfold wp at 1. rewrite E2. rewrite (proj2 (Z.eqb_neq _ _) Hq).
  apply wp_ret. cbn. by rewrite T2, T1.
Qed.

Lemma wp_prepare s : state_typed s ->
  wp (ready ← gets set;
      if (ready : bool) then mret ()
      else
        k ← GlobalKeyboard stale_buffer stale_ascii;
        modify (fun s => mkKeyboardState (kb_world s) true (Some k) (kb_decoder s) (keyboard_irq_count s)))
    (fun _ s' => set s' = true /\ globalkeyboard s' = Some (current s) /\ trace s' = trace s /\
       kb_decoder s' = kb_decoder s /\ keyboard_irq_count s' = keyboard_irq_count s) s.
Proof.
  intros H. wp_step. wp_step. unfold current. destruct (set s) eqn:E.
  - apply wp_ret. destruct (st_keyboard _ H E) as (k & Ek & _). by rewrite Ek.
  - apply wp_bind. eapply wp_mono; [apply wp_new|]. intros k s1 (-> & Ht & Hd & Hc). by apply wp_modify.
Qed.

(** The part behind the first read of the status. *)
Lemma handler_run s : state_typed s -> exists s1,
  set s1 = true /\ globalkeyboard s1 = Some (current s) /\ trace s1 = trace s /\ kb_decoder s1 = kb_decoder s /\
  keyboard_irq_count s1 = keyboard_irq_count s /\
  keyboard_handler dev acpi stale_buffer stale_ascii s =
    (status ← inb dev 0x64;
     if status &&& 1 =? 0 then mret ()
     else
       scancode ← inb dev 0x60;
       (if scancode =? 0x57 then AcpiReset dev acpi
        else if scancode =? 0x58 then AcpiShutDown acpi
        else mret ());;
       record_scancode scancode) s1.
Proof.
  intros H. destruct (wp_inv _ _ _ (wp_prepare s H)) as ([] & s1 & E & Hs1 & Hk & Ht & Hd & Hc). exists s1.
  split_and!; try done. unfold keyboard_handler. unfold mbind at 1, M_bind at 1. unfold mbind in E at 1. unfold M_bind in E at 1.
  cbn [gets] in *. unfold mbind at 1, M_bind at 1. by rewrite E.
Qed.
End Handler.

Lemma read_then {S A} `{!IO S} dev port (f : Z -> M S A) (s : S) :
  (v ← inb dev port; f v) s = f (io_value dev (trace s) Port 1 port) (logged (Rd Port 1 port (io_value dev (trace s) Port 1 port)) s).
Proof. done. Qed.

(** C32: with a heap that answers, the handler keeps its state typed: both indices inside their
    buffers, the buffers of 256 bytes. Without a byte at the controller it leaves the keyboard
    alone; a byte is stored in front of the first index, its character, if it makes one, in front
    of the second, both indices count modulo 256, and the interrupt is counted. The byte 0x57
    resets the machine, so it never returns; every other one returns. *)
Theorem keyboard_handler_typed {W} `{!IO W} `{!HeapOps W} (dev : device) (acpi : AcpiPmRegs)
    (stale_buffer stale_ascii : list Z) (s : keyboard_state W) :
  (forall n (w : W), exists p w', kmalloc n w = Done p w' /\ p <> 0 /\ trace w' = trace w) ->
  keyboard_typed (mkKeyboard 0 0 stale_buffer stale_ascii) -> state_typed s ->
  let k := current stale_buffer stale_ascii s in
  let status := io_value dev (trace s) Port 1 0x64 in
  let sc := io_value dev (Rd Port 1 0x64 status :: trace s) Port 1 0x60 in
  let handled := keyboard_handler dev acpi stale_buffer stale_ascii s in
  if status &&& 1 =? 0 then
    exists s', handled = Done () s' /\ state_typed s' /\ globalkeyboard s' = Some k /\
      kb_decoder s' = kb_decoder s /\ keyboard_irq_count s' = keyboard_irq_count s
  else if sc =? 0x57 then handled = Hang
  else
    exists s', handled = Done () s' /\ state_typed s' /\
      globalkeyboard s' = Some (pushed sc (fst (scancode_to_ascii sc (kb_decoder s))) k) /\
      kb_decoder s' = snd (scancode_to_ascii sc (kb_decoder s)) /\
      keyboard_irq_count s' = u64 (keyboard_irq_count s + 1).
Proof.
  intros Hheap Hstale H. cbn zeta.
  destruct (handler_run dev acpi stale_buffer stale_ascii Hheap s H) as (s1 & Hs1 & Hk & Ht & Hd & Hc & E). rewrite E. clear E.
  pose proof (current_typed stale_buffer stale_ascii Hstale s H) as Hkt.
  rewrite !read_then, Ht. set (status := io_value dev (trace s) Port 1 0x64).
  set (s2 := logged (Rd Port 1 100 status) s1). assert (trace s2 = Rd Port 1 100 status :: trace s) as Ht2
    by (unfold s2; by rewrite trace_logged, Ht).
  destruct (status &&& 1 =? 0).
  { exists s2. split; [done|]. split; [|by cbn]. constructor. intros _. by exists (current stale_buffer stale_ascii s). }
  rewrite !read_then, Ht2. set (sc := io_value dev (Rd Port 1 100 status :: trace s) Port 1 0x60).
  set (s3 := logged (Rd Port 1 96 sc) s2).
  assert (0 <= sc < 256) as Hsc by (apply (io_value_range _ (_ :: _) Port 1); lia).
  destruct (sc =? 0x57); [unfold mbind, M_bind; by rewrite AcpiReset_hangs|].
  assert (forall s4 : keyboard_state W, set s4 = true -> globalkeyboard s4 = globalkeyboard s1 -> kb_decoder s4 = kb_decoder s1 ->
    keyboard_irq_count s4 = keyboard_irq_count s1 -> exists s', record_scancode sc s4 = Done () s' /\ state_typed s' /\
      globalkeyboard s' = Some (pushed sc (fst (scancode_to_ascii sc (kb_decoder s))) (current stale_buffer stale_ascii s)) /\
      kb_decoder s' = snd (scancode_to_ascii sc (kb_decoder s)) /\ keyboard_irq_count s' = u64 (keyboard_irq_count s + 1)) as Hrec.
  { intros s4 H1 H2 H3 H4. rewrite Hk in H2.
    destruct (wp_inv _ _ _ (wp_record sc _ s4 H2 Hkt Hsc)) as ([] & s' & E & _ & Hset & Hg & Hd' & Hc').
    rewrite H3, Hd in Hg, Hd'. rewrite H4, Hc in Hc'. exists s'. split; [exact E|]. split; [|done]. constructor. intros _.
    eexists. split; [exact Hg|]. apply pushed_typed; [done|apply translated_byte|done]. }
  destruct (sc =? 0x58).
  - unfold mbind, M_bind. rewrite shutdown_run. apply Hrec; by cbn.
  - apply (Hrec s3); by cbn.
Qed.

(** A code for a make of the key A, into an empty object. *)
#[local] Instance small_heap : HeapOps (list event * Z) := {|
  kmalloc n := fun '(t, top) => Done (Z.abs top + 1) (t, Z.abs top + 1 + Z.abs n);
  kfree _ := mret ();
  krealloc _ _ n := fault
|}.
#[local] Instance small_IO : IO (list event * Z).
Proof. by refine {| trace := fst; set_trace t s := (t, snd s) |}; [| |intros []]. Defined.
Definition sample_port : device := fun _ _ _ a => if a =? 0x64 then 1 else 0x1E.
Definition sample_pm : AcpiPmRegs := mkPmRegs 5 1 0 0 0x604 0x608 0 0x1000 KEYBOARD_RESET 0xFE.
Definition sample_keyboard : keyboard_state (list event * Z) := mkKeyboardState ([], 0) false None decoder_start 0.

Lemma keyboard_handler_typed_witness :
  exists s', keyboard_handler sample_port sample_pm (replicate 256 0) (replicate 256 0) sample_keyboard = Done () s' /\
    state_typed s' /\
    globalkeyboard s' = Some (pushed 0x1E 97 (mkKeyboard 0 0 (replicate 256 0) (replicate 256 0))) /\
    kb_decoder s' = snd (scancode_to_ascii 0x1E decoder_start) /\ keyboard_irq_count s' = u64 (0 + 1).
Proof.
  apply (keyboard_handler_typed sample_port sample_pm (replicate 256 0) (replicate 256 0) sample_keyboard).
  - intros n [t top]. exists (Z.abs top + 1), (t, Z.abs top + 1 + Z.abs n). split; [reflexivity|]. split; [lia|reflexivity].
  - constructor; cbn [scancode_top ascii_top buffer ascii]; try lia; (split; [reflexivity|apply Forall_replicate; lia]).
  - constructor. discriminate.
Defined.
