(* ===== verification/Ps2Init.v ===== *)
(** * PS/2 controller, initialisation

    What [ps2_controller_init] says to any controller, and in which order. *)
From S2P Require Import KPrelude PortIO UsbTypes AcpiPm Ps2.

(** ** The protocol of the controller's ports *)

(** A history, the latest first, in which the data port is read only right behind a status with the
    output bit, and a port is written only right behind a status without the input bit. *)
Inductive polite : list event -> Prop :=
| polite_nil : polite []
| polite_status v t : polite t -> polite (Rd Port 1 0x64 v :: t)
| polite_load x v t : v &&& 1 <> 0 -> polite t -> polite (Rd Port 1 0x60 x :: Rd Port 1 0x64 v :: t)
| polite_store p x v t : p = 0x60 \/ p = 0x64 -> v &&& 2 = 0 -> polite t ->
    polite (Wr Port 1 p x :: Rd Port 1 0x64 v :: t).

Lemma polite_app t u : polite t -> polite u -> polite (t ++ u).
Proof. induction 1; intros; cbn [app]; [done|constructor; auto..]. Qed.

Definition is_status (e : event) : bool :=
  match e with Rd Port 1 p _ => p =? 0x64 | _ => false end.
(** The accesses that are no reads of the status, the earliest first. *)
Definition dialogue (t : list event) : list event := reverse (filter (fun e => is_status e = false) t).

Lemma dialogue_app t u : dialogue (t ++ u) = dialogue u ++ dialogue t.
Proof. unfold dialogue. by rewrite filter_app, reverse_app. Qed.

Lemma dialogue_status v t : dialogue (Rd Port 1 0x64 v :: t) = dialogue t.
Proof. done. Qed.
Lemma dialogue_cons e t : is_status e = false -> dialogue (e :: t) = dialogue t ++ [e].
Proof. intros H. unfold dialogue. by rewrite filter_cons_True, reverse_cons. Qed.

Section Init.
Context {S : Type} `{!IO S} (dev : device).

(** The operation returns; it was polite, and [Q] holds of what was said. *)
Definition says {A} (m : M S A) (Q : A -> list event -> Prop) : Prop := forall s,
  wp m (fun a s' => exists t, trace s' = t ++ trace s /\ polite t /\ Q a (dialogue t)) s.

Lemma says_bind {A B} (m : M S A) (f : A -> M S B) (P : A -> list event -> Prop) (Q : B -> list event -> Prop) :
  says m P -> (forall a d, P a d -> says (f a) (fun b d' => Q b (d ++ d'))) -> says (m ≫= f) Q.
Proof.
  intros Hm Hf s. apply wp_bind. eapply wp_mono; [apply Hm|]. cbn beta. intros a s1 (t1 & E1 & P1 & HP).
  eapply wp_mono; [apply (Hf a _ HP)|]. cbn beta. intros b s2 (t2 & E2 & P2 & HQ). exists (t2 ++ t1).
  rewrite E2, E1, app_assoc, dialogue_app. split_and!; [done|by apply polite_app|done].
Qed.

Lemma says_ret {A} (a : A) (Q : A -> list event -> Prop) : Q a [] -> says (mret a) Q.
Proof. intros H s. apply wp_ret. exists []. split_and!; [done|constructor|done]. Qed.

Lemma says_mono {A} (m : M S A) (P Q : A -> list event -> Prop) : says m P -> (forall a d, P a d -> Q a d) -> says m Q.
Proof. intros H HPQ s. eapply wp_mono; [apply H|]. cbn beta. intros a s' (t & E & Ht & HP). exists t. auto. Qed.

(** A poll reads the status only, and ends with one that it waited for or with [false]. *)
Lemma wp_ps2_poll mask want s : wp (ps2_poll dev mask want) (fun ok s' => exists t, trace s' = t ++ trace s /\
    polite t /\ dialogue t = [] /\
    (ok = true -> exists v u, t = Rd Port 1 0x64 v :: u /\ Bool.eqb (negb (v &&& mask =? 0)) want = true /\
       polite u /\ dialogue u = [])) s.
Proof.
  unfold ps2_poll.
  apply (wp_while _ (fun i s' => 0 <= i <= 100000 /\ exists t, trace s' = t ++ trace s /\ polite t /\ dialogue t = [])
    (fun i _ => 100000 - i)).
  - intros i s1 (Hi & t & Et & Pt & Dt). destruct (Z.ltb_spec i 100000).
    + wp_step. apply wp_io_read. set (v := io_value _ _ _ _ _). wp_step.
      assert (dialogue (Rd Port 1 0x64 v :: t) = []) as Dv by (by rewrite <- Dt).
      destruct (Bool.eqb _ _) eqn:Eb.
      * exists (Rd Port 1 0x64 v :: t). rewrite trace_logged, Et. split_and!; [done|by constructor|done|]. intros _. by exists v, t.
      * split; [|lia]. split; [lia|]. exists (Rd Port 1 0x64 v :: t). rewrite trace_logged, Et. split_and!; [done|by constructor|done].
    + wp_step. exists t. split_and!; try done.
  - split; [lia|]. exists []. split_and!; [done|constructor|done].
  - unfold FUEL. lia.
Qed.

(** A store behind its poll. *)
Lemma says_store p x : p = 0x60 \/ p = 0x64 ->
  says (ok ← ps2_wait_input_empty dev; if negb ok then mret false else outb p x;; mret true)
    (fun ok d => d = if (ok : bool) then [Wr Port 1 p (u8 x)] else []).
Proof.
  intros Hp s. wp_step. eapply wp_mono; [apply wp_ps2_poll|]. cbn beta. intros ok s1 (t & Et & Pt & Dt & Hok).
  destruct ok; cbn [negb].
  - destruct (Hok eq_refl) as (v & u & -> & Hv & Pu & Du). wp_step. apply wp_io_write. wp_step.
    exists (Wr Port 1 p (u8 x) :: Rd Port 1 0x64 v :: u). rewrite trace_logged, Et. split_and!; [done|constructor; try done|].
    { apply eqb_prop in Hv. destruct (Z.eqb_spec (v &&& 2) 0); done. }
    by rewrite dialogue_cons, Dt.
  - wp_step. by exists t.
Qed.

Lemma says_command c : says (ps2_command dev c) (fun ok d => d = if (ok : bool) then [Wr Port 1 0x64 (u8 c)] else []).
Proof. apply says_store. by right. Qed.
Lemma says_data c : says (ps2_write_data dev c) (fun ok d => d = if (ok : bool) then [Wr Port 1 0x60 (u8 c)] else []).
Proof. apply says_store. by left. Qed.

Lemma says_read : says (ps2_read_data dev) (fun r d => match r with
  | Some v => 0 <= v < 256 /\ d = [Rd Port 1 0x60 v] | None => d = [] end).
Proof.
  intros s. unfold ps2_read_data. wp_step. eapply wp_mono; [apply wp_ps2_poll|]. cbn beta. intros ok s1 (t & Et & Pt & Dt & Hok).
  destruct ok; cbn [negb].
  - destruct (Hok eq_refl) as (v & u & -> & Hv & Pu & Du). wp_step. apply wp_io_read. wp_step. set (x := io_value _ _ _ _ _).
    exists (Rd Port 1 0x60 x :: Rd Port 1 0x64 v :: u). rewrite trace_logged, Et. split; [done|]. split; [apply polite_load; [|done]|].
    { apply eqb_prop in Hv. destruct (Z.eqb_spec (v &&& 1) 0); done. }
    split; [apply (io_value_range dev _ Port 1); lia|]. by rewrite dialogue_cons, Dt.
  - wp_step. by exists t.
Qed.

(** Reads of the data port. *)
Definition loads (vs : list Z) : list event := Rd Port 1 0x60 <$> vs.

Lemma says_drain : says (ps2_drain dev) (fun _ d => exists vs, d = loads vs /\ (length vs <= 32)%nat).
Proof.
  intros s. unfold ps2_drain.
  apply (wp_while _ (fun i s' => 0 <= i <= 32 /\ exists t vs, trace s' = t ++ trace s /\ polite t /\ dialogue t = loads vs /\
    Z.of_nat (length vs) = i) (fun i _ => 32 - i)).
  - intros i s1 (Hi & t & vs & Et & Pt & Dt & Hl). destruct (Z.ltb_spec i 32).
    + wp_step. apply wp_io_read. set (v := io_value _ _ _ _ _). destruct (Z.eqb_spec (v &&& 1) 0) as [|Hv].
      * wp_step. exists (Rd Port 1 0x64 v :: t). rewrite trace_logged, Et. split_and!; [done|by constructor|].
        exists vs. split; [|lia]. by rewrite <- Dt.
      * wp_step. apply wp_io_read. set (x := io_value _ _ _ _ _). wp_step. split; [|lia]. split; [lia|].
        exists (Rd Port 1 0x60 x :: Rd Port 1 0x64 v :: t), (vs ++ [x]). rewrite !trace_logged, Et.
        split_and!; [done|by constructor| |rewrite length_app; cbn; lia].
        unfold loads. rewrite fmap_app. fold (loads vs). by rewrite dialogue_cons, dialogue_status, Dt.
    + wp_step. exists t. split_and!; [done|done|]. exists vs. split; [done|lia].
  - split; [lia|]. exists [], []. split_and!; [done|constructor|done|done].
  - unfold FUEL. lia.
Qed.

(** What is said until the keyboard has answered [r], and behind its acknowledgement. *)
Definition opening (vs : list Z) : list event :=
  [Wr Port 1 0x64 0xAD; Wr Port 1 0x64 0xA7] ++ loads vs ++ [Wr Port 1 0x64 0x20].
Definition setup (config r : Z) : list event :=
  [Rd Port 1 0x60 config; Wr Port 1 0x64 0x60; Wr Port 1 0x60 ((config &&& 0xEE) ||| 0x40); Wr Port 1 0x64 0xAE;
   Wr Port 1 0x60 0xF4; Rd Port 1 0x60 r].
Definition enable (config : Z) : list event :=
  [Wr Port 1 0x64 0x60; Wr Port 1 0x60 ((config &&& 0xEE) ||| 0x41)].

Lemma quiet_byte config : 0 <= config < 256 -> u8 (quiet_config config) = (config &&& 0xEE) ||| 0x40 /\
  u8 (quiet_config config ||| (1 <<< 0)) = (config &&& 0xEE) ||| 0x41.
Proof.
  intros H. assert (forallb (fun v => (u8 (quiet_config v) =? (v &&& 0xEE) ||| 0x40) && (u8 (quiet_config v ||| (1 <<< 0)) =? (v &&& 0xEE) ||| 0x41))
    (seqZ 0 256) = true) as HF by reflexivity.
  rewrite List.forallb_forall in HF. specialize (HF config ltac:(apply list_elem_of_In, elem_of_seqZ; lia)).
  apply andb_prop in HF as [H1 H2]. apply Z.eqb_eq in H1, H2. done.
Qed.

(** The whole conversation, when the keyboard acknowledges. *)
Definition script (vs : list Z) (config : Z) : list event := opening vs ++ setup config 0xFA ++ enable config.
(** The outcomes of the initialisation: all of it; a proper part of it, when a poll has run out; or
    everything up to an answer that is no acknowledgement. *)
Definition init_outcome (ok : bool) (d : list event) : Prop :=
  exists vs config, (length vs <= 32)%nat /\ 0 <= config < 256 /\
    if ok then d = script vs config
    else (exists rest, rest <> [] /\ script vs config = d ++ rest) \/
         (exists r, r <> 0xFA /\ d = opening vs ++ setup config r).

Lemma outcome_cut vs config (d : list event -> list event) rest : script vs config = d [] ++ rest -> rest <> [] -> (length vs <= 32)%nat ->
  0 <= config < 256 -> says (mret (M := M S) false) (fun ok d' => init_outcome ok (d d')).
Proof.
  intros. apply says_ret. exists vs, config. split; [done|]. split; [done|]. left. by exists rest.
Qed.

Lemma says_config c : says (ps2_write_config dev c) (fun ok d =>
  if (ok : bool) then d = [Wr Port 1 0x64 0x60; Wr Port 1 0x60 (u8 c)] else d = [] \/ d = [Wr Port 1 0x64 0x60]).
Proof.
  unfold ps2_write_config. eapply says_bind; [apply says_command|]. intros ok d ->. destruct ok; cbn [negb].
  - eapply says_mono; [apply says_data|]. cbn beta. intros ok d ->. destruct ok; [done|by right].
  - apply says_ret. by left.
Qed.

(** Both sides of an equation between conversations, from the left. *)
Ltac spoken := unfold script, opening, setup, enable; rewrite <- ?app_assoc; cbn [app]; rewrite <- ?app_assoc; cbn [app]; reflexivity.
Ltac cut vs config := eapply (outcome_cut vs config); [spoken|done|cbn; lia|lia].
(** A store that is made, or the end. *)
Ltac exchange vs config H := eapply says_bind; [apply H|let ok := fresh "ok" in intros ok ? ->; destruct ok; cbn [negb]; [|cut vs config]].

Lemma says_init : says (ps2_controller_init dev) init_outcome.
Proof.
  unfold ps2_controller_init.
  exchange ([] : list Z) 0 (says_command 0xAD).
  exchange ([] : list Z) 0 (says_command 0xA7).
  eapply says_bind; [apply says_drain|]. intros _ d (vs & -> & Hvs).
  exchange vs 0 (says_command 0x20).
  eapply says_bind; [apply says_read|]. intros [config|] d; [intros [Hc ->]|intros ->; cut vs 0].
  destruct (quiet_byte config Hc) as [Hq1 Hq2].
  eapply says_bind; [apply says_config|]. intros ok d Hd.
  destruct ok; cbn [negb]; [subst d; rewrite Hq1|destruct Hd as [-> | ->]; cut vs config].
  exchange vs config (says_command 0xAE).
  exchange vs config (says_data 0xF4).
  eapply says_bind; [apply says_read|]. intros [r|] d; [intros [Hr ->]|intros ->; cut vs config].
  destruct (Z.eqb_spec r 0xFA) as [->|Hne]; cbn [negb].
  - eapply says_mono; [apply says_config|]. cbn beta. intros ok d Hd. exists vs, config. split; [done|]. split; [done|].
    destruct ok; [subst d; rewrite Hq2; spoken|].
    left. destruct Hd as [-> | ->]; eexists; (split; [|spoken]); done.
  - apply says_ret. exists vs, config. split; [done|]. split; [done|]. right. exists r. split; [done|]. rewrite app_nil_r. spoken.
Qed.
End Init.

(** C33: the initialisation returns with any controller, in at most 32 + 9 accesses besides its polls
    of the status; it reads data only where the status says that there are some and stores only
    where the controller can take a byte. When it succeeds it has said the whole script: the ports
    off, at most 32 bytes thrown away, the configuration read and stored back with the interrupt
    off, the clock on and the translation on, the keyboard on, 0xF4 acknowledged with 0xFA, and only then the interrupt on. When it fails
    it has said a proper part of it, or it ended at an answer other than 0xFA, so that the
    interrupt stays off. *)
Theorem ps2_controller_init_correct {S} `{!IO S} (dev : device) (s : S) :
  exists ok s' t, ps2_controller_init dev s = Done ok s' /\ trace s' = t ++ trace s /\ polite t /\ init_outcome ok (dialogue t).
Proof. destruct (wp_inv _ _ _ (says_init dev s)) as (ok & s' & E & t & H). by exists ok, s', t. Qed.
