(* ===== verification/BootMem.v ===== *)
(** * The boot loaders' memory

    Before there are page tables of its own, a boot loader works on all of memory. Here memory is a
    function from addresses to bytes in the loader's state, behind the interface [ByteMem]; with loads
    and stores of several bytes, the copying and filling loops, and what they do. *)
From S2P Require Import KPrelude MemHelpers.

(** A state with memory in it. *)
Class ByteMem (S : Type) := {
  mem : S -> Z -> Z;
  set_mem : ((Z -> Z) -> (Z -> Z)) -> S -> S;
  mem_set f s : mem (set_mem f s) = f (mem s);
  set_mem_twice f g s : set_mem f (set_mem g s) = set_mem (fun m => f (g m)) s;
  set_mem_const f s : set_mem f s = set_mem (fun _ => f (mem s)) s;
  set_mem_same s : set_mem (fun _ => mem s) s = s
}.

(** [n] bytes at [a], the lowest first. *)
Fixpoint value (m : Z -> Z) (n : nat) (a : Z) : Z :=
  match n with O => 0 | Datatypes.S n => m a + 256 * value m n (a + 1) end.
Definition put (a v : Z) (m : Z -> Z) : Z -> Z := fun x => if x =? a then v else m x.
Fixpoint put_value (n : nat) (a v : Z) (m : Z -> Z) : Z -> Z :=
  match n with O => m | Datatypes.S n => put_value n (a + 1) (v / 256) (put a (v mod 256) m) end.

Section Access.
Context {S : Type} `{!ByteMem S}.

Definition peek (n : nat) (a : Z) : M S Z := m ← gets mem; mret (value m n a).
Definition poke (n : nat) (a v : Z) : M S unit := modify (set_mem (put_value n a v)).

Definition memcpy (Destination Source size : Z) : M S unit :=
  for_ 0 size (fun i _ => b ← peek 1 (Source + i); poke 1 (Destination + i) b) ().
Definition memset (dest count value : Z) : M S unit :=
  for_ 0 count (fun i _ => poke 1 (dest + i) (u8 value)) ().
End Access.

(** ** Values in memory *)

Lemma put_value_other n : forall a v m x, x < a \/ a + Z.of_nat n <= x -> put_value n a v m x = m x.
Proof.
  induction n as [|n IH]; intros a v m x Hx; cbn [put_value]; [done|]. rewrite IH by lia. unfold put.
  destruct (Z.eqb_spec x a); [lia|done].
Qed.
Lemma value_ext n : forall a m m', (forall x, a <= x < a + Z.of_nat n -> m' x = m x) -> value m' n a = value m n a.
Proof.
  induction n as [|n IH]; intros a m m' H; cbn [value]; [done|]. rewrite (IH (a + 1) m m'), H by (intros; try apply H; lia). done.
Qed.
Lemma value_put n : forall a v m, value (put_value n a v m) n a = v mod 256 ^ Z.of_nat n.
Proof.
  induction n as [|n IH]; intros a v m; cbn [value put_value]; [by rewrite Z.mod_1_r|].
  rewrite put_value_other by lia. unfold put at 1. rewrite Z.eqb_refl, IH.
  rewrite Nat2Z.inj_succ, Z.pow_succ_r by lia. rewrite Z.rem_mul_r by (try apply Z.pow_nonzero; lia). done.
Qed.
Lemma value_put_other n k a b v m : b + Z.of_nat k <= a \/ a + Z.of_nat n <= b -> value (put_value n a v m) k b = value m k b.
Proof. intros H. apply value_ext. intros x Hx. apply put_value_other. lia. Qed.

(** Memory that holds bytes. *)
Definition bytes_only (m : Z -> Z) : Prop := forall x, 0 <= m x < 256.
Lemma bytes_put n : forall a v m, bytes_only m -> bytes_only (put_value n a v m).
Proof.
  induction n as [|n IH]; intros a v m Hm; cbn [put_value]; [done|]. apply IH. intros x. unfold put. destruct (x =? a); [divlia|apply Hm].
Qed.
Lemma value_bounds n : forall a m, bytes_only m -> 0 <= value m n a < 256 ^ Z.of_nat n.
Proof.
  induction n as [|n IH]; intros a m Hm; cbn [value]; [done|]. specialize (IH (a + 1) m Hm). specialize (Hm a).
  rewrite Nat2Z.inj_succ, Z.pow_succ_r by lia. lia.
Qed.

Lemma value_local n : forall o a b m m', (forall x, o <= x < o + Z.of_nat n -> m' (b + x) = m (a + x)) -> value m' n (b + o) = value m n (a + o).
Proof.
  induction n as [|n IH]; intros o a b m m' H; cbn [value]; [done|]. rewrite H by lia. do 2 f_equal.
  rewrite <- !Z.add_assoc. apply IH. intros x Hx. apply H. lia.
Qed.
Lemma value_moved n b a m m' : (forall x, a <= x < a + Z.of_nat n -> m (b + x) = m' x) -> value m n (b + a) = value m' n a.
Proof. intros H. rewrite (value_local n a 0 b m' m); [done|]. intros x Hx. by rewrite H. Qed.

(** A table in memory: [n] entries, each [size] bytes behind the one before. An entry is read from [width]
    bytes. *)
Section Table.
Context {A : Type} (entry : (Z -> Z) -> Z -> A) (width : Z).
Context (entry_local : forall m m' a b, (forall x, 0 <= x < width -> m' (b + x) = m (a + x)) -> entry m' b = entry m a).

Definition table (m : Z -> Z) (ptr size n : Z) : list A := map (fun i => entry m (ptr + size * i)) (seqZ 0 n).

Lemma table_moved m m' a b size n : 0 <= size -> (forall x, 0 <= x < size * n + width -> m' (b + x) = m (a + x)) ->
  table m' b size n = table m a size n.
Proof using entry_local.
  intros Hs E. unfold table. apply map_ext_in. intros i Hi. apply list_elem_of_In, elem_of_seqZ in Hi.
  apply entry_local. intros x Hx. rewrite <- !Z.add_assoc. apply E. nia.
Qed.
Lemma table_cons m ptr size n : 0 < n -> table m ptr size n = entry m ptr :: table m (ptr + size) size (n - 1).
Proof.
  intros Hn. unfold table. rewrite seqZ_cons by done. cbn [map]. f_equal; [f_equal; lia|].
  replace (Z.pred n) with (n - 1) by lia. rewrite <- (fmap_add_seqZ 1 0), map_map.
  apply map_ext_in. intros i _. f_equal. lia.
Qed.
End Table.

(** Whole pages. *)
Definition page_up (a : Z) : Z := (a + 4095) / 4096 * 4096.
Lemma drop_low w b : 0 <= w -> 0 <= b < 2 ^ (12 + w) -> b &&& ((2 ^ w - 1) <<< 12) = b / 4096 * 4096.
Proof.
  intros Hw Hb. replace 4096 with (2 ^ 12) by done. rewrite <- Z.shiftr_div_pow2, <- Z.shiftl_mul_pow2 by lia.
  replace (2 ^ w - 1) with (Z.ones w) by (rewrite Z.ones_equiv; lia).
  apply Z.bits_inj'. intros i Hi. rewrite Z.land_spec, !Z.shiftl_spec by done. destruct (Z.lt_ge_cases i 12).
  - rewrite !(Z.testbit_neg_r _ (i - 12)) by lia. apply andb_false_r.
  - rewrite Z.shiftr_spec by lia. replace (i - 12 + 12) with i by lia. destruct (Z.lt_ge_cases i (12 + w)).
    + rewrite Z.ones_spec_low by lia. apply andb_true_r.
    + rewrite Z.ones_spec_high by lia. rewrite andb_false_r. symmetry. apply (testbit_above b (12 + w)); [done|lia].
Qed.
Lemma page_up_mask a : 0 <= a -> a + 4095 < 2 ^ 32 -> u32 (a + 4095) &&& u32 (Z.lnot 4095) = page_up a.
Proof. intros H1 H2. rewrite u32_id by lia. apply (drop_low 20); [done|]. change (2 ^ (12 + 20)) with (2 ^ 32). lia. Qed.

Lemma page_up_le a b : a <= b -> page_up a <= page_up b.
Proof. unfold page_up. intros. divlia. Qed.
Lemma page_up_ge a : a <= page_up a /\ page_up a mod 4096 = 0.
Proof. unfold page_up. divlia. Qed.

Lemma page_up_mask64 a : 0 <= a -> a + 4095 < 2 ^ 64 -> (a + 4095) &&& u64 (Z.lnot 0xfff) = page_up a.
Proof. intros H1 H2. apply (drop_low 52); [done|]. change (2 ^ (12 + 52)) with (2 ^ 64). lia. Qed.

(** ** The loops *)

Section Loops.
Context {S : Type} `{!ByteMem S}.
Implicit Types s : S.

(** All but memory stays. *)
Definition rest (s s' : S) : Prop := s' = set_mem (fun _ => mem s') s.
Lemma rest_refl s : rest s s.
Proof. symmetry. apply set_mem_same. Qed.
Lemma rest_trans s s' s'' : rest s s' -> rest s' s'' -> rest s s''.
Proof. unfold rest. intros -> ->. by rewrite set_mem_twice, !mem_set. Qed.
Lemma rest_set f s : rest s (set_mem f s).
Proof. unfold rest. rewrite mem_set. apply set_mem_const. Qed.

(** Stores go only to [lo .. hi). *)
Definition within (lo hi : Z) (m m' : Z -> Z) : Prop := forall x, x < lo \/ hi <= x -> m' x = m x.

Lemma wp_peek n a (Q : Z -> S -> Prop) s : Q (value (mem s) n a) s -> wp (peek n a) Q s.
Proof. intros HQ. apply wp_bind, wp_gets, wp_ret. done. Qed.
Lemma wp_poke n a v (Q : unit -> S -> Prop) s :
  (forall s', mem s' = put_value n a v (mem s) -> rest s s' -> Q () s') -> wp (poke n a v) Q s.
Proof. intros HQ. apply wp_modify. apply HQ; [apply mem_set|apply rest_set]. Qed.

Lemma wp_memset dst n v s : 0 <= n ->
  wp (memset dst n v) (fun _ s' => rest s s' /\ (bytes_only (mem s) -> bytes_only (mem s')) /\
    forall x, mem s' x = if (dst <=? x) && (x <? dst + n) then u8 v else mem s x) s.
Proof.
  intros Hn. unfold memset. eapply wp_mono.
  - apply (wp_for (fun i _ s' => rest s s' /\ (bytes_only (mem s) -> bytes_only (mem s')) /\
      forall x, mem s' x = if (dst <=? x) && (x <? dst + i) then u8 v else mem s x)); [done| |].
    + split; [apply rest_refl|]. split; [done|]. intros x. destruct (Z.leb_spec dst x), (Z.ltb_spec x (dst + 0)); done || lia.
    + intros i [] s1 Hi (R1 & B1 & M1). apply wp_poke. intros s2 E2 R2. split; [by eapply rest_trans|].
      split; [intros B; rewrite E2; apply bytes_put; auto|]. intros x. rewrite E2. cbn [put_value]. unfold put.
      assert (u8 v mod 256 = u8 v) as -> by (unfold u8; change (2 ^ 8) with 256; by rewrite Z.mod_mod).
      destruct (Z.eqb_spec x (dst + i)) as [->|Hx]; [by rewrite (proj2 (Z.leb_le _ _)), (proj2 (Z.ltb_lt _ _)) by lia|].
      rewrite M1. destruct (Z.leb_spec dst x), (Z.ltb_spec x (dst + i)), (Z.ltb_spec x (dst + (i + 1))); done || lia.
  - cbn beta. intros _ s' H. by rewrite Z.add_0_l in H.
Qed.

Lemma wp_memcpy dst src n s : 0 <= n -> dst + n <= src \/ src + n <= dst -> bytes_only (mem s) ->
  wp (memcpy dst src n) (fun _ s' => rest s s' /\ bytes_only (mem s') /\
    forall x, mem s' x = if (dst <=? x) && (x <? dst + n) then mem s (src + (x - dst)) else mem s x) s.
Proof.
  intros Hn Hap Hb. unfold memcpy. eapply wp_mono.
  - apply (wp_for (fun i _ s' => rest s s' /\ bytes_only (mem s') /\
      forall x, mem s' x = if (dst <=? x) && (x <? dst + i) then mem s (src + (x - dst)) else mem s x)); [done| |].
    + split; [apply rest_refl|]. split; [done|]. intros x. destruct (Z.leb_spec dst x), (Z.ltb_spec x (dst + 0)); done || lia.
    + intros i [] s1 Hi (R1 & B1 & M1). apply wp_bind, wp_peek, wp_poke. intros s2 E2 R2. split; [by eapply rest_trans|].
      split; [rewrite E2; by apply bytes_put|]. intros x. rewrite E2. cbn [put_value value]. unfold put. rewrite Z.mul_0_r, Z.add_0_r.
      rewrite Z.mod_small by apply B1.
      destruct (Z.eqb_spec x (dst + i)) as [->|Hx].
      * rewrite (proj2 (Z.leb_le _ _)), (proj2 (Z.ltb_lt _ _)) by lia. cbn [andb]. rewrite M1.
        destruct (Z.leb_spec dst (src + i)), (Z.ltb_spec (src + i) (dst + i)); cbn [andb]; first [f_equal; lia|lia].
      * rewrite M1. destruct (Z.leb_spec dst x), (Z.ltb_spec x (dst + i)), (Z.ltb_spec x (dst + (i + 1))); done || lia.
  - cbn beta. intros _ s' H. by rewrite Z.add_0_l in H.
Qed.

(** The operation stores into [lo .. hi) only, and leaves bytes. *)
Definition stored (lo hi : Z) (s s' : S) : Prop :=
  rest s s' /\ (bytes_only (mem s) -> bytes_only (mem s')) /\ within lo hi (mem s) (mem s').
Lemma stored_refl lo hi s : stored lo hi s s.
Proof. split; [apply rest_refl|]. done. Qed.
Lemma stored_trans lo hi s s' s'' : stored lo hi s s' -> stored lo hi s' s'' -> stored lo hi s s''.
Proof. intros (R1 & B1 & W1) (R2 & B2 & W2). split; [by eapply rest_trans|]. split; [auto|]. intros x Hx. by rewrite W2, W1. Qed.
Lemma stored_wider lo hi lo' hi' s s' : stored lo hi s s' -> lo' <= lo -> hi <= hi' -> stored lo' hi' s s'.
Proof. intros (R & B & Wi) H1 H2. split; [done|]. split; [done|]. intros x Hx. apply Wi. lia. Qed.
Lemma stored_value lo hi s s' n a : stored lo hi s s' -> a + Z.of_nat n <= lo \/ hi <= a -> value (mem s') n a = value (mem s) n a.
Proof. intros (_ & _ & Wi) H. apply value_ext. intros x Hx. apply Wi. lia. Qed.

(** A store of a value, in an operation that stores into [lo .. hi). *)
Lemma wp_store_value n a v lo hi s0 (Q : unit -> S -> Prop) s : stored lo hi s0 s -> lo <= a -> a + Z.of_nat n <= hi ->
  (forall s', stored lo hi s0 s' -> mem s' = put_value n a v (mem s) -> Q () s') -> wp (poke n a v) Q s.
Proof.
  intros Hs H1 H2 HQ. apply wp_poke. intros s' E R. apply HQ; [|done]. eapply stored_trans; [exact Hs|]. split; [done|].
  split; [intros B; rewrite E; by apply bytes_put|]. intros x Hx. rewrite E. apply put_value_other. lia.
Qed.

End Loops.

(** What was stored is found behind the later stores. *)
Ltac found := repeat (rewrite value_put_other by (cbn; lia)); rewrite value_put.

(** ** The boot interface *)

(** A descriptor of the memory map, the boot information. *)
Definition descriptor_at (m : Z -> Z) (a : Z) : EFI_MEMORY_DESCRIPTOR :=
  mkDesc (value m 4 a) (value m 8 (a + 8)) (value m 8 (a + 16)) (value m 8 (a + 24)) (value m 8 (a + 32)).
Lemma descriptor_local m m' a b : (forall x, 0 <= x < 40 -> m' (b + x) = m (a + x)) -> descriptor_at m' b = descriptor_at m a.
Proof.
  intros E. unfold descriptor_at. rewrite <- (Z.add_0_r b) at 1. rewrite <- (Z.add_0_r a) at 1.
  f_equal; apply value_local; intros x Hx; apply E; lia.
Qed.

Definition descriptor_range (d : EFI_MEMORY_DESCRIPTOR) : Prop :=
  0 <= Type_ d < 2 ^ 32 /\ 0 <= PhysicalStart d < 2 ^ 64 /\ 0 <= VirtualStart d < 2 ^ 64 /\ 0 <= NumberOfPages d < 2 ^ 64 /\ 0 <= Attribute d < 2 ^ 64.

(** The boot information: nine quadwords and six doublewords. *)
Definition info64 (m : Z -> Z) (a : Z) : list Z :=
  [value m 8 a; value m 8 (a + 8); value m 8 (a + 16); value m 8 (a + 24); value m 8 (a + 32); value m 8 (a + 40);
   value m 8 (a + 48); value m 8 (a + 56); value m 8 (a + 64)].
Definition info32 (m : Z -> Z) (a : Z) : list Z :=
  [value m 4 a; value m 4 (a + 4); value m 4 (a + 8); value m 4 (a + 12); value m 4 (a + 16); value m 4 (a + 20)].
