(* ===== verification/Boot4Map.v ===== *)
(** * The BIOS boot loader, stage 4: the memory map ([boot/bios/stage4/stage4.c])

    The entries that the BIOS call E820 gives become the descriptors that the kernel's frame
    allocator is started with. Paths are relative to [src]. *)
From S2P Require Import KPrelude MemHelpers FrameAlloc.

Record E820Entry := mkE820 {
  e820_base : Z;
  e820_length : Z;
  e820_type : Z;
  e820_attributes : Z
}.

Definition e820_to_efi_type (type : Z) : Z :=
  if type =? 1 then EfiConventionalMemory
  else if type =? 3 then EfiACPIReclaimMemory
  else if type =? 4 then EfiACPIMemoryNVS
  else if type =? 5 then EfiUnusableMemory
  else if type =? 7 then EfiPersistentMemory
  else EfiReservedMemoryType.

(** The descriptor of an entry, if it has one. Whatever its type and attributes are, the descriptor's
    attribute is 0. *)
Definition convert_entry (e : E820Entry) : option EFI_MEMORY_DESCRIPTOR :=
  let base := e820_base e in
  let length := e820_length e in
  if (length =? 0) || (length >? u64 (Z.lnot 0) - base) then None
  else
    let type := e820_to_efi_type (e820_type e) in
    let end_ := u64 (base + length) in
    let first_page := if type =? EfiConventionalMemory
                      then (base >>> 12) + (if base &&& 0xfff =? 0 then 0 else 1) else base >>> 12 in
    let end_page := if type =? EfiConventionalMemory
                    then end_ >>> 12 else (end_ >>> 12) + (if end_ &&& 0xfff =? 0 then 0 else 1) in
    if end_page <=? first_page then None
    else Some (mkDesc type (u64 (first_page <<< 12)) 0 (u64 (end_page - first_page)) 0).

(** The state is the array [descriptors]; an index outside of an array faults. *)
Definition convert_e820_to_efi (entries : list E820Entry) (count : Z) : M (list EFI_MEMORY_DESCRIPTOR) Z :=
  '(_, written) ← while FUEL (fun '(i, written) =>
    if (i <? count) && (i <? 1024) then
      e ← of_option (array_get entries i);
      match convert_entry e with
      | None => mret (inl (u32 (i + 1), written))
      | Some d =>
          l ← gets (fun l => l);
          of_option (array_get l written);;
          modify (<[Z.to_nat written := d]>);;
          mret (inl (u32 (i + 1), u32 (written + 1)))
      end
    else mret (inr (i, written))) (0, 0);
  mret written.

(** The address of [pages] free pages above 1 MiB, or 1. *)
Definition find_free_region (efi_memory_map : list EFI_MEMORY_DESCRIPTOR) (pages : Z) : Z :=
  match List.find (fun d => (0x100000 <=? PhysicalStart d) && (Type_ d =? EfiConventionalMemory) &&
                            (pages <=? NumberOfPages d)) efi_memory_map with
  | Some d => u32 (PhysicalStart d)
  | None => 1
  end.

Definition find_highest_page (efi_memory_map : list EFI_MEMORY_DESCRIPTOR) : Z :=
  fold_left (fun highest_page d =>
    let end_page := u64 ((PhysicalStart d >>> 12) + NumberOfPages d) in
    if end_page >? highest_page then end_page else highest_page) efi_memory_map 0.

(** ** What the descriptors say *)

Definition entry_ok (e : E820Entry) : Prop := 0 <= e820_base e < 2 ^ 64 /\ 0 <= e820_length e < 2 ^ 64.
Definition entry_end (e : E820Entry) : Z := e820_base e + e820_length e.
(** Entries that the loader skips: nothing in them, or not inside 64 bits. *)
Definition entry_real (e : E820Entry) : Prop := 0 < e820_length e /\ entry_end e < 2 ^ 64.

Lemma low_bits a : a &&& 0xfff = a mod 4096.
Proof. change 0xfff with (Z.ones 12). by rewrite Z.land_ones by lia. Qed.
Lemma page_of a : a >>> 12 = a / 4096.
Proof. by rewrite Z.shiftr_div_pow2 by lia. Qed.

(** The frames of an entry: all of a frame inside for conventional memory, any byte of it for the rest. *)
Definition frame_of (e : E820Entry) (k : Z) : Prop :=
  if e820_to_efi_type (e820_type e) =? EfiConventionalMemory
  then e820_base e <= 4096 * k /\ 4096 * k + 4096 <= entry_end e
  else e820_base e < 4096 * k + 4096 /\ 4096 * k < entry_end e.

Lemma convert_entry_some e d : entry_ok e -> convert_entry e = Some d ->
  entry_real e /\ Type_ d = e820_to_efi_type (e820_type e) /\ PhysicalStart d mod 4096 = 0 /\
  0 <= PhysicalStart d < 2 ^ 64 /\ 1 <= NumberOfPages d <= 2 ^ 52 /\ (forall k, covers d k = true <-> frame_of e k).
Proof.
  intros [[Hb0 Hb] [Hl0 Hl]]. unfold convert_entry, entry_real, entry_end, frame_of. set (base := e820_base e) in *. set (len := e820_length e) in *.
  change (u64 (Z.lnot 0)) with (2 ^ 64 - 1). change (2 ^ 64) with 18446744073709551616 in *.
  destruct (Z.eqb_spec len 0); [done|]. destruct (Z.gtb_spec len (18446744073709551616 - 1 - base)); [done|]. cbn [orb].
  rewrite u64_id by (change (2 ^ 64) with 18446744073709551616; lia). rewrite !page_of, !low_bits.
  set (first := if e820_to_efi_type (e820_type e) =? EfiConventionalMemory then _ else base / 4096).
  set (last := if e820_to_efi_type (e820_type e) =? EfiConventionalMemory then _ else _).
  destruct (Z.leb_spec last first) as [|Hlt]; [done|]. intros [= <-]. unfold entry_end, covers. cbn [Type_ PhysicalStart NumberOfPages].
  fold base len.
  assert (0 <= first /\ last <= 2 ^ 52 /\ (forall k, (first <= k < last) <->
    if e820_to_efi_type (e820_type e) =? EfiConventionalMemory
    then base <= 4096 * k /\ 4096 * k + 4096 <= base + len else base < 4096 * k + 4096 /\ 4096 * k < base + len)) as (H1 & H2 & H3).
  { change (2 ^ 52) with 4503599627370496. subst first last.
    destruct (_ =? EfiConventionalMemory); [destruct (Z.eqb_spec (base mod 4096) 0)|destruct (Z.eqb_spec ((base + len) mod 4096) 0)];
      (split; [divlia|]; split; [divlia|]; intros k; divlia). }
  change (2 ^ 52) with 4503599627370496 in *.
  rewrite !u64_id; [|change (2 ^ 64) with 18446744073709551616; lia|rewrite Z.shiftl_mul_pow2 by lia; change (2 ^ 64) with 18446744073709551616; lia].
  rewrite Z.shiftl_mul_pow2 by lia. change (2 ^ 12) with 4096. split; [lia|]. split; [done|]. split; [divlia|]. split; [lia|]. split; [lia|].
  intros k. rewrite Z.div_mul by lia. rewrite andb_true_iff, Z.leb_le, Z.ltb_lt, <- H3. lia.
Qed.

Lemma convert_entry_none e k : entry_ok e -> convert_entry e = None -> ~ (entry_real e /\ frame_of e k).
Proof.
  intros [[Hb0 Hb] [Hl0 Hl]]. unfold convert_entry, entry_real, frame_of, entry_end. set (base := e820_base e) in *. set (len := e820_length e) in *.
  change (u64 (Z.lnot 0)) with (2 ^ 64 - 1). change (2 ^ 64) with 18446744073709551616 in *.
  destruct (Z.eqb_spec len 0); [lia|]. destruct (Z.gtb_spec len (18446744073709551616 - 1 - base)); [lia|]. cbn [orb].
  rewrite u64_id by (change (2 ^ 64) with 18446744073709551616; lia). rewrite !page_of, !low_bits.
  destruct (_ =? EfiConventionalMemory).
  - destruct (Z.leb_spec ((base + len) / 4096) (base / 4096 + (if base mod 4096 =? 0 then 0 else 1))) as [Hle|]; [|done]. intros _ [_ Hf].
    destruct (Z.eqb_spec (base mod 4096) 0); divlia.
  - destruct (Z.leb_spec ((base + len) / 4096 + (if (base + len) mod 4096 =? 0 then 0 else 1)) (base / 4096)) as [Hle|]; [|done]. intros _ [_ Hf].
    destruct (Z.eqb_spec ((base + len) mod 4096) 0); divlia.
Qed.

(** ** The conversion *)

Definition entries_read (entries : list E820Entry) (count : Z) : list E820Entry := take (Z.to_nat count) entries.
Definition converted (entries : list E820Entry) (count : Z) : list EFI_MEMORY_DESCRIPTOR :=
  omap convert_entry (entries_read entries count).

Lemma entries_step entries i e : 0 <= i -> entries !! Z.to_nat i = Some e ->
  converted entries (i + 1) = converted entries i ++ (match convert_entry e with Some d => [d] | None => [] end).
Proof.
  intros Hi E. unfold converted, entries_read. replace (Z.to_nat (i + 1)) with (S (Z.to_nat i)) by lia.
  rewrite (take_S_r _ _ _ E), omap_app. cbn. by destruct (convert_entry e).
Qed.
Lemma converted_length entries i : (length (converted entries i) <= length (entries_read entries i))%nat.
Proof.
  unfold converted. induction (entries_read entries i) as [|e l IH]; cbn; [done|]. destruct (convert_entry e); cbn; lia.
Qed.

Lemma wp_convert entries count l : length entries = 1024%nat -> length l = 1024%nat -> 0 <= count ->
  wp (convert_e820_to_efi entries count) (fun n l' => n = Z.of_nat (length (converted entries count)) /\
    l' = converted entries count ++ drop (length (converted entries count)) l) l.
Proof.
  intros He Hl Hc. set (m := Z.min count 1024).
  assert (converted entries count = converted entries m) as ->.
  { unfold converted, entries_read. f_equal. subst m. destruct (Z.le_ge_cases count 1024); [f_equal; lia|].
    rewrite !take_ge; [done|lia|lia]. }
  unfold convert_e820_to_efi. apply wp_bind.
  apply (wp_while _ (fun '(i, n) l' => 0 <= i <= m /\ n = Z.of_nat (length (converted entries i)) /\
      l' = converted entries i ++ drop (length (converted entries i)) l) (fun '(i, _) _ => m - i)).
  - intros [i n] l' (Hi & -> & ->). destruct (Z.ltb_spec i count); cbn [andb].
    2: { apply wp_ret. cbn beta iota. replace m with i by lia. by apply wp_ret. }
    destruct (Z.ltb_spec i 1024); [|apply wp_ret; cbn beta iota; replace m with i by lia; by apply wp_ret].
    destruct (array_get_Some entries i) as (e & Eg & Ee); [lia|]. apply wp_bind. rewrite Eg. apply wp_ret.
    pose proof (entries_step entries i e ltac:(lia) Ee) as Es. rewrite u32_id by (change (2 ^ 32) with 4294967296; lia).
    pose proof (converted_length entries i) as Hlen. unfold entries_read in Hlen. rewrite length_take in Hlen.
    destruct (convert_entry e) as [d|] eqn:Ed.
    + set (c := converted entries i) in *. apply wp_bind, wp_gets. apply wp_bind.
      destruct (array_get_Some (c ++ drop (length c) l) (Z.of_nat (length c))) as (x & Eg2 & _); [rewrite length_app, length_drop; lia|].
      rewrite Eg2. apply wp_ret. apply wp_bind, wp_modify. apply wp_ret.
      rewrite u32_id by (change (2 ^ 32) with 4294967296; lia). rewrite Es, length_app. cbn [length].
      split; [|lia]. split; [lia|]. split; [lia|]. rewrite Nat2Z.id. rewrite insert_app_r_alt, Nat.sub_diag by lia.
      rewrite <- app_assoc. f_equal. destruct (drop (length c) l) as [|y r] eqn:Edr.
      * apply (f_equal length) in Edr. rewrite length_drop in Edr. cbn in Edr. lia.
      * cbn. f_equal. rewrite Nat.add_1_r. replace (S (length c)) with (length c + 1)%nat by lia. rewrite <- drop_drop, Edr. done.
    + apply wp_ret. rewrite Es, app_nil_r. split; [|lia]. split; [lia|]. done.
  - split; [lia|]. by rewrite drop_0.
  - unfold FUEL. lia.
Qed.

(** ** The frames that the kernel takes as free *)

Lemma map_used_free ds k : map_used ds k = false -> exists d, d ∈ ds /\ covers d k = true /\ usable_desc d = true.
Proof.
  induction ds as [|d ds IH] using rev_ind; [done|]. rewrite map_used_snoc. destruct (covers d k) eqn:E.
  - intros Hu. exists d. split; [set_solver|]. split; [done|]. by destruct (usable_desc d).
  - intros H. destruct (IH H) as (d' & ? & ?). exists d'. split; [set_solver|done].
Qed.
Lemma map_used_all ds k : (exists d, d ∈ ds /\ covers d k = true) -> (forall d, d ∈ ds -> covers d k = true -> usable_desc d = true) ->
  map_used ds k = false.
Proof.
  induction ds as [|d ds IH] using rev_ind; [intros (? & H & _); by apply elem_of_nil in H|]. intros (d' & Hd' & Hc) Hall. rewrite map_used_snoc.
  destruct (covers d k) eqn:E; [rewrite (Hall d); [done|set_solver|done]|]. apply IH.
  - exists d'. apply elem_of_app in Hd' as [?|Hd']; [done|]. apply list_elem_of_singleton in Hd' as ->. congruence.
  - intros x Hx. apply Hall. set_solver.
Qed.

(** The entries do not overlap. *)
Definition entries_apart (l : list E820Entry) : Prop :=
  forall i j a b, l !! i = Some a -> l !! j = Some b -> i <> j -> entry_real a -> entry_real b ->
  entry_end a <= e820_base b \/ entry_end b <= e820_base a.

Lemma frame_usable e d : entry_ok e -> convert_entry e = Some d -> usable_desc d = true <-> e820_type e = 1 /\ 0xFF000 < e820_base e.
Proof.
  intros Hok Ed. destruct (convert_entry_some _ _ Hok Ed) as ([Hl He] & Et & Hm & Hp & Hn & Hc). unfold usable_desc. rewrite Et, andb_true_iff, Z.leb_le, Z.eqb_eq.
  assert (e820_to_efi_type (e820_type e) = EfiConventionalMemory <-> e820_type e = 1) as Ht.
  { unfold e820_to_efi_type. destruct (Z.eqb_spec (e820_type e) 1); [done|].
    repeat (destruct (_ =? _); [split; [by intros [=]|done]|]). split; [by intros [=]|done]. }
  rewrite Ht. split; intros [H1 H2]; (split; [done|]); specialize (Hc (PhysicalStart d / 4096));
    unfold frame_of in Hc; rewrite (proj2 (Z.eqb_eq _ _) (proj2 Ht H1)) in Hc; unfold covers in Hc.
  - rewrite andb_true_iff, Z.leb_le, Z.ltb_lt in Hc. pose proof (convert_entry_some _ _ Hok Ed) as (_ & _ & _ & _ & _ & Hc').
    specialize (Hc' (PhysicalStart d / 4096 - 1)). unfold frame_of, covers in Hc'. rewrite (proj2 (Z.eqb_eq _ _) (proj2 Ht H1)) in Hc'.
    rewrite andb_true_iff, Z.leb_le, Z.ltb_lt in Hc'. destruct (Z.lt_ge_cases 0xFF000 (e820_base e)); [done|exfalso].
    assert (0 <= e820_base e) by apply Hok. assert (PhysicalStart d / 4096 <= PhysicalStart d / 4096 - 1); [|lia].
    apply Hc'. split; [divlia|]. destruct (proj1 Hc ltac:(lia)) as [_ ?]. lia.
  - rewrite andb_true_iff, Z.leb_le, Z.ltb_lt in Hc. destruct (proj1 Hc ltac:(lia)) as [? _]. divlia.
Qed.

(** A frame that is wholly inside an entry of usable memory which starts in the last frame below 1 MiB
    at the earliest. *)
Definition usable_frame (l : list E820Entry) (k : Z) : Prop :=
  exists e, e ∈ l /\ entry_real e /\ e820_type e = 1 /\ 0xFF000 < e820_base e /\
    e820_base e <= 4096 * k /\ 4096 * k + 4096 <= entry_end e.

Lemma converted_in (l : list E820Entry) d : d ∈ omap convert_entry l -> exists i e, l !! i = Some e /\ convert_entry e = Some d.
Proof.
  intros Hd. apply list_elem_of_omap in Hd as (e & He & Ed). apply list_elem_of_lookup in He as [i He]. by exists i, e.
Qed.

(** Two entries with the frame: they are the same if it is wholly inside one of them. *)
Lemma frames_apart (l : list E820Entry) i j a b k : entries_apart l -> l !! i = Some a -> l !! j = Some b -> entry_real a -> entry_real b ->
  e820_base a <= 4096 * k /\ 4096 * k + 4096 <= entry_end a -> frame_of b k -> a = b.
Proof.
  intros Hd Hi Hj Ra Rb Ha Hb. destruct (decide (i = j)) as [->|Hne]; [congruence|]. exfalso.
  unfold frame_of in Hb. destruct (Hd i j a b Hi Hj Hne Ra Rb), (_ =? _); lia.
Qed.

Lemma map_used_converted (l : list E820Entry) k : Forall entry_ok l -> entries_apart l ->
  map_used (omap convert_entry l) k = false <-> usable_frame l k.
Proof.
  intros Hok Hd. assert (forall i e, l !! i = Some e -> entry_ok e) as Hok' by (intros i e; by apply Forall_lookup_1).
  assert (forall e, e820_type e = 1 -> (e820_to_efi_type (e820_type e) =? EfiConventionalMemory) = true) as Ht by (by intros e ->).
  split.
  - intros Hu. apply map_used_free in Hu as (d & Hin & Hc & Hus). apply converted_in in Hin as (i & e & Hi & Ed).
    apply (frame_usable e) in Hus as [Hty Hb]; [|by eapply Hok'|done].
    destruct (convert_entry_some e d (Hok' _ _ Hi) Ed) as (Hr & _ & _ & _ & _ & Hfr). apply Hfr in Hc.
    unfold frame_of in Hc. rewrite Ht in Hc by done. exists e. split; [by eapply list_elem_of_lookup_2|]. done.
  - intros (e & He & Hr & Hty & Hb & Hk). apply list_elem_of_lookup in He as [i Hi].
    assert (frame_of e k) as Hf by (unfold frame_of; by rewrite Ht).
    destruct (convert_entry e) as [d|] eqn:Ed; [|by destruct (convert_entry_none e k (Hok' _ _ Hi) Ed)].
    destruct (convert_entry_some e d (Hok' _ _ Hi) Ed) as (_ & _ & _ & _ & _ & Hfr).
    apply map_used_all.
    + exists d. split; [|by apply Hfr]. apply list_elem_of_omap. exists e. split; [by eapply list_elem_of_lookup_2|done].
    + intros d' Hd' Hc'. apply converted_in in Hd' as (j & e' & Hj & Ed').
      destruct (convert_entry_some e' d' (Hok' _ _ Hj) Ed') as (Hr' & _ & _ & _ & _ & Hfr'). apply Hfr' in Hc'.
      assert (e = e') as <- by (by eapply frames_apart). eapply frame_usable; [by eapply Hok'|exact Ed'|done].
Qed.

(** C18: for the entries that the BIOS gave, the conversion ends inside both arrays; every descriptor is
    a whole number of frames, page aligned, inside 64 bits. When the entries do not overlap, the kernel's
    frame allocator, started with these descriptors, takes exactly those frames as free that lie wholly
    inside an entry of usable memory above 1 MiB: no byte that the firmware reserves is ever free, and no
    whole usable frame is lost. *)
Theorem boot_map_correct (entries : list E820Entry) (count : Z) (l : list EFI_MEMORY_DESCRIPTOR) :
  length entries = 1024%nat -> length l = 1024%nat -> 0 <= count -> Forall entry_ok (entries_read entries count) ->
  exists n l', convert_e820_to_efi entries count l = Done n l' /\ 0 <= n <= Z.min count 1024 /\ length l' = 1024%nat /\
    let ds := take (Z.to_nat n) l' in
    Forall (fun d => PhysicalStart d mod 4096 = 0 /\ 0 <= PhysicalStart d < 2 ^ 64 /\ 1 <= NumberOfPages d <= 2 ^ 52) ds /\
    (entries_apart (entries_read entries count) ->
     forall k, map_used ds k = false <-> usable_frame (entries_read entries count) k).
Proof.
  intros He Hl Hc Hok. destruct (wp_inv _ _ _ (wp_convert entries count l He Hl Hc)) as (n & l' & E & -> & ->).
  eexists _, _. split; [exact E|]. pose proof (converted_length entries count) as Hlen. unfold entries_read in Hlen.
  rewrite length_take in Hlen. split; [lia|]. split; [rewrite length_app, length_drop; lia|].
  rewrite Nat2Z.id, take_app_length. split.
  - apply Forall_forall. intros d Hd. apply converted_in in Hd as (i & e & Hi & Ed).
    destruct (convert_entry_some e d) as (_ & _ & ? & ? & ? & _); [by eapply Forall_lookup_1|done|done].
  - intros Ha k. by apply map_used_converted.
Qed.

(** The map of a small machine: below 640 KiB, the BIOS, and usable memory from 1 MiB on with a
    reserved part that starts inside of a frame. *)
Definition sample_entries : list E820Entry :=
  [mkE820 0 0x9FC00 1 0; mkE820 0x9FC00 0x400 2 0; mkE820 0xF0000 0x10000 2 0; mkE820 0x100000 0x7EE0800 1 0;
   mkE820 0x7FE0800 0x1F800 3 0] ++ replicate 1019 (mkE820 0 0 0 0).
Lemma boot_map_correct_witness :
  exists n l', convert_e820_to_efi sample_entries 5 (replicate 1024 zero_desc) = Done n l' /\ 0 <= n <= Z.min 5 1024 /\
    length l' = 1024%nat /\
    let ds := take (Z.to_nat n) l' in
    Forall (fun d => PhysicalStart d mod 4096 = 0 /\ 0 <= PhysicalStart d < 2 ^ 64 /\ 1 <= NumberOfPages d <= 2 ^ 52) ds /\
    (entries_apart (entries_read sample_entries 5) ->
     forall k, map_used ds k = false <-> usable_frame (entries_read sample_entries 5) k).
Proof.
  apply (boot_map_correct sample_entries 5 (replicate 1024 zero_desc)); [reflexivity|reflexivity|lia|].
  repeat constructor; cbn; lia.
Defined.
Example sample_apart : entries_apart (entries_read sample_entries 5).
Proof.
  intros i j a b Hi Hj Hne. do 5 (destruct i as [|i]; [injection Hi as <-; do 5 (destruct j as [|j]; [injection Hj as <-; cbn; unfold entry_end; cbn; intros; (done || lia)|]); done|]). done.
Qed.
Example sample_converted : fst <$> (match convert_e820_to_efi sample_entries 5 (replicate 1024 zero_desc) with Done n l => Some (n, l) | _ => None end) = Some 5.
Proof. vm_compute. reflexivity. Qed.
