(* ===== verification/Boot4.v ===== *)
(** * The BIOS boot loader, stage 4: loading the kernel ([boot/bios/stage4/stage4.c])

    Stage 4 runs in 32-bit protected mode on all of memory; the BIOS and the FAT are behind
    [RealModeWrapper], assembly that goes back to real mode. It finds the kernel on the disk,
    chooses a place for it and what it needs, loads its segments there, and leaves the page tables
    for long mode. Text that is only printed is left out. Paths are relative to [src]. *)
From S2P Require Import KPrelude MemHelpers Bytes BootMem Boot4Map.

(** [vbe_data], written by the service [SetVbe]. *)
Record vbe_data := mkVbe {
  pixel_mode : Z;
  horizontal_resolution : Z;
  vertical_resolution : Z;
  pixels_per_scanline : Z;
  info_size : Z;
  framebuffer_address : Z
}.

(** What stage 3 found out about the file system ([bios_services]). *)
Record bios_services := mkServices {
  sectors_per_cluster : Z;
  first_data_lba : Z
}.

(** The loader's own variables are apart from memory. *)
Record stage4 := mkStage4 {
  s4_mem : Z -> Z;
  E820map : list E820Entry;
  efi_memory_map : list EFI_MEMORY_DESCRIPTOR;
  e820_entry_count : Z;
  efi_descriptor_count : Z;
  place : Z;
  vga : vbe_data;
  PML4 : Z;
  PDPT : Z;
  PD : Z;
  g_buff : Z;
  g_buff64 : Z;
  gstack : Z;
  GMMP : Z;
  kernel_entry : Z
}.
Definition stage4_eta (s : stage4) : stage4 :=
  mkStage4 (s4_mem s) (E820map s) (efi_memory_map s) (e820_entry_count s) (efi_descriptor_count s) (place s) (vga s)
    (PML4 s) (PDPT s) (PD s) (g_buff s) (g_buff64 s) (gstack s) (GMMP s) (kernel_entry s).
Definition set_s4_mem : ((Z -> Z) -> (Z -> Z)) -> stage4 -> stage4 := ltac:(setter stage4_eta s4_mem).
Definition set_place : (Z -> Z) -> stage4 -> stage4 := ltac:(setter stage4_eta place).
Definition set_efi_memory_map : (list EFI_MEMORY_DESCRIPTOR -> list EFI_MEMORY_DESCRIPTOR) -> stage4 -> stage4 :=
  ltac:(setter stage4_eta efi_memory_map).
Definition set_e820_entry_count : (Z -> Z) -> stage4 -> stage4 := ltac:(setter stage4_eta e820_entry_count).
Definition set_efi_descriptor_count : (Z -> Z) -> stage4 -> stage4 := ltac:(setter stage4_eta efi_descriptor_count).
Definition set_tables (a b c : Z) (s : stage4) : stage4 :=
  mkStage4 (s4_mem s) (E820map s) (efi_memory_map s) (e820_entry_count s) (efi_descriptor_count s) (place s) (vga s)
    a b c (g_buff s) (g_buff64 s) (gstack s) (GMMP s) (kernel_entry s).
Definition set_handoff (buff buff64 stack map entry : Z) (s : stage4) : stage4 :=
  mkStage4 (s4_mem s) (E820map s) (efi_memory_map s) (e820_entry_count s) (efi_descriptor_count s) (place s) (vga s)
    (PML4 s) (PDPT s) (PD s) buff buff64 stack map entry.

#[export] Instance stage4_mem : ByteMem stage4.
Proof. refine {| mem := s4_mem; set_mem := set_s4_mem |}; by intros; destruct s. Defined.

Abbreviation MB := (M stage4).

(** A character of the text screen; nothing calls it. *)
Definition putc (ch color pos : Z) : MB unit := poke 1 (0xB8000 + pos * 2) (u8 ch);; poke 1 (0xB8000 + (pos * 2 + 1)) (u8 color).

(** ** Services *)

Definition bios_disk_services := 0.
Definition convert_cluster_to_lba := 1.
Definition find_next_cluster := 4.
Definition read_memory_map := 6.
Definition SetVbe := 7.

(** Offsets in an ELF file ([elf.h]). *)
Definition E_PHOFF := 0x20.
Definition E_PHENTSIZE := 0x36.
Definition E_PHNUM := 0x38.
Definition P_OFFSET := 0x08.
Definition P_FILESZ := 0x20.
Definition P_MEMSZ := 0x28.
Definition PT_LOAD := 1.

Section Loader.
(** [RealModeWrapper table service arg1 arg2 arg3 secondary]: the table is always the one of stage 3,
    the last argument is never used here. The loader's own variables are not in [mem]: where the code
    gives the address of [E820map] or [vga], the argument is 0, and the service stores into the field. *)
Context (RealModeWrapper : Z -> Z -> Z -> Z -> MB Z) (Services : bios_services).

(** *** Looking for things *)

Definition RSD_PTR : list Z := [82; 83; 68; 32; 80; 84; 82; 32].
Definition find_rsdp_legacy : MB Z :=
  ebda_segment ← peek 2 0x40E;
  let ebda_address := ebda_segment <<< 4 in
  m ← gets mem;
  r ← scan (fun a => Some (m a)) RSD_PTR ebda_address (ebda_address + 1024);
  match r with
  | Some addr => mret addr
  | None => r ← scan (fun a => Some (m a)) RSD_PTR 0xE0000 0x100000; mret (default 0 r)
  end.

Definition cmpstr (ptr0 : Z) (ptr1 : list Z) (length : Z) : MB bool :=
  ec ← for_ 0 length (fun i ec => a ← peek 1 (ptr0 + i); b ← of_option (array_get ptr1 i);
                                  mret (if a =? b then ec + 1 else ec)) 0;
  mret (ec =? length).

(** The directory entry of a name, or 1. *)
Definition open_path (path : list Z) (Sector : Z) : MB Z :=
  RealModeWrapper bios_disk_services Sector 0x90000 32;;
  while FUEL (fun ptr =>
    c ← peek 1 ptr;
    if c =? 0 then mret (inr 1)
    else
      found ← cmpstr ptr path 11;
      if (found : bool) then mret (inr ptr) else mret (inl (u32 (ptr + 32)))) 0x90000.

(** The cluster of a directory entry. *)
Definition entry_cluster (entry : Z) : MB Z :=
  high ← peek 2 (entry + 0x14);
  low ← peek 2 (entry + 0x1A);
  mret (u32 ((high <<< 16) + low)).

Definition calc_size (ptr ephentsize ephnum : Z) : MB Z :=
  '(_, size) ← for_ 0 ephnum (fun _ '(ptr, size) =>
    p_type ← peek 4 ptr;
    size ← (if p_type =? PT_LOAD then
              p_memsz ← peek 8 (ptr + P_MEMSZ);
              let size := u32 (size + u32 p_memsz) in
              mret (u32 (size + 4095) &&& u32 (Z.lnot 4095))
            else mret size);
    mret (ptr + ephentsize, size)) (ptr, 0);
  mret size.

(** *** Loading *)

Definition load_clusters (cluster count : Z) : MB unit :=
  for_ 0 count (fun _ cluster =>
    lba ← RealModeWrapper convert_cluster_to_lba cluster 0 0;
    p ← gets place;
    RealModeWrapper bios_disk_services lba p (sectors_per_cluster Services);;
    modify (set_place (fun p => u32 (p + 512 * sectors_per_cluster Services)));;
    RealModeWrapper find_next_cluster cluster 0 0) cluster;;
  mret ().

Definition load_4k (cluster Destination cluster_off : Z) : MB unit :=
  let sectors := (4096 + cluster_off + 511) >>> 9 in
  let cluster_count := (sectors + (sectors_per_cluster Services - 1)) / sectors_per_cluster Services in
  load_clusters cluster cluster_count;;
  memcpy Destination (0x80000 + cluster_off) 4096;;
  modify (set_place (fun _ => 0x80000)).

Definition find_next (cluster count : Z) : MB Z :=
  for_ 0 count (fun _ cluster => RealModeWrapper find_next_cluster cluster 0 0) cluster.

(** The pages of a segment of [filesz] bytes at [offset] of the file go to [addr]. *)
Definition load_pages (addr offset page_count kernel_cluster : Z) : MB unit :=
  let cluster_size := sectors_per_cluster Services * 512 in
  let align := cluster_size - 1 in
  for_ 0 page_count (fun _ '(addr, offset) =>
    let calculation := kernel_cluster * cluster_size + offset in
    let cluster := u32 (calculation / cluster_size) in
    cluster ← find_next kernel_cluster (u32 (cluster - kernel_cluster));
    let cluster_off := calculation &&& align in
    load_4k cluster addr cluster_off;;
    mret (u32 (addr + 0x1000), u32 (offset + 0x1000))) (addr, offset);;
  mret ().

Definition load_segment (addr ptr kernel_cluster : Z) : MB Z :=
  p_memsz ← peek 8 (ptr + P_MEMSZ);
  p_filesz ← peek 8 (ptr + P_FILESZ);
  p_offset ← peek 8 (ptr + P_OFFSET);
  let remainder := u64 (p_memsz - p_filesz) in
  let page_count := i32 (u64 (p_filesz + 4095) >>> 12) in
  load_pages addr (u32 p_offset) page_count kernel_cluster;;
  let addr := u32 (addr + u32 p_filesz) in
  memset addr (i32 remainder) 0;;
  let addr := u32 (addr + remainder) in
  mret (u32 (addr + 4095) &&& u32 (Z.lnot 0xFFF)).

Definition load_kernel (addr ptr ephentsize ephnum kernel_cluster : Z) : MB unit :=
  for_ 0 ephnum (fun _ '(addr, ptr) =>
    type ← peek 4 ptr;
    addr ← (if type =? PT_LOAD then load_segment addr ptr kernel_cluster else mret addr);
    mret (addr, ptr + ephentsize)) (addr, ptr);;
  mret ().

(** *** Page tables *)

(** One table of 512 entries of 2 MiB for the first GiB, and a table of each level above it. Only the
    first entries of these two are stored. *)
Definition setup_paging : MB unit :=
  modify (set_tables 0x90000 0x91000 0x92000);;
  poke 8 0x90000 (0x91000 ||| 0x03);;
  poke 8 0x91000 (0x92000 ||| 0x03);;
  for_ 0 512 (fun i addr => poke 8 (0x92000 + 8 * i) (addr ||| 0x83);; mret (u64 (addr + 0x200000))) 0;;
  mret ().

(** *** [main] *)

Definition read_map : MB unit :=
  n ← RealModeWrapper read_memory_map 0 0 0;
  modify (set_e820_entry_count (fun _ => n));;
  modify (set_efi_descriptor_count (fun _ => 0));;
  if n =? 0xffffffff then mret ()
  else
    entries ← gets E820map;
    count ← zoom efi_memory_map (fun l => set_efi_memory_map (fun _ => l)) (convert_e820_to_efi entries n);
    modify (set_efi_descriptor_count (fun _ => count)).

Definition BOOT : list Z := [66; 79; 79; 84; 32; 32; 32; 32; 32; 32; 32].
Definition KERNEL_ELF : list Z := [75; 69; 82; 78; 69; 76; 32; 32; 69; 76; 70].

(** The first cluster of the kernel. *)
Definition open_kernel : MB Z :=
  boot ← open_path BOOT (first_data_lba Services);
  cluster ← entry_cluster boot;
  lba ← RealModeWrapper convert_cluster_to_lba cluster 0 0;
  knl ← open_path KERNEL_ELF lba;
  entry_cluster knl.

Definition sizeof_descriptor := 40.
Definition store_descriptor (a : Z) (d : EFI_MEMORY_DESCRIPTOR) : MB unit :=
  poke 4 a (Type_ d);; poke 4 (a + 4) 0;; poke 8 (a + 8) (PhysicalStart d);; poke 8 (a + 16) (VirtualStart d);;
  poke 8 (a + 24) (NumberOfPages d);; poke 8 (a + 32) (Attribute d).
(** The copy of the memory map for the kernel. *)
Definition store_map (MMP count : Z) : MB unit :=
  for_ 0 count (fun i _ =>
    l ← gets efi_memory_map; d ← of_option (array_get l i); store_descriptor (MMP + sizeof_descriptor * i) d) ().

(** The places of what the kernel is started with, behind its [size] bytes and its stack. *)
Record boot_areas := mkAreas { total_size : Z; area_mmsz : Z; area_bitmap : Z }.
Definition plan_areas (size : Z) (l : list EFI_MEMORY_DESCRIPTOR) : boot_areas :=
  let bitmap_size := u64 ((u64 (find_highest_page l + 7) >>> 3) + 4095) &&& u64 (Z.lnot 0xfff) in
  let mmsz := u32 (Z.of_nat (length l) * sizeof_descriptor) in
  let total := u32 (u64 (u32 (size + 0x41000) + bitmap_size + mmsz + 72 + 24)) in
  mkAreas (u32 (total + 4095) &&& u32 (Z.lnot 0xFFF)) mmsz bitmap_size.

Definition store_info (p_buff p_buff64 kernelstart mmsz bitmap_size rsdp : Z) : MB unit :=
  v ← gets vga;
  poke 4 p_buff (pixel_mode v);;
  poke 4 (p_buff + 4) (horizontal_resolution v);;
  poke 4 (p_buff + 8) (vertical_resolution v);;
  poke 4 (p_buff + 12) (pixels_per_scanline v);;
  poke 4 (p_buff + 16) (24 + 72);;
  poke 4 (p_buff + 20) 0;;
  poke 8 p_buff64 kernelstart;;
  poke 8 (p_buff64 + 8) kernelstart;;
  poke 8 (p_buff64 + 16) (u32 (p_buff + 24));;
  poke 8 (p_buff64 + 24) (framebuffer_address v);;
  poke 8 (p_buff64 + 32) mmsz;;
  poke 8 (p_buff64 + 40) sizeof_descriptor;;
  poke 8 (p_buff64 + 48) bitmap_size;;
  poke 8 (p_buff64 + 56) rsdp;;
  poke 8 (p_buff64 + 64) 1.

(** The kernel whose first cluster is known: its headers, a place, the hand-over, its segments. *)
Definition place_kernel (rsdp save_cluster : Z) : MB unit :=
  lba ← RealModeWrapper convert_cluster_to_lba save_cluster 0 0;
  RealModeWrapper bios_disk_services lba 0x95000 32;;
  ephoff ← peek 8 (0x95000 + E_PHOFF);
  ephentsize ← peek 2 (0x95000 + E_PHENTSIZE);
  ephnum ← peek 2 (0x95000 + E_PHNUM);
  let ph := u32 (0x95000 + ephoff) in
  size ← calc_size ph ephentsize ephnum;
  let size := u32 (size + 4095) &&& u32 (Z.lnot 0xFFF) in
  l ← gets efi_memory_map;
  n ← gets efi_descriptor_count;
  let l := take (Z.to_nat n) l in
  let areas := plan_areas size l in
  let kernelstart := find_free_region l (total_size areas >>> 12) in
  let stack := u32 (kernelstart + size + 0x41000) in
  let MMP := u32 (stack + area_bitmap areas) in
  let p_buff64 := u32 (MMP + area_mmsz areas) in
  let p_buff := u32 (p_buff64 + 72) in
  store_map MMP n;;
  store_info p_buff p_buff64 kernelstart (area_mmsz areas) (area_bitmap areas) rsdp;;
  load_kernel kernelstart ph ephentsize ephnum save_cluster;;
  setup_paging;;
  modify (set_handoff p_buff p_buff64 stack MMP kernelstart).

(** Up to the jump to long mode. *)
Definition main : MB unit :=
  read_map;;
  res ← RealModeWrapper SetVbe 0 0 0;
  if negb (res =? 0) then hang
  else
    rsdp ← find_rsdp_legacy;
    cluster ← open_kernel;
    place_kernel rsdp cluster.
End Loader.
