(* ===== verification/Boot4Load.v ===== *)
(** * Stage 4: what is loaded

    With a disk behind the BIOS services, the loader's pages, segments and images are the bytes of the
    kernel's file. *)
From S2P Require Import KPrelude MemHelpers Bytes BootMem Boot4Map Boot4.

Lemma rest_place (s s' : stage4) : rest s s' -> place s' = place s.
Proof. intros ->. by destruct s. Qed.

(** ** The disk behind the services *)

(** What the loader relies on: reading sectors into memory below 1 MiB, the first sector of a cluster, and
    the cluster after a cluster. A sector is 512 bytes. *)
Record disk_laws (RealModeWrapper : Z -> Z -> Z -> Z -> M stage4 Z) (sector : Z -> Z -> Z) (lba_of next : Z -> Z) : Prop := {
  sector_range lba i : 0 <= sector lba i < 256;
  read_law lba buf n s : 0 <= buf -> 0 <= n -> buf + 512 * n <= 2 ^ 20 ->
    RealModeWrapper bios_disk_services lba buf n s = Done 0 (set_mem (fun m x =>
      if (buf <=? x) && (x <? buf + 512 * n) then sector (lba + (x - buf) / 512) ((x - buf) mod 512) else m x) s);
  lba_law c s : RealModeWrapper convert_cluster_to_lba c 0 0 s = Done (lba_of c) s;
  next_law c s : RealModeWrapper find_next_cluster c 0 0 s = Done (next c) s
}.

(** Clusters of at most 32 KiB. *)
Definition cluster_ok (spc : Z) : Prop := spc ∈ [1; 2; 4; 8; 16; 32; 64].

Section Disk.
Context (RealModeWrapper : Z -> Z -> Z -> Z -> M stage4 Z) (Services : bios_services).
Context (sector : Z -> Z -> Z) (lba_of next : Z -> Z) (laws : disk_laws RealModeWrapper sector lba_of next).
Abbreviation spc := (sectors_per_cluster Services).
Context (Hspc : cluster_ok spc).

Definition cluster_size : Z := spc * 512.
(** The byte [o] of the file whose first cluster is [kc]. *)
Definition file_byte (kc o : Z) : Z :=
  sector (lba_of (Nat.iter (Z.to_nat (o / cluster_size)) next kc) + o mod cluster_size / 512) (o mod 512).

Lemma spc_range : 1 <= spc <= 64.
Proof. unfold cluster_ok in Hspc. repeat (apply elem_of_cons in Hspc as [->|Hspc]; [lia|]). by apply elem_of_nil in Hspc. Qed.
Lemma file_byte_range kc o : 0 <= file_byte kc o < 256.
Proof. apply (sector_range _ _ _ _ laws). Qed.

Lemma wp_find_next c n (Q : Z -> stage4 -> Prop) s : 0 <= n -> Q (Nat.iter (Z.to_nat n) next c) s -> wp (find_next RealModeWrapper c n) Q s.
Proof.
  intros Hn HQ. unfold find_next. eapply wp_mono.
  - apply (wp_for (fun i c' s' => c' = Nat.iter (Z.to_nat i) next c /\ s' = s)); [done|done|]. intros i c' s' Hi [-> ->].
    unfold wp. rewrite (next_law _ _ _ _ laws). split; [|done]. by replace (Z.to_nat (i + 1)) with (S (Z.to_nat i)) by lia.
  - cbn beta. intros c' s' [-> ->]. by rewrite Z.add_0_l.
Qed.

(** [count] clusters in a row from cluster number [j] of the file. *)
Lemma wp_load_clusters kc j count p s : 0 <= j -> 0 <= count -> place s = p -> 0 <= p -> p + cluster_size * count <= 2 ^ 20 ->
  wp (load_clusters RealModeWrapper Services (Nat.iter (Z.to_nat j) next kc) count) (fun _ s' =>
    s' = set_place (fun _ => p + cluster_size * count) (set_mem (fun _ => mem s') s) /\ forall x, mem s' x =
      if (p <=? x) && (x <? p + cluster_size * count) then file_byte kc (j * cluster_size + (x - p)) else mem s x) s.
Proof.
  intros Hj Hc Hp Hp0 Hlim. pose proof spc_range as Hs. unfold load_clusters. apply wp_bind. eapply wp_mono.
  - apply (wp_for (fun i c s' => c = Nat.iter (Z.to_nat (j + i)) next kc /\ s' = set_place (fun _ => p + cluster_size * i) (set_mem (fun _ => mem s') s) /\
      forall x, mem s' x = if (p <=? x) && (x <? p + cluster_size * i) then file_byte kc (j * cluster_size + (x - p)) else mem s x)); [done| |].
    + rewrite !Z.mul_0_r, !Z.add_0_r. split; [done|]. split; [rewrite <- Hp; by destruct s|]. intros x.
      destruct (Z.leb_spec p x), (Z.ltb_spec x p); done || lia.
    + intros i c s1 Hi (-> & E1 & M1). unfold cluster_size in *. apply wp_bind. unfold wp at 1. rewrite (lba_law _ _ _ _ laws).
      apply wp_bind, wp_gets. apply wp_bind. assert (place s1 = p + spc * 512 * i) as -> by (by rewrite E1).
      unfold wp at 1. rewrite (read_law _ _ _ _ laws) by nia. apply wp_bind, wp_modify. unfold wp. rewrite (next_law _ _ _ _ laws).
      split; [by replace (Z.to_nat (j + (i + 1))) with (S (Z.to_nat (j + i))) by lia|]. split.
      * rewrite E1. unfold set_place, set_mem. cbn. f_equal. rewrite u32_id; [lia|]. change (2 ^ 20) with 1048576 in Hlim. change (2 ^ 32) with 4294967296. nia.
      * intros x. unfold set_place, set_mem. cbn. set (b := p + spc * 512 * i) in *.
        destruct (Z.leb_spec b x); cbn [andb].
        -- destruct (Z.ltb_spec x (b + 512 * spc)).
           ++ rewrite (proj2 (Z.leb_le p x)), (proj2 (Z.ltb_lt x _)) by nia. cbn [andb]. unfold file_byte, cluster_size.
              set (o := j * (spc * 512) + (x - p)). assert (x - b = o - (j + i) * (spc * 512)) as -> by (subst o b; lia).
              assert (o / (spc * 512) = j + i) as Hq by (symmetry; apply (Z.div_unique _ _ _ (o - (j + i) * (spc * 512))); [left; subst o b; nia|lia]).
              rewrite Hq. assert (o mod (spc * 512) = o - (j + i) * (spc * 512)) as -> by (rewrite Z.mod_eq by lia; rewrite Hq; lia).
              f_equal. replace (o - (j + i) * (spc * 512)) with (o + (- ((j + i) * spc)) * 512) by lia. by rewrite Z.mod_add by lia.
           ++ rewrite M1. rewrite (proj2 (Z.ltb_ge x b)) by lia. rewrite (proj2 (Z.ltb_ge x (p + _))) by (subst b; nia). done.
        -- rewrite M1. fold b. rewrite (proj2 (Z.ltb_lt x b)) by lia. destruct (Z.leb_spec p x); cbn [andb]; [|done].
           by rewrite (proj2 (Z.ltb_lt x (p + _))) by (subst b; nia).
  - cbn beta. intros c s' (_ & H). rewrite Z.add_0_l in H. by apply wp_ret.
Qed.

(** *** Pages *)

(** The buffer that clusters go through. *)
Definition buffered (x : Z) : Prop := 0x80000 <= x < 0x90000.
Definition ready (s : stage4) : Prop := place s = 0x80000 /\ bytes_only (mem s).

(** The clusters that 4096 bytes from [off] in the first one on are in. *)
Lemma clusters_needed off : 0 <= off < cluster_size ->
  let n := ((4096 + off + 511) >>> 9 + (spc - 1)) / spc in 0 <= n /\ off + 4096 <= cluster_size * n <= 0x10000.
Proof.
  unfold cluster_size. cbv zeta. intros Hoff. rewrite Z.shiftr_div_pow2 by lia. change (2 ^ 9) with 512.
  unfold cluster_ok in Hspc. repeat (apply elem_of_cons in Hspc as [E|Hspc]; [rewrite E in *; split; divlia|]). by apply elem_of_nil in Hspc.
Qed.

Lemma wp_load_4k kc j off dst s : 0 <= j -> 0 <= off < cluster_size -> 2 ^ 20 <= dst -> ready s ->
  wp (load_4k RealModeWrapper Services (Nat.iter (Z.to_nat j) next kc) dst off) (fun _ s' => rest s s' /\ ready s' /\
     forall x, ~ buffered x -> mem s' x =
      if (dst <=? x) && (x <? dst + 4096) then file_byte kc (j * cluster_size + off + (x - dst)) else mem s x) s.
Proof.
  intros Hj Hoff Hd [Hp Hb]. destruct (clusters_needed off Hoff) as (H0 & H1 & H2). unfold load_4k.
  set (n := _ / spc) in *. clearbody n. change (2 ^ 20) with 1048576 in Hd.
  apply wp_bind. eapply wp_mono; [apply (wp_load_clusters kc j n 0x80000); [done|done|done|lia|change (2 ^ 20) with 1048576; lia]|]. cbn beta.
  intros _ s1 [E1 M1].
  assert (bytes_only (mem s1)) as Hb1 by (intros x; rewrite M1; destruct (_ && _); [apply file_byte_range|apply Hb]).
  rewrite wp_bind. eapply wp_mono; [apply wp_memcpy; [lia|lia|done]|]. cbn beta. intros _ s2 (R2 & B2 & M2). apply wp_modify.
  assert (mem (set_place (fun _ => 0x80000) s2) = mem s2) as Em by (by destruct s2).
  split; [unfold rest; rewrite Em; rewrite R2, E1; clear -Hp; destruct s; cbn in Hp |- *; by subst|]. split; [split; [by destruct s2|by rewrite Em]|].
  rewrite Em. intros x Hx. unfold buffered in Hx. rewrite M2. destruct (Z.leb_spec dst x), (Z.ltb_spec x (dst + 4096)); cbn [andb].
  - rewrite M1. rewrite (proj2 (Z.leb_le _ _)), (proj2 (Z.ltb_lt _ _)) by lia. cbn [andb]. f_equal. lia.
  - rewrite M1. by rewrite (proj2 (Z.ltb_ge x _)), andb_false_r by lia.
  - rewrite M1. destruct (Z.leb_spec 0x80000 x); cbn [andb]; [|done]. by rewrite (proj2 (Z.ltb_ge x _)) by lia.
  - rewrite M1. destruct (Z.leb_spec 0x80000 x); cbn [andb]; [|done]. by rewrite (proj2 (Z.ltb_ge x _)) by lia.
Qed.

Lemma wp_load_pages kc addr offset n s : 0 <= n -> 2 ^ 20 <= addr -> addr + 4096 * n < 2 ^ 32 -> 0 <= offset -> offset + 4096 * n < 2 ^ 32 ->
  0 <= kc -> kc + offset + 4096 * n < 2 ^ 32 -> ready s ->
  wp (load_pages RealModeWrapper Services addr offset n kc) (fun _ s' => rest s s' /\ ready s' /\
     forall x, ~ buffered x -> mem s' x =
      if (addr <=? x) && (x <? addr + 4096 * n) then file_byte kc (offset + (x - addr)) else mem s x) s.
Proof.
  intros Hn Ha Hal Ho Hol Hk Hkl Hr. pose proof spc_range as Hs. unfold load_pages. cbv zeta. change (sectors_per_cluster Services * 512) with cluster_size.
  change (2 ^ 32) with 4294967296 in *. change (2 ^ 20) with 1048576 in *.
  apply wp_bind. eapply wp_mono.
  - apply (wp_for (fun i '(a, o) s' => a = addr + 4096 * i /\ o = offset + 4096 * i /\ rest s s' /\ ready s' /\
     forall x, ~ buffered x -> mem s' x =
        if (addr <=? x) && (x <? addr + 4096 * i) then file_byte kc (offset + (x - addr)) else mem s x)); [done| |].
    + split; [lia|]. split; [lia|]. split; [apply rest_refl|]. split; [done|]. intros x _.
      destruct (Z.leb_spec addr x), (Z.ltb_spec x (addr + 4096 * 0)); done || lia.
    + intros i [a o] s1 Hi (-> & -> & R1 & Y1 & M1). set (o := offset + 4096 * i) in *.
      assert (0 < cluster_size) as Hcs by (unfold cluster_size; lia).
      assert ((kc * cluster_size + o) / cluster_size = kc + o / cluster_size) as -> by (rewrite Z.add_comm, Z.div_add by lia; lia).
      assert (0 <= o / cluster_size <= o) as Hq by (split; [apply Z.div_pos; subst o; lia|apply Z.div_le_upper_bound; [done|subst o; unfold cluster_size; nia]]).
      rewrite (u32_id (kc + o / cluster_size)) by (change (2 ^ 32) with 4294967296; subst o; lia).
      replace (kc + o / cluster_size - kc) with (o / cluster_size) by lia.
      rewrite (u32_id (o / cluster_size)) by (change (2 ^ 32) with 4294967296; subst o; lia).
      assert ((kc * cluster_size + o) &&& (cluster_size - 1) = o mod cluster_size) as ->.
      { assert (exists b, 0 <= b /\ cluster_size = 2 ^ b) as (b & Hb0 & Hb).
        { unfold cluster_size, cluster_ok in *. repeat (apply elem_of_cons in Hspc as [E|Hspc]; [rewrite E in *|]); [..|by apply elem_of_nil in Hspc];
            [exists 9|exists 10|exists 11|exists 12|exists 13|exists 14|exists 15]; done. }
        replace (cluster_size - 1) with (Z.ones b) by (rewrite Z.ones_equiv, Hb; lia). rewrite Z.land_ones by done. rewrite <- Hb, Z.add_comm. by rewrite Z.mod_add by lia. }
      apply wp_bind, wp_find_next; [lia|]. apply wp_bind.
      eapply wp_mono; [apply (wp_load_4k kc (o / cluster_size)); [lia|apply Z.mod_pos_bound; done|change (2 ^ 20) with 1048576; lia|done]|].
      cbn beta. intros _ s2 (R2 & Y2 & M2). apply wp_ret. rewrite !u32_id by (change (2 ^ 32) with 4294967296; subst o; lia).
      split; [lia|]. split; [subst o; lia|]. split; [by eapply rest_trans|]. split; [done|]. intros x Hx. rewrite M2 by done.
      destruct (Z.leb_spec (addr + 4096 * i) x); cbn [andb].
      * destruct (Z.ltb_spec x (addr + 4096 * i + 4096)).
        -- rewrite (proj2 (Z.leb_le addr x)), (proj2 (Z.ltb_lt x _)) by lia. cbn [andb]. f_equal.
           pose proof (Z.div_mod o cluster_size ltac:(lia)). subst o. lia.
        -- rewrite M1 by done. by rewrite !(proj2 (Z.ltb_ge x _)) by lia.
      * rewrite M1 by done. rewrite (proj2 (Z.ltb_lt x (addr + 4096 * i))) by lia. destruct (Z.leb_spec addr x); cbn [andb]; [|done].
        by rewrite (proj2 (Z.ltb_lt x _)) by lia.
  - cbn beta. intros [a o] s' (_ & _ & H). rewrite Z.add_0_l in H. by apply wp_ret.
Qed.

(** *** Segments *)

Record program_header := mkHeader { p_type : Z; p_offset : Z; p_filesz : Z; p_memsz : Z }.
Definition header_at (m : Z -> Z) (a : Z) : program_header :=
  mkHeader (value m 4 a) (value m 8 (a + P_OFFSET)) (value m 8 (a + P_FILESZ)) (value m 8 (a + P_MEMSZ)).

(** A segment that fits into memory and whose bytes fit into the file's numbers. *)
Record segment_ok (kc : Z) (h : program_header) : Prop := {
  segment_file : 0 <= p_filesz h <= p_memsz h;
  segment_size : p_memsz h < 2 ^ 31;
  segment_offset : 0 <= p_offset h;
  segment_end : kc + p_offset h + p_filesz h + 4096 < 2 ^ 32
}.

(** The segment's bytes at [addr]: those of the file, and zeros behind them. *)
Definition segment_at (kc : Z) (h : program_header) (addr : Z) (m : Z -> Z) : Prop :=
  forall i, 0 <= i < p_memsz h -> m (addr + i) = if i <? p_filesz h then file_byte kc (p_offset h + i) else 0.

Lemma wp_load_segment kc h addr ptr s : 0 <= kc -> ready s -> header_at (mem s) ptr = h -> segment_ok kc h -> 2 ^ 20 <= addr -> addr mod 4096 = 0 ->
  page_up (addr + p_memsz h) < 2 ^ 32 ->
  wp (load_segment RealModeWrapper Services addr ptr kc) (fun a s' => a = page_up (addr + p_memsz h) /\ rest s s' /\ ready s' /\
    segment_at kc h addr (mem s') /\
    forall x, ~ buffered x -> x < addr \/ page_up (addr + p_memsz h) <= x -> mem s' x = mem s x) s.
Proof.
  intros Hk Hr <- [Hf Hm Ho He] Ha Hal Hend. unfold header_at in *. cbn [p_type p_offset p_filesz p_memsz] in *. unfold load_segment.
  rewrite wp_bind. apply wp_peek. rewrite wp_bind. apply wp_peek. rewrite wp_bind. apply wp_peek.
  set (memsz := value (mem s) 8 (ptr + P_MEMSZ)) in *. set (filesz := value (mem s) 8 (ptr + P_FILESZ)) in *. set (off := value (mem s) 8 (ptr + P_OFFSET)) in *.
  unfold segment_at. cbn [p_type p_offset p_filesz p_memsz]. clearbody memsz filesz off.
  assert (addr + memsz <= page_up (addr + memsz)) as Hup by (unfold page_up; divlia).
  change (2 ^ 31) with 2147483648 in *. change (2 ^ 32) with 4294967296 in *. change (2 ^ 20) with 1048576 in *.
  rewrite (u64_id (memsz - filesz)), (u64_id (filesz + 4095)) by (change (2 ^ 64) with 18446744073709551616; lia).
  rewrite (u32_id off), (u32_id filesz) by (change (2 ^ 32) with 4294967296; lia). rewrite page_of.
  rewrite !i32_id by divlia. set (n := (filesz + 4095) / 4096).
  assert (addr + 4096 * n <= page_up (addr + memsz)) as Hn by (unfold page_up; subst n; divlia).
  assert (0 <= n /\ filesz <= 4096 * n <= filesz + 4095) as [Hn0 Hn1] by (subst n; divlia). clearbody n.
  rewrite wp_bind. eapply wp_mono; [apply (wp_load_pages kc addr off n); change (2 ^ 20) with 1048576; change (2 ^ 32) with 4294967296; (done || lia)|].
  cbn beta. intros _ s1 (R1 & [Y1 Y1'] & M1). rewrite (u32_id (addr + filesz)) by (change (2 ^ 32) with 4294967296; lia).
  rewrite wp_bind. eapply wp_mono; [apply wp_memset; lia|]. cbn beta. intros _ s2 (R2 & B2 & M2). apply wp_ret.
  replace (addr + filesz + (memsz - filesz)) with (addr + memsz) by lia. rewrite (u32_id (addr + memsz)) by (change (2 ^ 32) with 4294967296; lia).
  change (u32 0xFFF) with 0xFFF. split; [apply page_up_mask; change (2 ^ 32) with 4294967296; unfold page_up in Hend; divlia|].
  split; [by eapply rest_trans|]. split; [split; [by rewrite (rest_place _ _ R2)|auto]|]. change (u8 0) with 0 in M2. split.
  - intros i Hi. rewrite M2. assert (~ buffered (addr + i)) as Hb by (unfold buffered; lia). destruct (Z.ltb_spec i filesz).
    + rewrite (proj2 (Z.leb_gt _ _)) by lia. cbn [andb]. rewrite M1 by done. rewrite (proj2 (Z.leb_le _ _)), (proj2 (Z.ltb_lt _ _)) by lia. cbn [andb]. f_equal. lia.
    + by rewrite (proj2 (Z.leb_le _ _)), (proj2 (Z.ltb_lt _ _)) by lia.
  - intros x Hb Hx. rewrite M2. destruct (Z.leb_spec (addr + filesz) x), (Z.ltb_spec x (addr + filesz + (memsz - filesz))); cbn [andb];
      try lia; (rewrite M1 by done; destruct (Z.leb_spec addr x), (Z.ltb_spec x (addr + 4096 * n)); cbn [andb]; done || lia).
Qed.

(** *** The kernel *)

(** The segments one behind the other from [addr] on, each from a page of its own. *)
Fixpoint image_end (addr : Z) (hs : list program_header) : Z :=
  match hs with
  | [] => addr
  | h :: hs => image_end (if p_type h =? PT_LOAD then page_up (addr + p_memsz h) else addr) hs
  end.
Fixpoint image (kc addr : Z) (hs : list program_header) (m : Z -> Z) : Prop :=
  match hs with
  | [] => True
  | h :: hs => if p_type h =? PT_LOAD
               then segment_at kc h addr m /\ image kc (page_up (addr + p_memsz h)) hs m else image kc addr hs m
  end.
Definition segments_ok (kc : Z) (hs : list program_header) : Prop := Forall (fun h => p_type h = PT_LOAD -> segment_ok kc h) hs.

(** The table of [n] headers of [size] bytes. *)
Definition headers : (Z -> Z) -> Z -> Z -> Z -> list program_header := table header_at.

Lemma image_end_ge kc addr hs : segments_ok kc hs -> addr <= image_end addr hs.
Proof.
  intros H. revert addr. induction H as [|h hs Hh _ IH]; intros addr; cbn [image_end]; [done|].
  destruct (Z.eqb_spec (p_type h) PT_LOAD) as [E|]; [|apply IH]. specialize (IH (page_up (addr + p_memsz h))).
  destruct (Hh E) as [? _ _ _]. pose proof (page_up_ge (addr + p_memsz h)). lia.
Qed.

Lemma segment_same kc h addr m m' : (forall i, 0 <= i < p_memsz h -> m' (addr + i) = m (addr + i)) -> segment_at kc h addr m -> segment_at kc h addr m'.
Proof. intros E H i Hi. rewrite E by done. by apply H. Qed.
Lemma image_same kc hs : forall addr m m', segments_ok kc hs -> (forall x, addr <= x < image_end addr hs -> m' x = m x) ->
  image kc addr hs m -> image kc addr hs m'.
Proof.
  induction hs as [|h hs IH]; intros addr m m' H E; cbn [image image_end] in *; [done|]. apply Forall_cons in H as [Hh H].
  destruct (Z.eqb_spec (p_type h) PT_LOAD) as [Et|]; [|by apply IH]. destruct (Hh Et) as [Hf _ _ _].
  pose proof (page_up_ge (addr + p_memsz h)) as [Hg _]. pose proof (image_end_ge kc (page_up (addr + p_memsz h)) hs H) as Hge. intros [H1 H2]. split.
  - eapply segment_same; [|exact H1]. intros i Hi. apply E. lia.
  - eapply IH; [done| |exact H2]. intros x Hx. apply E. lia.
Qed.

Lemma header_local m m' a b : (forall x, 0 <= x < 0x30 -> m' (b + x) = m (a + x)) -> header_at m' b = header_at m a.
Proof.
  intros E. unfold header_at, P_OFFSET, P_FILESZ, P_MEMSZ. rewrite <- (Z.add_0_r b) at 1. rewrite <- (Z.add_0_r a) at 1.
  f_equal; apply value_local; intros x Hx; apply E; lia.
Qed.
Lemma headers_same m m' ptr size n : 0 <= size -> (forall x, ptr <= x < ptr + size * n + 0x30 -> m' x = m x) -> headers m' ptr size n = headers m ptr size n.
Proof. intros Hs E. apply (table_moved _ _ header_local); [done|]. intros x Hx. apply E. lia. Qed.
Lemma headers_cons m ptr size n : 0 < n -> headers m ptr size n = header_at m ptr :: headers m (ptr + size) size (n - 1).
Proof. apply table_cons. Qed.

Lemma wp_load_kernel_nat kc size n : forall i addr ptr s, 0 <= kc -> 0 <= size -> ready s ->
  segments_ok kc (headers (mem s) ptr size (Z.of_nat n)) -> 2 ^ 20 <= addr -> addr mod 4096 = 0 ->
  image_end addr (headers (mem s) ptr size (Z.of_nat n)) < 2 ^ 32 ->
  0x90000 <= ptr -> ptr + size * Z.of_nat n + 0x30 <= 2 ^ 20 ->
  wp (for_nat n i (fun _ '(addr, ptr) =>
    type ← peek 4 ptr;
    addr ← (if type =? PT_LOAD then load_segment RealModeWrapper Services addr ptr kc else mret addr);
    mret (addr, ptr + size)) (addr, ptr)) (fun _ s' => rest s s' /\ ready s' /\
    image kc addr (headers (mem s) ptr size (Z.of_nat n)) (mem s') /\
    forall x, ~ buffered x -> x < addr \/ image_end addr (headers (mem s) ptr size (Z.of_nat n)) <= x -> mem s' x = mem s x) s.
Proof.
  induction n as [|n IH]; intros i addr ptr s Hk Hsz Hr Hok Ha Hal Hend Hp1 Hp2; cbn [for_nat].
  - apply wp_ret. split; [apply rest_refl|]. done.
  - rewrite (headers_cons _ _ _ (Z.of_nat (S n))) in * by lia. replace (Z.of_nat (S n) - 1) with (Z.of_nat n) in * by lia.
    set (h := header_at (mem s) ptr) in *. set (hs := headers (mem s) (ptr + size) size (Z.of_nat n)) in *.
    apply Forall_cons in Hok as [Hh Hok]. cbn [image_end image] in *.
    rewrite wp_bind, wp_bind. apply wp_peek. change (value (mem s) 4 ptr) with (p_type h). rewrite wp_bind.
    assert (forall addr' s1, rest s s1 -> ready s1 -> 2 ^ 20 <= addr -> addr <= addr' -> addr' mod 4096 = 0 -> image_end addr' hs < 2 ^ 32 ->
      (forall x, ~ buffered x -> x < addr \/ addr' <= x -> mem s1 x = mem s x) ->
      wp (for_nat n (i + 1) (fun _ '(addr, ptr) =>
        type ← peek 4 ptr;
        addr ← (if type =? PT_LOAD then load_segment RealModeWrapper Services addr ptr kc else mret addr);
        mret (addr, ptr + size)) (addr', ptr + size)) (fun _ s' => rest s s' /\ ready s' /\ image kc addr' hs (mem s') /\
          (forall x, ~ buffered x -> x < addr' \/ image_end addr' hs <= x -> mem s' x = mem s1 x)) s1) as Hgo.
    { intros addr' s1 R1 Y1 _ Hle Hal' Hend' M1.
      assert (headers (mem s1) (ptr + size) size (Z.of_nat n) = hs) as Eh.
      { apply headers_same; [done|]. intros x Hx. change (2 ^ 20) with 1048576 in *. apply M1; [unfold buffered; lia|left; lia]. }
      eapply wp_mono; [apply (IH (i + 1) addr' (ptr + size) s1); rewrite ?Eh; (done || lia)|]. cbn beta. rewrite Eh.
      intros r s2 (R2 & Y2 & I2 & M2). split; [by eapply rest_trans|]. done. }
    destruct (Z.eqb_spec (p_type h) PT_LOAD) as [Et|Et].
    + pose proof (page_up_ge (addr + p_memsz h)) as [Hg Hgm]. destruct (Hh Et) as [Hf _ _ _].
      pose proof (image_end_ge kc (page_up (addr + p_memsz h)) hs Hok) as Hge.
      eapply wp_mono; [apply (wp_load_segment kc h); [done|done|done|by apply Hh|done|done|lia]|]. cbn beta.
      intros a s1 (-> & R1 & Y1 & S1 & M1). apply wp_ret. eapply wp_mono; [apply Hgo; (done || lia)|]. cbn beta.
      intros r s2 (R2 & Y2 & I2 & M2). split; [done|]. split; [done|]. split; [split; [|done]|].
      * eapply segment_same; [|exact S1]. intros k Hk'. apply M2; [unfold buffered; change (2 ^ 20) with 1048576 in Ha; lia|lia].
      * intros x Hx Hx'. rewrite M2 by (done || lia). apply M1; [done|lia].
    + apply wp_ret, wp_ret. eapply wp_mono; [apply Hgo; (done || lia || apply rest_refl)|]. cbn beta. done.
Qed.

Lemma wp_load_kernel kc addr ptr size n s : 0 <= kc -> 0 <= size -> 0 <= n -> ready s -> segments_ok kc (headers (mem s) ptr size n) -> 2 ^ 20 <= addr ->
  addr mod 4096 = 0 -> image_end addr (headers (mem s) ptr size n) < 2 ^ 32 -> 0x90000 <= ptr -> ptr + size * n + 0x30 <= 2 ^ 20 ->
  wp (load_kernel RealModeWrapper Services addr ptr size n kc) (fun _ s' => rest s s' /\ ready s' /\
    image kc addr (headers (mem s) ptr size n) (mem s') /\
    forall x, ~ buffered x -> x < addr \/ image_end addr (headers (mem s) ptr size n) <= x -> mem s' x = mem s x) s.
Proof.
  intros Hk Hsz Hn Hr Hok Ha Hal Hend Hp1 Hp2. unfold load_kernel, for_. rewrite wp_bind.
  pose proof (wp_load_kernel_nat kc size (Z.to_nat n) 0 addr ptr s Hk Hsz Hr) as H. rewrite Z2Nat.id in H by done.
  eapply wp_mono; [by apply H|]. cbn beta. intros r s' Hs'. by apply wp_ret.
Qed.

(** *** The size *)

(** The size is that of the image, wherever it starts. *)
Lemma image_end_shift hs : forall addr b, b mod 4096 = 0 -> image_end (b + addr) hs = b + image_end addr hs.
Proof.
  induction hs as [|h hs IH]; intros addr b Hb; cbn [image_end]; [done|]. destruct (_ =? _); [|by apply IH].
  rewrite <- IH by done. f_equal. unfold page_up. divlia.
Qed.
Lemma image_end_aligned addr hs : addr mod 4096 = 0 -> image_end addr hs mod 4096 = 0.
Proof.
  revert addr. induction hs as [|h hs IH]; intros addr Ha; cbn [image_end]; [done|]. destruct (_ =? _); [|by apply IH].
  apply IH. apply page_up_ge.
Qed.

Lemma wp_calc_size_nat kc size n : forall i ptr acc s (Q : Z * Z -> stage4 -> Prop),
  segments_ok kc (headers (mem s) ptr size (Z.of_nat n)) -> 0 <= acc -> image_end acc (headers (mem s) ptr size (Z.of_nat n)) < 2 ^ 32 ->
  (forall p, Q (p, image_end acc (headers (mem s) ptr size (Z.of_nat n))) s) ->
  wp (for_nat n i (fun _ '(ptr, size_) =>
    p_type ← peek 4 ptr;
    size_ ← (if p_type =? PT_LOAD then
              p_memsz ← peek 8 (ptr + P_MEMSZ);
              let size_ := u32 (size_ + u32 p_memsz) in
              mret (u32 (size_ + 4095) &&& u32 (Z.lnot 4095))
            else mret size_);
    mret (ptr + size, size_)) (ptr, acc)) Q s.
Proof.
  induction n as [|n IH]; intros i ptr acc s Q Hok Hacc Hend HQ; cbn [for_nat]; [by apply wp_ret|].
  rewrite (headers_cons _ _ _ (Z.of_nat (S n))) in * by lia. replace (Z.of_nat (S n) - 1) with (Z.of_nat n) in * by lia.
  set (h := header_at (mem s) ptr) in *. apply Forall_cons in Hok as [Hh Hok]. cbn [image_end] in *.
  rewrite wp_bind, wp_bind. apply wp_peek. change (value (mem s) 4 ptr) with (p_type h). rewrite wp_bind.
  destruct (Z.eqb_spec (p_type h) PT_LOAD) as [Et|Et]; [|apply wp_ret, wp_ret; by apply IH].
  rewrite wp_bind. apply wp_peek. change (value (mem s) 8 (ptr + P_MEMSZ)) with (p_memsz h). destruct (Hh Et) as [Hf Hsz _ _].
  pose proof (page_up_ge (acc + p_memsz h)) as [Hg _]. pose proof (image_end_ge kc (page_up (acc + p_memsz h)) _ Hok) as Hge.
  change (2 ^ 32) with 4294967296 in *. change (2 ^ 31) with 2147483648 in Hsz.
  rewrite (u32_id (p_memsz h)), (u32_id (acc + p_memsz h)) by (change (2 ^ 32) with 4294967296; lia).
  rewrite page_up_mask by (change (2 ^ 32) with 4294967296; unfold page_up in *; divlia). apply wp_ret, wp_ret. apply IH; (done || lia).
Qed.

Lemma wp_calc_size kc ptr size n s (Q : Z -> stage4 -> Prop) : 0 <= n -> segments_ok kc (headers (mem s) ptr size n) ->
  image_end 0 (headers (mem s) ptr size n) < 2 ^ 32 -> Q (image_end 0 (headers (mem s) ptr size n)) s -> wp (calc_size ptr size n) Q s.
Proof.
  intros Hn Hok Hend HQ. unfold calc_size, for_. rewrite wp_bind. pose proof (Z2Nat.id n Hn) as En.
  apply (wp_calc_size_nat kc); rewrite ?En; (done || lia || (intros p; by apply wp_ret)).
Qed.
End Disk.
