(* ===== verification/Boot4Place.v ===== *)
(** * Stage 4: the kernel's place and what it is handed

    The areas behind the kernel, the copy of the memory map, the boot information and the page tables,
    after the segments were loaded. *)
From S2P Require Import KPrelude MemHelpers Bytes BootMem Boot4Map Boot4 Boot4Load.

(** ** The areas *)

Lemma highest_page_from l : forall h, 0 <= h -> Forall (fun d => 0 <= PhysicalStart d /\ 0 <= NumberOfPages d /\ PhysicalStart d / 4096 + NumberOfPages d < 2 ^ 64) l ->
  let r := fold_left (fun h d => let e := u64 ((PhysicalStart d >>> 12) + NumberOfPages d) in if e >? h then e else h) l h in
  h <= r /\ Forall (fun d => PhysicalStart d / 4096 + NumberOfPages d <= r) l.
Proof.
  induction l as [|d l IH]; intros h Hh H; cbn [fold_left]; [done|]. apply Forall_cons in H as [(H1 & H2 & H3) H].
  rewrite page_of, u64_id by (split; [divlia|done]). set (e := _ + NumberOfPages d) in *.
  destruct (IH (if e >? h then e else h)) as [I1 I2]; [destruct (Z.gtb_spec e h); lia|done|]. cbv zeta in *.
  destruct (Z.gtb_spec e h); (split; [lia|constructor; [lia|done]]).
Qed.
(** Every frame of the map is below the highest page. *)
Definition map_ok (l : list EFI_MEMORY_DESCRIPTOR) : Prop :=
  Forall (fun d => PhysicalStart d mod 4096 = 0 /\ 0 <= PhysicalStart d < 2 ^ 64 /\ 1 <= NumberOfPages d <= 2 ^ 52) l.
Lemma map_sound l : map_ok l -> Forall (fun d => 0 <= PhysicalStart d /\ 0 <= NumberOfPages d /\ PhysicalStart d / 4096 + NumberOfPages d < 2 ^ 54) l.
Proof.
  intros H. eapply Forall_impl; [exact H|]. cbn beta. intros d (H1 & H2 & H3). change (2 ^ 64) with 18446744073709551616 in H2.
  change (2 ^ 52) with 4503599627370496 in H3. change (2 ^ 54) with 18014398509481984. divlia.
Qed.
Lemma highest_page_ok l : map_ok l -> 0 <= find_highest_page l < 2 ^ 54 /\ Forall (fun d => PhysicalStart d / 4096 + NumberOfPages d <= find_highest_page l) l.
Proof.
  intros H. pose proof (map_sound l H) as Hs. destruct (highest_page_from l 0 ltac:(lia)) as [H1 H2].
  { eapply Forall_impl; [exact Hs|]. cbn beta. intros d (? & ? & ?). change (2 ^ 64) with 18446744073709551616. change (2 ^ 54) with 18014398509481984 in *. lia. }
  fold (find_highest_page l) in *. split; [|exact H2]. split; [exact H1|].
  assert (forall h, 0 <= h < 2 ^ 54 -> fold_left (fun h d => let e := u64 ((PhysicalStart d >>> 12) + NumberOfPages d) in if e >? h then e else h) l h < 2 ^ 54) as Hlt.
  { clear H H1 H2. induction l as [|d l IH]; intros h Hh; cbn [fold_left]; [lia|]. apply Forall_cons in Hs as [(S1 & S2 & S3) Hs]. apply IH; [done|].
    change (2 ^ 54) with 18014398509481984 in *. rewrite page_of, u64_id by (change (2 ^ 64) with 18446744073709551616; divlia).
    destruct (Z.gtb_spec (PhysicalStart d / 4096 + NumberOfPages d) h); [divlia|lia]. }
  by apply (Hlt 0).
Qed.

(** The bitmap: a bit for each frame of the map, in whole pages. *)
Definition bitmap_bytes (l : list EFI_MEMORY_DESCRIPTOR) : Z := page_up ((find_highest_page l + 7) / 8).

Lemma plan_areas_ok size l : map_ok l -> 0 <= size -> Z.of_nat (length l) <= 1024 ->
  size + 0x41000 + bitmap_bytes l + 40 * Z.of_nat (length l) + 96 + 4095 < 2 ^ 32 ->
  let n := size + 0x41000 + bitmap_bytes l + 40 * Z.of_nat (length l) + 96 in
  area_bitmap (plan_areas size l) = bitmap_bytes l /\ area_mmsz (plan_areas size l) = 40 * Z.of_nat (length l) /\
  total_size (plan_areas size l) = page_up n.
Proof.
  intros Hm Hs Hl Hlim. destruct (highest_page_ok l Hm) as [[H0 H54] _]. unfold plan_areas, bitmap_bytes in *. cbn [area_bitmap area_mmsz total_size].
  set (hp := find_highest_page l) in *. clearbody hp.
  change (2 ^ 32) with 4294967296 in *. change (2 ^ 54) with 18014398509481984 in H54.
  assert (u64 ((u64 (hp + 7) >>> 3) + 4095) &&& u64 (Z.lnot 0xfff) = page_up ((hp + 7) / 8)) as ->.
  { rewrite (u64_id (hp + 7)) by (change (2 ^ 64) with 18446744073709551616; lia). rewrite Z.shiftr_div_pow2 by lia. change (2 ^ 3) with 8.
    rewrite u64_id by (change (2 ^ 64) with 18446744073709551616; divlia). apply page_up_mask64; change (2 ^ 64) with 18446744073709551616; divlia. }
  assert (0 <= page_up ((hp + 7) / 8)) as Hb by (unfold page_up; divlia).
  unfold sizeof_descriptor. rewrite (u32_id (Z.of_nat (length l) * 40)) by (change (2 ^ 32) with 4294967296; lia).
  rewrite (u32_id (size + 0x41000)) by (change (2 ^ 32) with 4294967296; lia).
  rewrite (u64_id (_ + 24)) by (change (2 ^ 64) with 18446744073709551616; lia). rewrite (u32_id (_ + 24)) by (change (2 ^ 32) with 4294967296; lia).
  change (u32 (Z.lnot 0xFFF)) with (u32 (Z.lnot 4095)). rewrite page_up_mask by (change (2 ^ 32) with 4294967296; lia). split; [done|]. split; [lia|]. f_equal. lia.
Qed.

(** The bitmap has room for every frame that the map describes. *)
Lemma bitmap_covers l : map_ok l -> Forall (fun d => PhysicalStart d / 4096 + NumberOfPages d <= 8 * bitmap_bytes l) l.
Proof.
  intros H. destruct (highest_page_ok l H) as [_ Hh]. eapply Forall_impl; [exact Hh|]. cbn beta. intros d Hd. unfold bitmap_bytes, page_up. divlia.
Qed.

(** A region that [find_free_region] takes: free memory from 1 MiB on, long enough. *)
Definition fits (pages : Z) (d : EFI_MEMORY_DESCRIPTOR) : bool :=
  (0x100000 <=? PhysicalStart d) && (Type_ d =? EfiConventionalMemory) && (pages <=? NumberOfPages d).

Lemma find_free_region_ok l pages d : map_ok l -> List.find (fits pages) l = Some d -> PhysicalStart d < 2 ^ 32 ->
  d ∈ l /\ Type_ d = EfiConventionalMemory /\ PhysicalStart d = find_free_region l pages /\ 0x100000 <= PhysicalStart d /\
    PhysicalStart d mod 4096 = 0 /\ pages <= NumberOfPages d.
Proof.
  intros Hm E Hlow. unfold find_free_region. fold (fits pages). rewrite E.
  apply List.find_some in E as [Hin Hd]. apply list_elem_of_In in Hin. unfold fits in Hd. rewrite !andb_true_iff, !Z.leb_le, Z.eqb_eq in Hd.
  destruct Hd as [[H1 H2] H3]. pose proof (proj1 (Forall_forall _ _) Hm d Hin) as (M1 & M2 & M3).
  rewrite u32_id by lia. done.
Qed.

(** ** The stores *)

Lemma wp_store_descriptor a d s : descriptor_range d ->
  wp (store_descriptor a d) (fun _ s' => stored a (a + 40) s s' /\ descriptor_at (mem s') a = d) s.
Proof.
  intros (H1 & H2 & H3 & H4 & H5). unfold store_descriptor.
  apply wp_bind, (wp_store_value _ _ _ a (a + 40) s); [apply stored_refl|lia|lia|]. intros s1 S1 E1.
  apply wp_bind, (wp_store_value _ _ _ a (a + 40) s); [done|lia|lia|]. intros s2 S2 E2.
  apply wp_bind, (wp_store_value _ _ _ a (a + 40) s); [done|lia|lia|]. intros s3 S3 E3.
  apply wp_bind, (wp_store_value _ _ _ a (a + 40) s); [done|lia|lia|]. intros s4 S4 E4.
  apply wp_bind, (wp_store_value _ _ _ a (a + 40) s); [done|lia|lia|]. intros s5 S5 E5.
  apply (wp_store_value _ _ _ a (a + 40) s); [done|lia|lia|]. intros s6 S6 E6. split; [done|].
  unfold descriptor_at. rewrite E6, E5, E4, E3, E2, E1. clear -H1 H2 H3 H4 H5. destruct d as [t p v n x]. cbn [Type_ PhysicalStart VirtualStart NumberOfPages Attribute] in *.
  f_equal; found; by apply Z.mod_small.
Qed.

Lemma wp_store_map MMP l s : Z.of_nat (length l) <= Z.of_nat (length (efi_memory_map s)) -> take (length l) (efi_memory_map s) = l -> Forall descriptor_range l ->
  wp (store_map MMP (Z.of_nat (length l))) (fun _ s' => stored MMP (MMP + 40 * Z.of_nat (length l)) s s' /\
    forall i d, l !! i = Some d -> descriptor_at (mem s') (MMP + 40 * Z.of_nat i) = d) s.
Proof.
  intros Hlen El Hl. unfold store_map. eapply wp_mono.
  - apply (wp_for (fun n _ s' => stored MMP (MMP + 40 * Z.of_nat (length l)) s s' /\
      forall i d, Z.of_nat i < n -> l !! i = Some d -> descriptor_at (mem s') (MMP + 40 * Z.of_nat i) = d)); [lia| |].
    + split; [apply stored_refl|]. lia.
    + intros n [] s1 Hn [S1 D1]. apply wp_bind, wp_gets.
      assert (efi_memory_map s1 = efi_memory_map s) as -> by (destruct S1 as (R & _ & _); rewrite R; by destruct s).
      destruct (lookup_lt_is_Some_2 l (Z.to_nat n)) as [d Ed]; [lia|].
      assert (efi_memory_map s !! Z.to_nat n = Some d) as Ed' by (rewrite <- Ed, <- El, lookup_take_lt by lia; done).
      rewrite wp_bind. destruct (array_get_Some (efi_memory_map s) n) as (d0 & Eg & Ed0); [lia|].
      assert (d0 = d) as -> by congruence. rewrite Eg. apply wp_ret.
      eapply wp_mono; [apply wp_store_descriptor; by eapply Forall_lookup_1|]. cbn beta. unfold sizeof_descriptor. intros _ s2 [S2 D2]. split.
      * eapply stored_trans; [exact S1|]. eapply stored_wider; [exact S2|lia|lia].
      * intros i d' Hi Ed2. destruct (Z.eq_dec (Z.of_nat i) n) as [<-|Hne]; [rewrite Nat2Z.id in Ed; congruence|].
        rewrite <- (D1 i d') by (done || lia). unfold descriptor_at. f_equal; eapply stored_value; try exact S2; lia.
  - cbn beta. intros _ s' [S D]. split; [done|]. intros i d Ei. apply D; [|done]. apply lookup_lt_Some in Ei. lia.
Qed.

Lemma wp_store_info p ks mmsz bits rsdp s :
  let v := vga s in
  wp (store_info (p + 72) p ks mmsz bits rsdp) (fun _ s' => stored p (p + 96) s s' /\
    info64 (mem s') p = [u64 ks; u64 ks; u32 (p + 96); u64 (framebuffer_address v); u64 mmsz; 40; u64 bits; u64 rsdp; 1] /\
    info32 (mem s') (p + 72) = [u32 (pixel_mode v); u32 (horizontal_resolution v); u32 (vertical_resolution v); u32 (pixels_per_scanline v); 96; 0]) s.
Proof.
  intros v. unfold store_info. apply wp_bind, wp_gets. fold v. clearbody v.
  assert (stored p (p + 96) s s) as S by apply stored_refl.
  repeat first [rewrite wp_bind; eapply (wp_store_value _ _ _ p (p + 96) s); [eassumption|lia|lia|]; clear S; intros ? S ?
               |eapply (wp_store_value _ _ _ p (p + 96) s); [eassumption|lia|lia|]; intros ? ? ?].
  split; [done|]. repeat match goal with H : mem ?x = put_value _ _ _ (mem ?y) |- _ => rewrite H; clear H end. clear.
  replace (p + 72 + 24) with (p + 96) by lia.
  assert (forall z, u32 z mod 256 ^ Z.of_nat 8 = u32 z) as Hw.
  { intros z. apply Z.mod_small. pose proof (u32_range z). change (2 ^ 32) with 4294967296 in *. change (256 ^ Z.of_nat 8) with 18446744073709551616. lia. }
  split.
  - unfold info64. repeat apply (f_equal2 cons); [..|done]; found; (done || apply Hw).
  - unfold info32. repeat apply (f_equal2 cons); [..|done]; found; done.
Qed.

(** The tables for long mode: the first entries of the two upper levels, and the 512 pages of 2 MiB of
    the first GiB, each at its own address, present and writable. *)
Definition paging_ready (m : Z -> Z) : Prop :=
  value m 8 0x90000 = 0x91003 /\ value m 8 0x91000 = 0x92003 /\
  forall i, 0 <= i < 512 -> value m 8 (0x92000 + 8 * i) = i * 0x200000 + 0x83.

Lemma page_entry i : 0 <= i < 512 -> i * 0x200000 ||| 0x83 = i * 0x200000 + 0x83.
Proof.
  intros Hi. replace (i * 0x200000) with (i <<< 21) by (rewrite Z.shiftl_mul_pow2 by lia; done). rewrite lor_shiftl_add by lia.
  rewrite Z.shiftl_mul_pow2 by lia. done.
Qed.

Lemma wp_setup_paging s :
  wp setup_paging (fun _ s' => exists s0, s0 = set_tables 0x90000 0x91000 0x92000 s /\ stored 0x90000 0x93000 s0 s' /\ paging_ready (mem s')) s.
Proof.
  unfold setup_paging. rewrite wp_bind. apply wp_modify. set (s0 := set_tables 0x90000 0x91000 0x92000 s).
  rewrite wp_bind. eapply (wp_store_value _ _ _ 0x90000 0x93000 s0); [apply stored_refl|lia|lia|]. intros s1 S1 E1.
  rewrite wp_bind. eapply (wp_store_value _ _ _ 0x90000 0x93000 s0); [exact S1|lia|lia|]. intros s2 S2 E2.
  rewrite wp_bind. eapply wp_mono.
  - apply (wp_for (fun i addr s' => addr = i * 0x200000 /\ stored 0x90000 0x93000 s0 s' /\ value (mem s') 8 0x90000 = 0x91003 /\
      value (mem s') 8 0x91000 = 0x92003 /\ forall k, 0 <= k < i -> value (mem s') 8 (0x92000 + 8 * k) = k * 0x200000 + 0x83)); [lia| |].
    + split; [done|]. split; [done|]. rewrite E2, E1. split; [by found|]. split; [by found|]. lia.
    + intros i addr s3 Hi (-> & S3 & V1 & V2 & V3). rewrite wp_bind, (page_entry i) by lia.
      eapply (wp_store_value _ _ _ 0x90000 0x93000 s0); [exact S3|lia|lia|]. intros s4 S4 E4. apply wp_ret.
      split; [rewrite u64_id by (change (2 ^ 64) with 18446744073709551616; lia); lia|]. split; [done|]. rewrite E4.
      split; [rewrite value_put_other by (cbn; lia); done|]. split; [rewrite value_put_other by (cbn; lia); done|].
      intros k Hk. destruct (Z.eq_dec k i) as [->|].
      * rewrite value_put. apply Z.mod_small. change (256 ^ Z.of_nat 8) with 18446744073709551616. lia.
      * rewrite value_put_other by (cbn; lia). apply V3. lia.
  - cbn beta. intros addr s3 (_ & S3 & V1 & V2 & V3). apply wp_ret. exists s0. split; [done|]. split; [done|]. split; [done|]. split; [done|].
    intros i Hi. apply V3. lia.
Qed.

(** ** The kernel in its place *)

(** The first sectors of the kernel's file, which hold its headers. *)
Definition raw_byte (sector : Z -> Z -> Z) (lba o : Z) : Z := sector (lba + o / 512) (o mod 512).

Lemma headers_moved b m m' ptr size n : 0 <= size -> (forall x, ptr <= x < ptr + size * n + 0x30 -> m (b + x) = m' x) ->
  headers m (b + ptr) size n = headers m' ptr size n.
Proof. intros Hs H. apply (table_moved _ _ header_local); [done|]. intros x Hx. rewrite <- Z.add_assoc. apply H. lia. Qed.

(** What the kernel finds: it is at [ks], with [size] bytes; its stack ends where the bitmap begins, and
    behind that are the memory map and the boot information. *)
Record kernel_placed (rsdp ks size : Z) (l : list EFI_MEMORY_DESCRIPTOR) (v : vbe_data) (s' : stage4) : Prop := {
  placed_entry : kernel_entry s' = ks;
  placed_stack : gstack s' = ks + size + 0x41000;
  placed_map_at : GMMP s' = gstack s' + bitmap_bytes l;
  placed_info_at : g_buff64 s' = GMMP s' + 40 * Z.of_nat (length l) /\ g_buff s' = g_buff64 s' + 72;
  placed_map : forall i d, l !! i = Some d -> descriptor_at (mem s') (GMMP s' + 40 * Z.of_nat i) = d;
  placed_info64 : info64 (mem s') (g_buff64 s') = [ks; ks; u32 (g_buff s' + 24); u64 (framebuffer_address v); 40 * Z.of_nat (length l);
                                                    40; bitmap_bytes l; u64 rsdp; 1];
  placed_info32 : info32 (mem s') (g_buff s') = [u32 (pixel_mode v); u32 (horizontal_resolution v); u32 (vertical_resolution v);
                                                  u32 (pixels_per_scanline v); 96; 0];
  placed_paging : PML4 s' = 0x90000 /\ paging_ready (mem s')
}.

Section Disk.
Context (RealModeWrapper : Z -> Z -> Z -> Z -> M stage4 Z) (Services : bios_services).
Context (sector : Z -> Z -> Z) (lba_of next : Z -> Z) (laws : disk_laws RealModeWrapper sector lba_of next).
Context (Hspc : cluster_ok (sectors_per_cluster Services)).
Abbreviation image kc addr hs m := (image Services sector lba_of next kc addr hs m).

(** The program headers that the first sectors of the file say. *)
Definition kernel_phoff (kc : Z) : Z := value (raw_byte sector (lba_of kc)) 8 E_PHOFF.
Definition kernel_phentsize (kc : Z) : Z := value (raw_byte sector (lba_of kc)) 2 E_PHENTSIZE.
Definition kernel_phnum (kc : Z) : Z := value (raw_byte sector (lba_of kc)) 2 E_PHNUM.
Definition kernel_headers (kc : Z) : list program_header :=
  headers (raw_byte sector (lba_of kc)) (kernel_phoff kc) (kernel_phentsize kc) (kernel_phnum kc).

(** The headers are in the 16 KiB that are read, the segments have the sizes that the loader can handle. *)
Record kernel_file (kc : Z) : Prop := {
  kernel_cluster : 0 <= kc;
  kernel_table : kernel_phoff kc + kernel_phentsize kc * kernel_phnum kc + 0x30 <= 0x4000;
  kernel_segments : segments_ok kc (kernel_headers kc)
}.

Lemma raw_bytes kc : bytes_only (raw_byte sector (lba_of kc)).
Proof. intros x. apply (sector_range _ _ _ _ laws). Qed.

Lemma headers_read kc s : kernel_file kc -> ready s -> forall Q : Z -> stage4 -> Prop,
  (forall s', rest s s' -> ready s' -> value (mem s') 8 (0x95000 + E_PHOFF) = kernel_phoff kc ->
     value (mem s') 2 (0x95000 + E_PHENTSIZE) = kernel_phentsize kc -> value (mem s') 2 (0x95000 + E_PHNUM) = kernel_phnum kc ->
     headers (mem s') (0x95000 + kernel_phoff kc) (kernel_phentsize kc) (kernel_phnum kc) = kernel_headers kc ->
     (forall x, 2 ^ 20 <= x -> mem s' x = mem s x) -> Q 0 s') ->
  wp (RealModeWrapper bios_disk_services (lba_of kc) 0x95000 32) Q s.
Proof.
  intros [Hk Ht _] [Hp Hb] Q HQ. unfold wp. rewrite (read_law _ _ _ _ laws) by (try (change (2 ^ 20) with 1048576); lia).
  set (f := fun m x => _). set (s' := set_mem f s).
  assert (forall x, mem s' x = if (0x95000 <=? x) && (x <? 0x99000) then raw_byte sector (lba_of kc) (x - 0x95000) else mem s x) as E.
  { intros x. subst s' f. unfold raw_byte. by destruct s. }
  assert (forall x, 0 <= x < 0x4000 -> mem s' (0x95000 + x) = raw_byte sector (lba_of kc) x) as Er.
  { intros x Hx. rewrite E, (proj2 (Z.leb_le _ _)), (proj2 (Z.ltb_lt _ _)) by lia. cbn [andb]. f_equal. lia. }
  pose proof (value_bounds 8 E_PHOFF _ (raw_bytes kc)) as H1. fold (kernel_phoff kc) in H1.
  pose proof (value_bounds 2 E_PHENTSIZE _ (raw_bytes kc)) as H2. fold (kernel_phentsize kc) in H2.
  pose proof (value_bounds 2 E_PHNUM _ (raw_bytes kc)) as H3. fold (kernel_phnum kc) in H3.
  apply HQ.
  - subst s'. apply rest_set.
  - split; [by destruct s|]. intros x. rewrite E. destruct (_ && _); [apply raw_bytes|apply Hb].
  - apply value_moved. intros x Hx. apply Er. unfold E_PHOFF in Hx. lia.
  - apply value_moved. intros x Hx. apply Er. unfold E_PHENTSIZE in Hx. lia.
  - apply value_moved. intros x Hx. apply Er. unfold E_PHNUM in Hx. lia.
  - apply headers_moved; [lia|]. intros x Hx. apply Er. lia.
  - intros x Hx. change (2 ^ 20) with 1048576 in Hx. rewrite E. by rewrite (proj2 (Z.ltb_ge x 0x99000)), andb_false_r by lia.
Qed.

(** The bytes that the kernel is given in one piece: itself, its stack, the bitmap, the map, the information. *)
Definition boot_need (size : Z) (l : list EFI_MEMORY_DESCRIPTOR) : Z :=
  size + 0x41000 + bitmap_bytes l + 40 * Z.of_nat (length l) + 96.

(** The firmware's map as [main] has it: whole frames, numbers of their width. *)
Record map_given (l : list EFI_MEMORY_DESCRIPTOR) (s : stage4) : Prop := {
  given_frames : map_ok l;
  given_words : Forall descriptor_range l;
  given_count : efi_descriptor_count s = Z.of_nat (length l);
  given_room : Z.of_nat (length l) <= 1024;
  given_array : Z.of_nat (length l) <= Z.of_nat (length (efi_memory_map s));
  given_map : take (length l) (efi_memory_map s) = l
}.
Lemma map_given_rest l s s' : rest s s' -> map_given l s -> map_given l s'.
Proof. intros -> [? ? ? ? ? ?]. by split. Qed.

(** The information, the segments and the page tables, one after the other. *)
Lemma wp_hand_over kc rsdp ks size l ph n esz s : 0 <= kc -> map_given l s -> ready s -> 0 <= esz -> 0 <= n ->
  let hs := headers (mem s) ph esz n in segments_ok kc hs -> size = image_end 0 hs ->
  2 ^ 20 <= ks -> ks mod 4096 = 0 -> ks + boot_need size l <= 2 ^ 32 -> 0 <= bitmap_bytes l ->
  0x95000 <= ph -> ph + esz * n + 0x30 <= 0x99000 ->
  let stack := ks + size + 0x41000 in let MMP := stack + bitmap_bytes l in let p := MMP + 40 * Z.of_nat (length l) in
  wp (store_map MMP (Z.of_nat (length l));;
      store_info (p + 72) p ks (40 * Z.of_nat (length l)) (bitmap_bytes l) rsdp;;
      load_kernel RealModeWrapper Services ks ph esz n kc;;
      setup_paging;;
      modify (set_handoff (p + 72) p stack MMP ks))
    (fun _ s' => kernel_placed rsdp ks size l (vga s) s' /\ image kc ks hs (mem s') /\
      forall x, 2 ^ 20 <= x -> x < ks \/ ks + boot_need size l <= x -> mem s' x = mem s x) s.
Proof.
  intros Hk Hmap Hr Hesz Hn hs Hseg Hsize Hks Hal Hend Hbm Hp1 Hp2 stack MMP p.
  assert (image_end ks hs = ks + size) as Hie by (rewrite Hsize, <- image_end_shift, Z.add_0_r by done; done).
  assert (0 <= size) as Hsz by (rewrite Hsize; by apply (image_end_ge kc)).
  unfold boot_need in Hend. change (2 ^ 20) with 1048576 in *. change (2 ^ 32) with 4294967296 in *.
  destruct Hmap as [_ Hw _ Hl Hl2 Hm].
  rewrite wp_bind. eapply wp_mono; [by apply (wp_store_map MMP l)|]. cbn beta. intros _ s1 [S1 D1].
  rewrite wp_bind. eapply wp_mono; [apply wp_store_info|]. cbn beta. intros _ s2 (S2 & I64 & I32).
  assert (stored MMP (p + 96) s s2) as S12.
  { eapply stored_trans; (eapply stored_wider; [eassumption|lia|lia]). }
  assert (vga s1 = vga s) as Ev by (destruct S1 as (R & _ & _); rewrite R; by destruct s). rewrite Ev in *.
  destruct S12 as (R12 & B12 & W12). destruct Hr as [Hpl Hb].
  assert (ready s2) as Hr2 by (split; [by rewrite (rest_place _ _ R12)|auto]).
  assert (headers (mem s2) ph esz n = hs) as Eh.
  { apply headers_same; [done|]. intros x Hx. apply W12. lia. }
  assert (image_end ks (headers (mem s2) ph esz n) = ks + size) as Hie2 by (by rewrite Eh).
  rewrite wp_bind. eapply wp_mono; [apply (wp_load_kernel _ _ _ _ _ laws Hspc kc ks ph esz n s2)|]; [done|done|done|done|by rewrite Eh|done|done|
    change (2 ^ 32) with 4294967296; lia|lia|change (2 ^ 20) with 1048576; lia|]. cbn beta. rewrite Eh, Hie.
  intros _ s3 (R3 & Hr3 & Im & M3). rewrite wp_bind. eapply wp_mono; [apply wp_setup_paging|]. cbn beta.
  intros _ s4 (s0 & E0 & (R4 & _ & W4) & P4). apply wp_modify. cbn.
  assert (mem s0 = mem s3) as Em by (subst s0; by destruct s3).
  assert (forall x, 0x100000 <= x -> mem s4 x = mem s3 x) as Ehigh by (intros x Hx; rewrite <- Em; apply W4; lia).
  assert (forall k a, ks + size <= a -> value (mem s4) k a = value (mem s2) k a) as Ev4.
  { intros k a Ha. apply value_ext. intros x Hx. rewrite Ehigh by lia. apply M3; [unfold buffered|]; lia. }
  split; [|split].
  - unfold store_info, set_handoff. constructor; cbn; try done.
    + intros i d Ed. rewrite <- (D1 i d Ed). pose proof (lookup_lt_Some _ _ _ Ed) as Hi. unfold descriptor_at.
      f_equal; rewrite Ev4 by lia; (eapply stored_value; [exact S2|]; lia).
    + unfold info64 in *. rewrite !Ev4 by lia. rewrite I64. change (2 ^ 64) with 18446744073709551616 in *.
      rewrite (u64_id ks), (u64_id (40 * _)), (u64_id (bitmap_bytes l)) by (change (2 ^ 64) with 18446744073709551616; lia).
      by replace (p + 72 + 24) with (p + 96) by lia.
    + unfold info32 in *. rewrite !Ev4 by lia. by rewrite I32.
    + split; [|done]. rewrite R4, E0. by destruct s3.
  - eapply image_same; [done| |exact Im]. intros x Hx. apply Ehigh. lia.
  - intros x Hx Ho. unfold boot_need in Ho. rewrite Ehigh by lia. rewrite M3 by (unfold buffered; lia). apply W12. lia.
Qed.
End Disk.

(** The whole run, from the file's first sector to the hand-over. *)
Lemma wp_place_kernel (RealModeWrapper : Z -> Z -> Z -> Z -> M stage4 Z) (Services : bios_services)
    (sector : Z -> Z -> Z) (lba_of next : Z -> Z) (kc rsdp : Z) (l : list EFI_MEMORY_DESCRIPTOR) (s : stage4) :
  disk_laws RealModeWrapper sector lba_of next -> cluster_ok (sectors_per_cluster Services) ->
  kernel_file sector lba_of kc -> map_given l s -> ready s ->
  let hs := kernel_headers sector lba_of kc in
  let size := image_end 0 hs in
  let need := boot_need size l in
  let ks := find_free_region l (page_up need / 4096) in
  need + 4095 < 2 ^ 32 -> 0x100000 <= ks -> ks mod 4096 = 0 -> ks + need <= 2 ^ 32 ->
  wp (place_kernel RealModeWrapper Services rsdp kc) (fun _ s' => kernel_placed rsdp ks size l (vga s) s' /\
      image Services sector lba_of next kc ks hs (mem s') /\
      forall x, 2 ^ 20 <= x -> x < ks \/ ks + need <= x -> mem s' x = mem s x) s.
Proof.
  intros laws Hspc Hf Hm Hr hs size need ks Hneed Hlo Hal Hkn.
  pose proof (given_frames _ _ Hm) as Hok. destruct (highest_page_ok l Hok) as [[Hhp _] _].
  destruct Hf as [Hk Htab Hseg]. pose proof (Build_kernel_file sector lba_of kc Hk Htab Hseg) as Hf.
  assert (0 <= size) as Hsz by (by apply (image_end_ge kc)). assert (size mod 4096 = 0) as Hsal by (by apply image_end_aligned).
  assert (0 <= bitmap_bytes l) as Hbm by (unfold bitmap_bytes, page_up; divlia).
  destruct (plan_areas_ok size l Hok Hsz (given_room _ _ Hm)) as (A1 & A2 & A3); [exact Hneed|].
  pose proof (value_bounds 8 E_PHOFF _ (raw_bytes _ _ _ _ laws kc)) as H1. fold (kernel_phoff sector lba_of kc) in H1.
  pose proof (value_bounds 2 E_PHENTSIZE _ (raw_bytes _ _ _ _ laws kc)) as H2. fold (kernel_phentsize sector lba_of kc) in H2.
  pose proof (value_bounds 2 E_PHNUM _ (raw_bytes _ _ _ _ laws kc)) as H3. fold (kernel_phnum sector lba_of kc) in H3.
  assert (0 <= kernel_phentsize sector lba_of kc * kernel_phnum sector lba_of kc) as H4 by (apply Z.mul_nonneg_nonneg; lia).
  unfold place_kernel. rewrite wp_bind. unfold wp at 1. rewrite (lba_law _ _ _ _ laws). rewrite wp_bind.
  apply (headers_read _ _ _ _ laws kc s Hf Hr). intros s1 R1 Hr1 V1 V2 V3 Vh M1.
  rewrite wp_bind. apply wp_peek. rewrite V1, wp_bind. apply wp_peek. rewrite V2, wp_bind. apply wp_peek. rewrite V3.
  rewrite (u32_id (0x95000 + _)) by (change (2 ^ 32) with 4294967296; lia). rewrite wp_bind.
  apply (wp_calc_size kc); [lia|by rewrite Vh| |]; rewrite Vh; fold hs; fold size.
  { unfold need, boot_need in Hneed. lia. }
  pose proof (map_given_rest _ _ _ R1 Hm) as Hm1. rewrite wp_bind. apply wp_gets. rewrite wp_bind. apply wp_gets.
  rewrite (given_count _ _ Hm1), Nat2Z.id, (given_map _ _ Hm1).
  change (u32 (Z.lnot 0xFFF)) with (u32 (Z.lnot 4095)).
  assert (u32 (size + 4095) &&& u32 (Z.lnot 4095) = size) as ->.
  { unfold need, boot_need in Hneed. rewrite page_up_mask by (change (2 ^ 32) with 4294967296 in *; lia). unfold page_up. divlia. }
  rewrite A1, A2, A3. change (size + 0x41000 + bitmap_bytes l + 40 * Z.of_nat (length l) + 96) with need. rewrite page_of.
  fold ks.
  pose proof Hkn as Hkn'. unfold need, boot_need in Hkn'. change (2 ^ 32) with 4294967296 in Hkn'.
  rewrite (u32_id (ks + size + 0x41000)) by (change (2 ^ 32) with 4294967296; lia).
  rewrite (u32_id (ks + size + 0x41000 + _)) by (change (2 ^ 32) with 4294967296; lia).
  rewrite (u32_id (_ + 40 * Z.of_nat (length l))) by (change (2 ^ 32) with 4294967296; lia).
  rewrite (u32_id (_ + 72)) by (change (2 ^ 32) with 4294967296; lia).
  eapply wp_mono.
  - apply (wp_hand_over RealModeWrapper Services sector lba_of next laws Hspc kc rsdp ks size l); rewrite ?Vh; (done || lia).
  - cbn beta. rewrite Vh. fold hs. intros _ s' (K1 & K2 & K3). replace (vga s1) with (vga s) in K1 by (rewrite R1; by destruct s).
    split; [done|]. split; [done|]. intros x Hx Ho. rewrite K3, M1 by done. done.
Qed.

(** C17: a kernel whose headers are in its first 16 KiB and whose segments have sizes that the loader can
    handle, on a disk with clusters of at most 32 KiB (larger ones reach over the headers, stage4.c:312) whose
    sectors, clusters and chains the BIOS services give. When the first region of the map that is long enough
    has room for the kernel below 4 GiB (the loader cuts its address to 32 bits, stage4.c:259; the other
    regions may lie anywhere), the loader ends, and the whole image is in that region of usable memory, each
    segment with the bytes of the file and zeros behind them; stack, bitmap, memory map and boot information
    are behind it where the hand-over says, with what they should hold; the bitmap has a bit for every
    frame of the map; the page tables map the first GiB; and no byte above 1 MiB outside of the region is
    touched. *)
Theorem place_kernel_correct (RealModeWrapper : Z -> Z -> Z -> Z -> M stage4 Z) (Services : bios_services)
    (sector : Z -> Z -> Z) (lba_of next : Z -> Z) (kc rsdp : Z) (l : list EFI_MEMORY_DESCRIPTOR)
    (d : EFI_MEMORY_DESCRIPTOR) (s : stage4) :
  disk_laws RealModeWrapper sector lba_of next -> cluster_ok (sectors_per_cluster Services) ->
  kernel_file sector lba_of kc -> map_given l s -> ready s ->
  let hs := kernel_headers sector lba_of kc in
  let size := image_end 0 hs in
  let need := boot_need size l in
  let ks := PhysicalStart d in
  need + 4095 < 2 ^ 32 -> List.find (fits (page_up need / 4096)) l = Some d -> ks + need <= 2 ^ 32 ->
  exists s', place_kernel RealModeWrapper Services rsdp kc s = Done () s' /\
    kernel_placed rsdp ks size l (vga s) s' /\
    image Services sector lba_of next kc ks hs (mem s') /\
    (d ∈ l /\ Type_ d = EfiConventionalMemory /\ 0x100000 <= ks /\ ks + need <= ks + 4096 * NumberOfPages d) /\
    Forall (fun d => PhysicalStart d / 4096 + NumberOfPages d <= 8 * bitmap_bytes l) l /\
    (forall x, 2 ^ 20 <= x -> x < ks \/ ks + need <= x -> mem s' x = mem s x).
Proof.
  intros laws Hspc Hf Hm Hr hs size need ks Hneed Hd Hend. pose proof (given_frames _ _ Hm) as Hok.
  destruct (highest_page_ok l Hok) as [[Hhp _] _]. destruct Hf as [Hk Htab Hseg]. pose proof (Build_kernel_file sector lba_of kc Hk Htab Hseg) as Hf.
  assert (0 <= size) as Hsz by (by apply (image_end_ge kc)).
  assert (0 < need) as Hn by (unfold need, boot_need, bitmap_bytes, page_up; divlia).
  destruct (find_free_region_ok l (page_up need / 4096) d Hok Hd) as (Hin & Ht & Eks & Hlo & Hal & Hpg).
  { change (PhysicalStart d) with ks. lia. }
  assert (need <= 4096 * NumberOfPages d) as Hfit by (unfold page_up in Hpg; divlia).
  fold ks in Eks, Hlo, Hal. rewrite Eks in Hlo, Hal, Hend.
  destruct (wp_inv _ _ _ (wp_place_kernel RealModeWrapper Services sector lba_of next kc rsdp l s laws Hspc Hf Hm Hr Hneed Hlo Hal Hend))
    as ([] & s' & E & K1 & K2 & K3). fold hs size need in K1, K2, K3. rewrite <- Eks in K1, K2, K3, Hlo.
  exists s'. do 3 (split; [done|]). split; [split_and!; done || lia|]. split; [by apply bitmap_covers|done].
Qed.

(** A disk with clusters of a sector, whose kernel has one segment: its header is at 0x40, its bytes from
    0x1000 on. The machine has a GiB of memory above 4 GiB. *)
Definition sample_sector (lba i : Z) : Z :=
  let o := 512 * (lba - 100) + i in
  if o =? 0x20 then 0x40 else if o =? 0x36 then 0x38 else if o =? 0x38 then 1
  else if o =? 0x40 then 1 else if o =? 0x49 then 0x10 else if o =? 0x61 then 0x18 else if o =? 0x69 then 0x20
  else if o <? 0x1000 then 0 else o mod 251.
Definition sample_wrapper (service a b n : Z) : M stage4 Z := fun s =>
  if service =? bios_disk_services then
    Done 0 (set_mem (fun m x => if (b <=? x) && (x <? b + 512 * n) then sample_sector (a + (x - b) / 512) ((x - b) mod 512) else m x) s)
  else Done (if service =? find_next_cluster then a + 1 else a) s.
Definition sample_map : list EFI_MEMORY_DESCRIPTOR := [mkDesc 7 0 0 0x9F 0; mkDesc 0 0xF0000 0 0x10 0; mkDesc 7 0x100000 0 0x700 0; mkDesc 7 0x100000000 0 0x40000 0].
Definition sample_stage4 : stage4 :=
  mkStage4 (fun _ => 0) [] (sample_map ++ replicate 1020 zero_desc) 4 4 0x80000 (mkVbe 0 1024 768 1024 0 0xE0000000) 0 0 0 0 0 0 0 0.

Lemma sample_laws : disk_laws sample_wrapper sample_sector (fun c => c) (fun c => c + 1).
Proof.
  split; [|done..]. intros lba i. unfold sample_sector. set (o := 512 * (lba - 100) + i). clearbody o.
  repeat match goal with |- context [if ?b then _ else _] => destruct b; [lia|] end. divlia.
Qed.
Example sample_header : kernel_headers sample_sector (fun c => c) 100 = [mkHeader 1 0x1000 0x1800 0x2000].
Proof. vm_compute. reflexivity. Qed.

Lemma place_kernel_correct_witness :
  let hs := kernel_headers sample_sector (fun c => c) 100 in
  let size := image_end 0 hs in
  let need := boot_need size sample_map in
  let d := mkDesc 7 0x100000 0 0x700 0 in
  exists s', place_kernel sample_wrapper (mkServices 1 0) 0xF1230 100 sample_stage4 = Done () s' /\
    kernel_placed 0xF1230 0x100000 size sample_map (vga sample_stage4) s' /\
    image (mkServices 1 0) sample_sector (fun c => c) (fun c => c + 1) 100 0x100000 hs (mem s') /\
    (d ∈ sample_map /\ Type_ d = EfiConventionalMemory /\ 0x100000 <= 0x100000 /\ 0x100000 + need <= 0x100000 + 4096 * 0x700) /\
    Forall (fun d => PhysicalStart d / 4096 + NumberOfPages d <= 8 * bitmap_bytes sample_map) sample_map /\
    (forall x, 2 ^ 20 <= x -> x < 0x100000 \/ 0x100000 + need <= x -> mem s' x = mem sample_stage4 x).
Proof.
  apply (place_kernel_correct sample_wrapper (mkServices 1 0) sample_sector (fun c => c) (fun c => c + 1) 100 0xF1230 sample_map
    (mkDesc 7 0x100000 0 0x700 0) sample_stage4).
  - apply sample_laws.
  - apply elem_of_cons. by left.
  - split; [done|by vm_compute|]. rewrite sample_header. repeat constructor; cbn; lia.
  - split; [repeat constructor; cbn; lia|repeat constructor; cbn; lia|reflexivity|cbn; lia| |reflexivity].
    apply Z.leb_le. vm_compute. reflexivity.
  - split; [done|]. intros x. cbn. lia.
  - vm_compute. reflexivity.
  - vm_compute. reflexivity.
  - apply Z.leb_le. vm_compute. reflexivity.
Defined.
