(* ===== verification/EfiLoader.v ===== *)
(** * The EFI boot loader ([EFI/boot/bootloader.c])

    The loader asks the firmware for the memory map, chooses a free region, loads the kernel's segments
    and what the kernel is started with into it, leaves the boot services and jumps. The firmware is the
    interface [Uefi]: its calls are unknown operations on memory and on a state of its own. Handles that
    the loader only passes back, and messages, are left out. Paths are relative to [src]. *)
From S2P Require Import KPrelude MemHelpers BootMem.

(** The loader's static variables are [size] and [file_buffer]; the buffer is in memory. *)
Record efi_state (F : Type) := mkEfi { efi_mem : Z -> Z; size : Z; firmware : F }.
#[global] Arguments mkEfi {F}.
#[global] Arguments efi_mem {F}.
#[global] Arguments size {F}.
#[global] Arguments firmware {F}.

Definition set_size {F} (n : Z) (s : efi_state F) : efi_state F := mkEfi (efi_mem s) n (firmware s).
#[export] Instance efi_memory F : ByteMem (efi_state F).
Proof. refine {| mem := efi_mem; set_mem f s := mkEfi (f (efi_mem s)) (size s) (firmware s) |}; by intros; destruct s. Defined.

(** ** The firmware *)

(** What [GetMemoryMap] answers, beside the descriptors that it stores. *)
Record map_answer := mkAnswer { ma_status : Z; ma_size : Z; ma_key : Z; ma_descriptor_size : Z }.
Record mode_information := mkMode { HorizontalResolution : Z; VerticalResolution : Z; PixelsPerScanLine : Z }.

Class Uefi (F : Type) := {
  (** The device path of the loaded image's device. *)
  DevicePath : M (efi_state F) Z;
  GetMemoryMap : Z -> Z -> M (efi_state F) map_answer;
  AllocatePool : Z -> M (efi_state F) (Z * Z);
  MaxMode : M (efi_state F) Z;
  QueryMode : Z -> M (efi_state F) mode_information;
  SetMode : Z -> M (efi_state F) unit;
  (** [gop->Mode] after that: the frame buffer and the pixel format. *)
  FrameBufferBase : M (efi_state F) Z;
  PixelFormat : M (efi_state F) Z;
  (** [OpenVolume] and [Open] for the kernel's file. *)
  OpenKernel : M (efi_state F) unit;
  (** [Read] of so many bytes at the position to an address: how many there were. *)
  Read : Z -> Z -> M (efi_state F) Z;
  SetPosition : Z -> M (efi_state F) unit;
  (** Pairs of a GUID, as one number, and a table. *)
  ConfigurationTable : M (efi_state F) (list (Z * Z));
  ExitBootServices : Z -> M (efi_state F) Z
}.

Definition EFI_SUCCESS := 0.
Definition EFI_BUFFER_TOO_SMALL := 0x8000000000000005.
Definition EFI_ERROR (status : Z) : bool := Z.testbit status 63.
Definition PixelRedGreenBlueReserved8BitPerColor := 0.
Definition PixelBlueGreenRedReserved8BitPerColor := 1.

Definition align_up (value align : Z) : Z := u64 (value + align - 1) &&& u64 (Z.lnot (align - 1)).

Definition PT_LOAD := 1.

Record pt_data := mkPt { file_base : Z; e_entry : Z; e_phentsize : Z; e_phnum : Z }.
Record aloc_data := mkAloc { ad_entry : Z; ad_end : Z; ad_start : Z }.

(** What [efi_main] ends with: a status for the firmware, or the kernel's entry with its arguments. *)
Inductive boot_result :=
| Returned (status : Z)
| Entered (kernel_entry p_buff64 p_buff stack MMP : Z).

Section Loader.
Context {F : Type} `{!Uefi F} (file_buffer Acpi20TableGuid Acpi10TableGuid : Z).
Abbreviation ME := (M (efi_state F)).

Definition table_of (guid : Z) (tables : list (Z * Z)) : option Z := snd <$> List.find (fun '(g, _) => g =? guid) tables.
Definition find_rsdp : ME Z :=
  tables ← ConfigurationTable;
  mret (match table_of Acpi20TableGuid tables with
        | Some table => table
        | None => default 0 (table_of Acpi10TableGuid tables)
        end).

Definition FindFreeRegion (map map_size desc_size pages_needed : Z) : ME Z :=
  if desc_size =? 0 then fault
  else
    while FUEL (fun i =>
      if i <? map_size / desc_size then
        let desc := map + i * desc_size in
        type ← peek 4 desc;
        start ← peek 8 (desc + 8);
        if negb (type =? EfiConventionalMemory) || (start <? 0x100000) then mret (inl (i + 1))
        else
          pages ← peek 8 (desc + 24);
          if pages >=? pages_needed then mret (inr start) else mret (inl (i + 1))
      else mret (inr 1)) 0.

(** ** The kernel's file *)

(** The room of a segment: the larger of its sizes, as the alignment asks. *)
Definition aligned_size (n p_align : Z) : Z :=
  if (p_align =? 1) || (p_align =? 0) then n
  else u64 (n + u64 (p_align - 1)) &&& u64 (Z.lnot (u64 (p_align - 1))).
Definition segment_space (p_memsz p_filesz p_align : Z) : Z :=
  aligned_size (if p_memsz >? p_filesz then p_memsz else p_filesz) p_align.

Definition count_segment (e_phentsize : Z) (at_ : Z * Z) : ME (Z * Z) :=
  let '(p_header, p_entry) := at_ in
  p_type ← peek 4 p_header;
  p_filesz ← peek 8 (p_header + 0x20);
  p_memsz ← peek 8 (p_header + 0x28);
  p_align ← peek 8 (p_header + 0x30);
  mret (p_header + e_phentsize,
        if p_type =? PT_LOAD then u64 (p_entry + segment_space p_memsz p_filesz p_align) else p_entry).
Definition find_end (file_base p_entry : Z) : ME Z :=
  e_phoff ← peek 8 (file_base + 0x20);
  e_phentsize ← peek 2 (file_base + 0x36);
  e_phnum ← peek 2 (file_base + 0x38);
  '(_, p_entry) ← for_ 0 e_phnum (fun _ => count_segment e_phentsize) (file_base + e_phoff, p_entry);
  mret p_entry.

(** [file->Read(&size, file_buffer)]. *)
Definition read_buffer : ME unit :=
  n ← gets size;
  n ← Read n file_buffer;
  modify (set_size n).

Definition load_segment (p_offset p_filesz p_align buf : Z) : ME unit :=
  SetPosition p_offset;;
  let bytewise := (p_align =? 0) || (p_align =? 1) in
  let iterations := if bytewise then p_filesz else u64 (p_filesz + u64 (p_align - 1)) / p_align in
  let p_align := if bytewise then 1 else p_align in
  modify (set_size p_align);;
  for_ 0 iterations (fun i buf =>
    read_buffer;;
    let left := u64 (p_filesz - u64 (i * p_align)) in
    (if left >? p_align then memcpy buf file_buffer p_align else memcpy buf file_buffer left);;
    mret (u64 (buf + 4096))) buf;;
  modify (set_size 4096);;
  SetPosition 0;;
  read_buffer.

(** One header: the zeros behind the segment's bytes first, then these. *)
Definition allocate_segment (st_vaddr buf e_phentsize : Z) (at_ : Z * Z) : ME (Z * Z) :=
  let '(p_header, e_entry) := at_ in
  p_type ← peek 4 p_header;
  p_offset ← peek 8 (p_header + 0x08);
  p_vaddr ← peek 8 (p_header + 0x10);
  let p_vaddr := u64 (p_vaddr - st_vaddr) in
  p_filesz ← peek 8 (p_header + 0x20);
  p_memsz ← peek 8 (p_header + 0x28);
  p_align ← peek 8 (p_header + 0x30);
  if p_type =? PT_LOAD then
    (if p_memsz >? p_filesz
     then memset (u64 (buf + p_vaddr + p_filesz)) (p_memsz - p_filesz) 0 else mret ());;
    load_segment p_offset p_filesz p_align (u64 (buf + p_vaddr));;
    mret (p_header + e_phentsize, u64 (e_entry + segment_space p_memsz p_filesz p_align))
  else mret (p_header + e_phentsize, e_entry).

Definition elf_allocator (e : pt_data) : ME Z :=
  st_vaddr ← peek 8 (file_base e + 0x10);
  '(_, e_entry) ← for_ 0 (e_phnum e) (fun _ => allocate_segment st_vaddr (e_entry e) (e_phentsize e)) (file_base e, e_entry e);
  mret e_entry.

Definition elf_loader (file_base p_entry : Z) : ME aloc_data :=
  m ← gets mem;
  if (m file_base =? 0x7f) && (m (file_base + 1) =? 69) && (m (file_base + 2) =? 76) && (m (file_base + 3) =? 70) then
    e_entry ← peek 8 (file_base + 0x18);
    e_phoff ← peek 8 (file_base + 0x20);
    st_vaddr ← peek 8 (file_base + e_phoff + 0x10);
    let e_entry := u64 (u64 (e_entry - st_vaddr) + p_entry) in
    e_phentsize ← peek 2 (file_base + 0x36);
    e_phnum ← peek 2 (file_base + 0x38);
    end_ ← elf_allocator (mkPt (file_base + e_phoff) p_entry e_phentsize e_phnum);
    mret (mkAloc e_entry end_ p_entry)
  else mret (mkAloc 0 0 0).

(** ** [efi_main] *)

Definition find_highest_end (ptr count descriptor_size : Z) : ME Z :=
  for_ 0 count (fun i highest_end =>
    start ← peek 8 (ptr + i * descriptor_size + 8);
    pages ← peek 8 (ptr + i * descriptor_size + 24);
    let end_ := u64 (start + u64 (pages * 4096)) in
    mret (if end_ >? highest_end then end_ else highest_end)) 0.

(** The mode with the most pixels, the first of them. *)
Definition choose_mode : ME Z :=
  modes ← MaxMode;
  '(mode_to_set, _) ← for_ 0 modes (fun i '(mode_to_set, mode_res) =>
    info ← QueryMode i;
    let cur_mode_res := i32 (u32 (HorizontalResolution info * VerticalResolution info)) in
    mret (if cur_mode_res >? mode_res then (i, cur_mode_res) else (mode_to_set, mode_res))) (0, 0);
  mret mode_to_set.

Definition find_path_size (path : Z) : ME Z :=
  while FUEL (fun '(node, path_size) =>
    low ← peek 1 (node + 2);
    high ← peek 1 (node + 3);
    let node_size := low ||| (high <<< 8) in
    let path_size := u64 (path_size + node_size) in
    type ← peek 1 node;
    subtype ← peek 1 (node + 1);
    if (type =? 0x7F) && (subtype =? 0xFF) then mret (inr path_size) else mret (inl (u64 (node + node_size), path_size)))
    (path, 0).

Definition buf_sz := 24.
Definition buf_sz64 := 72.
Definition needed_pages (kernel_end bitmap_size mmpsz path_size : Z) : Z :=
  u64 ((kernel_end >>> 12) + 65 + u64 (bitmap_size + 4095) / 4096 + u64 (mmpsz + buf_sz + buf_sz64 + path_size + 4095) / 4096).

Definition store_info32 (p_buff format path_size : Z) (final_info : mode_information) : ME unit :=
  poke 4 p_buff (if format =? PixelRedGreenBlueReserved8BitPerColor then 1 else 0);;
  poke 4 (p_buff + 4) (HorizontalResolution final_info);;
  poke 4 (p_buff + 8) (VerticalResolution final_info);;
  poke 4 (p_buff + 12) (PixelsPerScanLine final_info);;
  poke 4 (p_buff + 16) (buf_sz + buf_sz64 + path_size);;
  poke 4 (p_buff + 20) path_size.
Definition store_info64 (p_buff64 p_buff fb mmpsz mpc bitmap_size rsdp path_size : Z) (ad : aloc_data) : ME unit :=
  poke 8 p_buff64 (ad_entry ad);;
  poke 8 (p_buff64 + 8) (ad_start ad);;
  poke 8 (p_buff64 + 16) (p_buff + 24 + path_size);;
  poke 8 (p_buff64 + 24) fb;;
  poke 8 (p_buff64 + 32) mmpsz;;
  poke 8 (p_buff64 + 40) mpc;;
  poke 8 (p_buff64 + 48) bitmap_size;;
  poke 8 (p_buff64 + 56) rsdp;;
  poke 8 (p_buff64 + 64) (p_buff + buf_sz).

(** The memory map once more, for its key, until the firmware lets go. *)
Definition exit_services (memory_map memory_map_size : Z) : ME unit :=
  while FUEL (fun memory_map_size =>
    a ← GetMemoryMap memory_map_size memory_map;
    status ← ExitBootServices (ma_key a);
    if status =? EFI_SUCCESS then mret (inr ()) else mret (inl (ma_size a))) memory_map_size.

(** From the memory map on: the kernel's place, the copies, the kernel, the information. *)
Definition boot_kernel (path memory_map memory_map_size descriptor_size bitmap_size : Z) : ME boot_result :=
  mode_to_set ← choose_mode;
  final_info ← QueryMode mode_to_set;
  OpenKernel;;
  read_buffer;;
  path_size ← find_path_size path;
  rsdp ← find_rsdp;
  kernel_end ← find_end file_buffer 0;
  let pages := needed_pages kernel_end bitmap_size memory_map_size path_size in
  addr ← FindFreeRegion memory_map memory_map_size descriptor_size pages;
  let stack := u64 (addr + kernel_end + 0x41000) in
  let MMP := u64 (stack + (u64 (bitmap_size + 4095) &&& u64 (Z.lnot 4095))) in
  let p_buff64 := u64 (MMP + memory_map_size) in
  let p_buff := u64 (p_buff64 + buf_sz64) in
  memcpy MMP memory_map memory_map_size;;
  memcpy (u64 (p_buff + buf_sz)) path path_size;;
  ad ← elf_loader file_buffer addr;
  SetMode mode_to_set;;
  fb ← FrameBufferBase;
  format ← PixelFormat;
  store_info32 p_buff format path_size final_info;;
  store_info64 p_buff64 p_buff fb memory_map_size descriptor_size bitmap_size rsdp path_size ad;;
  exit_services memory_map memory_map_size;;
  mret (Entered (ad_entry ad) p_buff64 p_buff stack MMP).

Definition efi_main : ME boot_result :=
  path ← DevicePath;
  a ← GetMemoryMap 0 0;
  if negb (ma_status a =? EFI_BUFFER_TOO_SMALL) then mret (Returned (ma_status a))
  else
    let memory_map_size := u64 (ma_size a + 2 * ma_descriptor_size a) in
    '(status, memory_map) ← AllocatePool memory_map_size;
    if EFI_ERROR status then mret (Returned status)
    else
      a ← GetMemoryMap memory_map_size memory_map;
      if ma_descriptor_size a =? 0 then fault
      else
        highest_end ← find_highest_end memory_map (ma_size a / ma_descriptor_size a) (ma_descriptor_size a);
        let total_pages := u64 (highest_end + 4095) / 4096 in
        let bitmap_size := u64 (total_pages + 7) / 8 in
        if EFI_ERROR (ma_status a) then mret (Returned (ma_status a))
        else boot_kernel path memory_map (ma_size a) (ma_descriptor_size a) bitmap_size.
End Loader.
