(* ===== verification/EfiLoad.v ===== *)
(** * The EFI loader: the kernel's segments

    With a file behind the firmware's [Read] and [SetPosition], which leave the loader's own memory alone, the
    loader's segments are the bytes of that file at the addresses that their headers ask for. *)
From S2P Require Import KPrelude MemHelpers BootMem EfiLoader.

(** [x] is one of the [n] addresses from [a] on. *)
Definition inside (a n x : Z) : bool := (a <=? x) && (x <? a + n).
Lemma inside_spec a n x : inside a n x = true <-> a <= x < a + n.
Proof. unfold inside. rewrite andb_true_iff, Z.leb_le, Z.ltb_lt. done. Qed.
Lemma inside_true a n x : a <= x < a + n -> inside a n x = true.
Proof. apply inside_spec. Qed.
Lemma inside_false a n x : x < a \/ a + n <= x -> inside a n x = false.
Proof. intros H. apply not_true_iff_false. rewrite inside_spec. lia. Qed.
Lemma inside_outside a n x : inside a n x = false -> x < a \/ a + n <= x.
Proof. unfold inside. destruct (Z.leb_spec a x), (Z.ltb_spec x (a + n)); intros; (done || lia). Qed.
Ltac insides := repeat match goal with
  | |- context [inside ?a ?n ?x] => first [rewrite (inside_true a n x) by lia|rewrite (inside_false a n x) by lia]
  end.

Definition apart (a n b k : Z) : Prop := a + n <= b \/ b + k <= a.

(** ** The file *)

(** What the loader relies on of the firmware's file, whose bytes are [file]: [SetPosition] sets the
    position, [Read] stores the bytes from there on, and neither touches memory that is the caller's
    ([owned]), except for the buffer that [Read] is given. *)
Record file_laws {F} `{!Uefi F} (position : F -> Z) (file : Z -> Z) (flen : Z) (owned : Z -> Prop) : Prop := {
  file_range o : 0 <= file o < 256;
  file_length : 0 <= flen < 2 ^ 63;
  position_law p s : 0 <= p <= flen ->
    wp (SetPosition p) (fun _ s' => size s' = size s /\ position (firmware s') = p /\
      (bytes_only (mem s) -> bytes_only (mem s')) /\ forall x, owned x -> mem s' x = mem s x) s;
  read_law n buf s : 0 <= n -> 0 <= position (firmware s) <= flen -> (forall x, buf <= x < buf + n -> owned x) ->
    let p := position (firmware s) in
    wp (Read n buf) (fun k s' => k = Z.min n (flen - p) /\ size s' = size s /\ position (firmware s') = p + k /\
      (bytes_only (mem s) -> bytes_only (mem s')) /\ (forall i, 0 <= i < k -> mem s' (buf + i) = file (p + i)) /\
      forall x, owned x -> inside buf n x = false -> mem s' x = mem s x) s
}.

Lemma rest_size {F} (s s' : efi_state F) : rest s s' -> size s' = size s /\ firmware s' = firmware s.
Proof. intros ->. by destruct s. Qed.

Section File.
Context {F : Type} `{!Uefi F} (position : F -> Z) (file : Z -> Z) (flen : Z) (owned : Z -> Prop).
Context (laws : file_laws position file flen owned).
Context (file_buffer : Z) (buffer_owned : forall x, file_buffer <= x < file_buffer + 4096 -> owned x).

(** Between the operations the buffer holds the first 4096 bytes of the file. *)
Record buffered (s : efi_state F) : Prop := {
  buffer_bytes : bytes_only (mem s);
  buffer_head o : 0 <= o < Z.min 4096 flen -> mem s (file_buffer + o) = file o
}.

Lemma wp_read_buffer s : 0 <= size s <= 4096 -> 0 <= position (firmware s) <= flen -> bytes_only (mem s) ->
  let p := position (firmware s) in let k := Z.min (size s) (flen - p) in
  wp (read_buffer file_buffer) (fun _ s' => size s' = k /\ position (firmware s') = p + k /\ bytes_only (mem s') /\
    (forall i, 0 <= i < k -> mem s' (file_buffer + i) = file (p + i)) /\
    forall x, owned x -> inside file_buffer 4096 x = false -> mem s' x = mem s x) s.
Proof using laws buffer_owned.
  intros Hs Hp Hb p k. unfold read_buffer. rewrite wp_bind. apply wp_gets. rewrite wp_bind.
  eapply wp_mono; [apply (read_law _ _ _ _ laws); [lia|done|intros; apply buffer_owned; lia]|]. cbn beta.
  intros n s1 (E & Es & Ep & Eb & Er & Ek). apply wp_modify. fold p k in E, Ep. subst n. change (mem (set_size k s1)) with (mem s1).
  do 2 (split; [done|]). split; [by apply Eb|]. split; [exact Er|]. intros x Hx Ho. apply Ek; [done|].
  apply inside_outside in Ho. apply inside_false. lia.
Qed.

(** The first bytes again, at the end of an operation. *)
Lemma wp_rewind s : bytes_only (mem s) -> wp (modify (set_size 4096);; SetPosition 0;; read_buffer file_buffer)
  (fun _ s' => buffered s' /\ forall x, owned x -> inside file_buffer 4096 x = false -> mem s' x = mem s x) s.
Proof using laws buffer_owned.
  intros Hb. pose proof (file_length _ _ _ _ laws) as Hl. rewrite wp_bind. apply wp_modify. rewrite wp_bind.
  eapply wp_mono; [apply (position_law _ _ _ _ laws); lia|]. cbn beta. intros _ s1 (E2 & E3 & E1 & E4).
  change (mem (set_size 4096 s)) with (mem s) in *. change (size (set_size 4096 s)) with 4096 in E2.
  eapply wp_mono; [apply wp_read_buffer; [lia|lia|by apply E1]|]. cbn beta. rewrite E2, E3, Z.sub_0_r.
  intros _ s2 (_ & _ & S3 & S4 & S5). split; [split; [done|]|].
  - intros o Ho. by apply S4.
  - intros x Hx Ho. by rewrite S5, E4.
Qed.

(** A segment's bytes go where they should, in pieces of a page. *)
Lemma wp_load_pieces off n buf s : bytes_only (mem s) -> 0 <= off -> 0 <= n -> off + n <= flen -> 0 <= buf -> buf + n + 4096 <= 2 ^ 64 ->
  apart buf n file_buffer 4096 ->
  wp (load_segment file_buffer off n 4096 buf) (fun _ s' => buffered s' /\
    forall x, owned x -> inside file_buffer 4096 x = false -> mem s' x = if inside buf n x then file (off + (x - buf)) else mem s x) s.
Proof using laws buffer_owned.
  intros Hb Ho Hn Hl Hbuf Hend Hap. pose proof (file_length _ _ _ _ laws) as Hf. change (2 ^ 63) with 9223372036854775808 in Hf.
  change (2 ^ 64) with 18446744073709551616 in Hend. unfold load_segment, apart in *. change ((4096 =? 0) || (4096 =? 1)) with false. cbv iota zeta.
  rewrite wp_bind. eapply wp_mono; [apply (position_law _ _ _ _ laws); lia|]. cbn beta. intros _ s1 (_ & P1 & E0 & E1).
  change (u64 (4096 - 1)) with 4095. rewrite (u64_id (n + 4095)) by (change (2 ^ 64) with 18446744073709551616; lia).
  set (count := (n + 4095) / 4096). assert (0 <= count /\ n <= 4096 * count < n + 4096) as [Hc0 Hc] by (subst count; divlia). clearbody count.
  rewrite wp_bind. apply wp_modify. rewrite wp_bind. eapply wp_mono.
  - apply (wp_for (fun i b s' => b = buf + 4096 * i /\ bytes_only (mem s') /\ (i < count -> size s' = 4096 /\ position (firmware s') = off + 4096 * i) /\
      forall x, owned x -> inside file_buffer 4096 x = false -> mem s' x = if inside buf (Z.min (4096 * i) n) x then file (off + (x - buf)) else mem s x)); [done| |].
    + split; [lia|]. change (mem (set_size 4096 s1)) with (mem s1). split; [by apply E0|].
      split; [intros _; split; [done|]; change (firmware (set_size 4096 s1)) with (firmware s1); lia|]. intros x Ho' Hx.
      rewrite inside_false by lia. by apply E1.
    + intros i b s2 Hi (-> & B2 & H2 & M2). destruct (H2 ltac:(lia)) as [Sz Ps]. clear H2.
      rewrite wp_bind. eapply wp_mono; [apply wp_read_buffer; [lia|lia|done]|]. cbn beta zeta. rewrite Sz, Ps.
      intros _ s3 (S1 & S2 & S3 & S4 & S5). set (k := Z.min 4096 (flen - (off + 4096 * i))) in *.
      rewrite (u64_id (i * 4096)), (u64_id (n - i * 4096)) by (change (2 ^ 64) with 18446744073709551616; lia).
      set (c := Z.min 4096 (n - 4096 * i)).
      assert (wp (memcpy (buf + 4096 * i) file_buffer c) (fun _ s' => bytes_only (mem s') /\ size s' = size s3 /\ firmware s' = firmware s3 /\
         forall x, inside file_buffer 4096 x = false -> mem s' x = if inside (buf + 4096 * i) c x then file (off + (x - buf)) else mem s3 x) s3) as Hcopy.
      { eapply wp_mono; [apply wp_memcpy; [lia|lia|done]|]. cbn beta. intros _ s4 (R4 & B4 & M4). destruct (rest_size _ _ R4) as [Z4 F4].
        do 3 (split; [done|]). intros x Hx. rewrite M4. fold (inside (buf + 4096 * i) c x).
        destruct (inside _ c x) eqn:E; [|done]. apply inside_spec in E. rewrite S4 by lia. f_equal. lia. }
      rewrite wp_bind. replace (if n - i * 4096 >? 4096 then memcpy (buf + 4096 * i) file_buffer 4096 else memcpy (buf + 4096 * i) file_buffer (n - i * 4096))
        with (memcpy (S := efi_state F) (buf + 4096 * i) file_buffer c) by (subst c; destruct (Z.gtb_spec (n - i * 4096) 4096); f_equal; lia).
      eapply wp_mono; [exact Hcopy|]. cbn beta. intros _ s4 (B4 & Z4 & F4 & M4). apply wp_ret.
      rewrite u64_id by (change (2 ^ 64) with 18446744073709551616; lia). split; [lia|]. split; [done|].
      split; [intros Hlt; rewrite Z4, F4, S1, S2; subst k; lia|]. intros x Ho' Hx. rewrite M4 by done.
      destruct (inside (buf + 4096 * i) c x) eqn:E; [apply inside_spec in E; by insides|].
      rewrite S5 by done.
      rewrite M2 by done. f_equal. unfold inside in *. destruct (Z.leb_spec (buf + 4096 * i) x), (Z.leb_spec buf x); cbn [andb] in *; try lia; try done.
      * apply Z.ltb_ge in E. rewrite !(proj2 (Z.ltb_ge _ _)) by lia. done.
      * destruct (Z.ltb_spec x (buf + Z.min (4096 * i) n)), (Z.ltb_spec x (buf + Z.min (4096 * (i + 1)) n)); done || lia.
  - cbn beta. intros b s2 (_ & B2 & _ & M2). eapply wp_mono; [by apply wp_rewind|]. cbn beta. intros _ s3 [H3 M3].
    split; [done|]. intros x Ho' Hx. rewrite M3, M2 by done. rewrite Z.add_0_l. by replace (Z.min (4096 * count) n) with n by lia.
Qed.

(** *** Segments *)

Record segment := mkSegment { g_type : Z; g_offset : Z; g_vaddr : Z; g_filesz : Z; g_memsz : Z; g_align : Z }.
Definition segment_of (m : Z -> Z) (a : Z) : segment :=
  mkSegment (value m 4 a) (value m 8 (a + 0x08)) (value m 8 (a + 0x10)) (value m 8 (a + 0x20)) (value m 8 (a + 0x28)) (value m 8 (a + 0x30)).
Lemma segment_local m m' a b : (forall x, 0 <= x < 0x38 -> m' (b + x) = m (a + x)) -> segment_of m' b = segment_of m a.
Proof.
  intros E. unfold segment_of. rewrite <- (Z.add_0_r b) at 1. rewrite <- (Z.add_0_r a) at 1.
  f_equal; apply value_local; intros x Hx; apply E; lia.
Qed.

Definition extent (h : segment) : Z := if g_memsz h >? g_filesz h then g_memsz h else g_filesz h.
Definition room_of (e : Z) (h : segment) : Z :=
  if g_type h =? PT_LOAD then u64 (e + segment_space (g_memsz h) (g_filesz h) (g_align h)) else e.
(** Where the segment is, relative to the first header's address [st]. *)
Definition relative (st : Z) (h : segment) : Z := u64 (g_vaddr h - st).

(** The segment's bytes at [a]: those of the file, and zeros behind them. *)
Definition loaded (a : Z) (h : segment) (m : Z -> Z) : Prop :=
  forall k, 0 <= k < extent h -> m (a + k) = if k <? g_filesz h then file (g_offset h + k) else 0.

(** A segment of whole pages that is in the file and inside [room]. *)
Record segment_fits (st room : Z) (h : segment) : Prop := {
  fits_align : g_align h = 4096;
  fits_sizes : 0 <= g_filesz h /\ 0 <= g_memsz h;
  fits_file : 0 <= g_offset h /\ g_offset h + g_filesz h <= flen;
  fits_room : relative st h + extent h <= room
}.
Definition segments_fit (st room : Z) : list segment -> Prop := Forall (fun h => g_type h = PT_LOAD -> segment_fits st room h).
Definition segments_apart (st : Z) : list segment -> Prop :=
  ForallOrdPairs (fun a b => g_type a = PT_LOAD -> g_type b = PT_LOAD -> apart (relative st a) (extent a) (relative st b) (extent b)).

Lemma wp_load_one h base st room s : buffered s -> segment_fits st room h -> 0 <= base -> base + room + 4096 <= 2 ^ 64 ->
  apart base room file_buffer 4096 -> (forall x, base <= x < base + room -> owned x) ->
  wp ((if g_memsz h >? g_filesz h then memset (u64 (base + relative st h + g_filesz h)) (g_memsz h - g_filesz h) 0 else mret ());;
      load_segment file_buffer (g_offset h) (g_filesz h) (g_align h) (u64 (base + relative st h)))
    (fun _ s' => buffered s' /\ loaded (base + relative st h) h (mem s') /\
      forall x, owned x -> inside file_buffer 4096 x = false -> inside (base + relative st h) (extent h) x = false -> mem s' x = mem s x) s.
Proof using laws buffer_owned.
  intros [Hb Hh] [-> [Hf Hm] [Ho Hof] Hr] Hbase Hroom Hap Hown. unfold apart in Hap. change (2 ^ 64) with 18446744073709551616 in Hroom.
  pose proof (u64_range (g_vaddr h - st)) as Hrel. fold (relative st h) in Hrel. unfold loaded, extent in *.
  assert (g_filesz h <= (if g_memsz h >? g_filesz h then g_memsz h else g_filesz h)) as Hle by (destruct (Z.gtb_spec (g_memsz h) (g_filesz h)); lia).
  rewrite !u64_id by (change (2 ^ 64) with 18446744073709551616 in *; lia). set (a := base + relative st h) in *. rewrite wp_bind.
  apply (wp_mono _ (fun _ s1 => bytes_only (mem s1) /\ forall x, mem s1 x = if inside (a + g_filesz h) (g_memsz h - g_filesz h) x then 0 else mem s x)).
  - destruct (Z.gtb_spec (g_memsz h) (g_filesz h)).
    + eapply wp_mono; [apply wp_memset; lia|]. cbn beta. intros _ s1 (_ & B1 & M1). split; [auto|]. exact M1.
    + apply wp_ret. split; [done|]. intros x. rewrite (proj1 (not_true_iff_false (inside _ _ _))); [done|]. rewrite inside_spec. lia.
  - intros _ s1 [B1 M1]. eapply wp_mono; [apply wp_load_pieces; (done || unfold apart; change (2 ^ 64) with 18446744073709551616; lia)|].
    cbn beta. intros _ s2 [H2 M2]. split; [done|]. split.
    + intros k Hk. rewrite M2 by (apply Hown || apply inside_false; lia). destruct (Z.ltb_spec k (g_filesz h)); [insides; f_equal; lia|].
      insides. rewrite M1. destruct (Z.gtb_spec (g_memsz h) (g_filesz h)); [by insides|lia].
    + intros x Ho' Hx1 Hx2. rewrite M2, M1 by done. assert (inside a (g_filesz h) x = false) as ->.
      { apply not_true_iff_false. rewrite inside_spec. intros ?. rewrite inside_true in Hx2 by lia. done. }
      rewrite (proj1 (not_true_iff_false (inside (a + _) _ x))); [done|]. rewrite inside_spec. intros ?.
      destruct (Z.gtb_spec (g_memsz h) (g_filesz h)); [|lia]. rewrite inside_true in Hx2 by lia. done.
Qed.

(** The segments of a part of the table, one after the other: what was loaded stays. *)
Definition all_loaded (base st : Z) (hs : list segment) (m : Z -> Z) : Prop :=
  Forall (fun h => g_type h = PT_LOAD -> loaded (base + relative st h) h m) hs.

Lemma loaded_same a h m m' : (forall x, a <= x < a + extent h -> m' x = m x) -> loaded a h m -> loaded a h m'.
Proof. intros E H k Hk. rewrite E by lia. by apply H. Qed.

Lemma buffered_segment o s : buffered s -> 0 <= o -> o + 0x38 <= Z.min 4096 flen -> segment_of (mem s) (file_buffer + o) = segment_of file o.
Proof. intros [_ Hh] Ho Hl. apply segment_local. intros x Hx. rewrite <- Z.add_assoc, Hh by lia. done. Qed.

Section Allocate.
Context (base st room esz : Z).
Context (Hbase : 0 <= base) (Hroom : base + room + 4096 <= 2 ^ 64) (Hap : apart base room file_buffer 4096) (Hesz : 0 <= esz).
Context (Hown : forall x, base <= x < base + room -> owned x).

(** Addresses that neither the buffer nor a segment covers. *)
Definition outside (hs : list segment) (x : Z) : Prop :=
  inside file_buffer 4096 x = false /\ Forall (fun h => g_type h = PT_LOAD -> inside (base + relative st h) (extent h) x = false) hs.

Lemma wp_allocate_segment o e s : buffered s -> 0 <= o -> o + 0x38 <= Z.min 4096 flen ->
  let h := segment_of file o in (g_type h = PT_LOAD -> segment_fits st room h) ->
  wp (allocate_segment file_buffer st base esz (file_buffer + o, e)) (fun r s' => r = (file_buffer + (o + esz), room_of e h) /\
    buffered s' /\ (g_type h = PT_LOAD -> loaded (base + relative st h) h (mem s')) /\ forall x, owned x -> outside [h] x -> mem s' x = mem s x) s.
Proof using laws buffer_owned Hbase Hroom Hap Hown.
  intros Hb Ho Hl h Hh. pose proof (buffered_segment o s Hb Ho Hl) as Eh. fold h in Eh. unfold allocate_segment.
  assert (value (mem s) 4 (file_buffer + o) = g_type h) as E1 by (by rewrite <- Eh).
  assert (value (mem s) 8 (file_buffer + o + 0x08) = g_offset h) as E2 by (by rewrite <- Eh).
  assert (value (mem s) 8 (file_buffer + o + 0x10) = g_vaddr h) as E3 by (by rewrite <- Eh).
  assert (value (mem s) 8 (file_buffer + o + 0x20) = g_filesz h) as E4 by (by rewrite <- Eh).
  assert (value (mem s) 8 (file_buffer + o + 0x28) = g_memsz h) as E5 by (by rewrite <- Eh).
  assert (value (mem s) 8 (file_buffer + o + 0x30) = g_align h) as E6 by (by rewrite <- Eh).
  repeat (rewrite wp_bind; apply wp_peek). rewrite E1, E2, E3, E4, E5, E6. clear Eh E1 E2 E3 E4 E5 E6. fold (relative st h).
  unfold room_of. rewrite <- Z.add_assoc. destruct (Z.eqb_spec (g_type h) PT_LOAD) as [Et|Et].
  - pose proof (wp_load_one h base st room s Hb (Hh Et) Hbase Hroom Hap Hown) as Hone. rewrite wp_bind in Hone. rewrite wp_bind.
    eapply wp_mono; [exact Hone|]. cbn beta. intros _ s1 H1. rewrite wp_bind. eapply wp_mono; [exact H1|]. cbn beta.
    intros _ s2 (B2 & L2 & M2). apply wp_ret. split; [done|]. split; [done|]. split; [done|]. intros x Ho' [Hx1 Hx2].
    apply Forall_cons in Hx2 as [Hx2 _]. apply M2; [done|done|by apply Hx2].
  - apply wp_ret. done.
Qed.

Lemma wp_allocate_nat n : forall i o e s, buffered s -> 0 <= o -> o + esz * Z.of_nat n + 0x38 <= Z.min 4096 flen ->
  let hs := table segment_of file o esz (Z.of_nat n) in segments_fit st room hs -> segments_apart st hs ->
  wp (for_nat n i (fun _ => allocate_segment file_buffer st base esz) (file_buffer + o, e))
   (fun r s' => snd r = fold_left room_of hs e /\ buffered s' /\ all_loaded base st hs (mem s') /\
      forall x, owned x -> outside hs x -> mem s' x = mem s x) s.
Proof using laws buffer_owned Hbase Hroom Hap Hesz Hown.
  induction n as [|n IH]; intros i o e s Hb Ho Hl hs Hfit Hapart; cbn [for_nat].
  - apply wp_ret. split; [done|]. split; [done|]. split; [constructor|done].
  - subst hs. rewrite (table_cons _ _ _ _ (Z.of_nat (Datatypes.S n))) in * by lia.
    replace (Z.of_nat (Datatypes.S n) - 1) with (Z.of_nat n) in * by lia. cbn [fold_left].
    set (h := segment_of file o) in *. set (hs := table _ _ _ _ _) in *.
    apply Forall_cons in Hfit as [Hh Hfit]. inversion Hapart as [|? ? Hha Hapart']; subst.
    rewrite wp_bind. eapply wp_mono; [apply wp_allocate_segment; [done|done|nia|exact Hh]|]. cbn beta. fold h. intros r s1 (-> & B1 & L1 & M1).
    eapply wp_mono; [apply IH; (done || lia)|]. cbn beta. fold hs. intros r s2 (E2 & B2 & L2 & M2).
    split; [done|]. split; [done|]. split; [constructor; [|done]|].
    + intros Et. eapply loaded_same; [|by apply L1]. intros x Hx. destruct (Hh Et) as [_ _ _ Hr].
      pose proof (u64_range (g_vaddr h - st)) as Hrel. fold (relative st h) in Hrel. apply M2; [apply Hown; lia|]. split.
      * apply inside_false. unfold apart in Hap. lia.
      * eapply Forall_impl; [exact Hha|]. cbn beta. intros h' Ha Et'. specialize (Ha Et Et'). apply inside_false. unfold apart in Ha. lia.
    + intros x Ho' [Hx1 Hx2]. apply Forall_cons in Hx2 as [Hx2 Hx3]. rewrite M2 by done. apply M1; [done|]. split; [done|by constructor].
Qed.
End Allocate.

(** *** The loader *)

Definition elf_phoff : Z := value file 8 0x20.
Definition elf_phentsize : Z := value file 2 0x36.
Definition elf_phnum : Z := value file 2 0x38.
Definition elf_segments : list segment := table segment_of file elf_phoff elf_phentsize elf_phnum.
(** The address that the file gives its first header. *)
Definition elf_start : Z := value file 8 (elf_phoff + 0x10).
(** The room that the loader plans for the segments. *)
Definition elf_room : Z := fold_left room_of elf_segments 0.

(** An ELF file with its headers in the first 4096 bytes, whose segments keep apart and fit into [room]
    bytes from where the first header's segment is. *)
Record elf_ok (room : Z) : Prop := {
  elf_magic : file 0 = 0x7f /\ file 1 = 69 /\ file 2 = 76 /\ file 3 = 70;
  elf_head : 0x40 <= flen /\ elf_phoff + elf_phentsize * elf_phnum + 0x38 <= Z.min 4096 flen;
  elf_fits : segments_fit elf_start room elf_segments;
  elf_apart : segments_apart elf_start elf_segments
}.

Lemma file_bytes : bytes_only file.
Proof. intros x. apply (file_range _ _ _ _ laws). Qed.
Lemma elf_bounds : 0 <= elf_phoff /\ 0 <= elf_phentsize /\ 0 <= elf_phnum.
Proof.
  pose proof (value_bounds 8 0x20 _ file_bytes). pose proof (value_bounds 2 0x36 _ file_bytes). pose proof (value_bounds 2 0x38 _ file_bytes).
  unfold elf_phoff, elf_phentsize, elf_phnum. lia.
Qed.

Lemma buffered_value n o s : buffered s -> 0 <= o -> o + Z.of_nat n <= Z.min 4096 flen -> value (mem s) n (file_buffer + o) = value file n o.
Proof. intros [_ Hh] Ho Hl. apply value_moved. intros x Hx. apply Hh. lia. Qed.

Lemma wp_elf_loader base room s : elf_ok room -> buffered s -> 0 <= base -> base + room + 4096 <= 2 ^ 64 -> apart base room file_buffer 4096 ->
  (forall x, base <= x < base + room -> owned x) ->
  wp (elf_loader file_buffer file_buffer base) (fun ad s' =>
    ad_entry ad = u64 (u64 (value file 8 0x18 - elf_start) + base) /\ ad_start ad = base /\ ad_end ad = fold_left room_of elf_segments base /\
    buffered s' /\ all_loaded base elf_start elf_segments (mem s') /\
    forall x, owned x -> outside base elf_start elf_segments x -> mem s' x = mem s x) s.
Proof using laws buffer_owned.
  intros [(G0 & G1 & G2 & G3) [Hl Hh] Hfit Hap] Hb Hbase Hroom Hab Hown. destruct elf_bounds as (P1 & P2 & P3).
  assert (0 <= elf_phentsize * elf_phnum) as P4 by (by apply Z.mul_nonneg_nonneg).
  pose proof (buffer_head s Hb) as Hd. unfold elf_loader. rewrite wp_bind. apply wp_gets.
  rewrite <- (Z.add_0_r file_buffer) at 1. rewrite !Hd by lia. rewrite G0, G1, G2, G3. cbv [Z.eqb Pos.eqb andb].
  rewrite wp_bind; apply wp_peek; rewrite buffered_value by (done || lia). rewrite wp_bind; apply wp_peek; rewrite buffered_value by (done || lia).
  change (value file 8 32) with elf_phoff. rewrite <- Z.add_assoc.
  rewrite wp_bind; apply wp_peek; rewrite buffered_value by (done || lia). change (value file 8 (elf_phoff + 0x10)) with elf_start.
  rewrite wp_bind; apply wp_peek; rewrite buffered_value by (done || lia). rewrite wp_bind; apply wp_peek; rewrite buffered_value by (done || lia).
  change (value file 2 54) with elf_phentsize. change (value file 2 56) with elf_phnum.
  rewrite wp_bind. unfold elf_allocator. cbn [file_base e_entry e_phentsize e_phnum]. rewrite wp_bind; apply wp_peek. rewrite <- Z.add_assoc, buffered_value by (done || lia).
  change (value file 8 (elf_phoff + 0x10)) with elf_start.
  rewrite wp_bind. unfold for_. eapply wp_mono.
  - apply (wp_allocate_nat base elf_start room elf_phentsize Hbase Hroom Hab P2 Hown); [done|done| |rewrite Z2Nat.id by done; done|rewrite Z2Nat.id by done; done].
    rewrite Z2Nat.id by done. lia.
  - cbn beta. rewrite Z2Nat.id by done. fold elf_segments. intros [r1 r2] s1 (E1 & B1 & L1 & M1). apply wp_ret, wp_ret. done.
Qed.

Lemma wp_count_nat esz n s : buffered s -> 0 <= esz -> forall i o e, 0 <= o -> o + esz * Z.of_nat n + 0x38 <= Z.min 4096 flen ->
  wp (for_nat n i (fun _ => count_segment esz) (file_buffer + o, e))
    (fun r s' => snd r = fold_left room_of (table segment_of file o esz (Z.of_nat n)) e /\ s' = s) s.
Proof.
  intros Hb Hsz. induction n as [|n IH]; intros i o e Ho Hh; cbn [for_nat]; [by apply wp_ret|].
  rewrite (table_cons _ _ _ _ (Z.of_nat (Datatypes.S n))) by lia. replace (Z.of_nat (Datatypes.S n) - 1) with (Z.of_nat n) by lia. cbn [fold_left].
  pose proof (buffered_segment o s Hb Ho ltac:(nia)) as Eh. unfold count_segment at 1. rewrite wp_bind. repeat (rewrite wp_bind; apply wp_peek). apply wp_ret.
  rewrite <- Z.add_assoc. replace (if value (mem s) 4 (file_buffer + o) =? PT_LOAD then _ else e) with (room_of e (segment_of file o)) by (by rewrite <- Eh).
  apply IH; lia.
Qed.
Lemma wp_find_end room s : elf_ok room -> buffered s -> wp (find_end file_buffer 0) (fun r s' => r = elf_room /\ s' = s) s.
Proof.
  intros [_ [Hl Hh] _ _] Hb. destruct elf_bounds as (P1 & P2 & P3). assert (0 <= elf_phentsize * elf_phnum) as P4 by (by apply Z.mul_nonneg_nonneg).
  unfold find_end. do 3 (rewrite wp_bind; apply wp_peek; rewrite buffered_value by (done || lia)).
  change (value file 8 32) with elf_phoff. change (value file 2 54) with elf_phentsize. change (value file 2 56) with elf_phnum.
  rewrite wp_bind. unfold for_. eapply wp_mono; [apply wp_count_nat; [done|done|done|rewrite Z2Nat.id by done; lia]|]. cbn beta.
  rewrite Z2Nat.id by done. intros [a r] s' [E ->]. apply wp_ret. done.
Qed.
End File.

(** *** The property *)

Definition is_elf (file : Z -> Z) : bool := (file 0 =? 0x7f) && (file 1 =? 69) && (file 2 =? 76) && (file 3 =? 70).
Lemma wp_elf_refused {F} `{!Uefi F} file flen file_buffer base (s : efi_state F) : is_elf file = false -> 4 <= flen ->
  buffered file flen file_buffer s -> wp (elf_loader file_buffer file_buffer base) (fun ad s' => ad = mkAloc 0 0 0 /\ s' = s) s.
Proof.
  intros He Hl [_ Hd]. unfold elf_loader. rewrite wp_bind. apply wp_gets. rewrite <- (Z.add_0_r file_buffer) at 1. rewrite !Hd by lia.
  fold (is_elf file). rewrite He. by apply wp_ret.
Qed.

(** C16: the loader of the kernel's file. The first bytes of the file are in the buffer, and the firmware's
    file calls read the file and leave alone the memory that is the loader's ([owned]): the buffer and the
    [room] bytes at [base]. Then an ELF file with its headers in the buffer, whose segments have the
    alignment 4096, are in the file, keep apart and fit into the room, is loaded: every segment has its
    bytes from the file at its place behind [base], and zeros behind these up to its size in memory; the
    buffer holds the file's first bytes again; the entry point is the file's, moved to where the image is;
    the end is behind the sum of the segments' pages; and no other byte of the loader's memory changes. A
    file that is not ELF is answered with zeros, and nothing is touched. *)
Theorem elf_loader_correct {F} `{!Uefi F} (position : F -> Z) (file : Z -> Z) (flen : Z) (owned : Z -> Prop)
    (file_buffer base room : Z) (s : efi_state F) :
  file_laws position file flen owned -> (forall x, file_buffer <= x < file_buffer + 4096 \/ base <= x < base + room -> owned x) ->
  0 <= base -> base + room + 4096 <= 2 ^ 64 -> apart base room file_buffer 4096 -> buffered file flen file_buffer s ->
  (elf_ok file flen room -> exists ad s', elf_loader file_buffer file_buffer base s = Done ad s' /\
    ad = mkAloc (u64 (u64 (value file 8 0x18 - elf_start file) + base)) (fold_left room_of (elf_segments file) base) base /\
    all_loaded file base (elf_start file) (elf_segments file) (mem s') /\ buffered file flen file_buffer s' /\
    forall x, owned x -> outside file_buffer base (elf_start file) (elf_segments file) x -> mem s' x = mem s x) /\
  (is_elf file = false -> 4 <= flen -> elf_loader file_buffer file_buffer base s = Done (mkAloc 0 0 0) s).
Proof.
  intros laws Hown Hb Hroom Hap Hbuf. split.
  - intros Hok. destruct (wp_inv _ _ _ (wp_elf_loader position file flen owned laws file_buffer ltac:(auto) base room s Hok Hbuf Hb Hroom Hap ltac:(auto)))
      as (ad & s' & E & E1 & E2 & E3 & H1 & H2 & H3). exists ad, s'. split; [exact E|]. split; [|done].
    destruct ad. cbn in *. by subst.
  - intros He Hl. by destruct (wp_inv _ _ _ (wp_elf_refused file flen file_buffer base s He Hl Hbuf)) as (ad & s' & E & -> & ->).
Qed.

(** A firmware whose state is the file's position, and a kernel of one segment. *)
Definition sample_file (o : Z) : Z :=
  if o =? 0 then 0x7f else if o =? 1 then 69 else if o =? 2 then 76 else if o =? 3 then 70
  else if o =? 0x1A then 0x10 else if o =? 0x20 then 0x40 else if o =? 0x36 then 0x38 else if o =? 0x38 then 1
  else if o =? 0x40 then 1 else if o =? 0x49 then 0x10 else if o =? 0x52 then 0x10
  else if o =? 0x61 then 0x18 else if o =? 0x69 then 0x20 else if o =? 0x71 then 0x10
  else if o <? 0x1000 then 0 else o mod 251.
Definition sample_map : list EFI_MEMORY_DESCRIPTOR := [mkDesc 7 0 0 0x9F 0; mkDesc 7 0x100000 0 0x700 0].
Definition store_sample (a : Z) (d : EFI_MEMORY_DESCRIPTOR) (m : Z -> Z) : Z -> Z :=
  put_value 8 (a + 32) (Attribute d) (put_value 8 (a + 24) (NumberOfPages d) (put_value 8 (a + 16) (VirtualStart d)
    (put_value 8 (a + 8) (PhysicalStart d) (put_value 4 a (Type_ d) m)))).
Definition sample_mode : mode_information := mkMode 1024 768 1024.

#[export] Instance sample_uefi : Uefi Z := {
  DevicePath := mret 0xA5000;
  GetMemoryMap n buf := if n =? 0 then mret (mkAnswer EFI_BUFFER_TOO_SMALL 96 0 48)
    else modify (set_mem (fun m => store_sample (buf + 48) (mkDesc 7 0x100000 0 0x700 0) (store_sample buf (mkDesc 7 0 0 0x9F 0) m)));;
         mret (mkAnswer EFI_SUCCESS 96 1 48);
  AllocatePool n := mret (EFI_SUCCESS, 0xA1000);
  MaxMode := mret 1;
  QueryMode i := mret sample_mode;
  SetMode i := mret ();
  FrameBufferBase := mret 0xE0000000;
  PixelFormat := mret 1;
  OpenKernel := modify (fun s => mkEfi (efi_mem s) (size s) 0);
  Read n buf := fun s =>
    let p := firmware s in let k := Z.min n (0x2800 - p) in
    Done k (mkEfi (fun x => if inside buf k x then sample_file (p + (x - buf)) else efi_mem s x) (size s) (p + k));
  SetPosition p := modify (fun s => mkEfi (efi_mem s) (size s) p);
  ConfigurationTable := mret [(20, 0x7FE1234)];
  ExitBootServices key := mret EFI_SUCCESS
}.
Lemma sample_range o : 0 <= sample_file o < 256.
Proof. unfold sample_file. repeat match goal with |- context [if ?b then _ else _] => destruct b; [lia|] end. divlia. Qed.
Lemma sample_on_disk owned : file_laws (fun p => p) sample_file 0x2800 owned.
Proof.
  split; [apply sample_range|done|done|]. intros n buf s Hn Hp _. unfold wp. cbn [Read sample_uefi]. change (mem s) with (efi_mem s).
  set (k := Z.min n (0x2800 - firmware s)). do 3 (split; [done|]). cbn. split; [|split].
  - intros Hb x. cbn. destruct (inside buf k x); [apply sample_range|apply Hb].
  - intros i Hi. rewrite inside_true by lia. f_equal. lia.
  - intros x _ Hx. apply inside_outside in Hx. by rewrite inside_false by lia.
Qed.

Example sample_segments : elf_segments sample_file = [mkSegment 1 0x1000 0x100000 0x1800 0x2000 0x1000] /\ elf_room sample_file = 0x2000.
Proof. split; vm_compute; reflexivity. Qed.
Lemma sample_elf_ok : elf_ok sample_file 0x2800 0x2000.
Proof.
  destruct sample_segments as [Es _]. split.
  - vm_compute. repeat split.
  - vm_compute. split; discriminate.
  - rewrite Es. assert (elf_start sample_file = 0x100000) as -> by (vm_compute; reflexivity). apply Forall_singleton. intros _. split; [reflexivity|split; discriminate|split; discriminate|].
    vm_compute. discriminate.
  - rewrite Es. repeat constructor.
Qed.

(** Its first bytes are in the buffer, at 640 KiB. *)
Definition sample_ready : efi_state Z := mkEfi (fun x => if inside 0xA0000 4096 x then sample_file (x - 0xA0000) else 0xCC) 4096 0x1000.

Lemma elf_loader_correct_witness :
  exists ad s', elf_loader 0xA0000 0xA0000 0x100000 sample_ready = Done ad s' /\ ad = mkAloc 0x100000 0x102000 0x100000 /\
    all_loaded sample_file 0x100000 0x100000 [mkSegment 1 0x1000 0x100000 0x1800 0x2000 0x1000] (mem s') /\
    buffered sample_file 0x2800 0xA0000 s' /\
    forall x, outside 0xA0000 0x100000 0x100000 [mkSegment 1 0x1000 0x100000 0x1800 0x2000 0x1000] x -> mem s' x = mem sample_ready x.
Proof.
  destruct (elf_loader_correct (fun p => p) sample_file 0x2800 (fun _ => True) 0xA0000 0x100000 0x2000 sample_ready) as [H _].
  - apply sample_on_disk.
  - done.
  - done.
  - done.
  - unfold apart. lia.
  - split; [intros x; cbn; destruct (inside _ _ x); [apply sample_range|lia]|].
    intros o Ho. cbn in *. rewrite inside_true by lia. f_equal. lia.
  - destruct (H sample_elf_ok) as (ad & s' & E & E1 & E2 & E3 & E4). destruct sample_segments as [Es _]. rewrite Es in *.
    exists ad, s'. split; [exact E|]. split; [rewrite E1; vm_compute; reflexivity|]. split; [exact E2|]. split; [exact E3|].
    intros x Hx. by apply E4.
Defined.
