(* ===== verification/EfiBoot.v ===== *)
(** * The EFI loader: the hand-over

    What the loader finds in the memory map and the device path, where it places the kernel and the
    information for it, and, for a firmware that keeps more than UEFI asks for ([firmware_laws]), that all of
    it is there when the kernel is entered. *)
From S2P Require Import KPrelude MemHelpers BootMem EfiLoader EfiLoad.

(** ** The device path *)

Definition node_size (m : Z -> Z) (a : Z) : Z := m (a + 2) ||| (m (a + 3) <<< 8).
Definition end_node (m : Z -> Z) (a : Z) : bool := (m a =? 0x7F) && (m (a + 1) =? 0xFF).
(** Nodes from [a] on, [n] bytes up to and with the end node. *)
Inductive device_path (m : Z -> Z) : Z -> Z -> Prop :=
| path_ends a : end_node m a = true -> 4 <= node_size m a -> device_path m a (node_size m a)
| path_goes_on a n : end_node m a = false -> 4 <= node_size m a -> device_path m (a + node_size m a) n ->
    device_path m a (node_size m a + n).

Lemma device_path_pos m a n : device_path m a n -> 4 <= n.
Proof. induction 1; lia. Qed.
Lemma device_path_same m m' a n : (forall x, a <= x < a + n -> m' x = m x) -> device_path m a n -> device_path m' a n.
Proof.
  intros E H. revert E. induction H as [a He Hn|a n He Hn Hp IH]; intros E.
  - assert (node_size m' a = node_size m a) as En by (unfold node_size; rewrite !E by lia; done).
    rewrite <- En. constructor; [unfold end_node in *; by rewrite !E by lia|by rewrite En].
  - pose proof (device_path_pos _ _ _ Hp). assert (node_size m' a = node_size m a) as En by (unfold node_size; rewrite !E by lia; done).
    rewrite <- En. apply path_goes_on; [unfold end_node in *; by rewrite !E by lia|by rewrite En|rewrite En; apply IH; intros; apply E; lia].
Qed.

(** ** The memory map *)

(** The descriptors [l] at [a], [ds] bytes each. *)
Definition map_at (m : Z -> Z) (a ds : Z) (l : list EFI_MEMORY_DESCRIPTOR) : Prop :=
  forall i d, l !! i = Some d -> descriptor_at m (a + Z.of_nat i * ds) = d.
(** Whole frames inside the physical address space. *)
Definition map_sane (l : list EFI_MEMORY_DESCRIPTOR) : Prop :=
  Forall (fun d => PhysicalStart d mod 4096 = 0 /\ 0 <= PhysicalStart d /\ 0 <= NumberOfPages d /\
                   PhysicalStart d + NumberOfPages d * 4096 <= 2 ^ 52) l.

Lemma entry_inside i n ds x : (i < n)%nat -> 40 <= ds -> 0 <= x < 40 -> 0 <= Z.of_nat i * ds + x < ds * Z.of_nat n.
Proof. nia. Qed.
Lemma one_entry {A} (x : A) l ds : x ∈ l -> 0 <= ds -> ds <= ds * Z.of_nat (length l).
Proof. intros Hx. destruct l; [by apply elem_of_nil in Hx|cbn [length]; nia]. Qed.
Lemma map_at_same m m' a ds l : 40 <= ds -> (forall x, a <= x < a + ds * Z.of_nat (length l) -> m' x = m x) -> map_at m a ds l -> map_at m' a ds l.
Proof.
  intros Hds E H i d Hd. rewrite <- (H i d Hd). pose proof (lookup_lt_Some _ _ _ Hd) as Hi.
  unfold descriptor_at. f_equal; apply value_ext; intros x Hx; apply E; nia.
Qed.

Definition max_end (l : list EFI_MEMORY_DESCRIPTOR) : Z :=
  fold_left (fun h d => Z.max h (PhysicalStart d + NumberOfPages d * 4096)) l 0.
Lemma max_end_from l : forall h, let r := fold_left (fun h d => Z.max h (PhysicalStart d + NumberOfPages d * 4096)) l h in
  h <= r /\ Forall (fun d => PhysicalStart d + NumberOfPages d * 4096 <= r) l /\
  (map_sane l -> h <= 2 ^ 52 -> r <= 2 ^ 52).
Proof.
  induction l as [|d l IH]; intros h; cbn [fold_left]; [split; [done|]; by split|].
  destruct (IH (Z.max h (PhysicalStart d + NumberOfPages d * 4096))) as (I1 & I2 & I3). cbv zeta. split; [lia|]. split; [constructor; [lia|done]|].
  intros Hm Hh. apply Forall_cons in Hm as [(_ & _ & _ & ?) Hm]. apply I3; [done|lia].
Qed.
Lemma max_end_ok l : 0 <= max_end l /\ Forall (fun d => PhysicalStart d + NumberOfPages d * 4096 <= max_end l) l /\ (map_sane l -> max_end l <= 2 ^ 52).
Proof. destruct (max_end_from l 0) as (H1 & H2 & H3). split; [done|]. split; [done|]. intros H. by apply H3. Qed.

(** The bytes of the bitmap: a bit for each frame of the map. *)
Definition efi_bitmap (l : list EFI_MEMORY_DESCRIPTOR) : Z := ((max_end l + 4095) / 4096 + 7) / 8.
Lemma efi_bitmap_covers l : map_sane l -> Forall (fun d => PhysicalStart d / 4096 + NumberOfPages d <= 8 * efi_bitmap l) l.
Proof.
  intros Hm. destruct (max_end_ok l) as (_ & H & _). unfold map_sane in Hm. rewrite Forall_forall in *. intros d Hd. specialize (H d Hd).
  destruct (Hm d Hd) as (H1 & H2 & H3 & _). unfold efi_bitmap. divlia.
Qed.

(** The first region of free memory above 1 MiB that is large enough. *)
Definition region_fits (pages : Z) (d : EFI_MEMORY_DESCRIPTOR) : bool :=
  (Type_ d =? EfiConventionalMemory) && (0x100000 <=? PhysicalStart d) && (pages <=? NumberOfPages d).

Section Memory.
Context {F : Type} `{!Uefi F}.
Implicit Types s : efi_state F.

Lemma wp_find_path_size path n s : bytes_only (mem s) -> 0 <= path -> path + n < 2 ^ 64 -> device_path (mem s) path n ->
  wp (find_path_size path) (fun r s' => r = n /\ s' = s) s.
Proof.
  intros Hb Hp Hn Hd. unfold find_path_size. change (2 ^ 64) with 18446744073709551616 in *.
  apply (wp_while _ (fun '(a, acc) s' => s' = s /\ 0 <= acc /\ a = path + acc /\ device_path (mem s) a (n - acc)) (fun '(_, acc) _ => n - acc)).
  - intros [a acc] s' (-> & Ha & -> & Hpath). pose proof (device_path_pos _ _ _ Hpath) as Hpos.
    repeat (rewrite wp_bind; apply wp_peek). cbn [value]. rewrite !Z.mul_0_r, !Z.add_0_r. fold (node_size (mem s) (path + acc)).
    change ((mem s (path + acc) =? 0x7F) && (mem s (path + acc + 1) =? 0xFF)) with (end_node (mem s) (path + acc)).
    inversion Hpath as [a He Hns Ea En|a k He Hns Hk Ea En]; subst a; change (efi_mem s) with (mem s) in *.
    + rewrite He. apply wp_ret. split; [|done]. rewrite u64_id; [lia|]. change (2 ^ 64) with 18446744073709551616. lia.
    + rewrite He. pose proof (device_path_pos _ _ _ Hk). apply wp_ret. rewrite !u64_id by (change (2 ^ 64) with 18446744073709551616; lia).
      split; [|lia]. split; [done|]. split; [lia|]. split; [lia|]. replace (n - (acc + node_size (mem s) (path + acc))) with k by lia. done.
  - split; [done|]. split; [done|]. rewrite Z.add_0_r, Z.sub_0_r. done.
  - pose proof (device_path_pos _ _ _ Hd). unfold FUEL. lia.
Qed.

Lemma wp_find_highest_end a ds l s : map_at (mem s) a ds l -> map_sane l ->
  wp (find_highest_end a (Z.of_nat (length l)) ds) (fun r s' => r = max_end l /\ s' = s) s.
Proof.
  intros Hat Hm. unfold find_highest_end. eapply wp_mono.
  - apply (wp_for (fun i h s' => s' = s /\ h = max_end (take (Z.to_nat i) l))); [lia|done|].
    intros i h s' Hi [-> ->]. destruct (lookup_lt_is_Some_2 l (Z.to_nat i)) as [d Ed]; [lia|].
    pose proof (Hat _ _ Ed) as Hd. rewrite Z2Nat.id in Hd by lia. rewrite wp_bind. apply wp_peek. rewrite wp_bind. apply wp_peek. apply wp_ret. split; [done|].
    change (value (mem s) 8 (a + i * ds + 8)) with (PhysicalStart (descriptor_at (mem s) (a + i * ds))).
    change (value (mem s) 8 (a + i * ds + 24)) with (NumberOfPages (descriptor_at (mem s) (a + i * ds))). rewrite Hd.
    replace (Z.to_nat (i + 1)) with (Datatypes.S (Z.to_nat i)) by lia. rewrite (take_S_r _ _ _ Ed). unfold max_end at 3. rewrite fold_left_app. cbn [fold_left].
    fold (max_end (take (Z.to_nat i) l)). destruct (Forall_lookup_1 _ _ _ _ Hm Ed) as (_ & H1 & H2 & H3). change (2 ^ 52) with 4503599627370496 in H3.
    rewrite !u64_id by (try rewrite u64_id; change (2 ^ 64) with 18446744073709551616; lia).
    destruct (Z.gtb_spec (PhysicalStart d + NumberOfPages d * 4096) (max_end (take (Z.to_nat i) l))); lia.
  - cbn beta. intros r s' [-> ->]. split; [|done]. by rewrite Z.add_0_l, Nat2Z.id, firstn_all.
Qed.

Lemma wp_FindFreeRegion a ds l pages s : map_at (mem s) a ds l -> 0 < ds -> Z.of_nat (length l) < 2 ^ 64 ->
  wp (FindFreeRegion a (ds * Z.of_nat (length l)) ds pages) (fun r s' => s' = s /\
    r = match List.find (region_fits pages) l with Some d => PhysicalStart d | None => 1 end) s.
Proof.
  intros Hat Hds Hl. unfold FindFreeRegion. rewrite (proj2 (Z.eqb_neq ds 0)) by lia. rewrite Z.mul_comm, Z.div_mul by lia.
  apply (wp_while _ (fun i s' => s' = s /\ 0 <= i <= Z.of_nat (length l) /\ List.find (region_fits pages) l = List.find (region_fits pages) (drop (Z.to_nat i) l))
    (fun i _ => Z.of_nat (length l) - i)).
  - intros i s' (-> & Hi & Ef). destruct (Z.ltb_spec i (Z.of_nat (length l))).
    2: { apply wp_ret. split; [done|]. rewrite Ef, drop_ge by lia. done. }
    destruct (lookup_lt_is_Some_2 l (Z.to_nat i)) as [d Ed]; [lia|]. pose proof (Hat _ _ Ed) as Hd. rewrite Z2Nat.id in Hd by lia.
    rewrite (drop_S _ _ _ Ed) in Ef. cbn [List.find] in Ef. unfold region_fits at 2 in Ef.
    rewrite wp_bind. apply wp_peek. rewrite wp_bind. apply wp_peek.
    change (value (mem s) 4 (a + i * ds)) with (Type_ (descriptor_at (mem s) (a + i * ds))).
    change (value (mem s) 8 (a + i * ds + 8)) with (PhysicalStart (descriptor_at (mem s) (a + i * ds))). rewrite Hd.
    replace (Datatypes.S (Z.to_nat i)) with (Z.to_nat (i + 1)) in Ef by lia.
    destruct (Z.eqb_spec (Type_ d) EfiConventionalMemory) as [Et|]; cbn [negb orb andb] in *; [|apply wp_ret; split; [|lia]; by split; [|split; [lia|]]].
    destruct (Z.ltb_spec (PhysicalStart d) 0x100000).
    { rewrite (proj2 (Z.leb_gt _ _)) in Ef by lia. cbn [andb] in Ef. apply wp_ret. split; [|lia]. by split; [|split; [lia|]]. }
    rewrite (proj2 (Z.leb_le _ _)) in Ef by lia. cbn [andb] in Ef. rewrite wp_bind. apply wp_peek.
    change (value (mem s) 8 (a + i * ds + 24)) with (NumberOfPages (descriptor_at (mem s) (a + i * ds))). rewrite Hd.
    destruct (Z.geb_spec (NumberOfPages d) pages), (Z.leb_spec pages (NumberOfPages d)); try lia; apply wp_ret; [by rewrite Ef|].
    split; [|lia]. by split; [|split; [lia|]].
  - split; [done|]. split; [lia|]. done.
  - change (2 ^ 64) with 18446744073709551616 in Hl. unfold FUEL. lia.
Qed.
End Memory.

(** ** The firmware *)

(** What the firmware answers: the sizes and places of what it stores, its modes and tables. *)
Record firmware_facts := mkFacts {
  fw_path : Z;
  fw_pool : Z;
  fw_pool_size : Z;
  fw_descriptor_size : Z;
  fw_map : list EFI_MEMORY_DESCRIPTOR;
  fw_max_mode : Z;
  fw_mode : Z -> mode_information;
  fw_frame_buffer : Z;
  fw_format : Z;
  fw_tables : list (Z * Z)
}.

(** A call that leaves the loader's memory alone. *)
Definition quiet {F A} (m : M (efi_state F) A) (answer : A -> Prop) : Prop :=
  forall s, wp m (fun r s' => answer r /\ mem s' = mem s /\ size s' = size s) s.

(** What [efi_main_enters] assumes of the firmware. The map is the one behind the allocation
    of the pool and has room there; every later one has room there as well; [patience] bounds how often
    [ExitBootServices] refuses. *)
Record firmware_laws {F} `{!Uefi F} (position : F -> Z) (patience : F -> Z) (w : firmware_facts) : Prop := {
  path_law : quiet DevicePath (fun r => r = fw_path w);
  first_map_law : quiet (GetMemoryMap 0 0) (fun a => ma_status a = EFI_BUFFER_TOO_SMALL /\
    u64 (ma_size a + 2 * ma_descriptor_size a) = fw_pool_size w);
  pool_law s : wp (AllocatePool (fw_pool_size w)) (fun r s' => r = (EFI_SUCCESS, fw_pool w) /\ mem s' = mem s /\ size s' = size s /\
    wp (GetMemoryMap (fw_pool_size w) (fw_pool w)) (fun a s'' =>
      a = mkAnswer EFI_SUCCESS (fw_descriptor_size w * Z.of_nat (length (fw_map w))) (ma_key a) (fw_descriptor_size w) /\
      size s'' = size s /\ (bytes_only (mem s) -> bytes_only (mem s'')) /\ within (fw_pool w) (fw_pool w + fw_pool_size w) (mem s) (mem s'') /\
      map_at (mem s'') (fw_pool w) (fw_descriptor_size w) (fw_map w)) s') s;
  map_law n s : 0 <= n <= fw_pool_size w -> wp (GetMemoryMap n (fw_pool w)) (fun a s' => 0 <= ma_size a <= fw_pool_size w /\
    within (fw_pool w) (fw_pool w + fw_pool_size w) (mem s) (mem s') /\ patience (firmware s') <= patience (firmware s)) s;
  max_mode_law : quiet MaxMode (fun r => r = fw_max_mode w);
  query_law i : quiet (QueryMode i) (fun r => r = fw_mode w i);
  set_mode_law i : quiet (SetMode i) (fun _ => True);
  frame_buffer_law : quiet FrameBufferBase (fun r => r = fw_frame_buffer w);
  format_law : quiet PixelFormat (fun r => r = fw_format w);
  tables_law : quiet ConfigurationTable (fun r => r = fw_tables w);
  open_law s : wp OpenKernel (fun _ s' => mem s' = mem s /\ size s' = size s /\ position (firmware s') = 0) s;
  patience_range x : 0 <= patience x < 2 ^ 63;
  exit_law key s : wp (ExitBootServices key) (fun r s' => mem s' = mem s /\
    (r = EFI_SUCCESS \/ patience (firmware s') < patience (firmware s))) s
}.

Definition pixels (info : mode_information) : Z := HorizontalResolution info * VerticalResolution info.

Section Firmware.
Context {F : Type} `{!Uefi F} (position patience : F -> Z) (w : firmware_facts) (laws : firmware_laws position patience w).
Implicit Types s : efi_state F.

Lemma wp_quiet {A B} (m : M (efi_state F) A) answer (f : A -> M (efi_state F) B) (Q : B -> efi_state F -> Prop) s : quiet m answer ->
  (forall r s', answer r -> mem s' = mem s -> size s' = size s -> wp (f r) Q s') -> wp (m ≫= f) Q s.
Proof. intros Hq HQ. rewrite wp_bind. eapply wp_mono; [apply Hq|]. cbn beta. intros r s' (H1 & H2 & H3). by apply HQ. Qed.

(** The first of the modes with the most pixels. *)
Lemma wp_choose_mode s : 0 < fw_max_mode w -> (forall i, 0 <= i < fw_max_mode w -> 0 < pixels (fw_mode w i) < 2 ^ 31) ->
  wp choose_mode (fun r s' => mem s' = mem s /\ size s' = size s /\ 0 <= r < fw_max_mode w /\
    forall i, 0 <= i < fw_max_mode w -> pixels (fw_mode w i) <= pixels (fw_mode w r)) s.
Proof.
  intros Hn Hp. unfold choose_mode. apply (wp_quiet _ _ _ _ _ (max_mode_law _ _ _ laws)). intros n s1 -> M1 Z1.
  change (2 ^ 31) with 2147483648 in Hp. rewrite wp_bind. eapply wp_mono.
  - apply (wp_for (fun i '(r, best) s' => mem s' = mem s /\ size s' = size s /\ 0 <= r /\ (i = 0 /\ best = 0 \/ 0 < i /\ r < i /\ best = pixels (fw_mode w r)) /\
      forall k, 0 <= k < i -> pixels (fw_mode w k) <= best)); [lia| |].
    + do 2 (split; [done|]). split; [lia|]. split; [by left|lia].
    + intros i [r best] s2 Hi (M2 & Z2 & Hr & Hb & Hk). apply (wp_quiet _ _ _ _ _ (query_law _ _ _ laws i)). intros info s3 -> M3 Z3.
      specialize (Hp i ltac:(lia)). change (HorizontalResolution (fw_mode w i) * VerticalResolution (fw_mode w i)) with (pixels (fw_mode w i)).
      rewrite u32_id, i32_id by (change (2 ^ 32) with 4294967296; change (2 ^ 31) with 2147483648; lia). apply wp_ret.
      destruct (Z.gtb_spec (pixels (fw_mode w i)) best); (split; [congruence|]; split; [congruence|]; split; [lia|]; split; [right; lia|];
        intros k Hk'; destruct (Z.eq_dec k i) as [->|]; [lia|]; specialize (Hk k); lia).
  - cbn beta. intros [r best] s2 (M2 & Z2 & Hr & Hb & Hk). apply wp_ret. split; [done|]. split; [done|].
    destruct Hb as [[? _]|(_ & Hlt & ->)]; [lia|]. split; [lia|]. intros i Hi. apply Hk. lia.
Qed.

Lemma wp_exit_services n s : 0 <= n <= fw_pool_size w -> wp (exit_services (fw_pool w) n) (fun _ s' =>
  within (fw_pool w) (fw_pool w + fw_pool_size w) (mem s) (mem s')) s.
Proof.
  intros Hn. unfold exit_services.
  apply (wp_while _ (fun n s' => 0 <= n <= fw_pool_size w /\ within (fw_pool w) (fw_pool w + fw_pool_size w) (mem s) (mem s'))
    (fun _ s' => patience (firmware s'))).
  - intros k s1 [Hk W1]. rewrite wp_bind. eapply wp_mono; [by apply (map_law _ _ _ laws)|]. cbn beta. intros a s2 (Ha & W2 & P2).
    rewrite wp_bind. eapply wp_mono; [apply (exit_law _ _ _ laws)|]. cbn beta. intros r s3 [M3 H3].
    assert (within (fw_pool w) (fw_pool w + fw_pool_size w) (mem s) (mem s3)) as W3 by (intros x Hx; by rewrite M3, W2, W1).
    destruct (Z.eqb_spec r EFI_SUCCESS); apply wp_ret; [done|]. pose proof (patience_range _ _ _ laws (firmware s3)).
    destruct H3 as [?|?]; [done|]. split; [done|]. lia.
  - split; [done|]. done.
  - pose proof (patience_range _ _ _ laws (firmware s)) as Hp. change (2 ^ 63) with 9223372036854775808 in Hp. unfold FUEL. lia.
Qed.
End Firmware.

(** ** The information for the kernel *)

Lemma u64_value x : u64 x mod 256 ^ Z.of_nat 8 = u64 x.
Proof. apply Z.mod_small, u64_range. Qed.

Lemma wp_store_infos {F} `{!Uefi F} p format fb mmpsz mpc bitmap rsdp ps final ad (s : efi_state F) : 0 <= p ->
  wp (store_info32 (p + 72) format ps final;; store_info64 p (p + 72) fb mmpsz mpc bitmap rsdp ps ad) (fun _ s' => stored p (p + 96) s s' /\
    info64 (mem s') p = [u64 (ad_entry ad); u64 (ad_start ad); u64 (p + 96 + ps); u64 fb; u64 mmpsz; u64 mpc; u64 bitmap; u64 rsdp; u64 (p + 96)] /\
    info32 (mem s') (p + 72) = [if format =? PixelRedGreenBlueReserved8BitPerColor then 1 else 0; u32 (HorizontalResolution final);
      u32 (VerticalResolution final); u32 (PixelsPerScanLine final); u32 (96 + ps); u32 ps]) s.
Proof.
  intros Hp. unfold store_info32, store_info64, buf_sz, buf_sz64. assert (stored p (p + 96) s s) as S by apply stored_refl. rewrite wp_bind.
  repeat first [rewrite wp_bind; eapply (wp_store_value _ _ _ p (p + 96) s); [eassumption|lia|lia|]; clear S; intros ? S ?
               |eapply (wp_store_value _ _ _ p (p + 96) s); [eassumption|lia|lia|]; clear S; intros ? S ?].
  split; [done|]. repeat match goal with H : mem ?x = put_value _ _ _ (mem ?y) |- _ => rewrite H; clear H end. clear.
  replace (p + 72 + 24 + ps) with (p + 96 + ps) by lia. replace (p + 72 + 24) with (p + 96) by lia. replace (24 + 72 + ps) with (96 + ps) by lia.
  split.
  - unfold info64. repeat apply (f_equal2 cons); [..|done]; found; done.
  - unfold info32. repeat apply (f_equal2 cons); [..|done]; found; try done. by destruct (_ =? _).
Qed.

(** ** The loader *)

Section Boot.
Context {F : Type} `{!Uefi F} (position patience : F -> Z) (file : Z -> Z) (flen : Z) (w : firmware_facts).
Context (on_disk : file_laws position file flen (fun _ => True)) (laws : firmware_laws position patience w).
Context (file_buffer Acpi20TableGuid Acpi10TableGuid : Z).
Implicit Types s : efi_state F.
Abbreviation l := (fw_map w).
Abbreviation ds := (fw_descriptor_size w).
Abbreviation room := (elf_room file).

Definition efi_pages (ps : Z) : Z := needed_pages room (efi_bitmap l) (ds * Z.of_nat (length l)) ps.
(** From the kernel's first byte to the end of the device path. *)
Definition efi_need (ps : Z) : Z := room + 0x41000 + page_up (efi_bitmap l) + ds * Z.of_nat (length l) + 96 + ps.
Definition efi_rsdp : Z :=
  match table_of Acpi20TableGuid (fw_tables w) with Some t => t | None => default 0 (table_of Acpi10TableGuid (fw_tables w)) end.

(** What the loader starts with: the firmware's data and its own buffer lie apart from each other and from
    free memory; a mode, a device path and a kernel that make sense; a region that is large enough. *)
Record boot_setting (ps : Z) (d : EFI_MEMORY_DESCRIPTOR) (s : efi_state F) : Prop := {
  set_bytes : bytes_only (mem s);
  set_buffer : size s = 4096;
  set_descriptors : 40 <= ds /\ ds * Z.of_nat (length l) <= fw_pool_size w < 2 ^ 32;
  set_map : map_sane l;
  set_path : 0 <= fw_path w /\ fw_path w + ps < 2 ^ 64 /\ ps < 2 ^ 31 /\ device_path (mem s) (fw_path w) ps;
  set_apart : apart (fw_pool w) (fw_pool_size w) file_buffer 4096 /\ apart (fw_path w) ps file_buffer 4096 /\
    apart (fw_path w) ps (fw_pool w) (fw_pool_size w);
  set_free : forall d, d ∈ l -> Type_ d = EfiConventionalMemory -> let n := NumberOfPages d * 4096 in
    apart (PhysicalStart d) n file_buffer 4096 /\ apart (PhysicalStart d) n (fw_pool w) (fw_pool_size w) /\ apart (PhysicalStart d) n (fw_path w) ps;
  set_kernel : elf_ok file flen room /\ room < 2 ^ 48;
  set_modes : 0 < fw_max_mode w /\ forall i, 0 <= i < fw_max_mode w -> 0 < pixels (fw_mode w i) < 2 ^ 31;
  set_region : List.find (region_fits (efi_pages ps)) l = Some d
}.

(** What the kernel finds when it is entered at [entry], with the information at [b64] and [b64 + 72], its
    stack up to [stack] and the memory map at [MMP]. *)
Record kernel_entered (ps : Z) (addr entry b64 stack MMP : Z) (m m' : Z -> Z) : Prop := {
  entered_at : entry = u64 (u64 (value file 8 0x18 - elf_start file) + addr);
  entered_stack : stack = addr + room + 0x41000;
  entered_map_at : MMP = stack + page_up (efi_bitmap l) /\ b64 = MMP + ds * Z.of_nat (length l);
  entered_image : all_loaded file addr (elf_start file) (elf_segments file) m';
  entered_map : map_at m' MMP ds l;
  entered_path : forall i, 0 <= i < ps -> m' (b64 + 96 + i) = m (fw_path w + i);
  entered_info64 : info64 m' b64 = [entry; addr; b64 + 96 + ps; u64 (fw_frame_buffer w); ds * Z.of_nat (length l); ds; efi_bitmap l;
                                    u64 efi_rsdp; b64 + 96];
  entered_info32 : exists best, 0 <= best < fw_max_mode w /\ (forall i, 0 <= i < fw_max_mode w -> pixels (fw_mode w i) <= pixels (fw_mode w best)) /\
    info32 m' (b64 + 72) = [if fw_format w =? PixelRedGreenBlueReserved8BitPerColor then 1 else 0; u32 (HorizontalResolution (fw_mode w best));
      u32 (VerticalResolution (fw_mode w best)); u32 (PixelsPerScanLine (fw_mode w best)); 96 + ps; ps];
  entered_frame : forall x, inside file_buffer 4096 x = false -> inside (fw_pool w) (fw_pool_size w) x = false ->
    inside addr (efi_need ps) x = false -> m' x = m x
}.

Lemma room_aligned : elf_ok file flen room -> room mod 4096 = 0 /\ 0 <= room.
Proof.
  intros [_ _ Hfit _]. unfold elf_room in *. set (st := elf_start file) in *. revert Hfit. generalize (fold_left room_of (elf_segments file) 0) at 1. intros r Hfit.
  assert (forall e, e mod 4096 = 0 /\ 0 <= e -> fold_left room_of (elf_segments file) e mod 4096 = 0 /\ 0 <= fold_left room_of (elf_segments file) e) as H; [|by apply H].
  revert Hfit. generalize (elf_segments file). intros hs. induction hs as [|h hs IH]; intros Hfit e He; cbn [fold_left]; [done|].
  apply Forall_cons in Hfit as [Hh Hfit]. apply IH; [done|]. unfold room_of. destruct (Z.eqb_spec (g_type h) PT_LOAD) as [Et|]; [|done].
  destruct (Hh Et) as [Ha _ _ _]. unfold segment_space, aligned_size. rewrite Ha. cbn [Z.eqb Pos.eqb orb].
  change (u64 (Z.lnot (u64 (4096 - 1)))) with ((2 ^ 52 - 1) <<< 12). rewrite (drop_low 52); [|done|apply u64_range].
  set (k := u64 _ / 4096). split; [|apply u64_range]. unfold u64. change (2 ^ 64) with 18446744073709551616. divlia.
Qed.

Lemma efi_pages_enough ps : elf_ok file flen room -> room < 2 ^ 48 -> map_sane l -> 0 <= ps < 2 ^ 32 -> 0 <= ds * Z.of_nat (length l) < 2 ^ 32 ->
  efi_need ps <= 4096 * efi_pages ps /\ 0 <= efi_bitmap l <= 2 ^ 38.
Proof.
  intros Hok Hr Hm Hp Hs. destruct (room_aligned Hok) as [Ha H0]. destruct (max_end_ok l) as (E0 & _ & E1). specialize (E1 Hm).
  unfold efi_need, efi_pages, needed_pages, efi_bitmap, page_up, buf_sz, buf_sz64. set (e := max_end l) in *. set (ms := ds * _) in *. set (r := room) in *. clearbody e ms r.
  change (2 ^ 48) with 281474976710656 in *. change (2 ^ 32) with 4294967296 in *. change (2 ^ 52) with 4503599627370496 in *. change (2 ^ 38) with 274877906944.
  assert (0 <= ((e + 4095) / 4096 + 7) / 8 <= 274877906944) as Hb by divlia. set (b := ((e + 4095) / 4096 + 7) / 8) in *. clearbody b.
  rewrite (u64_id (b + 4095)), (u64_id (ms + 24 + 72 + ps + 4095)) by (change (2 ^ 64) with 18446744073709551616; lia).
  rewrite Z.shiftr_div_pow2 by lia. change (2 ^ 12) with 4096. rewrite u64_id by (change (2 ^ 64) with 18446744073709551616; divlia). split; [divlia|lia].
Qed.

Lemma region_found ps d s : boot_setting ps d s -> d ∈ l /\ Type_ d = EfiConventionalMemory /\ 0x100000 <= PhysicalStart d /\
  efi_need ps <= NumberOfPages d * 4096 /\ PhysicalStart d + NumberOfPages d * 4096 <= 2 ^ 52.
Proof.
  intros [_ _ [Hds Hms] Hm (Hp1 & _ & Hp2 & Hpath) _ _ [Hok Hr] _ Hreg]. apply List.find_some in Hreg as [Hin Hf]. apply list_elem_of_In in Hin.
  unfold region_fits in Hf. rewrite !andb_true_iff, Z.eqb_eq, !Z.leb_le in Hf. destruct Hf as [[H1 H2] H3].
  pose proof (proj1 (Forall_forall _ _) Hm d Hin) as (_ & _ & _ & H4). pose proof (device_path_pos _ _ _ Hpath).
  change (2 ^ 31) with 2147483648 in Hp2. destruct (efi_pages_enough ps Hok Hr Hm) as [H5 _]; [change (2 ^ 32) with 4294967296; lia|lia|]. split; [done|]. split; [done|]. split; [done|]. split; [lia|done].
Qed.

(** The kernel's file is opened and its first bytes are in the buffer. *)
Lemma wp_open_kernel s : bytes_only (mem s) -> size s = 4096 ->
  wp (OpenKernel;; read_buffer file_buffer) (fun _ s' => buffered file flen file_buffer s' /\
    forall x, inside file_buffer 4096 x = false -> mem s' x = mem s x) s.
Proof.
  intros Hb Hs. pose proof (file_length _ _ _ _ on_disk) as Hl. rewrite wp_bind. eapply wp_mono; [apply (open_law _ _ _ laws)|]. cbn beta.
  intros _ s1 (M1 & Z1 & P1). eapply wp_mono; [apply (wp_read_buffer position file flen _ on_disk); [done|lia|lia|by rewrite M1]|].
  cbn beta zeta. rewrite Z1, Hs, P1, Z.sub_0_r. intros _ s2 (_ & _ & B2 & R2 & M2). split; [split; [done|exact R2]|].
  intros x Hx. by rewrite M2, M1.
Qed.

(** A copy into the region keeps what is outside of it. *)
Lemma wp_copy dst src n lo hi s : 0 <= n -> apart dst n src n -> lo <= dst -> dst + n <= hi -> apart lo (hi - lo) file_buffer 4096 ->
  buffered file flen file_buffer s ->
  wp (memcpy dst src n) (fun _ s' => buffered file flen file_buffer s' /\ (forall i, 0 <= i < n -> mem s' (dst + i) = mem s (src + i)) /\
    (forall x, inside dst n x = false -> mem s' x = mem s x)) s.
Proof.
  intros Hn Hap Hlo Hhi Hbuf [Hb Hh]. unfold apart in *. eapply wp_mono; [apply wp_memcpy; (done || lia)|]. cbn beta. intros _ s1 (_ & B1 & M1).
  fold (inside dst n) in M1. split; [split; [done|]|split].
  - intros o Ho. rewrite M1. fold (inside dst n (file_buffer + o)). rewrite inside_false by lia. by apply Hh.
  - intros i Hi. rewrite M1. fold (inside dst n (dst + i)). rewrite inside_true by lia. f_equal. lia.
  - intros x Hx. rewrite M1. fold (inside dst n x). by rewrite Hx.
Qed.

Lemma outside_room addr x : elf_ok file flen room -> x < addr \/ addr + room <= x -> inside file_buffer 4096 x = false ->
  outside file_buffer addr (elf_start file) (elf_segments file) x.
Proof.
  intros Hok Hx Hb. split; [done|]. apply Forall_forall. intros h Hh Et.
  destruct (proj1 (Forall_forall _ _) (elf_fits _ _ _ Hok) h Hh Et) as [_ _ _ Hr]. pose proof (u64_range (g_vaddr h - elf_start file)) as Hrel.
  fold (relative (elf_start file) h) in Hrel. apply inside_false. lia.
Qed.

(** The part that stores into the region: the copies, the kernel, the information. *)
Lemma wp_fill_region ps d best s0 s : boot_setting ps d s0 -> buffered file flen file_buffer s ->
  (forall x, inside file_buffer 4096 x = false -> inside (fw_pool w) (fw_pool_size w) x = false -> mem s x = mem s0 x) ->
  map_at (mem s) (fw_pool w) ds l ->
  0 <= best < fw_max_mode w -> (forall i, 0 <= i < fw_max_mode w -> pixels (fw_mode w i) <= pixels (fw_mode w best)) ->
  let addr := PhysicalStart d in let MMP := addr + room + 0x41000 + page_up (efi_bitmap l) in
  let ms := ds * Z.of_nat (length l) in let b64 := MMP + ms in
  let entry := u64 (u64 (value file 8 0x18 - elf_start file) + addr) in
  wp (memcpy MMP (fw_pool w) ms;;
      memcpy (b64 + 96) (fw_path w) ps;;
      ad ← elf_loader file_buffer file_buffer addr;
      SetMode best;;
      fb ← FrameBufferBase;
      format ← PixelFormat;
      store_info32 (b64 + 72) format ps (fw_mode w best);;
      store_info64 b64 (b64 + 72) fb ms ds (efi_bitmap l) (efi_rsdp) ps ad;;
      exit_services (fw_pool w) ms;;
      mret (Entered (ad_entry ad) b64 (b64 + 72) (addr + room + 0x41000) MMP))
    (fun r s' => r = Entered entry b64 (b64 + 72) (addr + room + 0x41000) MMP /\
      kernel_entered ps addr entry b64 (addr + room + 0x41000) MMP (mem s0) (mem s')) s.
Proof.
  intros Hset Hb Hs Hmap Hbest Hmax addr MMP ms b64 entry.
  pose proof (region_found _ _ _ Hset) as (Hin & Hconv & Hlo & Hneed & Htop). pose proof Hset as [_ _ [Hds Hms] Hm (Hp1 & Hp2 & Hp3 & Hpath) (A1 & A2 & A3) Hfree [Hok Hr] _ _].
  destruct (room_aligned Hok) as [_ Hr0]. pose proof (device_path_pos _ _ _ Hpath) as Hps. change (2 ^ 31) with 2147483648 in Hp3. destruct (efi_pages_enough ps Hok Hr Hm) as [_ Hbit]; [change (2 ^ 32) with 4294967296; lia|lia|].
  destruct (Hfree d Hin Hconv) as (F1 & F2 & F3). cbv zeta in F1, F2, F3. fold addr in F1, F2, F3, Hlo, Htop. pose proof (page_up_ge (efi_bitmap l)) as [Hpg _].
  unfold efi_need in Hneed. fold ms in Hms, Hneed. set (bm := page_up (efi_bitmap l)) in *. set (r := room) in *. set (n := NumberOfPages d * 4096) in *.
  change (2 ^ 52) with 4503599627370496 in Htop. change (2 ^ 32) with 4294967296 in *. change (2 ^ 38) with 274877906944 in Hbit.
  assert (0 <= ms) as Hms0 by (subst ms; lia). unfold apart in *.
  rewrite wp_bind. eapply wp_mono; [apply (wp_copy MMP (fw_pool w) ms addr (addr + n)); (done || unfold apart; lia)|]. cbn beta. intros _ s1 (B1 & C1 & M1).
  rewrite wp_bind. eapply wp_mono; [apply (wp_copy (b64 + 96) (fw_path w) ps addr (addr + n)); (done || unfold apart; lia)|]. cbn beta. intros _ s2 (B2 & C2 & M2).
  rewrite wp_bind. eapply wp_mono; [apply (wp_elf_loader position file flen _ on_disk file_buffer ltac:(done) addr room); [done|done|lia|change (2 ^ 64) with 18446744073709551616; fold r; lia|unfold apart; fold r; lia|done]|].
  cbn beta. fold r. intros ad s3 (E1 & E2 & _ & B3 & L3 & M3).
  apply (wp_quiet _ _ _ _ _ (set_mode_law _ _ _ laws best)). intros _ s4 _ M4 _.
  apply (wp_quiet _ _ _ _ _ (frame_buffer_law _ _ _ laws)). intros fb s5 -> M5 _.
  apply (wp_quiet _ _ _ _ _ (format_law _ _ _ laws)). intros fmt s6 -> M6 _.
  pose proof (wp_store_infos b64 (fw_format w) (fw_frame_buffer w) ms ds (efi_bitmap l) efi_rsdp ps (fw_mode w best) ad s6 ltac:(lia)) as Hst.
  rewrite wp_bind in Hst. rewrite wp_bind. eapply wp_mono; [exact Hst|]. cbn beta. clear Hst. intros _ s7 Hst.
  rewrite wp_bind. eapply wp_mono; [exact Hst|]. cbn beta. clear Hst. intros _ s8 ((_ & _ & W8) & I64 & I32).
  rewrite wp_bind. eapply wp_mono; [apply (wp_exit_services position patience w laws); lia|]. cbn beta. intros _ s9 W9. apply wp_ret. rewrite E1. split; [done|].
  assert (forall x, x < addr \/ addr + r <= x -> inside file_buffer 4096 x = false -> mem s3 x = mem s2 x) as M23 by (intros; apply M3; [done|by apply outside_room]).
  assert (forall x, addr <= x < addr + n -> inside file_buffer 4096 x = false) as Hbuf by (intros; apply inside_false; lia).
  assert (forall x, x < b64 \/ b64 + 96 <= x -> inside (fw_pool w) (fw_pool_size w) x = false -> mem s9 x = mem s3 x) as M39.
  { intros x Hx1 Hx2. rewrite W9 by (apply inside_outside; done). rewrite W8 by done. by rewrite M6, M5, M4. }
  assert (forall x, addr <= x < addr + n -> inside (fw_pool w) (fw_pool_size w) x = false) as Hpool by (intros; apply inside_false; lia).
  assert (forall k a, addr <= a -> a + Z.of_nat k <= addr + n -> value (mem s9) k a = value (mem s8) k a) as V89.
  { intros k a Ha Hk. apply value_ext. intros x Hx. apply W9, inside_outside. apply Hpool. lia. }
  split.
  - done.
  - done.
  - done.
  - apply Forall_forall. intros h Hh Et. pose proof (proj1 (Forall_forall _ _) L3 h Hh Et) as Hl. eapply loaded_same; [|exact Hl].
    destruct (proj1 (Forall_forall _ _) (elf_fits _ _ _ Hok) h Hh Et) as [_ _ _ Hrm]. fold r in Hrm. pose proof (u64_range (g_vaddr h - elf_start file)) as Hrel.
    fold (relative (elf_start file) h) in Hrel. intros x Hx. apply M39; [lia|apply Hpool; lia].
  - intros i e He. rewrite <- (Hmap i e He). pose proof (lookup_lt_Some _ _ _ He) as Hi. apply descriptor_local. intros x Hx.
    assert (0 <= Z.of_nat i * ds + x < ms) as Hk by (by apply entry_inside). rewrite <- !Z.add_assoc. set (k := Z.of_nat i * ds + x) in *.
    rewrite M39, M23, M2, C1 by (done || lia || (apply Hpool; lia) || (apply Hbuf; lia) || (apply inside_false; lia)). done.
  - intros i Hi. rewrite M39, M23, C2, M1, Hs by (done || lia || (apply Hpool; lia) || (apply Hbuf; lia) || (apply inside_false; lia)). done.
  - assert (info64 (mem s9) b64 = info64 (mem s8) b64) as -> by (unfold info64; repeat apply (f_equal2 cons); [..|done]; apply V89; cbn; lia). rewrite I64, E1, E2. fold entry.
    assert (ds <= ms) as Hdm by (apply (one_entry d); [done|lia]).
    rewrite (u64_id entry) by apply u64_range. rewrite (u64_id addr), (u64_id (b64 + 96 + ps)), (u64_id ms), (u64_id ds), (u64_id (efi_bitmap l)), (u64_id (b64 + 96))
      by (change (2 ^ 64) with 18446744073709551616; lia). done.
  - exists best. split; [done|]. split; [done|]. 
    assert (info32 (mem s9) (b64 + 72) = info32 (mem s8) (b64 + 72)) as -> by (unfold info32; repeat apply (f_equal2 cons); [..|done]; apply V89; cbn; lia). rewrite I32.
    rewrite (u32_id (96 + ps)), (u32_id ps) by (change (2 ^ 32) with 4294967296; lia). done.
  - intros x Hx1 Hx2 Hx3. unfold efi_need in Hx3. fold r bm ms in Hx3. apply inside_outside in Hx3.
    rewrite M39, M23, M2, M1, Hs by (done || lia || (apply inside_false; lia)). done.
Qed.

Lemma wp_boot_kernel ps d s0 s : boot_setting ps d s0 -> bytes_only (mem s) -> size s = 4096 ->
  within (fw_pool w) (fw_pool w + fw_pool_size w) (mem s0) (mem s) -> map_at (mem s) (fw_pool w) ds l ->
  let addr := PhysicalStart d in
  wp (boot_kernel file_buffer Acpi20TableGuid Acpi10TableGuid (fw_path w) (fw_pool w) (ds * Z.of_nat (length l)) ds (efi_bitmap l))
    (fun r s' => exists entry b64 stack MMP, r = Entered entry b64 (b64 + 72) stack MMP /\
      kernel_entered ps addr entry b64 stack MMP (mem s0) (mem s')) s.
Proof.
  intros Hset Hb Hsz W0 Hmap addr. pose proof (region_found _ _ _ Hset) as (Hin & Hconv & Hlo & Hneed & Htop).
  pose proof Hset as [_ _ [Hds Hms] Hm (Hp1 & Hp2 & Hp3 & Hpath) (A1 & A2 & A3) Hfree [Hok Hr] [Hmodes Hpix] Hreg].
  pose proof (device_path_pos _ _ _ Hpath) as Hps. destruct (room_aligned Hok) as [_ Hr0]. unfold apart in A1, A2, A3.
  change (2 ^ 31) with 2147483648 in Hp3. change (2 ^ 32) with 4294967296 in Hms. change (2 ^ 52) with 4503599627370496 in Htop.
  unfold boot_kernel. rewrite wp_bind. eapply wp_mono; [by apply (wp_choose_mode position patience w laws)|]. cbn beta. intros best s1 (M1 & Z1 & Hbest & Hmax).
  apply (wp_quiet _ _ _ _ _ (query_law _ _ _ laws best)). intros info s2 -> M2 Z2.
  pose proof (wp_open_kernel s2 ltac:(by rewrite M2, M1) ltac:(by rewrite Z2, Z1)) as Hopen. rewrite wp_bind in Hopen. rewrite wp_bind.
  eapply wp_mono; [exact Hopen|]. cbn beta. clear Hopen. intros _ s3 Hopen. rewrite wp_bind. eapply wp_mono; [exact Hopen|]. cbn beta. clear Hopen. intros _ s4 [B4 M4].
  rewrite M2, M1 in M4. clear s1 s2 s3 M1 Z1 M2 Z2.
  assert (forall x, inside file_buffer 4096 x = false -> inside (fw_pool w) (fw_pool_size w) x = false -> mem s4 x = mem s0 x) as M0.
  { intros x Hx1 Hx2. rewrite M4 by done. apply W0. by apply inside_outside. }
  rewrite wp_bind. eapply wp_mono; [apply (wp_find_path_size (fw_path w) ps); [apply B4|done|done|]|].
  { eapply device_path_same; [|exact Hpath]. intros x Hx. apply M0; apply inside_false; lia. }
  cbn beta. intros r s4' (-> & ->). unfold find_rsdp. rewrite wp_bind. apply (wp_quiet _ _ _ _ _ (tables_law _ _ _ laws)). intros tables s5 -> M5 _. apply wp_ret.
  fold efi_rsdp. assert (buffered file flen file_buffer s5) as B5 by (destruct B4 as [? Hh]; split; rewrite M5; [done|exact Hh]).
  rewrite wp_bind. eapply wp_mono; [by apply (wp_find_end position file flen _ on_disk file_buffer room)|]. cbn beta. intros r s5' [-> ->].
  assert (map_at (mem s5) (fw_pool w) ds l) as Hmap5.
  { rewrite M5. eapply map_at_same; [exact Hds| |exact Hmap]. intros x Hx. apply M4. apply inside_false. lia. }
  rewrite wp_bind. eapply wp_mono; [apply (wp_FindFreeRegion _ _ l); [done|lia|]|].
  { pose proof (one_entry d l 1 Hin ltac:(lia)). change (2 ^ 64) with 18446744073709551616. nia. }
  cbn beta. fold (efi_pages ps). rewrite Hreg. fold addr. intros r s5' [-> ->].
  destruct (efi_pages_enough ps Hok Hr Hm) as [_ Hbit]; [change (2 ^ 32) with 4294967296; lia|change (2 ^ 32) with 4294967296; lia|].
  change (2 ^ 38) with 274877906944 in Hbit. unfold efi_need in Hneed. fold addr in Hlo, Htop. pose proof (page_up_ge (efi_bitmap l)) as [Hpg _].
  change (u64 (Z.lnot 4095)) with (u64 (Z.lnot 0xfff)). rewrite (u64_id (efi_bitmap l + 4095)), page_up_mask64 by (change (2 ^ 64) with 18446744073709551616; lia).
  unfold buf_sz64, buf_sz. rewrite (u64_id (addr + room + 0x41000)) by (change (2 ^ 64) with 18446744073709551616; lia).
  rewrite (u64_id (_ + page_up (efi_bitmap l))) by (change (2 ^ 64) with 18446744073709551616; lia).
  rewrite (u64_id (_ + ds * Z.of_nat (length l))) by (change (2 ^ 64) with 18446744073709551616; lia).
  rewrite (u64_id (_ + 72)) by (change (2 ^ 64) with 18446744073709551616; lia). rewrite (u64_id (_ + 72 + 24)) by (change (2 ^ 64) with 18446744073709551616; lia).
  rewrite <- (Z.add_assoc _ 72 24). change (72 + 24) with 96.
  eapply wp_mono; [by apply (wp_fill_region ps d best s0 s5 Hset B5); [intros; rewrite M5; by apply M0|..]|]. cbn beta.
  intros r s6 [-> Hent]. do 4 eexists. split; [reflexivity|]. exact Hent.
Qed.
End Boot.

(** The whole loader under [firmware_laws], which ask for more than UEFI promises: the firmware's calls leave
    free memory alone, and every later memory map fits the pool of the first. Then the calls, however often the
    last one refuses, end with the jump to the entry point that the file gives, moved to where the kernel is. All
    of it is inside one region of free memory above 1 MiB: every segment with its bytes and zeros behind
    them, the stack, the bitmap with a bit for each frame, the copies of the memory map and the device
    path, the information with the largest screen mode. Apart from the loader's buffer and the pool of
    the memory map no other byte changes. The code does not make sure of these laws: it never allocates the
    region, and never looks at the pool's size again. *)
Lemma efi_main_enters {F} `{!Uefi F} (position patience : F -> Z) (file : Z -> Z) (flen : Z) (w : firmware_facts)
    (file_buffer Acpi20TableGuid Acpi10TableGuid ps : Z) (d : EFI_MEMORY_DESCRIPTOR) (s : efi_state F) :
  file_laws position file flen (fun _ => True) -> firmware_laws position patience w -> boot_setting file flen w file_buffer ps d s ->
  exists entry b64 stack MMP s',
    efi_main file_buffer Acpi20TableGuid Acpi10TableGuid s = Done (Entered entry b64 (b64 + 72) stack MMP) s' /\
    kernel_entered file w file_buffer Acpi20TableGuid Acpi10TableGuid ps (PhysicalStart d) entry b64 stack MMP (mem s) (mem s') /\
    d ∈ fw_map w /\ Type_ d = EfiConventionalMemory /\ 0x100000 <= PhysicalStart d /\ efi_need file w ps <= NumberOfPages d * 4096 /\
    Forall (fun d => PhysicalStart d / 4096 + NumberOfPages d <= 8 * efi_bitmap (fw_map w)) (fw_map w).
Proof.
  intros on_disk laws Hset. pose proof (region_found _ _ _ _ _ _ _ Hset) as (Hin & Hconv & Hlo & Hneed & _).
  pose proof (set_map _ _ _ _ _ _ _ Hset) as Hm. pose proof (set_descriptors _ _ _ _ _ _ _ Hset) as [Hds Hms].
  enough (wp (efi_main file_buffer Acpi20TableGuid Acpi10TableGuid) (fun r s' => exists entry b64 stack MMP,
    r = Entered entry b64 (b64 + 72) stack MMP /\
    kernel_entered file w file_buffer Acpi20TableGuid Acpi10TableGuid ps (PhysicalStart d) entry b64 stack MMP (mem s) (mem s')) s) as Hwp.
  { destruct (wp_inv _ _ _ Hwp) as (r & s' & E & entry & b64 & stack & MMP & -> & H). exists entry, b64, stack, MMP, s'.
    split; [exact E|]. split; [exact H|]. do 4 (split; [done|]). by apply efi_bitmap_covers. }
  unfold efi_main. apply (wp_quiet _ _ _ _ _ (path_law _ _ _ laws)). intros p s1 -> M1 Z1.
  apply (wp_quiet _ _ _ _ _ (first_map_law _ _ _ laws)). intros a s2 [Ha Hsize] M2 Z2. rewrite Ha, Hsize. change (negb _) with false. cbv iota.
  rewrite wp_bind. eapply wp_mono; [apply (pool_law _ _ _ laws)|]. cbn beta. intros r s3 (-> & M3 & Z3 & Hget).
  change (EFI_ERROR EFI_SUCCESS) with false. cbv iota beta. rewrite wp_bind. eapply wp_mono; [exact Hget|]. cbn beta.
  intros a' s4 (-> & Z4 & B4 & W4 & Hmap). cbn [ma_status ma_size ma_descriptor_size ma_key]. rewrite (proj2 (Z.eqb_neq _ 0)) by lia.
  rewrite Z.mul_comm, Z.div_mul by lia. rewrite (Z.mul_comm (Z.of_nat _)). rewrite wp_bind. eapply wp_mono; [by apply wp_find_highest_end|]. cbn beta. intros h s4' [-> ->].
  destruct (max_end_ok (fw_map w)) as (H0 & _ & H1). specialize (H1 Hm). change (2 ^ 52) with 4503599627370496 in H1.
  rewrite (u64_id (_ + 4095)) by (change (2 ^ 64) with 18446744073709551616; lia). rewrite u64_id by (change (2 ^ 64) with 18446744073709551616; divlia).
  fold (efi_bitmap (fw_map w)). change (EFI_ERROR EFI_SUCCESS) with false. cbv iota.
  assert (mem s2 = mem s) as E2 by congruence. rewrite E2 in *.
  eapply (wp_boot_kernel position patience file flen w on_disk laws); [exact Hset| | |exact W4|exact Hmap].
  - apply B4, (set_bytes _ _ _ _ _ _ _ Hset).
  - rewrite Z4, Z2, Z1. apply (set_buffer _ _ _ _ _ _ _ Hset).
Qed.

(** The sample firmware's data: two regions of memory, one screen mode, a device path of its end node. *)
Definition sample_facts : firmware_facts :=
  mkFacts 0xA5000 0xA1000 192 48 sample_map 1 (fun _ => sample_mode) 0xE0000000 1 [(20, 0x7FE1234)].
Definition sample_efi : efi_state Z :=
  mkEfi (fun x => if x =? 0xA5000 then 0x7F else if x =? 0xA5001 then 0xFF else if x =? 0xA5002 then 4 else 0) 4096 0.

Lemma store_sample_ok a d m : descriptor_range d -> descriptor_at (store_sample a d m) a = d /\
  (bytes_only m -> bytes_only (store_sample a d m)) /\ within a (a + 40) m (store_sample a d m).
Proof.
  intros (H1 & H2 & H3 & H4 & H5). unfold store_sample. split; [|split].
  - unfold descriptor_at. destruct d as [t p v n x]. cbn [Type_ PhysicalStart VirtualStart NumberOfPages Attribute] in *.
    f_equal; found; by apply Z.mod_small.
  - intros Hb. by repeat apply bytes_put.
  - intros x Hx. rewrite !put_value_other by (cbn; lia). done.
Qed.
Lemma sample_firmware : firmware_laws (fun p => p) (fun _ => 0) sample_facts.
Proof.
  split; try done.
  - intros s. apply wp_ret. split; [done|]. split; [done|]. split; [done|]. cbn [GetMemoryMap sample_uefi]. change (fw_pool_size sample_facts =? 0) with false. cbv iota.
    apply wp_bind, wp_modify, wp_ret. rewrite !mem_set. change (fw_pool sample_facts) with 0xA1000. change (fw_pool_size sample_facts) with 192.
    change (fw_map sample_facts) with sample_map. change (fw_descriptor_size sample_facts) with 48.
    set (d1 := mkDesc 7 0 0 0x9F 0). set (d2 := mkDesc 7 0x100000 0 0x700 0).
    destruct (store_sample_ok 0xA1000 d1 (mem s)) as (D1 & B1 & W1); [repeat split; cbn; lia|].
    destruct (store_sample_ok (0xA1000 + 48) d2 (store_sample 0xA1000 d1 (mem s))) as (D2 & B2 & W2); [repeat split; cbn; lia|].
    set (m1 := store_sample 0xA1000 d1 (mem s)) in *. set (m2 := store_sample (0xA1000 + 48) d2 m1) in *. clearbody m1 m2.
    split; [done|]. split; [done|]. split; [auto|]. split; [intros x Hx; rewrite W2, W1 by lia; done|].
    intros i d. destruct i as [|[|i]]; intros [= <-]; [|exact D2]. fold d1. rewrite <- D1. apply descriptor_local. intros x Hx. apply W2. lia.
  - intros n s Hn. cbn [GetMemoryMap sample_uefi]. destruct (n =? 0); [apply wp_ret; split; [cbn; lia|]; by split|].
    apply wp_bind, wp_modify, wp_ret. split; [cbn; lia|]. split; [|done]. rewrite mem_set. change (fw_pool sample_facts) with 0xA1000. change (fw_pool_size sample_facts) with 192.
    intros x Hx. unfold store_sample. rewrite !put_value_other by lia. done.
  - intros key s. apply wp_ret. split; [done|]. by left.
Qed.

Lemma efi_main_enters_sample :
  exists entry b64 stack MMP s',
    efi_main 0xA0000 20 10 sample_efi = Done (Entered entry b64 (b64 + 72) stack MMP) s' /\
    kernel_entered sample_file sample_facts 0xA0000 20 10 4 0x100000 entry b64 stack MMP (mem sample_efi) (mem s') /\
    mkDesc 7 0x100000 0 0x700 0 ∈ fw_map sample_facts /\ 7 = EfiConventionalMemory /\ 0x100000 <= 0x100000 /\
    efi_need sample_file sample_facts 4 <= 0x700 * 4096 /\
    Forall (fun d => PhysicalStart d / 4096 + NumberOfPages d <= 8 * efi_bitmap (fw_map sample_facts)) (fw_map sample_facts).
Proof.
  apply (efi_main_enters (fun p => p) (fun _ => 0) sample_file 0x2800 sample_facts 0xA0000 20 10 4 (mkDesc 7 0x100000 0 0x700 0) sample_efi).
  - apply sample_on_disk.
  - apply sample_firmware.
  - split.
    + intros x. cbn. repeat match goal with |- context [if ?b then _ else _] => destruct b; [lia|] end. lia.
    + reflexivity.
    + cbn. lia.
    + repeat constructor; cbn; lia.
    + split; [cbn; lia|]. split; [cbn; lia|]. split; [cbn; lia|]. change 4 with (node_size (mem sample_efi) 0xA5000). apply path_ends; [reflexivity|by vm_compute].
    + unfold apart. cbn. lia.
    + intros d Hd _. unfold apart. cbn in Hd. repeat (apply elem_of_cons in Hd as [->|Hd]; [cbn; lia|]). by apply elem_of_nil in Hd.
    + split; [apply sample_elf_ok|]. by vm_compute.
    + split; [done|]. intros i _. by vm_compute.
    + vm_compute. reflexivity.
Defined.
